(* ===== verification/_CoqProject ===== *)
-Q . S2P
Prelude.v
BitMap.v
OrderedArray.v
Memory.v
Page.v
PageMem.v
PageSpec.v
PageOps.v
PageMap.v
PageCow.v
PageClone.v
PageUser.v
PageRefine.v
PageDemo.v
PageProps.v
KernelMem.v
Strings.v
StringsSpec.v
Allocator.v
Bump.v
LinkedList.v
HashTable.v
HashTableSpec.v
KHeap.v
KHeapSpec.v
KHeapProps.v
Keyboard.v
KeyboardSpec.v
Sched.v
SchedSpec.v
SchedProps.v
SyncProps.v
KeyQueue.v
KeyQueueSpec.v
Disk.v
DiskSpec.v
Image.v
ImageSpec.v
ImageProps.v
Format.v
UserIO.v
UserIOSpec.v
Monitor.v
MonitorSpec.v
Video.v
VideoSpec.v
Elf.v
ElfSpec.v
Switch.v
SwitchSpec.v
Syscall.v
SyscallSpec.v
Tables.v
TablesSpec.v
Containers.v
Process.v
ProcessSpec.v
ProcessExit.v
ProcessDemo.v
ProcessProps.v
Thread.v
ThreadSpec.v
UserStack.v
ThreadProps.v
Spawn.v
SpawnSpec.v
SpawnFork.v
SpawnProps.v
