(* ===== verification/Prelude.v ===== *)
(** * Verification of the os_scroll kernel

    os_scroll is a small 32-bit x86 kernel ([src/src]) with a user library
    ([src/user/src]).  This library models its core in Rocq, function by function,
    and proves that the parts do what the others rely on.

    ** The program and its parts

    - Data structures ([utils/]): bitmaps and id pools, a sorted array, an
      intrusive doubly linked list, a chained hash table.
    - The kernel heap ([mem/kheap.c]): best-fit allocation over blocks with a
      header and a footer; the sorted array indexes the holes.  [kmalloc] and
      [kfree] serve the hash table, the lists, the file system and the drivers.
    - Paging ([mem/page.c]): the frames with their reference counts, the page tables
      seen through the directory's entry to itself, mapping on a fault, copy on write,
      the clone of an address space for a fork and its release ([task/process.c]).
      The heap grows by faults on its pages.
    - Threads ([task/scheduler.c], [sync/], [interrupt/time.c]): a ready queue and
      a dead queue of list nodes, the context switch, the time slice, the spin
      lock that turns preemption off, the condition variable.
    - The keyboard ([driver/keyboard_read.c], [driver/kerboard.c]): the interrupt
      decodes a scancode, queues the event and makes the waiting threads ready;
      readers take events or wait in the scheduler.
    - Disk and files ([driver/hard_disk.c], [fs/ext2_fs.c], [fs/vfs.c]): sectors,
      byte ranges, the name lookup and the read of a file; buffers come from the
      heap, the driver takes the spin lock.
    - The image tools ([src/user/fs/]): programs of the host that make the file
      system and store the user programs in it, for the kernel to read.
    - Strings ([common/stdlib.c] and the user copy in
      [user/src/user_sys/stdlib.c]): memory routines, number formatting, [sprintf].
    - The display and the loader ([monitor/monitor.c], [elf/elf.c], [utils/string.c]): the
      text screen with its [printf], the segments of a program in memory.
    - The switch of stacks and the entry to the kernel ([task/schedule.asm],
      [interrupt/idt.asm], [syscall/syscall_wrapper.asm]): what happens to the registers.
    - Segments and interrupts ([mem/gdt.c], [interrupt/interrupt.c]): the tables that the
      processor reads, the interrupt controllers, the dispatch to registered handlers.
    - System calls ([syscall/syscall_impl.c], [user/src/user_sys/syscall.c]): the function of
      the user library, its stub in assembly, the dispatch in the kernel.
    - Graphics ([driver/video.c]): the two modes of the adapter, colours, pictures.
    - Thread control blocks and stacks ([task/thread.c]): kernel stacks in slots of the
      virtual memory, the first frame of a thread, its copy for a fork.
    - Processes ([task/process.c]): the tree of processes, the wait for a child and the
      exit, on top of the scheduler, the hash tables and the paging.
    - User programs ([user/src/user_sys/user_io.c], [user/src/user_file/shell.c]): the terminal
      library and the shell, over system calls.

    ** Files

    A file [X] holds the data and the operations of a component, [XSpec] and
    [XProps] its specification and proofs, where these are long.

    - [Prelude]: the result type [res] with its notations [let!] and [assert!], counted
      loops, array access, machine-width arithmetic ([u32]), and lemmas and tactics
      on lists and integers.
    - [BitMap]: [bit_map.c], [id_pool.c], [yieldlock.c].  [bitmap_t] keeps the
      array of words as a list; [pool_inv] relates a pool to the set of ids held.
    - [OrderedArray]: [ordered_array.c], with the comparator as an argument.
    - [Memory]: byte-addressed memory and the memory routines of
      [common/stdlib.c].  [Strings], [StringsSpec]: the conversions and [sprintf] of
      both libraries, and the rest of the user copy.
    - [Allocator]: the class of allocators, as laws over the map of the blocks in
      use.  [full] says which requests an allocator has no room for: it panics on
      those and serves the others, and [grants] and [buffers] say it of sequences of
      requests, so the clients' theorems state exactly when they panic.  [KHeapProps]
      discharges the class for the kernel heap, which is full when no hole fits and it
      cannot grow; [Bump] is the simplest instance, over which the clients' theorems are tried.
    - [LinkedList]: [linked_list.c]; nodes in one store from address to node, so
      that lists can share it and nodes move between queues.  [dll] says that the
      store holds a list with the given nodes and payloads.
    - [HashTable], [HashTableSpec]: [hash_table.c], against the allocator class;
      [ht_inv] relates a table to a finite map and to the blocks it owns.
    - [KHeap], [KHeapSpec], [KHeapProps]: [kheap.c].  The headers and footers are
      bytes in memory; [heap_inv] relates the memory, the bounds and the index to
      the list of blocks from the first to the last.
    - [Page]: [page.c] and its callers in [process.c], over a physical memory of bytes,
      [cr3] and a TLB.  [PageMem]: entries in memory, and what a store does to the
      translation.  [PageSpec]: address spaces as finite maps ([space]), their relation
      to the tables in memory ([tables]) and to the counts of the frames ([acct]).
      [PageOps], [PageMap], [PageCow], [PageClone]: the effect of releasing, mapping,
      copying and cloning on the maps and on the bytes of the pages ([vmrel] is the
      invariant).  [PageUser]: accesses of a user program that fault and run again.
      [PageRefine]: the abstract machine of private memories.  [PageDemo]: an instance.
      [PageProps]: the properties.
    - [Keyboard], [KeyboardSpec]: the decoder; its state is the three words of
      [keyboard_read.c], and a result is the word with its bit fields.
    - [Sched], [SchedSpec], [SchedProps], [SyncProps]: scheduler, timer callback,
      spin lock and condition variable.  Thread control blocks, queues and nodes
      are stores; [sched_inv] is the invariant of the data structure, [sched_rel]
      relates a state to the abstract scheduler (queues as sequences of threads,
      and the running thread), whose steps are [sched_spec].
    - [KeyQueue], [KeyQueueSpec]: the ring buffer, the interrupt handler and the
      reads of [kerboard.c], over the scheduler's store.
    - [Disk], [DiskSpec]: [hard_disk.c], [ext2_fs.c], [vfs.c], over memory, an
      allocator and the scheduler.  [layout] and [lookup_file] describe the file
      system on the drive.
    - [Format]: the formatted output that [monitor.c] and [user_io.c] share, over the class [Sink] of
      places for characters.  [UserIO], [UserIOSpec]: [user_io.c] and [shell.c]; what is printed is
      a log of strings, and the keys typed are a list.
    - [Monitor], [MonitorSpec]: [monitor.c]; the video memory is a list of words, the
      specification an endless sheet of which the screen shows the last rows.
    - [Video], [VideoSpec]: [video.c], over the registers and the planes of a VGA adapter.
    - [Elf], [ElfSpec]: [elf.c] and [utils/string.c].
    - [Switch], [SwitchSpec]: the assembly, as lists of instructions run by a machine of
      registers, segments, flags and memory; C functions called in between are arguments.
    - [Syscall], [SyscallSpec]: [syscall_impl.c], over a class of the functions of the kernel, and the
      stubs of [syscall_trigger.asm] on the machine of [Switch].
    - [Tables], [TablesSpec]: [gdt.c], [load_gdt.asm] and [interrupt.c].  The processor's reading of
      the tables and the two interrupt controllers are modelled after their documentation.
    - [Containers]: the class of stores of hash tables and lists that processes use, with
      its laws; [heap_fails] says that the heap refuses a block to a store in order.  [Maps] is the
      instance over finite maps, which never refuses.
    - [Process], [ProcessSpec], [ProcessExit], [ProcessProps]: [process_wait] and
      [process_exit].  Control blocks are a store by address and their tables are in a
      [Containers] store.  [family] is the invariant: the tree of processes against the tables
      ([tree_ok]), the queues of wait nodes against the threads that sleep ([waits_ok]), the
      threads against the tables of threads ([threads_ok]), over [sched_rel].
      [wait_outcome] is what a wait can do.  [ProcessDemo] is an instance.
    - [KernelMem]: [memset], [memcpy] and stores of the kernel at virtual addresses, over
      the paging; [kflat] is the flat memory they see.  [Thread], [ThreadSpec], [UserStack],
      [ThreadProps]: [thread.c].  [threads_inv] is the invariant of the ids, the slots and
      the pages of the kernel stacks; [starts], [starts_user] and [returns_zero] say what the first
      switch to a thread does, by the machine of [Switch].
    - [Spawn], [SpawnSpec], [SpawnFork], [SpawnProps]: control blocks of processes, the table of
      all processes and [process_fork] of [process.c], over all of these.  [kernel_inv] joins
      [threads_inv], [family], the ids of the processes, the blocks of the heap and the address
      spaces; [fork_made], [fork_joined] and [fork_finished] are the three stages of a fork.
    - [Image], [ImageSpec], [ImageProps]: [mkfs.c], [fs_inject.c] and
      [write_disk_image.c].  An image is a file of the host (bytes, length, position);
      [represents] relates it to an abstract file system ([afs]), whose only operation
      is [fs_inject].

    ** What the theorems show

    - Heap: [alloc], [free] and their composition keep the block list well formed,
      give blocks apart from all others and leave their bytes alone; the search is
      best fit, and a request panics exactly when no hole fits and the heap cannot grow;
      the whole implements the allocator class; the limits of the
      address space are stated too.
    - Paging: user programs, forks, releases and switches behave as on a machine where
      each address space has its own memory ([paging_refines]); the exact effect of
      each operation; the counts of the frames are the references in the tables; every operation flushes what it has to, since a stale translation
      that is used is a fault of the model.
    - Scheduler: refinement of the abstract scheduler, no thread lost, round
      robin, no thread runs after its exit, the time slice, and the spin lock with
      interrupts and timer ticks in between.
    - Processes: a wait answers at once, takes a child that has exited, or sleeps in
      the right queue, and an exit hands over the children, wakes exactly the threads
      that wait for it and ends; both keep [family], on every branch, and panic only when the heap refuses a
      block.  A fork adds one process with one
      ready thread and a private copy of the memory, and keeps [kernel_inv]; what it needs
      and cannot get is in its statement.
    - Threads: a new thread starts at its function, in kernel or in user mode, on a stack of its own;
      the copy of a thread returns to the same program with 0; what a thread had is
      free after its release; the stack of a program is the frame of [main(argc, argv)].
    - Assembly: a thread that is switched away from returns from [context_switch] with
      its registers, whatever ran in between; an interrupt is invisible to the program;
      a system call changes [eax] alone, and a fork's child sees the same state with 0.  A function
      of the user library is the call of a function of the kernel with the same arguments.
    - Tables: the kernel's and the programs' segments give exactly the addresses they should, an
      interrupt in user mode finds the thread's kernel stack, and a program reaches no port; a
      device's interrupt runs the registered handler once, with the controllers served.
    - Display and loader: [monitor_printf] types what its format stands for on the
      sheet, and [printf] of the user library prints it; a program that uses the
      graphics gives back the text screen with its font and colours; the segments of a program are in memory, with zeros after their data.
    - Data structures: the bitmap's search against a reference search, the id pool
      against a set of ids, the sorted array against sorted insertion and removal,
      the list against sequences, the hash table against finite maps.
    - The shell: a line is cut into its words, and the command runs with them in a process that the
      shell waits for.
    - Keyboard: the modifier bits over any sequence of scancodes, the decoding of
      letters and of multi-byte sequences, the queue against a bounded sequence,
      the interrupt with the wake-up of the readers, the blocking read.
    - Disk and files: the bytes that arrive are those of the drive, for every
      alignment, and nothing else changes.
    - Image tools: the injection of a file refines the abstract operation, on every
      outcome; and what the tools store, the kernel that boots from the image reads
      back ([image_round_trip]).
    - Strings: the digits read back are the number, and [sprintf] renders its
      format, within its buffers.

    ** How C is modelled

    Numbers are [Z] with the wrap-around of the C type written out where the code
    can reach it.  Pointers are addresses in stores; a null or dangling access is
    [Err Fault], a failed [Assert] or [Panic] is [Err Panic], a lock that is not
    free is [Err Blocked], an exhausted bound is [Err NoFuel].  The kernel is built
    for a single processor ([SINGLE_PROCESSOR]); the spin lock takes the build as
    the argument [smp], and its theorems hold for both.  The switch of stacks is
    the change of the running thread: an operation that switches ends there, and
    what runs next is the next thread.

    ** Bounds on loops

    Every theorem about an operation states that it returns, so its bound is
    enough.  An access of a user program has fuel 2: a fault maps the page or makes it
    writable, and the access then succeeds ([user_run_ok]).  [alloc_fuel] is 2: [alloc] calls itself once after it has extended the
    heap ([alloc_correct]; [alloc_huge_never_returns] shows the requests for which
    no fuel is enough).  [aligned_fuel] is 3: the search for an aligned place in a
    hole advances at most twice.  [bucket_fuel] is the number of nodes of the bucket
    and one more.  [read_fuel] is 1025: the buffer holds 1024 events at most.
    [digits_fuel] is 20, the size of the digit buffer.  String routines take their
    bound as an argument, larger than the string.  [wake_all] has a bound larger than the queue of
    waiting threads, an argument of [process_exit]; [adopt] runs once for each child and tests once
    more; [phnum_fuel] is 65536, as [e_phnum] has 16 bits.  The loops of the shell's parser have
    bounds that are arguments, larger than the line.  [read_rounds] is 13: an inode names 12
    blocks, and the loop tests its condition once more; a directory lookup has the
    bounds of its C loops.

    ** What is not modelled

    - Of paging: that [init_page] establishes the invariant from the loader's state
      (the operation is modelled, its theorem is not there yet), the registration of
      the fault handler, and translations that the processor loads without an access.
      A load or store of a user program is one step, with its fault; another thread
      between the fault and the end of the handler is only in [cow_interrupted_panics].
    - Of threads: [kernel_thread], which calls the function it was given and exits.
    - Of processes: [process_exec] and [create_new_user_thread].  [destroy_process] and the creation of kernel threads are modelled,
      without theorems.
    - Of [process_exit]: the branch for a process with other threads is modelled, its theorem
      is for a process with one thread, the only kind that system calls make.  The clean-up
      thread's release of dead control blocks is not modelled.  A timer tick between two
      statements of [process_wait] is not (a tick between the mark and the unlock loses the thread).
    - The heap's blocks under the arrays of bitmaps: what [kmalloc] gives [bitmap_create] is an argument,
      and what [bitmap_destroy] gives back to [kfree] is its result, which the exit of a process drops.
      The tables of processes are in the stores of [Containers]; that the hash table over the kernel heap is
      such a store is not proved as an instance.
    - Of the assembly: [reload_idt], [cpu_idle], the boot code, and the entries with an error
      code that the processor pushes, which differ from the others by that push.
    - Of the image tools: failures of the host's input and output and of its [malloc], and
      images that are shorter than 104 blocks or have more than 6606 but not all 32768 inodes in use.
    - Of the scheduler: the start-up ([init_scheduler] and the threads it makes),
      the clean-up thread, and the map of threads and processes.
    - Of a condition variable: the loop after the thread runs again; the model of
      a wait ends at the switch.
    - [list_dir], which only prints.
    - Of the user programs: the tests and the demonstrations.
    - Boot code (but for what it leaves in CR0, which decides the kernel's stores), the start-up sequence of [main.c], and the handlers of the protection fault and of the
      disk's interrupt, which only print: assembly or pure I/O.  The drive is an argument; [read_disk] of
      [driver/disk_io.asm] is taken as the copy of its sectors. *)
From stdpp Require Export base numbers list gmap.
From Stdlib Require Export ZArith Lia.

#[export] Set Default Goal Selector "!".
Global Open Scope Z_scope.

(** ** Outcomes

    [Panic] is the kernel's [Panic]/failed [Assert] (the machine halts),
    [Fault] an access the C program has no right to make (null or dangling
    pointer, index outside an array), [Blocked] a lock that is held by another
    thread, and [NoFuel] a recursion cut off before it ended. *)
Inductive err : Type :=
  | Panic
  | Fault
  | Blocked
  | NoFuel.

Inductive res (A : Type) : Type :=
  | Ok (a : A)
  | Err (e : err).
Arguments Ok {A} a.
Arguments Err {A} e.

Definition res_bind {A B : Type} (m : res A) (k : A -> res B) : res B :=
  match m with
  | Ok a => k a
  | Err e => Err e
  end.

Declare Scope c_scope.
Delimit Scope c_scope with c.
Notation "'let!' x ':=' m 'in' k" := (res_bind m (fun x => k))
  (at level 10, x pattern, k at level 200) : c_scope.
Notation "'assert!' b 'in' k" := (if b then k else Err Panic)
  (at level 10, b at level 99, k at level 200) : c_scope.
Global Open Scope c_scope.

Definition is_ok {A} (r : res A) : bool := match r with Ok _ => true | Err _ => false end.

(** The page size of [page.h]. *)
Definition PAGE_SIZE : Z := 4096.

(** ** Machine integers *)
Definition u32 (z : Z) : Z := z mod 4294967296.
Definition u16 (z : Z) : Z := z mod 65536.
Definition u8 (z : Z) : Z := z mod 256.
(** The value of an [int32_t] holding the bits of [z]. *)
Definition s32 (z : Z) : Z :=
  if u32 z <? 2147483648 then u32 z else u32 z - 4294967296.

(** ** Loops

    [for_loop n i f s] is [for (j = i; j < i + n; j++) s = f(j, s)]. *)
Fixpoint for_loop {S : Type} (n : nat) (i : Z) (f : Z -> S -> res S) (s : S) : res S :=
  match n with
  | O => Ok s
  | S n' => let! s' := f i s in for_loop n' (i + 1) f s'
  end.

(** A counting loop whose body may leave the function with a result. *)
Fixpoint for_find {R : Type} (n : nat) (i : Z) (f : Z -> option R) : option R :=
  match n with
  | O => None
  | S n' => match f i with Some r => Some r | None => for_find n' (i + 1) f end
  end.

(** ** C arrays: a list indexed by [Z], an access outside faults *)
Definition arr_get {A} (l : list A) (i : Z) : res A :=
  if decide (0 <= i) then match l !! Z.to_nat i with Some x => Ok x | None => Err Fault end
  else Err Fault.

Definition arr_set {A} (l : list A) (i : Z) (x : A) : res (list A) :=
  if decide (0 <= i < Z.of_nat (length l)) then Ok (<[Z.to_nat i := x]> l) else Err Fault.

(** ** Tactics *)
Ltac zdiv := Z.div_mod_to_equations; nia.

(** Splits a successful run of monadic code into the runs of its steps. *)
Ltac run_step H :=
  lazymatch type of H with
  | res_bind ?m _ = Ok _ =>
      let E := fresh "E" in destruct m eqn:E; cbn [res_bind] in H; [| discriminate H]
  | (if ?b then _ else Err _) = Ok _ =>
      let E := fresh "E" in destruct b eqn:E; [| discriminate H]
  end.

(** Turns boolean comparisons in the context into arithmetic. *)
Ltac bool_to_prop :=
  repeat match goal with
  | H : (_ && _)%bool = true |- _ => apply andb_true_iff in H as [? ?]
  | H : (_ || _)%bool = false |- _ => apply orb_false_iff in H as [? ?]
  | H : negb _ = true |- _ => apply negb_true_iff in H
  | H : negb _ = false |- _ => apply negb_false_iff in H
  | H : (_ <? _) = true |- _ => apply Z.ltb_lt in H
  | H : (_ <? _) = false |- _ => apply Z.ltb_ge in H
  | H : (_ <=? _) = true |- _ => apply Z.leb_le in H
  | H : (_ <=? _) = false |- _ => apply Z.leb_gt in H
  | H : (_ >=? _) = true |- _ => rewrite Z.geb_leb in H
  | H : (_ >=? _) = false |- _ => rewrite Z.geb_leb in H
  | H : (_ >? _) = true |- _ => rewrite Z.gtb_ltb in H
  | H : (_ >? _) = false |- _ => rewrite Z.gtb_ltb in H
  | H : (_ =? _) = true |- _ => apply Z.eqb_eq in H
  | H : (_ =? _) = false |- _ => apply Z.eqb_neq in H
  end.

(** Decides a boolean comparison by arithmetic, in either direction. *)
Ltac zbool :=
  lazymatch goal with
  | |- (_ <? _) = true => apply Z.ltb_lt
  | |- (_ <? _) = false => apply Z.ltb_ge
  | |- (_ <=? _) = true => apply Z.leb_le
  | |- (_ <=? _) = false => apply Z.leb_gt
  | |- (_ =? _) = true => apply Z.eqb_eq
  | |- (_ =? _) = false => apply Z.eqb_neq
  | |- (_ >=? _) = _ => rewrite Z.geb_leb; zbool
  | |- (_ >? _) = _ => rewrite Z.gtb_ltb; zbool
  end; try lia.

(** ** Lemmas on machine integers *)
Lemma u32_small z : 0 <= z < 4294967296 -> u32 z = z.
Proof. intros. unfold u32. by apply Z.mod_small. Qed.

Lemma u32_range z : 0 <= u32 z < 4294967296.
Proof. unfold u32. by apply Z.mod_pos_bound. Qed.

Lemma u32_idem z : u32 (u32 z) = u32 z.
Proof. apply u32_small, u32_range. Qed.

Lemma u32_add_u32_l a b : u32 (u32 a + b) = u32 (a + b).
Proof. unfold u32. by rewrite Zplus_mod_idemp_l. Qed.

Lemma u32_add_u32_r a b : u32 (a + u32 b) = u32 (a + b).
Proof. unfold u32. by rewrite Zplus_mod_idemp_r. Qed.

Lemma u8_range z : 0 <= u8 z < 256.
Proof. unfold u8. by apply Z.mod_pos_bound. Qed.

Lemma u8_small z : 0 <= z < 256 -> u8 z = z.
Proof. intros. unfold u8. by apply Z.mod_small. Qed.

Lemma u16_range z : 0 <= u16 z < 65536.
Proof. unfold u16. by apply Z.mod_pos_bound. Qed.

Lemma u16_small z : 0 <= z < 65536 -> u16 z = z.
Proof. intros. unfold u16. by apply Z.mod_small. Qed.

Lemma s32_small z : 0 <= z < 2147483648 -> s32 z = z.
Proof.
  intros. unfold s32. rewrite u32_small by lia.
  destruct (Z.ltb_spec z 2147483648); lia.
Qed.

Create HintDb cint.
Create Rewrite HintDb cint.
#[export] Hint Rewrite u32_idem u32_add_u32_l u32_add_u32_r : cint.
#[export] Hint Resolve u32_range u8_range u16_range : cint.

(** Removes a wrap-around that arithmetic shows to be the identity. *)
Ltac u32_simpl :=
  repeat match goal with
  | |- context [u32 ?z] => rewrite (u32_small z) by lia
  end.

Ltac u32_simpl_in H :=
  repeat match type of H with
  | context [u32 ?z] => rewrite (u32_small z) in H by lia
  end.

(** ** Lemmas on loops *)
Lemma for_loop_app {S} n m i f (s : S) :
  for_loop (n + m) i f s =
  let! s' := for_loop n i f s in for_loop m (i + Z.of_nat n) f s'.
Proof.
  revert i s. induction n as [|n IH]; intros i s.
  - cbn [Nat.add for_loop res_bind]. f_equal. lia.
  - cbn [Nat.add for_loop]. destruct (f i s) as [s'|e]; cbn [res_bind]; [|done].
    rewrite IH. by replace (i + 1 + Z.of_nat n) with (i + Z.of_nat (Datatypes.S n)) by lia.
Qed.

(** The invariant rule: a body that succeeds and carries [P j] to
    [P (j + 1)] makes the loop succeed. *)
Lemma for_loop_inv {S} (P : Z -> S -> Prop) n i f (s : S) :
  P i s ->
  (forall j s, i <= j < i + Z.of_nat n -> P j s -> exists s', f j s = Ok s' /\ P (j + 1) s') ->
  exists s', for_loop n i f s = Ok s' /\ P (i + Z.of_nat n) s'.
Proof.
  revert i s. induction n as [|n IH]; intros i s HP Hf.
  - exists s. split; [done|]. by replace (i + Z.of_nat 0) with i by lia.
  - destruct (Hf i s ltac:(lia) HP) as (s1 & E & HP1). cbn [for_loop]. rewrite E. cbn [res_bind].
    replace (i + Z.of_nat (Datatypes.S n)) with (i + 1 + Z.of_nat n) by lia.
    apply IH; [done|]. intros j t Hj. apply Hf. lia.
Qed.

(** A loop whose state after [k] rounds is known in closed form. *)
Lemma for_loop_eq {S} (g : nat -> S) n i f :
  (forall k, (k < n)%nat -> f (i + Z.of_nat k) (g k) = Ok (g (Datatypes.S k))) ->
  for_loop n i f (g O) = Ok (g n).
Proof.
  revert i g. induction n as [|n IH]; intros i g Hf; [done|].
  cbn [for_loop]. pose proof (Hf O ltac:(lia)) as H0.
  replace (i + Z.of_nat 0) with i in H0 by lia. rewrite H0. cbn [res_bind].
  apply (IH (i + 1) (fun k => g (Datatypes.S k))). intros k Hk.
  replace (i + 1 + Z.of_nat k) with (i + Z.of_nat (Datatypes.S k)) by lia. apply Hf. lia.
Qed.

(** A search loop returns the answer of the first index that has one. *)
Lemma for_find_Some {R} n i (f : Z -> option R) r :
  for_find n i f = Some r <->
  exists j, i <= j < i + Z.of_nat n /\ f j = Some r /\ forall k, i <= k < j -> f k = None.
Proof.
  revert i. induction n as [|n IH]; intros i; cbn [for_find].
  - split; [done|]. intros (j & ? & _). lia.
  - destruct (f i) as [r'|] eqn:E.
    + split.
      * intros [= ->]. exists i. repeat split; [lia|lia|done|lia].
      * intros (j & Hj & Hr & Hk). destruct (decide (j = i)) as [->|]; [congruence|].
        rewrite Hk in E by lia. done.
    + rewrite IH. split; intros (j & Hj & Hr & Hk).
      * exists j. repeat split; [lia|lia|done|]. intros k ?.
        destruct (decide (k = i)) as [->|]; [done|]. apply Hk. lia.
      * assert (j <> i) by congruence. exists j. repeat split; [lia|lia|done|].
        intros k ?. apply Hk. lia.
Qed.

Lemma for_find_None {R} n i (f : Z -> option R) :
  for_find n i f = None <-> forall j, i <= j < i + Z.of_nat n -> f j = None.
Proof.
  revert i. induction n as [|n IH]; intros i; cbn [for_find].
  - split; [intros; lia|done].
  - destruct (f i) as [r'|] eqn:E.
    + split; [done|]. intros H. rewrite H in E by lia. done.
    + rewrite IH. split; intros H j Hj.
      * destruct (decide (j = i)) as [->|]; [done|]. apply H. lia.
      * apply H. lia.
Qed.

Lemma for_find_app {R} n m i (f : Z -> option R) :
  for_find (n + m) i f =
  match for_find n i f with Some r => Some r | None => for_find m (i + Z.of_nat n) f end.
Proof.
  revert i. induction n as [|n IH]; intros i; cbn [Nat.add for_find].
  - by replace (i + Z.of_nat 0) with i by lia.
  - destruct (f i); [done|]. rewrite IH.
    by replace (i + 1 + Z.of_nat n) with (i + Z.of_nat (S n)) by lia.
Qed.

Lemma for_find_ext {R} n i (f g : Z -> option R) :
  (forall j, i <= j < i + Z.of_nat n -> f j = g j) -> for_find n i f = for_find n i g.
Proof.
  revert i. induction n as [|n IH]; intros i H; [done|]. cbn [for_find].
  rewrite (H i) by lia. destruct (g i); [done|]. apply IH. intros. apply H. lia.
Qed.

Lemma for_find_shift {R} n i d (f : Z -> option R) :
  for_find n (i + d) f = for_find n i (fun j => f (j + d)).
Proof.
  revert i. induction n as [|n IH]; intros i; [done|]. cbn [for_find].
  destruct (f (i + d)); [done|]. rewrite <- IH. f_equal. lia.
Qed.

Lemma for_find_fmap {R T} (g : R -> T) n i (f : Z -> option R) :
  for_find n i (fun j => g <$> f j) = g <$> for_find n i f.
Proof.
  revert i. induction n as [|n IH]; intros i; [done|]. cbn [for_find].
  destruct (f i); cbn; [done|apply IH].
Qed.

(** A search over blocks of [w] indices each is the search over all of them. *)
Lemma for_find_blocks {R} (w n : nat) i (F f : Z -> option R) :
  (forall j, i <= j < i + Z.of_nat n -> F j = for_find w (j * Z.of_nat w) f) ->
  for_find n i F = for_find (n * w) (i * Z.of_nat w) f.
Proof.
  revert i. induction n as [|n IH]; intros i H; [done|]. cbn [for_find Nat.mul].
  rewrite for_find_app, (H i) by lia. destruct (for_find w _ f); [done|].
  rewrite IH by (intros; apply H; lia). f_equal. lia.
Qed.

(** ** Lemmas on arrays *)
Lemma arr_get_Some {A} (l : list A) i x :
  0 <= i -> l !! Z.to_nat i = Some x -> arr_get l i = Ok x.
Proof. intros ? H. unfold arr_get. rewrite decide_True by done. by rewrite H. Qed.

Lemma arr_get_nat {A} (l : list A) (i : nat) x :
  l !! i = Some x -> arr_get l (Z.of_nat i) = Ok x.
Proof. intros. apply arr_get_Some; [lia|]. by rewrite Nat2Z.id. Qed.

Lemma arr_get_Ok {A} (l : list A) i x :
  arr_get l i = Ok x -> 0 <= i < Z.of_nat (length l) /\ l !! Z.to_nat i = Some x.
Proof.
  unfold arr_get. destruct (decide _); [|done].
  destruct (l !! Z.to_nat i) eqn:E; [|done]. intros [= ->].
  apply lookup_lt_Some in E as ?. split; [lia|done].
Qed.

Lemma arr_get_ok_lt {A} (l : list A) i :
  0 <= i < Z.of_nat (length l) -> exists x, arr_get l i = Ok x /\ l !! Z.to_nat i = Some x.
Proof.
  intros ?. destruct (lookup_lt_is_Some_2 l (Z.to_nat i)) as [x Hx]; [lia|].
  exists x. split; [|done]. apply arr_get_Some; [lia|done].
Qed.

Lemma arr_set_ok {A} (l : list A) i x :
  0 <= i < Z.of_nat (length l) -> arr_set l i x = Ok (<[Z.to_nat i := x]> l).
Proof. intros. unfold arr_set. by rewrite decide_True by done. Qed.

#[export] Hint Resolve arr_get_Some arr_get_nat arr_set_ok : cint.
