(* ===== verification/BitMap.v ===== *)
(** Bitmaps and id pools: [src/src/utils/bit_map.c], [src/src/utils/id_pool.c]
    with their headers, and the lock word of [src/src/sync/yieldlock.c] the pool
    takes.  A bitmap is abstracted to the predicate "bit [i] is set"; the pool is
    abstracted to the set of the ids it has handed out. *)
From S2P Require Import Prelude.

(** ** Data *)

(** [bitmap_t]; [bitarray] holds the words the C pointer designates. *)
Record bitmap_t : Type := mk_bitmap {
  bitarray : list Z;
  alloc_array : bool;
  arraysize : Z;
  totalbits : Z
}.

Definition with_bitarray (this : bitmap_t) (a : list Z) : bitmap_t :=
  mk_bitmap a (alloc_array this) (arraysize this) (totalbits this).

(** [yieldlock_t]: the [hold] word. *)
Definition LOCKED_YES : Z := 1.
Definition LOCKED_NO : Z := 0.

Record id_pool_t : Type := mk_pool {
  size : Z;
  max_size : Z;
  expand_size : Z;
  id_map : bitmap_t;
  lock : Z
}.

Definition with_map (p : id_pool_t) (m : bitmap_t) : id_pool_t :=
  mk_pool (size p) (max_size p) (expand_size p) m (lock p).
Definition with_lock (p : id_pool_t) (l : Z) : id_pool_t :=
  mk_pool (size p) (max_size p) (expand_size p) (id_map p) l.

(** ** Bitmap operations *)

(** [bitmap_clear] *)
Definition bitmap_clear (this : bitmap_t) : res bitmap_t :=
  let! a := for_loop (Z.to_nat (arraysize this)) 0
              (fun i a => arr_set a i 0) (bitarray this) in
  Ok (with_bitarray this a).

(** [bitmap_init]: [fresh n] gives the words of the block [kmalloc(n)] returned,
    [None] when it returned [NULL].  [this] is the struct before the call. *)
Definition bitmap_init (fresh : Z -> option (list Z)) (this : bitmap_t)
    (bitarr : option (list Z)) (total : Z) : res (bool * bitmap_t) :=
  let arrsize := u32 (total + 31) / 32 in
  let '(bitarr, alloc) :=
    match bitarr with
    | None => (fresh (u32 (arrsize * 4)), true)
    | Some a => (Some a, false)
    end in
  match bitarr with
  | None => Ok (false, mk_bitmap (bitarray this) alloc arrsize total)
  | Some a =>
      if total =? 0 then Ok (false, mk_bitmap (bitarray this) alloc arrsize total)
      else
        let! a := for_loop (Z.to_nat arrsize) 0 (fun i a => arr_set a i 0) a in
        Ok (true, mk_bitmap a alloc arrsize total)
  end.

(** [bitmap_create]: the local [ret] is uninitialised before the call. *)
Definition bitmap_create (fresh : Z -> option (list Z)) (uninit : bitmap_t)
    (bitarr : option (list Z)) (total : Z) : res bitmap_t :=
  let! (success, ret) := bitmap_init fresh uninit bitarr total in
  assert! success in Ok ret.

(** [bitmap_set_bit] *)
Definition bitmap_set_bit (this : bitmap_t) (index : Z) : res bitmap_t :=
  if index >=? totalbits this then Ok this
  else
    let array_index := index / 32 in
    let bit_index := index mod 32 in
    let! w := arr_get (bitarray this) array_index in
    let! a := arr_set (bitarray this) array_index
                (Z.lor w (u32 (Z.shiftl 1 bit_index))) in
    Ok (with_bitarray this a).

(** [bitmap_clear_bit] *)
Definition bitmap_clear_bit (this : bitmap_t) (index : Z) : res bitmap_t :=
  if index >=? totalbits this then Ok this
  else
    let array_index := index / 32 in
    let bit_index := index mod 32 in
    let! w := arr_get (bitarray this) array_index in
    let! a := arr_set (bitarray this) array_index
                (Z.land w (u32 (Z.lnot (u32 (Z.shiftl 1 bit_index))))) in
    Ok (with_bitarray this a).

(** [bitmap_test_bit] *)
Definition bitmap_test_bit (this : bitmap_t) (index : Z) : res bool :=
  if index >=? totalbits this then Ok false
  else
    let array_index := index / 32 in
    let bit_index := index mod 32 in
    let! w := arr_get (bitarray this) array_index in
    Ok (negb (Z.land w (u32 (Z.shiftl 1 bit_index)) =? 0)).

(** The test [!(bitarray[i] & (1 << j))] of the two search loops. *)
Definition bit_is_clear (w j : Z) : bool := Z.land w (u32 (Z.shiftl 1 j)) =? 0.

(** [bitmap_find_first_free]: [Ok (Some bit)] is "return true" with [*bit]
    written, [Ok None] is "return false". *)
Definition bitmap_find_first_free (this : bitmap_t) : res (option Z) :=
  match
    for_find (Z.to_nat (u32 (arraysize this - 1))) 0 (fun i =>
      match arr_get (bitarray this) i with
      | Err e => Some (Err e)
      | Ok w =>
          if w =? 0xffffffff then None
          else for_find 32 0 (fun j =>
                 if bit_is_clear w j then Some (Ok (u32 (i * 32 + j))) else None)
      end)
  with
  | Some (Ok bit) => Ok (Some bit)
  | Some (Err e) => Err e
  | None =>
      match
        for_find (Z.to_nat (totalbits this mod 32)) 0 (fun j =>
          match arr_get (bitarray this) (u32 (arraysize this - 1)) with
          | Err e => Some (Err e)
          | Ok w =>
              if bit_is_clear w j
              then Some (Ok (u32 ((arraysize this - 1) * 32 + j))) else None
          end)
      with
      | Some (Ok bit) => Ok (Some bit)
      | Some (Err e) => Err e
      | None => Ok None
      end
  end.

(** [bitmap_alloc_first_free] *)
Definition bitmap_alloc_first_free (this : bitmap_t) : res (option Z * bitmap_t) :=
  let! r := bitmap_find_first_free this in
  match r with
  | None => Ok (None, this)
  | Some bit =>
      let! this := bitmap_set_bit this bit in
      Ok (Some bit, this)
  end.

(** [bitmap_destroy]: the array to [kfree], if the bitmap owns one. *)
Definition bitmap_destroy (this : bitmap_t) : option (list Z) :=
  if alloc_array this then Some (bitarray this) else None.

(** ** The lock word ([yieldlock.c])

    [yieldlock_lock] exchanges the word and, when it was taken, yields and tries
    again: with no other thread running in between, that is [Blocked]. *)
Definition atomic_exchange (dst src : Z) : Z * Z := (dst, src).

Definition yieldlock_init : Z := LOCKED_NO.

Definition yieldlock_lock (hold : Z) : res Z :=
  let '(old, hold) := atomic_exchange hold LOCKED_YES in
  if negb (old =? LOCKED_NO) then Err Blocked else Ok hold.

Definition yieldlock_trylock (hold : Z) : bool * Z :=
  let '(old, hold) := atomic_exchange hold LOCKED_YES in
  (old =? LOCKED_NO, hold).

Definition yieldlock_unlock (hold : Z) : Z := LOCKED_NO.

(** ** Id pools *)
Definition id_pool_init (fresh : Z -> option (list Z)) (this : id_pool_t)
    (sz max_sz : Z) : res id_pool_t :=
  let! (success, m) := bitmap_init fresh (id_map this) None (u32 (s32 sz)) in
  assert! success in
  Ok (mk_pool (s32 sz) (s32 max_sz) (s32 sz) m yieldlock_init).

Definition id_pool_set_id (this : id_pool_t) (id : Z) : res id_pool_t :=
  let! m := bitmap_set_bit (id_map this) id in Ok (with_map this m).

Definition id_pool_free_id (this : id_pool_t) (id : Z) : res id_pool_t :=
  let! m := bitmap_clear_bit (id_map this) id in Ok (with_map this m).

Definition id_pool_destroy (this : id_pool_t) : option (list Z) :=
  bitmap_destroy (id_map this).

(** [Ok (Some id, _)] is "return true" with [*id] written. *)
Definition id_pool_allocate_id (this : id_pool_t) : res (option Z * id_pool_t) :=
  let! l := yieldlock_lock (lock this) in
  let this := with_lock this l in
  let! (r, m) := bitmap_alloc_first_free (id_map this) in
  let this := with_map this m in
  match r with
  | None => Ok (None, with_lock this (yieldlock_unlock (lock this)))
  | Some id => Ok (Some id, with_lock this (yieldlock_unlock (lock this)))
  end.

(** ** Abstraction and invariant *)

(** Bit [i] of the array, [false] outside it. *)
Definition bit (this : bitmap_t) (i : Z) : bool :=
  match bitarray this !! Z.to_nat (i / 32) with
  | Some w => Z.testbit w (i mod 32)
  | None => false
  end.

(** What [bitmap_init] establishes and every operation keeps. *)
Record wf (this : bitmap_t) : Prop := {
  wf_total : 0 < totalbits this <= 4294967264;
  wf_size : arraysize this = (totalbits this + 31) / 32;
  wf_length : Z.of_nat (length (bitarray this)) = arraysize this;
  wf_words : Forall (fun w => 0 <= w < 4294967296) (bitarray this)
}.

(** The bits the search of [bitmap_find_first_free] looks at: all of them when
    [totalbits] is no multiple of 32, and all but the last word otherwise. *)
Definition search_limit (total : Z) : Z :=
  if total mod 32 =? 0 then total - 32 else total.

(** Reference search: the least index below [n] at which [p] is false. *)
Definition first_clear (p : Z -> bool) (n : Z) : option Z :=
  for_find (Z.to_nat n) 0 (fun i => if p i then None else Some i).

(** What a pool client may observe: the ids it holds. *)
Inductive pool_event : Type :=
  | EvAlloc (r : option Z)
  | EvFree (id : Z).

(** One client call and the set of ids the client holds after it; a client only
    frees what it holds. *)
Inductive pool_step : id_pool_t * gset Z -> pool_event -> id_pool_t * gset Z -> Prop :=
  | step_alloc p p' live id :
      id_pool_allocate_id p = Ok (Some id, p') ->
      pool_step (p, live) (EvAlloc (Some id)) (p', {[id]} ∪ live)
  | step_full p p' live :
      id_pool_allocate_id p = Ok (None, p') ->
      pool_step (p, live) (EvAlloc None) (p', live)
  | step_free p p' live id :
      id ∈ live ->
      id_pool_free_id p id = Ok p' ->
      pool_step (p, live) (EvFree id) (p', live ∖ {[id]}).

Inductive pool_run : id_pool_t * gset Z -> list pool_event -> id_pool_t * gset Z -> Prop :=
  | run_nil s : pool_run s [] s
  | run_cons s1 e s2 es s3 :
      pool_step s1 e s2 -> pool_run s2 es s3 -> pool_run s1 (e :: es) s3.

(** The abstract pool: a set of ids; allocation hands out the least free id the
    search can see. *)
Definition free_id (n : Z) (live : gset Z) : option Z :=
  first_clear (fun i => bool_decide (i ∈ live)) (search_limit n).

Inductive pool_spec (n : Z) : gset Z -> pool_event -> gset Z -> Prop :=
  | spec_alloc live r :
      free_id n live = r ->
      pool_spec n live (EvAlloc r)
        (match r with Some id => {[id]} ∪ live | None => live end)
  | spec_free live id :
      id ∈ live -> pool_spec n live (EvFree id) (live ∖ {[id]}).

(** The pool invariant: the lock is free and the bits set are the ids held. *)
Definition pool_inv (s : id_pool_t * gset Z) : Prop :=
  wf (id_map (fst s)) /\ lock (fst s) = LOCKED_NO /\
  forall i, i ∈ snd s <-> 0 <= i < totalbits (id_map (fst s)) /\ bit (id_map (fst s)) i = true.

(** ** Bit arithmetic *)
Lemma testbit_one_shl b k : 0 <= b < 32 -> 0 <= k ->
  Z.testbit (u32 (Z.shiftl 1 b)) k = (k =? b).
Proof.
  intros. rewrite Z.shiftl_1_l, u32_small.
  - rewrite Z.pow2_bits_eqb by lia. apply Z.eqb_sym.
  - split; [lia|]. change 4294967296 with (2 ^ 32). apply Z.pow_lt_mono_r; lia.
Qed.

Lemma testbit_u32_lnot z k : 0 <= k < 32 -> Z.testbit (u32 (Z.lnot z)) k = negb (Z.testbit z k).
Proof.
  intros. unfold u32. change 4294967296 with (2 ^ 32).
  rewrite Z.mod_pow2_bits_low by lia. by rewrite Z.lnot_spec by lia.
Qed.

Lemma testbit_high w k : 0 <= w < 4294967296 -> 32 <= k -> Z.testbit w k = false.
Proof.
  intros. destruct (decide (w = 0)) as [->|]; [by rewrite Z.bits_0|].
  apply Z.bits_above_log2; [lia|].
  apply Z.lt_le_trans with 32; [|lia]. apply Z.log2_lt_pow2; lia.
Qed.

Lemma bit_is_clear_spec w j : 0 <= w < 4294967296 -> 0 <= j < 32 ->
  bit_is_clear w j = negb (Z.testbit w j).
Proof.
  intros Hw Hj. unfold bit_is_clear. destruct (Z.testbit w j) eqn:E; cbn.
  - apply Z.eqb_neq. intros H0.
    assert (Z.testbit (Z.land w (u32 (Z.shiftl 1 j))) j = true) as H.
    { rewrite Z.land_spec, E, testbit_one_shl by lia. by rewrite Z.eqb_refl. }
    rewrite H0, Z.bits_0 in H. done.
  - apply Z.eqb_eq. apply Z.bits_inj'. intros k Hk.
    rewrite Z.land_spec, Z.bits_0, testbit_one_shl by lia.
    destruct (Z.eqb_spec k j) as [->|]; [by rewrite E|apply andb_false_r].
Qed.

Lemma word_of_bits x :
  0 <= x -> (forall k, 32 <= k -> Z.testbit x k = false) -> 0 <= x < 4294967296.
Proof.
  intros Hx Hk. split; [done|]. change 4294967296 with (2 ^ 32).
  replace x with (x mod 2 ^ 32); [apply Z.mod_pos_bound; lia|].
  apply Z.bits_inj'. intros k ?. destruct (decide (k < 32)).
  - by rewrite Z.mod_pow2_bits_low by lia.
  - rewrite Z.mod_pow2_bits_high by lia. by rewrite Hk by lia.
Qed.

Lemma word_lor_range w v : 0 <= w < 4294967296 -> 0 <= v < 4294967296 ->
  0 <= Z.lor w v < 4294967296.
Proof.
  intros. apply word_of_bits; [apply Z.lor_nonneg; lia|]. intros k ?.
  by rewrite Z.lor_spec, !testbit_high by lia.
Qed.

Lemma word_land_range w v : 0 <= w < 4294967296 -> 0 <= v ->
  0 <= Z.land w v < 4294967296.
Proof.
  intros. apply word_of_bits; [apply Z.land_nonneg; lia|]. intros k ?.
  by rewrite Z.land_spec, testbit_high by lia.
Qed.

(** ** Reading and writing one bit *)
Section with_wf.
Context (b : bitmap_t) (Hwf : wf b).

Lemma word_of_index i : 0 <= i < totalbits b ->
  exists w, arr_get (bitarray b) (i / 32) = Ok w /\
    bitarray b !! Z.to_nat (i / 32) = Some w /\ 0 <= w < 4294967296.
Proof.
  intros Hi. destruct Hwf as [Ht Hs Hl Hw].
  destruct (arr_get_ok_lt (bitarray b) (i / 32)) as (w & E & L).
  { rewrite Hl, Hs. zdiv. }
  exists w. repeat split; [done|done| |]; eapply Forall_lookup_1 in Hw; eauto; lia.
Qed.

Lemma index_in_range i : 0 <= i < totalbits b -> 0 <= i / 32 < Z.of_nat (length (bitarray b)).
Proof. intros. destruct Hwf as [Ht Hs Hl Hw]. rewrite Hl, Hs. zdiv. Qed.

Lemma with_bitarray_wf a :
  length a = length (bitarray b) -> Forall (fun w => 0 <= w < 4294967296) a ->
  wf (with_bitarray b a).
Proof. intros Hlen Hall. destruct Hwf. split; cbn; [done|done|by rewrite Hlen|done]. Qed.

(** Writing word [i / 32] with a word that differs from the old one at most at
    bit [i mod 32] changes the bit [i] only. *)
Lemma bit_write i v w' j :
  0 <= i < totalbits b -> 0 <= j -> Z.testbit w' (i mod 32) = v ->
  (forall w k, bitarray b !! Z.to_nat (i / 32) = Some w -> 0 <= k < 32 -> k <> i mod 32 ->
     Z.testbit w' k = Z.testbit w k) ->
  bit (with_bitarray b (<[Z.to_nat (i / 32) := w']> (bitarray b))) j =
  if decide (j = i) then v else bit b j.
Proof.
  intros Hi Hj Hv Hother. unfold bit. cbn [with_bitarray bitarray].
  destruct (word_of_index i Hi) as (w & _ & L & _).
  pose proof (index_in_range i Hi). pose proof (Z.mod_pos_bound j 32 ltac:(lia)).
  destruct (decide (j / 32 = i / 32)) as [E|E].
  - rewrite E, list_lookup_insert_eq by lia. rewrite L.
    destruct (decide (j = i)) as [->|]; [done|]. apply Hother; [done|done|].
    intros E'. assert (j = i); [|done].
    rewrite (Z.div_mod j 32), (Z.div_mod i 32) by lia. lia.
  - rewrite list_lookup_insert_ne.
    + destruct (decide (j = i)) as [->|]; [done|]. done.
    + intros E'. apply E. assert (0 <= j / 32) by (apply Z.div_pos; lia). lia.
Qed.

Lemma set_bit_ok i : 0 <= i < totalbits b ->
  exists b', bitmap_set_bit b i = Ok b' /\ wf b' /\ totalbits b' = totalbits b /\
    forall j, 0 <= j -> bit b' j = if decide (j = i) then true else bit b j.
Proof.
  intros Hi. destruct (word_of_index i Hi) as (w & E & L & Hw). unfold bitmap_set_bit.
  replace (i >=? totalbits b) with false by (symmetry; zbool). rewrite E. cbn [res_bind].
  rewrite arr_set_ok by (by apply index_in_range). cbn [res_bind].
  assert (0 <= i mod 32 < 32) by (apply Z.mod_pos_bound; lia).
  eexists. split; [done|]. split; [|split; [done|]].
  - apply with_bitarray_wf; [by rewrite length_insert|].
    apply Forall_insert; [apply Hwf|]. apply word_lor_range; [done|apply u32_range].
  - intros j Hj. apply bit_write; [done|done| |].
    + rewrite Z.lor_spec, testbit_one_shl by lia. rewrite Z.eqb_refl. apply orb_true_r.
    + intros w0 k Hw0 Hk Hne. assert (w0 = w) as -> by congruence.
      rewrite Z.lor_spec, testbit_one_shl by lia.
      replace (k =? i mod 32) with false by (symmetry; zbool). apply orb_false_r.
Qed.

Lemma clear_bit_ok i : 0 <= i < totalbits b ->
  exists b', bitmap_clear_bit b i = Ok b' /\ wf b' /\ totalbits b' = totalbits b /\
    forall j, 0 <= j -> bit b' j = if decide (j = i) then false else bit b j.
Proof.
  intros Hi. destruct (word_of_index i Hi) as (w & E & L & Hw). unfold bitmap_clear_bit.
  replace (i >=? totalbits b) with false by (symmetry; zbool). rewrite E. cbn [res_bind].
  rewrite arr_set_ok by (by apply index_in_range). cbn [res_bind].
  assert (0 <= i mod 32 < 32) by (apply Z.mod_pos_bound; lia).
  eexists. split; [done|]. split; [|split; [done|]].
  - apply with_bitarray_wf; [by rewrite length_insert|].
    apply Forall_insert; [apply Hwf|]. apply word_land_range; [done|apply u32_range].
  - intros j Hj. apply bit_write; [done|done| |].
    + rewrite Z.land_spec, testbit_u32_lnot, testbit_one_shl by lia.
      rewrite Z.eqb_refl. apply andb_false_r.
    + intros w0 k Hw0 Hk Hne. assert (w0 = w) as -> by congruence.
      rewrite Z.land_spec, testbit_u32_lnot, testbit_one_shl by lia.
      replace (k =? i mod 32) with false by (symmetry; zbool). apply andb_true_r.
Qed.

Lemma test_bit_ok i : 0 <= i < totalbits b -> bitmap_test_bit b i = Ok (bit b i).
Proof.
  intros Hi. destruct (word_of_index i Hi) as (w & E & L & Hw). unfold bitmap_test_bit, bit.
  replace (i >=? totalbits b) with false by (symmetry; zbool). rewrite E, L. cbn [res_bind].
  assert (0 <= i mod 32 < 32) by (apply Z.mod_pos_bound; lia).
  pose proof (bit_is_clear_spec w (i mod 32) Hw ltac:(lia)) as Hc. unfold bit_is_clear in Hc.
  rewrite Hc. by rewrite negb_involutive.
Qed.
End with_wf.

(** ** The search *)
Lemma first_clear_Some p n i :
  first_clear p n = Some i <->
  0 <= i < n /\ p i = false /\ forall k, 0 <= k < i -> p k = true.
Proof.
  unfold first_clear. rewrite for_find_Some. split.
  - intros (j & Hj & Hp & Hk). destruct (p j) eqn:E; [done|]. injection Hp as ->.
    repeat split; [lia|lia|done|]. intros k ?. specialize (Hk k ltac:(lia)).
    by destruct (p k).
  - intros (Hi & Hp & Hk). exists i. rewrite Hp. repeat split; [lia|lia|].
    intros k ?. by rewrite Hk by lia.
Qed.

Lemma first_clear_None p n : first_clear p n = None <-> forall k, 0 <= k < n -> p k = true.
Proof.
  unfold first_clear. rewrite for_find_None. split; intros H k Hk.
  - specialize (H k ltac:(lia)). by destruct (p k).
  - by rewrite H by lia.
Qed.

Section search.
Context (b : bitmap_t) (Hwf : wf b).

(** The answer the two loops look for at index [k]. *)
Let probe (k : Z) : option (res Z) := if bit b k then None else Some (Ok k).

Lemma bit_of_word w i j :
  bitarray b !! Z.to_nat i = Some w -> 0 <= i -> 0 <= j < 32 ->
  bit b (i * 32 + j) = Z.testbit w j.
Proof.
  intros L Hi Hj. unfold bit.
  replace ((i * 32 + j) / 32) with i by zdiv.
  replace ((i * 32 + j) mod 32) with j by zdiv. by rewrite L.
Qed.

Lemma search_word i : 0 <= i < arraysize b ->
  match arr_get (bitarray b) i with
  | Err e => Some (Err e)
  | Ok w =>
      if w =? 0xffffffff then None
      else for_find 32 0 (fun j => if bit_is_clear w j then Some (Ok (u32 (i * 32 + j))) else None)
  end = for_find 32 (i * 32) probe.
Proof.
  intros Hi. destruct Hwf as [Ht Hs Hl Hw].
  destruct (arr_get_ok_lt (bitarray b) i) as (w & E & L); [lia|].
  assert (0 <= w < 4294967296) as Hr by (eapply Forall_lookup_1 in Hw; eauto; lia).
  rewrite E. transitivity (for_find 32 0 (fun j => probe (j + i * 32))).
  2: { rewrite <- for_find_shift. f_equal. }
  destruct (Z.eqb_spec w 0xffffffff) as [->|_].
  - symmetry. apply for_find_None. intros j Hj. unfold probe.
    rewrite (Z.add_comm j), (bit_of_word _ _ _ L) by lia.
    rewrite (Z.ones_spec_low 32) by lia. done.
  - apply for_find_ext. intros j Hj. unfold probe.
    rewrite (Z.add_comm j), (bit_of_word _ _ _ L) by lia.
    rewrite bit_is_clear_spec by lia. rewrite u32_small by zdiv. by destruct (Z.testbit w j).
Qed.

Lemma search_tail j : 0 <= j < totalbits b mod 32 ->
  match arr_get (bitarray b) (u32 (arraysize b - 1)) with
  | Err e => Some (Err e)
  | Ok w =>
      if bit_is_clear w j then Some (Ok (u32 ((arraysize b - 1) * 32 + j))) else None
  end = probe ((arraysize b - 1) * 32 + j).
Proof.
  intros Hj. destruct Hwf as [Ht Hs Hl Hw].
  assert (1 <= arraysize b <= 134217727) by (rewrite Hs; zdiv).
  rewrite (u32_small (arraysize b - 1)) by lia.
  destruct (arr_get_ok_lt (bitarray b) (arraysize b - 1)) as (w & E & L); [lia|].
  assert (0 <= w < 4294967296) as Hr by (eapply Forall_lookup_1 in Hw; eauto; lia).
  rewrite E, bit_is_clear_spec by zdiv. unfold probe.
  rewrite (bit_of_word _ _ _ L) by zdiv. destruct (Z.testbit w j); [done|]. cbn.
  rewrite u32_small; [done|]. zdiv.
Qed.

Lemma search_limit_split :
  search_limit (totalbits b) = (arraysize b - 1) * 32 + totalbits b mod 32 /\
  1 <= arraysize b <= 134217727.
Proof.
  destruct Hwf as [Ht Hs Hl Hw]. rewrite Hs. unfold search_limit.
  destruct (Z.eqb_spec (totalbits b mod 32) 0); zdiv.
Qed.

Lemma find_first_free_probe :
  bitmap_find_first_free b = Ok (first_clear (bit b) (search_limit (totalbits b))).
Proof.
  destruct search_limit_split as [Hlim Hsz]. unfold bitmap_find_first_free.
  rewrite (u32_small (arraysize b - 1)) at 1 by lia.
  rewrite (for_find_blocks 32 _ 0 _ probe) by (intros; apply search_word; lia).
  rewrite (for_find_ext (Z.to_nat (totalbits b mod 32)) 0 _ (fun j => probe (j + (arraysize b - 1) * 32)))
    by (intros; rewrite search_tail by lia; f_equal; lia).
  rewrite <- for_find_shift.
  assert (forall n i, for_find n i probe =
            Ok <$> for_find n i (fun k => if bit b k then None else Some k)) as Hp.
  { intros. rewrite <- for_find_fmap. apply for_find_ext. intros. unfold probe.
    by destruct (bit b j). }
  rewrite !Hp. unfold first_clear. rewrite Hlim.
  replace (Z.to_nat ((arraysize b - 1) * 32 + totalbits b mod 32))
    with (Z.to_nat (arraysize b - 1) * 32 + Z.to_nat (totalbits b mod 32))%nat
    by (pose proof (Z.mod_pos_bound (totalbits b) 32 ltac:(lia)); lia).
  rewrite for_find_app. change (0 * Z.of_nat 32) with 0.
  replace (0 + Z.of_nat (Z.to_nat (arraysize b - 1) * 32)) with (0 + (arraysize b - 1) * 32) by lia.
  destruct (for_find _ 0 _); cbn; [done|]. by destruct (for_find _ _ _).
Qed.
End search.

Lemma search_limit_le n : 0 < n -> search_limit n <= n.
Proof. unfold search_limit. destruct (_ =? _); lia. Qed.

Lemma first_clear_ext p q n :
  (forall i, 0 <= i < n -> p i = q i) -> first_clear p n = first_clear q n.
Proof. intros H. apply for_find_ext. intros. rewrite H by lia. done. Qed.

Lemma init_zero_loop a n :
  (n <= length a)%nat ->
  for_loop n 0 (fun i a => arr_set a i 0) a = Ok (replicate n 0 ++ drop n a).
Proof.
  intros Hn. apply (for_loop_eq (fun k => replicate k 0 ++ drop k a)).
  intros k Hk. assert (length (replicate k 0 ++ drop k a) = length a) as Hl.
  { rewrite length_app, length_replicate, length_drop. lia. }
  rewrite arr_set_ok by (rewrite Hl; lia). f_equal.
  rewrite insert_app_r_alt by (rewrite length_replicate; lia).
  rewrite length_replicate. replace (Z.to_nat (0 + Z.of_nat k) - k)%nat with O by lia.
  destruct (lookup_lt_is_Some_2 a k) as [x Hx]; [lia|].
  rewrite (drop_S _ _ _ Hx). cbn [insert list_insert].
  rewrite replicate_S_end, <- app_assoc. done.
Qed.

Lemma zero_bitmap_wf total n al :
  0 < total <= 4294967264 -> Z.of_nat n = (total + 31) / 32 ->
  wf (mk_bitmap (replicate n 0) al ((total + 31) / 32) total) /\
  forall i, bit (mk_bitmap (replicate n 0) al ((total + 31) / 32) total) i = false.
Proof.
  intros Ht Hn. split.
  - split; cbn; [done|done|by rewrite length_replicate|].
    apply Forall_replicate. lia.
  - intros i. unfold bit. cbn. destruct (replicate n 0 !! _) as [w|] eqn:E; [|done].
    apply lookup_replicate in E as [-> _]. apply Z.bits_0.
Qed.

(** ** Theorems *)

(** C36: [bitmap_find_first_free] is the reference search: it returns the least
    clear bit below [search_limit totalbits], or false when all of those bits
    are set; its word-skipping and two-loop structure never changes the answer. *)
Theorem find_first_free_correct (b : bitmap_t) (Hwf : wf b) :
  bitmap_find_first_free b = Ok (first_clear (bit b) (search_limit (totalbits b))).
Proof. by apply find_first_free_probe. Qed.

(** C40: on a bitmap whose size is a multiple of 32 the last word is never
    searched: every index the search can return is below [totalbits - 32], and
    when the other words are full the search fails with 32 bits still clear. *)
Theorem last_word_never_searched (b : bitmap_t) (Hwf : wf b)
    (Hmul : totalbits b mod 32 = 0) :
  (forall i, bitmap_find_first_free b = Ok (Some i) -> i < totalbits b - 32) /\
  ((forall i, 0 <= i < totalbits b - 32 -> bit b i = true) ->
   bitmap_alloc_first_free b = Ok (None, b)).
Proof.
  unfold bitmap_alloc_first_free. rewrite (find_first_free_probe b Hwf).
  unfold search_limit. rewrite Hmul. cbn [Z.eqb]. split.
  - intros i [= E]. apply first_clear_Some in E. lia.
  - intros H. apply first_clear_None in H. by rewrite H.
Qed.

(** [bitmap_alloc_first_free] never faults and never hands out a bit twice:
    the bit it returns is in range and was clear, it is the only bit that
    changes, and when it fails nothing changes. *)
Theorem alloc_first_free_correct (b : bitmap_t) (Hwf : wf b) :
  match first_clear (bit b) (search_limit (totalbits b)) with
  | None => bitmap_alloc_first_free b = Ok (None, b)
  | Some i =>
      0 <= i < totalbits b /\ bit b i = false /\
      exists b', bitmap_alloc_first_free b = Ok (Some i, b') /\ wf b' /\
        totalbits b' = totalbits b /\
        forall j, 0 <= j -> bit b' j = if decide (j = i) then true else bit b j
  end.
Proof.
  unfold bitmap_alloc_first_free. rewrite (find_first_free_probe b Hwf). cbn [res_bind].
  destruct (first_clear _ _) as [i|] eqn:E; [|done].
  apply first_clear_Some in E as (Hi & Hb & _).
  pose proof (search_limit_le (totalbits b) ltac:(apply Hwf)).
  split; [lia|]. split; [done|].
  destruct (set_bit_ok b Hwf i) as (b' & E' & ? & ? & ?); [lia|].
  exists b'. rewrite E'. by cbn.
Qed.

Lemma bitmap_init_ok fresh this bitarr total al a :
  0 < total <= 4294967264 ->
  match bitarr with
  | None => fresh (u32 (u32 (total + 31) / 32 * 4)) = Some a /\ al = true
  | Some a' => a' = a /\ al = false
  end ->
  Z.of_nat (length a) = (total + 31) / 32 ->
  exists b, bitmap_init fresh this bitarr total = Ok (true, b) /\ wf b /\
    totalbits b = total /\ alloc_array b = al /\ forall i, bit b i = false.
Proof.
  intros Ht Ha Hlen. exists (mk_bitmap (replicate (length a) 0) al ((total + 31) / 32) total).
  destruct (zero_bitmap_wf total (length a) al Ht Hlen) as [Hw Hb]. split; [|done].
  assert (for_loop (Z.to_nat ((total + 31) / 32)) 0 (fun i a => arr_set a i 0) a
          = Ok (replicate (length a) 0)) as Hloop.
  { rewrite <- Hlen, Nat2Z.id, init_zero_loop by done. by rewrite drop_all, app_nil_r. }
  unfold bitmap_init. rewrite (u32_small (total + 31)) in * by lia.
  assert ((total =? 0) = false) as -> by zbool.
  destruct bitarr as [a'|]; destruct Ha as [Ha ->].
  - subst a'. by rewrite Hloop.
  - rewrite Ha. by rewrite Hloop.
Qed.

Lemma free_id_bits p live :
  pool_inv (p, live) ->
  free_id (totalbits (id_map p)) live =
  first_clear (bit (id_map p)) (search_limit (totalbits (id_map p))).
Proof.
  intros (Hw & _ & Hl). cbn in *. apply first_clear_ext. intros i Hi.
  pose proof (search_limit_le (totalbits (id_map p)) ltac:(apply Hw)).
  specialize (Hl i). destruct (bit (id_map p) i).
  - apply bool_decide_true. apply Hl. by split; [lia|].
  - apply bool_decide_false. intros [_ ?]%Hl. done.
Qed.

Lemma id_pool_allocate_ok p live :
  pool_inv (p, live) ->
  exists p', id_pool_allocate_id p = Ok (free_id (totalbits (id_map p)) live, p') /\
    totalbits (id_map p') = totalbits (id_map p) /\
    pool_inv (p', match free_id (totalbits (id_map p)) live with
                  | Some id => {[id]} ∪ live | None => live end).
Proof.
  intros Hinv. rewrite (free_id_bits _ _ Hinv). pose proof Hinv as (Hw & Hk & Hl). cbn in *.
  unfold id_pool_allocate_id, yieldlock_lock, bitmap_alloc_first_free. rewrite Hk. cbn.
  rewrite (find_first_free_probe _ Hw). cbn [res_bind].
  destruct (first_clear _ _) as [i|] eqn:E; cbn [res_bind].
  - apply first_clear_Some in E as (Hi & Hb & _).
    pose proof (search_limit_le (totalbits (id_map p)) ltac:(apply Hw)).
    destruct (set_bit_ok _ Hw i) as (b' & E' & ? & Ht & Hbit); [lia|].
    rewrite E'. cbn [res_bind]. eexists. split; [done|]. cbn. split; [done|].
    split; [done|]. split; [done|]. intros j. cbn. rewrite elem_of_union, elem_of_singleton, Hl, Ht.
    split.
    + intros [->|[? Hj]]; [split; [lia|]|split; [lia|]]; rewrite Hbit by lia;
        by destruct (decide _).
    + intros [? Hj]. rewrite Hbit in Hj by lia. destruct (decide (j = i)); [by left|].
      right. split; [lia|done].
  - eexists. split; [done|]. cbn. split; [done|]. by split.
Qed.

Lemma id_pool_free_ok p live id :
  pool_inv (p, live) -> id ∈ live ->
  exists p', id_pool_free_id p id = Ok p' /\ totalbits (id_map p') = totalbits (id_map p) /\
    pool_inv (p', live ∖ {[id]}).
Proof.
  intros (Hw & Hk & Hl) Hin. cbn in *. apply Hl in Hin as [Hi Hb].
  destruct (clear_bit_ok _ Hw id) as (b' & E' & ? & Ht & Hbit); [lia|].
  unfold id_pool_free_id. rewrite E'. cbn [res_bind]. eexists. split; [done|].
  cbn. split; [done|]. split; [done|]. split; [done|]. intros j. cbn.
  rewrite elem_of_difference, elem_of_singleton, Hl, Ht. split.
  - intros [[? Hj] ?]. split; [lia|]. rewrite Hbit by lia. by destruct (decide _).
  - intros [? Hj]. rewrite Hbit in Hj by lia. destruct (decide (j = id)); [done|].
    split; [|done]. split; [lia|done].
Qed.

(** A freshly initialised bitmap is well formed and has every bit clear,
    whether the caller gives the array or [kmalloc] does; it fails for a size of
    zero. *)
Theorem bitmap_init_correct (fresh : Z -> option (list Z)) (this : bitmap_t) (total : Z)
    (a : list Z) (Ht : 0 < total <= 4294967264)
    (Hlen : Z.of_nat (length a) = (total + 31) / 32)
    (Hfresh : fresh (u32 (u32 (total + 31) / 32 * 4)) = Some a) :
  (exists b, bitmap_init fresh this None total = Ok (true, b) /\ wf b /\ totalbits b = total /\
     alloc_array b = true /\ forall i, bit b i = false) /\
  (exists b, bitmap_init fresh this (Some a) total = Ok (true, b) /\ wf b /\ totalbits b = total /\
     alloc_array b = false /\ forall i, bit b i = false) /\
  (exists b, bitmap_init fresh this (Some a) 0 = Ok (false, b)).
Proof.
  split; [|split].
  - by apply bitmap_init_ok with a.
  - by apply bitmap_init_ok with a.
  - by eexists.
Qed.

(** C23: the id pool implements the abstract pool.  Every step a client can take
    is the abstract step and keeps the invariant, and each call succeeds without
    faulting or blocking: so an id is never handed out while it is held, and a
    failed call means the searched part of the map is full. *)
Theorem id_pool_refines (p : id_pool_t) (live : gset Z) (Hinv : pool_inv (p, live)) :
  (forall e s', pool_step (p, live) e s' ->
     pool_spec (totalbits (id_map p)) live e (snd s') /\ pool_inv s' /\
     totalbits (id_map (fst s')) = totalbits (id_map p)) /\
  (forall e live', pool_spec (totalbits (id_map p)) live e live' ->
     exists p', pool_step (p, live) e (p', live')).
Proof.
  destruct (id_pool_allocate_ok p live Hinv) as (pa & Ea & Ta & Ia). split.
  - intros e s' Hstep. inversion Hstep as [? p' ? id E|? p' ? E|? p' ? id Hin E]; subst; clear Hstep.
    + rewrite E in Ea. injection Ea as Hf ->. rewrite <- Hf in Ia. split; [|done].
      by apply (spec_alloc _ live (Some id)).
    + rewrite E in Ea. injection Ea as Hf ->. rewrite <- Hf in Ia. split; [|done].
      by apply (spec_alloc _ live None).
    + destruct (id_pool_free_ok p live id Hinv Hin) as (pf & Ef & ? & ?).
      assert (p' = pf) as -> by congruence. split; [by constructor|done].
  - intros e live' Hspec. inversion Hspec as [? r Hr|? id Hin]; subst.
    + exists pa. destruct (free_id _ _); by constructor.
    + destruct (id_pool_free_ok p live id Hinv Hin) as (pf & Ef & ? & ?).
      exists pf. by constructor.
Qed.

(** ** Witnesses *)
Definition demo_map : bitmap_t := mk_bitmap [0xffffffff; 0x5] true 2 40.
Definition demo_full : bitmap_t := mk_bitmap [0xffffffff; 0] true 2 64.

Lemma demo_map_wf : wf demo_map.
Proof. split; cbn; [lia|done|done|]. repeat constructor; lia. Qed.

Lemma demo_full_wf : wf demo_full.
Proof. split; cbn; [lia|done|done|]. repeat constructor; lia. Qed.

Lemma find_first_free_correct_witness :
  bitmap_find_first_free demo_map = Ok (Some 33).
Proof. rewrite (find_first_free_correct demo_map demo_map_wf). vm_compute. reflexivity. Defined.

Lemma last_word_never_searched_witness :
  bitmap_test_bit demo_full 32 = Ok false /\
  bitmap_alloc_first_free demo_full = Ok (None, demo_full).
Proof.
  split; [vm_compute; reflexivity|].
  apply (last_word_never_searched demo_full demo_full_wf eq_refl).
  intros i Hi. cbn in Hi. unfold bit.
  assert (i / 32 = 0) as -> by (apply Z.div_small; lia).
  cbn. apply (Z.ones_spec_low 32). split; [apply Z.mod_pos_bound; lia|].
  apply Z.mod_pos_bound; lia.
Defined.

Lemma alloc_first_free_correct_witness :
  exists b', bitmap_alloc_first_free demo_map = Ok (Some 33, b') /\ bit b' 33 = true.
Proof.
  pose proof (alloc_first_free_correct demo_map demo_map_wf) as H. vm_compute in H.
  destruct H as (_ & _ & b' & H & _). exists b'. split; [vm_compute; exact H|].
  injection H as <-. vm_compute. reflexivity.
Defined.

Lemma bitmap_init_correct_witness :
  exists b, bitmap_init (fun n => Some (replicate (Z.to_nat (n / 4)) 7)) demo_map None 40
            = Ok (true, b) /\ wf b.
Proof.
  destruct (bitmap_init_correct (fun n => Some (replicate (Z.to_nat (n / 4)) 7)) demo_map 40 [7; 7]
              ltac:(lia) eq_refl eq_refl) as [(b & H & Hw & _) _].
  exists b. split; [exact H|exact Hw].
Defined.

Definition demo_pool : id_pool_t := mk_pool 40 40 40 (mk_bitmap [1; 0] true 2 40) 0.

Lemma demo_pool_inv : pool_inv (demo_pool, {[0]}).
Proof.
  split; [|split].
  - split; cbn; [lia|done|done|]. repeat constructor; lia.
  - done.
  - intros i. cbn. rewrite elem_of_singleton. split; [by intros ->|].
    unfold bit. cbn -[Z.testbit]. intros [Hi Hb]. destruct (decide (i < 32)).
    + rewrite Z.div_small, Z.mod_small in Hb by lia. cbn -[Z.testbit] in Hb.
      destruct (decide (i = 0)) as [->|]; [done|].
      change (Z.testbit 1 i = true) in Hb. rewrite Z.bits_above_log2 in Hb by (cbn; lia). done.
    + replace (i / 32) with 1 in Hb by zdiv. change (Z.testbit 0 (i mod 32) = true) in Hb.
      by rewrite Z.bits_0 in Hb.
Qed.

Lemma id_pool_refines_witness :
  exists p', pool_step (demo_pool, {[0]}) (EvAlloc (Some 1)) (p', {[1]} ∪ {[0]}).
Proof.
  apply (id_pool_refines demo_pool {[0]} demo_pool_inv).
  apply (spec_alloc _ {[0]} (Some 1)). vm_compute. reflexivity.
Defined.
