(* ===== verification/OrderedArray.v ===== *)
(** The sorted pointer array of [src/src/utils/ordered_array.c]: an array of
    [max_size] slots of which the first [size] are in use.  The operations are
    shown to be those of a sorted list. *)
From S2P Require Import Prelude.
From Stdlib Require Import Sorting.Sorted.

(** ** Data and operations *)

(** [ordered_array_t].  The C struct also keeps the comparison function; the
    only caller compares heap block sizes, which it reads from memory, so here
    the comparison is an argument of [ordered_array_insert]. *)
Record ordered_array_t : Type := mk_oa {
  array : list Z;
  oa_size : Z;
  oa_max_size : Z
}.

(** [ordered_array_create]: [slots] is what the memory at [array] holds. *)
Definition ordered_array_create (slots : list Z) (max_size : Z) : ordered_array_t :=
  mk_oa slots 0 max_size.

(** The [while] loop of [ordered_array_insert]: the first slot whose item
    compares greater, or [size]. *)
Definition insert_position (compare : Z -> Z -> Z) (this : ordered_array_t) (item : Z) : res Z :=
  match
    for_find (Z.to_nat (oa_size this)) 0 (fun i =>
      match arr_get (array this) i with
      | Err e => Some (Err e)
      | Ok x => if compare x item <=? 0 then None else Some (Ok i)
      end)
  with
  | Some r => r
  | None => Ok (oa_size this)
  end.

(** [ordered_array_insert] *)
Definition ordered_array_insert (compare : Z -> Z -> Z) (this : ordered_array_t) (item : Z)
    : res (bool * ordered_array_t) :=
  if oa_size this >=? oa_max_size this then Ok (false, this)
  else
    let! i := insert_position compare this item in
    let! a := for_loop (Z.to_nat (oa_size this - i)) 0 (fun k a =>
                let j := oa_size this - k in
                let! x := arr_get a (j - 1) in
                arr_set a j x) (array this) in
    let! a := arr_set a i item in
    Ok (true, mk_oa a (u32 (oa_size this + 1)) (oa_max_size this)).

(** [ordered_array_get]: [0] is [NULL]. *)
Definition ordered_array_get (this : ordered_array_t) (index : Z) : res Z :=
  if index >=? oa_size this then Ok 0 else arr_get (array this) index.

(** The loop that closes the gap at [index], and [size--]. *)
Definition shift_down (this : ordered_array_t) (index : Z) : res ordered_array_t :=
  let! a := for_loop (Z.to_nat (u32 (oa_size this - 1) - index)) index (fun i a =>
              let! x := arr_get a (i + 1) in
              arr_set a i x) (array this) in
  Ok (mk_oa a (u32 (oa_size this - 1)) (oa_max_size this)).

(** [ordered_array_remove] *)
Definition ordered_array_remove (this : ordered_array_t) (index : Z) : res ordered_array_t :=
  if index >=? oa_size this then Ok this else shift_down this index.

(** [ordered_array_find_element] *)
Definition ordered_array_find_element (this : ordered_array_t) (item : Z) : res Z :=
  match
    for_find (Z.to_nat (oa_size this)) 0 (fun i =>
      match arr_get (array this) i with
      | Err e => Some (Err e)
      | Ok x => if x =? item then Some (Ok i) else None
      end)
  with
  | Some r => r
  | None => Ok (oa_size this)
  end.

(** [ordered_array_remove_element] *)
Definition ordered_array_remove_element (this : ordered_array_t) (item : Z)
    : res (Z * ordered_array_t) :=
  let! index := ordered_array_find_element this item in
  if index =? oa_size this then Ok (0, this)
  else
    let! this := shift_down this index in
    Ok (1, this).

(** ** Abstraction *)

(** The items in use, and what it is for an array to be well formed. *)
Definition elems (this : ordered_array_t) : list Z :=
  take (Z.to_nat (oa_size this)) (array this).

Record oa_wf (this : ordered_array_t) : Prop := {
  oa_bounds : 0 <= oa_size this <= oa_max_size this;
  oa_length : Z.of_nat (length (array this)) = oa_max_size this;
  oa_max : oa_max_size this < 4294967296
}.

(** Insertion after the items that compare less or equal. *)
Fixpoint list_insert_by (compare : Z -> Z -> Z) (x : Z) (l : list Z) : list Z :=
  match l with
  | [] => [x]
  | y :: l' =>
      if compare y x <=? 0 then y :: list_insert_by compare x l' else x :: l
  end.

Fixpoint list_remove_first (x : Z) (l : list Z) : list Z :=
  match l with
  | [] => []
  | y :: l' => if y =? x then l' else y :: list_remove_first x l'
  end.

(** The order of the array: [compare] orders items by an integer key. *)
Definition orders (compare : Z -> Z -> Z) (key : Z -> Z) : Prop :=
  forall a b, compare a b <= 0 <-> key a <= key b.

Definition sorted_by (key : Z -> Z) (l : list Z) : Prop :=
  StronglySorted (fun a b => key a <= key b) l.

(** ** The two shifting loops *)
Lemma shift_up_loop (p q : list Z) (z : Z) (rest : list Z) :
  let n := length q in
  exists z', for_loop n 0 (fun k a =>
      let j := Z.of_nat (length p + n) - k in
      let! x := arr_get a (j - 1) in
      arr_set a j x) (p ++ q ++ z :: rest)
    = Ok (p ++ z' :: q ++ rest).
Proof.
  intros n.
  destruct (for_loop_inv
    (fun j s => exists z', s = p ++ take (n - Z.to_nat j) q ++ z' :: drop (n - Z.to_nat j) q ++ rest)
    n 0 (fun k a => let j := Z.of_nat (length p + n) - k in
                    let! x := arr_get a (j - 1) in arr_set a j x)
    (p ++ q ++ z :: rest)) as (s' & E & z' & ->).
  - exists z. rewrite Nat.sub_0_r. unfold n. by rewrite take_ge, drop_ge by lia.
  - intros j s Hj (z' & ->). set (m := (n - Z.to_nat j)%nat).
    assert (1 <= m <= n)%nat as Hm by lia.
    destruct (lookup_lt_is_Some_2 q (m - 1)) as [x Hx]; [lia|].
    assert (take m q = take (m - 1) q ++ [x]) as Ht.
    { replace m with (S (m - 1)) at 1 by lia. by apply take_S_r. }
    exists (p ++ take (m - 1) q ++ x :: drop (m - 1) q ++ rest). split; [|].
    2: { exists x. replace (n - Z.to_nat (j + 1))%nat with (m - 1)%nat by lia. done. }
    assert (length (take m q) = m) as Hlm by (rewrite length_take; lia).
    cbv zeta. rewrite (arr_get_Some _ _ x); [|lia|].
    + cbn [res_bind]. rewrite arr_set_ok.
      2: { rewrite !length_app, Hlm. cbn. lia. }
      f_equal. rewrite insert_app_r_alt by lia. f_equal.
      rewrite insert_app_r_alt by lia.
      replace (Z.to_nat (Z.of_nat (length p + n) - j) - length p - length (take m q))%nat
        with O by lia. cbn [insert list_insert].
      rewrite Ht, <- app_assoc. f_equal. cbn [app]. f_equal.
      replace m with (S (m - 1)) at 1 by lia. by rewrite (drop_S q x (m - 1)).
    + rewrite lookup_app_r by lia. rewrite lookup_app_l by lia.
      rewrite Ht, lookup_app_r; rewrite length_take; [|lia].
      replace (Z.to_nat (Z.of_nat (length p + n) - j - 1) - length p - (m - 1) `min` length q)%nat
        with O by lia. done.
  - exists z'. rewrite E. f_equal. f_equal.
    replace (n - Z.to_nat (0 + Z.of_nat n))%nat with O by lia. done.
Qed.

Lemma shift_down_loop (p : list Z) (x : Z) (q rest : list Z) :
  exists z, for_loop (length q) (Z.of_nat (length p)) (fun i a =>
      let! x := arr_get a (i + 1) in
      arr_set a i x) (p ++ x :: q ++ rest)
    = Ok (p ++ q ++ z :: rest).
Proof.
  set (n := length p).
  destruct (for_loop_inv
    (fun j s => exists z, s = p ++ take (Z.to_nat j - n) q ++ z :: drop (Z.to_nat j - n) q ++ rest)
    (length q) (Z.of_nat n)
    (fun i a => let! x := arr_get a (i + 1) in arr_set a i x)
    (p ++ x :: q ++ rest)) as (s' & E & z & ->).
  - exists x. rewrite Nat2Z.id, Nat.sub_diag. done.
  - intros j s Hj (z & ->). set (m := (Z.to_nat j - n)%nat).
    destruct (lookup_lt_is_Some_2 q m) as [y Hy]; [lia|].
    assert (length (take m q) = m) as Hlm by (rewrite length_take; lia).
    exists (p ++ take (S m) q ++ y :: drop (S m) q ++ rest). split; [|].
    2: { exists y. replace (Z.to_nat (j + 1) - n)%nat with (S m) by lia. done. }
    rewrite (drop_S q y m) by done. cbn [app].
    rewrite (arr_get_Some _ _ y); [|lia|].
    + cbn [res_bind]. rewrite arr_set_ok.
      2: { rewrite !length_app, Hlm. cbn. lia. }
      f_equal. rewrite insert_app_r_alt by lia. f_equal.
      rewrite insert_app_r_alt by lia.
      replace (Z.to_nat j - length p - length (take m q))%nat with O by lia.
      cbn [insert list_insert]. by rewrite (take_S_r q m y), <- app_assoc.
    + rewrite lookup_app_r by lia. rewrite lookup_app_r by lia.
      replace (Z.to_nat (j + 1) - length p - length (take m q))%nat with 1%nat by lia. done.
  - exists z. rewrite E. f_equal. f_equal.
    replace (Z.to_nat (Z.of_nat n + Z.of_nat (length q)) - n)%nat with (length q) by lia.
    by rewrite take_ge, drop_ge by lia.
Qed.

(** ** Splitting the array at an index *)
Section with_wf.
Context (this : ordered_array_t) (Hwf : oa_wf this).

Lemma elems_length : Z.of_nat (length (elems this)) = oa_size this.
Proof. destruct Hwf. unfold elems. rewrite length_take. lia. Qed.

Lemma array_split : array this = elems this ++ drop (Z.to_nat (oa_size this)) (array this).
Proof. unfold elems. by rewrite take_drop. Qed.

Lemma elems_lookup i x : elems this !! i = Some x -> array this !! i = Some x.
Proof. intros H. rewrite array_split. by apply lookup_app_l_Some. Qed.

Lemma arr_get_elems i x : elems this !! i = Some x -> arr_get (array this) (Z.of_nat i) = Ok x.
Proof. intros H. by apply arr_get_nat, elems_lookup. Qed.
End with_wf.

Lemma elems_app_intro p rest n m :
  n = Z.of_nat (length p) -> elems (mk_oa (p ++ rest) n m) = p.
Proof. intros ->. unfold elems. cbn. by rewrite Nat2Z.id, take_app_length. Qed.

(** The scan of [ordered_array_insert], started after [pre]. *)
Lemma insert_scan compare x arr pre l rest :
  arr = pre ++ l ++ rest ->
  exists p q, l = p ++ q /\ list_insert_by compare x l = p ++ x :: q /\
    for_find (length l) (Z.of_nat (length pre)) (fun i =>
      match arr_get arr i with
      | Err e => Some (Err e)
      | Ok y => if compare y x <=? 0 then None else Some (Ok i)
      end) = match q with
             | [] => None
             | _ => Some (Ok (Z.of_nat (length pre + length p)))
             end.
Proof.
  revert pre. induction l as [|y l IH]; intros pre Harr; [by exists [], []|].
  cbn [length for_find list_insert_by].
  rewrite (arr_get_nat _ _ y) by (by rewrite Harr; cbn [app]; rewrite list_lookup_middle).
  destruct (compare y x <=? 0).
  - destruct (IH (pre ++ [y])) as (p & q & -> & E1 & E2); [by rewrite Harr, <- app_assoc|].
    exists (y :: p), q. split; [done|]. split; [by rewrite E1|].
    rewrite (length_app pre) in E2. cbn [length] in E2.
    replace (Z.of_nat (length pre) + 1) with (Z.of_nat (length pre + 1)) by lia.
    rewrite E2. destruct q; [done|]. do 3 f_equal. cbn. lia.
  - exists [], (y :: l). split; [done|]. split; [done|]. do 2 f_equal. cbn. lia.
Qed.

Lemma insert_position_ok compare this item :
  oa_wf this ->
  exists p q, elems this = p ++ q /\ list_insert_by compare item (elems this) = p ++ item :: q /\
    insert_position compare this item = Ok (Z.of_nat (length p)).
Proof.
  intros Hwf. unfold insert_position. pose proof (elems_length this Hwf) as Hl.
  destruct (insert_scan compare item _ [] (elems this) _ (array_split this))
    as (p & q & Es & Ei & Ef). change (Z.of_nat (length (@nil Z))) with 0 in Ef. exists p, q. split; [done|].
  split; [done|]. rewrite <- Hl, Nat2Z.id, Ef.
  destruct q; [|done]. rewrite Es, app_nil_r. done.
Qed.

Lemma ordered_array_insert_ok compare this item :
  oa_wf this -> oa_size this < oa_max_size this ->
  exists a', ordered_array_insert compare this item = Ok (true, a') /\ oa_wf a' /\
    oa_max_size a' = oa_max_size this /\ oa_size a' = oa_size this + 1 /\
    elems a' = list_insert_by compare item (elems this).
Proof.
  intros Hwf Hlt. destruct (insert_position_ok compare this item Hwf) as (p & q & Es & Ei & Ep).
  pose proof (elems_length this Hwf) as Hl. pose proof (array_split this) as Ha.
  rewrite Es, length_app in Hl. destruct Hwf as [Hb Hlen Hm]. unfold ordered_array_insert.
  replace (oa_size this >=? oa_max_size this) with false by (symmetry; zbool).
  rewrite Ep. cbn [res_bind].
  destruct (drop (Z.to_nat (oa_size this)) (array this)) as [|z rest] eqn:Ed.
  { apply (f_equal length) in Ed. rewrite length_drop in Ed. cbn in Ed. lia. }
  rewrite Es, <- app_assoc in Ha.
  destruct (shift_up_loop p q z rest) as (z' & E).
  rewrite Ha, <- Hl. replace (Z.to_nat _) with (length q) by lia.
  cbv zeta in E. rewrite E. cbn [res_bind].
  rewrite arr_set_ok by (rewrite !length_app; cbn; lia). cbn [res_bind].
  eexists. split; [done|]. rewrite insert_app_r_alt by lia.
  replace (Z.to_nat (Z.of_nat (length p)) - length p)%nat with O by lia. cbn [insert list_insert].
  rewrite (u32_small (_ + 1)) by lia.
  assert (length (array this) = (length p + length q + 1 + length rest)%nat) as Hal.
  { rewrite Ha, !length_app. cbn. lia. }
  split; [|split; [done|split; [cbn; lia|]]].
  - split; cbn; [lia| |done]. rewrite length_app. cbn. rewrite length_app. lia.
  - rewrite Ei. replace (p ++ item :: q ++ rest) with ((p ++ item :: q) ++ rest)
      by (by rewrite <- app_assoc).
    apply elems_app_intro. rewrite length_app. cbn. lia.
Qed.

Lemma ordered_array_insert_full compare this item :
  oa_size this >= oa_max_size this -> ordered_array_insert compare this item = Ok (false, this).
Proof. intros. unfold ordered_array_insert. by replace (_ >=? _) with true by (symmetry; zbool). Qed.

Lemma shift_down_ok this p x q :
  oa_wf this -> elems this = p ++ x :: q ->
  exists a', shift_down this (Z.of_nat (length p)) = Ok a' /\ oa_wf a' /\
    oa_max_size a' = oa_max_size this /\ oa_size a' = oa_size this - 1 /\ elems a' = p ++ q.
Proof.
  intros Hwf Es. pose proof (elems_length this Hwf) as Hl. pose proof (array_split this) as Ha.
  rewrite Es, length_app in Hl. cbn [length] in Hl. destruct Hwf as [Hb Hlen Hm].
  rewrite Es, <- app_assoc in Ha. cbn [app] in Ha. unfold shift_down.
  set (rest := drop (Z.to_nat (oa_size this)) (array this)) in Ha. clearbody rest.
  rewrite (u32_small (_ - 1)) by lia. destruct (shift_down_loop p x q rest) as (z & E).
  replace (Z.to_nat (oa_size this - 1 - Z.of_nat (length p))) with (length q) by lia.
  rewrite Ha, E. cbn [res_bind]. eexists. split; [done|].
  rewrite Ha, !length_app in Hlen. cbn [length] in Hlen. rewrite length_app in Hlen.
  split; [|split; [done|split; [cbn; lia|]]].
  - split; cbn; [lia| |done]. rewrite !length_app. cbn. lia.
  - rewrite app_assoc. apply elems_app_intro. rewrite length_app. lia.
Qed.

Lemma ordered_array_get_ok this i x :
  oa_wf this -> elems this !! i = Some x -> ordered_array_get this (Z.of_nat i) = Ok x.
Proof.
  intros Hwf Hx. unfold ordered_array_get. pose proof (elems_length this Hwf).
  apply lookup_lt_Some in Hx as ?.
  replace (_ >=? _) with false by (symmetry; zbool). by apply arr_get_elems.
Qed.

Lemma ordered_array_remove_ok this p x q :
  oa_wf this -> elems this = p ++ x :: q ->
  exists a', ordered_array_remove this (Z.of_nat (length p)) = Ok a' /\ oa_wf a' /\
    oa_max_size a' = oa_max_size this /\ oa_size a' = oa_size this - 1 /\ elems a' = p ++ q.
Proof.
  intros Hwf Es. unfold ordered_array_remove. pose proof (elems_length this Hwf) as Hl.
  rewrite Es, length_app in Hl. cbn in Hl.
  replace (_ >=? _) with false by (symmetry; zbool). by apply (shift_down_ok this p x q).
Qed.

Lemma find_scan x arr pre l rest :
  arr = pre ++ l ++ rest ->
  match for_find (length l) (Z.of_nat (length pre)) (fun i =>
      match arr_get arr i with
      | Err e => Some (Err e)
      | Ok y => if y =? x then Some (Ok i) else None
      end) with
  | Some r => exists p q, l = p ++ x :: q /\ list_remove_first x l = p ++ q /\
                r = Ok (Z.of_nat (length pre + length p))
  | None => x ∉ l
  end.
Proof.
  revert pre. induction l as [|y l IH]; intros pre Harr; cbn [length for_find];
    [apply not_elem_of_nil|].
  cbn [list_remove_first].
  rewrite (arr_get_nat _ _ y) by (by rewrite Harr; cbn [app]; rewrite list_lookup_middle).
  destruct (Z.eqb_spec y x) as [->|Hne].
  - exists [], l. split; [done|]. split; [done|]. do 2 f_equal. cbn. lia.
  - specialize (IH (pre ++ [y])). rewrite (length_app pre) in IH. cbn [length] in IH.
    replace (Z.of_nat (length pre + 1)) with (Z.of_nat (length pre) + 1) in IH by lia.
    specialize (IH ltac:(by rewrite Harr, <- app_assoc)).
    destruct (for_find _ _ _) as [r|].
    + destruct IH as (p & q & -> & Er & ->). exists (y :: p), q. split; [done|].
      split; [by rewrite Er|]. do 2 f_equal. cbn. lia.
    + set_solver.
Qed.

Lemma find_element_ok this x :
  oa_wf this ->
  (exists p q, elems this = p ++ x :: q /\ list_remove_first x (elems this) = p ++ q /\
     ordered_array_find_element this x = Ok (Z.of_nat (length p))) \/
  (x ∉ elems this /\ ordered_array_find_element this x = Ok (oa_size this)).
Proof.
  intros Hwf. unfold ordered_array_find_element. pose proof (elems_length this Hwf) as Hl.
  pose proof (find_scan x _ [] (elems this) _ (array_split this)) as Hf. change (Z.of_nat (length (@nil Z))) with 0 in Hf.
  rewrite <- Hl, Nat2Z.id. destruct (for_find _ _ _) as [r|].
  - destruct Hf as (p & q & Es & Er & ->). left. by exists p, q.
  - by right.
Qed.

Lemma remove_element_ok this x :
  oa_wf this -> x ∈ elems this ->
  exists a', ordered_array_remove_element this x = Ok (1, a') /\ oa_wf a' /\
    oa_max_size a' = oa_max_size this /\ oa_size a' = oa_size this - 1 /\
    elems a' = list_remove_first x (elems this).
Proof.
  intros Hwf Hin. destruct (find_element_ok this x Hwf) as [(p & q & Es & Er & Ef)|[? _]]; [|done].
  unfold ordered_array_remove_element. rewrite Ef. cbn [res_bind].
  pose proof (elems_length this Hwf) as Hl. rewrite Es, length_app in Hl. cbn in Hl.
  replace (Z.of_nat (length p) =? oa_size this) with false by (symmetry; zbool).
  destruct (shift_down_ok this p x q Hwf Es) as (a' & E & ? & ? & ? & Ee).
  exists a'. rewrite E. cbn [res_bind]. rewrite Er. done.
Qed.

Lemma remove_element_absent this x :
  oa_wf this -> x ∉ elems this -> ordered_array_remove_element this x = Ok (0, this).
Proof.
  intros Hwf Hin. destruct (find_element_ok this x Hwf) as [(p & q & Es & _)|[_ Ef]].
  - rewrite Es in Hin. set_solver.
  - unfold ordered_array_remove_element. rewrite Ef. cbn [res_bind]. by rewrite Z.eqb_refl.
Qed.

(** ** Sorted insertion and removal *)
Lemma list_insert_by_perm compare x l : list_insert_by compare x l ≡ₚ x :: l.
Proof.
  induction l as [|y l IH]; cbn; [done|]. destruct (_ <=? _); [|done].
  rewrite IH. by apply Permutation_swap.
Qed.

Lemma list_remove_first_perm x l : x ∈ l -> l ≡ₚ x :: list_remove_first x l.
Proof.
  induction l as [|y l IH]; cbn; [by intros ?%not_elem_of_nil|]. intros Hin.
  destruct (Z.eqb_spec y x) as [->|Hne]; [done|].
  rewrite IH at 1; [apply Permutation_swap|set_solver].
Qed.

Lemma sorted_by_ext key key' l :
  (forall x, x ∈ l -> key x = key' x) -> sorted_by key l -> sorted_by key' l.
Proof.
  unfold sorted_by. induction l as [|y l IH]; intros Hk Hs; [constructor|].
  apply StronglySorted_inv in Hs as [Hs Hy]. constructor.
  - apply IH; [|done]. intros. apply Hk. set_solver.
  - apply Forall_forall. intros z Hz. rewrite Forall_forall in Hy.
    rewrite <- !Hk by set_solver. by apply Hy.
Qed.

Lemma sorted_by_app_remove key p x q :
  sorted_by key (p ++ x :: q) -> sorted_by key (p ++ q).
Proof.
  unfold sorted_by. induction p as [|y p IH]; cbn; intros Hs.
  - by apply StronglySorted_inv in Hs as [Hs _].
  - apply StronglySorted_inv in Hs as [Hs Hy]. constructor; [by apply IH|].
    rewrite Forall_app in Hy |- *. rewrite Forall_cons in Hy. tauto.
Qed.

Lemma sorted_by_remove_first key x l : sorted_by key l -> sorted_by key (list_remove_first x l).
Proof.
  unfold sorted_by. induction l as [|y l IH]; cbn; intros Hs; [constructor|].
  apply StronglySorted_inv in Hs as [Hs Hy]. destruct (y =? x); [done|].
  constructor; [by apply IH|]. rewrite Forall_forall in Hy |- *. intros z Hz. apply Hy.
  clear -Hz. induction l as [|w l IH]; cbn in *; [done|].
  destruct (w =? x); set_solver.
Qed.

Lemma sorted_by_insert compare key x l :
  orders compare key -> sorted_by key l -> sorted_by key (list_insert_by compare x l).
Proof.
  intros Ho. unfold sorted_by. induction l as [|y l IH]; intros Hs; cbn.
  { by repeat constructor. }
  pose proof Hs as Hs'. apply StronglySorted_inv in Hs' as [Hs' Hy].
  destruct (Z.leb_spec (compare y x) 0) as [Hc|Hc].
  - constructor; [by apply IH|]. rewrite list_insert_by_perm, Forall_cons. split; [|done].
    by apply Ho.
  - assert (key x <= key y) as Hk.
    { destruct (Z.le_gt_cases (key x) (key y)) as [|Hgt]; [done|].
      assert (compare y x <= 0); [apply Ho; lia|lia]. }
    constructor; [done|]. constructor; [done|].
    rewrite Forall_forall in Hy |- *. intros z Hz. specialize (Hy z Hz). lia.
Qed.

(** ** Theorems *)

(** [ordered_array_insert] keeps a sorted array sorted and adds exactly the
    item, as long as there is a free slot; on a full array it returns false and
    changes nothing. *)
Theorem ordered_array_insert_correct (compare : Z -> Z -> Z) (key : Z -> Z)
    (this : ordered_array_t) (item : Z)
    (Ho : orders compare key) (Hwf : oa_wf this) (Hs : sorted_by key (elems this)) :
  if oa_size this <? oa_max_size this then
    exists a', ordered_array_insert compare this item = Ok (true, a') /\ oa_wf a' /\
      sorted_by key (elems a') /\ elems a' ≡ₚ item :: elems this
  else ordered_array_insert compare this item = Ok (false, this).
Proof.
  destruct (Z.ltb_spec (oa_size this) (oa_max_size this)) as [Hlt|Hge].
  - destruct (ordered_array_insert_ok compare this item Hwf Hlt) as (a' & E & Hw & _ & _ & Ee).
    exists a'. split; [done|]. split; [done|]. rewrite Ee. split.
    + by apply sorted_by_insert.
    + apply list_insert_by_perm.
  - apply ordered_array_insert_full. lia.
Qed.

(** [ordered_array_remove_element] removes one occurrence of the item and
    returns 1, or returns 0 and changes nothing when there is none;
    [ordered_array_find_element] finds an index holding it, or [size]; and the
    order of the other items is kept. *)
Theorem ordered_array_remove_element_correct (key : Z -> Z) (this : ordered_array_t) (item : Z)
    (Hwf : oa_wf this) (Hs : sorted_by key (elems this)) :
  if bool_decide (item ∈ elems this) then
    exists a' i, ordered_array_find_element this item = Ok (Z.of_nat i) /\
      elems this !! i = Some item /\
      ordered_array_remove_element this item = Ok (1, a') /\ oa_wf a' /\
      sorted_by key (elems a') /\ elems this ≡ₚ item :: elems a'
  else
    ordered_array_find_element this item = Ok (oa_size this) /\
    ordered_array_remove_element this item = Ok (0, this).
Proof.
  case_bool_decide as Hin.
  - destruct (remove_element_ok this item Hwf Hin) as (a' & E & Hw & _ & _ & Ee).
    destruct (find_element_ok this item Hwf) as [(p & q & Es & _ & Ef)|[? _]]; [|done].
    exists a', (length p). split; [done|]. split; [by rewrite Es, list_lookup_middle|].
    split; [done|]. split; [done|]. rewrite Ee. split.
    + by apply sorted_by_remove_first.
    + by apply list_remove_first_perm.
  - split; [|by apply remove_element_absent].
    by destruct (find_element_ok this item Hwf) as [(p & q & Es & _)|[_ Ef]];
      [rewrite Es in Hin; set_solver|].
Qed.

(** ** Witnesses *)
Definition demo_array : ordered_array_t := mk_oa [1; 4; 4; 9; 0; 0] 4 6.

Lemma demo_array_wf : oa_wf demo_array.
Proof. by split; cbn. Qed.

Lemma demo_array_sorted : sorted_by (fun x => x) (elems demo_array).
Proof. unfold sorted_by, elems. cbn. repeat constructor; lia. Qed.

Lemma sub_orders : orders (fun a b => a - b) (fun x => x).
Proof. intros a b. lia. Qed.

Lemma ordered_array_insert_correct_witness :
  exists a', ordered_array_insert (fun a b => a - b) demo_array 5 = Ok (true, a') /\
    elems a' ≡ₚ [5; 1; 4; 4; 9].
Proof.
  destruct (ordered_array_insert_correct (fun a b => a - b) (fun x => x) demo_array 5
              sub_orders demo_array_wf demo_array_sorted) as (a' & E & _ & _ & Hp).
  exists a'. split; [exact E|exact Hp].
Defined.

Lemma ordered_array_remove_element_correct_witness :
  exists a', ordered_array_remove_element demo_array 4 = Ok (1, a') /\
    [1; 4; 4; 9] ≡ₚ 4 :: elems a'.
Proof.
  pose proof (ordered_array_remove_element_correct (fun x => x) demo_array 4
                demo_array_wf demo_array_sorted) as H.
  rewrite bool_decide_true in H by (cbn; set_solver).
  destruct H as (a' & i & _ & _ & E & _ & _ & Hp). exists a'. split; [exact E|exact Hp].
Defined.
