(* ===== verification/Memory.v ===== *)
(** Byte-addressed memory and the memory routines of
    [src/src/common/stdlib.c] ([memset], [memcpy], [strcpy_with_len], [strcmp],
    [strlen]).  The user copy of these routines is in [Strings]. *)
From S2P Require Import Prelude.

(** ** Memory *)

(** A memory gives the byte at every address; multi-byte values are little
    endian. *)
Definition mem : Type := Z -> Z.

Definition load8 (m : mem) (a : Z) : Z := m a.
Definition store8 (m : mem) (a v : Z) : mem := fun x => if x =? a then u8 v else m x.

Definition load16 (m : mem) (a : Z) : Z := m a + 256 * m (a + 1).
Definition load32 (m : mem) (a : Z) : Z :=
  m a + 256 * m (a + 1) + 65536 * m (a + 2) + 16777216 * m (a + 3).
Definition store32 (m : mem) (a v : Z) : mem :=
  store8 (store8 (store8 (store8 m a v) (a + 1) (v / 256)) (a + 2) (v / 65536))
         (a + 3) (v / 16777216).

(** The [n] bytes at [a]. *)
Definition bytes (m : mem) (a : Z) (n : nat) : list Z :=
  (fun i => m (a + Z.of_nat i)) <$> seq 0 n.

(** [m'] is [m] except inside [lo, hi). *)
Definition same_outside (m m' : mem) (lo hi : Z) : Prop :=
  forall x, ~ (lo <= x < hi) -> m' x = m x.

(** A null-terminated string [s] at [a]. *)
Definition cstr (m : mem) (a : Z) (s : list Z) : Prop :=
  (forall i c, s !! i = Some c -> c <> 0 /\ m (a + Z.of_nat i) = c) /\
  m (a + Z.of_nat (length s)) = 0.

(** A [char] is signed on the target. *)
Definition s8 (z : Z) : Z := if u8 z <? 128 then u8 z else u8 z - 256.

(** ** The kernel's routines; [0] is [NULL] *)

(** [memset] *)
Definition memset (m : mem) (dest val len : Z) : res mem :=
  assert! negb (dest =? 0) in
  for_loop (Z.to_nat len) 0 (fun i m => Ok (store8 m (dest + i) val)) m.

(** [memcpy]: byte by byte, upwards. *)
Definition memcpy (m : mem) (dest src len : Z) : res mem :=
  assert! negb (dest =? 0) && negb (src =? 0) in
  for_loop (Z.to_nat len) 0 (fun i m => Ok (store8 m (dest + i) (load8 m (src + i)))) m.

Fixpoint strcpy_loop (fuel : nat) (m : mem) (dest src i : Z) : res (Z * mem) :=
  match fuel with
  | O => Err NoFuel
  | S fuel =>
      if load8 m (src + i) =? 0 then Ok (i, m)
      else strcpy_loop fuel (store8 m (dest + i) (load8 m (src + i))) dest src (i + 1)
  end.

(** [strcpy_with_len] *)
Definition strcpy_with_len (fuel : nat) (m : mem) (dest src : Z) : res (Z * mem) :=
  assert! negb (dest =? 0) && negb (src =? 0) in
  let! (i, m) := strcpy_loop fuel m dest src 0 in
  Ok (i, store8 m (dest + i) 0).

Fixpoint strcmp_loop (fuel : nat) (m : mem) (src1 src2 i : Z) : res Z :=
  match fuel with
  | O => Err NoFuel
  | S fuel =>
      let c1 := load8 m (src1 + i) in
      let c2 := load8 m (src2 + i) in
      if c1 =? 0 then Ok (if c2 =? 0 then 0 else -1)
      else if c2 =? 0 then Ok 1
      else if negb (c1 =? c2) then Ok (if s8 c1 >? s8 c2 then 1 else -1)
      else strcmp_loop fuel m src1 src2 (i + 1)
  end.

(** [strcmp] *)
Definition strcmp (fuel : nat) (m : mem) (src1 src2 : Z) : res Z :=
  assert! negb (src1 =? 0) && negb (src2 =? 0) in
  strcmp_loop fuel m src1 src2 0.

Fixpoint strlen_loop (fuel : nat) (m : mem) (src num : Z) : res Z :=
  match fuel with
  | O => Err NoFuel
  | S fuel => if load8 m (src + num) =? 0 then Ok num else strlen_loop fuel m src (num + 1)
  end.

(** [strlen] *)
Definition strlen (fuel : nat) (m : mem) (src : Z) : res Z :=
  assert! negb (src =? 0) in
  strlen_loop fuel m src 0.

(** ** Specification of [strcmp]: the order of the strings as signed chars *)
Fixpoint compare_strings (s1 s2 : list Z) : Z :=
  match s1, s2 with
  | [], [] => 0
  | [], _ => -1
  | _, [] => 1
  | c1 :: s1, c2 :: s2 =>
      if c1 =? c2 then compare_strings s1 s2
      else if s8 c1 >? s8 c2 then 1 else -1
  end.

(** ** Loads and stores *)
Lemma store8_eq m a v : store8 m a v a = u8 v.
Proof. unfold store8. by rewrite Z.eqb_refl. Qed.

Lemma store8_ne m a v x : x <> a -> store8 m a v x = m x.
Proof. intros. unfold store8. by replace (x =? a) with false by (symmetry; zbool). Qed.

Lemma store32_bytes m a v :
  store32 m a v a = u8 v /\ store32 m a v (a + 1) = u8 (v / 256) /\
  store32 m a v (a + 2) = u8 (v / 65536) /\ store32 m a v (a + 3) = u8 (v / 16777216).
Proof. unfold store32. repeat split; rewrite ?store8_eq, ?store8_ne by lia; rewrite ?store8_eq; done. Qed.

Lemma store32_ne m a v x : ~ (a <= x < a + 4) -> store32 m a v x = m x.
Proof. intros. unfold store32. by rewrite !store8_ne by lia. Qed.

Lemma load32_store32 m a v : 0 <= v < 4294967296 -> load32 (store32 m a v) a = v.
Proof.
  intros Hv. unfold load32. destruct (store32_bytes m a v) as (-> & -> & -> & ->).
  unfold u8. zdiv.
Qed.

Lemma load32_store32_ne m a v b :
  b + 4 <= a \/ a + 4 <= b -> load32 (store32 m a v) b = load32 m b.
Proof. intros. unfold load32. by rewrite !store32_ne by lia. Qed.

Lemma load32_store8_ne m a v b :
  b + 4 <= a \/ a < b -> load32 (store8 m a v) b = load32 m b.
Proof. intros. unfold load32. by rewrite !store8_ne by lia. Qed.

Lemma load32_same m m' lo hi a :
  same_outside m m' lo hi -> a + 4 <= lo \/ hi <= a -> load32 m' a = load32 m a.
Proof. intros H Ha. unfold load32. by rewrite !H by lia. Qed.

Lemma same_outside_refl m lo hi : same_outside m m lo hi.
Proof. by intros x. Qed.

Lemma same_outside_trans m1 m2 m3 lo hi :
  same_outside m1 m2 lo hi -> same_outside m2 m3 lo hi -> same_outside m1 m3 lo hi.
Proof. intros H1 H2 x Hx. by rewrite H2, H1. Qed.

Lemma same_outside_weaken m m' lo hi lo' hi' :
  same_outside m m' lo hi -> lo' <= lo -> hi <= hi' -> same_outside m m' lo' hi'.
Proof. intros H ? ? x ?. apply H. lia. Qed.

Lemma same_outside_store8 m a v : same_outside m (store8 m a v) a (a + 1).
Proof. intros x ?. apply store8_ne. lia. Qed.

Lemma same_outside_store32 m a v : same_outside m (store32 m a v) a (a + 4).
Proof. intros x ?. apply store32_ne. lia. Qed.

Create HintDb cmem.
Create Rewrite HintDb cmem.
#[export] Hint Rewrite store8_eq : cmem.
#[export] Hint Resolve same_outside_refl same_outside_store8 same_outside_store32 : cmem.

(** Resolves reads of freshly written memory when the addresses are decided by
    arithmetic. *)
Ltac mem_simpl :=
  repeat first
    [ rewrite load32_store32 by lia
    | rewrite load32_store32_ne by lia
    | rewrite load32_store8_ne by lia
    | rewrite store32_ne by lia
    | rewrite store8_eq
    | rewrite store8_ne by lia ].

(** ** [memset] and [memcpy] *)
Lemma memset_ok m dest val len :
  dest <> 0 -> 0 <= len ->
  exists m', memset m dest val len = Ok m' /\ same_outside m m' dest (dest + len) /\
    forall x, dest <= x < dest + len -> m' x = u8 val.
Proof.
  intros Hd Hl. unfold memset. replace (dest =? 0) with false by (symmetry; zbool). cbn [negb].
  destruct (for_loop_inv
    (fun j s => same_outside m s dest (dest + j) /\ forall x, dest <= x < dest + j -> s x = u8 val)
    (Z.to_nat len) 0 (fun i m => Ok (store8 m (dest + i) val)) m) as (m' & E & Ho & Hi).
  - split; [apply same_outside_refl|lia].
  - intros j s Hj [Ho Hi]. eexists. split; [done|]. split.
    + intros x Hx. rewrite store8_ne by lia. apply Ho. lia.
    + intros x Hx. destruct (decide (x = dest + j)) as [->|]; [apply store8_eq|].
      rewrite store8_ne by lia. apply Hi. lia.
  - exists m'. rewrite Z2Nat.id in Ho, Hi by lia. done.
Qed.

(** Copying between disjoint ranges. *)
Lemma memcpy_ok m dest src len :
  dest <> 0 -> src <> 0 -> 0 <= len ->
  (forall x, 0 <= m x < 256) ->
  dest + len <= src \/ src + len <= dest ->
  exists m', memcpy m dest src len = Ok m' /\ same_outside m m' dest (dest + len) /\
    forall i, 0 <= i < len -> m' (dest + i) = m (src + i).
Proof.
  intros Hd Hs Hl Hb Hdisj. unfold memcpy.
  replace (dest =? 0) with false by (symmetry; zbool).
  replace (src =? 0) with false by (symmetry; zbool). cbn [negb andb].
  destruct (for_loop_inv
    (fun j s => same_outside m s dest (dest + j) /\
       forall i, 0 <= i < j -> s (dest + i) = m (src + i))
    (Z.to_nat len) 0 (fun i m => Ok (store8 m (dest + i) (load8 m (src + i)))) m)
    as (m' & E & Ho & Hi).
  - split; [apply same_outside_refl|lia].
  - intros j s Hj [Ho Hi]. eexists. split; [done|]. unfold load8. rewrite Ho by lia. split.
    + intros x Hx. rewrite store8_ne by lia. apply Ho. lia.
    + intros i Hx. destruct (decide (i = j)) as [->|].
      * rewrite store8_eq. by apply u8_small.
      * rewrite store8_ne by lia. apply Hi. lia.
  - exists m'. rewrite Z2Nat.id in Ho, Hi by lia. done.
Qed.
