(* ===== verification/Page.v ===== *)
(** Paging and copy on write: [src/src/mem/page.c] with
    [src/src/include/mem/page.h].

    The page tables are bytes of the physical memory.  The kernel reaches them as
    the code does, at the virtual addresses [PAGE_DIR_VIRTUAL] and
    [PAGE_TABLES_VIRTUAL], through the entry 769 of the page directory that
    points back to the directory: every access below goes through [walk], the
    translation of the processor.

    [tlb] holds the translations the processor may have kept: those of the pages
    accessed since they were last flushed.  An access to a page whose kept
    translation is no longer the one in the tables is a fault of the model,
    whatever the processor does, so an operation that succeeds has flushed what it
    had to.  Translations the processor loads without an access are not modelled.
    An access of the kernel needs the page to be present; a store needs it to be
    writable only under [CR0.WP], which [write_protect] reads off the value that
    [boot/loader.asm] leaves in CR0: it is clear.

    The frames' reference counts and the locks are the static variables of
    [page.c]; [page_dir_lock] is the one of the running process, which is taken
    once threads run ([multi_task]). *)
From S2P Require Import Prelude Memory BitMap.

(** ** Constants of [page.h], [process.h] and [thread.h] *)
Definition PAGE_DIR_VIRTUAL : Z := 0xC0701000.
Definition PAGE_TABLES_VIRTUAL : Z := 0xC0400000.
Definition KERNEL_PAGE_DIR_PHY : Z := 0x00101000.
Definition PHYSICAL_MEM_SIZE : Z := 32 * 1024 * 1024.
Definition KERNEL_BIN_LOAD_SIZE : Z := 1024 * 1024.
Definition COPIED_PAGE_DIR_VADDR : Z := 0xFFFFD000.
Definition COPIED_PAGE_TABLE_VADDR : Z := 0xFFFFE000.
Definition COPIED_PAGE_VADDR : Z := 0xFFFFF000.
Definition USER_STACK_TOP : Z := 0xBFC00000.
Definition USER_STACK_SIZE : Z := 65536.
Definition KERNEL_STACK_GUARD_SIZE : Z := PAGE_SIZE.
Definition KERNEL_STACK_SLOT_SIZE : Z := KERNEL_STACK_GUARD_SIZE + 8192.
Definition KERNEL_STACK_AREA_START : Z := 0xE0000000.
Definition KERNEL_STACK_AREA_END : Z := 0xF0000000.

(** ** [pte_t]: the bit fields of an entry *)
Definition pte_present (w : Z) : bool := Z.testbit w 0.
Definition pte_rw (w : Z) : bool := Z.testbit w 1.
Definition pte_user (w : Z) : bool := Z.testbit w 2.
Definition pte_frame (w : Z) : Z := Z.shiftr w 12.

Definition put_bit (i : Z) (b : bool) (w : Z) : Z := if b then Z.setbit w i else Z.clearbit w i.
Definition set_present : bool -> Z -> Z := put_bit 0.
Definition set_rw : bool -> Z -> Z := put_bit 1.
Definition set_user : bool -> Z -> Z := put_bit 2.
Definition set_frame (f w : Z) : Z := Z.lor (Z.land w 0xFFF) (Z.shiftl (Z.land f 0xFFFFF) 12).

(** ** The processor's translation *)

(** The entries of page [v] in the address space whose directory is frame [d]:
    that of its table and its own, when both are present. *)
Definition walk (m : mem) (d v : Z) : option (Z * Z) :=
  let pde := load32 m (4096 * d + 4 * (v / 1024)) in
  if pte_present pde then
    let pte := load32 m (4096 * pte_frame pde + 4 * (v mod 1024)) in
    if pte_present pte then Some (pde, pte) else None
  else None.

(** ** The state *)
Record vm : Type := mk_vm {
  pm : mem;
  cr3 : Z;
  tlb : Z -> option (Z * Z);
  phy_frames_array : list Z;
  last_allocated_index : Z;
  phy_frames_map_lock : Z;
  page_copy_lock : Z;
  page_dir_lock : Z;
  multi_task : bool;
  intr : bool
}.

Definition root (s : vm) : Z := cr3 s / 4096.

Definition with_pm (s : vm) (m : mem) : vm :=
  mk_vm m (cr3 s) (tlb s) (phy_frames_array s) (last_allocated_index s) (phy_frames_map_lock s)
        (page_copy_lock s) (page_dir_lock s) (multi_task s) (intr s).
Definition with_frames (s : vm) (l : list Z) (last : Z) : vm :=
  mk_vm (pm s) (cr3 s) (tlb s) l last (phy_frames_map_lock s)
        (page_copy_lock s) (page_dir_lock s) (multi_task s) (intr s).
Definition with_locks (s : vm) (map copy dir : Z) : vm :=
  mk_vm (pm s) (cr3 s) (tlb s) (phy_frames_array s) (last_allocated_index s) map copy dir
        (multi_task s) (intr s).
Definition with_cr3 (s : vm) (c : Z) (t : Z -> option (Z * Z)) : vm :=
  mk_vm (pm s) c t (phy_frames_array s) (last_allocated_index s) (phy_frames_map_lock s)
        (page_copy_lock s) (page_dir_lock s) (multi_task s) (intr s).
Definition with_intr (s : vm) (b : bool) : vm :=
  mk_vm (pm s) (cr3 s) (tlb s) (phy_frames_array s) (last_allocated_index s) (phy_frames_map_lock s)
        (page_copy_lock s) (page_dir_lock s) (multi_task s) b.

(** ** Accesses of the kernel *)

(** The translation of page [v], kept from then on. *)
Definition lookup (s : vm) (v : Z) : res (option (Z * Z) * vm) :=
  match tlb s v with
  | Some e => if decide (walk (pm s) (root s) v = Some e) then Ok (Some e, s) else Err Fault
  | None =>
      match walk (pm s) (root s) v with
      | Some e => Ok (Some e, with_cr3 s (cr3 s) (fun u => if u =? v then Some e else tlb s u))
      | None => Ok (None, s)
      end
  end.

Definition paddr (s : vm) (va : Z) : res (Z * vm) :=
  let! (r, s) := lookup s (va / 4096) in
  match r with
  | Some (_, pte) => Ok (4096 * pte_frame pte + va mod 4096, s)
  | None => Err Fault
  end.

(** CR0 after [boot/loader.asm], from its value at reset: protected mode (line 110), then
    paging (line 342). *)
Definition CR0_RESET : Z := 0x60000010.
Definition set_cr0_pe (cr0 : Z) : Z := Z.lor cr0 0x00000001.
Definition enable_page (cr0 : Z) : Z := Z.lor cr0 0x80000000.
(** Bit 16 of CR0: stores of the kernel respect the bit [rw]. *)
Definition write_protect : bool := Z.testbit (enable_page (set_cr0_pe CR0_RESET)) 16.

(** The address of a store of the kernel. *)
Definition wpaddr (s : vm) (va : Z) : res (Z * vm) :=
  let! (r, s) := lookup s (va / 4096) in
  match r with
  | Some (pde, pte) =>
      if write_protect && negb (pte_rw pde && pte_rw pte) then Err Fault
      else Ok (4096 * pte_frame pte + va mod 4096, s)
  | None => Err Fault
  end.

Definition vload8 (s : vm) (va : Z) : res (Z * vm) :=
  let! (pa, s) := paddr s va in Ok (load8 (pm s) pa, s).
Definition vstore8 (s : vm) (va b : Z) : res vm :=
  let! (pa, s) := wpaddr s va in Ok (with_pm s (store8 (pm s) pa b)).
Definition vload32 (s : vm) (va : Z) : res (Z * vm) :=
  let! (pa, s) := paddr s va in Ok (load32 (pm s) pa, s).
Definition vstore32 (s : vm) (va w : Z) : res vm :=
  let! (pa, s) := wpaddr s va in Ok (with_pm s (store32 (pm s) pa w)).

(** An assignment to a bit field: the word is read, changed and written. *)
Definition vset (s : vm) (va : Z) (f : Z -> Z) : res vm :=
  let! (w, s) := vload32 s va in vstore32 s va (f w).

(** [memcpy] of [common/stdlib.c] on virtual addresses. *)
Definition vmemcpy (s : vm) (dest src len : Z) : res vm :=
  assert! negb (dest =? 0) && negb (src =? 0) in
  for_loop (Z.to_nat len) 0
    (fun i s => let! (b, s) := vload8 s (src + i) in vstore8 s (dest + i) b) s.

Definition flush_tlb_page (s : vm) (va : Z) : vm :=
  with_cr3 s (cr3 s) (fun v => if v =? va / 4096 then None else tlb s v).
Definition flush_tlb_all (s : vm) : vm := with_cr3 s (cr3 s) (fun _ => None).
Definition switch_page_dir (s : vm) (page_directory_entries : Z) : vm :=
  with_cr3 s page_directory_entries (fun _ => None).

(** ** Locks *)
Definition lock_frames (s : vm) : res vm :=
  let! h := yieldlock_lock (phy_frames_map_lock s) in
  Ok (with_locks s h (page_copy_lock s) (page_dir_lock s)).
Definition unlock_frames (s : vm) : vm :=
  with_locks s (yieldlock_unlock (phy_frames_map_lock s)) (page_copy_lock s) (page_dir_lock s).
Definition lock_copy (s : vm) : res vm :=
  let! h := yieldlock_lock (page_copy_lock s) in
  Ok (with_locks s (phy_frames_map_lock s) h (page_dir_lock s)).
Definition unlock_copy (s : vm) : vm :=
  with_locks s (phy_frames_map_lock s) (yieldlock_unlock (page_copy_lock s)) (page_dir_lock s).
Definition lock_dir (s : vm) : res vm :=
  if multi_task s then
    let! h := yieldlock_lock (page_dir_lock s) in
    Ok (with_locks s (phy_frames_map_lock s) (page_copy_lock s) h)
  else Ok s.
Definition unlock_dir (s : vm) : vm :=
  if multi_task s then
    with_locks s (phy_frames_map_lock s) (page_copy_lock s) (yieldlock_unlock (page_dir_lock s))
  else s.

(** ** Physical frames *)
Definition TOTAL_FRAMES : Z := PHYSICAL_MEM_SIZE / PAGE_SIZE.

(** [alloc_phy_frame]: [None] for -1. *)
Definition alloc_phy_frame (s : vm) : res (option Z * vm) :=
  let! s := lock_frames s in
  let start_index := last_allocated_index s in
  match
    for_find (Z.to_nat TOTAL_FRAMES) 0 (fun i =>
      let current_index := u32 (start_index + i) mod TOTAL_FRAMES in
      match arr_get (phy_frames_array s) current_index with
      | Err e => Some (Err e)
      | Ok n => if n =? 0 then Some (Ok current_index) else None
      end)
  with
  | Some (Ok current_index) =>
      let! l := arr_set (phy_frames_array s) current_index 1 in
      Ok (Some current_index, unlock_frames (with_frames s l current_index))
  | Some (Err e) => Err e
  | None => Ok (None, unlock_frames s)
  end.

(** [release_phy_frame] *)
Definition release_phy_frame (s : vm) (frame : Z) : res vm :=
  assert! frame <? TOTAL_FRAMES in
  let! s := lock_frames s in
  let! n := arr_get (phy_frames_array s) frame in
  assert! n >? 0 in
  let! l := arr_set (phy_frames_array s) frame (u16 (n - 1)) in
  Ok (unlock_frames (with_frames s l (last_allocated_index s))).

(** [get_phy_frame_ref] *)
Definition get_phy_frame_ref (s : vm) (frame : Z) : res (Z * vm) :=
  assert! frame <? TOTAL_FRAMES in
  let! s := lock_frames s in
  let! cnt := arr_get (phy_frames_array s) frame in
  Ok (cnt, unlock_frames s).

(** [inc_cow_ref] *)
Definition inc_cow_ref (s : vm) (frame : Z) : res vm :=
  assert! frame <? TOTAL_FRAMES in
  let! s := lock_frames s in
  let! n := arr_get (phy_frames_array s) frame in
  let! l := arr_set (phy_frames_array s) frame (u16 (n + 1)) in
  Ok (unlock_frames (with_frames s l (last_allocated_index s))).

(** [clear_page] *)
Definition clear_page (s : vm) (vaddr : Z) : res vm :=
  let addr := vaddr / PAGE_SIZE * PAGE_SIZE in
  for_loop (Z.to_nat (PAGE_SIZE / 4)) 0 (fun i s => vstore32 s (addr + 4 * i) 0) s.

(** The entries of the directory and of the tables, at their virtual addresses. *)
Definition pde_at (i : Z) : Z := PAGE_DIR_VIRTUAL + 4 * i.
Definition pte_at (v : Z) : Z := PAGE_TABLES_VIRTUAL + 4 * v.

(** ** Releasing mappings *)

(** [release_page] *)
Definition release_page (s : vm) (vaddr : Z) (frame_free : bool) : res vm :=
  let! s := lock_dir s in
  let pte := pte_at (vaddr / 4096) in
  let! (w, s) := vload32 s pte in
  if negb (pte_present w) then Ok (unlock_dir s)
  else
    let! s := if frame_free then release_phy_frame s (pte_frame w) else Ok s in
    let! s := vstore32 s pte 0 in
    Ok (unlock_dir (flush_tlb_page s vaddr)).

(** [release_pages]: the tables of the range, and in each the pages of the range. *)
Definition release_pages (s : vm) (vaddr page_count : Z) (frame_free : bool) : res vm :=
  let vaddr := vaddr / PAGE_SIZE * PAGE_SIZE in
  let pte_index_start := vaddr / 4096 in
  let pte_index_end := u32 (pte_index_start + page_count) in
  let pde_index_start := vaddr / 4194304 in
  let pde_index_end := u32 (pte_index_end - 1) / 1024 + 1 in
  for_loop (Z.to_nat (pde_index_end - pde_index_start)) pde_index_start
    (fun i s =>
       let! (pde, s) := vload32 s (pde_at i) in
       if negb (pte_present pde) then Ok s
       else
         let lo := Z.max (i * 1024) pte_index_start in
         let hi := Z.min (i * 1024 + 1024) pte_index_end in
         for_loop (Z.to_nat (hi - lo)) lo
           (fun j s => release_page s (u32 (j * PAGE_SIZE)) frame_free) s) s.

(** [release_page_tables] *)
Definition release_page_tables (s : vm) (pde_index_start num : Z) : res vm :=
  for_loop (Z.to_nat num) pde_index_start
    (fun i s =>
       let! (pde, s) := vload32 s (pde_at i) in
       if negb (pte_present pde) then Ok s
       else
         let! s := release_phy_frame s (pte_frame pde) in
         vstore32 s (pde_at i) 0) s.

(** ** Mapping *)

(** The first part of [map_page_with_frame_impl]: the table of the page exists. *)
Definition ensure_table (s : vm) (pd_index : Z) (is_user_page : bool) : res vm :=
  let pde := pde_at pd_index in
  let! (w, s) := vload32 s pde in
  if negb (pte_present w) then
    let! (r, s) := alloc_phy_frame s in
    match r with
    | None => Err Panic
    | Some addr =>
        let! s := vset s pde (set_present true) in
        let! s := vset s pde (set_rw true) in
        let! s := vset s pde (set_user is_user_page) in
        let! s := vset s pde (set_frame addr) in
        clear_page (flush_tlb_all s) (PAGE_TABLES_VIRTUAL + pd_index * PAGE_SIZE)
    end
  else Ok s.

(** The second part: the entry of the page; a [frame] that is not positive stands
    for none. *)
Definition map_leaf (s : vm) (vaddr frame : Z) (is_user_page : bool) : res vm :=
  let pte := pte_at (vaddr / 4096) in
  let! (w, s) := vload32 s pte in
  if frame >? 0 then
    assert! negb (pte_present w) in
    let! s := vset s pte (set_present true) in
    let! s := vset s pte (set_user is_user_page) in
    let! s := vset s pte (set_rw true) in
    let! s := vset s pte (set_frame frame) in
    Ok (flush_tlb_page s vaddr)
  else if negb (pte_present w) then
    let! (r, s) := alloc_phy_frame s in
    match r with
    | None => Err Panic
    | Some frame =>
        let! s := vset s pte (set_present true) in
        let! s := vset s pte (set_rw true) in
        let! s := vset s pte (set_user is_user_page) in
        let! s := vset s pte (set_frame frame) in
        clear_page (flush_tlb_page s vaddr) vaddr
    end
  else Ok s.

(** [map_page_with_frame_impl] *)
Definition map_page_with_frame_impl (s : vm) (vaddr frame : Z) : res vm :=
  let is_user_page := vaddr <? 0xC0000000 in
  let! s := ensure_table s (vaddr / 4194304) is_user_page in
  map_leaf s vaddr frame is_user_page.

(** [map_page_with_frame] *)
Definition map_page_with_frame (s : vm) (vaddr frame : Z) : res vm :=
  let! s := lock_dir s in
  let! s := map_page_with_frame_impl s vaddr frame in
  Ok (unlock_dir s).

(** [map_page] *)
Definition map_page (s : vm) (vaddr : Z) : res vm := map_page_with_frame s vaddr (-1).

(** ** Copy on write *)

(** [handle_cow_fault] *)
Definition handle_cow_fault (s : vm) (vaddr : Z) : res vm :=
  let! (pde, s) := vload32 s (pde_at (vaddr / 4194304)) in
  assert! pte_present pde in
  let pte := pte_at (vaddr / 4096) in
  let! (w, s) := vload32 s pte in
  assert! pte_present w in
  let frame := pte_frame w in
  let! (n, s) := get_phy_frame_ref s frame in
  assert! n >=? 1 in
  let! (n, s) := get_phy_frame_ref s frame in
  if n =? 1 then
    let! s := vset s pte (set_rw true) in
    Ok (flush_tlb_page s vaddr)
  else
    let! (r, s) := alloc_phy_frame s in
    match r with
    | None => Err Panic
    | Some cow_frame =>
        let! s := lock_copy s in
        let copy_page := COPIED_PAGE_VADDR in
        let! s := map_page_with_frame_impl s copy_page cow_frame in
        let! s := vmemcpy s copy_page (vaddr / PAGE_SIZE * PAGE_SIZE) PAGE_SIZE in
        let s := unlock_copy s in
        let! s := lock_dir s in
        let! s := vset s pte (set_frame cow_frame) in
        let! s := vset s pte (set_rw true) in
        let s := flush_tlb_page (unlock_dir s) vaddr in
        let! s := release_pages s copy_page 1 false in
        release_phy_frame s frame
    end.

(** The entries of one table of [clone_crt_page_dir]: each present one becomes
    read-only in both tables and counts once more. *)
Definition share_table (s : vm) (copied_page_table i : Z) : res vm :=
  for_loop 1024 0
    (fun j s =>
       let crt_pte := PAGE_TABLES_VIRTUAL + i * PAGE_SIZE + 4 * j in
       let new_pte := copied_page_table + 4 * j in
       let! (w, s) := vload32 s new_pte in
       if negb (pte_present w) then Ok s
       else
         let! s := vset s crt_pte (set_rw false) in
         let! s := vset s new_pte (set_rw false) in
         let! (w, s) := vload32 s new_pte in
         inc_cow_ref s (pte_frame w)) s.

(** One round of the loop of [clone_crt_page_dir] over the user's tables. *)
Definition clone_table (s : vm) (copied_page_dir copied_page_table i : Z) : res vm :=
  let! (w, s) := vload32 s (pde_at i) in
  if negb (pte_present w) then Ok s
  else
    let! s := lock_dir s in
    let! (r, s) := alloc_phy_frame s in
    match r with
    | None => Err Panic
    | Some new_pt_frame =>
        let! s := map_page_with_frame_impl s copied_page_table new_pt_frame in
        let! s := vmemcpy s copied_page_table (PAGE_TABLES_VIRTUAL + i * PAGE_SIZE) PAGE_SIZE in
        let! s := share_table s copied_page_table i in
        let s := unlock_dir (flush_tlb_all s) in
        let new_pde := copied_page_dir + 4 * i in
        let! s := vset s new_pde (set_present true) in
        let! s := vset s new_pde (set_rw true) in
        let! s := vset s new_pde (set_user true) in
        let! s := vset s new_pde (set_frame new_pt_frame) in
        release_pages s copied_page_table 1 false
    end.

(** The kernel's entries of the new directory. *)
Definition clone_kernel_entries (s : vm) (copied_page_dir new_pd_frame : Z) : res vm :=
  for_loop 256 768
    (fun i s =>
       let new_pde := copied_page_dir + 4 * i in
       if i =? 769 then
         let! s := vset s new_pde (set_present true) in
         let! s := vset s new_pde (set_rw true) in
         let! s := vset s new_pde (set_user false) in
         vset s new_pde (set_frame new_pd_frame)
       else
         let! (w, s) := vload32 s (pde_at i) in
         vstore32 s new_pde w) s.

(** [clone_crt_page_dir]: the physical address of the new directory. *)
Definition clone_crt_page_dir (s : vm) : res (Z * vm) :=
  let! (r, s) := alloc_phy_frame s in
  match r with
  | None => Err Panic
  | Some new_pd_frame =>
      let copied_page_dir := COPIED_PAGE_DIR_VADDR in
      let! s := lock_copy s in
      let! s := map_page_with_frame s copied_page_dir new_pd_frame in
      let! s := clear_page s copied_page_dir in
      let! (w, s) := vload32 s PAGE_DIR_VIRTUAL in
      let! s := vstore32 s copied_page_dir w in
      let! s := clone_kernel_entries s copied_page_dir new_pd_frame in
      let! s := for_loop 767 1
        (fun i s => clone_table s copied_page_dir COPIED_PAGE_TABLE_VADDR i) s in
      let! s := release_pages s copied_page_dir 1 false in
      let s := unlock_copy s in
      Ok (new_pd_frame * PAGE_SIZE, s)
  end.

(** ** Page faults *)

(** [is_current_user_stack_addr]: [Some guard] when the address lies in the stack
    of a thread of the process.  [stacks] are the [user_stack_index] of the
    threads, in the order of the iteration over the process' table. *)
Fixpoint is_current_user_stack_addr (stacks : list Z) (addr : Z) : option bool :=
  match stacks with
  | [] => None
  | user_stack_index :: stacks =>
      if user_stack_index <? 0 then is_current_user_stack_addr stacks addr
      else
        let stack_top := u32 (USER_STACK_TOP - user_stack_index * USER_STACK_SIZE) in
        let stack_bottom := u32 (stack_top - USER_STACK_SIZE) in
        let guard_end := u32 (stack_bottom + PAGE_SIZE) in
        if (addr >=? stack_bottom) && (addr <? stack_top) then Some (addr <? guard_end)
        else is_current_user_stack_addr stacks addr
  end.

Definition is_kernel_stack_area_addr (addr : Z) : bool :=
  (addr >=? KERNEL_STACK_AREA_START) && (addr <? KERNEL_STACK_AREA_END).

Definition is_kernel_stack_guard_addr (addr : Z) : bool :=
  if negb (is_kernel_stack_area_addr addr) then false
  else (addr - KERNEL_STACK_AREA_START) mod KERNEL_STACK_SLOT_SIZE <? KERNEL_STACK_GUARD_SIZE.

(** [pagefault_handler] *)
Definition pagefault_handler (stacks : list Z) (s : vm) (faulting_address err_code : Z) : res vm :=
  let present := Z.testbit err_code 0 in
  let rw := Z.testbit err_code 1 in
  let user_mode := Z.testbit err_code 2 in
  if faulting_address <? 0x1000 then Err Panic
  else if negb present then
    let guard :=
      if multi_task s then default false (is_current_user_stack_addr stacks faulting_address) else false in
    if user_mode && guard then Err Panic
    else if negb user_mode && is_kernel_stack_area_addr faulting_address then Err Panic
    else map_page (with_intr s true) (faulting_address / PAGE_SIZE * PAGE_SIZE)
  else if rw then
    if user_mode && (faulting_address >=? 0xC0000000) then Err Panic
    else handle_cow_fault (with_intr s true) faulting_address
  else Err Panic.

(** ** Initialisation *)

(** [unmap_low_identity] *)
Definition unmap_low_identity (s : vm) : res vm :=
  let! s := vstore32 s PAGE_DIR_VIRTUAL 0 in Ok (flush_tlb_all s).

(** [init_page]; the registration of the handler is left out. *)
Definition init_page (s : vm) : res vm :=
  let s := with_locks s yieldlock_init yieldlock_init (page_dir_lock s) in
  let l := repeat 1 768 ++ repeat 0 (Z.to_nat TOTAL_FRAMES - 769) ++ [1] in
  let s := with_frames s l (last_allocated_index s) in
  let! s := unmap_low_identity s in
  let! s := release_pages s (u32 (0xffffffff - KERNEL_BIN_LOAD_SIZE + 1)) (KERNEL_BIN_LOAD_SIZE / PAGE_SIZE) false in
  let! s := for_loop 256 768
    (fun i s =>
       if i =? PAGE_TABLES_VIRTUAL / 4194304 then Ok s
       else
         let! (w, s) := vload32 s (pde_at i) in
         if negb (pte_present w) then
           let! (r, s) := alloc_phy_frame s in
           match r with
           | None => Err Panic
           | Some addr =>
               let! s := vset s (pde_at i) (set_present true) in
               let! s := vset s (pde_at i) (set_rw true) in
               let! s := vset s (pde_at i) (set_user false) in
               let! s := vset s (pde_at i) (set_frame addr) in
               clear_page (flush_tlb_all s) (PAGE_TABLES_VIRTUAL + i * PAGE_SIZE)
           end
         else Ok s) s in
  Ok (flush_tlb_all s).

(** ** The end of an address space, in [task/process.c] *)

(** [release_user_space_pages] *)
Definition release_user_space_pages (s : vm) : res vm :=
  let! s := release_pages s (4 * 1024 * 1024) (767 * 1024) true in
  release_page_tables s 1 767.

(** The directory, in [destroy_process]. *)
Definition destroy_page_dir (s : vm) (page_directory_entries : Z) : res vm :=
  release_phy_frame s (page_directory_entries / PAGE_SIZE).

(** ** Accesses of a user program *)

(** What the processor does with an access in user mode: the physical address, or
    the error code of the fault.  A write needs both entries writable. *)
Definition user_access (s : vm) (va : Z) (write : bool) : res (sum Z Z * vm) :=
  let wbit := if write then 2 else 0 in
  let! (r, s) := lookup s (va / 4096) in
  match r with
  | None => Ok (inr (4 + wbit), s)
  | Some (pde, pte) =>
      if pte_user pde && pte_user pte && (negb write || (pte_rw pde && pte_rw pte))
      then Ok (inl (4096 * pte_frame pte + va mod 4096), s)
      else Ok (inr (4 + wbit + 1), s)
  end.

(** An instruction that faults runs again after the handler; [fuel] bounds how
    often. *)
Fixpoint user_run {A : Type} (fuel : nat) (stacks : list Z) (s : vm) (va : Z) (write : bool)
    (k : vm -> Z -> A) : res A :=
  match fuel with
  | O => Err NoFuel
  | S fuel =>
      let! (r, s) := user_access s va write in
      match r with
      | inl pa => Ok (k s pa)
      | inr err_code =>
          let! s := pagefault_handler stacks s va err_code in
          user_run fuel stacks s va write k
      end
  end.

Definition user_load (fuel : nat) (stacks : list Z) (s : vm) (va : Z) : res (Z * vm) :=
  user_run fuel stacks s va false (fun s pa => (load8 (pm s) pa, s)).
Definition user_store (fuel : nat) (stacks : list Z) (s : vm) (va b : Z) : res vm :=
  user_run fuel stacks s va true (fun s pa => with_pm s (store8 (pm s) pa b)).
