(* ===== verification/PageMem.v ===== *)
(** The machine layer of paging: bit fields of an entry, entries in memory, what
    a store does to the translation, and the access functions through the
    directory's entry to itself. *)
From S2P Require Import Prelude Memory BitMap Page.

(** ** Words and bit fields *)
Definition word (w : Z) : Prop := 0 <= w < 2 ^ 32.

Lemma word_bits w : 0 <= w -> word w <-> forall l, 32 <= l -> Z.testbit w l = false.
Proof. intros H. unfold word. rewrite <- Z.bounded_iff_bits_nonneg' by lia. done. Qed.

Lemma put_bit_spec i b w j : 0 <= i -> 0 <= j ->
  Z.testbit (put_bit i b w) j = if j =? i then b else Z.testbit w j.
Proof.
  intros. unfold put_bit. destruct b.
  - rewrite Z.setbit_eqb by lia. rewrite Z.eqb_sym. by destruct (j =? i).
  - rewrite Z.clearbit_eqb by lia. rewrite Z.eqb_sym. destruct (j =? i); [by rewrite andb_false_r|by rewrite andb_true_r].
Qed.

Lemma put_bit_word i b w : 0 <= i < 32 -> word w -> word (put_bit i b w).
Proof.
  intros Hi Hw.
  assert (0 <= put_bit i b w).
  { unfold put_bit. destruct b.
    - unfold Z.setbit. apply Z.lor_nonneg. split; [apply Hw|]. apply Z.shiftl_nonneg. lia.
    - unfold Z.clearbit. apply Z.ldiff_nonneg. left. apply Hw. }
  apply word_bits; [done|]. intros l Hl. rewrite put_bit_spec by lia.
  replace (l =? i) with false by (symmetry; zbool; lia).
  apply word_bits; [apply Hw|done|done].
Qed.

Lemma put_bit_frame i b w : 0 <= i < 12 -> pte_frame (put_bit i b w) = pte_frame w.
Proof.
  intros Hi. unfold pte_frame. apply Z.bits_inj'. intros n Hn.
  rewrite !Z.shiftr_spec, put_bit_spec by lia.
  by replace (n + 12 =? i) with false by (symmetry; zbool; lia).
Qed.

Lemma set_frame_low f w i : 0 <= i < 12 -> Z.testbit (set_frame f w) i = Z.testbit w i.
Proof.
  intros Hi. unfold set_frame. rewrite Z.lor_spec, Z.land_spec.
  rewrite (Z.shiftl_spec_low _ 12 i) by lia. rewrite orb_false_r.
  change 0xFFF with (Z.ones 12). rewrite Z.ones_spec_low by lia. apply andb_true_r.
Qed.

Lemma set_frame_high f w i : 12 <= i ->
  Z.testbit (set_frame f w) i = Z.testbit f (i - 12) && (i <? 32).
Proof.
  intros Hi. unfold set_frame. rewrite Z.lor_spec, Z.land_spec.
  rewrite (Z.shiftl_spec_high _ 12 i) by lia. rewrite Z.land_spec.
  change 0xFFF with (Z.ones 12). rewrite Z.ones_spec_high by lia. rewrite andb_false_r. cbn.
  change 0xFFFFF with (Z.ones 20). f_equal.
  destruct (decide (i < 32)).
  - rewrite Z.ones_spec_low by lia. symmetry. by apply Z.ltb_lt.
  - rewrite Z.ones_spec_high by lia. symmetry. apply Z.ltb_ge. lia.
Qed.

Lemma set_frame_word f w : word (set_frame f w).
Proof.
  assert (0 <= set_frame f w).
  { unfold set_frame. apply Z.lor_nonneg. split; [apply Z.land_nonneg; right; lia|].
    apply Z.shiftl_nonneg, Z.land_nonneg. right. lia. }
  apply word_bits; [done|]. intros l Hl. rewrite set_frame_high by lia.
  replace (l <? 32) with false by (symmetry; zbool; lia). apply andb_false_r.
Qed.

Lemma set_frame_frame f w : 0 <= f < 2 ^ 20 -> pte_frame (set_frame f w) = f.
Proof.
  intros Hf. unfold pte_frame. apply Z.bits_inj'. intros n Hn.
  rewrite Z.shiftr_spec, set_frame_high by lia. replace (n + 12 - 12) with n by lia.
  destruct (decide (n + 12 < 32)) as [Hlt|Hge].
  - replace (n + 12 <? 32) with true by (symmetry; by apply Z.ltb_lt). apply andb_true_r.
  - replace (n + 12 <? 32) with false by (symmetry; apply Z.ltb_ge; lia). rewrite andb_false_r. symmetry.
    revert n Hn Hge. intros n Hn Hge.
    apply (proj1 (Z.bounded_iff_bits_nonneg' 20 f ltac:(lia) ltac:(lia)) Hf). lia.
Qed.

Lemma frame_range w : word w -> 0 <= pte_frame w < 2 ^ 20.
Proof.
  unfold word, pte_frame. intros Hw. rewrite Z.shiftr_div_pow2 by lia.
  split; [apply Z.div_pos; lia|]. apply Z.div_lt_upper_bound; lia.
Qed.

Lemma zero_absent : pte_present 0 = false.
Proof. done. Qed.

(** The fields after an assignment to one of them. *)
Lemma fields_put i b w : 0 <= i < 12 ->
  pte_present (put_bit i b w) = (if 0 =? i then b else pte_present w) /\
  pte_rw (put_bit i b w) = (if 1 =? i then b else pte_rw w) /\
  pte_user (put_bit i b w) = (if 2 =? i then b else pte_user w) /\
  pte_frame (put_bit i b w) = pte_frame w.
Proof.
  intros Hi. unfold pte_present, pte_rw, pte_user. rewrite !put_bit_spec, put_bit_frame by lia. done.
Qed.

Lemma fields_frame f w : 0 <= f < 2 ^ 20 ->
  pte_present (set_frame f w) = pte_present w /\ pte_rw (set_frame f w) = pte_rw w /\
  pte_user (set_frame f w) = pte_user w /\ pte_frame (set_frame f w) = f.
Proof.
  intros Hf. unfold pte_present, pte_rw, pte_user. rewrite !set_frame_low, set_frame_frame by lia. done.
Qed.

(** ** Entries in memory *)
Definition bytes_ok (m : mem) : Prop := forall x, 0 <= m x < 256.

(** Entry [i] of the table (or directory) in frame [f]. *)
Definition ent (m : mem) (f i : Z) : Z := load32 m (4096 * f + 4 * i).

Lemma ent_word m f i : bytes_ok m -> word (ent m f i).
Proof.
  intros H. unfold ent, load32, word.
  pose proof (H (4096 * f + 4 * i)). pose proof (H (4096 * f + 4 * i + 1)).
  pose proof (H (4096 * f + 4 * i + 2)). pose proof (H (4096 * f + 4 * i + 3)). lia.
Qed.

Lemma store8_ok m a v : bytes_ok m -> bytes_ok (store8 m a v).
Proof. intros H x. unfold store8. destruct (x =? a); [apply u8_range|apply H]. Qed.

Lemma store32_ok m a v : bytes_ok m -> bytes_ok (store32 m a v).
Proof. intros H. unfold store32. by repeat apply store8_ok. Qed.

#[export] Hint Resolve ent_word store8_ok store32_ok : cmem.

(** [m'] is [m] with [w] in entry [i] of frame [f]. *)
Record upd (m : mem) (f i w : Z) (m' : mem) : Prop := {
  upd_ok : bytes_ok m';
  upd_eq : ent m' f i = w;
  upd_ne x : ~ (4096 * f + 4 * i <= x < 4096 * f + 4 * i + 4) -> m' x = m x
}.

Lemma upd_store m f i w : bytes_ok m -> word w -> upd m f i w (store32 m (4096 * f + 4 * i) w).
Proof.
  intros Hm Hw. split; [by apply store32_ok|by apply load32_store32|].
  intros x Hx. by apply store32_ne.
Qed.

Lemma upd_trans m f i w1 w2 m1 m2 : upd m f i w1 m1 -> upd m1 f i w2 m2 -> upd m f i w2 m2.
Proof.
  intros [_ _ H1] [O2 E2 H2]. split; [done|done|]. intros x Hx. by rewrite H2, H1.
Qed.

Lemma upd_ent m f i w m' g j : upd m f i w m' -> 0 <= i < 1024 -> 0 <= j < 1024 ->
  ent m' g j = if decide (g = f /\ j = i) then w else ent m g j.
Proof.
  intros [_ E H] Hi Hj. case_decide as Hd; [destruct Hd as [-> ->]; done|].
  unfold ent, load32. rewrite !H by lia. done.
Qed.

Lemma upd_ent_ne m f i w m' g j : upd m f i w m' -> 0 <= i < 1024 -> 0 <= j < 1024 ->
  g <> f \/ j <> i -> ent m' g j = ent m g j.
Proof. intros U Hi Hj Hd. erewrite upd_ent by done. rewrite decide_False by naive_solver. done. Qed.

Lemma upd_byte m f i w m' g o : upd m f i w m' -> 0 <= i < 1024 -> g <> f -> 0 <= o < 4096 ->
  m' (4096 * g + o) = m (4096 * g + o).
Proof. intros U Hi Hg Ho. apply (upd_ne _ _ _ _ _ U). lia. Qed.

(** Two memories that agree on a frame. *)
Definition same_frame (m m' : mem) (f : Z) : Prop := forall o, 0 <= o < 4096 -> m' (4096 * f + o) = m (4096 * f + o).

Lemma same_frame_ent m m' f i : same_frame m m' f -> 0 <= i < 1024 -> ent m' f i = ent m f i.
Proof.
  intros H Hi. unfold ent, load32. rewrite <- !Z.add_assoc.
  rewrite (H (4 * i)), (H (4 * i + 1)), (H (4 * i + 2)), (H (4 * i + 3)) by lia. done.
Qed.

Lemma same_frame_refl m f : same_frame m m f.
Proof. by intros o. Qed.

Lemma same_frame_trans m1 m2 m3 f : same_frame m1 m2 f -> same_frame m2 m3 f -> same_frame m1 m3 f.
Proof. intros H1 H2 o Ho. by rewrite H2, H1. Qed.

Lemma upd_same_frame m f i w m' g : upd m f i w m' -> 0 <= i < 1024 -> g <> f -> same_frame m m' g.
Proof. intros U Hi Hg o Ho. by eapply upd_byte. Qed.

(** ** What a store does to the translation *)
Lemma walk_ent m d v :
  walk m d v =
  let pde := ent m d (v / 1024) in
  if pte_present pde then
    let pte := ent m (pte_frame pde) (v mod 1024) in
    if pte_present pte then Some (pde, pte) else None
  else None.
Proof. done. Qed.

Lemma walk_same m m' d v :
  ent m' d (v / 1024) = ent m d (v / 1024) ->
  (pte_present (ent m d (v / 1024)) = true ->
   ent m' (pte_frame (ent m d (v / 1024))) (v mod 1024) = ent m (pte_frame (ent m d (v / 1024))) (v mod 1024)) ->
  walk m' d v = walk m d v.
Proof. intros E1 E2. rewrite !walk_ent. cbv zeta. rewrite E1. destruct (pte_present _); [by rewrite E2|done]. Qed.

(** Page [v] of the address space [d] is translated through entry [i] of frame [f]. *)
Definition through (m : mem) (d f i v : Z) : Prop :=
  (f = d /\ v / 1024 = i) \/
  (pte_present (ent m d (v / 1024)) = true /\ pte_frame (ent m d (v / 1024)) = f /\ v mod 1024 = i).

Lemma walk_upd m d f i w m' v : upd m f i w m' -> 0 <= i < 1024 -> 0 <= v < 2 ^ 20 ->
  ~ through m d f i v -> walk m' d v = walk m d v.
Proof.
  intros U Hi Hv Ht. pose proof (Z.mod_pos_bound v 1024 ltac:(lia)).
  assert (0 <= v / 1024 < 1024) by (split; [apply Z.div_pos; lia|apply Z.div_lt_upper_bound; lia]).
  unfold through in Ht. apply walk_same.
  - eapply upd_ent_ne; [done..|]. destruct (decide (d = f)), (decide (v / 1024 = i)); naive_solver.
  - intros Hp. eapply upd_ent_ne; [done..|].
    destruct (decide (pte_frame (ent m d (v / 1024)) = f)), (decide (v mod 1024 = i)); naive_solver.
Qed.

Lemma through_upd m d f i w m' v : upd m f i w m' -> 0 <= i < 1024 -> 0 <= v < 2 ^ 20 ->
  through m' d f i v -> through m d f i v.
Proof.
  intros U Hi Hv.
  assert (0 <= v / 1024 < 1024) by (split; [apply Z.div_pos; lia|apply Z.div_lt_upper_bound; lia]).
  intros [?|(Hp & Hf & Hm)]; [by left|].
  destruct (decide (d = f /\ v / 1024 = i)) as [[-> ?]|Hn]; [by left|].
  right. erewrite upd_ent_ne in Hp, Hf by (done || destruct (decide (d = f)); naive_solver). done.
Qed.

(** ** The state, but for the memory and the TLB *)
Definition mt (s : vm) (m : mem) (t : Z -> option (Z * Z)) : vm := with_cr3 (with_pm s m) (cr3 s) t.

Lemma mt_self s : s = mt s (pm s) (tlb s).
Proof. by destruct s. Qed.
Lemma mt_mt s m t m' t' : mt (mt s m t) m' t' = mt s m' t'.
Proof. done. Qed.
Lemma mt_root s m t : root (mt s m t) = root s.
Proof. done. Qed.

(** What the TLB holds is what the tables say, but for the pages of [P]. *)
Definition tlb_fresh (t : Z -> option (Z * Z)) (m : mem) (d : Z) (P : Z -> Prop) : Prop :=
  forall v e, t v = Some e -> 0 <= v < 2 ^ 20 /\ (walk m d v = Some e \/ P v).

Lemma tlb_fresh_weaken t m d (P Q : Z -> Prop) :
  tlb_fresh t m d P -> (forall v, is_Some (t v) -> P v -> Q v) -> tlb_fresh t m d Q.
Proof. intros H HPQ v e Ht. destruct (H v e Ht) as [? [?|?]]; [auto|]. split; [done|]. right. apply HPQ; [by eexists|done]. Qed.

Lemma tlb_fresh_none m d P : tlb_fresh (fun _ => None) m d P.
Proof. by intros v e. Qed.

(** The access of page [v]: it is found, and the TLB gains at most [v]. *)
Lemma vlookup_ok s v e P :
  tlb_fresh (tlb s) (pm s) (root s) P -> ~ P v -> 0 <= v < 2 ^ 20 ->
  walk (pm s) (root s) v = Some e ->
  exists t, lookup s v = Ok (Some e, mt s (pm s) t) /\ tlb_fresh t (pm s) (root s) P /\
    forall u, is_Some (t u) -> is_Some (tlb s u) \/ u = v.
Proof.
  intros Ht HP Hv Hw. unfold lookup. destruct (tlb s v) as [e'|] eqn:Hl.
  - destruct (Ht v e' Hl) as [_ [He|?]]; [|done]. rewrite decide_True by done.
    exists (tlb s). rewrite <- mt_self. split; [congruence|]. split; [done|]. intros u ?. by left.
  - rewrite Hw. eexists. split; [reflexivity|]. split.
    + intros u e' H. destruct (u =? v) eqn:E; [|by apply Ht].
      bool_to_prop. simplify_eq. auto.
    + intros u [x H]. destruct (u =? v) eqn:E; [right; by bool_to_prop|left; by eexists].
Qed.

Lemma lookup_none s v P :
  tlb_fresh (tlb s) (pm s) (root s) P -> ~ P v -> walk (pm s) (root s) v = None ->
  lookup s v = Ok (None, s).
Proof.
  intros Ht HP Hw. unfold lookup. destruct (tlb s v) as [e'|] eqn:Hl.
  - destruct (Ht v e' Hl) as [_ [He|?]]; [congruence|done].
  - by rewrite Hw.
Qed.

(** Address [va] is byte [o] of frame [f]. *)
Definition points (m : mem) (d va f o : Z) : Prop :=
  0 <= va < 2 ^ 32 /\ va mod 4096 = o /\ exists e, walk m d (va / 4096) = Some e /\ pte_frame (snd e) = f.

Lemma page_range va : 0 <= va < 2 ^ 32 -> 0 <= va / 4096 < 2 ^ 20.
Proof. intros. split; [apply Z.div_pos; lia|apply Z.div_lt_upper_bound; lia]. Qed.

(** With [CR0.WP] clear, a store goes where a load does. *)
Lemma wpaddr_paddr s va : wpaddr s va = paddr s va.
Proof. unfold wpaddr, paddr. destruct (lookup s (va / 4096)) as [[[[pde pte]|] s']|e]; reflexivity. Qed.

Lemma paddr_ok s va f o P :
  tlb_fresh (tlb s) (pm s) (root s) P -> ~ P (va / 4096) -> points (pm s) (root s) va f o ->
  exists t, paddr s va = Ok (4096 * f + o, mt s (pm s) t) /\ tlb_fresh t (pm s) (root s) P /\
    forall u, is_Some (t u) -> is_Some (tlb s u) \/ u = va / 4096.
Proof.
  intros Ht HP (Hr & Ho & [pde pte] & Hw & Hf).
  destruct (vlookup_ok s (va / 4096) _ P Ht HP (page_range _ Hr) Hw) as (t & E & H).
  exists t. unfold paddr. rewrite E. cbn in *. subst. done.
Qed.

Lemma vload32_ok s va f i P :
  tlb_fresh (tlb s) (pm s) (root s) P -> ~ P (va / 4096) -> points (pm s) (root s) va f (4 * i) ->
  exists t, vload32 s va = Ok (ent (pm s) f i, mt s (pm s) t) /\ tlb_fresh t (pm s) (root s) P /\
    forall u, is_Some (t u) -> is_Some (tlb s u) \/ u = va / 4096.
Proof.
  intros Ht HP Hp. destruct (paddr_ok s va f (4 * i) P Ht HP Hp) as (t & E & H).
  exists t. unfold vload32. rewrite E. done.
Qed.

(** The TLB after stores to the entries [I] of frame [f] through page [u]. *)
Lemma tlb_fresh_upd (t t0 : Z -> option (Z * Z)) m d f i w m' P u :
  tlb_fresh t m d P -> (forall v, is_Some (t v) -> is_Some (t0 v) \/ v = u) ->
  upd m f i w m' -> 0 <= i < 1024 -> ~ through m d f i u ->
  tlb_fresh t m' d (fun v => P v \/ (is_Some (t0 v) /\ through m d f i v)).
Proof.
  intros Ht Hd U Hi Hu v e Hv. destruct (Ht v e Hv) as [Hr Hw]. split; [done|].
  destruct Hw as [Hw|?]; [|by (right; left)].
  assert (Hdec : {through m d f i v} + {~ through m d f i v}) by (unfold through; apply decide; apply _).
  destruct Hdec as [Hth|Hth].
  - right. right. split; [|done]. destruct (Hd v ltac:(eexists; exact Hv)) as [? | ->]; done.
  - left. by rewrite (walk_upd m d f i w m' v).
Qed.

Lemma vstore32_ok s va f i w P :
  bytes_ok (pm s) -> tlb_fresh (tlb s) (pm s) (root s) P -> ~ P (va / 4096) ->
  points (pm s) (root s) va f (4 * i) -> 0 <= i < 1024 -> word w ->
  ~ through (pm s) (root s) f i (va / 4096) ->
  exists m t, vstore32 s va w = Ok (mt s m t) /\ upd (pm s) f i w m /\
    tlb_fresh t m (root s) (fun v => P v \/ (is_Some (tlb s v) /\ through (pm s) (root s) f i v)) /\
    forall u, is_Some (t u) -> is_Some (tlb s u) \/ u = va / 4096.
Proof.
  intros Hm Ht HP Hp Hi Hw Hth. destruct (paddr_ok s va f (4 * i) P Ht HP Hp) as (t & E & Ht' & Hd).
  unfold vstore32. rewrite wpaddr_paddr, E. cbn [res_bind].
  exists (store32 (pm s) (4096 * f + 4 * i) w), t. split; [done|].
  pose proof (upd_store (pm s) f i w Hm Hw) as U. split; [done|]. split; [|done].
  by eapply tlb_fresh_upd.
Qed.

(** Byte stores. *)
Lemma through_frame_dec m d f v :
  {f = d \/ (pte_present (ent m d (v / 1024)) = true /\ pte_frame (ent m d (v / 1024)) = f)} +
  {~ (f = d \/ (pte_present (ent m d (v / 1024)) = true /\ pte_frame (ent m d (v / 1024)) = f))}.
Proof. apply decide; apply _. Qed.

(** Page [v] of [d] is translated through frame [f]. *)
Definition via (m : mem) (d f v : Z) : Prop :=
  f = d \/ (pte_present (ent m d (v / 1024)) = true /\ pte_frame (ent m d (v / 1024)) = f).

Lemma through_via m d f i v : through m d f i v -> via m d f v.
Proof. unfold through, via. naive_solver. Qed.

(** Memories that agree outside frame [f]. *)
Definition only_frame (m m' : mem) (f : Z) : Prop :=
  bytes_ok m' /\ forall x, ~ (4096 * f <= x < 4096 * f + 4096) -> m' x = m x.

Lemma only_frame_same m m' f g : only_frame m m' f -> g <> f -> same_frame m m' g.
Proof. intros [_ H] Hg o Ho. apply H. lia. Qed.

Lemma only_frame_ent m m' f g i : only_frame m m' f -> g <> f -> 0 <= i < 1024 -> ent m' g i = ent m g i.
Proof. intros H Hg Hi. eapply same_frame_ent; [by eapply only_frame_same|done]. Qed.

Lemma only_frame_trans m1 m2 m3 f : only_frame m1 m2 f -> only_frame m2 m3 f -> only_frame m1 m3 f.
Proof. intros [_ H1] [O H2]. split; [done|]. intros x Hx. by rewrite H2, H1. Qed.

Lemma upd_only m f i w m' : upd m f i w m' -> 0 <= i < 1024 -> only_frame m m' f.
Proof. intros [O _ H] Hi. split; [done|]. intros x Hx. apply H. lia. Qed.

Lemma walk_only m m' d f v : only_frame m m' f -> 0 <= v < 2 ^ 20 -> ~ via m d f v -> walk m' d v = walk m d v.
Proof.
  intros H Hv Hn. pose proof (Z.mod_pos_bound v 1024 ltac:(lia)).
  assert (0 <= v / 1024 < 1024) by (split; [apply Z.div_pos; lia|apply Z.div_lt_upper_bound; lia]).
  unfold via in Hn. apply walk_same.
  - eapply only_frame_ent; [done| |done]. naive_solver.
  - intros Hp. eapply only_frame_ent; [done| |done]. naive_solver.
Qed.

Lemma via_only m m' d f v : only_frame m m' f -> f <> d -> 0 <= v < 2 ^ 20 -> via m' d f v -> via m d f v.
Proof.
  intros H Hf Hv.
  assert (0 <= v / 1024 < 1024) by (split; [apply Z.div_pos; lia|apply Z.div_lt_upper_bound; lia]).
  unfold via. erewrite !(only_frame_ent m m' f d) by (done || lia). done.
Qed.

Lemma points_only m m' d f va g o : only_frame m m' f -> ~ via m d f (va / 4096) ->
  points m d va g o -> points m' d va g o.
Proof.
  intros H Hn (Hr & Ho & e & Hw & Hf). split; [done|]. split; [done|]. exists e. split; [|done].
  by rewrite (walk_only m m' d f) by (done || by apply page_range).
Qed.

(** ** Assignments to an entry *)
Lemma vset_ok s va f i g P :
  bytes_ok (pm s) -> tlb_fresh (tlb s) (pm s) (root s) P -> ~ P (va / 4096) ->
  points (pm s) (root s) va f (4 * i) -> 0 <= i < 1024 -> word (g (ent (pm s) f i)) ->
  ~ through (pm s) (root s) f i (va / 4096) ->
  exists m t, vset s va g = Ok (mt s m t) /\ upd (pm s) f i (g (ent (pm s) f i)) m /\
    tlb_fresh t m (root s) (fun v => P v \/ (is_Some (tlb s v) /\ through (pm s) (root s) f i v)) /\
    forall u, is_Some (t u) -> is_Some (tlb s u) \/ u = va / 4096.
Proof.
  intros Hm Ht HP Hp Hi Hw Hth.
  destruct (vload32_ok s va f i P Ht HP Hp) as (t1 & E1 & Ht1 & Hd1).
  destruct (vstore32_ok (mt s (pm s) t1) va f i _ P Hm Ht1 HP Hp Hi Hw Hth) as (m & t & E & U & Ht' & Hd).
  exists m, t. unfold vset. rewrite E1. cbn [res_bind]. rewrite E. split; [done|]. split; [done|].
  assert (Hsome : forall u, is_Some (t u) -> is_Some (tlb s u) \/ u = va / 4096).
  { intros u Hu. destruct (Hd u Hu) as [Hu'|]; [|by right]. exact (Hd1 u Hu'). }
  split; [|done]. eapply tlb_fresh_weaken; [exact Ht'|]. cbn. intros v _ [?|[Hv Hv']]; [by left|].
  right. destruct (Hd1 v Hv) as [? | ->]; done.
Qed.

(** Several assignments in a row: the state of the chain is that of one store. *)
Record set_chain (s : vm) (va f i w : Z) (P : Z -> Prop) (s' : vm) : Prop := {
  chain_eq : s' = mt s (pm s') (tlb s');
  chain_upd : upd (pm s) f i w (pm s');
  chain_tlb : tlb_fresh (tlb s') (pm s') (root s)
    (fun v => P v \/ (is_Some (tlb s v) /\ through (pm s) (root s) f i v));
  chain_some u : is_Some (tlb s' u) -> is_Some (tlb s u) \/ u = va / 4096
}.

Lemma points_upd m d va g o f i w m' : upd m f i w m' -> 0 <= i < 1024 ->
  ~ through m d f i (va / 4096) -> points m d va g o -> points m' d va g o.
Proof.
  intros U Hi Hth (Hr & Ho & e & Hw & Hf). split; [done|]. split; [done|]. exists e. split; [|done].
  by rewrite (walk_upd m d f i w m') by (done || by apply page_range).
Qed.

Lemma set_chain_step s va f i w P s1 g :
  set_chain s va f i w P s1 -> word (g w) -> ~ P (va / 4096) ->
  points (pm s) (root s) va f (4 * i) -> 0 <= i < 1024 ->
  ~ through (pm s) (root s) f i (va / 4096) ->
  exists s2, vset s1 va g = Ok s2 /\ set_chain s va f i (g w) P s2.
Proof.
  intros [Es U Ht Hd] Hw HP Hp Hi Hth.
  assert (Hr : root s1 = root s) by (by rewrite Es).
  pose proof (upd_ok _ _ _ _ _ U) as Hm1. pose proof (upd_eq _ _ _ _ _ U) as He.
  pose proof (page_range va (proj1 Hp)) as Hv.
  destruct (vset_ok s1 va f i g (fun v => P v \/ (is_Some (tlb s v) /\ through (pm s) (root s) f i v)))
    as (m & t & E & U2 & Ht2 & Hd2); rewrite ?Hr, ?He; try done.
  - by intros [?|[_ ?]].
  - by eapply points_upd.
  - intros H. apply Hth. by eapply through_upd.
  - rewrite He, Hr in *. exists (mt s1 m t). split; [done|]. split; cbn.
    + rewrite Es. done.
    + by eapply upd_trans.
    + eapply tlb_fresh_weaken; [exact Ht2|]. cbn. intros v Hsv [?|[Hs1 Htv]]; [done|]. right.
      destruct (Hd v Hs1) as [? | ->].
      * split; [done|]. destruct (Ht2 v) with (e := default (0,0) (t v)) as [Hvr _]; [by destruct Hsv as [? ->]|].
        by eapply through_upd.
      * destruct Hth. by eapply through_upd.
    + intros u Hu. destruct (Hd2 u Hu); [by apply Hd|by right].
Qed.

Lemma vset_chain s va f i g P :
  bytes_ok (pm s) -> tlb_fresh (tlb s) (pm s) (root s) P -> ~ P (va / 4096) ->
  points (pm s) (root s) va f (4 * i) -> 0 <= i < 1024 -> word (g (ent (pm s) f i)) ->
  ~ through (pm s) (root s) f i (va / 4096) ->
  exists s1, vset s va g = Ok s1 /\ set_chain s va f i (g (ent (pm s) f i)) P s1.
Proof.
  intros Hm Ht HP Hp Hi Hw Hth.
  destruct (vset_ok s va f i g P Hm Ht HP Hp Hi Hw Hth) as (m & t & E & H).
  exists (mt s m t). split; [done|]. destruct H as (U & Ht' & Hd). by split.
Qed.

(** The word of a fresh entry: present, writable, for [u], of frame [f]. *)
Definition is_entry (w f : Z) (u rw : bool) : Prop :=
  pte_present w = true /\ pte_frame w = f /\ pte_user w = u /\ pte_rw w = rw.

Lemma new_entry w fr u : 0 <= fr < 2 ^ 20 ->
  is_entry (set_frame fr (set_user u (set_rw true (set_present true w)))) fr u true /\
  is_entry (set_frame fr (set_rw true (set_user u (set_present true w)))) fr u true.
Proof.
  intros Hf. unfold is_entry.
  destruct (fields_frame fr (set_user u (set_rw true (set_present true w))) Hf) as (-> & -> & -> & ->).
  destruct (fields_frame fr (set_rw true (set_user u (set_present true w))) Hf) as (-> & -> & -> & ->).
  unfold set_user, set_rw, set_present, pte_present, pte_rw, pte_user. rewrite !put_bit_spec by lia. done.
Qed.

Lemma vset4_gen s va f i P g1 g2 g3 g4 :
  (forall g, g = g1 \/ g = g2 \/ g = g3 \/ g = g4 -> forall w, word w -> word (g w)) ->
  bytes_ok (pm s) -> tlb_fresh (tlb s) (pm s) (root s) P -> ~ P (va / 4096) ->
  points (pm s) (root s) va f (4 * i) -> 0 <= i < 1024 ->
  ~ through (pm s) (root s) f i (va / 4096) ->
  exists s1 s2 s3 s4, vset s va g1 = Ok s1 /\ vset s1 va g2 = Ok s2 /\
    vset s2 va g3 = Ok s3 /\
    vset s3 va g4 = Ok s4 /\ set_chain s va f i (g4 (g3 (g2 (g1 (ent (pm s) f i))))) P s4.
Proof.
  intros Hg Hm Ht HP Hp Hi Hth. pose proof (ent_word (pm s) f i Hm) as W0.
  destruct (vset_chain s va f i g1 P Hm Ht HP Hp Hi ltac:(auto) Hth) as (s1 & E1 & C1).
  destruct (set_chain_step s va f i _ P s1 g2 C1 ltac:(auto) HP Hp Hi Hth) as (s2 & E2 & C2).
  destruct (set_chain_step s va f i _ P s2 g3 C2 ltac:(auto) HP Hp Hi Hth) as (s3 & E3 & C3).
  destruct (set_chain_step s va f i _ P s3 g4 C3 ltac:(auto 6) HP Hp Hi Hth) as (s4 & E4 & C4).
  by exists s1, s2, s3, s4.
Qed.

Lemma setters_word g : (exists b, g = set_present b \/ g = set_rw b \/ g = set_user b) \/ (exists f, g = set_frame f) ->
  forall w, word w -> word (g w).
Proof.
  intros [(b & [-> | [-> | ->]])|[f ->]] w Hw; [by apply put_bit_word..|apply set_frame_word].
Qed.

(** The four assignments of a new mapping, with the writable bit before the user
    bit, and after it. *)
Lemma vset4_ok s va f i P fr u :
  bytes_ok (pm s) -> tlb_fresh (tlb s) (pm s) (root s) P -> ~ P (va / 4096) ->
  points (pm s) (root s) va f (4 * i) -> 0 <= i < 1024 -> 0 <= fr < 2 ^ 20 ->
  ~ through (pm s) (root s) f i (va / 4096) ->
  exists s1 s2 s3 s4, vset s va (set_present true) = Ok s1 /\ vset s1 va (set_rw true) = Ok s2 /\
    vset s2 va (set_user u) = Ok s3 /\ vset s3 va (set_frame fr) = Ok s4 /\
    exists w, is_entry w fr u true /\ set_chain s va f i w P s4.
Proof.
  intros Hm Ht HP Hp Hi Hf Hth.
  destruct (vset4_gen s va f i P (set_present true) (set_rw true) (set_user u) (set_frame fr))
    as (s1 & s2 & s3 & s4 & ? & ? & ? & ? & C); [|done..|].
  { intros g Hg. apply setters_word. destruct_or!; subst; eauto 6. }
  exists s1, s2, s3, s4. repeat (split; [done|]). eexists. split; [|exact C]. by apply new_entry.
Qed.

Lemma vset4_user_ok s va f i P fr u :
  bytes_ok (pm s) -> tlb_fresh (tlb s) (pm s) (root s) P -> ~ P (va / 4096) ->
  points (pm s) (root s) va f (4 * i) -> 0 <= i < 1024 -> 0 <= fr < 2 ^ 20 ->
  ~ through (pm s) (root s) f i (va / 4096) ->
  exists s1 s2 s3 s4, vset s va (set_present true) = Ok s1 /\ vset s1 va (set_user u) = Ok s2 /\
    vset s2 va (set_rw true) = Ok s3 /\ vset s3 va (set_frame fr) = Ok s4 /\
    exists w, is_entry w fr u true /\ set_chain s va f i w P s4.
Proof.
  intros Hm Ht HP Hp Hi Hf Hth.
  destruct (vset4_gen s va f i P (set_present true) (set_user u) (set_rw true) (set_frame fr))
    as (s1 & s2 & s3 & s4 & ? & ? & ? & ? & C); [|done..|].
  { intros g Hg. apply setters_word. destruct_or!; subst; eauto 6. }
  exists s1, s2, s3, s4. repeat (split; [done|]). eexists. split; [|exact C]. by apply new_entry.
Qed.

(** ** Whole pages *)

(** The TLB after stores to frame [f], made through pages that are not
    translated through it. *)
Definition page_chain (s : vm) (f : Z) (us : list Z) (P : Z -> Prop) (s' : vm) : Prop :=
  s' = mt s (pm s') (tlb s') /\ only_frame (pm s) (pm s') f /\
    tlb_fresh (tlb s') (pm s') (root s) (fun v => P v \/ (is_Some (tlb s v) /\ via (pm s) (root s) f v)) /\
    forall u, is_Some (tlb s' u) -> is_Some (tlb s u) \/ u ∈ us.

Lemma page_chain_refl s f us P :
  bytes_ok (pm s) -> tlb_fresh (tlb s) (pm s) (root s) P -> page_chain s f us P s.
Proof.
  intros Hm Ht. split; [apply mt_self|]. split; [by split|]. split; [|auto].
  eapply tlb_fresh_weaken; [exact Ht|]. auto.
Qed.

(** The pages [us] are translated apart from [f], and kept translations of them
    are right. *)
Definition apart_from (s : vm) (f : Z) (us : list Z) (P : Z -> Prop) : Prop :=
  f <> root s /\ forall u, u ∈ us -> ~ P u /\ ~ via (pm s) (root s) f u.

Lemma page_chain_paddr s f us P s1 va g o :
  apart_from s f us P -> page_chain s f us P s1 -> va / 4096 ∈ us -> points (pm s) (root s) va g o ->
  exists t, paddr s1 va = Ok (4096 * g + o, mt s1 (pm s1) t) /\
    page_chain s f us P (mt s1 (pm s1) t).
Proof.
  intros [Hf Hus] (E & O & T & S) Hu Hp. destruct (Hus _ Hu) as [HP Hv].
  assert (Hr : root s1 = root s) by (by rewrite E).
  destruct (paddr_ok s1 va g o (fun v => P v \/ (is_Some (tlb s v) /\ via (pm s) (root s) f v)))
    as (t & Et & Ht & Hd); rewrite ?Hr; [done|by intros [?|[_ ?]]|by eapply points_only|].
  exists t. split; [done|]. rewrite Hr in Ht. split; [by rewrite E|]. split; [done|]. split; [done|].
  intros v Hsv. destruct (Hd v Hsv) as [Hv1 | ->]; [by apply S|by right].
Qed.

Lemma page_chain_store s f us P s1 m :
  apart_from s f us P -> page_chain s f us P s1 -> only_frame (pm s1) m f ->
  page_chain s f us P (with_pm s1 m).
Proof.
  intros [Hf Hus] (E & O & T & S) Om. assert (Hr : root s1 = root s) by (by rewrite E).
  split; [by rewrite E|]. split; [by eapply only_frame_trans|]. split; [|done]. cbn.
  intros v e He. destruct (T v e He) as [Hv Hw]. split; [done|].
  assert (Hdec : {via (pm s) (root s) f v} + {~ via (pm s) (root s) f v}) by apply through_frame_dec.
  destruct Hdec as [Hvia|Hvia].
  - destruct (S v ltac:(eexists; exact He)) as [?|Hu]; [by right; right|by destruct (Hus v Hu)].
  - rewrite (walk_only (pm s1) m _ f); [done..|]. intros H. apply Hvia. by eapply via_only.
Qed.

Lemma store8_only m f o b : bytes_ok m -> 0 <= o < 4096 -> only_frame m (store8 m (4096 * f + o) b) f.
Proof. intros Hm Ho. split; [by apply store8_ok|]. intros x Hx. apply store8_ne. lia. Qed.

Lemma store32_only m f i w : bytes_ok m -> 0 <= i < 1024 -> only_frame m (store32 m (4096 * f + 4 * i) w) f.
Proof. intros Hm Hi. split; [by apply store32_ok|]. intros x Hx. apply store32_ne. lia. Qed.

Lemma page_of a o : a mod 4096 = 0 -> 0 <= o < 4096 -> (a + o) / 4096 = a / 4096 /\ (a + o) mod 4096 = o.
Proof. intros Ha Ho. zdiv. Qed.

Lemma points_page m d a f o : points m d a f 0 -> 0 <= o < 4096 -> a + o < 2 ^ 32 -> points m d (a + o) f o.
Proof.
  intros (Hr & Ha & e & Hw & Hf) Ho Hlt. destruct (page_of a o Ha Ho) as [E1 E2].
  split; [lia|]. split; [done|]. exists e. by rewrite E1.
Qed.

Lemma page_end a : 0 <= a < 2 ^ 32 -> a mod 4096 = 0 -> a + 4096 <= 2 ^ 32.
Proof. intros. zdiv. Qed.

(** [clear_page] fills the frame with zeros. *)
Lemma clear_page_ok s a f P :
  bytes_ok (pm s) -> tlb_fresh (tlb s) (pm s) (root s) P -> apart_from s f [a / 4096] P ->
  points (pm s) (root s) a f 0 ->
  exists s', clear_page s a = Ok s' /\ page_chain s f [a / 4096] P s' /\
    forall o, 0 <= o < 4096 -> pm s' (4096 * f + o) = 0.
Proof.
  intros Hm Ht Hap Hp. pose proof Hp as (Hr & Ha & _). pose proof (page_end a Hr Ha) as Hend.
  unfold clear_page. change PAGE_SIZE with 4096. change (4096 / 4) with 1024.
  replace (a / 4096 * 4096) with a by zdiv.
  destruct (for_loop_inv (fun j s' => page_chain s f [a / 4096] P s' /\
      forall o, 0 <= o < 4 * j -> pm s' (4096 * f + o) = 0)
    (Z.to_nat 1024) 0 (fun i s => vstore32 s (a + 4 * i) 0) s) as (s' & E & C & Hz).
  - split; [by apply page_chain_refl|lia].
  - intros j s1 Hj [C Hz]. destruct (page_of a (4 * j) Ha ltac:(lia)) as [Ea _].
    destruct (page_chain_paddr s f [a / 4096] P s1 (a + 4 * j) f (4 * j) Hap C) as (t & Ep & C').
    { rewrite Ea. by left. }
    { apply points_page; [done|lia|lia]. }
    eexists. split; [unfold vstore32; rewrite wpaddr_paddr, Ep; reflexivity|]. split.
    + apply page_chain_store; [done|done|]. apply store32_only; [apply C'|lia].
    + intros o Ho. cbn. destruct (decide (o < 4 * j)).
      * rewrite store32_ne by lia. apply Hz. lia.
      * destruct (store32_bytes (pm s1) (4096 * f + 4 * j) 0) as (B0 & B1 & B2 & B3).
        assert (o = 4 * j \/ o = 4 * j + 1 \/ o = 4 * j + 2 \/ o = 4 * j + 3) as [-> | [-> | [-> | ->]]] by lia;
          rewrite ?Z.add_assoc, ?B0, ?B1, ?B2, ?B3; done.
  - exists s'. split; [done|]. split; [done|]. intros o Ho. apply Hz. lia.
Qed.

(** [memcpy] of one page to another. *)
Lemma vmemcpy_ok s a b f g P :
  bytes_ok (pm s) -> tlb_fresh (tlb s) (pm s) (root s) P -> apart_from s f [a / 4096; b / 4096] P ->
  points (pm s) (root s) a f 0 -> points (pm s) (root s) b g 0 -> g <> f -> 0 < a -> 0 < b ->
  exists s', vmemcpy s a b 4096 = Ok s' /\ page_chain s f [a / 4096; b / 4096] P s' /\
    forall o, 0 <= o < 4096 -> pm s' (4096 * f + o) = pm s (4096 * g + o).
Proof.
  intros Hm Ht Hap Hp Hq Hgf Ha0 Hb0. pose proof Hp as (Hr & Ha & _). pose proof Hq as (Hr' & Hb & _).
  pose proof (page_end a Hr Ha). pose proof (page_end b Hr' Hb).
  unfold vmemcpy. replace (a =? 0) with false by (symmetry; zbool; lia).
  replace (b =? 0) with false by (symmetry; zbool; lia). cbn [negb andb].
  destruct (for_loop_inv (fun j s' => page_chain s f [a / 4096; b / 4096] P s' /\
      forall o, 0 <= o < j -> pm s' (4096 * f + o) = pm s (4096 * g + o))
    (Z.to_nat 4096) 0 (fun i s => let! (b, s) := vload8 s (b + i) in vstore8 s (a + i) b) s) as (s' & E & C & Hz).
  - split; [by apply page_chain_refl|lia].
  - intros j s1 Hj [C Hz]. destruct (page_of a j Ha ltac:(lia)) as [Ea _].
    destruct (page_of b j Hb ltac:(lia)) as [Eb _].
    destruct (page_chain_paddr s f [a / 4096; b / 4096] P s1 (b + j) g j Hap C) as (t1 & Ep1 & C1).
    { rewrite Eb. by right; left. }
    { apply points_page; [done|lia|lia]. }
    destruct (page_chain_paddr s f [a / 4096; b / 4096] P _ (a + j) f j Hap C1) as (t2 & Ep2 & C2).
    { rewrite Ea. by left. }
    { apply points_page; [done|lia|lia]. }
    eexists. split; [unfold vload8, vstore8; rewrite Ep1; cbn [res_bind]; rewrite wpaddr_paddr, Ep2; reflexivity|].
    pose proof C as (_ & [O1 O2] & _). split.
    + apply page_chain_store; [done|done|]. apply store8_only; [done|lia].
    + intros o Ho. cbn. destruct (decide (o < j)).
      * rewrite store8_ne by lia. apply Hz. lia.
      * replace o with j by lia. rewrite store8_eq. unfold load8. cbn. rewrite u8_small by apply O1.
        apply O2. lia.
  - exists s'. split; [done|]. split; [done|]. intros o Ho. apply Hz. lia.
Qed.
