(* ===== verification/PageSpec.v ===== *)
(** What paging promises: the address spaces as finite maps, the relation between
    them and the tables in memory, and the accounting of the frames. *)
From S2P Require Import Prelude Memory BitMap Page PageMem.

(** ** Counting the uses of a frame *)
Section uses.
Context {K V : Type} `{Countable K} (g : V -> Z).

Definition uses (m : gmap K V) (f : Z) : Z :=
  Z.of_nat (base.size (filter (fun kv => g kv.2 = f) m)).

Lemma uses_nonneg m f : 0 <= uses m f.
Proof. unfold uses. lia. Qed.

Lemma uses_empty f : uses ∅ f = 0.
Proof. unfold uses. by rewrite map_filter_empty, map_size_empty. Qed.

Lemma uses_insert m k v f : m !! k = None ->
  uses (<[k := v]> m) f = uses m f + (if decide (g v = f) then 1 else 0).
Proof.
  intros Hk. unfold uses. case_decide as Hd.
  - rewrite map_filter_insert_True by done. rewrite map_size_insert_None; [lia|].
    apply map_lookup_filter_None. by left.
  - rewrite map_filter_insert_False by done. rewrite delete_id by done. lia.
Qed.

Lemma uses_delete m k v f : m !! k = Some v ->
  uses (delete k m) f = uses m f - (if decide (g v = f) then 1 else 0).
Proof.
  intros Hk. rewrite <- (insert_delete_id m k v Hk) at 2. rewrite uses_insert by apply lookup_delete_eq. lia.
Qed.

Lemma uses_replace m k v w f : m !! k = Some v ->
  uses (<[k := w]> m) f = uses m f - (if decide (g v = f) then 1 else 0) + (if decide (g w = f) then 1 else 0).
Proof.
  intros Hk. rewrite <- insert_delete_eq, uses_insert by apply lookup_delete_eq.
  by erewrite uses_delete.
Qed.

Lemma uses_pos m k v : m !! k = Some v -> 1 <= uses m (g v).
Proof.
  intros Hk. rewrite <- (insert_delete_id m k v Hk), uses_insert by apply lookup_delete_eq.
  rewrite decide_True by done. pose proof (uses_nonneg (delete k m) (g v)). lia.
Qed.

Lemma uses_zero m f : uses m f = 0 <-> forall k v, m !! k = Some v -> g v <> f.
Proof.
  split.
  - intros Hz k v Hk <-. pose proof (uses_pos m k v Hk). lia.
  - intros Hn. unfold uses. enough (filter (fun kv : K * V => g kv.2 = f) m = ∅) as -> by (by rewrite map_size_empty).
    apply map_empty_filter_2. intros k v Hk. by apply (Hn k v Hk).
Qed.

Lemma uses_one m k v k' v' : m !! k = Some v -> m !! k' = Some v' -> g v = g v' ->
  uses m (g v) = 1 -> k = k'.
Proof.
  intros Hk Hk' Hg H1. destruct (decide (k = k')) as [|Hn]; [done|].
  pose proof (uses_delete m k v (g v) Hk) as Hd. rewrite decide_True in Hd by done.
  assert (Hp : 1 <= uses (delete k m) (g v)).
  { rewrite Hg. apply (uses_pos _ k'). by rewrite lookup_delete_ne. }
  lia.
Qed.
End uses.

(** ** Address spaces *)

(** [roots] are the frames of the directories; [tbl] maps a directory and an index
    below 768 to the frame of a table; [pages] a directory and a page to the frame
    and whether it is writable; [ktbl] are the frames of the kernel's tables, shared
    by all; [kpages] the kernel's pages; [kern] counts what is in use beside. *)
Record space : Type := mk_space {
  roots : gset Z;
  tbl : gmap (Z * Z) Z;
  pages : gmap (Z * Z) (Z * bool);
  ktbl : Z -> Z;
  kpages : gmap Z Z;
  kern : Z -> Z
}.

Definition with_tbl (A : space) (t : gmap (Z * Z) Z) : space :=
  mk_space (roots A) t (pages A) (ktbl A) (kpages A) (kern A).
Definition with_pages (A : space) (p : gmap (Z * Z) (Z * bool)) : space :=
  mk_space (roots A) (tbl A) p (ktbl A) (kpages A) (kern A).
Definition with_kern (A : space) (k : Z -> Z) : space :=
  mk_space (roots A) (tbl A) (pages A) (ktbl A) (kpages A) k.
Definition with_kpages (A : space) (p : gmap Z Z) : space :=
  mk_space (roots A) (tbl A) (pages A) (ktbl A) p (kern A).
Definition with_roots (A : space) (r : gset Z) : space :=
  mk_space r (tbl A) (pages A) (ktbl A) (kpages A) (kern A).

Definition refs (A : space) (f : Z) : Z :=
  kern A f + uses id (kpages A) f + uses id (tbl A) f + uses fst (pages A) f.

Definition user_pdi (i : Z) : Prop := 1 <= i < 768.
Definition kernel_pdi (i : Z) : Prop := 768 <= i < 1024 /\ i <> 769.

(** The three pages of the temporary mappings. *)
Definition temp (v : Z) : Prop := 0xFFFFD <= v <= 0xFFFFF.

Definition leaf (w : Z) (o : option (Z * bool)) : Prop :=
  match o with
  | None => pte_present w = false
  | Some (f, rw) => is_entry w f true rw
  end.
Definition kleaf (w : Z) (o : option Z) : Prop :=
  match o with
  | None => pte_present w = false
  | Some f => pte_present w = true /\ pte_frame w = f
  end.

(** The counts [l] of the frames are the uses of [A], and of the pages [N] that an
    operation under way has counted already; what a frame is used for is unique,
    but for the pages, which address spaces share. *)
Record acct (A : space) (N : gmap (Z * Z) (Z * bool)) (l : list Z) : Prop := {
  a_len : Z.of_nat (length l) = 8192;
  a_ref f : 0 <= f < 8192 -> l !! Z.to_nat f = Some (refs A f + uses fst N f);
  a_kern f : 0 <= kern A f;
  a_zero : 1 <= kern A 0;
  a_root d : d ∈ roots A -> 0 < d < 8192 /\ 1 <= kern A d /\ uses id (kpages A) d = 0;
  a_tbl d i t : tbl A !! (d, i) = Some t -> user_pdi i /\ 0 <= d < 8192 /\ 0 <= t < 8192 /\
    kern A t = 0 /\ uses id (kpages A) t = 0 /\ uses id (tbl A) t = 1 /\ uses fst (pages A) t = 0;
  a_page d v f rw : pages A !! (d, v) = Some (f, rw) -> is_Some (tbl A !! (d, v / 1024)) /\ 0 <= f < 8192 /\
    kern A f = 0 /\ uses id (kpages A) f = 0;
  a_vpn d v d' v' f rw rw' : pages A !! (d, v) = Some (f, rw) -> pages A !! (d', v') = Some (f, rw') -> v = v';
  a_new d v d' v' f rw rw' : N !! (d, v) = Some (f, rw) -> N !! (d', v') = Some (f, rw') -> v = v' /\ 0 <= d < 8192;
  a_ktbl i : kernel_pdi i -> 0 <= ktbl A i < 8192 /\ 1 <= kern A (ktbl A i) /\
    uses id (kpages A) (ktbl A i) = 0 /\ ktbl A i ∉ roots A;
  a_kinj i j : kernel_pdi i -> kernel_pdi j -> ktbl A i = ktbl A j -> i = j;
  a_kpage v f : kpages A !! v = Some f -> kernel_pdi (v / 1024) /\ ~ temp v /\ 0 <= f
}.

(** The tables in memory [m] are those of [A]; the kernel's temporary pages are
    mapped as [T] says. *)
Record tables (A : space) (T : gmap Z Z) (m : mem) : Prop := {
  t_mem : bytes_ok m;
  t_root d : d ∈ roots A -> pte_present (ent m d 0) = false /\
    pte_present (ent m d 769) = true /\ pte_frame (ent m d 769) = d;
  t_user d i : d ∈ roots A -> user_pdi i ->
    match tbl A !! (d, i) with
    | None => pte_present (ent m d i) = false
    | Some t => is_entry (ent m d i) t true true
    end;
  t_kdir d i : d ∈ roots A -> kernel_pdi i -> pte_present (ent m d i) = true /\ pte_frame (ent m d i) = ktbl A i;
  t_leaf d i t j : tbl A !! (d, i) = Some t -> 0 <= j < 1024 -> leaf (ent m t j) (pages A !! (d, 1024 * i + j));
  t_kleaf i j : kernel_pdi i -> 0 <= j < 1024 -> kleaf (ent m (ktbl A i) j) ((T ∪ kpages A) !! (1024 * i + j));
  t_temp v f : T !! v = Some f -> temp v
}.

Lemma tables_eq A A' T m : roots A' = roots A -> tbl A' = tbl A -> pages A' = pages A ->
  ktbl A' = ktbl A -> kpages A' = kpages A -> tables A T m -> tables A' T m.
Proof. intros E1 E2 E3 E4 E5 []. split; rewrite ?E1, ?E2, ?E3, ?E4, ?E5; done. Qed.

(** ** The frames of the tables are apart *)
Definition structural (A : space) (f : Z) : Prop :=
  f ∈ roots A \/ (exists i, kernel_pdi i /\ f = ktbl A i) \/ exists k, tbl A !! k = Some f.

(** A frame that holds the contents of a page. *)
Definition data_frame (A : space) (f : Z) : Prop :=
  (exists d v rw, pages A !! (d, v) = Some (f, rw)) \/ exists v, kpages A !! v = Some f.

Section apart.
Context (A : space) (N : gmap (Z * Z) (Z * bool)) (l : list Z) (H : acct A N l).

Lemma tbl_not_root k t d : tbl A !! k = Some t -> d ∈ roots A -> t <> d.
Proof.
  destruct k as [d' i]. intros Ht Hd ->. pose proof (a_tbl _ _ _ H d' i d Ht).
  pose proof (a_root _ _ _ H d Hd). lia.
Qed.

Lemma tbl_not_ktbl k t i : tbl A !! k = Some t -> kernel_pdi i -> t <> ktbl A i.
Proof.
  destruct k as [d' j]. intros Ht Hi ->. pose proof (a_tbl _ _ _ H d' j _ Ht).
  pose proof (a_ktbl _ _ _ H i Hi). lia.
Qed.

Lemma tbl_inj k k' t : tbl A !! k = Some t -> tbl A !! k' = Some t -> k = k'.
Proof.
  destruct k as [d i]. intros Hk Hk'. pose proof (a_tbl _ _ _ H d i t Hk) as (_ & _ & _ & _ & _ & H1 & _).
  exact (uses_one id (tbl A) (d, i) t k' t Hk Hk' eq_refl H1).
Qed.

Lemma ktbl_not_root i d : kernel_pdi i -> d ∈ roots A -> ktbl A i <> d.
Proof. intros Hi Hd E. apply (a_ktbl _ _ _ H i Hi). by rewrite E. Qed.

Lemma data_not_structural f : data_frame A f -> ~ structural A f.
Proof.
  intros [(d & v & rw & Hp)|[v Hv]] Hs.
  - pose proof (a_page _ _ _ H d v f rw Hp) as (_ & _ & Hk & _).
    destruct Hs as [Hr|[(i & Hi & ->)|[[d' i] Ht]]].
    + pose proof (a_root _ _ _ H f Hr). lia.
    + pose proof (a_ktbl _ _ _ H i Hi). lia.
    + pose proof (a_tbl _ _ _ H d' i f Ht) as (_ & _ & _ & _ & _ & _ & Hz).
      by eapply (proj1 (uses_zero fst (pages A) f) Hz (d, v)).
  - pose proof (uses_pos id (kpages A) v f Hv) as Hu. cbn in Hu.
    destruct Hs as [Hr|[(i & Hi & ->)|[[d' i] Ht]]].
    + pose proof (a_root _ _ _ H f Hr). lia.
    + pose proof (a_ktbl _ _ _ H i Hi). lia.
    + pose proof (a_tbl _ _ _ H d' i f Ht). lia.
Qed.

(** A frame counted by [kern] alone, and no table, is structural to nothing. *)
Lemma kern_not_data f : 1 <= kern A f -> uses id (kpages A) f = 0 -> ~ data_frame A f.
Proof.
  intros Hk Hu [(d & v & rw & Hp)|[v Hv]].
  - pose proof (a_page _ _ _ H d v f rw Hp). lia.
  - pose proof (uses_pos id (kpages A) v f Hv) as Hp. cbn in Hp. lia.
Qed.

Lemma refs_nonneg f : 0 <= refs A f.
Proof.
  unfold refs. pose proof (a_kern _ _ _ H f). pose proof (uses_nonneg id (kpages A) f).
  pose proof (uses_nonneg id (tbl A) f). pose proof (uses_nonneg fst (pages A) f). lia.
Qed.

(** A free frame is used for nothing. *)
Lemma free_frame f : refs A f + uses fst N f = 0 ->
  kern A f = 0 /\ uses id (kpages A) f = 0 /\ uses id (tbl A) f = 0 /\ uses fst (pages A) f = 0 /\
  uses fst N f = 0.
Proof.
  unfold refs. pose proof (a_kern _ _ _ H f). pose proof (uses_nonneg id (kpages A) f).
  pose proof (uses_nonneg id (tbl A) f). pose proof (uses_nonneg fst (pages A) f).
  pose proof (uses_nonneg fst N f). lia.
Qed.

Lemma free_not_structural f : refs A f + uses fst N f = 0 -> ~ structural A f /\ ~ data_frame A f.
Proof.
  intros Hf. destruct (free_frame f Hf) as (Hk & Hkp & Ht & Hp & _). split.
  - intros [Hr|[(i & Hi & ->)|[k Hk']]].
    + pose proof (a_root _ _ _ H f Hr). lia.
    + pose proof (a_ktbl _ _ _ H i Hi). lia.
    + by eapply (proj1 (uses_zero id (tbl A) f) Ht k).
  - intros [(d & v & rw & Hpg)|[v Hv]].
    + by eapply (proj1 (uses_zero fst (pages A) f) Hp (d, v)).
    + by eapply (proj1 (uses_zero id (kpages A) f) Hkp v).
Qed.
End apart.

(** ** How the tables change *)
Lemma pdi_range v : 0 <= v < 2 ^ 20 -> 0 <= v / 1024 < 1024 /\ 0 <= v mod 1024 < 1024 /\ v = 1024 * (v / 1024) + v mod 1024.
Proof. intros. zdiv. Qed.

Lemma user_pdi_range i : user_pdi i -> 0 <= i < 1024.
Proof. unfold user_pdi. lia. Qed.
Lemma kernel_pdi_range i : kernel_pdi i -> 0 <= i < 1024.
Proof. unfold kernel_pdi. lia. Qed.
#[export] Hint Resolve user_pdi_range kernel_pdi_range : cmem.

Section change.
Context (A : space) (N : gmap (Z * Z) (Z * bool)) (l : list Z) (T : gmap Z Z) (m m' : mem).
Context (Ha : acct A N l) (Ht : tables A T m).

(** A store outside the tables. *)
Lemma tables_frame f : ~ structural A f -> only_frame m m' f -> tables A T m'.
Proof.
  intros Hf Ho. destruct Ht as [t1 t2 t3 t4 t5 t6 t7].
  assert (Hroot : forall d i, d ∈ roots A -> 0 <= i < 1024 -> ent m' d i = ent m d i).
  { intros d i Hd Hi. eapply only_frame_ent; [done| |done]. intros ->. apply Hf. by left. }
  split.
  - apply Ho.
  - intros d Hd. rewrite !Hroot by (done || lia). by apply t2.
  - intros d i Hd Hi. rewrite !Hroot by (done || auto with cmem). by apply t3.
  - intros d i Hd Hi. rewrite !Hroot by (done || auto with cmem). by apply t4.
  - intros d i t j Hk Hj. rewrite (only_frame_ent m m' f) by (done || intros ->; apply Hf; right; right; eauto). by eapply t5.
  - intros i j Hi Hj. rewrite (only_frame_ent m m' f) by (done || intros <-; apply Hf; right; left; eauto). by apply t6.
  - done.
Qed.

(** A store to an entry of a user's table. *)
Lemma tables_leaf d i t j w o p : tbl A !! (d, i) = Some t -> 0 <= j < 1024 -> upd m t j w m' ->
  leaf w o -> p !! (d, 1024 * i + j) = o ->
  (forall k, k <> (d, 1024 * i + j) -> p !! k = pages A !! k) ->
  tables (with_pages A p) T m'.
Proof.
  intros Hk Hj U Hw Ho Hne. destruct Ht as [t1 t2 t3 t4 t5 t6 t7].
  assert (Hroot : forall d i, d ∈ roots A -> 0 <= i < 1024 -> ent m' d i = ent m d i).
  { intros d' i' Hd Hi. eapply upd_ent_ne; [done..|]. left. intros ->.
    by eapply (tbl_not_root _ _ _ Ha _ t t). }
  split; cbn [with_pages with_tbl with_kpages roots tbl pages ktbl kpages].
  - apply U.
  - intros d' Hd. rewrite !Hroot by (done || lia). by apply t2.
  - intros d' i' Hd Hi. rewrite !Hroot by (done || auto with cmem). by apply t3.
  - intros d' i' Hd Hi. rewrite !Hroot by (done || auto with cmem). by apply t4.
  - intros d' i' t' j' Hk' Hj'. erewrite upd_ent by done. case_decide as Hd.
    + destruct Hd as [-> ->]. pose proof (tbl_inj _ _ _ Ha _ _ _ Hk' Hk) as [= -> ->]. by rewrite Ho.
    + rewrite Hne; [by eapply t5|]. intros [= -> E]. assert (i' = i /\ j' = j) as [-> ->] by lia.
      apply Hd. split; [congruence|done].
  - intros i' j' Hi Hj'. erewrite upd_ent_ne by (done || left; intros E; by eapply (tbl_not_ktbl _ _ _ Ha _ t i')). by apply t6.
  - done.
Qed.

(** A store to an entry of a kernel table. *)
Lemma tables_kleaf i j w o p T' : kernel_pdi i -> 0 <= j < 1024 -> upd m (ktbl A i) j w m' ->
  kleaf w o -> (T' ∪ p) !! (1024 * i + j) = o ->
  (forall k, k <> 1024 * i + j -> (T' ∪ p) !! k = (T ∪ kpages A) !! k) ->
  (forall v f, T' !! v = Some f -> temp v) ->
  tables (with_kpages A p) T' m'.
Proof.
  intros Hi Hj U Hw Ho Hne HT. destruct Ht as [t1 t2 t3 t4 t5 t6 t7].
  assert (Hroot : forall d i, d ∈ roots A -> 0 <= i < 1024 -> ent m' d i = ent m d i).
  { intros d' i' Hd Hi'. eapply upd_ent_ne; [done..|]. left. intros E.
    by eapply (ktbl_not_root _ _ _ Ha i d'). }
  split; cbn [with_pages with_tbl with_kpages roots tbl pages ktbl kpages].
  - apply U.
  - intros d' Hd. rewrite !Hroot by (done || lia). by apply t2.
  - intros d' i' Hd Hi'. rewrite !Hroot by (done || auto with cmem). by apply t3.
  - intros d' i' Hd Hi'. rewrite !Hroot by (done || auto with cmem). by apply t4.
  - intros d' i' t' j' Hk' Hj'. erewrite upd_ent_ne by (done || left; by eapply (tbl_not_ktbl _ _ _ Ha _ t' i)).
    by eapply t5.
  - intros i' j' Hi' Hj'. erewrite upd_ent by done. case_decide as Hd.
    + destruct Hd as [Hd ->]. rewrite (a_kinj _ _ _ Ha i' i Hi' Hi Hd). by rewrite Ho.
    + rewrite Hne; [by apply t6|]. intros E. unfold kernel_pdi in Hi, Hi'.
      assert (i' = i /\ j' = j) as [-> ->] by lia. by apply Hd.
  - done.
Qed.

(** A user's entry of a directory becomes [w]; the other entries of the tables
    are kept. *)
Lemma tables_dir d i w q p : d ∈ roots A -> user_pdi i -> bytes_ok m' -> ent m' d i = w ->
  (forall f j, structural A f -> 0 <= j < 1024 -> ~ (f = d /\ j = i) -> ent m' f j = ent m f j) ->
  match q !! (d, i) with
  | None => pte_present w = false
  | Some t => is_entry w t true true /\ (forall j, 0 <= j < 1024 -> leaf (ent m' t j) (p !! (d, 1024 * i + j)))
  end ->
  (forall k, k <> (d, i) -> q !! k = tbl A !! k) ->
  (forall d' v, (d', v / 1024) <> (d, i) -> p !! (d', v) = pages A !! (d', v)) ->
  tables (with_pages (with_tbl A q) p) T m'.
Proof.
  intros Hd Hi Hm Hw He Hq Hne Hp. destruct Ht as [t1 t2 t3 t4 t5 t6 t7].
  assert (Hroot : forall d' j, d' ∈ roots A -> 0 <= j < 1024 -> ~ (d' = d /\ j = i) -> ent m' d' j = ent m d' j).
  { intros d' j Hd' Hj Hn. apply He; [by left|done|done]. }
  unfold user_pdi in Hi.
  split; cbn [with_pages with_tbl with_kpages roots tbl pages ktbl kpages].
  - done.
  - intros d' Hd'. rewrite !Hroot by (done || lia). by apply t2.
  - intros d' i' Hd' Hi'. destruct (decide (d' = d /\ i' = i)) as [[-> ->]|Hc].
    + rewrite Hw. destruct (q !! (d, i)); [by destruct Hq|done].
    + rewrite Hne by naive_solver. rewrite Hroot by auto with cmem. by apply t3.
  - intros d' i' Hd' Hi'. unfold kernel_pdi in *. rewrite Hroot by (done || lia). by apply t4.
  - intros d' i' t' j' Hk' Hj'. destruct (decide ((d', i') = (d, i))) as [[= -> ->]|Hk].
    + rewrite Hk' in Hq. destruct Hq as (_ & Hl). by apply Hl.
    + rewrite Hne in Hk' by done. rewrite He.
      * rewrite Hp; [by eapply t5|]. replace ((1024 * i' + j') / 1024) with i' by zdiv. done.
      * right; right. by eexists.
      * done.
      * intros [-> _]. by eapply (tbl_not_root _ _ _ Ha _ d d).
  - intros i' j' Hi' Hj'. rewrite He; [by apply t6| |done|].
    + right; left. eauto.
    + intros [E _]. by eapply (ktbl_not_root _ _ _ Ha i' d).
  - done.
Qed.
End change.

(** ** How the counts change *)
Definition set_kern (A : space) (f k : Z) : space :=
  with_kern A (fun x => if decide (x = f) then k else kern A x).

(** The pages that share a frame lie at one address, one per address space. *)
Lemma uses_bound (p : gmap (Z * Z) (Z * bool)) f :
  (forall d v d' v' rw rw', p !! (d, v) = Some (f, rw) -> p !! (d', v') = Some (f, rw') -> v = v' /\ 0 <= d < 8192) ->
  uses fst p f <= 8192.
Proof.
  intros Hp. unfold uses. set (q := filter _ p).
  assert (Hq : forall k x, q !! k = Some x -> p !! k = Some (f, x.2)).
  { intros k [g rw] Hk. apply map_lookup_filter_Some in Hk as [Hk Hg]. cbn in *. by subst. }
  assert (Hl : forall k x, (k, x) ∈ map_to_list q -> p !! k = Some (f, x.2)).
  { intros k x Hk. apply Hq. by apply elem_of_map_to_list. }
  assert (Hlen : (length ((fun kv => kv.1.1) <$> map_to_list q) <= length (seqZ 0 8192))%nat).
  { apply submseteq_length, NoDup_submseteq.
    - apply NoDup_fmap_2_strong; [|apply NoDup_map_to_list].
      intros [[d v] x] [[d' v'] y] Hx Hy E. cbn in E. subst d'.
      destruct (Hp _ _ _ _ _ _ (Hl _ _ Hx) (Hl _ _ Hy)) as [-> _].
      apply elem_of_map_to_list in Hx, Hy. congruence.
    - intros d Hd. apply list_elem_of_fmap in Hd as ([[d' v] x] & -> & Hx). apply elem_of_seqZ. cbn.
      destruct (Hp _ _ _ _ _ _ (Hl _ _ Hx) (Hl _ _ Hx)). lia. }
  rewrite length_fmap, length_map_to_list, length_seqZ in Hlen. lia.
Qed.

Lemma uses_union (p q : gmap (Z * Z) (Z * bool)) f : p ##ₘ q ->
  uses fst (p ∪ q) f = uses fst p f + uses fst q f.
Proof.
  intros Hd. unfold uses. rewrite map_filter_union by done.
  rewrite map_size_disj_union by (by apply map_disjoint_filter). lia.
Qed.

Section counts.
Context (A : space) (N : gmap (Z * Z) (Z * bool)) (l : list Z) (H : acct A N l).

Lemma refs_bound f : refs A f + uses fst N f <= kern A f + uses id (kpages A) f + uses id (tbl A) f + 16384.
Proof.
  unfold refs. enough (uses fst (pages A) f <= 8192 /\ uses fst N f <= 8192) by lia. split; apply uses_bound.
  - intros d v d' v' rw rw' H1 H2. split; [by eapply (a_vpn _ _ _ H)|].
    destruct (a_page _ _ _ H _ _ _ _ H1) as ([t Ht] & _). pose proof (a_tbl _ _ _ H _ _ _ Ht). lia.
  - intros d v d' v' rw rw' H1 H2. by eapply (a_new _ _ _ H).
Qed.

Lemma page_uses d v f rw : pages A !! (d, v) = Some (f, rw) ->
  kern A f = 0 /\ uses id (kpages A) f = 0 /\ uses id (tbl A) f = 0 /\ 1 <= uses fst (pages A) f /\
  refs A f = uses fst (pages A) f.
Proof.
  intros Hp. destruct (a_page _ _ _ H d v f rw Hp) as (_ & _ & Hk & Hkp).
  pose proof (uses_pos fst (pages A) (d, v) (f, rw) Hp) as Hu. cbn in Hu.
  assert (Ht : uses id (tbl A) f = 0).
  { apply uses_zero. intros [d' i] t Ht E. cbn in E. subst t.
    destruct (a_tbl _ _ _ H d' i f Ht) as (_ & _ & _ & _ & _ & _ & Hz).
    by eapply (proj1 (uses_zero fst (pages A) f) Hz (d, v)). }
  unfold refs. lia.
Qed.

(** The list of counts after one changes by [k]. *)
Lemma counts_alter (A' : space) (N' : gmap (Z * Z) (Z * bool)) f k : 0 <= f < 8192 ->
  (forall x, 0 <= x < 8192 -> refs A' x + uses fst N' x = refs A x + uses fst N x + (if decide (x = f) then k else 0)) ->
  forall x, 0 <= x < 8192 ->
  <[Z.to_nat f := refs A f + uses fst N f + k]> l !! Z.to_nat x = Some (refs A' x + uses fst N' x).
Proof.
  intros Hf Hx x Hr. rewrite Hx by done. case_decide as Hd.
  - subst. rewrite list_lookup_insert_eq; [done|]. pose proof (a_len _ _ _ H). lia.
  - rewrite list_lookup_insert_ne by lia. rewrite (a_ref _ _ _ H x Hr). f_equal. lia.
Qed.
End counts.

Ltac acct_fields H := destruct H as [H1 H2 H3 H4 H5 H6 H7 H8 H9 H10 H11 H12].

(** Only the values of [kern] matter. *)
Lemma acct_ext A A' N l : (forall x, kern A' x = kern A x) -> roots A' = roots A -> tbl A' = tbl A ->
  pages A' = pages A -> ktbl A' = ktbl A -> kpages A' = kpages A -> acct A N l -> acct A' N l.
Proof.
  intros Ek E1 E2 E3 E4 E5 H. acct_fields H.
  split; rewrite ?E1, ?E2, ?E3, ?E4, ?E5; try done; intros; rewrite ?Ek; try by eauto.
  - rewrite (H2 f) by done. unfold refs. by rewrite E2, E3, E5, Ek.
Qed.

(** A free frame is taken. *)
Lemma acct_alloc A N l f : acct A N l -> 0 <= f < 8192 -> refs A f + uses fst N f = 0 ->
  acct (set_kern A f 1) N (<[Z.to_nat f := 1]> l).
Proof.
  intros H Hf Hz. destruct (free_frame A N l H f Hz) as (Hk & Hkp & Htb & Hp & Hn).
  destruct (free_not_structural A N l H f Hz) as [Hns Hnd].
  assert (Hkern : forall x, kern (set_kern A f 1) x = if decide (x = f) then 1 else kern A x) by done.
  pose proof (counts_alter A N l H (set_kern A f 1) N f 1 Hf) as Hc.
  rewrite Hz in Hc. cbn in Hc. pose proof H as Hacct. acct_fields H.
  split; cbn [set_kern with_kern roots tbl pages ktbl kpages kern]; try done.
  - by rewrite length_insert.
  - apply Hc. intros x Hx. unfold refs. rewrite Hkern. cbn. case_decide; subst; lia.
  - intros x. case_decide; [lia|done].
  - case_decide; [lia|done].
  - intros d Hd. destruct (H5 d Hd) as (? & ? & ?). case_decide; [lia|done].
  - intros d i t Ht. destruct (H6 d i t Ht) as (? & ? & ? & ? & ? & ? & ?).
    rewrite decide_False; [done|]. intros ->. apply Hns. right. right. by exists (d, i).
  - intros d v g rw Hg. destruct (H7 d v g rw Hg) as (? & ? & ? & ?).
    rewrite decide_False; [done|]. intros ->. apply Hnd. left. eauto.
  - intros i Hi. destruct (H10 i Hi) as (? & ? & ? & ?). split; [done|]. split; [case_decide; lia|done].
Qed.

(** The last reference of [kern] to a frame is given back. *)
Lemma acct_free A N l f : acct A N l -> 0 <= f < 8192 -> 1 <= kern A f -> f <> 0 -> f ∉ roots A ->
  (forall i, kernel_pdi i -> f <> ktbl A i) ->
  acct (set_kern A f (kern A f - 1)) N (<[Z.to_nat f := refs A f + uses fst N f - 1]> l).
Proof.
  intros H Hf Hk Hz Hr Hkt.
  assert (Hkern : forall x, kern (set_kern A f (kern A f - 1)) x = if decide (x = f) then kern A f - 1 else kern A x) by done.
  pose proof (counts_alter A N l H (set_kern A f (kern A f - 1)) N f (-1) Hf) as Hc.
  pose proof H as Hacct. acct_fields H.
  split; cbn [set_kern with_kern roots tbl pages ktbl kpages kern]; try done.
  - by rewrite length_insert.
  - apply Hc. intros x Hx. unfold refs. rewrite Hkern. cbn. case_decide; subst; lia.
  - intros x. case_decide; [lia|done].
  - by rewrite decide_False by done.
  - intros d Hd. rewrite decide_False by (intros ->; done). by apply H5.
  - intros d i t Ht. rewrite decide_False; [by apply H6|]. intros ->. by pose proof (H6 d i f Ht) as (_ & _ & _ & ? & _); lia.
  - intros d v g rw Hg. rewrite decide_False; [by eapply H7|]. intros ->. pose proof (H7 d v f rw Hg). lia.
  - intros i Hi. destruct (H10 i Hi) as (? & ? & ? & ?). rewrite decide_False by (intros E; by apply (Hkt i Hi)). done.
Qed.

(** A taken frame becomes a table. *)
Lemma acct_table A N l d i t : acct A N l -> user_pdi i -> 0 <= d < 8192 -> 0 <= t < 8192 ->
  kern A t = 1 -> uses id (kpages A) t = 0 -> uses id (tbl A) t = 0 -> uses fst (pages A) t = 0 ->
  t <> 0 -> t ∉ roots A -> (forall j, kernel_pdi j -> t <> ktbl A j) -> tbl A !! (d, i) = None ->
  acct (set_kern (with_tbl A (<[(d, i) := t]> (tbl A))) t 0) N l.
Proof.
  intros H Hi Hd Ht Hk Hkp Htb Hp Hz Hr Hkt Hn.
  assert (Hu : forall f, uses id (<[(d, i) := t]> (tbl A)) f = uses id (tbl A) f + (if decide (t = f) then 1 else 0)).
  { intros f. by apply (uses_insert id). }
  acct_fields H.
  split; cbn [set_kern with_kern with_tbl roots tbl pages ktbl kpages kern]; try done.
  - intros f Hf. rewrite (H2 f Hf). f_equal. unfold refs. cbn. rewrite Hu.
    destruct (decide (f = t)), (decide (t = f)); subst; try done; lia.
  - intros f. case_decide; [lia|done].
  - by rewrite decide_False by done.
  - intros e He. rewrite decide_False by (intros ->; done). by apply H5.
  - intros d' i' t' Ht'. destruct (decide ((d', i') = (d, i))) as [[= -> ->]|Hne].
    + rewrite lookup_insert_eq in Ht'. injection Ht' as <-. rewrite Hu, !decide_True by done. split; [done|]. lia.
    + rewrite lookup_insert_ne in Ht' by done. destruct (H6 d' i' t' Ht') as (? & ? & ? & ? & ? & ? & ?).
      assert (t' <> t) by (intros ->; rewrite Htb in *; lia). rewrite Hu, !decide_False by done.
      repeat (split; [done|]). split; [lia|done].
  - intros d' v g rw Hg. destruct (H7 d' v g rw Hg) as (Hs & ? & ? & ?). split.
    + destruct (decide ((d', v / 1024) = (d, i))) as [->|Hne]; [rewrite lookup_insert_eq; by eexists|].
      by rewrite lookup_insert_ne.
    + case_decide; [|done]. subst. by destruct (proj1 (uses_zero fst (pages A) t) Hp (d', v) (t, rw) Hg).
  - intros j Hj. destruct (H10 j Hj) as (? & ? & ? & ?). rewrite decide_False by (intros E; by apply (Hkt j Hj)). done.
Qed.

(** A table without pages is given back. *)
Lemma acct_untable A N l d i t : acct A N l -> tbl A !! (d, i) = Some t ->
  (forall v, v / 1024 = i -> pages A !! (d, v) = None) ->
  acct (with_tbl A (delete (d, i) (tbl A))) N (<[Z.to_nat t := refs A t + uses fst N t - 1]> l).
Proof.
  intros H Ht Hno. destruct (a_tbl _ _ _ H d i t Ht) as (Hi & Hd & Htr & Hk & Hkp & Hu1 & Hp).
  assert (Hu : forall f, uses id (delete (d, i) (tbl A)) f = uses id (tbl A) f - (if decide (t = f) then 1 else 0)).
  { intros f. by apply (uses_delete id). }
  pose proof (counts_alter A N l H (with_tbl A (delete (d, i) (tbl A))) N t (-1) Htr) as Hc.
  pose proof (tbl_inj A N l H) as Hinj.
  acct_fields H. split; cbn [with_tbl roots tbl pages ktbl kpages kern]; try done.
  - by rewrite length_insert.
  - apply Hc. intros x Hx. unfold refs. cbn. rewrite Hu.
    destruct (decide (x = t)), (decide (t = x)); subst; try done; lia.
  - intros d' i' t' Ht'. apply lookup_delete_Some in Ht' as [Hne Ht'].
    destruct (H6 d' i' t' Ht') as (? & ? & ? & ? & ? & ? & ?).
    assert (t' <> t) by (intros ->; apply Hne; by eapply Hinj).
    rewrite Hu, decide_False by done. repeat (split; [done|]). split; [lia|done].
  - intros d' v g rw Hg. destruct (H7 d' v g rw Hg) as (Hs & ? & ? & ?). split; [|done].
    rewrite lookup_delete_ne; [done|]. intros [= -> E]. rewrite (Hno v ltac:(done)) in Hg. done.
Qed.

(** A taken frame becomes a page. *)
Lemma acct_page A N l d v f rw : acct A N l -> is_Some (tbl A !! (d, v / 1024)) -> 0 <= f < 8192 ->
  kern A f = 1 -> uses id (kpages A) f = 0 -> uses id (tbl A) f = 0 -> uses fst (pages A) f = 0 ->
  f <> 0 -> f ∉ roots A -> (forall j, kernel_pdi j -> f <> ktbl A j) -> pages A !! (d, v) = None ->
  acct (set_kern (with_pages A (<[(d, v) := (f, rw)]> (pages A))) f 0) N l.
Proof.
  intros H Hs Hf Hk Hkp Htb Hp Hz Hr Hkt Hn.
  assert (Hu : forall x, uses fst (<[(d, v) := (f, rw)]> (pages A)) x = uses fst (pages A) x + (if decide (f = x) then 1 else 0)).
  { intros x. by apply (uses_insert fst). }
  assert (Hpf : forall d' v' rw', pages A !! (d', v') <> Some (f, rw')).
  { intros d' v' rw' E. by destruct (proj1 (uses_zero fst (pages A) f) Hp (d', v') (f, rw') E). }
  assert (Htf : forall k, tbl A !! k <> Some f).
  { intros k E. by destruct (proj1 (uses_zero id (tbl A) f) Htb k f E). }
  acct_fields H. split; cbn [set_kern with_kern with_pages roots tbl pages ktbl kpages kern]; try done.
  - intros x Hx. rewrite (H2 x Hx). f_equal. unfold refs. cbn. rewrite Hu.
    destruct (decide (x = f)), (decide (f = x)); subst; try done; lia.
  - intros x. case_decide; [lia|done].
  - by rewrite decide_False by done.
  - intros e He. rewrite decide_False by (intros ->; done). by apply H5.
  - intros d' i t Ht. destruct (H6 d' i t Ht) as (? & ? & ? & ? & ? & ? & ?).
    assert (t <> f) by (intros ->; by eapply Htf). rewrite Hu, !decide_False by done.
    repeat (split; [done|]). lia.
  - intros d' v' g rw' Hg. destruct (decide ((d', v') = (d, v))) as [[= -> ->]|Hne].
    + rewrite lookup_insert_eq in Hg. injection Hg as <- <-. by rewrite decide_True by done.
    + rewrite lookup_insert_ne in Hg by done. rewrite decide_False; [by eapply H7|]. intros ->. by eapply Hpf.
  - intros d1 v1 d2 v2 g rw1 rw2 Hg1 Hg2.
    destruct (decide ((d1, v1) = (d, v))) as [[= -> ->]|Hne1], (decide ((d2, v2) = (d, v))) as [[= -> ->]|Hne2]; [done|..].
    + rewrite lookup_insert_eq in Hg1. rewrite lookup_insert_ne in Hg2 by done.
      injection Hg1 as <- <-. by destruct (Hpf d2 v2 rw2).
    + rewrite lookup_insert_eq in Hg2. rewrite lookup_insert_ne in Hg1 by done.
      injection Hg2 as <- <-. by destruct (Hpf d1 v1 rw1).
    + rewrite lookup_insert_ne in Hg1, Hg2 by done. by eapply H8.
  - intros j Hj. destruct (H10 j Hj) as (? & ? & ? & ?). rewrite decide_False by (intros E; by apply (Hkt j Hj)). done.
Qed.

(** A taken frame becomes a page of the kernel. *)
Lemma acct_kpage A N l v f : acct A N l -> kernel_pdi (v / 1024) -> ~ temp v -> 0 <= f < 8192 ->
  kern A f = 1 -> uses id (tbl A) f = 0 -> uses fst (pages A) f = 0 ->
  f <> 0 -> f ∉ roots A -> (forall j, kernel_pdi j -> f <> ktbl A j) -> kpages A !! v = None ->
  acct (set_kern (with_kpages A (<[v := f]> (kpages A))) f 0) N l.
Proof.
  intros H Hv Hnt Hf Hk Htb Hp Hz Hr Hkt Hn.
  assert (Hu : forall x, uses id (<[v := f]> (kpages A)) x = uses id (kpages A) x + (if decide (f = x) then 1 else 0)).
  { intros x. by apply (uses_insert id). }
  assert (Hpf : forall k rw', pages A !! k <> Some (f, rw')).
  { intros k rw' E. by destruct (proj1 (uses_zero fst (pages A) f) Hp k (f, rw') E). }
  assert (Htf : forall k, tbl A !! k <> Some f).
  { intros k E. by destruct (proj1 (uses_zero id (tbl A) f) Htb k f E). }
  acct_fields H. split; cbn [set_kern with_kern with_kpages roots tbl pages ktbl kpages kern]; try done.
  - intros x Hx. rewrite (H2 x Hx). f_equal. unfold refs. cbn. rewrite Hu.
    destruct (decide (x = f)), (decide (f = x)); subst; try done; lia.
  - intros x. case_decide; [lia|done].
  - by rewrite decide_False by done.
  - intros e He. destruct (H5 e He) as (? & ? & ?). assert (e <> f) by (intros ->; done).
    rewrite Hu, !decide_False by done. split; [done|]. lia.
  - intros d' i t Ht. destruct (H6 d' i t Ht) as (? & ? & ? & ? & ? & ? & ?).
    assert (t <> f) by (intros ->; by eapply Htf). rewrite Hu, !decide_False by done.
    do 4 (split; [done|]). split; [lia|done].
  - intros d' v' g rw' Hg. destruct (H7 d' v' g rw' Hg) as (? & ? & ? & ?).
    assert (g <> f) by (intros ->; by eapply Hpf). rewrite Hu, !decide_False by done.
    repeat (split; [done|]). lia.
  - intros j Hj. destruct (H10 j Hj) as (? & ? & ? & ?).
    assert (ktbl A j <> f) by (intros E; by apply (Hkt j Hj)). rewrite Hu, !decide_False by done.
    repeat (split; [done|]). split; [lia|done].
  - intros v' g Hg. destruct (decide (v' = v)) as [->|Hne].
    + rewrite lookup_insert_eq in Hg. injection Hg as <-. split; [done|]. split; [done|]. lia.
    + rewrite lookup_insert_ne in Hg by done. by apply H12.
Qed.

(** A page is given back. *)
Lemma acct_unpage A N l d v f rw : acct A N l -> pages A !! (d, v) = Some (f, rw) ->
  acct (with_pages A (delete (d, v) (pages A))) N (<[Z.to_nat f := refs A f + uses fst N f - 1]> l).
Proof.
  intros H Hp. destruct (a_page _ _ _ H d v f rw Hp) as (_ & Hf & _).
  assert (Hu : forall x, uses fst (delete (d, v) (pages A)) x = uses fst (pages A) x - (if decide (f = x) then 1 else 0)).
  { intros x. by apply (uses_delete fst _ _ (f, rw)). }
  pose proof (counts_alter A N l H (with_pages A (delete (d, v) (pages A))) N f (-1) Hf) as Hc.
  destruct (page_uses A N l H d v f rw Hp) as (_ & _ & Htf & _ & _).
  acct_fields H. split; cbn [with_pages roots tbl pages ktbl kpages kern]; try done.
  - by rewrite length_insert.
  - apply Hc. intros x Hx. unfold refs. cbn. rewrite Hu.
    destruct (decide (x = f)), (decide (f = x)); subst; try done; lia.
  - intros d' i t Ht. destruct (H6 d' i t Ht) as (? & ? & ? & ? & ? & ? & ?).
    repeat (split; [done|]). rewrite Hu, decide_False; [lia|]. intros ->.
    by destruct (proj1 (uses_zero id (tbl A) t) Htf (d', i) t Ht).
  - intros d' v' g rw' Hg. apply lookup_delete_Some in Hg as [_ Hg]. by eapply H7.
  - intros d1 v1 d2 v2 g rw1 rw2 Hg1 Hg2. apply lookup_delete_Some in Hg1 as [_ Hg1].
    apply lookup_delete_Some in Hg2 as [_ Hg2]. by eapply H8.
Qed.

Lemma acct_unkpage A N l v f : acct A N l -> kpages A !! v = Some f -> 0 <= f < 8192 ->
  acct (with_kpages A (delete v (kpages A))) N (<[Z.to_nat f := refs A f + uses fst N f - 1]> l).
Proof.
  intros H Hp Hf.
  assert (Hu : forall x, uses id (delete v (kpages A)) x = uses id (kpages A) x - (if decide (f = x) then 1 else 0)).
  { intros x. by apply (uses_delete id). }
  pose proof (counts_alter A N l H (with_kpages A (delete v (kpages A))) N f (-1) Hf) as Hc.
  pose proof (uses_pos id (kpages A) v f Hp) as Hpos. cbn in Hpos.
  acct_fields H. split; cbn [with_kpages roots tbl pages ktbl kpages kern]; try done.
  - by rewrite length_insert.
  - apply Hc. intros x Hx. unfold refs. cbn. rewrite Hu.
    destruct (decide (x = f)), (decide (f = x)); subst; try done; lia.
  - intros e He. destruct (H5 e He) as (? & ? & ?). rewrite Hu, decide_False by (intros ->; lia).
    repeat (split; [done|]). lia.
  - intros d' i t Ht. destruct (H6 d' i t Ht) as (? & ? & ? & ? & ? & ? & ?).
    rewrite Hu, decide_False by (intros ->; lia). repeat (split; [done|]). split; [lia|done].
  - intros d' v' g rw' Hg. destruct (H7 d' v' g rw' Hg) as (? & ? & ? & ?).
    rewrite Hu, decide_False by (intros ->; lia). repeat (split; [done|]). lia.
  - intros j Hj. destruct (H10 j Hj) as (? & ? & ? & ?). rewrite Hu, decide_False by (intros ->; lia).
    repeat (split; [done|]). split; [lia|done].
  - intros v' g Hg. apply lookup_delete_Some in Hg as [_ Hg]. by apply H12.
Qed.

(** A page changes its writable bit. *)
Lemma acct_rw A N l d v f rw b : acct A N l -> pages A !! (d, v) = Some (f, rw) ->
  acct (with_pages A (<[(d, v) := (f, b)]> (pages A))) N l.
Proof.
  intros H Hp.
  assert (Hu : forall x, uses fst (<[(d, v) := (f, b)]> (pages A)) x = uses fst (pages A) x).
  { intros x. rewrite (uses_replace fst _ _ _ _ x Hp). cbn. lia. }
  assert (Hold : forall k g rw', <[(d, v) := (f, b)]> (pages A) !! k = Some (g, rw') ->
    exists rw'', pages A !! k = Some (g, rw'')).
  { intros k g rw' Hk. destruct (decide (k = (d, v))) as [->|Hne].
    - rewrite lookup_insert_eq in Hk. injection Hk as <- <-. eauto.
    - rewrite lookup_insert_ne in Hk by done. eauto. }
  acct_fields H. split; cbn [with_pages roots tbl pages ktbl kpages kern]; try done.
  - intros x Hx. rewrite (H2 x Hx). unfold refs. cbn. by rewrite Hu.
  - intros d' i t Ht. rewrite Hu. by apply H6.
  - intros d' v' g rw' Hg. destruct (Hold _ _ _ Hg) as [rw'' Hg']. by eapply H7.
  - intros d1 v1 d2 v2 g rw1 rw2 Hg1 Hg2. destruct (Hold _ _ _ Hg1) as [? Hg1'], (Hold _ _ _ Hg2) as [? Hg2'].
    by eapply H8.
Qed.

(** A page gets a frame of its own; the reference to the old one is still counted. *)
Lemma acct_cow A l d v f rw g : acct A ∅ l -> pages A !! (d, v) = Some (f, rw) -> 0 <= g < 8192 ->
  kern A g = 1 -> uses id (kpages A) g = 0 -> uses id (tbl A) g = 0 -> uses fst (pages A) g = 0 ->
  g <> 0 -> g ∉ roots A -> (forall j, kernel_pdi j -> g <> ktbl A j) ->
  acct (set_kern (with_pages A (<[(d, v) := (g, true)]> (pages A))) g 0) {[(d, v) := (f, rw)]} l.
Proof.
  intros H Hpd Hg Hk Hkp Htb Hp Hz Hr Hkt.
  assert (Hu : forall x, uses fst (<[(d, v) := (g, true)]> (pages A)) x =
    uses fst (pages A) x - (if decide (f = x) then 1 else 0) + (if decide (g = x) then 1 else 0)).
  { intros x. by rewrite (uses_replace fst _ _ _ _ x Hpd). }
  assert (Hn : forall x, uses fst ({[(d, v) := (f, rw)]} : gmap (Z * Z) (Z * bool)) x = if decide (f = x) then 1 else 0).
  { intros x. rewrite <- insert_empty, (uses_insert fst) by done. rewrite uses_empty. cbn. lia. }
  assert (Hpg : forall k rw', pages A !! k <> Some (g, rw')).
  { intros k rw' E. by destruct (proj1 (uses_zero fst (pages A) g) Hp k (g, rw') E). }
  assert (Htg : forall k, tbl A !! k <> Some g).
  { intros k E. by destruct (proj1 (uses_zero id (tbl A) g) Htb k g E). }
  assert (Hfg : f <> g) by (intros ->; by eapply Hpg).
  destruct (page_uses A ∅ l H d v f rw Hpd) as (_ & _ & Htf & _ & _).
  destruct (a_page _ _ _ H d v f rw Hpd) as (Hs & Hf & _).
  assert (Hd : 0 <= d < 8192) by (destruct Hs as [t Ht]; by pose proof (a_tbl _ _ _ H _ _ _ Ht) as (_ & ? & _)).
  acct_fields H. split; cbn [set_kern with_kern with_pages roots tbl pages ktbl kpages kern]; try done.
  - intros x Hx. rewrite (H2 x Hx). f_equal. unfold refs. cbn. rewrite Hu, Hn, uses_empty.
    destruct (decide (x = g)), (decide (f = x)), (decide (g = x)); subst; try done; lia.
  - intros x. case_decide; [lia|done].
  - by rewrite decide_False by done.
  - intros e He. rewrite decide_False by (intros ->; done). by apply H5.
  - intros d' i t Ht. destruct (H6 d' i t Ht) as (? & ? & ? & ? & ? & ? & ?).
    assert (t <> g) by (intros ->; by eapply Htg).
    assert (f <> t) by (intros ->; by destruct (proj1 (uses_zero id (tbl A) t) Htf (d', i) t Ht)).
    rewrite Hu, !decide_False by done. repeat (split; [done|]). lia.
  - intros d' v' h rw' Hh. destruct (decide ((d', v') = (d, v))) as [[= -> ->]|Hne].
    + rewrite lookup_insert_eq in Hh. injection Hh as <- <-. by rewrite decide_True by done.
    + rewrite lookup_insert_ne in Hh by done. rewrite decide_False; [by eapply H7|]. intros ->. by eapply Hpg.
  - intros d1 v1 d2 v2 h rw1 rw2 Hg1 Hg2.
    destruct (decide ((d1, v1) = (d, v))) as [[= -> ->]|Hne1], (decide ((d2, v2) = (d, v))) as [[= -> ->]|Hne2]; [done|..].
    + rewrite lookup_insert_eq in Hg1. rewrite lookup_insert_ne in Hg2 by done.
      injection Hg1 as <- <-. by destruct (Hpg (d2, v2) rw2).
    + rewrite lookup_insert_eq in Hg2. rewrite lookup_insert_ne in Hg1 by done.
      injection Hg2 as <- <-. by destruct (Hpg (d1, v1) rw1).
    + rewrite lookup_insert_ne in Hg1, Hg2 by done. by eapply H8.
  - intros d1 v1 d2 v2 h rw1 rw2 [E1 _]%lookup_singleton_Some [E2 _]%lookup_singleton_Some.
    split; [congruence|]. injection E1 as -> ->. done.
  - intros j Hj. destruct (H10 j Hj) as (? & ? & ? & ?). rewrite decide_False by (intros E; by apply (Hkt j Hj)). done.
Qed.

(** A reference counted in advance is given back, or taken. *)
Lemma acct_unshare A N l k f rw : acct A N l -> N !! k = Some (f, rw) -> 0 <= f < 8192 ->
  acct A (delete k N) (<[Z.to_nat f := refs A f + uses fst N f - 1]> l).
Proof.
  intros H Hk Hf.
  assert (Hu : forall x, uses fst (delete k N) x = uses fst N x - (if decide (f = x) then 1 else 0)).
  { intros x. by apply (uses_delete fst _ _ (f, rw)). }
  pose proof (counts_alter A N l H A (delete k N) f (-1) Hf) as Hc.
  acct_fields H. split; try done.
  - by rewrite length_insert.
  - apply Hc. intros x Hx. rewrite Hu.
    destruct (decide (x = f)), (decide (f = x)); subst; try done; lia.
  - intros d1 v1 d2 v2 h rw1 rw2 Hg1 Hg2. apply lookup_delete_Some in Hg1 as [_ Hg1].
    apply lookup_delete_Some in Hg2 as [_ Hg2]. by eapply H9.
Qed.

Lemma acct_share A N l e v f rw : acct A N l -> N !! (e, v) = None -> 0 <= f < 8192 -> 0 <= e < 8192 ->
  (forall d' v' rw', N !! (d', v') = Some (f, rw') -> v' = v) ->
  acct A (<[(e, v) := (f, rw)]> N) (<[Z.to_nat f := refs A f + uses fst N f + 1]> l).
Proof.
  intros H Hk Hf He Hv.
  assert (Hu : forall x, uses fst (<[(e, v) := (f, rw)]> N) x = uses fst N x + (if decide (f = x) then 1 else 0)).
  { intros x. by apply (uses_insert fst). }
  pose proof (counts_alter A N l H A (<[(e, v) := (f, rw)]> N) f 1 Hf) as Hc.
  acct_fields H. split; try done.
  - by rewrite length_insert.
  - apply Hc. intros x Hx. rewrite Hu.
    destruct (decide (x = f)), (decide (f = x)); subst; try done; lia.
  - intros d1 v1 d2 v2 h rw1 rw2 Hg1 Hg2.
    destruct (decide ((d1, v1) = (e, v))) as [[= -> ->]|Hne1], (decide ((d2, v2) = (e, v))) as [[= -> ->]|Hne2]; [done|..].
    + rewrite lookup_insert_eq in Hg1. rewrite lookup_insert_ne in Hg2 by done.
      injection Hg1 as <- <-. split; [|done]. symmetry. by eapply Hv.
    + rewrite lookup_insert_eq in Hg2. rewrite lookup_insert_ne in Hg1 by done.
      injection Hg2 as <- <-. split; [by eapply Hv|]. by eapply H9.
    + rewrite lookup_insert_ne in Hg1, Hg2 by done. by eapply H9.
Qed.

(** The table of a copy is linked, with the pages counted in advance. *)
Lemma acct_link A N l e i t : acct A N l -> user_pdi i -> 0 <= e < 8192 -> 0 <= t < 8192 ->
  kern A t = 1 -> uses id (kpages A) t = 0 -> uses id (tbl A) t = 0 -> uses fst (pages A) t = 0 ->
  t <> 0 -> t ∉ roots A -> (forall j, kernel_pdi j -> t <> ktbl A j) -> tbl A !! (e, i) = None ->
  (forall k x, N !! k = Some x -> exists v d rw, k = (e, v) /\ v / 1024 = i /\ pages A !! (d, v) = Some (x.1, rw)) ->
  (forall v, v / 1024 = i -> pages A !! (e, v) = None) ->
  acct (set_kern (with_pages (with_tbl A (<[(e, i) := t]> (tbl A))) (pages A ∪ N)) t 0) ∅ l.
Proof.
  intros H Hi He Ht Hk Hkp Htb Hp Hz Hr Hkt Hn HN Hempty.
  pose proof (acct_table A N l e i t H Hi He Ht Hk Hkp Htb Hp Hz Hr Hkt Hn) as Ha.
  assert (Hdisj : pages A ##ₘ N).
  { apply map_disjoint_spec. intros k x y Hx Hy. destruct (HN k y Hy) as (v & d & rw & -> & Hv & _).
    by rewrite (Hempty v Hv) in Hx. }
  assert (Hu : forall x, uses fst (pages A ∪ N) x = uses fst (pages A) x + uses fst N x) by (intros; by apply uses_union).
  assert (HNp : forall k g rw, N !! k = Some (g, rw) -> exists d v rw', pages A !! (d, v) = Some (g, rw') /\ k = (e, v) /\ v / 1024 = i).
  { intros k g rw Hk'. destruct (HN k _ Hk') as (v & d & rw' & ? & ? & ?). eauto 10. }
  assert (Hz' : forall x, uses fst (pages A) x = 0 -> uses fst N x = 0).
  { intros x Hx. apply uses_zero. intros k [g rw] Hk' E. cbn in E. subst g.
    destruct (HNp k x rw Hk') as (d & v & rw' & Hd & _).
    by destruct (proj1 (uses_zero fst (pages A) x) Hx (d, v) (x, rw') Hd). }
  acct_fields Ha. cbn [set_kern with_kern with_tbl roots tbl pages ktbl kpages kern] in *.
  split; cbn [set_kern with_kern with_pages with_tbl roots tbl pages ktbl kpages kern]; try done.
  - intros x Hx. rewrite (H2 x Hx). f_equal. unfold refs. cbn. rewrite Hu, uses_empty. lia.
  - intros d' i' t' Ht'. destruct (H6 d' i' t' Ht') as (? & ? & ? & ? & ? & ? & Hpz).
    repeat (split; [done|]). rewrite Hu, (Hz' t' Hpz). lia.
  - intros d' v g rw Hg. apply lookup_union_Some in Hg as [Hg|Hg]; [by eapply H7| |done].
    destruct (HNp _ _ _ Hg) as (d & v' & rw' & Hd & [= -> <-] & Hvi).
    destruct (H7 d v g rw' Hd) as (_ & ? & ?). split; [|done]. rewrite Hvi, lookup_insert_eq. by eexists.
  - intros d1 v1 d2 v2 g rw1 rw2 Hg1 Hg2.
    assert (Hany : forall d v rw, (pages A ∪ N) !! (d, v) = Some (g, rw) -> exists d' rw', pages A !! (d', v) = Some (g, rw')).
    { intros d v rw Hg. apply lookup_union_Some in Hg as [Hg|Hg]; [eauto| |done].
      destruct (HNp _ _ _ Hg) as (d' & v' & rw' & Hd & [= -> <-] & _). eauto. }
    destruct (Hany _ _ _ Hg1) as (? & ? & ?), (Hany _ _ _ Hg2) as (? & ? & ?). by eapply H8.
Qed.

(** A directory joins the address spaces, or leaves them. *)
Lemma acct_add_root A N l d : acct A N l -> 0 < d < 8192 -> 1 <= kern A d -> uses id (kpages A) d = 0 ->
  (forall i, kernel_pdi i -> d <> ktbl A i) -> acct (with_roots A ({[d]} ∪ roots A)) N l.
Proof.
  intros H Hd Hk Hu Hkt. acct_fields H. split; cbn [with_roots roots tbl pages ktbl kpages kern]; try done.
  - intros e [->%elem_of_singleton|He]%elem_of_union; [done|by apply H5].
  - intros i Hi. destruct (H10 i Hi) as (? & ? & ? & ?). repeat (split; [done|]).
    intros [E%elem_of_singleton|He]%elem_of_union; [by apply (Hkt i Hi)|done].
Qed.

Lemma acct_del_root A N l d : acct A N l -> acct (with_roots A (roots A ∖ {[d]})) N l.
Proof.
  intros H. acct_fields H. split; cbn [with_roots roots tbl pages ktbl kpages kern]; try done.
  - intros e [He _]%elem_of_difference. by apply H5.
  - intros i Hi. destruct (H10 i Hi) as (? & ? & ? & Hr). repeat (split; [done|]).
    intros [He _]%elem_of_difference. done.
Qed.
