(* ===== verification/PageOps.v ===== *)
(** The operations of paging on the address spaces: releasing, mapping, the copy
    on write and the clone of an address space, each with its effect on the maps
    of [PageSpec] and on the contents of the pages. *)
From S2P Require Import Prelude Memory BitMap Page PageMem PageSpec.

(** ** The state and its address spaces *)
Record vmrel (s : vm) (A : space) (T : gmap Z Z) (N : gmap (Z * Z) (Z * bool)) (P : Z -> Prop) : Prop := {
  v_acct : acct A N (phy_frames_array s);
  v_tables : tables A T (pm s);
  v_root : root s ∈ roots A;
  v_cr3 : cr3 s = 4096 * root s;
  v_last : 0 <= last_allocated_index s < 8192;
  v_tlb : tlb_fresh (tlb s) (pm s) (root s) P
}.

(** All but the memory, the TLB and the frames is the same. *)
Definition mtl (s : vm) (m : mem) (t : Z -> option (Z * Z)) (l : list Z) (last : Z) : vm :=
  with_frames (mt s m t) l last.
Definition same (s s' : vm) : Prop :=
  s' = mtl s (pm s') (tlb s') (phy_frames_array s') (last_allocated_index s').

Lemma same_refl s : same s s.
Proof. by destruct s. Qed.
Lemma same_trans s1 s2 s3 : same s1 s2 -> same s2 s3 -> same s1 s3.
Proof. unfold same. intros -> ->. done. Qed.
Lemma same_root s s' : same s s' -> root s' = root s.
Proof. by intros ->. Qed.

(** The contents of the pages of [A] are kept. *)
Definition kept (A : space) (m m' : mem) : Prop := forall f, data_frame A f -> same_frame m m' f.

Lemma kept_refl A m : kept A m m.
Proof. intros f _. apply same_frame_refl. Qed.
Lemma kept_trans A m1 m2 m3 : kept A m1 m2 -> kept A m2 m3 -> kept A m1 m3.
Proof. intros H1 H2 f Hf. eapply same_frame_trans; eauto. Qed.

(** ** The windows on the tables *)
Definition wpage (i : Z) : Z := 769 * 1024 + i.

(** The windows on the current tables may be used. *)
Definition windows_ok (A : space) (d : Z) (P : Z -> Prop) : Prop :=
  forall i, i = 769 \/ kernel_pdi i \/ is_Some (tbl A !! (d, i)) -> ~ P (wpage i).

Lemma pde_at_page i : 0 <= i < 1024 -> pde_at i / 4096 = wpage 769 /\ pde_at i mod 4096 = 4 * i /\ 0 <= pde_at i < 2 ^ 32.
Proof. intros. unfold pde_at, PAGE_DIR_VIRTUAL, wpage. zdiv. Qed.

Lemma pte_at_page v : 0 <= v < 2 ^ 20 ->
  pte_at v / 4096 = wpage (v / 1024) /\ pte_at v mod 4096 = 4 * (v mod 1024) /\ 0 <= pte_at v < 2 ^ 32.
Proof. intros. unfold pte_at, PAGE_TABLES_VIRTUAL, wpage. zdiv. Qed.

Lemma wpage_div i : 0 <= i < 1024 -> wpage i / 1024 = 769 /\ wpage i mod 1024 = i /\ 0 <= wpage i < 2 ^ 20.
Proof. intros. unfold wpage. zdiv. Qed.

Section windows.
Context (s : vm) (A : space) (T : gmap Z Z) (N : gmap (Z * Z) (Z * bool)) (P : Z -> Prop).
Context (R : vmrel s A T N P).

Lemma self_entry : pte_present (ent (pm s) (root s) 769) = true /\ pte_frame (ent (pm s) (root s) 769) = root s.
Proof. destruct (t_root _ _ _ (v_tables _ _ _ _ _ R) _ (v_root _ _ _ _ _ R)) as (_ & ? & ?). done. Qed.

Lemma points_pde i : 0 <= i < 1024 -> points (pm s) (root s) (pde_at i) (root s) (4 * i).
Proof.
  intros Hi. destruct (pde_at_page i Hi) as (E1 & E2 & E3). split; [done|]. split; [done|].
  destruct self_entry as [Hp Hf]. rewrite E1, walk_ent. destruct (wpage_div 769 ltac:(lia)) as (-> & -> & _).
  cbv zeta. rewrite Hp, Hf, Hp. by eexists.
Qed.

Lemma points_pte v t : 0 <= v < 2 ^ 20 -> pte_present (ent (pm s) (root s) (v / 1024)) = true ->
  pte_frame (ent (pm s) (root s) (v / 1024)) = t -> points (pm s) (root s) (pte_at v) t (4 * (v mod 1024)).
Proof.
  intros Hv Hp Hf. destruct (pte_at_page v Hv) as (E1 & E2 & E3). split; [done|]. split; [done|].
  destruct self_entry as [Hp' Hf']. destruct (pdi_range v Hv) as (Hi & _ & _).
  rewrite E1, walk_ent. destruct (wpage_div (v / 1024) Hi) as (-> & -> & _).
  cbv zeta. rewrite Hp', Hf', Hp. by eexists.
Qed.

Lemma via_window f i : 0 <= i < 1024 -> via (pm s) (root s) f (wpage i) -> f = root s.
Proof.
  intros Hi [?|(_ & Hf)]; [done|]. destruct (wpage_div i Hi) as (E & _). rewrite E in Hf.
  destruct self_entry as [_ Hf']. congruence.
Qed.

(** The table of a page in the current address space. *)
Lemma user_table i t : tbl A !! (root s, i) = Some t -> is_entry (ent (pm s) (root s) i) t true true.
Proof.
  intros Ht. destruct (a_tbl _ _ _ (v_acct _ _ _ _ _ R) _ _ _ Ht) as (Hi & _).
  pose proof (t_user _ _ _ (v_tables _ _ _ _ _ R) _ _ (v_root _ _ _ _ _ R) Hi) as H. by rewrite Ht in H.
Qed.

(** Which pages go through a frame: those of the table it is. *)
Lemma frame_of_pdi i t : 0 <= i < 1024 -> pte_present (ent (pm s) (root s) i) = true ->
  pte_frame (ent (pm s) (root s) i) = t ->
  (user_pdi i /\ tbl A !! (root s, i) = Some t) \/ (kernel_pdi i /\ t = ktbl A i) \/ (i = 769 /\ t = root s).
Proof.
  intros Hi Hp Hf. pose proof (v_tables _ _ _ _ _ R) as Tb. pose proof (v_root _ _ _ _ _ R) as Hr.
  destruct (decide (i = 0)) as [->|H0]; [destruct (t_root _ _ _ Tb _ Hr) as [Hc _]; congruence|].
  destruct (decide (i = 769)) as [->|H9]; [right; right; destruct self_entry; naive_solver|].
  destruct (decide (i < 768)) as [Hu|Hk].
  - left. assert (Hui : user_pdi i) by (unfold user_pdi; lia). split; [done|].
    pose proof (t_user _ _ _ Tb _ _ Hr Hui) as H. destruct (tbl A !! (root s, i)) as [t'|]; [|congruence].
    destruct H as (_ & H & _). congruence.
  - right; left. assert (Hki : kernel_pdi i) by (unfold kernel_pdi; lia). split; [done|].
    destruct (t_kdir _ _ _ Tb _ _ Hr Hki). congruence.
Qed.

Lemma through_leaf i t j v : tbl A !! (root s, i) = Some t -> 0 <= v < 2 ^ 20 ->
  through (pm s) (root s) t j v -> v = 1024 * i + j.
Proof.
  intros Ht Hv Hth. pose proof (v_acct _ _ _ _ _ R) as Ac. pose proof (v_root _ _ _ _ _ R) as Hr.
  destruct (pdi_range v Hv) as (Hi & Hj & Ev). destruct Hth as [[E _]|(Hp & Hf & Hm)].
  - by destruct (tbl_not_root _ _ _ Ac _ t (root s) Ht Hr).
  - destruct (frame_of_pdi _ _ Hi Hp Hf) as [[_ Ht']|[[Hk ->]|[_ ->]]].
    + pose proof (tbl_inj _ _ _ Ac _ _ _ Ht Ht') as [= ->]. lia.
    + by destruct (tbl_not_ktbl _ _ _ Ac _ _ _ Ht Hk).
    + by destruct (tbl_not_root _ _ _ Ac _ _ _ Ht Hr).
Qed.

Lemma through_kleaf i j v : kernel_pdi i -> 0 <= v < 2 ^ 20 ->
  through (pm s) (root s) (ktbl A i) j v -> v = 1024 * i + j.
Proof.
  intros Hk Hv Hth. pose proof (v_acct _ _ _ _ _ R) as Ac. pose proof (v_root _ _ _ _ _ R) as Hr.
  destruct (pdi_range v Hv) as (Hi & Hj & Ev). destruct Hth as [[E _]|(Hp & Hf & Hm)].
  - by destruct (ktbl_not_root _ _ _ Ac i (root s) Hk Hr).
  - destruct (frame_of_pdi _ _ Hi Hp Hf) as [[_ Ht']|[[Hk' E]|[_ E]]].
    + by destruct (tbl_not_ktbl _ _ _ Ac _ _ _ Ht' Hk).
    + pose proof (a_kinj _ _ _ Ac _ _ Hk Hk' E). lia.
    + by destruct (ktbl_not_root _ _ _ Ac i (root s) Hk Hr).
Qed.

Lemma through_dir i v : 0 <= v < 2 ^ 20 -> through (pm s) (root s) (root s) i v -> v / 1024 = i \/ v = wpage i.
Proof.
  intros Hv Hth. pose proof (v_acct _ _ _ _ _ R) as Ac. pose proof (v_root _ _ _ _ _ R) as Hr.
  destruct (pdi_range v Hv) as (Hi & Hj & Ev). destruct Hth as [[_ ?]|(Hp & Hf & Hm)]; [by left|].
  destruct (frame_of_pdi _ _ Hi Hp Hf) as [[_ Ht']|[[Hk' E]|[E _]]].
  - by destruct (tbl_not_root _ _ _ Ac _ _ _ Ht' Hr).
  - by destruct (ktbl_not_root _ _ _ Ac _ _ Hk' Hr).
  - right. unfold wpage. lia.
Qed.

(** A frame that is no table is not used by the translation. *)
Lemma via_structural f v : 0 <= v < 2 ^ 20 -> via (pm s) (root s) f v -> structural A f.
Proof.
  intros Hv Hvia. pose proof (v_root _ _ _ _ _ R) as Hr.
  destruct Hvia as [->|(Hp & Hf)]; [by left|]. destruct (pdi_range v Hv) as (Hi & _).
  destruct (frame_of_pdi _ _ Hi Hp Hf) as [[_ Ht']|[[Hk' E]|[_ ->]]].
  - right; right. eauto.
  - right; left. eauto.
  - by left.
Qed.
End windows.

(** ** Frames *)
Definition unlocked (s : vm) : Prop := phy_frames_map_lock s = LOCKED_NO.
Definition dir_unlocked (s : vm) : Prop := multi_task s = true -> page_dir_lock s = LOCKED_NO.

Lemma with_frames_self s : with_frames s (phy_frames_array s) (last_allocated_index s) = s.
Proof. by destruct s. Qed.

(** The search starts at the frame allocated last and goes round. *)
Lemma alloc_phy_frame_search s : unlocked s -> Z.of_nat (length (phy_frames_array s)) = 8192 ->
  0 <= last_allocated_index s < 8192 ->
  (exists f, alloc_phy_frame s = Ok (Some f, with_frames s (<[Z.to_nat f := 1]> (phy_frames_array s)) f) /\
     0 <= f < 8192 /\ phy_frames_array s !! Z.to_nat f = Some 0 /\
     forall j, 0 <= j < (f - last_allocated_index s) mod 8192 ->
       phy_frames_array s !! Z.to_nat ((last_allocated_index s + j) mod 8192) <> Some 0) \/
  (alloc_phy_frame s = Ok (None, s) /\ forall f, 0 <= f < 8192 -> phy_frames_array s !! Z.to_nat f <> Some 0).
Proof.
  intros Hl Hlen Hlast. unfold alloc_phy_frame, lock_frames. unfold unlocked in Hl. rewrite Hl. cbn [yieldlock_lock atomic_exchange].
  change (negb (LOCKED_NO =? LOCKED_NO)) with false. cbn [res_bind]. change TOTAL_FRAMES with 8192.
  match goal with |- context [for_find _ _ ?f] => set (F := f) end.
  assert (HF : forall i, 0 <= i < 8192 -> let c := (last_allocated_index s + i) mod 8192 in
    0 <= c < 8192 /\ exists n, phy_frames_array s !! Z.to_nat c = Some n /\ F i = if n =? 0 then Some (Ok c) else None).
  { intros i Hi c. assert (Hc : 0 <= c < 8192) by (apply Z.mod_pos_bound; lia). split; [done|].
    destruct (lookup_lt_is_Some_2 (phy_frames_array s) (Z.to_nat c)) as [n Hn]; [lia|]. exists n. split; [done|].
    unfold F. cbn [with_locks last_allocated_index phy_frames_array]. cbv zeta. rewrite u32_small by lia. fold c.
    by rewrite (arr_get_Some _ _ n) by (done || lia). }
  destruct (for_find (Z.to_nat 8192) 0 F) as [r|] eqn:E.
  - left. apply for_find_Some in E as (j & Hj & Ej & Hbefore). destruct (HF j ltac:(lia)) as (Hc & n & Hn & E').
    rewrite E' in Ej. set (c := (last_allocated_index s + j) mod 8192) in *.
    destruct (n =? 0) eqn:Hz; [|done]. injection Ej as <-. bool_to_prop. subst n.
    exists c. unfold arr_set. cbn [with_locks phy_frames_array]. rewrite decide_True by lia. cbn [res_bind].
    split; [unfold unlock_frames, with_frames, with_locks, yieldlock_unlock; cbn; by rewrite Hl|].
    split; [done|]. split; [done|]. intros k Hk Hz.
    replace ((c - last_allocated_index s) mod 8192) with j in Hk by (unfold c; zdiv).
    destruct (HF k ltac:(lia)) as (_ & n & Hn' & Ek). rewrite Hn' in Hz. injection Hz as ->.
    rewrite Hbefore in Ek by lia. done.
  - right. split.
    + f_equal. f_equal. destruct s; cbn in *. by rewrite Hl.
    + intros f Hf Hz. pose proof (proj1 (for_find_None _ _ _) E ((f - last_allocated_index s) mod 8192)) as Hn.
      pose proof (Z.mod_pos_bound (f - last_allocated_index s) 8192 ltac:(lia)).
      destruct (HF ((f - last_allocated_index s) mod 8192) ltac:(lia)) as (_ & n & Hn' & Ek).
      replace ((last_allocated_index s + (f - last_allocated_index s) mod 8192) mod 8192) with f in Hn' by zdiv.
      rewrite Hz in Hn'. injection Hn' as <-. rewrite Hn in Ek by lia. done.
Qed.

Lemma alloc_phy_frame_ok s A T N P : vmrel s A T N P -> unlocked s ->
  (exists f, alloc_phy_frame s = Ok (Some f, with_frames s (<[Z.to_nat f := 1]> (phy_frames_array s)) f) /\
     0 < f < 8192 /\ refs A f + uses fst N f = 0 /\
     vmrel (with_frames s (<[Z.to_nat f := 1]> (phy_frames_array s)) f) (set_kern A f 1) T N P) \/
  (alloc_phy_frame s = Ok (None, s) /\ forall f, 0 <= f < 8192 -> refs A f + uses fst N f <> 0).
Proof.
  intros R Hl. pose proof (v_acct _ _ _ _ _ R) as Ac.
  destruct (alloc_phy_frame_search s Hl (a_len _ _ _ Ac) (v_last _ _ _ _ _ R)) as [(c & E & Hc & Hz & _)|[E Hn]]; [left|right].
  - rewrite (a_ref _ _ _ Ac c Hc) in Hz. injection Hz as Hz. exists c. split; [done|].
    assert (Hc0 : c <> 0).
    { intros Ec. rewrite Ec in Hz. destruct (free_frame _ _ _ Ac 0 Hz) as (Hk & _). pose proof (a_zero _ _ _ Ac). lia. }
    split; [lia|]. split; [done|]. destruct R as [r1 r2 r3 r4 r5 r6].
    split; cbn; [by apply acct_alloc|by eapply (tables_eq A)|done|done|lia|done].
  - split; [done|]. intros f Hf Hz. apply (Hn f Hf). rewrite (a_ref _ _ _ Ac f Hf). by rewrite Hz.
Qed.

Lemma counts_range A N l f : acct A N l -> 0 <= f < 8192 -> l !! Z.to_nat f = Some (refs A f + uses fst N f).
Proof. intros H. apply H. Qed.

Lemma release_phy_frame_ok s f n : unlocked s -> Z.of_nat (length (phy_frames_array s)) = 8192 -> 0 <= f < 8192 ->
  phy_frames_array s !! Z.to_nat f = Some n -> 0 < n < 65536 ->
  release_phy_frame s f = Ok (with_frames s (<[Z.to_nat f := n - 1]> (phy_frames_array s)) (last_allocated_index s)).
Proof.
  intros Hl Hlen Hf Hn Hr. unfold release_phy_frame, lock_frames. unfold unlocked in Hl. rewrite Hl.
  change TOTAL_FRAMES with 8192. replace (f <? 8192) with true by (symmetry; zbool; lia).
  cbn [yieldlock_lock atomic_exchange]. change (negb (LOCKED_NO =? LOCKED_NO)) with false. cbn [res_bind].
  cbn [with_locks phy_frames_array]. erewrite arr_get_Some by (done || lia). cbn [res_bind].
  replace (n >? 0) with true by (symmetry; zbool; lia).
  unfold arr_set. rewrite decide_True by lia. cbn [res_bind]. rewrite u16_small by lia.
  unfold unlock_frames, with_frames, with_locks, yieldlock_unlock. cbn. by rewrite Hl.
Qed.

Lemma get_phy_frame_ref_ok s f n : unlocked s -> 0 <= f < 8192 ->
  phy_frames_array s !! Z.to_nat f = Some n -> get_phy_frame_ref s f = Ok (n, s).
Proof.
  intros Hl Hf Hn. unfold get_phy_frame_ref, lock_frames. unfold unlocked in Hl. rewrite Hl.
  change TOTAL_FRAMES with 8192. replace (f <? 8192) with true by (symmetry; zbool; lia).
  cbn [yieldlock_lock atomic_exchange]. change (negb (LOCKED_NO =? LOCKED_NO)) with false. cbn [res_bind].
  cbn [with_locks phy_frames_array]. erewrite arr_get_Some by (done || lia). cbn [res_bind].
  f_equal. f_equal. destruct s; cbn in *. by rewrite Hl.
Qed.

Lemma inc_cow_ref_ok s f n : unlocked s -> Z.of_nat (length (phy_frames_array s)) = 8192 -> 0 <= f < 8192 ->
  phy_frames_array s !! Z.to_nat f = Some n -> 0 <= n < 65535 ->
  inc_cow_ref s f = Ok (with_frames s (<[Z.to_nat f := n + 1]> (phy_frames_array s)) (last_allocated_index s)).
Proof.
  intros Hl Hlen Hf Hn Hr. unfold inc_cow_ref, lock_frames. unfold unlocked in Hl. rewrite Hl.
  change TOTAL_FRAMES with 8192. replace (f <? 8192) with true by (symmetry; zbool; lia).
  cbn [yieldlock_lock atomic_exchange]. change (negb (LOCKED_NO =? LOCKED_NO)) with false. cbn [res_bind].
  cbn [with_locks phy_frames_array]. erewrite arr_get_Some by (done || lia). cbn [res_bind].
  unfold arr_set. rewrite decide_True by lia. cbn [res_bind]. rewrite u16_small by lia.
  unfold unlock_frames, with_frames, with_locks, yieldlock_unlock. cbn. by rewrite Hl.
Qed.

(** ** The lock of the page directory *)
Lemma lock_dir_ok s : dir_unlocked s ->
  exists s1, lock_dir s = Ok s1 /\ pm s1 = pm s /\ tlb s1 = tlb s /\ cr3 s1 = cr3 s /\
    phy_frames_array s1 = phy_frames_array s /\ last_allocated_index s1 = last_allocated_index s /\
    phy_frames_map_lock s1 = phy_frames_map_lock s /\
    forall s', same s1 s' -> unlock_dir s' = mtl s (pm s') (tlb s') (phy_frames_array s') (last_allocated_index s').
Proof.
  unfold dir_unlocked, lock_dir, unlock_dir. intros Hd. destruct (multi_task s) eqn:Em.
  - rewrite Hd by done. cbn [yieldlock_lock atomic_exchange].
    change (negb (LOCKED_NO =? LOCKED_NO)) with false. cbn [res_bind].
    eexists. repeat (split; [reflexivity|]). intros s' ->. cbn. rewrite Em.
    unfold mtl, mt, with_frames, with_locks, with_cr3, with_pm, yieldlock_unlock. cbn. by rewrite Hd, Em.
  - exists s. repeat (split; [reflexivity|]). intros s' Hs. rewrite Hs. cbn. by rewrite Em.
Qed.

Lemma vmrel_eq s s1 A T N P : pm s1 = pm s -> tlb s1 = tlb s -> cr3 s1 = cr3 s ->
  phy_frames_array s1 = phy_frames_array s -> last_allocated_index s1 = last_allocated_index s ->
  vmrel s A T N P -> vmrel s1 A T N P.
Proof.
  intros E1 E2 E3 E4 E5 []. unfold root in *. split; unfold root; rewrite ?E1, ?E2, ?E3, ?E4, ?E5; done.
Qed.

Lemma vmrel_weaken s A T N (P Q : Z -> Prop) : vmrel s A T N P ->
  (forall v, is_Some (tlb s v) -> P v -> Q v) -> vmrel s A T N Q.
Proof. intros [] H. split; try done. by eapply tlb_fresh_weaken. Qed.

(** Reading an entry of the current directory, or of one of its tables. *)
Lemma load_pde s A T N P i : vmrel s A T N P -> windows_ok A (root s) P -> 0 <= i < 1024 ->
  exists t, vload32 s (pde_at i) = Ok (ent (pm s) (root s) i, mt s (pm s) t) /\
    vmrel (mt s (pm s) t) A T N P /\
    forall u, is_Some (t u) -> is_Some (tlb s u) \/ u = wpage 769.
Proof.
  intros R HW Hi. pose proof (points_pde _ _ _ _ _ R i Hi) as Hp. destruct (pde_at_page i Hi) as (E1 & _ & _).
  destruct (vload32_ok s (pde_at i) (root s) i P (v_tlb _ _ _ _ _ R)) as (t & E & Ht & Hs); [|done|].
  - rewrite E1. apply HW. by left.
  - exists t. rewrite E1 in Hs. split; [done|]. split; [|done]. destruct R. by split.
Qed.

Lemma load_pte s A T N P v t0 : vmrel s A T N P -> windows_ok A (root s) P -> 0 <= v < 2 ^ 20 ->
  pte_present (ent (pm s) (root s) (v / 1024)) = true -> pte_frame (ent (pm s) (root s) (v / 1024)) = t0 ->
  exists t, vload32 s (pte_at v) = Ok (ent (pm s) t0 (v mod 1024), mt s (pm s) t) /\
    vmrel (mt s (pm s) t) A T N P /\
    forall u, is_Some (t u) -> is_Some (tlb s u) \/ u = wpage (v / 1024).
Proof.
  intros R HW Hv Hpr Hf. pose proof (points_pte _ _ _ _ _ R v t0 Hv Hpr Hf) as Hp.
  destruct (pte_at_page v Hv) as (E1 & _ & _). destruct (pdi_range v Hv) as (Hi & _).
  destruct (vload32_ok s (pte_at v) t0 (v mod 1024) P (v_tlb _ _ _ _ _ R)) as (t & E & Ht & Hs); [|done|].
  - rewrite E1. apply HW. destruct (frame_of_pdi _ _ _ _ _ R _ _ Hi Hpr Hf) as [[? ?]|[[? ?]|[? ?]]]; eauto.
  - exists t. rewrite E1 in Hs. split; [done|]. split; [|done]. destruct R. by split.
Qed.

(** A store to an entry of a table through its window. *)
Lemma store_pte s A T N P v t0 w : vmrel s A T N P -> windows_ok A (root s) P -> 0 <= v < 2 ^ 20 ->
  pte_present (ent (pm s) (root s) (v / 1024)) = true -> pte_frame (ent (pm s) (root s) (v / 1024)) = t0 ->
  t0 <> root s -> word w ->
  exists m t, vstore32 s (pte_at v) w = Ok (mt s m t) /\ upd (pm s) t0 (v mod 1024) w m /\
    tlb_fresh t m (root s) (fun u => P u \/ (is_Some (tlb s u) /\ through (pm s) (root s) t0 (v mod 1024) u)) /\
    forall u, is_Some (t u) -> is_Some (tlb s u) \/ u = wpage (v / 1024).
Proof.
  intros R HW Hv Hpr Hf Hne Hw. pose proof (points_pte _ _ _ _ _ R v t0 Hv Hpr Hf) as Hp.
  destruct (pte_at_page v Hv) as (E1 & _ & _). destruct (pdi_range v Hv) as (Hi & Hj & _).
  destruct (vstore32_ok s (pte_at v) t0 (v mod 1024) w P) as (m & t & E & U & Ht & Hs); try done.
  - apply (t_mem _ _ _ (v_tables _ _ _ _ _ R)).
  - apply R.
  - rewrite E1. apply HW. destruct (frame_of_pdi _ _ _ _ _ R _ _ Hi Hpr Hf) as [[? ?]|[[? ?]|[? ?]]]; eauto.
  - rewrite E1. intros Hth. apply Hne. eapply via_window; [exact R|exact Hi|]. by eapply through_via.
  - rewrite E1 in Hs. eauto 10.
Qed.

(** ** Releasing a page *)
Lemma release_page_raw s A T N P v t0 b : vmrel s A T N P -> windows_ok A (root s) P -> unlocked s -> dir_unlocked s ->
  0 <= v < 2 ^ 20 ->
  pte_present (ent (pm s) (root s) (v / 1024)) = true -> pte_frame (ent (pm s) (root s) (v / 1024)) = t0 ->
  t0 <> root s ->
  let w := ent (pm s) t0 (v mod 1024) in
  let n := refs A (pte_frame w) + uses fst N (pte_frame w) in
  if pte_present w then
    (b = true -> pte_frame w < 8192 /\ 0 < n < 65536) ->
    exists s', release_page s (v * 4096) b = Ok s' /\ same s s' /\ upd (pm s) t0 (v mod 1024) 0 (pm s') /\
      phy_frames_array s' = (if b then <[Z.to_nat (pte_frame w) := n - 1]> (phy_frames_array s) else phy_frames_array s) /\
      last_allocated_index s' = last_allocated_index s /\
      tlb_fresh (tlb s') (pm s') (root s) (fun u => u <> v /\
        (P u \/ (is_Some (tlb s u) /\ through (pm s) (root s) t0 (v mod 1024) u))) /\
      forall u, is_Some (tlb s' u) -> u <> v /\ (is_Some (tlb s u) \/ u = wpage (v / 1024))
  else exists t, release_page s (v * 4096) b = Ok (mt s (pm s) t) /\ vmrel (mt s (pm s) t) A T N P /\
      forall u, is_Some (t u) -> is_Some (tlb s u) \/ u = wpage (v / 1024).
Proof.
  intros R HW Hl Hd Hv Hpr Hf Hne w n.
  destruct (lock_dir_ok s Hd) as (s1 & E1 & Em & Et & Ec & Ea & El & Elk & Hun).
  assert (Er : root s1 = root s) by (unfold root; by rewrite Ec).
  pose proof (vmrel_eq s s1 _ _ _ _ Em Et Ec Ea El R) as R1.
  unfold release_page. rewrite E1. cbn [res_bind]. replace (v * 4096 / 4096) with v by zdiv.
  destruct (load_pte s1 A T N P v t0 R1) as (t1 & E2 & R2 & Hs2); rewrite ?Er, ?Em; try done.
  rewrite Em in E2, R2. rewrite Et in Hs2. rewrite E2. cbn [res_bind]. fold w.
  assert (S1 : same s1 (mt s1 (pm s) t1)) by reflexivity.
  destruct (pte_present w) eqn:Ew; cbn [negb].
  2:{ exists t1. rewrite (Hun _ S1). cbn. rewrite Ea, El.
      split; [f_equal; unfold mtl, mt, with_frames, with_cr3, with_pm; done|]. split; [|done].
      eapply (vmrel_eq (mt s1 (pm s) t1)); cbn; done. }
  intros Hb.
  assert (exists l', (if b then release_phy_frame (mt s1 (pm s) t1) (pte_frame w) else Ok (mt s1 (pm s) t1)) =
    Ok (with_frames (mt s1 (pm s) t1) l' (last_allocated_index s)) /\
    l' = if b then <[Z.to_nat (pte_frame w) := n - 1]> (phy_frames_array s) else phy_frames_array s) as (l' & Ef & El').
  { destruct b.
    - destruct (Hb eq_refl) as [Hlt Hn].
      assert (Hw : word w) by (apply ent_word; by apply R). pose proof (frame_range w Hw).
      rewrite (release_phy_frame_ok _ _ n); [cbn; rewrite Ea, El; eauto|..]; cbn; rewrite ?Ea.
      + unfold unlocked in *. cbn. by rewrite Elk.
      + by apply (a_len _ _ _ (v_acct _ _ _ _ _ R)).
      + lia.
      + apply (a_ref _ _ _ (v_acct _ _ _ _ _ R)). lia.
      + done.
    - exists (phy_frames_array s). split; [|done]. rewrite <- Ea, <- El. reflexivity. }
  rewrite Ef. cbn [res_bind].
  set (s2 := with_frames (mt s1 (pm s) t1) l' (last_allocated_index s)).
  assert (Hst : exists m t, vstore32 s2 (pte_at v) 0 = Ok (mt s2 m t) /\ upd (pm s) t0 (v mod 1024) 0 m /\
    tlb_fresh t m (root s) (fun u => P u \/ (is_Some (t1 u) /\ through (pm s) (root s) t0 (v mod 1024) u)) /\
    forall u, is_Some (t u) -> is_Some (t1 u) \/ u = wpage (v / 1024)).
  { pose proof (points_pte _ _ _ _ _ R v t0 Hv Hpr Hf) as Hp.
    destruct (pte_at_page v Hv) as (Ev & _ & _). destruct (pdi_range v Hv) as (Hi & Hj & _).
    assert (Er2 : root s2 = root s) by (rewrite <- Er; done).
    destruct (vstore32_ok s2 (pte_at v) t0 (v mod 1024) 0 P) as (m & t & E & U & Ht & Hs);
      rewrite ?Er2; cbn [s2 with_frames mt with_cr3 with_pm pm tlb]; try done.
    - apply (t_mem _ _ _ (v_tables _ _ _ _ _ R)).
    - pose proof (v_tlb _ _ _ _ _ R2) as Hf2. cbn in Hf2. unfold root in *. cbn in Hf2. by rewrite Ec in Hf2.
    - rewrite Ev. apply HW. destruct (frame_of_pdi _ _ _ _ _ R _ _ Hi Hpr Hf) as [[? ?]|[[? ?]|[? ?]]]; eauto.
    - rewrite Ev. intros Hth. apply Hne. eapply via_window; [exact R|exact Hi|]. by eapply through_via.
    - rewrite Ev in Hs. cbn [s2 with_frames mt with_cr3 with_pm pm tlb] in U, Ht, Hs. rewrite Er2 in Ht. eauto 10. }
  destruct Hst as (m & t & E3 & U & Ht & Hs). rewrite E3. cbn [res_bind].
  assert (S2 : same s1 (flush_tlb_page (mt s2 m t) (v * 4096))) by done.
  eexists. split; [reflexivity|]. rewrite (Hun _ S2).
  split; [reflexivity|]. split; [exact U|]. split; [exact El'|]. split; [reflexivity|]. cbn.
  replace (v * 4096 / 4096) with v by zdiv.
  assert (Hsome : forall u, is_Some (if u =? v then None else t u) -> u <> v /\ (is_Some (tlb s u) \/ u = wpage (v / 1024))).
  { intros u Hu. destruct (u =? v) eqn:E; [by destruct Hu|]. bool_to_prop. split; [done|].
    destruct (Hs u Hu) as [Hu1|]; [|by right]. by apply Hs2. }
  split; [|done]. intros u e Hu. destruct (u =? v) eqn:E; [done|]. bool_to_prop.
  destruct (Ht u e Hu) as [Hr Hw]. split; [done|]. destruct Hw as [?|Hw]; [by left|right]. split; [done|].
  destruct Hw as [?|[Hu1 Hth]]; [by left|]. destruct (Hs2 u Hu1) as [Hu0 | ->]; [by right|].
  exfalso. destruct (pdi_range v Hv) as (Hi & _). apply Hne. eapply via_window; [exact R|exact Hi|]. by eapply through_via.
Qed.

(** What a store to an entry of a table does to the address spaces. *)
Lemma leaf_state s A T N P d i t j w o p s' : vmrel s A T N P -> same s s' ->
  tbl A !! (d, i) = Some t -> 0 <= j < 1024 -> upd (pm s) t j w (pm s') ->
  leaf w o -> p !! (d, 1024 * i + j) = o -> (forall k, k <> (d, 1024 * i + j) -> p !! k = pages A !! k) ->
  tables (with_pages A p) T (pm s') /\ kept A (pm s) (pm s').
Proof.
  intros R S Ht Hj U Hw Ho Hne. pose proof (v_acct _ _ _ _ _ R) as Ac. split.
  - eapply tables_leaf; try done. apply R.
  - intros f Hf. eapply upd_same_frame; [done|done|]. intros ->.
    eapply data_not_structural; [exact Ac|exact Hf|]. right; right. eauto.
Qed.

Lemma kleaf_state s A T N P i j w o p T' s' : vmrel s A T N P -> same s s' ->
  kernel_pdi i -> 0 <= j < 1024 -> upd (pm s) (ktbl A i) j w (pm s') ->
  kleaf w o -> (T' ∪ p) !! (1024 * i + j) = o ->
  (forall k, k <> 1024 * i + j -> (T' ∪ p) !! k = (T ∪ kpages A) !! k) ->
  (forall v f, T' !! v = Some f -> temp v) ->
  tables (with_kpages A p) T' (pm s') /\ kept A (pm s) (pm s').
Proof.
  intros R S Hi Hj U Hw Ho Hne HT. pose proof (v_acct _ _ _ _ _ R) as Ac. split.
  - eapply tables_kleaf; try done. apply R.
  - intros f Hf. eapply upd_same_frame; [done|done|]. intros ->.
    eapply data_not_structural; [exact Ac|exact Hf|]. right; left. eauto.
Qed.

Lemma with_pages_self A : with_pages A (pages A) = A.
Proof. by destruct A. Qed.
Lemma with_kpages_self A : with_kpages A (kpages A) = A.
Proof. by destruct A. Qed.

Lemma release_user_page s A T N P v t : vmrel s A T N P -> windows_ok A (root s) P -> unlocked s -> dir_unlocked s ->
  0 <= v < 2 ^ 20 -> tbl A !! (root s, v / 1024) = Some t ->
  exists s', release_page s (v * 4096) true = Ok s' /\ same s s' /\
    vmrel s' (with_pages A (delete (root s, v) (pages A))) T N P /\ kept A (pm s) (pm s').
Proof.
  intros R HW Hl Hd Hv Ht. pose proof (v_acct _ _ _ _ _ R) as Ac. pose proof (v_tables _ _ _ _ _ R) as Tb.
  destruct (user_table _ _ _ _ _ R _ _ Ht) as (Hpr & Hf & _). destruct (pdi_range v Hv) as (_ & Hj & Ev).
  pose proof (tbl_not_root _ _ _ Ac _ _ _ Ht (v_root _ _ _ _ _ R)) as Hne.
  pose proof (release_page_raw s A T N P v t true R HW Hl Hd Hv Hpr Hf Hne) as HR. cbv zeta in HR.
  pose proof (t_leaf _ _ _ Tb _ _ _ (v mod 1024) Ht Hj) as Hleaf. rewrite <- Ev in Hleaf.
  destruct (pages A !! (root s, v)) as [[f rw]|] eqn:Ep; cbn [leaf] in Hleaf.
  - destruct Hleaf as (Hp & Hfr & _). rewrite Hp, Hfr in HR.
    destruct (page_uses _ _ _ Ac _ _ _ _ Ep) as (Hk & Hkp & Htb & Hpos & Hrefs).
    pose proof (refs_bound _ _ _ Ac f) as Hb. pose proof (uses_nonneg fst N f).
    destruct (a_page _ _ _ Ac _ _ _ _ Ep) as (_ & Hfl & _).
    destruct HR as (s' & E & S & U & El & Ela & Htl & _); [intros _; lia|].
    exists s'. split; [done|]. split; [done|].
    destruct (leaf_state s A T N P (root s) (v / 1024) t (v mod 1024) 0 None (delete (root s, v) (pages A)) s')
      as [Tb' K]; try done.
    { rewrite <- Ev. apply lookup_delete_eq. }
    { intros k Hk'. rewrite <- Ev in Hk'. by apply lookup_delete_ne. }
    split; [|done]. pose proof (same_root _ _ S) as Er. split; rewrite ?Er, ?El, ?Ela; try done.
    + by eapply acct_unpage.
    + by apply (v_root _ _ _ _ _ R).
    + rewrite S. by apply (v_cr3 _ _ _ _ _ R).
    + by apply (v_last _ _ _ _ _ R).
    + eapply tlb_fresh_weaken; [exact Htl|]. intros u Hu (Hnu & [?|[_ Hth]]); [done|].
      exfalso. apply Hnu. rewrite Ev. eapply through_leaf; [exact R|exact Ht| |exact Hth].
      destruct Hu as [e He]. by apply (Htl u e).
  - rewrite Hleaf in HR. destruct HR as (t' & E & R' & _). exists (mt s (pm s) t').
    split; [done|]. split; [reflexivity|]. rewrite delete_id, with_pages_self by done. split; [done|apply kept_refl].
Qed.

(** Releasing a page of the kernel: one it owns, and a temporary one. *)
Lemma release_kernel_raw s A T N P v b : vmrel s A T N P -> windows_ok A (root s) P -> unlocked s -> dir_unlocked s ->
  0 <= v < 2 ^ 20 -> kernel_pdi (v / 1024) ->
  forall f, (T ∪ kpages A) !! v = Some f ->
  (b = true -> 0 <= f < 8192 /\ 0 < refs A f + uses fst N f < 65536) ->
  exists s', release_page s (v * 4096) b = Ok s' /\ same s s' /\
    upd (pm s) (ktbl A (v / 1024)) (v mod 1024) 0 (pm s') /\
    phy_frames_array s' = (if b then <[Z.to_nat f := refs A f + uses fst N f - 1]> (phy_frames_array s) else phy_frames_array s) /\
    last_allocated_index s' = last_allocated_index s /\ tlb_fresh (tlb s') (pm s') (root s) P.
Proof.
  intros R HW Hl Hd Hv Hk f Hf Hb. pose proof (v_acct _ _ _ _ _ R) as Ac. pose proof (v_tables _ _ _ _ _ R) as Tb.
  destruct (pdi_range v Hv) as (_ & Hj & Ev).
  destruct (t_kdir _ _ _ Tb _ _ (v_root _ _ _ _ _ R) Hk) as (Hpr & Hfr).
  pose proof (ktbl_not_root _ _ _ Ac _ _ Hk (v_root _ _ _ _ _ R)) as Hne.
  pose proof (release_page_raw s A T N P v _ b R HW Hl Hd Hv Hpr Hfr Hne) as HR. cbv zeta in HR.
  pose proof (t_kleaf _ _ _ Tb _ (v mod 1024) Hk Hj) as Hleaf. rewrite <- Ev, Hf in Hleaf.
  destruct Hleaf as [Hp Hfe]. rewrite Hp, Hfe in HR.
  destruct HR as (s' & E & S & U & El & Ela & Htl & _); [intros ->; split; apply (Hb eq_refl)|].
  exists s'. repeat (split; [done|]). eapply tlb_fresh_weaken; [exact Htl|].
  intros u Hu (Hnu & [?|[_ Hth]]); [done|]. exfalso. apply Hnu. rewrite Ev.
  eapply through_kleaf; [exact R|exact Hk| |exact Hth]. destruct Hu as [e He]. by apply (Htl u e).
Qed.

Lemma temp_pdi v : temp v -> v / 1024 = 1023 /\ kernel_pdi (v / 1024) /\ 0 <= v < 2 ^ 20.
Proof. unfold temp, kernel_pdi. intros. zdiv. Qed.

Lemma release_temp_page s A T N P v f : vmrel s A T N P -> windows_ok A (root s) P -> unlocked s -> dir_unlocked s ->
  T !! v = Some f ->
  exists s', release_page s (v * 4096) false = Ok s' /\ same s s' /\ vmrel s' A (delete v T) N P /\
    only_frame (pm s) (pm s') (ktbl A 1023) /\ kept A (pm s) (pm s').
Proof.
  intros R HW Hl Hd Hf. pose proof (v_acct _ _ _ _ _ R) as Ac. pose proof (v_tables _ _ _ _ _ R) as Tb.
  pose proof (t_temp _ _ _ Tb _ _ Hf) as Htmp. destruct (temp_pdi v Htmp) as (E1023 & Hk & Hv).
  destruct (pdi_range v Hv) as (_ & Hj & Ev).
  assert (HTk : kpages A !! v = None).
  { destruct (kpages A !! v) eqn:Ek; [|done]. by destruct (a_kpage _ _ _ Ac _ _ Ek) as (_ & ? & _). }
  destruct (release_kernel_raw s A T N P v false R HW Hl Hd Hv Hk f) as (s' & E & S & U & El & Ela & Htl);
    [by apply lookup_union_Some_l|done|].
  exists s'. split; [done|]. split; [done|].
  destruct (kleaf_state s A T N P (v / 1024) (v mod 1024) 0 None (kpages A) (delete v T) s') as [Tb' K]; try done.
  { rewrite <- Ev. apply lookup_union_None. split; [apply lookup_delete_eq|done]. }
  { intros k Hk'. rewrite <- Ev in Hk'. by rewrite !lookup_union, lookup_delete_ne. }
  { intros u g Hu. apply lookup_delete_Some in Hu as [_ Hu]. by eapply (t_temp _ _ _ Tb). }
  rewrite with_kpages_self in Tb'. split; [|split; [|done]].
  - pose proof (same_root _ _ S) as Er. split; rewrite ?Er, ?El, ?Ela; try done; [by apply (v_root _ _ _ _ _ R)|rewrite S; by apply (v_cr3 _ _ _ _ _ R)|by apply (v_last _ _ _ _ _ R)].
  - rewrite <- E1023. by eapply upd_only.
Qed.

Lemma release_kernel_page s A T N P v f : vmrel s A T N P -> windows_ok A (root s) P -> unlocked s -> dir_unlocked s ->
  T !! v = None -> kpages A !! v = Some f -> 0 <= v < 2 ^ 20 -> 0 <= f < 8192 -> refs A f + uses fst N f < 65536 ->
  exists s', release_page s (v * 4096) true = Ok s' /\ same s s' /\
    vmrel s' (with_kpages A (delete v (kpages A))) T N P /\ kept A (pm s) (pm s').
Proof.
  intros R HW Hl Hd HTv Hf Hv Hfr Hb. pose proof (v_acct _ _ _ _ _ R) as Ac.
  destruct (a_kpage _ _ _ Ac _ _ Hf) as (Hk & Hnt & _). destruct (pdi_range v Hv) as (_ & Hj & Ev).
  assert (Hpos : 0 < refs A f + uses fst N f).
  { unfold refs. pose proof (a_kern _ _ _ Ac f). pose proof (uses_pos id (kpages A) v f Hf) as Hp. cbn in Hp.
    pose proof (uses_nonneg id (tbl A) f). pose proof (uses_nonneg fst (pages A) f). pose proof (uses_nonneg fst N f). lia. }
  destruct (release_kernel_raw s A T N P v true R HW Hl Hd Hv Hk f) as (s' & E & S & U & El & Ela & Htl);
    [by rewrite lookup_union_r|done|].
  exists s'. split; [done|]. split; [done|].
  destruct (kleaf_state s A T N P (v / 1024) (v mod 1024) 0 None (delete v (kpages A)) T s') as [Tb' K]; try done.
  { rewrite <- Ev. apply lookup_union_None. split; [done|apply lookup_delete_eq]. }
  { intros k Hk'. rewrite <- Ev in Hk'. by rewrite !lookup_union, lookup_delete_ne. }
  { apply (t_temp _ _ _ (v_tables _ _ _ _ _ R)). }
  split; [|done]. pose proof (same_root _ _ S) as Er. split; rewrite ?Er, ?El, ?Ela; try done.
  - by apply acct_unkpage.
  - by apply (v_root _ _ _ _ _ R).
  - rewrite S. by apply (v_cr3 _ _ _ _ _ R).
  - by apply (v_last _ _ _ _ _ R).
Qed.

(** ** Releasing a range of pages *)

(** The rule for the two loops: [I v] holds before page [v], [J i v] inside the
    table [i], when it is present. *)
Lemma release_pages_inv (I : Z -> vm -> Prop) (J : Z -> Z -> vm -> Prop) s v0 n b :
  0 <= v0 -> 0 < n -> v0 + n <= 2 ^ 20 ->
  (forall i s, v0 / 1024 <= i <= (v0 + n - 1) / 1024 -> I (Z.max (i * 1024) v0) s ->
    exists w s1, vload32 s (pde_at i) = Ok (w, s1) /\
      if pte_present w then J i (Z.max (i * 1024) v0) s1 else I (Z.min (i * 1024 + 1024) (v0 + n)) s1) ->
  (forall i v s, v0 <= v < v0 + n -> v / 1024 = i -> J i v s ->
    exists s', release_page s (v * 4096) b = Ok s' /\ J i (v + 1) s') ->
  (forall i s, J i (Z.min (i * 1024 + 1024) (v0 + n)) s -> I (Z.min (i * 1024 + 1024) (v0 + n)) s) ->
  I v0 s -> exists s', release_pages s (v0 * 4096) n b = Ok s' /\ I (v0 + n) s'.
Proof.
  intros H0 Hn Hend Hload Hstep Hout HI. unfold release_pages. change PAGE_SIZE with 4096.
  replace (v0 * 4096 / 4096 * 4096 / 4096) with v0 by zdiv.
  replace (v0 * 4096 / 4096 * 4096 / 4194304) with (v0 / 1024) by zdiv.
  rewrite (u32_small (v0 + n)) by lia. rewrite u32_small by lia.
  set (a := v0 / 1024). set (z := (v0 + n - 1) / 1024 + 1).
  assert (Ha : a * 1024 <= v0 < a * 1024 + 1024) by (unfold a; zdiv).
  assert (Hz : (z - 1) * 1024 <= v0 + n - 1 < (z - 1) * 1024 + 1024) by (unfold z; zdiv).
  destruct (for_loop_inv (fun i s => I (Z.min (Z.max (i * 1024) v0) (v0 + n)) s) (Z.to_nat (z - a)) a
    (fun i s => let! (pde, s) := vload32 s (pde_at i) in
       if negb (pte_present pde) then Ok s
       else
         let lo := Z.max (i * 1024) v0 in
         let hi := Z.min (i * 1024 + 1024) (v0 + n) in
         for_loop (Z.to_nat (hi - lo)) lo (fun j s => release_page s (u32 (j * 4096)) b) s) s) as (s' & E & HI').
  - by replace (Z.min (Z.max (a * 1024) v0) (v0 + n)) with v0 by lia.
  - intros i s1 Hi HI1. rewrite Z2Nat.id in Hi by lia.
    replace (Z.min (Z.max (i * 1024) v0) (v0 + n)) with (Z.max (i * 1024) v0) in HI1 by lia.
    destruct (Hload i s1 ltac:(unfold a, z in *; lia) HI1) as (w & s2 & E2 & H2). rewrite E2. cbn [res_bind].
    replace (Z.min (Z.max ((i + 1) * 1024) v0) (v0 + n)) with (Z.min (i * 1024 + 1024) (v0 + n)) by lia.
    destruct (pte_present w); cbn [negb]; [|eauto].
    destruct (for_loop_inv (fun j s => J i j s) (Z.to_nat (Z.min (i * 1024 + 1024) (v0 + n) - Z.max (i * 1024) v0))
      (Z.max (i * 1024) v0) (fun j s => release_page s (u32 (j * 4096)) b) s2 H2) as (s3 & E3 & H3).
    + intros j s3 Hj HJ. rewrite Z2Nat.id in Hj by lia. rewrite u32_small by lia.
      apply Hstep; [lia| |done]. symmetry. apply Z.div_unique with (j - i * 1024); lia.
    + exists s3. split; [done|]. rewrite Z2Nat.id in H3 by lia. apply Hout.
      by replace (Z.min (i * 1024 + 1024) (v0 + n)) with
        (Z.max (i * 1024) v0 + (Z.min (i * 1024 + 1024) (v0 + n) - Z.max (i * 1024) v0)) by lia.
  - exists s'. split; [done|]. rewrite Z2Nat.id in HI' by lia.
    by replace (v0 + n) with (Z.min (Z.max ((a + (z - a)) * 1024) v0) (v0 + n)) at 1 by lia.
Qed.

(** A temporary mapping is removed. *)
Lemma release_temp_pages s A T N P v f : vmrel s A T N P -> windows_ok A (root s) P -> unlocked s -> dir_unlocked s ->
  T !! v = Some f ->
  exists s', release_pages s (v * 4096) 1 false = Ok s' /\ same s s' /\ vmrel s' A (delete v T) N P /\
    only_frame (pm s) (pm s') (ktbl A 1023) /\ kept A (pm s) (pm s').
Proof.
  intros R HW Hl Hd Hf. pose proof (v_acct _ _ _ _ _ R) as Ac.
  pose proof (t_temp _ _ _ (v_tables _ _ _ _ _ R) _ _ Hf) as Htmp. destruct (temp_pdi v Htmp) as (E1023 & Hk & Hv).
  set (I := fun u s' => same s s' /\ (if u =? v then vmrel s' A T N P /\ pm s' = pm s
     else vmrel s' A (delete v T) N P /\ only_frame (pm s) (pm s') (ktbl A 1023) /\ kept A (pm s) (pm s'))).
  destruct (release_pages_inv I (fun _ => I) s v 1 false) as (s' & E & S & HI); [lia..| | | | |].
  - intros i s1 Hi [S1 HI]. replace (v + 1 - 1) with v in Hi by lia. assert (i = 1023) as -> by lia.
    replace (Z.max (1023 * 1024) v) with v in * by (unfold temp in Htmp; lia).
    rewrite Z.eqb_refl in HI. destruct HI as [R1 Em]. pose proof (same_root _ _ S1) as Er.
    destruct (load_pde s1 A T N P 1023 R1) as (t & E1 & R2 & _); [by rewrite Er|lia|].
    eexists _, _. split; [exact E1|]. rewrite Er, Em. rewrite <- E1023.
    destruct (t_kdir _ _ _ (v_tables _ _ _ _ _ R) _ _ (v_root _ _ _ _ _ R) Hk) as (-> & _).
    split; [by eapply same_trans|]. rewrite Z.eqb_refl. by rewrite Em in R2.
  - intros i u s1 Hu _ [S1 HI]. assert (u = v) as -> by lia. rewrite Z.eqb_refl in HI. destruct HI as [R1 Em].
    pose proof (same_root _ _ S1) as Er.
    destruct (release_temp_page s1 A T N P v f R1) as (s2 & E2 & S2 & R2 & O2 & K2).
    + by rewrite Er.
    + unfold unlocked in *. by rewrite S1.
    + unfold dir_unlocked in *. by rewrite S1.
    + done.
    + exists s2. split; [done|]. split; [by eapply same_trans|].
      replace (v + 1 =? v) with false by (symmetry; zbool; lia). by rewrite Em in O2, K2.
  - done.
  - split; [apply same_refl|]. by rewrite Z.eqb_refl.
  - exists s'. split; [done|]. split; [done|]. by replace (v + 1 =? v) with false in HI by (symmetry; zbool; lia).
Qed.

(** ** Releasing the user's half of an address space *)

(** The pages whose kept translation may be wrong between operations: the windows
    on tables that are gone. *)
Definition gone (A : space) (d v : Z) : Prop := exists i, user_pdi i /\ v = wpage i /\ tbl A !! (d, i) = None.

Lemma gone_windows_ok A d : windows_ok A d (gone A d).
Proof.
  intros i Hi (j & Hj & E & Hn). unfold wpage in E. assert (j = i) as -> by lia.
  destruct Hi as [->|[Hk|[t Ht]]]; [unfold user_pdi in Hj; lia| |congruence].
  unfold user_pdi, kernel_pdi in *. lia.
Qed.

(** The pages of [d] below [hi] are dropped. *)
Definition drop_pages (A : space) (d hi : Z) : space :=
  with_pages A (filter (fun kv => ~ (kv.1.1 = d /\ kv.1.2 < hi)) (pages A)).

Lemma drop_pages_lookup A d hi k : pages (drop_pages A d hi) !! k =
  if decide (k.1 = d /\ k.2 < hi) then None else pages A !! k.
Proof.
  cbn. destruct (pages A !! k) as [x|] eqn:E.
  - case_decide as Hd.
    + apply map_lookup_filter_None. right. intros y _ Hn. by apply Hn.
    + apply map_lookup_filter_Some. done.
  - case_decide; (apply map_lookup_filter_None; by left).
Qed.

Lemma drop_pages_step A d v : drop_pages A d (v + 1) = with_pages A (delete (d, v) (pages (drop_pages A d v))).
Proof.
  unfold drop_pages at 1. f_equal. apply map_eq. intros [e u].
  change (filter _ (pages A)) with (pages (drop_pages A d (v + 1))). rewrite drop_pages_lookup. cbn [fst snd].
  destruct (decide ((e, u) = (d, v))) as [[= -> ->]|Hne].
  - rewrite lookup_delete_eq. rewrite decide_True by lia. done.
  - rewrite lookup_delete_ne by done. rewrite drop_pages_lookup. cbn [fst snd].
    destruct (decide (e = d /\ u < v + 1)) as [[E ?]|Hn], (decide (e = d /\ u < v)) as [[E' ?]|Hn']; try done.
    + exfalso. destruct (decide (u = v)) as [->|]; [by rewrite E in Hne|]. apply Hn'. lia.
    + exfalso. apply Hn. lia.
Qed.

Lemma drop_pages_skip A d lo hi : lo <= hi -> (forall v, lo <= v < hi -> pages A !! (d, v) = None) ->
  drop_pages A d hi = drop_pages A d lo.
Proof.
  intros Hle Hn. unfold drop_pages. f_equal. apply map_eq. intros [e u].
  change (pages (drop_pages A d hi) !! (e, u) = pages (drop_pages A d lo) !! (e, u)).
  rewrite !drop_pages_lookup. cbn [fst snd].
  destruct (decide (e = d /\ u < hi)) as [[E ?]|Hc], (decide (e = d /\ u < lo)) as [[E' ?]|Hc']; try done.
  - rewrite E, Hn; [done|]. destruct (decide (u < lo)); [|lia]. exfalso. by apply Hc'.
  - exfalso. apply Hc. lia.
Qed.

Lemma drop_pages_none A N l d : acct A N l -> drop_pages A d 1024 = A.
Proof.
  intros H. rewrite (drop_pages_skip A d 0 1024); [|lia|].
  - unfold drop_pages. rewrite map_filter_id; [apply with_pages_self|]. intros [e u] [f rw] Hk [_ Hlt]. cbn in Hlt.
    destruct (a_page _ _ _ H _ _ _ _ Hk) as ([t Ht] & _). destruct (a_tbl _ _ _ H _ _ _ Ht) as (Hi & _).
    unfold user_pdi in Hi. assert (u / 1024 < 0) by (apply Z.div_lt_upper_bound; lia). lia.
  - intros v Hv. destruct (pages A !! (d, v)) as [[f rw]|] eqn:E; [|done].
    destruct (a_page _ _ _ H _ _ _ _ E) as ([t Ht] & _). destruct (a_tbl _ _ _ H _ _ _ Ht) as (Hi & _).
    unfold user_pdi in Hi. assert (v / 1024 = 0) by (apply Z.div_small; lia). lia.
Qed.

Lemma kept_mono A A' m m' : (forall f, data_frame A' f -> data_frame A f) -> kept A m m' -> kept A' m m'.
Proof. intros H K f Hf. apply K. by apply H. Qed.

Lemma drop_pages_data A d v f : data_frame (drop_pages A d (v + 1)) f -> data_frame (drop_pages A d v) f.
Proof.
  intros [(e & u & rw & Hp)|H]; [left|by right]. exists e, u, rw.
  rewrite drop_pages_lookup in *. destruct (decide _) as [|Hn] in Hp; [done|].
  rewrite decide_False; [done|]. intros [? ?]. apply Hn. lia.
Qed.

(** [release_pages] over the user's half. *)
Lemma release_all_pages s A T N P : vmrel s A T N P -> windows_ok A (root s) P -> unlocked s -> dir_unlocked s ->
  exists s', release_pages s (4 * 1024 * 1024) (767 * 1024) true = Ok s' /\ same s s' /\
    vmrel s' (drop_pages A (root s) 786432) T N P /\ kept (drop_pages A (root s) 786432) (pm s) (pm s').
Proof.
  intros R HW Hl Hd. pose proof (v_acct _ _ _ _ _ R) as Ac.
  set (I := fun v s' => same s s' /\ vmrel s' (drop_pages A (root s) v) T N P /\ kept (drop_pages A (root s) v) (pm s) (pm s')).
  set (J := fun i v s' => is_Some (tbl A !! (root s, i)) /\ I v s').
  destruct (release_pages_inv I J s 1024 (767 * 1024) true) as (s' & E & HI); [lia..| | | | |].
  - intros i s1 Hi (S & R1 & K). pose proof (same_root _ _ S) as Er.
    assert (Hui : user_pdi i) by (unfold user_pdi; change (1024 / 1024) with 1 in Hi;
      change ((1024 + 767 * 1024 - 1) / 1024) with 767 in Hi; lia).
    unfold user_pdi in Hui.
    destruct (load_pde s1 _ T N P i R1) as (t & E1 & R2 & _); [by rewrite Er|lia|].
    eexists _, _. split; [exact E1|]. rewrite Er.
    pose proof (t_user _ _ _ (v_tables _ _ _ _ _ R1) (root s) i) as Hu. rewrite <- Er in Hu at 1.
    specialize (Hu (v_root _ _ _ _ _ R1) Hui). cbn [drop_pages with_pages tbl] in Hu.
    destruct (tbl A !! (root s, i)) as [t0|] eqn:Et.
    + destruct Hu as (-> & _). split; [by eexists|]. split; [by eapply same_trans|]. done.
    + rewrite Hu. replace (Z.min (i * 1024 + 1024) (1024 + 767 * 1024)) with (i * 1024 + 1024) by lia.
      replace (Z.max (i * 1024) 1024) with (i * 1024) in * by lia.
      unfold I. rewrite (drop_pages_skip A (root s) (i * 1024) (i * 1024 + 1024)); [|lia|].
      * split; [by eapply same_trans|]. done.
      * intros v Hv. destruct (pages A !! (root s, v)) as [[f rw]|] eqn:Ep; [|done].
        destruct (a_page _ _ _ Ac _ _ _ _ Ep) as ([t' Ht'] & _).
        replace (v / 1024) with i in Ht' by (apply Z.div_unique with (v - i * 1024); lia). congruence.
  - intros i v s1 Hv Hvi ([t0 Ht0] & S & R1 & K). pose proof (same_root _ _ S) as Er.
    destruct (release_user_page s1 (drop_pages A (root s) v) T N P v t0 R1) as (s2 & E2 & S2 & R2 & K2).
    + by rewrite Er.
    + unfold unlocked in *. by rewrite S.
    + unfold dir_unlocked in *. by rewrite S.
    + lia.
    + rewrite Er, Hvi. done.
    + exists s2. split; [done|]. split; [by eexists|]. split; [by eapply same_trans|].
      rewrite Er in R2. unfold I. rewrite drop_pages_step at 1. split; [done|].
      eapply kept_trans; (eapply kept_mono; [|done]); apply drop_pages_data.
  - by intros i s1 [_ ?].
  - unfold I. rewrite (drop_pages_none A N _ _ Ac). split; [apply same_refl|]. split; [done|apply kept_refl].
  - exists s'. split; [exact E|]. exact HI.
Qed.

(** Tables [1] to [i - 1] of [d] are gone. *)
Definition drop_tables (A : space) (d hi : Z) : space :=
  with_tbl A (filter (fun kv => ~ (kv.1.1 = d /\ kv.1.2 < hi)) (tbl A)).

Lemma drop_tables_lookup A d hi k : tbl (drop_tables A d hi) !! k =
  if decide (k.1 = d /\ k.2 < hi) then None else tbl A !! k.
Proof.
  cbn. destruct (tbl A !! k) as [x|] eqn:E.
  - case_decide as Hd.
    + apply map_lookup_filter_None. right. intros y _ Hn. by apply Hn.
    + apply map_lookup_filter_Some. done.
  - case_decide; (apply map_lookup_filter_None; by left).
Qed.

Lemma drop_tables_step A d i : drop_tables A d (i + 1) = with_tbl A (delete (d, i) (tbl (drop_tables A d i))).
Proof.
  unfold drop_tables at 1. f_equal. apply map_eq. intros [e u].
  change (filter _ (tbl A)) with (tbl (drop_tables A d (i + 1))). rewrite drop_tables_lookup. cbn [fst snd].
  destruct (decide ((e, u) = (d, i))) as [[= -> ->]|Hne].
  - rewrite lookup_delete_eq. rewrite decide_True by lia. done.
  - rewrite lookup_delete_ne by done. rewrite drop_tables_lookup. cbn [fst snd].
    destruct (decide (e = d /\ u < i + 1)) as [[E ?]|Hn], (decide (e = d /\ u < i)) as [[E' ?]|Hn']; try done.
    + exfalso. destruct (decide (u = i)) as [->|]; [by rewrite E in Hne|]. apply Hn'. lia.
    + exfalso. apply Hn. lia.
Qed.

Lemma drop_tables_none A N l d : acct A N l -> drop_tables A d 1 = A.
Proof.
  intros H. unfold drop_tables. rewrite map_filter_id; [by destruct A|]. intros [e u] t Hk [_ Hlt]. cbn in Hlt.
  destruct (a_tbl _ _ _ H _ _ _ Hk) as (Hi & _). unfold user_pdi in Hi. lia.
Qed.

Lemma drop_tables_skip A d i : tbl A !! (d, i) = None -> drop_tables A d (i + 1) = drop_tables A d i.
Proof.
  intros Hn. rewrite drop_tables_step, delete_id; [by destruct A|].
  rewrite drop_tables_lookup. by case_decide.
Qed.

Lemma pde_word_zero : word 0.
Proof. done. Qed.

(** A table without pages leaves the current directory. *)
Lemma unlink_table s A T N i t : vmrel s A T N (gone A (root s)) -> unlocked s -> tbl A !! (root s, i) = Some t ->
  (forall v, v / 1024 = i -> pages A !! (root s, v) = None) ->
  let A' := with_tbl A (delete (root s, i) (tbl A)) in
  exists s', (let! s := release_phy_frame s t in vstore32 s (pde_at i) 0) = Ok s' /\ same s s' /\
    vmrel s' A' T N (gone A' (root s)) /\ kept A (pm s) (pm s').
Proof.
  intros R Hl Ht Hno A'. pose proof (v_acct _ _ _ _ _ R) as Ac. pose proof (v_root _ _ _ _ _ R) as Hr.
  destruct (a_tbl _ _ _ Ac _ _ _ Ht) as (Hi & _ & Htr & Hk & Hkp & Hu1 & Hup).
  pose proof (refs_bound _ _ _ Ac t) as Hb. pose proof (user_pdi_range _ Hi) as Hir.
  assert (Hrefs : refs A t = 1) by (unfold refs; lia). pose proof (uses_nonneg fst N t).
  assert (Hn : 0 < refs A t + uses fst N t < 65536) by lia.
  rewrite (release_phy_frame_ok s t (refs A t + uses fst N t) Hl (a_len _ _ _ Ac) Htr (a_ref _ _ _ Ac t Htr) Hn).
  cbn [res_bind]. set (s1 := with_frames s _ _).
  pose proof (points_pde _ _ _ _ _ R i Hir) as Hp. destruct (pde_at_page i Hir) as (E1 & _ & _).
  destruct (vstore32_ok s1 (pde_at i) (root s) i 0 (gone A (root s))) as (m & tt' & E & U & Htl & Hs); try done.
  - apply (t_mem _ _ _ (v_tables _ _ _ _ _ R)).
  - apply R.
  - rewrite E1. apply gone_windows_ok. by left.
  - rewrite E1. intros Hth. destruct (through_dir _ _ _ _ _ R i (wpage 769) ltac:(unfold wpage; lia) Hth) as [Hx|Hx];
      unfold wpage, user_pdi in *; [change ((769 * 1024 + 769) / 1024) with 769 in Hx; lia|lia].
  - exists (mt s1 m tt'). split; [done|]. split; [done|].
    assert (Tb' : tables A' T m).
    { apply (tables_eq (with_pages (with_tbl A (delete (root s, i) (tbl A))) (pages A))); try done.
      eapply (tables_dir A N _ T (pm s) m Ac (v_tables _ _ _ _ _ R) (root s) i 0); try done.
      - by apply (upd_ok _ _ _ _ _ U).
      - by apply (upd_eq _ _ _ _ _ U).
      - intros f j _ Hj Hn'. eapply upd_ent_ne; [exact U|done|done|]. cbn in Hn'.
        destruct (decide (f = root s)); [right|by left]. intros ->. by apply Hn'.
      - by rewrite lookup_delete_eq.
      - intros k Hk'. by apply lookup_delete_ne. }
    split.
    + split; cbn; try done.
      * by eapply acct_untable.
      * by apply (v_cr3 _ _ _ _ _ R).
      * by apply (v_last _ _ _ _ _ R).
      * intros v e He. destruct (Htl v e He) as [Hv Hw]. split; [done|].
        destruct Hw as [Hw|[(j & Hj & -> & Hn')|[Hs1 Hth]]]; [by left|right|].
        -- exists j. split; [done|]. split; [done|]. destruct (decide (j = i)) as [->|]; [apply lookup_delete_eq|].
           cbn. rewrite lookup_delete_ne by congruence. done.
        -- destruct (through_dir _ _ _ _ _ R i v Hv Hth) as [Hvi|Hvi].
           ++ destruct Hs1 as [e' He']. destruct (v_tlb _ _ _ _ _ R v e' He') as [_ [Hw|Hg]].
              ** exfalso. rewrite walk_ent, Hvi in Hw. cbv zeta in Hw.
                 destruct (user_table _ _ _ _ _ R _ _ Ht) as (Hpr & Hf & _). rewrite Hpr, Hf in Hw.
                 destruct (pdi_range v Hv) as (_ & Hj & Ev).
                 pose proof (t_leaf _ _ _ (v_tables _ _ _ _ _ R) _ _ _ (v mod 1024) Ht Hj) as Hlf.
                 rewrite <- Hvi, <- Ev, (Hno v Hvi) in Hlf. cbn [leaf] in Hlf. by rewrite Hlf in Hw.
              ** destruct Hg as (j & Hj & -> & _). destruct (wpage_div j ltac:(by apply user_pdi_range)) as (Hc & _).
                 unfold user_pdi in Hi. lia.
           ++ right. exists i. split; [done|]. split; [done|]. apply lookup_delete_eq.
    + intros f Hf. eapply upd_same_frame; [exact U|done|]. intros ->.
      eapply data_not_structural; [exact Ac|exact Hf|by left].
Qed.

(** [release_page_tables] over the user's half. *)
Lemma release_all_tables s A T N : vmrel s A T N (gone A (root s)) -> unlocked s ->
  (forall v, pages A !! (root s, v) = None) ->
  exists s', release_page_tables s 1 767 = Ok s' /\ same s s' /\
    vmrel s' (drop_tables A (root s) 768) T N (gone (drop_tables A (root s) 768) (root s)) /\ kept A (pm s) (pm s').
Proof.
  intros R Hl Hno. pose proof (v_acct _ _ _ _ _ R) as Ac. unfold release_page_tables.
  set (A_ := fun i => drop_tables A (root s) i).
  destruct (for_loop_inv (fun i s' => same s s' /\ vmrel s' (A_ i) T N (gone (A_ i) (root s)) /\ kept A (pm s) (pm s'))
    (Z.to_nat 767) 1 (fun i s => let! (pde, s) := vload32 s (pde_at i) in
       if negb (pte_present pde) then Ok s
       else let! s := release_phy_frame s (pte_frame pde) in vstore32 s (pde_at i) 0) s) as (s' & E & H).
  - unfold A_. rewrite (drop_tables_none _ _ _ _ Ac). split; [apply same_refl|]. split; [done|apply kept_refl].
  - intros i s1 Hi (S & R1 & K). pose proof (same_root _ _ S) as Er.
    assert (Hui : user_pdi i) by (unfold user_pdi; lia).
    destruct (load_pde s1 _ T N _ i R1) as (t & E1 & R2 & _); [rewrite Er; apply gone_windows_ok|lia|].
    rewrite E1. cbn [res_bind]. rewrite Er.
    pose proof (t_user _ _ _ (v_tables _ _ _ _ _ R1) (root s) i) as Hu. rewrite <- Er in Hu at 1.
    specialize (Hu (v_root _ _ _ _ _ R1) Hui).
    assert (Hlk : tbl (A_ i) !! (root s, i) = tbl A !! (root s, i)).
    { unfold A_. rewrite drop_tables_lookup. rewrite decide_False by (cbn; lia). done. }
    rewrite Hlk in Hu.
    destruct (tbl A !! (root s, i)) as [t0|] eqn:Et.
    + destruct Hu as (-> & -> & _). cbn [negb].
      assert (S2 : same s (mt s1 (pm s1) t)) by (by eapply same_trans).
      pose proof (same_root _ _ S2) as Er2. rewrite <- Er2 in R2.
      destruct (unlink_table (mt s1 (pm s1) t) (A_ i) T N i t0) as (s2 & E2 & S3 & R3 & K3); [done|..].
      * unfold unlocked in *. by rewrite S2.
      * by rewrite Er2, Hlk.
      * intros v _. rewrite Er2. by apply Hno.
      * exists s2. split; [done|]. split; [by eapply same_trans|].
        rewrite Er2 in R3. unfold A_ at 1 2. rewrite drop_tables_step.
        split; [exact R3|]. eapply kept_trans; [exact K|]. exact K3.
    + rewrite Hu. cbn [negb]. eexists. split; [reflexivity|]. split; [by eapply same_trans|].
      unfold A_. rewrite drop_tables_skip by done. done.
  - exists s'. split; [exact E|]. exact H.
Qed.

(** ** Mapping a page *)

(** The four assignments to an entry through its window, and the flush of the
    page. *)
Record entry_set (s : vm) (t0 v fr : Z) (u : bool) (P : Z -> Prop) (s' : vm) : Prop := {
  es_eq : s' = mt s (pm s') (tlb s');
  es_upd : exists w, is_entry w fr u true /\ upd (pm s) t0 (v mod 1024) w (pm s');
  es_tlb : tlb_fresh (tlb s') (pm s') (root s) P
}.

Lemma window_apart s A T N P v t0 : vmrel s A T N P -> 0 <= v < 2 ^ 20 -> t0 <> root s ->
  ~ through (pm s) (root s) t0 (v mod 1024) (pte_at v / 4096).
Proof.
  intros R Hv Hne Hth. destruct (pte_at_page v Hv) as (E1 & _ & _). destruct (pdi_range v Hv) as (Hi & _).
  rewrite E1 in Hth. apply Hne. eapply via_window; [exact R|exact Hi|]. by eapply through_via.
Qed.

Lemma flush_entry s t0 v w P s4 fr u va : set_chain s (pte_at v) t0 (v mod 1024) w P s4 -> is_entry w fr u true ->
  (forall x, 0 <= x < 2 ^ 20 -> through (pm s) (root s) t0 (v mod 1024) x -> x = v) -> va / 4096 = v ->
  entry_set s t0 v fr u P (flush_tlb_page s4 va).
Proof.
  intros [E U Ht Hs] He Hth Hva. split; cbn.
  - rewrite E. done.
  - eauto.
  - rewrite Hva. intros x e Hx. destruct (x =? v) eqn:Ex; [done|]. bool_to_prop.
    destruct (Ht x e Hx) as [Hr [?|[?|[_ Hx']]]]; [auto..|]. by destruct Ex; apply Hth.
Qed.

Lemma map_entry s A T N P v t0 fr u va : vmrel s A T N P -> windows_ok A (root s) P -> 0 <= v < 2 ^ 20 ->
  pte_present (ent (pm s) (root s) (v / 1024)) = true -> pte_frame (ent (pm s) (root s) (v / 1024)) = t0 ->
  t0 <> root s -> 0 <= fr < 2 ^ 20 ->
  (forall x, 0 <= x < 2 ^ 20 -> through (pm s) (root s) t0 (v mod 1024) x -> x = v) -> va / 4096 = v ->
  (exists s', entry_set s t0 v fr u P s' /\ forall B (k : vm -> res B),
     (let! s := vset s (pte_at v) (set_present true) in let! s := vset s (pte_at v) (set_rw true) in
      let! s := vset s (pte_at v) (set_user u) in let! s := vset s (pte_at v) (set_frame fr) in
      k (flush_tlb_page s va)) = k s') /\
  (exists s', entry_set s t0 v fr u P s' /\ forall B (k : vm -> res B),
     (let! s := vset s (pte_at v) (set_present true) in let! s := vset s (pte_at v) (set_user u) in
      let! s := vset s (pte_at v) (set_rw true) in let! s := vset s (pte_at v) (set_frame fr) in
      k (flush_tlb_page s va)) = k s').
Proof.
  intros R HW Hv Hpr Hf Hne Hfr Hth Hva. pose proof (points_pte _ _ _ _ _ R v t0 Hv Hpr Hf) as Hp.
  pose proof (window_apart _ _ _ _ _ _ _ R Hv Hne) as Hw. destruct (pdi_range v Hv) as (Hi & Hj & _).
  pose proof (t_mem _ _ _ (v_tables _ _ _ _ _ R)) as Hm.
  assert (HP : ~ P (pte_at v / 4096)).
  { destruct (pte_at_page v Hv) as (-> & _). apply HW.
    destruct (frame_of_pdi _ _ _ _ _ R _ _ Hi Hpr Hf) as [[? ?]|[[? ?]|[? ?]]]; eauto. }
  split.
  - destruct (vset4_ok s (pte_at v) t0 (v mod 1024) P fr u Hm (v_tlb _ _ _ _ _ R) HP Hp Hj Hfr Hw)
      as (s1 & s2 & s3 & s4 & E1 & E2 & E3 & E4 & w & He & C).
    exists (flush_tlb_page s4 va). split; [by eapply flush_entry|]. intros B k.
    rewrite E1; cbn [res_bind]; rewrite E2; cbn [res_bind]; rewrite E3; cbn [res_bind]; by rewrite E4.
  - destruct (vset4_user_ok s (pte_at v) t0 (v mod 1024) P fr u Hm (v_tlb _ _ _ _ _ R) HP Hp Hj Hfr Hw)
      as (s1 & s2 & s3 & s4 & E1 & E2 & E3 & E4 & w & He & C).
    exists (flush_tlb_page s4 va). split; [by eapply flush_entry|]. intros B k.
    rewrite E1; cbn [res_bind]; rewrite E2; cbn [res_bind]; rewrite E3; cbn [res_bind]; by rewrite E4.
Qed.

(** The temporary mappings of the kernel. *)
Lemma map_temp s A T N P v f : vmrel s A T N P -> windows_ok A (root s) P ->
  temp v -> T !! v = None -> 0 < f < 2 ^ 20 ->
  exists s', map_page_with_frame_impl s (v * 4096) f = Ok s' /\ same s s' /\
    vmrel s' A (<[v := f]> T) N P /\ only_frame (pm s) (pm s') (ktbl A 1023) /\ kept A (pm s) (pm s').
Proof.
  intros R HW Htmp HT Hf. pose proof (v_acct _ _ _ _ _ R) as Ac. pose proof (v_tables _ _ _ _ _ R) as Tb.
  destruct (temp_pdi v Htmp) as (E1023 & Hk & Hv). destruct (pdi_range v Hv) as (Hi & Hj & Ev).
  assert (HTk : kpages A !! v = None).
  { destruct (kpages A !! v) eqn:Ek; [|done]. by destruct (a_kpage _ _ _ Ac _ _ Ek) as (_ & ? & _). }
  destruct (t_kdir _ _ _ Tb _ _ (v_root _ _ _ _ _ R) Hk) as (Hpr & Hfr).
  pose proof (ktbl_not_root _ _ _ Ac _ _ Hk (v_root _ _ _ _ _ R)) as Hne.
  unfold map_page_with_frame_impl, ensure_table, map_leaf. replace (v * 4096 / 4194304) with (v / 1024) by zdiv.
  replace (v * 4096 / 4096) with v by zdiv.
  destruct (load_pde s A T N P (v / 1024) R HW Hi) as (t1 & -> & R1 & _). cbn [res_bind]. rewrite Hpr. cbn [negb res_bind].
  destruct (load_pte (mt s (pm s) t1) A T N P v (ktbl A (v / 1024)) R1 HW Hv Hpr Hfr) as (t2 & -> & R2 & _).
  cbn [res_bind mt with_cr3 with_pm pm].
  pose proof (t_kleaf _ _ _ Tb _ (v mod 1024) Hk Hj) as Hlf.
  rewrite <- Ev, (proj2 (lookup_union_None _ _ _) (conj HT HTk)) in Hlf. cbn [kleaf] in Hlf. rewrite Hlf.
  replace (f >? 0) with true by (symmetry; zbool; lia). cbn [negb].
  destruct (map_entry _ A T N P v (ktbl A (v / 1024)) f (v * 4096 <? 3221225472) (v * 4096) R2 HW Hv Hpr Hfr Hne)
    as (_ & s' & [Es (w & He & U) Htl] & Hk'); [lia| |zdiv|].
  { intros x Hx Hth. rewrite Ev. eapply through_kleaf; [exact R|exact Hk|exact Hx|exact Hth]. }
  exists s'. split; [exact (Hk' _ Ok)|]. cbn in U.
  assert (S : same s s') by (rewrite Es; done). split; [done|].
  destruct (kleaf_state s A T N P (v / 1024) (v mod 1024) w (Some f) (kpages A) (<[v := f]> T) s') as [Tb' K]; try done.
  { split; apply He. }
  { rewrite <- Ev. apply lookup_union_Some_l, lookup_insert_eq. }
  { intros k Hk''. rewrite <- Ev in Hk''. by rewrite !lookup_union, lookup_insert_ne. }
  { intros x g Hx. destruct (decide (x = v)) as [->|]; [done|]. rewrite lookup_insert_ne in Hx by done.
    by eapply (t_temp _ _ _ Tb). }
  rewrite with_kpages_self in Tb'. split; [|split; [|done]].
  - pose proof (same_root _ _ S) as Er. split; rewrite ?Er; try done; first [exact Htl | rewrite Es; by apply (v_acct _ _ _ _ _ R) | by apply (v_root _ _ _ _ _ R) | rewrite Es; by apply (v_cr3 _ _ _ _ _ R) | rewrite Es; by apply (v_last _ _ _ _ _ R)].
  - rewrite <- E1023. by eapply upd_only.
Qed.

(** A chain of stores to an entry of the directory. *)
Lemma structural_dec_apart A N l f : acct A N l -> kern A f = 0 -> uses id (tbl A) f = 0 -> ~ structural A f.
Proof.
  intros Ac Hk Ht [Hr|[(i & Hi & ->)|[[d i] Hd]]].
  - pose proof (a_root _ _ _ Ac f Hr). lia.
  - pose proof (a_ktbl _ _ _ Ac i Hi). lia.
  - by eapply (proj1 (uses_zero id (tbl A) f) Ht (d, i)).
Qed.

(** What a taken frame is not. *)
Lemma taken_apart A N l f : acct A N l -> refs A f + uses fst N f = 0 ->
  ~ structural A f /\ ~ data_frame A f /\ f ∉ roots A /\ (forall j, kernel_pdi j -> f <> ktbl A j) /\
  kern A f = 0 /\ uses id (kpages A) f = 0 /\ uses id (tbl A) f = 0 /\ uses fst (pages A) f = 0 /\ uses fst N f = 0.
Proof.
  intros Ac Hz. destruct (free_not_structural _ _ _ Ac f Hz) as [Hs Hd].
  destruct (free_frame _ _ _ Ac f Hz) as (? & ? & ? & ? & ?).
  repeat (split; [done|]). split; [intros Hr; apply Hs; by left|]. split; [|done].
  intros j Hj ->. apply Hs. right; left. eauto.
Qed.

Lemma zero_frame_absent m f j : (forall o, 0 <= o < 4096 -> m (4096 * f + o) = 0) -> 0 <= j < 1024 ->
  pte_present (ent m f j) = false.
Proof.
  intros Hz Hj. assert (ent m f j = 0) as ->; [|done]. unfold ent, load32. rewrite <- !Z.add_assoc, !Hz by lia. done.
Qed.

(** The table of a page of the user's half, linked when it is missing. *)
Lemma ensure_table_ok s A T N i : vmrel s A T N (gone A (root s)) -> unlocked s -> user_pdi i ->
  match tbl A !! (root s, i) with
  | Some t => exists s', ensure_table s i true = Ok s' /\ same s s' /\ vmrel s' A T N (gone A (root s)) /\
      kept A (pm s) (pm s')
  | None =>
      (ensure_table s i true = Err Panic /\ forall f, 0 <= f < 8192 -> refs A f + uses fst N f <> 0) \/
      exists s' t, ensure_table s i true = Ok s' /\ same s s' /\ refs A t + uses fst N t = 0 /\ 0 < t < 8192 /\
        let A' := with_tbl A (<[(root s, i) := t]> (tbl A)) in
        vmrel s' A' T N (gone A' (root s)) /\ kept A (pm s) (pm s')
  end.
Proof.
  intros R Hl Hi. pose proof (v_acct _ _ _ _ _ R) as Ac. pose proof (v_tables _ _ _ _ _ R) as Tb.
  pose proof (v_root _ _ _ _ _ R) as Hr. pose proof (user_pdi_range _ Hi) as Hir.
  pose proof (t_user _ _ _ Tb _ _ Hr Hi) as Hu. unfold ensure_table.
  destruct (load_pde s A T N _ i R (gone_windows_ok _ _) Hir) as (t1 & -> & R1 & _). cbn [res_bind].
  destruct (tbl A !! (root s, i)) as [t|] eqn:Et.
  { destruct Hu as (-> & _). cbn [negb]. eexists. split; [reflexivity|]. split; [done|]. split; [done|apply kept_refl]. }
  rewrite Hu. cbn [negb].
  destruct (alloc_phy_frame_ok _ A T N _ R1 Hl) as [(f & Ea & Hf & Hz & R2)|[Ea Hfull]];
    [right|left; rewrite Ea; done].
  rewrite Ea. cbn [res_bind]. set (s2 := with_frames _ _ f) in *.
  destruct (taken_apart _ _ _ f Ac Hz) as (Hns & Hnd & Hnr & Hnk & Hk0 & Hkp & Htb & Hpg & Hn0).
  pose proof (points_pde _ _ _ _ _ R2 i Hir) as Hp. destruct (pde_at_page i Hir) as (E1 & _ & _).
  assert (Er2 : root s2 = root s) by done.
  destruct (vset4_ok s2 (pde_at i) (root s2) i (gone A (root s)) f true) as (s3 & s4 & s5 & s6 & V1 & V2 & V3 & V4 & w & He & C).
  - apply (t_mem _ _ _ (v_tables _ _ _ _ _ R2)).
  - apply R2.
  - rewrite E1. apply gone_windows_ok. by left.
  - done.
  - done.
  - lia.
  - rewrite E1. intros Hth. unfold user_pdi in Hi.
    destruct (through_dir _ _ _ _ _ R2 i (wpage 769) ltac:(unfold wpage; lia) Hth) as [Hx|Hx];
      [change (wpage 769 / 1024) with 769 in Hx; lia|unfold wpage in Hx; lia].
  - rewrite V1; cbn [res_bind]; rewrite V2; cbn [res_bind]; rewrite V3; cbn [res_bind]; rewrite V4; cbn [res_bind].
    set (s7 := flush_tlb_all s6). destruct C as [Es U _ _].
    assert (Er7 : root s7 = root s) by (unfold s7; rewrite Es; done).
    assert (Em7 : pm s7 = pm s6) by done. rewrite Er2 in U. change (pm s2) with (pm s) in U.
    pose proof (upd_ok _ _ _ _ _ U) as Hm7.
    assert (Hself : pte_present (ent (pm s7) (root s) 769) = true /\ pte_frame (ent (pm s7) (root s) 769) = root s).
    { rewrite Em7. unfold user_pdi in Hi. rewrite (upd_ent_ne _ _ _ _ _ _ _ U) by lia. apply (self_entry _ _ _ _ _ R). }
    assert (Hent : ent (pm s7) (root s) i = w) by (rewrite Em7; apply U).
    assert (Hw0 : (PAGE_TABLES_VIRTUAL + i * PAGE_SIZE) / 4096 = wpage i) by (unfold PAGE_TABLES_VIRTUAL, PAGE_SIZE, wpage; zdiv).
    destruct (wpage_div i Hir) as (Ew1 & Ew2 & Ew3).
    destruct (clear_page_ok s7 (PAGE_TABLES_VIRTUAL + i * PAGE_SIZE) f (fun _ => False)) as (s8 & E8 & (Es8 & O8 & T8 & _) & Z8).
    + done.
    + apply tlb_fresh_none.
    + split; [rewrite Er7; intros ->; done|]. intros u Hu'. apply list_elem_of_singleton in Hu' as ->. split; [auto|].
      rewrite Hw0, Er7. intros [->|[_ Hfr]]; [done|]. rewrite Ew1 in Hfr. destruct Hself as [_ Hs]. congruence.
    + rewrite Er7. split; [unfold PAGE_TABLES_VIRTUAL, PAGE_SIZE; lia|]. split; [unfold PAGE_TABLES_VIRTUAL, PAGE_SIZE; zdiv|].
      rewrite Hw0, walk_ent, Ew1, Ew2. cbv zeta. destruct Hself as [-> ->]. rewrite Hent.
      destruct He as (-> & Hfr & _). by eexists.
    + rewrite E8. exists s8, f.
      assert (S8 : same s s8) by (rewrite Es8; unfold s7; rewrite Es; done).
      split; [done|]. split; [done|]. split; [done|]. split; [done|].
      set (A' := with_tbl A (<[(root s, i) := f]> (tbl A))). cbv zeta.
      assert (Hkeep : forall g j, g <> f -> 0 <= j < 1024 -> ~ (g = root s /\ j = i) -> ent (pm s8) g j = ent (pm s) g j).
      { intros g j Hg Hj Hn. rewrite (only_frame_ent _ _ _ _ _ O8 Hg Hj), Em7.
        apply (upd_ent_ne _ _ _ _ _ _ _ U Hir Hj). destruct (decide (g = root s)); [right|by left]. intros ->. by apply Hn. }
      assert (Tb' : tables A' T (pm s8)).
      { apply (tables_eq (with_pages (with_tbl A (<[(root s, i) := f]> (tbl A))) (pages A))); try done.
        eapply (tables_dir A N _ T (pm s) (pm s8) Ac Tb (root s) i w); try done.
        - apply O8.
        - rewrite (only_frame_ent _ _ _ _ _ O8); [done|intros E; by rewrite E in Hr|done].
        - intros g j Hg Hj Hn. apply Hkeep; [intros ->; done|done|done].
        - rewrite lookup_insert_eq. split; [done|]. intros j Hj.
          destruct (pages A !! (root s, 1024 * i + j)) as [[g rw]|] eqn:Ep.
          + destruct (a_page _ _ _ Ac _ _ _ _ Ep) as ([t Ht] & _).
            replace ((1024 * i + j) / 1024) with i in Ht by zdiv. congruence.
          + by apply zero_frame_absent.
        - intros k Hk'. by apply lookup_insert_ne. }
      split.
      * split; rewrite ?(same_root _ _ S8).
        -- eapply (acct_ext (set_kern (with_tbl (set_kern A f 1) (<[(root s, i) := f]> (tbl A))) f 0));
             [|done..|].
           { intros x. cbn. destruct (decide (x = f)); [by subst|done]. }
           replace (phy_frames_array s8) with (phy_frames_array s2) by (rewrite Es8; unfold s7; rewrite Es; done).
           apply (acct_table (set_kern A f 1)); try done; cbn; try lia.
           ++ apply R2.
           ++ by pose proof (a_root _ _ _ Ac _ Hr) as (? & _); lia.
           ++ by rewrite decide_True.
        -- done.
        -- done.
        -- rewrite S8. apply (v_cr3 _ _ _ _ _ R).
        -- rewrite Es8. unfold s7. rewrite Es. cbn. lia.
        -- eapply tlb_fresh_weaken; [rewrite Er7 in T8; exact T8|]. cbn. intros u _ [[]|[[x Hx] _]]. done.
      * intros g Hg. intros o Ho. rewrite (only_frame_same _ _ _ g O8) by (done || intros ->; done).
        rewrite Em7. eapply upd_same_frame; [exact U|done| |done].
        intros ->. eapply data_not_structural; [exact Ac|exact Hg|by left].
Qed.

(** A fresh page is mapped and cleared, at the level of the machine. *)
Lemma map_fresh s A T N P v t0 f u : vmrel s (set_kern A f 1) T N P -> windows_ok A (root s) P -> 0 <= v < 2 ^ 20 ->
  pte_present (ent (pm s) (root s) (v / 1024)) = true -> pte_frame (ent (pm s) (root s) (v / 1024)) = t0 ->
  t0 <> root s -> 0 < f < 8192 -> ~ structural A f -> ~ P v ->
  (forall x, 0 <= x < 2 ^ 20 -> through (pm s) (root s) t0 (v mod 1024) x -> x = v) ->
  exists s1 s2 s3 s4 s',
    vset s (pte_at v) (set_present true) = Ok s1 /\ vset s1 (pte_at v) (set_rw true) = Ok s2 /\
    vset s2 (pte_at v) (set_user u) = Ok s3 /\ vset s3 (pte_at v) (set_frame f) = Ok s4 /\
    clear_page (flush_tlb_page s4 (v * 4096)) (v * 4096) = Ok s' /\
    s' = mt s (pm s') (tlb s') /\
    (exists w m1, is_entry w f u true /\ upd (pm s) t0 (v mod 1024) w m1 /\ only_frame m1 (pm s') f) /\
    (forall o, 0 <= o < 4096 -> pm s' (4096 * f + o) = 0) /\ tlb_fresh (tlb s') (pm s') (root s) P.
Proof.
  intros R HW Hv Hpr Hf Hne Hfr Hns HPv Hth. destruct (pdi_range v Hv) as (Hi & Hj & Ev).
  pose proof (points_pte _ _ _ _ _ R v t0 Hv Hpr Hf) as Hp.
  pose proof (window_apart _ _ _ _ _ _ _ R Hv Hne) as Hw.
  pose proof (t_mem _ _ _ (v_tables _ _ _ _ _ R)) as Hm.
  assert (HP : ~ P (pte_at v / 4096)).
  { destruct (pte_at_page v Hv) as (-> & _). apply HW.
    destruct (frame_of_pdi _ _ _ _ _ R _ _ Hi Hpr Hf) as [[? ?]|[[? ?]|[? ?]]]; eauto. }
  destruct (vset4_ok s (pte_at v) t0 (v mod 1024) P f u Hm (v_tlb _ _ _ _ _ R) HP Hp Hj ltac:(lia) Hw)
    as (s1 & s2 & s3 & s4 & E1 & E2 & E3 & E4 & w & He & C).
  destruct (flush_entry s t0 v w P s4 f u (v * 4096) C He Hth ltac:(zdiv)) as [Es _ Ht].
  destruct C as [_ U _ _]. set (s5 := flush_tlb_page s4 (v * 4096)) in *.
  assert (Er : root s5 = root s) by (rewrite Es; done). change (pm s4) with (pm s5) in U.
  assert (Hst : forall d x, ~ structural A x -> ~ structural (set_kern A d 1) x) by done.
  assert (Hw5 : ent (pm s5) (root s) (v / 1024) = ent (pm s) (root s) (v / 1024)).
  { apply (upd_ent_ne _ _ _ _ _ _ _ U); [done|done|by left]. }
  assert (Hvv : v * 4096 / 4096 = v) by zdiv.
  destruct (clear_page_ok s5 (v * 4096) f P) as (s' & E5 & (Es' & O & Ht' & _) & Hz).
  - apply (upd_ok _ _ _ _ _ U).
  - by rewrite Er.
  - split.
    + rewrite Er. intros ->. apply Hns. left. exact (v_root _ _ _ _ _ R).
    + intros x Hx. apply list_elem_of_singleton in Hx as ->. rewrite Hvv. split; [done|]. rewrite Er.
      intros [E|[_ Hfe]]; [apply Hns; rewrite E; left; exact (v_root _ _ _ _ _ R)|]. rewrite Hw5 in Hfe.
      apply Hns. apply (via_structural _ _ _ _ _ R f v Hv). right. done.
  - rewrite Er. split; [lia|]. split; [zdiv|]. rewrite Hvv, walk_ent. cbv zeta. rewrite Hw5, Hpr, Hf.
    rewrite (upd_eq _ _ _ _ _ U). destruct He as (-> & Hfe & _). by eexists.
  - exists s1, s2, s3, s4, s'. do 5 (split; [done|]). split; [rewrite Es', Es; done|].
    split; [exists w, (pm s5); done|]. split; [done|]. rewrite Er in Ht'.
    eapply tlb_fresh_weaken; [exact Ht'|]. intros x _ [?|[Hx Hvia]]; [done|]. exfalso. apply Hns.
    destruct Hx as [e Hx]. destruct (Ht x e Hx) as [Hxr _].
    apply (via_structural _ _ _ _ _ R f x Hxr).
    destruct (pdi_range x Hxr) as (Hxi & _). destruct Hvia as [?|[Hxp Hxf]]; [by left|right].
    rewrite (upd_ent_ne _ _ _ _ _ _ _ U) in Hxp, Hxf by (done || by left). done.
Qed.

(** A page of the user's half is mapped, on a fresh frame full of zeros. *)
Lemma map_leaf_user s A T N v t va : vmrel s A T N (gone A (root s)) -> unlocked s -> 0 <= v < 2 ^ 20 ->
  tbl A !! (root s, v / 1024) = Some t -> va = v * 4096 ->
  match pages A !! (root s, v) with
  | Some _ => exists s', map_leaf s va (-1) true = Ok s' /\ same s s' /\ vmrel s' A T N (gone A (root s)) /\
      kept A (pm s) (pm s')
  | None =>
      (map_leaf s va (-1) true = Err Panic /\ forall f, 0 <= f < 8192 -> refs A f + uses fst N f <> 0) \/
      exists s' f, map_leaf s va (-1) true = Ok s' /\ same s s' /\ refs A f + uses fst N f = 0 /\ 0 < f < 8192 /\
        let A' := with_pages A (<[(root s, v) := (f, true)]> (pages A)) in
        vmrel s' A' T N (gone A' (root s)) /\ kept A (pm s) (pm s') /\
        forall o, 0 <= o < 4096 -> pm s' (4096 * f + o) = 0
  end.
Proof.
  intros R Hl Hv Ht ->. pose proof (v_acct _ _ _ _ _ R) as Ac. pose proof (v_tables _ _ _ _ _ R) as Tb.
  pose proof (v_root _ _ _ _ _ R) as Hr. destruct (pdi_range v Hv) as (Hi & Hj & Ev).
  destruct (user_table _ _ _ _ _ R _ _ Ht) as (Hpr & Hf & _).
  pose proof (tbl_not_root _ _ _ Ac _ _ _ Ht Hr) as Hne. destruct (a_tbl _ _ _ Ac _ _ _ Ht) as (Hui & _).
  unfold map_leaf. replace (v * 4096 / 4096) with v by zdiv.
  destruct (load_pte s A T N _ v t R (gone_windows_ok _ _) Hv Hpr Hf) as (t2 & -> & R1 & _). cbn [res_bind].
  change (-1 >? 0) with false. cbv iota.
  pose proof (t_leaf _ _ _ Tb _ _ _ (v mod 1024) Ht Hj) as Hlf. rewrite <- Ev in Hlf.
  destruct (pages A !! (root s, v)) as [[g rw]|] eqn:Ep; cbn [leaf] in Hlf.
  { destruct Hlf as (-> & _). cbn [negb]. eexists. split; [reflexivity|]. split; [done|]. split; [done|apply kept_refl]. }
  rewrite Hlf. cbn [negb].
  destruct (alloc_phy_frame_ok _ A T N _ R1 Hl) as [(f & Ea & Hfr & Hz & R2)|[Ea Hfull]]; [right|left; by rewrite Ea].
  rewrite Ea. cbn [res_bind]. set (s2 := with_frames _ _ f) in *.
  destruct (taken_apart _ _ _ f Ac Hz) as (Hns & Hnd & Hnr & Hnk & Hk0 & Hkp & Htb & Hpg & Hn0).
  assert (Er2 : root s2 = root s) by done.
  destruct (map_fresh s2 A T N _ v t f true R2 (gone_windows_ok A (root s)) Hv Hpr Hf Hne Hfr Hns)
    as (s3 & s4 & s5 & s6 & s' & E3 & E4 & E5 & E6 & E7 & Es & (w & m1 & He & U & O) & Hzero & Htl).
  { intros (k & Hk & -> & _). destruct (wpage_div k ltac:(by apply user_pdi_range)) as (Hc & _).
    unfold user_pdi in Hui. lia. }
  { intros x Hx Hth. rewrite Ev. eapply through_leaf; [exact R|exact Ht|exact Hx|exact Hth]. }
  rewrite E3; cbn [res_bind]; rewrite E4; cbn [res_bind]; rewrite E5; cbn [res_bind]; rewrite E6; cbn [res_bind].
  exists s', f. split; [done|]. assert (S : same s s') by (rewrite Es; done).
  split; [done|]. split; [done|]. split; [done|]. cbv zeta.
  set (A' := with_pages A (<[(root s, v) := (f, true)]> (pages A))).
  change (pm s2) with (pm s) in U.
  assert (Tb1 : tables A' T m1).
  { eapply (tables_leaf A N _ T (pm s) m1 Ac Tb (root s) (v / 1024) t (v mod 1024) w (Some (f, true))); try done.
    - rewrite <- Ev. apply lookup_insert_eq.
    - intros k Hk. rewrite <- Ev in Hk. by apply lookup_insert_ne. }
  assert (Ac' : acct A' N (phy_frames_array s')).
  { eapply (acct_ext (set_kern (with_pages (set_kern A f 1) (<[(root s, v) := (f, true)]> (pages A))) f 0)); [|done..|].
    - intros x. cbn. destruct (decide (x = f)); [by subst|done].
    - replace (phy_frames_array s') with (phy_frames_array s2) by (by rewrite Es).
      apply (acct_page (set_kern A f 1)); try done; cbn; try lia; [exact (v_acct _ _ _ _ _ R2)|by rewrite decide_True]. }
  split; [|split; [|done]].
  - split; rewrite ?(same_root _ _ S); try done.
    + eapply tables_frame; [exact Tb1|exact Hns|done].
    + rewrite S. apply (v_cr3 _ _ _ _ _ R).
    + rewrite Es. cbn. lia.
  - intros g Hg o Ho. rewrite (only_frame_same _ _ _ g O) by (done || intros ->; done).
    eapply upd_same_frame; [exact U|done| |done]. intros ->.
    eapply data_not_structural; [exact Ac|exact Hg|]. right; right. eauto.
Qed.
