(* ===== verification/PageMap.v ===== *)
(** Mapping pages: the results of [map_page] in the user's half and in the
    kernel's, under the locks. *)
From S2P Require Import Prelude Memory BitMap Page PageMem PageSpec PageOps.

(** ** Free frames *)
Definition free (A : space) (N : gmap (Z * Z) (Z * bool)) (f : Z) : Prop :=
  0 <= f < 8192 /\ refs A f + uses fst N f = 0.

(** At most [n] frames are free. *)
Definition few (n : nat) (A : space) (N : gmap (Z * Z) (Z * bool)) : Prop :=
  exists L : list Z, (length L <= n)%nat /\ forall f, free A N f -> f ∈ L.

Lemma few_none A N : (forall f, 0 <= f < 8192 -> refs A f + uses fst N f <> 0) -> few 0 A N.
Proof. intros H. exists []. split; [done|]. intros f [Hf Hz]. by destruct (H f Hf). Qed.

Lemma few_le n n' A N : (n <= n')%nat -> few n A N -> few n' A N.
Proof. intros Hn (L & HL & H). exists L. split; [lia|done]. Qed.

(** A frame that has been taken was free. *)
Lemma few_step n A N A' N' f : (forall g, free A N g -> g = f \/ free A' N' g) -> few n A' N' -> few (S n) A N.
Proof.
  intros H (L & HL & HA). exists (f :: L). split; [cbn; lia|]. intros g Hg. apply elem_of_cons.
  destruct (H g Hg); [by left|right; by apply HA].
Qed.

Lemma few_same n A N A' N' : (forall g, refs A' g + uses fst N' g = refs A g + uses fst N g) -> few n A' N' -> few n A N.
Proof. intros H (L & HL & HA). exists L. split; [done|]. intros g [Hg Hz]. apply HA. split; [done|]. by rewrite H. Qed.

(** ** Locks around an operation *)

(** [s1] is [s] but for the locks of the directory and of the temporary pages. *)
Definition relocked (s s1 : vm) : Prop :=
  s1 = with_locks s (phy_frames_map_lock s) (page_copy_lock s1) (page_dir_lock s1).

Lemma relocked_rel s s1 A T N P : relocked s s1 -> vmrel s A T N P -> vmrel s1 A T N P.
Proof. intros E. apply vmrel_eq; by rewrite E. Qed.
Lemma relocked_eq s s1 : relocked s s1 -> pm s1 = pm s /\ tlb s1 = tlb s /\ root s1 = root s /\
  phy_frames_array s1 = phy_frames_array s /\ last_allocated_index s1 = last_allocated_index s /\ (unlocked s -> unlocked s1).
Proof. intros E. unfold unlocked. rewrite E. done. Qed.

Lemma with_dir_lock s : dir_unlocked s ->
  exists s1, lock_dir s = Ok s1 /\ relocked s s1 /\ page_copy_lock s1 = page_copy_lock s /\
    forall s', same s1 s' -> relocked s' (unlock_dir s') /\ same s (unlock_dir s').
Proof.
  unfold dir_unlocked, lock_dir, unlock_dir, relocked. intros Hd. destruct (multi_task s) eqn:Em.
  - rewrite Hd by done. cbn [yieldlock_lock atomic_exchange].
    change (negb (LOCKED_NO =? LOCKED_NO)) with false. cbn [res_bind].
    eexists. do 3 (split; [reflexivity|]). intros s2 E. destruct s, s2. injection E. cbn in *. intros. subst. split; [done|]. by rewrite Hd.
  - exists s. split; [done|]. split; [by destruct s|]. split; [done|]. intros s' Hs. rewrite Hs. cbn. by rewrite Em.
Qed.

Definition copy_unlocked (s : vm) : Prop := page_copy_lock s = LOCKED_NO.

Lemma with_copy_lock s : copy_unlocked s ->
  exists s1, lock_copy s = Ok s1 /\ relocked s s1 /\ page_dir_lock s1 = page_dir_lock s /\ multi_task s1 = multi_task s /\
    forall s', same s1 s' -> relocked s' (unlock_copy s') /\ same s (unlock_copy s').
Proof.
  unfold copy_unlocked, lock_copy, unlock_copy, relocked. intros Hd. rewrite Hd. cbn [yieldlock_lock atomic_exchange].
  change (negb (LOCKED_NO =? LOCKED_NO)) with false. cbn [res_bind].
  eexists. do 4 (split; [reflexivity|]). intros s2 E. destruct s, s2. injection E. cbn in *. intros. subst. split; [done|]. done.
Qed.

Lemma same_unlocked s s' : same s s' -> unlocked s -> unlocked s'.
Proof. unfold unlocked. by intros ->. Qed.
Lemma same_dir_unlocked s s' : same s s' -> dir_unlocked s -> dir_unlocked s'.
Proof. unfold dir_unlocked. by intros ->. Qed.
Lemma same_copy_unlocked s s' : same s s' -> copy_unlocked s -> copy_unlocked s'.
Proof. unfold copy_unlocked. by intros ->. Qed.
#[export] Hint Resolve same_unlocked same_dir_unlocked same_copy_unlocked same_trans same_refl kept_trans kept_refl : cmem.

(** ** Mapping in the user's half *)
Definition user_page (v : Z) : Prop := 1024 <= v < 786432.

Lemma user_page_pdi v : user_page v -> user_pdi (v / 1024) /\ 0 <= v < 2 ^ 20.
Proof. unfold user_page, user_pdi. intros. zdiv. Qed.

Definition add_table (A : space) (d i t : Z) : space :=
  match tbl A !! (d, i) with Some _ => A | None => with_tbl A (<[(d, i) := t]> (tbl A)) end.
Definition add_page (A : space) (d v f : Z) : space := with_pages A (<[(d, v) := (f, true)]> (pages A)).

Lemma add_table_get A d i t : is_Some (tbl (add_table A d i t) !! (d, i)).
Proof. unfold add_table. destruct (tbl A !! (d, i)) eqn:E; [rewrite E; by eexists|cbn; rewrite lookup_insert_eq; by eexists]. Qed.
Lemma add_table_pages A d i t : pages (add_table A d i t) = pages A.
Proof. unfold add_table. by destruct (tbl A !! (d, i)). Qed.
Lemma add_table_data A d i t f : data_frame (add_table A d i t) f <-> data_frame A f.
Proof. unfold add_table. by destruct (tbl A !! (d, i)). Qed.

(** The result of an operation that may run out of frames. *)
Definition outcome {X : Type} (r : res X) (F : Prop) (Q : X -> Prop) : Prop :=
  (r = Err Panic /\ F) \/ exists s', r = Ok s' /\ Q s'.

Lemma for_loop_outcome (I : Z -> vm -> Prop) F n i f s : I i s ->
  (forall j s, i <= j < i + Z.of_nat n -> I j s -> outcome (f j s) F (I (j + 1))) ->
  outcome (for_loop n i f s) F (I (i + Z.of_nat n)).
Proof.
  revert i s. induction n as [|n IH]; intros i s HI Hf.
  - right. exists s. split; [done|]. by replace (i + Z.of_nat 0) with i by lia.
  - cbn [for_loop]. destruct (Hf i s ltac:(lia) HI) as [[-> HF]|(s1 & -> & H1)]; [by left|]. cbn [res_bind].
    replace (i + Z.of_nat (S n)) with (i + 1 + Z.of_nat n) by lia.
    apply IH; [done|]. intros j t Hj. apply Hf. lia.
Qed.

(** What [map_page] has done with page [v]: the table [t] was linked when there was
    none, and the page has the frame [f], full of zeros; or it was mapped. *)
Definition mapped (A : space) (d v : Z) (A' : space) (m' : mem) : Prop :=
  match pages A !! (d, v) with
  | Some _ => A' = A
  | None => exists t f, A' = add_page (add_table A d (v / 1024) t) d v f /\ 0 < f < 8192 /\ ~ data_frame A f /\
      forall o, 0 <= o < 4096 -> m' (4096 * f + o) = 0
  end.

Lemma map_impl_user s A T N v : vmrel s A T N (gone A (root s)) -> unlocked s -> user_page v ->
  outcome (map_page_with_frame_impl s (v * 4096) (-1)) (few 1 A N) (fun s' => exists A', same s s' /\
    vmrel s' A' T N (gone A' (root s)) /\ kept A (pm s) (pm s') /\ mapped A (root s) v A' (pm s')).
Proof.
  intros R Hl Hv. destruct (user_page_pdi v Hv) as [Hi Hv']. unfold map_page_with_frame_impl.
  replace (v * 4096 <? 3221225472) with true by (symmetry; zbool; unfold user_page in Hv; lia).
  replace (v * 4096 / 4194304) with (v / 1024) by zdiv.
  pose proof (v_acct _ _ _ _ _ R) as Ac.
  assert (H1 : (ensure_table s (v / 1024) true = Err Panic /\ few 1 A N) \/
    exists s1 t, ensure_table s (v / 1024) true = Ok s1 /\ same s s1 /\ kept A (pm s) (pm s1) /\
      let A1 := add_table A (root s) (v / 1024) t in vmrel s1 A1 T N (gone A1 (root s)) /\
      (forall g, free A N g -> g = t \/ free A1 N g)).
  { pose proof (ensure_table_ok s A T N (v / 1024) R Hl Hi) as H. unfold add_table.
    destruct (tbl A !! (root s, v / 1024)) as [t|] eqn:Et.
    - destruct H as (s1 & E & S & R1 & K). right. exists s1, t. cbv zeta. auto 10.
    - destruct H as [[E Hf]|(s1 & t & E & S & Hz & Ht & R1 & K)].
      + left. split; [done|]. eapply few_le; [|by apply few_none]. lia.
      + right. exists s1, t. do 3 (split; [done|]). split; [done|]. intros g [Hg Hgz].
        destruct (decide (g = t)); [by left|right]. split; [done|]. unfold refs in *. cbn.
        rewrite (uses_insert id) by done. rewrite decide_False by (cbn; congruence). lia. }
  destruct H1 as [[E F]|(s1 & t & E & S & K & R1 & Hfree)]; rewrite E; cbn [res_bind]; [by left|].
  cbv zeta in R1. set (A1 := add_table A (root s) (v / 1024) t) in *. pose proof (same_root _ _ S) as Er.
  rewrite <- Er in R1. destruct (add_table_get A (root s) (v / 1024) t) as [t1 Ht1].
  pose proof (map_leaf_user s1 A1 T N v t1 (v * 4096) R1 ltac:(eauto with cmem) Hv' ltac:(by rewrite Er) eq_refl) as H.
  rewrite Er in H. unfold mapped. replace (pages A1) with (pages A) in H by (symmetry; apply add_table_pages).
  assert (K' : forall m m', kept A1 m m' -> kept A m m').
  { intros m m' H' f Hf. apply H'. by apply add_table_data. }
  destruct (pages A !! (root s, v)) as [[g rw]|] eqn:Ep.
  - destruct H as (s' & E' & S' & R' & Kp). right. exists s'. split; [done|]. exists A.
    assert (A1 = A) as HA.
    { destruct (a_page _ _ _ Ac _ _ _ _ Ep) as ([t0 Ht0] & _). unfold A1, add_table. by rewrite Ht0. }
    rewrite HA in R', Kp. eauto 10 with cmem.
  - destruct H as [[E' Hf]|(s' & f & E' & S' & Hz & Hf & R' & Kp & Hzero)].
    + left. split; [done|]. eapply few_step; [exact Hfree|]. by apply few_none.
    + right. exists s'. split; [done|]. exists (add_page A1 (root s) v f). split; [by eapply same_trans|].
      split; [|split; [eauto with cmem|]].
      * cbv zeta in R'. replace (pages A) with (pages A1) in R' by apply add_table_pages. exact R'.
      * exists t, f. split; [done|]. split; [done|]. split; [|done].
        intros Hd. apply (free_not_structural _ _ _ (v_acct _ _ _ _ _ R1) f Hz). by apply add_table_data.
Qed.

(** An operation under the lock of the directory. *)
Lemma under_dir_lock s A T N P (k : vm -> res vm) F (Q : vm -> Prop) : dir_unlocked s -> vmrel s A T N P ->
  (forall s1, relocked s s1 -> outcome (k s1) F (fun s' => same s1 s' /\ Q s')) ->
  (forall s' s2, relocked s' s2 -> same s s2 -> Q s' -> Q s2) ->
  outcome (let! s1 := lock_dir s in let! s2 := k s1 in Ok (unlock_dir s2)) F (fun s' => same s s' /\ Q s').
Proof.
  intros Hd R Hk HQ. destruct (with_dir_lock s Hd) as (s1 & -> & L & _ & Hu). cbn [res_bind].
  destruct (Hk s1 L) as [[-> HF]|(s' & -> & S & Hq)]; [by left|right]. cbn [res_bind].
  destruct (Hu s' S) as [L' S']. eexists. split; [done|]. split; [done|]. by eapply HQ.
Qed.

Theorem map_page_user s A T N v : vmrel s A T N (gone A (root s)) -> unlocked s -> dir_unlocked s -> user_page v ->
  outcome (map_page s (v * 4096)) (few 1 A N) (fun s' => same s s' /\ exists A',
    vmrel s' A' T N (gone A' (root s)) /\ kept A (pm s) (pm s') /\ mapped A (root s) v A' (pm s')).
Proof.
  intros R Hl Hd Hv. unfold map_page, map_page_with_frame.
  apply (under_dir_lock s A T N (gone A (root s))); [done|done| |].
  - intros s1 L. pose proof (relocked_eq _ _ L) as (Em & _ & Er & _ & _ & Hl'). rewrite <- Em, <- Er.
    destruct (map_impl_user s1 A T N v) as [?|(s' & E & A' & S & HA)]; [|auto|done|by left|right; eauto 10].
    rewrite Er. by eapply relocked_rel.
  - intros s' s2 L S (A' & R' & K & M). pose proof (relocked_eq _ _ L) as (-> & _). exists A'.
    split; [by eapply relocked_rel|done].
Qed.

(** ** Mapping in the kernel's half *)
Definition add_kpage (A : space) (v f : Z) : space := with_kpages A (<[v := f]> (kpages A)).

Lemma gone_kpages A p d : gone (with_kpages A p) d = gone A d.
Proof. done. Qed.

Lemma map_leaf_kernel s A T N P v va : vmrel s A T N P -> windows_ok A (root s) P -> ~ P v -> unlocked s -> 0 <= v < 2 ^ 20 ->
  kernel_pdi (v / 1024) -> ~ temp v -> va = v * 4096 ->
  outcome (map_leaf s va (-1) false) (few 0 A N) (fun s' => same s s' /\
    exists A', vmrel s' A' T N P /\ kept A (pm s) (pm s') /\
      match kpages A !! v with
      | Some _ => A' = A
      | None => exists f, A' = add_kpage A v f /\ 0 < f < 8192 /\ refs A f = 0 /\ ~ data_frame A f /\
          forall o, 0 <= o < 4096 -> pm s' (4096 * f + o) = 0
      end).
Proof.
  intros R HW HPv Hl Hv Hki Hnt ->. pose proof (v_acct _ _ _ _ _ R) as Ac. pose proof (v_tables _ _ _ _ _ R) as Tb.
  pose proof (v_root _ _ _ _ _ R) as Hr. destruct (pdi_range v Hv) as (Hi & Hj & Ev).
  destruct (t_kdir _ _ _ Tb _ _ Hr Hki) as (Hpr & Hf).
  pose proof (ktbl_not_root _ _ _ Ac _ _ Hki Hr) as Hne.
  unfold map_leaf. replace (v * 4096 / 4096) with v by zdiv.
  destruct (load_pte s A T N P v _ R HW Hv Hpr Hf) as (t2 & -> & R1 & _). cbn [res_bind].
  change (-1 >? 0) with false. cbv iota.
  assert (HT : T !! v = None).
  { destruct (T !! v) eqn:ET; [|done]. by destruct Hnt; eapply (t_temp _ _ _ Tb). }
  pose proof (t_kleaf _ _ _ Tb _ (v mod 1024) Hki Hj) as Hlf. rewrite <- Ev, lookup_union_r in Hlf by done.
  destruct (kpages A !! v) as [g|] eqn:Ep; cbn [kleaf] in Hlf.
  { destruct Hlf as (-> & _). cbn [negb]. right. eexists. split; [reflexivity|]. split; [done|].
    exists A. split; [done|]. split; [apply kept_refl|done]. }
  rewrite Hlf. cbn [negb].
  destruct (alloc_phy_frame_ok _ A T N _ R1 Hl) as [(f & Ea & Hfr & Hz & R2)|[Ea Hfull]];
    [right|left; rewrite Ea; split; [done|by apply few_none]].
  rewrite Ea. cbn [res_bind]. set (s2 := with_frames _ _ f) in *.
  destruct (taken_apart _ _ _ f Ac Hz) as (Hns & Hnd & Hnr & Hnk & Hk0 & Hkp & Htb & Hpg & Hn0).
  destruct (map_fresh s2 A T N P v (ktbl A (v / 1024)) f false R2 HW Hv Hpr Hf Hne Hfr Hns HPv)
    as (s3 & s4 & s5 & s6 & s' & E3 & E4 & E5 & E6 & E7 & Es & (w & m1 & He & U & O) & Hzero & Htl).
  { intros x Hx Hth. rewrite Ev. eapply through_kleaf; [exact R|exact Hki|exact Hx|exact Hth]. }
  rewrite E3; cbn [res_bind]; rewrite E4; cbn [res_bind]; rewrite E5; cbn [res_bind]; rewrite E6; cbn [res_bind].
  exists s'. split; [done|]. assert (S : same s s') by (rewrite Es; done).
  split; [done|]. exists (add_kpage A v f). change (pm s2) with (pm s) in U.
  assert (Tb1 : tables (add_kpage A v f) T m1).
  { eapply (tables_kleaf A N _ T (pm s) m1 Ac Tb (v / 1024) (v mod 1024) w (Some f)); try done.
    - split; apply He.
    - rewrite <- Ev, lookup_union_r by done. apply lookup_insert_eq.
    - intros k Hk. rewrite <- Ev in Hk. by rewrite !lookup_union, lookup_insert_ne.
    - apply Tb. }
  assert (Ac' : acct (add_kpage A v f) N (phy_frames_array s')).
  { eapply (acct_ext (set_kern (with_kpages (set_kern A f 1) (<[v := f]> (kpages A))) f 0)); [|done..|].
    - intros x. cbn. destruct (decide (x = f)); [by subst|done].
    - replace (phy_frames_array s') with (phy_frames_array s2) by (by rewrite Es).
      apply (acct_kpage (set_kern A f 1)); try done; cbn; try lia; [exact (v_acct _ _ _ _ _ R2)|by rewrite decide_True]. }
  assert (Hrf : refs A f = 0) by (pose proof (refs_nonneg _ _ _ Ac f); pose proof (uses_nonneg fst N f); lia).
  split; [|split; [|by exists f]].
  - split; rewrite ?(same_root _ _ S); try done.
    + eapply tables_frame; [exact Tb1|exact Hns|done].
    + rewrite S. apply (v_cr3 _ _ _ _ _ R).
    + rewrite Es. cbn. lia.
  - intros g Hg o Ho. rewrite (only_frame_same _ _ _ g O) by (done || intros ->; done).
    eapply upd_same_frame; [exact U|done| |done]. intros ->.
    eapply data_not_structural; [exact Ac|exact Hg|]. right; left. eauto.
Qed.

Definition kernel_page (v : Z) : Prop := kernel_pdi (v / 1024) /\ 0 <= v < 2 ^ 20 /\ ~ temp v.

Theorem map_page_kernel s A T N v : vmrel s A T N (gone A (root s)) -> unlocked s -> dir_unlocked s -> kernel_page v ->
  outcome (map_page s (v * 4096)) (few 0 A N) (fun s' => same s s' /\ exists A',
    vmrel s' A' T N (gone A' (root s)) /\ kept A (pm s) (pm s') /\
    match kpages A !! v with
    | Some _ => A' = A
    | None => exists f, A' = add_kpage A v f /\ 0 < f < 8192 /\ refs A f = 0 /\ ~ data_frame A f /\
        forall o, 0 <= o < 4096 -> pm s' (4096 * f + o) = 0
    end).
Proof.
  intros R Hl Hd (Hk & Hv & Hnt). unfold map_page, map_page_with_frame.
  apply (under_dir_lock s A T N (gone A (root s))); [done|done| |].
  - intros s1 L. pose proof (relocked_eq _ _ L) as (Em & _ & Er & _ & _ & Hl'). rewrite <- Em, <- Er.
    assert (R1 : vmrel s1 A T N (gone A (root s1))) by (rewrite Er; by eapply relocked_rel).
    unfold map_page_with_frame_impl, ensure_table.
    replace (v * 4096 / 4194304) with (v / 1024) by zdiv.
    replace (v * 4096 <? 3221225472) with false by (symmetry; zbool; pose proof (Z.mul_div_le v 1024); unfold kernel_pdi in Hk; lia).
    destruct (load_pde s1 A T N _ (v / 1024) R1 (gone_windows_ok _ _) (kernel_pdi_range _ Hk)) as (t1 & -> & R2 & _). cbn [res_bind].
    destruct (t_kdir _ _ _ (v_tables _ _ _ _ _ R1) _ _ (v_root _ _ _ _ _ R1) Hk) as (-> & _). cbn [res_bind negb].
    destruct (map_leaf_kernel (mt s1 (pm s1) t1) A T N (gone A (root s1)) v (v * 4096) R2 (gone_windows_ok _ _))
      as [?|(s' & E & S & A' & HA' & K & M)]; [|auto|done|done|done|done|by left|right].
    + intros (i & Hi & -> & _). destruct (wpage_div i (user_pdi_range _ Hi)) as (E & _).
      rewrite E in Hk. by destruct Hk.
    + exists s'. split; [done|]. split; [done|]. exists A'. split; [|done].
      replace (gone A' (root s1)) with (gone A (root s1)); [done|].
      destruct (kpages A !! v); [by subst|]. by destruct M as (f & -> & _).
  - intros s' s2 L S (A' & R' & K & M). pose proof (relocked_eq _ _ L) as (-> & _). exists A'.
    split; [by eapply relocked_rel|done].
Qed.
