(* ===== verification/PageCow.v ===== *)
(** Copy on write: what [handle_cow_fault] leaves behind, for a page the address
    space has for itself and for one it shares. *)
From S2P Require Import Prelude Memory BitMap Page PageMem PageSpec PageOps PageMap.

Section pages.
Context (s : vm) (A : space) (T : gmap Z Z) (N : gmap (Z * Z) (Z * bool)) (P : Z -> Prop).
Context (R : vmrel s A T N P).

Lemma page_table v f rw : pages A !! (root s, v) = Some (f, rw) ->
  exists t, tbl A !! (root s, v / 1024) = Some t /\ user_page v /\ is_entry (ent (pm s) t (v mod 1024)) f true rw /\
    pte_present (ent (pm s) (root s) (v / 1024)) = true /\ pte_frame (ent (pm s) (root s) (v / 1024)) = t.
Proof.
  intros Hp. pose proof (v_acct _ _ _ _ _ R) as Ac.
  destruct (a_page _ _ _ Ac _ _ _ _ Hp) as ([t Ht] & _).
  destruct (a_tbl _ _ _ Ac _ _ _ Ht) as (Hi & _). destruct (user_table _ _ _ _ _ R _ _ Ht) as (Hpr & Hf & _).
  exists t. split; [done|]. split; [unfold user_page, user_pdi in *; zdiv|]. split; [|done].
  pose proof (t_leaf _ _ _ (v_tables _ _ _ _ _ R) _ _ _ (v mod 1024) Ht ltac:(zdiv)) as H.
  replace (1024 * (v / 1024) + v mod 1024) with v in H by zdiv. by rewrite Hp in H.
Qed.

Lemma points_user v f rw : pages A !! (root s, v) = Some (f, rw) -> points (pm s) (root s) (v * 4096) f 0.
Proof.
  intros Hp. destruct (page_table v f rw Hp) as (t & Ht & Hv & (Hpr & Hf & _) & Hd & Hdf). unfold user_page in Hv.
  split; [lia|]. split; [zdiv|]. replace (v * 4096 / 4096) with v by zdiv. rewrite walk_ent. cbv zeta.
  rewrite Hd, Hdf, Hpr. by eexists.
Qed.

Lemma points_kernel v f : kernel_pdi (v / 1024) -> 0 <= v < 2 ^ 20 -> (T ∪ kpages A) !! v = Some f ->
  points (pm s) (root s) (v * 4096) f 0.
Proof.
  intros Hk Hv Hl. destruct (t_kdir _ _ _ (v_tables _ _ _ _ _ R) _ _ (v_root _ _ _ _ _ R) Hk) as (Hd & Hdf).
  pose proof (t_kleaf _ _ _ (v_tables _ _ _ _ _ R) _ (v mod 1024) Hk ltac:(zdiv)) as H.
  replace (1024 * (v / 1024) + v mod 1024) with v in H by zdiv. rewrite Hl in H. destruct H as [Hpr Hf].
  split; [lia|]. split; [zdiv|]. replace (v * 4096 / 4096) with v by zdiv. rewrite walk_ent. cbv zeta.
  rewrite Hd, Hdf, Hpr. by eexists.
Qed.

Lemma points_temp v f : T !! v = Some f -> points (pm s) (root s) (v * 4096) f 0.
Proof.
  intros Hl. destruct (temp_pdi v (t_temp _ _ _ (v_tables _ _ _ _ _ R) _ _ Hl)) as (_ & Hk & Hv).
  apply points_kernel; [done|done|]. by apply lookup_union_Some_l.
Qed.

(** Bytes written to a frame that is no table. *)
Lemma page_chain_rel g us s' : page_chain s g us P s' -> ~ structural A g ->
  vmrel s' A T N P /\ same s s' /\ forall h, h <> g -> same_frame (pm s) (pm s') h.
Proof.
  intros (E & O & Ht & _) Hg. assert (S : same s s') by (rewrite E; done). pose proof (same_root _ _ S) as Er.
  destruct R as [r1 r2 r3 r4 r5 r6]. split; [|split; [done|]].
  - split; rewrite ?Er.
    + by rewrite E.
    + eapply tables_frame; [exact r2|exact Hg|done].
    + done.
    + by rewrite E.
    + by rewrite E.
    + eapply tlb_fresh_weaken; [exact Ht|]. intros v _ [?|[[e He] Hvia]]; [done|].
      destruct Hg. eapply via_structural; [exact R| |exact Hvia]. by destruct (r6 v e He).
  - intros h Hh. by eapply only_frame_same.
Qed.

(** The entry of a page of the current address space is set. *)
Lemma set_user_entry v t g k N' s' : tbl A !! (root s, v / 1024) = Some t -> 0 <= v < 2 ^ 20 ->
  entry_set s t v g true P s' ->
  acct (with_kern (add_page A (root s) v g) k) N' (phy_frames_array s) ->
  vmrel s' (with_kern (add_page A (root s) v g) k) T N' P /\ same s s' /\ kept A (pm s) (pm s') /\
  forall h, h <> t -> same_frame (pm s) (pm s') h.
Proof.
  intros Ht Hv [E (w & He & U) Htl] Ac'. assert (S : same s s') by (rewrite E; done). pose proof (same_root _ _ S) as Er.
  destruct (pdi_range v Hv) as (Hi & Hj & Ev).
  destruct (leaf_state s A T N P (root s) (v / 1024) t (v mod 1024) w (Some (g, true))
    (<[(root s, v) := (g, true)]> (pages A)) s' R S Ht Hj U) as [Tb K].
  - done.
  - rewrite <- Ev. apply lookup_insert_eq.
  - intros x Hx. rewrite <- Ev in Hx. by apply lookup_insert_ne.
  - destruct R as [r1 r2 r3 r4 r5 r6].
    split; [|split; [done|]; split; [done|]; intros h Hh; by eapply upd_same_frame].
    split; rewrite ?Er; [by rewrite E| |done|by rewrite E|by rewrite E|done].
    by eapply tables_eq; [..|exact Tb].
Qed.
End pages.

Lemma flush_unlock s va : flush_tlb_page (unlock_dir s) va = unlock_dir (flush_tlb_page s va).
Proof. unfold unlock_dir, flush_tlb_page. cbn. by destruct (multi_task s). Qed.

(** One or two assignments to the entry of a page, and the flush. *)
Section entry.
Context (s : vm) (A : space) (T : gmap Z Z) (N : gmap (Z * Z) (Z * bool)) (P : Z -> Prop) (v f va : Z) (rw : bool).
Context (R : vmrel s A T N P) (HW : windows_ok A (root s) P).
Context (Hp : pages A !! (root s, v) = Some (f, rw)) (Hva : va / 4096 = v).

Lemma entry_premises t : tbl A !! (root s, v / 1024) = Some t ->
  bytes_ok (pm s) /\ tlb_fresh (tlb s) (pm s) (root s) P /\ ~ P (pte_at v / 4096) /\
  points (pm s) (root s) (pte_at v) t (4 * (v mod 1024)) /\ 0 <= v mod 1024 < 1024 /\
  ~ through (pm s) (root s) t (v mod 1024) (pte_at v / 4096) /\
  (forall x, 0 <= x < 2 ^ 20 -> through (pm s) (root s) t (v mod 1024) x -> x = v).
Proof.
  intros Ht. destruct (page_table _ _ _ _ _ R v f rw Hp) as (t' & Ht' & Hv & He & Hd & Hf).
  rewrite Ht in Ht'. injection Ht' as <-. destruct (user_page_pdi v Hv) as [_ Hr]. destruct (pdi_range v Hr) as (Hi & Hj & Ev).
  pose proof (tbl_not_root _ _ _ (v_acct _ _ _ _ _ R) _ _ _ Ht (v_root _ _ _ _ _ R)) as Hne.
  split; [apply (t_mem _ _ _ (v_tables _ _ _ _ _ R))|]. split; [apply R|]. split.
  { destruct (pte_at_page v Hr) as (-> & _). apply HW. right; right. by eexists. }
  split; [by eapply points_pte|]. split; [done|]. split; [by eapply window_apart|].
  intros x Hx Hth. rewrite Ev. eapply through_leaf; [exact R|exact Ht|exact Hx|exact Hth].
Qed.

Lemma make_writable t : tbl A !! (root s, v / 1024) = Some t ->
  exists s1, vset s (pte_at v) (set_rw true) = Ok s1 /\ entry_set s t v f true P (flush_tlb_page s1 va).
Proof.
  intros Ht. destruct (entry_premises t Ht) as (Hm & Hl & HP & Hpt & Hj & Hth & Hx).
  destruct (page_table _ _ _ _ _ R v f rw Hp) as (t' & Ht' & _ & (H1 & H2 & H3 & H4) & _).
  rewrite Ht in Ht'. injection Ht' as <-.
  destruct (vset_chain s (pte_at v) t (v mod 1024) (set_rw true) P Hm Hl HP Hpt Hj) as (s1 & E & C); [|done|].
  { apply setters_word; [left; exists true; auto|by apply ent_word]. }
  exists s1. split; [done|]. eapply flush_entry; [exact C| |done|done].
  unfold set_rw. destruct (fields_put 1 true (ent (pm s) t (v mod 1024)) ltac:(lia)) as (F1 & F2 & F3 & F4).
  by split; [|split; [|split]]; rewrite ?F1, ?F2, ?F3, ?F4.
Qed.

Lemma replace_frame t g : tbl A !! (root s, v / 1024) = Some t -> 0 <= g < 2 ^ 20 ->
  exists s1 s2, vset s (pte_at v) (set_frame g) = Ok s1 /\ vset s1 (pte_at v) (set_rw true) = Ok s2 /\
    same s s2 /\ entry_set s t v g true P (flush_tlb_page s2 va).
Proof.
  intros Ht Hg. destruct (entry_premises t Ht) as (Hm & Hl & HP & Hpt & Hj & Hth & Hx).
  destruct (page_table _ _ _ _ _ R v f rw Hp) as (t' & Ht' & _ & (H1 & H2 & H3 & H4) & _).
  rewrite Ht in Ht'. injection Ht' as <-.
  destruct (vset_chain s (pte_at v) t (v mod 1024) (set_frame g) P Hm Hl HP Hpt Hj) as (s1 & E & C); [|done|].
  { apply set_frame_word. }
  destruct (set_chain_step s (pte_at v) t (v mod 1024) _ P s1 (set_rw true) C) as (s2 & E2 & C2); [|done..|].
  { apply setters_word; [left; exists true; auto|apply set_frame_word]. }
  exists s1, s2. split; [done|]. split; [done|]. split; [rewrite (chain_eq _ _ _ _ _ _ _ C2); done|].
  eapply flush_entry; [exact C2| |done|done].
  destruct (fields_frame g (ent (pm s) t (v mod 1024)) Hg) as (G1 & G2 & G3 & G4).
  unfold set_rw. destruct (fields_put 1 true (set_frame g (ent (pm s) t (v mod 1024))) ltac:(lia)) as (F1 & F2 & F3 & F4).
  by split; [|split; [|split]]; rewrite ?F1, ?F2, ?F3, ?F4, ?G1, ?G3, ?G4.
Qed.
End entry.

(** What the fault has done with the page: it has a frame [g] with the bytes it had,
    its own frame when no other address space used it. *)
Definition unshared (A : space) (d v f : Z) (g : Z) : Prop :=
  if decide (uses fst (pages A) f = 1) then g = f else ~ data_frame A g /\ 0 < g < 8192.

Lemma cow_own s A T P v t f rw va : vmrel s A T ∅ P -> windows_ok A (root s) P -> va / 4096 = v ->
  pages A !! (root s, v) = Some (f, rw) -> tbl A !! (root s, v / 1024) = Some t ->
  exists s1, vset s (pte_at v) (set_rw true) = Ok s1 /\
    let s' := flush_tlb_page s1 va in
    same s s' /\ vmrel s' (add_page A (root s) v f) T ∅ P /\ kept A (pm s) (pm s').
Proof.
  intros R HW Hva Hp Ht. destruct (make_writable s A T ∅ P v f va rw R HW Hp Hva t Ht) as (s1 & E & Hes).
  exists s1. split; [done|]. cbv zeta.
  destruct (set_user_entry s A T ∅ P R v t f (kern A) ∅ (flush_tlb_page s1 va) Ht) as (R' & S & K & _); [|exact Hes| |done].
  - destruct (page_table _ _ _ _ _ R v f rw Hp) as (_ & _ & Hv & _). by apply user_page_pdi.
  - exact (acct_rw A _ _ (root s) v f rw true (v_acct _ _ _ _ _ R) Hp).
Qed.

(** The copy of the page to a new frame [g], through the temporary mapping. *)
Lemma cow_copy s A T N P v f rw g : vmrel s A T N P -> windows_ok A (root s) P -> ~ P v -> ~ P 0xFFFFF ->
  pages A !! (root s, v) = Some (f, rw) -> T !! 0xFFFFF = None -> 0 < g < 8192 -> ~ structural A g -> g <> f ->
  exists s1 s', map_page_with_frame_impl s COPIED_PAGE_VADDR g = Ok s1 /\
    vmemcpy s1 COPIED_PAGE_VADDR (v * 4096) PAGE_SIZE = Ok s' /\
    vmrel s' A (<[0xFFFFF := g]> T) N P /\ same s s' /\
    (forall h, data_frame A h -> h <> g -> same_frame (pm s) (pm s') h) /\
    forall o, 0 <= o < 4096 -> pm s' (4096 * g + o) = pm s (4096 * f + o).
Proof.
  intros R HW HPv HPt Hp HT Hg Hns Hgf.
  destruct (map_temp s A T N P 0xFFFFF g R HW) as (s1 & E1 & S1 & R1 & _ & K1); [unfold temp; lia|done|lia|].
  destruct (page_table _ _ _ _ _ R v f rw Hp) as (_ & _ & Hv & _). unfold user_page in Hv.
  change COPIED_PAGE_VADDR with (0xFFFFF * 4096).
  pose proof (same_root _ _ S1) as Er.
  assert (Hd : data_frame A f) by (left; eauto).
  destruct (vmemcpy_ok s1 (0xFFFFF * 4096) (v * 4096) g f P) as (s' & E2 & C & Hb).
  - apply (t_mem _ _ _ (v_tables _ _ _ _ _ R1)).
  - apply R1.
  - replace (v * 4096 / 4096) with v by zdiv. split.
    + intros ->. apply Hns. left. rewrite Er. apply R.
    + intros u Hu. assert (~ P u /\ 0 <= u < 2 ^ 20) as [HPu Hur].
      { apply elem_of_cons in Hu as [->|Hu]; [done|]. apply list_elem_of_singleton in Hu as ->. split; [done|lia]. }
      split; [done|]. intros Hvia. apply Hns. by eapply (via_structural _ _ _ _ _ R1).
  - eapply points_temp; [exact R1|]. apply lookup_insert_eq.
  - eapply points_user; [exact R1|]. by rewrite Er.
  - done.
  - lia.
  - lia.
  - destruct (page_chain_rel _ _ _ _ _ R1 g _ s' C Hns) as (R2 & S2 & K2).
    exists s1, s'. split; [done|]. split; [done|]. split; [done|]. split; [by eapply same_trans|]. split.
    + intros h Hh Hne. eapply same_frame_trans; [by apply K1|by apply K2].
    + intros o Ho. rewrite Hb by done. by apply K1.
Qed.

Theorem handle_cow_fault_ok s A T v f rw va : vmrel s A T ∅ (gone A (root s)) ->
  unlocked s -> dir_unlocked s -> copy_unlocked s -> T !! 0xFFFFF = None -> va / 4096 = v ->
  pages A !! (root s, v) = Some (f, rw) ->
  outcome (handle_cow_fault s va) (few 0 A ∅) (fun s' => same s s' /\ exists g,
    let A' := add_page A (root s) v g in
    vmrel s' A' T ∅ (gone A' (root s)) /\ kept A (pm s) (pm s') /\ unshared A (root s) v f g /\
    forall o, 0 <= o < 4096 -> pm s' (4096 * g + o) = pm s (4096 * f + o)).
Proof.
  intros R Hl Hd Hc HT Hva Hp. pose proof (v_acct _ _ _ _ _ R) as Ac.
  destruct (page_table _ _ _ _ _ R v f rw Hp) as (t & Ht & Hv & He & Hpr & Hf). destruct (user_page_pdi v Hv) as [Hi Hr].
  destruct (a_page _ _ _ Ac _ _ _ _ Hp) as (_ & Hfr & _).
  destruct (page_uses _ _ _ Ac _ _ _ _ Hp) as (Hk & Hkp & Htb & Hu1 & Hrf).
  pose proof (refs_bound _ _ _ Ac f) as Hbound.
  assert (Hdf : data_frame A f) by (left; eauto).
  unfold handle_cow_fault. replace (va / 4194304) with (v / 1024) by (subst v; zdiv). rewrite Hva.
  destruct (load_pde s A T ∅ _ (v / 1024) R (gone_windows_ok _ _) (user_pdi_range _ Hi)) as (t1 & -> & R1 & _).
  cbn [res_bind]. rewrite Hpr.
  destruct (load_pte _ A T ∅ _ v t R1 (gone_windows_ok _ _) Hr Hpr Hf) as (t2 & -> & R2 & _). cbn [res_bind].
  change (mt (mt s (pm s) t1) (pm (mt s (pm s) t1)) t2) with (mt s (pm s) t2) in *.
  change (pm (mt s (pm s) t1)) with (pm s). destruct He as (-> & -> & _).
  set (s2 := mt s (pm s) t2) in *.
  assert (Hn : phy_frames_array s2 !! Z.to_nat f = Some (uses fst (pages A) f)).
  { rewrite (a_ref _ _ _ (v_acct _ _ _ _ _ R2) f Hfr), uses_empty, Hrf. f_equal. lia. }
  rewrite !(get_phy_frame_ref_ok s2 f _ Hl Hfr Hn). cbn [res_bind].
  replace (uses fst (pages A) f >=? 1) with true by (symmetry; zbool; lia).
  rewrite (get_phy_frame_ref_ok s2 f _ Hl Hfr Hn). cbn [res_bind]. unfold unshared.
  destruct (uses fst (pages A) f =? 1) eqn:E1; bool_to_prop.
  - right. destruct (cow_own s2 A T _ v t f rw va R2 (gone_windows_ok _ _) Hva Hp Ht) as (s3 & -> & S & R3 & K).
    cbn [res_bind]. eexists. split; [reflexivity|]. split; [exact S|]. exists f. rewrite decide_True by done.
    split; [exact R3|]. split; [exact K|]. split; [done|]. intros o Ho. by apply K.
  - destruct (alloc_phy_frame_ok s2 A T ∅ _ R2 Hl) as [(g & Ea & Hg & Hz & R3)|[Ea Hfull]];
      [right|left; rewrite Ea; split; [done|by apply few_none]].
    rewrite Ea. cbn [res_bind]. set (s3 := with_frames s2 _ g) in *.
    destruct (taken_apart _ _ _ g Ac Hz) as (Hns & Hnd & Hnr & Hnk & Hk0 & Hkpg & Htbg & Hpg & _).
    assert (Hgf : g <> f) by (intros ->; done).
    destruct (with_copy_lock s3 Hc) as (s4 & -> & L4 & Ed4 & Em4 & Hun4). cbn [res_bind].
    pose proof (relocked_rel _ _ _ _ _ _ L4 R3) as R4. destruct (relocked_eq _ _ L4) as (Epm4 & _ & Er4 & _ & _ & Hl4).
    assert (HnP : forall u, ~ (exists i, user_pdi i /\ u = wpage i) -> ~ gone A (root s) u) by (intros u Hu (i & ? & ? & _); eauto).
    destruct (cow_copy s4 (set_kern A g 1) T ∅ (gone A (root s)) v f rw g R4) as (s5 & s6 & E5 & E6 & R6 & S6 & K6 & Hb6).
    { rewrite Er4. exact (gone_windows_ok A (root s)). }
    { apply HnP. intros (i & Hi' & Ew). unfold user_page, wpage, user_pdi in *. lia. }
    { apply HnP. intros (i & Hi' & Ew). unfold wpage, user_pdi in *. lia. }
    1-5: done || by rewrite Er4.
    rewrite E5. cbn [res_bind]. replace (va / PAGE_SIZE * PAGE_SIZE) with (v * 4096) by (subst v; done).
    rewrite E6. cbn [res_bind]. destruct (Hun4 s6 S6) as [L7 S7]. set (s7 := unlock_copy s6) in *.
    pose proof (relocked_rel _ _ _ _ _ _ L7 R6) as R7. destruct (relocked_eq _ _ L7) as (Epm7 & _ & Er7 & _).
    assert (S07 : same s s7) by (eapply same_trans; [|exact S7]; done). pose proof (same_root _ _ S07) as Er07.
    destruct (with_dir_lock s7 (same_dir_unlocked _ _ S07 Hd)) as (s8 & -> & L8 & _ & Hun8). cbn [res_bind].
    pose proof (relocked_rel _ _ _ _ _ _ L8 R7) as R8. destruct (relocked_eq _ _ L8) as (Epm8 & _ & Er8 & _).
    rewrite Er07 in Er8.
    destruct (replace_frame s8 (set_kern A g 1) (<[0xFFFFF := g]> T) ∅ (gone A (root s)) v f va rw R8) with (t := t) (g := g)
      as (s9 & s10 & -> & E10 & S10 & Hes).
    { rewrite Er8. exact (gone_windows_ok A (root s)). }
    1-4: done || (by rewrite Er8) || lia.
    cbn [res_bind]. rewrite E10. cbn [res_bind]. rewrite flush_unlock.
    destruct (set_user_entry s8 _ _ _ _ R8 v t g (kern A) {[(root s, v) := (f, rw)]} (flush_tlb_page s10 va) ltac:(by rewrite Er8) Hr Hes)
      as (R11 & S11 & K11 & F11).
    { rewrite Er8. eapply acct_ext; [..|apply (acct_cow (set_kern A g 1) _ (root s) v f rw g (v_acct _ _ _ _ _ R8))];
        try done; cbn; try lia; try (by rewrite decide_True).
      intros x. cbn. destruct (decide (x = g)); [by subst|done]. }
    destruct (Hun8 _ S11) as [L12 S12]. set (s12 := unlock_dir _) in *.
    pose proof (relocked_rel _ _ _ _ _ _ L12 R11) as R12. destruct (relocked_eq _ _ L12) as (Epm12 & _).
    assert (S012 : same s s12) by (by eapply same_trans). pose proof (same_root _ _ S012) as Er12.
    rewrite Er8 in R12.
    destruct (release_temp_pages s12 _ _ _ _ 0xFFFFF g R12) as (s13 & E13 & S13 & R13 & F13 & _).
    { rewrite Er12. exact (gone_windows_ok A (root s)). }
    1-3: eauto using same_unlocked, same_dir_unlocked || apply lookup_insert_eq.
    change COPIED_PAGE_VADDR with (0xFFFFF * 4096). rewrite E13. cbn [res_bind].
    rewrite delete_insert_id in R13 by done.
    assert (S013 : same s s13) by (by eapply same_trans). pose proof (same_root _ _ S013) as Er13.
    set (A13 := with_kern _ _) in R13. pose proof (v_acct _ _ _ _ _ R13) as Ac13.
    assert (HN : uses fst ({[(root s, v) := (f, rw)]} : gmap (Z * Z) (Z * bool)) f = 1).
    { rewrite <- insert_empty, (uses_insert fst), uses_empty, decide_True by done. done. }
    assert (Hrefs : refs A13 f = uses fst (pages A) f - 1).
    { unfold refs, A13. cbn. rewrite (uses_replace fst _ _ (f, rw)), decide_True, decide_False by done. lia. }
    rewrite (release_phy_frame_ok s13 f (refs A13 f + uses fst {[(root s, v) := (f, rw)]} f));
      [|by eapply same_unlocked|apply (a_len _ _ _ Ac13)|done|by apply (a_ref _ _ _ Ac13)|rewrite uses_empty in Hbound; lia].
    eexists. split; [reflexivity|]. split; [by apply (same_trans _ s13)|]. exists g. rewrite decide_False by done.
    rewrite Epm4 in K6, Hb6. rewrite Epm8, Epm7 in F11. rewrite Epm12 in F13.
    assert (H613 : forall h, ~ structural A h -> same_frame (pm s6) (pm s13) h).
    { intros h Hh. eapply same_frame_trans; [apply F11|].
      - intros ->. apply Hh. right; right. by exists (root s, v / 1024).
      - eapply only_frame_same; [exact F13|]. intros ->. apply Hh. right; left. exists 1023. split; [unfold kernel_pdi; lia|done]. }
    assert (Hds : forall h, data_frame A h -> ~ structural A h) by (intros h Hh; eapply data_not_structural; [exact Ac|exact Hh]).
    split; [|split; [|split; [done|]]].
    + destruct R13 as [r1 r2 r3 r4 r5 r6]. split; [|exact r2|exact r3|exact r4|exact r5|exact r6]. cbn.
      replace (add_page A (root s) v g) with A13 by (by destruct A).
      replace ∅ with (delete (root s, v) ({[(root s, v) := (f, rw)]} : gmap (Z * Z) (Z * bool))) by apply delete_singleton_eq.
      apply (acct_unshare A13 _ _ (root s, v) f rw r1); [apply lookup_singleton_eq|done].
    + intros h Hh. eapply same_frame_trans; [apply K6|apply H613]; [done|intros ->; done|by apply Hds].
    + intros o Ho. cbn. rewrite (H613 g Hns o Ho). by apply Hb6.
Qed.
