(* ===== verification/PageClone.v ===== *)
(** The clone of an address space: [clone_crt_page_dir] gives a directory whose
    pages are those of the current one, shared and read-only on both sides. *)
From S2P Require Import Prelude Memory BitMap Page PageMem PageSpec PageOps PageMap PageCow.

(** ** Entries written through a temporary mapping *)
Section window.
Context (s : vm) (A : space) (T : gmap Z Z) (N : gmap (Z * Z) (Z * bool)) (P : Z -> Prop) (v g : Z).
Context (R : vmrel s A T N P) (HT : T !! v = Some g) (HP : ~ P v) (Hg : ~ structural A g).

Lemma win_points j : 0 <= j < 1024 -> points (pm s) (root s) (v * 4096 + 4 * j) g (4 * j) /\ (v * 4096 + 4 * j) / 4096 = v /\ 0 <= v < 2 ^ 20.
Proof.
  intros Hj. destruct (temp_pdi v (t_temp _ _ _ (v_tables _ _ _ _ _ R) _ _ HT)) as (_ & _ & Hv).
  split; [|split; [zdiv|done]]. apply points_page; [by eapply points_temp|lia|lia].
Qed.

Lemma win_apart j : 0 <= j < 1024 -> ~ through (pm s) (root s) g j v.
Proof.
  intros Hj Hth. destruct (win_points j Hj) as (_ & _ & Hv). apply Hg.
  eapply via_structural; [exact R|exact Hv|by eapply through_via].
Qed.

Lemma win_upd_rel j w m t : 0 <= j < 1024 -> upd (pm s) g j w m ->
  tlb_fresh t m (root s) (fun u => P u \/ (is_Some (tlb s u) /\ through (pm s) (root s) g j u)) ->
  vmrel (mt s m t) A T N P.
Proof.
  intros Hj U Ht. destruct R as [r1 r2 r3 r4 r5 r6]. split; try done.
  - eapply tables_frame; [exact r2|exact Hg|by eapply upd_only].
  - eapply tlb_fresh_weaken; [exact Ht|]. intros u _ [?|[[e He] Hth]]; [done|]. destruct Hg.
    eapply via_structural; [exact R| |by eapply through_via]. by destruct (r6 u e He).
Qed.

Lemma win_load j : 0 <= j < 1024 -> exists t, vload32 s (v * 4096 + 4 * j) = Ok (ent (pm s) g j, mt s (pm s) t) /\
  vmrel (mt s (pm s) t) A T N P.
Proof.
  intros Hj. destruct (win_points j Hj) as (Hpt & Ev & Hv).
  destruct (vload32_ok s _ g j P (v_tlb _ _ _ _ _ R) ltac:(by rewrite Ev) Hpt) as (t & E & Ht & _).
  exists t. split; [done|]. destruct R. by split.
Qed.

Lemma win_store j w : 0 <= j < 1024 -> word w -> exists s', vstore32 s (v * 4096 + 4 * j) w = Ok s' /\
  vmrel s' A T N P /\ same s s' /\ upd (pm s) g j w (pm s').
Proof.
  intros Hj Hw. destruct (win_points j Hj) as (Hpt & Ev & Hv). pose proof (win_apart j Hj) as Ha.
  destruct (vstore32_ok s _ g j w P (t_mem _ _ _ (v_tables _ _ _ _ _ R)) (v_tlb _ _ _ _ _ R) ltac:(by rewrite Ev) Hpt Hj Hw
    ltac:(by rewrite Ev)) as (m & t & E & U & Ht & _).
  eexists. split; [exact E|]. split; [by eapply win_upd_rel|]. done.
Qed.

Lemma win_vset j f : 0 <= j < 1024 -> word (f (ent (pm s) g j)) -> exists s', vset s (v * 4096 + 4 * j) f = Ok s' /\
  vmrel s' A T N P /\ same s s' /\ upd (pm s) g j (f (ent (pm s) g j)) (pm s').
Proof.
  intros Hj Hw. destruct (win_points j Hj) as (Hpt & Ev & Hv). pose proof (win_apart j Hj) as Ha.
  destruct (vset_ok s _ g j f P (t_mem _ _ _ (v_tables _ _ _ _ _ R)) (v_tlb _ _ _ _ _ R) ltac:(by rewrite Ev) Hpt Hj Hw
    ltac:(by rewrite Ev)) as (m & t & E & U & Ht & _).
  eexists. split; [exact E|]. split; [by eapply win_upd_rel|]. done.
Qed.

Lemma win_vset4 j fr u : 0 <= j < 1024 -> 0 <= fr < 2 ^ 20 ->
  exists s1 s2 s3 s4, vset s (v * 4096 + 4 * j) (set_present true) = Ok s1 /\
    vset s1 (v * 4096 + 4 * j) (set_rw true) = Ok s2 /\ vset s2 (v * 4096 + 4 * j) (set_user u) = Ok s3 /\
    vset s3 (v * 4096 + 4 * j) (set_frame fr) = Ok s4 /\ vmrel s4 A T N P /\ same s s4 /\
    exists w, is_entry w fr u true /\ upd (pm s) g j w (pm s4).
Proof.
  intros Hj Hw. destruct (win_points j Hj) as (Hpt & Ev & Hv). pose proof (win_apart j Hj) as Ha.
  destruct (vset4_ok s _ g j P fr u (t_mem _ _ _ (v_tables _ _ _ _ _ R)) (v_tlb _ _ _ _ _ R) ltac:(by rewrite Ev) Hpt Hj Hw
    ltac:(by rewrite Ev)) as (s1 & s2 & s3 & s4 & E1 & E2 & E3 & E4 & w & He & [Eq U Ht _]).
  exists s1, s2, s3, s4. do 4 (split; [done|]). split; [|split; [by rewrite Eq|by exists w]].
  rewrite Eq. by eapply win_upd_rel.
Qed.
End window.

(** ** Sharing the pages of a table *)

(** The page of a copy: the same frame, read-only. *)
Definition ro (o : option (Z * bool)) : option (Z * bool) := (fun p => (p.1, false)) <$> o.

Lemma ro_leaf w f rw : word w -> leaf w (Some (f, rw)) -> leaf (set_rw false w) (Some (f, false)).
Proof.
  intros Hw (H1 & H2 & H3 & H4). unfold set_rw. destruct (fields_put 1 false w ltac:(lia)) as (F1 & F2 & F3 & F4).
  by split; [|split; [|split]]; rewrite ?F1, ?F2, ?F3, ?F4.
Qed.

(** The pages of the first [j] entries of table [i] of [d] are read-only. *)
Definition shared_old (A : space) (d i j : Z) (p : gmap (Z * Z) (Z * bool)) : Prop :=
  forall k, p !! k = if decide (k.1 = d /\ 1024 * i <= k.2 < 1024 * i + j) then ro (pages A !! k) else pages A !! k.
(** These pages, counted for [e]. *)
Definition shared_new (A : space) (d e i j : Z) (N : gmap (Z * Z) (Z * bool)) : Prop :=
  forall k, N !! k = if decide (k.1 = e /\ 1024 * i <= k.2 < 1024 * i + j) then ro (pages A !! (d, k.2)) else None.

Lemma shared_old_skip A d i j p : pages A !! (d, 1024 * i + j) = None -> shared_old A d i j p -> shared_old A d i (j + 1) p.
Proof.
  intros Hn H [x v]. rewrite (H (x, v)). cbn. destruct (decide (x = d /\ v = 1024 * i + j)) as [[-> ->]|Hne].
  - rewrite decide_False by lia. rewrite Hn. by case_decide.
  - destruct (decide (x = d /\ 1024 * i <= v < 1024 * i + j)), (decide (x = d /\ 1024 * i <= v < 1024 * i + (j + 1))); done || lia.
Qed.

Lemma shared_old_step A d i j p f rw : 0 <= j -> pages A !! (d, 1024 * i + j) = Some (f, rw) -> shared_old A d i j p ->
  shared_old A d i (j + 1) (<[(d, 1024 * i + j) := (f, false)]> p).
Proof.
  intros Hj Hp H [x v]. destruct (decide ((x, v) = (d, 1024 * i + j))) as [[= -> ->]|Hne].
  - rewrite lookup_insert_eq. cbn. rewrite decide_True by lia. by rewrite Hp.
  - rewrite lookup_insert_ne by done. rewrite (H (x, v)). cbn.
    destruct (decide (x = d /\ 1024 * i <= v < 1024 * i + j)), (decide (x = d /\ 1024 * i <= v < 1024 * i + (j + 1)));
      done || (destruct Hne; f_equal; lia).
Qed.

Lemma shared_new_skip A d e i j N : pages A !! (d, 1024 * i + j) = None -> shared_new A d e i j N -> shared_new A d e i (j + 1) N.
Proof.
  intros Hn H [x v]. rewrite (H (x, v)). cbn. destruct (decide (v = 1024 * i + j)) as [->|Hne].
  - rewrite decide_False by lia. rewrite Hn. by case_decide.
  - destruct (decide (x = e /\ 1024 * i <= v < 1024 * i + j)), (decide (x = e /\ 1024 * i <= v < 1024 * i + (j + 1))); done || lia.
Qed.

Lemma shared_new_step A d e i j N f rw : 0 <= j -> pages A !! (d, 1024 * i + j) = Some (f, rw) -> shared_new A d e i j N ->
  shared_new A d e i (j + 1) (<[(e, 1024 * i + j) := (f, false)]> N).
Proof.
  intros Hj Hp H [x v]. destruct (decide ((x, v) = (e, 1024 * i + j))) as [[= -> ->]|Hne].
  - rewrite lookup_insert_eq. cbn. rewrite decide_True by lia. by rewrite Hp.
  - rewrite lookup_insert_ne by done. rewrite (H (x, v)). cbn.
    destruct (decide (x = e /\ 1024 * i <= v < 1024 * i + j)), (decide (x = e /\ 1024 * i <= v < 1024 * i + (j + 1)));
      done || (destruct Hne; f_equal; lia).
Qed.

(** The entry of a page of the current address space becomes read-only; its kept
    translation is not flushed yet. *)
Lemma make_readonly s A T N (P : Z -> Prop) v f rw t : vmrel s A T N P -> windows_ok A (root s) P -> P v ->
  pages A !! (root s, v) = Some (f, rw) -> tbl A !! (root s, v / 1024) = Some t ->
  exists s1, vset s (pte_at v) (set_rw false) = Ok s1 /\ same s s1 /\
    vmrel s1 (with_pages A (<[(root s, v) := (f, false)]> (pages A))) T N P /\
    forall h, h <> t -> same_frame (pm s) (pm s1) h.
Proof.
  intros R HW HPv Hp Ht.
  destruct (entry_premises s A T N P v f rw R HW Hp t Ht) as (Hm & Hl & HP & Hpt & Hj & Hth & Hx).
  destruct (page_table _ _ _ _ _ R v f rw Hp) as (t' & Ht' & Hv & He & _). rewrite Ht in Ht'. injection Ht' as <-.
  destruct (pdi_range v ltac:(by apply user_page_pdi)) as (Hi & _ & Ev).
  assert (Hw : word (ent (pm s) t (v mod 1024))) by (by apply ent_word).
  destruct (vset_chain s (pte_at v) t (v mod 1024) (set_rw false) P Hm Hl HP Hpt Hj) as (s1 & E & [Eq U Htl _]); [|done|].
  { apply setters_word; [left; exists false; auto|done]. }
  exists s1. split; [done|]. assert (S : same s s1) by (rewrite Eq; done). split; [done|].
  pose proof (same_root _ _ S) as Er.
  destruct (leaf_state s A T N P (root s) (v / 1024) t (v mod 1024) (set_rw false (ent (pm s) t (v mod 1024)))
    (Some (f, false)) (<[(root s, v) := (f, false)]> (pages A)) s1 R S Ht Hj U) as [Tb K].
  - by eapply ro_leaf.
  - rewrite <- Ev. apply lookup_insert_eq.
  - intros x Hne. rewrite <- Ev in Hne. by apply lookup_insert_ne.
  - split; [|intros h Hh; by eapply upd_same_frame].
    destruct R as [r1 r2 r3 r4 r5 r6]. split; rewrite ?Er; [|exact Tb|exact r3|by rewrite Eq|by rewrite Eq|].
    + rewrite Eq. by eapply acct_rw.
    + eapply tlb_fresh_weaken; [exact Htl|]. intros u _ [?|[[e Hu] Htu]]; [done|].
      rewrite (Hx u); [done| |done]. by destruct (r6 u e Hu).
Qed.

Section share.
Context (s : vm) (A : space) (T : gmap Z Z) (i t t' e : Z).
Context (HT : T !! 0xFFFFE = Some t') (Ht : tbl A !! (root s, i) = Some t).
Context (Hns : ~ structural A t') (Hne : e <> root s) (He : 0 <= e < 8192).

Definition share_stale (u : Z) : Prop := gone A (root s) u \/ 1024 * i <= u < 1024 * i + 1024.

Record share_inv (j : Z) (s' : vm) (p N : gmap (Z * Z) (Z * bool)) : Prop := {
  si_same : same s s';
  si_rel : vmrel s' (with_pages A p) T N share_stale;
  si_old : shared_old A (root s) i j p;
  si_new : shared_new A (root s) e i j N;
  si_leaf k : 0 <= k < 1024 -> leaf (ent (pm s') t' k)
    (if decide (k < j) then ro (pages A !! (root s, 1024 * i + k)) else pages A !! (root s, 1024 * i + k));
  si_frames h : h <> t -> h <> t' -> same_frame (pm s) (pm s') h
}.

Lemma share_windows p N l (R : acct (with_pages A p) N l) : windows_ok (with_pages A p) (root s) share_stale.
Proof.
  intros k Hk [Hg|Hr]; [by apply (gone_windows_ok A (root s) k)|].
  destruct (a_tbl _ _ _ R _ _ _ Ht) as (Hi & _). unfold user_pdi in Hi. unfold wpage in Hr.
  destruct Hk as [->|[Hk|[x Hk]]]; [lia|unfold kernel_pdi in Hk; lia|].
  destruct (a_tbl _ _ _ R _ _ _ Hk) as (Hk' & _). unfold user_pdi in Hk'. lia.
Qed.

Definition share_body (j : Z) (s : vm) : res vm :=
  let crt_pte := PAGE_TABLES_VIRTUAL + i * PAGE_SIZE + 4 * j in
  let new_pte := COPIED_PAGE_TABLE_VADDR + 4 * j in
  let! (w, s) := vload32 s new_pte in
  if negb (pte_present w) then Ok s
  else
    let! s := vset s crt_pte (set_rw false) in
    let! s := vset s new_pte (set_rw false) in
    let! (w, s) := vload32 s new_pte in
    inc_cow_ref s (pte_frame w).

Lemma share_step j s1 p N : unlocked s -> 0 <= j < 1024 -> share_inv j s1 p N ->
  exists s2 p2 N2, share_body j s1 = Ok s2 /\ share_inv (j + 1) s2 p2 N2.
Proof.
  intros Hl Hj [S R Ho Hn Hlf Hfr]. pose proof (same_root _ _ S) as Er. set (v := 1024 * i + j).
  pose proof (v_acct _ _ _ _ _ R) as Ac. destruct (a_tbl _ _ _ Ac _ _ _ Ht) as (Hi & _).
  unfold user_pdi in Hi. assert (Hv : user_page v) by (unfold user_page, v; lia).
  assert (HPt : ~ share_stale 0xFFFFE).
  { intros [(k & Hk & Hw & _)|Hk]; [|lia]. unfold user_pdi, wpage in *. lia. }
  unfold share_body. change COPIED_PAGE_TABLE_VADDR with (0xFFFFE * 4096).
  destruct (win_load s1 _ T N share_stale _ t' R HT HPt j Hj) as (t1 & -> & R1). cbn [res_bind].
  pose proof (Hlf j Hj) as Hj0. rewrite decide_False in Hj0 by lia. fold v in Hj0.
  destruct (pages A !! (root s, v)) as [[f rw]|] eqn:Ep; cbn [leaf] in Hj0.
  - assert (Htt : t' <> t) by (intros ->; apply Hns; right; right; by exists (root s, i)).
    assert (Hpv : p !! (root s, v) = Some (f, rw)).
    { rewrite (Ho (root s, v)), decide_False by (cbn; unfold v; lia). done. }
    replace (PAGE_TABLES_VIRTUAL + i * PAGE_SIZE + 4 * j) with (pte_at v) by (unfold pte_at, PAGE_SIZE, v; lia).
    destruct Hj0 as (Hpr & Hfw & Hus & Hrw). rewrite Hpr. cbn [negb].
    assert (Hvi : v / 1024 = i) by (unfold v; zdiv).
    destruct (make_readonly (mt s1 (pm s1) t1) (with_pages A p) T N share_stale v f rw t R1) as (s2 & -> & S2 & R2 & F2).
    { change (root (mt s1 (pm s1) t1)) with (root s1). rewrite Er. eapply share_windows.
      exact Ac. }
    1-3: change (root (mt s1 (pm s1) t1)) with (root s1); rewrite ?Er, ?Hvi; done || (right; unfold v; lia).
    cbn [res_bind]. change (root (mt s1 (pm s1) t1)) with (root s1) in R2. rewrite Er in R2.
    set (p2 := <[(root s, v) := (f, false)]> p) in *.
    change (vmrel s2 (with_pages A p2) T N share_stale) in R2.
    assert (Hw1 : word (ent (pm s1) t' j)) by (apply ent_word, (t_mem _ _ _ (v_tables _ _ _ _ _ R))).
    assert (Ew : ent (pm s2) t' j = ent (pm s1) t' j) by (by apply same_frame_ent; [apply F2|]).
    destruct (win_vset s2 _ T N share_stale _ t' R2 HT HPt Hns j (set_rw false) Hj) as (s3 & -> & R3 & S3 & U3).
    { rewrite Ew. apply setters_word; [left; exists false; auto|done]. }
    cbn [res_bind]. rewrite Ew in U3.
    destruct (win_load s3 _ T N share_stale _ t' R3 HT HPt j Hj) as (t4 & -> & R4). cbn [res_bind].
    set (s4 := mt s3 (pm s3) t4) in *. rewrite (upd_eq _ _ _ _ _ U3).
    pose proof (ro_leaf _ f rw Hw1 (conj Hpr (conj Hfw (conj Hus Hrw)))) as Hro. destruct Hro as (Hro1 & Hro2 & Hro3 & Hro4).
    rewrite Hro2.
    assert (S4 : same s s4) by (exact (same_trans _ _ _ (same_trans _ s1 _ S eq_refl) (same_trans _ _ _ S2 (same_trans _ _ s4 S3 eq_refl)))).
    pose proof (v_acct _ _ _ _ _ R4) as Ac4.
    assert (Hp2 : pages (with_pages A p2) !! (root s, v) = Some (f, false)) by apply lookup_insert_eq.
    destruct (page_uses _ _ _ Ac4 _ _ _ _ Hp2) as (Hk0 & Hkp0 & Htb0 & Hu1 & Hrf).
    destruct (a_page _ _ _ Ac4 _ _ _ _ Hp2) as (_ & Hf & _).
    pose proof (refs_bound _ _ _ Ac4 f) as Hb. pose proof (uses_nonneg fst N f) as Hun.
    rewrite (inc_cow_ref_ok s4 f (refs (with_pages A p2) f + uses fst N f));
      [|by eapply same_unlocked|apply (a_len _ _ _ Ac4)|done|by apply (a_ref _ _ _ Ac4)|lia].
    eexists _, p2, (<[(e, v) := (f, false)]> N). split; [reflexivity|]. split.
    + eapply same_trans; [exact S4|done].
    + destruct R4 as [r1 r2 r3 r4 r5 r6]. split; [|exact r2|exact r3|exact r4|exact r5|exact r6].
      apply (acct_share _ _ _ e v f false r1); [|done|done|].
      * rewrite (Hn (e, v)). rewrite decide_False; [done|]. cbn. unfold v. lia.
      * intros d' v' rw' HN. rewrite (Hn (d', v')) in HN. cbn in HN. case_decide as Hd; [|done].
        destruct (pages A !! (root s, v')) as [[f' rw'']|] eqn:Ep'; [|done]. cbn in HN. injection HN as ->.
        assert (Hpo : p2 !! (root s, v') = Some (f, false)).
        { unfold p2. rewrite lookup_insert_ne by (unfold v; intros [=]; lia).
          rewrite (Ho (root s, v')), decide_True by (cbn; lia). by rewrite Ep'. }
        exact (a_vpn _ _ _ Ac4 _ _ _ _ _ _ _ Hpo Hp2).
    + unfold p2, v. eapply shared_old_step; [lia|exact Ep|done].
    + unfold v. eapply shared_new_step; [lia|exact Ep|done].
    + intros k Hk. change (pm (with_frames s4 _ _)) with (pm s3). destruct (decide (k = j)) as [->|Hkj].
      * rewrite decide_True by lia. fold v. rewrite Ep, (upd_eq _ _ _ _ _ U3). done.
      * rewrite (upd_ent_ne _ _ _ _ _ _ _ U3) by auto.
        rewrite (same_frame_ent (pm s1) (pm s2) t' k) by (done || by apply F2).
        pose proof (Hlf k Hk) as H. destruct (decide (k < j)), (decide (k < j + 1)); done || lia.
    + intros h Hh1 Hh2. change (pm (with_frames s4 _ _)) with (pm s3).
      eapply same_frame_trans; [by apply Hfr|]. eapply same_frame_trans; [by apply F2|].
      by eapply upd_same_frame.
  - rewrite Hj0. cbn [negb]. exists (mt s1 (pm s1) t1), p, N. split; [done|]. split; try done.
    + exact (same_trans _ s1 _ S eq_refl).
    + by apply shared_old_skip.
    + by apply shared_new_skip.
    + intros k Hk. destruct (decide (k = j)) as [->|]; [|].
      * rewrite decide_True by lia. fold v. rewrite Ep. done.
      * pose proof (Hlf k Hk) as H. destruct (decide (k < j)), (decide (k < j + 1)); done || lia.
Qed.

Lemma share_table_ok : vmrel s A T ∅ (gone A (root s)) -> unlocked s ->
  (forall k, 0 <= k < 1024 -> leaf (ent (pm s) t' k) (pages A !! (root s, 1024 * i + k))) ->
  exists s' p N, share_table s COPIED_PAGE_TABLE_VADDR i = Ok s' /\ share_inv 1024 s' p N.
Proof.
  intros R Hl Hlf. unfold share_table. fold share_body.
  destruct (for_loop_inv (fun j s' => exists p N, share_inv j s' p N) 1024 0 share_body s) as (s' & E & p & N & H).
  - exists (pages A), ∅. split.
    + apply same_refl.
    + rewrite with_pages_self. eapply vmrel_weaken; [exact R|]. intros u _ Hu. by left.
    + intros k. by rewrite decide_False by lia.
    + intros k. by rewrite decide_False by lia.
    + intros k Hk. rewrite decide_False by lia. by apply Hlf.
    + intros h _ _. apply same_frame_refl.
  - intros j s1 Hj (p & N & H). destruct (share_step j s1 p N) as (s2 & p2 & N2 & E & H2); [done|lia|done|eauto].
  - exists s', p, N. split; [exact E|exact H].
Qed.
End share.

(** ** A table of the copy *)

(** The entries of the directory [d] that the maps name for it. *)
Record dir_of (A : space) (d : Z) (m : mem) : Prop := {
  do_self : pte_present (ent m d 0) = false /\ pte_present (ent m d 769) = true /\ pte_frame (ent m d 769) = d;
  do_user i : user_pdi i -> match tbl A !! (d, i) with
    | None => pte_present (ent m d i) = false
    | Some t => is_entry (ent m d i) t true true
    end;
  do_kernel i : kernel_pdi i -> pte_present (ent m d i) = true /\ pte_frame (ent m d i) = ktbl A i
}.

Lemma dir_of_same A A' d m m' : same_frame m m' d -> (forall i, tbl A' !! (d, i) = tbl A !! (d, i)) ->
  ktbl A' = ktbl A -> dir_of A d m -> dir_of A' d m'.
Proof.
  intros H Ht Hk [D1 D2 D3]. split.
  - by rewrite !(same_frame_ent m m') by (done || lia).
  - intros i Hi. rewrite Ht, (same_frame_ent m m') by (done || auto with cmem). by apply D2.
  - intros i Hi. rewrite Hk, (same_frame_ent m m') by (done || auto with cmem). by apply D3.
Qed.

(** A directory under construction. *)
Record new_dir (A : space) (d : Z) : Prop := {
  nd_range : 0 < d < 8192;
  nd_kern : 1 <= kern A d;
  nd_kpages : uses id (kpages A) d = 0;
  nd_root : d ∉ roots A;
  nd_ktbl i : kernel_pdi i -> d <> ktbl A i
}.

Lemma new_dir_not_structural A N l d : acct A N l -> new_dir A d -> ~ structural A d /\ ~ data_frame A d.
Proof.
  intros Ac [Hr Hk Hkp Hroot Hkt]. split.
  - intros [?|[(i & Hi & ->)|[[x i] Ht]]]; [done|by apply (Hkt i Hi)|].
    pose proof (a_tbl _ _ _ Ac _ _ _ Ht) as (_ & _ & _ & Hz & _). lia.
  - by eapply kern_not_data.
Qed.

(** The round of the loop over table [i]: the copy has a table for it when the
    current address space has one, and the pages of the table are shared. *)
Record round (A : space) (d e i : Z) (A' : space) : Prop := {
  rd_roots : roots A' = roots A;
  rd_ktbl : ktbl A' = ktbl A;
  rd_kpages : kpages A' = kpages A;
  rd_kern x : kern A' x = kern A x;
  rd_tbl : match tbl A !! (d, i) with
    | None => tbl A' = tbl A
    | Some _ => exists t, tbl A' = <[(e, i) := t]> (tbl A)
    end;
  rd_pages k : pages A' !! k = if decide (k.2 / 1024 = i /\ (k.1 = d \/ k.1 = e)) then ro (pages A !! (d, k.2)) else pages A !! k
}.

Lemma div_block v i : v / 1024 = i <-> 1024 * i <= v < 1024 * i + 1024.
Proof. split; intros; zdiv. Qed.

(** The table of a copy is linked in the directory under construction. *)
Lemma tables_link A T m e i t p : tables A T m -> tbl A !! (e, i) = None -> e ∉ roots A ->
  (forall k, 0 <= k < 1024 -> leaf (ent m t k) (p !! (e, 1024 * i + k))) ->
  (forall k, (k.1, k.2 / 1024) <> (e, i) -> p !! k = pages A !! k) ->
  tables (with_pages (with_tbl A (<[(e, i) := t]> (tbl A))) p) T m.
Proof.
  intros [t1 t2 t3 t4 t5 t6 t7] Hn He Hlf Hp. split; cbn; try done.
  - intros d j Hd Hj. rewrite lookup_insert_ne by (intros [= -> ->]; done). by apply t3.
  - intros d j x k Hx Hk. destruct (decide ((d, j) = (e, i))) as [[= -> ->]|Hne].
    + rewrite lookup_insert_eq in Hx. injection Hx as <-. by apply Hlf.
    + rewrite lookup_insert_ne in Hx by done. rewrite Hp; [by eapply t5|]. cbn.
      replace ((1024 * j + k) / 1024) with j by zdiv. done.
Qed.

Lemma dir_of_link A A' e i t m m' w : dir_of A e m -> upd m e i w m' -> is_entry w t true true -> user_pdi i ->
  tbl A' = <[(e, i) := t]> (tbl A) -> ktbl A' = ktbl A -> dir_of A' e m'.
Proof.
  intros [D1 D2 D3] U He Hi Et Ek. unfold user_pdi in Hi.
  assert (H : forall j, 0 <= j < 1024 -> j <> i -> ent m' e j = ent m e j).
  { intros j Hj Hne. eapply upd_ent_ne; [exact U|lia|done|by right]. }
  split.
  - rewrite !H by lia. done.
  - intros j Hj. rewrite Et. destruct (decide (j = i)) as [->|Hne].
    + rewrite lookup_insert_eq, (upd_eq _ _ _ _ _ U). done.
    + rewrite lookup_insert_ne by congruence. rewrite H by auto with cmem. by apply D2.
  - intros j Hj. rewrite Ek, H by (auto with cmem || (unfold kernel_pdi in Hj; lia)). by apply D3.
Qed.

Lemma clone_table_none A N l d e i : acct A N l -> tbl A !! (d, i) = None -> tbl A !! (e, i) = None -> round A d e i A.
Proof.
  intros Ac Hd He. split; try done; [by rewrite Hd|]. intros [x v]. cbn.
  assert (H : forall y, tbl A !! (y, i) = None -> v / 1024 = i -> pages A !! (y, v) = None).
  { intros y Hy Hv. destruct (pages A !! (y, v)) as [[f rw]|] eqn:Ep; [|done].
    destruct (a_page _ _ _ Ac _ _ _ _ Ep) as ([t Ht] & _). congruence. }
  case_decide as Hc; [|done]. destruct Hc as [Hv [-> | ->]]; rewrite !H by done; done.
Qed.

(** The table is copied to the frame [t'], and its pages are shared. *)
Lemma copy_table s A T N P i t t' : vmrel s A T N P -> windows_ok A (root s) P -> ~ P 0xFFFFE ->
  T !! 0xFFFFE = None -> tbl A !! (root s, i) = Some t -> 0 < t' < 8192 -> ~ structural A t' ->
  exists s1 s', map_page_with_frame_impl s COPIED_PAGE_TABLE_VADDR t' = Ok s1 /\
    vmemcpy s1 COPIED_PAGE_TABLE_VADDR (PAGE_TABLES_VIRTUAL + i * PAGE_SIZE) PAGE_SIZE = Ok s' /\
    vmrel s' A (<[0xFFFFE := t']> T) N P /\ same s s' /\
    (forall h, ~ structural A h -> h <> t' -> same_frame (pm s) (pm s') h) /\
    forall k, 0 <= k < 1024 -> leaf (ent (pm s') t' k) (pages A !! (root s, 1024 * i + k)).
Proof.
  intros R HW HPt HT Ht Hr Hns. pose proof (v_acct _ _ _ _ _ R) as Ac. destruct (a_tbl _ _ _ Ac _ _ _ Ht) as (Hi & _).
  destruct (map_temp s A T N P 0xFFFFE t' R HW) as (s1 & E1 & S1 & R1 & O1 & _); [unfold temp; lia|done|lia|].
  pose proof (same_root _ _ S1) as Er. change COPIED_PAGE_TABLE_VADDR with (0xFFFFE * 4096).
  destruct (user_table _ _ _ _ _ R1 i t ltac:(by rewrite Er)) as (Hd & Hdf & _).
  pose proof (user_pdi_range _ Hi) as Hir. unfold user_pdi in Hi.
  pose proof (points_pte _ _ _ _ _ R1 (1024 * i) t ltac:(lia)) as Hpt. replace (1024 * i / 1024) with i in Hpt by zdiv.
  replace (1024 * i mod 1024) with 0 in Hpt by zdiv. specialize (Hpt Hd Hdf).
  replace (pte_at (1024 * i)) with (PAGE_TABLES_VIRTUAL + i * PAGE_SIZE) in Hpt by (unfold pte_at, PAGE_SIZE; lia).
  assert (Hwp : (PAGE_TABLES_VIRTUAL + i * PAGE_SIZE) / 4096 = wpage i) by (unfold PAGE_TABLES_VIRTUAL, PAGE_SIZE, wpage; zdiv).
  assert (Htt : t <> t') by (intros ->; apply Hns; right; right; eauto).
  destruct (vmemcpy_ok s1 (0xFFFFE * 4096) (PAGE_TABLES_VIRTUAL + i * PAGE_SIZE) t' t P) as (s' & E2 & C & Hb).
  - apply (t_mem _ _ _ (v_tables _ _ _ _ _ R1)).
  - apply R1.
  - rewrite Hwp. split; [intros ->; apply Hns; left; rewrite Er; apply R|].
    intros u Hu. assert (~ P u /\ 0 <= u < 2 ^ 20) as [HPu Hur].
    { apply elem_of_cons in Hu as [->|Hu]; [done|]. apply list_elem_of_singleton in Hu as ->.
      split; [apply HW; right; right; by eexists|by apply wpage_div]. }
    split; [done|]. intros Hvia. apply Hns. by eapply (via_structural _ _ _ _ _ R1).
  - eapply points_temp; [exact R1|]. apply lookup_insert_eq.
  - exact Hpt.
  - done.
  - lia.
  - unfold PAGE_TABLES_VIRTUAL, PAGE_SIZE. lia.
  - destruct (page_chain_rel _ _ _ _ _ R1 t' _ s' C Hns) as (R2 & S2 & K2).
    exists s1, s'. split; [done|]. split; [done|]. split; [done|]. split; [by eapply same_trans|]. split.
    + intros h Hh Hne. eapply same_frame_trans; [|by apply K2]. eapply only_frame_same; [exact O1|].
      intros ->. apply Hh. right; left. exists 1023. split; [unfold kernel_pdi; lia|done].
    + intros k Hk. replace (ent (pm s') t' k) with (ent (pm s1) t k).
      * apply (t_leaf _ _ _ (v_tables _ _ _ _ _ R1)); [done|done].
      * unfold ent, load32. rewrite <- !Z.add_assoc, !Hb by lia. done.
Qed.

(** The maps after table [i] of [d] was shared: [p] and [N] as the loop leaves them. *)
Lemma round_link A d e i t p N : pages A ##ₘ N -> d <> e -> is_Some (tbl A !! (d, i)) -> kern A t = 0 ->
  shared_old A d i 1024 p -> shared_new A d e i 1024 N -> (forall v, v / 1024 = i -> pages A !! (e, v) = None) ->
  round A d e i (set_kern (with_pages (with_tbl (set_kern A t 1) (<[(e, i) := t]> (tbl A))) (p ∪ N)) t 0).
Proof.
  intros Hdis Hne [t0 Ht] Hk Ho Hn He. split; cbn; try done.
  - intros x. destruct (decide (x = t)); [by subst|done].
  - rewrite Ht. by exists t.
  - intros [x v]. rewrite lookup_union, (Ho (x, v)), (Hn (x, v)). cbn. pose proof (div_block v i) as Hb.
    destruct (decide (v / 1024 = i)) as [Hv|Hv].
    + destruct (decide (x = d)) as [->|Hxd]; [|destruct (decide (x = e)) as [->|Hxe]].
      * rewrite decide_True, decide_False, decide_True by naive_solver. by destruct (ro _).
      * rewrite decide_False, decide_True, decide_True by naive_solver. rewrite He by done. by destruct (ro _).
      * rewrite !decide_False by naive_solver. by destruct (pages A !! _).
    + rewrite !decide_False by naive_solver. by destruct (pages A !! _).
Qed.

Lemma clone_table_ok s A T e i : vmrel s A T ∅ (gone A (root s)) -> unlocked s -> dir_unlocked s ->
  T !! 0xFFFFD = Some e -> T !! 0xFFFFE = None -> new_dir A e -> dir_of A e (pm s) -> user_pdi i ->
  tbl A !! (e, i) = None ->
  outcome (clone_table s COPIED_PAGE_DIR_VADDR COPIED_PAGE_TABLE_VADDR i) (few 0 A ∅) (fun s' => same s s' /\
    exists A', vmrel s' A' T ∅ (gone A (root s)) /\ round A (root s) e i A' /\ dir_of A' e (pm s') /\ kept A (pm s) (pm s')).
Proof.
  intros R Hl Hd HTd HTt Nd Do Hi Hei. pose proof (v_acct _ _ _ _ _ R) as Ac. pose proof (user_pdi_range _ Hi) as Hir.
  pose proof (v_root _ _ _ _ _ R) as Hr. destruct (new_dir_not_structural _ _ _ _ Ac Nd) as [Hes Hed].
  assert (Hde : root s <> e) by (intros <-; by destruct Nd).
  unfold clone_table. destruct (load_pde s A T ∅ _ i R (gone_windows_ok _ _) Hir) as (t1 & -> & R1 & _). cbn [res_bind].
  pose proof (t_user _ _ _ (v_tables _ _ _ _ _ R) _ _ Hr Hi) as Hu.
  destruct (tbl A !! (root s, i)) as [t|] eqn:Et.
  2: { rewrite Hu. cbn [negb]. right. eexists. split; [reflexivity|]. split; [done|]. exists A. split; [done|].
       split; [by eapply clone_table_none|]. split; [done|apply kept_refl]. }
  destruct Hu as (-> & _). cbn [negb]. set (s1 := mt s (pm s) t1) in *.
  destruct (with_dir_lock s1 Hd) as (s2 & -> & L2 & _ & Hun2). cbn [res_bind].
  pose proof (relocked_rel _ _ _ _ _ _ L2 R1) as R2. destruct (relocked_eq _ _ L2) as (Epm2 & _ & Er2 & _ & _ & Hl2).
  change (pm s1) with (pm s) in Epm2. change (root s1) with (root s) in Er2.
  destruct (alloc_phy_frame_ok s2 A T ∅ _ R2 (Hl2 Hl)) as [(t' & Ea & Ht' & Hz & R3)|[Ea Hfull]];
    [right|left; rewrite Ea; split; [done|by apply few_none]].
  rewrite Ea. cbn [res_bind]. set (s3 := with_frames s2 _ t') in *.
  destruct (taken_apart _ _ _ t' Ac Hz) as (Hns & Hnd & Hnr & Hnk & Hk0 & Hkp & Htb & Hpg & _).
  assert (Hte : t' <> e) by (intros ->; pose proof (nd_kern _ _ Nd); lia).
  assert (HnP : forall u, ~ (exists i, user_pdi i /\ u = wpage i) -> ~ gone A (root s) u) by (intros u Hu (k & ? & ? & _); eauto).
  assert (HPt : ~ gone A (root s) 0xFFFFE) by (apply HnP; intros (k & Hk & Ew); unfold wpage, user_pdi in *; lia).
  assert (HPd : ~ gone A (root s) 0xFFFFD) by (apply HnP; intros (k & Hk & Ew); unfold wpage, user_pdi in *; lia).
  destruct (copy_table s3 (set_kern A t' 1) T ∅ (gone A (root s)) i t t' R3) as (s4 & s5 & -> & E5 & R5 & S5 & F5 & Hlf).
  { change (root s3) with (root s2). rewrite Er2. exact (gone_windows_ok A (root s)). }
  1-5: change (root s3) with (root s2); rewrite ?Er2; done.
  cbn [res_bind]. rewrite E5. cbn [res_bind].
  assert (Er5 : root s5 = root s) by (rewrite (same_root _ _ S5); exact Er2).
  change (root s3) with (root s2) in Hlf. rewrite Er2 in Hlf.
  destruct (share_table_ok s5 (set_kern A t' 1) (<[0xFFFFE := t']> T) i t t' e) as (s6 & p & N & E6 & H6); rewrite ?Er5; try done.
  { apply lookup_insert_eq. }
  { pose proof (nd_range _ _ Nd). lia. }
  { eapply same_unlocked; [exact S5|]. exact (Hl2 Hl). }
  rewrite E6. cbn [res_bind]. destruct H6 as [S6 R6 Ho Hn Hlf6 F6]. rewrite Er5 in *.
  change (shared_old A (root s) i 1024 p) in Ho. change (shared_new A (root s) e i 1024 N) in Hn.
  change (pages (set_kern A t' 1)) with (pages A) in Hlf6.
  set (s7 := flush_tlb_all s6).
  assert (R7 : vmrel s7 (with_pages (set_kern A t' 1) p) (<[0xFFFFE := t']> T) N (gone A (root s))).
  { destruct R6 as [r1 r2 r3 r4 r5 r6]. split; [exact r1|exact r2|exact r3|exact r4|exact r5|apply tlb_fresh_none]. }
  assert (S27 : same s2 s7) by exact (same_trans _ _ _ (same_trans _ s3 _ eq_refl S5) (same_trans _ _ s7 S6 eq_refl)).
  destruct (Hun2 s7 S27) as [L8 S8]. set (s8 := unlock_dir s7) in *.
  pose proof (relocked_rel _ _ _ _ _ _ L8 R7) as R8. destruct (relocked_eq _ _ L8) as (Epm8 & _).
  change (pm s7) with (pm s6) in Epm8. assert (S08 : same s s8) by exact S8. pose proof (same_root _ _ S08) as Er8.
  change (COPIED_PAGE_DIR_VADDR) with (0xFFFFD * 4096).
  assert (Hes8 : ~ structural (with_pages (set_kern A t' 1) p) e) by exact Hes.
  destruct (win_vset4 s8 _ _ _ (gone A (root s)) 0xFFFFD e R8 ltac:(by rewrite lookup_insert_ne) HPd Hes8 i t' true Hir ltac:(lia))
    as (s9 & s10 & s11 & s12 & E9 & E10 & E11 & E12 & R12 & S12 & w & Hw & U).
  rewrite E9; cbn [res_bind]; rewrite E10; cbn [res_bind]; rewrite E11; cbn [res_bind]; rewrite E12; cbn [res_bind].
  assert (S012 : same s s12) by (by eapply same_trans). pose proof (same_root _ _ S012) as Er12.
  assert (Hempty : forall v, v / 1024 = i -> pages A !! (e, v) = None).
  { intros v Hv. destruct (pages A !! (e, v)) as [[f rw]|] eqn:Ep; [|done].
    destruct (a_page _ _ _ Ac _ _ _ _ Ep) as ([x Hx] & _). congruence. }
  assert (Hemptyp : forall v, v / 1024 = i -> p !! (e, v) = None).
  { intros v Hv. rewrite (Ho (e, v)), decide_False by (cbn; naive_solver). by apply Hempty. }
  assert (HNk : forall k x, N !! k = Some x -> exists v, k = (e, v) /\ v / 1024 = i /\ ro (pages A !! (root s, v)) = Some x).
  { intros [a v] x Hx. rewrite (Hn (a, v)) in Hx. cbn in Hx. case_decide as Hc; [|done]. destruct Hc as [-> Hv].
    exists v. rewrite div_block. done. }
  set (A12 := set_kern (with_pages (with_tbl (set_kern A t' 1) (<[(e, i) := t']> (tbl A))) (p ∪ N)) t' 0).
  assert (R12' : vmrel s12 A12 (<[0xFFFFE := t']> T) ∅ (gone A (root s))).
  { destruct R12 as [r1 r2 r3 r4 r5 r6]. split; [| |exact r3|exact r4|exact r5|exact r6].
    - apply (acct_link _ N _ e i t' r1); try done; cbn; try lia.
      + pose proof (nd_range _ _ Nd). lia.
      + by rewrite decide_True.
      + apply uses_zero. intros k [f rw] Hk E. cbn in E. subst f. rewrite (Ho k) in Hk.
        assert (exists rw', pages A !! k = Some (t', rw')) as [rw' Hk'].
        { case_decide; [|eauto]. destruct (pages A !! k) as [[f rw']|]; [|done]. injection Hk as -> _. eauto. }
        by destruct (proj1 (uses_zero fst (pages A) t') Hpg k _ Hk').
      + intros k x Hx. destruct (HNk k x Hx) as (v & -> & Hv & Hro). exists v, (root s).
        destruct (pages A !! (root s, v)) as [[f rw]|] eqn:Ep; [|done]. injection Hro as <-.
        exists false. split; [done|]. split; [done|]. cbn. rewrite (Ho (root s, v)), decide_True by (cbn; rewrite <- div_block; done).
        by rewrite Ep.
    - eapply tables_eq; [..|apply (tables_link _ _ _ e i t' (p ∪ N) r2)]; try done.
      + apply Nd.
      + intros k Hk. cbn. rewrite (upd_ent_ne _ _ _ _ _ _ _ U) by (done || by left). rewrite Epm8.
        pose proof (Hlf6 k Hk) as H. rewrite decide_True in H by lia. cbn in H.
        rewrite lookup_union_r by (apply Hemptyp; zdiv). rewrite (Hn (e, 1024 * i + k)). cbn. by rewrite decide_True by lia.
      + intros [a v] Hk. cbn in Hk |- *. apply lookup_union_l. destruct (N !! (a, v)) as [x|] eqn:Ex; [|done].
        destruct (HNk _ _ Ex) as (v' & [= -> ->] & Hv & _). by destruct Hk; f_equal. }
  assert (Hdisj : pages A ##ₘ N).
  { apply map_disjoint_spec. intros k x y Hx Hy. destruct (HNk k y Hy) as (v & -> & Hv & _). by rewrite Hempty in Hx. }
  assert (Hfr : forall h, ~ structural A h -> h <> t' -> same_frame (pm s) (pm s6) h).
  { intros h Hh Hne. eapply same_frame_trans; [|apply F6; [|done]].
    - rewrite <- Epm2. by apply F5.
    - intros ->. apply Hh. right; right. by exists (root s, i). }
  destruct (release_temp_pages s12 _ _ _ _ 0xFFFFE t' R12') as (s13 & E13 & S13 & R13 & F13 & _).
  { rewrite Er12. intros k Hk. apply (gone_windows_ok A (root s) k). cbn in Hk.
    rewrite lookup_insert_ne in Hk by congruence. done. }
  1-3: eauto using same_unlocked, same_dir_unlocked || apply lookup_insert_eq.
  change COPIED_PAGE_TABLE_VADDR with (0xFFFFE * 4096). rewrite E13. cbn [res_bind].
  rewrite delete_insert_id in R13 by done.
  eexists. split; [reflexivity|]. split; [by eapply same_trans|]. exists A12.
  assert (H13 : forall h, ~ structural A h -> h <> t' -> h <> e -> same_frame (pm s) (pm s13) h).
  { intros h Hh Hne1 Hne2. eapply same_frame_trans; [by apply Hfr|]. rewrite <- Epm8.
    eapply same_frame_trans; [by eapply upd_same_frame|]. eapply only_frame_same; [exact F13|].
    intros ->. apply Hh. right; left. exists 1023. split; [unfold kernel_pdi; lia|done]. }
  split; [done|]. split; [|split].
  - apply round_link; done.
  - eapply (dir_of_same A12); [|done|done|].
    + eapply only_frame_same; [exact F13|]. apply (nd_ktbl _ _ Nd 1023). unfold kernel_pdi; lia.
    + eapply (dir_of_link A); [|exact U|exact Hw|done|done|done].
      eapply dir_of_same; [|done|done|exact Do]. rewrite Epm8. by apply Hfr.
  - intros h Hh. apply H13; [by eapply data_not_structural|intros ->; done|intros ->; done].
Qed.

(** ** The whole clone *)

(** The tables below [i] of [d] have been copied to [e]. *)
Record cloning (A : space) (d e i : Z) (A' : space) : Prop := {
  cl_roots : roots A' = roots A;
  cl_ktbl : ktbl A' = ktbl A;
  cl_kpages : kpages A' = kpages A;
  cl_kern x : kern A' x = kern A x;
  cl_old k : k.1 <> e -> tbl A' !! k = tbl A !! k;
  cl_new j : is_Some (tbl A' !! (e, j)) <-> is_Some (tbl A !! (d, j)) /\ j < i;
  cl_pages k : pages A' !! k = if decide (k.2 / 1024 < i /\ (k.1 = d \/ k.1 = e)) then ro (pages A !! (d, k.2)) else pages A !! k
}.

Lemma ro_ro o : ro (ro o) = ro o.
Proof. by destruct o as [[f rw]|]. Qed.

Lemma cloning_start A N l d e : acct A N l -> (forall j, tbl A !! (e, j) = None) -> cloning A d e 1 A.
Proof.
  intros Ac He. split; try done.
  - intros j. rewrite He. split; [by intros []|]. intros [[t Ht] Hj].
    destruct (a_tbl _ _ _ Ac _ _ _ Ht) as (Hi & _). unfold user_pdi in Hi. lia.
  - intros [x v]. cbn. case_decide as Hc; [|done]. destruct Hc as [Hv Hx].
    assert (H : forall y, pages A !! (y, v) = None).
    { intros y. destruct (pages A !! (y, v)) as [[f rw]|] eqn:Ep; [|done]. destruct (a_page _ _ _ Ac _ _ _ _ Ep) as ([t Ht] & _).
      destruct (a_tbl _ _ _ Ac _ _ _ Ht) as (Hi & _). unfold user_pdi in Hi. lia. }
    by rewrite !H.
Qed.

Lemma cloning_step A d e i A1 A2 : d <> e -> cloning A d e i A1 -> round A1 d e i A2 -> cloning A d e (i + 1) A2.
Proof.
  intros Hne [C1 C2 C3 C4 C5 C6 C7] [R1 R2 R3 R4 R5 R6]. split; try congruence.
  - intros k Hk. rewrite <- C5 by done. destruct (tbl A1 !! (d, i)); [|by rewrite R5].
    destruct R5 as [t ->]. by rewrite lookup_insert_ne by (intros <-; done).
  - intros j. pose proof (C6 j) as Hj. rewrite (C5 (d, i) Hne) in R5.
    destruct (tbl A !! (d, i)) as [t|] eqn:Et.
    + destruct R5 as [t' ->]. destruct (decide (j = i)) as [->|Hji].
      * rewrite lookup_insert_eq, Et. split; [|by eexists]. intros _. split; [by eexists|lia].
      * rewrite lookup_insert_ne by congruence. rewrite Hj. split; intros []; (split; [done|lia]).
    + rewrite R5, Hj. destruct (decide (j = i)) as [->|Hji].
      * rewrite Et. split; intros [[? ?] _]; done.
      * split; intros []; (split; [done|lia]).
  - intros [x v]. rewrite (R6 (x, v)). cbn. rewrite (C7 (d, v)), (C7 (x, v)). cbn.
    destruct (decide (v / 1024 = i)) as [Hv|Hv].
    + rewrite (decide_False (P := v / 1024 < i /\ (d = d \/ _))) by lia.
      rewrite (decide_False (P := v / 1024 < i /\ (x = d \/ _))) by lia.
      destruct (decide (x = d \/ x = e)) as [Hx|Hx].
      * by rewrite !decide_True by (split; [lia|done]).
      * by rewrite !decide_False by tauto.
    + rewrite (decide_False (P := v / 1024 = i /\ _)) by tauto.
      destruct (decide (v / 1024 < i /\ (x = d \/ x = e))) as [[Hv' Hx]|Hx].
      * by rewrite decide_True by (split; [lia|done]).
      * rewrite decide_False; [done|]. intros [Hv' Hx']. apply Hx. split; [lia|done].
Qed.

(** The frames the clone has taken for tables are those of the new directory. *)
Lemma cloning_few A N l d e i A' n : acct A N l -> cloning A d e i A' -> 1 <= i -> few n A' ∅ -> few (n + Z.to_nat (i - 1)) A ∅.
Proof.
  intros Ac [C1 C2 C3 C4 C5 C6 C7] Hi (L & HL & HF). set (L2 := (fun j => default 0 (tbl A' !! (e, j))) <$> seqZ 1 (i - 1)).
  exists (L ++ L2). split.
  - unfold L2. rewrite length_app, length_fmap, length_seqZ. lia.
  - intros g [Hg Hz]. apply elem_of_app. destruct (decide (g ∈ L2)) as [|Hn]; [by right|left]. apply HF. split; [done|].
    rewrite uses_empty in *. assert (Hz' : refs A g = 0) by lia. unfold refs in Hz' |- *.
    pose proof (a_kern _ _ _ Ac g). pose proof (uses_nonneg id (kpages A) g).
    pose proof (uses_nonneg id (tbl A) g). pose proof (uses_nonneg fst (pages A) g).
    rewrite C4, C3. replace (uses id (tbl A') g) with 0; [replace (uses fst (pages A') g) with 0; [lia|]|]; symmetry; apply uses_zero.
    + intros [x v] [f rw] Hk E. cbn in E. subst f. rewrite (C7 (x, v)) in Hk. cbn in Hk.
      assert (Hp : uses fst (pages A) g = 0) by lia.
      case_decide; [|by destruct (proj1 (uses_zero fst (pages A) g) Hp _ _ Hk)].
      destruct (pages A !! (d, v)) as [[f rw']|] eqn:Ep; [|done]. injection Hk as -> _.
      by destruct (proj1 (uses_zero fst (pages A) g) Hp _ _ Ep).
    + intros [x j] t Hk E. cbn in E. subst t. destruct (decide (x = e)) as [->|Hx].
      * apply Hn. apply list_elem_of_fmap. exists j. split; [by rewrite Hk|]. apply elem_of_seqZ.
        destruct (proj1 (C6 j)) as [[t Ht] Hj]; [by eexists|]. destruct (a_tbl _ _ _ Ac _ _ _ Ht) as (Hu & _).
        unfold user_pdi in Hu. lia.
      * rewrite C5 in Hk by done. assert (Ht : uses id (tbl A) g = 0) by lia.
        by destruct (proj1 (uses_zero id (tbl A) g) Ht _ _ Hk).
Qed.

(** The kernel's half of the new directory. *)
Lemma clone_kernel_entries_ok s A T P e : vmrel s A T ∅ P -> windows_ok A (root s) P -> ~ P 0xFFFFD ->
  T !! 0xFFFFD = Some e -> new_dir A e ->
  exists s', clone_kernel_entries s COPIED_PAGE_DIR_VADDR e = Ok s' /\ vmrel s' A T ∅ P /\ same s s' /\
    (forall h, h <> e -> same_frame (pm s) (pm s') h) /\
    (forall j, 0 <= j < 768 -> ent (pm s') e j = ent (pm s) e j) /\
    (pte_present (ent (pm s') e 769) = true /\ pte_frame (ent (pm s') e 769) = e) /\
    forall j, kernel_pdi j -> pte_present (ent (pm s') e j) = true /\ pte_frame (ent (pm s') e j) = ktbl A j.
Proof.
  intros R HW HP HT Nd. destruct (new_dir_not_structural _ _ _ _ (v_acct _ _ _ _ _ R) Nd) as [Hes _].
  pose proof (nd_range _ _ Nd) as Her. unfold clone_kernel_entries. change COPIED_PAGE_DIR_VADDR with (0xFFFFD * 4096).
  set (good := fun j m => if j =? 769 then pte_present (ent m e 769) = true /\ pte_frame (ent m e 769) = e
    else pte_present (ent m e j) = true /\ pte_frame (ent m e j) = ktbl A j).
  match goal with |- context [for_loop 256 768 ?f s] => set (body := f) end.
  destruct (for_loop_inv (fun i s' => vmrel s' A T ∅ P /\ same s s' /\ (forall h, h <> e -> same_frame (pm s) (pm s') h) /\
    (forall j, 0 <= j < 768 -> ent (pm s') e j = ent (pm s) e j) /\ forall j, 768 <= j < i -> good j (pm s')) 256 768 body s)
    as (s' & E & R' & S & Hfr & Hlow & Hg).
  - split; [done|]. split; [apply same_refl|]. split; [intros; apply same_frame_refl|]. split; [done|]. intros; lia.
  - intros i s1 Hi (R1 & S & Hfr & Hlow & Hg). pose proof (same_root _ _ S) as Er.
    assert (Hstep : forall s2 w, vmrel s2 A T ∅ P -> same s s2 -> upd (pm s1) e i w (pm s2) -> (upd (pm s1) e i w (pm s2) -> good i (pm s2)) ->
      vmrel s2 A T ∅ P /\ same s s2 /\ (forall h, h <> e -> same_frame (pm s) (pm s2) h) /\
      (forall j, 0 <= j < 768 -> ent (pm s2) e j = ent (pm s) e j) /\ forall j, 768 <= j < i + 1 -> good j (pm s2)).
    { intros s2 w R2 S2 U Hgi. split; [done|]. split; [done|]. split; [|split].
      - intros h Hh. eapply same_frame_trans; [by apply Hfr|]. eapply upd_same_frame; [exact U|lia|done].
      - intros j Hj. rewrite (upd_ent_ne _ _ _ _ _ _ _ U) by lia. by apply Hlow.
      - intros j Hj. destruct (decide (j = i)) as [->|Hji]; [by apply Hgi|].
        pose proof (Hg j ltac:(lia)) as H. unfold good in *. destruct (j =? 769) eqn:Ej; bool_to_prop.
        + subst j. by rewrite !(upd_ent_ne _ _ _ _ _ _ _ U) by lia.
        + by rewrite !(upd_ent_ne _ _ _ _ _ _ _ U) by lia. }
    unfold body. destruct (i =? 769) eqn:Ei; bool_to_prop.
    + subst i. destruct (win_vset4 s1 _ _ _ P 0xFFFFD e R1 HT HP Hes 769 e false ltac:(lia) ltac:(lia))
        as (s2 & s3 & s4 & s5 & E2 & E3 & E4 & E5 & R5 & S5 & w & (Hw1 & Hw2 & _) & U).
      rewrite E2; cbn [res_bind]; rewrite E3; cbn [res_bind]; rewrite E4; cbn [res_bind].
      exists s5. split; [exact E5|]. eapply Hstep; [done|by eapply same_trans|exact U|]. intros _.
      unfold good. cbn. by rewrite (upd_eq _ _ _ _ _ U).
    + assert (Hk : kernel_pdi i) by (unfold kernel_pdi; lia).
      destruct (load_pde s1 A T ∅ P i R1) as (t & -> & R2 & _); [by rewrite Er|lia|]. cbn [res_bind].
      destruct (win_store (mt s1 (pm s1) t) A T ∅ P 0xFFFFD e R2 HT HP Hes i (ent (pm s1) (root s1) i)) as (s3 & E3 & R3 & S3 & U3); [lia|by apply ent_word, (t_mem _ _ _ (v_tables _ _ _ _ _ R1))|].
      exists s3. split; [exact E3|]. eapply Hstep; [done| |exact U3|].
      * exact (same_trans _ _ _ (same_trans _ s1 _ S eq_refl) S3).
      * intros _. unfold good. replace (i =? 769) with false by (symmetry; by apply Z.eqb_neq).
        rewrite (upd_eq _ _ _ _ _ U3). apply (t_kdir _ _ _ (v_tables _ _ _ _ _ R1)); [apply R1|done].
  - exists s'. split; [exact E|]. split; [done|]. split; [done|]. split; [done|]. split; [done|].
    split; [exact (Hg 769 ltac:(lia))|]. intros j Hj. unfold kernel_pdi in Hj. pose proof (Hg j ltac:(lia)) as H.
    unfold good in H. by replace (j =? 769) with false in H by (symmetry; apply Z.eqb_neq; lia).
Qed.

(** The directory of the copy before its tables: mapped, cleared, with the entries
    of the kernel. *)
Lemma start_dir s A T e : vmrel s A T ∅ (gone A (root s)) -> unlocked s -> dir_unlocked s -> T !! 0xFFFFD = None -> new_dir A e ->
  (forall j, tbl A !! (e, j) = None) ->
  exists s1 s2 w s3 s4 s5, map_page_with_frame s COPIED_PAGE_DIR_VADDR e = Ok s1 /\
    clear_page s1 COPIED_PAGE_DIR_VADDR = Ok s2 /\ vload32 s2 PAGE_DIR_VIRTUAL = Ok (w, s3) /\
    vstore32 s3 COPIED_PAGE_DIR_VADDR w = Ok s4 /\ clone_kernel_entries s4 COPIED_PAGE_DIR_VADDR e = Ok s5 /\
    vmrel s5 A (<[0xFFFFD := e]> T) ∅ (gone A (root s)) /\ same s s5 /\ dir_of A e (pm s5) /\ kept A (pm s) (pm s5).
Proof.
  intros R Hl Hd HT Nd Hempty. pose proof (v_acct _ _ _ _ _ R) as Ac.
  destruct (new_dir_not_structural _ _ _ _ Ac Nd) as [Hes Hed]. pose proof (nd_range _ _ Nd) as Her.
  assert (HP : ~ gone A (root s) 0xFFFFD) by (intros (k & Hk & Ew & _); unfold wpage, user_pdi in *; lia).
  change COPIED_PAGE_DIR_VADDR with (0xFFFFD * 4096).
  unfold map_page_with_frame. destruct (with_dir_lock s Hd) as (s0 & -> & L0 & _ & Hun). cbn [res_bind].
  pose proof (relocked_rel _ _ _ _ _ _ L0 R) as R0. destruct (relocked_eq _ _ L0) as (Epm0 & _ & Er0 & _).
  destruct (map_temp s0 A T ∅ (gone A (root s)) 0xFFFFD e R0) as (sa & -> & Sa & Ra & Oa & Ka).
  { rewrite Er0. apply gone_windows_ok. }
  1-3: (unfold temp; lia) || done || lia.
  cbn [res_bind]. destruct (Hun sa Sa) as [L1 S1]. set (s1 := unlock_dir sa) in *.
  pose proof (relocked_rel _ _ _ _ _ _ L1 Ra) as R1. destruct (relocked_eq _ _ L1) as (Epm1 & _). pose proof (same_root _ _ S1) as Er1.
  destruct (clear_page_ok s1 (0xFFFFD * 4096) e (gone A (root s))) as (s2 & E2 & C2 & Hz).
  { apply (t_mem _ _ _ (v_tables _ _ _ _ _ R1)). }
  { apply R1. }
  { split; [intros ->; apply Hes; left; apply R1|]. intros u Hu. apply list_elem_of_singleton in Hu as ->.
    split; [done|]. intros Hvia. apply Hes. eapply (via_structural _ _ _ _ _ R1); [|exact Hvia]. done. }
  { eapply points_temp; [exact R1|]. apply lookup_insert_eq. }
  destruct (page_chain_rel _ _ _ _ _ R1 e _ s2 C2 Hes) as (R2 & S2 & K2).
  assert (S02 : same s s2) by (by eapply same_trans). pose proof (same_root _ _ S02) as Er2.
  destruct (load_pde s2 _ _ _ _ 0 R2) as (t3 & E3 & R3 & _); [rewrite Er2; apply gone_windows_ok|lia|].
  set (s3 := mt s2 (pm s2) t3) in *. pose proof (t_root _ _ _ (v_tables _ _ _ _ _ R2) _ (v_root _ _ _ _ _ R2)) as (H0 & _).
  destruct (win_store s3 A _ ∅ _ 0xFFFFD e R3 ltac:(apply lookup_insert_eq) HP Hes 0 (ent (pm s2) (root s2) 0) ltac:(lia))
    as (s4 & E4 & R4 & S4 & U4); [by apply ent_word, (t_mem _ _ _ (v_tables _ _ _ _ _ R2))|].
  assert (S04 : same s s4) by exact (same_trans _ _ _ (same_trans _ s2 s3 S02 eq_refl) S4). pose proof (same_root _ _ S04) as Er4.
  destruct (clone_kernel_entries_ok s4 A _ _ e R4) as (s5 & E5 & R5 & S5 & F5 & Hlow & Hself & Hk); [rewrite Er4; apply gone_windows_ok|done|apply lookup_insert_eq|done|].
  exists s1, s2, (ent (pm s2) (root s2) 0), s3, s4, s5.
  split; [done|]. split; [done|]. split; [exact E3|].
  split; [by replace (0xFFFFD * 4096) with (0xFFFFD * 4096 + 4 * 0) by lia|]. split; [done|]. split; [done|].
  split; [by eapply same_trans|]. split.
  - split.
    + split; [|done]. rewrite Hlow by lia. rewrite (upd_eq _ _ _ _ _ U4). done.
    + intros j Hj. rewrite Hempty. unfold user_pdi in Hj. rewrite Hlow by lia.
      rewrite (upd_ent_ne _ _ _ _ _ _ _ U4) by lia. apply zero_frame_absent; [exact Hz|lia].
    + done.
  - intros h Hh. assert (Hhe : h <> e) by (intros ->; done).
    eapply same_frame_trans; [|eapply same_frame_trans; [by apply K2|eapply same_frame_trans; [by eapply upd_same_frame|by apply F5]]].
    rewrite Epm1, <- Epm0. by apply Ka.
Qed.

(** The clone: a new directory [e] whose pages are those of [d], and both sides
    have them read-only. *)
Record cloned (A : space) (d e : Z) (A' : space) : Prop := {
  cd_roots : roots A' = {[e]} ∪ roots A;
  cd_ktbl : ktbl A' = ktbl A;
  cd_kpages : kpages A' = kpages A;
  cd_kern x : kern A' x = if decide (x = e) then 1 else kern A x;
  cd_old k : k.1 <> e -> tbl A' !! k = tbl A !! k;
  cd_new j : is_Some (tbl A' !! (e, j)) <-> is_Some (tbl A !! (d, j));
  cd_pages k : pages A' !! k = if decide (k.1 = d \/ k.1 = e) then ro (pages A !! (d, k.2)) else pages A !! k
}.

Lemma cloning_end A N l d e A' : acct A N l -> kern A e = 0 -> (forall j, tbl A !! (e, j) = None) ->
  cloning (set_kern A e 1) d e 768 A' -> cloned A d e (with_roots A' ({[e]} ∪ roots A')).
Proof.
  intros Ac Hk He [C1 C2 C3 C4 C5 C6 C7]. cbn in *. split; cbn; try done.
  - by rewrite C1.
  - intros j. rewrite C6. split; [by intros []|]. intros [t Ht]. split; [by eexists|].
    destruct (a_tbl _ _ _ Ac _ _ _ Ht) as (Hi & _). unfold user_pdi in Hi. lia.
  - intros [x v]. rewrite (C7 (x, v)). cbn. assert (H : forall y, ~ v / 1024 < 768 -> pages A !! (y, v) = None).
    { intros y Hv. destruct (pages A !! (y, v)) as [[f rw]|] eqn:Ep; [|done]. destruct (a_page _ _ _ Ac _ _ _ _ Ep) as ([t Ht] & _).
      destruct (a_tbl _ _ _ Ac _ _ _ Ht) as (Hi & _). unfold user_pdi in Hi. lia. }
    destruct (decide (v / 1024 < 768)) as [Hv|Hv].
    + destruct (decide (x = d \/ x = e)); [by rewrite decide_True|by rewrite decide_False by tauto].
    + rewrite decide_False by tauto. case_decide; rewrite !H by done; done.
Qed.

Lemma tables_add_root A T m e : tables A T m -> dir_of A e m -> tables (with_roots A ({[e]} ∪ roots A)) T m.
Proof.
  intros [t1 t2 t3 t4 t5 t6 t7] [D1 D2 D3]. split; cbn; try done.
  - intros d [->%elem_of_singleton|Hd]%elem_of_union; [done|by apply t2].
  - intros d i [->%elem_of_singleton|Hd]%elem_of_union Hi; [by apply D2|by apply t3].
  - intros d i [->%elem_of_singleton|Hd]%elem_of_union Hi; [by apply D3|by apply t4].
Qed.

(** Every table belongs to an address space. *)
Definition closed (A : space) : Prop := forall d i, is_Some (tbl A !! (d, i)) -> d ∈ roots A.

Theorem clone_crt_page_dir_ok s A T : vmrel s A T ∅ (gone A (root s)) -> closed A ->
  unlocked s -> dir_unlocked s -> copy_unlocked s -> T !! 0xFFFFD = None -> T !! 0xFFFFE = None ->
  outcome (clone_crt_page_dir s) (few 767 A ∅) (fun '(pa, s') => same s s' /\ exists e A',
    pa = 4096 * e /\ free A ∅ e /\ e ∉ roots A /\ cloned A (root s) e A' /\
    vmrel s' A' T ∅ (gone A' (root s)) /\ kept A (pm s) (pm s')).
Proof.
  intros R Hcl Hl Hd Hc HTd HTt. pose proof (v_acct _ _ _ _ _ R) as Ac. unfold clone_crt_page_dir.
  destruct (alloc_phy_frame_ok s A T ∅ _ R Hl) as [(e & Ea & He & Hz & R1)|[Ea Hfull]].
  2: { left. rewrite Ea. split; [done|]. eapply few_le; [|by apply few_none]. lia. }
  rewrite Ea. cbn [res_bind]. set (s1 := with_frames s _ e) in *. set (A1 := set_kern A e 1) in *.
  destruct (taken_apart _ _ _ e Ac Hz) as (Hns & Hnd & Hnr & Hnk & Hk0 & Hkp & Htb & Hpg & _).
  assert (Hde : root s <> e) by (intros <-; apply Hnr, R).
  assert (Hempty : forall j, tbl A !! (e, j) = None).
  { intros j. destruct (tbl A !! (e, j)) eqn:Ej; [|done]. destruct Hnr. eapply Hcl. by eexists. }
  assert (Nd : new_dir A1 e) by (split; try done; cbn; rewrite decide_True; lia).
  destruct (with_copy_lock s1 Hc) as (s2 & -> & L2 & Ed2 & Em2 & Hun2). cbn [res_bind].
  pose proof (relocked_rel _ _ _ _ _ _ L2 R1) as R2. destruct (relocked_eq _ _ L2) as (Epm2 & _ & Er2 & _ & _ & Hl2).
  change (root s1) with (root s) in Er2. change (pm s1) with (pm s) in Epm2.
  assert (Hd2 : dir_unlocked s2) by (unfold dir_unlocked; rewrite Em2, Ed2; exact Hd).
  destruct (start_dir s2 A1 T e) as (sa & sb & w & sc & sd & s3 & -> & E1 & E2 & E3 & E4 & R3 & S3 & Do & K3); try done.
  { by rewrite Er2. }
  { exact (Hl2 Hl). }
  cbn [res_bind]. rewrite E1. cbn [res_bind]. rewrite E2. cbn [res_bind]. rewrite E3. cbn [res_bind]. rewrite E4. cbn [res_bind].
  rewrite Er2 in R3. pose proof (same_root _ _ S3) as Er3. rewrite Er2 in Er3.
  set (T1 := <[0xFFFFD := e]> T) in *. pose proof (v_acct _ _ _ _ _ R3) as Ac3.
  set (I := fun i s' => same s3 s' /\ exists A', vmrel s' A' T1 ∅ (gone A (root s)) /\ cloning A1 (root s) e i A' /\
    dir_of A' e (pm s') /\ kept A (pm s3) (pm s')).
  destruct (for_loop_outcome I (few 767 A ∅) 767 1 (fun i s => clone_table s COPIED_PAGE_DIR_VADDR COPIED_PAGE_TABLE_VADDR i) s3)
    as [[E F]|(s4 & E & S4 & A' & R4 & C4 & Do4 & K4)].
  - split; [apply same_refl|]. exists A1. split; [done|]. split; [by eapply cloning_start|]. split; [done|apply kept_refl].
  - intros i s' Hi (S & A' & R' & C' & Do' & K').
    pose proof (same_root _ _ S) as Er. rewrite Er3 in Er.
    assert (Hei : tbl A' !! (e, i) = None).
    { destruct (tbl A' !! (e, i)) eqn:Ei; [|done]. destruct (proj1 (cl_new _ _ _ _ _ C' i)); [by eexists|]. lia. }
    assert (Hgone : forall u, gone A' (root s) u <-> gone A (root s) u).
    { intros u. unfold gone. split; intros (k & Hk & -> & Hn); exists k; rewrite (cl_old _ _ _ _ _ C' (root s, k)) in * by done; done. }
    destruct (clone_table_ok s' A' T1 e i) as [[E F]|(s'' & E & S'' & A'' & R'' & Rd & Do'' & K'')]; try done.
    + rewrite Er. eapply vmrel_weaken; [exact R'|]. intros u _ Hu. by apply Hgone.
    + eapply same_unlocked; [exact S|]. eapply same_unlocked; [exact S3|]. exact (Hl2 Hl).
    + eapply same_dir_unlocked; [exact S|]. by eapply same_dir_unlocked.
    + apply lookup_insert_eq.
    + unfold T1. by rewrite lookup_insert_ne.
    + destruct C', Nd. split; rewrite ?cl_kern0, ?cl_kpages0, ?cl_roots0, ?cl_ktbl0; done.
    + left. split; [done|]. pose proof (cloning_few _ _ _ _ _ _ _ 0 Ac3 C' ltac:(lia) F) as F1.
      eapply few_le; [|eapply (few_step _ A ∅ A1 ∅ e); [|exact F1]]; [lia|].
      intros g [Hg Hgz]. destruct (decide (g = e)); [by left|right]. split; [done|]. unfold refs in *. cbn. by rewrite decide_False.
    + rewrite Er in *. right. exists s''. split; [done|]. split; [by eapply same_trans|]. exists A''. split; [|split; [by eapply cloning_step|split; [done|]]].
      * eapply vmrel_weaken; [exact R''|]. intros u _ Hu. by apply Hgone.
      * intros h Hh. eapply same_frame_trans; [by apply K'|]. apply K''.
        destruct Hh as [(d & v & rw & Hp)|[v Hv]].
        -- left. pose proof (cl_pages _ _ _ _ _ C' (d, v)) as Hpv. cbn in Hpv.
           change (pages A1) with (pages A) in Hpv. rewrite ?Hp in Hpv. case_decide as Hcd; [|eauto]. destruct Hcd as [Hvi [-> | ->]].
           ++ rewrite Hp in Hpv. cbn in Hpv. exists (root s), v, false. exact Hpv.
           ++ destruct (a_page _ _ _ Ac _ _ _ _ Hp) as ([t Ht] & _). by rewrite Hempty in Ht.
        -- right. exists v. by rewrite (cl_kpages _ _ _ _ _ C').
  - left. by rewrite E.
  - rewrite E. cbn [res_bind]. pose proof (same_root _ _ S4) as Er4. rewrite Er3 in Er4.
    assert (Hold : forall k, tbl A' !! (root s, k) = tbl A !! (root s, k)) by (intros k; by rewrite (cl_old _ _ _ _ _ C4 (root s, k))).
    destruct (release_temp_pages s4 A' T1 ∅ (gone A (root s)) 0xFFFFD e R4) as (s5 & E5 & S5 & R5 & F5 & K5).
    { rewrite Er4. intros k Hk. apply (gone_windows_ok A (root s) k). rewrite Hold in Hk. done. }
    { eapply same_unlocked; [exact S4|]. eapply same_unlocked; [exact S3|]. exact (Hl2 Hl). }
    { eapply same_dir_unlocked; [exact S4|]. by eapply same_dir_unlocked. }
    { apply lookup_insert_eq. }
    change COPIED_PAGE_DIR_VADDR with (0xFFFFD * 4096). rewrite E5. cbn [res_bind].
    unfold T1 in R5. rewrite delete_insert_id in R5 by done.
    assert (S25 : same s2 s5) by (eapply same_trans; [exact S3|]; by eapply same_trans).
    destruct (Hun2 s5 S25) as [L6 S6]. set (s6 := unlock_copy s5) in *.
    pose proof (relocked_rel _ _ _ _ _ _ L6 R5) as R6. destruct (relocked_eq _ _ L6) as (Epm6 & _).
    right. eexists. split; [reflexivity|]. assert (S06 : same s s6) by exact S6. pose proof (same_root _ _ S06) as Er6. split; [done|].
    exists e, (with_roots A' ({[e]} ∪ roots A')). split; [unfold PAGE_SIZE; lia|]. split; [split; [lia|done]|]. split; [done|].
    split; [by eapply cloning_end|]. split.
    + destruct R6 as [r1 r2 r3 r4 r5 r6]. split; [| | |exact r4|exact r5|].
      * apply acct_add_root; [done|lia|..].
        -- rewrite (cl_kern _ _ _ _ _ C4). cbn. by rewrite decide_True.
        -- rewrite (cl_kpages _ _ _ _ _ C4). done.
        -- intros k Hk. rewrite (cl_ktbl _ _ _ _ _ C4). by apply Hnk.
      * apply tables_add_root; [done|]. rewrite Epm6. eapply dir_of_same; [|done|done|exact Do4].
        eapply only_frame_same; [exact F5|]. rewrite (cl_ktbl _ _ _ _ _ C4). apply Hnk. unfold kernel_pdi. lia.
      * apply elem_of_union_r. exact r3.
      * eapply tlb_fresh_weaken; [exact r6|]. intros u _ (k & Hk & -> & Hn). exists k. cbn. by rewrite Hold.
    + assert (Hdk : forall h, data_frame A h -> same_frame (pm s4) (pm s5) h).
      { intros h Hh. eapply only_frame_same; [exact F5|]. intros ->. rewrite (cl_ktbl _ _ _ _ _ C4) in Hh. cbn in Hh.
        eapply data_not_structural; [exact Ac|exact Hh|]. right; left. exists 1023. split; [unfold kernel_pdi; lia|done]. }
      intros h Hh. rewrite Epm6. eapply same_frame_trans; [|by apply Hdk]. eapply same_frame_trans; [|by apply K4].
      rewrite <- Epm2. by apply K3.
Qed.
