(* ===== verification/PageUser.v ===== *)
(** What a user program sees: the memory of an address space, where a page that is
    not mapped reads as zeros, and the accesses that fault, are handled and run
    again. *)
From S2P Require Import Prelude Memory BitMap Page PageMem PageSpec PageOps PageMap PageCow PageClone.

(** ** The memory of an address space *)
Definition view (A : space) (m : mem) (d va : Z) : Z :=
  match pages A !! (d, va / 4096) with
  | Some (f, _) => m (4096 * f + va mod 4096)
  | None => 0
  end.

(** A page that may be written is used once: the frames that are shared are
    read-only. *)
Definition exclusive (A : space) : Prop :=
  forall k f, pages A !! k = Some (f, true) -> uses fst (pages A) f = 1.

Record space_ok (A : space) : Prop := {
  ok_closed : closed A;
  ok_excl : exclusive A;
  ok_roots d : d ∈ roots A -> kern A d = 1
}.

(** The user's memory and the kernel's are as they were. *)
Record unseen (A : space) (m : mem) (A' : space) (m' : mem) : Prop := {
  us_roots : roots A' = roots A;
  us_kpages : kpages A' = kpages A;
  us_view d va : view A' m' d va = view A m d va;
  us_kernel v f : kpages A !! v = Some f -> same_frame m m' f
}.

Lemma unseen_refl A m : unseen A m A m.
Proof. split; try done. Qed.
Lemma unseen_trans A1 m1 A2 m2 A3 m3 : unseen A1 m1 A2 m2 -> unseen A2 m2 A3 m3 -> unseen A1 m1 A3 m3.
Proof.
  intros [H1 H2 H3 H4] [G1 G2 G3 G4]. split; try congruence.
  intros v f Hf. eapply same_frame_trans; [by eapply H4|]. eapply G4. by rewrite H2.
Qed.

Lemma kept_kernel A m m' v f : kept A m m' -> kpages A !! v = Some f -> same_frame m m' f.
Proof. intros K Hv. apply K. right. eauto. Qed.

Lemma mod_page va : 0 <= va mod 4096 < 4096.
Proof. apply Z.mod_pos_bound. lia. Qed.

(** A page that gets a new frame with the bytes it has. *)
Lemma view_add_page A A' d v g m m' : pages A' = <[(d, v) := (g, true)]> (pages A) -> kept A m m' ->
  (forall o, 0 <= o < 4096 -> m' (4096 * g + o) = view A m d (v * 4096 + o)) ->
  forall d' va, view A' m' d' va = view A m d' va.
Proof.
  intros Hp K Hg d' va. unfold view at 1. rewrite Hp. pose proof (mod_page va) as Ho.
  destruct (decide ((d', va / 4096) = (d, v))) as [[= -> Hv]|Hne].
  - rewrite Hv, lookup_insert_eq, Hg by done. f_equal. subst v. pose proof (Z.div_mod va 4096). lia.
  - rewrite lookup_insert_ne by done. unfold view. destruct (pages A !! (d', va / 4096)) as [[f rw]|] eqn:Ep; [|done].
    apply K; [left; eauto|done].
Qed.

(** ** [space_ok] is kept *)
Lemma add_table_ok A d i t : space_ok A -> d ∈ roots A -> space_ok (add_table A d i t).
Proof.
  intros [H1 H2 H3] Hd. unfold add_table. destruct (tbl A !! (d, i)) eqn:E; [by split|]. split; cbn; try done.
  intros d' j Hj. cbn in *. destruct (decide ((d', j) = (d, i))) as [[= -> ->]|Hne]; [done|].
  rewrite lookup_insert_ne in Hj by done. by eapply H1.
Qed.

Lemma exclusive_add A d v g : exclusive A -> (uses fst (pages A) g = 0 \/ exists rw, pages A !! (d, v) = Some (g, rw) /\ uses fst (pages A) g = 1) ->
  exclusive (add_page A d v g).
Proof.
  intros H Hg k f Hk. cbn in *.
  assert (Hu : forall x, uses fst (<[(d, v) := (g, true)]> (pages A)) x =
    uses fst (delete (d, v) (pages A)) x + (if decide (g = x) then 1 else 0)).
  { intros x. rewrite <- insert_delete_eq, (uses_insert fst) by apply lookup_delete_eq. done. }
  assert (Hd : forall x, 0 <= uses fst (delete (d, v) (pages A)) x <= uses fst (pages A) x).
  { intros x. split; [apply uses_nonneg|]. destruct (pages A !! (d, v)) as [y|] eqn:Ey.
    - rewrite (uses_delete fst _ _ _ x Ey). case_decide; lia.
    - by rewrite delete_id. }
  assert (Hgz : uses fst (delete (d, v) (pages A)) g = 0).
  { destruct Hg as [Hz|(rw & Hp & H1)]; [pose proof (Hd g); lia|]. rewrite (uses_delete fst _ _ _ g Hp), decide_True by done. lia. }
  rewrite Hu. destruct (decide (k = (d, v))) as [->|Hne].
  - rewrite lookup_insert_eq in Hk. injection Hk as <-. rewrite decide_True by done. lia.
  - rewrite lookup_insert_ne in Hk by done. pose proof (H k f Hk) as H1.
    assert (1 <= uses fst (delete (d, v) (pages A)) f).
    { apply (uses_pos fst _ k (f, true)). by rewrite lookup_delete_ne. }
    pose proof (Hd f). case_decide; [subst; lia|lia].
Qed.

Lemma add_page_ok A d v g : space_ok A ->
  (uses fst (pages A) g = 0 \/ exists rw, pages A !! (d, v) = Some (g, rw) /\ uses fst (pages A) g = 1) ->
  space_ok (add_page A d v g).
Proof. intros [H1 H2 H3] Hg. split; [exact H1|by apply exclusive_add|exact H3]. Qed.

Lemma not_data_uses A f : ~ data_frame A f -> uses fst (pages A) f = 0.
Proof. intros Hd. apply uses_zero. intros [d v] [g rw] Hk E. cbn in E. subst g. apply Hd. left. eauto. Qed.

(** ** Accesses *)
Section access.
Context (s : vm) (A : space) (T : gmap Z Z) (N : gmap (Z * Z) (Z * bool)) (va : Z).
Context (R : vmrel s A T N (gone A (root s))) (Hv : user_page (va / 4096)).

Lemma user_not_gone : ~ gone A (root s) (va / 4096).
Proof. intros (i & Hi & E & _). unfold user_page, user_pdi, wpage in *. lia. Qed.

Lemma user_access_absent w : pages A !! (root s, va / 4096) = None ->
  user_access s va w = Ok (inr (4 + if w then 2 else 0), s).
Proof.
  intros Hp. destruct (user_page_pdi _ Hv) as [Hi Hr]. unfold user_access.
  rewrite (lookup_none s (va / 4096) (gone A (root s))); [done|apply R|apply user_not_gone|].
  rewrite walk_ent. cbv zeta. pose proof (t_user _ _ _ (v_tables _ _ _ _ _ R) _ _ (v_root _ _ _ _ _ R) Hi) as Hu.
  destruct (tbl A !! (root s, va / 4096 / 1024)) as [t|] eqn:Et; [|by rewrite Hu].
  destruct Hu as (-> & -> & _).
  pose proof (t_leaf _ _ _ (v_tables _ _ _ _ _ R) _ _ _ (va / 4096 mod 1024) Et ltac:(zdiv)) as Hlf.
  replace (1024 * (va / 4096 / 1024) + va / 4096 mod 1024) with (va / 4096) in Hlf by zdiv.
  rewrite Hp in Hlf. cbn [leaf] in Hlf. by rewrite Hlf.
Qed.

Lemma user_access_mapped w f rw : pages A !! (root s, va / 4096) = Some (f, rw) ->
  exists t, let s' := mt s (pm s) t in vmrel s' A T N (gone A (root s)) /\
    user_access s va w = Ok (if negb w || rw then inl (4096 * f + va mod 4096) else inr 7, s').
Proof.
  intros Hp. destruct (user_page_pdi _ Hv) as [Hi Hr].
  destruct (page_table _ _ _ _ _ R _ f rw Hp) as (t & Ht & _ & (H1 & H2 & H3 & H4) & Hd & Hdf).
  destruct (user_table _ _ _ _ _ R _ _ Ht) as (_ & _ & Hdu & Hdrw).
  destruct (vlookup_ok s (va / 4096) (ent (pm s) (root s) (va / 4096 / 1024), ent (pm s) t (va / 4096 mod 1024)) (gone A (root s)))
    as (t' & E & Htl & _); [apply R|apply user_not_gone|done| |].
  { rewrite walk_ent. cbv zeta. by rewrite Hd, Hdf, H1. }
  exists t'. cbv zeta. split; [destruct R; by split|].
  unfold user_access. rewrite E. cbn [res_bind]. rewrite Hdu, Hdrw, H3, H4, H2. cbn [andb].
  destruct w, rw; done.
Qed.
End access.

(** ** Faults *)
Record ready (s : vm) (T : gmap Z Z) : Prop := {
  rdy_frames : unlocked s;
  rdy_dir : dir_unlocked s;
  rdy_copy : copy_unlocked s;
  rdy_temp v : temp v -> T !! v = None
}.

Lemma ready_same s s' T : same s s' -> ready s T -> ready s' T.
Proof. intros S [H1 H2 H3 H4]. split; eauto with cmem. Qed.
Lemma ready_intr s T b : ready s T -> ready (with_intr s b) T.
Proof. by intros []. Qed.
Lemma rel_intr s A T N P b : vmrel s A T N P -> vmrel (with_intr s b) A T N P.
Proof. by apply vmrel_eq. Qed.

(** The address is not in the guard page of a stack. *)
Definition unguarded (stacks : list Z) (va : Z) : Prop := is_current_user_stack_addr stacks va <> Some true.

Lemma user_va va : user_page (va / 4096) -> 4194304 <= va < 3221225472.
Proof. unfold user_page. zdiv. Qed.

Lemma fault_absent stacks s va (w : bool) : user_page (va / 4096) -> unguarded stacks va ->
  pagefault_handler stacks s va (4 + if w then 2 else 0) = map_page (with_intr s true) (va / 4096 * 4096).
Proof.
  intros Hv Hg. pose proof (user_va va Hv) as Hr. unfold pagefault_handler.
  replace (va <? 4096) with false by (symmetry; zbool; lia).
  replace (Z.testbit (4 + (if w then 2 else 0)) 0) with false by (by destruct w).
  replace (Z.testbit (4 + (if w then 2 else 0)) 2) with true by (by destruct w). cbn [negb andb].
  replace (if multi_task s then default false (is_current_user_stack_addr stacks va) else false) with false; [done|].
  unfold unguarded in Hg. destruct (multi_task s); [|done].
  by destruct (is_current_user_stack_addr stacks va) as [[|]|].
Qed.

Lemma fault_cow stacks s va : user_page (va / 4096) ->
  pagefault_handler stacks s va 7 = handle_cow_fault (with_intr s true) va.
Proof.
  intros Hv. pose proof (user_va va Hv) as Hr. unfold pagefault_handler.
  replace (va <? 4096) with false by (symmetry; zbool; lia).
  change (Z.testbit 7 0) with true. change (Z.testbit 7 1) with true. change (Z.testbit 7 2) with true. cbn [negb andb].
  replace (va >=? 3221225472) with false by (symmetry; zbool; lia). done.
Qed.

(** The state after a fault: the page is mapped, writable when it was a write, and
    nothing a program sees has changed. *)
Record handled (s : vm) (A : space) (T : gmap Z Z) (v : Z) (w : bool) (s' : vm) (A' : space) : Prop := {
  hd_rel : vmrel s' A' T ∅ (gone A' (root s));
  hd_root : root s' = root s;
  hd_ready : ready s' T;
  hd_multi : multi_task s' = multi_task s;
  hd_ok : space_ok A';
  hd_unseen : unseen A (pm s) A' (pm s');
  hd_page : exists f rw, pages A' !! (root s, v) = Some (f, rw) /\ (w = true -> rw = true);
  hd_empty d : d <> root s -> (forall i, tbl A !! (d, i) = None) -> forall i, tbl A' !! (d, i) = None
}.

Lemma handle_absent stacks s A T va (w : bool) : vmrel s A T ∅ (gone A (root s)) -> ready s T -> space_ok A ->
  user_page (va / 4096) -> unguarded stacks va -> pages A !! (root s, va / 4096) = None ->
  outcome (pagefault_handler stacks s va (4 + if w then 2 else 0)) (few 1 A ∅)
    (fun s' => exists A', handled s A T (va / 4096) true s' A').
Proof.
  intros R Rd Ok Hv Hg Hp. rewrite fault_absent by done.
  destruct (map_page_user (with_intr s true) A T ∅ (va / 4096) (rel_intr _ _ _ _ _ true R)) as [?|(s' & E & S & A' & R' & K & M)];
    [apply Rd|apply Rd|done|by left|right].
  change (root (with_intr s true)) with (root s) in *. change (pm (with_intr s true)) with (pm s) in *.
  exists s'. split; [done|]. exists A'. unfold mapped in M. rewrite Hp in M. destruct M as (t & f & -> & Hf & Hnd & Hz).
  pose proof (same_root _ _ S) as Er. split; try done.
  - eapply ready_same; [exact S|by apply ready_intr].
  - by rewrite S.
  - apply add_page_ok; [apply add_table_ok; [done|apply R]|]. left.
    rewrite add_table_pages. by apply not_data_uses.
  - assert (Hpg : pages (add_page (add_table A (root s) (va / 4096 / 1024) t) (root s) (va / 4096) f) = <[(root s, va / 4096) := (f, true)]> (pages A)).
    { cbn. by rewrite add_table_pages. }
    split.
    + cbn. unfold add_table. by destruct (tbl A !! _).
    + cbn. unfold add_table. by destruct (tbl A !! _).
    + eapply view_add_page; [exact Hpg|exact K|]. intros o Ho. rewrite Hz by done. unfold view.
      replace ((va / 4096 * 4096 + o) / 4096) with (va / 4096) by zdiv. by rewrite Hp.
    + intros v g Hg'. by eapply kept_kernel.
  - exists f, true. split; [|done]. cbn. apply lookup_insert_eq.
  - intros d Hd Hn i. cbn. unfold add_table. destruct (tbl A !! (root s, _)); [by apply Hn|]. cbn.
    rewrite lookup_insert_ne by congruence. apply Hn.
Qed.

Lemma handle_readonly stacks s A T va f rw : vmrel s A T ∅ (gone A (root s)) -> ready s T -> space_ok A ->
  user_page (va / 4096) -> pages A !! (root s, va / 4096) = Some (f, rw) ->
  outcome (pagefault_handler stacks s va 7) (few 0 A ∅) (fun s' => exists A', handled s A T (va / 4096) true s' A').
Proof.
  intros R Rd Ok Hv Hp. rewrite fault_cow by done.
  destruct (handle_cow_fault_ok (with_intr s true) A T (va / 4096) f rw va (rel_intr _ _ _ _ _ true R))
    as [?|(s' & E & S & g & R' & K & U & Hb)]; try apply Rd; try done; [by left|right].
  change (root (with_intr s true)) with (root s) in *. change (pm (with_intr s true)) with (pm s) in *.
  exists s'. split; [done|]. exists (add_page A (root s) (va / 4096) g). pose proof (same_root _ _ S) as Er. split; try done.
  - eapply ready_same; [exact S|by apply ready_intr].
  - by rewrite S.
  - apply add_page_ok; [done|]. unfold unshared in U. case_decide as Hu; [right|left; apply not_data_uses, U].
    subst g. eauto.
  - split; try done.
    + eapply view_add_page; [done|exact K|]. intros o Ho. rewrite Hb by done. unfold view.
      replace ((va / 4096 * 4096 + o) / 4096) with (va / 4096) by zdiv. rewrite Hp. f_equal. zdiv.
    + intros v h Hh. by eapply kept_kernel.
  - exists g, true. split; [apply lookup_insert_eq|done].
Qed.

(** Every access of a user program ends at a byte of its page, or the machine has run
    out of frames. *)
Lemma user_run_ok {X} stacks s A T va w (k : vm -> Z -> X) n : vmrel s A T ∅ (gone A (root s)) -> ready s T -> space_ok A ->
  user_page (va / 4096) -> unguarded stacks va -> (2 <= n)%nat ->
  outcome (user_run n stacks s va w k) (few 1 A ∅) (fun r => exists s' A' f rw, r = k s' (4096 * f + va mod 4096) /\
    handled s A T (va / 4096) w s' A' /\ pages A' !! (root s, va / 4096) = Some (f, rw) /\ (w = true -> rw = true)).
Proof.
  intros R Rd Ok Hv Hg Hn. destruct n as [|[|n]]; [lia|lia|].
  assert (Hagain : forall n s' A', handled s A T (va / 4096) true s' A' ->
    exists s'' f rw, user_run (S n) stacks s' va w k = Prelude.Ok (k s'' (4096 * f + va mod 4096)) /\
      handled s A T (va / 4096) w s'' A' /\ pages A' !! (root s, va / 4096) = Some (f, rw) /\ (w = true -> rw = true)).
  { intros n' s' A' [H1 H2 H3 H3' H4 H5 (f & rw & Hp & Hrw) H7]. rewrite <- H2 in H1.
    pose proof (Hrw eq_refl) as ->.
    destruct (user_access_mapped s' A' T ∅ va H1 Hv w f true) as (t & R' & E); [by rewrite H2|].
    exists (mt s' (pm s') t), f, true. cbn [user_run]. rewrite E, orb_true_r. cbn [res_bind].
    split; [done|]. split; [|done]. rewrite H2 in R'. split; try done; [destruct H3; by split|].
    exists f, true. done. }
  change (user_run (S (S n)) stacks s va w k) with
    (let! (r, s) := user_access s va w in
     match r with
     | inl pa => Prelude.Ok (k s pa)
     | inr err_code => let! s := pagefault_handler stacks s va err_code in user_run (S n) stacks s va w k
     end).
  destruct (pages A !! (root s, va / 4096)) as [[f rw]|] eqn:Ep.
  - destruct (user_access_mapped s A T ∅ va R Hv w f rw Ep) as (t & R1 & E). rewrite E. cbn [res_bind].
    assert (Rd1 : ready (mt s (pm s) t) T) by (destruct Rd; by split).
    destruct (negb w || rw) eqn:Ew.
    + right. eexists. split; [reflexivity|]. exists (mt s (pm s) t), A, f, rw. split; [done|].
      assert (w = true -> rw = true) by (destruct w; [done|by intros]). split; [|done].
      split; try done. exists f, rw. done.
    + destruct (handle_readonly stacks (mt s (pm s) t) A T va f rw R1 Rd1 Ok Hv Ep) as [[-> F]|(s' & -> & A' & H)].
      * left. split; [done|]. eapply few_le; [|done]. lia.
      * cbn [res_bind]. right. destruct (Hagain n s' A') as (s'' & g & rw' & E' & H' & Hp' & Hrw').
        { destruct H. by split. }
        eexists. split; [exact E'|]. eauto 10.
  - rewrite (user_access_absent s A T ∅ va R Hv w Ep). cbn [res_bind].
    destruct (handle_absent stacks s A T va w R Rd Ok Hv Hg Ep) as [[-> F]|(s' & -> & A' & H)]; [by left|right].
    cbn [res_bind]. destruct (Hagain n s' A' H) as (s'' & g & rw' & E' & H' & Hp' & Hrw').
    eexists. split; [exact E'|]. eauto 10.
Qed.
