(* ===== verification/PageRefine.v ===== *)
(** Private memories: the abstract machine in which every address space has a memory
    of its own, and the refinement of it by paging, copy on write and the release of
    address spaces. *)
From S2P Require Import Prelude Memory BitMap Page PageMem PageSpec PageOps PageMap PageCow PageClone PageUser.

(** ** The abstract machine *)

(** [memory] gives the bytes of every address space, [kernel] those of the kernel's
    pages (a page and an offset), [emptied] the spaces that have been released. *)
Record pspec : Type := mk_pspec {
  memory : Z -> Z -> Z;
  kernel : Z -> Z -> Z;
  kernel_pages : gset Z;
  spaces : gset Z;
  emptied : gset Z;
  current : Z
}.

Inductive event : Type :=
  | Load (va : Z)
  | Store (va b : Z)
  | Fork
  | Switch (d : Z)
  | Release
  | Destroy (d : Z).

Definition user_addr (va : Z) : Prop := user_page (va / 4096).

(** When an event may happen. *)
Definition enabled (stacks : list Z) (σ : pspec) (ev : event) : Prop :=
  match ev with
  | Load va | Store va _ => user_addr va /\ unguarded stacks va
  | Fork | Release => True
  | Switch d => d ∈ spaces σ
  | Destroy d => d ∈ spaces σ /\ d ∈ emptied σ /\ d <> current σ
  end.

Inductive pstep (σ : pspec) : event -> Z -> pspec -> Prop :=
  | pstep_load va :
      pstep σ (Load va) (memory σ (current σ) va)
        (mk_pspec (memory σ) (kernel σ) (kernel_pages σ) (spaces σ) (emptied σ ∖ {[current σ]}) (current σ))
  | pstep_store va b :
      pstep σ (Store va b) 0
        (mk_pspec (fun d a => if decide (d = current σ /\ a = va) then u8 b else memory σ d a)
           (kernel σ) (kernel_pages σ) (spaces σ) (emptied σ ∖ {[current σ]}) (current σ))
  | pstep_fork e : e ∉ spaces σ ->
      pstep σ Fork (PAGE_SIZE * e)
        (mk_pspec (fun d a => if decide (d = e) then memory σ (current σ) a else memory σ d a)
           (kernel σ) (kernel_pages σ) ({[e]} ∪ spaces σ) (emptied σ ∖ {[e]}) (current σ))
  | pstep_switch d :
      pstep σ (Switch d) 0
        (mk_pspec (memory σ) (kernel σ) (kernel_pages σ) (spaces σ) (emptied σ) d)
  | pstep_release :
      pstep σ Release 0
        (mk_pspec (fun d a => if decide (d = current σ) then 0 else memory σ d a)
           (kernel σ) (kernel_pages σ) (spaces σ) ({[current σ]} ∪ emptied σ) (current σ))
  | pstep_destroy d :
      pstep σ (Destroy d) 0
        (mk_pspec (memory σ) (kernel σ) (kernel_pages σ) (spaces σ ∖ {[d]}) (emptied σ) (current σ)).

(** ** The kernel's side *)
Definition exec (stacks : list Z) (s : vm) (ev : event) : res (Z * vm) :=
  match ev with
  | Load va => user_load 2 stacks s va
  | Store va b => let! s := user_store 2 stacks s va b in Ok (0, s)
  | Fork => clone_crt_page_dir s
  | Switch d => Ok (0, switch_page_dir s (PAGE_SIZE * d))
  | Release => let! s := release_user_space_pages s in Ok (0, s)
  | Destroy d => let! s := destroy_page_dir s (PAGE_SIZE * d) in Ok (0, s)
  end.

Definition free_frames (s : vm) : nat :=
  length (filter (fun f => phy_frames_array s !! Z.to_nat f = Some 0) (seqZ 0 8192)).

(** The relation of the machine's state and the abstract state. *)
Record sim (s : vm) (σ : pspec) (A : space) (T : gmap Z Z) : Prop := {
  sm_rel : vmrel s A T ∅ (gone A (root s));
  sm_ready : ready s T;
  sm_ok : space_ok A;
  sm_current : root s = current σ;
  sm_spaces : roots A = spaces σ;
  sm_memory d va : d ∈ spaces σ -> user_addr va -> view A (pm s) d va = memory σ d va;
  sm_emptied d : d ∈ emptied σ -> forall i, tbl A !! (d, i) = None;
  sm_kpages : dom (kpages A) = kernel_pages σ;
  sm_kernel v f o : kpages A !! v = Some f -> 0 <= o < 4096 -> pm s (4096 * f + o) = kernel σ v o
}.
Definition refines (s : vm) (σ : pspec) : Prop := exists A T, sim s σ A T.

(** ** Lemmas *)
Lemma few_count s A N n : acct A N (phy_frames_array s) -> few n A N -> (free_frames s <= n)%nat.
Proof.
  intros Ac (L & HL & H). unfold free_frames. etrans; [|exact HL].
  apply submseteq_length, NoDup_submseteq; [apply NoDup_filter, NoDup_seqZ|].
  intros f [Hz Hf]%list_elem_of_filter. apply elem_of_seqZ in Hf. apply H. split; [lia|].
  rewrite (a_ref _ _ _ Ac f) in Hz by lia. by injection Hz.
Qed.

Lemma uses_mono {V : Type} (g : V -> Z) (m m' : gmap (Z * Z) V) f : m ⊆ m' -> uses g m f <= uses g m' f.
Proof.
  intros Hm. unfold uses. apply inj_le. rewrite <- !size_dom. apply subseteq_size. apply subseteq_dom.
  by apply map_filter_subseteq_mono.
Qed.

Lemma uses_ext {V W : Type} (g : V -> Z) (h : W -> Z) (m : gmap (Z * Z) V) (m' : gmap (Z * Z) W) f :
  (forall k, g <$> m !! k = Some f <-> h <$> m' !! k = Some f) -> uses g m f = uses h m' f.
Proof.
  intros H. unfold uses. f_equal. rewrite <- !size_dom. f_equal. apply set_eq. intros k.
  rewrite !elem_of_dom. specialize (H k). rewrite !fmap_Some in H. unfold is_Some.
  setoid_rewrite map_lookup_filter_Some. cbn. naive_solver.
Qed.

(** A byte written to a page that is used once. *)
Lemma store_byte_rel s A T P d v f rw o b : vmrel s A T ∅ P -> pages A !! (d, v) = Some (f, rw) -> 0 <= o < 4096 ->
  vmrel (with_pm s (store8 (pm s) (4096 * f + o) b)) A T ∅ P.
Proof.
  intros R Hp Ho. pose proof (v_acct _ _ _ _ _ R) as Ac.
  assert (Hns : ~ structural A f) by (eapply data_not_structural; [exact Ac|left; eauto]).
  pose proof (store8_only (pm s) f o b (t_mem _ _ _ (v_tables _ _ _ _ _ R)) Ho) as O.
  pose proof R as [r1 r2 r3 r4 r5 r6]. split; [exact r1| |exact r3|exact r4|exact r5|].
  - eapply tables_frame; [exact r2|exact Hns|exact O].
  - intros u e He. destruct (r6 u e He) as [Hu Hw]. split; [done|]. destruct Hw as [Hw|?]; [left|by right].
    change (root (with_pm s _)) with (root s). change (pm (with_pm s ?m)) with m.
    rewrite (walk_only _ _ _ _ _ O Hu); [done|]. intros Hvia. apply Hns. by eapply via_structural.
Qed.

Lemma store_byte_view A m d va f b : exclusive A -> pages A !! (d, va / 4096) = Some (f, true) ->
  forall d' a, view A (store8 m (4096 * f + va mod 4096) b) d' a = if decide (d' = d /\ a = va) then u8 b else view A m d' a.
Proof.
  intros Hx Hp d' a. unfold view. destruct (decide (d' = d /\ a = va)) as [[-> ->]|Hne].
  - rewrite Hp. unfold store8. by rewrite Z.eqb_refl.
  - destruct (pages A !! (d', a / 4096)) as [[g rw]|] eqn:Ep; [|done]. apply store8_ne. intros E.
    pose proof (mod_page va). pose proof (mod_page a). assert (g = f /\ a mod 4096 = va mod 4096) as [-> Ho] by lia.
    pose proof (uses_one fst (pages A) _ _ _ _ Hp Ep eq_refl (Hx _ _ Hp)) as [= <- Hv].
    apply Hne. split; [done|]. pose proof (Z.div_mod a 4096). pose proof (Z.div_mod va 4096). lia.
Qed.

(** ** The events *)

(** What is the same after an event that leaves the kernel's pages alone. *)
Lemma sim_kernel s σ A T s' : sim s σ A T -> kept A (pm s) (pm s') ->
  forall v f o, kpages A !! v = Some f -> 0 <= o < 4096 -> pm s' (4096 * f + o) = kernel σ v o.
Proof.
  intros H K v f o Hv Ho. rewrite <- (sm_kernel _ _ _ _ H v f o Hv Ho). by apply (kept_kernel A _ _ v f K).
Qed.

Lemma sim_handled s σ A T v w s' A' : sim s σ A T -> handled s A T v w s' A' ->
  sim s' (mk_pspec (memory σ) (kernel σ) (kernel_pages σ) (spaces σ) (emptied σ ∖ {[current σ]}) (current σ)) A' T.
Proof.
  intros H [H1 H2 H3 H3' H4 [U1 U2 U3 U4] H6 H7]. pose proof (sm_current _ _ _ _ H) as Hc.
  split; cbn; try done.
  - by rewrite H2.
  - by rewrite H2.
  - rewrite U1. apply H.
  - intros d va Hd Hva. rewrite U3. by apply (sm_memory _ _ _ _ H).
  - intros d [Hd Hn]%elem_of_difference. apply H7; [rewrite Hc; intros ->; by apply Hn, elem_of_singleton|by apply H].
  - rewrite U2. apply H.
  - intros x f o Hx Ho. rewrite U2 in Hx. rewrite <- (sm_kernel _ _ _ _ H x f o Hx Ho). by apply (U4 x f).
Qed.

Lemma few_panic s σ A T n m : sim s σ A T -> few n A ∅ -> (n < m)%nat -> (free_frames s < m)%nat.
Proof. intros H F Hn. pose proof (few_count s A ∅ n (v_acct _ _ _ _ _ (sm_rel _ _ _ _ H)) F). lia. Qed.

Definition refined_step (stacks : list Z) (s : vm) (σ : pspec) (ev : event) : Prop :=
  outcome (exec stacks s ev) (free_frames s < 768)%nat
    (fun '(out, s') => exists σ', pstep σ ev out σ' /\ refines s' σ').

Lemma load_step stacks s σ A T va : sim s σ A T -> enabled stacks σ (Load va) -> refined_step stacks s σ (Load va).
Proof.
  intros H [Hv Hg]. pose proof H as [R Rd Hok _ _ _ _ _ _]. unfold refined_step. cbn [exec]. unfold user_load.
  destruct (user_run_ok stacks s A T va false (fun s pa => (load8 (pm s) pa, s)) 2 R Rd Hok Hv Hg ltac:(lia))
    as [[E F]|(r & E & s' & A' & f & rw & -> & Hd & Hp & _)]; [left|right].
  - split; [exact E|]. eapply few_panic; [exact H|exact F|lia].
  - eexists. split; [exact E|]. pose proof (sim_handled _ _ _ _ _ _ _ _ H Hd) as H'. eexists. split; [|exists A', T; exact H'].
    assert (Hc : current σ ∈ spaces σ) by (rewrite <- (sm_spaces _ _ _ _ H), <- (sm_current _ _ _ _ H); apply R).
    pose proof (sm_memory _ _ _ _ H' (current σ) va Hc Hv) as Hm. cbn in Hm. unfold view in Hm.
    rewrite <- (sm_current _ _ _ _ H), Hp in Hm. unfold load8. rewrite Hm, (sm_current _ _ _ _ H). constructor.
Qed.

Lemma store_step stacks s σ A T va b : sim s σ A T -> enabled stacks σ (Store va b) -> refined_step stacks s σ (Store va b).
Proof.
  intros H [Hv Hg]. pose proof H as [R Rd Hok _ _ _ _ _ _]. unfold refined_step. cbn [exec]. unfold user_store.
  destruct (user_run_ok stacks s A T va true (fun s pa => with_pm s (store8 (pm s) pa b)) 2 R Rd Hok Hv Hg ltac:(lia))
    as [[E F]|(r & E & s' & A' & f & rw & -> & Hd & Hp & Hrw)]; [left|right]; rewrite E; cbn [res_bind].
  - split; [done|]. eapply few_panic; [exact H|exact F|lia].
  - eexists. split; [reflexivity|]. pose proof (sim_handled _ _ _ _ _ _ _ _ H Hd) as [R' Rd' Hok' Hc Hsp Hm He Hkd Hk].
    eexists. split; [constructor|]. exists A', T. rewrite (Hrw eq_refl) in Hp.
    pose proof (sm_current _ _ _ _ H) as Hc0. split; cbn in *; try done.
    + eapply store_byte_rel; [exact R'|exact Hp|apply mod_page].
    + destruct Rd'. by split.
    + intros d a Hd' Ha. rewrite (store_byte_view A' (pm s') (root s) va f b (ok_excl _ Hok') Hp), Hc0.
      case_decide; [done|]. by apply Hm.
    + intros v g o Hg' Ho. rewrite <- (Hk v g o Hg' Ho). apply store8_ne. intros E'. pose proof (mod_page va).
      assert (g = f) as -> by lia. destruct (a_page _ _ _ (v_acct _ _ _ _ _ R') _ _ _ _ Hp) as (_ & _ & _ & Hz).
      by destruct (proj1 (uses_zero id (kpages A') f) Hz v f Hg').
Qed.

Lemma cloned_ok A N l d e A' : acct A N l -> space_ok A -> d ∈ roots A -> e ∉ roots A -> cloned A d e A' -> space_ok A'.
Proof.
  intros Ac [K1 K2 K3] Hd He [C1 C2 C3 C4 C5 C6 C7].
  assert (Hempty : forall v, pages A !! (e, v) = None).
  { intros v. destruct (pages A !! (e, v)) as [[f rw]|] eqn:Ep; [|done].
    destruct (a_page _ _ _ Ac _ _ _ _ Ep) as (Ht & _). by destruct He; eapply K1. }
  split.
  - intros x i Hx. rewrite C1. destruct (decide (x = e)) as [->|Hn]; [set_solver|].
    apply elem_of_union_r. apply (K1 x i). by rewrite <- (C5 (x, i)).
  - intros [x v] f Hk. pose proof (C7 (x, v)) as Hx. cbn in Hx. rewrite Hk in Hx. case_decide as Hde.
    { destruct (pages A !! (d, v)) as [[f' rw]|]; cbn in Hx; congruence. }
    symmetry in Hx. rewrite <- (K2 (x, v) f Hx). apply uses_ext. intros [y u]. rewrite (C7 (y, u)). cbn.
    case_decide as Hy; [|done].
    assert (Hd' : fst <$> pages A !! (d, u) <> Some f).
    { destruct (pages A !! (d, u)) as [[g rw]|] eqn:Eg; [|done]. cbn. intros [= ->].
      pose proof (uses_one fst (pages A) _ _ _ _ Hx Eg eq_refl (K2 _ _ Hx)) as [= -> _]. naive_solver. }
    destruct Hy as [-> | ->].
    + destruct (pages A !! (d, u)) as [[g rw]|]; done.
    + rewrite Hempty. destruct (pages A !! (d, u)) as [[g rw]|]; done.
  - intros x Hx. rewrite C4. case_decide; [done|]. apply K3. set_solver.
Qed.

Lemma cloned_view A N l d e A' m m' : acct A N l -> kept A m m' -> cloned A d e A' ->
  forall x va, view A' m' x va = if decide (x = e) then view A m d va else view A m x va.
Proof.
  intros Ac K [C1 C2 C3 C4 C5 C6 C7] x va. unfold view. rewrite (C7 (x, va / 4096)). cbn.
  assert (Hf : forall y f rw, pages A !! (y, va / 4096) = Some (f, rw) -> m' (4096 * f + va mod 4096) = m (4096 * f + va mod 4096)).
  { intros y f rw Hy. apply K; [left; eauto|apply mod_page]. }
  destruct (decide (x = e)) as [->|Hx].
  - rewrite decide_True by tauto. destruct (pages A !! (d, va / 4096)) as [[f rw]|] eqn:Ep; [|done]. cbn. by eapply Hf.
  - destruct (decide (x = d)) as [->|Hxd].
    + rewrite decide_True by tauto. destruct (pages A !! (d, va / 4096)) as [[f rw]|] eqn:Ep; [|done]. cbn. by eapply Hf.
    + rewrite decide_False by tauto. destruct (pages A !! (x, va / 4096)) as [[f rw]|] eqn:Ep; [|done]. by eapply Hf.
Qed.

Lemma fork_step stacks s σ A T : sim s σ A T -> refined_step stacks s σ Fork.
Proof.
  intros H. pose proof H as [R Rd Hok Hc Hsp Hm He Hkd Hk]. unfold refined_step. cbn [exec].
  destruct (clone_crt_page_dir_ok s A T R (ok_closed _ Hok)) as [[E F]|([pa s'] & E & S & e & A' & -> & Hf & Her & C & R' & K)];
    try apply Rd; try (unfold temp; lia); [left|right].
  - split; [exact E|]. eapply few_panic; [exact H|exact F|lia].
  - pose proof (same_root _ _ S) as Er.
    exists (4096 * e, s'). split; [exact E|]. eexists. split; [constructor|exists A', T]; [by rewrite <- Hsp|].
    assert (Hd : root s ∈ roots A) by apply R. split; cbn.
    + by rewrite Er.
    + by eapply ready_same.
    + eapply cloned_ok; [apply R|exact Hok|exact Hd|exact Her|exact C].
    + by rewrite Er.
    + by rewrite (cd_roots _ _ _ _ C), Hsp.
    + intros d va Hd' Hva. rewrite (cloned_view _ _ _ _ _ _ _ _ (v_acct _ _ _ _ _ R) K C).
      case_decide.
      * rewrite <- Hc. apply Hm; [by rewrite <- Hsp|done].
      * apply Hm; [set_solver|done].
    + intros d [Hd' Hne]%elem_of_difference i. rewrite (cd_old _ _ _ _ C (d, i)); [by apply He|]. cbn. set_solver.
    + by rewrite (cd_kpages _ _ _ _ C).
    + intros v f o Hv Ho. rewrite (cd_kpages _ _ _ _ C) in Hv. by eapply (sim_kernel s σ A T s').
Qed.

Lemma switch_step stacks s σ A T d : sim s σ A T -> enabled stacks σ (Switch d) -> refined_step stacks s σ (Switch d).
Proof.
  intros H Hd. cbn in Hd. pose proof H as [R Rd Hok Hc Hsp Hm He Hkd Hk]. pose proof R as [r1 r2 r3 r4 r5 r6].
  right. eexists. split; [reflexivity|]. eexists. split; [constructor|exists A, T].
  assert (Er : root (switch_page_dir s (PAGE_SIZE * d)) = d) by (unfold root, switch_page_dir, PAGE_SIZE; cbn; zdiv).
  split; cbn; try done.
  - split; rewrite ?Er; try done. by rewrite Hsp.
  - destruct Rd. by split.
Qed.

(** The space [d] after its release. *)
Definition released (A : space) (d : Z) : space := drop_tables (drop_pages A d 786432) d 768.

Lemma released_pages A N l d k : acct A N l -> pages (released A d) !! k = if decide (k.1 = d) then None else pages A !! k.
Proof.
  intros Ac. change (pages (released A d)) with (pages (drop_pages A d 786432)). rewrite drop_pages_lookup.
  destruct k as [x v]. cbn. destruct (decide (x = d)) as [->|Hx]; [|by rewrite decide_False by tauto].
  case_decide as Hv; [done|]. destruct (pages A !! (d, v)) as [[f rw]|] eqn:Ep; [|done].
  destruct (a_page _ _ _ Ac _ _ _ _ Ep) as ([t Ht] & _). destruct (a_tbl _ _ _ Ac _ _ _ Ht) as (Hi & _).
  unfold user_pdi in Hi. destruct Hv. split; [done|]. zdiv.
Qed.

Lemma released_tbl A N l d k : acct A N l -> tbl (released A d) !! k = if decide (k.1 = d) then None else tbl A !! k.
Proof.
  intros Ac. unfold released. rewrite drop_tables_lookup. cbn. destruct k as [x i]. cbn.
  destruct (decide (x = d)) as [->|Hx]; [|by rewrite decide_False by tauto].
  case_decide as Hv; [done|]. destruct (tbl A !! (d, i)) as [t|] eqn:Et; [|done].
  destruct (a_tbl _ _ _ Ac _ _ _ Et) as (Hi & _). unfold user_pdi in Hi. destruct Hv. split; [done|]. lia.
Qed.

Lemma released_ok A N l d : acct A N l -> space_ok A -> space_ok (released A d).
Proof.
  intros Ac [K1 K2 K3]. split; [| |exact K3].
  - intros x i Hx. rewrite (released_tbl _ _ _ _ _ Ac) in Hx. cbn in Hx. case_decide; [by destruct Hx|]. by apply (K1 x i).
  - intros k f Hk. pose proof Hk as Hk'.
    rewrite (released_pages _ _ _ _ _ Ac) in Hk'. case_decide; [done|]. pose proof (K2 k f Hk') as H1.
    apply Z.le_antisymm; [|exact (uses_pos fst _ _ _ Hk)]. rewrite <- H1. apply uses_mono.
    apply map_subseteq_spec. intros x y Hx. rewrite (released_pages _ _ _ _ _ Ac) in Hx. by case_decide.
Qed.

Lemma release_user_space_ok s A T : vmrel s A T ∅ (gone A (root s)) -> ready s T ->
  exists s', release_user_space_pages s = Ok s' /\ same s s' /\
    vmrel s' (released A (root s)) T ∅ (gone (released A (root s)) (root s)) /\
    kept (drop_pages A (root s) 786432) (pm s) (pm s').
Proof.
  intros R Rd. unfold release_user_space_pages.
  destruct (release_all_pages s A T ∅ _ R (gone_windows_ok _ _)) as (s1 & -> & S1 & R1 & K1); [apply Rd..|].
  cbn [res_bind]. pose proof (same_root _ _ S1) as Er.
  destruct (release_all_tables s1 (drop_pages A (root s) 786432) T ∅) as (s2 & -> & S2 & R2 & K2).
  - rewrite Er. exact R1.
  - eapply same_unlocked; [exact S1|apply Rd].
  - intros v. rewrite Er. change (pages (released A (root s)) !! (root s, v) = None).
    by rewrite (released_pages _ _ _ _ _ (v_acct _ _ _ _ _ R)), decide_True.
  - exists s2. split; [done|]. split; [by eapply same_trans|]. rewrite Er in R2. split; [exact R2|]. by eapply kept_trans.
Qed.

Lemma release_step stacks s σ A T : sim s σ A T -> refined_step stacks s σ Release.
Proof.
  intros H. pose proof H as [R Rd Hok Hc Hsp Hm He Hkd Hk]. pose proof (v_acct _ _ _ _ _ R) as Ac.
  destruct (release_user_space_ok s A T R Rd) as (s' & E & S & R' & K). pose proof (same_root _ _ S) as Er.
  unfold refined_step. cbn [exec]. rewrite E. cbn [res_bind]. right. eexists. split; [reflexivity|]. eexists. split; [constructor|].
  exists (released A (root s)), T. split; cbn; try done.
  - by rewrite Er.
  - by eapply ready_same.
  - by eapply released_ok.
  - by rewrite Er.
  - intros d va Hd Hva. unfold view. rewrite (released_pages _ _ _ _ _ Ac). cbn. rewrite Hc.
    case_decide as Hdc; [done|]. rewrite <- (Hm d va Hd Hva). unfold view.
    destruct (pages A !! (d, va / 4096)) as [[f rw]|] eqn:Ep; [|done].
    apply K; [|apply mod_page]. left. exists d, (va / 4096), rw. rewrite drop_pages_lookup, decide_False; [done|]. cbn. rewrite Hc. tauto.
  - intros d Hd i. change (tbl (released A (root s)) !! (d, i) = None). rewrite (released_tbl _ _ _ _ _ Ac). cbn. case_decide; [done|]. apply He.
    apply elem_of_union in Hd as [Hd%elem_of_singleton|Hd]; [by rewrite Hc in *|done].
  - intros v f o Hv Ho. rewrite <- (Hk v f o Hv Ho). apply (K f); [|done]. right. eauto.
Qed.

Lemma destroy_step stacks s σ A T d : sim s σ A T -> enabled stacks σ (Destroy d) -> refined_step stacks s σ (Destroy d).
Proof.
  intros H (Hd & Hde & Hdc). pose proof H as [R Rd Hok Hc Hsp Hm He Hkd Hk].
  pose proof R as [Ac r2 r3 r4 r5 r6]. assert (Hr : d ∈ roots A) by (by rewrite Hsp).
  destruct (a_root _ _ _ Ac d Hr) as (Hrange & _ & Hkp). pose proof (ok_roots _ Hok d Hr) as Hkd1.
  assert (Hz : forall f, uses fst (∅ : gmap (Z * Z) (Z * bool)) f = 0) by (intros; apply uses_empty).
  assert (Ht : uses id (tbl A) d = 0).
  { apply uses_zero. intros [x i] t Hx E. cbn in E. subst t. pose proof (a_tbl _ _ _ Ac _ _ _ Hx) as (_ & _ & _ & ? & _). lia. }
  assert (Hp : uses fst (pages A) d = 0).
  { apply uses_zero. intros [x v] [f rw] Hx E. cbn in E. subst f. pose proof (a_page _ _ _ Ac _ _ _ _ Hx) as (_ & _ & ? & _). lia. }
  assert (Href : refs A d = 1) by (unfold refs; lia).
  unfold refined_step. cbn [exec]. unfold destroy_page_dir. replace (PAGE_SIZE * d / PAGE_SIZE) with d by (unfold PAGE_SIZE; zdiv).
  rewrite (release_phy_frame_ok s d (refs A d + uses fst (∅ : gmap (Z * Z) (Z * bool)) d));
    [|apply Rd|apply (a_len _ _ _ Ac)|lia|by apply (a_ref _ _ _ Ac); lia|rewrite Hz; lia].
  cbn [res_bind]. right. eexists. split; [reflexivity|]. eexists. split; [constructor|].
  set (A1 := with_roots A (roots A ∖ {[d]})). exists (set_kern A1 d (kern A1 d - 1)), T.
  assert (Hne : d <> root s) by congruence. split; cbn; try done.
  - split; [| | |exact r4|exact r5|exact r6].
    + apply (acct_free A1 ∅ _ d (acct_del_root _ _ _ d Ac)); cbn; try lia; [set_solver|].
      intros i Hi E. apply (a_ktbl _ _ _ Ac i Hi). by rewrite <- E.
    + destruct r2 as [t1 t2 t3 t4 t5 t6 t7]. split; cbn; try done.
      * intros x [Hx _]%elem_of_difference. by apply t2.
      * intros x i [Hx _]%elem_of_difference. by apply t3.
      * intros x i [Hx _]%elem_of_difference. by apply t4.
    + cbn. apply elem_of_difference. split; [done|]. by rewrite elem_of_singleton.
  - by destruct Rd; split.
  - destruct Hok as [K1 K2 K3]. split; [|exact K2|].
    + intros x i Hx. cbn in *. apply elem_of_difference. split; [by eapply K1|]. rewrite elem_of_singleton. intros ->.
      rewrite He in Hx by done. by destruct Hx.
    + intros x [Hx Hxd]%elem_of_difference. cbn. rewrite decide_False by set_solver. by apply K3.
  - by rewrite Hsp.
  - intros x va [Hx _]%elem_of_difference Hva. by apply Hm.
Qed.
