(* ===== verification/PageDemo.v ===== *)
(** A small machine for which the relations of paging hold: two address spaces that
    share a page, a page of the first one's own, a page of the kernel, and the first stack of
    the kernel's stack area. *)
From S2P Require Import Prelude Memory BitMap Page PageMem PageSpec PageOps PageMap PageCow PageClone PageUser PageRefine.

(** ** Memories given by their entries *)
Definition mem_of (W : Z -> Z -> Z) : mem := fun x => W (x / 4096) (x mod 4096 / 4) / 256 ^ (x mod 4) mod 256.

Lemma mem_of_ok W : bytes_ok (mem_of W).
Proof. intros x. unfold mem_of. apply Z.mod_pos_bound. lia. Qed.

Lemma mem_of_byte W f i k : 0 <= i < 1024 -> 0 <= k < 4 -> mem_of W (4096 * f + 4 * i + k) = W f i / 256 ^ k mod 256.
Proof.
  intros Hi Hk. unfold mem_of. replace ((4096 * f + 4 * i + k) / 4096) with f by zdiv.
  replace ((4096 * f + 4 * i + k) mod 4096 / 4) with i by zdiv. by replace ((4096 * f + 4 * i + k) mod 4) with k by zdiv.
Qed.

Lemma mem_of_ent W f i : word (W f i) -> 0 <= i < 1024 -> ent (mem_of W) f i = W f i.
Proof.
  intros Hw Hi. unfold ent, load32. pose proof (mem_of_byte W f i 0 Hi ltac:(lia)) as H0. rewrite Z.add_0_r in H0.
  rewrite H0, !mem_of_byte by lia. change (256 ^ 0) with 1. change (256 ^ 1) with 256. change (256 ^ 2) with 65536.
  change (256 ^ 3) with 16777216. unfold word in Hw. change (2 ^ 32) with 4294967296 in Hw. generalize dependent (W f i).
  intros w Hw _. rewrite Z.div_1_r. replace (w / 65536) with (w / 256 / 256) by (by rewrite Z.div_div by lia).
  replace (w / 16777216) with (w / 256 / 256 / 256) by (by rewrite !Z.div_div by lia). Z.div_mod_to_equations. lia.
Qed.

(** ** The machine *)
Definition demo_dir (d i : Z) : Z :=
  if i =? 769 then d * 4096 + 3
  else if i =? 1 then (d + 2742) * 4096 + 7
  else if (768 <=? i) && (i <? 1024) then (1024 + i) * 4096 + 3
  else 0.

Definition demo_words (f i : Z) : Z :=
  if (f =? 257) || (f =? 258) then demo_dir f i
  else if f =? 2999 then (if i =? 0 then 3001 * 4096 + 5 else if i =? 1 then 3003 * 4096 + 7 else 0)
  else if f =? 3000 then (if i =? 0 then 3001 * 4096 + 5 else 0)
  else if f =? 1792 then (if i =? 0 then 100 * 4096 + 3 else 0)
  else if f =? 1920 then (if i =? 1 then 200 * 4096 + 3 else if i =? 2 then 201 * 4096 + 3 else 0)
  else 0.

Definition demo_kern (f : Z) : Z :=
  if (f =? 0) || (f =? 257) || (f =? 258) || ((1792 <=? f) && (f <? 2048)) then 1 else 0.

Definition demo_space : space :=
  mk_space {[257; 258]} (<[(257, 1) := 2999]> (<[(258, 1) := 3000]> ∅))
    (<[(257, 1024) := (3001, false)]> (<[(258, 1024) := (3001, false)]> (<[(257, 1025) := (3003, true)]> ∅)))
    (fun i => 1024 + i) (<[786432 := 100]> (<[917505 := 200]> (<[917506 := 201]> ∅))) demo_kern.

Definition demo_frames : list Z := (fun n => refs demo_space (Z.of_nat n)) <$> seq 0 (Z.to_nat 8192).

Definition demo : vm :=
  mk_vm (mem_of demo_words) (4096 * 257) (fun _ => None) demo_frames 0 LOCKED_NO LOCKED_NO LOCKED_NO true false.

Lemma demo_kpages_uses f : uses id (kpages demo_space) f =
  (if decide (201 = f) then 1 else 0) + (if decide (200 = f) then 1 else 0) + (if decide (100 = f) then 1 else 0).
Proof. cbn. rewrite !(uses_insert id) by done. by rewrite uses_empty. Qed.
Lemma demo_tbl_uses f : uses id (tbl demo_space) f = (if decide (3000 = f) then 1 else 0) + (if decide (2999 = f) then 1 else 0).
Proof. cbn. rewrite !(uses_insert id) by done. by rewrite uses_empty. Qed.
Lemma demo_pages_uses f : uses fst (pages demo_space) f =
  (if decide (3003 = f) then 1 else 0) + (if decide (3001 = f) then 1 else 0) + (if decide (3001 = f) then 1 else 0).
Proof. cbn. rewrite !(uses_insert fst) by done. by rewrite uses_empty. Qed.

Lemma demo_tbl d i t : tbl demo_space !! (d, i) = Some t -> (d = 257 /\ i = 1 /\ t = 2999) \/ (d = 258 /\ i = 1 /\ t = 3000).
Proof. cbn. rewrite !lookup_insert_Some. intros H. naive_solver. Qed.
Lemma demo_pages d v f rw : pages demo_space !! (d, v) = Some (f, rw) ->
  (d = 257 /\ v = 1024 /\ f = 3001 /\ rw = false) \/ (d = 258 /\ v = 1024 /\ f = 3001 /\ rw = false) \/
  (d = 257 /\ v = 1025 /\ f = 3003 /\ rw = true).
Proof. cbn. rewrite !lookup_insert_Some. intros H. naive_solver. Qed.
Lemma demo_kpage v f : kpages demo_space !! v = Some f ->
  (v = 786432 /\ f = 100) \/ (v = 917505 /\ f = 200) \/ (v = 917506 /\ f = 201).
Proof. cbn. rewrite !lookup_insert_Some. intros H. naive_solver. Qed.

Ltac demo_uses := rewrite ?demo_kpages_uses, ?demo_tbl_uses, ?demo_pages_uses.

Lemma demo_acct : acct demo_space ∅ demo_frames.
Proof.
  split.
  - unfold demo_frames. by rewrite length_fmap, length_seq.
  - intros f Hf. unfold demo_frames. rewrite list_lookup_fmap, lookup_seq_lt by lia. cbn [fmap option_fmap option_map].
    rewrite uses_empty. f_equal. rewrite Nat.add_0_l, Z2Nat.id by lia. lia.
  - intros f. cbn. unfold demo_kern. by case_match.
  - done.
  - intros d Hd. assert (d = 257 \/ d = 258) as [-> | ->] by (cbn in Hd; set_solver); demo_uses; done.
  - intros d i t Ht. destruct (demo_tbl d i t Ht) as [(-> & -> & ->)|(-> & -> & ->)]; demo_uses; done.
  - intros d v f rw Hp. destruct (demo_pages d v f rw Hp) as [(-> & -> & -> & ->)|[(-> & -> & -> & ->)|(-> & -> & -> & ->)]];
      demo_uses; (split; [by eexists|done]).
  - intros d v d1 v1 f rw rw1 H1 H2. apply demo_pages in H1, H2. naive_solver.
  - intros d v d' v' f rw rw' H1. done.
  - intros i (Hi & _). demo_uses. cbn [ktbl demo_space]. split; [lia|]. split; [|split].
    + cbn. unfold demo_kern. replace (1792 <=? 1024 + i) with true by (symmetry; zbool; lia).
      replace (1024 + i <? 2048) with true by (symmetry; zbool; lia). by rewrite !orb_true_r.
    + by rewrite !decide_False by lia.
    + cbn. rewrite elem_of_union, !elem_of_singleton. lia.
  - intros i j _ _. cbn. lia.
  - intros v f Hv. apply demo_kpage in Hv as [[-> ->]|[[-> ->]|[-> ->]]]; (split; [by split|]); (split; [unfold temp; lia|lia]).
Qed.

Lemma demo_word f i : 0 <= f < 8192 -> 0 <= i < 1024 -> word (demo_words f i).
Proof.
  intros Hf Hi. unfold demo_words, demo_dir, word.
  repeat match goal with |- context [if ?b then _ else _] => destruct b eqn:?E; bool_to_prop end; lia.
Qed.

Lemma demo_ent f i : 0 <= f < 8192 -> 0 <= i < 1024 -> ent (pm demo) f i = demo_words f i.
Proof. intros Hf Hi. apply mem_of_ent; [by apply demo_word|done]. Qed.

(** What the entry of a directory is. *)
Lemma demo_dir_ent d i : d = 257 \/ d = 258 -> 0 <= i < 1024 -> ent (pm demo) d i = demo_dir d i.
Proof. intros Hd Hi. rewrite demo_ent by lia. unfold demo_words. by destruct Hd as [-> | ->]. Qed.

Lemma entry_fields f k : 0 <= k < 4096 ->
  pte_present (f * 4096 + k) = Z.testbit k 0 /\ pte_rw (f * 4096 + k) = Z.testbit k 1 /\
  pte_user (f * 4096 + k) = Z.testbit k 2 /\ pte_frame (f * 4096 + k) = f.
Proof.
  intros Hk. change 4096 with (2 ^ 12) at 1 2 3 4.
  assert (H : forall n, 0 <= n < 12 -> Z.testbit (f * 2 ^ 12 + k) n = Z.testbit k n).
  { intros n Hn. rewrite <- (Z.mod_pow2_bits_low _ 12) by lia. rewrite Z.add_comm, Z.mod_add by lia.
    by rewrite Z.mod_small by lia. }
  unfold pte_present, pte_rw, pte_user, pte_frame. rewrite !H by lia. do 3 (split; [done|]).
  rewrite Z.shiftr_div_pow2 by lia. rewrite Z.add_comm, Z.div_add by lia. rewrite Z.div_small by lia. lia.
Qed.

Lemma demo_tables : tables demo_space ∅ (pm demo).
Proof.
  assert (Hr : forall d, d ∈ roots demo_space -> d = 257 \/ d = 258) by (intros d Hd; cbn in Hd; set_solver).
  split.
  - apply mem_of_ok.
  - intros d Hd%Hr. rewrite !demo_dir_ent by (done || lia).
    destruct (entry_fields d 3 ltac:(lia)) as (F1 & _ & _ & F4). unfold demo_dir. cbn. done.
  - intros d i Hd%Hr Hi. unfold user_pdi in Hi. rewrite !demo_dir_ent by (done || lia). unfold demo_dir.
    replace (i =? 769) with false by (symmetry; zbool; lia). replace (768 <=? i) with false by (symmetry; zbool; lia). cbn [andb].
    destruct (i =? 1) eqn:Ei; bool_to_prop.
    + subst i. destruct Hd as [-> | ->]; cbn; done.
    + destruct (tbl demo_space !! (d, i)) as [t|] eqn:Et; [|done].
      apply demo_tbl in Et. lia.
  - intros d i Hd%Hr (Hi & Hn). rewrite !demo_dir_ent by (done || lia). unfold demo_dir.
    replace (i =? 769) with false by (symmetry; zbool; lia). replace (i =? 1) with false by (symmetry; zbool; lia).
    replace (768 <=? i) with true by (symmetry; zbool; lia). replace (i <? 1024) with true by (symmetry; zbool; lia).
    destruct (entry_fields (1024 + i) 3 ltac:(lia)) as (F1 & _ & _ & F4). done.
  - intros d i t j Ht Hj. destruct (demo_tbl d i t Ht) as [(-> & -> & ->)|(-> & -> & ->)]; rewrite demo_ent by lia.
    + change (demo_words 2999 j) with (if j =? 0 then 3001 * 4096 + 5 else if j =? 1 then 3003 * 4096 + 7 else 0).
      destruct (j =? 0) eqn:E0; [bool_to_prop; by subst|]. destruct (j =? 1) eqn:E1; [bool_to_prop; by subst|]. bool_to_prop.
      destruct (pages demo_space !! (257, 1024 * 1 + j)) as [[f rw]|] eqn:Ep; [|done]. apply demo_pages in Ep. lia.
    + change (demo_words 3000 j) with (if j =? 0 then 3001 * 4096 + 5 else 0).
      destruct (j =? 0) eqn:E0; [bool_to_prop; by subst|]. bool_to_prop.
      destruct (pages demo_space !! (258, 1024 * 1 + j)) as [[f rw]|] eqn:Ep; [|done]. apply demo_pages in Ep. lia.
  - intros i j (Hi & Hn) Hj. cbn [ktbl demo_space]. rewrite demo_ent by lia. rewrite map_empty_union.
    unfold demo_words. replace (1024 + i =? 257) with false by (symmetry; zbool; lia).
    replace (1024 + i =? 258) with false by (symmetry; zbool; lia). replace (1024 + i =? 2999) with false by (symmetry; zbool; lia).
    replace (1024 + i =? 3000) with false by (symmetry; zbool; lia). cbn [orb].
    assert (Hnone : 1024 * i + j <> 786432 /\ 1024 * i + j <> 917505 /\ 1024 * i + j <> 917506 -> kpages demo_space !! (1024 * i + j) = None).
    { intros Hne. destruct (kpages demo_space !! _) as [g|] eqn:Eg; [|done]. apply demo_kpage in Eg. lia. }
    destruct (1024 + i =? 1792) eqn:Ei; bool_to_prop.
    { assert (i = 768) as -> by lia. destruct (j =? 0) eqn:E0; bool_to_prop; [by subst|]. by rewrite Hnone by lia. }
    destruct (1024 + i =? 1920) eqn:Ei'; bool_to_prop; [|by rewrite Hnone by lia]. assert (i = 896) as -> by lia.
    destruct (j =? 1) eqn:E1; bool_to_prop; [by subst|]. destruct (j =? 2) eqn:E2; bool_to_prop; [by subst|]. by rewrite Hnone by lia.
  - done.
Qed.

Lemma vm_demo_rel : vmrel demo demo_space ∅ ∅ (gone demo_space (root demo)).
Proof.
  split; [apply demo_acct|apply demo_tables| |done|cbn; lia|apply tlb_fresh_none].
  change (root demo) with 257. cbn. set_solver.
Qed.

Lemma vm_demo_ready : ready demo ∅.
Proof. split; try done. Qed.

Lemma demo_ok : space_ok demo_space.
Proof.
  split.
  - intros d i [t Ht]. cbn. apply demo_tbl in Ht. rewrite elem_of_union, !elem_of_singleton. lia.
  - intros [d v] f Hp. apply demo_pages in Hp as [(_ & _ & _ & ?)|[(_ & _ & _ & ?)|(-> & -> & -> & _)]]; [done..|].
    by rewrite demo_pages_uses.
  - intros d Hd. cbn in Hd. apply elem_of_union in Hd as [->%elem_of_singleton | ->%elem_of_singleton]; done.
Qed.

Definition demo_spec : pspec :=
  mk_pspec (view demo_space (pm demo)) (fun v o => pm demo (4096 * default 0 (kpages demo_space !! v) + o))
    {[786432; 917505; 917506]} {[257; 258]} ∅ 257.

Lemma demo_refines : refines demo demo_spec.
Proof.
  exists demo_space, ∅. split; [apply vm_demo_rel|apply vm_demo_ready|apply demo_ok|done|done|done|done| |].
  - cbn. rewrite !dom_insert_L, dom_empty_L. set_solver.
  - intros v f o Hv _. unfold demo_spec. cbn [kernel]. by rewrite Hv.
Qed.
