(* ===== verification/PageProps.v ===== *)
(** The properties of paging, with the machine of [PageDemo] as the instance. *)
From S2P Require Import Prelude Memory BitMap Page PageMem PageSpec PageOps PageMap PageCow PageClone PageUser PageRefine PageDemo.

(** ** Private memories *)

(** C1: paging implements private memories: a load, a store, a fork, a switch, the
    release and the end of an address space do what they do on a machine where every
    address space has a memory of its own that starts as zeros, whatever pages are
    mapped, shared or copied meanwhile; they return, unless fewer than 768 frames are
    free. *)
Theorem paging_refines stacks s σ ev : refines s σ -> enabled stacks σ ev ->
  outcome (exec stacks s ev) (free_frames s < 768)%nat (fun '(out, s') => exists σ', pstep σ ev out σ' /\ refines s' σ').
Proof.
  intros (A & T & H) He. destruct ev as [va|va b| |d| |d].
  - by eapply load_step.
  - by eapply store_step.
  - by eapply fork_step.
  - by eapply switch_step.
  - by eapply release_step.
  - by eapply destroy_step.
Qed.

Lemma paging_refines_witness :
  outcome (exec [0] demo (Store 0x400010 7)) (free_frames demo < 768)%nat
    (fun '(out, s') => exists σ', pstep demo_spec (Store 0x400010 7) out σ' /\ refines s' σ').
Proof.
  apply (paging_refines [0] demo demo_spec (Store 0x400010 7) demo_refines).
  split; [by split|by vm_compute].
Defined.

(** ** The operations *)

(** C6: [clone_crt_page_dir] gives a free frame as the directory of a new address
    space: it has every page of the current one, on the same frame and read-only on
    both sides, tables of its own, and the kernel's half; no page changes its bytes,
    and every reference is counted. *)
Theorem clone_correct s A T : vmrel s A T ∅ (gone A (root s)) -> space_ok A -> ready s T ->
  outcome (clone_crt_page_dir s) (free_frames s < 768)%nat (fun '(pa, s') => same s s' /\ exists e A',
    pa = PAGE_SIZE * e /\ phy_frames_array s !! Z.to_nat e = Some 0 /\ e ∉ roots A /\ cloned A (root s) e A' /\
    vmrel s' A' T ∅ (gone A' (root s)) /\ space_ok A' /\ kept A (pm s) (pm s')).
Proof.
  intros R Hok Rd. destruct (clone_crt_page_dir_ok s A T R (ok_closed _ Hok)) as [[E F]|([pa s'] & E & S & e & A' & -> & [Hr Hz] & He & C & R' & K)];
    try apply Rd; try (unfold temp; lia); [left|right].
  - split; [done|]. pose proof (few_count s A ∅ 767 (v_acct _ _ _ _ _ R) F). lia.
  - exists (4096 * e, s'). split; [done|]. split; [done|]. exists e, A'. split; [done|]. split; [|split; [done|split; [done|split; [done|split; [|done]]]]].
    + rewrite (a_ref _ _ _ (v_acct _ _ _ _ _ R) e Hr). by rewrite Hz.
    + eapply cloned_ok; [apply R|exact Hok|apply R|exact He|exact C].
Qed.

Lemma clone_correct_witness :
  outcome (clone_crt_page_dir demo) (free_frames demo < 768)%nat (fun '(pa, s') => same demo s' /\ exists e A',
    pa = PAGE_SIZE * e /\ phy_frames_array demo !! Z.to_nat e = Some 0 /\ e ∉ roots demo_space /\ cloned demo_space 257 e A' /\
    vmrel s' A' ∅ ∅ (gone A' 257) /\ space_ok A' /\ kept demo_space (pm demo) (pm s')).
Proof. exact (clone_correct demo demo_space ∅ vm_demo_rel demo_ok vm_demo_ready). Defined.

(** C7: [handle_cow_fault] gives the page a frame that no other address space uses,
    writable and with the bytes it had: its own frame when it was the last user, a
    new one otherwise, and then the old frame loses one reference. *)
Theorem cow_correct s A T va f rw : vmrel s A T ∅ (gone A (root s)) -> ready s T ->
  pages A !! (root s, va / 4096) = Some (f, rw) ->
  outcome (handle_cow_fault s va) (free_frames s = 0)%nat (fun s' => same s s' /\ exists g,
    let A' := add_page A (root s) (va / 4096) g in
    vmrel s' A' T ∅ (gone A' (root s)) /\ kept A (pm s) (pm s') /\ uses fst (pages A') g = 1 /\
    (g = f <-> uses fst (pages A) f = 1) /\
    (forall o, 0 <= o < 4096 -> pm s' (4096 * g + o) = pm s (4096 * f + o))).
Proof.
  intros R Rd Hp. pose proof (v_acct _ _ _ _ _ R) as Ac.
  destruct (handle_cow_fault_ok s A T (va / 4096) f rw va R) as [[E F]|(s' & E & S & g & R' & K & U & Hb)];
    try apply Rd; try done; [left|right].
  - split; [done|]. pose proof (few_count s A ∅ 0 Ac F). lia.
  - exists s'. split; [done|]. split; [done|]. exists g. cbv zeta. split; [done|]. split; [done|].
    assert (Hu : uses fst (pages (add_page A (root s) (va / 4096) g)) g =
      uses fst (pages A) g - (if decide (f = g) then 1 else 0) + 1).
    { cbn [add_page pages with_pages]. rewrite (uses_replace fst _ _ _ _ g Hp). cbn [fst]. by destruct (decide (g = g)). }
    rewrite Hu. unfold unshared in U. destruct (decide (uses fst (pages A) f = 1)) as [H1|H1].
    + subst g. rewrite decide_True by done. split; [lia|]. done.
    + destruct U as [Hnd _]. assert (Hgf : f <> g) by (intros ->; apply Hnd; left; eauto).
      rewrite decide_False, not_data_uses by done. split; [done|]. split; [|done]. split; [congruence|done].
Qed.

Lemma cow_correct_witness :
  outcome (handle_cow_fault demo 0x400010) (free_frames demo = 0)%nat (fun s' => same demo s' /\ exists g,
    let A' := add_page demo_space 257 1024 g in
    vmrel s' A' ∅ ∅ (gone A' 257) /\ kept demo_space (pm demo) (pm s') /\ uses fst (pages A') g = 1 /\
    (g = 3001 <-> uses fst (pages demo_space) 3001 = 1) /\
    (forall o, 0 <= o < 4096 -> pm s' (4096 * g + o) = pm demo (4096 * 3001 + o))).
Proof. exact (cow_correct demo demo_space ∅ 0x400010 3001 false vm_demo_rel vm_demo_ready eq_refl). Defined.

(** [map_page] maps a page of the user's half that was not mapped, on a free frame
    full of zeros, with a new table when the page has none; a mapped page is left
    alone; the other pages keep their bytes. *)
Theorem map_page_correct s A T v : vmrel s A T ∅ (gone A (root s)) -> ready s T -> user_page v ->
  outcome (map_page s (v * PAGE_SIZE)) (free_frames s < 2)%nat (fun s' => same s s' /\ exists A',
    vmrel s' A' T ∅ (gone A' (root s)) /\ kept A (pm s) (pm s') /\ mapped A (root s) v A' (pm s')).
Proof.
  intros R Rd Hv. destruct (map_page_user s A T ∅ v R) as [[E F]|(s' & E & H)]; try apply Rd; try done; [left|right; eauto].
  split; [done|]. pose proof (few_count s A ∅ 1 (v_acct _ _ _ _ _ R) F). lia.
Qed.

Lemma map_page_correct_witness :
  outcome (map_page demo (0x3000 * PAGE_SIZE)) (free_frames demo < 2)%nat (fun s' => same demo s' /\ exists A',
    vmrel s' A' ∅ ∅ (gone A' 257) /\ kept demo_space (pm demo) (pm s') /\ mapped demo_space 257 0x3000 A' (pm s')).
Proof. apply (map_page_correct demo demo_space ∅ 0x3000 vm_demo_rel vm_demo_ready). by split. Defined.

(** The same in the kernel's half, where the tables exist and all address spaces
    share them. *)
Theorem map_kernel_page_correct s A T v : vmrel s A T ∅ (gone A (root s)) -> ready s T -> kernel_page v ->
  outcome (map_page s (v * PAGE_SIZE)) (free_frames s = 0)%nat (fun s' => same s s' /\ exists A',
    vmrel s' A' T ∅ (gone A' (root s)) /\ kept A (pm s) (pm s') /\
    match kpages A !! v with
    | Some _ => A' = A
    | None => exists f, A' = add_kpage A v f /\ 0 < f < 8192 /\ refs A f = 0 /\ ~ data_frame A f /\
        forall o, 0 <= o < 4096 -> pm s' (4096 * f + o) = 0
    end).
Proof.
  intros R Rd Hv. destruct (map_page_kernel s A T ∅ v R) as [[E F]|(s' & E & H)]; try apply Rd; try done; [left|right; eauto].
  split; [done|]. pose proof (few_count s A ∅ 0 (v_acct _ _ _ _ _ R) F). lia.
Qed.

Lemma map_kernel_page_correct_witness :
  outcome (map_page demo (0xC0001 * PAGE_SIZE)) (free_frames demo = 0)%nat (fun s' => same demo s' /\ exists A',
    vmrel s' A' ∅ ∅ (gone A' 257) /\ kept demo_space (pm demo) (pm s') /\
    match kpages demo_space !! 0xC0001 with
    | Some _ => A' = demo_space
    | None => exists f, A' = add_kpage demo_space 0xC0001 f /\ 0 < f < 8192 /\ refs demo_space f = 0 /\ ~ data_frame demo_space f /\
        forall o, 0 <= o < 4096 -> pm s' (4096 * f + o) = 0
    end).
Proof.
  apply (map_kernel_page_correct demo demo_space ∅ 0xC0001 vm_demo_rel vm_demo_ready).
  split; [by split|]. split; [done|]. unfold temp. lia.
Defined.

(** [release_user_space_pages] leaves the current address space without pages and
    tables and frees every frame that only it used; a frame that others share keeps
    their references, and the other pages their bytes. *)
Theorem release_correct s A T : vmrel s A T ∅ (gone A (root s)) -> ready s T ->
  exists s', release_user_space_pages s = Ok s' /\ same s s' /\
    vmrel s' (released A (root s)) T ∅ (gone (released A (root s)) (root s)) /\
    kept (released A (root s)) (pm s) (pm s') /\
    (forall i t, tbl A !! (root s, i) = Some t -> phy_frames_array s' !! Z.to_nat t = Some 0) /\
    (forall v f rw, pages A !! (root s, v) = Some (f, rw) ->
       phy_frames_array s' !! Z.to_nat f = Some (uses fst (pages (released A (root s))) f)).
Proof.
  intros R Rd. pose proof (v_acct _ _ _ _ _ R) as Ac.
  destruct (release_user_space_ok s A T R Rd) as (s' & E & S & R' & K). pose proof (v_acct _ _ _ _ _ R') as Ac'.
  exists s'. split; [done|]. split; [done|]. split; [done|]. split; [exact K|]. split.
  - intros i t Ht. destruct (a_tbl _ _ _ Ac _ _ _ Ht) as (_ & _ & Hr & Hk & Hkp & H1 & Hp).
    rewrite (a_ref _ _ _ Ac' t Hr), uses_empty. f_equal. unfold refs.
    change (kern (released A (root s)) t) with (kern A t). change (kpages (released A (root s))) with (kpages A).
    replace (uses id (tbl (released A (root s))) t) with 0; [replace (uses fst (pages (released A (root s))) t) with 0; [lia|]|];
      symmetry; apply uses_zero.
    + intros k x Hx. rewrite (released_pages _ _ _ _ _ Ac) in Hx. case_decide; [done|].
      by apply (proj1 (uses_zero fst (pages A) t) Hp k).
    + intros k x Hx. rewrite (released_tbl _ _ _ _ _ Ac) in Hx. case_decide as Hd; [done|]. intros Ex. cbn in Ex. subst x.
      pose proof (uses_one id (tbl A) _ _ _ _ Ht Hx eq_refl H1) as <-. done.
  - intros v f rw Hp. destruct (a_page _ _ _ Ac _ _ _ _ Hp) as (_ & Hr & Hk & Hkp).
    destruct (page_uses _ _ _ Ac _ _ _ _ Hp) as (_ & _ & Ht & _).
    rewrite (a_ref _ _ _ Ac' f Hr), uses_empty. f_equal. unfold refs.
    change (kern (released A (root s)) f) with (kern A f). change (kpages (released A (root s))) with (kpages A).
    replace (uses id (tbl (released A (root s))) f) with 0; [lia|]. symmetry. apply uses_zero. intros k x Hx.
    rewrite (released_tbl _ _ _ _ _ Ac) in Hx. case_decide; [done|]. by apply (proj1 (uses_zero id (tbl A) f) Ht k).
Qed.

Lemma release_correct_witness :
  exists s', release_user_space_pages demo = Ok s' /\ same demo s' /\
    vmrel s' (released demo_space 257) ∅ ∅ (gone (released demo_space 257) 257) /\
    kept (released demo_space 257) (pm demo) (pm s') /\
    (forall i t, tbl demo_space !! (257, i) = Some t -> phy_frames_array s' !! Z.to_nat t = Some 0) /\
    (forall v f rw, pages demo_space !! (257, v) = Some (f, rw) ->
       phy_frames_array s' !! Z.to_nat f = Some (uses fst (pages (released demo_space 257)) f)).
Proof. exact (release_correct demo demo_space ∅ vm_demo_rel vm_demo_ready). Defined.

(** [alloc_phy_frame] takes the first free frame after the last one it gave, going
    round, marks it and nothing else; it gives none exactly when no frame is free. *)
Theorem alloc_phy_frame_correct s : unlocked s -> Z.of_nat (length (phy_frames_array s)) = TOTAL_FRAMES ->
  0 <= last_allocated_index s < TOTAL_FRAMES ->
  (exists f, alloc_phy_frame s = Ok (Some f, with_frames s (<[Z.to_nat f := 1]> (phy_frames_array s)) f) /\
     0 <= f < TOTAL_FRAMES /\ phy_frames_array s !! Z.to_nat f = Some 0 /\
     forall j, 0 <= j < (f - last_allocated_index s) mod TOTAL_FRAMES ->
       phy_frames_array s !! Z.to_nat ((last_allocated_index s + j) mod TOTAL_FRAMES) <> Some 0) \/
  (alloc_phy_frame s = Ok (None, s) /\ forall f, 0 <= f < TOTAL_FRAMES -> phy_frames_array s !! Z.to_nat f <> Some 0).
Proof. exact (alloc_phy_frame_search s). Qed.

Lemma alloc_phy_frame_correct_witness :
  (exists f, alloc_phy_frame demo = Ok (Some f, with_frames demo (<[Z.to_nat f := 1]> (phy_frames_array demo)) f) /\
     0 <= f < TOTAL_FRAMES /\ phy_frames_array demo !! Z.to_nat f = Some 0 /\
     forall j, 0 <= j < (f - last_allocated_index demo) mod TOTAL_FRAMES ->
       phy_frames_array demo !! Z.to_nat ((last_allocated_index demo + j) mod TOTAL_FRAMES) <> Some 0) \/
  (alloc_phy_frame demo = Ok (None, demo) /\ forall f, 0 <= f < TOTAL_FRAMES -> phy_frames_array demo !! Z.to_nat f <> Some 0).
Proof.
  apply (alloc_phy_frame_correct demo); [done| |by split].
  exact (a_len _ _ _ demo_acct).
Defined.

(** The temporary page is still mapped when [handle_cow_fault] releases its lock: a
    second fault on a shared page that comes before the first has removed the mapping
    stops the machine. *)
Theorem cow_interrupted_panics s A T va f rw g : vmrel s A T ∅ (gone A (root s)) -> unlocked s -> copy_unlocked s ->
  T !! 0xFFFFF = Some g -> pages A !! (root s, va / 4096) = Some (f, rw) -> uses fst (pages A) f <> 1 ->
  handle_cow_fault s va = Err Panic.
Proof.
  intros R Hl Hc HT Hp H1. pose proof (v_acct _ _ _ _ _ R) as Ac. set (v := va / 4096) in *.
  destruct (page_table _ _ _ _ _ R v f rw Hp) as (t & Ht & Hv & He & Hpr & Hf). destruct (user_page_pdi v Hv) as [Hi Hr].
  destruct (a_page _ _ _ Ac _ _ _ _ Hp) as (_ & Hfr & _).
  destruct (page_uses _ _ _ Ac _ _ _ _ Hp) as (_ & _ & _ & Hu1 & Hrf).
  unfold handle_cow_fault. replace (va / 4194304) with (v / 1024) by (unfold v; zdiv). fold v.
  destruct (load_pde s A T ∅ _ (v / 1024) R (gone_windows_ok _ _) (user_pdi_range _ Hi)) as (t1 & -> & R1 & _).
  cbn [res_bind]. rewrite Hpr. destruct (load_pte _ A T ∅ _ v t R1 (gone_windows_ok _ _) Hr Hpr Hf) as (t2 & -> & R2 & _).
  cbn [res_bind]. change (mt (mt s (pm s) t1) (pm (mt s (pm s) t1)) t2) with (mt s (pm s) t2) in *.
  change (pm (mt s (pm s) t1)) with (pm s). destruct He as (-> & -> & _). set (s2 := mt s (pm s) t2) in *.
  assert (Hn : phy_frames_array s2 !! Z.to_nat f = Some (uses fst (pages A) f)).
  { rewrite (a_ref _ _ _ (v_acct _ _ _ _ _ R2) f Hfr), uses_empty, Hrf. f_equal. lia. }
  rewrite !(get_phy_frame_ref_ok s2 f _ Hl Hfr Hn). cbn [res_bind].
  replace (uses fst (pages A) f >=? 1) with true by (symmetry; zbool; lia).
  rewrite (get_phy_frame_ref_ok s2 f _ Hl Hfr Hn). cbn [res_bind].
  replace (uses fst (pages A) f =? 1) with false by (symmetry; zbool; lia).
  destruct (alloc_phy_frame_ok s2 A T ∅ _ R2 Hl) as [(h & -> & Hh & _ & R3)|[-> _]]; [|done].
  cbn [res_bind]. set (s3 := with_frames s2 _ h) in *.
  destruct (with_copy_lock s3 Hc) as (s4 & -> & L4 & _). cbn [res_bind].
  pose proof (relocked_rel _ _ _ _ _ _ L4 R3) as R4. destruct (relocked_eq _ _ L4) as (_ & _ & Er4 & _).
  change (root s3) with (root s) in Er4. change COPIED_PAGE_VADDR with (0xFFFFF * 4096).
  unfold map_page_with_frame_impl, ensure_table, map_leaf. change (0xFFFFF * 4096 / 4194304) with 1023. change (0xFFFFF * 4096 / 4096) with 0xFFFFF.
  assert (Hk : kernel_pdi 1023) by (unfold kernel_pdi; lia).
  assert (HW : windows_ok (set_kern A h 1) (root s4) (gone A (root s))) by (rewrite Er4; exact (gone_windows_ok A (root s))).
  destruct (t_kdir _ _ _ (v_tables _ _ _ _ _ R4) _ _ (v_root _ _ _ _ _ R4) Hk) as (Hkp & Hkf).
  destruct (load_pde s4 _ T ∅ _ 1023 R4 HW ltac:(lia)) as (t5 & -> & R5 & _). cbn [res_bind]. rewrite Hkp. cbn [negb res_bind].
  destruct (load_pte _ _ T ∅ _ 0xFFFFF (ktbl A 1023) R5 HW ltac:(lia) Hkp Hkf) as (t6 & -> & R6 & _). cbn [res_bind].
  pose proof (t_kleaf _ _ _ (v_tables _ _ _ _ _ R4) 1023 1023 Hk ltac:(lia)) as Hlf.
  change (1024 * 1023 + 1023) with 0xFFFFF in Hlf. rewrite (lookup_union_Some_l _ _ _ _ HT) in Hlf. destruct Hlf as [Hlf _].
  change (0xFFFFF mod 1024) with 1023. change (ktbl (set_kern A h 1)) with (ktbl A) in Hlf.
  change (pm (mt s4 (pm s4) t5)) with (pm s4). rewrite Hlf. replace (h >? 0) with true by (symmetry; zbool; lia). done.
Qed.
