(* ===== verification/KernelMem.v ===== *)
(** The kernel's own pages as one memory: accesses of the kernel to a page no other
    mapping shares act on it as on the flat memory of [Memory]. *)
From S2P Require Import Prelude Memory BitMap Page PageMem PageSpec PageOps PageMap PageCow.

(** [memset] of [common/stdlib.c] on virtual addresses. *)
Definition vmemset (s : vm) (dest val len : Z) : res vm :=
  assert! negb (dest =? 0) in
  for_loop (Z.to_nat len) 0 (fun i s => vstore8 s (dest + i) val) s.

(** Words stored one after the other, at offsets from [base]. *)
Fixpoint vstores (s : vm) (base : Z) (l : list (Z * Z)) : res vm :=
  match l with
  | [] => Ok s
  | (o, w) :: l => let! s := vstore32 s (base + o) w in vstores s base l
  end.
Fixpoint stores (m : mem) (base : Z) (l : list (Z * Z)) : mem :=
  match l with
  | [] => m
  | (o, w) :: l => stores (store32 m (base + o) w) base l
  end.

(** ** The kernel's pages *)

(** The byte at a kernel address. *)
Definition kflat (A : space) (m : mem) : mem := fun a =>
  match kpages A !! (a / 4096) with Some f => m (4096 * f + a mod 4096) | None => 0 end.

(** The page has a frame of its own. *)
Definition private (A : space) (v : Z) : Prop := exists f, kpages A !! v = Some f /\ refs A f = 1 /\ 0 <= f < 8192.

(** The memory of the processes is the same. *)
Definition user_kept (A : space) (m m' : mem) : Prop :=
  forall d v f rw, pages A !! (d, v) = Some (f, rw) -> same_frame m m' f.

Lemma user_kept_refl A m : user_kept A m m.
Proof. intros d v f rw _. apply same_frame_refl. Qed.
Lemma user_kept_trans A m1 m2 m3 : user_kept A m1 m2 -> user_kept A m2 m3 -> user_kept A m1 m3.
Proof. intros H1 H2 d v f rw Hp. eapply same_frame_trans; eauto. Qed.

Lemma private_frame A N l v f : acct A N l -> kpages A !! v = Some f -> refs A f = 1 ->
  (forall u, kpages A !! u = Some f -> u = v) /\ (forall d u g rw, pages A !! (d, u) = Some (g, rw) -> g <> f).
Proof.
  intros Ac Hv Hr. pose proof (uses_pos id (kpages A) v f Hv) as Hu. cbn in Hu. pose proof (a_kern _ _ _ Ac f).
  pose proof (uses_nonneg id (tbl A) f). pose proof (uses_nonneg fst (pages A) f). unfold refs in Hr. split.
  - intros u Hf. apply (uses_one id (kpages A) u f v f); [done..|cbn; lia].
  - intros d u g rw Hp ->. pose proof (uses_pos fst (pages A) (d, u) (f, rw) Hp) as Hq. cbn in Hq. lia.
Qed.

(** ** Writing *)

(** After writes to the kernel's pages, whose contents are now [m]. *)
Record kwrote (s : vm) (A : space) (T : gmap Z Z) (P : Z -> Prop) (s' : vm) (m : mem) : Prop := {
  kw_same : same s s';
  kw_rel : vmrel s' A T ∅ P;
  kw_view x : kflat A (pm s') x = m x;
  kw_user : user_kept A (pm s) (pm s')
}.

Section access.
Context (A : space) (T : gmap Z Z) (P : Z -> Prop).

Lemma kwrote_refl s : vmrel s A T ∅ P -> kwrote s A T P s (kflat A (pm s)).
Proof. intros R. split; [apply same_refl|done|done|apply user_kept_refl]. Qed.

Lemma kwrote_ext s s' m m' : kwrote s A T P s' m -> (forall x, m' x = m x) -> kwrote s A T P s' m'.
Proof. intros [] H. split; try done. intros x. by rewrite H. Qed.

Lemma kwrote_trans s s1 s2 m1 m2 : kwrote s A T P s1 m1 -> kwrote s1 A T P s2 m2 -> kwrote s A T P s2 m2.
Proof. intros [] []. split; [by eapply same_trans|done|done|by eapply user_kept_trans]. Qed.

Lemma kpage_points s v f : vmrel s A T ∅ P -> kpages A !! v = Some f ->
  points (pm s) (root s) (v * 4096) f 0 /\ ~ structural A f /\ 0 <= v < 2 ^ 20.
Proof.
  intros R Hf. pose proof (v_acct _ _ _ _ _ R) as Ac. destruct (a_kpage _ _ _ Ac _ _ Hf) as (Hk & Hnt & _).
  assert (0 <= v < 2 ^ 20) as Hv by (unfold kernel_pdi in Hk; zdiv).
  split; [|split; [|done]].
  - eapply points_kernel; [exact R|done|done|]. rewrite lookup_union_r; [done|].
    destruct (T !! v) eqn:E; [|done]. by destruct Hnt; eapply (t_temp _ _ _ (v_tables _ _ _ _ _ R)).
  - eapply data_not_structural; [exact Ac|]. right. by exists v.
Qed.

Lemma addr_split a : a = 4096 * (a / 4096) + a mod 4096 /\ 0 <= a mod 4096 < 4096.
Proof. split; [apply Z.div_mod; lia|apply Z.mod_pos_bound; lia]. Qed.

(** The physical address of a kernel address. *)
Lemma kpaddr_ok s a f : vmrel s A T ∅ P -> kpages A !! (a / 4096) = Some f -> ~ P (a / 4096) ->
  exists t, paddr s a = Ok (4096 * f + a mod 4096, mt s (pm s) t) /\ vmrel (mt s (pm s) t) A T ∅ P.
Proof.
  intros R Hf HP. destruct (kpage_points s _ f R Hf) as (Hp & _ & Hv). destruct (addr_split a) as [Ea Hm].
  destruct (paddr_ok s a f (a mod 4096) P) as (t & E & Ht & _); [apply R|done| |].
  - rewrite Ea at 1. rewrite (Z.mul_comm 4096). apply points_page; [done|done|lia].
  - exists t. split; [done|]. destruct R. by split.
Qed.

Lemma kload8_ok s a f : vmrel s A T ∅ P -> kpages A !! (a / 4096) = Some f -> ~ P (a / 4096) ->
  exists s', vload8 s a = Ok (kflat A (pm s) a, s') /\ kwrote s A T P s' (kflat A (pm s)).
Proof.
  intros R Hf HP. destruct (kpaddr_ok s a f R Hf HP) as (t & E & R'). unfold vload8. rewrite E. cbn [res_bind].
  exists (mt s (pm s) t). split; [unfold kflat, load8; by rewrite Hf|]. split; [done|done|done|apply user_kept_refl].
Qed.

(** A change inside the frame of a private page. *)
Lemma frame_written s m f v : vmrel s A T ∅ P -> kpages A !! v = Some f -> refs A f = 1 ->
  only_frame (pm s) m f ->
  vmrel (with_pm s m) A T ∅ P /\ same s (with_pm s m) /\ user_kept A (pm s) m /\
  forall x, x / 4096 <> v -> kflat A m x = kflat A (pm s) x.
Proof.
  intros R Hf Hr O. pose proof (v_acct _ _ _ _ _ R) as Ac. destruct (private_frame A ∅ _ v f Ac Hf Hr) as [Hinj Hpg].
  destruct (kpage_points s v f R Hf) as (_ & Hns & _). split; [|split; [done|split]].
  - pose proof R as [r1 r2 r3 r4 r5 r6]. split; try done.
    + by eapply tables_frame.
    + intros u e He. destruct (r6 u e He) as [Hu [Hw|?]]; [|split; auto]. split; [done|left].
      cbn. rewrite (walk_only (pm s) m _ f); try done. intros Hvia. apply Hns. by eapply via_structural.
  - intros d u g rw Hp. eapply only_frame_same; [exact O|by eapply Hpg].
  - intros x Hx. unfold kflat. destruct (kpages A !! (x / 4096)) as [g|] eqn:Eg; [|done].
    destruct O as [_ O]. apply O. destruct (decide (g = f)) as [->|]; [by destruct Hx; apply Hinj|].
    destruct (addr_split x). lia.
Qed.

Lemma kstore8_ok s a b : vmrel s A T ∅ P -> private A (a / 4096) -> ~ P (a / 4096) ->
  exists s', vstore8 s a b = Ok s' /\ kwrote s A T P s' (store8 (kflat A (pm s)) a b).
Proof.
  intros R (f & Hf & Hr & _) HP. destruct (kpaddr_ok s a f R Hf HP) as (t & E & R').
  unfold vstore8. rewrite wpaddr_paddr, E. cbn [res_bind]. destruct (addr_split a) as [Ea Ha].
  destruct (frame_written _ (store8 (pm s) (4096 * f + a mod 4096) b) f _ R' Hf Hr) as (R2 & S & U & V).
  { apply store8_only; [apply (t_mem _ _ _ (v_tables _ _ _ _ _ R))|done]. }
  eexists. split; [reflexivity|]. split; [exact S|exact R2| |exact U]. intros x. cbn.
  destruct (decide (x / 4096 = a / 4096)) as [Ex|]; [|rewrite V by done; symmetry; apply store8_ne; congruence].
  unfold store8, kflat. rewrite Ex, Hf. destruct (addr_split x) as [Exx ?].
  destruct (decide (x = a)) as [->|]; [by rewrite !Z.eqb_refl|].
  replace (x =? a) with false by (symmetry; zbool). replace (_ =? _) with false by (symmetry; zbool; lia). done.
Qed.

Lemma kflat_word m v f i : kpages A !! v = Some f -> 0 <= i < 1024 ->
  load32 (kflat A m) (v * 4096 + 4 * i) = ent m f i.
Proof.
  intros Hf Hi. assert (forall k, 0 <= k < 4 -> kflat A m (v * 4096 + 4 * i + k) = m (4096 * f + 4 * i + k)) as H.
  { intros k Hk. unfold kflat. destruct (page_of (v * 4096) (4 * i + k) ltac:(zdiv) ltac:(lia)) as [E1 E2].
    rewrite Z.add_assoc in E1, E2. rewrite E1, E2. replace (v * 4096 / 4096) with v by zdiv. rewrite Hf. f_equal. lia. }
  unfold ent, load32. pose proof (H 0 ltac:(lia)) as H0. rewrite !Z.add_0_r in H0. by rewrite H0, !H by lia.
Qed.

Lemma aligned_split a : a mod 4 = 0 -> exists v i, v = a / 4096 /\ a = v * 4096 + 4 * i /\ 0 <= i < 1024 /\ a mod 4096 = 4 * i.
Proof. intros Ha. exists (a / 4096), (a mod 4096 / 4). split; [done|]. zdiv. Qed.

Lemma kstore32_ok s a w : vmrel s A T ∅ P -> private A (a / 4096) -> ~ P (a / 4096) -> a mod 4 = 0 ->
  exists s', vstore32 s a w = Ok s' /\ kwrote s A T P s' (store32 (kflat A (pm s)) a w).
Proof.
  intros R (f & Hf & Hr & _) HP Hal. destruct (kpaddr_ok s a f R Hf HP) as (t & E & R').
  unfold vstore32. rewrite wpaddr_paddr, E. cbn [res_bind]. destruct (aligned_split a Hal) as (v & i & Hv & Ea & Hi & Em).
  rewrite <- Hv in Hf. rewrite Em.
  destruct (frame_written _ (store32 (pm s) (4096 * f + 4 * i) w) f v R' Hf Hr) as (R2 & S & U & V).
  { apply store32_only; [apply (t_mem _ _ _ (v_tables _ _ _ _ _ R))|done]. }
  eexists. split; [reflexivity|]. split; [exact S|exact R2| |exact U]. intros x. cbn.
  destruct (decide (x / 4096 = v)) as [Ex|Ex]; [|rewrite V by done; symmetry; apply store32_ne; zdiv].
  destruct (addr_split x) as [Exx ?]. rewrite Ex in Exx. unfold kflat at 1. rewrite Ex, Hf.
  destruct (store32_bytes (pm s) (4096 * f + 4 * i) w) as (B0 & B1 & B2 & B3).
  destruct (store32_bytes (kflat A (pm s)) a w) as (C0 & C1 & C2 & C3).
  destruct (decide (a <= x < a + 4)).
  - assert (x = a \/ x = a + 1 \/ x = a + 2 \/ x = a + 3) as [-> | [-> | [-> | ->]]] by lia;
      rewrite ?C0, ?C1, ?C2, ?C3, <- ?B0, <- ?B1, <- ?B2, <- ?B3; f_equal; lia.
  - rewrite !store32_ne by lia. unfold kflat. by rewrite Ex, Hf.
Qed.

(** Several words. *)
Lemma stores_ext l m m' base x : (forall x, m' x = m x) -> stores m' base l x = stores m base l x.
Proof.
  revert m m'. induction l as [|[o w] l IH]; intros m m' H; cbn [stores]; [done|].
  apply IH. intros y. unfold store32, store8. by rewrite H.
Qed.

Lemma kstores_ok l base : forall s, vmrel s A T ∅ P ->
  (forall o w, (o, w) ∈ l -> private A ((base + o) / 4096) /\ ~ P ((base + o) / 4096) /\ (base + o) mod 4 = 0) ->
  exists s', vstores s base l = Ok s' /\ kwrote s A T P s' (stores (kflat A (pm s)) base l).
Proof.
  induction l as [|[o w] l IH]; intros s R Hl; cbn [vstores stores].
  - exists s. split; [done|]. by apply kwrote_refl.
  - destruct (Hl o w ltac:(by left)) as (H1 & H2 & H3). destruct (kstore32_ok s (base + o) w R H1 H2 H3) as (s1 & -> & K1).
    cbn [res_bind]. destruct (IH s1 (kw_rel _ _ _ _ _ _ K1)) as (s2 & -> & K2); [intros; apply (Hl o0 w0); by right|].
    exists s2. split; [done|]. eapply kwrote_trans; [exact K1|]. eapply kwrote_ext; [exact K2|].
    intros x. symmetry. apply stores_ext. apply K1.
Qed.
End access.

(** ** The memory routines *)

(** Two loops in step. *)
Lemma for_loop_step {X Y} (R : X -> Y -> Prop) n i f g x y : R x y ->
  (forall j x y, i <= j < i + Z.of_nat n -> R x y -> exists x' y', f j x = Ok x' /\ g j y = Ok y' /\ R x' y') ->
  exists x' y', for_loop n i f x = Ok x' /\ for_loop n i g y = Ok y' /\ R x' y'.
Proof.
  revert i x y. induction n as [|n IH]; intros i x y HR Hs; cbn [for_loop].
  - eauto.
  - destruct (Hs i x y ltac:(lia) HR) as (x1 & y1 & -> & -> & H1). cbn [res_bind].
    apply IH; [done|]. intros j x' y' Hj. apply Hs. lia.
Qed.

Section routines.
Context (A : space) (T : gmap Z Z) (P : Z -> Prop).

(** [lo, hi) lies in pages of their own. *)
Definition kernel_range (lo hi : Z) : Prop := forall a, lo <= a < hi -> private A (a / 4096) /\ ~ P (a / 4096).

Lemma store8_ext m m' a b x : (forall x, m' x = m x) -> store8 m' a b x = store8 m a b x.
Proof. intros H. unfold store8. by rewrite H. Qed.

(** [memset] on the pages is that on the flat memory. *)
Lemma kmemset_ok s dest val len : vmrel s A T ∅ P -> dest <> 0 -> 0 <= len -> kernel_range dest (dest + len) ->
  exists s' m, vmemset s dest val len = Ok s' /\ memset (kflat A (pm s)) dest val len = Ok m /\ kwrote s A T P s' m.
Proof.
  intros R Hd Hl Hk. unfold vmemset, memset. replace (dest =? 0) with false by (symmetry; zbool). cbn [negb].
  apply (for_loop_step (fun s' m => kwrote s A T P s' m)); [by apply kwrote_refl|].
  intros j s1 m1 Hj K. destruct (Hk (dest + j) ltac:(lia)) as [H1 H2].
  destruct (kstore8_ok A T P s1 (dest + j) val (kw_rel _ _ _ _ _ _ K) H1 H2) as (s2 & -> & K2).
  eexists _, _. split; [done|]. split; [done|]. eapply kwrote_trans; [exact K|]. eapply kwrote_ext; [exact K2|].
  intros x. symmetry. apply store8_ext. apply K.
Qed.

(** [memcpy] likewise; the source is only read. *)
Lemma kmemcpy_ok s dest src len : vmrel s A T ∅ P -> dest <> 0 -> src <> 0 -> 0 <= len ->
  kernel_range dest (dest + len) -> kernel_range src (src + len) ->
  exists s' m, vmemcpy s dest src len = Ok s' /\ memcpy (kflat A (pm s)) dest src len = Ok m /\ kwrote s A T P s' m.
Proof.
  intros R Hd Hs Hl Hk Hks. unfold vmemcpy, memcpy. replace (dest =? 0) with false by (symmetry; zbool).
  replace (src =? 0) with false by (symmetry; zbool). cbn [negb andb].
  apply (for_loop_step (fun s' m => kwrote s A T P s' m)); [by apply kwrote_refl|].
  intros j s1 m1 Hj K. destruct (Hk (dest + j) ltac:(lia)) as [H1 H2]. destruct (Hks (src + j) ltac:(lia)) as [(f & Hf & _) H4].
  destruct (kload8_ok A T P s1 (src + j) f (kw_rel _ _ _ _ _ _ K) Hf H4) as (s2 & -> & K2). cbn [res_bind].
  destruct (kstore8_ok A T P s2 (dest + j) (kflat A (pm s1) (src + j)) (kw_rel _ _ _ _ _ _ K2) H1 H2) as (s3 & -> & K3).
  eexists _, _. split; [done|]. split; [done|]. eapply kwrote_trans; [exact K|]. eapply kwrote_trans; [exact K2|].
  eapply kwrote_ext; [exact K3|]. intros x. unfold load8. rewrite <- (kw_view _ _ _ _ _ _ K (src + j)). symmetry. apply store8_ext.
  intros y. rewrite (kw_view _ _ _ _ _ _ K2). apply (kw_view _ _ _ _ _ _ K).
Qed.
End routines.

Lemma kflat_bytes A m x : bytes_ok m -> 0 <= kflat A m x < 256.
Proof. intros Hm. unfold kflat. case_match; [apply Hm|lia]. Qed.

(** ** Pages come and go *)
Lemma private_add A v f u : kpages A !! v = None -> refs A f = 0 -> private A u -> private (add_kpage A v f) u.
Proof.
  intros Hv Hf (g & Hg & Hr & Hgr). exists g. cbn. rewrite lookup_insert_ne by congruence. split; [done|]. split; [|done].
  unfold refs in *. cbn. rewrite (uses_insert id) by done. rewrite decide_False; [lia|]. cbn. intros ->. lia.
Qed.

Lemma private_new A v f : kpages A !! v = None -> refs A f = 0 -> 0 <= f < 8192 -> private (add_kpage A v f) v.
Proof.
  intros Hv Hf Hr. exists f. cbn. rewrite lookup_insert_eq. split; [done|]. split; [|done].
  unfold refs in *. cbn. rewrite (uses_insert id) by done. rewrite decide_True by done. lia.
Qed.

Lemma private_delete A N l v u : acct A N l -> u <> v -> private A u -> private A v ->
  private (with_kpages A (delete v (kpages A))) u.
Proof.
  intros Ac Hu (g & Hg & Hr & Hgr) (f & Hf & Hrf & Hfr). destruct (private_frame A N l u g Ac Hg Hr) as [Hinj _].
  exists g. cbn. rewrite lookup_delete_ne by done. split; [done|]. split; [|done].
  unfold refs in *. cbn. rewrite (uses_delete id (kpages A) v f g Hf). rewrite decide_False; [lia|].
  cbn. intros ->. by destruct Hu; symmetry; apply Hinj.
Qed.

(** An operation that maps, releases or writes the kernel's pages [V] only. *)
Record kstep (s : vm) (A : space) (T : gmap Z Z) (s' : vm) (A' : space) (V : Z -> Prop) : Prop := {
  ks_same : same s s';
  ks_rel : vmrel s' A' T ∅ (gone A' (root s'));
  ks_space : A' = with_kpages A (kpages A');
  ks_pages u : ~ V u -> kpages A' !! u = kpages A !! u;
  ks_private u : ~ V u -> private A u -> private A' u;
  ks_view x : ~ V (x / 4096) -> kflat A' (pm s') x = kflat A (pm s) x;
  ks_kept : user_kept A (pm s) (pm s')
}.

Lemma kpages_self A : A = with_kpages A (kpages A).
Proof. by destruct A. Qed.

Lemma kstep_refl s A T V : vmrel s A T ∅ (gone A (root s)) -> kstep s A T s A V.
Proof. intros R. split; auto using same_refl, kpages_self, user_kept_refl. Qed.

Lemma kstep_trans s A T s1 A1 s2 A2 V : kstep s A T s1 A1 V -> kstep s1 A1 T s2 A2 V -> kstep s A T s2 A2 V.
Proof.
  intros [a1 a2 a3 a4 a5 a6 a7] [b1 b2 b3 b4 b5 b6 b7]. split; [by eapply same_trans|done| | | | |].
  - rewrite b3, a3. done.
  - intros u Hu. by rewrite b4, a4.
  - intros u Hu Hp. by apply b5, a5.
  - intros x Hx. by rewrite b6, a6.
  - eapply user_kept_trans; [exact a7|]. intros d v f rw Hp. apply (b7 d v f rw). by rewrite a3.
Qed.

Lemma kstep_weaken s A T s' A' (V W : Z -> Prop) : kstep s A T s' A' V -> (forall u, V u -> W u) -> kstep s A T s' A' W.
Proof. intros [] H. split; try done; intros u Hu; eauto. Qed.

Lemma kwrote_step s A T s' m (V : Z -> Prop) : kwrote s A T (gone A (root s)) s' m ->
  (forall x, ~ V (x / 4096) -> m x = kflat A (pm s) x) -> kstep s A T s' A V.
Proof.
  intros [a1 a2 a3 a4] H. split; try done; [by rewrite (same_root _ _ a1)|apply kpages_self|].
  intros x Hx. rewrite a3. by apply H.
Qed.

Lemma unlocked_same s s' : same s s' -> unlocked s -> unlocked s'.
Proof. intros ->. done. Qed.
Lemma dir_unlocked_same s s' : same s s' -> dir_unlocked s -> dir_unlocked s'.
Proof. intros ->. done. Qed.

Lemma no_temp_map s A T N P v f : vmrel s A T N P -> kpages A !! v = Some f -> T !! v = None.
Proof.
  intros R Hv. destruct (a_kpage _ _ _ (v_acct _ _ _ _ _ R) _ _ Hv) as (_ & Hnt & _).
  destruct (T !! v) eqn:E; [|done]. by destruct Hnt; eapply (t_temp _ _ _ (v_tables _ _ _ _ _ R)).
Qed.

(** A page is mapped. *)
Lemma kmap_ok s A T v : vmrel s A T ∅ (gone A (root s)) -> unlocked s -> dir_unlocked s -> kernel_page v ->
  kpages A !! v = None ->
  outcome (map_page s (v * 4096)) (few 0 A ∅) (fun s' => exists f, refs A f = 0 /\ 0 <= f < 8192 /\
    kstep s A T s' (add_kpage A v f) (eq v) /\ private (add_kpage A v f) v).
Proof.
  intros R Hl Hd Hv Hn. destruct (map_page_kernel s A T ∅ v R Hl Hd Hv) as [?|(s' & E & S & A' & R' & K & M)]; [by left|right].
  rewrite Hn in M. destruct M as (f & -> & Hf & Hr & Hnd & _). exists s'. split; [done|]. exists f. split; [done|]. split; [lia|].
  split; [|by apply private_new; [done|done|lia]]. split; try done.
  - by rewrite (same_root _ _ S).
  - intros u Hu. cbn. by apply lookup_insert_ne.
  - intros u _. by apply private_add.
  - intros x Hx. unfold kflat. cbn. rewrite lookup_insert_ne by done. destruct (kpages A !! (x / 4096)) as [g|] eqn:Eg; [|done].
    apply K; [right; by eexists|]. apply Z.mod_pos_bound. lia.
  - intros d u g rw Hp. apply K. left. eauto.
Qed.

(** A page is released. *)
Lemma kunmap_ok s A T v : vmrel s A T ∅ (gone A (root s)) -> unlocked s -> dir_unlocked s -> private A v ->
  exists s', release_page s (v * 4096) true = Ok s' /\ kstep s A T s' (with_kpages A (delete v (kpages A))) (eq v).
Proof.
  intros R Hl Hd Hpv. pose proof Hpv as (f & Hf & Hr & Hfr). destruct (kpage_points A T _ s v f R Hf) as (_ & _ & Hv).
  destruct (release_kernel_page s A T ∅ _ v f R (gone_windows_ok _ _) Hl Hd (no_temp_map _ _ _ _ _ _ _ R Hf) Hf Hv Hfr) as (s' & E & S & R' & K).
  { rewrite Hr. rewrite uses_empty. lia. }
  exists s'. split; [done|]. split; try done.
  - by rewrite (same_root _ _ S).
  - intros u Hu. cbn. by apply lookup_delete_ne.
  - intros u Hu Hp. eapply private_delete; [apply R|by intros ->|done|done].
  - intros x Hx. unfold kflat. cbn. rewrite lookup_delete_ne by done. destruct (kpages A !! (x / 4096)) as [g|] eqn:Eg; [|done].
    apply K; [right; by eexists|]. apply Z.mod_pos_bound. lia.
  - intros d u g rw Hp. apply K. left. eauto.
Qed.

(** ** Two pages, one after the other *)
Definition pair_at (v u : Z) : Prop := u = v \/ u = v + 1.

Lemma few_after s A T v f s' : kstep s A T s' (add_kpage A v f) (eq v) -> kpages A !! v = None -> few 0 (add_kpage A v f) ∅ -> few 1 A ∅.
Proof.
  intros K Hn. apply (few_step _ _ _ _ _ f). intros g [Hg Hz]. destruct (decide (g = f)) as [|Hne]; [by left|right].
  split; [done|]. unfold refs in *. cbn. rewrite (uses_insert id) by done. rewrite decide_False by done. lia.
Qed.

Lemma kmap_pair s A T v : vmrel s A T ∅ (gone A (root s)) -> unlocked s -> dir_unlocked s -> kernel_page v -> kernel_page (v + 1) ->
  kpages A !! v = None -> kpages A !! (v + 1) = None ->
  outcome (for_loop 2 0 (fun i s => map_page s (v * 4096 + i * 4096)) s) (few 1 A ∅) (fun s' => exists A',
    kstep s A T s' A' (pair_at v) /\ private A' v /\ private A' (v + 1)).
Proof.
  intros R Hl Hd Hv Hv1 Hn Hn1. cbn [for_loop]. rewrite Z.add_0_r.
  destruct (kmap_ok s A T v R Hl Hd Hv Hn) as [[-> F]|(s1 & -> & f & Hf & Hfr & K1 & P1)].
  { left. split; [done|]. by eapply few_le; [|exact F]; lia. }
  cbn [res_bind]. pose proof (ks_same _ _ _ _ _ _ K1) as S1. assert (Hn1' : kpages (add_kpage A v f) !! (v + 1) = None).
  { cbn. by rewrite lookup_insert_ne by lia. }
  replace (v * 4096 + (0 + 1) * 4096) with ((v + 1) * 4096) by lia.
  destruct (kmap_ok s1 _ T (v + 1) (ks_rel _ _ _ _ _ _ K1) (unlocked_same _ _ S1 Hl) (dir_unlocked_same _ _ S1 Hd) Hv1 Hn1') as [[-> F]|(s2 & -> & g & Hg & Hgr & K2 & P2)].
  { left. split; [done|]. by eapply few_after. }
  right. exists s2. split; [done|]. eexists. split; [|split; [|exact P2]].
  - eapply kstep_trans; (eapply kstep_weaken; [done|]); intros ? <-; [by left|by right].
  - apply (ks_private _ _ _ _ _ _ K2); [lia|done].
Qed.

Definition without_pair (A : space) (v : Z) : space := with_kpages A (delete (v + 1) (delete v (kpages A))).

Lemma kunmap_pair s A T v : vmrel s A T ∅ (gone A (root s)) -> unlocked s -> dir_unlocked s -> private A v -> private A (v + 1) ->
  exists s', release_pages s (v * 4096) 2 true = Ok s' /\ kstep s A T s' (without_pair A v) (pair_at v).
Proof.
  intros R Hl Hd P0 P1. pose proof P0 as (f & Hf & _). pose proof P1 as (g & Hg & _).
  destruct (kpage_points A T _ s v f R Hf) as (_ & _ & Hv), (kpage_points A T _ s (v + 1) g R Hg) as (_ & _ & Hv1).
  destruct (a_kpage _ _ _ (v_acct _ _ _ _ _ R) _ _ Hf) as (Hk & _), (a_kpage _ _ _ (v_acct _ _ _ _ _ R) _ _ Hg) as (Hk1 & _).
  set (D := fun u => if u <=? v then A else if u <=? v + 1 then with_kpages A (delete v (kpages A)) else without_pair A v).
  set (I := fun u s' => kstep s A T s' (D u) (pair_at v)).
  destruct (release_pages_inv I (fun _ => I) s v 2 true) as (s' & E & HI); [lia..| | | | |].
  - intros i s1 Hi H. assert (kernel_pdi i) as Hki by (assert (i = v / 1024 \/ i = (v + 1) / 1024) as [-> | ->] by zdiv; done).
    pose proof (ks_rel _ _ _ _ _ _ H) as R1. destruct (load_pde s1 _ T ∅ _ i R1 (gone_windows_ok _ _) (kernel_pdi_range _ Hki)) as (t & -> & R2 & _).
    eexists _, _. split; [done|]. destruct (t_kdir _ _ _ (v_tables _ _ _ _ _ R1) _ _ (v_root _ _ _ _ _ R1) Hki) as (-> & _).
    eapply kstep_trans; [exact H|]. split; try done; auto using kpages_self.
  - intros i u s1 Hu _ H. pose proof (ks_same _ _ _ _ _ _ H) as S1. pose proof (ks_rel _ _ _ _ _ _ H) as R1.
    assert (u = v \/ u = v + 1) as [-> | ->] by lia; subst I D; cbv beta in *.
    + replace (v <=? v) with true in * by (symmetry; zbool). replace (v + 1 <=? v) with false by (symmetry; zbool; lia).
      replace (v + 1 <=? v + 1) with true by (symmetry; zbool).
      destruct (kunmap_ok s1 A T v R1 (unlocked_same _ _ S1 Hl) (dir_unlocked_same _ _ S1 Hd) P0) as (s2 & E2 & K2).
      exists s2. split; [done|]. eapply kstep_trans; [exact H|]. eapply kstep_weaken; [exact K2|]. intros ? <-. by left.
    + replace (v + 1 <=? v) with false in * by (symmetry; zbool; lia). replace (v + 1 <=? v + 1) with true in * by (symmetry; zbool).
      replace (v + 1 + 1 <=? v) with false by (symmetry; zbool; lia). replace (v + 1 + 1 <=? v + 1) with false by (symmetry; zbool; lia).
      assert (private (with_kpages A (delete v (kpages A))) (v + 1)) as P2 by (eapply private_delete; [apply R|lia|done|done]).
      destruct (kunmap_ok s1 _ T (v + 1) R1 (unlocked_same _ _ S1 Hl) (dir_unlocked_same _ _ S1 Hd) P2) as (s2 & E2 & K2).
      exists s2. split; [done|]. eapply kstep_trans; [exact H|]. eapply kstep_weaken; [exact K2|]. intros ? <-. by right.
  - done.
  - subst I D. cbv beta. replace (v <=? v) with true by (symmetry; zbool). by apply kstep_refl.
  - exists s'. split; [done|]. subst I D. cbv beta in HI. replace (v + 2 <=? v) with false in HI by (symmetry; zbool; lia).
    by replace (v + 2 <=? v + 1) with false in HI by (symmetry; zbool; lia).
Qed.
