(* ===== verification/Strings.v ===== *)
(** Number formatting and [sprintf] of [src/src/common/stdlib.c], and the user
    program's copy of the whole file, [src/user/src/user_sys/stdlib.c].  The copies
    differ in what they do with a null pointer: the kernel panics, the user library
    returns.

    A local array is where the compiler puts it: its address is an argument, [fp]
    for the digit buffer of a conversion and [buf] for that of [sprintf]. *)
From S2P Require Import Prelude Memory.

(** ** The memory routines of the user copy *)

(** [memset] *)
Definition user_memset (m : mem) (dest val len : Z) : res mem :=
  if dest =? 0 then Ok m
  else for_loop (Z.to_nat len) 0 (fun i m => Ok (store8 m (dest + i) val)) m.

(** [memcpy] *)
Definition user_memcpy (m : mem) (dest src len : Z) : res mem :=
  if (dest =? 0) || (src =? 0) then Ok m
  else for_loop (Z.to_nat len) 0 (fun i m => Ok (store8 m (dest + i) (load8 m (src + i)))) m.

(** [strcpy_with_len]: it returns only when both pointers are null. *)
Definition user_strcpy_with_len (fuel : nat) (m : mem) (dest src : Z) : res (Z * mem) :=
  if (dest =? 0) && (src =? 0) then Ok (0, m)
  else if (dest =? 0) || (src =? 0) then Err Fault
  else
    let! (i, m) := strcpy_loop fuel m dest src 0 in
    Ok (i, store8 m (dest + i) 0).

(** [strcmp] *)
Definition user_strcmp (fuel : nat) (m : mem) (src1 src2 : Z) : res Z :=
  if (src1 =? 0) && (src2 =? 0) then Ok 0
  else if (src1 =? 0) || (src2 =? 0) then Err Fault
  else strcmp_loop fuel m src1 src2 0.

(** [strlen] *)
Definition user_strlen (fuel : nat) (m : mem) (src : Z) : res Z :=
  if src =? 0 then Ok 0 else strlen_loop fuel m src 0.

(** ** Conversions; [user] says which copy *)
Section COPY.
Variable user : bool.

Definition copy_memset (m : mem) (dest val len : Z) : res mem :=
  if user then user_memset m dest val len else memset m dest val len.
Definition copy_strcpy (fuel : nat) (m : mem) (dest src : Z) : res (Z * mem) :=
  if user then user_strcpy_with_len fuel m dest src else strcpy_with_len fuel m dest src.

(** [if (dst == NULL) return 0;] or [Assert(dst != NULL);] *)
Definition null_dst (m : mem) : res (Z * mem) := if user then Ok (0, m) else Err Panic.

(** ['0' + remain], and the digit of [int2hex]. *)
Definition dec_digit (remain : Z) : Z := 48 + remain.
Definition hex_digit (remain : Z) : Z := if remain <=? 9 then 48 + remain else 97 + (remain - 10).

(** The loop that writes the digits at the end of the buffer of 20 bytes. *)
Fixpoint digits_loop (fuel : nat) (base : Z) (digit : Z -> Z) (m : mem) (fp num i : Z) : res (Z * mem) :=
  match fuel with
  | O => Err NoFuel
  | S fuel =>
      if num >? 0 then
        let remain := num mod base in
        if i <? 20 then
          digits_loop fuel base digit (store8 m (fp + i) (digit remain)) fp (num / base) (u32 (i - 1))
        else Err Fault
      else Ok (i, m)
  end.

(** A 32-bit number has at most ten digits, and the string copied ends within the
    buffer. *)
Definition digits_fuel : nat := 20.

(** The end of the three conversions: zero is written in place. *)
Definition put_number (base : Z) (digit : Z -> Z) (m : mem) (dst fp start num : Z) : res (Z * mem) :=
  if num =? 0 then
    let m := store8 m (dst + start) 48 in
    let start := start + 1 in
    Ok (start, store8 m (dst + start) 0)
  else
    let m := store8 m (fp + 19) 0 in
    let! (i, m) := digits_loop digits_fuel base digit m fp num 18 in
    let! (_, m) := copy_strcpy digits_fuel m (dst + start) (fp + i + 1) in
    Ok (start + 18 - i, m).

(** [int2str] *)
Definition int2str (m : mem) (dst fp num : Z) : res (Z * mem) :=
  if dst =? 0 then null_dst m
  else if num <? 0 then
    let m := store8 m dst 45 in
    put_number 10 dec_digit m dst fp 1 (u32 (- num))
  else put_number 10 dec_digit m dst fp 0 num.

(** [uint2str] *)
Definition uint2str (m : mem) (dst fp num : Z) : res (Z * mem) :=
  if dst =? 0 then null_dst m else put_number 10 dec_digit m dst fp 0 num.

(** [int2hex] *)
Definition int2hex (m : mem) (dst fp num : Z) : res (Z * mem) :=
  if dst =? 0 then null_dst m
  else
    let m := store8 m dst 48 in
    let m := store8 m (dst + 1) 120 in
    put_number 16 hex_digit m dst fp 2 num.

(** ** [sprintf] *)
Section SPRINTF.
(** The fuel of a string copy, the local buffers, and the literal ["(null)"]. *)
Variable sfuel : nat.
Variables (buf fp null_str : Z).

(** One conversion: the destination index and the arguments left. *)
Definition convert (m : mem) (dst w c : Z) (args : list Z) : res (mem * Z * list Z) :=
  let number conv :=
    match args with
    | num :: args =>
        let! (_, m) := conv num in
        let! (n, m) := copy_strcpy sfuel m (dst + w) buf in
        Ok (m, w + n, args)
    | [] => Err Fault
    end in
  match c with
  | 100 => number (fun num => int2str m buf fp (s32 num))
  | 117 => number (fun num => uint2str m buf fp num)
  | 120 | 88 => number (fun num => int2hex m buf fp num)
  | 115 =>
      match args with
      | str :: args =>
          let str := if str =? 0 then null_str else str in
          let! (n, m) := copy_strcpy sfuel m (dst + w) str in
          Ok (m, w + n, args)
      | [] => Err Fault
      end
  | 99 =>
      match args with
      | ch :: args => Ok (store8 m (dst + w) ch, w + 1, args)
      | [] => Err Fault
      end
  | 37 => Ok (store8 m (dst + w) 37, w + 1, args)
  | _ => Ok (store8 (store8 m (dst + w) 37) (dst + w + 1) c, w + 2, args)
  end.

Fixpoint sprintf_loop (fuel : nat) (m : mem) (dst format i w : Z) (args : list Z) : res (Z * mem) :=
  match fuel with
  | O => Err NoFuel
  | S fuel =>
      if load8 m (format + i) =? 0 then Ok (w, m)
      else
        let! m := copy_memset m buf 0 20 in
        if load8 m (format + i) =? 37 then
          let i := i + 1 in
          if load8 m (format + i) =? 0 then Ok (w, m)
          else
            let! (m, w, args) := convert m dst w (load8 m (format + i)) args in
            sprintf_loop fuel m dst format (i + 1) w args
        else
          let m := store8 m (dst + w) (load8 m (format + i)) in
          sprintf_loop fuel m dst format (i + 1) (w + 1) args
  end.

(** [sprintf], for the words [args] of the call after the format. *)
Definition sprintf (fuel : nat) (m : mem) (dst format : Z) (args : list Z) : res mem :=
  let! (w, m) := sprintf_loop fuel m dst format 0 0 args in
  Ok (store8 m (dst + w) 0).

End SPRINTF.
End COPY.

(** The conversions of the user copy. *)
Definition user_int2str : mem -> Z -> Z -> Z -> res (Z * mem) := int2str true.
Definition user_uint2str : mem -> Z -> Z -> Z -> res (Z * mem) := uint2str true.
Definition user_int2hex : mem -> Z -> Z -> Z -> res (Z * mem) := int2hex true.
Definition user_sprintf : nat -> Z -> Z -> Z -> nat -> mem -> Z -> Z -> list Z -> res mem := sprintf true.
