(* ===== verification/StringsSpec.v ===== *)
(** Properties of the number conversions and of [sprintf]: the conversions write
    the digits of the number, which read back give the number, stay within their
    buffers, and [sprintf] renders its format. *)
From S2P Require Import Prelude Memory Strings.

(** ** Bytes in memory *)
Definition holds (m : mem) (a : Z) (l : list Z) : Prop := forall i c, l !! i = Some c -> m (a + Z.of_nat i) = c.
Definition char_ok (c : Z) : Prop := 0 < c < 256.
Definition disjoint_from (a n b k : Z) : Prop := a + n <= b \/ b + k <= a.

Lemma holds_same m m' a l lo hi :
  holds m a l -> same_outside m m' lo hi -> disjoint_from a (Z.of_nat (length l)) lo (hi - lo) -> holds m' a l.
Proof.
  intros H Hs Hd i c Hi. pose proof (lookup_lt_Some _ _ _ Hi). rewrite Hs; [by apply H|].
  unfold disjoint_from in Hd. lia.
Qed.

Lemma holds_app m a l1 l2 :
  holds m a l1 -> holds m (a + Z.of_nat (length l1)) l2 -> holds m a (l1 ++ l2).
Proof.
  intros H1 H2 i c Hi. destruct (decide (i < length l1)%nat).
  - rewrite lookup_app_l in Hi by done. by apply H1.
  - rewrite lookup_app_r in Hi by lia. rewrite <- (H2 _ _ Hi). f_equal. lia.
Qed.

Lemma holds_single m a c : m a = c -> holds m a [c].
Proof. intros H [|[|i]] x Hi; [|done|done]. injection Hi as <-. by rewrite Z.add_0_r. Qed.

Lemma holds_split m a l1 l2 :
  holds m a (l1 ++ l2) -> holds m a l1 /\ holds m (a + Z.of_nat (length l1)) l2.
Proof.
  intros H. split; intros i c Hi.
  - apply H. by apply lookup_app_l_Some.
  - replace (a + Z.of_nat (length l1) + Z.of_nat i) with (a + Z.of_nat (length l1 + i)) by lia.
    apply H. rewrite lookup_app_r by lia. by replace (length l1 + i - length l1)%nat with i by lia.
Qed.

Lemma same_outside_join m1 m2 m3 lo hi lo' hi' a b :
  same_outside m1 m2 lo hi -> same_outside m2 m3 lo' hi' ->
  a <= lo -> a <= lo' -> hi <= b -> hi' <= b -> same_outside m1 m3 a b.
Proof. intros H1 H2 ? ? ? ? x Hx. rewrite H2 by lia. apply H1. lia. Qed.

(** ** Copying a string *)
Lemma strcpy_loop_ok s : forall fuel m dest src i,
  holds m (src + i) (s ++ [0]) -> Forall char_ok s -> (length s < fuel)%nat ->
  disjoint_from dest (i + Z.of_nat (length s)) src (i + Z.of_nat (length s) + 1) -> 0 <= i ->
  exists m', strcpy_loop fuel m dest src i = Ok (i + Z.of_nat (length s), m') /\
    holds m' (dest + i) s /\ same_outside m m' (dest + i) (dest + i + Z.of_nat (length s)).
Proof.
  induction s as [|c s IH]; intros fuel m dest src i Hh Hc Hf Hd Hi;
    (destruct fuel as [|fuel]; [cbn in Hf; lia|]); cbn [strcpy_loop]; unfold load8.
  - pose proof (Hh 0%nat 0 eq_refl) as H0. cbn in H0. rewrite Z.add_0_r in H0. rewrite H0. cbn.
    exists m. rewrite Z.add_0_r. split; [done|]. split; [by intros [|]|apply same_outside_refl].
  - pose proof (Hh 0%nat c eq_refl) as H0. cbn [Z.of_nat] in H0. rewrite Z.add_0_r in H0. rewrite H0.
    apply Forall_cons in Hc as [Hc0 Hc]. unfold char_ok in Hc0.
    replace (c =? 0) with false by (symmetry; zbool).
    cbn [length] in *. unfold disjoint_from in Hd. set (m1 := store8 m (dest + i) c).
    destruct (IH fuel m1 dest src (i + 1)) as (m' & E & Hh' & Hs).
    + intros j x Hj. pose proof (lookup_lt_Some _ _ _ Hj) as Hlt. rewrite length_app in Hlt. cbn in Hlt.
      unfold m1. rewrite store8_ne by lia. rewrite <- (Hh (S j) x Hj). f_equal. lia.
    + done.
    + lia.
    + unfold disjoint_from. lia.
    + lia.
    + exists m'. rewrite E. split; [do 2 f_equal; lia|]. split.
      * intros [|j] x Hj; cbn in Hj.
        -- injection Hj as <-. rewrite Hs by lia. unfold m1. replace (dest + i + Z.of_nat 0) with (dest + i) by lia.
           rewrite store8_eq. unfold u8. by rewrite Z.mod_small by lia.
        -- rewrite <- (Hh' j x Hj). f_equal. lia.
      * intros x Hx. rewrite Hs by lia. unfold m1. apply store8_ne. lia.
Qed.

Lemma copy_strcpy_ok user fuel m dest src s :
  holds m src (s ++ [0]) -> Forall char_ok s -> (length s < fuel)%nat -> dest <> 0 -> src <> 0 ->
  disjoint_from dest (Z.of_nat (length s)) src (Z.of_nat (length s) + 1) ->
  exists m', copy_strcpy user fuel m dest src = Ok (Z.of_nat (length s), m') /\
    holds m' dest (s ++ [0]) /\ same_outside m m' dest (dest + Z.of_nat (length s) + 1).
Proof.
  intros Hh Hc Hf Hd Hs Hdis.
  destruct (strcpy_loop_ok s fuel m dest src 0) as (m' & E & Hh' & Ho); [by rewrite Z.add_0_r|done|done|done|done|].
  rewrite !Z.add_0_r, Z.add_0_l in *. exists (store8 m' (dest + Z.of_nat (length s)) 0). split; [|split].
  - unfold copy_strcpy, user_strcpy_with_len, strcpy_with_len.
    replace (dest =? 0) with false by (symmetry; zbool). replace (src =? 0) with false by (symmetry; zbool).
    cbn [andb orb negb]. rewrite E. by destruct user.
  - apply holds_app; [|apply holds_single, store8_eq].
    apply (holds_same m' _ _ _ (dest + Z.of_nat (length s)) (dest + Z.of_nat (length s) + 1)); [done| |].
    + apply same_outside_store8.
    + unfold disjoint_from. lia.
  - intros x Hx. rewrite store8_ne by lia. apply Ho. lia.
Qed.

(** ** Digits *)

(** The regions a conversion may write. *)
Definition only (m m' : mem) (a n b k : Z) : Prop :=
  forall x, ~ (a <= x < a + n) -> ~ (b <= x < b + k) -> m' x = m x.

Fixpoint digits (k : nat) (base : Z) (digit : Z -> Z) (n : Z) : list Z :=
  match k with
  | O => []
  | S k => if n >? 0 then digits k base digit (n / base) ++ [digit (n mod base)] else []
  end.

(** The digits of a 32-bit number, most significant first. *)
Definition number (base : Z) (digit : Z -> Z) (n : Z) : list Z :=
  if n =? 0 then [48] else digits 10 base digit n.

(** The number a list of digits stands for. *)
Definition undigit (c : Z) : Z := if c <=? 57 then c - 48 else c - 97 + 10.
Definition value (base : Z) (l : list Z) : Z := fold_left (fun a c => base * a + undigit c) l 0.

Section DIGITS.
Context (base : Z) (digit : Z -> Z) (Hbase : 10 <= base <= 16)
  (Hdigit : forall r, 0 <= r < base -> char_ok (digit r) /\ undigit (digit r) = r).

Lemma digits_length k n : (length (digits k base digit n) <= k)%nat.
Proof.
  revert n. induction k as [|k IH]; intros n; cbn [digits]; [done|]. destruct (n >? 0); [|cbn; lia].
  rewrite length_app. cbn. pose proof (IH (n / base)). lia.
Qed.

Lemma digits_chars k n : 0 <= n -> Forall char_ok (digits k base digit n).
Proof.
  revert n. induction k as [|k IH]; intros n Hn; cbn [digits]; [constructor|].
  destruct (n >? 0); [|constructor]. apply Forall_app. split; [apply IH, Z.div_pos; lia|].
  apply Forall_singleton, Hdigit, Z.mod_pos_bound. lia.
Qed.

Lemma digits_value k n : 0 <= n < base ^ Z.of_nat k -> value base (digits k base digit n) = n.
Proof.
  revert n. induction k as [|k IH]; intros n Hn; cbn [digits].
  - cbn in Hn. cbn. lia.
  - rewrite Z.gtb_ltb. destruct (Z.ltb_spec 0 n); [|cbn; lia].
    unfold value. rewrite fold_left_app. cbn [fold_left].
    change (fold_left _ (digits k base digit (n / base)) 0) with (value base (digits k base digit (n / base))).
    rewrite IH.
    + destruct (Hdigit (n mod base)) as [_ ->]; [apply Z.mod_pos_bound; lia|].
      symmetry. apply Z.div_mod. lia.
    + split; [apply Z.div_pos; lia|]. apply Z.div_lt_upper_bound; [lia|].
      rewrite Nat2Z.inj_succ, Z.pow_succ_r in Hn by lia. lia.
Qed.

Lemma digits_loop_ok fp k : forall fuel m n i,
  (k < fuel)%nat -> 0 <= n < base ^ Z.of_nat k -> Z.of_nat k <= i < 20 ->
  let ds := digits k base digit n in
  let j := i - Z.of_nat (length ds) in
  exists m', digits_loop fuel base digit m fp n i = Ok (j, m') /\
    holds m' (fp + j + 1) ds /\ same_outside m m' (fp + j + 1) (fp + i + 1).
Proof.
  induction k as [|k IH]; intros fuel m n i Hf Hn Hi; (destruct fuel as [|fuel]; [lia|]);
    cbn [digits_loop digits]; cbv zeta.
  - cbn in Hn. replace n with 0 by lia. cbn. exists m. rewrite Z.sub_0_r.
    split; [done|]. split; [by intros [|]|apply same_outside_refl].
  - rewrite Z.gtb_ltb. destruct (Z.ltb_spec 0 n) as [Hpos|Hneg].
    + replace (i <? 20) with true by (symmetry; zbool). rewrite u32_small by lia.
      set (m1 := store8 m (fp + i) (digit (n mod base))).
      destruct (IH fuel m1 (n / base) (i - 1)) as (m' & E & Hh & Hs); [lia| |lia|].
      { split; [apply Z.div_pos; lia|]. apply Z.div_lt_upper_bound; [lia|].
        rewrite Nat2Z.inj_succ, Z.pow_succ_r in Hn by lia. lia. }
      rewrite length_app. cbn [length]. set (ds := digits k base digit (n / base)) in *.
      exists m'. replace (i - Z.of_nat (length ds + 1)) with (i - 1 - Z.of_nat (length ds)) by lia.
      split; [done|]. split.
      * apply holds_app; [done|]. apply holds_single.
        replace (fp + (i - 1 - Z.of_nat (length ds)) + 1 + Z.of_nat (length ds)) with (fp + i) by lia.
        rewrite Hs by lia. unfold m1. rewrite store8_eq. destruct (Hdigit (n mod base)) as [Hc _];
          [apply Z.mod_pos_bound; lia|]. unfold char_ok in Hc. unfold u8. by rewrite Z.mod_small by lia.
      * intros x Hx. rewrite Hs by lia. unfold m1. apply store8_ne. lia.
    + exists m. rewrite Z.sub_0_r. split; [done|]. split; [by intros [|]|apply same_outside_refl].
Qed.

Lemma number_length n : (length (number base digit n) <= 10)%nat.
Proof. unfold number. destruct (n =? 0); [cbn; lia|apply digits_length]. Qed.

Lemma number_chars n : 0 <= n -> Forall char_ok (number base digit n).
Proof.
  intros. unfold number. destruct (n =? 0); [|by apply digits_chars].
  by apply Forall_singleton.
Qed.

Lemma pow_bound n : 0 <= n < 4294967296 -> 0 <= n < base ^ Z.of_nat 10.
Proof.
  intros Hn. split; [lia|]. apply Z.lt_le_trans with (10 ^ 10); [lia|].
  apply Z.pow_le_mono_l. lia.
Qed.

Lemma number_value n : 0 <= n < 4294967296 -> value base (number base digit n) = n.
Proof.
  intros Hn. unfold number. destruct (Z.eqb_spec n 0) as [->|]; [cbn; lia|]. by apply digits_value, pow_bound.
Qed.

Lemma put_number_ok user m dst fp start n :
  0 <= n < 4294967296 -> 0 < dst -> 0 < fp -> 0 <= start -> disjoint_from (dst + start) 11 fp 20 ->
  let s := number base digit n in
  exists m', put_number user base digit m dst fp start n = Ok (start + Z.of_nat (length s), m') /\
    holds m' (dst + start) (s ++ [0]) /\ only m m' (dst + start) (Z.of_nat (length s) + 1) fp 20.
Proof.
  intros Hn Hd Hfp Hst Hdis. cbv zeta. unfold put_number, number, disjoint_from in *.
  destruct (Z.eqb_spec n 0) as [->|Hn0].
  - eexists. split; [done|]. split.
    + apply (holds_app _ _ [48] [0]); apply holds_single.
      * rewrite store8_ne by lia. apply store8_eq.
      * replace (dst + start + Z.of_nat (length [48])) with (dst + (start + 1)) by (cbn; lia). apply store8_eq.
    + intros x H1 H2. cbn in H1. by rewrite !store8_ne by lia.
  - set (m1 := store8 m (fp + 19) 0).
    destruct (digits_loop_ok fp 10 digits_fuel m1 n 18) as (m2 & E & Hh & Hs);
      [unfold digits_fuel; lia|by apply pow_bound|lia|].
    rewrite E. cbn [res_bind]. set (ds := digits 10 base digit n) in *.
    pose proof (digits_length 10 n) as Hlen. fold ds in Hlen.
    set (j := 18 - Z.of_nat (length ds)) in *.
    destruct (copy_strcpy_ok user digits_fuel m2 (dst + start) (fp + j + 1) ds) as (m3 & E3 & Hh3 & Hs3).
    + apply holds_app; [done|]. apply holds_single. replace (fp + j + 1 + Z.of_nat (length ds)) with (fp + 19) by lia.
      rewrite Hs by lia. apply store8_eq.
    + apply digits_chars. lia.
    + unfold digits_fuel. lia.
    + lia.
    + lia.
    + unfold disjoint_from. lia.
    + rewrite E3. cbn [res_bind]. exists m3. split; [do 2 f_equal; lia|]. split; [done|].
      intros x H1 H2. rewrite Hs3 by lia. rewrite Hs by lia. unfold m1. apply store8_ne. lia.
Qed.

End DIGITS.

Lemma dec_digit_ok r : 0 <= r < 10 -> char_ok (dec_digit r) /\ undigit (dec_digit r) = r.
Proof.
  intros. unfold char_ok, undigit, dec_digit. split; [lia|].
  destruct (Z.leb_spec (48 + r) 57); lia.
Qed.

Lemma hex_digit_ok r : 0 <= r < 16 -> char_ok (hex_digit r) /\ undigit (hex_digit r) = r.
Proof.
  intros. unfold char_ok, undigit, hex_digit. destruct (Z.leb_spec r 9).
  - split; [lia|]. destruct (Z.leb_spec (48 + r) 57); lia.
  - split; [lia|]. destruct (Z.leb_spec (97 + (r - 10)) 57); lia.
Qed.

(** ** The three conversions *)
Definition int_string (num : Z) : list Z :=
  if num <? 0 then 45 :: number 10 dec_digit (- num) else number 10 dec_digit num.
Definition uint_string (num : Z) : list Z := number 10 dec_digit num.
Definition hex_string (num : Z) : list Z := 48 :: 120 :: number 16 hex_digit num.

(** Reading a string back. *)
Definition parse_int (s : list Z) : Z :=
  match s with 45 :: ds => - value 10 ds | ds => value 10 ds end.

Lemma first_digit n : 0 <= n < 4294967296 -> forall c l, number 10 dec_digit n = c :: l -> c <> 45.
Proof.
  intros Hn c l. unfold number. destruct (n =? 0); [by intros [= <- _]|].
  assert (forall k m d, 0 <= m -> d ∈ digits k 10 dec_digit m -> d <> 45) as Hd.
  { induction k as [|k IH]; intros m d Hm; cbn [digits]; [set_solver|]. destruct (m >? 0); [|set_solver].
    intros [Hin| ->%list_elem_of_singleton]%elem_of_app; [apply (IH (m / 10)); [apply Z.div_pos; lia|done]|].
    unfold dec_digit. pose proof (Z.mod_pos_bound m 10). lia. }
  intros E. apply (Hd 10%nat n); [lia|]. rewrite E. apply list_elem_of_here.
Qed.

Lemma parse_int_string num : -2147483648 <= num < 2147483648 -> parse_int (int_string num) = num.
Proof.
  intros Hn. unfold int_string. destruct (Z.ltb_spec num 0).
  - cbn [parse_int]. rewrite (number_value 10 dec_digit ltac:(lia) dec_digit_ok) by lia. lia.
  - pose proof (number_value 10 dec_digit ltac:(lia) dec_digit_ok num ltac:(lia)) as Hv.
    pose proof (first_digit num ltac:(lia)) as Hf. unfold parse_int.
    destruct (number 10 dec_digit num) as [|c l]; [done|]. specialize (Hf c l eq_refl).
    repeat case_match; congruence || (subst; done).
Qed.

Lemma uint_string_length num : (length (uint_string num) <= 10)%nat.
Proof. apply number_length. Qed.

Lemma int_string_length num : (length (int_string num) <= 11)%nat.
Proof.
  unfold int_string. destruct (num <? 0); cbn; [|pose proof (number_length 10 dec_digit num); lia].
  pose proof (number_length 10 dec_digit (- num)). lia.
Qed.

Lemma hex_string_length num : (length (hex_string num) <= 12)%nat.
Proof. cbn. pose proof (number_length 16 hex_digit num). lia. Qed.

(** What a conversion promises: it writes [s] and its terminator at [dst], returns
    its length, and touches nothing but that and its buffer. *)
Definition converts (r : res (Z * mem)) (m : mem) (dst fp : Z) (s : list Z) : Prop :=
  exists m', r = Ok (Z.of_nat (length s), m') /\ holds m' dst (s ++ [0]) /\
    only m m' dst (Z.of_nat (length s) + 1) fp 20.

(** Characters already stored before the number. *)
Lemma prefix_converts user base digit m0 m dst fp p n :
  10 <= base <= 16 -> (forall r, 0 <= r < base -> char_ok (digit r) /\ undigit (digit r) = r) ->
  0 <= n < 4294967296 -> 0 < dst -> 0 < fp -> disjoint_from dst 13 fp 20 -> (length p <= 2)%nat ->
  holds m dst p -> only m0 m dst (Z.of_nat (length p)) fp 20 ->
  converts (put_number user base digit m dst fp (Z.of_nat (length p)) n) m0 dst fp (p ++ number base digit n).
Proof.
  intros Hb Hdg Hn Hd Hfp Hdis Hp Hh Ho. unfold disjoint_from in Hdis.
  destruct (put_number_ok base digit Hb Hdg user m dst fp (Z.of_nat (length p)) n Hn Hd Hfp)
    as (m' & E & Hh' & Ho'); [lia|unfold disjoint_from; lia|].
  exists m'. rewrite E, length_app. split; [do 2 f_equal; lia|]. split.
  - rewrite <- app_assoc. apply holds_app; [|done]. intros i c Hi. pose proof (lookup_lt_Some _ _ _ Hi).
    rewrite Ho' by lia. by apply Hh.
  - intros x H1 H2. rewrite Ho' by lia. apply Ho; lia.
Qed.

Lemma only_refl m a n b k : only m m a n b k.
Proof. by intros x. Qed.

Lemma int2str_ok user m dst fp num :
  -2147483648 <= num < 2147483648 -> 0 < dst -> 0 < fp -> disjoint_from dst 13 fp 20 ->
  converts (int2str user m dst fp num) m dst fp (int_string num).
Proof.
  intros Hn Hd Hfp Hdis. unfold int2str, int_string. replace (dst =? 0) with false by (symmetry; zbool).
  destruct (Z.ltb_spec num 0).
  - rewrite u32_small by lia.
    apply (prefix_converts user 10 dec_digit m _ dst fp [45]); try done; [apply dec_digit_ok|lia|cbn; lia| |].
    + apply holds_single, store8_eq.
    + intros x H1 _. cbn in H1. apply store8_ne. lia.
  - apply (prefix_converts user 10 dec_digit m m dst fp []); try done; [apply dec_digit_ok|lia|cbn; lia].
Qed.

Lemma uint2str_ok user m dst fp num :
  0 <= num < 4294967296 -> 0 < dst -> 0 < fp -> disjoint_from dst 13 fp 20 ->
  converts (uint2str user m dst fp num) m dst fp (uint_string num).
Proof.
  intros Hn Hd Hfp Hdis. unfold uint2str. replace (dst =? 0) with false by (symmetry; zbool).
  apply (prefix_converts user 10 dec_digit m m dst fp []); try done; [apply dec_digit_ok|cbn; lia].
Qed.

Lemma int2hex_ok user m dst fp num :
  0 <= num < 4294967296 -> 0 < dst -> 0 < fp -> disjoint_from dst 13 fp 20 ->
  converts (int2hex user m dst fp num) m dst fp (hex_string num).
Proof.
  intros Hn Hd Hfp Hdis. unfold int2hex. replace (dst =? 0) with false by (symmetry; zbool).
  apply (prefix_converts user 16 hex_digit m _ dst fp [48; 120]); try done; [apply hex_digit_ok| |].
  - apply (holds_app _ _ [48] [120]); apply holds_single; [rewrite store8_ne by lia|]; apply store8_eq.
  - intros x H1 _. cbn in H1. rewrite !store8_ne by lia. done.
Qed.

(** ** [strcmp] *)
Lemma compare_strings_eq s1 s2 : compare_strings s1 s2 = 0 <-> s1 = s2.
Proof.
  revert s2. induction s1 as [|c1 s1 IH]; intros [|c2 s2]; cbn; try done.
  destruct (Z.eqb_spec c1 c2) as [->|Hne]; [rewrite IH; split; [by intros ->|by intros [= ->]]|].
  destruct (_ >? _); split; try done; by intros [= ? ?].
Qed.

Lemma holds_cons m a c l : holds m a (c :: l) -> m a = c /\ holds m (a + 1) l.
Proof.
  intros H. apply (holds_split m a [c] l) in H as [Hc Hl]. split; [|done].
  rewrite <- (Hc 0%nat c eq_refl). f_equal. cbn. lia.
Qed.

Lemma strcmp_loop_ok s1 : forall s2 fuel m a b i,
  holds m (a + i) (s1 ++ [0]) -> holds m (b + i) (s2 ++ [0]) ->
  Forall char_ok s1 -> Forall char_ok s2 -> (length s1 < fuel)%nat ->
  strcmp_loop fuel m a b i = Ok (compare_strings s1 s2).
Proof.
  induction s1 as [|c1 s1 IH]; intros s2 fuel m a b i H1 H2 Hc1 Hc2 Hf;
    (destruct fuel as [|fuel]; [cbn in Hf; lia|]); cbn [strcmp_loop]; unfold load8;
    cbn [app] in H1; apply holds_cons in H1 as [-> H1'].
  - destruct s2 as [|c2 s2]; cbn [app] in H2; apply holds_cons in H2 as [-> _]; [done|].
    apply Forall_cons in Hc2 as [Hc2 _]. unfold char_ok in Hc2. cbn.
    by replace (c2 =? 0) with false by (symmetry; zbool).
  - apply Forall_cons in Hc1 as [Hc1 Hcs1]. unfold char_ok in Hc1.
    replace (c1 =? 0) with false by (symmetry; zbool). cbn [length] in Hf.
    destruct s2 as [|c2 s2]; cbn [app] in H2; apply holds_cons in H2 as [-> H2']; [done|].
    apply Forall_cons in Hc2 as [Hc2 Hcs2]. unfold char_ok in Hc2.
    replace (c2 =? 0) with false by (symmetry; zbool). cbn [compare_strings].
    destruct (c1 =? c2); cbn [negb]; [|done]. apply IH; try done; [| |lia].
    + by replace (a + (i + 1)) with (a + i + 1) by lia.
    + by replace (b + (i + 1)) with (b + i + 1) by lia.
Qed.

Lemma int_string_chars num : -2147483648 <= num < 2147483648 -> Forall char_ok (int_string num).
Proof.
  intros Hn. unfold int_string. destruct (Z.ltb_spec num 0); [apply Forall_cons; split; [done|]|];
    (apply number_chars; [lia|apply dec_digit_ok|lia]).
Qed.

Lemma hex_string_chars num : 0 <= num -> Forall char_ok (hex_string num).
Proof.
  intros Hn. repeat (apply Forall_cons; split; [done|]). apply number_chars; [lia|apply hex_digit_ok|done].
Qed.

Lemma s32_range n : -2147483648 <= s32 n < 2147483648.
Proof. unfold s32. pose proof (u32_range n). destruct (Z.ltb_spec (u32 n) 2147483648); lia. Qed.

(** ** [sprintf] *)
Section SPRINTF.
Context (user : bool) (sfuel : nat) (m0 : mem) (dst buf fp null_str N : Z).
Context (Hsfuel : (20 <= sfuel)%nat) (Hdst : 0 < dst) (Hbuf : 0 < buf) (Hfp : 0 < fp)
  (Hdb : disjoint_from dst (N + 1) buf 20) (Hdf : disjoint_from dst (N + 1) fp 20)
  (Hbf : disjoint_from buf 20 fp 20).

(** Memory as at the call, but for the destination and the local buffers. *)
Definition agrees (m : mem) : Prop := forall x,
  ~ (dst <= x < dst + N + 1) -> ~ (buf <= x < buf + 20) -> ~ (fp <= x < fp + 20) -> m x = m0 x.

(** A range the call does not write. *)
Definition outside (a n : Z) : Prop :=
  disjoint_from a n dst (N + 1) /\ disjoint_from a n buf 20 /\ disjoint_from a n fp 20.

(** A string the call may read. *)
Definition source (a : Z) (s : list Z) : Prop :=
  a <> 0 /\ holds m0 a (s ++ [0]) /\ Forall char_ok s /\ (length s < sfuel)%nat /\
  outside a (Z.of_nat (length s) + 1).

(** What a format renders to, with the arguments it consumes. *)
Inductive renders : list Z -> list Z -> list Z -> Prop :=
  | renders_end args : renders [] args []
  | renders_percent_end args : renders [37] args []
  | renders_int n fmt args out :
      renders fmt args out -> renders (37 :: 100 :: fmt) (n :: args) (int_string (s32 n) ++ out)
  | renders_uint n fmt args out :
      0 <= n < 4294967296 ->
      renders fmt args out -> renders (37 :: 117 :: fmt) (n :: args) (uint_string n ++ out)
  | renders_hex c n fmt args out :
      c = 120 \/ c = 88 -> 0 <= n < 4294967296 ->
      renders fmt args out -> renders (37 :: c :: fmt) (n :: args) (hex_string n ++ out)
  | renders_string p s fmt args out :
      source (if p =? 0 then null_str else p) s ->
      renders fmt args out -> renders (37 :: 115 :: fmt) (p :: args) (s ++ out)
  | renders_char ch fmt args out :
      renders fmt args out -> renders (37 :: 99 :: fmt) (ch :: args) (u8 ch :: out)
  | renders_percent fmt args out :
      renders fmt args out -> renders (37 :: 37 :: fmt) args (37 :: out)
  | renders_unknown c fmt args out :
      char_ok c -> c ∉ [100; 117; 120; 88; 115; 99; 37] ->
      renders fmt args out -> renders (37 :: c :: fmt) args (37 :: c :: out)
  | renders_plain c fmt args out :
      c <> 37 -> char_ok c -> renders fmt args out -> renders (c :: fmt) args (c :: out).

Lemma holds_agrees m a l : holds m0 a l -> outside a (Z.of_nat (length l)) -> agrees m -> holds m a l.
Proof.
  intros H (H1 & H2 & H3) Ha i c Hi. pose proof (lookup_lt_Some _ _ _ Hi).
  unfold disjoint_from in *. rewrite Ha by lia. by apply H.
Qed.

Lemma agrees_store m a v : agrees m -> dst <= a < dst + N + 1 -> agrees (store8 m a v).
Proof. intros H Ha x H1 H2 H3. rewrite store8_ne by lia. by apply H. Qed.

Lemma clear_ok m :
  agrees m -> exists m', copy_memset user m buf 0 20 = Ok m' /\ agrees m' /\
    same_outside m m' buf (buf + 20).
Proof.
  intros Ha. destruct (memset_ok m buf 0 20) as (m' & E & Ho & _); [lia|lia|].
  exists m'. split; [|split; [|done]].
  - rewrite <- E. unfold copy_memset, user_memset, memset.
    replace (buf =? 0) with false by (symmetry; zbool). by destruct user.
  - intros x H1 H2 H3. rewrite Ho by lia. by apply Ha.
Qed.

(** Copying a string to the end of what is written. *)
Lemma emit_ok m dn src s :
  agrees m -> holds m dst dn -> holds m src (s ++ [0]) -> Forall char_ok s -> (length s < sfuel)%nat -> src <> 0 ->
  disjoint_from src (Z.of_nat (length s) + 1) dst (N + 1) -> Z.of_nat (length dn + length s) <= N ->
  exists m', copy_strcpy user sfuel m (dst + Z.of_nat (length dn)) src = Ok (Z.of_nat (length s), m') /\
    agrees m' /\ holds m' dst (dn ++ s).
Proof.
  intros Ha Hd Hs Hc Hf Hsrc Hdis Hn. unfold disjoint_from in Hdis.
  destruct (copy_strcpy_ok user sfuel m (dst + Z.of_nat (length dn)) src s) as (m' & E & Hh & Ho);
    [done|done|done|lia|done|unfold disjoint_from; lia|].
  exists m'. split; [done|]. split.
  - intros x H1 H2 H3. rewrite Ho by lia. by apply Ha.
  - apply holds_app; [|by apply (holds_split m' _ s [0])].
    intros i c Hi. pose proof (lookup_lt_Some _ _ _ Hi). rewrite Ho by lia. by apply Hd.
Qed.

Lemma push_ok m dn c :
  agrees m -> holds m dst dn -> 0 <= c < 256 -> Z.of_nat (length dn) < N ->
  agrees (store8 m (dst + Z.of_nat (length dn)) c) /\
  holds (store8 m (dst + Z.of_nat (length dn)) c) dst (dn ++ [c]).
Proof.
  intros Ha Hd Hc Hn. split; [apply agrees_store; [done|lia]|]. apply holds_app.
  - intros i x Hi. pose proof (lookup_lt_Some _ _ _ Hi). rewrite store8_ne by lia. by apply Hd.
  - apply holds_single. rewrite store8_eq. unfold u8. by apply Z.mod_small.
Qed.

(** A number is converted in the local buffer and copied. *)
Lemma number_ok m dn r s :
  agrees m -> holds m dst dn -> converts r m buf fp s -> Forall char_ok s -> (length s <= 12)%nat ->
  Z.of_nat (length dn + length s) <= N ->
  exists m1 k m2, r = Ok (k, m1) /\
    copy_strcpy user sfuel m1 (dst + Z.of_nat (length dn)) buf = Ok (Z.of_nat (length s), m2) /\
    agrees m2 /\ holds m2 dst (dn ++ s).
Proof.
  intros Ha Hd (m1 & E & Hh & Ho) Hc Hl Hn. unfold disjoint_from in *.
  assert (agrees m1) as Ha1 by (intros x H1 H2 H3; rewrite Ho by lia; by apply Ha).
  destruct (emit_ok m1 dn buf s) as (m2 & E2 & Ha2 & Hd2); try done; [|lia|lia|unfold disjoint_from; lia|].
  - intros i c Hi. pose proof (lookup_lt_Some _ _ _ Hi). rewrite Ho by lia. by apply Hd.
  - by exists m1, (Z.of_nat (length s)), m2.
Qed.

Lemma store8_u8 m a v : store8 m a (u8 v) = store8 m a v.
Proof. unfold store8, u8. by rewrite Zmod_mod. Qed.

Lemma convert_unknown m w c args :
  c ∉ [100; 117; 120; 88; 115; 99; 37] ->
  convert user sfuel buf fp null_str m dst w c args =
    Ok (store8 (store8 m (dst + w) 37) (dst + w + 1) c, w + 2, args).
Proof. intros Hc. unfold convert. repeat case_match; try done; exfalso; subst; apply Hc; set_solver. Qed.

(** The format as the run reads it. *)
Definition format_at (a : Z) (fmt : list Z) : Prop :=
  holds m0 a (fmt ++ [0]) /\ outside a (Z.of_nat (length fmt) + 1).

Lemma format_cons a c fmt m : format_at a (c :: fmt) -> agrees m -> load8 m a = c /\ format_at (a + 1) fmt.
Proof.
  intros [H (H1 & H2 & H3)] Ha. unfold disjoint_from in *. cbn [length] in *.
  apply (holds_split m0 a [c] (fmt ++ [0])) in H as [Hc Hf]. split.
  - pose proof (Hc 0%nat c eq_refl) as Hv. cbn [Z.of_nat] in Hv. rewrite Z.add_0_r in Hv. unfold load8.
    rewrite Ha by lia. done.
  - split; [done|]. unfold outside, disjoint_from. lia.
Qed.

Lemma format_nil a m : format_at a [] -> agrees m -> load8 m a = 0.
Proof.
  intros [H (H1 & H2 & H3)] Ha. unfold disjoint_from in *. cbn [length] in *.
  pose proof (H 0%nat 0 eq_refl) as Hv. cbn [Z.of_nat] in Hv. rewrite Z.add_0_r in Hv. unfold load8.
  rewrite Ha by lia. done.
Qed.

Lemma cleared_holds m m' dn :
  same_outside m m' buf (buf + 20) -> holds m dst dn -> Z.of_nat (length dn) <= N -> holds m' dst dn.
Proof.
  intros Ho Hd Hn i c Hi. pose proof (lookup_lt_Some _ _ _ Hi). unfold disjoint_from in Hdb.
  rewrite Ho by lia. by apply Hd.
Qed.

(** One round of the loop at a conversion. *)
Lemma loop_conversion fuel m format i dn c fmt args s args' :
  agrees m -> holds m dst dn -> format_at (format + i) (37 :: c :: fmt) -> c <> 0 ->
  Z.of_nat (length dn) <= N ->
  (forall m1, agrees m1 -> holds m1 dst dn ->
    exists m2, convert user sfuel buf fp null_str m1 dst (Z.of_nat (length dn)) c args =
      Ok (m2, Z.of_nat (length (dn ++ s)), args') /\ agrees m2 /\ holds m2 dst (dn ++ s)) ->
  exists m2, agrees m2 /\ holds m2 dst (dn ++ s) /\ format_at (format + (i + 2)) fmt /\
    sprintf_loop user sfuel buf fp null_str (S fuel) m dst format i (Z.of_nat (length dn)) args =
    sprintf_loop user sfuel buf fp null_str fuel m2 dst format (i + 2) (Z.of_nat (length (dn ++ s))) args'.
Proof.
  intros Ha Hd Hf Hc Hn Hconv. destruct (clear_ok m Ha) as (m1 & E1 & Ha1 & Ho1).
  pose proof (cleared_holds m m1 dn Ho1 Hd Hn) as Hd1.
  destruct (format_cons _ _ _ m Hf Ha) as [H0 _]. destruct (format_cons _ _ _ m1 Hf Ha1) as [H0' Hf1].
  destruct (format_cons _ _ _ m1 Hf1 Ha1) as [H1 Hf2].
  destruct (Hconv m1 Ha1 Hd1) as (m2 & E2 & Ha2 & Hd2). exists m2. split; [done|]. split; [done|].
  split; [by replace (format + (i + 2)) with (format + i + 1 + 1) by lia|].
  cbn [sprintf_loop]. rewrite H0. cbn [Z.eqb]. rewrite E1. cbn [res_bind]. rewrite H0'.
  rewrite (Z.eqb_refl 37). replace (format + (i + 1)) with (format + i + 1) by lia. rewrite H1.
  replace (c =? 0) with false by (symmetry; zbool). rewrite E2. cbn [res_bind].
  by replace (i + 1 + 1) with (i + 2) by lia.
Qed.

(** One round at an ordinary character. *)
Lemma loop_plain fuel m format i dn c fmt args :
  agrees m -> holds m dst dn -> format_at (format + i) (c :: fmt) -> c <> 37 -> char_ok c ->
  Z.of_nat (length dn) < N ->
  exists m2, agrees m2 /\ holds m2 dst (dn ++ [c]) /\ format_at (format + (i + 1)) fmt /\
    sprintf_loop user sfuel buf fp null_str (S fuel) m dst format i (Z.of_nat (length dn)) args =
    sprintf_loop user sfuel buf fp null_str fuel m2 dst format (i + 1) (Z.of_nat (length (dn ++ [c]))) args.
Proof.
  intros Ha Hd Hf Hc Hok Hn. unfold char_ok in Hok. destruct (clear_ok m Ha) as (m1 & E1 & Ha1 & Ho1).
  pose proof (cleared_holds m m1 dn Ho1 Hd ltac:(lia)) as Hd1.
  destruct (format_cons _ _ _ m Hf Ha) as [H0 _]. destruct (format_cons _ _ _ m1 Hf Ha1) as [H0' Hf1].
  destruct (push_ok m1 dn c Ha1 Hd1 ltac:(lia) Hn) as [Ha2 Hd2].
  exists (store8 m1 (dst + Z.of_nat (length dn)) c). split; [done|]. split; [done|].
  split; [by replace (format + (i + 1)) with (format + i + 1) by lia|].
  cbn [sprintf_loop]. rewrite H0. replace (c =? 0) with false by (symmetry; zbool). rewrite E1. cbn [res_bind].
  rewrite H0'. replace (c =? 37) with false by (symmetry; zbool). rewrite length_app. cbn [length].
  by replace (Z.of_nat (length dn + 1)) with (Z.of_nat (length dn) + 1) by lia.
Qed.

(** A number conversion, in the shape [loop_conversion] asks for. *)
Lemma convert_number m1 dn (conv : Z -> mem -> res (Z * mem)) (n : Z) (args s : list Z) :
  agrees m1 -> holds m1 dst dn -> converts (conv n m1) m1 buf fp s -> Forall char_ok s -> (length s <= 12)%nat ->
  Z.of_nat (length dn + length s) <= N ->
  exists m2, (let! (_, m) := conv n m1 in
              let! (k, m) := copy_strcpy user sfuel m (dst + Z.of_nat (length dn)) buf in
              Ok (m, Z.of_nat (length dn) + k, args)) = Ok (m2, Z.of_nat (length (dn ++ s)), args) /\
    agrees m2 /\ holds m2 dst (dn ++ s).
Proof.
  intros Ha Hd Hc Hch Hl Hn.
  destruct (number_ok m1 dn (conv n m1) s Ha Hd Hc Hch Hl Hn) as (m2 & k & m3 & -> & E & Ha3 & Hd3).
  cbn [res_bind]. rewrite E. cbn [res_bind]. exists m3. rewrite length_app, Nat2Z.inj_add. done.
Qed.

Lemma convert_ok c n args s m1 dn :
  (c = 100 /\ s = int_string (s32 n)) \/
  (c = 117 /\ 0 <= n < 4294967296 /\ s = uint_string n) \/
  ((c = 120 \/ c = 88) /\ 0 <= n < 4294967296 /\ s = hex_string n) ->
  agrees m1 -> holds m1 dst dn -> Z.of_nat (length dn + length s) <= N ->
  exists m2, convert user sfuel buf fp null_str m1 dst (Z.of_nat (length dn)) c (n :: args) =
    Ok (m2, Z.of_nat (length (dn ++ s)), args) /\ agrees m2 /\ holds m2 dst (dn ++ s).
Proof.
  intros Hc Ha Hd Hn. assert (disjoint_from buf 13 fp 20) as Hdis by (unfold disjoint_from in *; lia).
  assert (converts (int2str user m1 buf fp (s32 n)) m1 buf fp (int_string (s32 n))) as Ci
    by (apply int2str_ok; [apply s32_range|done|done|done]).
  pose proof (s32_range n) as Hr. unfold convert.
  destruct Hc as [[-> ->]|[(-> & Hb & ->)|([-> | ->] & Hb & ->)]].
  - apply (convert_number m1 dn (fun n m => int2str user m buf fp (s32 n)) n); try done.
    + by apply int_string_chars.
    + pose proof (int_string_length (s32 n)). lia.
  - apply (convert_number m1 dn (fun n m => uint2str user m buf fp n) n); try done.
    + by apply uint2str_ok.
    + apply number_chars; [lia|apply dec_digit_ok|lia].
    + pose proof (uint_string_length n). lia.
  - apply (convert_number m1 dn (fun n m => int2hex user m buf fp n) n); try done;
      [by apply int2hex_ok|apply hex_string_chars; lia|apply hex_string_length].
  - apply (convert_number m1 dn (fun n m => int2hex user m buf fp n) n); try done;
      [by apply int2hex_ok|apply hex_string_chars; lia|apply hex_string_length].
Qed.

Lemma sprintf_loop_ok format fmt args out :
  renders fmt args out -> forall fuel m i dn,
  (length fmt < fuel)%nat -> agrees m -> holds m dst dn -> format_at (format + i) fmt ->
  Z.of_nat (length (dn ++ out)) <= N ->
  exists m', sprintf_loop user sfuel buf fp null_str fuel m dst format i (Z.of_nat (length dn)) args =
      Ok (Z.of_nat (length (dn ++ out)), m') /\ agrees m' /\ holds m' dst (dn ++ out).
Proof.
  (* a round that writes [s] is followed by the rounds of the rest *)
  assert (forall fmt args out s, renders fmt args out ->
    (forall fuel m i dn, (length fmt < fuel)%nat -> agrees m -> holds m dst dn -> format_at (format + i) fmt ->
       Z.of_nat (length (dn ++ out)) <= N ->
       exists m', sprintf_loop user sfuel buf fp null_str fuel m dst format i (Z.of_nat (length dn)) args =
         Ok (Z.of_nat (length (dn ++ out)), m') /\ agrees m' /\ holds m' dst (dn ++ out)) ->
    forall c args0 fuel m i dn, (S (length fmt) < fuel)%nat -> agrees m -> holds m dst dn ->
      format_at (format + i) (37 :: c :: fmt) -> c <> 0 -> Z.of_nat (length (dn ++ s ++ out)) <= N ->
      (forall m1, agrees m1 -> holds m1 dst dn ->
        exists m2, convert user sfuel buf fp null_str m1 dst (Z.of_nat (length dn)) c args0 =
          Ok (m2, Z.of_nat (length (dn ++ s)), args) /\ agrees m2 /\ holds m2 dst (dn ++ s)) ->
      exists m', sprintf_loop user sfuel buf fp null_str fuel m dst format i (Z.of_nat (length dn)) args0 =
        Ok (Z.of_nat (length (dn ++ s ++ out)), m') /\ agrees m' /\ holds m' dst (dn ++ s ++ out)) as Hconv.
  { intros fmt' args' out' s _ IH c args0 fuel m i dn Hfuel Ha Hd Hf Hc Hn Hcv. destruct fuel as [|fuel]; [lia|].
    rewrite !length_app in Hn. rewrite app_assoc.
    destruct (loop_conversion fuel m format i dn c fmt' args0 s args' Ha Hd Hf Hc ltac:(lia) Hcv)
      as (m2 & Ha2 & Hd2 & Hf2 & ->). apply IH; try done; [lia|]. rewrite !length_app. lia. }
  induction 1; intros fuel m i dn Hfuel Ha Hd Hf Hn; cbn [length] in Hfuel.
  - destruct fuel as [|fuel]; [lia|]. cbn [sprintf_loop]. rewrite (format_nil _ m Hf Ha), app_nil_r. by exists m.
  - destruct fuel as [|fuel]; [lia|]. cbn [sprintf_loop]. destruct (clear_ok m Ha) as (m1 & E1 & Ha1 & Ho1).
    destruct (format_cons _ _ _ m Hf Ha) as [-> _]. destruct (format_cons _ _ _ m1 Hf Ha1) as [H0 Hf1].
    rewrite app_nil_r in *. cbn [Z.eqb]. rewrite E1. cbn [res_bind]. rewrite H0. rewrite (Z.eqb_refl 37).
    replace (format + (i + 1)) with (format + i + 1) by lia. rewrite (format_nil _ m1 Hf1 Ha1). exists m1.
    split; [done|]. split; [done|]. by apply (cleared_holds m m1).
  - apply (Hconv fmt args out (int_string (s32 n)) H IHrenders 100); [lia|done|done|done|lia|done|].
    intros m1 Ha1 Hd1. apply convert_ok; [by left|done|done|]. rewrite !length_app in Hn. lia.
  - apply (Hconv fmt args out (uint_string n) H0 IHrenders 117); [lia|done|done|done|lia|done|].
    intros m1 Ha1 Hd1. apply convert_ok; [by right; left|done|done|]. rewrite !length_app in Hn. lia.
  - apply (Hconv fmt args out (hex_string n) H1 IHrenders c); [lia|done|done|done|lia|done|].
    intros m1 Ha1 Hd1. apply convert_ok; [by right; right|done|done|]. rewrite !length_app in Hn. lia.
  - apply (Hconv fmt args out s H0 IHrenders 115); [lia|done|done|done|lia|done|].
    intros m1 Ha1 Hd1. destruct H as (Hp0 & Hps & Hpc & Hpf & Hpo). cbn [convert].
    destruct (emit_ok m1 dn (if p =? 0 then null_str else p) s) as (m2 & E2 & Ha2 & Hd2); try done.
    + apply holds_agrees; [done| |done]. rewrite length_app. cbn [length]. by rewrite Nat2Z.inj_add.
    + apply Hpo.
    + rewrite !length_app in Hn. lia.
    + rewrite E2. cbn [res_bind]. exists m2. by rewrite length_app, Nat2Z.inj_add.
  - apply (Hconv fmt args out [u8 ch] H IHrenders 99); [lia|done|done|done|lia|done|].
    intros m1 Ha1 Hd1. cbn [convert]. rewrite !length_app in Hn. cbn [length] in Hn.
    destruct (push_ok m1 dn (u8 ch) Ha1 Hd1) as [Ha2 Hd2]; [unfold u8; apply Z.mod_pos_bound; lia|lia|].
    rewrite store8_u8 in Ha2, Hd2. eexists. split; [|done]. rewrite length_app. cbn [length]. do 3 f_equal. lia.
  - apply (Hconv fmt args out [37] H IHrenders 37); [lia|done|done|done|lia|done|].
    intros m1 Ha1 Hd1. cbn [convert]. rewrite !length_app in Hn. cbn [length] in Hn.
    destruct (push_ok m1 dn 37 Ha1 Hd1) as [Ha2 Hd2]; [lia|lia|].
    eexists. split; [|done]. rewrite length_app. cbn [length]. do 3 f_equal. lia.
  - unfold char_ok in H. apply (Hconv fmt args out [37; c] H1 IHrenders c); [lia|done|done|done|lia|done|].
    intros m1 Ha1 Hd1. rewrite (convert_unknown m1 _ c args H0). rewrite !length_app in Hn. cbn [length] in Hn.
    destruct (push_ok m1 dn 37 Ha1 Hd1) as [Ha2 Hd2]; [lia|lia|].
    destruct (push_ok _ (dn ++ [37]) c Ha2 Hd2) as [Ha3 Hd3]; [lia|rewrite length_app; cbn; lia|].
    rewrite <- app_assoc in Hd3. cbn [app] in Hd3. rewrite !length_app in Ha3, Hd3. cbn [length] in Ha3, Hd3.
    replace (dst + Z.of_nat (length dn + 1)) with (dst + Z.of_nat (length dn) + 1) in Ha3, Hd3 by lia.
    eexists. split; [|done]. rewrite length_app. cbn [length]. do 3 f_equal. lia.
  - destruct fuel as [|fuel]; [lia|]. rewrite !length_app in Hn. cbn [length] in Hn.
    destruct (loop_plain fuel m format i dn c fmt args Ha Hd Hf H H0) as (m2 & Ha2 & Hd2 & Hf2 & ->); [lia|].
    replace (dn ++ c :: out) with ((dn ++ [c]) ++ out) by (by rewrite <- app_assoc).
    apply IHrenders; try done; [lia|]. rewrite !length_app. cbn [length]. lia.
Qed.

End SPRINTF.

(** ** Properties *)

(** The conversions of both libraries: [int2str], [uint2str] and [int2hex] write
    a terminated string at [dst] and return its length, touch only that and their
    local buffer, and the string read back is the number, for every 32-bit number
    (the smallest one included); with a null destination the kernel's copy panics
    and the user's returns 0. *)
Theorem number_conversions_correct (user : bool) (m : mem) (dst fp num : Z)
    (Hd : 0 < dst) (Hfp : 0 < fp) (Hdis : disjoint_from dst 13 fp 20) :
  (-2147483648 <= num < 2147483648 ->
     converts (int2str user m dst fp num) m dst fp (int_string num) /\ parse_int (int_string num) = num) /\
  (0 <= num < 4294967296 ->
     converts (uint2str user m dst fp num) m dst fp (uint_string num) /\ value 10 (uint_string num) = num /\
     converts (int2hex user m dst fp num) m dst fp (48 :: 120 :: number 16 hex_digit num) /\
     value 16 (number 16 hex_digit num) = num) /\
  (int2str user m 0 fp num = if user then Ok (0, m) else Err Panic).
Proof.
  split; [|split; [|by unfold int2str; destruct user]]; intros Hn.
  - split; [by apply int2str_ok|by apply parse_int_string].
  - split; [by apply uint2str_ok|]. split; [apply number_value; [lia|apply dec_digit_ok|done]|].
    split; [by apply int2hex_ok|]. apply number_value; [lia|apply hex_digit_ok|done].
Qed.

(** C38: [sprintf], in both libraries, writes at [dst] the text its format renders
    to, conversion by conversion, and a terminator, and touches nothing but that
    text and the two local buffers; it terminates for every terminated format.  The destination, the
    two buffers of 20 bytes, the format and the strings it prints are apart. *)
Theorem sprintf_correct (user : bool) (sfuel fuel : nat) (m : mem) (dst buf fp null_str format : Z)
    (fmt args out : list Z)
    (Hsfuel : (20 <= sfuel)%nat) (Hfuel : (length fmt < fuel)%nat)
    (Hpos : 0 < dst /\ 0 < buf /\ 0 < fp)
    (Hdb : disjoint_from dst (Z.of_nat (length out) + 1) buf 20)
    (Hdf : disjoint_from dst (Z.of_nat (length out) + 1) fp 20) (Hbf : disjoint_from buf 20 fp 20)
    (Hfmt : format_at m dst buf fp (Z.of_nat (length out)) format fmt)
    (Hr : renders sfuel m dst buf fp null_str (Z.of_nat (length out)) fmt args out) :
  exists m', sprintf user sfuel buf fp null_str fuel m dst format args = Ok m' /\
    holds m' dst (out ++ [0]) /\ agrees m dst buf fp (Z.of_nat (length out)) m'.
Proof.
  destruct Hpos as (Hd & Hb & Hf). set (N := Z.of_nat (length out)) in *.
  destruct (sprintf_loop_ok user sfuel m dst buf fp null_str N Hsfuel Hd Hb Hf Hdb Hdf Hbf format fmt args out Hr
    fuel m 0 []) as (m' & E & Ha & Hh); [done|by intros x|by intros [|]|by rewrite Z.add_0_r|cbn; lia|].
  unfold sprintf. cbn [length app] in E, Hh. change (Z.of_nat 0) with 0 in E. rewrite E. cbn [res_bind]. eexists. split; [done|]. split.
  - apply holds_app; [|apply holds_single, store8_eq]. intros i c Hi. pose proof (lookup_lt_Some _ _ _ Hi).
    rewrite store8_ne by lia. by apply Hh.
  - intros x H1 H2 H3. rewrite store8_ne by lia. by apply Ha.
Qed.

(** ** Witnesses: ["n=%d"] at 100, written to 200. *)
Definition demo_format : list Z := [110; 61; 37; 100].
Definition demo_memory : mem := fun x => nth (Z.to_nat (x - 100)) (demo_format ++ [0]) 0.

Lemma number_conversions_correct_witness :
  converts (int2str false demo_memory 200 300 (-2147483648)) demo_memory 200 300
    [45; 50; 49; 52; 55; 52; 56; 51; 54; 52; 56].
Proof.
  destruct (number_conversions_correct false demo_memory 200 300 (-2147483648)) as [H _];
    [done|done|unfold disjoint_from; lia|]. exact (proj1 (H ltac:(lia))).
Defined.

Lemma sprintf_correct_witness :
  exists m', sprintf false 20 400 300 500 10 demo_memory 200 100 [4294967295] = Ok m' /\
    holds m' 200 [110; 61; 45; 49; 0].
Proof.
  destruct (sprintf_correct false 20 10 demo_memory 200 400 300 500 100 demo_format [4294967295] [110; 61; 45; 49])
    as (m' & E & H & _).
  - lia.
  - cbn. lia.
  - lia.
  - unfold disjoint_from. cbn. lia.
  - unfold disjoint_from. cbn. lia.
  - unfold disjoint_from. lia.
  - split; [|unfold outside, disjoint_from; cbn; lia].
    intros [|[|[|[|[|i]]]]] c Hc; cbn in Hc; try (injection Hc as <-; by vm_compute). done.
  - apply renders_plain; [done|unfold char_ok; lia|]. apply renders_plain; [done|unfold char_ok; lia|].
    apply (renders_int _ _ _ _ _ _ _ 4294967295 [] [] []). constructor.
  - exists m'. split; [exact E|exact H].
Defined.
