(* ===== verification/Allocator.v ===== *)
(** The interface between the kernel heap and its clients: what [kmalloc] and
    [kfree] promise, with the blocks in use as a finite map from address to
    size.  [KHeapProps] discharges the laws for [src/src/mem/kheap.c];
    [LinkedList] and [HashTable] are proved against them. *)
From S2P Require Import Prelude.

(** The ranges of the blocks of [L] and [p, p + n) have no byte in common. *)
Definition apart (L : gmap Z Z) (p n : Z) : Prop :=
  forall q k, L !! q = Some k -> p + n <= q \/ q + k <= p.

Class Allocator (St : Type) : Type := {
  malloc : St -> Z -> res (Z * St);
  mfree : St -> Z -> res St;
  (** [owns s L]: in state [s] exactly the blocks of [L] are in use. *)
  owns : St -> gmap Z Z -> Prop;
  (** [full s n]: there is no room for a block of [n] bytes. *)
  full : St -> Z -> Prop;
  (** The number of blocks that may be in use at once, and the largest request. *)
  capacity : nat;
  request_max : Z
}.

Class AllocatorLaws (St : Type) `{Allocator St} : Prop := {
  malloc_law s L n :
    owns s L -> 0 < n <= request_max -> (size L < capacity)%nat ->
    (full s n /\ malloc s n = Err Panic) \/
    (~ full s n /\ exists p k s', malloc s n = Ok (p, s') /\ p <> 0 /\ n <= k /\ L !! p = None /\
      apart L p k /\ owns s' (<[p := k]> L));
  mfree_law s L p k :
    owns s L -> L !! p = Some k -> (size L <= capacity)%nat ->
    exists s', mfree s p = Ok s' /\ owns s' (delete p L);
  mfree_null s : mfree s 0 = Ok s;
  owns_positive s L p k : owns s L -> L !! p = Some k -> 0 < p
}.

(** ** What a sequence of requests meets *)
Section REQUESTS.
Context {St : Type} `{Allocator St}.

(** The state after blocks of the sizes [l], if there is room for every one in its turn. *)
Fixpoint grants (s : St) (l : list Z) : option St :=
  match l with
  | [] => Some s
  | n :: l => match malloc s n with Ok (_, s) => grants s l | Err _ => None end
  end.

(** The state after buffers of the sizes [l], each released before the next one is taken. *)
Fixpoint buffers (s : St) (l : list Z) : option St :=
  match l with
  | [] => Some s
  | n :: l =>
      match malloc s n with
      | Ok (p, s) => match mfree s p with Ok s => buffers s l | Err _ => None end
      | Err _ => None
      end
  end.

Lemma grants_app s l1 l2 : grants s (l1 ++ l2) = match grants s l1 with Some s' => grants s' l2 | None => None end.
Proof. revert s. induction l1 as [|n l1 IH]; intros s; [done|]. cbn. destruct (malloc s n) as [[p s']|]; [apply IH|done]. Qed.
Lemma buffers_app s l1 l2 : buffers s (l1 ++ l2) = match buffers s l1 with Some s' => buffers s' l2 | None => None end.
Proof.
  revert s. induction l1 as [|n l1 IH]; intros s; [done|]. cbn. destruct (malloc s n) as [[p s1]|]; [|done].
  destruct (mfree s1 p) as [s2|]; [apply IH|done].
Qed.
Lemma buffers_cons s n l : buffers s (n :: l) = match buffers s [n] with Some s' => buffers s' l | None => None end.
Proof. apply (buffers_app s [n]). Qed.

(** A request is refused exactly when there is no room for it, and a sequence of buffers when that
    happens at some of them. *)
Lemma buffers_refused `{!AllocatorLaws St} l : forall s L, owns s L -> Forall (fun n => 0 < n <= request_max) l -> (size L < capacity)%nat ->
  buffers s l = None <-> exists l1 n l2 s', l = l1 ++ n :: l2 /\ buffers s l1 = Some s' /\ owns s' L /\ full s' n.
Proof.
  induction l as [|n l IH]; intros s L Ho Hl Hc.
  { split; [done|]. intros ([] & ? & ? & ? & ? & _); done. }
  apply Forall_cons in Hl as [Hn Hl]. destruct (malloc_law s L n Ho Hn Hc) as [[F E]|(F & p & k & s1 & E & _ & _ & Hp & _ & Ho1)].
  { cbn. rewrite E. split; [|done]. intros _. by exists [], n, l, s. }
  destruct (mfree_law s1 (<[p := k]> L) p k Ho1 (lookup_insert_eq _ _ _)) as (s2 & E2 & Ho2); [rewrite map_size_insert_None by done; lia|].
  rewrite delete_insert_id in Ho2 by done.
  assert (forall l', buffers s (n :: l') = buffers s2 l') as Eb by (intros l'; cbn; by rewrite E, E2).
  rewrite Eb, (IH s2 L Ho2 Hl Hc). split.
  - intros (l1 & m & l2 & s' & -> & E1 & H1 & H2). exists (n :: l1), m, l2, s'. by rewrite Eb.
  - intros ([|n' l1] & m & l2 & s' & Hl' & E1 & H1 & H2); cbn [app] in Hl'; injection Hl' as <- ->.
    + injection E1 as ->. by destruct F.
    + exists l1, m, l2, s'. by rewrite <- Eb.
Qed.
End REQUESTS.
