(* ===== verification/Bump.v ===== *)
(** An allocator that never reuses an address: the simplest implementation of the
    interface, over which the clients' theorems are tried. *)
From S2P Require Import Prelude Allocator.

Record bump : Type := mk_bump {
  bump_next : Z;
  bump_live : gmap Z Z
}.

#[export] Instance bump_allocator : Allocator bump := {
  malloc s n := Ok (bump_next s, mk_bump (bump_next s + n) (<[bump_next s := n]> (bump_live s)));
  mfree s p := if p =? 0 then Ok s else Ok (mk_bump (bump_next s) (delete p (bump_live s)));
  owns s L := bump_live s = L /\ 0 < bump_next s /\
              forall q k, L !! q = Some k -> 0 < q /\ 0 < k /\ q + k <= bump_next s;
  full _ _ := False;
  capacity := 1000;
  request_max := 1000000
}.

#[export] Instance bump_allocator_laws : AllocatorLaws bump.
Proof.
  split.
  - intros [nx lv] L n (<- & Hn & Hb) Hreq _. cbn in *. right. split; [by intros []|]. exists nx, n. eexists.
    split; [done|]. split; [lia|]. split; [lia|]. split.
    { destruct (lv !! nx) as [k|] eqn:E; [|done]. destruct (Hb _ _ E). lia. }
    split; [intros q k Hq; destruct (Hb _ _ Hq); lia|]. cbn. split; [done|]. split; [lia|].
    intros q k. destruct (decide (q = nx)) as [->|].
    + rewrite lookup_insert_eq. intros [= <-]. lia.
    + rewrite lookup_insert_ne by done. intros Hq. destruct (Hb _ _ Hq). lia.
  - intros [nx lv] L p k (<- & Hn & Hb) Hp _. cbn in *.
    destruct (Hb _ _ Hp). replace (p =? 0) with false by (symmetry; zbool).
    eexists. split; [done|]. split; [done|]. split; [done|].
    intros q j [_ Hq]%lookup_delete_Some. by apply Hb.
  - done.
  - intros [nx lv] L p k (<- & Hn & Hb) Hp. destruct (Hb _ _ Hp). lia.
Qed.

(** It has room for every request. *)
Lemma bump_grants l : forall s, grants s l <> None.
Proof. induction l as [|n l IH]; intros s; [done|]. apply IH. Qed.
Lemma bump_buffers l : forall s, buffers s l <> None.
Proof. induction l as [|n l IH]; intros s; [done|]. cbn. destruct (_ =? 0); apply IH. Qed.
Lemma bump_served (P : bump -> Prop) (Q : Prop) s l : match buffers s l with None => Q | Some a => P a end -> exists a, P a.
Proof. destruct (buffers s l) as [a|] eqn:E; [by exists a|]. by apply bump_buffers in E. Qed.
