(* ===== verification/LinkedList.v ===== *)
(** The intrusive doubly linked list of [src/src/utils/linked_list.c].  Nodes
    live in a store from address to node, shared by all lists; the operations
    read and write the fields the C code does.  A list is abstracted to the
    sequence of its node addresses with the payload of each. *)
From S2P Require Import Prelude Allocator.

(** ** Data *)

(** [linked_list_node_t]; [0] is [NULL]. *)
Record linked_list_node_t : Type := mk_node {
  ptr : Z;
  prev : Z;
  next : Z
}.

(** [linked_list_t] *)
Record linked_list_t : Type := mk_list {
  head : Z;
  tail : Z;
  lsize : Z
}.

Abbreviation nodes := (gmap Z linked_list_node_t).

Definition get_node (st : nodes) (a : Z) : res linked_list_node_t :=
  match st !! a with Some n => Ok n | None => Err Fault end.

Definition set_prev (st : nodes) (a v : Z) : res nodes :=
  let! n := get_node st a in Ok (<[a := mk_node (ptr n) v (next n)]> st).

Definition set_next (st : nodes) (a v : Z) : res nodes :=
  let! n := get_node st a in Ok (<[a := mk_node (ptr n) (prev n) v]> st).

(** ** Operations *)

(** [linked_list_init] *)
Definition linked_list_init : linked_list_t := mk_list 0 0 0.

(** [linked_list_create] *)
Definition linked_list_create : linked_list_t := linked_list_init.

(** [linked_list_append] *)
Definition linked_list_append (st : nodes) (this : linked_list_t) (new_node : Z)
    : res (nodes * linked_list_t) :=
  assert! negb (new_node =? 0) in
  let! st := set_next st new_node 0 in
  if lsize this =? 0 then
    let! st := set_prev st new_node 0 in
    Ok (st, mk_list new_node new_node (u32 (lsize this + 1)))
  else
    let! st := set_next st (tail this) new_node in
    let! st := set_prev st new_node (tail this) in
    Ok (st, mk_list (head this) new_node (u32 (lsize this + 1))).

(** [linked_list_insert]: [new_node] goes behind [node], or to the head when
    [node] is [NULL]. *)
Definition linked_list_insert (st : nodes) (this : linked_list_t) (node new_node : Z)
    : res (nodes * linked_list_t) :=
  let! st := set_prev st new_node node in
  let! (next_node, st, hd) :=
    if negb (node =? 0) then
      let! n := get_node st node in
      let! st := set_next st node new_node in
      Ok (next n, st, head this)
    else Ok (head this, st, new_node) in
  let! st := set_next st new_node next_node in
  if negb (next_node =? 0) then
    let! st := set_prev st next_node new_node in
    Ok (st, mk_list hd (tail this) (u32 (lsize this + 1)))
  else Ok (st, mk_list hd new_node (u32 (lsize this + 1))).

(** [linked_list_remove] *)
Definition linked_list_remove (st : nodes) (this : linked_list_t) (node : Z)
    : res (nodes * linked_list_t) :=
  assert! negb (node =? 0) in
  if lsize this =? 0 then Ok (st, this)
  else
    let! n := get_node st node in
    let prev_node := prev n in
    let next_node := next n in
    let! (st, hd) :=
      if negb (prev_node =? 0) then
        let! st := set_next st prev_node next_node in Ok (st, head this)
      else Ok (st, next_node) in
    let! (st, tl) :=
      if negb (next_node =? 0) then
        let! st := set_prev st next_node prev_node in Ok (st, tail this)
      else Ok (st, prev_node) in
    let! st := set_next st node 0 in
    let! st := set_prev st node 0 in
    Ok (st, mk_list hd tl (u32 (lsize this - 1))).

(** [linked_list_move]: the new [dst] and [src]. *)
Definition linked_list_move (src : linked_list_t) : linked_list_t * linked_list_t :=
  (mk_list (head src) (tail src) (lsize src), linked_list_init).

(** The search loop of [linked_list_remove_ele]. *)
Fixpoint find_ele (fuel : nat) (st : nodes) (node p : Z) : res (option Z) :=
  match fuel with
  | O => Err NoFuel
  | S fuel =>
      if node =? 0 then Ok None
      else
        let! n := get_node st node in
        if ptr n =? p then Ok (Some node) else find_ele fuel st (next n) p
  end.

(** [linked_list_remove_ele] *)
Definition linked_list_remove_ele (fuel : nat) (st : nodes) (this : linked_list_t) (p : Z)
    : res (nodes * linked_list_t) :=
  let! r := find_ele fuel st (head this) p in
  match r with
  | Some node => linked_list_remove st this node
  | None => Ok (st, this)
  end.

(** [linked_list_insert_to_head] *)
Definition linked_list_insert_to_head (st : nodes) (this : linked_list_t) (new_node : Z)
    : res (nodes * linked_list_t) := linked_list_insert st this 0 new_node.

(** [sizeof(linked_list_node_t)] *)
Definition node_bytes : Z := 12.

(** [linked_list_append_ele]: of the fields of the fresh node only [ptr] is
    meaningful before the append writes the others. *)
Definition linked_list_append_ele {St} `{Allocator St} (s : St) (st : nodes)
    (this : linked_list_t) (p : Z) : res (St * nodes * linked_list_t) :=
  let! (node, s) := malloc s node_bytes in
  let st := <[node := mk_node p 0 0]> st in
  let! (st, this) := linked_list_append st this node in
  Ok (s, st, this).

(** ** Abstraction: a list of node addresses with their payloads *)
Definition first (e : Z) (l : list (Z * Z)) : Z :=
  match l with [] => e | (x, _) :: _ => x end.

Fixpoint final (e : Z) (l : list (Z * Z)) : Z :=
  match l with [] => e | (x, _) :: l => final x l end.

(** The nodes of [l] are linked both ways, between [p] and [e]. *)
Fixpoint links (st : nodes) (p : Z) (l : list (Z * Z)) (e : Z) : Prop :=
  match l with
  | [] => True
  | (x, v) :: l => x <> 0 /\ st !! x = Some (mk_node v p (first e l)) /\ links st x l e
  end.

Record dll (st : nodes) (this : linked_list_t) (l : list (Z * Z)) : Prop := {
  dll_head : head this = first 0 l;
  dll_tail : tail this = final 0 l;
  dll_size : lsize this = Z.of_nat (length l);
  dll_links : links st 0 l 0;
  dll_nodup : NoDup l.*1;
  dll_bound : Z.of_nat (length l) < 4294967295
}.

(** The nodes outside [l] are untouched. *)
Definition nodes_kept (st st' : nodes) (l : list Z) : Prop :=
  forall x, x ∉ l -> st' !! x = st !! x.

(** ** Lemmas on links *)
Lemma first_app e l l' : first e (l ++ l') = first (first e l') l.
Proof. by destruct l as [|[]]. Qed.

Lemma final_app e l l' : final e (l ++ l') = final (final e l) l'.
Proof. revert e. induction l as [|[x v] l IH]; intros e; [done|apply IH]. Qed.

Lemma links_app st p l l' e :
  links st p (l ++ l') e <-> links st p l (first e l') /\ links st (final p l) l' e.
Proof.
  revert p. induction l as [|[x v] l IH]; intros p; [cbn; tauto|].
  cbn [app links final]. rewrite IH, first_app. tauto.
Qed.

Lemma links_kept st st' p l e :
  (forall x, x ∈ l.*1 -> st' !! x = st !! x) -> links st p l e -> links st' p l e.
Proof.
  revert p. induction l as [|[x v] l IH]; intros p Hk; [done|].
  cbn [links]. intros (? & Hx & Hl). split; [done|]. split.
  - rewrite Hk; [done|]. cbn. set_solver.
  - apply IH; [|done]. intros y Hy. apply Hk. cbn. set_solver.
Qed.

Lemma links_insert st p l e x n :
  x ∉ l.*1 -> links st p l e -> links (<[x := n]> st) p l e.
Proof. intros Hx. apply links_kept. intros y Hy. apply lookup_insert_ne. set_solver. Qed.

(** The last node of a segment, opened for a write. *)
Lemma links_snoc st p l x v e :
  links st p (l ++ [(x, v)]) e <->
  links st p l x /\ x <> 0 /\ st !! x = Some (mk_node v (final p l) e).
Proof. rewrite links_app. cbn. tauto. Qed.

Lemma links_nonzero st p l e x : links st p l e -> x ∈ l.*1 -> x <> 0.
Proof.
  revert p. induction l as [|[y v] l IH]; intros p; cbn; [set_solver|].
  intros (? & _ & Hl) [->|Hx]%elem_of_cons; [done|by apply (IH y)].
Qed.

Lemma dll_kept st st' this l :
  (forall x, x ∈ l.*1 -> st' !! x = st !! x) -> dll st this l -> dll st' this l.
Proof. intros Hk []. split; try done. by apply (links_kept st). Qed.

Lemma dll_nil st : dll st linked_list_init [].
Proof. split; try done. constructor. Qed.

Lemma final_nonzero st p l e : links st p l e -> p <> 0 \/ l <> [] -> final p l <> 0.
Proof.
  revert p. induction l as [|[x v] l IH]; intros p Hl Hp; cbn; [by destruct Hp|].
  destruct Hl as (? & _ & Hl). by apply IH; [|left].
Qed.

Lemma final_snoc e l x v : final e (l ++ [(x, v)]) = x.
Proof. by rewrite final_app. Qed.

Lemma set_next_eq st a v n : st !! a = Some n -> set_next st a v = Ok (<[a := mk_node (ptr n) (prev n) v]> st).
Proof. intros E. unfold set_next, get_node. by rewrite E. Qed.

Lemma set_prev_eq st a v n : st !! a = Some n -> set_prev st a v = Ok (<[a := mk_node (ptr n) v (next n)]> st).
Proof. intros E. unfold set_prev, get_node. by rewrite E. Qed.

(** Relinking the end of a segment, and its beginning. *)
Lemma set_next_final st p e z :
  links st 0 p e -> NoDup p.*1 -> final 0 p <> 0 ->
  exists st', set_next st (final 0 p) z = Ok st' /\ links st' 0 p z /\ final 0 p ∈ p.*1 /\
    nodes_kept st st' [final 0 p].
Proof.
  intros Hl Hnd Hf. destruct p as [|[x v] p _] using rev_ind; [done|].
  rewrite final_snoc in *. rewrite links_snoc in Hl. destruct Hl as (Hl & Hx & Hn).
  rewrite fmap_app in Hnd. apply NoDup_app in Hnd as (_ & Hd & _).
  rewrite (set_next_eq _ _ _ _ Hn). eexists. split; [done|]. cbn [ptr prev]. split; [|split].
  - rewrite links_snoc. split; [|split; [done|apply lookup_insert_eq]].
    apply links_insert; [|done]. intros Hin. apply (Hd x Hin). cbn. set_solver.
  - rewrite fmap_app. cbn. set_solver.
  - intros y Hy. apply lookup_insert_ne. set_solver.
Qed.

Lemma set_prev_first st a q z :
  links st a q 0 -> NoDup q.*1 -> first 0 q <> 0 ->
  exists st', set_prev st (first 0 q) z = Ok st' /\ links st' z q 0 /\ first 0 q ∈ q.*1 /\
    nodes_kept st st' [first 0 q].
Proof.
  destruct q as [|[x v] q]; [done|]. cbn [links first]. intros (Hx & Hn & Hl) Hnd _.
  cbn in Hnd. apply NoDup_cons in Hnd as [Hnot Hnd].
  rewrite (set_prev_eq _ _ _ _ Hn). eexists. split; [done|]. cbn [ptr next]. split; [|split].
  - split; [done|]. split; [apply lookup_insert_eq|]. by apply links_insert.
  - cbn. set_solver.
  - intros y Hy. apply lookup_insert_ne. set_solver.
Qed.

Lemma nodes_kept_weaken st st' l l' : nodes_kept st st' l -> l ⊆ l' -> nodes_kept st st' l'.
Proof. intros H Hs x Hx. apply H. set_solver. Qed.

Lemma nodes_kept_trans st1 st2 st3 l :
  nodes_kept st1 st2 l -> nodes_kept st2 st3 l -> nodes_kept st1 st3 l.
Proof. intros H1 H2 x Hx. by rewrite H2, H1. Qed.

Lemma nodes_kept_insert st x n l : x ∈ l -> nodes_kept st (<[x := n]> st) l.
Proof. intros Hx y Hy. apply lookup_insert_ne. set_solver. Qed.

Lemma nodes_kept_refl st l : nodes_kept st st l.
Proof. by intros x. Qed.

(** The conditional relinks of [linked_list_insert] and [linked_list_remove]. *)
Lemma relink_left st p e z hd :
  links st 0 p e -> NoDup p.*1 -> hd = first e p ->
  exists st', (if negb (final 0 p =? 0) then
                 let! st := set_next st (final 0 p) z in Ok (st, hd)
               else Ok (st, z)) = Ok (st', first z p) /\
    links st' 0 p z /\ nodes_kept st st' p.*1.
Proof.
  intros Hl Hnd ->. destruct (Z.eqb_spec (final 0 p) 0) as [Hf|Hf]; cbn [negb].
  - assert (p = []) as ->.
    { destruct p as [|xv p]; [done|]. exfalso. by apply (final_nonzero st 0 (xv :: p) e); [|right|]. }
    by exists st.
  - destruct (set_next_final st p e z Hl Hnd Hf) as (st' & E & Hl' & Hin & Hk). rewrite E.
    exists st'. split.
    + destruct p as [|[y w] p]; [done|]. done.
    + split; [done|]. apply (nodes_kept_weaken _ _ _ _ Hk). set_solver.
Qed.

Lemma relink_right st a q z tl :
  links st a q 0 -> NoDup q.*1 -> tl = final a q ->
  exists st', (if negb (first 0 q =? 0) then
                 let! st := set_prev st (first 0 q) z in Ok (st, tl)
               else Ok (st, z)) = Ok (st', final z q) /\
    links st' z q 0 /\ nodes_kept st st' q.*1.
Proof.
  intros Hl Hnd ->. destruct q as [|[x v] q]; [by exists st|].
  assert (x <> 0) as Hx by apply Hl. cbn [first].
  replace (x =? 0) with false by (symmetry; zbool). cbn [negb].
  destruct (set_prev_first st a ((x, v) :: q) z Hl Hnd Hx) as (st' & E & Hl' & Hin & Hk).
  cbn [first] in E. rewrite E. exists st'. split; [done|]. split; [done|].
  apply (nodes_kept_weaken _ _ _ _ Hk). cbn in *. set_solver.
Qed.

(** ** The operations on the abstraction *)
Section OPS.
Context (st : nodes) (this : linked_list_t).

Lemma append_ok l x n :
  dll st this l -> st !! x = Some n -> x <> 0 -> x ∉ l.*1 -> Z.of_nat (length l) < 4294967294 ->
  exists st' this', linked_list_append st this x = Ok (st', this') /\
    dll st' this' (l ++ [(x, ptr n)]) /\ nodes_kept st st' (x :: l.*1).
Proof.
  intros [Hh Ht Hs Hl Hnd _] Hx Hx0 Hnot Hb. unfold linked_list_append.
  replace (x =? 0) with false by (symmetry; zbool). cbn [negb].
  rewrite (set_next_eq _ _ _ _ Hx). cbn [res_bind]. set (st1 := <[x := _]> st).
  assert (nodes_kept st st1 (x :: l.*1)) as Hk1 by (apply nodes_kept_insert; set_solver).
  pose proof (links_insert st 0 l 0 x (mk_node (ptr n) (prev n) 0) Hnot Hl) as Hl1. fold st1 in Hl1.
  assert (NoDup (l ++ [(x, ptr n)]).*1) as Hnd'.
  { rewrite fmap_app. apply NoDup_app. split; [done|]. split; [|apply NoDup_singleton].
    intros y Hy ?%list_elem_of_singleton. subst. done. }
  rewrite Hs, u32_small by lia. destruct (Z.eqb_spec (Z.of_nat (length l)) 0) as [Hz|Hz].
  - destruct l; [|cbn in Hz; lia]. rewrite (set_prev_eq st1 x _ _ (lookup_insert_eq _ _ _)).
    cbn [res_bind]. eexists _, _. split; [done|]. split.
    + split; cbn; try done. split; [done|]. split; [|done]. apply lookup_insert_eq.
    + apply (nodes_kept_trans _ st1); [done|]. apply nodes_kept_insert. set_solver.
  - assert (final 0 l <> 0) as Hf.
    { apply (final_nonzero st 0 l 0 Hl). right. by intros ->. }
    destruct (set_next_final st1 l 0 x Hl1 Hnd Hf) as (st2 & E2 & Hl2 & Hin2 & Hk2).
    rewrite Ht, E2. cbn [res_bind].
    assert (st2 !! x = Some (mk_node (ptr n) (prev n) 0)) as Hx2.
    { rewrite Hk2; [apply lookup_insert_eq|]. intros ?%list_elem_of_singleton. subst x. done. }
    rewrite (set_prev_eq st2 x _ _ Hx2). cbn [res_bind ptr next]. eexists _, _. split; [done|]. split.
    + split; cbn [head tail lsize]; [| |rewrite length_app; cbn; lia| |done|rewrite length_app; cbn; lia].
      * rewrite first_app, Hh. by destruct l as [|[]].
      * by rewrite final_snoc.
      * rewrite links_snoc. split; [by apply links_insert|]. split; [done|]. apply lookup_insert_eq.
    + apply (nodes_kept_trans _ st1); [done|]. apply (nodes_kept_trans _ st2).
      * apply (nodes_kept_weaken _ _ _ _ Hk2). set_solver.
      * apply nodes_kept_insert. set_solver.
Qed.

Lemma remove_ok p x v q :
  dll st this (p ++ (x, v) :: q) ->
  exists st' this', linked_list_remove st this x = Ok (st', this') /\ dll st' this' (p ++ q) /\
    st' !! x = Some (mk_node v 0 0) /\ nodes_kept st st' (p ++ (x, v) :: q).*1.
Proof.
  intros [Hh Ht Hs Hl Hnd Hb]. apply links_app in Hl as [Hl1 Hl2]. cbn [first links] in Hl1, Hl2.
  destruct Hl2 as (Hx0 & Hx & Hl2). rewrite fmap_app in Hnd. cbn in Hnd.
  apply NoDup_app in Hnd as (Hndp & Hd & Hndq). apply NoDup_cons in Hndq as [Hxq Hndq].
  assert (x ∉ p.*1) as Hxp by (intros Hin; apply (Hd x Hin); set_solver).
  unfold linked_list_remove. replace (x =? 0) with false by (symmetry; zbool). cbn [negb].
  rewrite length_app in Hs, Hb. cbn [length] in Hs, Hb.
  replace (lsize this =? 0) with false by (symmetry; zbool).
  unfold get_node at 1. rewrite Hx. cbn [res_bind ptr prev next].
  destruct (relink_left st p x (first 0 q) (head this) Hl1 Hndp) as (st1 & -> & Hl1' & Hk1).
  { by rewrite Hh, first_app. }
  cbn [res_bind].
  assert (links st1 x q 0) as Hl2'.
  { apply (links_kept st); [|done]. intros y Hy. apply Hk1. intros Hin. apply (Hd y Hin). set_solver. }
  destruct (relink_right st1 x q (final 0 p) (tail this) Hl2' Hndq) as (st2 & -> & Hl2'' & Hk2).
  { by rewrite Ht, final_app. }
  cbn [res_bind].
  assert (st2 !! x = Some (mk_node v (final 0 p) (first 0 q))) as Hx2.
  { rewrite Hk2, Hk1 by done. done. }
  rewrite (set_next_eq _ _ _ _ Hx2). cbn [res_bind ptr prev].
  rewrite (set_prev_eq _ x 0 _ (lookup_insert_eq _ _ _)). cbn [res_bind ptr next].
  eexists _, _. split; [done|]. split; [|split; [apply lookup_insert_eq|]].
  - split; cbn [head tail lsize].
    + by rewrite first_app.
    + by rewrite final_app.
    + rewrite Hs, length_app, u32_small by lia. lia.
    + apply links_app. split; repeat (apply links_insert; [done|]).
      * apply (links_kept st1); [|done]. intros y Hy. apply Hk2. intros Hin. apply (Hd y Hy). set_solver.
      * done.
    + rewrite fmap_app. apply NoDup_app. split; [done|]. split; [|done].
      intros y Hy Hin. apply (Hd y Hy). set_solver.
    + rewrite length_app. lia.
  - rewrite fmap_app. cbn. apply (nodes_kept_trans _ st1).
    { apply (nodes_kept_weaken _ _ _ _ Hk1). set_solver. }
    apply (nodes_kept_trans _ st2). { apply (nodes_kept_weaken _ _ _ _ Hk2). set_solver. }
    eapply nodes_kept_trans; apply nodes_kept_insert; set_solver.
Qed.

Lemma insert_ok p q x n :
  dll st this (p ++ q) -> st !! x = Some n -> x <> 0 -> x ∉ (p ++ q).*1 ->
  Z.of_nat (length (p ++ q)) < 4294967294 ->
  exists st' this', linked_list_insert st this (final 0 p) x = Ok (st', this') /\
    dll st' this' (p ++ (x, ptr n) :: q) /\ nodes_kept st st' (x :: (p ++ q).*1).
Proof.
  intros [Hh Ht Hs Hl Hnd _] Hx Hx0 Hnot Hb. apply links_app in Hl as [Hl1 Hl2].
  rewrite fmap_app in Hnd, Hnot. apply NoDup_app in Hnd as (Hndp & Hd & Hndq).
  assert ((x ∉ p.*1) /\ (x ∉ q.*1)) as [Hxp Hxq] by set_solver.
  unfold linked_list_insert. rewrite (set_prev_eq _ _ _ _ Hx). cbn [res_bind].
  set (st0 := <[x := _]> st).
  assert (st0 !! x = Some (mk_node (ptr n) (final 0 p) (next n))) as Hx1 by apply lookup_insert_eq.
  assert (exists st1, (if negb (final 0 p =? 0) then
      let! n := get_node st0 (final 0 p) in
      let! st := set_next st0 (final 0 p) x in Ok (next n, st, head this)
      else Ok (head this, st0, x)) = Ok (first 0 q, st1, first x p) /\
      links st1 0 p x /\ nodes_kept st0 st1 p.*1) as (st1 & -> & Hl1' & Hk1).
  { assert (links st0 0 p (first 0 q)) as Hl0 by by apply links_insert.
    destruct (relink_left st0 p (first 0 q) x (head this) Hl0 Hndp) as (st1 & E & H1 & H2).
    { by rewrite Hh, first_app. }
    exists st1. split; [|done]. destruct (negb _) eqn:Ef.
    - destruct p as [|[y w] p _] using rev_ind; [done|]. rewrite final_snoc in *.
      rewrite links_snoc in Hl0. unfold get_node. destruct Hl0 as (_ & _ & ->). cbn [res_bind next].
      destruct (set_next st0 y x); [|done]. cbn in E |- *. by injection E as -> ->.
    - injection E as <- <-. destruct p as [|[y w] p]; [by rewrite Hh|].
      apply negb_false_iff, Z.eqb_eq in Ef. exfalso.
      by apply (final_nonzero _ _ _ _ Hl1); [right|]. }
  cbn [res_bind].
  assert (st1 !! x = Some (mk_node (ptr n) (final 0 p) (next n))) as Hx2 by (by rewrite Hk1).
  rewrite (set_next_eq _ _ _ _ Hx2). cbn [res_bind ptr prev]. set (st2 := <[x := _]> st1).
  assert (links st2 (final 0 p) q 0) as Hl2'.
  { apply links_insert; [done|]. apply (links_kept st0).
    - intros y Hy. apply Hk1. intros Hin. by apply (Hd y Hin).
    - by apply links_insert. }
  destruct (relink_right st2 _ q x (tail this) Hl2' Hndq) as (st3 & E3 & Hl3 & Hk3).
  { by rewrite Ht, final_app. }
  exists st3, (mk_list (first x p) (final x q) (u32 (lsize this + 1))). split; [|split].
  - destruct (negb _); [|injection E3 as E3 Ef; by rewrite E3, <- Ef].
    destruct (set_prev _ _ _); [|done]. cbn in E3 |- *. by injection E3 as -> ->.
  - split; cbn [head tail lsize].
    + by rewrite first_app.
    + by rewrite final_app.
    + rewrite Hs, !length_app in *. cbn. rewrite u32_small by lia. lia.
    + apply links_app. cbn [links first]. split; [|split; [done|split; [|done]]].
      * apply (links_kept st2); [|by apply links_insert].
        intros y Hy. apply Hk3. intros Hin. by apply (Hd y Hy).
      * rewrite Hk3 by done. apply lookup_insert_eq.
    + rewrite fmap_app. cbn. apply NoDup_app. split; [done|]. split.
      * intros y Hy [->|Hin]%elem_of_cons; [done|]. by apply (Hd y Hy).
      * by apply NoDup_cons.
    + rewrite length_app in *. cbn. lia.
  - rewrite fmap_app. apply (nodes_kept_trans _ st0); [apply nodes_kept_insert; set_solver|].
    apply (nodes_kept_trans _ st1). { apply (nodes_kept_weaken _ _ _ _ Hk1). set_solver. }
    apply (nodes_kept_trans _ st2); [apply nodes_kept_insert; set_solver|].
    apply (nodes_kept_weaken _ _ _ _ Hk3). set_solver.
Qed.

(** The search visits every node of the list at most once. *)
Lemma find_ele_ok a l p fuel :
  links st a l 0 -> (length l < fuel)%nat ->
  find_ele fuel st (first 0 l) p =
  Ok (fst <$> list.head (filter (fun xv => xv.2 = p) l)).
Proof.
  revert a fuel. induction l as [|[x v] l IH]; intros a fuel; (destruct fuel as [|fuel]; [cbn; lia|]).
  - done.
  - cbn [links first find_ele length]. intros (Hx & Hn & Hl) Hf.
    replace (x =? 0) with false by (symmetry; zbool). unfold get_node. rewrite Hn.
    cbn [res_bind ptr next]. destruct (Z.eqb_spec v p) as [->|Hne].
    + by rewrite filter_cons_True by done.
    + rewrite filter_cons_False by done. apply (IH x); [done|lia].
Qed.

End OPS.

(** Removing the first node with payload [p] from the abstract list. *)
Fixpoint drop_ele (p : Z) (l : list (Z * Z)) : list (Z * Z) :=
  match l with
  | [] => []
  | (x, v) :: l => if v =? p then l else (x, v) :: drop_ele p l
  end.

Lemma filter_head_split p (l : list (Z * Z)) :
  match list.head (filter (fun xv => xv.2 = p) l) with
  | Some (x, v) => exists l1 l2, l = l1 ++ (x, v) :: l2 /\ drop_ele p l = l1 ++ l2
  | None => drop_ele p l = l
  end.
Proof.
  induction l as [|[x v] l IH]; [done|]. cbn [drop_ele]. destruct (Z.eqb_spec v p) as [->|Hne].
  - rewrite filter_cons_True by done. by exists [], l.
  - rewrite filter_cons_False by done. destruct (list.head _) as [[y w]|].
    + destruct IH as (l1 & l2 & -> & ->). by exists ((x, v) :: l1), l2.
    + by rewrite IH.
Qed.

Lemma remove_ele_ok st this l p fuel :
  dll st this l -> (length l < fuel)%nat ->
  exists st' this', linked_list_remove_ele fuel st this p = Ok (st', this') /\
    dll st' this' (drop_ele p l) /\ nodes_kept st st' l.*1.
Proof.
  intros Hd Hf. unfold linked_list_remove_ele. rewrite (dll_head _ _ _ Hd).
  rewrite (find_ele_ok st 0 l p fuel (dll_links _ _ _ Hd) Hf).
  pose proof (filter_head_split p l) as Hs. destruct (list.head _) as [[x v]|]; cbn.
  - destruct Hs as (l1 & l2 & -> & ->). destruct (remove_ok st this l1 x v l2 Hd) as (st' & this' & ? & ? & _ & ?).
    by exists st', this'.
  - rewrite Hs. by exists st, this.
Qed.

(** ** Properties *)

(** C19: appending a fresh node, inserting one at the head or behind any node of the
    list, and removing a node are the operations on the sequence of nodes; links,
    head, tail and size stay consistent, and no other node of the store changes,
    so lists that share the store are not disturbed. *)
Theorem linked_list_refines (st : nodes) (this : linked_list_t) (p q : list (Z * Z)) (x : Z)
    (n : linked_list_node_t) (Hd : dll st this (p ++ q)) (Hn : st !! x = Some n) (Hx : x <> 0)
    (Hb : Z.of_nat (length (p ++ q)) < 4294967294) :
  (x ∉ (p ++ q).*1 ->
     (exists st' t', linked_list_append st this x = Ok (st', t') /\
        dll st' t' ((p ++ q) ++ [(x, ptr n)]) /\ nodes_kept st st' (x :: (p ++ q).*1)) /\
     (exists st' t', linked_list_insert st this (final 0 p) x = Ok (st', t') /\
        dll st' t' (p ++ (x, ptr n) :: q) /\ nodes_kept st st' (x :: (p ++ q).*1)) /\
     (exists st' t', linked_list_insert_to_head st this x = Ok (st', t') /\
        dll st' t' ((x, ptr n) :: p ++ q) /\ nodes_kept st st' (x :: (p ++ q).*1))) /\
  (forall y v q', q = (y, v) :: q' ->
     exists st' t', linked_list_remove st this y = Ok (st', t') /\ dll st' t' (p ++ q') /\
       st' !! y = Some (mk_node v 0 0) /\ nodes_kept st st' (p ++ q).*1).
Proof.
  split.
  - intros Hnot. split; [by apply append_ok|]. split; [by apply insert_ok|].
    by apply (insert_ok st this [] (p ++ q)).
  - intros y v q' ->. by apply remove_ok.
Qed.

(** [linked_list_remove_ele] removes the first node whose payload is [p], and
    leaves the list alone when there is none; its search ends within the length of
    the list. *)
Theorem linked_list_remove_ele_correct (st : nodes) (this : linked_list_t) (l : list (Z * Z)) (p : Z)
    (fuel : nat) (Hd : dll st this l) (Hf : (length l < fuel)%nat) :
  exists st' this', linked_list_remove_ele fuel st this p = Ok (st', this') /\
    dll st' this' (drop_ele p l) /\ nodes_kept st st' l.*1.
Proof. exact (remove_ele_ok st this l p fuel Hd Hf). Qed.

(** [linked_list_remove] does not test membership: called with a node that is
    in no list, it empties the head and the tail of a list of [n] nodes and leaves
    its size at [n - 1], so the nodes are lost. *)
Theorem linked_list_remove_foreign (st : nodes) (this : linked_list_t) (l : list (Z * Z)) (x v : Z)
    (Hd : dll st this l) (Hl : l <> []) (Hx : x <> 0) (Hn : st !! x = Some (mk_node v 0 0)) :
  exists st', linked_list_remove st this x = Ok (st', mk_list 0 0 (lsize this - 1)) /\
    (forall l', dll st' (mk_list 0 0 (lsize this - 1)) l' -> l' = [] /\ length l = 1%nat).
Proof.
  destruct Hd as [_ _ Hs _ _ Hb]. assert (0 < Z.of_nat (length l)) by (destruct l; cbn; [done|lia]).
  unfold linked_list_remove. replace (x =? 0) with false by (symmetry; zbool). cbn [negb].
  replace (lsize this =? 0) with false by (symmetry; zbool).
  unfold get_node at 1. rewrite Hn. cbn [res_bind ptr prev next Z.eqb negb].
  rewrite (set_next_eq _ _ _ _ Hn). cbn [res_bind ptr prev].
  rewrite (set_prev_eq _ x 0 _ (lookup_insert_eq _ _ _)). cbn [res_bind].
  rewrite u32_small by lia. eexists. split; [done|].
  intros l' [Hh _ Hs' Hl' _ _]. cbn in Hh, Hs'. destruct l' as [|[y w] l'].
  - cbn in Hs'. split; [done|lia].
  - cbn in Hh. destruct Hl' as (? & _). congruence.
Qed.

(** ** Witnesses *)
Definition demo_nodes : nodes :=
  <[100 := mk_node 7 0 200]> (<[200 := mk_node 8 100 0]> (<[300 := mk_node 9 0 0]> ∅)).
Definition demo_list : linked_list_t := mk_list 100 200 2.

Lemma demo_dll : dll demo_nodes demo_list [(100, 7); (200, 8)].
Proof.
  assert (NoDup [100; 200]) as Hnd by (repeat constructor; set_solver).
  split; [done|done|done| |done|done]. cbn. repeat (split; [lia|split; [by vm_compute|]]). done.
Qed.

Lemma linked_list_refines_witness :
  exists st' t', linked_list_insert demo_nodes demo_list 100 300 = Ok (st', t') /\
    dll st' t' [(100, 7); (300, 9); (200, 8)].
Proof.
  destruct (linked_list_refines demo_nodes demo_list [(100, 7)] [(200, 8)] 300 (mk_node 9 0 0)
              demo_dll eq_refl) as [H _]; [done|done|].
  destruct H as (_ & (st' & t' & ? & ? & _) & _); [cbn; set_solver|]. by exists st', t'.
Defined.

Lemma linked_list_remove_ele_correct_witness :
  exists st' t', linked_list_remove_ele 3 demo_nodes demo_list 8 = Ok (st', t') /\
    dll st' t' [(100, 7)].
Proof.
  destruct (linked_list_remove_ele_correct demo_nodes demo_list _ 8 3 demo_dll)
    as (st' & t' & ? & ? & _); [cbn; lia|]. by exists st', t'.
Defined.

Lemma linked_list_remove_foreign_witness :
  exists st', linked_list_remove demo_nodes demo_list 300 = Ok (st', mk_list 0 0 1).
Proof.
  destruct (linked_list_remove_foreign demo_nodes demo_list _ 300 9 demo_dll) as (st' & ? & _);
    [done|done|done|]. by exists st'.
Defined.
