(* ===== verification/HashTableSpec.v ===== *)
(** The hash table as a finite map: its representation invariant, and the proof
    that every operation of [HashTable] keeps it and acts as the map operation. *)
From S2P Require Import Prelude Allocator LinkedList HashTable Bump.

(** ** Several lists in one node store *)
Abbreviation tabs := (list (linked_list_t * list (Z * Z))).

Definition members (ts : tabs) : list Z := (mjoin ts.*2).*1.

Definition dlls (st : nodes) (ts : tabs) : Prop :=
  Forall (fun tl => dll st tl.1 tl.2) ts /\ NoDup (members ts).

Lemma members_cons t l ts : members ((t, l) :: ts) = l.*1 ++ members ts.
Proof. unfold members. cbn. by rewrite fmap_app. Qed.

#[export] Instance members_perm : Proper ((≡ₚ) ==> (≡ₚ)) members.
Proof. intros ts ts' Hp. unfold members. by rewrite Hp. Qed.

#[export] Instance dlls_perm st : Proper ((≡ₚ) ==> iff) (dlls st).
Proof. intros ts ts' Hp. unfold dlls. by rewrite Hp. Qed.

Lemma dlls_kept st st' ts :
  (forall x, x ∈ members ts -> st' !! x = st !! x) -> dlls st ts -> dlls st' ts.
Proof.
  intros Hk [Hd Hn]. split; [|done]. clear Hn. induction Hd as [|[t l] ts Hd _ IH]; [constructor|].
  rewrite members_cons in Hk. constructor.
  - apply (dll_kept st); [|done]. intros x Hx. apply Hk. set_solver.
  - apply IH. intros x Hx. apply Hk. set_solver.
Qed.

Lemma dlls_cons st t l ts :
  dlls st ((t, l) :: ts) <->
  dll st t l /\ dlls st ts /\ (forall x, x ∈ l.*1 -> x ∉ members ts).
Proof.
  unfold dlls. rewrite members_cons, Forall_cons, NoDup_app. cbn [fst snd]. split.
  - by intros [[? ?] (? & ? & ?)].
  - intros (Hd & [? ?] & ?). pose proof (dll_nodup _ _ _ Hd). done.
Qed.

(** Changing one of the lists. *)
Lemma dlls_update st st' t l t' l' ts X :
  dlls st ((t, l) :: ts) -> dll st' t' l' -> nodes_kept st st' X ->
  (forall x, x ∈ X -> x ∉ members ts) -> l'.*1 ⊆ X -> dlls st' ((t', l') :: ts).
Proof.
  intros (_ & Hts & _)%dlls_cons Hd Hk HX Hsub. apply dlls_cons. split; [done|]. split.
  - apply (dlls_kept st); [|done]. intros x Hx. apply Hk. intros Hin. by apply (HX x).
  - intros x Hx. apply HX. set_solver.
Qed.

Lemma dlls_remove st t p x v q ts :
  dlls st ((t, p ++ (x, v) :: q) :: ts) ->
  exists st' t', linked_list_remove st t x = Ok (st', t') /\ dlls st' ((t', p ++ q) :: ts) /\
    st' !! x = Some (mk_node v 0 0) /\ (x ∉ members ((t', p ++ q) :: ts)) /\
    nodes_kept st st' (p ++ (x, v) :: q).*1.
Proof.
  intros Hall. pose proof Hall as (Hd & Hts & Hap)%dlls_cons.
  destruct (remove_ok st t p x v q Hd) as (st' & t' & E & Hd' & Hx & Hk).
  exists st', t'. split; [done|]. split; [|split; [done|split; [|done]]].
  - apply (dlls_update _ _ _ _ _ _ _ _ Hall Hd' Hk Hap). rewrite !fmap_app. cbn. set_solver.
  - rewrite members_cons. pose proof (dll_nodup _ _ _ Hd) as Hnd. rewrite fmap_app in *. cbn in *.
    apply NoDup_app in Hnd as (_ & Hd1 & [? _]%NoDup_cons). specialize (Hap x).
    rewrite !not_elem_of_app. split; [split; [|done]|]; [|apply Hap; set_solver].
    intros Hin. apply (Hd1 x Hin). set_solver.
Qed.

Lemma dlls_append st t l ts x n :
  dlls st ((t, l) :: ts) -> st !! x = Some n -> x <> 0 -> x ∉ members ((t, l) :: ts) ->
  Z.of_nat (length l) < 4294967294 ->
  exists st' t', linked_list_append st t x = Ok (st', t') /\
    dlls st' ((t', l ++ [(x, ptr n)]) :: ts) /\ nodes_kept st st' (x :: l.*1).
Proof.
  intros Hall Hx Hx0 Hnot Hb. pose proof Hall as (Hd & Hts & Hap)%dlls_cons.
  rewrite members_cons, not_elem_of_app in Hnot. destruct Hnot as [Hnl Hnt].
  destruct (append_ok st t l x n Hd Hx Hx0 Hnl Hb) as (st' & t' & E & Hd' & Hk).
  exists st', t'. split; [done|]. split; [|done].
  apply (dlls_update _ _ _ _ _ _ _ _ Hall Hd' Hk).
  - intros y [->|Hy]%elem_of_cons; [done|by apply Hap].
  - rewrite fmap_app. cbn. set_solver.
Qed.

Lemma drop_zip {A B} i (l : list A) (k : list B) : drop i (zip l k) = zip (drop i l) (drop i k).
Proof. revert l k. induction i as [|i IH]; intros [|x l] [|y k]; cbn; try done. by destruct (drop i l). Qed.

(** Taking one element of a list out of a permutation. *)
Lemma lookup_rest {A} (l : list A) i x :
  l !! i = Some x -> exists rest, l ≡ₚ x :: rest /\ forall y, <[i := y]> l ≡ₚ y :: rest.
Proof.
  intros Hi. exists (take i l ++ drop (S i) l). split.
  - rewrite <- (take_drop_middle l i x Hi) at 1. symmetry. apply Permutation_middle.
  - intros y. rewrite insert_take_drop by (by apply lookup_lt_Some in Hi).
    symmetry. apply Permutation_middle.
Qed.

(** ** The representation *)
Record entry : Type := mk_entry {
  e_node : Z;
  e_kv : Z;
  e_key : Z;
  e_val : Z
}.

Definition chain (es : list entry) : list (Z * Z) := (fun e => (e_node e, e_kv e)) <$> es.

Lemma chain_fst es : (chain es).*1 = e_node <$> es.
Proof. unfold chain. by rewrite <- list_fmap_compose. Qed.

Definition table_tabs (t : hash_table_t) (cs : list (list entry)) : tabs :=
  zip (buckets t) (chain <$> cs).

(** The addresses a table has allocated besides its bucket array. *)
Definition cells (es : list entry) : list Z := (e_node <$> es) ++ (e_kv <$> es).

Definition map_of (es : list entry) : gmap Z Z := list_to_map ((fun e => (e_key e, e_val e)) <$> es).

Definition entry_ok (kvs : gmap Z hash_table_kv_t) (e : entry) : Prop :=
  kvs !! e_kv e = Some (mk_kv (e_key e) (e_val e)).

Record table_ok {St} (s : hstate St) (t : hash_table_t) (cs : list (list entry)) : Prop := {
  to_num : 0 < buckets_num t;
  to_len : length (buckets t) = Z.to_nat (buckets_num t) /\ length cs = Z.to_nat (buckets_num t);
  to_dlls : dlls (hs_nodes s) (table_tabs t cs);
  to_hash : forall i es e, cs !! i = Some es -> e ∈ es -> e_key e mod buckets_num t = Z.of_nat i;
  to_kvs : Forall (entry_ok (hs_kvs s)) (mjoin cs);
  to_keys : NoDup (e_key <$> mjoin cs);
  to_kvnodup : NoDup (e_kv <$> mjoin cs);
  to_size : hsize t = Z.of_nat (length (mjoin cs));
  to_bound : hsize t < 4294967000
}.

(** The table owns its cells and its array; [L] is all that is allocated. *)
Record table_owns {St} `{Allocator St} (s : hstate St) (t : hash_table_t) (cs : list (list entry))
    (L : gmap Z Z) : Prop := {
  tw_owns : owns (hs_alloc s) L;
  tw_live : forall x, x ∈ buckets_ptr t :: cells (mjoin cs) -> is_Some (L !! x);
  tw_nodup : NoDup (buckets_ptr t :: cells (mjoin cs))
}.

(** ** Lemmas on the representation *)
Lemma members_table t cs :
  length (buckets t) = length cs -> members (table_tabs t cs) = e_node <$> mjoin cs.
Proof.
  intros Hl. unfold members, table_tabs. rewrite snd_zip by (rewrite length_fmap; lia).
  clear Hl. induction cs as [|es cs IH]; [done|].
  transitivity ((chain es ++ mjoin (chain <$> cs)).*1); [done|]. rewrite fmap_app, IH.
  transitivity (e_node <$> (es ++ mjoin cs)); [|done]. rewrite fmap_app.
  f_equal. unfold chain. rewrite <- list_fmap_compose. by apply list_fmap_ext.
Qed.

Lemma table_tabs_lookup t cs i b es :
  buckets t !! i = Some b -> cs !! i = Some es -> table_tabs t cs !! i = Some (b, chain es).
Proof.
  intros Hb He. unfold table_tabs. rewrite lookup_zip_with, Hb. cbn. by rewrite list_lookup_fmap, He.
Qed.

Lemma table_tabs_insert t cs i b es p n k :
  table_tabs (mk_table p (<[i := b]> (buckets t)) n k) (<[i := es]> cs) =
  <[i := (b, chain es)]> (table_tabs t cs).
Proof. unfold table_tabs. cbn. by rewrite list_fmap_insert, insert_zip_with. Qed.

(** The bucket of a key. *)
Lemma table_bucket {St} (s : hstate St) t cs k :
  table_ok s t cs -> exists b es, arr_get (buckets t) (k mod buckets_num t) = Ok b /\
    buckets t !! Z.to_nat (k mod buckets_num t) = Some b /\
    cs !! Z.to_nat (k mod buckets_num t) = Some es /\ dll (hs_nodes s) b (chain es) /\
    0 <= k mod buckets_num t < buckets_num t.
Proof.
  intros [Hn [Hb Hc] [Hd _] _ _ _ _ _ _].
  pose proof (Z.mod_pos_bound k (buckets_num t) Hn) as Hm.
  destruct (arr_get_ok_lt (buckets t) (k mod buckets_num t)) as (b & E & Hbl); [lia|].
  destruct (lookup_lt_is_Some_2 cs (Z.to_nat (k mod buckets_num t))) as [es He]; [lia|].
  exists b, es. do 3 (split; [done|]). split; [|done].
  rewrite Forall_lookup in Hd. apply (Hd _ _ (table_tabs_lookup t cs _ b es Hbl He)).
Qed.

(** An entry of the table lies in the bucket of its key. *)
Lemma table_entry_bucket {St} (s : hstate St) t cs e es :
  table_ok s t cs -> e ∈ mjoin cs ->
  cs !! Z.to_nat (e_key e mod buckets_num t) = Some es -> e ∈ es.
Proof.
  intros Hok Hin Hes. apply list_elem_of_join in Hin as (es' & He & Hes').
  apply list_elem_of_lookup in Hes' as [i Hi].
  pose proof (to_hash _ _ _ Hok i es' e Hi He) as Hh. rewrite Hh, Nat2Z.id in Hes. congruence.
Qed.

Lemma elem_of_bucket (cs : list (list entry)) i es e : cs !! i = Some es -> e ∈ es -> e ∈ mjoin cs.
Proof.
  intros Hi He. apply list_elem_of_join. exists es. split; [done|].
  by apply list_elem_of_lookup_2 in Hi.
Qed.

(** The search of a bucket. *)
Fixpoint find_key (k : Z) (es : list entry) : option entry :=
  match es with
  | [] => None
  | e :: es => if e_key e =? k then Some e else find_key k es
  end.

Lemma find_key_Some k es e :
  find_key k es = Some e -> e_key e = k /\ exists l1 l2, es = l1 ++ e :: l2.
Proof.
  induction es as [|e' es IH]; [done|]. cbn. destruct (Z.eqb_spec (e_key e') k) as [<-|].
  - intros [= <-]. split; [done|]. by exists [], es.
  - intros H. destruct (IH H) as (? & l1 & l2 & ->). split; [done|]. by exists (e' :: l1), l2.
Qed.

Lemma find_key_None k es : find_key k es = None -> forall e, e ∈ es -> e_key e <> k.
Proof.
  induction es as [|e' es IH]; [set_solver|]. cbn. destruct (Z.eqb_spec (e_key e') k); [done|].
  intros H e [->|He]%elem_of_cons; [done|by apply IH].
Qed.

Lemma bucket_lookup_ok {St} (s : hstate St) es a k fuel :
  links (hs_nodes s) a (chain es) 0 -> Forall (entry_ok (hs_kvs s)) es -> (length es < fuel)%nat ->
  bucket_lookup_loop fuel s (first 0 (chain es)) k =
  Ok (match find_key k es with Some e => e_node e | None => 0 end).
Proof.
  revert a fuel. induction es as [|e es IH]; intros a fuel Hl Hkv Hf; (destruct fuel; [cbn in Hf; lia|]).
  - done.
  - cbn [chain fmap list_fmap links first bucket_lookup_loop find_key] in *.
    destruct Hl as (Hx & Hn & Hl). apply Forall_cons in Hkv as [He Hkv].
    replace (e_node e =? 0) with false by (symmetry; zbool).
    unfold get_node, get_kv. rewrite Hn. cbn [res_bind ptr next]. rewrite He. cbn [res_bind key].
    destruct (e_key e =? k); [done|]. apply (IH (e_node e)); [done|done|cbn in Hf; lia].
Qed.

Lemma table_find {St} (s : hstate St) t cs k b es :
  table_ok s t cs -> cs !! Z.to_nat (k mod buckets_num t) = Some es -> dll (hs_nodes s) b (chain es) ->
  hash_table_bucket_lookup s b k = Ok (match find_key k es with Some e => e_node e | None => 0 end).
Proof.
  intros Hok He [Hh _ Hs Hl _ _]. unfold hash_table_bucket_lookup, bucket_fuel. rewrite Hh.
  apply (bucket_lookup_ok s es 0); [done| |].
  - apply Forall_forall. intros e Hin. pose proof (to_kvs _ _ _ Hok) as Hkv.
    rewrite Forall_forall in Hkv. apply Hkv. by apply (elem_of_bucket cs _ es e He).
  - rewrite Hs. unfold chain. rewrite length_fmap. lia.
Qed.

(** ** The map of a list of entries *)
Lemma map_of_perm l l' : NoDup (e_key <$> l) -> l ≡ₚ l' -> map_of l = map_of l'.
Proof.
  intros Hn Hp. unfold map_of. apply list_to_map_proper; [|by rewrite Hp].
  by rewrite <- list_fmap_compose.
Qed.

Lemma map_of_cons e l : map_of (e :: l) = <[e_key e := e_val e]> (map_of l).
Proof. done. Qed.

Lemma map_of_app_None l k : (forall e, e ∈ l -> e_key e <> k) -> map_of l !! k = None.
Proof.
  intros Hn. apply not_elem_of_list_to_map_1. rewrite <- list_fmap_compose.
  intros (e & -> & He)%list_elem_of_fmap. by apply (Hn e).
Qed.

Lemma map_of_lookup l k e : NoDup (e_key <$> l) -> e ∈ l -> e_key e = k -> map_of l !! k = Some (e_val e).
Proof.
  intros Hn He <-. apply elem_of_list_to_map_1; [by rewrite <- list_fmap_compose|].
  by apply (list_elem_of_fmap_2 (fun e => (e_key e, e_val e))).
Qed.

Lemma table_lookup {St} (s : hstate St) t cs k es :
  table_ok s t cs -> cs !! Z.to_nat (k mod buckets_num t) = Some es ->
  map_of (mjoin cs) !! k = e_val <$> find_key k es.
Proof.
  intros Hok He. destruct (find_key k es) as [e|] eqn:Ef; cbn.
  - apply find_key_Some in Ef as (Hk & l1 & l2 & ->).
    apply map_of_lookup; [by apply Hok| |done]. apply (elem_of_bucket cs _ _ _ He). set_solver.
  - apply map_of_app_None. intros e Hin <-.
    by apply (find_key_None _ _ Ef e (table_entry_bucket s t cs e es Hok Hin He)).
Qed.

(** ** Replacing one bucket *)
Lemma table_ok_update {St} (s : hstate St) t cs i b es :
  table_ok s t cs -> buckets t !! i = Some b -> cs !! i = Some es ->
  exists rest rtabs, mjoin cs ≡ₚ es ++ rest /\
    (forall es', mjoin (<[i := es']> cs) ≡ₚ es' ++ rest) /\
    dlls (hs_nodes s) ((b, chain es) :: rtabs) /\ members rtabs ≡ₚ e_node <$> rest /\
    forall (s' : hstate St) b' es' n', dlls (hs_nodes s') ((b', chain es') :: rtabs) ->
      (forall e, e ∈ es' -> e_key e mod buckets_num t = Z.of_nat i) ->
      Forall (entry_ok (hs_kvs s')) (es' ++ rest) -> NoDup (e_key <$> es' ++ rest) ->
      NoDup (e_kv <$> es' ++ rest) -> n' = Z.of_nat (length (es' ++ rest)) -> n' < 4294967000 ->
      table_ok s' (mk_table (buckets_ptr t) (<[i := b']> (buckets t)) (buckets_num t) n')
        (<[i := es']> cs).
Proof.
  intros [Hn [Hbl Hcl] Hd Hh _ _ _ _ _] Hb He.
  destruct (lookup_rest cs i es He) as (crest & Hc & Hc').
  destruct (lookup_rest _ i _ (table_tabs_lookup t cs i b es Hb He)) as (rtabs & Ht & Ht').
  assert (mjoin cs ≡ₚ es ++ mjoin crest) as Hj by (by rewrite Hc).
  assert (forall es', mjoin (<[i := es']> cs) ≡ₚ es' ++ mjoin crest) as Hj' by (intros; by rewrite Hc').
  exists (mjoin crest), rtabs. split; [done|]. split; [done|]. split; [by rewrite <- Ht|]. split.
  { apply (Permutation_app_inv_l (e_node <$> es)). rewrite <- fmap_app, <- Hj.
    rewrite <- (members_table t) by congruence. rewrite Ht, members_cons. unfold chain.
    by rewrite <- list_fmap_compose. }
  intros s' b' es' n' Hd' Hh' Hkv' Hkn' Hvn' -> Hbd.
  split; cbn [buckets buckets_num hsize]; try done.
  - by rewrite !length_insert.
  - by rewrite table_tabs_insert, Ht'.
  - intros j es0 e Hj0 Hin. apply list_lookup_insert_Some in Hj0 as [(<- & -> & _)|[_ Hj0]];
      [by apply Hh'|by apply (Hh j es0)].
  - by rewrite Hj'.
  - by rewrite Hj'.
  - by rewrite Hj'.
  - by rewrite Hj'.
Qed.

(** ** Frames *)

(** The addresses of the table. *)
Definition footprint (t : hash_table_t) (cs : list (list entry)) : gset Z :=
  list_to_set (buckets_ptr t :: cells (mjoin cs)).

(** Whatever is allocated outside the table stays as it is. *)
Definition framed {St} (s s' : hstate St) (L L' : gmap Z Z) (fp fp' : gset Z) : Prop :=
  forall x, is_Some (L !! x) -> x ∉ fp ->
    L' !! x = L !! x /\ (x ∉ fp') /\ hs_nodes s' !! x = hs_nodes s !! x /\
    hs_kvs s' !! x = hs_kvs s !! x.

Lemma framed_trans {St} (s1 s2 s3 : hstate St) L1 L2 L3 f1 f2 f3 :
  framed s1 s2 L1 L2 f1 f2 -> framed s2 s3 L2 L3 f2 f3 -> framed s1 s3 L1 L3 f1 f3.
Proof.
  intros H1 H2 x Hx Hf. destruct (H1 x Hx Hf) as (E1 & ? & ? & ?).
  destruct (H2 x) as (E2 & ? & ? & ?); [by rewrite E1|done|]. split; [congruence|].
  split; [done|]. split; congruence.
Qed.

Lemma elem_of_cells x es : x ∈ cells es <-> x ∈ e_node <$> es \/ x ∈ e_kv <$> es.
Proof. unfold cells. apply elem_of_app. Qed.

#[export] Instance cells_perm : Proper ((≡ₚ) ==> (≡ₚ)) cells.
Proof. intros l l' Hp. unfold cells. by rewrite Hp. Qed.

Lemma cells_cons e es : cells (e :: es) ≡ₚ e_node e :: e_kv e :: cells es.
Proof. unfold cells. cbn. constructor. symmetry. apply Permutation_middle. Qed.

Lemma footprint_perm t cs es : mjoin cs ≡ₚ es -> footprint t cs = list_to_set (buckets_ptr t :: cells es).
Proof. intros Hp. unfold footprint. apply list_to_set_perm_L. by rewrite Hp. Qed.

Lemma not_in_footprint t cs x :
  x ∉ footprint t cs -> x <> buckets_ptr t /\ (x ∉ e_node <$> mjoin cs) /\ (x ∉ e_kv <$> mjoin cs).
Proof.
  unfold footprint. rewrite elem_of_list_to_set, elem_of_cons, elem_of_cells. tauto.
Qed.

Lemma table_owns_cells {St} `{Allocator St} (s s' : hstate St) t t' cs cs' L :
  table_owns s t cs L -> owns (hs_alloc s') L -> buckets_ptr t' = buckets_ptr t ->
  cells (mjoin cs') ≡ₚ cells (mjoin cs) -> table_owns s' t' cs' L.
Proof.
  intros [_ Hl Hn] Ho Hp Hc. split; [done| |].
  - intros x. rewrite Hp, Hc. apply Hl.
  - by rewrite Hp, Hc.
Qed.

(** ** Reading *)
Section SPEC.
Context {St : Type} `{AllocatorLaws St} (junk : linked_list_t).
Implicit Types (s : hstate St) (t : hash_table_t) (cs : list (list entry)) (L M : gmap Z Z).

(** The node and the record of an entry of a bucket. *)
Lemma entry_read s t cs b i es e :
  table_ok s t cs -> cs !! i = Some es -> dll (hs_nodes s) b (chain es) -> e ∈ es ->
  e_node e <> 0 /\ get_kv (hs_kvs s) (e_kv e) = Ok (mk_kv (e_key e) (e_val e)) /\
  exists n, get_node (hs_nodes s) (e_node e) = Ok n /\ ptr n = e_kv e.
Proof.
  intros Hok Hi [_ _ _ Hl _ _] He. pose proof (to_kvs _ _ _ Hok) as Hkv.
  rewrite Forall_forall in Hkv. specialize (Hkv e (elem_of_bucket cs i es e Hi He)).
  apply list_elem_of_split in He as (l1 & l2 & ->). unfold chain in Hl. rewrite fmap_app in Hl.
  apply links_app in Hl as [_ (Hx & Hn & _)]. split; [done|]. split.
  - unfold get_kv. by rewrite Hkv.
  - eexists. unfold get_node. rewrite Hn. done.
Qed.

Lemma get_ok s t cs k :
  table_ok s t cs -> hash_table_get s t k = Ok (default 0 (map_of (mjoin cs) !! k)).
Proof.
  intros Hok. destruct (table_bucket s t cs k Hok) as (b & es & Eb & Hb & He & Hd & _).
  unfold hash_table_get. rewrite Eb. cbn [res_bind].
  rewrite (table_find s t cs k b es Hok He Hd), (table_lookup s t cs k es Hok He). cbn [res_bind].
  destruct (find_key k es) as [e|] eqn:Ef; [|done]. cbn.
  apply find_key_Some in Ef as (_ & l1 & l2 & ->).
  destruct (entry_read s t cs b _ _ e Hok He Hd) as (Hx & Hkv & n & Hn & Hp); [set_solver|].
  replace (e_node e =? 0) with false by (symmetry; zbool). cbn [negb].
  by rewrite Hn; cbn [res_bind]; rewrite Hp, Hkv.
Qed.

(** ** Replacing a value *)
Lemma put_existing_ok s t cs L k v e :
  table_ok s t cs -> table_owns s t cs L -> e ∈ mjoin cs -> e_key e = k ->
  exists s' cs', hash_table_put junk s t k v = Ok (e_val e, t, s') /\
    table_ok s' t cs' /\ table_owns s' t cs' L /\
    map_of (mjoin cs') = <[k := v]> (map_of (mjoin cs)) /\
    footprint t cs' = footprint t cs /\ framed s s' L L (footprint t cs) (footprint t cs').
Proof.
  intros Hok Hown Hin Hk. destruct (table_bucket s t cs k Hok) as (b & es & Eb & Hb & He & Hd & Hm).
  pose proof (table_entry_bucket s t cs e es Hok Hin) as Hie. rewrite Hk in Hie. specialize (Hie He).
  unfold hash_table_put. rewrite Eb. cbn [res_bind].
  rewrite (table_find s t cs k b es Hok He Hd). cbn [res_bind].
  destruct (find_key k es) as [e'|] eqn:Ef.
  2: { by destruct (find_key_None _ _ Ef e Hie). }
  destruct (find_key_Some _ _ _ Ef) as (Hk' & l1 & l2 & Hes).
  assert (e' ∈ mjoin cs) as Hin' by (apply (elem_of_bucket cs _ es _ He); set_solver).
  assert (e_val e' = e_val e) as Hv.
  { pose proof (map_of_lookup _ k e (to_keys _ _ _ Hok) Hin Hk) as E1.
    rewrite (map_of_lookup _ k e' (to_keys _ _ _ Hok) Hin' Hk') in E1. congruence. }
  destruct (entry_read s t cs b _ es e' Hok He Hd) as (Hx & Hkv & n & Hn & Hp); [set_solver|].
  replace (e_node e' =? 0) with false by (symmetry; zbool). cbn [negb].
  rewrite Hn. cbn [res_bind]. rewrite Hp, Hkv. cbn [res_bind v_ptr key]. rewrite Hv.
  destruct (table_ok_update s t cs _ b es Hok Hb He) as (rest & rtabs & Hj & Hj' & Hds & Hmem & Hup).
  set (e2 := mk_entry (e_node e') (e_kv e') (e_key e') v). set (es2 := l1 ++ e2 :: l2).
  assert (chain es2 = chain es) as Hch by (subst es2 es; unfold chain; by rewrite !fmap_app).
  assert (e_key <$> es2 = e_key <$> es) as Hkeys by (subst es2 es; by rewrite !fmap_app).
  assert (e_kv <$> es2 = e_kv <$> es) as Hkvs by (subst es2 es; by rewrite !fmap_app).
  assert (e_node <$> es2 = e_node <$> es) as Hnodes by (subst es2 es; by rewrite !fmap_app).
  assert (buckets_ptr t = buckets_ptr t /\ cells (es2 ++ rest) = cells (es ++ rest)) as [_ Hcells].
  { split; [done|]. unfold cells. by rewrite !fmap_app, Hkvs, Hnodes. }
  assert (footprint t (<[Z.to_nat (k mod buckets_num t) := es2]> cs) = footprint t cs) as Hfp.
  { by rewrite (footprint_perm _ _ _ (Hj' es2)), (footprint_perm _ _ _ Hj), Hcells. }
  pose proof (to_kvnodup _ _ _ Hok) as Hnd. rewrite Hj, fmap_app in Hnd.
  eexists _, _. split; [done|]. split; [|split; [|split; [|split]]].
  - specialize (Hup (mk_hstate (hs_alloc s) (hs_nodes s) (<[e_kv e' := mk_kv (e_key e') v]> (hs_kvs s)))
                  b es2 (hsize t)).
    rewrite Hch in Hup. replace (<[_ := b]> (buckets t)) with (buckets t) in Hup
      by (symmetry; by apply list_insert_id). destruct t as [p bs num sz]. apply Hup.
    + done.
    + intros x Hxin. assert (e_key x ∈ e_key <$> es) as (y & -> & Hy)%list_elem_of_fmap.
      { rewrite <- Hkeys. by apply list_elem_of_fmap_2. }
      by apply (to_hash _ _ _ Hok _ es).
    + pose proof (to_kvs _ _ _ Hok) as Hall. rewrite Hj in Hall. subst es es2.
      rewrite fmap_app, <- app_assoc in Hnd. cbn in Hnd. rewrite <- Permutation_middle in Hnd.
      apply NoDup_cons in Hnd as [Hnot _].
      assert (forall l, Forall (entry_ok (hs_kvs s)) l -> e_kv e' ∉ e_kv <$> l ->
                Forall (entry_ok (<[e_kv e' := mk_kv (e_key e') v]> (hs_kvs s))) l) as Hkeep.
      { intros l Hl Hne. rewrite Forall_forall in Hl |- *. intros x Hxl. unfold entry_ok.
        rewrite lookup_insert_ne; [by apply Hl|]. intros Heq. apply Hne. rewrite Heq.
        by apply list_elem_of_fmap_2. }
      rewrite !Forall_app, Forall_cons in Hall |- *. destruct Hall as [[? [_ ?]] ?].
      split; [split; [|split]|]; try (apply Hkeep; [done|set_solver]).
      apply lookup_insert_eq.
    + rewrite fmap_app, Hkeys, <- fmap_app, <- Hj. apply Hok.
    + rewrite fmap_app, Hkvs, <- fmap_app, <- Hj. apply Hok.
    + pose proof (to_size _ _ _ Hok) as Hsz. cbn in Hsz. rewrite Hsz, Hj. subst es es2.
      rewrite !length_app. cbn. lia.
    + apply Hok.
  - apply (table_owns_cells s _ t _ cs _ L Hown); [apply Hown|done|].
    by rewrite (Hj' es2), Hcells, <- Hj.
  - rewrite (map_of_perm _ _ (to_keys _ _ _ Hok) Hj).
    assert (NoDup (e_key <$> es ++ rest)) as Hkn by (rewrite <- Hj; apply Hok).
    rewrite (map_of_perm _ (es2 ++ rest)).
    2: { by rewrite Hj', fmap_app, Hkeys, <- fmap_app. }
    2: { done. }
    assert (es2 ++ rest ≡ₚ e2 :: l1 ++ l2 ++ rest) as Hp2.
    { subst es2. rewrite <- app_assoc. cbn. by rewrite <- Permutation_middle. }
    assert (es ++ rest ≡ₚ e' :: l1 ++ l2 ++ rest) as Hp1.
    { subst es. rewrite <- app_assoc. cbn. by rewrite <- Permutation_middle. }
    rewrite (map_of_perm _ _ Hkn Hp1), (map_of_perm (es2 ++ rest) _) with (2 := Hp2).
    2: { by rewrite fmap_app, Hkeys, <- fmap_app. }
    rewrite !map_of_cons. subst e2. cbn [e_key e_val]. rewrite <- Hk'. by rewrite insert_insert_eq.
  - done.
  - rewrite Hfp. intros x _ Hxf. split; [done|]. split; [done|]. split; [done|]. cbn.
    apply not_in_footprint in Hxf as (_ & _ & Hxf). apply lookup_insert_ne. intros <-. apply Hxf.
    by apply list_elem_of_fmap_2.
Qed.

(** ** Adding an entry *)
Lemma fresh_not_cell s t cs L x :
  table_owns s t cs L -> L !! x = None -> x ∉ buckets_ptr t :: cells (mjoin cs).
Proof. intros [_ Hl _] Hx Hin. destruct (Hl x Hin) as [k Hk]. congruence. Qed.

Lemma table_members s t cs : table_ok s t cs -> members (table_tabs t cs) = e_node <$> mjoin cs.
Proof. intros Hok. apply members_table. destruct (to_len _ _ _ Hok). congruence. Qed.

(** A table does not see nodes and records outside its cells. *)
Lemma table_ok_kept s s' t cs :
  (forall x, x ∈ e_node <$> mjoin cs -> hs_nodes s' !! x = hs_nodes s !! x) ->
  (forall x, x ∈ e_kv <$> mjoin cs -> hs_kvs s' !! x = hs_kvs s !! x) ->
  table_ok s t cs -> table_ok s' t cs.
Proof.
  intros Hn Hk Hok. pose proof (table_members s t cs Hok) as Hm. destruct Hok.
  split; try done.
  - apply (dlls_kept (hs_nodes s)); [|done]. by rewrite Hm.
  - rewrite Forall_forall in *. intros e He. unfold entry_ok. rewrite Hk; [by apply to_kvs0|].
    by apply list_elem_of_fmap_2.
Qed.

(** The part of [hash_table_put] that inserts, before it looks at the load. *)
Definition put_new s t (k v : Z) : res (hash_table_t * hstate St) :=
  let i := k mod buckets_num t in
  let! bucket := arr_get (buckets t) i in
  let! (new_kv, a) := malloc (hs_alloc s) kv_bytes in
  let! (a, st, bucket) := linked_list_append_ele a (hs_nodes s) bucket new_kv in
  let! bs := arr_set (buckets t) i bucket in
  Ok (mk_table (buckets_ptr t) bs (buckets_num t) (hsize t + 1),
      mk_hstate a st (<[new_kv := mk_kv k v]> (hs_kvs s))).

Lemma put_new_ok s t cs L k v :
  table_ok s t cs -> table_owns s t cs L -> (forall e, e ∈ mjoin cs -> e_key e <> k) ->
  (size L + 1 < capacity)%nat -> node_bytes <= request_max -> hsize t < 4294966000 ->
  (grants (hs_alloc s) [kv_bytes; node_bytes] = None /\ put_new s t k v = Err Panic) \/
  exists t' s' cs' e L', put_new s t k v = Ok (t', s') /\ grants (hs_alloc s) [kv_bytes; node_bytes] = Some (hs_alloc s') /\ table_ok s' t' cs' /\
    table_owns s' t' cs' L' /\ mjoin cs' ≡ₚ e :: mjoin cs /\ e_key e = k /\ e_val e = v /\
    (size L' <= size L + 2)%nat /\ hsize t' = hsize t + 1 /\ buckets_num t' = buckets_num t /\
    framed s s' L L' (footprint t cs) (footprint t' cs').
Proof.
  intros Hok Hown Hnew Hcap Hreq Hbd. unfold put_new.
  destruct (table_bucket s t cs k Hok) as (b & es & -> & Hb & He & Hd & Hm). cbn [res_bind].
  unfold node_bytes, kv_bytes in *.
  cbn [grants].
  destruct (malloc_law (hs_alloc s) L 8 (tw_owns _ _ _ _ Hown)) as [[_ ->]|[_ Hmal]]; [lia|lia|by left|].
  destruct Hmal as (kp & ksz & a1 & -> & Hkp0 & _ & Hkp & _ & Ho1). cbn [res_bind].
  unfold linked_list_append_ele, node_bytes.
  destruct (malloc_law a1 _ 12 Ho1) as [[_ ->]|[_ Hmal]]; [lia| |by left|].
  { rewrite map_size_insert_None by done. lia. }
  destruct Hmal as (nd & nsz & a2 & -> & Hnd0 & _ & Hndf & _ & Ho2). cbn [res_bind].
  rewrite lookup_insert_None in Hndf. destruct Hndf as [Hndf Hne].
  pose proof (fresh_not_cell _ _ _ _ _ Hown Hkp) as Hkc.
  pose proof (fresh_not_cell _ _ _ _ _ Hown Hndf) as Hnc.
  rewrite not_elem_of_cons, elem_of_cells in Hkc, Hnc.
  destruct (table_ok_update s t cs _ b es Hok Hb He) as (rest & rtabs & Hj & Hj' & Hds & Hmem & Hup).
  set (st1 := <[nd := mk_node kp 0 0]> (hs_nodes s)).
  assert (nd ∉ members ((b, chain es) :: rtabs)) as Hnm.
  { rewrite members_cons, Hmem. unfold chain. rewrite <- list_fmap_compose.
    change (fst ∘ (fun e => (e_node e, e_kv e))) with e_node.
    rewrite <- fmap_app, <- Hj. tauto. }
  assert (dlls st1 ((b, chain es) :: rtabs)) as Hds1.
  { apply (dlls_kept (hs_nodes s)); [|done]. intros x Hx. apply lookup_insert_ne. by intros ->. }
  assert (hsize t = Z.of_nat (length (es ++ rest))) as Hsz.
  { by rewrite (to_size _ _ _ Hok), Hj. }
  destruct (dlls_append st1 b (chain es) rtabs nd _ Hds1 (lookup_insert_eq _ _ _) Hnd0 Hnm)
    as (st2 & b2 & Ea & Hds2 & Hk2).
  { unfold chain. rewrite length_fmap, length_app in *. lia. }
  rewrite Ea. cbn [res_bind]. rewrite arr_set_ok by (destruct (to_len _ _ _ Hok); lia). cbn [res_bind].
  right. set (e := mk_entry nd kp k v). set (s' := mk_hstate a2 st2 (<[kp := mk_kv k v]> (hs_kvs s))).
  assert (e :: mjoin cs ≡ₚ (es ++ [e]) ++ rest) as Hje.
  { rewrite Hj, <- app_assoc. cbn. by rewrite <- Permutation_middle. }
  exists (mk_table (buckets_ptr t) (<[Z.to_nat (k mod buckets_num t) := b2]> (buckets t))
            (buckets_num t) (hsize t + 1)), s', (<[Z.to_nat (k mod buckets_num t) := es ++ [e]]> cs), e,
    (<[nd := nsz]> (<[kp := ksz]> L)).
  split; [done|]. split; [done|]. split; [|split; [|split; [by rewrite Hj'|split; [done|split; [done|]]]]].
  - apply Hup.
    + unfold chain in *. by rewrite fmap_app.
    + intros x [Hx| ->%list_elem_of_singleton]%elem_of_app; [by apply (to_hash _ _ _ Hok _ es)|].
      cbn. lia.
    + rewrite <- Hje. constructor; [apply lookup_insert_eq|].
      pose proof (to_kvs _ _ _ Hok) as Hall. rewrite Forall_forall in Hall |- *.
      intros x Hx. unfold entry_ok. cbn. rewrite lookup_insert_ne; [by apply Hall|].
      intros ->. destruct Hkc as [_ []]. right. by apply list_elem_of_fmap_2.
    + rewrite <- Hje. cbn. constructor; [|apply Hok].
      intros (x & Hxk & Hx)%list_elem_of_fmap. by apply (Hnew x Hx).
    + rewrite <- Hje. cbn. constructor; [|apply Hok]. intros Hin. destruct Hkc as [_ []]. by right.
    + rewrite <- Hje. cbn. rewrite (to_size _ _ _ Hok). lia.
    + lia.
  - split; [done| |]; cbn [buckets_ptr].
    + intros x. rewrite (Hj' (es ++ [e])), <- Hje, cells_cons. cbn [e_node e_kv].
      rewrite !elem_of_cons. intros Hx.
      destruct (decide (x = nd)) as [->|]; [rewrite lookup_insert_eq; by eexists|].
      rewrite lookup_insert_ne by done.
      destruct (decide (x = kp)) as [->|]; [rewrite lookup_insert_eq; by eexists|].
      rewrite lookup_insert_ne by done. apply (tw_live _ _ _ _ Hown).
      rewrite elem_of_cons. tauto.
    + rewrite (Hj' (es ++ [e])), <- Hje, cells_cons. cbn [e_node e_kv].
      pose proof (tw_nodup _ _ _ _ Hown) as [Hp Hn]%NoDup_cons.
      rewrite !NoDup_cons, !elem_of_cons, !elem_of_cells in *. subst e. cbn [e_node e_kv] in *. intuition congruence.
  - split.
    { rewrite map_size_insert_None, map_size_insert_None by (done || by rewrite lookup_insert_None).
      lia. }
    split; [done|]. split; [done|].
    intros x [y Hx] Hxf. pose proof Hxf as (Hxp & Hxn & Hxk)%not_in_footprint.
    assert (x <> nd /\ x <> kp) as [Hxnd Hxkp] by (split; intros ->; congruence).
    split; [by rewrite !lookup_insert_ne by done|]. split.
    { unfold footprint. rewrite elem_of_list_to_set, (Hj' (es ++ [e])), <- Hje, cells_cons.
      cbn [e_node e_kv buckets_ptr]. rewrite !elem_of_cons, elem_of_cells. tauto. }
    cbn. split; [|by apply lookup_insert_ne].
    rewrite Hk2; [by apply lookup_insert_ne|]. rewrite elem_of_cons. unfold chain.
    rewrite <- list_fmap_compose. intros [?|Hin]; [done|]. apply Hxn. rewrite Hj, fmap_app.
    apply elem_of_app. by left.
Qed.

(** ** Growing the table *)
Lemma init_array_loop n :
  for_loop n 0 (fun i bs => arr_set bs i linked_list_init) (replicate n junk) =
  Ok (replicate n linked_list_init).
Proof.
  pose proof (for_loop_eq (fun k => replicate k linked_list_init ++ replicate (n - k) junk) n 0
    (fun i bs => arr_set bs i linked_list_init)) as Hl. cbn beta in Hl.
  rewrite Nat.sub_0_r, Nat.sub_diag, app_nil_r in Hl. apply Hl. intros k Hk.
  rewrite arr_set_ok by (rewrite length_app, !length_replicate; lia). f_equal.
  replace (Z.to_nat (0 + Z.of_nat k)) with (length (replicate k linked_list_init) + 0)%nat
    by (rewrite length_replicate; lia).
  rewrite insert_app_r. replace (n - k)%nat with (S (n - S k)) by lia. cbn [replicate insert list_insert].
  by rewrite replicate_cons_app, <- app_assoc.
Qed.

Lemma new_bucket_array_ok a L n :
  owns a L -> (size L < capacity)%nat -> 0 < n -> n * list_bytes <= request_max ->
  n * list_bytes < 4294967296 ->
  (grants a [n * list_bytes] = None /\ new_bucket_array junk a n = Err Panic) \/
  exists p k a', new_bucket_array junk a n = Ok (p, replicate (Z.to_nat n) linked_list_init, a') /\
    grants a [n * list_bytes] = Some a' /\ L !! p = None /\ owns a' (<[p := k]> L).
Proof.
  intros Ho Hc Hn Hreq Hw. unfold new_bucket_array, list_bytes in *. rewrite u32_small by lia.
  cbn [grants]. destruct (malloc_law a L (n * 12) Ho) as [[_ ->]|(_ & p & k & a' & -> & _ & _ & Hp & _ & Ho')];
    [lia|done|by left|right]. cbn [res_bind]. rewrite init_array_loop. by exists p, k, a'.
Qed.

(** Where the entries are while they move: [old] still to go, [ncs] in the new array. *)
Record moving (st st0 : nodes) (num : Z) (all : list entry) (old : tabs)
    (nb : list linked_list_t) (ncs : list (list entry)) : Prop := {
  mv_dlls : dlls st (old ++ zip nb (chain <$> ncs));
  mv_len : length nb = Z.to_nat num /\ length ncs = Z.to_nat num;
  mv_hash : forall i es e, ncs !! i = Some es -> e ∈ es -> e_key e mod num = Z.of_nat i;
  mv_kept : nodes_kept st0 st (e_node <$> all);
  mv_sub : (length (mjoin ncs) <= length all)%nat
}.

Lemma move_entry (st st0 : nodes) num all b e es rest nb (ncs : list (list entry)) :
  0 < num -> Z.of_nat (length all) < 4294967000 -> e ∈ all ->
  (length (mjoin ncs) < length all)%nat -> (forall x, x ∈ es -> x ∈ all) ->
  (forall x, x ∈ mjoin ncs -> x ∈ all) ->
  moving st st0 num all ((b, chain (e :: es)) :: rest) nb ncs ->
  exists n st1 b1 tg st2 tg2 nb', get_node st (e_node e) = Ok n /\ ptr n = e_kv e /\
    e_node e <> 0 /\ next n = first 0 (chain es) /\
    linked_list_remove st b (e_node e) = Ok (st1, b1) /\
    arr_get nb (e_key e mod num) = Ok tg /\ linked_list_append st1 tg (e_node e) = Ok (st2, tg2) /\
    arr_set nb (e_key e mod num) tg2 = Ok nb' /\
    exists ncs', moving st2 st0 num all ((b1, chain es) :: rest) nb' ncs' /\
      mjoin ncs' ≡ₚ e :: mjoin ncs.
Proof.
  intros Hn Hall Hein Hlen Hes Hncs [Hd [Hl1 Hl2] Hh Hk Hs].
  change (chain (e :: es)) with ((e_node e, e_kv e) :: chain es) in Hd. cbn [app] in Hd.
  pose proof Hd as ([_ _ _ (Hx0 & Hx & _) _ _] & _)%dlls_cons.
  destruct (dlls_remove st b [] _ _ _ _ Hd) as (st1 & b1 & E1 & Hd1 & Hx1 & Hnm & Hk1).
  cbn [app] in Hd1, Hnm, Hk1.
  pose proof (Z.mod_pos_bound (e_key e) num Hn) as Hj. set (j := e_key e mod num) in *.
  destruct (arr_get_ok_lt nb j) as (tg & Et & Htl); [lia|].
  destruct (lookup_lt_is_Some_2 ncs (Z.to_nat j)) as [tes Htes]; [lia|].
  destruct (lookup_rest ncs _ _ Htes) as (nrest & Hp & Hp').
  assert (zip nb (chain <$> ncs) !! Z.to_nat j = Some (tg, chain tes)) as Hzl.
  { rewrite lookup_zip_with, Htl. cbn. by rewrite list_lookup_fmap, Htes. }
  destruct (lookup_rest _ _ _ Hzl) as (zrest & Hz & Hz').
  assert ((b1, chain es) :: rest ++ zip nb (chain <$> ncs) ≡ₚ
          (tg, chain tes) :: (b1, chain es) :: rest ++ zrest) as Hperm.
  { rewrite Hz. rewrite Permutation_swap. constructor. symmetry. apply Permutation_middle. }
  rewrite Hperm in Hd1, Hnm.
  assert (mjoin ncs ≡ₚ tes ++ mjoin nrest) as Hjn by (by rewrite Hp).
  destruct (dlls_append st1 tg (chain tes) _ (e_node e) _ Hd1 Hx1 Hx0 Hnm) as (st2 & tg2 & E2 & Hd2 & Hk2).
  { unfold chain. rewrite length_fmap. rewrite Hjn, length_app in Hlen. lia. }
  exists (mk_node (e_kv e) 0 (first 0 (chain es))), st1, b1, tg, st2, tg2, (<[Z.to_nat j := tg2]> nb).
  unfold get_node. rewrite Hx. do 7 (split; [done|]). split; [rewrite arr_set_ok by lia; done|].
  exists (<[Z.to_nat j := tes ++ [e]]> ncs).
  assert (mjoin (<[Z.to_nat j := tes ++ [e]]> ncs) ≡ₚ e :: mjoin ncs) as Hjn'.
  { rewrite Hp', Hjn. transitivity ((tes ++ [e]) ++ mjoin nrest); [done|].
    rewrite <- app_assoc. cbn. by rewrite <- Permutation_middle. }
  split; [split|done].
  - rewrite list_fmap_insert, <- insert_zip_with, Hz'. cbn [app].
    assert ((b1, chain es) :: rest ++ (tg2, chain (tes ++ [e])) :: zrest ≡ₚ
            (tg2, chain tes ++ [(e_node e, e_kv e)]) :: (b1, chain es) :: rest ++ zrest) as ->; [|done].
    rewrite Permutation_swap. replace (chain (tes ++ [e])) with (chain tes ++ [(e_node e, e_kv e)])
      by (unfold chain; by rewrite fmap_app).
    constructor. symmetry. apply Permutation_middle.
  - by rewrite !length_insert.
  - intros i es0 e0 Hi Hin. apply list_lookup_insert_Some in Hi as [(<- & <- & _)|[_ Hi]];
      [|by apply (Hh i es0)]. apply elem_of_app in Hin as [Hin| ->%list_elem_of_singleton].
    + by apply (Hh _ tes).
    + fold j. lia.
  - apply (nodes_kept_trans _ st); [done|]. apply (nodes_kept_trans _ st1).
    + apply (nodes_kept_weaken _ _ _ _ Hk1). cbn. unfold chain. rewrite <- list_fmap_compose.
      intros y [->|(z & -> & Hz2)%list_elem_of_fmap]%elem_of_cons; apply list_elem_of_fmap_2; [done|].
      by apply Hes.
    + apply (nodes_kept_weaken _ _ _ _ Hk2). unfold chain. rewrite <- list_fmap_compose.
      intros y [->|(z & -> & Hz2)%list_elem_of_fmap]%elem_of_cons; apply list_elem_of_fmap_2; [done|].
      apply Hncs. rewrite Hjn. set_solver.
  - rewrite Hjn'. cbn. lia.
Qed.

Lemma move_bucket_ok kvs (st0 : nodes) num all rest fuel : forall es st b nb (ncs : list (list entry)),
  0 < num -> Z.of_nat (length all) < 4294967000 -> (forall x, x ∈ es -> x ∈ all) ->
  (forall x, x ∈ mjoin ncs -> x ∈ all) -> (length es + length (mjoin ncs) <= length all)%nat ->
  Forall (entry_ok kvs) es -> (length es < fuel)%nat ->
  moving st st0 num all ((b, chain es) :: rest) nb ncs ->
  exists st' nb' ncs', move_bucket fuel kvs num st b nb (first 0 (chain es)) = Ok (st', nb') /\
    moving st' st0 num all rest nb' ncs' /\ mjoin ncs' ≡ₚ es ++ mjoin ncs.
Proof.
  induction fuel as [|fuel IH]; intros es st b nb ncs Hn Hall Hes Hncs Hlen Hkv Hf Hmv; [lia|].
  destruct es as [|e es].
  - exists st, nb, ncs. split; [done|]. split; [|done]. destruct Hmv as [Hd ? ? ? ?]. split; try done.
    by apply dlls_cons in Hd as (_ & ? & _).
  - destruct (move_entry st st0 num all b e es rest nb ncs Hn Hall) as
      (n & st1 & b1 & tg & st2 & tg2 & nb' & En & Ep & Hx & Hnx & E1 & E2 & E3 & E4 & ncs' & Hmv' & Hp);
      [apply Hes; set_solver|cbn in Hlen; lia|intros; apply Hes; set_solver|done|done|].
    apply Forall_cons in Hkv as [He Hkv].
    change (first 0 (chain (e :: es))) with (e_node e). cbn [move_bucket].
    replace (e_node e =? 0) with false by (symmetry; zbool).
    rewrite En. cbn [res_bind]. rewrite Ep. unfold get_kv. rewrite He. cbn [res_bind key].
    rewrite E1. cbn [res_bind]. rewrite E2. cbn [res_bind]. rewrite E3. cbn [res_bind].
    rewrite E4. cbn [res_bind]. rewrite Hnx.
    destruct (IH es st2 b1 nb' ncs' Hn Hall) as (st' & nb2 & ncs2 & E & Hmv2 & Hp2); try done.
    + intros x Hin. apply Hes. set_solver.
    + intros x. rewrite Hp. intros [->|Hin]%elem_of_cons; [apply Hes; set_solver|by apply Hncs].
    + rewrite Hp. cbn in Hlen |- *. lia.
    + cbn in Hf. lia.
    + exists st', nb2, ncs2. split; [done|]. split; [done|]. rewrite Hp2, Hp. cbn.
      symmetry. apply Permutation_middle.
Qed.

Lemma table_tabs_drop t cs i b es :
  buckets t !! i = Some b -> cs !! i = Some es ->
  drop i (table_tabs t cs) = (b, chain es) :: drop (S i) (table_tabs t cs).
Proof. intros Hb He. apply drop_S. by apply table_tabs_lookup. Qed.

Lemma mjoin_take_S (cs : list (list entry)) i es :
  cs !! i = Some es -> mjoin (take (S i) cs) = mjoin (take i cs) ++ es.
Proof. intros Hi. rewrite (take_S_r _ _ _ Hi), join_app. cbn. by rewrite app_nil_r. Qed.

Lemma mjoin_take_le (cs : list (list entry)) i :
  (length (mjoin (take i cs)) <= length (mjoin cs))%nat.
Proof. rewrite <- (take_drop i cs) at 2. rewrite join_app, length_app. lia. Qed.

Lemma elem_of_mjoin_take (cs : list (list entry)) i e : e ∈ mjoin (take i cs) -> e ∈ mjoin cs.
Proof. rewrite <- (take_drop i cs) at 2. rewrite join_app. set_solver. Qed.

(** The loop of [hash_table_expand] over the old buckets. *)
Lemma move_all_ok s t cs num :
  table_ok s t cs -> 0 < num ->
  exists st' nb ncs,
    for_loop (Z.to_nat (buckets_num t)) 0 (fun i '(st, nb) =>
      let! bucket := arr_get (buckets t) i in
      move_bucket (bucket_fuel bucket) (hs_kvs s) num st bucket nb (head bucket))
      (hs_nodes s, replicate (Z.to_nat num) linked_list_init) = Ok (st', nb) /\
    moving st' (hs_nodes s) num (mjoin cs) [] nb ncs /\ mjoin ncs ≡ₚ mjoin cs.
Proof.
  intros Hok Hn. pose proof (to_bound _ _ _ Hok) as Hbd. rewrite (to_size _ _ _ Hok) in Hbd.
  destruct (to_len _ _ _ Hok) as [Hbl Hcl].
  destruct (for_loop_inv (fun i '(st, nb) => exists ncs,
      moving st (hs_nodes s) num (mjoin cs) (drop (Z.to_nat i) (table_tabs t cs)) nb ncs /\
      mjoin ncs ≡ₚ mjoin (take (Z.to_nat i) cs)) (Z.to_nat (buckets_num t)) 0
    (fun i '(st, nb) => let! bucket := arr_get (buckets t) i in
      move_bucket (bucket_fuel bucket) (hs_kvs s) num st bucket nb (head bucket))
    (hs_nodes s, replicate (Z.to_nat num) linked_list_init)) as ([st' nb] & E & ncs & Hmv & Hp).
  - exists (replicate (Z.to_nat num) []). assert (forall n, mjoin (replicate n (@nil entry)) = []) as Hj.
    { induction n as [|n IH]; [done|]. exact IH. }
    split; [|by rewrite Hj]. cbn [Z.to_nat drop]. split.
    + pose proof (to_dlls _ _ _ Hok) as Hd.
      assert (forall n ts, dlls (hs_nodes s) ts ->
        dlls (hs_nodes s) (ts ++ zip (replicate n linked_list_init) (chain <$> replicate n []))) as Hz.
      { intros n. induction n as [|n IH]; intros ts Hts; [by rewrite app_nil_r|]. cbn.
        rewrite <- Permutation_middle. apply dlls_cons. split; [apply dll_nil|].
        split; [by apply IH|set_solver]. }
      by apply Hz.
    + by rewrite !length_replicate.
    + intros i es e [-> _]%lookup_replicate. set_solver.
    + apply nodes_kept_refl.
    + rewrite Hj. cbn. lia.
  - intros j [st nb] Hj (ncs & Hmv & Hp). set (i := Z.to_nat j) in *.
    destruct (arr_get_ok_lt (buckets t) j) as (b & Eb & Hb); [lia|]. fold i in Hb.
    destruct (lookup_lt_is_Some_2 cs i) as [es He]; [lia|].
    rewrite (table_tabs_drop t cs i b es Hb He) in Hmv. rewrite Eb. cbn [res_bind].
    pose proof (mv_dlls _ _ _ _ _ _ _ Hmv) as Hd. cbn [app] in Hd. apply dlls_cons in Hd as [Hd _].
    assert ((length es + length (mjoin ncs) <= length (mjoin cs))%nat) as Hlen.
    { pose proof (mjoin_take_le cs (S i)) as Hle. rewrite (mjoin_take_S cs i es He), length_app in Hle.
      rewrite Hp. lia. }
    destruct (move_bucket_ok (hs_kvs s) (hs_nodes s) num (mjoin cs) (drop (S i) (table_tabs t cs))
                (bucket_fuel b) es st b nb ncs) as (st' & nb' & ncs' & E & Hmv' & Hp'); try done.
    + intros x Hx. by apply (elem_of_bucket cs i es).
    + intros x. rewrite Hp. apply elem_of_mjoin_take.
    + pose proof (to_kvs _ _ _ Hok) as Hkv. rewrite Forall_forall in Hkv |- *. intros e Hin.
      by apply Hkv, (elem_of_bucket cs i es).
    + unfold bucket_fuel. rewrite (dll_size _ _ _ Hd). unfold chain. rewrite length_fmap. lia.
    + rewrite (dll_head _ _ _ Hd), E. exists (st', nb'). split; [done|]. exists ncs'.
      replace (Z.to_nat (j + 1)) with (S i) by lia. split; [done|].
      rewrite Hp', Hp, (mjoin_take_S cs i es He). apply Permutation_app_comm.
  - exists st', nb, ncs. split; [done|]. rewrite Z.add_0_l, Nat2Z.id in Hmv, Hp.
    rewrite drop_ge in Hmv.
    2: { unfold table_tabs. rewrite length_zip_with, length_fmap. lia. }
    rewrite take_ge in Hp by lia. done.
Qed.

(** [hash_table_expand] rehashes every entry and keeps the map. *)
Lemma expand_ok s t cs L :
  table_ok s t cs -> table_owns s t cs L -> (size L < capacity)%nat ->
  24 * buckets_num t <= request_max -> 24 * buckets_num t < 4294967296 ->
  (grants (hs_alloc s) [buckets_num t * 2 * list_bytes] = None /\ hash_table_expand junk s t = Err Panic) \/
  exists t' s' cs' L', hash_table_expand junk s t = Ok (t', s') /\ is_Some (grants (hs_alloc s) [buckets_num t * 2 * list_bytes]) /\ table_ok s' t' cs' /\
    table_owns s' t' cs' L' /\ mjoin cs' ≡ₚ mjoin cs /\ (size L' <= size L)%nat /\
    hsize t' = hsize t /\ buckets_num t' = 2 * buckets_num t /\
    framed s s' L L' (footprint t cs) (footprint t' cs').
Proof.
  intros Hok Hown Hcap Hreq Hw. pose proof (to_num _ _ _ Hok) as Hn. unfold hash_table_expand.
  rewrite u32_small by lia.
  destruct (new_bucket_array_ok (hs_alloc s) L (buckets_num t * 2) (tw_owns _ _ _ _ Hown) Hcap)
    as [[Hg ->]|(p & k & a & -> & Hg & Hp & Ho)]; [lia|unfold list_bytes; lia..|by left|right]. cbn [res_bind].
  destruct (move_all_ok s t cs (buckets_num t * 2) Hok) as (st' & nb & ncs & E & Hmv & Hperm); [lia|].
  rewrite E. cbn [res_bind]. pose proof (fresh_not_cell _ _ _ _ _ Hown Hp) as Hpc.
  destruct (tw_live _ _ _ _ Hown (buckets_ptr t)) as [bk Hbk]; [set_solver|].
  assert (p <> buckets_ptr t) as Hne by set_solver.
  destruct (mfree_law a (<[p := k]> L) (buckets_ptr t) bk Ho) as (a' & -> & Ho').
  { by rewrite lookup_insert_ne by done. } { rewrite map_size_insert_None by done. lia. }
  cbn [res_bind]. destruct Hmv as [Hd Hl Hh Hk _]. cbn [app] in Hd.
  exists (mk_table p nb (buckets_num t * 2) (hsize t)), (mk_hstate a' st' (hs_kvs s)), ncs,
    (delete (buckets_ptr t) (<[p := k]> L)). split; [done|]. split; [by exists a|]. split; [|split; [|split; [done|]]].
  - destruct Hok. split; cbn; rewrite ?Hperm; try done. lia.
  - rewrite not_elem_of_cons in Hpc. destruct Hown as [_ Hlive [Hpn Hnd]%NoDup_cons].
    split; cbn [hs_alloc buckets_ptr]; [done| |].
    + intros x. rewrite elem_of_cons, Hperm. intros [->|Hx].
      { rewrite lookup_delete_ne by done. rewrite lookup_insert_eq. by eexists. }
      rewrite lookup_delete_ne, lookup_insert_ne by (intros <-; tauto). apply Hlive. set_solver.
    + rewrite Hperm. constructor; tauto.
  - split; [rewrite map_size_delete_Some, map_size_insert_None; [lia|done|]|].
    { exists bk. by rewrite lookup_insert_ne by done. }
    split; [done|]. split; [cbn; lia|]. intros x [y Hx] Hxf.
    pose proof Hxf as (Hxp & Hxn & Hxk)%not_in_footprint. assert (x <> p) by congruence.
    split; [by rewrite lookup_delete_ne, lookup_insert_ne by done|]. split.
    { rewrite (footprint_perm _ _ _ Hperm). cbn [buckets_ptr].
      rewrite elem_of_list_to_set, elem_of_cons, elem_of_cells. tauto. }
    split; [by apply Hk|done].
Qed.

(** [hash_table_put] of a key that is not in the table. *)
Lemma put_absent s t cs k v :
  table_ok s t cs -> (forall e, e ∈ mjoin cs -> e_key e <> k) ->
  hash_table_put junk s t k v =
  let! (t, s) := put_new s t k v in
  if 4 * hsize t >? 3 * buckets_num t then
    let! (t, s) := hash_table_expand junk s t in Ok (0, t, s)
  else Ok (0, t, s).
Proof.
  intros Hok Hnew. destruct (table_bucket s t cs k Hok) as (b & es & Eb & Hb & He & Hd & _).
  unfold hash_table_put, put_new. rewrite Eb. cbn [res_bind].
  rewrite (table_find s t cs k b es Hok He Hd). cbn [res_bind].
  destruct (find_key k es) as [e|] eqn:Ef.
  { apply find_key_Some in Ef as (Hk & l1 & l2 & ->). exfalso. apply (Hnew e); [|done].
    apply (elem_of_bucket cs _ _ e He). set_solver. }
  cbn [Z.eqb negb]. destruct (malloc _ kv_bytes) as [[kp a]|]; [|done]. cbn [res_bind].
  destruct (linked_list_append_ele _ _ _ _) as [[[a' st] b']|]; [|done]. cbn [res_bind].
  by destruct (arr_set _ _ _).
Qed.

Lemma map_of_cons_perm cs cs' e :
  NoDup (e_key <$> mjoin cs') -> mjoin cs' ≡ₚ e :: mjoin cs ->
  map_of (mjoin cs') = <[e_key e := e_val e]> (map_of (mjoin cs)).
Proof. intros Hn Hp. by rewrite (map_of_perm _ _ Hn Hp). Qed.

(** The rest of the context a client relies on: how far the table may grow. *)
Definition room t (L : gmap Z Z) : Prop :=
  (size L + 2 < capacity)%nat /\ node_bytes <= request_max /\ 24 * buckets_num t <= request_max /\
  24 * buckets_num t < 4294967296.

(** What a successful operation gives: the new map, and the frame. *)
Definition ht_result s t L (cs : list (list entry)) s' t' L' (M' : gmap Z Z) : Prop :=
  exists cs', table_ok s' t' cs' /\ table_owns s' t' cs' L' /\ map_of (mjoin cs') = M' /\
    4 * hsize t' <= 3 * buckets_num t' /\ framed s s' L L' (footprint t cs) (footprint t' cs').

(** The blocks that [hash_table_put] asks for: none for a key of the table, otherwise a record, a node,
    and an array twice as large when the load factor is passed. *)
Definition put_requests t (M : gmap Z Z) (k : Z) : list Z :=
  match M !! k with
  | Some _ => []
  | None => [kv_bytes; node_bytes] ++ if 4 * (hsize t + 1) >? 3 * buckets_num t then [buckets_num t * 2 * list_bytes] else []
  end.

Lemma put_ok s t cs L k v :
  table_ok s t cs -> table_owns s t cs L -> 4 * hsize t <= 3 * buckets_num t -> room t L ->
  let granted := grants (hs_alloc s) (put_requests t (map_of (mjoin cs)) k) in
  (granted = None /\ hash_table_put junk s t k v = Err Panic) \/
  is_Some granted /\ exists t' s' L', hash_table_put junk s t k v = Ok (default 0 (map_of (mjoin cs) !! k), t', s') /\
    ht_result s t L cs s' t' L' (<[k := v]> (map_of (mjoin cs))) /\ (size L' <= size L + 2)%nat.
Proof.
  intros Hok Hown Hload (Hcap & Hreq & Hreq2 & Hw) granted. unfold granted, put_requests.
  destruct (table_bucket s t cs k Hok) as (b & es & _ & _ & He & _ & _).
  rewrite (table_lookup s t cs k es Hok He). destruct (find_key k es) as [e|] eqn:Ef; cbn [fmap option_fmap option_map default].
  - apply find_key_Some in Ef as (Hk & l1 & l2 & ->).
    destruct (put_existing_ok s t cs L k v e Hok Hown) as (s' & cs' & E & Hok' & Hown' & Hm & Hfp & Hfr);
      [apply (elem_of_bucket cs _ _ e He); set_solver|done|].
    right. split; [by exists (hs_alloc s)|]. exists t, s', L. split; [exact E|]. split; [|lia]. exists cs'. done.
  - assert (forall e, e ∈ mjoin cs -> e_key e <> k) as Hnew.
    { intros e Hin <-. apply (find_key_None _ _ Ef e); [|done].
      by apply (table_entry_bucket s t cs e es Hok Hin). }
    rewrite (put_absent s t cs k v Hok Hnew).
    rewrite grants_app.
    destruct (put_new_ok s t cs L k v Hok Hown Hnew) as [[-> ->]|Hput]; [lia|lia|lia|by left|].
    destruct Hput as (t1 & s1 & cs1 & e & L1 & -> & Hg1 & Hok1 & Hown1 & Hp1 & Hke & Hve & Hsz1 & Hhs1 & Hnum1 & Hfr1).
    cbn [res_bind]. pose proof (map_of_cons_perm cs cs1 e (to_keys _ _ _ Hok1) Hp1) as Hm1.
    rewrite Hke, Hve in Hm1. rewrite Hg1, <- Hhs1, <- Hnum1. destruct (4 * hsize t1 >? 3 * buckets_num t1) eqn:El.
    + apply Z.gtb_lt in El.
      destruct (expand_ok s1 t1 cs1 L1 Hok1 Hown1) as [[-> ->]|Hex]; [lia|lia|lia|by left|].
      destruct Hex as (t2 & s2 & cs2 & L2 & -> & Hg2 & Hok2 & Hown2 & Hp2 & Hsz2 & Hhs2 & Hnum2 & Hfr2).
      right. split; [done|]. exists t2, s2, L2. split; [done|]. split; [|lia]. exists cs2.
      split; [done|]. split; [done|]. split; [|split].
      * rewrite <- Hm1. apply map_of_perm; [apply Hok2|done].
      * pose proof (to_num _ _ _ Hok). lia.
      * by apply (framed_trans s s1 s2 L L1 L2 _ (footprint t1 cs1)).
    + right. split; [by exists (hs_alloc s1)|]. exists t1, s1, L1. split; [done|]. split; [|lia]. exists cs1.
      split; [done|]. split; [done|]. split; [done|]. split; [|done].
      rewrite Z.gtb_ltb in El. apply Z.ltb_ge in El. lia.
Qed.

(** ** Removing *)
Lemma remove_present_ok s t cs L k e :
  table_ok s t cs -> table_owns s t cs L -> (size L <= capacity)%nat -> e ∈ mjoin cs -> e_key e = k ->
  exists t' s' cs' L', hash_table_remove s t k = Ok (e_val e, t', s') /\ table_ok s' t' cs' /\
    table_owns s' t' cs' L' /\ mjoin cs ≡ₚ e :: mjoin cs' /\ hsize t' = hsize t - 1 /\
    buckets_num t' = buckets_num t /\ L' = delete (e_node e) (delete (e_kv e) L) /\
    framed s s' L L' (footprint t cs) (footprint t' cs').
Proof.
  intros Hok Hown Hcap Hin Hk. destruct (table_bucket s t cs k Hok) as (b & es & Eb & Hb & He & Hd & Hm).
  pose proof (table_entry_bucket s t cs e es Hok Hin) as Hie. rewrite Hk in Hie. specialize (Hie He).
  unfold hash_table_remove. rewrite Eb. cbn [res_bind].
  rewrite (table_find s t cs k b es Hok He Hd). cbn [res_bind].
  destruct (find_key k es) as [e'|] eqn:Ef.
  2: { by destruct (find_key_None _ _ Ef e Hie). }
  destruct (find_key_Some _ _ _ Ef) as (Hk' & l1 & l2 & Hes).
  assert (e' = e) as ->.
  { assert (e' ∈ mjoin cs) as Hin' by (apply (elem_of_bucket cs _ es _ He); set_solver).
    apply list_elem_of_lookup in Hin as [x Hx]. apply list_elem_of_lookup in Hin' as [y Hy].
    assert (x = y) as ->; [|congruence].
    apply (NoDup_lookup _ _ _ k (to_keys _ _ _ Hok)); rewrite list_lookup_fmap;
      [by rewrite Hx, <- Hk|by rewrite Hy, <- Hk']. }
  destruct (entry_read s t cs b _ es e Hok He Hd Hie) as (Hx & Hkv & _).
  replace (e_node e =? 0) with false by (symmetry; zbool). cbn [negb].
  destruct (table_ok_update s t cs _ b es Hok Hb He) as (rest & rtabs & Hj & Hj' & Hds & Hmem & Hup).
  assert (chain es = chain l1 ++ (e_node e, e_kv e) :: chain l2) as Hch
    by (subst es; unfold chain; by rewrite fmap_app).
  rewrite Hch in Hds.
  destruct (dlls_remove _ _ _ _ _ _ _ Hds) as (st1 & b1 & E1 & Hd1 & Hx1 & Hnm & Hk1).
  rewrite E1. cbn [res_bind]. rewrite arr_set_ok by (destruct (to_len _ _ _ Hok); lia). cbn [res_bind].
  unfold get_node at 1. rewrite Hx1. cbn [res_bind ptr]. rewrite Hkv. cbn [res_bind v_ptr].
  assert (mjoin cs ≡ₚ e :: (l1 ++ l2) ++ rest) as Hje.
  { rewrite Hj, Hes, <- !app_assoc. cbn. symmetry. apply Permutation_middle. }
  pose proof (tw_nodup _ _ _ _ Hown) as Hnd. rewrite Hje, cells_cons in Hnd.
  apply NoDup_cons in Hnd as [Hbp Hnd]. rewrite !elem_of_cons in Hbp.
  apply NoDup_cons in Hnd as [Hnn Hnd]. apply NoDup_cons in Hnd as [Hnk Hnd].
  rewrite elem_of_cons in Hnn. rewrite elem_of_cells in *.
  assert (forall x, x ∈ [e_node e; e_kv e] -> is_Some (L !! x)) as Hlive.
  { intros x Hx2. apply (tw_live _ _ _ _ Hown). rewrite Hje, cells_cons, !elem_of_cons in *. set_solver. }
  destruct (Hlive (e_kv e)) as [n1 Hn1]; [set_solver|].
  destruct (Hlive (e_node e)) as [n2 Hn2]; [set_solver|].
  destruct (mfree_law (hs_alloc s) L (e_kv e) n1 (tw_owns _ _ _ _ Hown) Hn1 Hcap) as (a1 & -> & Ho1).
  cbn [res_bind].
  destruct (mfree_law a1 _ (e_node e) n2 Ho1) as (a2 & -> & Ho2).
  { rewrite lookup_delete_ne; [done|]. intros Heq. apply Hnn. by left. }
  { rewrite map_size_delete_Some by by exists n1. lia. }
  cbn [res_bind].
  set (s' := mk_hstate a2 (delete (e_node e) st1) (delete (e_kv e) (hs_kvs s))).
  exists (mk_table (buckets_ptr t) (<[Z.to_nat (k mod buckets_num t) := b1]> (buckets t))
            (buckets_num t) (hsize t - 1)), s', (<[Z.to_nat (k mod buckets_num t) := l1 ++ l2]> cs),
    (delete (e_node e) (delete (e_kv e) L)).
  assert (mjoin cs ≡ₚ e :: mjoin (<[Z.to_nat (k mod buckets_num t) := l1 ++ l2]> cs)) as Hje'
    by (by rewrite Hj').
  pose proof (to_size _ _ _ Hok) as Hsz. rewrite Hje in Hsz. cbn [length] in Hsz.
  split; [done|]. split; [|split; [|split; [done|split; [done|split; [done|split; [done|]]]]]].
  - pose proof (to_keys _ _ _ Hok) as Hkn. pose proof (to_kvnodup _ _ _ Hok) as Hkvn.
    pose proof (to_kvs _ _ _ Hok) as Hkvs. rewrite Hje in Hkn, Hkvn, Hkvs. cbn in Hkn, Hkvn.
    apply NoDup_cons in Hkn as [_ Hkn]. apply NoDup_cons in Hkvn as [Hkvne Hkvn].
    apply Forall_cons in Hkvs as [_ Hkvs]. apply Hup; [| | |done|done|lia|pose proof (to_bound _ _ _ Hok); lia].
    + replace (chain (l1 ++ l2)) with (chain l1 ++ chain l2) by (unfold chain; by rewrite fmap_app).
      apply (dlls_kept st1); [|done]. intros x Hxm. apply lookup_delete_ne. by intros <-.
    + intros x Hxin. apply (to_hash _ _ _ Hok _ es); [done|]. subst es. set_solver.
    + rewrite Forall_forall in Hkvs |- *. intros x Hxin. unfold entry_ok. cbn.
      rewrite lookup_delete_ne; [by apply Hkvs|]. intros Heq. apply Hkvne. rewrite Heq.
      by apply list_elem_of_fmap_2.
  - split; cbn [hs_alloc buckets_ptr]; [done| |].
    + intros x. rewrite (Hj' (l1 ++ l2)), elem_of_cons, elem_of_cells. intros Hxin.
      rewrite !lookup_delete_ne by (intros <-; intuition congruence). apply (tw_live _ _ _ _ Hown).
      rewrite Hje, cells_cons, !elem_of_cons, elem_of_cells. tauto.
    + rewrite (Hj' (l1 ++ l2)). constructor; [|done]. rewrite elem_of_cells. tauto.
  - intros x [y Hxl] Hxf. pose proof Hxf as (Hxp & Hxn & Hxk)%not_in_footprint.
    assert (x <> e_node e /\ x <> e_kv e) as [Hx1' Hx2'].
    { split; intros ->; [apply Hxn|apply Hxk]; by apply list_elem_of_fmap_2. }
    split; [by rewrite !lookup_delete_ne by done|]. split.
    { rewrite (footprint_perm _ _ _ (Hj' (l1 ++ l2))). cbn [buckets_ptr].
      rewrite Hje, fmap_cons, elem_of_cons in Hxn, Hxk.
      rewrite elem_of_list_to_set, elem_of_cons, elem_of_cells. tauto. }
    cbn. rewrite !lookup_delete_ne by done. split; [|done]. apply Hk1. rewrite <- Hch.
    unfold chain. rewrite <- list_fmap_compose. intros Hin2. apply Hxn. rewrite Hj, fmap_app.
    apply elem_of_app. by left.
Qed.

Lemma size_delete_le (L : gmap Z Z) k : (size (delete k L) <= size L)%nat.
Proof. rewrite map_size_delete. destruct (L !! k); cbn; lia. Qed.

Lemma remove_ht_ok s t cs L k :
  table_ok s t cs -> table_owns s t cs L -> 4 * hsize t <= 3 * buckets_num t ->
  (size L <= capacity)%nat ->
  exists t' s' L', hash_table_remove s t k = Ok (default 0 (map_of (mjoin cs) !! k), t', s') /\
    ht_result s t L cs s' t' L' (delete k (map_of (mjoin cs))) /\ (size L' <= size L)%nat.
Proof.
  intros Hok Hown Hload Hcap. destruct (table_bucket s t cs k Hok) as (b & es & Eb & _ & He & Hd & _).
  rewrite (table_lookup s t cs k es Hok He). destruct (find_key k es) as [e|] eqn:Ef; cbn [fmap option_fmap option_map default].
  - apply find_key_Some in Ef as (Hk & l1 & l2 & ->).
    destruct (remove_present_ok s t cs L k e Hok Hown Hcap) as
      (t' & s' & cs' & L' & E & Hok' & Hown' & Hp & Hhs & Hnum & HL & Hfr);
      [apply (elem_of_bucket cs _ _ e He); set_solver|done|].
    exists t', s', L'. split; [done|]. split.
    + exists cs'. split; [done|]. split; [done|]. split; [|split; [lia|done]].
      pose proof (to_keys _ _ _ Hok) as Hkn. rewrite (map_of_perm _ _ Hkn Hp). rewrite Hp in Hkn.
      cbn in Hkn. apply NoDup_cons in Hkn as [Hnot _]. rewrite map_of_cons, Hk, delete_insert_id; [done|].
      apply map_of_app_None. intros x Hx Hxk. apply Hnot. rewrite Hk, <- Hxk.
      by apply list_elem_of_fmap_2.
    + rewrite HL. etrans; [apply size_delete_le|apply size_delete_le].
  - exists t, s, L. unfold hash_table_remove. rewrite Eb. cbn [res_bind].
    rewrite (table_find s t cs k b es Hok He Hd), Ef. cbn. split; [done|]. split; [|lia].
    exists cs. split; [done|]. split; [done|]. split; [|split; [done|by intros x _ ?]].
    symmetry. apply delete_id. rewrite (table_lookup s t cs k es Hok He), Ef. done.
Qed.

(** ** Destroying a table *)

(** What is left to free: the lists [ts] with the entries [es]. *)
Record pending s (L : gmap Z Z) (ts : tabs) (es : list entry) : Prop := {
  pd_dlls : dlls (hs_nodes s) ts;
  pd_kvs : Forall (entry_ok (hs_kvs s)) es;
  pd_owns : owns (hs_alloc s) L;
  pd_live : forall x, x ∈ cells es -> is_Some (L !! x);
  pd_nodup : NoDup (cells es);
  pd_size : (size L <= capacity)%nat
}.

(** Exactly the addresses [xs] have been given back. *)
Definition released s s' (L L' : gmap Z Z) (xs : list Z) : Prop :=
  (forall x, L' !! x = if decide (x ∈ xs) then None else L !! x) /\
  forall x, x ∉ xs -> hs_nodes s' !! x = hs_nodes s !! x /\ hs_kvs s' !! x = hs_kvs s !! x.

Lemma destroy_entry s L b e es ts rest :
  pending s L ((b, chain (e :: es)) :: ts) ((e :: es) ++ rest) ->
  members ts = e_node <$> rest ->
  exists n a st b' a', get_node (hs_nodes s) (e_node e) = Ok n /\ ptr n = e_kv e /\
    next n = first 0 (chain es) /\ e_node e <> 0 /\ mfree (hs_alloc s) (e_kv e) = Ok a /\
    linked_list_remove (hs_nodes s) b (e_node e) = Ok (st, b') /\ mfree a (e_node e) = Ok a' /\
    let s' := mk_hstate a' (delete (e_node e) st) (delete (e_kv e) (hs_kvs s)) in
    pending s' (delete (e_node e) (delete (e_kv e) L)) ((b', chain es) :: ts) (es ++ rest) /\
    nodes_kept (hs_nodes s) st (e_node <$> e :: es).
Proof.
  intros [Hd Hkv Ho Hlive Hnd Hcap] Hmem. pose proof Hd as ([_ _ _ (Hx0 & Hx & _) _ _] & _)%dlls_cons.
  destruct (dlls_remove (hs_nodes s) b [] _ _ _ _ Hd) as (st & b' & E1 & Hd1 & Hx1 & Hnm & Hk1).
  cbn [app] in Hd1, Hnm, Hk1. cbn [app] in Hlive, Hnd, Hkv.
  rewrite cells_cons in Hnd. apply NoDup_cons in Hnd as [Hn1 Hnd]. apply NoDup_cons in Hnd as [Hn2 Hnd].
  rewrite elem_of_cons, elem_of_cells in Hn1. rewrite elem_of_cells in Hn2.
  assert (forall x, x = e_node e \/ x = e_kv e \/ x ∈ cells (es ++ rest) -> is_Some (L !! x)) as Hl.
  { intros x Hc. apply Hlive. rewrite cells_cons, !elem_of_cons. tauto. }
  destruct (Hl (e_kv e)) as [k1 Hk]; [tauto|]. destruct (Hl (e_node e)) as [k2 Hk2]; [tauto|].
  destruct (mfree_law _ _ _ _ Ho Hk Hcap) as (a & Ea & Ho1).
  assert ((size (delete (e_kv e) L) <= capacity)%nat) as Hcap1 by (pose proof (size_delete_le L (e_kv e)); lia).
  destruct (mfree_law a _ (e_node e) k2 Ho1) as (a' & Ea' & Ho2); [|done|].
  { rewrite lookup_delete_ne; [done|]. intros Heq. apply Hn1. by left. }
  exists (mk_node (e_kv e) 0 (first 0 (chain es))), a, st, b', a'. unfold get_node. rewrite Hx.
  do 7 (split; [done|]). apply Forall_cons in Hkv as [_ Hkv]. split.
  - split; cbn [hs_nodes hs_kvs hs_alloc]; [| |done| |done|].
    + apply (dlls_kept st); [|done]. intros x Hin. apply lookup_delete_ne. by intros <-.
    + rewrite Forall_forall in Hkv |- *. intros x Hin. unfold entry_ok.
      rewrite lookup_delete_ne; [by apply Hkv|]. intros Heq. apply Hn2. right. rewrite Heq.
      by apply list_elem_of_fmap_2.
    + intros x Hin. rewrite !lookup_delete_ne.
      * apply Hl. tauto.
      * intros <-. apply Hn2. by apply elem_of_cells.
      * intros <-. apply Hn1. right. by apply elem_of_cells.
    + etrans; [apply size_delete_le|done].
  - by rewrite <- chain_fst.
Qed.

Lemma released_step s s1 s2 L x y xs L1 L2 :
  L1 = delete x (delete y L) -> (forall z, z <> x -> z <> y -> z ∉ xs ->
    hs_nodes s1 !! z = hs_nodes s !! z /\ hs_kvs s1 !! z = hs_kvs s !! z) ->
  released s1 s2 L1 L2 xs -> released s s2 L L2 (x :: y :: xs).
Proof.
  intros -> Hk [H1 H2]. split.
  - intros z. rewrite H1. destruct (decide (z ∈ xs)) as [Hz|Hz].
    + by rewrite decide_True by set_solver.
    + destruct (decide (z = x)) as [->|]; [by rewrite lookup_delete_eq, decide_True by set_solver|].
      rewrite lookup_delete_ne by done.
      destruct (decide (z = y)) as [->|]; [by rewrite lookup_delete_eq, decide_True by set_solver|].
      by rewrite lookup_delete_ne, decide_False by set_solver.
  - intros z Hz. rewrite !not_elem_of_cons in Hz. destruct (H2 z) as [-> ->]; [tauto|].
    apply Hk; tauto.
Qed.

Lemma released_perm s s' L L' xs ys : xs ≡ₚ ys -> released s s' L L' xs -> released s s' L L' ys.
Proof.
  intros Hp [H1 H2]. split.
  - intros x. rewrite H1. by apply decide_ext; rewrite Hp.
  - intros x Hx. apply H2. by rewrite Hp.
Qed.

Lemma destroy_bucket_ok fuel : forall es s L b ts rest,
  pending s L ((b, chain es) :: ts) (es ++ rest) -> members ts = e_node <$> rest ->
  (length es < fuel)%nat ->
  exists s' L', destroy_bucket fuel s b (first 0 (chain es)) = Ok s' /\
    pending s' L' ts rest /\ released s s' L L' (cells es).
Proof.
  induction fuel as [|fuel IH]; intros es s L b ts rest Hp Hm Hf; [lia|]. destruct es as [|e es].
  - exists s, L. split; [done|]. split; [|by split]. destruct Hp as [Hd ? ? ? ? ?]. split; try done.
    by apply dlls_cons in Hd as (_ & ? & _).
  - destruct (destroy_entry s L b e es ts rest Hp Hm) as
      (n & a & st & b' & a' & En & Ep & Hnx & Hx & E1 & E2 & E3 & Hp' & Hk).
    change (first 0 (chain (e :: es))) with (e_node e). cbn [destroy_bucket].
    replace (e_node e =? 0) with false by (symmetry; zbool).
    rewrite En. cbn [res_bind]. rewrite Ep, E1. cbn [res_bind]. rewrite E2. cbn [res_bind].
    rewrite E3. cbn [res_bind]. rewrite Hnx.
    destruct (IH es _ _ _ _ _ Hp' Hm) as (s' & L' & E & Hp2 & Hr); [cbn in Hf; lia|].
    exists s', L'. split; [exact E|]. split; [done|].
    apply (released_perm _ _ _ _ (e_node e :: e_kv e :: cells es)); [by rewrite cells_cons|].
    apply (released_step s _ s' L _ _ _ _ L' eq_refl) with (2 := Hr).
    intros z Hz1 Hz2 Hz3. cbn. rewrite !lookup_delete_ne by done. split; [|done]. apply Hk.
    rewrite elem_of_cells in Hz3. cbn. rewrite elem_of_cons. tauto.
Qed.

Lemma released_trans s1 s2 s3 L1 L2 L3 xs ys :
  released s1 s2 L1 L2 xs -> released s2 s3 L2 L3 ys -> released s1 s3 L1 L3 (xs ++ ys).
Proof.
  intros [H1 H1'] [H2 H2']. split.
  - intros z. rewrite H2, H1. repeat case_decide; rewrite ?elem_of_app, ?not_elem_of_app in *;
      first [reflexivity|exfalso; tauto].
  - intros z Hz. rewrite not_elem_of_app in Hz. destruct (H2' z) as [-> ->]; [tauto|].
    apply H1'. tauto.
Qed.

Lemma cells_app_perm l l' : cells (l ++ l') ≡ₚ cells l ++ cells l'.
Proof.
  unfold cells. rewrite !fmap_app, <- !app_assoc. apply Permutation_app_head.
  rewrite !app_assoc. apply Permutation_app_tail, Permutation_app_comm.
Qed.

Lemma members_drop s t cs i :
  table_ok s t cs -> members (drop i (table_tabs t cs)) = e_node <$> mjoin (drop i cs).
Proof.
  intros Hok. destruct (to_len _ _ _ Hok) as [H1 H2].
  pose proof (members_table (mk_table 0 (drop i (buckets t)) 0 0) (drop i cs)) as Hm.
  cbn in Hm. rewrite !length_drop in Hm. rewrite <- Hm by lia. unfold table_tabs. cbn.
  by rewrite fmap_drop, drop_zip.
Qed.

Lemma destroy_ok s t cs L :
  table_ok s t cs -> table_owns s t cs L -> (size L <= capacity)%nat ->
  exists t' s' L', hash_table_destroy s t = Ok (t', s') /\ hsize t' = 0 /\ owns (hs_alloc s') L' /\
    released s s' L L' (buckets_ptr t :: cells (mjoin cs)).
Proof.
  intros Hok Hown Hcap. destruct (to_len _ _ _ Hok) as [Hbl Hcl]. pose proof (to_num _ _ _ Hok) as Hn.
  unfold hash_table_destroy.
  destruct (for_loop_inv (fun i s1 => exists L1,
      pending s1 L1 (drop (Z.to_nat i) (table_tabs t cs)) (mjoin (drop (Z.to_nat i) cs)) /\
      released s s1 L L1 (cells (mjoin (take (Z.to_nat i) cs)))) (Z.to_nat (buckets_num t)) 0
    (fun i s => let! bucket := arr_get (buckets t) i in
                destroy_bucket (bucket_fuel bucket) s bucket (head bucket)) s) as (s1 & E & L1 & Hp & Hr).
  - exists L. change (Z.to_nat 0) with 0%nat. rewrite !drop_0, take_0. split; [|by split].
    pose proof (tw_nodup _ _ _ _ Hown) as [_ Hnd]%NoDup_cons.
    split; [exact (to_dlls _ _ _ Hok)|exact (to_kvs _ _ _ Hok)|exact (tw_owns _ _ _ _ Hown)| |exact Hnd|exact Hcap].
    intros x Hx. apply (tw_live _ _ _ _ Hown). by apply elem_of_cons; right.
  - intros j s1 Hj (L1 & Hp & Hr). set (i := Z.to_nat j) in *.
    destruct (arr_get_ok_lt (buckets t) j) as (b & Eb & Hb); [lia|]. fold i in Hb.
    destruct (lookup_lt_is_Some_2 cs i) as [es He]; [lia|]. rewrite Eb. cbn [res_bind].
    rewrite (table_tabs_drop t cs i b es Hb He), (drop_S _ _ _ He) in Hp.
    change (mjoin (es :: drop (S i) cs)) with (es ++ mjoin (drop (S i) cs)) in Hp.
    pose proof (pd_dlls _ _ _ _ Hp) as Hd. apply dlls_cons in Hd as [Hd _].
    destruct (destroy_bucket_ok (bucket_fuel b) es s1 L1 b _ _ Hp (members_drop s t cs _ Hok))
      as (s2 & L2 & E & Hp2 & Hr2).
    { unfold bucket_fuel. rewrite (dll_size _ _ _ Hd). unfold chain. rewrite length_fmap. lia. }
    rewrite (dll_head _ _ _ Hd), E. exists s2. split; [done|]. exists L2.
    replace (Z.to_nat (j + 1)) with (S i) by lia. split; [done|].
    rewrite (mjoin_take_S cs i es He).
    apply (released_perm _ _ _ _ (cells (mjoin (take i cs)) ++ cells es)); [by rewrite cells_app_perm|].
    by apply (released_trans s s1 s2 L L1 L2).
  - rewrite Z.add_0_l, Nat2Z.id, take_ge in Hr by lia. rewrite E. cbn [res_bind].
    destruct (tw_live _ _ _ _ Hown (buckets_ptr t)) as [k Hk]; [set_solver|].
    pose proof (tw_nodup _ _ _ _ Hown) as [Hnb _]%NoDup_cons.
    destruct (mfree_law (hs_alloc s1) L1 (buckets_ptr t) k (pd_owns _ _ _ _ Hp)) as (a & -> & Ho).
    { destruct Hr as [-> _]. by rewrite decide_False. } { apply Hp. }
    cbn [res_bind]. eexists _, _, (delete (buckets_ptr t) L1). split; [done|]. split; [done|].
    split; [done|]. destruct Hr as [Hr1 Hr2]. split; cbn.
    + intros x. destruct (decide (x = buckets_ptr t)) as [->|].
      * by rewrite lookup_delete_eq, decide_True by set_solver.
      * rewrite lookup_delete_ne, Hr1 by done. apply decide_ext. set_solver.
    + intros x Hx. apply Hr2. set_solver.
Qed.

(** ** The invariant of a table: it holds the map [M] at the addresses [fp] *)
Definition ht_inv s t (L M : gmap Z Z) (fp : gset Z) : Prop :=
  exists cs, table_ok s t cs /\ table_owns s t cs L /\ map_of (mjoin cs) = M /\
    fp = footprint t cs /\ 4 * hsize t <= 3 * buckets_num t.

Lemma init_ok s L :
  owns (hs_alloc s) L -> (size L < capacity)%nat -> 192 <= request_max ->
  (grants (hs_alloc s) [192] = None /\ hash_table_init junk s = Err Panic) \/
  exists t s' L' fp, hash_table_init junk s = Ok (t, s') /\ ht_inv s' t L' ∅ fp /\ framed s s' L L' ∅ fp.
Proof.
  intros Ho Hc Hr. unfold hash_table_init.
  destruct (new_bucket_array_ok (hs_alloc s) L INITIAL_BUCKETS_NUM Ho Hc) as [[Hg ->]|(p & k & a & -> & _ & Hp & Ho')];
    [done|unfold INITIAL_BUCKETS_NUM, list_bytes; lia|done|by left|right]. cbn [res_bind].
  set (cs := replicate 16 (@nil entry)). assert (mjoin cs = []) as Hj by done.
  set (t := mk_table p (replicate (Z.to_nat INITIAL_BUCKETS_NUM) linked_list_init) INITIAL_BUCKETS_NUM 0).
  exists t, (mk_hstate a (hs_nodes s) (hs_kvs s)), (<[p := k]> L), (footprint t cs).
  assert (forall n, dlls (hs_nodes s) (zip (replicate n linked_list_init) (chain <$> replicate n []))) as Hz.
  { induction n as [|n IH]; [by split; constructor|]. apply dlls_cons.
    split; [apply dll_nil|]. split; [exact IH|]. cbn. set_solver. }
  split; [done|]. split.
  - exists cs. split; [|split; [|done]].
    + split; rewrite ?Hj; try done; try (by constructor).
      * exact (Hz 16%nat).
      * intros i es e [-> _]%lookup_replicate. set_solver.
    + split; rewrite ?Hj; [done| |].
      * intros x [->|Hx]%elem_of_cons; [cbn; rewrite lookup_insert_eq; by eexists|].
        by apply not_elem_of_nil in Hx.
      * constructor; [apply not_elem_of_nil|constructor].
  - intros x [y Hx] _. assert (x <> p) by congruence.
    split; [by rewrite lookup_insert_ne|]. split; [|done].
    unfold footprint. rewrite Hj, elem_of_list_to_set. cbn. by rewrite list_elem_of_singleton.
Qed.

Lemma get_first_ok s t cs :
  table_ok s t cs ->
  if hsize t =? 0 then hash_table_get_first s t = Ok 0
  else exists k v, map_of (mjoin cs) !! k = Some v /\ hash_table_get_first s t = Ok v.
Proof.
  intros Hok. unfold hash_table_get_first. destruct (Z.eqb_spec (hsize t) 0) as [|Hne]; [done|].
  destruct (to_len _ _ _ Hok) as [Hbl Hcl]. pose proof (to_num _ _ _ Hok) as Hn.
  assert (forall i b es, buckets t !! i = Some b -> cs !! i = Some es -> dll (hs_nodes s) b (chain es)) as Hdll.
  { intros i b es Hb He. destruct (to_dlls _ _ _ Hok) as [Hd _]. rewrite Forall_lookup in Hd.
    apply (Hd _ _ (table_tabs_lookup t cs i b es Hb He)). }
  destruct (for_find _ 0 _) as [r|] eqn:E.
  - apply for_find_Some in E as (j & Hj & Hr & _).
    destruct (arr_get_ok_lt (buckets t) j) as (b & Eb & Hb); [lia|].
    destruct (lookup_lt_is_Some_2 cs (Z.to_nat j)) as [es He]; [lia|].
    rewrite Eb, (dll_head _ _ _ (Hdll _ _ _ Hb He)) in Hr.
    destruct es as [|e es]; [done|]. cbn [chain fmap list_fmap first] in Hr.
    destruct (entry_read s t cs b _ _ e Hok He (Hdll _ _ _ Hb He)) as (Hx & Hkv & n & En & Ep);
      [set_solver|].
    destruct (negb _); [|done]. injection Hr as <-. rewrite En. cbn [res_bind]. rewrite Ep, Hkv.
    exists (e_key e), (e_val e). split; [|done].
    apply map_of_lookup; [apply Hok| |done]. apply (elem_of_bucket cs _ _ e He). set_solver.
  - exfalso. rewrite for_find_None in E. rewrite (to_size _ _ _ Hok) in Hne.
    destruct (mjoin cs) as [|e l] eqn:Ej; [done|].
    assert (e ∈ mjoin cs) as Hin by (rewrite Ej; set_solver).
    apply list_elem_of_join in Hin as (es & He & [i Hi]%list_elem_of_lookup).
    apply lookup_lt_Some in Hi as Hlt. specialize (E (Z.of_nat i) ltac:(lia)).
    destruct (arr_get_ok_lt (buckets t) (Z.of_nat i)) as (b & Eb & Hb); [lia|].
    rewrite Nat2Z.id in Hb. rewrite Eb, (dll_head _ _ _ (Hdll _ _ _ Hb Hi)) in E.
    destruct es as [|e' es]; [set_solver|]. cbn [chain fmap list_fmap first] in E.
    destruct (entry_read s t cs b _ _ e' Hok Hi (Hdll _ _ _ Hb Hi)) as (Hx & _); [set_solver|].
    replace (e_node e' =? 0) with false in E by (symmetry; zbool). done.
Qed.

End SPEC.

(** ** Properties *)
Section PROPERTIES.
Context {St : Type} `{AllocatorLaws St} (junk : linked_list_t).

(** [hash_table_init] gives an empty table of 16 buckets within its load
    factor, or panics because the allocator has no room. *)
Theorem hash_table_init_correct (s : hstate St) (L : gmap Z Z) (Ho : owns (hs_alloc s) L)
    (Hc : (size L < capacity)%nat) (Hr : 192 <= request_max) :
  (grants (hs_alloc s) [192] = None /\ hash_table_init junk s = Err Panic) \/
  exists t s' L' fp, hash_table_init junk s = Ok (t, s') /\ ht_inv s' t L' ∅ fp /\ framed s s' L L' ∅ fp.
Proof. exact (init_ok junk s L Ho Hc Hr). Qed.

(** C18: the table implements a finite map: [hash_table_get], [hash_table_put] and
    [hash_table_remove] return what the map holds at the key (0 for none) and act
    on it as lookup, insert and delete; the load factor is kept across the doubling
    of the buckets, no node, record or block of any other owner changes, and no
    operation faults or runs out of its loop bounds.  A put panics exactly when the allocator
    refuses one of the blocks that it asks for: none for a key that is in the table, otherwise
    a record, a node and, past the load factor, the array of twice as many buckets.  It is assumed
    that three blocks more are within the allocator's capacity, that an array of twice as many buckets is
    within its largest request, and that its size does not wrap at 2^32 ([room]). *)
Theorem hash_table_refines_map (s : hstate St) (t : hash_table_t) (L M : gmap Z Z) (fp : gset Z)
    (Hinv : ht_inv s t L M fp) (Hroom : room t L) (k v : Z) :
  hash_table_get s t k = Ok (default 0 (M !! k)) /\
  (match grants (hs_alloc s) (put_requests t M k) with
   | None => hash_table_put junk s t k v = Err Panic
   | Some _ => exists t' s' L' fp', hash_table_put junk s t k v = Ok (default 0 (M !! k), t', s') /\
       ht_inv s' t' L' (<[k := v]> M) fp' /\ framed s s' L L' fp fp' /\ (size L' <= size L + 2)%nat
   end) /\
  (exists t' s' L' fp', hash_table_remove s t k = Ok (default 0 (M !! k), t', s') /\
     ht_inv s' t' L' (delete k M) fp' /\ framed s s' L L' fp fp' /\ (size L' <= size L)%nat).
Proof.
  destruct Hinv as (cs & Hok & Hown & <- & -> & Hload). split; [by apply get_ok|]. split.
  - destruct (put_ok junk s t cs L k v Hok Hown Hload Hroom) as [[-> E]|([a ->] & t' & s' & L' & E & Hr & Hs)]; [done|].
    destruct Hr as (cs' & ? & ? & ? & ? & ?).
    exists t', s', L', (footprint t' cs'). split; [exact E|]. split; [by exists cs'|done].
  - destruct Hroom as [Hc _].
    destruct (remove_ht_ok s t cs L k Hok Hown Hload) as (t' & s' & L' & E & Hr & Hs); [lia|].
    destruct Hr as (cs' & ? & ? & ? & ? & ?).
    exists t', s', L', (footprint t' cs'). split; [exact E|]. split; [by exists cs'|done].
Qed.

(** [hash_table_destroy] gives back exactly the blocks of the table, every one
    of them once, and nothing else. *)
Theorem hash_table_destroy_correct (s : hstate St) (t : hash_table_t) (L M : gmap Z Z) (fp : gset Z)
    (Hinv : ht_inv s t L M fp) (Hc : (size L <= capacity)%nat) :
  exists t' s' L', hash_table_destroy s t = Ok (t', s') /\ hsize t' = 0 /\ owns (hs_alloc s') L' /\
    forall x, L' !! x = (if decide (x ∈ fp) then None else L !! x) /\
      (x ∉ fp -> hs_nodes s' !! x = hs_nodes s !! x /\ hs_kvs s' !! x = hs_kvs s !! x).
Proof.
  destruct Hinv as (cs & Hok & Hown & _ & -> & _).
  destruct (destroy_ok s t cs L Hok Hown Hc) as (t' & s' & L' & E & Hz & Ho & H1 & H2).
  exists t', s', L'. do 3 (split; [done|]). intros x. unfold footprint. split.
  - rewrite H1. apply decide_ext. by rewrite elem_of_list_to_set.
  - rewrite elem_of_list_to_set. apply H2.
Qed.

(** [hash_table_get_first] returns a value of the table, and [NULL] when the
    table is empty. *)
Theorem hash_table_get_first_correct (s : hstate St) (t : hash_table_t) (L M : gmap Z Z) (fp : gset Z)
    (Hinv : ht_inv s t L M fp) :
  if hsize t =? 0 then hash_table_get_first s t = Ok 0
  else exists k v, M !! k = Some v /\ hash_table_get_first s t = Ok v.
Proof. destruct Hinv as (cs & Hok & _ & <- & _). exact (get_first_ok s t cs Hok). Qed.

End PROPERTIES.

(** ** Witnesses, over an allocator that never reuses an address *)
Definition demo_state : hstate bump := mk_hstate (mk_bump 1 ∅) ∅ ∅.

Lemma demo_owns : owns (hs_alloc demo_state) ∅.
Proof. split; [done|]. split; [done|]. intros q k. by rewrite lookup_empty. Qed.

(** A table with one entry: key 5, value 77. *)
Lemma demo_table :
  exists (s : hstate bump) t L fp, ht_inv s t L {[5 := 77]} fp /\ room t L /\ hsize t = 1.
Proof.
  destruct (init_ok linked_list_init demo_state ∅ demo_owns) as [[E _]|(t & s & L & fp & E & Hi & _)];
    [rewrite map_size_empty; change capacity with 1000%nat; lia|done|done|].
  injection E as <- <-. destruct Hi as (cs & Hok & Hown & Hm & -> & Hload).
  pose proof (tw_owns _ _ _ _ Hown) as (HL & _ & _). cbn in HL. subst L.
  assert (room (mk_table 1 (replicate 16 linked_list_init) 16 0) ({[1 := 192]} : gmap Z Z)) as Hroom.
  { split; [rewrite map_size_singleton; change capacity with 1000%nat; lia|done]. }
  destruct (put_ok linked_list_init _ _ cs _ 5 77 Hok Hown Hload Hroom) as [[E _]|(_ & t' & s' & L' & E & Hr & Hs)];
    [by apply (bump_grants _ _) in E|].
  destruct Hr as (cs' & Hok' & Hown' & Hm' & Hl' & _). rewrite Hm in Hm'.
  exists s', t', L', (footprint t' cs'). rewrite insert_empty in Hm'.
  split; [by exists cs'|]. injection E as _ <- <-. split; [|done].
  split; [|done]. assert ((size L' <= 3)%nat) by exact Hs. change capacity with 1000%nat. lia.
Qed.

Lemma hash_table_init_correct_witness :
  exists t s' L' fp, hash_table_init linked_list_init demo_state = Ok (t, s') /\ ht_inv s' t L' ∅ fp.
Proof.
  destruct (hash_table_init_correct linked_list_init demo_state ∅ demo_owns)
    as [[E _]|(t & s & L & fp & E & Hi & _)]; [rewrite map_size_empty; change capacity with 1000%nat; lia|done|discriminate E|].
  by exists t, s, L, fp.
Defined.

Lemma hash_table_refines_map_witness :
  exists (s : hstate bump) t s1 t1 s2 t2 s3 t3, hash_table_get s t 5 = Ok 77 /\ hash_table_put linked_list_init s t 6 1 = Ok (0, t1, s1) /\
    hash_table_put linked_list_init s t 5 1 = Ok (77, t2, s2) /\ hash_table_remove s t 5 = Ok (77, t3, s3).
Proof.
  destruct demo_table as (s & t & L & fp & Hi & Hr & _).
  destruct (hash_table_refines_map linked_list_init s t L _ fp Hi Hr 5 1)
    as (Hg & Hp2 & (t3 & s3 & L' & fp' & Hd & _)).
  destruct (hash_table_refines_map linked_list_init s t L _ fp Hi Hr 6 1) as (_ & Hp1 & _).
  destruct (grants (hs_alloc s) (put_requests t {[5 := 77]} 6)) as [a|] eqn:E1; [|by apply (bump_grants _ _) in E1].
  destruct Hp1 as (t1 & s1 & _ & _ & Hp1 & _). destruct Hp2 as (t2 & s2 & _ & _ & Hp2 & _).
  exists s, t, s1, t1, s2, t2, s3, t3. by split.
Defined.

Lemma hash_table_destroy_correct_witness :
  exists (s : hstate bump) t t' s', hash_table_destroy s t = Ok (t', s') /\ hsize t' = 0.
Proof.
  destruct demo_table as (s & t & L & fp & Hi & [Hr _] & _).
  destruct (hash_table_destroy_correct s t L _ fp Hi) as (t' & s' & L' & ? & ? & _); [lia|].
  by exists s, t, t', s'.
Defined.

Lemma hash_table_get_first_correct_witness :
  exists (s : hstate bump) t k v, ({[5 := 77]} : gmap Z Z) !! k = Some v /\
    hash_table_get_first s t = Ok v.
Proof.
  destruct demo_table as (s & t & L & fp & Hi & _ & Hs).
  pose proof (hash_table_get_first_correct s t L _ fp Hi) as Hg. rewrite Hs in Hg. cbn in Hg.
  destruct Hg as (k & v & ? & ?). by exists s, t, k, v.
Defined.
