(* ===== verification/KHeap.v ===== *)
(** The kernel heap: [src/src/mem/kheap.c] with [src/src/include/mem/kheap.h].

    The heap lives in byte-addressed memory: every block carries the packed
    9-byte header and the 8-byte footer of the C structs, written and read back
    through [load32]/[store32].  The index of the holes is the ordered array at
    the start of the heap; its slots lie below [start_address], outside the
    blocks, and are kept as the array of [OrderedArray].

    The abstraction is the list of the blocks from [start_address] to
    [end_address]; the allocator is specified by what happens to that list. *)
From S2P Require Import Prelude OrderedArray Memory BitMap.

(** ** Constants *)
Definition KHEAP_START : Z := 0xC0C00000.
Definition KHEAP_MIN_SIZE : Z := 0x10000.
Definition KHEAP_MAX : Z := 0xE0000000.
Definition KHEAP_INDEX_NUM : Z := 0x1000.
Definition KHEAP_MAGIC : Z := 0x123060AB.
Definition BLOCK_HEADER_SIZE : Z := 9.
Definition BLOCK_FOOTER_SIZE : Z := 8.
Definition BLOCK_META_SIZE : Z := BLOCK_HEADER_SIZE + BLOCK_FOOTER_SIZE.
Definition IS_HOLE : Z := 1.
Definition NOT_HOLE : Z := 0.

(** ** Data *)

(** Fields of [kheap_block_header_t] and [kheap_block_footer_t] (packed). *)
Definition header_magic (m : mem) (h : Z) : Z := load32 m h.
Definition header_is_hole (m : mem) (h : Z) : Z := load8 m (h + 4).
Definition header_size (m : mem) (h : Z) : Z := load32 m (h + 5).
Definition footer_magic (m : mem) (f : Z) : Z := load32 m f.
Definition footer_header (m : mem) (f : Z) : Z := load32 m (f + 4).

(** [kheap_t], with the memory its pointers point into. *)
Record kheap_t : Type := mk_kheap {
  hmem : mem;
  index : ordered_array_t;
  start_address : Z;
  end_address : Z;
  kmax_size : Z;
  ksize : Z;
  supervisor : Z;
  readonly : Z
}.

Definition with_mem (this : kheap_t) (m : mem) : kheap_t :=
  mk_kheap m (index this) (start_address this) (end_address this) (kmax_size this)
    (ksize this) (supervisor this) (readonly this).
Definition with_index (this : kheap_t) (i : ordered_array_t) : kheap_t :=
  mk_kheap (hmem this) i (start_address this) (end_address this) (kmax_size this)
    (ksize this) (supervisor this) (readonly this).

(** ** Operations *)
Definition align_to_page (size : Z) : Z := Z.land (u32 (size + 0xfff)) 0xfffff000.

Definition kheap_block_comparator (m : mem) (a b : Z) : Z :=
  let size_a := header_size m a in
  let size_b := header_size m b in
  if size_a <? size_b then -1 else if size_a >? size_b then 1 else 0.

(** Insertion into the index of a heap, with the result ignored as the code does. *)
Definition index_insert (this : kheap_t) (h : Z) : res kheap_t :=
  let! (_, i) := ordered_array_insert (kheap_block_comparator (hmem this)) (index this) h in
  Ok (with_index this i).

(** [Assert(ordered_array_remove_element(...))] *)
Definition index_remove (this : kheap_t) (h : Z) : res kheap_t :=
  let! (remove, i) := ordered_array_remove_element (index this) h in
  assert! negb (remove =? 0) in
  Ok (with_index this i).

(** [make_block]; it returns [start]. *)
Definition make_block (m : mem) (start size is_hole : Z) : mem :=
  let end_ := u32 (start + size + BLOCK_META_SIZE) in
  let m := store32 m start KHEAP_MAGIC in
  let m := store8 m (start + 4) is_hole in
  let m := store32 m (start + 5) size in
  let footer := u32 (end_ - BLOCK_FOOTER_SIZE) in
  let m := store32 m footer KHEAP_MAGIC in
  store32 m (footer + 4) start.

(** [create_kheap]: [slots] is what the memory of the index holds. *)
Definition create_kheap (m : mem) (slots : list Z) (start end_ max sup ro : Z) : res kheap_t :=
  assert! Z.land start 0xFFF =? 0 in
  assert! Z.land end_ 0xFFF =? 0 in
  let idx := ordered_array_create slots KHEAP_INDEX_NUM in
  let start := u32 (start + KHEAP_INDEX_NUM * 4) in
  assert! start <? end_ in
  let heap := mk_kheap m idx start end_ max (u32 (end_ - start)) sup ro in
  let heap := with_mem heap (make_block m start (u32 (end_ - start - BLOCK_META_SIZE)) IS_HOLE) in
  index_insert heap start.

Definition init_kheap (m : mem) (slots : list Z) : res kheap_t :=
  create_kheap m slots KHEAP_START (KHEAP_START + KHEAP_MIN_SIZE) KHEAP_MAX 0 0.

(** The [while] loop of [kheap_find_hole] over the page boundaries of a block. *)
Fixpoint find_aligned (fuel : nat) (start size end_ next : Z) : res (option Z) :=
  match fuel with
  | O => Err NoFuel
  | S fuel =>
      if u32 (next + size) <=? end_ then
        if (u32 (next - start) =? 0) || (u32 (next - start) >? BLOCK_META_SIZE)
        then Ok (Some next)
        else find_aligned fuel start size end_ (u32 (next + PAGE_SIZE))
      else Ok None
  end.

(** Three rounds are enough: only the first boundary can be too close to the
    start of the block. *)
Definition aligned_fuel : nat := 3.

(** [kheap_find_hole]: [Some (i, alloc_pos)], or [None] for -1. *)
Definition kheap_find_hole (this : kheap_t) (size : Z) (align : bool) : res (option (Z * Z)) :=
  match
    for_find (Z.to_nat (oa_size (index this))) 0 (fun i =>
      match ordered_array_get (index this) i with
      | Err e => Some (Err e)
      | Ok header =>
          let start := u32 (header + BLOCK_HEADER_SIZE) in
          if align then
            let end_ := u32 (start + header_size (hmem this) header) in
            match find_aligned aligned_fuel start size end_ (align_to_page start) with
            | Err e => Some (Err e)
            | Ok (Some pos) => Some (Ok (i, pos))
            | Ok None => None
            end
          else if header_size (hmem this) header >=? size then Some (Ok (i, start))
          else None
      end)
  with
  | Some (Ok r) => Ok (Some r)
  | Some (Err e) => Err e
  | None => Ok None
  end.

(** [kheap_expand] *)
Definition kheap_expand (this : kheap_t) (size : Z) : res (Z * kheap_t) :=
  let size := align_to_page size in
  let new_end_addr := u32 (end_address this + size) in
  assert! new_end_addr <=? kmax_size this in
  Ok (size, mk_kheap (hmem this) (index this) (start_address this) new_end_addr
              (kmax_size this) (u32 (ksize this + size)) (supervisor this) (readonly this)).

(** The branch of [alloc] that makes room at the end of the heap. *)
Definition grow_last (this : kheap_t) (size : Z) : res kheap_t :=
  let old_end_address := end_address this in
  let! (extension_size, this) := kheap_expand this (u32 (size + BLOCK_META_SIZE)) in
  let last_footer := u32 (old_end_address - BLOCK_FOOTER_SIZE) in
  let last_header := footer_header (hmem this) last_footer in
  if negb (header_is_hole (hmem this) last_header =? 0) then
    let this := with_mem this
      (make_block (hmem this) last_header
         (u32 (header_size (hmem this) last_header + extension_size)) IS_HOLE) in
    let! this := index_remove this last_header in
    index_insert this last_header
  else
    let this := with_mem this
      (make_block (hmem this) old_end_address (u32 (extension_size - BLOCK_META_SIZE)) NOT_HOLE) in
    index_insert this old_end_address.

(** The end of [alloc]: the block at [header], which has room for [block_size]
    bytes, is cut to [size] and the rest becomes a hole if it is large enough. *)
Definition place (this : kheap_t) (header block_size size alloc_pos : Z) : res (Z * kheap_t) :=
  assert! block_size >=? size in
  let remain_size := u32 (block_size - size) in
  let '(size, remain_size) :=
    if remain_size <=? BLOCK_META_SIZE then (u32 (size + remain_size), 0)
    else (size, remain_size) in
  let this := with_mem this (make_block (hmem this) header size NOT_HOLE) in
  let! this :=
    if negb (remain_size =? 0) then
      assert! remain_size >? BLOCK_META_SIZE in
      let remain_header := u32 (header + size + BLOCK_META_SIZE) in
      let this := with_mem this
        (make_block (hmem this) remain_header (u32 (remain_size - BLOCK_META_SIZE)) IS_HOLE) in
      index_insert this remain_header
    else Ok this in
  Ok (alloc_pos, this).

(** The part of [alloc] after the search: hole [i] leaves the index, the part of
    it before an aligned [alloc_pos] becomes a hole of its own. *)
Definition carve (this : kheap_t) (size : Z) (align : bool) (i alloc_pos : Z) : res (Z * kheap_t) :=
  let! header := ordered_array_get (index this) i in
  assert! header_magic (hmem this) header =? KHEAP_MAGIC in
  let block_size := header_size (hmem this) header in
  let! idx := ordered_array_remove (index this) i in
  let this := with_index this idx in
  if align then
    let alloc_block_header := u32 (alloc_pos - BLOCK_HEADER_SIZE) in
    if alloc_block_header >? header then
      let cut_block_size := u32 (alloc_block_header - header) in
      assert! cut_block_size >? BLOCK_META_SIZE in
      let this := with_mem this
        (make_block (hmem this) header (u32 (cut_block_size - BLOCK_META_SIZE)) IS_HOLE) in
      let! this := index_insert this header in
      place this alloc_block_header (u32 (block_size - cut_block_size)) size alloc_pos
    else place this header block_size size alloc_pos
  else place this header block_size size alloc_pos.

(** [alloc]: the fuel bounds the recursion. *)
Fixpoint alloc (fuel : nat) (this : kheap_t) (size : Z) (align : bool) : res (Z * kheap_t) :=
  match fuel with
  | O => Err NoFuel
  | S fuel =>
      let! r := kheap_find_hole this size align in
      match r with
      | None =>
          let! this := grow_last this size in
          alloc fuel this size align
      | Some (i, alloc_pos) => carve this size align i alloc_pos
      end
  end.

(** The two halves of [free]: the block at [header] takes in a hole behind it
    and is taken in by a hole before it; [merge_left] gives the header of the
    hole that results. *)
Definition merge_right (this : kheap_t) (header footer : Z) : res kheap_t :=
  let next_header := u32 (footer + BLOCK_FOOTER_SIZE) in
  if (next_header <? end_address this) && (header_magic (hmem this) next_header =? KHEAP_MAGIC)
     && (header_is_hole (hmem this) next_header =? 1) then
    let this := with_mem this
      (make_block (hmem this) header
         (u32 (header_size (hmem this) header + header_size (hmem this) next_header
               + BLOCK_META_SIZE)) IS_HOLE) in
    index_remove this next_header
  else Ok this.

Definition merge_left (this : kheap_t) (header : Z) : res (Z * kheap_t) :=
  let last_footer := u32 (header - BLOCK_FOOTER_SIZE) in
  if (last_footer >=? start_address this)
     && (footer_magic (hmem this) last_footer =? KHEAP_MAGIC)
     && (header_is_hole (hmem this) (footer_header (hmem this) last_footer) =? 1) then
    let last_header := footer_header (hmem this) last_footer in
    let this := with_mem this
      (make_block (hmem this) last_header
         (u32 (header_size (hmem this) last_header + header_size (hmem this) header
               + BLOCK_META_SIZE)) IS_HOLE) in
    let! this := index_remove this last_header in
    Ok (last_header, this)
  else Ok (header, this).

(** [free] *)
Definition free (this : kheap_t) (addr : Z) : res kheap_t :=
  if addr =? 0 then Ok this
  else
    let header := u32 (addr - BLOCK_HEADER_SIZE) in
    let footer := u32 (addr + header_size (hmem this) header) in
    assert! header_magic (hmem this) header =? KHEAP_MAGIC in
    assert! footer_magic (hmem this) footer =? KHEAP_MAGIC in
    let this := with_mem this (store8 (hmem this) (header + 4) 1) in
    let! this := merge_right this header footer in
    let! (new_header, this) := merge_left this header in
    index_insert this new_header.

(** The two static variables of the file. *)
Record kheap_state : Type := mk_kstate {
  kheap : kheap_t;
  kheap_lock : Z
}.

(** [kmalloc_impl] *)
Definition kmalloc_impl (fuel : nat) (h : kheap_t) (size : Z) (align : bool) : res (Z * kheap_t) :=
  if size =? 0 then Ok (0, h)
  else
    let! (ptr, h) := alloc fuel h size align in
    if ptr =? 0 then Err Panic else Ok (ptr, h).

Definition with_kheap_lock {A} (s : kheap_state) (f : kheap_t -> res (A * kheap_t))
    : res (A * kheap_state) :=
  let! l := yieldlock_lock (kheap_lock s) in
  let! (a, h) := f (kheap s) in
  Ok (a, mk_kstate h (yieldlock_unlock l)).

(** [kmalloc], [kmalloc_align], [kfree] *)
Definition kmalloc (fuel : nat) (s : kheap_state) (size : Z) : res (Z * kheap_state) :=
  with_kheap_lock s (fun h => kmalloc_impl fuel h size false).

Definition kmalloc_align (fuel : nat) (s : kheap_state) (size : Z) : res (Z * kheap_state) :=
  with_kheap_lock s (fun h => kmalloc_impl fuel h size true).

Definition kfree (s : kheap_state) (ptr : Z) : res (unit * kheap_state) :=
  if ptr =? 0 then Ok (tt, s)
  else with_kheap_lock s (fun h => let! h := free h ptr in Ok (tt, h)).
