(* ===== verification/KHeapSpec.v ===== *)
(** What the kernel heap promises: the list of blocks it maintains, the
    invariant on it, and the effect of [alloc] and [free] on that list. *)
From S2P Require Import Prelude OrderedArray Memory BitMap KHeap.

(** ** The abstract heap *)
Record block : Type := mk_block {
  b_addr : Z;
  b_size : Z;
  b_hole : bool
}.

Definition b_end (b : block) : Z := b_addr b + b_size b + BLOCK_META_SIZE.
Definition b_payload (b : block) : Z := b_addr b + BLOCK_HEADER_SIZE.

Definition hole_flag (b : bool) : Z := if b then IS_HOLE else NOT_HOLE.

(** The block is what memory holds at its address: header and footer agree. *)
Record block_ok (m : mem) (b : block) : Prop := {
  ok_magic : header_magic m (b_addr b) = KHEAP_MAGIC;
  ok_hole : header_is_hole m (b_addr b) = hole_flag (b_hole b);
  ok_size : header_size m (b_addr b) = b_size b;
  ok_fmagic : footer_magic m (b_end b - BLOCK_FOOTER_SIZE) = KHEAP_MAGIC;
  ok_fheader : footer_header m (b_end b - BLOCK_FOOTER_SIZE) = b_addr b;
  ok_pos : 0 < b_size b
}.

(** The blocks [bs] lie one after the other from [a] to [e]. *)
Fixpoint tiles (a e : Z) (bs : list block) : Prop :=
  match bs with
  | [] => a = e
  | b :: bs => b_addr b = a /\ tiles (b_end b) e bs
  end.

Definition shape (m : mem) (a e : Z) (bs : list block) : Prop :=
  tiles a e bs /\ Forall (block_ok m) bs.

Definition holes (bs : list block) : list Z :=
  b_addr <$> filter (fun b => b_hole b = true) bs.

(** Payload address and size of every block that is in use. *)
Definition allocs (bs : list block) : list (Z * Z) :=
  (fun b => (b_payload b, b_size b)) <$> filter (fun b => b_hole b = false) bs.

Definition is_hole_at (o : option block) : bool :=
  match o with Some b => b_hole b | None => false end.

(** No two neighbouring blocks are both holes. *)
Fixpoint coalesced (bs : list block) : bool :=
  match bs with
  | [] => true
  | b :: bs' => negb (b_hole b && is_hole_at (head bs')) && coalesced bs'
  end.

(** The index holds exactly the addresses [l], sorted by block size. *)
Record idx_ok (m : mem) (ix : ordered_array_t) (l : list Z) : Prop := {
  ix_wf : oa_wf ix;
  ix_perm : elems ix ≡ₚ l;
  ix_sorted : sorted_by (header_size m) (elems ix)
}.

(** The heap represents the blocks [bs], with the addresses [l] in the index. *)
Record rep (h : kheap_t) (bs : list block) (l : list Z) : Prop := {
  rep_shape : shape (hmem h) (start_address h) (end_address h) bs;
  rep_nonempty : bs <> [];
  rep_idx : idx_ok (hmem h) (index h) l;
  rep_start : BLOCK_META_SIZE <= start_address h;
  rep_end : end_address h <= kmax_size h;
  rep_max : kmax_size h < 4294967296;
  rep_ksize : ksize h = end_address h - start_address h
}.

(** The invariant of the heap between two calls. *)
Definition heap_inv (h : kheap_t) (bs : list block) : Prop :=
  rep h bs (holes bs) /\ coalesced bs = true.

(** What does not change in a heap operation. *)
Definition same_config (h h' : kheap_t) : Prop :=
  start_address h' = start_address h /\ kmax_size h' = kmax_size h /\
  oa_max_size (index h') = oa_max_size (index h).

(** Every byte of the blocks in use is the same in both memories. *)
Definition payloads_kept (m m' : mem) (l : list (Z * Z)) : Prop :=
  forall p n x, (p, n) ∈ l -> p <= x < p + n -> m' x = m x.

(** The abstract effect of a successful allocation of [size] bytes at [pos]. *)
Definition alloc_spec (h : kheap_t) (bs : list block) (size : Z) (pos : Z) (h' : kheap_t)
    (bs' : list block) : Prop :=
  heap_inv h' bs' /\ same_config h h' /\
  (exists n, size <= n <= size + BLOCK_META_SIZE /\ allocs bs' ≡ₚ (pos, n) :: allocs bs) /\
  payloads_kept (hmem h) (hmem h') (allocs bs).

(** ** Arithmetic of alignment *)
Lemma align_to_page_spec z :
  0 <= z -> z + 4095 < 4294967296 ->
  align_to_page z = (z + 4095) / 4096 * 4096.
Proof.
  intros. unfold align_to_page. rewrite u32_small by lia.
  change 0xfff with 4095. change 4294963200 with (Z.shiftl (Z.ones 20) 12).
  assert (0 <= z + 4095 < 2 ^ 32) as Hr by (change (2 ^ 32) with 4294967296; lia).
  generalize dependent (z + 4095). intros y _ Hy.
  transitivity (Z.shiftl (Z.shiftr y 12) 12).
  - apply Z.bits_inj'. intros k Hk. rewrite Z.land_spec, Z.shiftl_spec by lia.
    rewrite (Z.shiftl_spec (Z.shiftr y 12)) by lia.
    destruct (decide (k < 12)).
    + rewrite (Z.testbit_neg_r (Z.ones 20)), (Z.testbit_neg_r (Z.shiftr y 12)) by lia.
      apply andb_false_r.
    + rewrite Z.shiftr_spec by lia. replace (k - 12 + 12) with k by lia.
      destruct (decide (k < 32)).
      * rewrite Z.ones_spec_low by lia. apply andb_true_r.
      * rewrite Z.ones_spec_high by lia. rewrite andb_false_r. symmetry.
        destruct (decide (y = 0)) as [->|]; [apply Z.bits_0|].
        apply Z.bits_above_log2; [lia|]. apply Z.lt_le_trans with 32; [|lia].
        apply Z.log2_lt_pow2; lia.
  - rewrite Z.shiftl_mul_pow2, Z.shiftr_div_pow2 by lia. done.
Qed.

Lemma align_to_page_bounds z :
  0 <= z -> z + 4095 < 4294967296 ->
  z <= align_to_page z < z + 4096 /\ align_to_page z mod 4096 = 0.
Proof. intros. rewrite align_to_page_spec by lia. split; [zdiv|]. by rewrite Z.mod_mul. Qed.

(** ** Lists of blocks *)
Lemma tiles_app a e p q : tiles a e (p ++ q) <-> exists x, tiles a x p /\ tiles x e q.
Proof.
  revert a. induction p as [|b p IH]; intros a; cbn.
  - split; [by exists a|]. by intros (x & -> & ?).
  - rewrite IH. split.
    + intros (? & x & ? & ?). by exists x.
    + intros (x & [? ?] & ?). split; [done|]. by exists x.
Qed.

Lemma shape_nil m a : shape m a a [].
Proof. by split. Qed.

Lemma shape_app m a e p q : shape m a e (p ++ q) <-> exists x, shape m a x p /\ shape m x e q.
Proof.
  unfold shape. rewrite tiles_app, Forall_app. split.
  - intros [(x & ? & ?) [? ?]]. by exists x.
  - intros (x & [? ?] & [? ?]). split; [by exists x|done].
Qed.

Lemma shape_cons m a e b q :
  shape m a e (b :: q) <-> b_addr b = a /\ block_ok m b /\ shape m (b_end b) e q.
Proof. unfold shape. cbn. rewrite Forall_cons. tauto. Qed.

Lemma shape_le m a e bs : shape m a e bs -> a <= e.
Proof.
  revert a. induction bs as [|b bs IH]; intros a; [by intros [? _]; cbn in *; lia|].
  rewrite shape_cons. intros (<- & Hb & Hs). apply IH in Hs. destruct Hb.
  unfold b_end, BLOCK_META_SIZE, BLOCK_HEADER_SIZE, BLOCK_FOOTER_SIZE in *. lia.
Qed.

Lemma shape_In m a e bs b :
  shape m a e bs -> b ∈ bs -> block_ok m b /\ a <= b_addr b /\ b_end b <= e.
Proof.
  revert a. induction bs as [|c bs IH]; intros a; [by intros _ ?%not_elem_of_nil|].
  rewrite shape_cons, elem_of_cons. intros (<- & Hc & Hs) [->|Hin].
  - apply shape_le in Hs. split; [done|]. split; [lia|done].
  - destruct (IH _ Hs Hin) as (Hb & Ha & He). split; [done|]. split; [|done].
    destruct Hc. unfold b_end, BLOCK_META_SIZE, BLOCK_HEADER_SIZE, BLOCK_FOOTER_SIZE in *. lia.
Qed.

Lemma block_ok_same m m' b lo hi :
  block_ok m b -> same_outside m m' lo hi -> b_end b <= lo \/ hi <= b_addr b -> block_ok m' b.
Proof.
  intros [] Hs Hd.
  unfold header_magic, header_is_hole, header_size, footer_magic, footer_header, load8, b_end,
    BLOCK_META_SIZE, BLOCK_HEADER_SIZE, BLOCK_FOOTER_SIZE in *.
  split; unfold header_magic, header_is_hole, header_size, footer_magic, footer_header, load8,
    b_end, BLOCK_META_SIZE, BLOCK_HEADER_SIZE, BLOCK_FOOTER_SIZE.
  1-5: by rewrite ?(load32_same m m' lo hi), ?Hs by (done || lia).
  done.
Qed.

Lemma shape_same m m' a e bs lo hi :
  shape m a e bs -> same_outside m m' lo hi -> e <= lo \/ hi <= a -> shape m' a e bs.
Proof.
  intros Hsh Hs Hd. split; [apply Hsh|]. apply Forall_forall. intros b Hb.
  destruct (shape_In _ _ _ _ _ Hsh Hb) as (Hok & ? & ?).
  apply (block_ok_same m m' b lo hi); [done|done|lia].
Qed.

Lemma make_block_ok m a n hole :
  0 <= a -> 0 < n -> a + n + BLOCK_META_SIZE < 4294967296 ->
  block_ok (make_block m a n (hole_flag hole)) (mk_block a n hole) /\
  same_outside m (make_block m a n (hole_flag hole)) a (a + n + BLOCK_META_SIZE).
Proof.
  unfold BLOCK_META_SIZE, BLOCK_HEADER_SIZE, BLOCK_FOOTER_SIZE. intros Ha Hn Hb. unfold make_block.
  unfold BLOCK_META_SIZE, BLOCK_HEADER_SIZE, BLOCK_FOOTER_SIZE. u32_simpl.
  replace (a + n + (9 + 8) - 8) with (a + n + 9) by lia.
  split.
  - split; unfold header_magic, header_is_hole, header_size, footer_magic, footer_header, load8,
      b_end, BLOCK_META_SIZE, BLOCK_HEADER_SIZE, BLOCK_FOOTER_SIZE; cbn [b_addr b_size b_hole];
      replace (a + n + (9 + 8) - 8) with (a + n + 9) by lia; unfold KHEAP_MAGIC; mem_simpl; try done.
    by destruct hole.
  - intros x Hx. by mem_simpl.
Qed.

(** ** Holes, allocations, coalescing *)
Lemma holes_app p q : holes (p ++ q) = holes p ++ holes q.
Proof. unfold holes. by rewrite filter_app, fmap_app. Qed.

Lemma holes_cons b q : holes (b :: q) = (if b_hole b then [b_addr b] else []) ++ holes q.
Proof. unfold holes. rewrite filter_cons. by destruct (b_hole b). Qed.

Lemma allocs_app p q : allocs (p ++ q) = allocs p ++ allocs q.
Proof. unfold allocs. by rewrite filter_app, fmap_app. Qed.

Lemma allocs_cons b q :
  allocs (b :: q) = (if b_hole b then [] else [(b_payload b, b_size b)]) ++ allocs q.
Proof. unfold allocs. rewrite filter_cons. by destruct (b_hole b). Qed.

Lemma elem_of_holes a bs : a ∈ holes bs <-> exists b, b ∈ bs /\ b_hole b = true /\ b_addr b = a.
Proof.
  unfold holes. rewrite list_elem_of_fmap. split.
  - intros (b & -> & [Hh Hb]%list_elem_of_filter). by exists b.
  - intros (b & Hb & Hh & <-). exists b. split; [done|]. by apply list_elem_of_filter.
Qed.

Lemma elem_of_allocs p n bs :
  (p, n) ∈ allocs bs <-> exists b, b ∈ bs /\ b_hole b = false /\ b_payload b = p /\ b_size b = n.
Proof.
  unfold allocs. rewrite list_elem_of_fmap. split.
  - intros (b & [= -> ->] & [Hh Hb]%list_elem_of_filter). by exists b.
  - intros (b & Hb & Hh & <- & <-). exists b. split; [done|]. by apply list_elem_of_filter.
Qed.

Lemma coalesced_app p q :
  coalesced (p ++ q) =
  coalesced p && coalesced q && negb (is_hole_at (last p) && is_hole_at (head q)).
Proof.
  induction p as [|b p IH].
  - cbn. by rewrite andb_true_r.
  - cbn [app coalesced]. rewrite IH. destruct p as [|c p].
    + cbn. destruct (b_hole b), (is_hole_at (head q)), (coalesced q); done.
    + change (last (b :: c :: p)) with (last (c :: p)).
      change (head ((c :: p) ++ q)) with (head (c :: p)). by rewrite !andb_assoc.
Qed.

(** ** The index *)
Lemma comparator_orders m : orders (kheap_block_comparator m) (header_size m).
Proof.
  intros a b. unfold kheap_block_comparator.
  destruct (Z.ltb_spec (header_size m a) (header_size m b)); [lia|].
  destruct (Z.gtb_spec (header_size m a) (header_size m b)); lia.
Qed.

Lemma idx_ok_mem m m' ix l :
  (forall x, x ∈ l -> header_size m' x = header_size m x) -> idx_ok m ix l -> idx_ok m' ix l.
Proof.
  intros Hk [Hw Hp Hs]. split; [done|done|].
  apply (sorted_by_ext (header_size m)); [|done]. intros x Hx. symmetry. apply Hk. by rewrite <- Hp.
Qed.

Lemma idx_ok_perm m ix l l' : l ≡ₚ l' -> idx_ok m ix l -> idx_ok m ix l'.
Proof. intros Hp [? ? ?]. split; [done|by rewrite <- Hp|done]. Qed.

Lemma idx_size m ix l : idx_ok m ix l -> oa_size ix = Z.of_nat (length l).
Proof. intros [Hw Hp _]. by rewrite <- (elems_length ix Hw), Hp. Qed.

Lemma index_insert_ok h x l :
  idx_ok (hmem h) (index h) l -> Z.of_nat (length l) < oa_max_size (index h) ->
  exists ix, index_insert h x = Ok (with_index h ix) /\ idx_ok (hmem h) ix (x :: l) /\
    oa_max_size ix = oa_max_size (index h).
Proof.
  intros Hix Hlt. pose proof (idx_size _ _ _ Hix). destruct Hix as [Hw Hp Hs].
  destruct (ordered_array_insert_ok (kheap_block_comparator (hmem h)) (index h) x Hw)
    as (ix & E & Hw' & Hm & _ & He); [lia|].
  exists ix. unfold index_insert. rewrite E. cbn [res_bind]. split; [done|]. split; [|done].
  split; [done| |].
  - by rewrite He, list_insert_by_perm, Hp.
  - rewrite He. apply sorted_by_insert; [apply comparator_orders|done].
Qed.

Lemma index_remove_ok h m x l :
  idx_ok m (index h) (x :: l) ->
  exists ix, index_remove h x = Ok (with_index h ix) /\ idx_ok m ix l /\
    oa_max_size ix = oa_max_size (index h).
Proof.
  intros [Hw Hp Hs].
  assert (x ∈ elems (index h)) as Hin by (rewrite Hp; set_solver).
  destruct (remove_element_ok (index h) x Hw Hin) as (ix & E & Hw' & Hm & _ & He).
  exists ix. unfold index_remove. rewrite E. cbn. split; [done|]. split; [|done].
  split; [done| |].
  - rewrite He. apply (Permutation_cons_inv (a := x)). rewrite <- Hp. symmetry.
    by apply list_remove_first_perm.
  - rewrite He. by apply sorted_by_remove_first.
Qed.

(** ** A heap with a gap

    While an operation rewrites the blocks between [a] and [e], the blocks [p]
    before and [q] after are intact and the index holds addresses of those
    only. *)
Record gap (h : kheap_t) (p : list block) (a e : Z) (q : list block) (l : list Z) : Prop := {
  gap_left : shape (hmem h) (start_address h) a p;
  gap_le : a <= e;
  gap_right : shape (hmem h) e (end_address h) q;
  gap_idx : idx_ok (hmem h) (index h) l;
  gap_in : forall x, x ∈ l -> exists b, b ∈ p ++ q /\ b_addr b = x;
  gap_start : BLOCK_META_SIZE <= start_address h;
  gap_end : end_address h <= kmax_size h;
  gap_max : kmax_size h < 4294967296;
  gap_ksize : ksize h = end_address h - start_address h
}.

Lemma gap_bounds h p a e q l :
  gap h p a e q l -> BLOCK_META_SIZE <= a /\ a <= e /\ e <= end_address h /\ end_address h < 4294967296.
Proof. intros [H1 ? H2 ? ? ? ? ? ?]. apply shape_le in H1. apply shape_le in H2. lia. Qed.

Lemma rep_gap h p s q l0 l :
  rep h (p ++ s ++ q) l0 -> idx_ok (hmem h) (index h) l ->
  (forall x, x ∈ l -> exists b, b ∈ p ++ q /\ b_addr b = x) ->
  exists a e, shape (hmem h) a e s /\ gap h p a e q l.
Proof.
  intros [Hs Hne Hi ? ? ? ?] Hix Hin. apply shape_app in Hs as (a & H1 & H2).
  apply shape_app in H2 as (e & H2 & H3). exists a, e. split; [done|].
  split; try done. by apply shape_le in H2.
Qed.

Lemma gap_key h p a e q l m' x :
  gap h p a e q l -> same_outside (hmem h) m' a e -> x ∈ l ->
  header_size m' x = header_size (hmem h) x.
Proof.
  intros Hg Hs Hx. pose proof (gap_bounds _ _ _ _ _ _ Hg). destruct Hg as [Hp ? Hq ? Hin ? ? ? ?].
  destruct (Hin x Hx) as (b & [Hb|Hb]%elem_of_app & <-).
  - destruct (shape_In _ _ _ _ _ Hp Hb) as (Hok & ? & ?).
    assert (block_ok m' b) as Hok' by (apply (block_ok_same (hmem h) m' b a e); [done|done|lia]).
    destruct Hok, Hok'. congruence.
  - destruct (shape_In _ _ _ _ _ Hq Hb) as (Hok & ? & ?).
    assert (block_ok m' b) as Hok' by (apply (block_ok_same (hmem h) m' b a e); [done|done|lia]).
    destruct Hok, Hok'. congruence.
Qed.

(** Writing inside the gap. *)
Lemma gap_write h p a e q l m' :
  gap h p a e q l -> same_outside (hmem h) m' a e -> gap (with_mem h m') p a e q l.
Proof.
  intros Hg Hs. assert (forall x, x ∈ l -> header_size m' x = header_size (hmem h) x) as Hk
    by (intros; by eapply gap_key).
  destruct Hg as [Hp ? Hq Hix ? ? ? ? ?]. split; cbn; try done.
  - by apply (shape_same (hmem h) m' _ _ _ a e); [|done|lia].
  - by apply (shape_same (hmem h) m' _ _ _ a e); [|done|lia].
  - by apply (idx_ok_mem (hmem h)).
Qed.

(** The gap absorbs the hole on its right, which leaves the index; memory has
    been rewritten inside the larger gap. *)
Lemma gap_eat_right h p a e n q l l' m' :
  gap h p a e (n :: q) l -> l ≡ₚ b_addr n :: l' -> same_outside (hmem h) m' a (b_end n) ->
  (forall x, x ∈ l' -> exists b, b ∈ p ++ q /\ b_addr b = x) ->
  exists ix, index_remove (with_mem h m') (b_addr n) = Ok (with_index (with_mem h m') ix) /\
    gap (with_index (with_mem h m') ix) p a (b_end n) q l' /\
    oa_max_size ix = oa_max_size (index h).
Proof.
  intros [Hp Hle Hq Hix Hin ? ? ? ?] Hperm Hs Hin'.
  apply shape_cons in Hq as (He & Hok & Hq).
  destruct (index_remove_ok (with_mem h m') (hmem h) (b_addr n) l') as (ix & E & Hix' & Hm).
  { by apply (idx_ok_perm _ _ l). }
  exists ix. split; [done|]. split; [|done].
  assert (a <= b_end n).
  { destruct Hok. unfold b_end, BLOCK_META_SIZE, BLOCK_HEADER_SIZE, BLOCK_FOOTER_SIZE in *. lia. }
  assert (gap (with_index h ix) p a (b_end n) q l') as Hg by (split; cbn; done).
  apply (gap_write _ _ _ _ _ _ m') in Hg; [|done]. exact Hg.
Qed.

Lemma gap_eat_left h p n a e q l l' m' :
  gap h (p ++ [n]) a e q l -> l ≡ₚ b_addr n :: l' -> same_outside (hmem h) m' (b_addr n) e ->
  (forall x, x ∈ l' -> exists b, b ∈ p ++ q /\ b_addr b = x) ->
  exists ix, index_remove (with_mem h m') (b_addr n) = Ok (with_index (with_mem h m') ix) /\
    gap (with_index (with_mem h m') ix) p (b_addr n) e q l' /\
    oa_max_size ix = oa_max_size (index h).
Proof.
  intros [Hp Hle Hq Hix Hin ? ? ? ?] Hperm Hs Hin'.
  apply shape_app in Hp as (x & Hp & Hn). apply shape_cons in Hn as (<- & Hok & Hn).
  apply shape_le in Hn.
  destruct (index_remove_ok (with_mem h m') (hmem h) (b_addr n) l') as (ix & E & Hix' & Hm).
  { by apply (idx_ok_perm _ _ l). }
  exists ix. split; [done|]. split; [|done].
  assert (b_addr n <= e).
  { destruct Hok. unfold b_end, BLOCK_META_SIZE, BLOCK_HEADER_SIZE, BLOCK_FOOTER_SIZE in *. lia. }
  assert (gap (with_index h ix) p (b_addr n) e q l') as Hg by (split; cbn; done).
  apply (gap_write _ _ _ _ _ _ m') in Hg; [|done]. exact Hg.
Qed.

(** Closing the gap with the blocks [s]; the index is now [ix]. *)
Lemma gap_close h p a e q s l ix l' :
  gap h p a e q l -> shape (hmem h) a e s -> s <> [] -> idx_ok (hmem h) ix l' ->
  rep (with_index h ix) (p ++ s ++ q) l'.
Proof.
  intros [Hp Hle Hq Hix Hin ? ? ? ?] Hs Hne Hix'. split; cbn; try done.
  - apply shape_app. exists a. split; [done|]. apply (shape_app _ _ _ s q). by exists e.
  - by destruct p, s.
Qed.

Lemma with_index_id h : with_index h (index h) = h.
Proof. by destruct h. Qed.

Lemma shape_single m b : block_ok m b -> shape m (b_addr b) (b_end b) [b].
Proof. intros. apply shape_cons. split; [done|]. split; [done|]. apply shape_nil. Qed.

(** Closing with one block that enters the index through [index_insert]. *)
Lemma gap_close_insert h p a e q l b :
  gap h p a e q l -> b_addr b = a -> b_end b = e -> block_ok (hmem h) b ->
  Z.of_nat (length l) < oa_max_size (index h) ->
  exists ix, index_insert h a = Ok (with_index h ix) /\
    rep (with_index h ix) (p ++ [b] ++ q) (a :: l) /\ oa_max_size ix = oa_max_size (index h).
Proof.
  intros Hg <- <- Hok Hlt.
  destruct (index_insert_ok h (b_addr b) l) as (ix & E & Hix & Hm); [by apply Hg|done|].
  exists ix. split; [done|]. split; [|done].
  by apply (gap_close _ _ _ _ _ [b] _ ix _ Hg (shape_single _ _ Hok)).
Qed.

(** The front of the gap becomes a block that enters the index. *)
Lemma gap_push_left h p a e q l b :
  gap h p a e q l -> b_addr b = a -> b_end b <= e -> block_ok (hmem h) b ->
  Z.of_nat (length l) < oa_max_size (index h) ->
  exists ix, index_insert h a = Ok (with_index h ix) /\
    gap (with_index h ix) (p ++ [b]) (b_end b) e q (a :: l) /\
    oa_max_size ix = oa_max_size (index h).
Proof.
  intros Hg <- He Hok Hlt.
  destruct (index_insert_ok h (b_addr b) l) as (ix & E & Hix & Hm); [by apply Hg|done|].
  exists ix. split; [done|]. split; [|done]. destruct Hg as [Hp ? Hq Hix0 Hin ? ? ? ?].
  split; cbn; try done.
  - apply (shape_app _ _ _ p [b]). exists (b_addr b). split; [done|]. by apply shape_single.
  - intros x [->|Hx]%elem_of_cons.
    + exists b. split; [set_solver|done].
    + destruct (Hin x Hx) as (c & Hc & <-). exists c. split; [set_solver|done].
Qed.

(** What does not change when the heap does not grow. *)
Definition same_bounds (h h' : kheap_t) : Prop :=
  same_config h h' /\ end_address h' = end_address h.

(** Unfolds the block geometry for arithmetic. *)
Ltac geom := unfold b_end, b_payload, BLOCK_META_SIZE, BLOCK_HEADER_SIZE, BLOCK_FOOTER_SIZE in *;
             cbn [b_addr b_size b_hole] in *.

Lemma place_ok h p a e q l n size pos :
  gap h p a e q l -> e = a + n + BLOCK_META_SIZE -> 0 < size <= n ->
  Z.of_nat (length l) < oa_max_size (index h) ->
  exists h' s l', place h a n size pos = Ok (pos, h') /\ same_bounds h h' /\
    same_outside (hmem h) (hmem h') a e /\ rep h' (p ++ s ++ q) (l' ++ l) /\
    ((exists k, size <= k <= size + BLOCK_META_SIZE /\ s = [mk_block a k false] /\ l' = []) \/
     (exists a2 n2, s = [mk_block a size false; mk_block a2 n2 true] /\ l' = [a2])).
Proof.
  intros Hg He Hsz Hlen. pose proof (gap_bounds _ _ _ _ _ _ Hg) as Hb. unfold place.
  replace (n >=? size) with true by (symmetry; zbool).
  geom. rewrite (u32_small (n - size)) by lia.
  destruct (Z.leb_spec (n - size) (9 + 8)) as [Hr|Hr].
  - rewrite u32_small by lia. replace (size + (n - size)) with n by lia. cbn [Z.eqb negb res_bind].
    destruct (make_block_ok (hmem h) a n false) as [Hok Hout]; [lia..|geom; lia|]. geom.
    rewrite <- He in Hout.
    exists (with_mem h (make_block (hmem h) a n NOT_HOLE)), [mk_block a n false], [].
    split; [done|]. split; [done|]. split; [done|]. split; [|left; exists n; split; [lia|done]].
    pose proof (gap_write _ _ _ _ _ _ _ Hg Hout) as Hg'.
    rewrite <- (with_index_id (with_mem _ _)).
    apply (gap_close _ _ _ _ _ _ _ _ _ Hg'); [|done|apply Hg'].
    replace e with (b_end (mk_block a n false)) by (geom; lia). by apply shape_single.
  - replace (n - size =? 0) with false by (symmetry; zbool). cbn [negb].
    replace (n - size >? 9 + 8) with true by (symmetry; zbool).
    rewrite (u32_small (a + size + _)), (u32_small (n - size - _)) by lia.
    set (m1 := make_block (hmem h) a size NOT_HOLE).
    set (a2 := a + size + (9 + 8)). set (n2 := n - size - (9 + 8)).
    set (m2 := make_block m1 a2 n2 IS_HOLE).
    destruct (make_block_ok (hmem h) a size false) as [Hok1 Hout1]; [lia..|geom; lia|].
    destruct (make_block_ok m1 a2 n2 true) as [Hok2 Hout2]; [lia..|geom; lia|].
    cbn [hole_flag] in *. fold m1 in Hok1, Hout1. fold m2 in Hok2, Hout2. geom.
    assert (same_outside (hmem h) m2 a e) as Hout.
    { apply (same_outside_trans _ m1);
        [apply (same_outside_weaken _ _ _ _ _ _ Hout1)|apply (same_outside_weaken _ _ _ _ _ _ Hout2)]; lia. }
    pose proof (gap_write _ _ _ _ _ _ _ Hg Hout) as Hg'.
    destruct (index_insert_ok (with_mem h m2) a2 l) as (ix & E & Hix & Hm); [apply Hg'|done|].
    change (index_insert _ _) with (index_insert (with_mem h m2) a2). rewrite E. cbn [res_bind].
    exists (with_index (with_mem h m2) ix), [mk_block a size false; mk_block a2 n2 true], [a2].
    split; [done|]. split; [by repeat split|]. split; [done|]. split; [|right; by exists a2, n2].
    apply (gap_close _ _ _ _ _ _ _ _ _ Hg'); [|done|done].
    apply shape_cons. split; [done|]. split.
    + apply (block_ok_same m1 m2 _ a2 (a2 + n2 + (9 + 8))); [done|done|left; geom; lia].
    + replace e with (b_end (mk_block a2 n2 true)) by (geom; lia). by apply (shape_single m2).
Qed.

(** ** The search *)
Lemma sorted_by_lookup key l i j x y :
  sorted_by key l -> l !! i = Some x -> l !! j = Some y -> (i <= j)%nat -> key x <= key y.
Proof.
  unfold sorted_by. revert i j. induction l as [|z l IH]; intros i j Hs Hi Hj Hle; [done|].
  apply Sorted.StronglySorted_inv in Hs as [Hs Hz]. destruct i as [|i], j as [|j]; cbn in *.
  - assert (x = y) by congruence. subst. lia.
  - injection Hi as ->. rewrite Forall_forall in Hz. apply Hz. by apply list_elem_of_lookup_2 in Hj.
  - lia.
  - apply (IH i j); [done|done|done|lia].
Qed.

(** The page boundaries are tried at most twice. *)
Lemma find_aligned_ok start size end_ :
  0 < start -> 0 < size -> start <= end_ -> end_ + size + 8192 < 4294967296 ->
  let first := align_to_page start in
  find_aligned aligned_fuel start size end_ first =
  Ok (if (first =? start) || (first - start >? BLOCK_META_SIZE) then
        if first + size <=? end_ then Some first else None
      else if first + PAGE_SIZE + size <=? end_ then Some (first + PAGE_SIZE) else None).
Proof.
  intros Hs Hz He Hb first. destruct (align_to_page_bounds start) as [Hf _]; [lia|lia|].
  fold first in Hf. unfold aligned_fuel. cbn [find_aligned]. unfold PAGE_SIZE. geom. u32_simpl.
  replace (first - start =? 0) with (first =? start) by
    (destruct (Z.eqb_spec first start), (Z.eqb_spec (first - start) 0); lia).
  destruct (Z.eqb_spec first start) as [->|Hne]; cbn [orb].
  - by destruct (start + size <=? end_).
  - destruct (Z.gtb_spec (first - start) (9 + 8)) as [Hg|Hg].
    + by destruct (first + size <=? end_).
    + replace (first + 4096 - start =? 0) with false by (symmetry; zbool).
      replace (first + 4096 - start >? 9 + 8) with true by (symmetry; zbool). cbn [orb].
      destruct (Z.leb_spec (first + size) end_).
      * by destruct (first + 4096 + size <=? end_).
      * by replace (first + 4096 + size <=? end_) with false by (symmetry; zbool).
Qed.

Lemma rep_index_block h bs l x :
  rep h bs l -> (forall x, x ∈ l -> exists b, b ∈ bs /\ b_addr b = x) -> x ∈ elems (index h) ->
  exists b, b ∈ bs /\ b_addr b = x /\ block_ok (hmem h) b /\
    BLOCK_META_SIZE <= b_addr b /\ b_end b <= end_address h.
Proof.
  intros Hr Hin Hx. destruct Hr as [Hsh _ [_ Hp _] Hst _ _ _]. rewrite Hp in Hx.
  destruct (Hin x Hx) as (b & Hb & Ha). exists b. split; [done|]. split; [done|].
  destruct (shape_In _ _ _ _ _ Hsh Hb) as (Hok & ? & ?). split; [done|]. lia.
Qed.

(** Best fit: the search for an unaligned block returns a smallest hole that is
    large enough. *)
Lemma find_hole_ok h bs l size :
  rep h bs l -> (forall x, x ∈ l -> exists b, b ∈ bs /\ b_addr b = x) ->
  match kheap_find_hole h size false with
  | Ok (Some (i, pos)) =>
      exists b k, i = Z.of_nat k /\ b ∈ bs /\ elems (index h) !! k = Some (b_addr b) /\
        pos = b_payload b /\ size <= b_size b /\
        forall c, c ∈ bs -> b_addr c ∈ l -> size <= b_size c -> b_size b <= b_size c
  | Ok None => forall c, c ∈ bs -> b_addr c ∈ l -> b_size c < size
  | Err _ => False
  end.
Proof.
  intros Hr Hin. unfold kheap_find_hole.
  pose proof (rep_idx _ _ _ Hr) as [Hw Hp Hs]. pose proof (elems_length _ Hw) as Hl.
  assert (forall c, c ∈ bs -> header_size (hmem h) (b_addr c) = b_size c) as Hsz.
  { intros c Hc. destruct (shape_In _ _ _ _ _ (rep_shape _ _ _ Hr) Hc) as ([] & _). done. }
  assert (forall k x, elems (index h) !! k = Some x ->
            exists b, b ∈ bs /\ b_addr b = x /\ ordered_array_get (index h) (Z.of_nat k) = Ok x /\
              u32 (x + BLOCK_HEADER_SIZE) = b_payload b) as Hget.
  { intros k x Hx. destruct (rep_index_block _ _ _ x Hr Hin) as (b & Hb & <- & Hok & Ha & He).
    { by apply list_elem_of_lookup_2 in Hx. }
    exists b. split; [done|]. split; [done|]. split; [by apply ordered_array_get_ok|].
    pose proof (rep_end _ _ _ Hr). pose proof (rep_max _ _ _ Hr). destruct Hok. geom.
    rewrite u32_small by lia. done. }
  destruct (for_find _ 0 _) as [r|] eqn:E.
  - apply for_find_Some in E as (j & Hj & Hr1 & Hbefore).
    destruct (lookup_lt_is_Some_2 (elems (index h)) (Z.to_nat j)) as [x Hx]; [lia|].
    destruct (Hget _ _ Hx) as (b & Hb & <- & Hg & Hu). rewrite Z2Nat.id in Hg by lia.
    rewrite Hg, Hu, Hsz in Hr1 by done.
    destruct (Z.geb_spec (b_size b) size) as [Hge|]; [|done]. injection Hr1 as <-.
    exists b, (Z.to_nat j). rewrite Z2Nat.id by lia. split; [done|]. split; [done|]. split; [done|].
    split; [done|]. split; [lia|]. intros c Hc Hcl Hcs. rewrite <- Hp in Hcl.
    apply list_elem_of_lookup in Hcl as [k Hk]. rewrite <- (Hsz b Hb), <- (Hsz c Hc).
    destruct (decide (Z.to_nat j <= k)%nat).
    { by apply (sorted_by_lookup _ _ _ _ _ _ Hs Hx Hk). }
    destruct (Hget _ _ Hk) as (c' & Hc' & Ha' & Hg' & _).
    specialize (Hbefore (Z.of_nat k) ltac:(lia)). rewrite Hg', (Hsz c Hc) in Hbefore.
    destruct (Z.geb_spec (b_size c) size); [done|lia].
  - intros c Hc Hcl. rewrite <- Hp in Hcl. apply list_elem_of_lookup in Hcl as [k Hk].
    rewrite for_find_None in E. apply lookup_lt_Some in Hk as Hlt.
    specialize (E (Z.of_nat k) ltac:(lia)). destruct (Hget _ _ Hk) as (c' & _ & _ & Hg' & _).
    rewrite Hg', (Hsz c Hc) in E. destruct (Z.geb_spec (b_size c) size); [done|lia].
Qed.

(** ** Growing the heap *)
Lemma payloads_kept_shape m m' a e bs lo hi :
  shape m a e bs -> same_outside m m' lo hi -> e <= lo \/ hi <= a ->
  payloads_kept m m' (allocs bs).
Proof.
  intros Hsh Hs Hd x n y Hin Hy. apply elem_of_allocs in Hin as (b & Hb & _ & <- & <-).
  apply Hs. destruct (shape_In _ _ _ _ _ Hsh Hb) as ([] & ? & ?). geom. lia.
Qed.

Lemma payloads_kept_app m m' l1 l2 :
  payloads_kept m m' l1 -> payloads_kept m m' l2 -> payloads_kept m m' (l1 ++ l2).
Proof. intros H1 H2 p n x [Hin|Hin]%elem_of_app; [by apply (H1 p n)|by apply (H2 p n)]. Qed.

Lemma payloads_kept_gap h p a e q l m' :
  gap h p a e q l -> same_outside (hmem h) m' a e -> payloads_kept (hmem h) m' (allocs (p ++ q)).
Proof.
  intros [Hp ? Hq ? ? ? ? ? ?] Hs. rewrite allocs_app. apply payloads_kept_app.
  - apply (payloads_kept_shape _ _ _ _ _ a e Hp Hs). lia.
  - apply (payloads_kept_shape _ _ _ _ _ a e Hq Hs). lia.
Qed.

Lemma payloads_kept_trans m1 m2 m3 l l' :
  l' ⊆ l -> payloads_kept m1 m2 l' -> payloads_kept m2 m3 l -> payloads_kept m1 m3 l'.
Proof. intros Hsub H1 H2 p n x Hin Hx. rewrite (H2 p n x) by set_solver. by apply (H1 p n x). Qed.

Lemma same_config_trans h1 h2 h3 : same_config h1 h2 -> same_config h2 h3 -> same_config h1 h3.
Proof. unfold same_config. intuition congruence. Qed.

Lemma last_block m a e bs :
  shape m a e bs -> bs <> [] ->
  exists p c, bs = p ++ [c] /\ b_end c = e /\ block_ok m c /\ a <= b_addr c.
Proof.
  intros Hs Hne. destruct (exists_last Hne) as (p & c & ->).
  exists p, c. split; [done|]. apply shape_app in Hs as (x & Hp & Hc).
  apply shape_le in Hp. apply shape_cons in Hc as (<- & Hok & [He _]). done.
Qed.

Lemma holes_in p q x : x ∈ holes p ++ holes q -> exists b, b ∈ p ++ q /\ b_addr b = x.
Proof.
  rewrite <- holes_app. intros (b & Hb & _ & <-)%elem_of_holes. by exists b.
Qed.

(** The heap after [kheap_expand]. *)
Definition grown (h : kheap_t) (ext : Z) : kheap_t :=
  mk_kheap (hmem h) (index h) (start_address h) (end_address h + ext) (kmax_size h)
    (ksize h + ext) (supervisor h) (readonly h).

Lemma rep_bounds h bs l :
  rep h bs l -> BLOCK_META_SIZE <= start_address h /\ start_address h <= end_address h /\
    end_address h <= kmax_size h /\ kmax_size h < 4294967296.
Proof. intros [Hs ? ? ? ? ? ?]. apply shape_le in Hs. lia. Qed.

Lemma kheap_expand_ok h bs l size :
  rep h bs l -> 0 < size -> end_address h + size + BLOCK_META_SIZE + 4095 < 4294967296 ->
  let ext := align_to_page (size + BLOCK_META_SIZE) in
  size + BLOCK_META_SIZE <= ext /\ end_address h + ext < 4294967296 /\
  kheap_expand h (u32 (size + BLOCK_META_SIZE)) =
  if end_address h + ext <=? kmax_size h then Ok (ext, grown h ext) else Err Panic.
Proof.
  intros Hr Hz Hb ext. pose proof (rep_bounds _ _ _ Hr) as Hbd. pose proof (rep_ksize _ _ _ Hr).
  destruct (align_to_page_bounds (size + BLOCK_META_SIZE)) as [He _]; [geom; lia..|].
  fold ext in He. split; [lia|]. split; [geom; lia|]. unfold kheap_expand, grown.
  geom. rewrite (u32_small (size + _)) by lia. fold ext. u32_simpl. done.
Qed.

Lemma grown_gap h bs ext :
  heap_inv h bs -> 0 <= ext -> end_address h + ext <= kmax_size h ->
  gap (grown h ext) bs (end_address h) (end_address h + ext) [] (holes bs).
Proof.
  intros [Hr _] He Hm. pose proof (rep_bounds _ _ _ Hr). destruct Hr.
  split; cbn; try lia; try assumption; [apply shape_nil|].
  intros x Hx. rewrite app_nil_r. apply elem_of_holes in Hx as (b & ? & _ & <-). by exists b.
Qed.

(** The last block is a hole: it grows. *)
Lemma grow_hole_ok h p c ext m' :
  heap_inv h (p ++ [c]) -> b_hole c = true -> 0 <= ext -> end_address h + ext <= kmax_size h ->
  Z.of_nat (length (holes (p ++ [c]))) < oa_max_size (index h) ->
  m' = make_block (hmem h) (b_addr c) (b_size c + ext) IS_HOLE ->
  exists h', (let! this := index_remove (with_mem (grown h ext) m') (b_addr c) in
              index_insert this (b_addr c)) = Ok h' /\
    same_config h h' /\ end_address h' = end_address h + ext /\
    payloads_kept (hmem h) (hmem h') (allocs (p ++ [c])) /\
    heap_inv h' (p ++ [mk_block (b_addr c) (b_size c + ext) true]).
Proof.
  intros Hinv Ehc He Hm Hlen ->. pose proof (grown_gap _ _ ext Hinv ltac:(lia) Hm) as Hg.
  destruct Hinv as [Hr Hco]. pose proof (rep_bounds _ _ _ Hr) as Hbd.
  pose proof (rep_shape _ _ _ Hr) as Hsh. apply shape_app in Hsh as (a & Hp & Hc).
  apply shape_cons in Hc as (<- & Hok & [Hce _]). cbn in Hce. apply shape_le in Hp as Hpl.
  pose proof (ok_pos _ _ Hok) as Hpos.
  destruct (make_block_ok (hmem h) (b_addr c) (b_size c + ext) true) as [Hok' Hout];
    [geom; lia..|]. cbn [hole_flag] in *. set (m' := make_block _ _ _ _) in *.
  replace (b_addr c + (b_size c + ext) + BLOCK_META_SIZE) with (end_address h + ext) in Hout
    by (geom; lia).
  assert (holes (p ++ [c]) ≡ₚ b_addr c :: holes p) as Hperm.
  { rewrite holes_app, holes_cons, Ehc. by rewrite Permutation_app_comm. }
  destruct (gap_eat_left _ p c _ _ [] _ (holes p) m' Hg Hperm Hout) as (ix & E & Hg' & Hmx').
  { intros x Hx. apply holes_in. set_solver. }
  rewrite E. cbn [res_bind].
  destruct (gap_close_insert _ p _ _ [] (holes p) (mk_block (b_addr c) (b_size c + ext) true) Hg')
    as (ix' & E' & Hr' & Hmx''); [done|geom; lia|done| |].
  { cbn. rewrite Hmx'. cbn. rewrite Hperm in Hlen. cbn in Hlen. lia. }
  rewrite E'. eexists. split; [done|]. split; [|split; [done|split; [|split]]].
  - split; [done|]. split; [done|]. cbn in *. by rewrite Hmx'', Hmx'.
  - rewrite allocs_app, allocs_cons, Ehc. cbn. rewrite app_nil_r.
    apply (payloads_kept_shape _ _ _ _ _ _ _ Hp Hout). lia.
  - rewrite app_nil_r in Hr'. destruct Hr' as [? ? Hi ? ? ? ?]. split; try done.
    apply (idx_ok_perm _ _ (b_addr c :: holes p)); [|done].
    rewrite holes_app, holes_cons. cbn. by rewrite Permutation_app_comm.
  - rewrite coalesced_app in Hco |- *. cbn in Hco |- *. by rewrite Ehc in Hco.
Qed.

(** The last block is in use: a new block is put behind it and enters the index,
    although it is not marked as a hole. *)
Lemma grow_new_ok h bs ext m' :
  heap_inv h bs -> BLOCK_META_SIZE < ext -> end_address h + ext <= kmax_size h ->
  Z.of_nat (length (holes bs)) < oa_max_size (index h) ->
  m' = make_block (hmem h) (end_address h) (ext - BLOCK_META_SIZE) NOT_HOLE ->
  exists h', index_insert (with_mem (grown h ext) m') (end_address h) = Ok h' /\
    same_config h h' /\ end_address h' = end_address h + ext /\
    payloads_kept (hmem h) (hmem h') (allocs bs) /\
    rep h' (bs ++ [mk_block (end_address h) (ext - BLOCK_META_SIZE) false])
           (end_address h :: holes bs).
Proof.
  intros Hinv He Hm Hlen ->. pose proof (grown_gap _ _ ext Hinv ltac:(geom; lia) Hm) as Hg.
  destruct Hinv as [Hr Hco]. pose proof (rep_bounds _ _ _ Hr) as Hbd.
  destruct (make_block_ok (hmem h) (end_address h) (ext - BLOCK_META_SIZE) false) as [Hok' Hout];
    [geom; lia..|]. cbn [hole_flag] in *. set (m' := make_block _ _ _ _) in *.
  replace (end_address h + (ext - BLOCK_META_SIZE) + BLOCK_META_SIZE) with (end_address h + ext)
    in Hout by lia.
  pose proof (gap_write _ _ _ _ _ _ m' Hg Hout) as Hg'.
  destruct (gap_close_insert _ bs _ _ [] _ (mk_block (end_address h) (ext - BLOCK_META_SIZE) false) Hg')
    as (ix' & E' & Hr' & Hmx'); [done|geom; lia|done|done|].
  rewrite E'. eexists. split; [done|]. split; [done|]. split; [done|]. split.
  - pose proof (payloads_kept_gap _ _ _ _ _ _ m' Hg Hout) as Hk. by rewrite app_nil_r in Hk.
  - by rewrite app_nil_r in Hr'.
Qed.

(** The two ways [alloc] makes room. *)
Lemma grow_last_ok h bs size :
  heap_inv h bs -> 0 < size -> end_address h + size + BLOCK_META_SIZE + 4095 < 4294967296 ->
  Z.of_nat (length (holes bs)) < oa_max_size (index h) ->
  let ext := align_to_page (size + BLOCK_META_SIZE) in
  if end_address h + ext <=? kmax_size h then
    exists h', grow_last h size = Ok h' /\ same_config h h' /\ end_address h' = end_address h + ext /\
      payloads_kept (hmem h) (hmem h') (allocs bs) /\
      ((exists p c, bs = p ++ [c] /\ b_hole c = true /\
          heap_inv h' (p ++ [mk_block (b_addr c) (b_size c + ext) true])) \/
       rep h' (bs ++ [mk_block (end_address h) (ext - BLOCK_META_SIZE) false])
              (end_address h :: holes bs))
  else grow_last h size = Err Panic.
Proof.
  intros Hinv Hz Hb Hlen ext. pose proof Hinv as [Hr _].
  destruct (kheap_expand_ok h bs _ size Hr Hz Hb) as (He & Hb' & E). fold ext in He, Hb', E.
  pose proof (rep_bounds _ _ _ Hr) as Hbd. unfold grow_last. rewrite E.
  destruct (Z.leb_spec (end_address h + ext) (kmax_size h)) as [Hle|]; [|done]. cbn [res_bind].
  change (hmem (grown h ext)) with (hmem h).
  destruct (last_block _ _ _ _ (rep_shape _ _ _ Hr) (rep_nonempty _ _ _ Hr))
    as (p & c & -> & Hce & [_ Hh Hs _ Hfh Hpos] & Hca).
  rewrite Hce in Hfh. rewrite (u32_small (end_address h - _)) by (geom; lia). rewrite Hfh, Hh, Hs.
  destruct (b_hole c) eqn:Ehc; cbn [hole_flag Z.eqb negb IS_HOLE NOT_HOLE].
  - rewrite (u32_small (b_size c + ext)) by (geom; lia).
    destruct (grow_hole_ok h p c ext _ Hinv Ehc ltac:(geom; lia) Hle Hlen eq_refl)
      as (h' & E' & ? & ? & ? & ?).
    exists h'. split; [exact E'|]. split; [done|]. split; [done|]. split; [done|]. left.
    by exists p, c.
  - rewrite (u32_small (ext - _)) by (geom; lia).
    destruct (grow_new_ok h _ ext _ Hinv ltac:(geom; lia) Hle Hlen eq_refl) as (h' & E' & ? & ? & ? & ?).
    exists h'. split; [exact E'|]. split; [done|]. split; [done|]. split; [done|]. by right.
Qed.

(** ** Carving a block out of a hole *)

(** Taking the block at index position [k] out of the index opens a gap. *)
Lemma take_from_index h p c q l0 l k :
  rep h (p ++ c :: q) l0 -> l0 ≡ₚ b_addr c :: l ->
  (forall x, x ∈ l -> exists b, b ∈ p ++ q /\ b_addr b = x) ->
  elems (index h) !! k = Some (b_addr c) ->
  ordered_array_get (index h) (Z.of_nat k) = Ok (b_addr c) /\
  exists ix, ordered_array_remove (index h) (Z.of_nat k) = Ok ix /\
    gap (with_index h ix) p (b_addr c) (b_end c) q l /\ block_ok (hmem h) c /\
    oa_max_size ix = oa_max_size (index h) /\ Z.of_nat (length l) < oa_max_size (index h).
Proof.
  intros Hr Hperm Hin Hk. pose proof (rep_idx _ _ _ Hr) as Hix. pose proof (idx_size _ _ _ Hix) as Hsz.
  destruct Hix as [Hw Hp Hs]. split; [by apply ordered_array_get_ok|].
  pose proof (take_drop_middle _ _ _ Hk) as Hmid.
  destruct (ordered_array_remove_ok (index h) (take k (elems (index h))) (b_addr c)
              (drop (S k) (elems (index h))) Hw (eq_sym Hmid)) as (ix & E & Hw' & Hm & _ & He).
  apply lookup_lt_Some in Hk as Hlt. rewrite length_take, Nat.min_l in E by lia.
  assert (idx_ok (hmem h) ix l) as Hix'.
  { split; [done| |].
    - apply (Permutation_cons_inv (a := b_addr c)). rewrite <- Hperm, <- Hp, He.
      etrans; [apply Permutation_middle|]. by rewrite Hmid.
    - rewrite He. apply (sorted_by_app_remove _ _ (b_addr c)). by rewrite Hmid. }
  exists ix. split; [done|].
  pose proof (rep_shape _ _ _ Hr) as Hsh. apply shape_app in Hsh as (a & H1 & H2).
  apply shape_cons in H2 as (<- & Hok & H2). split; [|split; [done|split; [done|]]].
  - pose proof (ok_pos _ _ Hok). destruct Hr. split; cbn; try assumption. geom. lia.
  - pose proof (oa_bounds _ Hw) as Hb. rewrite Hsz, Hperm in Hb. cbn in Hb. lia.
Qed.

(** The two shapes a carved block can take. *)
Inductive carved (a size : Z) : list block -> list Z -> Prop :=
  | carved_all k : size <= k <= size + BLOCK_META_SIZE -> carved a size [mk_block a k false] []
  | carved_split a2 n2 : carved a size [mk_block a size false; mk_block a2 n2 true] [a2].

Lemma carve_unaligned_ok h p c q l0 l k size :
  rep h (p ++ c :: q) l0 -> l0 ≡ₚ b_addr c :: l ->
  (forall x, x ∈ l -> exists b, b ∈ p ++ q /\ b_addr b = x) ->
  elems (index h) !! k = Some (b_addr c) -> 0 < size <= b_size c ->
  exists h' s l', carve h size false (Z.of_nat k) (b_payload c) = Ok (b_payload c, h') /\
    same_bounds h h' /\ same_outside (hmem h) (hmem h') (b_addr c) (b_end c) /\
    rep h' (p ++ s ++ q) (l' ++ l) /\ carved (b_addr c) size s l'.
Proof.
  intros Hr Hperm Hin Hk Hz.
  destruct (take_from_index _ _ _ _ _ _ _ Hr Hperm Hin Hk) as (Eg & ix & Er & Hg & Hok & Hm & Hlen).
  unfold carve. rewrite Eg. cbn [res_bind]. rewrite (ok_magic _ _ Hok), (ok_size _ _ Hok), Er.
  change (KHEAP_MAGIC =? KHEAP_MAGIC) with true. cbn [res_bind].
  destruct (place_ok (with_index h ix) p _ _ q l (b_size c) size (b_payload c) Hg eq_refl Hz)
    as (h' & s & l' & E & [[? [? Hm']] ?] & Hout & Hr' & Hs); [cbn; lia|].
  rewrite E. exists h', s, l'. split; [done|]. split.
  { repeat split; [done|done| |done]. cbn in Hm'. congruence. }
  split; [done|]. split; [done|]. destruct Hs as [(n & ? & -> & ->)|(a2 & n2 & -> & ->)].
  - by constructor.
  - by constructor.
Qed.

Lemma carved_allocs a size s l' :
  carved a size s l' ->
  exists n, size <= n <= size + BLOCK_META_SIZE /\ allocs s = [(a + BLOCK_HEADER_SIZE, n)].
Proof. intros []; eexists; (split; [|done]); geom; lia. Qed.

Lemma carved_holes a size s l' : carved a size s l' -> holes s = l'.
Proof. by intros []. Qed.

Lemma carved_coalesced a size s l' p c q :
  carved a size s l' -> coalesced (p ++ c :: q) = true -> b_hole c = true ->
  coalesced (p ++ s ++ q) = true.
Proof.
  intros Hs Hc Hh. rewrite coalesced_app in Hc |- *. cbn [coalesced head is_hole_at] in Hc.
  apply andb_prop in Hc as [Hc Hl]. apply andb_prop in Hc as [Hp Hc]. apply andb_prop in Hc as [Hq1 Hq].
  rewrite Hh in Hq1, Hl. destruct Hs; cbn; rewrite Hp, Hq, ?andb_false_r; cbn;
    rewrite ?andb_false_r; [done|]. cbn in Hq1. by rewrite Hq1.
Qed.

(** The allocator's promise, from a heap whose hole [c] is carved. *)
Lemma carve_hole_spec h bs size b k :
  heap_inv h bs -> b ∈ bs -> b_hole b = true -> elems (index h) !! k = Some (b_addr b) ->
  0 < size <= b_size b ->
  exists h' bs', carve h size false (Z.of_nat k) (b_payload b) = Ok (b_payload b, h') /\
    alloc_spec h bs size (b_payload b) h' bs' /\ end_address h' = end_address h.
Proof.
  intros [Hr Hc] Hb Hh Hk Hz. apply list_elem_of_split in Hb as (p & q & ->).
  assert (holes (p ++ b :: q) ≡ₚ b_addr b :: (holes p ++ holes q)) as Hperm.
  { rewrite holes_app, holes_cons, Hh. cbn. symmetry. apply Permutation_middle. }
  destruct (carve_unaligned_ok h p b q _ _ k size Hr Hperm (holes_in p q) Hk Hz)
    as (h' & s & l' & E & [Hcfg He] & Hout & Hr' & Hs).
  exists h', (p ++ s ++ q). split; [done|]. split; [|done].
  split; [split|split; [done|split]].
  - destruct Hr' as [? ? Hi ? ? ? ?]. split; try done.
    apply (idx_ok_perm _ _ _ _) with (2 := Hi). rewrite !holes_app, (carved_holes _ _ _ _ Hs).
    rewrite Permutation_app_comm, <- app_assoc. apply Permutation_app_head, Permutation_app_comm.
  - by apply (carved_coalesced _ _ _ _ p b q Hs).
  - destruct (carved_allocs _ _ _ _ Hs) as (n & Hn & Ea). exists n. split; [done|].
    rewrite !allocs_app, allocs_cons, Hh, Ea. cbn. symmetry. apply Permutation_middle.
  - pose proof (rep_shape _ _ _ Hr) as Hsh. apply shape_app in Hsh as (a & H1 & H2).
    apply shape_cons in H2 as (<- & Hok & H2). rewrite allocs_app, allocs_cons, Hh.
    pose proof (ok_pos _ _ Hok). apply payloads_kept_app.
    + apply (payloads_kept_shape _ _ _ _ _ _ _ H1 Hout). lia.
    + apply (payloads_kept_shape _ _ _ _ _ _ _ H2 Hout). lia.
Qed.

(** ** Allocation *)
Lemma rep_hole_addr h bs l b :
  rep h bs l -> b ∈ bs -> b_addr b ∈ holes bs -> b_hole b = true.
Proof.
  intros Hr Hb Ha. apply elem_of_holes in Ha as (c & Hc & Hh & Ha).
  destruct (shape_In _ _ _ _ _ (rep_shape _ _ _ Hr) Hb) as ([_ H1 _ _ _ _] & _).
  destruct (shape_In _ _ _ _ _ (rep_shape _ _ _ Hr) Hc) as ([_ H2 _ _ _ _] & _).
  rewrite Ha, H1, Hh in H2. by destruct (b_hole b).
Qed.

Lemma holes_block bs x : x ∈ holes bs -> exists b, b ∈ bs /\ b_addr b = x.
Proof. intros (b & ? & _ & ?)%elem_of_holes. by exists b. Qed.

(** Some hole is large enough. *)
Definition fits (size : Z) (bs : list block) : bool :=
  existsb (fun b => b_hole b && (size <=? b_size b)) bs.

Lemma fits_true size bs :
  fits size bs = true <-> exists b, b ∈ bs /\ b_hole b = true /\ size <= b_size b.
Proof.
  unfold fits. rewrite existsb_exists. split.
  - intros (b & Hb & [? ?%Z.leb_le]%andb_prop). exists b. by rewrite list_elem_of_In.
  - intros (b & Hb & Hh & Hs). exists b. rewrite <- list_elem_of_In, Hh. split; [done|].
    by apply Z.leb_le.
Qed.

(** A round of [alloc] that finds a hole. *)
Lemma alloc_found h bs size :
  heap_inv h bs -> 0 < size ->
  if fits size bs then
    exists pos h' bs', (forall fuel, alloc (S fuel) h size false = Ok (pos, h')) /\
      alloc_spec h bs size pos h' bs' /\ end_address h' = end_address h
  else forall fuel, alloc (S fuel) h size false =
    let! h' := grow_last h size in alloc fuel h' size false.
Proof.
  intros Hinv Hz. pose proof Hinv as [Hr _].
  pose proof (find_hole_ok h bs (holes bs) size Hr (holes_block bs)) as Hf.
  destruct (kheap_find_hole h size false) as [[[i pos]|]|e] eqn:E; [| |done].
  - destruct Hf as (b & k & -> & Hb & Hk & -> & Hs & _).
    assert (b_hole b = true) as Hh.
    { apply (rep_hole_addr _ _ _ _ Hr Hb). apply list_elem_of_lookup_2 in Hk.
      by rewrite <- (ix_perm _ _ _ (rep_idx _ _ _ Hr)). }
    replace (fits size bs) with true by (symmetry; apply fits_true; by exists b).
    destruct (carve_hole_spec h bs size b k Hinv Hb Hh Hk) as (h' & bs' & E' & Hspec); [lia|].
    exists (b_payload b), h', bs'. split; [|done]. intros fuel. cbn [alloc]. by rewrite E.
  - replace (fits size bs) with false.
    { intros fuel. cbn [alloc]. by rewrite E. }
    symmetry. apply not_true_iff_false. intros (b & Hb & Hh & Hs)%fits_true.
    specialize (Hf b Hb). rewrite elem_of_holes in Hf. specialize (Hf ltac:(by exists b)). lia.
Qed.

(** The round after the heap grew by a block that is in the index but not marked
    as a hole. *)
Lemma alloc_grown_new h bs size a n :
  rep h (bs ++ [mk_block a n false]) (a :: holes bs) -> coalesced bs = true ->
  fits size bs = false -> 0 < size <= n ->
  exists h' bs', (forall fuel, alloc (S fuel) h size false = Ok (a + BLOCK_HEADER_SIZE, h')) /\
    alloc_spec h bs size (a + BLOCK_HEADER_SIZE) h' bs'.
Proof.
  intros Hr Hc Hfit Hz. set (c := mk_block a n false) in *.
  assert (forall x, x ∈ a :: holes bs -> exists b, b ∈ bs ++ [c] /\ b_addr b = x) as Hin.
  { intros x [->|(b & ? & ?)%holes_block]%elem_of_cons.
    - exists c. split; [set_solver|done].
    - exists b. split; [set_solver|done]. }
  pose proof (find_hole_ok h _ _ size Hr Hin) as Hf.
  destruct (kheap_find_hole h size false) as [[[i pos]|]|e] eqn:E; [| |done].
  2: { specialize (Hf c ltac:(set_solver) ltac:(set_solver)). cbn in Hf. lia. }
  destruct Hf as (b & k & -> & Hb & Hk & -> & Hs & _).
  pose proof (rep_shape _ _ _ Hr) as Hsh. apply shape_app in Hsh as (x & H1 & H2).
  apply shape_cons in H2 as (<- & Hok & H2). cbn [b_addr] in H1.
  assert (b_addr b = a) as Ha.
  { apply list_elem_of_lookup_2 in Hk. rewrite (ix_perm _ _ _ (rep_idx _ _ _ Hr)) in Hk.
    apply elem_of_cons in Hk as [?|Hk]; [done|]. exfalso.
    apply elem_of_holes in Hk as (d & Hd & Hh & Hda).
    destruct (shape_In _ _ _ _ _ (rep_shape _ _ _ Hr) Hb) as ([_ _ Hsb _ _ _] & _).
    destruct (shape_In _ _ _ _ _ H1 Hd) as ([_ _ Hsd _ _ _] & _).
    apply not_true_iff_false in Hfit. apply Hfit, fits_true. exists d. rewrite Hda in Hsd.
    split; [done|]. split; [done|]. lia. }
  rewrite Ha in Hk.
  destruct (carve_unaligned_ok h bs c [] _ (holes bs) k size Hr) as
    (h' & s & l' & E' & [Hcfg He] & Hout & Hr' & Hcv); [done| |exact Hk|done|].
  { intros y Hy. destruct (holes_block _ _ Hy) as (d & ? & ?). exists d. by rewrite app_nil_r. }
  change (b_payload c) with (a + BLOCK_HEADER_SIZE) in E'.
  assert (b_payload b = a + BLOCK_HEADER_SIZE) as Hpb by (unfold b_payload; lia).
  exists h', (bs ++ s). split.
  { intros fuel. cbn [alloc]. rewrite E. cbn [res_bind]. by rewrite Hpb. }
  rewrite app_nil_r in Hr'. split; [split|split; [done|split]].
  - destruct Hr' as [? ? Hi ? ? ? ?]. split; try done.
    apply (idx_ok_perm _ _ _ _) with (2 := Hi).
    rewrite !holes_app, (carved_holes _ _ _ _ Hcv). apply Permutation_app_comm.
  - rewrite coalesced_app, Hc. destruct Hcv; cbn; by rewrite andb_false_r.
  - destruct (carved_allocs _ _ _ _ Hcv) as (m & Hm & Ea). exists m. split; [done|].
    rewrite allocs_app, Ea. cbn. by rewrite Permutation_app_comm.
  - apply (payloads_kept_shape _ _ _ _ _ _ _ H1 Hout). cbn. lia.
Qed.

Lemma alloc_spec_pre h0 bs0 h bs size pos h' bs' :
  alloc_spec h bs size pos h' bs' -> same_config h0 h -> allocs bs = allocs bs0 ->
  payloads_kept (hmem h0) (hmem h) (allocs bs0) -> alloc_spec h0 bs0 size pos h' bs'.
Proof.
  intros (Hi & Hcfg & Ha & Hk) Hc0 He Hk0. rewrite He in Ha, Hk.
  split; [done|]. split; [by eapply same_config_trans|]. split; [done|].
  by apply (payloads_kept_trans _ (hmem h) _ (allocs bs0)).
Qed.

(** A call of [alloc] that has to grow the heap needs one more round. *)
Lemma alloc_grown h bs size :
  heap_inv h bs -> 0 < size -> end_address h + size + BLOCK_META_SIZE + 4095 < 4294967296 ->
  Z.of_nat (length (holes bs)) < oa_max_size (index h) -> fits size bs = false ->
  if end_address h + align_to_page (size + BLOCK_META_SIZE) <=? kmax_size h then
    exists pos h' bs', (forall fuel, alloc (S (S fuel)) h size false = Ok (pos, h')) /\
      alloc_spec h bs size pos h' bs'
  else forall fuel, alloc (S fuel) h size false = Err Panic.
Proof.
  intros Hinv Hz Hb Hlen Hfit. pose proof (alloc_found h bs size Hinv Hz) as Hal. rewrite Hfit in Hal.
  destruct (kheap_expand_ok h bs _ size (proj1 Hinv) Hz Hb) as (He & _ & _).
  pose proof (grow_last_ok h bs size Hinv Hz Hb Hlen) as Hgr. cbn zeta in Hgr.
  set (ext := align_to_page _) in *.
  destruct (_ <=? _).
  2: { intros fuel. by rewrite Hal, Hgr. }
  destruct Hgr as (h1 & E1 & Hc1 & He1 & Hk1 & [(p & c & -> & Hh & Hinv1)|Hr1]).
  - pose proof (alloc_found h1 _ size Hinv1 Hz) as Hal1.
    replace (fits size _) with true in Hal1.
    2: { symmetry. apply fits_true. eexists. split; [apply elem_of_app; right; apply list_elem_of_here|].
         split; [done|]. destruct (rep_shape _ _ _ (proj1 Hinv)) as [_ Hok].
         apply Forall_app in Hok as [_ Hok]. apply Forall_cons in Hok as [[] _]. geom. lia. }
    destruct Hal1 as (pos & h' & bs' & E & Hspec & _). exists pos, h', bs'. split.
    { intros fuel. rewrite Hal, E1. cbn [res_bind]. apply E. }
    apply (alloc_spec_pre _ _ _ _ _ _ _ _ Hspec Hc1); [|done].
    rewrite !allocs_app, !allocs_cons, Hh. done.
  - destruct (alloc_grown_new h1 bs size _ _ Hr1 (proj2 Hinv) Hfit) as (h' & bs' & E & Hspec); [lia|].
    eexists _, h', bs'. split.
    { intros fuel. rewrite Hal, E1. cbn [res_bind]. apply E. }
    by apply (alloc_spec_pre _ _ _ _ _ _ _ _ Hspec Hc1).
Qed.

(** ** Release *)

(** A gap that already holds the new, unindexed hole. *)
Definition open_hole (h : kheap_t) (p : list block) (a e : Z) (q : list block) : Prop :=
  gap h p a e q (holes p ++ holes q) /\
  block_ok (hmem h) (mk_block a (e - a - BLOCK_META_SIZE) true).

(** What a merge step changes: nothing but memory in the gap and the index. *)
Definition merge_step (h h' : kheap_t) (p q p' q' : list block) : Prop :=
  same_bounds h h' /\ payloads_kept (hmem h) (hmem h') (allocs (p ++ q)) /\
  allocs (p' ++ q') = allocs (p ++ q) /\
  (length (holes (p' ++ q')) <= length (holes (p ++ q)))%nat.

Lemma merge_step_id h p q : merge_step h h p q p q.
Proof. split; [done|]. split; [|done]. by intros ???. Qed.

Lemma merge_step_trans h1 h2 h3 p1 q1 p2 q2 p3 q3 :
  merge_step h1 h2 p1 q1 p2 q2 -> merge_step h2 h3 p2 q2 p3 q3 -> merge_step h1 h3 p1 q1 p3 q3.
Proof.
  intros ([Hc1 He1] & Hk1 & Ha1 & Hl1) ([Hc2 He2] & Hk2 & Ha2 & Hl2). rewrite Ha1 in Hk2.
  split; [split; [by eapply same_config_trans|congruence]|].
  split; [by eapply payloads_kept_trans|]. split; [congruence|lia].
Qed.

Lemma merge_right_ok h p a e q :
  open_hole h p a e q -> coalesced q = true ->
  exists h' e' q', merge_right h a (e - BLOCK_FOOTER_SIZE) = Ok h' /\ open_hole h' p a e' q' /\
    merge_step h h' p q p q' /\ coalesced q' = true /\ is_hole_at (head q') = false.
Proof.
  intros [Hg Hok] Hc. pose proof (gap_bounds _ _ _ _ _ _ Hg) as Hb. pose proof (ok_pos _ _ Hok) as Hpos.
  unfold merge_right. replace (u32 _) with e by (geom; rewrite u32_small; lia).
  assert (forall b, is_hole_at (head q) = b -> b = false -> exists h' e' q', Ok h = Ok h' /\
    open_hole h' p a e' q' /\ merge_step h h' p q p q' /\ coalesced q' = true /\
    is_hole_at (head q') = false) as Hstay.
  { intros b <- Hh. exists h, e, q. split; [done|]. split; [done|]. split; [apply merge_step_id|done]. }
  pose proof (gap_right _ _ _ _ _ _ Hg) as Hq. destruct q as [|n q].
  { destruct Hq as [Hq _]. cbn in Hq. rewrite Hq, Z.ltb_irrefl. by apply (Hstay false). }
  apply shape_cons in Hq as (<- & Hn & Hq). apply shape_le in Hq as Hqe.
  pose proof (ok_pos _ _ Hn) as Hnpos.
  replace (b_addr n <? end_address h) with true by (symmetry; geom; zbool).
  rewrite (ok_magic _ _ Hn), (ok_hole _ _ Hn), Z.eqb_refl. cbn [andb].
  destruct (b_hole n) eqn:Eh; cbn [hole_flag Z.eqb IS_HOLE NOT_HOLE]; [|by apply (Hstay false)].
  pose proof (ok_size _ _ Hok) as Hsz. cbn [b_addr b_size] in Hsz.
  rewrite Hsz, (ok_size _ _ Hn). clear Hstay.
  set (sz := _ + BLOCK_META_SIZE).
  destruct (make_block_ok (hmem h) a sz true) as [Hok' Hout]; [geom; lia|subst sz; geom; lia..|].
  replace (a + sz + BLOCK_META_SIZE) with (b_end n) in Hout by (subst sz; geom; lia).
  rewrite u32_small by (subst sz; geom; lia). cbn [hole_flag] in *.
  assert (holes p ++ holes (n :: q) ≡ₚ b_addr n :: holes p ++ holes q) as Hperm.
  { rewrite holes_cons, Eh. symmetry. apply Permutation_middle. }
  destruct (gap_eat_right h p a _ n q _ _ _ Hg Hperm Hout (holes_in p q)) as (ix & E & Hg' & Hm).
  rewrite E. exists (with_index (with_mem h (make_block (hmem h) a sz IS_HOLE)) ix), (b_end n), q.
  split; [done|]. split.
  { split; [done|]. cbn. by replace (b_end n - a - BLOCK_META_SIZE) with sz by (subst sz; geom; lia). }
  cbn [coalesced] in Hc. rewrite Eh in Hc. apply andb_prop in Hc as [Hh Hc].
  split; [|split; [done|by destruct (is_hole_at (head q))]].
  split; [done|]. rewrite !allocs_app, allocs_cons, Eh. split.
  2: { split; [done|]. rewrite !holes_app, holes_cons, !length_app. lia. }
  apply payloads_kept_app.
  - apply (payloads_kept_shape _ _ _ _ _ _ _ (gap_left _ _ _ _ _ _ Hg) Hout). lia.
  - apply (payloads_kept_shape _ _ _ _ _ _ _ Hq Hout). lia.
Qed.

Lemma merge_left_ok h p a e q :
  open_hole h p a e q -> coalesced p = true ->
  exists h' a' p', merge_left h a = Ok (a', h') /\ open_hole h' p' a' e q /\
    merge_step h h' p q p' q /\ coalesced p' = true /\ is_hole_at (last p') = false.
Proof.
  intros [Hg Hok] Hc. pose proof (gap_bounds _ _ _ _ _ _ Hg) as Hb. pose proof (ok_pos _ _ Hok) as Hpos.
  pose proof (gap_start _ _ _ _ _ _ Hg) as Hst.
  unfold merge_left. rewrite (u32_small (a - _)) by (geom; lia).
  pose proof (gap_left _ _ _ _ _ _ Hg) as Hp.
  assert (is_hole_at (last p) = false -> exists h' a' p', Ok (a, h) = Ok (a', h') /\
    open_hole h' p' a' e q /\ merge_step h h' p q p' q /\ coalesced p' = true /\
    is_hole_at (last p') = false) as Hstay.
  { intros Hh. exists h, a, p. split; [done|]. split; [done|]. split; [apply merge_step_id|done]. }
  destruct (decide (p = [])) as [->|Hne].
  { destruct Hp as [Hp _]. cbn in Hp. replace (_ >=? _) with false by (symmetry; geom; zbool).
    by apply Hstay. }
  destruct (last_block _ _ _ _ Hp Hne) as (p0 & c & -> & Hce & Hcok & Hca).
  pose proof (ok_pos _ _ Hcok) as Hcpos.
  replace (_ >=? _) with true by (symmetry; geom; zbool).
  rewrite <- Hce, (ok_fmagic _ _ Hcok), (ok_fheader _ _ Hcok), (ok_hole _ _ Hcok), Z.eqb_refl, Hce.
  cbn [andb]. rewrite last_snoc in Hstay. cbn [is_hole_at] in Hstay.
  destruct (b_hole c) eqn:Eh; cbn [hole_flag Z.eqb IS_HOLE NOT_HOLE]; [|by apply Hstay].
  pose proof (ok_size _ _ Hok) as Hsz. cbn [b_addr b_size] in Hsz.
  rewrite Hsz, (ok_size _ _ Hcok). clear Hstay.
  set (sz := _ + BLOCK_META_SIZE).
  destruct (make_block_ok (hmem h) (b_addr c) sz true) as [Hok' Hout]; [geom; lia|subst sz; geom; lia..|].
  replace (b_addr c + sz + BLOCK_META_SIZE) with e in Hout by (subst sz; geom; lia).
  rewrite u32_small by (subst sz; geom; lia). cbn [hole_flag] in *.
  assert (holes (p0 ++ [c]) ++ holes q ≡ₚ b_addr c :: holes p0 ++ holes q) as Hperm.
  { rewrite holes_app, holes_cons, Eh, <- app_assoc. symmetry. apply Permutation_middle. }
  destruct (gap_eat_left h p0 c a e q _ _ _ Hg Hperm Hout (holes_in p0 q)) as (ix & E & Hg' & Hm).
  rewrite E. cbn [res_bind].
  exists (with_index (with_mem h (make_block (hmem h) (b_addr c) sz IS_HOLE)) ix), (b_addr c), p0.
  split; [done|]. split.
  { split; [done|]. cbn. by replace (e - b_addr c - BLOCK_META_SIZE) with sz by (subst sz; geom; lia). }
  rewrite coalesced_app in Hc. cbn in Hc. rewrite Eh in Hc. apply andb_prop in Hc as [Hc Hh].
  apply andb_prop in Hc as [Hc _]. split; [|split; [done|by destruct (is_hole_at (last p0))]].
  split; [done|]. rewrite !allocs_app, allocs_cons, Eh. cbn. rewrite app_nil_r. split.
  2: { split; [done|]. rewrite !holes_app, !length_app. lia. }
  apply shape_app in Hp as (x & Hp & Hx). apply shape_cons in Hx as (<- & _ & _).
  apply payloads_kept_app.
  - apply (payloads_kept_shape _ _ _ _ _ _ _ Hp Hout). lia.
  - apply (payloads_kept_shape _ _ _ _ _ _ _ (gap_right _ _ _ _ _ _ Hg) Hout). lia.
Qed.

(** Marking a block as a hole opens the gap. *)
Lemma mark_hole_ok h p b q :
  rep h (p ++ b :: q) (holes (p ++ b :: q)) -> b_hole b = false ->
  let h1 := with_mem h (store8 (hmem h) (b_addr b + 4) 1) in
  open_hole h1 p (b_addr b) (b_end b) q /\
  payloads_kept (hmem h) (hmem h1) (allocs (p ++ q)) /\ block_ok (hmem h) b /\
  BLOCK_META_SIZE <= b_addr b /\ b_end b < 4294967296.
Proof.
  intros Hr Hh h1. pose proof (rep_bounds _ _ _ Hr) as Hbd.
  destruct (rep_gap h p [b] q _ (holes p ++ holes q) Hr) as (a & e & Hb & Hg).
  { pose proof (rep_idx _ _ _ Hr) as Hi. by rewrite holes_app, holes_cons, Hh in Hi. }
  { apply holes_in. }
  apply shape_cons in Hb as (<- & Hok & [<- _]). pose proof (gap_bounds _ _ _ _ _ _ Hg) as Hb.
  pose proof (ok_pos _ _ Hok) as Hpos.
  assert (same_outside (hmem h) (hmem h1) (b_addr b) (b_end b)) as Hout.
  { intros x Hx. cbn. geom. by mem_simpl. }
  split; [split|].
  - by apply gap_write.
  - replace (b_end b - b_addr b - BLOCK_META_SIZE) with (b_size b) by (geom; lia).
    destruct Hok as [H1 H2 H3 H4 H5 H6]. unfold h1.
    unfold header_magic, header_is_hole, header_size, footer_magic, footer_header, load8 in *.
    split; unfold header_magic, header_is_hole, header_size, footer_magic, footer_header, load8;
      cbn [b_addr b_size b_hole hmem with_mem]; unfold b_end, BLOCK_META_SIZE, BLOCK_HEADER_SIZE,
        BLOCK_FOOTER_SIZE in *; cbn [b_addr b_size b_hole] in *; mem_simpl; done.
  - split; [by apply (payloads_kept_gap h _ _ _ _ _ _ Hg)|]. split; [done|]. lia.
Qed.

(** The effect of releasing the block in use at [pos]. *)
Definition free_spec (h : kheap_t) (bs : list block) (pos n : Z) (h' : kheap_t)
    (bs' : list block) : Prop :=
  heap_inv h' bs' /\ same_bounds h h' /\ allocs bs ≡ₚ (pos, n) :: allocs bs' /\
  payloads_kept (hmem h) (hmem h') (allocs bs').

Lemma free_ok h p b q :
  heap_inv h (p ++ b :: q) -> b_hole b = false ->
  Z.of_nat (length (holes (p ++ b :: q))) < oa_max_size (index h) ->
  exists h' bs', free h (b_payload b) = Ok h' /\
    free_spec h (p ++ b :: q) (b_payload b) (b_size b) h' bs'.
Proof.
  intros [Hr Hc] Hh Hlen. destruct (mark_hole_ok h p b q Hr Hh) as (Hop & Hk & Hok & Hlo & Hhi).
  pose proof (ok_pos _ _ Hok) as Hpos. unfold free.
  replace (b_payload b =? 0) with false by (symmetry; geom; zbool).
  replace (u32 (b_payload b - BLOCK_HEADER_SIZE)) with (b_addr b) by (geom; rewrite u32_small; lia).
  rewrite (ok_size _ _ Hok).
  replace (u32 (b_payload b + _)) with (b_end b - BLOCK_FOOTER_SIZE) by (geom; rewrite u32_small; lia).
  rewrite (ok_magic _ _ Hok), (ok_fmagic _ _ Hok), Z.eqb_refl.
  set (h1 := with_mem h _) in *.
  rewrite coalesced_app in Hc. cbn in Hc. rewrite Hh in Hc. cbn in Hc. rewrite andb_false_r, andb_true_r in Hc.
  apply andb_prop in Hc as [Hcp Hcq].
  destruct (merge_right_ok _ _ _ _ _ Hop Hcq) as (h2 & e & q' & E2 & Hop2 & Hs2 & Hcq' & Hhq).
  rewrite E2. cbn [res_bind].
  destruct (merge_left_ok _ _ _ _ _ Hop2 Hcp) as (h3 & a & p' & E3 & [Hg Hok3] & Hs3 & Hcp' & Hhp).
  rewrite E3. cbn [res_bind].
  destruct (merge_step_trans _ _ _ _ _ _ _ _ _ Hs2 Hs3) as ([Hcfg He] & Hk' & Ha & Hl).
  rewrite holes_app, holes_cons, Hh in Hlen. cbn in Hlen. rewrite !holes_app in Hl.
  destruct (gap_close_insert _ _ _ _ _ _ (mk_block a (e - a - BLOCK_META_SIZE) true) Hg)
    as (ix & E & Hr' & Hm); [done|geom; lia|done| |].
  { destruct Hcfg as (_ & _ & ->). cbn. lia. }
  rewrite E. exists (with_index h3 ix), (p' ++ [mk_block a (e - a - BLOCK_META_SIZE) true] ++ q').
  split; [done|]. split; [split|split; [|split]].
  - destruct Hr' as [? ? Hi ? ? ? ?]. split; try done. apply (idx_ok_perm _ _ _ _) with (2 := Hi).
    rewrite !holes_app, holes_cons. cbn. apply Permutation_middle.
  - rewrite coalesced_app. cbn. by rewrite Hcp', Hcq', Hhq, Hhp.
  - destruct Hcfg as (? & ? & ?). repeat split; cbn; [done|done| |done]. by etrans.
  - rewrite !allocs_app, !allocs_cons, Hh in *. cbn. rewrite Ha. symmetry. apply Permutation_middle.
  - rewrite !allocs_app, allocs_cons in *. cbn in *. rewrite Ha.
    by apply (payloads_kept_trans _ (hmem h1) _ (allocs p ++ allocs q)).
Qed.

(** ** Page-aligned allocation *)

(** Where [kheap_find_hole] puts an aligned block of [size] bytes in hole [b]. *)
Definition aligned_pos (b : block) : Z :=
  let first := align_to_page (b_payload b) in
  if (first =? b_payload b) || (first - b_payload b >? BLOCK_META_SIZE) then first
  else first + PAGE_SIZE.

Definition aligned_fits (size : Z) (b : block) : bool :=
  aligned_pos b + size <=? b_payload b + b_size b.

Lemma find_aligned_pos b size :
  0 < b_payload b -> 0 <= b_size b -> 0 < size ->
  b_payload b + b_size b + size + 8192 < 4294967296 ->
  find_aligned aligned_fuel (b_payload b) size (b_payload b + b_size b) (align_to_page (b_payload b)) =
  Ok (if aligned_fits size b then Some (aligned_pos b) else None) /\
  (aligned_pos b = b_payload b \/ b_payload b + BLOCK_META_SIZE < aligned_pos b) /\
  aligned_pos b mod PAGE_SIZE = 0.
Proof.
  intros Hp Hn Hz Hb. destruct (align_to_page_bounds (b_payload b)) as [Hf Hm]; [lia|lia|].
  split; [|split].
  - rewrite find_aligned_ok by lia. unfold aligned_fits, aligned_pos.
    destruct (_ || _); by destruct (_ <=? _).
  - unfold aligned_pos, PAGE_SIZE. geom.
    destruct (Z.eqb_spec (align_to_page (b_addr b + 9)) (b_addr b + 9)) as [->|]; cbn [orb]; [by left|].
    destruct (Z.gtb_spec (align_to_page (b_addr b + 9) - (b_addr b + 9)) (9 + 8)); right; lia.
  - unfold aligned_pos, PAGE_SIZE. destruct (_ || _); [done|].
    by rewrite <- Zplus_mod_idemp_l, Hm.
Qed.

(** The search for an aligned block: the first hole of the index in which it fits. *)
Lemma find_hole_aligned_ok h bs size :
  heap_inv h bs -> 0 < size -> end_address h + size + 8192 < 4294967296 ->
  match kheap_find_hole h size true with
  | Ok (Some (i, pos)) =>
      exists b k, i = Z.of_nat k /\ b ∈ bs /\ b_hole b = true /\
        elems (index h) !! k = Some (b_addr b) /\ pos = aligned_pos b /\ aligned_fits size b = true
  | Ok None => forall b, b ∈ bs -> b_hole b = true -> aligned_fits size b = false
  | Err _ => False
  end.
Proof.
  intros [Hr Hc] Hz Hbd. unfold kheap_find_hole.
  pose proof (rep_idx _ _ _ Hr) as [Hw Hp Hs]. pose proof (elems_length _ Hw) as Hl.
  pose proof (rep_bounds _ _ _ Hr) as Hb0.
  assert (forall k x, elems (index h) !! k = Some x ->
            exists b, b ∈ bs /\ b_hole b = true /\ b_addr b = x /\
              ordered_array_get (index h) (Z.of_nat k) = Ok x /\
              u32 (x + BLOCK_HEADER_SIZE) = b_payload b /\
              find_aligned aligned_fuel (b_payload b) size
                (u32 (b_payload b + header_size (hmem h) x)) (align_to_page (b_payload b)) =
              Ok (if aligned_fits size b then Some (aligned_pos b) else None)) as Hget.
  { intros k x Hx. pose proof (list_elem_of_lookup_2 _ _ _ Hx) as Hin. rewrite Hp in Hin.
    apply elem_of_holes in Hin as (b & Hb & Hh & <-).
    destruct (shape_In _ _ _ _ _ (rep_shape _ _ _ Hr) Hb) as (Hok & ? & ?).
    pose proof (ok_pos _ _ Hok). exists b. do 3 (split; [done|]).
    split; [by apply ordered_array_get_ok|]. split; [geom; rewrite u32_small; lia|].
    rewrite (ok_size _ _ Hok), u32_small by (geom; lia).
    apply find_aligned_pos; geom; lia. }
  destruct (for_find _ 0 _) as [r|] eqn:E.
  - apply for_find_Some in E as (j & Hj & Hr1 & _).
    destruct (lookup_lt_is_Some_2 (elems (index h)) (Z.to_nat j)) as [x Hx]; [lia|].
    destruct (Hget _ _ Hx) as (b & Hb & Hh & <- & Hg & Hu & Hf). rewrite Z2Nat.id in Hg by lia.
    rewrite Hg, Hu, Hf in Hr1. destruct (aligned_fits size b) eqn:Ea; [|done].
    injection Hr1 as <-. exists b, (Z.to_nat j). rewrite Z2Nat.id by lia. done.
  - intros b Hb Hh. assert (b_addr b ∈ elems (index h)) as Hin.
    { rewrite Hp. apply elem_of_holes. by exists b. }
    apply list_elem_of_lookup in Hin as [k Hk]. rewrite for_find_None in E.
    apply lookup_lt_Some in Hk as Hlt. specialize (E (Z.of_nat k) ltac:(lia)).
    destruct (Hget _ _ Hk) as (c & Hcb & _ & Hca & Hg' & Hu & Hf).
    assert (b_size c = b_size b) as Hsz.
    { destruct (shape_In _ _ _ _ _ (rep_shape _ _ _ Hr) Hb) as ([_ _ H1 _ _ _] & _).
      destruct (shape_In _ _ _ _ _ (rep_shape _ _ _ Hr) Hcb) as ([_ _ H2 _ _ _] & _). congruence. }
    assert (b_payload c = b_payload b) as Hpl by (unfold b_payload; congruence).
    rewrite Hg', Hu, Hf in E.
    replace (aligned_fits size c) with (aligned_fits size b) in E
      by (unfold aligned_fits, aligned_pos; by rewrite Hpl, Hsz).
    by destruct (aligned_fits size b).
Qed.

(** Carving an aligned block out of hole [b]. *)
Lemma carve_aligned_spec h bs size b k :
  heap_inv h bs -> b ∈ bs -> b_hole b = true -> elems (index h) !! k = Some (b_addr b) ->
  0 < size -> aligned_fits size b = true -> end_address h + size + 8192 < 4294967296 ->
  Z.of_nat (length (holes bs)) < oa_max_size (index h) ->
  exists h' bs', carve h size true (Z.of_nat k) (aligned_pos b) = Ok (aligned_pos b, h') /\
    alloc_spec h bs size (aligned_pos b) h' bs' /\ end_address h' = end_address h.
Proof.
  intros Hinv Hb Hh Hk Hz Hfit Hbd Hlen. pose proof Hinv as [Hr Hc]. pose proof (rep_bounds _ _ _ Hr).
  destruct (shape_In _ _ _ _ _ (rep_shape _ _ _ Hr) Hb) as (Hok0 & ? & ?).
  pose proof (ok_pos _ _ Hok0) as Hpos.
  destruct (find_aligned_pos b size) as (_ & Hpo & _); [geom; lia..|].
  apply Z.leb_le in Hfit. set (pos := aligned_pos b) in *.
  destruct Hpo as [Hpo|Hpo].
  { destruct (carve_hole_spec h bs size b k Hinv Hb Hh Hk) as (h' & bs' & E & Hs); [lia|].
    exists h', bs'. rewrite Hpo. split; [|done]. unfold carve in *.
    destruct (ordered_array_get _ _) as [x|] eqn:Ex; [|done]. cbn [res_bind] in *.
    assert (x = b_addr b) as ->.
    { rewrite (ordered_array_get_ok _ k _ (ix_wf _ _ _ (rep_idx _ _ _ Hr)) Hk) in Ex. congruence. }
    destruct (_ =? KHEAP_MAGIC); [|done]. destruct (ordered_array_remove _ _); [|done].
    cbn [res_bind] in *. replace (_ >? _) with false; [done|].
    symmetry. rewrite Z.gtb_ltb. apply Z.ltb_ge. geom. rewrite u32_small; lia. }
  apply list_elem_of_split in Hb as (p & q & ->).
  assert (holes (p ++ b :: q) ≡ₚ b_addr b :: (holes p ++ holes q)) as Hperm.
  { rewrite holes_app, holes_cons, Hh. cbn. symmetry. apply Permutation_middle. }
  destruct (take_from_index _ _ _ _ _ _ _ Hr Hperm (holes_in p q) Hk)
    as (Eg & ix & Er & Hg & Hok & Hm & Hlen').
  unfold carve. rewrite Eg. cbn [res_bind]. rewrite (ok_magic _ _ Hok), (ok_size _ _ Hok), Er.
  change (KHEAP_MAGIC =? KHEAP_MAGIC) with true. cbn [res_bind].
  rewrite (u32_small (pos - _)) by (geom; lia).
  replace (pos - _ >? _) with true by (symmetry; geom; zbool).
  set (cut := u32 _). assert (cut = pos - b_payload b) as Hcut by (subst cut; geom; rewrite u32_small; lia).
  replace (cut >? _) with true by (symmetry; zbool).
  rewrite (u32_small (cut - _)), (u32_small (b_size b - _)) by (geom; lia).
  change (hmem (with_index h ix)) with (hmem h).
  destruct (make_block_ok (hmem h) (b_addr b) (cut - BLOCK_META_SIZE) true) as [Hok1 Hout1];
    [geom; lia..|]. cbn [hole_flag] in *. set (m1 := make_block _ _ _ _) in *.
  set (c1 := mk_block (b_addr b) (cut - BLOCK_META_SIZE) true) in *.
  assert (b_end c1 = pos - BLOCK_HEADER_SIZE) as Hc1 by (subst c1; geom; lia).
  assert (same_outside (hmem h) m1 (b_addr b) (b_end b)) as Hout1'.
  { apply (same_outside_weaken _ _ _ _ _ _ Hout1); [lia|]. geom. lia. }
  pose proof (gap_write _ _ _ _ _ _ m1 Hg Hout1') as Hg1.
  destruct (gap_push_left _ _ _ _ _ _ c1 Hg1) as (ix2 & E2 & Hg2 & Hm2);
    [done|subst c1; geom; lia|done|cbn; lia|].
  rewrite E2. cbn [res_bind]. rewrite Hc1 in Hg2.
  destruct (place_ok _ _ _ _ _ _ (b_size b - cut) size pos Hg2) as
    (h' & s & l' & E3 & [[? [? Hm']] ?] & Hout3 & Hr' & Hs); [geom; lia|geom; lia| |].
  { cbn in Hm2 |- *. rewrite Hm2, Hm. rewrite Hperm in Hlen. cbn in Hlen. lia. }
  rewrite E3. exists h', ((p ++ [c1]) ++ s ++ q).
  assert (carved (pos - BLOCK_HEADER_SIZE) size s l') as Hcv.
  { destruct Hs as [(n & ? & -> & ->)|(a2 & n2 & -> & ->)]; by constructor. }
  split; [done|]. split; [|done]. split; [split|split; [|split]].
  - destruct Hr' as [? ? Hi ? ? ? ?]. split; try done. apply (idx_ok_perm _ _ _ _) with (2 := Hi).
    rewrite !holes_app, holes_cons, (carved_holes _ _ _ _ Hcv). cbn. rewrite <- app_assoc. cbn.
    rewrite <- Permutation_middle. rewrite <- Permutation_middle. apply Permutation_cons; [done|].
    rewrite !app_assoc. apply Permutation_app_tail, Permutation_app_comm.
  - rewrite !coalesced_app in *. cbn [coalesced head is_hole_at last] in *. rewrite last_snoc.
    rewrite Hh in Hc. apply andb_prop in Hc as [Hc Hl]. apply andb_prop in Hc as [Hp Hcq].
    apply andb_prop in Hcq as [Hq1 Hq]. cbn in Hl, Hq1 |- *. rewrite Hp, Hq, Hl.
    destruct Hcv; cbn; [done|]. by rewrite Hq1.
  - cbn in Hm2, Hm'. repeat split; [done|done|]. etrans; [exact Hm'|]. cbn. congruence.
  - destruct (carved_allocs _ _ _ _ Hcv) as (n & Hn & Ea). exists n. split; [done|].
    rewrite !allocs_app, !allocs_cons, Hh, Ea. cbn. rewrite app_nil_r.
    replace (pos - _ + _) with pos by lia. symmetry. apply Permutation_middle.
  - assert (same_outside (hmem h) (hmem h') (b_addr b) (b_end b)) as Hout.
    { apply (same_outside_trans _ m1); [done|].
      apply (same_outside_weaken _ _ _ _ _ _ Hout3); geom; lia. }
    rewrite allocs_app, allocs_cons, Hh. cbn [app]. rewrite <- allocs_app.
    by apply (payloads_kept_gap (with_index h ix) p _ _ q _ _ Hg).
Qed.
