(* ===== verification/KHeapProps.v ===== *)
(** The properties of the kernel heap: initialisation, allocation, release, the
    interface laws, and what happens at the limits of the address space. *)
From S2P Require Import Prelude OrderedArray Memory BitMap KHeap KHeapSpec Allocator.

(** ** Initialisation *)
Lemma create_kheap_ok m slots start end_ max sup ro :
  Z.of_nat (length slots) = KHEAP_INDEX_NUM -> 0 < start -> start mod 4096 = 0 ->
  end_ mod 4096 = 0 -> start + KHEAP_INDEX_NUM * 4 < end_ -> end_ <= max < 4294967296 ->
  exists h, create_kheap m slots start end_ max sup ro = Ok h /\
    start_address h = start + KHEAP_INDEX_NUM * 4 /\ end_address h = end_ /\ kmax_size h = max /\
    oa_max_size (index h) = KHEAP_INDEX_NUM /\
    heap_inv h [mk_block (start + KHEAP_INDEX_NUM * 4)
                  (end_ - start - KHEAP_INDEX_NUM * 4 - BLOCK_META_SIZE) true].
Proof.
  intros Hs Hp Ha Hae Hlt Hm. unfold create_kheap.
  assert (forall z, 0 <= z -> z mod 4096 = 0 -> (Z.land z 0xFFF =? 0) = true) as Hal.
  { intros z ? Hz. apply Z.eqb_eq. change 0xFFF with (Z.ones 12). by rewrite Z.land_ones by lia. }
  rewrite !Hal by (done || unfold KHEAP_INDEX_NUM in *; lia). clear Hal.
  unfold KHEAP_INDEX_NUM in *. change (0x1000 * 4) with 16384 in *.
  rewrite (u32_small (start + _)) by lia.
  replace (start + 16384 <? end_) with true by (symmetry; zbool).
  set (a := start + 16384). rewrite (u32_small (end_ - a)) by lia.
  assert (end_ mod 4096 = 0 /\ a mod 4096 = 0) as [_ Haa] by (split; [done|subst a; zdiv]).
  assert (a + 4096 <= end_) as Hpage by (Z.div_mod_to_equations; lia).
  rewrite u32_small by (geom; lia).
  set (n := end_ - a - BLOCK_META_SIZE). set (m1 := make_block m a n IS_HOLE).
  destruct (make_block_ok m a n true) as [Hok _]; [lia|geom; lia|geom; lia|]. fold m1 in Hok.
  set (h0 := with_mem _ m1).
  assert (gap h0 [] a end_ [] []) as Hg.
  { split; cbn; try (geom; lia); [apply shape_nil|apply shape_nil| |set_solver].
    split; [|done|unfold sorted_by; constructor]. split; cbn; lia. }
  destruct (gap_close_insert h0 [] a end_ [] [] (mk_block a n true) Hg) as (ix & E & Hr & Hmx);
    [done|subst n; geom; lia|exact Hok|done|].
  rewrite E. eexists. split; [done|]. split; [done|]. split; [done|]. split; [done|]. split; [done|].
  replace (end_ - start - 16384 - BLOCK_META_SIZE) with n by lia. by split.
Qed.

(** ** Addresses of blocks in use *)
Lemma shape_allocs_fresh m a e bs p n :
  shape m a e bs -> (p, n) ∈ allocs bs -> a + BLOCK_HEADER_SIZE <= p /\ p + n <= e /\ 0 < n.
Proof.
  intros Hs (b & Hb & _ & <- & <-)%elem_of_allocs.
  destruct (shape_In _ _ _ _ _ Hs Hb) as ([] & ? & ?). geom. lia.
Qed.

Lemma allocs_apart m a e bs :
  shape m a e bs -> NoDup (allocs bs).*1 /\
  forall p n q k, (p, n) ∈ allocs bs -> (q, k) ∈ allocs bs -> p <> q -> p + n <= q \/ q + k <= p.
Proof.
  revert a. induction bs as [|b bs IH]; intros a Hs.
  { split; [constructor|]. by intros ???? ?%not_elem_of_nil. }
  apply shape_cons in Hs as (<- & Hok & Hs). destruct (IH _ Hs) as [Hnd Hap].
  rewrite allocs_cons. destruct (b_hole b); [done|].
  assert (forall p n, (p, n) ∈ allocs bs -> b_payload b + b_size b <= p) as Hlt.
  { intros p n Hin. destruct (shape_allocs_fresh _ _ _ _ _ _ Hs Hin). geom. lia. }
  pose proof (ok_pos _ _ Hok). split.
  - cbn. constructor; [|done]. intros ([p n] & Hp & Hin)%list_elem_of_fmap. cbn in Hp. subst p.
    apply Hlt in Hin. lia.
  - intros p n q k [[= -> ->]|Hp]%elem_of_cons [[= -> ->]|Hq]%elem_of_cons Hne; [done| | |by eapply Hap].
    + left. by eapply Hlt.
    + right. by eapply Hlt.
Qed.

(** Without neighbouring holes there is at most one hole more than blocks in use. *)
Lemma coalesced_holes bs :
  coalesced bs = true ->
  (length (holes bs) <= length (allocs bs) + if is_hole_at (head bs) then 1 else 0)%nat.
Proof.
  induction bs as [|b bs IH]; [cbn; lia|]. cbn [coalesced]. intros [Hh Hc]%andb_prop.
  specialize (IH Hc). rewrite holes_cons, allocs_cons, !length_app. cbn [head is_hole_at].
  destruct (b_hole b); cbn [length andb] in *; [|destruct (is_hole_at _); lia].
  destruct (is_hole_at (head bs)); [done|]. lia.
Qed.

(** ** The heap implements the allocator interface *)

(** The recursion of [alloc] needs two rounds. *)
Definition alloc_fuel : nat := 2.

Definition heap_owns (s : kheap_state) (L : gmap Z Z) : Prop :=
  kheap_lock s = LOCKED_NO /\ kmax_size (kheap s) = KHEAP_MAX /\
  oa_max_size (index (kheap s)) = KHEAP_INDEX_NUM /\
  exists bs, heap_inv (kheap s) bs /\ L = list_to_map (allocs bs).

(** There is no room for [n] bytes: no hole is large enough, and the heap would have to grow past
    its end. *)
Definition no_room (h : kheap_t) (bs : list block) (n : Z) : bool :=
  negb (fits n bs) && (kmax_size h <? end_address h + align_to_page (n + BLOCK_META_SIZE)).
Definition heap_full (s : kheap_state) (n : Z) : Prop := exists bs, heap_inv (kheap s) bs /\ no_room (kheap s) bs n = true.

(** The blocks of a heap are determined by its memory. *)
Lemma shape_unique m e bs : forall bs' a, shape m a e bs -> shape m a e bs' -> bs = bs'.
Proof.
  induction bs as [|b bs IH]; intros [|b' bs'] a H1 H2; [done| | |].
  - pose proof (proj1 H1) as ->. destruct (shape_In _ _ _ _ b' H2 ltac:(by left)) as (Hok & ? & ?). pose proof (ok_pos _ _ Hok). unfold b_end in *. geom. lia.
  - pose proof (proj1 H2) as ->. destruct (shape_In _ _ _ _ b H1 ltac:(by left)) as (Hok & ? & ?). pose proof (ok_pos _ _ Hok). unfold b_end in *. geom. lia.
  - apply shape_cons in H1 as (A1 & O1 & H1), H2 as (A2 & O2 & H2). assert (b = b') as <-.
    { destruct b as [x n h], b' as [x' n' h']. cbn in A1, A2. subst. destruct O1 as [_ Hh Hs _ _ _], O2 as [_ Hh' Hs' _ _ _]. cbn in *.
      rewrite Hs in Hs'. rewrite Hh in Hh'. f_equal; [done|]. by destruct h, h'. }
    f_equal. by apply (IH _ (b_end b)).
Qed.
Lemma heap_inv_unique h bs bs' : heap_inv h bs -> heap_inv h bs' -> bs = bs'.
Proof. intros [H _] [H' _]. exact (shape_unique _ _ _ _ _ (rep_shape _ _ _ H) (rep_shape _ _ _ H')). Qed.
Lemma heap_full_iff s bs n : heap_inv (kheap s) bs -> heap_full s n <-> no_room (kheap s) bs n = true.
Proof. intros H. split; [intros (bs' & H' & E); by rewrite (heap_inv_unique _ _ _ H H')|intros E; by exists bs]. Qed.

#[export] Instance kheap_allocator : Allocator kheap_state := {
  malloc := kmalloc alloc_fuel;
  mfree s p := let! (_, s) := kfree s p in Ok s;
  owns := heap_owns;
  full := heap_full;
  capacity := 4094;
  request_max := 0x10000000
}.

Lemma owns_lookup h bs p n :
  heap_inv h bs -> (list_to_map (allocs bs) : gmap Z Z) !! p = Some n <-> (p, n) ∈ allocs bs.
Proof.
  intros [Hr _]. destruct (allocs_apart _ _ _ _ (rep_shape _ _ _ Hr)) as [Hnd _].
  split; [apply elem_of_list_to_map_2|by apply elem_of_list_to_map_1].
Qed.

Lemma owns_size h bs :
  heap_inv h bs -> base.size (list_to_map (allocs bs) : gmap Z Z) = length (allocs bs).
Proof.
  intros [Hr _]. destruct (allocs_apart _ _ _ _ (rep_shape _ _ _ Hr)) as [Hnd _].
  rewrite <- length_map_to_list. by rewrite map_to_list_to_map by done.
Qed.

(** The index has room as long as the blocks in use are within the capacity. *)
Lemma owns_index_room h bs :
  heap_inv h bs -> (length (allocs bs) <= 4094)%nat -> Z.of_nat (length (holes bs)) < KHEAP_INDEX_NUM.
Proof.
  intros [_ Hc] Hl. apply coalesced_holes in Hc. unfold KHEAP_INDEX_NUM.
  destruct (is_hole_at _); lia.
Qed.

Lemma allocs_perm_map h bs h' bs' p n :
  heap_inv h bs -> heap_inv h' bs' -> allocs bs' ≡ₚ (p, n) :: allocs bs ->
  (list_to_map (allocs bs') : gmap Z Z) = <[p := n]> (list_to_map (allocs bs)).
Proof.
  intros [Hr _] [Hr' _] Hp. destruct (allocs_apart _ _ _ _ (rep_shape _ _ _ Hr')) as [Hnd _].
  by rewrite (list_to_map_proper _ _ Hnd Hp).
Qed.

(** ** Allocation and release, in one statement each *)
Lemma alloc_ok h bs sz fuel :
  heap_inv h bs -> 0 < sz -> end_address h + sz + BLOCK_META_SIZE + 4095 < 4294967296 ->
  Z.of_nat (length (holes bs)) < oa_max_size (index h) ->
  if fits sz bs || (end_address h + align_to_page (sz + BLOCK_META_SIZE) <=? kmax_size h) then
    exists pos h' bs', alloc (S (S fuel)) h sz false = Ok (pos, h') /\ alloc_spec h bs sz pos h' bs'
  else alloc (S (S fuel)) h sz false = Err Panic.
Proof.
  intros Hinv Hz Hb Hlen. pose proof (alloc_found h bs sz Hinv Hz) as Hf.
  destruct (fits sz bs) eqn:Efit; cbn [orb].
  { destruct Hf as (pos & h' & bs' & E & Hs & _). exists pos, h', bs'. by rewrite E. }
  pose proof (alloc_grown h bs sz Hinv Hz Hb Hlen Efit) as Hg.
  destruct (_ <=? _); [|apply Hg]. destruct Hg as (pos & h' & bs' & E & Hs). by exists pos, h', bs'.
Qed.

Lemma free_block_ok h bs pos n :
  heap_inv h bs -> (pos, n) ∈ allocs bs -> Z.of_nat (length (holes bs)) < oa_max_size (index h) ->
  exists h' bs', free h pos = Ok h' /\ free_spec h bs pos n h' bs'.
Proof.
  intros Hinv (b & Hb & Hh & <- & <-)%elem_of_allocs Hlen.
  apply list_elem_of_split in Hb as (p & q & ->). by apply free_ok.
Qed.

(** A successful allocation, seen through the map of the blocks in use. *)
Lemma alloc_spec_owned h bs sz pos h' bs' :
  alloc_spec h bs sz pos h' bs' ->
  exists n, sz <= n /\ (list_to_map (allocs bs) : gmap Z Z) !! pos = None /\ pos <> 0 /\
    apart (list_to_map (allocs bs)) pos n /\
    (list_to_map (allocs bs') : gmap Z Z) = <[pos := n]> (list_to_map (allocs bs)) .
Proof.
  intros (Hinv' & _ & (n & Hn & Hp) & _). exists n. split; [lia|].
  pose proof (rep_shape _ _ _ (proj1 Hinv')) as Hs.
  destruct (allocs_apart _ _ _ _ Hs) as [Hnd Hap].
  assert ((pos, n) ∈ allocs bs') as Hin by (rewrite Hp; set_solver).
  assert (pos <> 0) as Hne.
  { destruct (shape_allocs_fresh _ _ _ _ _ _ Hs Hin) as (? & _ & _).
    pose proof (rep_start _ _ _ (proj1 Hinv')). geom. lia. }
  assert (Hnd' : NoDup ((pos, n) :: allocs bs).*1) by (by rewrite <- Hp).
  cbn in Hnd'. apply NoDup_cons in Hnd' as [Hnot Hnd'].
  split; [by apply not_elem_of_list_to_map_1|]. split; [done|].
  split; [|by rewrite (list_to_map_proper _ _ Hnd Hp)].
  intros q k Hq. apply elem_of_list_to_map_2 in Hq as Hq'.
  apply (Hap pos n q k); [done|rewrite Hp; set_solver|]. intros ->. apply Hnot.
  by apply (list_elem_of_fmap_2 fst) in Hq'.
Qed.

Lemma free_spec_owned h bs pos n h' bs' :
  heap_inv h bs -> free_spec h bs pos n h' bs' ->
  (list_to_map (allocs bs') : gmap Z Z) = delete pos (list_to_map (allocs bs)).
Proof.
  intros [Hr _] (Hinv' & _ & Hp & _). destruct (allocs_apart _ _ _ _ (rep_shape _ _ _ Hr)) as [Hnd _].
  rewrite (list_to_map_proper _ _ Hnd Hp). cbn. symmetry. apply delete_insert_id.
  apply not_elem_of_list_to_map_1. rewrite Hp in Hnd. by apply NoDup_cons in Hnd as [? _].
Qed.

(** ** The laws of the interface *)
Lemma kheap_malloc_law s L n :
  heap_owns s L -> 0 < n <= 0x10000000 -> (base.size L < 4094)%nat ->
  (heap_full s n /\ kmalloc alloc_fuel s n = Err Panic) \/
  (~ heap_full s n /\ exists p k s', kmalloc alloc_fuel s n = Ok (p, s') /\ p <> 0 /\ n <= k /\ L !! p = None /\
    apart L p k /\ heap_owns s' (<[p := k]> L)).
Proof.
  intros (Hl & Hmax & Hcap & bs & Hinv & ->) Hn Hsz. rewrite (owns_size _ _ Hinv) in Hsz.
  unfold kmalloc, with_kheap_lock. rewrite Hl. cbn. unfold kmalloc_impl.
  replace (n =? 0) with false by (symmetry; zbool).
  pose proof (rep_bounds _ _ _ (proj1 Hinv)) as Hbd. pose proof Hmax as Hm0. unfold KHEAP_MAX in Hm0.
  pose proof (alloc_ok (kheap s) bs n 0 Hinv ltac:(lia) ltac:(geom; lia)) as Hal.
  rewrite Hcap in Hal. specialize (Hal (owns_index_room _ _ Hinv ltac:(lia))).
  rewrite !(heap_full_iff _ _ _ Hinv). unfold no_room. unfold alloc_fuel.
  destruct (fits n bs || _) eqn:Efit; [right|left; split; [|by rewrite Hal]].
  2: { apply orb_false_iff in Efit as [-> Hmx]. cbn. apply Z.leb_gt in Hmx. by apply Z.ltb_lt. }
  split. { intros [Hf Hmx%Z.ltb_lt]%andb_true_iff. apply orb_true_iff in Efit as [Ef|Ef%Z.leb_le]; [by rewrite Ef in Hf|lia]. }
  destruct Hal as (pos & h' & bs' & E & Hs). rewrite E. cbn [res_bind].
  destruct (alloc_spec_owned _ _ _ _ _ _ Hs) as (k & Hk & Hnone & Hne & Hap & Hmap).
  exists pos, k, (mk_kstate h' LOCKED_NO). replace (pos =? 0) with false by (symmetry; zbool).
  split; [done|]. split; [done|]. split; [done|]. split; [done|]. split; [done|].
  destruct Hs as (Hinv' & (_ & Hm' & Hc') & _).
  split; [done|]. split; [cbn; congruence|]. split; [cbn; congruence|]. by exists bs'.
Qed.

Lemma kheap_free_law s L p k :
  heap_owns s L -> L !! p = Some k -> (base.size L <= 4094)%nat ->
  exists s', (let! (_, s') := kfree s p in Ok s') = Ok s' /\ heap_owns s' (delete p L).
Proof.
  intros (Hl & Hmax & Hcap & bs & Hinv & ->) Hp Hsz. rewrite (owns_size _ _ Hinv) in Hsz.
  apply (owns_lookup _ _ _ _ Hinv) in Hp as Hin.
  destruct (shape_allocs_fresh _ _ _ _ _ _ (rep_shape _ _ _ (proj1 Hinv)) Hin) as (Hlo & _ & _).
  pose proof (rep_start _ _ _ (proj1 Hinv)) as Hst.
  unfold kfree. replace (p =? 0) with false by (symmetry; geom; zbool).
  unfold with_kheap_lock. rewrite Hl. cbn.
  destruct (free_block_ok (kheap s) bs p k Hinv Hin) as (h' & bs' & E & Hs).
  { rewrite Hcap. by apply (owns_index_room _ _ Hinv). }
  rewrite E. cbn. exists (mk_kstate h' LOCKED_NO). split; [done|].
  rewrite <- (free_spec_owned _ _ _ _ _ _ Hinv Hs).
  destruct Hs as (Hinv' & [(_ & Hm' & Hc') _] & _ & _).
  split; [done|]. split; [cbn; congruence|]. split; [cbn; congruence|]. by exists bs'.
Qed.

Lemma kheap_owns_positive s L p k : heap_owns s L -> L !! p = Some k -> 0 < p.
Proof.
  intros (_ & _ & _ & bs & Hinv & ->) Hp. apply (owns_lookup _ _ _ _ Hinv) in Hp.
  destruct (shape_allocs_fresh _ _ _ _ _ _ (rep_shape _ _ _ (proj1 Hinv)) Hp) as (? & _ & _).
  pose proof (rep_start _ _ _ (proj1 Hinv)). geom. lia.
Qed.

#[export] Instance kheap_allocator_laws : AllocatorLaws kheap_state.
Proof.
  split.
  - exact kheap_malloc_law.
  - exact kheap_free_law.
  - done.
  - exact kheap_owns_positive.
Qed.

(** ** Requests at the top of the address space *)

(** Such a request is rounded to an extension of no bytes at all. *)
Lemma huge_extension sz :
  4294963184 < sz <= 4294967279 -> align_to_page (u32 (sz + BLOCK_META_SIZE)) = 0.
Proof.
  intros Hz. unfold align_to_page. set (x := u32 (_ + _)).
  assert (0 <= x < 4096) as Hx.
  { subst x. geom. destruct (decide (sz = 4294967279)) as [->|]; [by vm_compute|].
    rewrite (u32_small (sz + _)) by lia. unfold u32.
    rewrite <- (Z_mod_plus_full _ (-1)), Z.mod_small; lia. }
  clearbody x. apply Z.bits_inj'. intros k Hk. rewrite Z.land_spec, Z.bits_0.
  change 0xfffff000 with (Z.shiftl (Z.ones 20) 12). rewrite Z.shiftl_spec by done.
  destruct (decide (k < 12)).
  - by rewrite (Z.testbit_neg_r _ (k - 12)), andb_false_r by lia.
  - destruct (decide (x = 0)) as [->|]; [by rewrite Z.bits_0|].
    rewrite (Z.bits_above_log2 x); [done|lia|]. apply Z.lt_le_trans with 12; [|lia].
    apply Z.log2_lt_pow2; lia.
Qed.

Lemma huge_round h p c sz :
  heap_inv h (p ++ [c]) -> b_hole c = true ->
  Z.of_nat (length (holes (p ++ [c]))) < oa_max_size (index h) ->
  4294963184 < sz <= 4294967279 ->
  exists h', grow_last h sz = Ok h' /\ heap_inv h' (p ++ [mk_block (b_addr c) (b_size c) true]) /\
    oa_max_size (index h') = oa_max_size (index h).
Proof.
  intros Hinv Hh Hlen Hz. pose proof Hinv as [Hr _]. pose proof (rep_bounds _ _ _ Hr) as Hbd.
  unfold grow_last, kheap_expand. rewrite huge_extension by done.
  rewrite (u32_small (end_address h + 0)) by (geom; lia).
  replace (_ <=? _) with true by (symmetry; zbool). cbn [res_bind hmem].
  destruct (last_block _ _ _ _ (rep_shape _ _ _ Hr) (rep_nonempty _ _ _ Hr))
    as (p' & c' & Hpc & Hce & [_ Hho Hs _ Hfh Hpos] & Hca).
  apply app_inj_tail in Hpc as [<- <-]. rewrite Hce in Hfh.
  rewrite (u32_small (end_address h - _)) by (geom; lia). rewrite Hfh, Hho, Hs, Hh.
  cbn [hole_flag Z.eqb negb IS_HOLE]. rewrite (u32_small (b_size c + 0)) by (geom; lia).
  destruct (grow_hole_ok h p c 0 (make_block (hmem h) (b_addr c) (b_size c + 0) IS_HOLE) Hinv Hh) as (h' & E' & Hcfg & ? & ? & Hi); [lia|lia|done|done|].
  unfold grown in E'. exists h'. split.
  - etrans; [|exact E']. unfold with_mem. cbn.
    replace (u32 (ksize h + 0)) with (ksize h + 0) by (rewrite (rep_ksize _ _ _ Hr), u32_small; geom; lia).
    done.
  - rewrite Z.add_0_r in Hi. split; [done|]. apply Hcfg.
Qed.

Lemma huge_diverges fuel : forall h p c sz,
  heap_inv h (p ++ [c]) -> b_hole c = true ->
  Z.of_nat (length (holes (p ++ [c]))) < oa_max_size (index h) ->
  4294963184 < sz <= 4294967279 -> fits sz (p ++ [c]) = false ->
  alloc fuel h sz false = Err NoFuel.
Proof.
  induction fuel as [|fuel IH]; intros h p c sz Hinv Hh Hlen Hz Hfit; [done|].
  pose proof (alloc_found h _ sz Hinv ltac:(lia)) as Hf. rewrite Hfit in Hf. rewrite Hf.
  destruct (huge_round h p c sz Hinv Hh Hlen Hz) as (h' & -> & Hi & Hm). cbn [res_bind].
  destruct c as [a n hl]. cbn in Hh. subst hl. cbn in *.
  apply (IH h' p (mk_block a n true)); [done|done| |done|done]. by rewrite Hm.
Qed.

(** ** Properties *)

(** [init_kheap] gives a well-formed heap whose only block is one hole that
    fills it behind the index. *)
Theorem init_kheap_correct (m : mem) (slots : list Z)
    (Hs : Z.of_nat (length slots) = KHEAP_INDEX_NUM) :
  exists h, init_kheap m slots = Ok h /\ heap_inv h [mk_block 0xC0C04000 0xBFEF true] /\
    start_address h = 0xC0C04000 /\ end_address h = 0xC0C10000 /\ kmax_size h = KHEAP_MAX /\
    oa_max_size (index h) = KHEAP_INDEX_NUM.
Proof.
  destruct (create_kheap_ok m slots KHEAP_START (KHEAP_START + KHEAP_MIN_SIZE) KHEAP_MAX 0 0 Hs)
    as (h & E & ? & ? & ? & ? & ?); [done..|]. by exists h.
Qed.

(** C2: on a well-formed heap [alloc] without alignment ends after at most one
    extension of the heap: it returns a block of at least [sz] bytes and at most
    17 more, which did not overlap any block in use, every byte of which is
    unchanged, or it panics exactly when no hole fits and the heap cannot grow.  Conditions: the
    request leaves room below 2^32, that is the end of the heap plus [sz], the metadata and a page
    does not wrap (for requests near 2^32 see [alloc_huge_never_returns]), and the index of the
    holes is not at its capacity. *)
Theorem alloc_correct (h : kheap_t) (bs : list block) (sz : Z) (fuel : nat)
    (Hinv : heap_inv h bs) (Hsz : 0 < sz)
    (Hroom : end_address h + sz + BLOCK_META_SIZE + 4095 < 4294967296)
    (Hindex : Z.of_nat (length (holes bs)) < oa_max_size (index h)) :
  if fits sz bs || (end_address h + align_to_page (sz + BLOCK_META_SIZE) <=? kmax_size h) then
    exists pos h' bs', alloc (S (S fuel)) h sz false = Ok (pos, h') /\ alloc_spec h bs sz pos h' bs'
  else alloc (S (S fuel)) h sz false = Err Panic.
Proof. exact (alloc_ok h bs sz fuel Hinv Hsz Hroom Hindex). Qed.

(** C3: while the index of the holes has a free entry, [free] of a block in use succeeds, keeps the
    heap well formed (the new hole is merged with the holes next to it), takes exactly that block
    out of the blocks in use, and leaves every byte of the others as it was.  (With a full index
    the new hole can be dropped from it; the callers of [kfree] keep fewer than 4094 blocks.) *)
Theorem free_correct (h : kheap_t) (bs : list block) (pos n : Z)
    (Hinv : heap_inv h bs) (Hin : (pos, n) ∈ allocs bs)
    (Hindex : Z.of_nat (length (holes bs)) < oa_max_size (index h)) :
  exists h' bs', free h pos = Ok h' /\ free_spec h bs pos n h' bs'.
Proof. exact (free_block_ok h bs pos n Hinv Hin Hindex). Qed.

(** C4: [kmalloc] and [kfree] implement the allocator interface.  Let the lock be free and fewer
    than 4094 blocks be in use, so that the index of the holes cannot overflow.  A request [n] of
    1 to 0x10000000 bytes panics exactly when no hole has [n] bytes and the end of the heap, moved
    up by [n] and the metadata rounded to pages, would pass the heap's limit; otherwise it returns
    a block of at least [n] bytes that is apart from every block in use, and these stay in use.
    The release of any block in use succeeds and takes exactly that block out of use. *)
Theorem kheap_refines_allocator (s : kheap_state) (bs : list block) (L : gmap Z Z)
    (Hlock : kheap_lock s = LOCKED_NO) (Hmax : kmax_size (kheap s) = KHEAP_MAX)
    (Hindex : oa_max_size (index (kheap s)) = KHEAP_INDEX_NUM)
    (Hinv : heap_inv (kheap s) bs) (HL : L = list_to_map (allocs bs)) (Hsize : (base.size L < 4094)%nat) :
  (forall n, 0 < n <= 0x10000000 ->
     if fits n bs || (end_address (kheap s) + align_to_page (n + BLOCK_META_SIZE) <=? KHEAP_MAX) then
       exists p k s', kmalloc alloc_fuel s n = Ok (p, s') /\ p <> 0 /\ n <= k /\ L !! p = None /\
         apart L p k /\ heap_owns s' (<[p := k]> L)
     else kmalloc alloc_fuel s n = Err Panic) /\
  (forall p k, L !! p = Some k ->
     exists s', kfree s p = Ok (tt, s') /\ heap_owns s' (delete p L)).
Proof.
  assert (heap_owns s L) as Howns by (split; [done|]; split; [done|]; split; [done|]; by exists bs).
  split.
  - intros n Hn. destruct (kheap_malloc_law s L n Howns Hn Hsize) as [[F E]|[F E]]; rewrite (heap_full_iff _ _ _ Hinv) in F; unfold no_room in F; rewrite Hmax in F.
    + apply andb_true_iff in F as [F1 F2%Z.ltb_lt]. apply negb_true_iff in F1. rewrite F1. by replace (_ <=? KHEAP_MAX) with false by (symmetry; zbool; lia).
    + rewrite (proj2 (orb_true_iff _ _)); [exact E|]. destruct (fits n bs); [by left|right]. apply Z.leb_le.
      destruct (Z.ltb_spec KHEAP_MAX (end_address (kheap s) + align_to_page (n + BLOCK_META_SIZE))); [by destruct F|done].
  - intros p k Hp. destruct (kheap_free_law s L p k Howns Hp ltac:(lia)) as (s' & E & H).
    exists s'. split; [|done]. destruct (kfree s p) as [[[] t]|]; [|done]. by injection E as ->.
Qed.

(** Releasing a block just allocated gives back the blocks in use as they
    were, with the bytes of every one of them untouched throughout. *)
Theorem kmalloc_kfree_roundtrip (h h1 : kheap_t) (bs bs1 : list block) (sz pos : Z)
    (Hspec : alloc_spec h bs sz pos h1 bs1)
    (Hindex : Z.of_nat (length (holes bs1)) < oa_max_size (index h1)) :
  exists h2 bs2, free h1 pos = Ok h2 /\ heap_inv h2 bs2 /\ allocs bs2 ≡ₚ allocs bs /\
    end_address h2 = end_address h1 /\ payloads_kept (hmem h) (hmem h2) (allocs bs).
Proof.
  destruct Hspec as (Hinv1 & _ & (n & _ & Hp) & Hk).
  destruct (free_block_ok h1 bs1 pos n Hinv1) as (h2 & bs2 & E & Hinv2 & [_ He] & Hp2 & Hk2);
    [rewrite Hp; set_solver|done|].
  assert (allocs bs2 ≡ₚ allocs bs) as Hback.
  { apply (Permutation_cons_inv (a := (pos, n))). by rewrite <- Hp2. }
  exists h2, bs2. do 4 (split; [done|]).
  intros p k x Hin Hx. rewrite (Hk2 p k x) by (by rewrite ?Hback). by apply (Hk p k x).
Qed.

(** The search without alignment is best fit: it finds a hole whenever one is
    large enough, and no hole that is large enough is smaller than the one found. *)
Theorem kheap_find_hole_best_fit (h : kheap_t) (bs : list block) (sz : Z) (Hinv : heap_inv h bs) :
  match kheap_find_hole h sz false with
  | Ok (Some (i, pos)) =>
      exists b k, i = Z.of_nat k /\ b ∈ bs /\ elems (index h) !! k = Some (b_addr b) /\
        pos = b_payload b /\ sz <= b_size b /\
        forall c, c ∈ bs -> b_addr c ∈ holes bs -> sz <= b_size c -> b_size b <= b_size c
  | Ok None => forall c, c ∈ bs -> b_addr c ∈ holes bs -> b_size c < sz
  | Err _ => False
  end.
Proof. exact (find_hole_ok h bs (holes bs) sz (proj1 Hinv) (holes_block bs)). Qed.

(** When some hole has room for [sz] bytes at a page boundary, [alloc] with
    alignment returns a page-aligned block with the guarantees of [alloc_spec];
    the part of the hole before it stays a hole. *)
Theorem alloc_aligned_correct (h : kheap_t) (bs : list block) (sz : Z) (fuel : nat)
    (Hinv : heap_inv h bs) (Hsz : 0 < sz)
    (Hroom : end_address h + sz + 8192 < 4294967296)
    (Hindex : Z.of_nat (length (holes bs)) < oa_max_size (index h))
    (Hfit : exists b, b ∈ bs /\ b_hole b = true /\ aligned_fits sz b = true) :
  exists pos h' bs', alloc (S fuel) h sz true = Ok (pos, h') /\ pos mod PAGE_SIZE = 0 /\
    alloc_spec h bs sz pos h' bs' /\ end_address h' = end_address h.
Proof.
  pose proof (find_hole_aligned_ok h bs sz Hinv Hsz Hroom) as Hf. cbn [alloc].
  destruct (kheap_find_hole h sz true) as [[[i pos]|]|e]; [| |done].
  2: { destruct Hfit as (b & Hb & Hh & Ha). by rewrite Hf in Ha. }
  destruct Hf as (b & k & -> & Hb & Hh & Hk & -> & Ha). cbn [res_bind].
  destruct (carve_aligned_spec h bs sz b k Hinv Hb Hh Hk Hsz Ha Hroom Hindex) as (h' & bs' & E & Hs).
  exists (aligned_pos b), h', bs'. split; [done|]. split; [|done].
  destruct (shape_In _ _ _ _ _ (rep_shape _ _ _ (proj1 Hinv)) Hb) as ([] & ? & ?).
  pose proof (rep_bounds _ _ _ (proj1 Hinv)).
  apply (find_aligned_pos b sz); geom; lia.
Qed.

(** C39: A request of 2^32-4111 to 2^32-17 bytes makes the size with its metadata
    wrap to an extension of zero bytes, so when no hole fits, the last block is a hole and the
    index of the holes has a free entry, [alloc] extends the heap by nothing and calls itself for
    ever: no fuel is enough. *)
Theorem alloc_huge_never_returns (h : kheap_t) (p : list block) (c : block) (sz : Z) (fuel : nat)
    (Hinv : heap_inv h (p ++ [c])) (Hhole : b_hole c = true)
    (Hindex : Z.of_nat (length (holes (p ++ [c]))) < oa_max_size (index h))
    (Hsz : 4294963184 < sz <= 4294967279) (Hnofit : fits sz (p ++ [c]) = false) :
  alloc fuel h sz false = Err NoFuel.
Proof. exact (huge_diverges fuel h p c sz Hinv Hhole Hindex Hsz Hnofit). Qed.

(** ** Witnesses *)
Definition demo_heap : kheap_t :=
  match init_kheap (fun _ => 0) (replicate 4096 0) with
  | Ok h => h
  | Err _ => mk_kheap (fun _ => 0) (mk_oa [] 0 0) 0 0 0 0 0 0
  end.
Definition demo_blocks : list block := [mk_block 0xC0C04000 0xBFEF true].

Lemma demo_heap_ok :
  heap_inv demo_heap demo_blocks /\ end_address demo_heap = 0xC0C10000 /\
  kmax_size demo_heap = KHEAP_MAX /\ oa_max_size (index demo_heap) = KHEAP_INDEX_NUM.
Proof.
  unfold demo_heap, init_kheap.
  destruct (create_kheap_ok (fun _ => 0) (replicate 4096 0) KHEAP_START
              (KHEAP_START + KHEAP_MIN_SIZE) KHEAP_MAX 0 0) as (h & -> & ? & ? & ? & ? & ?); done.
Qed.

#[local] Opaque demo_heap.

Lemma init_kheap_correct_witness :
  Z.of_nat (length (replicate 4096 0)) = KHEAP_INDEX_NUM /\
  exists h, init_kheap (fun _ => 0) (replicate 4096 0) = Ok h.
Proof.
  split; [done|].
  destruct (init_kheap_correct (fun _ => 0) (replicate 4096 0) eq_refl) as (h & E & _). by exists h.
Defined.

Lemma alloc_correct_witness :
  exists pos h' bs', alloc 2 demo_heap 100 false = Ok (pos, h') /\
    alloc_spec demo_heap demo_blocks 100 pos h' bs'.
Proof.
  destruct demo_heap_ok as (Hi & He & Hm & Hc).
  apply (alloc_correct demo_heap demo_blocks 100 0 Hi); [done|by rewrite He|by rewrite Hc].
Defined.

Lemma demo_allocated :
  exists h1 bs1 pos n, heap_inv h1 bs1 /\ (pos, n) ∈ allocs bs1 /\
    Z.of_nat (length (holes bs1)) < oa_max_size (index h1) /\
    alloc_spec demo_heap demo_blocks 100 pos h1 bs1.
Proof.
  destruct demo_heap_ok as (Hi & He & Hm & Hc).
  pose proof (alloc_ok demo_heap demo_blocks 100 0 Hi eq_refl) as Ha. rewrite He, Hc in Ha.
  destruct (Ha eq_refl eq_refl) as (pos & h' & bs' & _ & Hs).
  pose proof Hs as (Hi' & (_ & _ & Hc') & (n & _ & Hp) & _).
  exists h', bs', pos, n. split; [done|]. split; [rewrite Hp; set_solver|]. split; [|done].
  rewrite Hc', Hc. apply (owns_index_room _ _ Hi'). rewrite Hp. change (allocs demo_blocks) with (@nil (Z * Z)). cbn. lia.
Qed.

Lemma free_correct_witness :
  exists h bs pos n h' bs', (pos, n) ∈ allocs bs /\ free h pos = Ok h' /\ free_spec h bs pos n h' bs'.
Proof.
  destruct demo_allocated as (h & bs & pos & n & Hi & Hin & Hl & _).
  destruct (free_correct h bs pos n Hi Hin Hl) as (h' & bs' & ?). by exists h, bs, pos, n, h', bs'.
Defined.

Lemma kheap_refines_allocator_witness :
  exists p k s', kmalloc alloc_fuel (mk_kstate demo_heap LOCKED_NO) 100 = Ok (p, s') /\ 100 <= k /\
    heap_owns s' {[p := k]}.
Proof.
  destruct demo_heap_ok as (Hi & He & Hm & Hc).
  destruct (kheap_refines_allocator (mk_kstate demo_heap LOCKED_NO) demo_blocks ∅ eq_refl Hm Hc Hi eq_refl) as [Hk _];
    [rewrite map_size_empty; lia|].
  specialize (Hk 100 ltac:(lia)). cbv beta iota delta [fits existsb demo_blocks] in Hk. cbn in Hk.
  destruct Hk as (p & k & s' & ? & _ & ? & _ & _ & ?). by exists p, k, s'.
Defined.

Lemma kmalloc_kfree_roundtrip_witness :
  exists h1 pos h2 bs2, free h1 pos = Ok h2 /\ heap_inv h2 bs2 /\ allocs bs2 ≡ₚ [].
Proof.
  destruct demo_allocated as (h & bs & pos & n & Hi & Hin & Hl & Hs).
  destruct (kmalloc_kfree_roundtrip demo_heap h demo_blocks bs 100 pos Hs Hl)
    as (h2 & bs2 & ? & ? & ? & _). by exists h, pos, h2, bs2.
Defined.

Lemma kheap_find_hole_best_fit_witness :
  heap_inv demo_heap demo_blocks /\
  match kheap_find_hole demo_heap 100 false with
  | Ok (Some (i, pos)) => exists b, b ∈ demo_blocks /\ pos = b_payload b
  | Ok None => forall c, c ∈ demo_blocks -> b_addr c ∈ holes demo_blocks -> b_size c < 100
  | Err _ => False
  end.
Proof.
  destruct demo_heap_ok as (Hi & _). split; [assumption|].
  pose proof (kheap_find_hole_best_fit demo_heap demo_blocks 100 Hi) as H.
  destruct (kheap_find_hole _ _ _) as [[[i pos]|]|]; [|done|done].
  destruct H as (b & k & _ & ? & _ & ? & _). by exists b.
Defined.

Lemma alloc_aligned_correct_witness :
  exists pos h' bs', alloc 1 demo_heap 4096 true = Ok (pos, h') /\ pos mod PAGE_SIZE = 0 /\
    alloc_spec demo_heap demo_blocks 4096 pos h' bs'.
Proof.
  destruct demo_heap_ok as (Hi & He & Hm & Hc).
  destruct (alloc_aligned_correct demo_heap demo_blocks 4096 0 Hi eq_refl)
    as (pos & h' & bs' & ? & ? & ? & _).
  - by rewrite He.
  - by rewrite Hc.
  - eexists. split; [apply list_elem_of_here|]. by split.
  - exists pos, h', bs'. repeat (split; [assumption|]). assumption.
Defined.

Lemma alloc_huge_never_returns_witness :
  alloc 1000 demo_heap 4294967279 false = Err NoFuel.
Proof.
  destruct demo_heap_ok as (Hi & He & Hm & Hc).
  refine (alloc_huge_never_returns demo_heap [] (mk_block 0xC0C04000 0xBFEF true) 4294967279 1000
            Hi eq_refl _ _ eq_refl); [by rewrite Hc|lia].
Defined.
