(* ===== verification/Keyboard.v ===== *)
(** The scancode decoder [src/src/driver/keyboard_read.c] with the result layout
    of [src/src/include/driver/keyboard_read.h].

    The decoder is a state machine over three words: the modifier state, the
    internal flags of a multi-byte sequence in progress, and its stage.  A result
    is the 32-bit word the C functions return. *)
From S2P Require Import Prelude.
From Stdlib Require Import Ascii.

(** ** Layout of a result *)
Definition KH_STATE_SHIFT : Z := 16.
Definition KH_STATE_SMASK : Z := 0x0FF00.
Definition KH_RMODS_SHIFT : Z := 16.
Definition KH_RMODS_SMASK : Z := 0x000F.
Definition KH_RAWCHAR_SHIFT : Z := 8.
Definition KH_RAWCHAR_SMASK : Z := 0x0FF.
Definition KH_CHAR_SHIFT : Z := 0.
Definition KH_CHAR_SMASK : Z := 0x0FF.

Definition KH_LSHIFT_KEY : Z := 0x8000.
Definition KH_RSHIFT_KEY : Z := 0x4000.
Definition KH_LCONTROL_KEY : Z := 0x2000.
Definition KH_RCONTROL_KEY : Z := 0x1000.
Definition KH_LALT_KEY : Z := 0x0800.
Definition KH_RALT_KEY : Z := 0x0400.
Definition KH_CAPS_LOCK : Z := 0x0200.
Definition KH_NUM_LOCK : Z := 0x0100.

Definition KH_RESULT_HASRAW : Z := 0x08.
Definition KH_RESULT_HASDATA : Z := 0x04.
Definition KH_RESULT_NUMPAD : Z := 0x02.
Definition KH_RESULT_MAKE : Z := 0x01.

(** The field macros [KH_STATE] to [KH_ISRAWEXTENDED]. *)
Definition KH_STATE (k : Z) : Z := Z.land (Z.shiftr k KH_STATE_SHIFT) KH_STATE_SMASK.
Definition KH_RMODS (k : Z) : Z := Z.land (Z.shiftr k KH_RMODS_SHIFT) KH_RMODS_SMASK.
Definition KH_GETRAW (k : Z) : Z := Z.land (Z.shiftr k KH_RAWCHAR_SHIFT) KH_RAWCHAR_SMASK.
Definition KH_GETCHAR (k : Z) : Z := Z.land (Z.shiftr k KH_CHAR_SHIFT) KH_CHAR_SMASK.
(** [!!((k >> 16) & m)] *)
Definition state_flag (m k : Z) : bool := negb (Z.land (Z.shiftr k 16) m =? 0).
Definition KH_CAPSLOCK : Z -> bool := state_flag KH_CAPS_LOCK.
Definition KH_SHIFT : Z -> bool := state_flag (Z.lor KH_LSHIFT_KEY KH_RSHIFT_KEY).
Definition KH_CTL : Z -> bool := state_flag (Z.lor KH_LCONTROL_KEY KH_RCONTROL_KEY).
Definition KH_ALT : Z -> bool := state_flag (Z.lor KH_LALT_KEY KH_RALT_KEY).
Definition KH_HASRAW : Z -> bool := state_flag KH_RESULT_HASRAW.
Definition KH_HASDATA : Z -> bool := state_flag KH_RESULT_HASDATA.
Definition KH_NUMPAD : Z -> bool := state_flag KH_RESULT_NUMPAD.
Definition KH_ISMAKE : Z -> bool := state_flag KH_RESULT_MAKE.
Definition KH_ISEXTENDED (k : Z) : bool := negb (Z.land (KH_GETCHAR k) 0x80 =? 0).
Definition KH_ISRAWEXTENDED (k : Z) : bool := negb (Z.land (KH_GETRAW k) 0x80 =? 0).

(** [enum kh_extended_e] *)
Definition KHE_UNDEFINED : Z := 0x80.
Definition KHE_ARROW_UP : Z := 0x81.
Definition KHE_ARROW_LEFT : Z := 0x82.
Definition KHE_ARROW_DOWN : Z := 0x83.
Definition KHE_ARROW_RIGHT : Z := 0x84.
Definition KHE_LALT : Z := 0x85.
Definition KHE_RALT : Z := 0x86.
Definition KHE_LCTL : Z := 0x87.
Definition KHE_RCTL : Z := 0x88.
Definition KHE_LSHIFT : Z := 0x89.
Definition KHE_RSHIFT : Z := 0x8A.
Definition KHE_CAPSLOCK : Z := 0x8B.
Definition KHE_NUMLOCK : Z := 0x8C.
Definition KHE_F1 : Z := 0x8D.
Definition KHE_F2 : Z := 0x8E.
Definition KHE_F3 : Z := 0x8F.
Definition KHE_F4 : Z := 0x90.
Definition KHE_F5 : Z := 0x91.
Definition KHE_F6 : Z := 0x92.
Definition KHE_F7 : Z := 0x93.
Definition KHE_F8 : Z := 0x94.
Definition KHE_F9 : Z := 0x95.
Definition KHE_F10 : Z := 0x96.
Definition KHE_F11 : Z := 0x97.
Definition KHE_F12 : Z := 0x98.
Definition KHE_PAUSE : Z := 0x99.
Definition KHE_PRINT_SCREEN : Z := 0x9A.

(** ** Decoder state: the three static variables.  The two words are [short]s in C; they are kept
    as the unsigned value of their bits, which masks and shifts do not tell apart. *)
Definition KH_PRSCR_UP_SCAN : Z := 0x0008.
Definition KH_PRSCR_DOWN_SCAN : Z := 0x0004.
Definition KH_PAUSE_SCAN : Z := 0x0002.
Definition KH_EXTENDED_SCAN : Z := 0x0001.

Record decoder : Type := mk_decoder {
  key_state : Z;
  key_internal_state : Z;
  key_sequence : Z
}.

Definition flag (m s : Z) : bool := negb (Z.land s m =? 0).

Definition with_state (d : decoder) (s : Z) : decoder :=
  mk_decoder s (key_internal_state d) (key_sequence d).
Definition with_internal (d : decoder) (s : Z) : decoder :=
  mk_decoder (key_state d) s (key_sequence d).
Definition with_sequence (d : decoder) (n : Z) : decoder :=
  mk_decoder (key_state d) (key_internal_state d) n.

Definition set_internal (d : decoder) (m : Z) : decoder :=
  with_internal d (Z.lor (key_internal_state d) m).
Definition clear_internal (d : decoder) (m : Z) : decoder :=
  with_internal d (Z.ldiff (key_internal_state d) m).

(** A modifier key: its bit is set while the key is down. *)
Definition hold (d : decoder) (pressed : bool) (m : Z) : decoder :=
  with_state d (if pressed then Z.lor (key_state d) m else Z.ldiff (key_state d) m).

(** A lock key: its bit is toggled when the key goes down. *)
Definition toggle (d : decoder) (pressed : bool) (m : Z) : decoder :=
  if pressed then
    with_state d (if flag m (key_state d) then Z.ldiff (key_state d) m else Z.lor (key_state d) m)
  else d.

(** [KHS_SHIFT_CORE], [KHS_CTL_CORE] *)
Definition shift_core (s : Z) : bool := flag (Z.lor KH_LSHIFT_KEY KH_RSHIFT_KEY) s.
Definition ctl_core (s : Z) : bool := flag (Z.lor KH_LCONTROL_KEY KH_RCONTROL_KEY) s.

(** ** The cases of the big [switch] that only name characters *)
Definition ch (a : ascii) : Z := Z.of_N (N_of_ascii a).
Arguments ch a%_char.

Inductive key_case : Type :=
  | KPlain (c : Z)
  | KNumpad (c : Z)
  | KShift (s u : Z)
  | KShiftCtl (cc s u : Z)
  | KShiftCapsCtl (cc s u : Z).

(** The pair ([code], [rcode]) of a case: the macros [KHS_SHIFT], [KHS_SHIFTCTL]
    and [KHS_SHIFTCAPSCTL]. *)
Definition case_codes (s : Z) (k : key_case) : Z * Z :=
  match k with
  | KPlain c | KNumpad c => (c, c)
  | KShift sh u => (if shift_core s then sh else u, u)
  | KShiftCtl cc sh u => (if ctl_core s then cc else if shift_core s then sh else u, u)
  | KShiftCapsCtl cc sh u =>
      (if ctl_core s then cc
       else if (shift_core s || flag KH_CAPS_LOCK s) && negb (shift_core s && flag KH_CAPS_LOCK s)
       then sh else u, u)
  end.

(** Cases 0x1 to 0x1C. *)
Definition top_rows (scancode : Z) : option key_case :=
  match scancode with
  | 0x1 => Some (KPlain 0x1B)
  | 0x2 => Some (KShift (ch "!") (ch "1"))
  | 0x3 => Some (KShiftCtl 0x00 (ch "@") (ch "2"))
  | 0x4 => Some (KShift (ch "#") (ch "3"))
  | 0x5 => Some (KShift (ch "$") (ch "4"))
  | 0x6 => Some (KShift (ch "%") (ch "5"))
  | 0x7 => Some (KShiftCtl 0x1E (ch "^") (ch "6"))
  | 0x8 => Some (KShift (ch "&") (ch "7"))
  | 0x9 => Some (KShift (ch "*") (ch "8"))
  | 0xA => Some (KShift (ch "(") (ch "9"))
  | 0xB => Some (KShift (ch ")") (ch "0"))
  | 0xC => Some (KShiftCtl 0x1F (ch "_") (ch "-"))
  | 0xD => Some (KShift (ch "+") (ch "="))
  | 0xE => Some (KPlain 8)
  | 0xF => Some (KPlain 9)
  | 0x10 => Some (KShiftCapsCtl 0x11 (ch "Q") (ch "q"))
  | 0x11 => Some (KShiftCapsCtl 0x17 (ch "W") (ch "w"))
  | 0x12 => Some (KShiftCapsCtl 0x05 (ch "E") (ch "e"))
  | 0x13 => Some (KShiftCapsCtl 0x12 (ch "R") (ch "r"))
  | 0x14 => Some (KShiftCapsCtl 0x14 (ch "T") (ch "t"))
  | 0x15 => Some (KShiftCapsCtl 0x19 (ch "Y") (ch "y"))
  | 0x16 => Some (KShiftCapsCtl 0x15 (ch "U") (ch "u"))
  | 0x17 => Some (KShiftCapsCtl 0x09 (ch "I") (ch "i"))
  | 0x18 => Some (KShiftCapsCtl 0x0F (ch "O") (ch "o"))
  | 0x19 => Some (KShiftCapsCtl 0x10 (ch "P") (ch "p"))
  | 0x1A => Some (KShiftCapsCtl 0x1B (ch "{") (ch "["))
  | 0x1B => Some (KShiftCapsCtl 0x1D (ch "}") (ch "]"))
  | 0x1C => Some (KPlain 10)
  | _ => None
  end.

(** Cases 0x1E to 0x39 without the modifier keys. *)
Definition low_rows (scancode : Z) : option key_case :=
  match scancode with
  | 0x1E => Some (KShiftCapsCtl 0x01 (ch "A") (ch "a"))
  | 0x1F => Some (KShiftCapsCtl 0x13 (ch "S") (ch "s"))
  | 0x20 => Some (KShiftCapsCtl 0x04 (ch "D") (ch "d"))
  | 0x21 => Some (KShiftCapsCtl 0x06 (ch "F") (ch "f"))
  | 0x22 => Some (KShiftCapsCtl 0x07 (ch "G") (ch "g"))
  | 0x23 => Some (KShiftCapsCtl 0x08 (ch "H") (ch "h"))
  | 0x24 => Some (KShiftCapsCtl 0x0A (ch "J") (ch "j"))
  | 0x25 => Some (KShiftCapsCtl 0x0B (ch "K") (ch "k"))
  | 0x26 => Some (KShiftCapsCtl 0x0C (ch "L") (ch "l"))
  | 0x27 => Some (KShift (ch ":") (ch ";"))
  | 0x28 => Some (KShift 34 (ch "'"))
  | 0x29 => Some (KShift (ch "~") (ch "`"))
  | 0x2B => Some (KShiftCtl 0x1C (ch "|") (ch "\"))
  | 0x2C => Some (KShiftCapsCtl 0x1A (ch "Z") (ch "z"))
  | 0x2D => Some (KShiftCapsCtl 0x18 (ch "X") (ch "x"))
  | 0x2E => Some (KShiftCapsCtl 0x03 (ch "C") (ch "c"))
  | 0x2F => Some (KShiftCapsCtl 0x16 (ch "V") (ch "v"))
  | 0x30 => Some (KShiftCapsCtl 0x02 (ch "B") (ch "b"))
  | 0x31 => Some (KShiftCapsCtl 0x0E (ch "N") (ch "n"))
  | 0x32 => Some (KShiftCapsCtl 0x0D (ch "M") (ch "m"))
  | 0x33 => Some (KShift (ch "<") (ch ","))
  | 0x34 => Some (KShift (ch ">") (ch "."))
  | 0x35 => Some (KShift (ch "?") (ch "/"))
  | 0x37 => Some (KNumpad (ch "*"))
  | 0x39 => Some (KPlain (ch " "))
  | _ => None
  end.

(** Cases 0x3B to 0x58: function keys and the numeric pad. *)
Definition function_rows (scancode : Z) : option key_case :=
  match scancode with
  | 0x3B => Some (KPlain KHE_F1)
  | 0x3C => Some (KPlain KHE_F2)
  | 0x3D => Some (KPlain KHE_F3)
  | 0x3E => Some (KPlain KHE_F4)
  | 0x3F => Some (KPlain KHE_F5)
  | 0x40 => Some (KPlain KHE_F6)
  | 0x41 => Some (KPlain KHE_F7)
  | 0x42 => Some (KPlain KHE_F8)
  | 0x43 => Some (KPlain KHE_F9)
  | 0x44 => Some (KPlain KHE_F10)
  | 0x47 => Some (KNumpad (ch "7"))
  | 0x48 => Some (KNumpad (ch "8"))
  | 0x49 => Some (KNumpad (ch "9"))
  | 0x4A => Some (KNumpad (ch "-"))
  | 0x4B => Some (KNumpad (ch "4"))
  | 0x4C => Some (KNumpad (ch "5"))
  | 0x4D => Some (KNumpad (ch "6"))
  | 0x4E => Some (KNumpad (ch "+"))
  | 0x4F => Some (KNumpad (ch "1"))
  | 0x50 => Some (KNumpad (ch "2"))
  | 0x51 => Some (KNumpad (ch "3"))
  | 0x52 => Some (KNumpad (ch "0"))
  | 0x53 => Some (KNumpad (ch "."))
  | 0x57 => Some (KPlain KHE_F11)
  | 0x58 => Some (KPlain KHE_F12)
  | _ => None
  end.

Definition key_table (scancode : Z) : option key_case :=
  match top_rows scancode with
  | Some k => Some k
  | None => match low_rows scancode with Some k => Some k | None => function_rows scancode end
  end.

(** The end of [process_simple_scan] and [process_extended_scan]. *)
Definition finish (res code rcode : Z) : Z :=
  let data := negb (rcode =? KHE_UNDEFINED) && negb (code =? KHE_UNDEFINED) in
  let res := if data then Z.lor res (Z.shiftl KH_RESULT_HASDATA KH_RMODS_SHIFT) else res in
  let code := if data then code else 0x00 in
  Z.lor (Z.lor res (Z.shiftl code KH_CHAR_SHIFT))
        (Z.lor (Z.shiftl rcode KH_RAWCHAR_SHIFT) (Z.shiftl KH_RESULT_HASRAW KH_RMODS_SHIFT)).

(** What a modifier case yields: [code] keeps its initial value 0x80. *)
Definition modifier (rcode : Z) : Z := finish 0 0x80 rcode.

Definition stop_pause (d : decoder) : decoder :=
  with_sequence (clear_internal d KH_PAUSE_SCAN) 0.

(** [process_simple_scan] *)
Definition process_simple_scan (d : decoder) (scancode : Z) (pressed : bool) : Z * decoder :=
  let pause := flag KH_PAUSE_SCAN (key_internal_state d) in
  match Z.land scancode 0x7F with
  | 0x1D =>
      if pause && (key_sequence d =? 0) then (0, with_sequence d (key_sequence d + 1))
      else (modifier KHE_LCTL, hold (stop_pause d) pressed KH_LCONTROL_KEY)
  | 0x2A => (modifier KHE_LSHIFT, hold d pressed KH_LSHIFT_KEY)
  | 0x36 => (modifier KHE_RSHIFT, hold d pressed KH_RSHIFT_KEY)
  | 0x38 => (modifier KHE_LALT, hold d pressed KH_LALT_KEY)
  | 0x3A => (modifier KHE_CAPSLOCK, toggle d pressed KH_CAPS_LOCK)
  | 0x45 =>
      if pause && (key_sequence d =? 1) then (0, with_sequence d (key_sequence d + 1))
      else (modifier KHE_NUMLOCK, toggle (stop_pause d) pressed KH_NUM_LOCK)
  | 0x61 =>
      if negb pause then (0, with_sequence (set_internal d KH_PAUSE_SCAN) 0)
      else if pause && (key_sequence d =? 2) then (0, with_sequence d (key_sequence d + 1))
      else (finish 0 KHE_UNDEFINED KHE_UNDEFINED, stop_pause d)
  | sc =>
      match key_table sc with
      | Some k =>
          let '(code, rcode) := case_codes (key_state d) k in
          let res := match k with KNumpad _ => Z.shiftl KH_RESULT_NUMPAD KH_RMODS_SHIFT | _ => 0 end in
          (finish res code rcode, d)
      | None => (finish 0 KHE_UNDEFINED KHE_UNDEFINED, d)
      end
  end.

(** [process_extended_scan] *)
Definition process_extended_scan (d : decoder) (keypress : Z) (pressed : bool) : Z * decoder :=
  let done r d := (r, clear_internal d KH_EXTENDED_SCAN) in
  let numpad := Z.shiftl KH_RESULT_NUMPAD KH_RMODS_SHIFT in
  match Z.land keypress 0x7F with
  | 0x1C => done (finish numpad 10 10) d
  | 0x1D => done (modifier KHE_RCTL) (hold d pressed KH_RCONTROL_KEY)
  | 0x2A =>
      if flag KH_PRSCR_UP_SCAN (key_internal_state d) then
        done (finish 0 KHE_PRINT_SCREEN KHE_PRINT_SCREEN) (clear_internal d KH_PRSCR_UP_SCAN)
      else (0, clear_internal (set_internal d KH_PRSCR_DOWN_SCAN) KH_EXTENDED_SCAN)
  | 0x35 => done (finish numpad (ch "/") (ch "/")) d
  | 0x37 =>
      if flag KH_PRSCR_DOWN_SCAN (key_internal_state d) then
        done (finish 0 KHE_PRINT_SCREEN KHE_PRINT_SCREEN) (clear_internal d KH_PRSCR_DOWN_SCAN)
      else (0, clear_internal (set_internal d KH_PRSCR_UP_SCAN) KH_EXTENDED_SCAN)
  | 0x38 => done (modifier KHE_RALT) (hold d pressed KH_RALT_KEY)
  | 0x48 => done (finish 0 KHE_ARROW_UP KHE_ARROW_UP) d
  | 0x4b => done (finish 0 KHE_ARROW_LEFT KHE_ARROW_LEFT) d
  | 0x4d => done (finish 0 KHE_ARROW_RIGHT KHE_ARROW_RIGHT) d
  | 0x50 => done (finish 0 KHE_ARROW_DOWN KHE_ARROW_DOWN) d
  | 0x53 => done (finish 0 0x7F 0x7F) d
  | _ => done (finish 0 KHE_UNDEFINED KHE_UNDEFINED) d
  end.

(** The end of [process_scancode]: the make bit and the modifier state. *)
Definition complete (pressed : bool) (r : Z * decoder) : Z * decoder :=
  let '(res, d) := r in
  let res := if pressed then Z.lor res (Z.shiftl KH_RESULT_MAKE KH_RMODS_SHIFT) else res in
  (Z.lor res (Z.shiftl (Z.land (key_state d) KH_STATE_SMASK) KH_STATE_SHIFT), d).

(** [process_scancode]: the result as a 32-bit word, and the next state. *)
Definition process_scancode (d : decoder) (keypress : Z) : Z * decoder :=
  let pressed := Z.land keypress 0x80 =? 0 in
  let keycode := Z.land keypress 0x7F in
  let pause := flag KH_PAUSE_SCAN (key_internal_state d) in
  let simple d :=
    let d := clear_internal d (Z.lor KH_PRSCR_UP_SCAN KH_PRSCR_DOWN_SCAN) in
    complete pressed (process_simple_scan d keycode pressed) in
  if flag KH_EXTENDED_SCAN (key_internal_state d) then
    complete pressed (process_extended_scan d keycode pressed)
  else
    match Z.land keypress 0xFF with
    | 0x9D =>
        if pause && (key_sequence d =? 3) then (0, with_sequence d (key_sequence d + 1))
        else simple (stop_pause d)
    | 0xC5 =>
        if pause && (key_sequence d =? 4) then
          complete pressed
            (Z.lor (Z.lor (Z.shiftl KHE_PAUSE KH_CHAR_SHIFT) (Z.shiftl KHE_PAUSE KH_RAWCHAR_SHIFT))
                   (Z.shiftl KH_RESULT_HASDATA KH_RMODS_SHIFT),
             clear_internal d KH_PAUSE_SCAN)
        else simple (stop_pause d)
    | 0xE0 => (u32 (Z.shiftl (key_state d) KH_STATE_SHIFT), set_internal d KH_EXTENDED_SCAN)
    | _ => simple d
    end.

(** Feeding a sequence of scancodes: the results, and the state at the end. *)
Fixpoint feed (d : decoder) (l : list Z) : list Z * decoder :=
  match l with
  | [] => ([], d)
  | k :: l =>
      let '(r, d) := process_scancode d k in
      let '(rs, d) := feed d l in
      (r :: rs, d)
  end.
