(* ===== verification/KeyboardSpec.v ===== *)
(** Properties of the scancode decoder: its state invariant, the tracking of the
    modifier keys over any sequence of scancodes, the decoding of the letter keys,
    the identity of a key across press, release and modifiers, and the multi-byte
    sequences.  Statements about one scancode are decided by evaluation over the
    256 modifier states and 256 codes and lifted to sequences by induction. *)
From S2P Require Import Prelude Keyboard.
From Stdlib Require Import Ascii.

(** ** The states the decoder can be in *)
Definition key_states : list Z := (fun k => 256 * Z.of_nat k) <$> seq 0 256.
Definition codes : list Z := Z.of_nat <$> seq 0 256.

Record decoder_ok (d : decoder) : Prop := {
  do_state : exists k, 0 <= k < 256 /\ key_state d = 256 * k;
  do_internal : 0 <= key_internal_state d < 16;
  do_sequence : 0 <= key_sequence d <= 4
}.

(** No multi-byte sequence is in progress. *)
Definition idle (d : decoder) : Prop := key_internal_state d = 0.

Lemma key_states_spec s : (exists k, 0 <= k < 256 /\ s = 256 * k) <-> s ∈ key_states.
Proof.
  unfold key_states. rewrite list_elem_of_fmap. split.
  - intros (k & Hk & ->). exists (Z.to_nat k). split; [lia|]. apply elem_of_seq. lia.
  - intros (k & -> & Hk%elem_of_seq). exists (Z.of_nat k). lia.
Qed.

Lemma codes_spec c : 0 <= c < 256 <-> c ∈ codes.
Proof.
  unfold codes. rewrite list_elem_of_fmap. split.
  - intros Hc. exists (Z.to_nat c). split; [lia|]. apply elem_of_seq. lia.
  - intros (k & -> & Hk%elem_of_seq). lia.
Qed.

Lemma forallb_elem {A} (f : A -> bool) l x : forallb f l = true -> x ∈ l -> f x = true.
Proof. rewrite forallb_forall. intros H Hx. apply H. by apply list_elem_of_In. Qed.

(** A check over all modifier states and all codes of a list. *)
Lemma by_cases (P : Z -> Z -> bool) cs s c :
  forallb (fun s => forallb (P s) cs) key_states = true ->
  (exists k, 0 <= k < 256 /\ s = 256 * k) -> c ∈ cs -> P s c = true.
Proof.
  intros H Hs Hc. apply key_states_spec in Hs. pose proof (forallb_elem _ _ _ H Hs) as H1.
  by apply (forallb_elem _ _ _ H1).
Qed.

(** ** The invariant *)

(** Words whose bits lie in a mask. *)
Definition within (m s : Z) : Prop := 0 <= s /\ Z.ldiff s m = 0.

Lemma within_lor m s x : within m s -> within m x -> within m (Z.lor s x).
Proof.
  intros [Hs Es] [Hx Ex]. split; [by apply Z.lor_nonneg|].
  by rewrite Z.ldiff_land, Z.land_lor_distr_l, <- !Z.ldiff_land, Es, Ex.
Qed.

Lemma within_ldiff m s x : within m s -> within m (Z.ldiff s x).
Proof.
  intros [Hs Es]. split; [apply Z.ldiff_nonneg; by left|].
  apply Z.bits_inj'. intros i Hi. assert (Z.testbit (Z.ldiff s m) i = false) as H by (by rewrite Es, Z.bits_0).
  rewrite Z.ldiff_spec in H. rewrite !Z.ldiff_spec, Z.bits_0.
  destruct (Z.testbit s i), (Z.testbit x i), (Z.testbit m i); done.
Qed.

Lemma within_state s : within 0xFF00 s <-> exists k, 0 <= k < 256 /\ s = 256 * k.
Proof.
  change 0xFF00 with (Z.shiftl (Z.ones 8) 8). split.
  - intros [Hs He]. assert (forall i, Z.testbit s i && negb (Z.testbit (Z.shiftl (Z.ones 8) 8) i) = false) as Hb.
    { intros i. by rewrite <- Z.ldiff_spec, He, Z.bits_0. }
    exists (Z.land (Z.shiftr s 8) (Z.ones 8)). rewrite Z.land_ones by lia. change (2 ^ 8) with 256.
    split; [by apply Z.mod_pos_bound|]. rewrite <- Z.mul_comm. change 256 with (2 ^ 8) at 2.
    rewrite <- Z.shiftl_mul_pow2, <- (Z.land_ones _ 8) by lia. apply Z.bits_inj'. intros i Hi.
    specialize (Hb i). rewrite Z.shiftl_spec, Z.land_spec by lia.
    rewrite Z.shiftl_spec in Hb by lia. destruct (decide (i < 8)).
    + rewrite (Z.testbit_neg_r (Z.ones 8)) in * by lia. rewrite andb_false_r. cbn in Hb.
      by rewrite andb_true_r in Hb.
    + rewrite Z.shiftr_spec by lia. replace (i - 8 + 8) with i by lia.
      destruct (Z.testbit s i), (Z.testbit (Z.ones 8) (i - 8)); done.
  - intros (k & Hk & ->). split; [lia|]. apply Z.bits_inj'. intros i Hi.
    rewrite Z.ldiff_spec, Z.bits_0. replace (256 * k) with (Z.shiftl k 8)
      by (rewrite Z.shiftl_mul_pow2; lia). rewrite !Z.shiftl_spec by lia.
    destruct (decide (i < 8)); [by rewrite Z.testbit_neg_r by lia|].
    destruct (decide (i < 16)); [rewrite Z.ones_spec_low by lia; apply andb_false_r|].
    replace (Z.testbit k (i - 8)) with false; [done|]. symmetry.
    destruct (decide (k = 0)) as [->|]; [apply Z.bits_0|].
    apply Z.bits_above_log2; [lia|]. apply Z.log2_lt_pow2; [lia|].
    apply Z.lt_le_trans with (2 ^ 8); [lia|]. apply Z.pow_le_mono_r; lia.
Qed.

Lemma within_internal s : within 0xF s <-> 0 <= s < 16.
Proof.
  unfold within. change 0xF with (Z.ones 4). split.
  - intros [Hs He]. rewrite Z.ldiff_ones_r in He by lia.
    rewrite Z.shiftl_mul_pow2, Z.shiftr_div_pow2 in He by lia. change (2 ^ 4) with 16 in He.
    zdiv.
  - intros Hs. split; [lia|]. rewrite Z.ldiff_ones_r by lia.
    rewrite Z.shiftr_div_pow2 by lia. rewrite Z.div_small; [done|]. change (2 ^ 4) with 16. lia.
Qed.

Lemma decoder_ok_within d :
  decoder_ok d <-> within 0xFF00 (key_state d) /\ within 0xF (key_internal_state d) /\
                   0 <= key_sequence d <= 4.
Proof. rewrite within_state, within_internal. split; [by intros []|by intros (? & ? & ?)]. Qed.

Create HintDb key.
#[local] Hint Resolve within_lor within_ldiff : key.
#[local] Hint Extern 1 (within _ _) => (by vm_compute) : key.

Lemma hold_ok d p m : decoder_ok d -> within 0xFF00 m -> decoder_ok (hold d p m).
Proof.
  rewrite !decoder_ok_within. intros (Hs & ? & ?) Hm. unfold hold. cbn. destruct p; auto with key.
Qed.

Lemma toggle_ok d p m : decoder_ok d -> within 0xFF00 m -> decoder_ok (toggle d p m).
Proof.
  rewrite !decoder_ok_within. intros (Hs & ? & ?) Hm. unfold toggle. destruct p; [|done].
  destruct (flag _ _); cbn; auto with key.
Qed.

Lemma set_internal_ok d m : decoder_ok d -> within 0xF m -> decoder_ok (set_internal d m).
Proof. rewrite !decoder_ok_within. intros (Hs & ? & ?) Hm. cbn. auto with key. Qed.

Lemma clear_internal_ok d m : decoder_ok d -> decoder_ok (clear_internal d m).
Proof. rewrite !decoder_ok_within. intros (Hs & ? & ?). cbn. auto with key. Qed.

Lemma with_sequence_ok d n : decoder_ok d -> 0 <= n <= 4 -> decoder_ok (with_sequence d n).
Proof. intros [] ?. by split. Qed.

Lemma next_stage_ok d b n :
  decoder_ok d -> b && (key_sequence d =? n) = true -> 0 <= n <= 3 ->
  decoder_ok (with_sequence d (key_sequence d + 1)).
Proof.
  intros Hd [_ ->%Z.eqb_eq]%andb_prop Hn. apply with_sequence_ok; [done|lia].
Qed.

Lemma stop_pause_ok d : decoder_ok d -> decoder_ok (stop_pause d).
Proof. intros Hd. apply with_sequence_ok; [by apply clear_internal_ok|lia]. Qed.

#[local] Hint Resolve hold_ok toggle_ok set_internal_ok clear_internal_ok with_sequence_ok
  stop_pause_ok next_stage_ok : key.

Lemma simple_scan_ok d sc p : decoder_ok d -> decoder_ok (process_simple_scan d sc p).2.
Proof.
  intros Hd. unfold process_simple_scan. cbv zeta.
  repeat (case_match; try (cbn [snd]; eauto with key lia)); try (destruct (case_codes _ _); done).
  all: cbn [snd]; eauto 6 with key lia.
Qed.

Lemma extended_scan_ok d sc p : decoder_ok d -> decoder_ok (process_extended_scan d sc p).2.
Proof.
  intros Hd. unfold process_extended_scan. cbv zeta.
  repeat (case_match; try (cbn [snd]; eauto 6 with key lia)).
Qed.

Lemma complete_snd p r : (complete p r).2 = r.2.
Proof. by destruct r. Qed.

Lemma process_ok d k : decoder_ok d -> decoder_ok (process_scancode d k).2.
Proof.
  intros Hd. unfold process_scancode. cbv zeta.
  destruct (flag KH_EXTENDED_SCAN _); [rewrite complete_snd; by apply extended_scan_ok|].
  repeat (case_match; try (rewrite ?complete_snd; cbn [snd]; eauto 6 using simple_scan_ok with key lia)).
Qed.

Lemma feed_app d l l' :
  feed d (l ++ l') =
  let '(r1, d1) := feed d l in let '(r2, d2) := feed d1 l' in (r1 ++ r2, d2).
Proof.
  revert d. induction l as [|k l IH]; intros d; cbn; [by destruct (feed d l')|].
  destruct (process_scancode d k) as [r d1]. rewrite IH.
  destruct (feed d1 l) as [r1 d2]. by destruct (feed d2 l').
Qed.

Lemma feed_snoc d l k : (feed d (l ++ [k])).2 = (process_scancode (feed d l).2 k).2.
Proof.
  rewrite feed_app. destruct (feed d l) as [r1 d1]. cbn. by destruct (process_scancode d1 k).
Qed.

Lemma feed_ok d l : decoder_ok d -> decoder_ok (feed d l).2.
Proof.
  intros Hd. induction l as [|k l IH] using rev_ind; [done|]. rewrite feed_snoc. by apply process_ok.
Qed.

(** ** Simple codes outside a sequence: the stage does not matter *)
Lemma idle_decoder d : idle d -> d = mk_decoder (key_state d) 0 (key_sequence d).
Proof. unfold idle. destruct d. cbn. by intros ->. Qed.

Definition same_but_stage (d d' : decoder) : Prop :=
  key_state d = key_state d' /\ key_internal_state d = key_internal_state d'.

Lemma hold_same d d' p m : same_but_stage d d' -> same_but_stage (hold d p m) (hold d' p m).
Proof. intros [H1 H2]. split; cbn; by rewrite ?H1, ?H2. Qed.

Lemma toggle_same d d' p m : same_but_stage d d' -> same_but_stage (toggle d p m) (toggle d' p m).
Proof. intros [H1 H2]. unfold toggle. destruct p; [|done]. split; cbn; by rewrite ?H1, ?H2. Qed.

Lemma clear_same d d' m : same_but_stage d d' -> same_but_stage (clear_internal d m) (clear_internal d' m).
Proof. intros [H1 H2]. split; cbn; by rewrite ?H1, ?H2. Qed.

Lemma set_same d d' m : same_but_stage d d' -> same_but_stage (set_internal d m) (set_internal d' m).
Proof. intros [H1 H2]. split; cbn; by rewrite ?H1, ?H2. Qed.

Lemma sequence_same d d' n n' : same_but_stage d d' -> same_but_stage (with_sequence d n) (with_sequence d' n').
Proof. done. Qed.

Lemma stop_pause_same d d' : same_but_stage d d' -> same_but_stage (stop_pause d) (stop_pause d').
Proof. intros H. by apply sequence_same, clear_same. Qed.

#[local] Hint Resolve hold_same toggle_same clear_same set_same sequence_same stop_pause_same : key.

(** Equal results, and states that differ in the stage at most. *)
Definition agree (r r' : Z * decoder) : Prop := r.1 = r'.1 /\ same_but_stage r.2 r'.2.

Lemma simple_stage d d' sc p :
  same_but_stage d d' -> flag KH_PAUSE_SCAN (key_internal_state d) = false ->
  agree (process_simple_scan d sc p) (process_simple_scan d' sc p).
Proof.
  intros Hs Hp. pose proof Hs as [E1 E2]. unfold process_simple_scan. cbv zeta.
  rewrite <- E1, <- E2, Hp. cbn [negb andb].
  destruct (key_table _) as [k|]; [destruct (case_codes _ k)|].
  all: repeat (case_match; try (split; [done|]; cbn [snd]; eauto with key)).
Qed.

Lemma idle_stage s q k :
  agree (process_scancode (mk_decoder s 0 q) k) (process_scancode (mk_decoder s 0 0) k).
Proof.
  unfold process_scancode. cbv zeta. cbn [key_internal_state].
  change (flag KH_EXTENDED_SCAN 0) with false. change (flag KH_PAUSE_SCAN 0) with false. cbn [andb]. assert (same_but_stage (mk_decoder s 0 q) (mk_decoder s 0 0)) as Hs by done.
  set (d := mk_decoder s 0 q) in *. set (d' := mk_decoder s 0 0) in *.
  assert (forall e e' p sc, same_but_stage e e' -> key_internal_state e = 0 ->
    agree (complete p (process_simple_scan e sc p)) (complete p (process_simple_scan e' sc p))) as Hc.
  { intros e e' p sc He Hi. destruct (simple_stage e e' sc p He) as [H1 H2]; [by rewrite Hi|].
    destruct (process_simple_scan e sc p), (process_simple_scan e' sc p). cbn in *. subst.
    destruct H2 as [H2 H3]. unfold complete. split; cbn [fst snd]; [by rewrite H2|by split]. }
  repeat (case_match; try (apply Hc; [by eauto with key|done])).
  split; [done|]. by apply set_same.
Qed.

(** ** Tracking of the modifier keys *)

(** The keys that are held, with their bits, and the lock keys. *)
Definition hold_keys : list (Z * Z) :=
  [(0x1D, KH_LCONTROL_KEY); (0x2A, KH_LSHIFT_KEY); (0x36, KH_RSHIFT_KEY); (0x38, KH_LALT_KEY)].
Definition lock_keys : list (Z * Z) := [(0x3A, KH_CAPS_LOCK); (0x45, KH_NUM_LOCK)].

(** Whether key [code] is down after the codes [l]. *)
Definition held (code : Z) (l : list Z) (init : bool) : bool :=
  fold_left (fun b k => if k =? code then true else if k =? code + 0x80 then false else b) l init.

(** Whether lock [code] is on after the codes [l]. *)
Definition locked (code : Z) (l : list Z) (init : bool) : bool :=
  fold_left (fun b k => if k =? code then negb b else b) l init.

(** The codes that do not start a multi-byte sequence: 0x61 does, since the decoder
    looks for 0xE1 without its top bit. *)
Definition simple_codes : list Z := filter (fun c => c <> 0xE0 /\ c <> 0xE1 /\ c <> 0x61) codes.

Definition modifier_step (s c : Z) : bool :=
  let d := (process_scancode (mk_decoder s 0 0) c).2 in
  (key_internal_state d =? 0) &&
  forallb (fun '(k, m) => Bool.eqb (flag m (key_state d)) (held k [c] (flag m s))) hold_keys &&
  forallb (fun '(k, m) => Bool.eqb (flag m (key_state d)) (locked k [c] (flag m s))) lock_keys.

Lemma modifier_step_ok :
  forallb (fun s => forallb (modifier_step s) simple_codes) key_states = true.
Proof. by vm_compute. Qed.

Lemma simple_codes_spec c : c ∈ simple_codes <-> 0 <= c < 256 /\ c <> 0xE0 /\ c <> 0xE1 /\ c <> 0x61.
Proof. unfold simple_codes. rewrite list_elem_of_filter, <- codes_spec. tauto. Qed.

Lemma modifiers_ok d l :
  decoder_ok d -> idle d -> Forall (fun c => c ∈ simple_codes) l ->
  idle (feed d l).2 /\
  (forall k m, (k, m) ∈ hold_keys -> flag m (key_state (feed d l).2) = held k l (flag m (key_state d))) /\
  (forall k m, (k, m) ∈ lock_keys -> flag m (key_state (feed d l).2) = locked k l (flag m (key_state d))).
Proof.
  intros Hd Hi. induction l as [|c l IH] using rev_ind; [done|]. rewrite Forall_app, Forall_singleton.
  intros [Hl Hc]. destruct (IH Hl) as (Hi' & Hh & Hk). rewrite feed_snoc.
  pose proof (feed_ok d l Hd) as Hd'. set (d1 := (feed d l).2) in *.
  rewrite (idle_decoder d1 Hi').
  destruct (idle_stage (key_state d1) (key_sequence d1) c) as (_ & Es & Ei).
  pose proof (by_cases _ _ _ _ modifier_step_ok (do_state _ Hd') Hc) as Hstep.
  unfold modifier_step in Hstep. rewrite !andb_true_iff, Z.eqb_eq in Hstep.
  destruct Hstep as [[H1 H2] H3]. unfold idle. rewrite Es, Ei. split; [done|].
  unfold held, locked in *. split; intros k m Hkm; rewrite fold_left_app.
  - rewrite <- Hh by done. pose proof (forallb_elem _ _ _ H2 Hkm) as H. by apply Bool.eqb_prop in H.
  - rewrite <- Hk by done. pose proof (forallb_elem _ _ _ H3 Hkm) as H. by apply Bool.eqb_prop in H.
Qed.

(** ** Letters *)
Definition letters : list Z := seqZ 0x10 10 ++ seqZ 0x1E 9 ++ seqZ 0x2C 7.

Definition letter_step (s c : Z) : bool :=
  let r := (process_scancode (mk_decoder s 0 0) c).1 in
  let raw := KH_GETRAW r in
  KH_HASDATA r && KH_ISMAKE r && (ch "a" <=? raw) && (raw <=? ch "z") && (KH_STATE r =? s) &&
  (KH_GETCHAR r =?
     if ctl_core s then raw - 0x60
     else if xorb (shift_core s) (flag KH_CAPS_LOCK s) then raw - 0x20 else raw).

Lemma letter_step_ok : forallb (fun s => forallb (letter_step s) letters) key_states = true.
Proof. by vm_compute. Qed.

(** ** The identity of a key *)

(** The raw code of a simple key in the state with no modifier down. *)
Definition raw_of (c : Z) : Z := KH_GETRAW (process_scancode (mk_decoder 0 0 0) (Z.land c 0x7F)).1.
Definition data_of (c : Z) : bool := KH_HASDATA (process_scancode (mk_decoder 0 0 0) (Z.land c 0x7F)).1.

Definition identity_step (s c : Z) : bool :=
  let r := (process_scancode (mk_decoder s 0 0) c).1 in
  (KH_GETRAW r =? raw_of c) && Bool.eqb (KH_HASDATA r) (data_of c) && KH_HASRAW r &&
  Bool.eqb (KH_ISMAKE r) (c <? 0x80).

Definition key_codes : list Z := filter (fun c => c <> 0xE0 /\ c <> 0xE1 /\ c <> 0x60 /\ c <> 0x61) codes.

Lemma identity_step_ok : forallb (fun s => forallb (identity_step s) key_codes) key_states = true.
Proof. by vm_compute. Qed.

(** ** Multi-byte sequences *)
Definition pause_sequence : list Z := [0xE1; 0x1D; 0x45; 0xE1; 0x9D; 0xC5].
Definition print_screen_make : list Z := [0xE0; 0x2A; 0xE0; 0x37].
Definition print_screen_break : list Z := [0xE0; 0xB7; 0xE0; 0xAA].

(** All results of the sequence but the last carry no data; the last is [key]. *)
Definition one_key (key : Z) (make : bool) (s : Z) (seq : list Z) : bool :=
  let '(rs, d) := feed (mk_decoder s 0 0) seq in
  forallb (fun r => negb (KH_HASDATA r)) (removelast rs) &&
  (let r := List.last rs 0 in
   KH_HASDATA r && (KH_GETCHAR r =? key) && (KH_GETRAW r =? key) && Bool.eqb (KH_ISMAKE r) make) &&
  (key_state d =? s) && (key_internal_state d =? 0).

Lemma sequences_step_ok :
  forallb (fun s => one_key KHE_PAUSE false s pause_sequence &&
                    one_key KHE_PRINT_SCREEN true s print_screen_make &&
                    one_key KHE_PRINT_SCREEN false s print_screen_break) key_states = true.
Proof. by vm_compute. Qed.

(** ** Properties *)

(** Whatever bytes arrive, the decoder stays in its state space: only the eight
    modifier bits, four internal flags and stages 0 to 4 are ever used. *)
Theorem decoder_invariant (d : decoder) (l : list Z) (Hd : decoder_ok d) : decoder_ok (feed d l).2.
Proof. exact (feed_ok d l Hd). Qed.

(** Over any sequence of single-byte codes, each modifier bit says exactly
    whether its key is down (the last code of that key was a press), and each lock
    bit has been toggled once per press of its key. *)
Theorem modifiers_tracked (d : decoder) (l : list Z) (Hd : decoder_ok d) (Hi : idle d)
    (Hl : Forall (fun c => c ∈ simple_codes) l) :
  (forall k m, (k, m) ∈ hold_keys -> flag m (key_state (feed d l).2) = held k l (flag m (key_state d))) /\
  (forall k m, (k, m) ∈ lock_keys -> flag m (key_state (feed d l).2) = locked k l (flag m (key_state d))).
Proof. by destruct (modifiers_ok d l Hd Hi Hl) as (_ & ? & ?). Qed.

(** Pressing a letter key gives the control code of the letter when a control
    key is down, else the capital when exactly one of shift and caps lock is
    active, else the small letter; the result carries the modifier state. *)
Theorem letters_decoded (d : decoder) (c : Z) (Hd : decoder_ok d) (Hi : idle d) (Hc : c ∈ letters) :
  let r := (process_scancode d c).1 in
  let raw := KH_GETRAW r in
  KH_HASDATA r = true /\ KH_ISMAKE r = true /\ ch "a" <= raw <= ch "z" /\
  KH_STATE r = key_state d /\
  KH_GETCHAR r = (if ctl_core (key_state d) then raw - 0x60
                  else if xorb (shift_core (key_state d)) (flag KH_CAPS_LOCK (key_state d))
                       then raw - 0x20 else raw).
Proof.
  cbv zeta. rewrite (idle_decoder d Hi). cbn [key_state].
  destruct (idle_stage (key_state d) (key_sequence d) c) as [-> _].
  pose proof (by_cases _ _ _ _ letter_step_ok (do_state _ Hd) Hc) as H. unfold letter_step in H.
  rewrite !andb_true_iff, !Z.eqb_eq, !Z.leb_le in H. tauto.
Qed.

(** The raw code of a key, and whether it counts as data, depend on the key
    alone: a release reports the same key as the press, with the make bit clear,
    whatever modifiers were pressed or released in between. *)
Theorem key_identity (d : decoder) (c : Z) (Hd : decoder_ok d) (Hi : idle d) (Hc : c ∈ key_codes) :
  let r := (process_scancode d c).1 in
  KH_GETRAW r = raw_of c /\ KH_HASDATA r = data_of c /\ KH_HASRAW r = true /\
  KH_ISMAKE r = (c <? 0x80).
Proof.
  cbv zeta. rewrite (idle_decoder d Hi).
  destruct (idle_stage (key_state d) (key_sequence d) c) as [-> _].
  pose proof (by_cases _ _ _ _ identity_step_ok (do_state _ Hd) Hc) as H. unfold identity_step in H.
  rewrite !andb_true_iff, Z.eqb_eq in H. destruct H as [[[? H2%Bool.eqb_prop] ?] H4%Bool.eqb_prop]. tauto.
Qed.

(** The six bytes of the pause key and the four bytes of print screen, pressed
    or released, are decoded to one key each: only the last byte carries data, the
    modifiers are unchanged and the decoder is idle again.  The pause key is
    reported without the make bit, as a release. *)
Theorem sequences_decoded (s : Z) (Hs : exists k, 0 <= k < 256 /\ s = 256 * k) :
  one_key KHE_PAUSE false s pause_sequence = true /\
  one_key KHE_PRINT_SCREEN true s print_screen_make = true /\
  one_key KHE_PRINT_SCREEN false s print_screen_break = true.
Proof.
  apply key_states_spec in Hs. pose proof (forallb_elem _ _ _ sequences_step_ok Hs) as H.
  cbn beta in H. rewrite !andb_true_iff in H. tauto.
Qed.

(** ** Witnesses *)
Definition demo_decoder : decoder := mk_decoder KH_LSHIFT_KEY 0 0.

Lemma demo_decoder_ok : decoder_ok demo_decoder.
Proof. split; cbn; [exists 128; unfold KH_LSHIFT_KEY; lia|lia|lia]. Qed.

Lemma decoder_invariant_witness : decoder_ok (feed demo_decoder [0x1E; 0xAA; 0xE1]).2.
Proof. exact (decoder_invariant demo_decoder _ demo_decoder_ok). Defined.

Lemma modifiers_tracked_witness :
  flag KH_LSHIFT_KEY (key_state (feed demo_decoder [0x1E; 0xAA; 0x3A]).2) = false.
Proof.
  destruct (modifiers_tracked demo_decoder [0x1E; 0xAA; 0x3A] demo_decoder_ok eq_refl) as [H _].
  - rewrite !Forall_cons, !simple_codes_spec. repeat split; lia || constructor.
  - rewrite (H 0x2A KH_LSHIFT_KEY); [done|]. apply elem_of_cons. right. apply list_elem_of_here.
Defined.

Lemma letters_decoded_witness : KH_GETCHAR (process_scancode demo_decoder 0x1E).1 = ch "A".
Proof.
  destruct (letters_decoded demo_decoder 0x1E demo_decoder_ok eq_refl) as (_ & _ & _ & _ & ->).
  - apply list_elem_of_In. vm_compute. tauto.
  - by vm_compute.
Defined.

Lemma key_identity_witness : KH_GETRAW (process_scancode demo_decoder 0x9E).1 = ch "a".
Proof.
  destruct (key_identity demo_decoder 0x9E demo_decoder_ok eq_refl) as (-> & _).
  - apply list_elem_of_filter. split; [lia|]. apply codes_spec. lia.
  - by vm_compute.
Defined.

Lemma sequences_decoded_witness : one_key KHE_PAUSE false 0x8000 pause_sequence = true.
Proof. apply (sequences_decoded 0x8000). exists 128. lia. Defined.
