(* ===== verification/Sched.v ===== *)
(** The scheduler: [src/src/task/scheduler.c] with the thread control block of
    [src/src/include/task/thread.h], the timer callback of
    [src/src/interrupt/time.c], the spin lock of [src/src/sync/spinlock.c] and the
    condition variable of [src/src/sync/cond_var.c].

    Thread control blocks and queues are stores from address to contents, the
    queues' nodes the node store of [LinkedList].  The switch of the stacks
    ([context_switch], in assembly) is the change of [crt_thread_node]: what runs
    next is the next thread, and an operation that switches ends there. *)
From S2P Require Import Prelude BitMap LinkedList.

(** ** Data *)

(** [enum task_status] *)
Inductive task_status : Type :=
  | TASK_RUNNING
  | TASK_READY
  | TASK_BLOCKED
  | TASK_WAITING
  | TASK_HANGING
  | TASK_DEAD.

#[export] Instance task_status_eq_dec : EqDecision task_status.
Proof. solve_decision. Defined.

(** [tcb_t]: the fields the scheduler uses.  [crt_queue] and [crt_node_ptr] are
    addresses, [0] is [NULL]. *)
Record tcb_t : Type := mk_tcb {
  status : task_status;
  priority : Z;
  ticks : Z;
  need_reschedule : bool;
  process : Z;
  preempt_count : Z;
  kernel_stack : Z;
  crt_queue : Z;
  crt_node_ptr : Z
}.

Definition with_status (t : tcb_t) (x : task_status) : tcb_t :=
  mk_tcb x (priority t) (ticks t) (need_reschedule t) (process t) (preempt_count t)
    (kernel_stack t) (crt_queue t) (crt_node_ptr t).
Definition with_ticks (t : tcb_t) (x : Z) (b : bool) : tcb_t :=
  mk_tcb (status t) (priority t) x b (process t) (preempt_count t) (kernel_stack t)
    (crt_queue t) (crt_node_ptr t).
Definition with_preempt (t : tcb_t) (x : Z) : tcb_t :=
  mk_tcb (status t) (priority t) (ticks t) (need_reschedule t) (process t) x (kernel_stack t)
    (crt_queue t) (crt_node_ptr t).
Definition with_queue (t : tcb_t) (q : Z) : tcb_t :=
  mk_tcb (status t) (priority t) (ticks t) (need_reschedule t) (process t) (preempt_count t)
    (kernel_stack t) q (crt_node_ptr t).

(** The queues of the file, by address; a wait queue is any other address. *)
Definition ready_tasks : Z := 1.
Definition dead_tasks : Z := 2.
(** [dead_cv.waiting_queue] *)
Definition dead_cv : Z := 3.

Definition KERNEL_STACK_SIZE : Z := 8192.

(** The static variables, the interrupt flag, the page directory in use (by its
    process) and the kernel stack in the task state segment. *)
Record sched : Type := mk_sched {
  s_nodes : nodes;
  tcbs : gmap Z tcb_t;
  queues : gmap Z linked_list_t;
  crt_thread_node : Z;
  main_thread_node : Z;
  main_thread_in_ready_queue : bool;
  multi_task_enabled : bool;
  interrupts : bool;
  page_dir : Z;
  tss_esp0 : Z;
  dead_resource_lock : Z
}.

Definition with_queues (s : sched) (st : nodes) (q : gmap Z linked_list_t) : sched :=
  mk_sched st (tcbs s) q (crt_thread_node s) (main_thread_node s) (main_thread_in_ready_queue s)
    (multi_task_enabled s) (interrupts s) (page_dir s) (tss_esp0 s) (dead_resource_lock s).
Definition with_tcbs (s : sched) (t : gmap Z tcb_t) : sched :=
  mk_sched (s_nodes s) t (queues s) (crt_thread_node s) (main_thread_node s)
    (main_thread_in_ready_queue s) (multi_task_enabled s) (interrupts s) (page_dir s) (tss_esp0 s)
    (dead_resource_lock s).
Definition with_main_ready (s : sched) (b : bool) : sched :=
  mk_sched (s_nodes s) (tcbs s) (queues s) (crt_thread_node s) (main_thread_node s) b
    (multi_task_enabled s) (interrupts s) (page_dir s) (tss_esp0 s) (dead_resource_lock s).
Definition with_current (s : sched) (n : Z) : sched :=
  mk_sched (s_nodes s) (tcbs s) (queues s) n (main_thread_node s) (main_thread_in_ready_queue s)
    (multi_task_enabled s) (interrupts s) (page_dir s) (tss_esp0 s) (dead_resource_lock s).
Definition with_cpu (s : sched) (dir esp : Z) : sched :=
  mk_sched (s_nodes s) (tcbs s) (queues s) (crt_thread_node s) (main_thread_node s)
    (main_thread_in_ready_queue s) (multi_task_enabled s) (interrupts s) dir esp
    (dead_resource_lock s).
Definition with_interrupts (s : sched) (b : bool) : sched :=
  mk_sched (s_nodes s) (tcbs s) (queues s) (crt_thread_node s) (main_thread_node s)
    (main_thread_in_ready_queue s) (multi_task_enabled s) b (page_dir s) (tss_esp0 s)
    (dead_resource_lock s).
Definition with_dead_lock (s : sched) (l : Z) : sched :=
  mk_sched (s_nodes s) (tcbs s) (queues s) (crt_thread_node s) (main_thread_node s)
    (main_thread_in_ready_queue s) (multi_task_enabled s) (interrupts s) (page_dir s) (tss_esp0 s) l.

(** ** Access *)
Definition get_tcb (s : sched) (t : Z) : res tcb_t :=
  match tcbs s !! t with Some c => Ok c | None => Err Fault end.
Definition set_tcb (s : sched) (t : Z) (c : tcb_t) : sched := with_tcbs s (<[t := c]> (tcbs s)).

(** [thread_node->ptr] *)
Definition thread_of (s : sched) (node : Z) : res Z :=
  let! n := get_node (s_nodes s) node in Ok (ptr n).

Definition get_queue (s : sched) (q : Z) : res linked_list_t :=
  match queues s !! q with Some l => Ok l | None => Err Fault end.

(** The list operations on the queue at an address. *)
Definition queue_append (s : sched) (q node : Z) : res sched :=
  let! l := get_queue s q in
  let! (st, l) := linked_list_append (s_nodes s) l node in
  Ok (with_queues s st (<[q := l]> (queues s))).
Definition queue_push_head (s : sched) (q node : Z) : res sched :=
  let! l := get_queue s q in
  let! (st, l) := linked_list_insert_to_head (s_nodes s) l node in
  Ok (with_queues s st (<[q := l]> (queues s))).
Definition queue_remove (s : sched) (q node : Z) : res sched :=
  let! l := get_queue s q in
  let! (st, l) := linked_list_remove (s_nodes s) l node in
  Ok (with_queues s st (<[q := l]> (queues s))).

(** [get_crt_thread_node], [get_crt_thread] *)
Definition get_crt_thread_node (s : sched) : res Z :=
  assert! negb (crt_thread_node s =? 0) in Ok (crt_thread_node s).
Definition get_crt_thread (s : sched) : res Z :=
  assert! negb (crt_thread_node s =? 0) in
  let! t := thread_of s (crt_thread_node s) in
  assert! negb (t =? 0) in Ok t.

(** The interrupt flag: [interrupt_disable] returns the old value, and
    [interrupt_restore] puts it back. *)
Definition interrupt_disable (s : sched) : bool * sched := (interrupts s, with_interrupts s false).
Definition interrupt_restore (s : sched) (b : bool) : sched :=
  with_interrupts s b.

(** ** Operations of [scheduler.c] *)

(** [remove_thread_from_current_queue] *)
Definition remove_thread_from_current_queue (s : sched) (thread : Z) : res sched :=
  assert! negb (thread =? 0) in
  let! c := get_tcb s thread in
  if (crt_queue c =? 0) || (crt_node_ptr c =? 0) then Err Panic
  else
    let '(init_status, s) := interrupt_disable s in
    let! s := queue_remove s (crt_queue c) (crt_node_ptr c) in
    let! c := get_tcb s thread in
    let s := set_tcb s thread (with_queue c 0) in
    Ok (interrupt_restore s init_status).

(** [add_thread_node_to_schedule] and [add_thread_node_to_schedule_head]. *)
Definition mark_ready (s : sched) (node : Z) : res sched :=
  let! thread := thread_of s node in
  let! c := get_tcb s thread in
  let c := if decide (status c = TASK_DEAD) then c else with_status c TASK_READY in
  Ok (set_tcb s thread (with_queue c ready_tasks)).
Definition add_thread_node_to_schedule (s : sched) (node : Z) : res sched :=
  let '(init_status, s) := interrupt_disable s in
  let! s := mark_ready s node in
  let! s := queue_append s ready_tasks node in
  Ok (interrupt_restore s init_status).
Definition add_thread_node_to_schedule_head (s : sched) (node : Z) : res sched :=
  let '(init_status, s) := interrupt_disable s in
  let! s := mark_ready s node in
  let! s := queue_push_head s ready_tasks node in
  Ok (interrupt_restore s init_status).

(** The first part of [do_context_switch]: the idle thread joins an empty queue. *)
Definition ensure_ready (s : sched) : res sched :=
  let! l := get_queue s ready_tasks in
  if lsize l =? 0 then
    let! main_thread := thread_of s (main_thread_node s) in
    let! c := get_tcb s main_thread in
    let s := set_tcb s main_thread (with_queue c ready_tasks) in
    let! s := queue_append s ready_tasks (main_thread_node s) in
    Ok (with_main_ready s true)
  else Ok s.

(** The second part: a running thread other than the idle one queues up again. *)
Definition requeue_current (s : sched) (old_thread : Z) : res sched :=
  let! c := get_tcb s old_thread in
  let! s :=
    if decide (status c = TASK_RUNNING /\ crt_thread_node s <> main_thread_node s) then
      let s := set_tcb s old_thread (with_queue (with_status c TASK_READY) ready_tasks) in
      queue_append s ready_tasks (crt_thread_node s)
    else Ok s in
  let! c := get_tcb s old_thread in
  Ok (set_tcb s old_thread (with_ticks c 0 false)).

(** The third part: the head of the queue becomes the current thread. *)
Definition switch_to_head (s : sched) (old_thread : Z) : res sched :=
  let! l := get_queue s ready_tasks in
  let next_thread_node := head l in
  let! next_thread := thread_of s next_thread_node in
  let! c := get_tcb s next_thread in
  let s := with_cpu s (page_dir s) (u32 (kernel_stack c + KERNEL_STACK_SIZE)) in
  let s := set_tcb s next_thread (with_status c TASK_RUNNING) in
  let s := if next_thread_node =? main_thread_node s then with_main_ready s false else s in
  let! old := get_tcb s old_thread in
  let s := if negb (process c =? process old) then with_cpu s (process c) (tss_esp0 s) else s in
  let! s := remove_thread_from_current_queue s next_thread in
  Ok (with_current s next_thread_node).

(** [do_context_switch] *)
Definition do_context_switch (s : sched) : res sched :=
  let! s := ensure_ready s in
  let! old_thread := get_crt_thread s in
  let! s := requeue_current s old_thread in
  switch_to_head s old_thread.

(** [schedule], at the end of an interrupt. *)
Definition schedule (s : sched) : res sched :=
  if negb (multi_task_enabled s) then Ok s
  else
    let s := with_interrupts s false in
    let! thread := get_crt_thread s in
    let! c := get_tcb s thread in
    if preempt_count c >? 0 then Ok s
    else
      let! l := get_queue s ready_tasks in
      if (lsize l >? 0) && need_reschedule c then do_context_switch s else Ok s.

(** [schedule_thread_yield], up to the switch. *)
Definition schedule_thread_yield (s : sched) : res sched :=
  do_context_switch (with_interrupts s false).

(** [schedule_mark_thread_block] *)
Definition schedule_mark_thread_block (s : sched) : res sched :=
  let! thread := thread_of s (crt_thread_node s) in
  let! c := get_tcb s thread in
  Ok (set_tcb s thread (with_status c TASK_WAITING)).

(** [disable_preempt], [enable_preempt] *)
Definition disable_preempt (s : sched) : res sched :=
  let! t := get_crt_thread s in
  let! c := get_tcb s t in
  Ok (set_tcb s t (with_preempt c (s32 (preempt_count c + 1)))).
Definition enable_preempt (s : sched) : res sched :=
  let! t := get_crt_thread s in
  let! c := get_tcb s t in
  Ok (set_tcb s t (with_preempt c (s32 (preempt_count c - 1)))).

(** ** [cond_var.c] *)

(** [cond_var_init] *)
Definition cond_var_init (s : sched) (cv : Z) : sched :=
  with_queues s (s_nodes s) (<[cv := linked_list_init]> (queues s)).

(** [cond_var_notify] *)
Definition cond_var_notify (s : sched) (cv : Z) : res sched :=
  let '(init_status, s) := interrupt_disable s in
  let! l := get_queue s cv in
  let! s :=
    if negb (lsize l =? 0) then
      let thread_node := head l in
      let! s := queue_remove s cv thread_node in
      add_thread_node_to_schedule s thread_node
    else Ok s in
  Ok (interrupt_restore s init_status).

(** A round of [cond_var_wait] whose predicate is false, up to the switch; the
    lock word of the caller comes back released. *)
Definition cond_var_block (s : sched) (cv lock : Z) : res (Z * sched) :=
  let! thread_node := get_crt_thread_node s in
  let '(init_status, s) := interrupt_disable s in
  let! s := queue_append s cv thread_node in
  let! s := schedule_mark_thread_block s in
  let s := interrupt_restore s init_status in
  let lock := yieldlock_unlock lock in
  let! s := schedule_thread_yield s in
  Ok (lock, s).

(** [cond_var_wait] as far as the caller's first test of the predicate. *)
Definition cond_var_wait (s : sched) (cv lock : Z) (predicator : bool) : res (Z * sched) :=
  let! lock := yieldlock_lock lock in
  if predicator then Ok (lock, s) else cond_var_block s cv lock.

(** ** Exit *)

(** [add_dead_tasks] *)
Definition add_dead_tasks (s : sched) (thread_node : Z) : res sched :=
  let! l := yieldlock_lock (dead_resource_lock s) in
  let s := with_dead_lock s l in
  let! thread := thread_of s thread_node in
  let! c := get_tcb s thread in
  let s := set_tcb s thread (with_queue c dead_tasks) in
  let! s := queue_append s dead_tasks thread_node in
  let! s := cond_var_notify s dead_cv in
  Ok (with_dead_lock s (yieldlock_unlock (dead_resource_lock s))).

(** [schedule_thread_exit], up to the switch. *)
Definition schedule_thread_exit (s : sched) : res sched :=
  let! threadnode := get_crt_thread_node s in
  let! thread := thread_of s threadnode in
  let s := with_interrupts s false in
  let! s := add_dead_tasks s threadnode in
  let! c := get_tcb s thread in
  let s := set_tcb s thread (with_status c TASK_DEAD) in
  do_context_switch s.

(** ** [time.c] *)

(** [timer_callback], with the tick counter. *)
Definition timer_callback (tick : Z) (s : sched) : res (Z * sched) :=
  let tick := u32 (tick + 1) in
  if multi_task_enabled s then
    let! t := get_crt_thread s in
    let! c := get_tcb s t in
    let n := u32 (ticks c + 1) in
    Ok (tick, set_tcb s t (with_ticks c n (if n >=? priority c then true else need_reschedule c)))
  else Ok (tick, s).

(** ** [spinlock.c], with the lock word

    [smp] is the build without [SINGLE_PROCESSOR]; only then is the lock word used. *)
Section SPINLOCK.
Variable smp : bool.

Definition spinlock_init : Z := LOCKED_NO.

(** [spinlock_lock]: the spin on a word held by another is [Blocked]. *)
Definition spinlock_lock (s : sched) (hold : Z) : res (Z * sched) :=
  let! s := disable_preempt s in
  if smp then
    let '(old, hold) := atomic_exchange hold LOCKED_YES in
    if old =? LOCKED_NO then Ok (hold, s) else Err Blocked
  else Ok (hold, s).

(** [spinlock_unlock] *)
Definition spinlock_unlock (s : sched) (hold : Z) : res (Z * sched) :=
  let hold := if smp then LOCKED_NO else hold in
  let! s := enable_preempt s in Ok (hold, s).

(** [spin_lock_irqsave]: also the saved interrupt flag. *)
Definition spin_lock_irqsave (s : sched) (hold : Z) : res (bool * Z * sched) :=
  let! s := disable_preempt s in
  let irq_status := interrupts s in
  let s := with_interrupts s false in
  if smp then
    let '(old, hold) := atomic_exchange hold LOCKED_YES in
    if old =? LOCKED_NO then Ok (irq_status, hold, s) else Err Blocked
  else Ok (irq_status, hold, s).

(** [spin_unlock_irqrestore] *)
Definition spin_unlock_irqrestore (s : sched) (hold : Z) (irq_status : bool) : res (Z * sched) :=
  let hold := if smp then LOCKED_NO else hold in
  let s := if irq_status then with_interrupts s true else s in
  let! s := enable_preempt s in Ok (hold, s).

End SPINLOCK.
