(* ===== verification/SchedSpec.v ===== *)
(** Properties of the scheduler: its data-structure invariant, the exact effect of
    a context switch on the ready queue (round robin with an idle thread of last
    resort), the bounded wait of a ready thread, and blocking and waking. *)
From S2P Require Import Prelude BitMap LinkedList Sched.

(** ** The queues *)

(** What each queue holds: nodes with their threads. *)
Abbreviation view := (gmap Z (list (Z * Z))).

(** A node is in no queue. *)
Definition unqueued (V : view) (n : Z) : Prop := forall q l, V !! q = Some l -> n ∉ l.*1.

(** The node [n] belongs to the thread [t]. *)
Definition node_of (tb : gmap Z tcb_t) (n t : Z) : Prop :=
  exists c, tb !! t = Some c /\ crt_node_ptr c = n.

Record qinv (st : nodes) (tb : gmap Z tcb_t) (qs : gmap Z linked_list_t) (V : view) : Prop := {
  qi_dll : forall q l, V !! q = Some l -> exists t, qs !! q = Some t /\ dll st t l;
  qi_disjoint : forall q1 q2 l1 l2 x, V !! q1 = Some l1 -> V !! q2 = Some l2 ->
                  x ∈ l1.*1 -> x ∈ l2.*1 -> q1 = q2;
  qi_thread : forall t c, tb !! t = Some c -> t <> 0 /\ crt_node_ptr c <> 0 /\
                exists n, st !! crt_node_ptr c = Some n /\ ptr n = t;
  qi_member : forall q l n t, V !! q = Some l -> (n, t) ∈ l -> node_of tb n t;
  qi_bound : Z.of_nat (base.size tb) < 4294967000
}.

Lemma node_of_inj st tb qs V n t1 t2 :
  qinv st tb qs V -> node_of tb n t1 -> node_of tb n t2 -> t1 = t2.
Proof.
  intros Hq (c1 & H1 & <-) (c2 & H2 & He).
  destruct (qi_thread _ _ _ _ Hq _ _ H1) as (_ & _ & n1 & E1 & <-).
  destruct (qi_thread _ _ _ _ Hq _ _ H2) as (_ & _ & n2 & E2 & <-). congruence.
Qed.

(** A queue holds at most one node per thread. *)
Lemma queue_length st tb qs V q l :
  qinv st tb qs V -> V !! q = Some l -> Z.of_nat (length l) < 4294967000.
Proof.
  intros Hq Hl. pose proof (qi_bound _ _ _ _ Hq). destruct (qi_dll _ _ _ _ Hq q l Hl) as (t & _ & Hd).
  assert ((length l <= base.size tb)%nat); [|lia].
  assert (NoDup l.*2) as Hn.
  { apply NoDup_fmap_2_strong; [|apply (NoDup_fmap_1 fst), Hd].
    intros [n1 t1] [n2 t2] H1 H2. cbn. intros ->.
    destruct (qi_member _ _ _ _ Hq q l n1 t2 Hl H1) as (c1 & E1 & <-).
    destruct (qi_member _ _ _ _ Hq q l n2 t2 Hl H2) as (c2 & E2 & <-). congruence. }
  rewrite <- (length_fmap snd), <- (size_list_to_set (C := gset Z)) by done.
  rewrite <- (size_dom tb). apply subseteq_size. intros x Hx.
  apply elem_of_list_to_set, list_elem_of_fmap in Hx as ([n y] & -> & Hin).
  destruct (qi_member _ _ _ _ Hq q l n y Hl Hin) as (c & Hc & _). cbn. apply elem_of_dom. by eexists.
Qed.

(** The invariant reads only the owner field of a node outside the queues. *)
Lemma qinv_update st tb qs V st' q l' t' X :
  qinv st tb qs V -> dll st' t' l' -> nodes_kept st st' X ->
  (forall q2 l2 x, V !! q2 = Some l2 -> q2 <> q -> x ∈ l2.*1 -> x ∉ X) ->
  (forall x, x ∈ l'.*1 -> x ∈ X) -> (forall n t, (n, t) ∈ l' -> node_of tb n t) ->
  (forall x n, x ∈ X -> st !! x = Some n -> exists n', st' !! x = Some n' /\ ptr n' = ptr n) ->
  qinv st' tb (<[q := t']> qs) (<[q := l']> V).
Proof.
  intros [Hd Hj Ht Hm Hb] Hd' Hk HX HX' Hmem Hptr. split.
  - intros q2 l2. destruct (decide (q2 = q)) as [->|Hne].
    + rewrite !lookup_insert_eq. intros [= <-]. by exists t'.
    + rewrite !lookup_insert_ne by done. intros Hl2. destruct (Hd q2 l2 Hl2) as (t2 & E & Hd2).
      exists t2. split; [done|]. apply (dll_kept st); [|done]. intros x Hx. apply Hk. by apply (HX q2 l2).
  - intros q1 q2 l1 l2 x H1 H2 Hx1 Hx2.
    destruct (decide (q1 = q)) as [->|Hne1], (decide (q2 = q)) as [->|Hne2]; [done| | |].
    + rewrite lookup_insert_eq in H1. injection H1 as <-. rewrite lookup_insert_ne in H2 by done.
      exfalso. by apply (HX q2 l2 x H2 Hne2 Hx2), HX'.
    + rewrite lookup_insert_eq in H2. injection H2 as <-. rewrite lookup_insert_ne in H1 by done.
      exfalso. by apply (HX q1 l1 x H1 Hne1 Hx1), HX'.
    + rewrite lookup_insert_ne in H1, H2 by done. by apply (Hj q1 q2 l1 l2 x).
  - intros t c Hc. destruct (Ht t c Hc) as (? & ? & n & Hn & Hp). split; [done|]. split; [done|].
    destruct (decide (crt_node_ptr c ∈ X)) as [Hin|Hnin].
    + destruct (Hptr _ _ Hin Hn) as (n' & ? & ?). exists n'. split; [done|congruence].
    + exists n. by rewrite Hk.
  - intros q2 l2 n t. destruct (decide (q2 = q)) as [->|Hne].
    + rewrite lookup_insert_eq. intros [= <-]. apply Hmem.
    + rewrite lookup_insert_ne by done. apply Hm.
  - done.
Qed.

(** The nodes of a well-formed list keep their owner in another well-formed list
    of the same elements. *)
Lemma links_lookup st p l e n t : links st p l e -> (n, t) ∈ l -> exists x, st !! n = Some x /\ ptr x = t.
Proof.
  revert p. induction l as [|[y v] l IH]; intros p; [set_solver|].
  cbn [links]. intros (_ & Hy & Hl) [[= -> ->]|Hin]%elem_of_cons; [by eexists|by apply (IH y)].
Qed.

Lemma dll_lookup st d l n t : dll st d l -> (n, t) ∈ l -> exists x, st !! n = Some x /\ ptr x = t.
Proof. intros [_ _ _ Hl _ _]. by apply links_lookup with (1 := Hl). Qed.

Lemma dll_owner_kept st st' d d' l l' :
  dll st d l -> dll st' d' l' -> l ⊆ l' ->
  forall x n, x ∈ l.*1 -> st !! x = Some n -> exists n', st' !! x = Some n' /\ ptr n' = ptr n.
Proof.
  intros Hd Hd' Hs x n ([y t] & -> & Hin)%list_elem_of_fmap Hn. cbn in Hn |- *.
  destruct (dll_lookup _ _ _ _ _ Hd Hin) as (z & Hz & Hp).
  destruct (dll_lookup _ _ _ _ _ Hd' (Hs _ Hin)) as (z' & Hz' & Hp'). exists z'. split; [done|congruence].
Qed.

Section QUEUES.
Context (s : sched) (V : view) (Hinv : qinv (s_nodes s) (tcbs s) (queues s) V).

Lemma append_queue_ok q l n t :
  V !! q = Some l -> node_of (tcbs s) n t -> unqueued V n ->
  exists st qs, queue_append s q n = Ok (with_queues s st qs) /\
    qinv st (tcbs s) qs (<[q := l ++ [(n, t)]]> V).
Proof.
  intros Hl Hn Hu. destruct (qi_dll _ _ _ _ Hinv q l Hl) as (d & Hd & Hdl).
  pose proof Hn as (c & Hc & Hcn). destruct (qi_thread _ _ _ _ Hinv t c Hc) as (_ & Hn0 & x & Hx & Hp).
  rewrite Hcn in Hn0, Hx. pose proof (queue_length _ _ _ _ _ _ Hinv Hl).
  destruct (append_ok (s_nodes s) d l n x Hdl Hx Hn0 (Hu q l Hl)) as (st & d' & E & Hd' & Hk); [lia|].
  unfold queue_append, get_queue. rewrite Hd. cbn [res_bind]. rewrite E. cbn [res_bind].
  exists st, (<[q := d']> (queues s)). split; [done|]. rewrite Hp in Hd'.
  apply (qinv_update _ _ _ _ st q _ d' (n :: l.*1) Hinv Hd' Hk).
  - intros q2 l2 y H2 Hne Hy [->|Hin]%elem_of_cons; [by apply (Hu q2 l2)|].
    by apply Hne, (qi_disjoint _ _ _ _ Hinv q2 q l2 l y).
  - intros y. rewrite fmap_app. cbn. set_solver.
  - intros n' t' [Hin|[= -> ->]%list_elem_of_singleton]%elem_of_app; [by apply (qi_member _ _ _ _ Hinv q l)|done].
  - intros y m [->|Hin]%elem_of_cons Hm.
    + destruct (dll_lookup _ _ _ n t Hd') as (z & Hz & Hpz); [set_solver|]. exists z.
      split; [done|congruence].
    + apply (dll_owner_kept _ _ _ _ _ _ Hdl Hd') with (2 := Hin); [set_solver|done].
Qed.

Lemma push_queue_ok q l n t :
  V !! q = Some l -> node_of (tcbs s) n t -> unqueued V n ->
  exists st qs, queue_push_head s q n = Ok (with_queues s st qs) /\
    qinv st (tcbs s) qs (<[q := (n, t) :: l]> V).
Proof.
  intros Hl Hn Hu. destruct (qi_dll _ _ _ _ Hinv q l Hl) as (d & Hd & Hdl).
  pose proof Hn as (c & Hc & Hcn). destruct (qi_thread _ _ _ _ Hinv t c Hc) as (_ & Hn0 & x & Hx & Hp).
  rewrite Hcn in Hn0, Hx. pose proof (queue_length _ _ _ _ _ _ Hinv Hl).
  destruct (insert_ok (s_nodes s) d [] l n x Hdl Hx Hn0 (Hu q l Hl)) as (st & d' & E & Hd' & Hk);
    [cbn; lia|].
  unfold queue_push_head, get_queue. rewrite Hd. cbn [res_bind]. unfold linked_list_insert_to_head.
  cbn [final] in E. rewrite E. cbn [res_bind].
  exists st, (<[q := d']> (queues s)). split; [done|]. rewrite Hp in Hd'. cbn [app] in Hd', Hk.
  apply (qinv_update _ _ _ _ st q _ d' (n :: l.*1) Hinv Hd' Hk).
  - intros q2 l2 y H2 Hne Hy [->|Hin]%elem_of_cons; [by apply (Hu q2 l2)|].
    by apply Hne, (qi_disjoint _ _ _ _ Hinv q2 q l2 l y).
  - done.
  - intros n' t' [[= -> ->]|Hin]%elem_of_cons; [done|by apply (qi_member _ _ _ _ Hinv q l)].
  - intros y m [->|Hin]%elem_of_cons Hm.
    + destruct (dll_lookup _ _ _ n t Hd') as (z & Hz & Hpz); [set_solver|]. exists z.
      split; [done|congruence].
    + apply (dll_owner_kept _ _ _ _ _ _ Hdl Hd') with (2 := Hin); [set_solver|done].
Qed.

Lemma remove_queue_ok q p n t r :
  V !! q = Some (p ++ (n, t) :: r) ->
  exists st qs, queue_remove s q n = Ok (with_queues s st qs) /\
    qinv st (tcbs s) qs (<[q := p ++ r]> V) /\ unqueued (<[q := p ++ r]> V) n.
Proof.
  intros Hl. destruct (qi_dll _ _ _ _ Hinv q _ Hl) as (d & Hd & Hdl).
  destruct (remove_ok (s_nodes s) d p n t r Hdl) as (st & d' & E & Hd' & Hx & Hk).
  unfold queue_remove, get_queue. rewrite Hd. cbn [res_bind]. rewrite E. cbn [res_bind].
  exists st, (<[q := d']> (queues s)). split; [done|]. pose proof (dll_nodup _ _ _ Hdl) as Hnd.
  assert (n ∉ (p ++ r).*1) as Hnot.
  { rewrite fmap_app in Hnd |- *. cbn in Hnd. apply NoDup_app in Hnd as (_ & H1 & [H2 _]%NoDup_cons).
    intros [Hin|Hin]%elem_of_app; [|done]. apply (H1 n Hin). set_solver. }
  split.
  - apply (qinv_update _ _ _ _ st q _ d' (p ++ (n, t) :: r).*1 Hinv Hd' Hk).
    + intros q2 l2 y H2 Hne Hy Hin. by apply Hne, (qi_disjoint _ _ _ _ Hinv q2 q l2 _ y H2 Hl).
    + intros y. rewrite !fmap_app. cbn. set_solver.
    + intros n' t' Hin. apply (qi_member _ _ _ _ Hinv q _ n' t' Hl). set_solver.
    + intros y m Hin Hm. apply list_elem_of_fmap in Hin as ([y' ty] & -> & Hin). cbn in Hm |- *.
      destruct (dll_lookup _ _ _ _ _ Hdl Hin) as (z & Hz & Hpz).
      apply elem_of_app in Hin as [Hin|[[= -> ->]|Hin]%elem_of_cons].
      * destruct (dll_lookup _ _ _ y' ty Hd') as (z' & ? & ?); [set_solver|]. exists z'.
        split; [done|congruence].
      * eexists. split; [done|]. cbn. congruence.
      * destruct (dll_lookup _ _ _ y' ty Hd') as (z' & ? & ?); [set_solver|]. exists z'.
        split; [done|congruence].
  - intros q2 l2. destruct (decide (q2 = q)) as [->|Hne].
    + rewrite lookup_insert_eq. by intros [= <-].
    + rewrite lookup_insert_ne by done. intros H2 Hin. apply Hne.
      apply (qi_disjoint _ _ _ _ Hinv q2 q l2 _ n H2 Hl Hin). rewrite fmap_app. cbn. set_solver.
Qed.

(** Changing a thread's record, but not its node. *)
Lemma set_tcb_qinv t c c' :
  tcbs s !! t = Some c -> crt_node_ptr c' = crt_node_ptr c ->
  qinv (s_nodes s) (<[t := c']> (tcbs s)) (queues s) V.
Proof.
  intros Hc He. destruct Hinv as [Hd Hj Ht Hm Hb]. split; [done|done| | |].
  - intros t2 c2. destruct (decide (t2 = t)) as [->|Hne].
    + rewrite lookup_insert_eq. intros [= <-]. rewrite He. by apply Ht.
    + rewrite lookup_insert_ne by done. apply Ht.
  - intros q l n t2 Hl Hin. destruct (Hm q l n t2 Hl Hin) as (c2 & Hc2 & <-). unfold node_of.
    destruct (decide (t2 = t)) as [->|Hne].
    + exists c'. rewrite lookup_insert_eq. split; [done|congruence].
    + exists c2. by rewrite lookup_insert_ne by done.
  - rewrite map_size_insert_Some by by exists c. done.
Qed.

End QUEUES.

(** ** The context switch *)

Lemma thread_of_ok s V n t :
  qinv (s_nodes s) (tcbs s) (queues s) V -> node_of (tcbs s) n t -> thread_of s n = Ok t.
Proof.
  intros Hq (c & Hc & <-). destruct (qi_thread _ _ _ _ Hq t c Hc) as (_ & _ & x & Hx & <-).
  unfold thread_of, get_node. by rewrite Hx.
Qed.

Lemma get_tcb_ok s t c : tcbs s !! t = Some c -> get_tcb s t = Ok c.
Proof. intros H. unfold get_tcb. by rewrite H. Qed.

Lemma get_crt_thread_ok s V t :
  qinv (s_nodes s) (tcbs s) (queues s) V -> node_of (tcbs s) (crt_thread_node s) t ->
  get_crt_thread s = Ok t /\ crt_thread_node s <> 0 /\ t <> 0.
Proof.
  intros Hq Hn. pose proof Hn as (c & Hc & Hcn). destruct (qi_thread _ _ _ _ Hq t c Hc) as (Ht & Hn0 & _).
  unfold get_crt_thread. rewrite (thread_of_ok s V _ t Hq Hn). rewrite Hcn in Hn0.
  replace (crt_thread_node s =? 0) with false by (symmetry; zbool).
  cbn [negb res_bind]. replace (t =? 0) with false by (symmetry; zbool). done.
Qed.

Lemma queue_head_ok s V q l :
  qinv (s_nodes s) (tcbs s) (queues s) V -> V !! q = Some l ->
  exists d, get_queue s q = Ok d /\ head d = first 0 l /\ lsize d = Z.of_nat (length l).
Proof.
  intros Hq Hl. destruct (qi_dll _ _ _ _ Hq q l Hl) as (d & Hd & Hdl). exists d.
  unfold get_queue. rewrite Hd. split; [done|]. split; apply Hdl.
Qed.

(** What an operation leaves alone. *)
Definition same_cpu (s s' : sched) : Prop :=
  crt_thread_node s' = crt_thread_node s /\ main_thread_node s' = main_thread_node s /\
  multi_task_enabled s' = multi_task_enabled s /\ interrupts s' = interrupts s /\
  page_dir s' = page_dir s /\ dead_resource_lock s' = dead_resource_lock s.

Lemma remove_current_ok s V t c p r :
  qinv (s_nodes s) (tcbs s) (queues s) V -> tcbs s !! t = Some c -> crt_queue c <> 0 ->
  V !! crt_queue c = Some (p ++ (crt_node_ptr c, t) :: r) ->
  exists s', remove_thread_from_current_queue s t = Ok s' /\
    qinv (s_nodes s') (tcbs s') (queues s') (<[crt_queue c := p ++ r]> V) /\
    unqueued (<[crt_queue c := p ++ r]> V) (crt_node_ptr c) /\
    tcbs s' = <[t := with_queue c 0]> (tcbs s) /\ same_cpu s s' /\ tss_esp0 s' = tss_esp0 s.
Proof.
  intros Hq Hc Hc0 Hl. destruct (qi_thread _ _ _ _ Hq t c Hc) as (Ht & Hn0 & _).
  unfold remove_thread_from_current_queue. replace (t =? 0) with false by (symmetry; zbool).
  cbn [negb]. rewrite (get_tcb_ok s t c Hc). cbn [res_bind].
  replace (crt_queue c =? 0) with false by (symmetry; zbool).
  replace (crt_node_ptr c =? 0) with false by (symmetry; zbool). cbn [orb interrupt_disable].
  destruct (remove_queue_ok (with_interrupts s false) V Hq (crt_queue c) p (crt_node_ptr c) t r Hl)
    as (st & qs & E & Hq' & Hu). rewrite E. cbn [res_bind].
  set (s1 := with_queues _ st qs). rewrite (get_tcb_ok s1 t c Hc). cbn [res_bind].
  eexists. split; [done|]. split.
  - by apply (set_tcb_qinv s1 _ Hq' t c).
  - by repeat split.
Qed.

Lemma switch_to_head_ok s V old co n t c rest :
  qinv (s_nodes s) (tcbs s) (queues s) V -> V !! ready_tasks = Some ((n, t) :: rest) ->
  tcbs s !! t = Some c -> crt_queue c = ready_tasks -> tcbs s !! old = Some co ->
  exists s', switch_to_head s old = Ok s' /\
    qinv (s_nodes s') (tcbs s') (queues s') (<[ready_tasks := rest]> V) /\
    unqueued (<[ready_tasks := rest]> V) n /\ crt_thread_node s' = n /\
    main_thread_node s' = main_thread_node s /\
    tcbs s' = <[t := with_queue (with_status c TASK_RUNNING) 0]> (tcbs s) /\
    tss_esp0 s' = u32 (kernel_stack c + KERNEL_STACK_SIZE) /\
    page_dir s' = (if process c =? process (if decide (old = t) then c else co) then page_dir s else process c) /\
    interrupts s' = interrupts s /\ multi_task_enabled s' = multi_task_enabled s /\
    dead_resource_lock s' = dead_resource_lock s.
Proof.
  intros Hq Hl Hc Hcq Hco. destruct (queue_head_ok s V _ _ Hq Hl) as (d & Ed & Hh & _).
  unfold switch_to_head. rewrite Ed. cbn [res_bind]. rewrite Hh. cbn [first].
  assert (node_of (tcbs s) n t) as Hn by (apply (qi_member _ _ _ _ Hq _ _ _ _ Hl); set_solver).
  rewrite (thread_of_ok s V n t Hq Hn). cbn [res_bind]. rewrite (get_tcb_ok s t c Hc). cbn [res_bind].
  assert (crt_node_ptr c = n) as Hcn by (destruct Hn as (c' & ? & <-); congruence).
  pose proof (set_tcb_qinv s V Hq t c (with_status c TASK_RUNNING) Hc eq_refl) as Hq1.
  set (tb1 := <[t := with_status c TASK_RUNNING]> (tcbs s)) in *.
  set (s1 := set_tcb (with_cpu s (page_dir s) (u32 (kernel_stack c + KERNEL_STACK_SIZE))) t
               (with_status c TASK_RUNNING)).
  set (s2 := if n =? main_thread_node s1 then with_main_ready s1 false else s1).
  assert (exists co', get_tcb s2 old = Ok co' /\
            process co' = process (if decide (old = t) then c else co)) as (co' & Eo & Hpo).
  { assert (tcbs s2 = tb1) as Hs2 by (unfold s2; by destruct (_ =? _)). unfold get_tcb. rewrite Hs2.
    unfold tb1. destruct (decide (old = t)) as [->|Hne].
    - rewrite lookup_insert_eq. by eexists.
    - rewrite lookup_insert_ne, Hco by done. by eexists. }
  rewrite Eo. cbn [res_bind]. rewrite Hpo.
  set (s3 := if negb _ then _ else s2).
  assert (s_nodes s3 = s_nodes s /\ tcbs s3 = tb1 /\ queues s3 = queues s /\
    main_thread_node s3 = main_thread_node s /\ interrupts s3 = interrupts s /\
    multi_task_enabled s3 = multi_task_enabled s /\ tss_esp0 s3 = u32 (kernel_stack c + KERNEL_STACK_SIZE) /\
    dead_resource_lock s3 = dead_resource_lock s /\
    page_dir s3 = (if process c =? process (if decide (old = t) then c else co) then page_dir s else process c))
    as (E1 & E2 & E3 & E4 & E5 & E6 & E7 & E9 & E8).
  { unfold s3, s2. by destruct (process c =? _), (n =? main_thread_node s1). }
  assert (tcbs s3 !! t = Some (with_status c TASK_RUNNING)) as Hc3 by (rewrite E2; apply lookup_insert_eq).
  destruct (remove_current_ok s3 V t (with_status c TASK_RUNNING) [] rest) as (s4 & E & Hq4 & Hu & Htb & Hcpu & Htss).
  { by rewrite E1, E2, E3. } { done. } { cbn. by rewrite Hcq. } { cbn. by rewrite Hcq, Hcn. }
  rewrite E. cbn [res_bind]. cbn [crt_queue with_status crt_node_ptr app] in Hq4, Hu.
  rewrite Hcq in Hq4, Hu. rewrite Hcn in Hu.
  destruct Hcpu as (_ & Hm & Hmt & Hi & Hp & Hdl).
  exists (with_current s4 n). split; [done|]. split; [done|]. split; [done|]. split; [done|]. cbn.
  split; [congruence|]. split; [rewrite Htb, E2; unfold tb1; by rewrite insert_insert_eq|].
  split; [congruence|]. split; [congruence|]. split; [congruence|]. split; congruence.
Qed.

(** The ready threads are marked so. *)
Definition ready_ok (tb : gmap Z tcb_t) (l : list (Z * Z)) : Prop :=
  forall n t, (n, t) ∈ l -> exists c, tb !! t = Some c /\ crt_queue c = ready_tasks /\ status c = TASK_READY.

(** The invariant between operations, for the ready queue [l], the current thread
    [ct] and the idle thread [mt]. *)
Record sched_inv (s : sched) (V : view) (l : list (Z * Z)) (ct mt : Z) : Prop := {
  si_q : qinv (s_nodes s) (tcbs s) (queues s) V;
  si_ready : V !! ready_tasks = Some l /\ ready_ok (tcbs s) l;
  si_crt : node_of (tcbs s) (crt_thread_node s) ct;
  si_main : node_of (tcbs s) (main_thread_node s) mt /\ unqueued V (main_thread_node s)
}.

(** The current thread runs and is in no queue. *)
Definition running (s : sched) (V : view) (ct : Z) : Prop :=
  unqueued V (crt_thread_node s) /\
  exists c, tcbs s !! ct = Some c /\ status c = TASK_RUNNING /\ process c = page_dir s.

(** What the switch makes of the queue: the idle thread stands in for an empty
    one, and a running thread that is not the idle one goes to the back. *)
Definition candidates (s : sched) (l : list (Z * Z)) (ct mt : Z) (runs : bool) : list (Z * Z) :=
  (if decide (l = []) then [(main_thread_node s, mt)] else l) ++
  (if runs && negb (crt_thread_node s =? main_thread_node s) then [(crt_thread_node s, ct)] else []).

Lemma ensure_ready_ok s V l ct mt :
  sched_inv s V l ct mt ->
  exists s' base, ensure_ready s = Ok s' /\
    base = (if decide (l = []) then [(main_thread_node s, mt)] else l) /\
    qinv (s_nodes s') (tcbs s') (queues s') (<[ready_tasks := base]> V) /\
    same_cpu s s' /\
    (forall t c, tcbs s !! t = Some c -> exists c', tcbs s' !! t = Some c' /\ status c' = status c /\
       process c' = process c /\ kernel_stack c' = kernel_stack c /\ crt_node_ptr c' = crt_node_ptr c /\
       (t <> mt \/ l <> [] -> c' = c)) /\
    (forall n t, (n, t) ∈ base -> exists c, tcbs s' !! t = Some c /\ crt_queue c = ready_tasks).
Proof.
  intros [Hq [Hl Hr] Hct [Hm Hmu]]. destruct (queue_head_ok s V _ _ Hq Hl) as (d & Ed & _ & Hs).
  unfold ensure_ready. rewrite Ed. cbn [res_bind]. rewrite Hs. destruct (decide (l = [])) as [->|Hne].
  - cbn [length Z.of_nat Z.eqb]. rewrite (thread_of_ok s V _ mt Hq Hm). cbn [res_bind].
    pose proof Hm as (c & Hc & Hcn). rewrite (get_tcb_ok s mt c Hc). cbn [res_bind].
    set (s1 := set_tcb s mt (with_queue c ready_tasks)).
    pose proof (set_tcb_qinv s V Hq mt c (with_queue c ready_tasks) Hc eq_refl) as Hq1.
    destruct (append_queue_ok s1 V Hq1 ready_tasks [] (main_thread_node s) mt Hl)
      as (st & qs & E & Hq2); [|done|].
    { exists (with_queue c ready_tasks). cbn. by rewrite lookup_insert_eq. }
    change (main_thread_node s1) with (main_thread_node s). rewrite E. cbn [res_bind]. eexists _, _. split; [done|]. split; [done|]. split; [exact Hq2|].
    split; [done|]. split.
    + intros t c0 Hc0. cbn. destruct (decide (t = mt)) as [->|Hne].
      * rewrite lookup_insert_eq. exists (with_queue c ready_tasks). assert (c0 = c) as -> by congruence.
        do 5 (split; [done|]). by intros [].
      * rewrite lookup_insert_ne by done. by exists c0.
    + intros n t [= -> ->]%list_elem_of_singleton. cbn. exists (with_queue c ready_tasks).
      by rewrite lookup_insert_eq.
  - replace (Z.of_nat (length l) =? 0) with false by (symmetry; destruct l; [done|cbn; zbool]).
    exists s, l. split; [done|]. split; [done|]. rewrite insert_id by done. split; [done|].
    split; [done|]. split; [intros t c Hc; by exists c|].
    intros n t Hin. destruct (Hr n t Hin) as (c & ? & ? & _). by exists c.
Qed.

Lemma requeue_current_ok s V base ct c (runs : bool) :
  qinv (s_nodes s) (tcbs s) (queues s) V -> V !! ready_tasks = Some base ->
  tcbs s !! ct = Some c -> crt_node_ptr c = crt_thread_node s ->
  runs = bool_decide (status c = TASK_RUNNING) ->
  (status c = TASK_RUNNING -> crt_thread_node s <> main_thread_node s -> unqueued V (crt_thread_node s)) ->
  let rq := runs && negb (crt_thread_node s =? main_thread_node s) in
  exists s', requeue_current s ct = Ok s' /\
    qinv (s_nodes s') (tcbs s') (queues s')
      (<[ready_tasks := base ++ (if rq then [(crt_thread_node s, ct)] else [])]> V) /\
    same_cpu s s' /\
    (forall t, t <> ct -> tcbs s' !! t = tcbs s !! t) /\
    exists c', tcbs s' !! ct = Some c' /\ process c' = process c /\ kernel_stack c' = kernel_stack c /\
      crt_node_ptr c' = crt_node_ptr c /\ ticks c' = 0 /\ need_reschedule c' = false /\
      status c' = (if rq then TASK_READY else status c) /\
      crt_queue c' = (if rq then ready_tasks else crt_queue c).
Proof.
  intros Hq Hb Hc Hcn -> Hu rq. unfold requeue_current. rewrite (get_tcb_ok s ct c Hc). cbn [res_bind].
  assert (rq = bool_decide (status c = TASK_RUNNING /\ crt_thread_node s <> main_thread_node s)) as Hrq.
  { subst rq. rewrite bool_decide_and. f_equal. rewrite bool_decide_not. f_equal.
    destruct (Z.eqb_spec (crt_thread_node s) (main_thread_node s)); by case_bool_decide. }
  destruct (decide _) as [[Hr Hm]|Hno].
  - rewrite Hrq, bool_decide_true by done.
    set (c1 := with_queue (with_status c TASK_READY) ready_tasks). set (s1 := set_tcb s ct c1).
    pose proof (set_tcb_qinv s V Hq ct c c1 Hc eq_refl) as Hq1.
    destruct (append_queue_ok s1 V Hq1 ready_tasks base (crt_thread_node s) ct Hb) as (st & qs & E & Hq2).
    { exists c1. cbn. by rewrite lookup_insert_eq. } { by apply Hu. }
    change (crt_thread_node s1) with (crt_thread_node s). rewrite E. cbn [res_bind].
    set (s2 := with_queues s1 st qs).
    assert (tcbs s2 !! ct = Some c1) as Hc1 by apply lookup_insert_eq.
    rewrite (get_tcb_ok s2 ct c1 Hc1). cbn [res_bind]. eexists. split; [done|]. split.
    { exact (set_tcb_qinv s2 _ Hq2 ct c1 (with_ticks c1 0 false) Hc1 eq_refl). }
    split; [done|]. split.
    + intros t Ht. cbn. by rewrite !lookup_insert_ne by done.
    + exists (with_ticks c1 0 false). cbn. by rewrite lookup_insert_eq.
  - rewrite Hrq, bool_decide_false by done. cbn [res_bind]. rewrite (get_tcb_ok s ct c Hc). cbn [res_bind].
    rewrite app_nil_r, insert_id by done. eexists. split; [done|]. split.
    { exact (set_tcb_qinv s V Hq ct c (with_ticks c 0 false) Hc eq_refl). }
    split; [done|]. split.
    + intros t Ht. cbn. by rewrite lookup_insert_ne by done.
    + exists (with_ticks c 0 false). cbn. by rewrite lookup_insert_eq.
Qed.

Lemma unqueued_insert V q l n : unqueued V n -> n ∉ l.*1 -> unqueued (<[q := l]> V) n.
Proof.
  intros Hu Hn q2 l2. destruct (decide (q2 = q)) as [->|Hne].
  - rewrite lookup_insert_eq. by intros [= <-].
  - rewrite lookup_insert_ne by done. apply Hu.
Qed.

Lemma node_of_tcb tb n t c : node_of tb n t -> tb !! t = Some c -> crt_node_ptr c = n.
Proof. intros (c' & ? & <-) ?. congruence. Qed.

(** A thread of the queue is at one place only. *)
Lemma queue_once s V n1 t1 n t rest :
  qinv (s_nodes s) (tcbs s) (queues s) V -> V !! ready_tasks = Some ((n1, t1) :: rest) ->
  (n, t) ∈ rest -> n <> n1 /\ t <> t1.
Proof.
  intros Hq Hl Hin. destruct (qi_dll _ _ _ _ Hq _ _ Hl) as (d & _ & Hd).
  pose proof (dll_nodup _ _ _ Hd) as [Hnot _]%NoDup_cons.
  assert (n <> n1) as Hne.
  { intros ->. apply Hnot. by apply (list_elem_of_fmap_2 fst _ (n1, t)). }
  split; [done|]. intros ->. apply Hne.
  destruct (qi_member _ _ _ _ Hq _ _ n t1 Hl ltac:(set_solver)) as (c & Hc & <-).
  destruct (qi_member _ _ _ _ Hq _ _ n1 t1 Hl ltac:(set_solver)) as (c' & Hc' & <-). congruence.
Qed.

Lemma do_context_switch_ok s V l ct mt c n1 t1 rest :
  sched_inv s V l ct mt -> tcbs s !! ct = Some c ->
  process c = page_dir s \/ (ct <> t1 /\ forall x, tcbs s !! t1 = Some x -> process x <> process c) ->
  (status c = TASK_RUNNING -> unqueued V (crt_thread_node s)) ->
  candidates s l ct mt (bool_decide (status c = TASK_RUNNING)) = (n1, t1) :: rest ->
  exists s', do_context_switch s = Ok s' /\
    sched_inv s' (<[ready_tasks := rest]> V) rest t1 mt /\
    running s' (<[ready_tasks := rest]> V) t1 /\ crt_thread_node s' = n1 /\
    main_thread_node s' = main_thread_node s /\ interrupts s' = interrupts s /\
    multi_task_enabled s' = multi_task_enabled s /\ dead_resource_lock s' = dead_resource_lock s /\
    (exists c1, tcbs s !! t1 = Some c1 /\ tss_esp0 s' = u32 (kernel_stack c1 + KERNEL_STACK_SIZE)) /\
    (forall t x, tcbs s !! t = Some x -> t <> ct -> t <> t1 -> tcbs s' !! t = Some x) /\
    (ct <> t1 -> exists x, tcbs s' !! ct = Some x /\ ticks x = 0 /\ need_reschedule x = false /\
       let back := bool_decide (status c = TASK_RUNNING) && negb (crt_thread_node s =? main_thread_node s) in
       status x = (if back then TASK_READY else status c) /\
       crt_queue x = (if back then ready_tasks else crt_queue c)).
Proof.
  intros Hinv Hc Hdir Hun Hcand. pose proof Hinv as [Hq [Hl Hr] Hct [Hm Hmu]].
  destruct (ensure_ready_ok s V l ct mt Hinv) as (s1 & base & E1 & Hbase & Hq1 & Hcpu1 & Ht1 & Hb1).
  destruct Hcpu1 as (Hcr1 & Hmn1 & Hmt1 & Hi1 & Hd1 & Hdl1).
  unfold do_context_switch. rewrite E1. cbn [res_bind].
  assert (crt_node_ptr c = crt_thread_node s) as Hcn by (by apply (node_of_tcb (tcbs s) _ ct)).
  destruct (Ht1 ct c Hc) as (ca & Hca & Hst & Hpr & Hks & Hnp & Hsameca).
  destruct (get_crt_thread_ok s1 _ ct Hq1) as (Eg & _).
  { exists ca. split; [done|]. congruence. }
  rewrite Eg. cbn [res_bind].
  set (runs := bool_decide (status c = TASK_RUNNING)) in *.
  destruct (requeue_current_ok s1 _ base ct ca runs Hq1 (lookup_insert_eq _ _ _) Hca) as
    (s2 & E2 & Hq2 & Hcpu2 & Ht2 & cb & Hcb & Hpr2 & Hks2 & Hnp2 & Htk2 & Hnr2 & Hst2 & Hcq2).
  { congruence. } { by rewrite Hst. }
  { rewrite Hst, Hcr1, Hmn1. intros Hrun Hne. apply unqueued_insert; [by apply Hun|]. rewrite Hbase.
    destruct (decide (l = [])); [|by apply (Hun Hrun ready_tasks l)].
    cbn. by rewrite list_elem_of_singleton. }
  rewrite E2. cbn [res_bind]. rewrite Hcr1, Hmn1 in *. rewrite insert_insert_eq in Hq2.
  set (rq := runs && negb (crt_thread_node s =? main_thread_node s)) in *.
  unfold candidates in Hcand. fold rq in Hcand. rewrite <- Hbase in Hcand. rewrite Hcand in Hq2.
  destruct Hcpu2 as (Hcr2 & Hmn2 & Hmt2 & Hi2 & Hd2 & Hdl2).
  (* the thread at the head *)
  assert (exists c1 cn, tcbs s !! t1 = Some c1 /\ tcbs s2 !! t1 = Some cn /\ crt_queue cn = ready_tasks /\
            process cn = process c1 /\ kernel_stack cn = kernel_stack c1) as (c1 & cn & Hc1 & Hcn1 & Hcqn & Hprn & Hksn).
  { assert ((n1, t1) ∈ base ++ (if rq then [(crt_thread_node s, ct)] else [])) as Hin
      by (rewrite Hcand; apply list_elem_of_here).
    destruct (decide (t1 = ct)) as [->|Hne].
    - exists c, cb. split; [done|]. split; [done|]. split; [|split; congruence].
      destruct rq eqn:Erq; [done|]. rewrite app_nil_r in Hin. destruct (Hb1 _ _ Hin) as (x & Hx & ?).
      congruence.
    - apply elem_of_app in Hin as [Hin|Hin].
      + destruct (Hb1 _ _ Hin) as (x & Hx & Hxq).
        assert (exists y, tcbs s !! t1 = Some y) as (y & Hy).
        { rewrite Hbase in Hin. destruct (decide (l = [])).
          - apply list_elem_of_singleton in Hin as [= -> ->]. destruct Hm as (y & ? & _). by exists y.
          - destruct (Hr _ _ Hin) as (y & ? & _). by exists y. }
        destruct (Ht1 t1 y Hy) as (y' & Hy' & _ & ? & ? & _).
        exists y, x. split; [done|]. split; [by rewrite Ht2|]. split; [done|]. split; congruence.
      + destruct rq; [|by apply not_elem_of_nil in Hin].
        apply list_elem_of_singleton in Hin as [= ? ?]. done. }
  destruct (switch_to_head_ok s2 _ ct cb n1 t1 cn rest Hq2 (lookup_insert_eq _ _ _) Hcn1 Hcqn Hcb)
    as (s3 & E3 & Hq3 & Hu3 & Hcr3 & Hmn3 & Htb3 & Htss3 & Hpd3 & Hi3 & Hmt3 & Hdl3).
  rewrite E3. exists s3. rewrite insert_insert_eq in Hq3, Hu3.
  assert (forall n t, (n, t) ∈ rest -> n <> n1 /\ t <> t1) as Honce.
  { intros n t. apply (queue_once s2 _ n1 t1 n t rest Hq2). apply lookup_insert_eq. }
  assert (tcbs s3 !! t1 = Some (with_queue (with_status cn TASK_RUNNING) 0)) as Ht3
    by (rewrite Htb3; apply lookup_insert_eq).
  split; [done|]. split; [split; [done|split; [apply lookup_insert_eq|]| |split]|].
  - intros n t Hin. destruct (Honce n t Hin) as [Hn Ht].
    assert ((n, t) ∈ base ++ (if rq then [(crt_thread_node s, ct)] else [])) as Hin'
      by (rewrite Hcand; set_solver).
    rewrite Htb3, lookup_insert_ne by done. destruct (decide (t = ct)) as [->|Hne].
    + exists cb. split; [done|]. rewrite Hst2, Hcq2. destruct rq eqn:Erq; [done|].
      rewrite app_nil_r in Hin'. rewrite Hbase in Hin', Hcand. destruct (decide (l = [])) as [->|Hl0].
      * apply list_elem_of_singleton in Hin' as [= -> ->]. rewrite app_nil_r in Hcand.
        injection Hcand as <- <- <-. by apply not_elem_of_nil in Hin.
      * destruct (Hr _ _ Hin') as (x & Hx & Hxq & Hxs).
        destruct (Ht1 _ _ Hx) as (x' & Hx' & Hx2 & _ & _ & _ & Hsame).
        rewrite Hca in Hx'. injection Hx' as <-. rewrite Hsame by (by right). done.
    + rewrite Ht2 by done. apply elem_of_app in Hin' as [Hin'|Hin'].
      * rewrite Hbase in Hin', Hcand. destruct (decide (l = [])) as [->|Hl0].
        -- apply list_elem_of_singleton in Hin' as [= -> ->]. by injection Hcand as <- <- _.
        -- destruct (Hr _ _ Hin') as (x & Hx & Hxq & Hxs). destruct (Ht1 _ _ Hx) as (x' & Hx' & _ & _ & _ & _ & Hsame).
           exists x'. split; [done|]. rewrite Hsame by (by right). done.
      * destruct rq; [|by apply not_elem_of_nil in Hin'].
        by apply list_elem_of_singleton in Hin' as [= ? ?].
  - rewrite Hcr3. eexists. split; [exact Ht3|]. cbn.
    apply (node_of_tcb (tcbs s2) _ t1 cn); [|done].
    apply (qi_member _ _ _ _ Hq2 ready_tasks _ _ _ (lookup_insert_eq _ _ _)). apply list_elem_of_here.
  - rewrite Hmn3, Hmn2, Hmn1. destruct Hm as (x & Hx & Hxn). destruct (Ht1 _ _ Hx) as (x' & Hx' & _ & _ & _ & Hxn' & _).
    destruct (decide (mt = t1)) as [->|Hne1].
    + eexists. split; [exact Ht3|]. cbn. destruct (decide (t1 = ct)) as [->|Hne2].
      * assert (cn = cb) as -> by congruence. congruence.
      * rewrite Ht2 in Hcn1 by done. congruence.
    + unfold node_of. rewrite Htb3, lookup_insert_ne by done. destruct (decide (mt = ct)) as [->|Hne2].
      * exists cb. split; [done|]. congruence.
      * rewrite Ht2 by done. exists x'. split; [done|congruence].
  - rewrite Hmn3, Hmn2, Hmn1. apply unqueued_insert; [done|]. intros Hin.
    apply list_elem_of_fmap in Hin as ([n t] & Hn & Hin). cbn in Hn. subst n.
    destruct (Honce _ _ Hin) as [Hn _].
    assert ((main_thread_node s, t) ∈ base ++ (if rq then [(crt_thread_node s, ct)] else [])) as Hin'
      by (rewrite Hcand; set_solver).
    apply elem_of_app in Hin' as [Hin'|Hin'].
    + rewrite Hbase in Hin', Hcand. destruct (decide (l = [])) as [->|Hl0].
      * by injection Hcand as <- _ _.
      * apply (Hmu _ _ Hl). by apply (list_elem_of_fmap_2 fst _ (_, t)).
    + destruct rq eqn:Erq; [|by apply not_elem_of_nil in Hin'].
      apply list_elem_of_singleton in Hin' as [= Heq ?]. subst rq. rewrite Heq in Erq.
      rewrite Z.eqb_refl, andb_false_r in Erq. done.
  - split; [split; [by rewrite Hcr3|]|].
    + eexists. split; [exact Ht3|]. split; [done|]. rewrite Hpd3. cbn.
      destruct (Z.eqb_spec (process cn) (process (if decide (ct = t1) then cn else cb))) as [He|He]; [|done].
      destruct Hdir as [Hdir|[Hne Hdir]].
      * rewrite He. destruct (decide (ct = t1)) as [->|]; [|congruence].
        assert (cn = cb) as -> by congruence. congruence.
      * rewrite decide_False in He by done. destruct (Hdir c1 Hc1). congruence.
    + split; [done|]. split; [congruence|]. split; [congruence|]. split; [congruence|].
      split; [congruence|]. split; [exists c1; split; [done|congruence]|].
      assert (forall t, t <> t1 -> t <> mt \/ l <> []) as Hmt.
      { intros t Hne. destruct (decide (t = mt)) as [->|]; [right; intros ->|by left].
        rewrite Hbase, decide_True in Hcand by done. by injection Hcand as _ <- _. }
      rewrite Htb3. split.
      * intros t x Hx Hne1 Hne2. rewrite lookup_insert_ne, Ht2 by done.
        destruct (Ht1 t x Hx) as (x' & Hx' & _ & _ & _ & _ & Hsame). rewrite Hx', Hsame; [done|by apply Hmt].
      * intros Hne. exists cb. rewrite lookup_insert_ne by done. rewrite Hst2, Hcq2, Hst.
        by rewrite (Hsameca (Hmt ct Hne)).
Qed.

(** ** Yielding *)
Fixpoint yields (k : nat) (s : sched) : res sched :=
  match k with
  | O => Ok s
  | S k => let! s := schedule_thread_yield s in yields k s
  end.

(** The queue seen by the switch, when the current thread runs and is not idle. *)
Lemma yield_ok s V l ct mt :
  sched_inv s V l ct mt -> running s V ct -> crt_thread_node s <> main_thread_node s ->
  exists s' V' n1 t1 rest, schedule_thread_yield s = Ok s' /\
    (if decide (l = []) then [(main_thread_node s, mt)] else l) ++ [(crt_thread_node s, ct)] =
      (n1, t1) :: rest /\
    V' = <[ready_tasks := rest]> V /\ sched_inv s' V' rest t1 mt /\ running s' V' t1 /\
    crt_thread_node s' = n1 /\ main_thread_node s' = main_thread_node s /\ interrupts s' = false.
Proof.
  intros Hinv [Hu (c & Hc & Hs & Hp)] Hne. unfold schedule_thread_yield.
  assert (sched_inv (with_interrupts s false) V l ct mt) as Hinv' by (destruct Hinv; by split).
  destruct (candidates (with_interrupts s false) l ct mt (bool_decide (status c = TASK_RUNNING)))
    as [|[n1 t1] rest] eqn:Ecand.
  { unfold candidates in Ecand. destruct (decide (l = [])); [done|]. by destruct l. }
  destruct (do_context_switch_ok _ V l ct mt c n1 t1 rest Hinv' Hc (or_introl Hp) (fun _ => Hu) Ecand)
    as (s' & E & Hi & Hr & Hcr & Hm & Hint & _).
  exists s', (<[ready_tasks := rest]> V), n1, t1, rest. split; [done|]. split; [|done].
  unfold candidates in Ecand. cbn [main_thread_node crt_thread_node with_interrupts] in Ecand.
  rewrite Hs, bool_decide_true in Ecand by done.
  by replace (crt_thread_node s =? main_thread_node s) with false in Ecand by (symmetry; zbool).
Qed.

Lemma yields_ok i : forall s V l ct mt n t,
  sched_inv s V l ct mt -> running s V ct -> crt_thread_node s <> main_thread_node s ->
  l !! i = Some (n, t) ->
  exists s' V' l', yields (S i) s = Ok s' /\ sched_inv s' V' l' t mt /\ running s' V' t /\
    crt_thread_node s' = n /\ main_thread_node s' = main_thread_node s.
Proof.
  induction i as [|i IH]; intros s V l ct mt n t Hinv Hr Hne Hi;
    (destruct l as [|[n0 t0] l]; [done|]);
    destruct (yield_ok s V _ ct mt Hinv Hr Hne) as
      (s1 & V1 & n1 & t1 & rest & E & Hc & -> & Hinv1 & Hr1 & Hcr1 & Hm1 & _);
    rewrite decide_False in Hc by done; cbn [app] in Hc; injection Hc as <- <- <-;
    cbn [yields]; rewrite E; cbn [res_bind].
  - cbn in Hi. injection Hi as -> ->. exists s1, (<[ready_tasks := l ++ [(crt_thread_node s, ct)]]> V), (l ++ [(crt_thread_node s, ct)]). done.
  - cbn in Hi. assert ((l ++ [(crt_thread_node s, ct)]) !! i = Some (n, t)) as Hi'.
    { rewrite lookup_app_l; [done|]. by apply lookup_lt_Some in Hi. }
    assert (crt_thread_node s1 <> main_thread_node s1) as Hne1.
    { rewrite Hcr1, Hm1. intros ->. destruct Hinv as [_ [Hl _] _ [_ Hu]]. apply (Hu _ _ Hl). cbn. set_solver. }
    destruct (IH s1 _ _ t0 mt n t Hinv1 Hr1 Hne1 Hi') as (s' & V' & l' & E' & H1 & H2 & H3 & H4).
    exists s', V', l'. split; [done|]. split; [done|]. split; [done|]. split; [done|congruence].
Qed.

(** ** Waking *)
Lemma mark_ready_ok s V n t c :
  qinv (s_nodes s) (tcbs s) (queues s) V -> tcbs s !! t = Some c -> crt_node_ptr c = n ->
  status c <> TASK_DEAD ->
  mark_ready s n = Ok (set_tcb s t (with_queue (with_status c TASK_READY) ready_tasks)).
Proof.
  intros Hq Hc Hn Hd. unfold mark_ready. rewrite (thread_of_ok s V n t Hq) by by exists c.
  cbn [res_bind]. rewrite (get_tcb_ok s t c Hc). cbn [res_bind]. by rewrite decide_False by done.
Qed.

(** A thread that is not queued, not current and not the idle thread becomes ready. *)
Lemma wake_ok s V l ct mt n t c (front : bool) :
  sched_inv s V l ct mt -> tcbs s !! t = Some c -> crt_node_ptr c = n -> unqueued V n ->
  status c <> TASK_DEAD -> t <> ct -> t <> mt ->
  exists s', (if front then add_thread_node_to_schedule_head s n else add_thread_node_to_schedule s n) = Ok s' /\
    sched_inv s' (<[ready_tasks := if front then (n, t) :: l else l ++ [(n, t)]]> V)
      (if front then (n, t) :: l else l ++ [(n, t)]) ct mt /\
    same_cpu s s' /\
    tcbs s' = <[t := with_queue (with_status c TASK_READY) ready_tasks]> (tcbs s).
Proof.
  intros [Hq [Hl Hr] Hct [Hm Hmu]] Hc Hn Hu Hd Hne1 Hne2.
  set (s0 := with_interrupts s false). set (c1 := with_queue (with_status c TASK_READY) ready_tasks).
  pose proof (mark_ready_ok s0 V n t c Hq Hc Hn Hd) as Emark. set (s1 := set_tcb s0 t c1) in *.
  pose proof (set_tcb_qinv s0 V Hq t c c1 Hc eq_refl) as Hq1.
  assert (node_of (tcbs s1) n t) as Hn1 by (exists c1; cbn; by rewrite lookup_insert_eq).
  assert (exists st qs, (if front then queue_push_head s1 ready_tasks n else queue_append s1 ready_tasks n) =
            Ok (with_queues s1 st qs) /\
            qinv st (tcbs s1) qs (<[ready_tasks := if front then (n, t) :: l else l ++ [(n, t)]]> V))
    as (st & qs & E & Hq2).
  { destruct front; [by apply (push_queue_ok s1 V Hq1)|by apply (append_queue_ok s1 V Hq1)]. }
  exists (interrupt_restore (with_queues s1 st qs) (interrupts s)). split; [|split; [|by repeat split]].
  - unfold add_thread_node_to_schedule_head, add_thread_node_to_schedule, interrupt_disable. fold s0.
    destruct front; rewrite Emark; cbn [res_bind]; fold c1; fold s1; rewrite E; done.
  - split; [exact Hq2|split; [apply lookup_insert_eq|]| |split].
    + intros n2 t2 Hin. cbn. assert ((n2, t2) = (n, t) \/ (n2, t2) ∈ l) as [[= -> ->]|Hin2]
        by (destruct front; set_solver).
      * exists c1. by rewrite lookup_insert_eq.
      * destruct (decide (t2 = t)) as [->|Hne]; [exists c1; by rewrite lookup_insert_eq|].
        rewrite lookup_insert_ne by done. by apply (Hr n2).
    + destruct Hct as (x & ? & ?). exists x. cbn. by rewrite lookup_insert_ne by done.
    + destruct Hm as (x & ? & ?). exists x. cbn. by rewrite lookup_insert_ne by done.
    + apply unqueued_insert; [done|]. cbn. assert (main_thread_node s <> n) as Hmn.
      { intros Heq. apply Hne2. apply (node_of_inj _ _ _ _ n t mt Hq); [by exists c|by rewrite <- Heq]. }
      pose proof (Hmu _ _ Hl). destruct front; cbn; rewrite ?fmap_app; set_solver.
Qed.

(** The head of a wait queue is woken. *)
Lemma notify_ok s V l ct mt cv n t w c :
  sched_inv s V l ct mt -> cv <> ready_tasks -> V !! cv = Some ((n, t) :: w) ->
  tcbs s !! t = Some c -> status c <> TASK_DEAD -> t <> ct ->
  exists s', cond_var_notify s cv = Ok s' /\
    sched_inv s' (<[ready_tasks := l ++ [(n, t)]]> (<[cv := w]> V)) (l ++ [(n, t)]) ct mt /\
    same_cpu s s' /\ tcbs s' = <[t := with_queue (with_status c TASK_READY) ready_tasks]> (tcbs s).
Proof.
  intros Hinv Hcv Hw Hc Hd Hne. pose proof Hinv as [Hq [Hl Hr] Hct [Hm Hmu]].
  destruct (queue_head_ok s V cv _ Hq Hw) as (d & Ed & Hh & Hsz).
  set (s0 := with_interrupts s false).
  destruct (remove_queue_ok s0 V Hq cv [] n t w Hw) as (st & qs & E & Hq1 & Hu). cbn [app] in Hq1, Hu.
  set (s1 := with_queues s0 st qs) in *.
  assert (sched_inv s1 (<[cv := w]> V) l ct mt) as Hinv1.
  { split; [done| |done|split; [done|]].
    - rewrite lookup_insert_ne by done. done.
    - apply unqueued_insert; [done|]. intros Hin. apply (Hmu cv _ Hw). cbn. set_solver. }
  assert (node_of (tcbs s) n t) as Hn by (apply (qi_member _ _ _ _ Hq cv _ n t Hw); set_solver).
  assert (t <> mt) as Hne2.
  { intros ->. apply (Hmu cv _ Hw). cbn.
    rewrite <- (node_of_tcb _ _ _ _ Hm Hc), (node_of_tcb _ _ _ _ Hn Hc). set_solver. }
  destruct (wake_ok s1 (<[cv := w]> V) l ct mt n t c false Hinv1 Hc) as (s2 & E2 & Hinv2 & Hcpu & Htb); try done.
  { by apply (node_of_tcb (tcbs s) n t c). }
  exists (interrupt_restore s2 (interrupts s)). unfold cond_var_notify, interrupt_disable. fold s0.
  change (get_queue s0 cv) with (get_queue s cv). rewrite Ed. cbn [res_bind]. rewrite Hsz, Hh.
  cbn [length first]. replace (Z.of_nat (S (length w)) =? 0) with false by (symmetry; zbool). cbn [negb].
  rewrite E. cbn [res_bind]. fold s1. rewrite E2. cbn [res_bind]. split; [done|].
  split; [destruct Hinv2; by split|]. split; [|done].
  destruct Hcpu as (? & ? & ? & _ & ? & ?). by repeat split.
Qed.

Lemma notify_empty s V l ct mt cv :
  sched_inv s V l ct mt -> V !! cv = Some [] -> exists s', cond_var_notify s cv = Ok s' /\
    s' = with_interrupts s (interrupts s).
Proof.
  intros [Hq _ _ _] Hw. destruct (queue_head_ok s V cv _ Hq Hw) as (d & Ed & _ & Hsz).
  unfold cond_var_notify, interrupt_disable. change (get_queue (with_interrupts s false) cv) with (get_queue s cv).
  rewrite Ed. cbn [res_bind]. rewrite Hsz. cbn. by eexists.
Qed.

