(* ===== verification/SchedProps.v ===== *)
(** What the scheduler promises: the operations of [Sched] refine an abstract
    scheduler whose state is the contents of the queues and the running thread. *)
From S2P Require Import Prelude BitMap LinkedList Sched SchedSpec.

(** ** The abstract scheduler *)

(** The threads of each queue, as pairs of node and thread, and the one that runs. *)
Definition world : Type := view * (Z * Z).

Inductive sched_event : Type :=
  | Yield
  | Block (cv : Z)
  | Notify (cv : Z)
  | Exit.

(** The idle thread stands in for an empty queue. *)
Definition or_idle (idle : Z * Z) (l : list (Z * Z)) : list (Z * Z) :=
  if decide (l = []) then [idle] else l.

(** The switch: [back] is what the current thread leaves in the queue. *)
Definition spec_switch (idle : Z * Z) (V : view) (back : list (Z * Z)) : option world :=
  match V !! ready_tasks with
  | Some l =>
      match or_idle idle l ++ back with
      | next :: rest => Some (<[ready_tasks := rest]> V, next)
      | [] => None
      end
  | None => None
  end.

(** The head of a wait queue moves to the back of the ready queue. *)
Definition spec_notify (V : view) (cv : Z) : option view :=
  match V !! ready_tasks, V !! cv with
  | Some l, Some [] => Some V
  | Some l, Some (x :: w) => Some (<[ready_tasks := l ++ [x]]> (<[cv := w]> V))
  | _, _ => None
  end.

Definition spec_append (V : view) (q : Z) (x : Z * Z) : option view :=
  match V !! q with Some w => Some (<[q := w ++ [x]]> V) | None => None end.

Definition wait_queue (q : Z) : bool := negb (q =? ready_tasks) && negb (q =? dead_tasks).

(** The abstract step; the idle thread neither blocks nor exits. *)
Definition sched_spec (idle : Z * Z) (w : world) (e : sched_event) : option world :=
  let '(V, cur) := w in
  let is_idle := cur.1 =? idle.1 in
  match e with
  | Yield => spec_switch idle V (if is_idle then [] else [cur])
  | Block cv =>
      if is_idle || negb (wait_queue cv) then None
      else match spec_append V cv cur with Some V => spec_switch idle V [] | None => None end
  | Notify cv =>
      if negb (wait_queue cv) then None
      else match spec_notify V cv with Some V => Some (V, cur) | None => None end
  | Exit =>
      if is_idle then None
      else match spec_append V dead_tasks cur with
           | Some V => match spec_notify V dead_cv with
                       | Some V => spec_switch idle V []
                       | None => None
                       end
           | None => None
           end
  end.

Fixpoint spec_run (idle : Z * Z) (w : world) (es : list sched_event) : option world :=
  match es with
  | [] => Some w
  | e :: es => match sched_spec idle w e with Some w => spec_run idle w es | None => None end
  end.

(** The code's operation for an event; [lock] is the lock of the blocking caller. *)
Definition sched_exec (lock : Z) (s : sched) (e : sched_event) : res sched :=
  match e with
  | Yield => schedule_thread_yield s
  | Block cv => let! (_, s) := cond_var_block s cv lock in Ok s
  | Notify cv => cond_var_notify s cv
  | Exit => schedule_thread_exit s
  end.

Fixpoint sched_run (lock : Z) (s : sched) (es : list sched_event) : res sched :=
  match es with
  | [] => Ok s
  | e :: es => let! s := sched_exec lock s e in sched_run lock s es
  end.

(** ** The simulation relation *)

(** The threads of a wait queue wait. *)
Definition waiters_ok (tb : gmap Z tcb_t) (V : view) : Prop :=
  forall q l n t, V !! q = Some l -> wait_queue q = true -> (n, t) ∈ l ->
    exists c, tb !! t = Some c /\ status c = TASK_WAITING.

Record sched_rel (idle : Z * Z) (s : sched) (w : world) : Prop := {
  sr_inv : exists l, sched_inv s w.1 l w.2.2 idle.2;
  sr_idle : main_thread_node s = idle.1;
  sr_cur : crt_thread_node s = w.2.1;
  sr_run : running s w.1 w.2.2;
  sr_wait : waiters_ok (tcbs s) w.1;
  sr_lock : dead_resource_lock s = LOCKED_NO
}.

Lemma wait_queue_true q : wait_queue q = true <-> q <> ready_tasks /\ q <> dead_tasks.
Proof. unfold wait_queue. rewrite andb_true_iff, !negb_true_iff, !Z.eqb_neq. done. Qed.

(** A queued thread is in one queue only. *)
Lemma queued_apart st tb qs V q1 q2 l1 l2 n1 n2 t :
  qinv st tb qs V -> V !! q1 = Some l1 -> V !! q2 = Some l2 -> (n1, t) ∈ l1 -> (n2, t) ∈ l2 -> q1 = q2.
Proof.
  intros Hq H1 H2 Hin1 Hin2. apply (qi_disjoint _ _ _ _ Hq q1 q2 l1 l2 n1 H1 H2).
  - by apply (list_elem_of_fmap_2 fst _ (n1, t)).
  - destruct (qi_member _ _ _ _ Hq _ _ _ _ H1 Hin1) as (c1 & Hc1 & <-).
    destruct (qi_member _ _ _ _ Hq _ _ _ _ H2 Hin2) as (c2 & Hc2 & <-).
    replace c2 with c1 in Hin2 by congruence. by apply (list_elem_of_fmap_2 fst _ (_, t)).
Qed.

(** A thread whose node is in no queue is not queued. *)
Lemma unqueued_thread st tb qs V q l n m t :
  qinv st tb qs V -> unqueued V n -> node_of tb n t -> V !! q = Some l -> (m, t) ∈ l -> False.
Proof.
  intros Hq Hu (c & Hc & <-) Hl Hin. destruct (qi_member _ _ _ _ Hq _ _ _ _ Hl Hin) as (c' & Hc' & <-).
  replace c' with c in Hin by congruence. apply (Hu q l Hl). by apply (list_elem_of_fmap_2 fst _ (_, t)).
Qed.

(** The switch refines [spec_switch], for a current thread in any state. *)
Lemma switch_rel idle s V l ct c next rest :
  sched_inv s V l ct idle.2 -> main_thread_node s = idle.1 -> waiters_ok (tcbs s) V ->
  tcbs s !! ct = Some c ->
  process c = page_dir s \/ (ct <> next.2 /\ forall x, tcbs s !! next.2 = Some x -> process x <> process c) ->
  (status c = TASK_RUNNING -> unqueued V (crt_thread_node s)) ->
  dead_resource_lock s = LOCKED_NO ->
  or_idle idle l ++ (if bool_decide (status c = TASK_RUNNING) && negb (crt_thread_node s =? idle.1)
                     then [(crt_thread_node s, ct)] else []) = next :: rest ->
  exists s', do_context_switch s = Ok s' /\ sched_rel idle s' (<[ready_tasks := rest]> V, next) /\
    (status c <> TASK_RUNNING -> ct <> next.2 ->
     exists x, tcbs s' !! ct = Some x /\ status x = status c /\ crt_queue x = crt_queue c) /\
    (forall t x, tcbs s !! t = Some x -> t <> ct -> t <> next.2 -> tcbs s' !! t = Some x).
Proof.
  intros Hinv Hi Hw Hc Hp Hun Hlk Hcand. destruct idle as [im it], next as [n1 t1]. cbn in *. subst im.
  destruct (do_context_switch_ok s V l ct it c n1 t1 rest Hinv Hc Hp Hun Hcand)
    as (s' & E & Hinv' & Hr & Hcr & Hm & _ & _ & Hlk' & _ & Hframe & Hold).
  exists s'. split; [done|]. split; cycle 1.
  { split; [|done]. intros Hs Hne. destruct (Hold Hne) as (x & Hx & _ & _ & Hxs & Hxq). exists x.
    rewrite bool_decide_false in Hxs, Hxq by done. done. }
  split; cbn; [by exists rest|done|done|done| |congruence].
  intros q w n t Hq Hwq Hin. pose proof (proj1 (wait_queue_true q) Hwq) as [Hqr _].
  rewrite lookup_insert_ne in Hq by done. destruct (Hw q w n t Hq Hwq Hin) as (x & Hx & Hxs).
  destruct Hinv as [Hqi [Hl _] Hct [Hm' Hmu]].
  assert (t <> t1) as Hne1.
  { intros ->. assert ((n1, t1) ∈ or_idle (main_thread_node s, it) l \/ (status c = TASK_RUNNING /\ t1 = ct)) as [Hin1|[Hrun ->]].
    - assert ((n1, t1) ∈ (n1, t1) :: rest) as Hin1 by apply list_elem_of_here. rewrite <- Hcand in Hin1.
      apply elem_of_app in Hin1 as [|Hin1]; [by left|right].
      destruct (bool_decide (status c = TASK_RUNNING)) eqn:Eb; cbn in Hin1; [|by apply not_elem_of_nil in Hin1].
      apply bool_decide_eq_true in Eb. destruct (negb _); [|by apply not_elem_of_nil in Hin1].
      by apply list_elem_of_singleton in Hin1 as [= _ ->].
    - unfold or_idle in Hin1. destruct (decide (l = [])).
      + apply list_elem_of_singleton in Hin1 as [= -> ->].
        exact (unqueued_thread _ _ _ V q w _ n it Hqi Hmu Hm' Hq Hin).
      + apply Hqr. exact (queued_apart _ _ _ V q ready_tasks w l n n1 t1 Hqi Hq Hl Hin Hin1).
    - exact (unqueued_thread _ _ _ V q w _ n ct Hqi (Hun Hrun) Hct Hq Hin). }
  destruct (decide (t = ct)) as [->|Hne2]; [|exists x; by rewrite (Hframe t x)].
  destruct (Hold Hne1) as (y & Hy & _ & _ & Hys & _). exists y. split; [done|].
  assert (x = c) as -> by congruence. by rewrite Hys, Hxs.
Qed.

(** ** The steps *)

(** A change to the record of a thread outside the ready queue. *)
Lemma set_tcb_inv s V l ct mt t c c' :
  sched_inv s V l ct mt -> tcbs s !! t = Some c -> crt_node_ptr c' = crt_node_ptr c ->
  (forall n, (n, t) ∉ l) -> sched_inv (set_tcb s t c') V l ct mt.
Proof.
  intros [Hq [Hl Hr] Hct [Hm Hmu]] Hc Hp Hnot.
  assert (forall n u, node_of (tcbs s) n u -> node_of (tcbs (set_tcb s t c')) n u) as Hnode.
  { intros n u (x & Hx & Hxn). unfold node_of. cbn. destruct (decide (u = t)) as [->|Hne].
    - exists c'. rewrite lookup_insert_eq. split; [done|congruence].
    - exists x. by rewrite lookup_insert_ne by done. }
  split; [exact (set_tcb_qinv s V Hq t c c' Hc Hp)|split; [done|]|by apply Hnode|split; [by apply Hnode|done]].
  intros n u Hin. cbn. rewrite lookup_insert_ne by (intros ->; by apply (Hnot n)). by apply (Hr n).
Qed.

(** The current thread goes to the back of a queue other than the ready one. *)
Lemma list_enqueue_ok s V l ct mt t x q w :
  sched_inv s V l ct mt -> tcbs s !! t = Some x -> unqueued V (crt_node_ptr x) -> crt_node_ptr x <> main_thread_node s ->
  q <> ready_tasks -> V !! q = Some w ->
  exists st qs, queue_append s q (crt_node_ptr x) = Ok (with_queues s st qs) /\
    sched_inv (with_queues s st qs) (<[q := w ++ [(crt_node_ptr x, t)]]> V) l ct mt.
Proof.
  intros [Hq [Hl Hr] Hct [Hm Hmu]] Hx Hu Hne Hqr Hw.
  destruct (append_queue_ok s V Hq q w (crt_node_ptr x) t Hw) as (st & qs & E & Hq'); [by exists x|done|].
  exists st, qs. split; [done|]. split; [done|split; [by rewrite lookup_insert_ne|done]|done|split; [done|]].
  apply unqueued_insert; [done|]. rewrite fmap_app. pose proof (Hmu q w Hw). cbn. set_solver.
Qed.

Lemma enqueue_crt_ok s V l ct mt q w :
  sched_inv s V l ct mt -> unqueued V (crt_thread_node s) -> crt_thread_node s <> main_thread_node s ->
  q <> ready_tasks -> V !! q = Some w ->
  exists st qs, queue_append s q (crt_thread_node s) = Ok (with_queues s st qs) /\
    sched_inv (with_queues s st qs) (<[q := w ++ [(crt_thread_node s, ct)]]> V) l ct mt.
Proof.
  intros Hinv Hu Hne Hqr Hw. pose proof Hinv as [_ _ (x & Hx & Hxn) _]. rewrite <- Hxn in *. by apply (list_enqueue_ok s V l ct mt ct x).
Qed.

Lemma waiters_enqueue tb V q w n t c :
  waiters_ok tb V -> V !! q = Some w ->
  (wait_queue q = true -> tb !! t = Some c /\ status c = TASK_WAITING) ->
  waiters_ok tb (<[q := w ++ [(n, t)]]> V).
Proof.
  intros Hw Hq Ht q2 l2 n2 t2 H2 Hwq Hin. destruct (decide (q2 = q)) as [->|Hne].
  - rewrite lookup_insert_eq in H2. injection H2 as <-. apply elem_of_app in Hin as [Hin|Hin].
    + by apply (Hw q w n2 t2).
    + apply list_elem_of_singleton in Hin as [= -> ->]. exists c. by apply Ht.
  - rewrite lookup_insert_ne in H2 by done. by apply (Hw q2 l2 n2 t2).
Qed.

(** A record whose thread waits nowhere may change; one that waits keeps its status. *)
Lemma waiters_set tb V t c' :
  waiters_ok tb V ->
  (status c' = TASK_WAITING \/ forall q l n, V !! q = Some l -> wait_queue q = true -> (n, t) ∉ l) ->
  waiters_ok (<[t := c']> tb) V.
Proof.
  intros Hw Hc q l n u Hl Hwq Hin. destruct (decide (u = t)) as [->|Hne].
  - rewrite lookup_insert_eq. exists c'. split; [done|]. destruct Hc as [Hc|Hc]; [done|].
    by destruct (Hc q l n Hl Hwq).
  - rewrite lookup_insert_ne by done. by apply (Hw q l n u).
Qed.

(** No operation changes which threads there are, nor their processes and nodes. *)
Definition threads_kept (tb tb' : gmap Z tcb_t) : Prop := forall t,
  match tb !! t, tb' !! t with
  | None, None => True
  | Some x, Some x' => process x' = process x /\ crt_node_ptr x' = crt_node_ptr x
  | _, _ => False
  end.

Lemma threads_kept_refl tb : threads_kept tb tb.
Proof. intros t. by destruct (tb !! t). Qed.
Lemma threads_kept_trans tb1 tb2 tb3 : threads_kept tb1 tb2 -> threads_kept tb2 tb3 -> threads_kept tb1 tb3.
Proof.
  intros H1 H2 t. specialize (H1 t). specialize (H2 t).
  destruct (tb1 !! t), (tb2 !! t), (tb3 !! t); try done. destruct H1, H2. split; congruence.
Qed.
Lemma threads_kept_get tb tb' t x' : threads_kept tb tb' -> tb' !! t = Some x' ->
  exists x, tb !! t = Some x /\ process x = process x' /\ crt_node_ptr x = crt_node_ptr x'.
Proof. intros Hk E. specialize (Hk t). rewrite E in Hk. destruct (tb !! t) as [x|]; [|done]. destruct Hk. by exists x. Qed.
Lemma threads_kept_set s t c c' : get_tcb s t = Ok c -> process c' = process c -> crt_node_ptr c' = crt_node_ptr c ->
  threads_kept (tcbs s) (<[t := c']> (tcbs s)).
Proof.
  unfold get_tcb. destruct (tcbs s !! t) as [x|] eqn:E; [|done]. intros [= ->] Hp Hn u.
  destruct (decide (u = t)) as [->|Hne]; [by rewrite E, lookup_insert_eq|]. rewrite lookup_insert_ne by done. by destruct (tcbs s !! u).
Qed.

Lemma queue_append_kept s q n s' : queue_append s q n = Ok s' -> threads_kept (tcbs s) (tcbs s').
Proof.
  unfold queue_append. intros H. run_step H. run_step H. destruct a0 as [st l]. injection H as <-. apply threads_kept_refl.
Qed.
Lemma queue_remove_kept s q n s' : queue_remove s q n = Ok s' -> threads_kept (tcbs s) (tcbs s').
Proof.
  unfold queue_remove. intros H. run_step H. run_step H. destruct a0 as [st l]. injection H as <-. apply threads_kept_refl.
Qed.
Lemma add_thread_kept s n s' : add_thread_node_to_schedule s n = Ok s' -> threads_kept (tcbs s) (tcbs s').
Proof.
  unfold add_thread_node_to_schedule, interrupt_disable, mark_ready. intros H. run_step H. run_step H. injection H as <-.
  run_step E. run_step E. injection E as <-. eapply threads_kept_trans; [|exact (queue_append_kept _ _ _ _ E0)].
  cbn. apply (threads_kept_set _ _ _ _ E2); by case_decide.
Qed.
Lemma notify_kept s cv s' : cond_var_notify s cv = Ok s' -> threads_kept (tcbs s) (tcbs s').
Proof.
  unfold cond_var_notify, interrupt_disable. intros H. run_step H. run_step H. injection H as <-. destruct (negb _).
  - run_step E0. eapply threads_kept_trans; [exact (queue_remove_kept _ _ _ _ E1)|exact (add_thread_kept _ _ _ E0)].
  - injection E0 as <-. apply threads_kept_refl.
Qed.
Lemma remove_thread_kept s t s' : remove_thread_from_current_queue s t = Ok s' -> threads_kept (tcbs s) (tcbs s').
Proof.
  unfold remove_thread_from_current_queue. intros H. run_step H. run_step H. destruct (_ || _); [done|]. cbn in H.
  run_step H. run_step H. injection H as <-. eapply threads_kept_trans; [exact (queue_remove_kept _ _ _ _ E1)|].
  by apply (threads_kept_set _ _ _ _ E2).
Qed.
Lemma ensure_ready_kept s s' : ensure_ready s = Ok s' -> threads_kept (tcbs s) (tcbs s').
Proof.
  unfold ensure_ready. intros H. run_step H. destruct (lsize _ =? 0); [|injection H as <-; apply threads_kept_refl].
  run_step H. run_step H. run_step H. injection H as <-. eapply threads_kept_trans; [|exact (queue_append_kept _ _ _ _ E2)].
  by apply (threads_kept_set _ _ _ _ E1).
Qed.
Lemma requeue_kept s t s' : requeue_current s t = Ok s' -> threads_kept (tcbs s) (tcbs s').
Proof.
  unfold requeue_current. intros H. run_step H. run_step H. run_step H. injection H as <-.
  eapply threads_kept_trans; [|by apply (threads_kept_set _ _ _ _ E1)].
  case_decide; [|injection E0 as <-; apply threads_kept_refl].
  eapply threads_kept_trans; [|exact (queue_append_kept _ _ _ _ E0)]. by apply (threads_kept_set _ _ _ _ E).
Qed.
Lemma switch_to_head_kept s t s' : switch_to_head s t = Ok s' -> threads_kept (tcbs s) (tcbs s').
Proof.
  unfold switch_to_head. intros H. run_step H. run_step H. run_step H. run_step H. run_step H. injection H as <-.
  eapply threads_kept_trans; [|exact (remove_thread_kept _ _ _ E3)].
  destruct (negb _); destruct (_ =? main_thread_node _); by apply (threads_kept_set _ _ _ _ E1).
Qed.
Lemma switch_kept s s' : do_context_switch s = Ok s' -> threads_kept (tcbs s) (tcbs s').
Proof.
  unfold do_context_switch. intros H. run_step H. run_step H. run_step H.
  eapply threads_kept_trans; [exact (ensure_ready_kept _ _ E)|].
  eapply threads_kept_trans; [exact (requeue_kept _ _ _ E1)|exact (switch_to_head_kept _ _ _ H)].
Qed.

Lemma notify_rel s V l ct mt cv V' :
  sched_inv s V l ct mt -> waiters_ok (tcbs s) V -> wait_queue cv = true ->
  (forall w n, V !! cv = Some w -> (n, ct) ∉ w) -> spec_notify V cv = Some V' ->
  exists s' l', cond_var_notify s cv = Ok s' /\ sched_inv s' V' l' ct mt /\ same_cpu s s' /\
    waiters_ok (tcbs s') V' /\ tcbs s' !! ct = tcbs s !! ct /\
    (forall n, unqueued V n -> unqueued V' n) /\
    (forall t, (forall w n, V !! cv = Some w -> (n, t) ∉ w) -> tcbs s' !! t = tcbs s !! t).
Proof.
  intros Hinv Hw Hcv Hct. unfold spec_notify. pose proof Hinv as [Hq [Hl _] _ _]. rewrite Hl.
  pose proof (proj1 (wait_queue_true cv) Hcv) as [Hcr _].
  destruct (V !! cv) as [[|[n t] w]|] eqn:Ecv; [intros [= <-]|intros [= <-]|done].
  - destruct (notify_empty s V l ct mt cv Hinv Ecv) as (s' & E & ->).
    exists (with_interrupts s (interrupts s)), l. split; [done|]. split; [by destruct Hinv; split|]. split; [by repeat split|done].
  - destruct (Hw cv _ n t Ecv Hcv ltac:(set_solver)) as (c & Hc & Hcs).
    assert (t <> ct) as Hne by (intros ->; apply (Hct _ n eq_refl); set_solver).
    destruct (notify_ok s V l ct mt cv n t w c Hinv Hcr Ecv Hc) as (s' & E & Hinv' & Hcpu & Htb);
      [by rewrite Hcs|done|].
    exists s', (l ++ [(n, t)]). split; [done|]. split; [done|]. split; [done|]. rewrite Htb.
    split; [|split; [by rewrite lookup_insert_ne by done|]].
    + apply waiters_set.
      * intros q2 l2 n2 t2 H2 Hwq Hin. destruct (decide (q2 = ready_tasks)) as [->|Hne2]; [done|].
        rewrite lookup_insert_ne in H2 by done. destruct (decide (q2 = cv)) as [->|Hne3].
        -- rewrite lookup_insert_eq in H2. injection H2 as <-. apply (Hw cv _ n2 t2 Ecv Hwq). set_solver.
        -- rewrite lookup_insert_ne in H2 by done. by apply (Hw q2 l2 n2 t2).
      * right. intros q2 l2 n2 H2 Hwq Hin. pose proof (proj1 (wait_queue_true q2) Hwq) as [Hqr _].
        apply Hqr. destruct Hinv' as [Hq' [Hl' _] _ _].
        refine (queued_apart _ _ _ _ q2 ready_tasks l2 _ n2 n t Hq' H2 Hl' Hin _). set_solver.
    + split.
      { intros m Hm. apply unqueued_insert; [apply unqueued_insert; [done|]|].
      * pose proof (Hm _ _ Ecv). set_solver.
      * pose proof (Hm _ _ Ecv). pose proof (Hm _ _ Hl). rewrite fmap_app. set_solver. }
      intros u Hu. rewrite lookup_insert_ne; [done|]. intros <-. apply (Hu _ n eq_refl). set_solver.
Qed.

Lemma with_interrupts_inv s V l ct mt b :
  sched_inv s V l ct mt -> sched_inv (with_interrupts s b) V l ct mt.
Proof. intros []. by split. Qed.

Lemma spec_switch_inv idle V l back w' :
  V !! ready_tasks = Some l -> spec_switch idle V back = Some w' ->
  exists next rest, or_idle idle l ++ back = next :: rest /\ w' = (<[ready_tasks := rest]> V, next).
Proof.
  unfold spec_switch. intros ->. destruct (or_idle idle l ++ back) as [|next rest]; [done|].
  intros [= <-]. by exists next, rest.
Qed.

Lemma yield_rel idle s w w' :
  sched_rel idle s w -> sched_spec idle w Yield = Some w' ->
  exists s', schedule_thread_yield s = Ok s' /\ sched_rel idle s' w'.
Proof.
  destruct w as [V [cn ct]]. intros [[l Hinv] Hi Hcr [Hu (c & Hc & Hcs & Hp)] Hw Hlk] Hs. cbn in *.
  pose proof Hinv as [_ [Hl _] _ _].
  destruct (spec_switch_inv _ _ _ _ _ Hl Hs) as (next & rest & Hcand & ->).
  destruct (switch_rel idle (with_interrupts s false) V l ct c next rest) as (s' & ? & ? & _); try done;
    [by apply with_interrupts_inv|by left| |by exists s'].
  rewrite bool_decide_true by done. cbn. rewrite Hcr. rewrite <- Hcand. by destruct (cn =? idle.1).
Qed.

(** The current thread, outside the ready queue, in any state but running: the
    switch leaves it where it is. *)
Lemma leave_rel idle s V l ct c w' :
  sched_inv s V l ct idle.2 -> main_thread_node s = idle.1 -> waiters_ok (tcbs s) V -> tcbs s !! ct = Some c ->
  process c = page_dir s \/ (ct <> w'.2.2 /\ forall x, tcbs s !! w'.2.2 = Some x -> process x <> process c) ->
  status c <> TASK_RUNNING -> dead_resource_lock s = LOCKED_NO -> spec_switch idle V [] = Some w' ->
  exists s', do_context_switch s = Ok s' /\ sched_rel idle s' w' /\
    (ct <> w'.2.2 -> exists x, tcbs s' !! ct = Some x /\ status x = status c /\ crt_queue x = crt_queue c) /\
    (forall t x, tcbs s !! t = Some x -> t <> ct -> t <> w'.2.2 -> tcbs s' !! t = Some x).
Proof.
  intros Hinv Hi Hw Hc Hp Hs Hlk Hspec. pose proof Hinv as [_ [Hl _] _ _].
  destruct (spec_switch_inv _ _ _ _ _ Hl Hspec) as (next & rest & Hcand & ->).
  destruct (switch_rel idle s V l ct c next rest) as (s' & ? & ? & Hk & ?); try done;
    [by rewrite bool_decide_false by done|]. exists s'. split; [done|]. split; [done|]. split; [by apply Hk|done].
Qed.

(** A thread that is in no queue is in none of the lists. *)
Lemma running_unlisted s V l ct mt q w n :
  sched_inv s V l ct mt -> unqueued V (crt_thread_node s) -> V !! q = Some w -> (n, ct) ∉ w.
Proof.
  intros [Hq _ Hct _] Hu Hw Hin. exact (unqueued_thread _ _ _ V q w _ n ct Hq Hu Hct Hw Hin).
Qed.

Lemma block_rel idle lock s w w' cv :
  sched_rel idle s w -> sched_spec idle w (Block cv) = Some w' ->
  exists s', cond_var_block s cv lock = Ok (LOCKED_NO, s') /\ sched_rel idle s' w' /\
    (w.2.2 <> w'.2.2 -> exists c x, tcbs s !! w.2.2 = Some c /\ tcbs s' !! w.2.2 = Some x /\
       status x = TASK_WAITING /\ crt_queue x = crt_queue c).
Proof.
  destruct w as [V [cn ct]]. intros [[l Hinv] Hi Hcr [Hu (c & Hc & Hcs & Hp)] Hw Hlk] Hspec. cbn in *.
  destruct (cn =? idle.1) eqn:Eidle; [done|]. apply Z.eqb_neq in Eidle.
  destruct (wait_queue cv) eqn:Ecv; [|done]. pose proof (proj1 (wait_queue_true cv) Ecv) as [Hcvr _].
  unfold spec_append in Hspec. cbn in Hspec. destruct (V !! cv) as [q|] eqn:Eq; [|done].
  assert (crt_thread_node s <> 0) as Hn0 by (destruct Hinv as [H1 _ H2 _]; by destruct (get_crt_thread_ok s V ct H1 H2) as (_ & ? & _)).
  unfold cond_var_block, get_crt_thread_node. replace (crt_thread_node s =? 0) with false by (symmetry; zbool).
  cbn [negb res_bind interrupt_disable]. set (s0 := with_interrupts s false).
  destruct (enqueue_crt_ok s0 V l ct idle.2 cv q) as (st & qs & E & Hinv1); try done;
    [by apply with_interrupts_inv|cbn; congruence|].
  change (crt_thread_node s0) with (crt_thread_node s) in E, Hinv1. rewrite E. cbn [res_bind].
  rewrite <- Hcr in Hspec.
  set (s1 := with_queues s0 st qs) in *. set (V1 := <[cv := _]> V) in *.
  unfold schedule_mark_thread_block. change (crt_thread_node s1) with (crt_thread_node s).
  pose proof Hinv1 as [Hq1 [Hl1 _] Hct1 _]. rewrite (thread_of_ok s1 V1 (crt_thread_node s) ct Hq1 Hct1). cbn [res_bind].
  rewrite (get_tcb_ok s1 ct c Hc). cbn [res_bind]. set (c1 := with_status c TASK_WAITING).
  assert (forall n, (n, ct) ∉ l) as Hnl.
  { intros n. apply (running_unlisted s V l ct idle.2 ready_tasks l n Hinv Hu). apply Hinv. }
  pose proof (set_tcb_inv s1 V1 l ct idle.2 ct c c1 Hinv1 Hc eq_refl Hnl) as Hinv2.
  set (s2 := set_tcb s1 ct c1) in *. unfold schedule_thread_yield.
  destruct (leave_rel idle (with_interrupts (interrupt_restore s2 (interrupts s)) false) V1 l ct c1 w')
    as (s' & E' & Hrel & Hk & _); try done.
  - apply (waiters_enqueue _ _ _ _ _ _ c1); [|done|intros _; split; [apply lookup_insert_eq|done]].
    apply waiters_set; [done|by left].
  - apply lookup_insert_eq.
  - by left.
  - rewrite E'. cbn [res_bind]. exists s'. split; [done|]. split; [done|]. intros Hne.
    destruct (Hk Hne) as (x & ? & ? & ?). by exists c, x.
Qed.

Lemma notify_step_rel idle s w w' cv :
  sched_rel idle s w -> sched_spec idle w (Notify cv) = Some w' ->
  exists s', cond_var_notify s cv = Ok s' /\ sched_rel idle s' w'.
Proof.
  destruct w as [V [cn ct]]. intros [[l Hinv] Hi Hcr [Hu Hr] Hw Hlk] Hspec. cbn in *.
  destruct (wait_queue cv) eqn:Ecv; [|done]. cbn in Hspec.
  destruct (spec_notify V cv) as [V'|] eqn:Es; [|done]. injection Hspec as <-.
  destruct (notify_rel s V l ct idle.2 cv V' Hinv Hw Ecv) as (s' & l' & E & Hinv' & Hcpu & Hw' & Hct & Hun & _); [|done|].
  { intros w n Hl. by apply (running_unlisted s V l ct idle.2 cv). }
  destruct Hcpu as (E1 & E2 & _ & _ & E3 & E4).
  exists s'. split; [done|]. split; cbn; [by exists l'|congruence|congruence| |done|congruence].
  split; [rewrite E1; by apply Hun|]. rewrite Hct, E3. done.
Qed.

(** The state between two operations of the current thread [ct]. *)
Record sched_core (idle : Z * Z) (s : sched) (V : view) (ct : Z) (c : tcb_t) : Prop := {
  co_inv : exists l, sched_inv s V l ct idle.2;
  co_idle : main_thread_node s = idle.1;
  co_crt : tcbs s !! ct = Some c /\ status c = TASK_RUNNING;
  co_free : unqueued V (crt_thread_node s);
  co_wait : waiters_ok (tcbs s) V;
  co_lock : dead_resource_lock s = LOCKED_NO
}.

Lemma rel_core idle s w : sched_rel idle s w -> exists c, sched_core idle s w.1 w.2.2 c /\ process c = page_dir s.
Proof. intros [? ? ? [Hu (c & Hc & Hs & Hp)] ? ?]. by exists c. Qed.

Lemma core_unlisted idle s V ct c q l n : sched_core idle s V ct c -> V !! q = Some l -> (n, ct) ∉ l.
Proof. intros [[l0 Hinv] _ _ Hu _ _]. by apply (running_unlisted s V l0 ct idle.2). Qed.

Lemma notify_dead V cv V' :
  wait_queue cv = true -> spec_notify V cv = Some V' -> V' !! dead_tasks = V !! dead_tasks.
Proof.
  intros [_ Hne]%wait_queue_true. unfold spec_notify. destruct (V !! ready_tasks); [|done].
  destruct (V !! cv) as [[|]|]; [| |done]; intros [= <-]; [done|]. by rewrite !lookup_insert_ne by done.
Qed.

(** [add_dead_tasks], of a thread that is in no queue. *)
Lemma add_dead_ok s V l ct mt t x q V2 :
  sched_inv s V l ct mt -> waiters_ok (tcbs s) V -> dead_resource_lock s = LOCKED_NO ->
  tcbs s !! t = Some x -> unqueued V (crt_node_ptr x) -> crt_node_ptr x <> main_thread_node s ->
  V !! dead_tasks = Some q -> (forall w n, V !! dead_cv = Some w -> (n, ct) ∉ w) ->
  spec_notify (<[dead_tasks := q ++ [(crt_node_ptr x, t)]]> V) dead_cv = Some V2 ->
  exists s' l', add_dead_tasks s (crt_node_ptr x) = Ok s' /\ sched_inv s' V2 l' ct mt /\ same_cpu s s' /\
    waiters_ok (tcbs s') V2 /\ tcbs s' !! t = Some (with_queue x dead_tasks) /\ threads_kept (tcbs s) (tcbs s') /\
    (t <> ct -> tcbs s' !! ct = tcbs s !! ct) /\
    (forall m, unqueued V m -> m <> crt_node_ptr x -> unqueued V2 m) /\
    (forall u y, u <> t -> tcbs s !! u = Some y -> unqueued V (crt_node_ptr y) -> tcbs s' !! u = Some y).
Proof.
  intros Hinv Hw Hlk Hx Hu Hmn Hq Hcv Hspec. set (n := crt_node_ptr x) in *. pose proof Hinv as [Hqi [Hl _] Hct _].
  assert (node_of (tcbs s) n t) as Hn by (by exists x).
  assert (forall q l m, V !! q = Some l -> (m, t) ∉ l) as Hnl.
  { intros q2 l2 m H2 Hin. exact (unqueued_thread _ _ _ V q2 l2 n m t Hqi Hu Hn H2 Hin). }
  unfold add_dead_tasks. rewrite Hlk. change (yieldlock_lock LOCKED_NO) with (Ok LOCKED_YES). cbn [res_bind].
  set (s0 := with_dead_lock s LOCKED_YES). assert (sched_inv s0 V l ct mt) as Hinv0 by (destruct Hinv; by split).
  change (thread_of s0 n) with (thread_of s n). rewrite (thread_of_ok s V _ t Hqi Hn). cbn [res_bind].
  rewrite (get_tcb_ok s0 t x Hx). cbn [res_bind]. set (x1 := with_queue x dead_tasks).
  pose proof (set_tcb_inv s0 V l ct mt t x x1 Hinv0 Hx eq_refl ltac:(intros m; by apply (Hnl ready_tasks))) as Hinv1.
  set (s1 := set_tcb s0 t x1) in *. assert (tcbs s1 !! t = Some x1) as Hx1 by apply lookup_insert_eq.
  destruct (list_enqueue_ok s1 V l ct mt t x1 dead_tasks q Hinv1 Hx1 Hu Hmn) as (st & qs & E & Hinv2); [done|done|].
  change (crt_node_ptr x1) with n in E, Hinv2. rewrite E. cbn [res_bind]. set (s2 := with_queues s1 st qs) in *.
  set (V1 := <[dead_tasks := _]> V) in *.
  destruct (notify_rel s2 V1 l ct mt dead_cv V2 Hinv2) as (s3 & l3 & E3 & Hinv3 & Hcpu & Hw3 & Hct3 & Hun3 & Hfr3); [|done| |done|].
  { apply (waiters_enqueue _ _ _ _ _ _ x1); [|done|done]. apply waiters_set; [done|]. right. intros q2 l2 n2 H2 _. by apply (Hnl q2). }
  { intros w m. unfold V1. rewrite lookup_insert_ne by done. apply Hcv. }
  rewrite E3. cbn [res_bind]. pose proof (notify_kept _ _ _ E3) as Hk. destruct Hcpu as (E4 & E5 & E6 & E7 & E8 & E9).
  set (s4 := with_dead_lock s3 (yieldlock_unlock (dead_resource_lock s3))).
  assert (same_cpu s s4) as Hs4 by (repeat split; try done; by rewrite Hlk).
  assert (V1 !! dead_cv = V !! dead_cv) as HV1 by (unfold V1; by rewrite lookup_insert_ne).
  exists s4, l3. split; [done|]. split; [destruct Hinv3; by split|]. split; [done|]. split; [done|].
  split; [|split; [|split; [|split]]].
  - cbn. rewrite Hfr3; [done|]. rewrite HV1. intros w m Hw1. by apply (Hnl dead_cv).
  - eapply threads_kept_trans; [|exact Hk]. by apply (threads_kept_set s t x); [apply get_tcb_ok|..].
  - intros Hne. cbn. rewrite Hct3. cbn. by rewrite lookup_insert_ne by done.
  - intros m Hm Hne. apply Hun3, unqueued_insert; [done|]. rewrite fmap_app. pose proof (Hm _ _ Hq). cbn. set_solver.
  - intros u y Hne Hy Huy. cbn. rewrite Hfr3; [cbn; by rewrite lookup_insert_ne by done|]. rewrite HV1. intros w m Hw1 Hin.
    apply (unqueued_thread _ _ _ V dead_cv w (crt_node_ptr y) m u Hqi Huy); [by exists y|done|done].
Qed.

(** A thread of the ready queue, or the idle one, is what the switch takes. *)
Lemma next_ready idle V l w' : V !! ready_tasks = Some l -> spec_switch idle V [] = Some w' -> w'.2 ∈ l \/ w'.2 = idle.
Proof.
  intros Hl Hs. destruct (spec_switch_inv _ _ _ _ _ Hl Hs) as (next & rest & Hc & ->). rewrite app_nil_r in Hc. cbn.
  unfold or_idle in Hc. destruct (decide (l = [])); [injection Hc as <- _; by right|left; rewrite Hc; apply list_elem_of_here].
Qed.

(** The thread that exits joins the dead, wakes the thread that waits for them,
    and leaves the processor. *)
Lemma exit_core idle s V ct c w' :
  sched_core idle s V ct c -> sched_spec idle (V, (crt_thread_node s, ct)) Exit = Some w' ->
  process c = page_dir s \/ (forall x, tcbs s !! w'.2.2 = Some x -> process x <> process c) ->
  exists s', schedule_thread_exit s = Ok s' /\ sched_rel idle s' w' /\ ct <> w'.2.2 /\
    threads_kept (tcbs s) (tcbs s') /\
    (forall t x, t <> ct -> t <> idle.2 -> tcbs s !! t = Some x -> unqueued V (crt_node_ptr x) -> tcbs s' !! t = Some x).
Proof.
  intros [[l Hinv] Hi [Hc Hcs] Hu Hw Hlk] Hspec Hp. cbn in Hspec.
  assert (crt_node_ptr c = crt_thread_node s) as Hcn by (apply (node_of_tcb (tcbs s) _ ct); [apply Hinv|done]).
  rewrite <- Hcn in Hspec, Hu. destruct (crt_node_ptr c =? idle.1) eqn:Eidle; [done|]. apply Z.eqb_neq in Eidle.
  unfold spec_append in Hspec. destruct (V !! dead_tasks) as [q|] eqn:Eq; [|done].
  set (V1 := <[dead_tasks := _]> V) in *. destruct (spec_notify V1 dead_cv) as [V2|] eqn:En; [|done].
  pose proof Hinv as [Hq [Hl _] Hct [Hmain Hmu]]. destruct (get_crt_thread_ok s V ct Hq Hct) as (_ & Hn0 & _).
  assert (forall q l n, V !! q = Some l -> (n, ct) ∉ l) as Hnl by (intros ? ? ?; rewrite Hcn in Hu; by apply (running_unlisted s V l ct idle.2)).
  unfold schedule_thread_exit, get_crt_thread_node. replace (crt_thread_node s =? 0) with false by (symmetry; zbool).
  cbn [negb res_bind]. rewrite (thread_of_ok s V _ ct Hq Hct). cbn [res_bind].
  rewrite <- Hcn. set (s0 := with_interrupts s false).
  destruct (add_dead_ok s0 V l ct idle.2 ct c q V2) as (s1 & l1 & E1 & Hinv1 & Hcpu & Hw1 & Hc1 & Hk1 & _ & Hun1 & Hfr1); try done.
  { by apply with_interrupts_inv. } { cbn. congruence. } { intros w n. apply Hnl. }
  rewrite E1. cbn [res_bind]. rewrite (get_tcb_ok s1 ct _ Hc1). cbn [res_bind]. set (c2 := with_status _ TASK_DEAD).
  destruct Hcpu as (E4 & E5 & E6 & E7 & E8 & E9). cbn in E4, E5, E8, E9.
  assert (forall q l n, V2 !! q = Some l -> q <> dead_tasks -> (n, ct) ∉ l) as Hnl2.
  { intros q2 l2 n H2 Hne Hin. destruct Hinv1 as [Hq3 _ _ _].
    assert (exists d, V2 !! dead_tasks = Some d /\ (crt_node_ptr c, ct) ∈ d) as (d & Hd & Hind).
    { exists (q ++ [(crt_node_ptr c, ct)]). split; [|set_solver]. rewrite (notify_dead V1 dead_cv V2 eq_refl En). apply lookup_insert_eq. }
    by apply Hne, (queued_apart _ _ _ V2 q2 dead_tasks l2 d n (crt_node_ptr c) ct Hq3). }
  assert (ct <> w'.2.2) as Hne.
  { pose proof Hinv1 as [_ [Hl1 _] _ _]. destruct (next_ready idle V2 l1 w' Hl1 Hspec) as [Hin| ->].
    - intros Heq. apply (Hnl2 ready_tasks l1 w'.2.1 Hl1); [done|]. rewrite Heq. by destruct w' as [? []].
    - intros Heq. apply Eidle. rewrite Heq in Hc. rewrite <- Hi. by apply (node_of_tcb _ _ _ _ Hmain). }
  pose proof (threads_kept_set s1 ct _ c2 (get_tcb_ok _ _ _ Hc1) eq_refl eq_refl) as Hk2.
  destruct (leave_rel idle (set_tcb s1 ct c2) V2 l1 ct c2 w') as (s' & E' & Hrel & _ & Hfr'); try done.
  - apply (set_tcb_inv s1 V2 l1 ct idle.2 ct _ _ Hinv1 Hc1); [done|]. intros n. apply (Hnl2 ready_tasks); [|done]. apply Hinv1.
  - cbn. congruence.
  - apply waiters_set; [done|]. right. intros q2 l2 n2 H2 Hwq. pose proof (proj1 (wait_queue_true q2) Hwq) as [_ Hqd]. by apply (Hnl2 q2).
  - apply lookup_insert_eq.
  - destruct Hp as [Hp|Hp]; [left; cbn; congruence|right]. split; [done|]. intros x Hx. cbn in Hx. rewrite lookup_insert_ne in Hx by done.
    destruct (threads_kept_get _ _ _ _ Hk1 Hx) as (y & Hy & <- & _). exact (Hp y Hy).
  - cbn. congruence.
  - exists s'. split; [exact E'|]. split; [done|]. split; [done|]. split.
    + eapply threads_kept_trans; [exact Hk1|]. eapply threads_kept_trans; [exact Hk2|]. exact (switch_kept _ _ E').
    + intros t x Ht Hti Hx Hun. apply Hfr'; [|done|].
      * cbn. rewrite lookup_insert_ne by done. by apply Hfr1.
      * intros ->. pose proof Hinv1 as [Hq1 [Hl1 _] _ _]. destruct (next_ready idle V2 l1 w' Hl1 Hspec) as [Hin|Hid]; [|by rewrite Hid in Hti].
        destruct w' as [V' [n1 t1]]. cbn in *. destruct (decide (crt_node_ptr x = crt_node_ptr c)) as [He|He].
        { apply Ht. apply (node_of_inj _ _ _ _ (crt_node_ptr c) t1 ct Hq); [by exists x|by exists c]. }
        apply (unqueued_thread _ _ _ V2 ready_tasks l1 (crt_node_ptr x) n1 t1 Hq1 (Hun1 _ Hun He)); [|done|done].
        specialize (Hk1 t1). cbn in Hk1. rewrite Hx in Hk1. destruct (tcbs s1 !! t1) as [y|] eqn:Ey; [|done]. exists y. by destruct Hk1.
Qed.

Lemma exit_rel idle s w w' :
  sched_rel idle s w -> sched_spec idle w Exit = Some w' ->
  exists s', schedule_thread_exit s = Ok s' /\ sched_rel idle s' w'.
Proof.
  intros Hr Hs. destruct (rel_core _ _ _ Hr) as (c & Hco & Hp). destruct w as [V [cn ct]]. pose proof (sr_cur _ _ _ Hr) as Hcr. cbn in Hcr. rewrite <- Hcr in Hs.
  destruct (exit_core idle s V ct c w' Hco Hs (or_introl Hp)) as (s' & ? & ? & _). by exists s'.
Qed.

Lemma step_rel idle lock s w w' e :
  sched_rel idle s w -> sched_spec idle w e = Some w' ->
  exists s', sched_exec lock s e = Ok s' /\ sched_rel idle s' w'.
Proof.
  intros Hr Hs. destruct e as [|cv|cv|]; cbn [sched_exec].
  - by apply (yield_rel idle s w).
  - destruct (block_rel idle lock s w w' cv Hr Hs) as (s' & -> & ? & _). by exists s'.
  - by apply (notify_step_rel idle s w).
  - by apply (exit_rel idle s w).
Qed.

Lemma run_rel idle lock es : forall s w w',
  sched_rel idle s w -> spec_run idle w es = Some w' ->
  exists s', sched_run lock s es = Ok s' /\ sched_rel idle s' w'.
Proof.
  induction es as [|e es IH]; intros s w w' Hr Hs; cbn in *; [injection Hs as <-; by exists s|].
  destruct (sched_spec idle w e) as [w1|] eqn:E; [|done].
  destruct (step_rel idle lock s w w1 e Hr E) as (s1 & -> & Hr1). by apply (IH s1 w1).
Qed.

(** ** Where a thread is *)
Definition queued (V : view) (x : Z * Z) : Prop := exists q l, V !! q = Some l /\ x ∈ l.
Definition located (w : world) (x : Z * Z) : Prop := w.2 = x \/ queued w.1 x.

(** A queue may change if what was in it stays somewhere. *)
Lemma queued_insert V q l' x :
  queued V x -> (forall l, V !! q = Some l -> x ∈ l -> x ∈ l' \/ queued (<[q := l']> V) x) ->
  queued (<[q := l']> V) x.
Proof.
  intros (q2 & l2 & H2 & Hin) Hkeep. destruct (decide (q2 = q)) as [->|Hne].
  - destruct (Hkeep l2 H2 Hin) as [|]; [|done]. exists q, l'. by rewrite lookup_insert_eq.
  - exists q2, l2. by rewrite lookup_insert_ne.
Qed.

Lemma append_queued V q y V' x :
  spec_append V q y = Some V' -> queued V x \/ x = y -> queued V' x.
Proof.
  unfold spec_append. destruct (V !! q) as [w|] eqn:E; [|done]. intros [= <-] [Hx| ->].
  - apply queued_insert; [done|]. intros l Hl Hin. left. assert (l = w) as -> by congruence. set_solver.
  - exists q, (w ++ [y]). rewrite lookup_insert_eq. split; [done|set_solver].
Qed.

Lemma notify_queued V cv V' x :
  cv <> ready_tasks -> spec_notify V cv = Some V' -> queued V x -> queued V' x.
Proof.
  intros Hne. unfold spec_notify. destruct (V !! ready_tasks) as [l|] eqn:El; [|done].
  destruct (V !! cv) as [[|y w]|] eqn:Ec; [by intros [= <-]| |done]. intros [= <-] (q & l2 & H2 & Hin).
  destruct (decide (q = ready_tasks)) as [->|Hr].
  - exists ready_tasks, (l ++ [y]). rewrite lookup_insert_eq. split; [done|]. set_solver.
  - destruct (decide (q = cv)) as [->|Hc].
    + rewrite Ec in H2. injection H2 as <-. apply elem_of_cons in Hin as [->|Hin].
      * exists ready_tasks, (l ++ [y]). rewrite lookup_insert_eq. split; [done|set_solver].
      * exists cv, w. by rewrite lookup_insert_ne, lookup_insert_eq by done.
    + exists q, l2. by rewrite !lookup_insert_ne by done.
Qed.

Lemma switch_located idle V back w' x :
  spec_switch idle V back = Some w' -> x ∈ back \/ queued V x -> located w' x.
Proof.
  intros Hs. destruct (V !! ready_tasks) as [l|] eqn:El; [|unfold spec_switch in Hs; by rewrite El in Hs].
  destruct (spec_switch_inv _ _ _ _ _ El Hs) as (next & rest & Hcand & ->).
  assert (x ∈ next :: rest -> located (<[ready_tasks := rest]> V, next) x) as Hnew.
  { intros [->|Hin]%elem_of_cons; [by left|right; exists ready_tasks, rest].
    cbn. by rewrite lookup_insert_eq. }
  intros [Hin|(q & l2 & H2 & Hin)].
  - apply Hnew. rewrite <- Hcand. set_solver.
  - destruct (decide (q = ready_tasks)) as [->|Hne].
    + apply Hnew. rewrite <- Hcand. unfold or_idle. assert (l2 = l) as -> by congruence.
      destruct (decide (l = [])) as [->|]; [by apply not_elem_of_nil in Hin|set_solver].
    + right. exists q, l2. cbn. by rewrite lookup_insert_ne by done.
Qed.

Lemma step_located idle w e w' x :
  sched_spec idle w e = Some w' -> x.1 <> idle.1 -> located w x -> located w' x.
Proof.
  destruct w as [V cur]. intros Hs Hx Hl. unfold located in Hl. cbn in Hl, Hs. destruct e as [|cv|cv|].
  - apply (switch_located _ _ _ _ x Hs). destruct Hl as [->|Hl]; [left|by right].
    replace (x.1 =? idle.1) with false by (symmetry; zbool). set_solver.
  - destruct (_ || _); [done|]. destruct (spec_append V cv cur) as [V1|] eqn:E; [|done].
    apply (switch_located _ _ _ _ x Hs). right. apply (append_queued _ _ _ _ x E).
    destruct Hl as [->|Hl]; auto.
  - destruct (wait_queue cv) eqn:Ecv; [|done]. apply wait_queue_true in Ecv as [Hne _]. cbn in Hs.
    destruct (spec_notify V cv) as [V1|] eqn:E; [|done]. injection Hs as <-.
    destruct Hl as [->|Hl]; [by left|right]. by apply (notify_queued V cv V1 x).
  - destruct (_ =? _); [done|]. destruct (spec_append V dead_tasks cur) as [V1|] eqn:E; [|done].
    destruct (spec_notify V1 dead_cv) as [V2|] eqn:E2; [|done].
    apply (switch_located _ _ _ _ x Hs). right. apply (notify_queued V1 dead_cv V2 x); [done|done|].
    apply (append_queued _ _ _ _ x E). destruct Hl as [->|Hl]; auto.
Qed.

(** The dead stay in their queue, and only the thread that exits joins them. *)
Definition buried (w : world) (e : sched_event) : list (Z * Z) :=
  match e with Exit => [w.2] | _ => [] end.

Lemma switch_dead idle V back w' :
  spec_switch idle V back = Some w' -> w'.1 !! dead_tasks = V !! dead_tasks.
Proof.
  unfold spec_switch. destruct (V !! ready_tasks); [|done].
  destruct (_ ++ _) as [|next rest]; [done|]. intros [= <-]. cbn. by rewrite lookup_insert_ne by done.
Qed.

Lemma step_dead idle w e w' d :
  sched_spec idle w e = Some w' -> w.1 !! dead_tasks = Some d ->
  w'.1 !! dead_tasks = Some (d ++ buried w e).
Proof.
  destruct w as [V cur]. cbn. intros Hs Hd. destruct e as [|cv|cv|]; cbn [buried]; rewrite ?app_nil_r.
  - by rewrite (switch_dead _ _ _ _ Hs).
  - destruct (_ =? _); [done|]. destruct (wait_queue cv) eqn:Ecv; [|done].
    unfold spec_append in Hs. cbn in Hs. destruct (V !! cv) as [w|] eqn:E; [|done].
    apply wait_queue_true in Ecv as [_ Hne]. by rewrite (switch_dead _ _ _ _ Hs), lookup_insert_ne by done.
  - destruct (wait_queue cv) eqn:Ecv; [|done]. cbn in Hs.
    destruct (spec_notify V cv) as [V1|] eqn:E; [|done]. injection Hs as <-.
    cbn. by rewrite (notify_dead V cv V1 Ecv E).
  - destruct (_ =? _); [done|]. unfold spec_append in Hs. rewrite Hd in Hs.
    destruct (spec_notify (<[dead_tasks := _]> V) dead_cv) as [V2|] eqn:E2; [|done].
    rewrite (switch_dead _ _ _ _ Hs), (notify_dead _ dead_cv V2 eq_refl E2). apply lookup_insert_eq.
Qed.

Lemma run_located idle es : forall w w' x,
  spec_run idle w es = Some w' -> x.1 <> idle.1 -> located w x -> located w' x.
Proof.
  induction es as [|e es IH]; intros w w' x Hs Hx Hl; cbn in Hs; [by injection Hs as <-|].
  destruct (sched_spec idle w e) as [w1|] eqn:E; [|done].
  apply (IH w1); [done|done|]. by apply (step_located idle w e).
Qed.

Lemma run_dead idle es : forall w w' d,
  spec_run idle w es = Some w' -> w.1 !! dead_tasks = Some d ->
  exists d', w'.1 !! dead_tasks = Some (d ++ d').
Proof.
  induction es as [|e es IH]; intros w w' d Hs Hd; cbn in Hs;
    [injection Hs as <-; exists []; by rewrite app_nil_r|].
  destruct (sched_spec idle w e) as [w1|] eqn:E; [|done].
  destruct (IH w1 w' _ Hs (step_dead idle w e w1 d E Hd)) as (d2 & H2). exists (buried w e ++ d2).
  by rewrite app_assoc.
Qed.

(** ** Properties *)

(** C8: The scheduler refines its specification: along any sequence of yields,
    waits, notifications and exits that the abstract scheduler can make, the code
    makes them too, without a panic or a fault, and ends in a related state: the
    same threads in the same queues in the same order, the same thread running
    with its address space, the ready ones marked ready and the waiting ones
    waiting, every queue a well-formed list. *)
Theorem scheduler_refines (idle : Z * Z) (lock : Z) (es : list sched_event) (s : sched) (w w' : world)
    (Hrel : sched_rel idle s w) (Hspec : spec_run idle w es = Some w') :
  exists s', sched_run lock s es = Ok s' /\ sched_rel idle s' w'.
Proof. exact (run_rel idle lock es s w w' Hrel Hspec). Qed.

(** Round robin: the thread at place [i] of the ready queue runs after exactly
    [i + 1] yields of the threads before it, whatever they are, so no ready thread
    waits for ever. *)
Theorem ready_threads_run_in_turn (s : sched) (V : view) (l : list (Z * Z)) (ct mt : Z) (i : nat) (n t : Z)
    (Hinv : sched_inv s V l ct mt) (Hrun : running s V ct)
    (Hidle : crt_thread_node s <> main_thread_node s) (Hi : l !! i = Some (n, t)) :
  exists s' V' l', yields (S i) s = Ok s' /\ sched_inv s' V' l' t mt /\ running s' V' t /\
    crt_thread_node s' = n.
Proof.
  destruct (yields_ok i s V l ct mt n t Hinv Hrun Hidle Hi) as (s' & V' & l' & E & H1 & H2 & H3 & _).
  by exists s', V', l'.
Qed.

(** C20: No thread is lost: along any run of the scheduler, a thread that was
    running or in a queue (other than the idle thread) runs or is in a queue, in
    one place only. *)
Theorem no_thread_lost (idle : Z * Z) (lock : Z) (es : list sched_event) (s : sched) (w w' : world) (x : Z * Z)
    (Hrel : sched_rel idle s w) (Hspec : spec_run idle w es = Some w')
    (Hx : located w x) (Hidle : x.1 <> idle.1) :
  exists s', sched_run lock s es = Ok s' /\ sched_rel idle s' w' /\ located w' x /\
    (crt_thread_node s' = x.1 -> ~ queued w'.1 x) /\
    (forall q1 q2 l1 l2, w'.1 !! q1 = Some l1 -> w'.1 !! q2 = Some l2 -> x ∈ l1 -> x ∈ l2 -> q1 = q2).
Proof.
  destruct (run_rel idle lock es s w w' Hrel Hspec) as (s' & E & Hrel'). exists s'.
  split; [done|]. split; [done|]. split; [by apply (run_located idle es w)|].
  destruct Hrel' as [[l Hinv] _ Hcr [Hu _] _ _]. destruct x as [n t]. split.
  - cbn. intros <- (q & l2 & Hl & Hin). apply (Hu q l2 Hl). by apply (list_elem_of_fmap_2 fst _ (_, t)).
  - intros q1 q2 l1 l2 H1 H2 Hin1 Hin2. destruct Hinv as [Hq _ _ _].
    exact (queued_apart _ _ _ _ q1 q2 l1 l2 n n t Hq H1 H2 Hin1 Hin2).
Qed.

(** A thread that exits never runs again: whatever the scheduler does
    afterwards, the thread stays in [dead_tasks] and another one runs. *)
Theorem exited_thread_never_runs (idle : Z * Z) (lock : Z) (es : list sched_event) (s : sched) (w w1 w2 : world)
    (d : list (Z * Z)) (Hrel : sched_rel idle s w) (Hdead : w.1 !! dead_tasks = Some d)
    (Hexit : sched_spec idle w Exit = Some w1) (Hspec : spec_run idle w1 es = Some w2) :
  exists s1 s2, schedule_thread_exit s = Ok s1 /\ sched_run lock s1 es = Ok s2 /\
    sched_rel idle s2 w2 /\ crt_thread_node s2 <> crt_thread_node s /\
    exists d', w2.1 !! dead_tasks = Some (d ++ w.2 :: d').
Proof.
  destruct (exit_rel idle s w w1 Hrel Hexit) as (s1 & E1 & Hrel1).
  destruct (run_rel idle lock es s1 w1 w2 Hrel1 Hspec) as (s2 & E2 & Hrel2). exists s1, s2.
  split; [done|]. split; [done|]. split; [done|].
  destruct (run_dead idle es w1 w2 _ Hspec (step_dead idle w Exit w1 d Hexit Hdead)) as (d' & Hd').
  cbn [buried] in Hd'. rewrite <- app_assoc in Hd'. cbn in Hd'. split; [|by exists d'].
  destruct Hrel2 as [_ _ _ [Hu _] _ _]. rewrite (sr_cur _ _ _ Hrel). intros Heq. apply (Hu _ _ Hd').
  rewrite Heq, fmap_app. cbn. set_solver.
Qed.

(** Waking: a thread that is in no queue becomes ready, at the back of the
    queue ([add_thread_node_to_schedule]) or at its head
    ([add_thread_node_to_schedule_head]); the running thread runs on. *)
Theorem add_thread_correct (s : sched) (V : view) (l : list (Z * Z)) (ct mt n t : Z) (c : tcb_t) (front : bool)
    (Hinv : sched_inv s V l ct mt) (Hc : tcbs s !! t = Some c) (Hn : crt_node_ptr c = n)
    (Hu : unqueued V n) (Hs : status c <> TASK_DEAD) (Hct : t <> ct) (Hmt : t <> mt) :
  let l' := if front then (n, t) :: l else l ++ [(n, t)] in
  exists s', (if front then add_thread_node_to_schedule_head s n else add_thread_node_to_schedule s n) = Ok s' /\
    sched_inv s' (<[ready_tasks := l']> V) l' ct mt /\ crt_thread_node s' = crt_thread_node s /\
    interrupts s' = interrupts s.
Proof.
  destruct (wake_ok s V l ct mt n t c front Hinv Hc Hn Hu Hs Hct Hmt) as (s' & E & Hi & Hcpu & _).
  destruct Hcpu as (? & _ & _ & ? & _). by exists s'.
Qed.

(** A thread that waits on a condition variable does not know its queue:
    [cond_var_wait] leaves [crt_queue] as it was while the thread ran, [NULL], so
    [remove_thread_from_current_queue], with which an [exec] or an exit of the
    process takes its other threads off their queues, panics on it. *)
Theorem cond_var_waiter_has_no_queue (idle : Z * Z) (lock : Z) (s : sched) (w w' : world) (cv : Z) (c : tcb_t)
    (Hrel : sched_rel idle s w) (Hspec : sched_spec idle w (Block cv) = Some w')
    (Hother : w.2.2 <> w'.2.2) (Hc : tcbs s !! w.2.2 = Some c) (Hq : crt_queue c = 0) :
  exists s' q, cond_var_block s cv lock = Ok (LOCKED_NO, s') /\
    w'.1 !! cv = Some (q ++ [w.2]) /\ remove_thread_from_current_queue s' w.2.2 = Err Panic.
Proof.
  destruct (block_rel idle lock s w w' cv Hrel Hspec) as (s' & E & _ & Hk).
  destruct (Hk Hother) as (c' & x & Hc' & Hx & _ & Hxq). assert (c' = c) as -> by congruence.
  assert (exists q, w'.1 !! cv = Some (q ++ [w.2])) as (q & Hcv).
  { destruct w as [V cur]. cbn in Hspec. destruct (_ =? _); [done|].
    destruct (wait_queue cv) eqn:Ecv; [|done]. cbn in Hspec. apply wait_queue_true in Ecv as [Hne _].
    unfold spec_append in Hspec. destruct (V !! cv) as [q|]; [|done]. exists q. unfold spec_switch in Hspec.
    destruct (_ !! ready_tasks); [|done]. destruct (or_idle _ _ ++ _) as [|next rest]; [done|].
    injection Hspec as <-. cbn. by rewrite lookup_insert_ne, lookup_insert_eq by done. }
  exists s', q. split; [done|]. split; [done|].
  unfold remove_thread_from_current_queue. destruct (_ =? 0); [done|]. cbn [negb].
  rewrite (get_tcb_ok s' _ x Hx). cbn [res_bind]. by rewrite Hxq, Hq.
Qed.

(** ** Witnesses

    A machine with the idle thread, a running thread, a ready one, one that waits
    for the dead, and one in no queue. *)
Definition demo_tcb (st : task_status) (q node : Z) : tcb_t := mk_tcb st 10 0 false 77 0 4096 q node.

Definition demo_tcbs : gmap Z tcb_t :=
  <[1000 := demo_tcb TASK_RUNNING 0 1001]> (<[2000 := demo_tcb TASK_RUNNING 0 2001]>
    (<[3000 := demo_tcb TASK_READY ready_tasks 3001]> (<[4000 := demo_tcb TASK_WAITING 0 4001]>
      (<[5000 := demo_tcb TASK_HANGING 0 5001]> ∅)))).

Definition demo_nodes : nodes :=
  <[1001 := mk_node 1000 0 0]> (<[2001 := mk_node 2000 0 0]> (<[3001 := mk_node 3000 0 0]>
    (<[4001 := mk_node 4000 0 0]> (<[5001 := mk_node 5000 0 0]> ∅)))).

Definition demo_queues : gmap Z linked_list_t :=
  <[ready_tasks := mk_list 3001 3001 1]> (<[dead_tasks := mk_list 0 0 0]>
    (<[dead_cv := mk_list 4001 4001 1]> (<[4 := mk_list 0 0 0]> ∅))).

Definition demo_view : view :=
  <[ready_tasks := [(3001, 3000)]]> (<[dead_tasks := []]> (<[dead_cv := [(4001, 4000)]]> (<[4 := []]> ∅))).

Definition demo_sched : sched :=
  mk_sched demo_nodes demo_tcbs demo_queues 2001 1001 false true true 77 0 LOCKED_NO.

Definition demo_idle : Z * Z := (1001, 1000).
Definition demo_world : world := (demo_view, (2001, 2000)).

(** All the entries of a map written out. *)
Ltac entries H :=
  repeat (apply lookup_insert_Some in H as [[<- <-]|[_ H]]); [..|by apply lookup_empty_Some in H].

Lemma dll_single st n t : n <> 0 -> st !! n = Some (mk_node t 0 0) -> dll st (mk_list n n 1) [(n, t)].
Proof. intros Hn Hl. split; [done|done|done|by repeat split|apply NoDup_singleton|done]. Qed.

Lemma dll_empty st : dll st (mk_list 0 0 0) [].
Proof. split; [done|done|done|done|by apply NoDup_nil|done]. Qed.

Lemma demo_qinv : qinv demo_nodes demo_tcbs demo_queues demo_view.
Proof.
  split.
  - intros q l H. unfold demo_view in H. entries H; eexists; (split; [by vm_compute|]);
      first [apply dll_empty | apply dll_single; [done|by vm_compute]].
  - intros q1 q2 l1 l2 x H1 H2 Hx1 Hx2. unfold demo_view in H1, H2.
    entries H1; entries H2; try done; cbn in Hx1, Hx2; set_solver.
  - intros t c H. unfold demo_tcbs in H. entries H; (split; [done|]); (split; [done|]); eexists; by vm_compute.
  - intros q l n t H Hin. unfold demo_view in H. entries H; try by apply not_elem_of_nil in Hin.
    + apply list_elem_of_singleton in Hin as [= -> ->]. eexists. by vm_compute.
    + apply list_elem_of_singleton in Hin as [= -> ->]. eexists. by vm_compute.
  - by vm_compute.
Qed.

Lemma demo_unqueued n : n <> 3001 -> n <> 4001 -> unqueued demo_view n.
Proof. intros H1 H2 q l H. unfold demo_view in H. entries H; cbn; set_solver. Qed.

Lemma demo_inv : sched_inv demo_sched demo_view [(3001, 3000)] 2000 1000.
Proof.
  split; [apply demo_qinv|split; [done|]| |split; [|by apply demo_unqueued]].
  - intros n t [= -> ->]%list_elem_of_singleton. eexists. by vm_compute.
  - eexists. by vm_compute.
  - eexists. by vm_compute.
Qed.

Lemma demo_running : running demo_sched demo_view 2000.
Proof. split; [by apply demo_unqueued|]. eexists. by vm_compute. Qed.

Lemma demo_rel : sched_rel demo_idle demo_sched demo_world.
Proof.
  split; [eexists; apply demo_inv|done|done|apply demo_running| |done].
  intros q l n t H Hwq Hin. cbn in H. unfold demo_view in H. entries H; try done.
  - apply list_elem_of_singleton in Hin as [= -> ->]. eexists. by vm_compute.
  - by apply not_elem_of_nil in Hin.
Qed.

Definition demo_trace : list sched_event := [Yield; Block 4; Exit; Notify 4; Yield].

(** Where the trace leads: the thread that slept runs, the one that exited is dead. *)
Definition demo_end : world :=
  (<[ready_tasks := [(4001, 4000)]]> (<[dead_tasks := [(2001, 2000)]]> (<[dead_cv := []]> (<[4 := []]> ∅))),
   (3001, 3000)).

Lemma scheduler_refines_witness :
  exists s', sched_run LOCKED_YES demo_sched demo_trace = Ok s' /\ sched_rel demo_idle s' demo_end.
Proof.
  apply (scheduler_refines demo_idle LOCKED_YES demo_trace demo_sched demo_world demo_end demo_rel).
  by vm_compute.
Defined.

Lemma ready_threads_run_in_turn_witness :
  exists s' V' l', yields 1 demo_sched = Ok s' /\ sched_inv s' V' l' 3000 1000 /\ running s' V' 3000 /\
    crt_thread_node s' = 3001.
Proof.
  apply (ready_threads_run_in_turn demo_sched demo_view [(3001, 3000)] 2000 1000 0 3001 3000 demo_inv demo_running);
    done.
Defined.

Lemma no_thread_lost_witness : located demo_end (2001, 2000) /\ ~ (demo_end.2 = (2001, 2000)).
Proof.
  destruct (no_thread_lost demo_idle LOCKED_YES demo_trace demo_sched demo_world demo_end (2001, 2000) demo_rel)
    as (s' & _ & _ & H & _); [by vm_compute|by left|done|]. by split.
Defined.

Lemma exited_thread_never_runs_witness :
  exists s1 s2, schedule_thread_exit demo_sched = Ok s1 /\ sched_run 0 s1 [Yield; Yield] = Ok s2 /\
    crt_thread_node s2 <> 2001.
Proof.
  destruct (sched_spec demo_idle demo_world Exit) as [w1|] eqn:E1; [|by vm_compute in E1].
  destruct (spec_run demo_idle w1 [Yield; Yield]) as [w2|] eqn:E2.
  - destruct (exited_thread_never_runs demo_idle 0 [Yield; Yield] demo_sched demo_world w1 w2 [] demo_rel)
      as (s1 & s2 & ? & ? & _ & ? & _); [by vm_compute|exact E1|exact E2|]. by exists s1, s2.
  - exfalso. revert E2. assert (Some w1 = sched_spec demo_idle demo_world Exit) as H by (symmetry; exact E1).
    vm_compute in H. injection H as ->. by vm_compute.
Defined.

Lemma add_thread_correct_witness :
  exists s', add_thread_node_to_schedule demo_sched 5001 = Ok s' /\
    sched_inv s' (<[ready_tasks := [(3001, 3000); (5001, 5000)]]> demo_view)
      [(3001, 3000); (5001, 5000)] 2000 1000.
Proof.
  destruct (add_thread_correct demo_sched demo_view _ 2000 1000 5001 5000 (demo_tcb TASK_HANGING 0 5001) false demo_inv)
    as (s' & ? & ? & _); [by vm_compute|done|by apply demo_unqueued|done|done|done|]. by exists s'.
Defined.

Lemma cond_var_waiter_has_no_queue_witness :
  exists s', cond_var_block demo_sched 4 LOCKED_YES = Ok (LOCKED_NO, s') /\
    remove_thread_from_current_queue s' 2000 = Err Panic.
Proof.
  destruct (cond_var_waiter_has_no_queue demo_idle LOCKED_YES demo_sched demo_world
    (<[ready_tasks := []]> (<[dead_tasks := []]> (<[dead_cv := [(4001, 4000)]]> (<[4 := [(2001, 2000)]]> ∅))), (3001, 3000))
    4 (demo_tcb TASK_RUNNING 0 2001) demo_rel) as (s' & q & ? & _ & ?);
    [by vm_compute|done|by vm_compute|done|]. by exists s'.
Defined.
