(* ===== verification/SyncProps.v ===== *)
(** Preemption: the timer's time slice, the scheduling at the end of an interrupt,
    and the spin lock that switches it off. *)
From S2P Require Import Prelude BitMap LinkedList Sched SchedSpec SchedProps.

(** [n] timer interrupts in a row. *)
Fixpoint timer_run (n : nat) (tick : Z) (s : sched) : res (Z * sched) :=
  match n with
  | O => Ok (tick, s)
  | S n => let! (tick, s) := timer_callback tick s in timer_run n tick s
  end.

Lemma set_tcb_id s t c : tcbs s !! t = Some c -> set_tcb s t c = s.
Proof. intros H. unfold set_tcb, with_tcbs. rewrite insert_id by done. by destruct s. Qed.

Lemma set_tcb_twice s t c c' : set_tcb (set_tcb s t c) t c' = set_tcb s t c'.
Proof. unfold set_tcb, with_tcbs. cbn. by rewrite insert_insert_eq. Qed.

(** The effect of [n] ticks on the running thread. *)
Lemma timer_run_ok n : forall tick s t c,
  get_crt_thread s = Ok t -> tcbs s !! t = Some c -> multi_task_enabled s = true ->
  0 <= ticks c -> ticks c + Z.of_nat n < 4294967296 -> 0 <= tick < 4294967296 ->
  timer_run n tick s = Ok (u32 (tick + Z.of_nat n),
    set_tcb s t (with_ticks c (ticks c + Z.of_nat n)
      (need_reschedule c || ((0 <? Z.of_nat n) && (priority c <=? ticks c + Z.of_nat n))))).
Proof.
  induction n as [|n IH]; intros tick s t c Hg Hc Hm H0 Hn Htk.
  - cbn [timer_run Z.of_nat]. rewrite !Z.add_0_r, u32_small by done. cbn [Z.ltb Z.compare andb].
    rewrite orb_false_r. f_equal. f_equal. rewrite set_tcb_id; [done|]. by destruct c.
  - cbn [timer_run]. unfold timer_callback. rewrite Hm, Hg. cbn [res_bind].
    rewrite (get_tcb_ok s t c Hc). cbn [res_bind]. rewrite (u32_small (ticks c + 1)) by lia.
    set (c1 := with_ticks c _ _). pose proof (u32_range (tick + 1)).
    rewrite (IH (u32 (tick + 1)) (set_tcb s t c1) t c1 Hg (lookup_insert_eq _ _ _) Hm) by (cbn; lia).
    rewrite set_tcb_twice, u32_add_u32_l. f_equal. f_equal; [f_equal; lia|].
    f_equal. unfold c1, with_ticks. cbn [ticks need_reschedule priority status process preempt_count
      kernel_stack crt_queue crt_node_ptr]. f_equal; [lia|]. rewrite Z.geb_leb.
    replace (ticks c + 1 + Z.of_nat n) with (ticks c + Z.of_nat (S n)) by lia.
    replace (0 <? Z.of_nat (S n)) with true by (symmetry; zbool).
    destruct (need_reschedule c), (Z.leb_spec (priority c) (ticks c + 1)); cbn [orb andb]; try done.
    + symmetry. zbool.
    + destruct n; [|done]. symmetry. apply Z.leb_gt. lia.
Qed.

(** The records the switch goes by are those the ticks leave alone. *)
Lemma set_crt_tcb_inv s V l ct mt c c' :
  sched_inv s V l ct mt -> running s V ct -> tcbs s !! ct = Some c ->
  crt_node_ptr c' = crt_node_ptr c -> status c' = status c -> process c' = process c ->
  sched_inv (set_tcb s ct c') V l ct mt /\ running (set_tcb s ct c') V ct.
Proof.
  intros Hinv [Hu (x & Hx & Hxs & Hxp)] Hc Hn Hs Hp. assert (x = c) as -> by congruence. split.
  - apply (set_tcb_inv s V l ct mt ct c c' Hinv Hc Hn).
    intros n. apply (running_unlisted s V l ct mt ready_tasks l n Hinv Hu). apply Hinv.
  - split; [done|]. exists c'. split; [apply lookup_insert_eq|]. cbn. split; congruence.
Qed.

(** ** The lock with interrupts off *)
Lemma spin_lock_ok smp s hold t c :
  get_crt_thread s = Ok t -> tcbs s !! t = Some c -> 0 <= preempt_count c < 2147483647 ->
  (smp = true -> hold = LOCKED_NO) ->
  spin_lock_irqsave smp s hold = Ok (interrupts s, (if smp then LOCKED_YES else hold),
    with_interrupts (set_tcb s t (with_preempt c (preempt_count c + 1))) false).
Proof.
  intros Hg Hc Hp Hh. unfold spin_lock_irqsave, disable_preempt. rewrite Hg. cbn [res_bind].
  rewrite (get_tcb_ok s t c Hc). cbn [res_bind]. rewrite s32_small by lia.
  destruct smp; [|done]. by rewrite Hh.
Qed.

Lemma spin_unlock_ok smp s hold (b : bool) t c :
  get_crt_thread s = Ok t -> tcbs s !! t = Some c -> 0 < preempt_count c < 2147483648 ->
  spin_unlock_irqrestore smp s hold b = Ok (if smp then LOCKED_NO else hold,
    set_tcb (if b then with_interrupts s true else s) t (with_preempt c (preempt_count c - 1))).
Proof.
  intros Hg Hc Hp. unfold spin_unlock_irqrestore, enable_preempt.
  replace (get_crt_thread (if b then with_interrupts s true else s)) with (Ok t) by (by destruct b).
  cbn [res_bind]. rewrite (get_tcb_ok _ t c) by (by destruct b). cbn [res_bind].
  by rewrite s32_small by lia.
Qed.

Lemma restore_id s t c :
  tcbs s !! t = Some c ->
  let s1 := with_interrupts (set_tcb s t (with_preempt c (preempt_count c + 1))) false in
  set_tcb (if interrupts s then with_interrupts s1 true else s1) t
    (with_preempt (with_preempt c (preempt_count c + 1)) (preempt_count c + 1 - 1)) = s.
Proof.
  intros Hc. cbv zeta. replace (preempt_count c + 1 - 1) with (preempt_count c) by lia.
  replace (with_preempt (with_preempt c _) (preempt_count c)) with c by (by destruct c).
  destruct (interrupts s) eqn:Ei; unfold set_tcb, with_tcbs, with_interrupts; cbn;
    rewrite insert_insert_eq, insert_id by done; destruct s; cbn in *; by rewrite Ei.
Qed.

(** ** Properties *)

(** C27: The time slice: [n] timer interrupts after a thread got the processor,
    [schedule] keeps the thread while [n] is below its priority, and from then on
    switches to the head of the ready queue and puts the thread at its back. *)
Theorem time_slice_correct (s : sched) (V : view) (n1 t1 : Z) (rest : list (Z * Z)) (ct mt : Z) (c : tcb_t)
    (n : nat) (tick : Z)
    (Hinv : sched_inv s V ((n1, t1) :: rest) ct mt) (Hrun : running s V ct) (Hc : tcbs s !! ct = Some c)
    (Hm : multi_task_enabled s = true) (Hidle : crt_thread_node s <> main_thread_node s)
    (Hfresh : ticks c = 0 /\ need_reschedule c = false /\ preempt_count c = 0 /\ 0 < priority c < 256)
    (Hn : Z.of_nat n < 4294967296) (Htk : 0 <= tick < 4294967296) :
  exists s1, timer_run n tick s = Ok (u32 (tick + Z.of_nat n), s1) /\
    if Z.of_nat n <? priority c then
      schedule s1 = Ok (with_interrupts s1 false) /\ crt_thread_node s1 = crt_thread_node s
    else exists s2, schedule s1 = Ok s2 /\ crt_thread_node s2 = n1 /\
      let l' := rest ++ [(crt_thread_node s, ct)] in
      sched_inv s2 (<[ready_tasks := l']> V) l' t1 mt /\ running s2 (<[ready_tasks := l']> V) t1.
Proof.
  destruct Hfresh as (Ht0 & Hnr & Hpc & Hprio). pose proof Hinv as [Hq [Hl _] Hct _].
  destruct (get_crt_thread_ok s V ct Hq Hct) as (Hg & _ & _).
  rewrite (timer_run_ok n tick s ct c Hg Hc Hm) by lia. rewrite Hnr, Ht0. cbn [orb Z.add].
  set (c' := with_ticks c _ _).
  destruct (set_crt_tcb_inv s V _ ct mt c c' Hinv Hrun Hc eq_refl eq_refl eq_refl) as [Hinv' Hrun'].
  set (s1 := set_tcb s ct c') in *. exists s1. split; [done|].
  assert (schedule s1 = if need_reschedule c' then do_context_switch (with_interrupts s1 false)
            else Ok (with_interrupts s1 false)) as Esched.
  { unfold schedule. change (multi_task_enabled s1) with (multi_task_enabled s). rewrite Hm. cbn [negb].
    change (get_crt_thread (with_interrupts s1 false)) with (get_crt_thread s). rewrite Hg. cbn [res_bind].
    rewrite (get_tcb_ok _ ct c') by apply lookup_insert_eq. cbn [res_bind].
    change (preempt_count c') with (preempt_count c). rewrite Hpc. cbn [Z.gtb Z.compare].
    destruct Hinv' as [Hq' [Hl' _] _ _]. destruct (queue_head_ok s1 V _ _ Hq' Hl') as (d & Ed & _ & Hsz).
    change (get_queue (with_interrupts s1 false) ready_tasks) with (get_queue s1 ready_tasks).
    rewrite Ed. cbn [res_bind]. rewrite Hsz. cbn [length].
    replace (Z.of_nat (S (length rest)) >? 0) with true by (symmetry; zbool). done. }
  assert (need_reschedule c' = negb (Z.of_nat n <? priority c)) as Hneed.
  { change (need_reschedule c') with ((0 <? Z.of_nat n) && (priority c <=? Z.of_nat n)).
    destruct (Z.ltb_spec (Z.of_nat n) (priority c)); cbn [negb].
    - replace (priority c <=? Z.of_nat n) with false by (symmetry; zbool). by rewrite andb_false_r.
    - replace (priority c <=? Z.of_nat n) with true by (symmetry; zbool). rewrite andb_true_r. zbool. }
  rewrite Esched, Hneed. destruct (Z.of_nat n <? priority c); cbn [negb]; [done|].
  destruct (yield_ok s1 V _ ct mt Hinv' Hrun' Hidle) as (s2 & V' & m & t & r & E & Hcand & -> & Hi & Hr & Hcr & _).
  rewrite decide_False in Hcand by done. cbn [app] in Hcand. injection Hcand as <- <- <-.
  exists s2. done.
Qed.

(** C29: The spin lock: a lock that is held makes the caller spin ([Blocked], on a
    multiprocessor); otherwise [spin_lock_irqsave] leaves interrupts off, and until
    the release no number of timer interrupts makes [schedule] switch away, nor
    touches a queue; [spin_unlock_irqrestore] with the saved flag then gives back
    exactly the state before, whether interrupts were on or not. *)
Theorem spin_lock_irqsave_correct (smp : bool) (s : sched) (hold t : Z) (c : tcb_t)
    (Hg : get_crt_thread s = Ok t) (Hc : tcbs s !! t = Some c)
    (Hp : 0 <= preempt_count c < 2147483647) (Hh : hold = LOCKED_NO \/ hold = LOCKED_YES) :
  if smp && (hold =? LOCKED_YES) then spin_lock_irqsave smp s hold = Err Blocked
  else exists hold1 s1, spin_lock_irqsave smp s hold = Ok (interrupts s, hold1, s1) /\
    interrupts s1 = false /\ (smp = true -> hold1 = LOCKED_YES) /\
    (forall n tick, multi_task_enabled s = true -> 0 <= ticks c -> ticks c + Z.of_nat n < 4294967296 ->
       0 <= tick < 4294967296 ->
       exists s2, timer_run n tick s1 = Ok (u32 (tick + Z.of_nat n), s2) /\
         schedule s2 = Ok (with_interrupts s2 false) /\
         crt_thread_node s2 = crt_thread_node s /\ queues s2 = queues s /\ s_nodes s2 = s_nodes s) /\
    spin_unlock_irqrestore smp s1 hold1 (interrupts s) = Ok (hold, s).
Proof.
  unfold spin_lock_irqsave, disable_preempt. rewrite Hg. cbn [res_bind]. rewrite (get_tcb_ok s t c Hc). cbn [res_bind].
  rewrite s32_small by lia. set (c1 := with_preempt c (preempt_count c + 1)).
  set (s1 := with_interrupts (set_tcb s t c1) false). cbn [atomic_exchange].
  destruct (smp && (hold =? LOCKED_YES)) eqn:Eheld.
  - apply andb_true_iff in Eheld as [-> Eh]. apply Z.eqb_eq in Eh. by rewrite Eh.
  - exists (if smp then LOCKED_YES else hold), s1.
    assert (smp = true -> hold = LOCKED_NO) as Hfree.
    { intros ->. destruct Hh as [Hh|Hh]; [exact Hh|by rewrite Hh in Eheld]. }
    split; [destruct smp; [by rewrite Hfree|done]|]. split; [done|]. split; [by destruct smp|]. split.
    + intros n tick Hm H0 Hn Htk. eexists. split.
      { exact (timer_run_ok n tick s1 t c1 Hg (lookup_insert_eq _ _ _) Hm H0 Hn Htk). }
      set (c2 := with_ticks c1 _ _). split; [|done]. unfold schedule.
      change (multi_task_enabled (set_tcb s1 t c2)) with (multi_task_enabled s). rewrite Hm. cbn [negb].
      change (get_crt_thread (with_interrupts (set_tcb s1 t c2) false)) with (get_crt_thread s).
      rewrite Hg. cbn [res_bind]. rewrite (get_tcb_ok _ t c2) by apply lookup_insert_eq. cbn [res_bind].
      change (preempt_count c2) with (preempt_count c + 1).
      by replace (preempt_count c + 1 >? 0) with true by (symmetry; zbool).
    + unfold spin_unlock_irqrestore, enable_preempt.
      set (s2 := if interrupts s then with_interrupts s1 true else s1).
      assert (s2 = set_tcb s t c1) as -> by (unfold s2, s1; destruct s; cbn; by destruct interrupts).
      change (get_crt_thread (set_tcb s t c1)) with (get_crt_thread s). rewrite Hg. cbn [res_bind].
      rewrite (get_tcb_ok _ t c1) by apply lookup_insert_eq. cbn [res_bind].
      replace (s32 (preempt_count c1 - 1)) with (preempt_count c) by (cbn; rewrite s32_small by lia; lia).
      rewrite set_tcb_twice. replace (with_preempt c1 (preempt_count c)) with c by (by destruct c).
      rewrite (set_tcb_id s t c Hc). destruct smp; [by rewrite Hfree|done].
Qed.

(** ** Witnesses *)
Lemma time_slice_correct_witness :
  exists s1 s2, timer_run 10 0 demo_sched = Ok (10, s1) /\ schedule s1 = Ok s2 /\ crt_thread_node s2 = 3001.
Proof.
  destruct (time_slice_correct demo_sched demo_view 3001 3000 [] 2000 1000 (demo_tcb TASK_RUNNING 0 2001) 10 0
              demo_inv demo_running) as (s1 & E & H); [by vm_compute|done|done|by vm_compute|done|done|].
  change (Z.of_nat 10 <? priority _) with false in H. change (u32 (0 + Z.of_nat 10)) with 10 in E.
  destruct H as (s2 & E2 & E3 & _). exists s1, s2. split; [exact E|split; [exact E2|exact E3]].
Defined.

Lemma spin_lock_irqsave_correct_witness :
  spin_lock_irqsave true demo_sched LOCKED_YES = Err Blocked /\
  exists hold s1, spin_lock_irqsave true demo_sched LOCKED_NO = Ok (true, hold, s1) /\
    spin_unlock_irqrestore true s1 hold true = Ok (LOCKED_NO, demo_sched).
Proof.
  split.
  - apply (spin_lock_irqsave_correct true demo_sched LOCKED_YES 2000 (demo_tcb TASK_RUNNING 0 2001));
      [by vm_compute|by vm_compute|by vm_compute|by right].
  - destruct (spin_lock_irqsave_correct true demo_sched LOCKED_NO 2000 (demo_tcb TASK_RUNNING 0 2001))
      as (hold & s1 & ? & _ & _ & _ & ?); [by vm_compute|by vm_compute|by vm_compute|by left|].
    by exists hold, s1.
Defined.
