(* ===== verification/KeyQueue.v ===== *)
(** The keyboard driver [src/src/driver/kerboard.c]: the ring buffer of events of
    [src/src/include/driver/keyboard.h], the interrupt handler that decodes a
    scancode, queues the event and wakes the readers, and the reads.

    [wait_tasks] and the handler's local list are queues of the scheduler's store.
    A read that blocks ends at the switch to another thread. *)
From S2P Require Import Prelude BitMap LinkedList Sched Keyboard.

(** ** Data *)
Definition KEYBOARD_BUF_SIZE : Z := 1024.

Record keyboard_event_t : Type := mk_event {
  key : Z;
  character : Z;
  is_make : bool
}.

Record buffer_queue_t : Type := mk_buffer {
  buffer : list keyboard_event_t;
  bhead : Z;
  btail : Z;
  bsize : Z
}.

(** The static variables of the file, with the decoder's. *)
Record keyboard : Type := mk_keyboard {
  keyboard_queue : buffer_queue_t;
  kb_key_state : list bool;
  keyboard_lock : Z;
  scan_decoder : decoder
}.

Definition with_events (k : keyboard) (q : buffer_queue_t) : keyboard :=
  mk_keyboard q (kb_key_state k) (keyboard_lock k) (scan_decoder k).
Definition with_keys (k : keyboard) (l : list bool) : keyboard :=
  mk_keyboard (keyboard_queue k) l (keyboard_lock k) (scan_decoder k).
Definition with_klock (k : keyboard) (hold : Z) : keyboard :=
  mk_keyboard (keyboard_queue k) (kb_key_state k) hold (scan_decoder k).
Definition with_decoder (k : keyboard) (d : decoder) : keyboard :=
  mk_keyboard (keyboard_queue k) (kb_key_state k) (keyboard_lock k) d.

(** The addresses of [wait_tasks] and of the handler's local [get_wait_tasks]. *)
Definition wait_tasks : Z := 5.
Definition get_wait_tasks : Z := 6.

(** ** The ring buffer *)

(** [next_queue] *)
Definition next_queue (index : Z) : Z := Z.rem (s32 (index + 1)) KEYBOARD_BUF_SIZE.

(** [enqueue] *)
Definition enqueue (q : buffer_queue_t) (event : keyboard_event_t) : res (Z * buffer_queue_t) :=
  if bsize q =? KEYBOARD_BUF_SIZE then Ok (-1, q)
  else
    let! b := arr_set (buffer q) (btail q) event in
    Ok (0, mk_buffer b (bhead q) (next_queue (btail q)) (s32 (bsize q + 1))).

(** [dequeue]: [None] is the result [false]. *)
Definition dequeue (q : buffer_queue_t) : res (option keyboard_event_t * buffer_queue_t) :=
  if bsize q =? 0 then Ok (None, q)
  else
    let! event := arr_get (buffer q) (bhead q) in
    Ok (Some event, mk_buffer (buffer q) (next_queue (bhead q)) (btail q) (s32 (bsize q - 1))).

(** [init_keyboard]; [linked_list_init(&wait_tasks)] is the queue at [wait_tasks]. *)
Definition init_keyboard (k : keyboard) (s : sched) : keyboard * sched :=
  (mk_keyboard (mk_buffer (replicate 1024 (mk_event 0 0 false)) 0 0 0) (kb_key_state k) spinlock_init
     (scan_decoder k),
   with_queues s (s_nodes s) (<[wait_tasks := linked_list_init]> (queues s))).

(** [read_keyboard_char_impl] *)
Fixpoint read_keyboard_char_impl (fuel : nat) (q : buffer_queue_t) : res (Z * buffer_queue_t) :=
  match fuel with
  | O => Err NoFuel
  | S fuel =>
      let! (event, q) := dequeue q in
      match event with
      | Some e => if is_make e then Ok (character e, q) else read_keyboard_char_impl fuel q
      | None => Ok (-1, q)
      end
  end.

(** A round of the loop dequeues an event, so it ends within [KEYBOARD_BUF_SIZE]
    rounds and one that finds the queue empty. *)
Definition read_fuel : nat := 1025.

Section DRIVER.
Variable smp : bool.

(** ** The interrupt handler *)

(** The loop that hands the readers to the scheduler. *)
Fixpoint wake_readers (fuel : nat) (s : sched) (node : Z) : res sched :=
  match fuel with
  | O => Err NoFuel
  | S fuel =>
      if node =? 0 then Ok s
      else
        let! n := get_node (s_nodes s) node in
        let next_node := next n in
        let! s := queue_remove s get_wait_tasks node in
        let! s := add_thread_node_to_schedule_head s node in
        wake_readers fuel s next_node
  end.

(** The part of [keyboard_interrupt_handler] under [KH_HASDATA]. *)
Definition deliver (k : keyboard) (s : sched) (event : keyboard_event_t) : res (keyboard * sched) :=
  let! (hold, s) := spinlock_lock smp s (keyboard_lock k) in
  let! keys := arr_set (kb_key_state k) (key event) (is_make event) in
  let! (_, q) := enqueue (keyboard_queue k) event in
  let! l := get_queue s wait_tasks in
  let '(dst, src) := linked_list_move l in
  let s := with_queues s (s_nodes s) (<[get_wait_tasks := dst]> (<[wait_tasks := src]> (queues s))) in
  let! (hold, s) := spinlock_unlock smp s hold in
  let! s := wake_readers (S (Z.to_nat (lsize dst))) s (head dst) in
  Ok (with_klock (with_keys (with_events k q) keys) hold, s).

(** [keyboard_interrupt_handler], for the byte read from port [0x60]. *)
Definition keyboard_interrupt_handler (k : keyboard) (s : sched) (scancode : Z) : res (keyboard * sched) :=
  let '(augchar, d) := process_scancode (scan_decoder k) scancode in
  let k := with_decoder k d in
  let! (k, s) :=
    if KH_HASDATA augchar then
      deliver k s (mk_event (u8 (KH_GETRAW augchar)) (u8 (KH_GETCHAR augchar)) (KH_ISMAKE augchar))
    else Ok (k, s) in
  let! t := get_crt_thread s in
  let! c := get_tcb s t in
  Ok (k, set_tcb s t (with_ticks c (ticks c) true)).

(** ** The reads *)

(** [read_keyboard_char_wait] up to its first switch; [None] is a reader that waits. *)
Definition read_keyboard_char_wait (k : keyboard) (s : sched) : res (option Z * keyboard * sched) :=
  let! (init_status, hold, s) := spin_lock_irqsave smp s (keyboard_lock k) in
  let! (c, q) := read_keyboard_char_impl read_fuel (keyboard_queue k) in
  let k := with_events k q in
  if negb (c =? -1) then
    let! (hold, s) := spin_unlock_irqrestore smp s hold init_status in
    Ok (Some c, with_klock k hold, s)
  else
    let! node := get_crt_thread_node s in
    let! thread := thread_of s node in
    let! t := get_tcb s thread in
    let s := set_tcb s thread (with_queue t wait_tasks) in
    let! s := queue_append s wait_tasks node in
    let! s := schedule_mark_thread_block s in
    let! (hold, s) := spin_unlock_irqrestore smp s hold init_status in
    let! s := schedule_thread_yield s in
    Ok (None, with_klock k hold, s).

(** [read_keyboard_char_right_now] *)
Definition read_keyboard_char_right_now (k : keyboard) (s : sched)
    : res (option keyboard_event_t * keyboard * sched) :=
  let! (init_status, hold, s) := spin_lock_irqsave smp s (keyboard_lock k) in
  let! (event, q) := dequeue (keyboard_queue k) in
  let! (hold, s) := spin_unlock_irqrestore smp s hold init_status in
  Ok (event, with_klock (with_events k q) hold, s).

(** [get_key_state] *)
Definition get_key_state (k : keyboard) (s : sched) (key : Z) : res (bool * keyboard * sched) :=
  if key >=? 256 then Ok (false, k, s)
  else
    let state := u8 key in
    let! (status, hold, s) := spin_lock_irqsave smp s (keyboard_lock k) in
    let! make := arr_get (kb_key_state k) state in
    let! (hold, s) := spin_unlock_irqrestore smp s hold status in
    Ok (make, with_klock k hold, s).

End DRIVER.
