(* ===== verification/KeyQueueSpec.v ===== *)
(** Properties of the keyboard driver: the ring buffer is a bounded queue, the
    interrupt handler queues the decoded event and wakes every reader, and a read
    takes the first key pressed or waits. *)
From S2P Require Import Prelude BitMap LinkedList Sched SchedSpec SchedProps SyncProps Keyboard KeyboardSpec KeyQueue.

(** ** The ring buffer as a list of events *)
Record events (q : buffer_queue_t) (l : list keyboard_event_t) : Prop := {
  ev_length : Z.of_nat (length (buffer q)) = KEYBOARD_BUF_SIZE;
  ev_head : 0 <= bhead q < KEYBOARD_BUF_SIZE;
  ev_size : bsize q = Z.of_nat (length l);
  ev_bound : Z.of_nat (length l) <= KEYBOARD_BUF_SIZE;
  ev_tail : btail q = (bhead q + bsize q) mod KEYBOARD_BUF_SIZE;
  ev_at : forall i x, l !! i = Some x ->
            buffer q !! Z.to_nat ((bhead q + Z.of_nat i) mod KEYBOARD_BUF_SIZE) = Some x
}.

Lemma next_queue_mod i : 0 <= i < KEYBOARD_BUF_SIZE -> next_queue i = (i + 1) mod KEYBOARD_BUF_SIZE.
Proof.
  unfold next_queue, KEYBOARD_BUF_SIZE. intros. rewrite s32_small by lia. apply Z.rem_mod_nonneg; lia.
Qed.

Lemma enqueue_full q l e :
  events q l -> Z.of_nat (length l) = KEYBOARD_BUF_SIZE -> enqueue q e = Ok (-1, q).
Proof. intros [_ _ Hs _ _ _] Hl. unfold enqueue. by rewrite Hs, Hl. Qed.

Lemma enqueue_ok q l e :
  events q l -> Z.of_nat (length l) < KEYBOARD_BUF_SIZE ->
  exists q', enqueue q e = Ok (0, q') /\ events q' (l ++ [e]).
Proof.
  intros [Hb Hh Hs Hbd Ht Ha] Hl. unfold enqueue, KEYBOARD_BUF_SIZE in *.
  replace (bsize q =? 1024) with false by (symmetry; zbool).
  assert (0 <= btail q < 1024) as Htr by (rewrite Ht; apply Z.mod_pos_bound; lia).
  rewrite arr_set_ok by lia. cbn [res_bind]. eexists. split; [done|].
  rewrite next_queue_mod, s32_small by (unfold KEYBOARD_BUF_SIZE; lia). unfold KEYBOARD_BUF_SIZE in *.
  split; cbn [buffer bhead btail bsize]; unfold KEYBOARD_BUF_SIZE; rewrite ?length_insert, ?length_app; cbn [length]; [lia|lia|lia|lia| |].
  - rewrite Ht, Zplus_mod_idemp_l. f_equal. lia.
  - intros i x Hi. pose proof (lookup_lt_Some _ _ _ Hi) as Hlt. rewrite length_app in Hlt. cbn in Hlt.
    destruct (decide (i = length l)) as [->|Hne].
    + rewrite lookup_app_r, Nat.sub_diag in Hi by lia. injection Hi as <-.
      rewrite <- Hs, <- Ht. apply list_lookup_insert_eq. lia.
    + rewrite lookup_app_l in Hi by lia. rewrite list_lookup_insert_ne; [by apply Ha|].
      intros Heq%Z2Nat.inj; [|lia|apply Z.mod_pos_bound; lia]. rewrite Ht, Hs in Heq. zdiv.
Qed.

Lemma dequeue_empty q : events q [] -> dequeue q = Ok (None, q).
Proof. intros [_ _ Hs _ _ _]. unfold dequeue. by rewrite Hs. Qed.

Lemma dequeue_ok q e l :
  events q (e :: l) -> exists q', dequeue q = Ok (Some e, q') /\ events q' l.
Proof.
  intros [Hb Hh Hs Hbd Ht Ha]. unfold dequeue. cbn [length] in *. unfold KEYBOARD_BUF_SIZE in *.
  replace (bsize q =? 0) with false by (symmetry; zbool).
  rewrite (arr_get_Some _ _ e); [|lia|].
  2: { rewrite <- (Ha 0%nat e eq_refl). do 2 f_equal. cbn. rewrite Z.add_0_r, Z.mod_small; lia. }
  cbn [res_bind]. eexists. split; [done|]. rewrite next_queue_mod, s32_small by (unfold KEYBOARD_BUF_SIZE; lia).
  unfold KEYBOARD_BUF_SIZE in *. split; cbn [buffer bhead btail bsize]; unfold KEYBOARD_BUF_SIZE; [lia| |lia|lia| |].
  - apply Z.mod_pos_bound. lia.
  - rewrite Ht, Zplus_mod_idemp_l. f_equal. lia.
  - intros i x Hi. rewrite <- (Ha (S i) x Hi). do 2 f_equal. rewrite Zplus_mod_idemp_l. f_equal. lia.
Qed.

Lemma init_events k s : events (keyboard_queue (init_keyboard k s).1) [].
Proof. split; cbn; [by vm_compute|done|done|done|done|done]. Qed.

(** What the reader sees: the events up to the first key pressed are consumed. *)
Fixpoint first_make (l : list keyboard_event_t) : Z * list keyboard_event_t :=
  match l with
  | [] => (-1, [])
  | e :: l => if is_make e then (character e, l) else first_make l
  end.

Lemma read_impl_ok fuel : forall q l,
  events q l -> (length l < fuel)%nat ->
  exists q', read_keyboard_char_impl fuel q = Ok ((first_make l).1, q') /\ events q' (first_make l).2.
Proof.
  induction fuel as [|fuel IH]; intros q l Hq Hf; [lia|]. cbn [read_keyboard_char_impl].
  destruct l as [|e l]; cbn [first_make length] in *.
  - rewrite (dequeue_empty q Hq). cbn [res_bind]. by exists q.
  - destruct (dequeue_ok q e l Hq) as (q1 & -> & Hq1). cbn [res_bind].
    destruct (is_make e); [by exists q1|]. apply IH; [done|lia].
Qed.

(** ** The interrupt handler *)
Lemma spinlock_lock_ok smp s hold t c :
  get_crt_thread s = Ok t -> tcbs s !! t = Some c -> 0 <= preempt_count c < 2147483647 ->
  (smp = true -> hold = LOCKED_NO) ->
  spinlock_lock smp s hold =
    Ok (if smp then LOCKED_YES else hold, set_tcb s t (with_preempt c (preempt_count c + 1))).
Proof.
  intros Hg Hc Hp Hh. unfold spinlock_lock, disable_preempt. rewrite Hg. cbn [res_bind].
  rewrite (get_tcb_ok s t c Hc). cbn [res_bind]. rewrite s32_small by lia.
  destruct smp; [|done]. by rewrite Hh.
Qed.

Lemma spinlock_unlock_ok smp s hold t c :
  get_crt_thread s = Ok t -> tcbs s !! t = Some (with_preempt c (preempt_count c + 1)) ->
  0 <= preempt_count c < 2147483647 ->
  spinlock_unlock smp s hold = Ok (if smp then LOCKED_NO else hold, set_tcb s t c).
Proof.
  intros Hg Hc Hp. unfold spinlock_unlock, enable_preempt. rewrite Hg. cbn [res_bind].
  rewrite (get_tcb_ok s t _ Hc). cbn [res_bind preempt_count with_preempt].
  rewrite s32_small by lia. replace (preempt_count c + 1 - 1) with (preempt_count c) by lia.
  do 2 f_equal. f_equal. by destruct c.
Qed.

(** The whole of one queue moves to an empty one. *)
Lemma qinv_move st tb qs V q q' l d :
  qinv st tb qs V -> V !! q = Some l -> V !! q' = Some [] -> q <> q' -> qs !! q = Some d ->
  qinv st tb (<[q' := d]> (<[q := linked_list_init]> qs)) (<[q' := l]> (<[q := []]> V)).
Proof.
  intros [Hd Hj Ht Hm Hb] Hl Hl' Hne Hqd.
  assert (forall q2 l2, <[q' := l]> (<[q := []]> V) !! q2 = Some l2 ->
            (q2 = q' /\ l2 = l) \/ (q2 = q /\ l2 = []) \/ (q2 <> q /\ q2 <> q' /\ V !! q2 = Some l2)) as Hcases.
  { intros q2 l2 [[-> ->]|[? H]]%lookup_insert_Some; [by left|right].
    apply lookup_insert_Some in H as [[-> ->]|[? H]]; [by left|by right]. }
  split; [| |done| |done].
  - intros q2 l2 [[-> ->]|[[-> ->]|(H1 & H2 & H3)]]%Hcases.
    + exists d. rewrite lookup_insert_eq. split; [done|]. destruct (Hd q l Hl) as (d' & ? & ?). by simplify_eq.
    + exists linked_list_init. rewrite lookup_insert_ne, lookup_insert_eq by done. split; [done|].
      apply dll_empty.
    + rewrite !lookup_insert_ne by done. by apply Hd.
  - intros q1 q2 l1 l2 x [[-> ->]|[[-> ->]|(H1 & H2 & H3)]]%Hcases [[-> ->]|[[-> ->]|(H4 & H5 & H6)]]%Hcases Hx1 Hx2;
      try done; try (by apply not_elem_of_nil in Hx1); try (by apply not_elem_of_nil in Hx2).
    + exfalso. by apply H4, (Hj q2 q l2 l x).
    + exfalso. by apply H1, (Hj q1 q l1 l x).
    + by apply (Hj q1 q2 l1 l2 x).
  - intros q2 l2 n t [[-> ->]|[[-> ->]|(H1 & H2 & H3)]]%Hcases Hin;
      [by apply (Hm q l)|by apply not_elem_of_nil in Hin|by apply (Hm q2 l2)].
Qed.

(** Every reader of the list becomes ready, each before those already woken. *)
Lemma wake_readers_ok fuel : forall s V l ct mt w,
  sched_inv s V l ct mt -> V !! get_wait_tasks = Some w -> (length w < fuel)%nat ->
  (forall n t, (n, t) ∈ w -> t <> ct /\ exists c, tcbs s !! t = Some c /\ status c <> TASK_DEAD) ->
  exists s', wake_readers fuel s (first 0 w) = Ok s' /\
    sched_inv s' (<[ready_tasks := rev w ++ l]> (<[get_wait_tasks := []]> V)) (rev w ++ l) ct mt /\
    same_cpu s s' /\ (forall t, (forall n, (n, t) ∉ w) -> tcbs s' !! t = tcbs s !! t).
Proof.
  induction fuel as [|fuel IH]; intros s V l ct mt w Hinv Hw Hf Hok; [lia|]. cbn [wake_readers].
  pose proof Hinv as [Hq [Hl Hr] Hct [Hm Hmu]]. destruct w as [|[n t] w]; cbn [first].
  { cbn. exists s. split; [done|]. split; [|by repeat split]. rewrite (insert_id V) by done. by rewrite insert_id. }
  destruct (Hok n t ltac:(set_solver)) as (Hne & c & Hc & Hs).
  destruct (qi_dll _ _ _ _ Hq _ _ Hw) as (d & Hd & Hdl). pose proof (dll_links _ _ _ Hdl) as (Hn0 & Hn & Hlinks).
  replace (n =? 0) with false by (symmetry; zbool). unfold get_node. rewrite Hn. cbn [res_bind next].
  destruct (remove_queue_ok s V Hq get_wait_tasks [] n t w Hw) as (st & qs & E & Hq1 & Hu). cbn [app] in Hq1, Hu.
  rewrite E. cbn [res_bind]. set (s1 := with_queues s st qs) in *.
  assert (sched_inv s1 (<[get_wait_tasks := w]> V) l ct mt) as Hinv1.
  { split; [done|by rewrite lookup_insert_ne|done|split; [done|]].
    apply unqueued_insert; [done|]. intros Hin. apply (Hmu _ _ Hw). cbn. set_solver. }
  assert (node_of (tcbs s) n t) as Hnt by (apply (qi_member _ _ _ _ Hq _ _ _ _ Hw); set_solver).
  assert (t <> mt) as Hmt.
  { intros ->. apply (unqueued_thread _ _ _ V get_wait_tasks ((n, mt) :: w) _ n mt Hq Hmu Hm Hw). set_solver. }
  destruct (wake_ok s1 _ l ct mt n t c true Hinv1 Hc (node_of_tcb _ _ _ _ Hnt Hc) Hu Hs Hne Hmt)
    as (s2 & E2 & Hinv2 & Hcpu2 & Htb2). rewrite E2. cbn [res_bind].
  assert (forall m u, (m, u) ∈ w -> u <> t) as Honce.
  { intros m u Hin ->. pose proof (dll_nodup _ _ _ Hdl) as [Hnot _]%NoDup_cons. apply Hnot.
    destruct (qi_member _ _ _ _ Hq _ _ m t Hw ltac:(set_solver)) as (c' & Hc' & <-).
    assert (c' = c) as -> by congruence. rewrite <- (node_of_tcb _ _ _ _ Hnt Hc).
    by apply (list_elem_of_fmap_2 fst _ (_, t)). }
  destruct (IH s2 _ _ ct mt w Hinv2) as (s3 & E3 & Hinv3 & Hcpu3 & Htb3).
  { by rewrite lookup_insert_ne, lookup_insert_eq by done. } { cbn in Hf. lia. }
  { intros m u Hin. destruct (Hok m u ltac:(set_solver)) as (? & cu & Hcu & ?). split; [done|]. exists cu.
    rewrite Htb2, lookup_insert_ne by (by apply not_eq_sym, (Honce m)). done. }
  exists s3. split; [done|]. cbn [rev]. rewrite <- app_assoc. cbn [app]. split; [|split].
  - replace (<[ready_tasks := rev w ++ (n, t) :: l]> (<[get_wait_tasks := []]> V)) with
      (<[ready_tasks := rev w ++ (n, t) :: l]> (<[get_wait_tasks := []]>
        (<[ready_tasks := (n, t) :: l]> (<[get_wait_tasks := w]> V)))); [done|].
    rewrite (insert_insert_ne _ get_wait_tasks ready_tasks) by done. by rewrite !insert_insert_eq.
  - destruct Hcpu2 as (? & ? & ? & ? & ? & ?), Hcpu3 as (? & ? & ? & ? & ? & ?).
    repeat split; etransitivity; eassumption.
  - intros u Hu2. rewrite Htb3 by (intros m Hin; apply (Hu2 m); set_solver).
    rewrite Htb2. apply lookup_insert_ne. intros ->. apply (Hu2 n). set_solver.
Qed.

(** The driver's own state: the queue's events, a flag per key, the lock free. *)
Record keyboard_ok (k : keyboard) (l : list keyboard_event_t) : Prop := {
  ko_events : events (keyboard_queue k) l;
  ko_bytes : Forall (fun e => 0 <= key e < 256 /\ 0 <= character e < 256) l;
  ko_keys : Z.of_nat (length (kb_key_state k)) = 256;
  ko_lock : keyboard_lock k = LOCKED_NO
}.

(** A full buffer drops the event. *)
Definition offer (l : list keyboard_event_t) (e : keyboard_event_t) : list keyboard_event_t :=
  if Z.of_nat (length l) <? KEYBOARD_BUF_SIZE then l ++ [e] else l.

Lemma enqueue_offer q l e :
  events q l -> exists r q', enqueue q e = Ok (r, q') /\ events q' (offer l e).
Proof.
  intros Hq. unfold offer. destruct (Z.ltb_spec (Z.of_nat (length l)) KEYBOARD_BUF_SIZE) as [Hl|Hl].
  - destruct (enqueue_ok q l e Hq Hl) as (q' & ? & ?). by exists 0, q'.
  - exists (-1), q. split; [|done]. apply (enqueue_full q l); [done|]. pose proof (ev_bound _ _ Hq). lia.
Qed.

Lemma set_crt_rel idle s V cur c c' :
  sched_rel idle s (V, cur) -> tcbs s !! cur.2 = Some c ->
  crt_node_ptr c' = crt_node_ptr c -> status c' = status c -> process c' = process c ->
  sched_rel idle (set_tcb s cur.2 c') (V, cur).
Proof.
  intros [[l Hinv] Hi Hcr Hrun Hw Hlk] Hc Hn Hs Hp. cbn in *.
  destruct (set_crt_tcb_inv s V l cur.2 idle.2 c c' Hinv Hrun Hc Hn Hs Hp) as [Hinv' Hrun'].
  split; cbn; [by exists l|done|done|done| |done]. apply waiters_set; [done|]. right.
  intros q w n Hq _. apply (running_unlisted s V l cur.2 idle.2 q w n Hinv); [apply Hrun|done].
Qed.

Lemma byte_field k sh : 0 <= Z.land (Z.shiftr k sh) 0xFF < 256.
Proof. change 0xFF with (Z.ones 8). rewrite Z.land_ones by lia. apply Z.mod_pos_bound. lia. Qed.

Lemma deliver_ok smp idle s V cur c w r k l e :
  sched_rel idle s (V, cur) -> tcbs s !! cur.2 = Some c -> 0 <= preempt_count c < 2147483647 ->
  V !! wait_tasks = Some w -> V !! get_wait_tasks = Some [] -> V !! ready_tasks = Some r ->
  keyboard_ok k l -> 0 <= key e < 256 -> 0 <= character e < 256 ->
  exists k' s', deliver smp k s e = Ok (k', s') /\ keyboard_ok k' (offer l e) /\
    kb_key_state k' = <[Z.to_nat (key e) := is_make e]> (kb_key_state k) /\
    scan_decoder k' = scan_decoder k /\
    sched_rel idle s' (<[ready_tasks := rev w ++ r]> (<[wait_tasks := []]> V), cur) /\
    tcbs s' !! cur.2 = Some c.
Proof.
  intros Hrel Hc Hp Hw Hg Hr [Hev Hby Hks Hlk] Hkey Hch. destruct cur as [cn ct]. cbn in Hc.
  pose proof Hrel as [[r' Hinv] Hi Hcr [Hu Hrun] Hwt Hdl]. cbn in Hinv, Hi, Hcr, Hu, Hrun, Hwt.
  pose proof Hinv as [Hq [Hl Hrd] Hct [Hm Hmu]]. assert (r' = r) as -> by congruence.
  destruct (get_crt_thread_ok s V ct Hq Hct) as (Hgt & _ & _).
  unfold deliver. rewrite (spinlock_lock_ok smp s _ ct c Hgt Hc Hp) by done. cbn [res_bind].
  rewrite arr_set_ok by lia. cbn [res_bind].
  destruct (enqueue_offer (keyboard_queue k) l e Hev) as (x & q' & -> & Hq'). cbn [res_bind].
  set (s0 := set_tcb s ct _).
  destruct (queue_head_ok s V _ _ Hq Hw) as (d & Ed & Hh & Hsz).
  change (get_queue s0 wait_tasks) with (get_queue s wait_tasks). rewrite Ed. cbn [res_bind linked_list_move].
  set (s1 := with_queues s0 _ _).
  rewrite (spinlock_unlock_ok smp s1 _ ct c Hgt (lookup_insert_eq _ _ _) Hp). cbn [res_bind lsize head].
  set (qs := <[get_wait_tasks := mk_list (head d) (tail d) (lsize d)]> (<[wait_tasks := linked_list_init]> (queues s))).
  assert (set_tcb s1 ct c = with_queues s (s_nodes s) qs) as ->.
  { unfold s1, s0, set_tcb, with_tcbs, with_queues. cbn. f_equal. rewrite insert_insert_eq. by apply insert_id. }
  set (s2 := with_queues s (s_nodes s) qs). set (V1 := <[get_wait_tasks := w]> (<[wait_tasks := []]> V)).
  assert (sched_inv s2 V1 r ct idle.2) as Hinv2.
  { split; [|split; [by unfold V1; rewrite !lookup_insert_ne by done|done]|done|split; [done|]].
    - apply (qinv_move _ _ _ V wait_tasks get_wait_tasks w); try done.
      unfold get_queue in Ed. destruct (queues s !! wait_tasks) as [d'|]; [|done]. injection Ed as ->. by destruct d.
    - apply unqueued_insert; [apply unqueued_insert; [done|cbn; set_solver]|]. by apply (Hmu wait_tasks). }
  destruct (wake_readers_ok (S (Z.to_nat (lsize d))) s2 V1 r ct idle.2 w Hinv2) as (s3 & E3 & Hinv3 & Hcpu & Htb).
  { apply lookup_insert_eq. } { rewrite Hsz. lia. }
  { intros n t Hin. split.
    - intros ->. exact (running_unlisted s V r ct idle.2 wait_tasks w n Hinv Hu Hw Hin).
    - destruct (Hwt wait_tasks w n t Hw eq_refl Hin) as (y & Hy & Hys). exists y. by rewrite Hys. }
  rewrite Hh, E3. cbn [res_bind].
  assert (<[get_wait_tasks := []]> V1 = <[wait_tasks := []]> V) as HV1.
  { unfold V1. rewrite insert_insert_eq. apply insert_id. by rewrite lookup_insert_ne. }
  rewrite HV1 in Hinv3.
  assert (tcbs s3 !! ct = Some c) as Hc3.
  { rewrite Htb; [done|]. intros n Hin. exact (running_unlisted s V r ct idle.2 wait_tasks w n Hinv Hu Hw Hin). }
  destruct Hcpu as (E4 & E5 & _ & _ & E6 & E7).
  eexists _, s3. split; [done|]. split; [|split; [done|split; [done|split; [|done]]]].
  - split; [done| |by cbn; rewrite length_insert|cbn; by destruct smp].
    unfold offer. destruct (_ <? _); [|done]. apply Forall_app. split; [done|]. by apply Forall_singleton.
  - split; cbn; [by exists (rev w ++ r)|by rewrite E5|by rewrite E4| | |by rewrite E7].
    + split.
      * rewrite E4. change (crt_thread_node s2) with (crt_thread_node s).
        apply unqueued_insert; [apply unqueued_insert; [done|cbn; set_solver]|].
        intros ([n t] & Heq & Hin)%list_elem_of_fmap. cbn in Heq. subst n.
        apply elem_of_app in Hin as [Hin|Hin]; [apply (Hu wait_tasks w Hw)|apply (Hu ready_tasks r Hl)];
          apply (list_elem_of_fmap_2 fst _ (_, t)); [|done].
        apply list_elem_of_In. rewrite in_rev. by apply list_elem_of_In.
      * destruct Hrun as (y & Hy & ? & ?). exists y. rewrite Hc3, E6. split; [congruence|done].
    + intros q2 l2 n t H2 Hwq Hin. pose proof (proj1 (wait_queue_true q2) Hwq) as [Hqr _].
      rewrite lookup_insert_ne in H2 by done. destruct (decide (q2 = wait_tasks)) as [->|Hne].
      * rewrite lookup_insert_eq in H2. injection H2 as <-. by apply not_elem_of_nil in Hin.
      * rewrite lookup_insert_ne in H2 by done. destruct (Hwt q2 l2 n t H2 Hwq Hin) as (y & Hy & Hys).
        exists y. split; [|done]. rewrite Htb; [done|]. intros m Hin'. apply Hne.
        exact (queued_apart _ _ _ V q2 wait_tasks l2 w n m t Hq H2 Hw Hin Hin').
Qed.

(** ** The reads *)
Lemma first_make_bytes l :
  Forall (fun e => 0 <= key e < 256 /\ 0 <= character e < 256) l ->
  -1 <= (first_make l).1 < 256 /\
  Forall (fun e => 0 <= key e < 256 /\ 0 <= character e < 256) (first_make l).2 /\
  ((first_make l).1 = -1 -> (first_make l).2 = []).
Proof.
  induction l as [|e l IH]; intros H; cbn; [done|]. apply Forall_cons in H as [He Hl].
  destruct (is_make e); cbn; [split; [lia|split; [done|lia]]|by apply IH].
Qed.

Lemma spin_locked_inv s V l ct mt c b :
  sched_inv s V l ct mt -> running s V ct -> tcbs s !! ct = Some c ->
  sched_inv (with_interrupts (set_tcb s ct (with_preempt c (preempt_count c + 1))) b) V l ct mt.
Proof.
  intros Hinv Hrun Hc. apply with_interrupts_inv. by apply (set_crt_tcb_inv s V l ct mt c).
Qed.

(** The reader that finds no key pressed waits, like a wait on [wait_tasks]. *)
Lemma read_waits smp idle s V cur c w' k l :
  sched_rel idle s (V, cur) -> tcbs s !! cur.2 = Some c -> 0 <= preempt_count c < 2147483647 ->
  keyboard_ok k l -> (first_make l).1 = -1 -> sched_spec idle (V, cur) (Block wait_tasks) = Some w' ->
  exists k' s', read_keyboard_char_wait smp k s = Ok (None, k', s') /\ keyboard_ok k' [] /\ sched_rel idle s' w'.
Proof.
  intros Hrel Hc Hp [Hev Hby Hks Hlk] Hno Hspec. destruct cur as [cn ct]. cbn in Hc.
  destruct Hrel as [[r Hinv] Hi Hcr Hrun Hwt Hdl]. cbn in Hinv, Hi, Hcr, Hrun, Hwt, Hspec.
  destruct (cn =? idle.1) eqn:Eidle; [done|]. apply Z.eqb_neq in Eidle. cbn in Hspec.
  unfold spec_append in Hspec. destruct (V !! wait_tasks) as [w|] eqn:Ew; [|done]. rewrite <- Hcr in Hspec.
  pose proof Hinv as [Hq [Hl _] Hct _]. destruct (get_crt_thread_ok s V ct Hq Hct) as (Hg & Hn0 & _).
  destruct Hrun as [Hu (x & Hx & Hxs & Hxp)]. assert (x = c) as -> by congruence.
  unfold read_keyboard_char_wait. rewrite (spin_lock_ok smp s _ ct c Hg Hc Hp) by done. cbn [res_bind].
  set (c1 := with_preempt c (preempt_count c + 1)). set (s1 := with_interrupts (set_tcb s ct c1) false).
  destruct (read_impl_ok read_fuel (keyboard_queue k) l Hev) as (q' & -> & Hq').
  { pose proof (ev_bound _ _ Hev). unfold KEYBOARD_BUF_SIZE, read_fuel in *. lia. }
  cbn [res_bind]. rewrite Hno. cbn [Z.eqb negb].
  unfold get_crt_thread_node. change (crt_thread_node s1) with (crt_thread_node s).
  replace (crt_thread_node s =? 0) with false by (symmetry; zbool). cbn [negb res_bind].
  change (thread_of s1 (crt_thread_node s)) with (thread_of s (crt_thread_node s)).
  rewrite (thread_of_ok s V _ ct Hq Hct). cbn [res_bind].
  rewrite (get_tcb_ok s1 ct c1) by apply lookup_insert_eq. cbn [res_bind].
  assert (forall q w n, V !! q = Some w -> (n, ct) ∉ w) as Hnl
    by (intros ? ? ?; by apply (running_unlisted s V r ct idle.2)).
  assert (sched_inv s1 V r ct idle.2) as Hinv1
    by (apply spin_locked_inv; [done|split; [done|by exists c]|done]).
  set (c2 := with_queue c1 wait_tasks).
  pose proof (set_tcb_inv s1 V r ct idle.2 ct c1 c2 Hinv1 (lookup_insert_eq _ _ _) eq_refl
    ltac:(intros n; by apply (Hnl ready_tasks))) as Hinv2. set (s2 := set_tcb s1 ct c2) in *.
  destruct (enqueue_crt_ok s2 V r ct idle.2 wait_tasks w Hinv2 Hu) as (st & qs & E & Hinv3);
    [cbn; congruence|done|done|]. change (crt_thread_node s2) with (crt_thread_node s) in E, Hinv3.
  rewrite E. cbn [res_bind]. set (s3 := with_queues s2 st qs) in *. set (V1 := <[wait_tasks := _]> V) in *.
  assert (get_crt_thread s3 = Ok ct /\ thread_of s3 (crt_thread_node s) = Ok ct) as [Hg3 Ht3].
  { destruct Hinv3 as [Hq3 _ Hct3 _]. split; [by apply (get_crt_thread_ok s3 V1 ct)|by apply (thread_of_ok s3 V1)]. }
  unfold schedule_mark_thread_block. change (crt_thread_node s3) with (crt_thread_node s). rewrite Ht3. cbn [res_bind].
  rewrite (get_tcb_ok s3 ct c2) by apply lookup_insert_eq. cbn [res_bind].
  set (c3 := with_status c2 TASK_WAITING).
  rewrite (spin_unlock_ok smp (set_tcb s3 ct c3) _ (interrupts s) ct c3 Hg3)
    by (try apply lookup_insert_eq; cbn; lia).
  cbn [res_bind]. set (c4 := with_preempt c3 (preempt_count c3 - 1)).
  set (s4 := set_tcb (if interrupts s then with_interrupts (set_tcb s3 ct c3) true else set_tcb s3 ct c3) ct c4).
  assert (with_interrupts s4 false = with_interrupts (set_tcb s3 ct c4) false) as E4.
  { unfold s4. destruct (interrupts s); unfold set_tcb, with_tcbs, with_interrupts; cbn;
      rewrite insert_insert_eq; done. }
  unfold schedule_thread_yield. rewrite E4.
  destruct (leave_rel idle (with_interrupts (set_tcb s3 ct c4) false) V1 r ct c4 w') as (s' & E' & Hrel' & _); try done.
  - apply with_interrupts_inv. apply (set_tcb_inv s3 V1 r ct idle.2 ct c2 c4 Hinv3); [apply lookup_insert_eq|done|].
    intros n. by apply (Hnl ready_tasks).
  - apply (waiters_enqueue _ _ _ _ _ _ c4); [|done|intros _; split; [apply lookup_insert_eq|done]].
    repeat (apply waiters_set; [|right; intros ? ? ? ? _; by eapply Hnl]). done.
  - apply lookup_insert_eq.
  - by left.
  - rewrite E'. cbn [res_bind]. eexists _, s'. split; [done|]. split; [|done].
    pose proof (first_make_bytes l Hby) as (_ & _ & Hnil). rewrite (Hnil Hno) in Hq'.
    split; [done|done|done|]. cbn. by destruct smp.
Qed.

(** ** Properties *)

(** The ring buffer is a queue of at most 1024 events: [enqueue] adds at the
    back or refuses when it is full, [dequeue] takes from the front or reports that
    it is empty, whatever the positions of head and tail. *)
Theorem event_queue_fifo (q : buffer_queue_t) (l : list keyboard_event_t) (e : keyboard_event_t)
    (Hq : events q l) :
  (if Z.of_nat (length l) =? KEYBOARD_BUF_SIZE then enqueue q e = Ok (-1, q)
   else exists q', enqueue q e = Ok (0, q') /\ events q' (l ++ [e])) /\
  match l with
  | [] => dequeue q = Ok (None, q)
  | x :: l' => exists q', dequeue q = Ok (Some x, q') /\ events q' l'
  end.
Proof.
  split.
  - destruct (Z.eqb_spec (Z.of_nat (length l)) KEYBOARD_BUF_SIZE) as [Hl|Hl]; [by apply (enqueue_full q l)|].
    apply enqueue_ok; [done|]. pose proof (ev_bound _ _ Hq). lia.
  - destruct l as [|x l]; [by apply dequeue_empty|by apply dequeue_ok].
Qed.

(** C22: The keyboard interrupt: the byte goes through the decoder; when the result
    carries data, the event is queued (dropped by a full buffer), the state of its
    key is recorded, and every waiting reader becomes ready, the last to wait
    first, all before the threads that were ready; the running thread keeps
    running, marked for rescheduling. *)
Theorem keyboard_interrupt_correct (smp : bool) (idle : Z * Z) (s : sched) (V : view) (cur : Z * Z) (c : tcb_t)
    (w r : list (Z * Z)) (k : keyboard) (l : list keyboard_event_t) (scancode : Z)
    (Hrel : sched_rel idle s (V, cur)) (Hc : tcbs s !! cur.2 = Some c) (Hp : 0 <= preempt_count c < 2147483647)
    (Hw : V !! wait_tasks = Some w) (Hg : V !! get_wait_tasks = Some []) (Hr : V !! ready_tasks = Some r)
    (Hk : keyboard_ok k l) :
  let '(a, d) := process_scancode (scan_decoder k) scancode in
  let e := mk_event (KH_GETRAW a) (KH_GETCHAR a) (KH_ISMAKE a) in
  exists k' s' c', keyboard_interrupt_handler smp k s scancode = Ok (k', s') /\ scan_decoder k' = d /\
    keyboard_ok k' (if KH_HASDATA a then offer l e else l) /\
    kb_key_state k' = (if KH_HASDATA a then <[Z.to_nat (KH_GETRAW a) := KH_ISMAKE a]> (kb_key_state k)
                       else kb_key_state k) /\
    sched_rel idle s' (if KH_HASDATA a then <[ready_tasks := rev w ++ r]> (<[wait_tasks := []]> V) else V, cur) /\
    tcbs s' !! cur.2 = Some c' /\ need_reschedule c' = true.
Proof.
  unfold keyboard_interrupt_handler. destruct (process_scancode (scan_decoder k) scancode) as [a d].
  pose proof (byte_field a KH_RAWCHAR_SHIFT) as Hraw. pose proof (byte_field a KH_CHAR_SHIFT) as Hchar.
  set (e := mk_event (KH_GETRAW a) (KH_GETCHAR a) (KH_ISMAKE a)).
  replace (mk_event (u8 (KH_GETRAW a)) (u8 (KH_GETCHAR a)) (KH_ISMAKE a)) with e
    by (unfold u8; by rewrite !Z.mod_small).
  assert (keyboard_ok (with_decoder k d) l) as Hk' by (destruct Hk; by split).
  assert (exists k' s', (if KH_HASDATA a then deliver smp (with_decoder k d) s e else Ok (with_decoder k d, s)) = Ok (k', s') /\
    scan_decoder k' = d /\ keyboard_ok k' (if KH_HASDATA a then offer l e else l) /\
    kb_key_state k' = (if KH_HASDATA a then <[Z.to_nat (KH_GETRAW a) := KH_ISMAKE a]> (kb_key_state k)
                       else kb_key_state k) /\
    sched_rel idle s' (if KH_HASDATA a then <[ready_tasks := rev w ++ r]> (<[wait_tasks := []]> V) else V, cur) /\
    tcbs s' !! cur.2 = Some c) as (k' & s' & E & H1 & H2 & H3 & Hrel' & Hc').
  { destruct (KH_HASDATA a); [|by exists (with_decoder k d), s].
    destruct (deliver_ok smp idle s V cur c w r (with_decoder k d) l e Hrel Hc Hp Hw Hg Hr Hk' Hraw Hchar)
      as (k' & s' & E & ? & ? & ? & ? & ?). by exists k', s'. }
  rewrite E. cbn [res_bind]. pose proof Hrel' as [[l' [Hq' _ Hct' _]] _ _ _ _ _].
  destruct (get_crt_thread_ok s' _ _ Hq' Hct') as (-> & _). cbn [res_bind snd].
  rewrite (get_tcb_ok s' _ c Hc'). cbn [res_bind]. eexists k', _, (with_ticks c (ticks c) true).
  split; [done|]. split; [done|]. split; [done|]. split; [done|].
  split; [by apply (set_crt_rel idle s' _ cur c)|]. split; [apply lookup_insert_eq|done].
Qed.

(** C30: A blocking read returns the character of the first key pressed, consumes
    the events up to it and leaves the scheduler as it was; when no key was pressed
    it consumes everything and the thread waits on [wait_tasks], at its back, while
    the next one runs.  It always terminates. *)
Theorem read_keyboard_char_wait_correct (smp : bool) (idle : Z * Z) (s : sched) (V : view) (cur : Z * Z) (c : tcb_t)
    (w' : world) (k : keyboard) (l : list keyboard_event_t)
    (Hrel : sched_rel idle s (V, cur)) (Hc : tcbs s !! cur.2 = Some c) (Hp : 0 <= preempt_count c < 2147483647)
    (Hk : keyboard_ok k l) (Hspec : sched_spec idle (V, cur) (Block wait_tasks) = Some w') :
  let '(ch, l') := first_make l in
  if ch =? -1 then
    exists k' s', read_keyboard_char_wait smp k s = Ok (None, k', s') /\ keyboard_ok k' [] /\ sched_rel idle s' w'
  else exists k', read_keyboard_char_wait smp k s = Ok (Some ch, k', s) /\ keyboard_ok k' l' /\ 0 <= ch < 256.
Proof.
  pose proof (first_make_bytes l (ko_bytes _ _ Hk)) as (Hch & Hby & _).
  destruct (first_make l) as [ch l'] eqn:E. cbn [fst snd] in *. destruct (Z.eqb_spec ch (-1)) as [->|Hne].
  - apply (read_waits smp idle s V cur c w' k l); try done. by rewrite E.
  - destruct Hrel as [[r [Hq _ Hct _]] _ _ _ _ _]. cbn in Hq, Hct.
    destruct (get_crt_thread_ok s V _ Hq Hct) as (Hg & _). destruct Hk as [Hev _ Hks Hlk].
    unfold read_keyboard_char_wait. rewrite (spin_lock_ok smp s _ _ c Hg Hc Hp) by done. cbn [res_bind].
    destruct (read_impl_ok read_fuel (keyboard_queue k) l Hev) as (q' & -> & Hq').
    { pose proof (ev_bound _ _ Hev). unfold KEYBOARD_BUF_SIZE, read_fuel in *. lia. }
    cbn [res_bind]. rewrite E in Hq' |- *. cbn [fst snd] in *.
    replace (ch =? -1) with false by (symmetry; zbool). cbn [negb].
    set (s1 := with_interrupts _ false).
    rewrite (spin_unlock_ok smp s1 _ (interrupts s) _ _ Hg (lookup_insert_eq _ _ _)) by (cbn; lia).
    cbn [res_bind preempt_count with_preempt]. unfold s1. pose proof (restore_id s _ c Hc) as Hid. cbv zeta in Hid.
    rewrite Hid. eexists. split; [done|]. split; [|lia]. split; [done|done|done|]. cbn. by destruct smp.
Qed.

(** The other reads leave the scheduler as it was: [read_keyboard_char_right_now]
    takes the first event, press or release, and [get_key_state] says whether a
    key is down, [false] for a code that is no key. *)
Theorem keyboard_polls_correct (smp : bool) (s : sched) (t : Z) (c : tcb_t) (k : keyboard)
    (l : list keyboard_event_t) (key : Z)
    (Hg : get_crt_thread s = Ok t) (Hc : tcbs s !! t = Some c) (Hp : 0 <= preempt_count c < 2147483647)
    (Hk : keyboard_ok k l) (Hkey : 0 <= key < 4294967296) :
  (exists k', read_keyboard_char_right_now smp k s = Ok (hd_error l, k', s) /\ keyboard_ok k' (List.tl l)) /\
  (exists k', get_key_state smp k s key =
                Ok (if key <? 256 then default false (kb_key_state k !! Z.to_nat key) else false, k', s) /\
              keyboard_ok k' l).
Proof.
  destruct Hk as [Hev Hby Hks Hlk]. pose proof (restore_id s t c Hc) as Hid. cbv zeta in Hid.
  pose proof (spin_lock_ok smp s (keyboard_lock k) t c Hg Hc Hp ltac:(done)) as El.
  set (s1 := with_interrupts _ false) in *.
  pose proof (spin_unlock_ok smp s1 (if smp then LOCKED_YES else keyboard_lock k) (interrupts s) t _ Hg
    (lookup_insert_eq _ _ _) ltac:(cbn; lia)) as Eu. cbn [preempt_count with_preempt] in Eu. rewrite Hid in Eu.
  split.
  - unfold read_keyboard_char_right_now. rewrite El. cbn [res_bind]. destruct l as [|e l].
    + rewrite (dequeue_empty _ Hev). cbn [res_bind]. rewrite Eu. cbn [res_bind]. eexists. split; [done|].
      split; [done|done|done|]. cbn. by destruct smp.
    + destruct (dequeue_ok _ e l Hev) as (q' & -> & Hq'). cbn [res_bind]. rewrite Eu. cbn [res_bind].
      eexists. split; [done|]. apply Forall_cons in Hby as [_ Hby]. split; [done|done|done|]. cbn. by destruct smp.
  - unfold get_key_state. rewrite Z.geb_leb. destruct (Z.ltb_spec key 256) as [Hlt|Hge].
    + replace (256 <=? key) with false by (symmetry; zbool). rewrite El. cbn [res_bind].
      replace (u8 key) with key by (unfold u8; rewrite Z.mod_small; lia).
      destruct (arr_get_ok_lt (kb_key_state k) key ltac:(lia)) as (b & -> & ->). cbn [res_bind].
      rewrite Eu. cbn [res_bind]. eexists. split; [done|]. split; [done|done|done|]. cbn. by destruct smp.
    + replace (256 <=? key) with true by (symmetry; zbool). by exists k.
Qed.

(** ** Witnesses: the scheduler's demo machine with the two queues of the driver *)
Definition add_queue (s : sched) (q : Z) : sched :=
  with_queues s (s_nodes s) (<[q := linked_list_init]> (queues s)).
Definition demo_kb_sched : sched := add_queue (add_queue demo_sched get_wait_tasks) wait_tasks.
Definition demo_kb_view : view := <[wait_tasks := []]> (<[get_wait_tasks := []]> demo_view).

(** A new empty queue. *)
Lemma new_queue_rel idle s V cur q :
  sched_rel idle s (V, cur) -> V !! q = None ->
  sched_rel idle (add_queue s q) (<[q := []]> V, cur).
Proof.
  intros [[l [[Hd Hj Ht Hm Hb] [Hl Hr] Hct [Hmn Hmu]]] Hi Hcr [Hu Hrun] Hw Hlk] Hq. cbn in *.
  assert (forall q2 l2, <[q := []]> V !! q2 = Some l2 -> (q2 = q /\ l2 = []) \/ (q2 <> q /\ V !! q2 = Some l2)) as Hcases
    by (intros q2 l2 [[-> <-]|[? ?]]%lookup_insert_Some; [by left|by right]).
  split; cbn; [exists l|done|done|split; [|done]| |done].
  - split; cbn; [split|split; [|done]|done|split; [done|]].
    + intros q2 l2 [[-> ->]|[Hne H2]]%Hcases.
      * exists linked_list_init. rewrite lookup_insert_eq. split; [done|apply dll_empty].
      * rewrite lookup_insert_ne by done. by apply Hd.
    + intros q1 q2 l1 l2 x [[-> ->]|[H1 H2]]%Hcases [[-> ->]|[H3 H4]]%Hcases Hx1 Hx2;
        [done|by apply not_elem_of_nil in Hx1|by apply not_elem_of_nil in Hx2|by apply (Hj q1 q2 l1 l2 x)].
    + done.
    + intros q2 l2 n t [[-> ->]|[Hne H2]]%Hcases Hin; [by apply not_elem_of_nil in Hin|by apply (Hm q2 l2)].
    + done.
    + rewrite lookup_insert_ne; [done|]. intros ->. congruence.
    + apply unqueued_insert; [done|]. cbn. set_solver.
  - apply unqueued_insert; [done|]. cbn. set_solver.
  - intros q2 l2 n t [[-> ->]|[Hne H2]]%Hcases Hwq Hin; [by apply not_elem_of_nil in Hin|by apply (Hw q2 l2 n t)].
Qed.

Lemma demo_kb_rel : sched_rel demo_idle demo_kb_sched (demo_kb_view, (2001, 2000)).
Proof.
  apply new_queue_rel; [|by vm_compute]. apply new_queue_rel; [apply demo_rel|by vm_compute].
Qed.

(** A keyboard whose buffer wraps: a release, then a press, at its end. *)
Definition demo_events : list keyboard_event_t := [mk_event 30 97 false; mk_event 48 98 true].
Definition demo_buffer : buffer_queue_t :=
  mk_buffer (mk_event 48 98 true :: replicate 1022 (mk_event 0 0 false) ++ [mk_event 30 97 false]) 1023 1 2.
Definition demo_keyboard : keyboard :=
  mk_keyboard demo_buffer (replicate 256 false) LOCKED_NO demo_decoder.

Lemma demo_keyboard_ok : keyboard_ok demo_keyboard demo_events.
Proof.
  split; [split| | |]; try (by vm_compute).
  - intros [|[|i]] x Hx; [by injection Hx as <-; vm_compute|by injection Hx as <-; vm_compute|done].
  - repeat constructor; cbn; lia.
Qed.

Lemma event_queue_fifo_witness :
  exists q', dequeue demo_buffer = Ok (Some (mk_event 30 97 false), q') /\ events q' [mk_event 48 98 true].
Proof. apply (event_queue_fifo demo_buffer demo_events (mk_event 1 1 true) (ko_events _ _ demo_keyboard_ok)). Defined.

Definition demo_crt : tcb_t := demo_tcb TASK_RUNNING 0 2001.

Lemma keyboard_interrupt_correct_witness :
  exists k' s', keyboard_interrupt_handler true demo_keyboard demo_kb_sched 0x1E = Ok (k', s') /\
    keyboard_ok k' (demo_events ++ [mk_event 97 65 true]).
Proof.
  pose proof (keyboard_interrupt_correct true demo_idle demo_kb_sched demo_kb_view (2001, 2000) demo_crt
    [] [(3001, 3000)] demo_keyboard demo_events 0x1E demo_kb_rel) as H.
  specialize (H ltac:(by vm_compute) ltac:(by vm_compute) ltac:(by vm_compute) ltac:(by vm_compute)
    ltac:(by vm_compute) demo_keyboard_ok).
  destruct (process_scancode (scan_decoder demo_keyboard) 0x1E) as [a d] eqn:E.
  vm_compute in E. injection E as <- <-. destruct H as (k' & s' & c' & H1 & _ & H2 & _).
  exists k', s'. split; [exact H1|exact H2].
Defined.

Lemma read_keyboard_char_wait_correct_witness :
  exists k', read_keyboard_char_wait true demo_keyboard demo_kb_sched = Ok (Some 98, k', demo_kb_sched) /\
    keyboard_ok k' [].
Proof.
  destruct (sched_spec demo_idle (demo_kb_view, (2001, 2000)) (Block wait_tasks)) as [w'|] eqn:E; [|by vm_compute in E].
  destruct (read_keyboard_char_wait_correct true demo_idle demo_kb_sched demo_kb_view (2001, 2000) demo_crt w'
    demo_keyboard demo_events demo_kb_rel) as (k' & H1 & H2 & _);
    [by vm_compute|by vm_compute|apply demo_keyboard_ok|exact E|].
  exists k'. split; [exact H1|exact H2].
Defined.

Lemma keyboard_polls_correct_witness :
  exists k', read_keyboard_char_right_now true demo_keyboard demo_kb_sched =
    Ok (Some (mk_event 30 97 false), k', demo_kb_sched).
Proof.
  destruct (keyboard_polls_correct true demo_kb_sched 2000 demo_crt demo_keyboard demo_events 300)
    as [(k' & H & _) _]; [by vm_compute|by vm_compute|by vm_compute|apply demo_keyboard_ok|done|].
  exists k'. exact H.
Defined.
