(* ===== verification/Disk.v ===== *)
(** The disk driver [src/src/driver/hard_disk.c] and the read side of the file
    system of [src/src/fs/ext2_fs.c] behind [src/src/fs/vfs.c].

    The drive is an argument: the bytes of each of the two disks.  [read_disk], in
    assembly, copies sectors from the drive to memory; only 28 bits of the sector
    number reach the controller.  Static and local structures are at the addresses
    the file system's section takes. *)
From S2P Require Import Prelude BitMap Memory Allocator Sched.

Definition SECTOR_SIZE : Z := 512.
Definition FS_BLOCK_SIZE : Z := 4096.

(** Memory, the allocator, the scheduler and the driver's lock. *)
Record dstate (St : Type) : Type := mk_dstate {
  d_mem : mem;
  d_alloc : St;
  d_sched : sched;
  disk_lock : Z
}.
Arguments mk_dstate {St}.
Arguments d_mem {St}.
Arguments d_alloc {St}.
Arguments d_sched {St}.
Arguments disk_lock {St}.

Section DISK.
Context {St : Type} `{Allocator St}.
Context (smp : bool) (drive : Z -> mem).

Definition with_dmem (d : dstate St) (m : mem) : dstate St :=
  mk_dstate m (d_alloc d) (d_sched d) (disk_lock d).
Definition with_dalloc (d : dstate St) (a : St) : dstate St :=
  mk_dstate (d_mem d) a (d_sched d) (disk_lock d).
Definition with_dsched (d : dstate St) (s : sched) (hold : Z) : dstate St :=
  mk_dstate (d_mem d) (d_alloc d) s hold.

(** [kmalloc], [kfree] *)
Definition dmalloc (d : dstate St) (n : Z) : res (Z * dstate St) :=
  let! (p, a) := malloc (d_alloc d) n in Ok (p, with_dalloc d a).
Definition dfree (d : dstate St) (p : Z) : res (dstate St) :=
  let! a := mfree (d_alloc d) p in Ok (with_dalloc d a).

(** ** [hard_disk.c] *)

Definition init_hard_disk (d : dstate St) : dstate St := with_dsched d (d_sched d) spinlock_init.

(** [read_disk] *)
Definition read_disk (m : mem) (buffer start_sector sector_num is_slave : Z) : res mem :=
  let lba := start_sector mod 268435456 in
  for_loop (Z.to_nat (sector_num * SECTOR_SIZE)) 0
    (fun i m => Ok (store8 m (buffer + i) (drive is_slave (lba * SECTOR_SIZE + i)))) m.

(** [read_sector]: the lock is taken once threads run. *)
Definition read_sector (d : dstate St) (buffer sector is_slave : Z) : res (dstate St) :=
  let! (status, d) :=
    if multi_task_enabled (d_sched d) then
      let! (status, hold, s) := spin_lock_irqsave smp (d_sched d) (disk_lock d) in
      Ok (status, with_dsched d s hold)
    else Ok (false, d) in
  let! m := read_disk (d_mem d) buffer sector 1 is_slave in
  let d := with_dmem d m in
  if multi_task_enabled (d_sched d) then
    let! (hold, s) := spin_unlock_irqrestore smp (d_sched d) (disk_lock d) status in
    Ok (with_dsched d s hold)
  else Ok d.

(** [read_block] *)
Definition read_block (d : dstate St) (buffer block_num is_slave : Z) : res (dstate St) :=
  let sector_start := u32 (block_num * 8) in
  for_loop 8 0 (fun i d => read_sector d (buffer + i * 512) (u32 (sector_start + i)) is_slave) d.

(** [read_hard_disk]; the loop carries the buffer pointer. *)
Definition read_hard_disk (d : dstate St) (buffer start length is_slave : Z) : res (dstate St) :=
  let end_ := u32 (start + length) in
  let start_sector := start / SECTOR_SIZE in
  let end_sector := u32 (end_ + SECTOR_SIZE - 1) / SECTOR_SIZE in
  let! (sector_buffer, d) := dmalloc d SECTOR_SIZE in
  let! (d, buffer) :=
    for_loop (Z.to_nat (end_sector - start_sector)) start_sector (fun i '(d, buffer) =>
      let! d := read_sector d sector_buffer i is_slave in
      let copy_start_addr := Z.max (u32 (i * SECTOR_SIZE)) start in
      let copy_end_addr := Z.min (u32 ((i + 1) * SECTOR_SIZE)) end_ in
      let copy_size := u32 (copy_end_addr - copy_start_addr) in
      let! m := memcpy (d_mem d) buffer (sector_buffer + copy_start_addr - i * SECTOR_SIZE) copy_size in
      Ok (with_dmem d m, buffer + copy_size)) (d, buffer) in
  dfree d sector_buffer.

(** ** [ext2_fs.c] *)

(** [inode_t] and [dirent_t] at an address. *)
Definition inode_size : Z := 62.
Definition inode_type (m : mem) (a : Z) : Z := load16 m a.
Definition inode_length (m : mem) (a : Z) : Z := load32 m (a + 2).
Definition inode_block (m : mem) (a i : Z) : Z := load32 m (a + 6 + 4 * i).
Definition dirent_size : Z := 32.
Definition dirent_inode (m : mem) (a : Z) : Z := load32 m a.
Definition dirent_name (a : Z) : Z := a + 4.

Definition FS_DIR : Z := 2.
(** [sizeof(superblock_t)] and the offset of [inode_table_blk] *)
Definition superblock_size : Z := 24.
Definition inode_table_blk (m : mem) (sb : Z) : Z := load32 m (sb + 16).

(** [current_dir_inode]: no code changes it. *)
Definition current_dir_inode : Z := 1.

Section EXT2.
(** The fuel of [strcmp]; the address of [current_superblock]; the addresses of the
    local structures of [ext2_find_file_in_dir] and of its callers. *)
Context (sfuel : nat) (current_superblock dir_inode file_inode : Z).

(** [ext2_read_inode] *)
Definition ext2_read_inode (d : dstate St) (inode_num out_inode : Z) : res (dstate St) :=
  let offset := u32 (inode_table_blk (d_mem d) current_superblock * FS_BLOCK_SIZE + inode_num * inode_size) in
  read_hard_disk d out_inode offset inode_size 1.

(** The inner loop of [ext2_find_file_in_dir], from entry [j]. *)
Fixpoint scan_entries (n : nat) (j : Z) (m : mem) (block_buf filename : Z) : res (option Z) :=
  match n with
  | O => Ok None
  | S n =>
      let entry := block_buf + j * dirent_size in
      let! found :=
        if dirent_inode m entry =? 0 then Ok false
        else let! c := strcmp sfuel m (dirent_name entry) filename in Ok (c =? 0) in
      if found : bool then Ok (Some (dirent_inode m entry))
      else scan_entries n (j + 1) m block_buf filename
  end.

(** The outer loop, from block [i]. *)
Fixpoint scan_blocks (n : nat) (i : Z) (d : dstate St) (block_buf filename : Z) : res (option Z * dstate St) :=
  match n with
  | O => Ok (None, d)
  | S n =>
      let blk := inode_block (d_mem d) dir_inode i in
      if blk =? 0 then scan_blocks n (i + 1) d block_buf filename
      else
        let! d := read_block d block_buf blk 1 in
        let! r := scan_entries 128 0 (d_mem d) block_buf filename in
        match r with
        | Some inode_num => Ok (Some inode_num, d)
        | None => scan_blocks n (i + 1) d block_buf filename
        end
  end.

(** [ext2_find_file_in_dir]: [None] is the result -1. *)
Definition ext2_find_file_in_dir (d : dstate St) (dir_inode_num filename : Z) : res (option Z * dstate St) :=
  let! d := ext2_read_inode d dir_inode_num dir_inode in
  if negb (inode_type (d_mem d) dir_inode =? FS_DIR) then Ok (None, d)
  else
    let! (block_buf, d) := dmalloc d 4096 in
    let! (r, d) := scan_blocks 12 0 d block_buf filename in
    let! d := dfree d block_buf in
    Ok (r, d).

(** [ext2_fs_stat_file]; [stat->size] is the first word. *)
Definition ext2_fs_stat_file (d : dstate St) (filename stat : Z) : res (Z * dstate St) :=
  let! (r, d) := ext2_find_file_in_dir d current_dir_inode filename in
  match r with
  | Some inode_num =>
      let! d := ext2_read_inode d inode_num file_inode in
      Ok (0, with_dmem d (store32 (d_mem d) stat (inode_length (d_mem d) file_inode)))
  | None => Ok (-1, d)
  end.

(** The loop of [ext2_fs_read_data]: twelve rounds at most, one per direct block. *)
Fixpoint read_loop (n : nat) (d : dstate St) (block_buf buffer length bytes_read start_blk_idx offset_in_blk : Z)
    : res (Z * dstate St) :=
  match n with
  | O => Err NoFuel
  | S n =>
      if (bytes_read <? length) && (start_blk_idx <? 12) then
        let blk := inode_block (d_mem d) file_inode start_blk_idx in
        if blk =? 0 then Ok (bytes_read, d)
        else
          let! d := read_block d block_buf blk 1 in
          let to_read := 4096 - offset_in_blk in
          let to_read := if to_read >? u32 (length - bytes_read) then u32 (length - bytes_read) else to_read in
          let! m := memcpy (d_mem d) (buffer + bytes_read) (block_buf + offset_in_blk) to_read in
          read_loop n (with_dmem d m) block_buf buffer length (u32 (bytes_read + to_read)) (start_blk_idx + 1) 0
      else Ok (bytes_read, d)
  end.

Definition read_rounds : nat := 13.

(** [ext2_fs_read_data] *)
Definition ext2_fs_read_data (d : dstate St) (filename buffer start length : Z) : res (Z * dstate St) :=
  let! (r, d) := ext2_find_file_in_dir d current_dir_inode filename in
  match r with
  | None => Ok (-1, d)
  | Some inode_num =>
      let! d := ext2_read_inode d inode_num file_inode in
      let size := inode_length (d_mem d) file_inode in
      if start >=? size then Ok (0, d)
      else
        let length := if u32 (start + length) >? size then u32 (size - start) else length in
        let! (block_buf, d) := dmalloc d 4096 in
        let! (n, d) := read_loop read_rounds d block_buf buffer length 0 (start / 4096) (start mod 4096) in
        let! d := dfree d block_buf in
        Ok (s32 n, d)
  end.

(** [ext2_fs_write_data]: not supported. *)
Definition ext2_fs_write_data (d : dstate St) (filename buffer start length : Z) : res (Z * dstate St) :=
  Ok (-1, d).

(** [init_ext2_fs]: the superblock is read and its magic looked at for a message. *)
Definition init_ext2_fs (d : dstate St) : res (dstate St) :=
  read_hard_disk d current_superblock 0 superblock_size 1.

(** ** [vfs.c]: the one file system that is mounted *)
Definition init_file_system (d : dstate St) : res (dstate St) := init_ext2_fs d.
Definition stat_file (d : dstate St) (filename stat : Z) : res (Z * dstate St) :=
  ext2_fs_stat_file d filename stat.
Definition read_file (d : dstate St) (filename buffer start length : Z) : res (Z * dstate St) :=
  ext2_fs_read_data d filename buffer start length.
(** [write_file] *)
Definition write_file (d : dstate St) (filename buffer start length : Z) : res (Z * dstate St) :=
  Err Panic.

End EXT2.
End DISK.
