(* ===== verification/DiskSpec.v ===== *)
(** Properties of the disk driver and the file system: what a read leaves in
    memory is what the drive holds, and the lookup of a file and the read of its
    data are those of the file system's layout on the drive. *)
From S2P Require Import Prelude BitMap Memory StringsSpec Allocator Bump Sched SchedProps SyncProps Disk.

(** ** Memory *)
Definition bytes_ok (m : mem) : Prop := forall x, 0 <= m x < 256.

(** [n] bytes of [D] from [src] are in memory at [a]. *)
Definition copied (m : mem) (a : Z) (D : mem) (src n : Z) : Prop :=
  forall i, 0 <= i < n -> m (a + i) = D (src + i).

Lemma copied_load32 m a D src n k :
  copied m a D src n -> 0 <= k -> k + 4 <= n -> load32 m (a + k) = load32 D (src + k).
Proof. intros H Hk Hn. unfold load32. rewrite <- !Z.add_assoc. by rewrite !H by lia. Qed.

Lemma copied_load16 m a D src n k :
  copied m a D src n -> 0 <= k -> k + 2 <= n -> load16 m (a + k) = load16 D (src + k).
Proof. intros H Hk Hn. unfold load16. rewrite <- !Z.add_assoc. by rewrite !H by lia. Qed.

Lemma bytes_store8 m a v : bytes_ok m -> bytes_ok (store8 m a v).
Proof. intros H x. unfold store8. destruct (x =? a); [apply Z.mod_pos_bound; lia|apply H]. Qed.

Lemma load32_range m a : bytes_ok m -> 0 <= load32 m a < 4294967296.
Proof. intros H. unfold load32. pose proof (H a). pose proof (H (a + 1)). pose proof (H (a + 2)). pose proof (H (a + 3)). lia. Qed.

Lemma memcpy_bytes m dest src len m' : bytes_ok m -> memcpy m dest src len = Ok m' -> bytes_ok m'.
Proof.
  intros Hb. unfold memcpy. destruct (_ && _); [|done]. intros E.
  destruct (for_loop_inv (fun _ m => bytes_ok m) (Z.to_nat len) 0
    (fun i m => Ok (store8 m (dest + i) (load8 m (src + i)))) m Hb) as (m2 & E2 & H2).
  - intros j s _ Hs. eexists. split; [done|]. by apply bytes_store8.
  - rewrite E in E2. injection E2 as ->. exact H2.
Qed.

(** ** The file system on a drive *)

(** The string at an address, of at most [n] characters. *)
Fixpoint cstring (n : nat) (m : mem) (a : Z) : list Z :=
  match n with
  | O => []
  | S n => if m a =? 0 then [] else m a :: cstring n m (a + 1)
  end.

(** The inode an entry gives for a name. *)
Definition dir_entry (m : mem) (e : Z) (fname : list Z) : option Z :=
  if dirent_inode m e =? 0 then None
  else if decide (cstring 28 m (dirent_name e) = fname) then Some (dirent_inode m e) else None.

(** The first entry of a block with the name, and of a directory. *)
Definition find_block (D : mem) (b : Z) (fname : list Z) : option Z :=
  for_find 128 0 (fun j => dir_entry D (4096 * b + 32 * j) fname).
Definition find_file (D : mem) (inode : Z) (fname : list Z) : option Z :=
  for_find 12 0 (fun i => let b := inode_block D inode i in if b =? 0 then None else find_block D b fname).

(** Block numbers within the controller's reach, and names that end. *)
Definition valid_dir (D : mem) (inode : Z) : Prop :=
  forall i, 0 <= i < 12 -> let b := inode_block D inode i in
    0 <= b < 33554432 /\
    (b <> 0 -> forall j, 0 <= j < 128 -> dirent_inode D (4096 * b + 32 * j) <> 0 ->
       exists k, 0 <= k < 28 /\ D (dirent_name (4096 * b + 32 * j) + k) = 0).

Lemma cstring_ok n : forall m a k,
  bytes_ok m -> 0 <= k < Z.of_nat n -> m (a + k) = 0 ->
  holds m a (cstring n m a ++ [0]) /\ Forall char_ok (cstring n m a) /\ (length (cstring n m a) < n)%nat.
Proof.
  induction n as [|n IH]; intros m a k Hb Hk H0; [lia|]. cbn [cstring].
  destruct (Z.eqb_spec (m a) 0) as [E|E]; [split; [by apply holds_single|split; [constructor|cbn; lia]]|].
  assert (k <> 0) by (intros ->; by rewrite Z.add_0_r in H0).
  destruct (IH m (a + 1) (k - 1) Hb) as (H1 & H2 & H3); [lia|by replace (a + 1 + (k - 1)) with (a + k) by lia|].
  split; [|split; [|cbn; lia]].
  - cbn [app]. intros [|i] c Hi; cbn in Hi; [injection Hi as <-; by rewrite Z.add_0_r|].
    rewrite <- (H1 i c Hi). f_equal. lia.
  - apply Forall_cons. split; [|done]. unfold char_ok. pose proof (Hb a). lia.
Qed.

Lemma cstring_copied n : forall m a D src k j,
  copied m a D src k -> 0 <= j -> j + Z.of_nat n <= k -> cstring n m (a + j) = cstring n D (src + j).
Proof.
  induction n as [|n IH]; intros m a D src k j Hc Hj Hn; [done|]. cbn [cstring]. rewrite Hc by lia.
  rewrite <- !Z.add_assoc. by rewrite (IH m a D src k (j + 1) Hc) by lia.
Qed.

Lemma dir_entry_copied m a D src k j fname :
  copied m a D src k -> 0 <= j -> j + 32 <= k -> dir_entry m (a + j) fname = dir_entry D (src + j) fname.
Proof.
  intros Hc Hj Hk. unfold dir_entry, dirent_inode, dirent_name. rewrite (copied_load32 m a D src k j Hc) by lia.
  rewrite <- !Z.add_assoc. by rewrite (cstring_copied 28 m a D src k (j + 4) Hc) by lia.
Qed.

Section DISK.
Context {St : Type} `{AllocatorLaws St}.
Context (smp : bool) (drive : Z -> mem) (Hdrive : bytes_ok (drive 1)).
#[local] Abbreviation D := (drive 1).

(** The processor can take the driver's lock: threads do not run yet, or one does
    and the lock is free. *)
Definition cpu_ok (d : dstate St) : Prop :=
  multi_task_enabled (d_sched d) = false \/
  exists t c, get_crt_thread (d_sched d) = Ok t /\ tcbs (d_sched d) !! t = Some c /\
    0 <= preempt_count c < 2147483647 /\ (smp = true -> disk_lock d = LOCKED_NO).

Lemma with_dmem_twice (d : dstate St) m m' : with_dmem (with_dmem d m) m' = with_dmem d m'.
Proof. done. Qed.

Lemma with_dmem_id (d : dstate St) : with_dmem d (d_mem d) = d.
Proof. by destruct d. Qed.

(** ** Sectors and blocks *)
Lemma read_disk_ok m buffer sector :
  0 <= sector < 268435456 -> bytes_ok m ->
  exists m', read_disk drive m buffer sector 1 1 = Ok m' /\ bytes_ok m' /\
    same_outside m m' buffer (buffer + 512) /\ copied m' buffer D (512 * sector) 512.
Proof.
  intros Hs Hb. unfold read_disk, SECTOR_SIZE. rewrite Z.mod_small by lia.
  destruct (for_loop_inv (fun j m' => bytes_ok m' /\ same_outside m m' buffer (buffer + 512) /\
      copied m' buffer D (512 * sector) j) (Z.to_nat (1 * 512)) 0
    (fun i m => Ok (store8 m (buffer + i) (drive 1 (sector * 512 + i)))) m) as (m' & E & H1 & H2 & H3).
  - split; [done|]. split; [apply same_outside_refl|]. intros i Hi. lia.
  - intros j m1 Hj (Hb1 & Ho1 & Hc1). eexists. split; [done|]. split; [by apply bytes_store8|]. split.
    + intros x Hx. rewrite store8_ne by lia. by apply Ho1.
    + intros i Hi. destruct (decide (i = j)) as [->|].
      * rewrite store8_eq. rewrite u8_small by apply Hdrive. f_equal. lia.
      * rewrite store8_ne by lia. apply Hc1. lia.
  - exists m'. done.
Qed.

Lemma read_sector_ok d buffer sector :
  cpu_ok d -> 0 <= sector < 268435456 -> bytes_ok (d_mem d) ->
  exists m', read_sector smp drive d buffer sector 1 = Ok (with_dmem d m') /\ bytes_ok m' /\
    same_outside (d_mem d) m' buffer (buffer + 512) /\ copied m' buffer D (512 * sector) 512.
Proof.
  intros Hcpu Hs Hb. destruct (read_disk_ok (d_mem d) buffer sector Hs Hb) as (m' & E & H1).
  exists m'. split; [|done]. unfold read_sector. destruct (multi_task_enabled (d_sched d)) eqn:Em.
  - destruct Hcpu as [Hc|(t & c & Hg & Hc & Hp & Hl)]; [by rewrite Hc in Em|].
    rewrite (spin_lock_ok smp _ _ t c Hg Hc Hp Hl). cbn [res_bind].
    set (s1 := with_interrupts _ false). change (d_mem (with_dsched d s1 _)) with (d_mem d).
    rewrite E. cbn [res_bind]. change (d_sched (with_dmem (with_dsched d s1 _) m')) with s1.
    change (multi_task_enabled s1) with (multi_task_enabled (d_sched d)). rewrite Em.
    rewrite (spin_unlock_ok smp s1 _ _ t _ Hg (lookup_insert_eq _ _ _)) by (cbn; lia). cbn [res_bind].
    cbn [preempt_count with_preempt]. pose proof (restore_id (d_sched d) t c Hc) as Hid. cbv zeta in Hid.
    unfold s1. rewrite Hid. f_equal. destruct d. cbn in *. unfold with_dsched, with_dmem. cbn. f_equal.
    destruct smp; [symmetry; by apply Hl|done].
  - cbn [res_bind]. rewrite E. cbn [res_bind]. change (d_sched (with_dmem d m')) with (d_sched d). by rewrite Em.
Qed.

Lemma read_block_ok d buffer b :
  cpu_ok d -> 0 <= b < 33554432 -> bytes_ok (d_mem d) ->
  exists m', read_block smp drive d buffer b 1 = Ok (with_dmem d m') /\ bytes_ok m' /\
    same_outside (d_mem d) m' buffer (buffer + 4096) /\ copied m' buffer D (4096 * b) 4096.
Proof.
  intros Hcpu Hb Hm. unfold read_block. rewrite (u32_small (b * 8)) by lia.
  destruct (for_loop_inv (fun j d' => exists m', d' = with_dmem d m' /\ bytes_ok m' /\
      same_outside (d_mem d) m' buffer (buffer + 4096) /\ copied m' buffer D (4096 * b) (512 * j)) 8 0
    (fun i d => read_sector smp drive d (buffer + i * 512) (u32 (b * 8 + i)) 1) d) as (d' & E & m' & -> & H1).
  - exists (d_mem d). rewrite with_dmem_id. split; [done|]. split; [done|]. split; [apply same_outside_refl|].
    intros i Hi. lia.
  - intros j d1 Hj (m1 & -> & Hb1 & Ho1 & Hc1). rewrite u32_small by lia.
    destruct (read_sector_ok (with_dmem d m1) (buffer + j * 512) (b * 8 + j)) as (m2 & E2 & Hb2 & Ho2 & Hc2);
      [exact Hcpu|lia|done|]. rewrite with_dmem_twice in E2. eexists. split; [exact E2|].
    exists m2. split; [done|]. split; [done|]. cbn [d_mem with_dmem] in Ho2. split.
    + intros x Hx. rewrite Ho2 by lia. by apply Ho1.
    + intros i Hi. destruct (decide (i < 512 * j)).
      * rewrite Ho2 by lia. apply Hc1. lia.
      * replace (buffer + i) with (buffer + j * 512 + (i - j * 512)) by lia. rewrite Hc2 by lia. f_equal. lia.
  - exists m'. done.
Qed.

(** ** Reads of any bytes *)

(** Memory the allocator does not hand out while the blocks [L] are in use: static
    and local variables, and the blocks themselves. *)
Definition reserved (L : gmap Z Z) (a n : Z) : Prop :=
  forall s sz p s', owns s L -> malloc s sz = Ok (p, s') -> disjoint_from p sz a n.

Lemma reserved_part L a n b k : reserved L a n -> a <= b -> b + k <= a + n -> reserved L b k.
Proof. intros Hr ? ? s sz p s' Ho E. pose proof (Hr s sz p s' Ho E). unfold disjoint_from in *. lia. Qed.

(** An operation that leaves the device and the allocator as they were, and memory
    but for [a, a + n) and what the allocator hands out. *)
Record returns (L : gmap Z Z) (d d' : dstate St) (a n : Z) : Prop := {
  rt_sched : d_sched d' = d_sched d;
  rt_lock : disk_lock d' = disk_lock d;
  rt_owns : owns (d_alloc d') L;
  rt_bytes : bytes_ok (d_mem d');
  rt_frame : forall x, reserved L x 1 -> ~ (a <= x < a + n) -> d_mem d' x = d_mem d x
}.

(** The state an operation needs. *)
Record ready (L : gmap Z Z) (d : dstate St) : Prop := {
  rd_cpu : cpu_ok d;
  rd_owns : owns (d_alloc d) L;
  rd_bytes : bytes_ok (d_mem d);
  rd_room : (base.size L < capacity)%nat;
  rd_max : 4096 <= request_max
}.

Lemma returns_ready L d d' a n : ready L d -> returns L d d' a n -> ready L d'.
Proof.
  intros [Hc Ho Hb Hr Hm] [E1 E2 Ho' Hb' _]. split; try done. unfold cpu_ok. by rewrite E1, E2.
Qed.

Lemma with_alloc_cpu d a m : cpu_ok d -> cpu_ok (with_dmem (with_dalloc d a) m).
Proof. done. Qed.

(** A block for the time of [f]. *)
Lemma scratch_ok L d n :
  ready L d -> 0 < n <= 4096 ->
  (buffers (d_alloc d) [n] = None /\ dmalloc d n = Err Panic) \/
  exists p a a', buffers (d_alloc d) [n] = Some a' /\ dmalloc d n = Ok (p, with_dalloc d a) /\ 0 < p /\
    (forall x k, reserved L x k -> disjoint_from p n x k) /\ owns a' L /\
    forall m, dfree (with_dmem (with_dalloc d a) m) p = Ok (with_dalloc (with_dmem d m) a').
Proof.
  intros [Hc Ho Hb Hr Hm] Hn. unfold dmalloc.
  cbn [buffers]. destruct (malloc_law (d_alloc d) L n Ho ltac:(lia) Hr) as [[_ E]|(_ & p & k & a & E & Hp & Hk & Hnew & Hap & Ho')];
    [left; by rewrite E|right].
  destruct (mfree_law a (<[p := k]> L) p k Ho' (lookup_insert_eq _ _ _)) as (a' & E' & Ho2).
  { rewrite map_size_insert_None by done. lia. }
  exists p, a, a'. rewrite E, E'. cbn [res_bind]. split; [done|]. split; [done|].
  split; [exact (owns_positive _ _ _ _ Ho' (lookup_insert_eq _ _ _))|]. split; [|split].
  - intros x j Hx. exact (Hx _ n p a Ho E).
  - by rewrite delete_insert_id in Ho2.
  - intros m. unfold dfree. cbn [d_alloc with_dmem with_dalloc]. by rewrite E'.
Qed.

(** Where the copy has got to before sector [i]. *)
Definition progress (start end_ i : Z) : Z := Z.min (Z.max (512 * i) start) end_.

Lemma read_hard_disk_ok L d buffer start len :
  ready L d -> 0 < buffer -> 0 <= start -> 0 < len -> start + len + 511 < 4294967296 ->
  reserved L buffer len ->
  (buffers (d_alloc d) [SECTOR_SIZE] = None /\ read_hard_disk smp drive d buffer start len 1 = Err Panic) \/
  exists d', read_hard_disk smp drive d buffer start len 1 = Ok d' /\ buffers (d_alloc d) [SECTOR_SIZE] = Some (d_alloc d') /\
    returns L d d' buffer len /\ copied (d_mem d') buffer D start len.
Proof.
  intros Hrd Hb0 Hs Hl Hbound Hres. pose proof Hrd as [Hc Ho Hb Hr Hm].
  unfold read_hard_disk, SECTOR_SIZE. rewrite (u32_small (start + len)) by lia.
  replace (start + len + 512 - 1) with (start + len + 511) by lia. rewrite u32_small by lia.
  destruct (scratch_ok L d 512 Hrd ltac:(lia)) as [[-> ->]|(p & a & a' & -> & -> & Hp & Hpd & Ho' & Hfree)]; [by left|right].
  cbn [res_bind]. set (e := start + len). set (lo := start / 512). set (hi := (e + 511) / 512).
  pose proof (Hpd buffer len Hres) as Hpb. unfold disjoint_from in Hpb.
  assert (512 * lo <= start < 512 * lo + 512) as Hlo by (unfold lo; zdiv).
  assert (512 * hi - 512 < e <= 512 * hi) as Hhi by (unfold hi; zdiv).
  set (Inv := fun (i : Z) (r : dstate St * Z) => exists m, r = (with_dmem (with_dalloc d a) m, buffer + (progress start e i - start)) /\
    bytes_ok m /\ copied m buffer D start (progress start e i - start) /\
    forall x, ~ (p <= x < p + 512) -> ~ (buffer <= x < buffer + len) -> m x = d_mem d x).
  destruct (for_loop_inv Inv (Z.to_nat (hi - lo)) lo (fun i '(d, buffer) =>
      let! d := read_sector smp drive d p i 1 in
      let! m := memcpy (d_mem d) buffer (p + Z.max (u32 (i * 512)) start - i * 512)
                  (u32 (Z.min (u32 ((i + 1) * 512)) e - Z.max (u32 (i * 512)) start)) in
      Ok (with_dmem d m, buffer + u32 (Z.min (u32 ((i + 1) * 512)) e - Z.max (u32 (i * 512)) start)))
      (with_dalloc d a, buffer)) as ([d' b'] & E & m & Hd' & Hbm & Hcp & Hfr).
  - exists (d_mem d). replace (progress start e lo) with start by (unfold progress; lia).
    split; [f_equal; lia|]. split; [done|]. split; [intros i Hi; lia|done].
  - intros i r Hi (m & -> & Hbm & Hcp & Hfr).
    assert (512 * lo <= 512 * i < 512 * hi) as Hi2 by lia.
    destruct (read_sector_ok (with_dmem (with_dalloc d a) m) p i) as (m1 & E1 & Hb1 & Ho1 & Hc1);
      [exact Hc|lia|done|]. rewrite E1. cbn [res_bind d_mem with_dmem].
    cbv zeta. rewrite (u32_small (i * 512)), (u32_small ((i + 1) * 512)) by lia. cbn [d_mem with_dmem] in Ho1.
    set (cs := Z.max (i * 512) start). set (ce := Z.min ((i + 1) * 512) e).
    assert (progress start e i = cs) as Hps by (unfold progress, cs; lia).
    assert (progress start e (i + 1) = ce) as Hpe by (unfold progress, ce; lia).
    assert (start <= cs < ce /\ ce <= e) as Hcs by (unfold cs, ce; lia).
    rewrite (u32_small (ce - cs)) by lia.
    destruct (memcpy_ok m1 (buffer + (cs - start)) (p + cs - i * 512) (ce - cs)) as (m2 & E2 & Ho2 & Hc2).
    + lia.
    + unfold cs. lia.
    + lia.
    + done.
    + unfold cs, ce in *. lia.
    + rewrite Hps, E2. cbn [res_bind]. eexists. split; [done|]. exists m2.
      split; [rewrite Hpe; f_equal; lia|]. split; [by apply (memcpy_bytes m1 _ _ _ _ Hb1 E2)|]. split.
      * intros k Hk. rewrite Hpe in Hk. destruct (decide (k < cs - start)) as [Hlt|Hge].
        -- rewrite Ho2 by lia. rewrite Ho1 by lia. apply Hcp. lia.
        -- replace (buffer + k) with (buffer + (cs - start) + (k - (cs - start))) by lia. rewrite Hc2 by lia.
           replace (p + cs - i * 512 + (k - (cs - start))) with (p + (k + start - i * 512)) by lia.
           rewrite Hc1 by (unfold cs, ce in *; lia). f_equal. lia.
      * intros x Hx1 Hx2. rewrite Ho2 by lia. rewrite Ho1 by lia. by apply Hfr.
  - rewrite E. injection Hd' as -> ->. cbn [res_bind].
    replace (lo + Z.of_nat (Z.to_nat (hi - lo))) with hi in * by lia.
    replace (progress start e hi - start) with len in Hcp by (unfold progress, e in *; lia).
    rewrite (Hfree m). eexists. split; [done|]. split; [done|]. split; [|done].
    split; [done|done|done|done|]. intros x Hx Hx2. cbn. apply Hfr; [|done].
    pose proof (Hpd x 1 Hx). unfold disjoint_from in *. lia.
Qed.

(** ** Lookup *)
Section EXT2.
Context (sfuel : nat) (current_superblock dir_inode file_inode : Z).
Context (Hsfuel : (28 <= sfuel)%nat).

Lemma scan_entries_ok n : forall j m buf filename fname b,
  bytes_ok m -> copied m buf D (4096 * b) 4096 -> 0 < buf -> 0 < filename ->
  holds m filename (fname ++ [0]) -> Forall char_ok fname -> 0 <= j -> j + Z.of_nat n <= 128 ->
  (forall j, 0 <= j < 128 -> dirent_inode D (4096 * b + 32 * j) <> 0 ->
     exists k, 0 <= k < 28 /\ D (dirent_name (4096 * b + 32 * j) + k) = 0) ->
  scan_entries sfuel n j m buf filename = Ok (for_find n j (fun j => dir_entry D (4096 * b + 32 * j) fname)).
Proof.
  induction n as [|n IH]; intros j m buf filename fname b Hb Hc Hbuf Hfn Hs Hch Hj Hn Hv; [done|].
  cbn [scan_entries for_find]. unfold dirent_size. rewrite (Z.mul_comm j 32).
  rewrite <- (dir_entry_copied m buf D (4096 * b) 4096 (32 * j) fname Hc) by lia. unfold dir_entry.
  destruct (Z.eqb_spec (dirent_inode m (buf + 32 * j)) 0) as [E|E]; cbn [res_bind];
    [apply (IH (j + 1)); done || lia|].
  assert (dirent_inode m (buf + 32 * j) = dirent_inode D (4096 * b + 32 * j)) as Ed
    by (apply (copied_load32 m buf D (4096 * b) 4096); [done|lia|lia]).
  rewrite Ed in E. destruct (Hv j ltac:(lia) E) as (k & Hk & Hk0).
  assert (m (dirent_name (buf + 32 * j) + k) = 0) as Hm0.
  { unfold dirent_name in *. rewrite <- Hk0. replace (buf + 32 * j + 4 + k) with (buf + (32 * j + 4 + k)) by lia.
    rewrite Hc by lia. f_equal. lia. }
  destruct (cstring_ok 28 m _ k Hb Hk Hm0) as (Hh & Hcc & Hl).
  unfold strcmp. replace (dirent_name (buf + 32 * j) =? 0) with false by (unfold dirent_name; symmetry; zbool).
  replace (filename =? 0) with false by (symmetry; zbool). cbn [negb andb].
  set (nm := cstring 28 m (dirent_name (buf + 32 * j))) in *.
  rewrite (strcmp_loop_ok nm fname sfuel m _ _ 0) by (rewrite ?Z.add_0_r; done || lia). cbn [res_bind].
  destruct (Z.eqb_spec (compare_strings nm fname) 0) as [E2|E2].
  - apply compare_strings_eq in E2. by rewrite decide_True by done.
  - rewrite decide_False by (intros E3; apply E2; by apply compare_strings_eq).
    apply (IH (j + 1)); done || lia.
Qed.

Lemma scan_blocks_ok n : forall i d buf filename fname inode,
  cpu_ok d -> bytes_ok (d_mem d) -> copied (d_mem d) dir_inode D inode 62 -> 0 < buf -> 0 < filename ->
  holds (d_mem d) filename (fname ++ [0]) -> Forall char_ok fname -> 0 <= i -> i + Z.of_nat n = 12 ->
  disjoint_from buf 4096 filename (Z.of_nat (length fname) + 1) -> disjoint_from buf 4096 dir_inode 62 ->
  valid_dir D inode ->
  exists m', scan_blocks smp drive sfuel dir_inode n i d buf filename =
      Ok (for_find n i (fun i => let b := inode_block D inode i in if b =? 0 then None else find_block D b fname),
          with_dmem d m') /\
    bytes_ok m' /\ same_outside (d_mem d) m' buf (buf + 4096).
Proof.
  induction n as [|n IH]; intros i d buf filename fname inode Hcpu Hb Hc Hbuf Hfn Hs Hch Hi Hn Hd1 Hd2 Hv.
  { exists (d_mem d). rewrite with_dmem_id. split; [done|]. split; [done|apply same_outside_refl]. }
  cbn [scan_blocks for_find]. cbv zeta.
  assert (inode_block (d_mem d) dir_inode i = inode_block D inode i) as Eb.
  { unfold inode_block. rewrite <- !Z.add_assoc. apply (copied_load32 _ _ D inode 62); [done|lia|lia]. }
  rewrite Eb. destruct (Hv i ltac:(lia)) as [Hbr Hnm]. cbv zeta in Hbr, Hnm.
  set (b := inode_block D inode i) in *. unfold disjoint_from in *.
  destruct (Z.eqb_spec b 0) as [E0|E0]; [by apply IH; try done; lia|].
  destruct (read_block_ok d buf b Hcpu ltac:(lia) Hb) as (m1 & -> & Hb1 & Ho1 & Hc1). cbn [res_bind].
  assert (holds m1 filename (fname ++ [0])) as Hs1.
  { apply (holds_same (d_mem d) _ _ _ buf (buf + 4096)); [done|done|]. unfold disjoint_from.
    rewrite length_app. cbn [length]. lia. }
  cbn [d_mem with_dmem].
  rewrite (scan_entries_ok 128 0 m1 buf filename fname b) by (done || lia || by apply Hnm). cbn [res_bind].
  fold (find_block D b fname). destruct (find_block D b fname) as [r|]; [by exists m1|].
  destruct (IH (i + 1) (with_dmem d m1) buf filename fname inode) as (m2 & E2 & Hb2 & Ho2);
    try done; try lia; try (unfold disjoint_from; lia).
  { intros k Hk. cbn. rewrite Ho1 by lia. by apply Hc. }
  exists m2. split; [exact E2|]. split; [done|]. by apply (same_outside_trans _ m1).
Qed.

(** The address of an inode on the drive. *)
Definition inode_at (d : dstate St) (n : Z) : Z :=
  inode_table_blk (d_mem d) current_superblock * 4096 + n * 62.

Lemma read_inode_ok L d n out :
  ready L d -> 0 < out -> reserved L out 62 -> 0 <= n -> inode_at d n + 600 < 4294967296 ->
  (buffers (d_alloc d) [SECTOR_SIZE] = None /\ ext2_read_inode smp drive current_superblock d n out = Err Panic) \/
  exists d', ext2_read_inode smp drive current_superblock d n out = Ok d' /\ buffers (d_alloc d) [SECTOR_SIZE] = Some (d_alloc d') /\
    returns L d d' out 62 /\
    copied (d_mem d') out D (inode_at d n) 62.
Proof.
  intros Hrd Ho Hr Hn Hb. unfold ext2_read_inode, FS_BLOCK_SIZE, inode_size. fold (inode_at d n).
  pose proof (load32_range (d_mem d) (current_superblock + 16) (rd_bytes _ _ Hrd)) as Ht.
  assert (0 <= inode_at d n) by (unfold inode_at, inode_table_blk; lia).
  rewrite u32_small by lia. apply (read_hard_disk_ok L d out (inode_at d n) 62); try done; lia.
Qed.

Lemma returns_trans L d1 d2 d3 a n : returns L d1 d2 a n -> returns L d2 d3 a n -> returns L d1 d3 a n.
Proof.
  intros [E1 E2 _ _ F1] [E3 E4 Ho Hb F2]. split; [congruence|congruence|done|done|].
  intros x Hx Hn. rewrite F2 by done. by apply F1.
Qed.

Lemma find_ok L d n filename fname :
  ready L d -> 0 < dir_inode -> 0 < filename -> reserved L dir_inode 62 ->
  reserved L filename (Z.of_nat (length fname) + 1) -> 0 <= n -> inode_at d n + 600 < 4294967296 ->
  disjoint_from dir_inode 62 filename (Z.of_nat (length fname) + 1) ->
  holds (d_mem d) filename (fname ++ [0]) -> Forall char_ok fname ->
  (inode_type D (inode_at d n) = FS_DIR -> valid_dir D (inode_at d n)) ->
  let granted := buffers (d_alloc d) (SECTOR_SIZE :: if inode_type D (inode_at d n) =? FS_DIR then [4096] else []) in
  (granted = None /\ ext2_find_file_in_dir smp drive sfuel current_superblock dir_inode d n filename = Err Panic) \/
  exists d', ext2_find_file_in_dir smp drive sfuel current_superblock dir_inode d n filename =
      Ok (if inode_type D (inode_at d n) =? FS_DIR then find_file D (inode_at d n) fname else None, d') /\
    granted = Some (d_alloc d') /\ returns L d d' dir_inode 62.
Proof.
  intros Hrd Hdi Hfn Hrdi Hrfn Hn Hb Hdis Hs Hch Hv granted. unfold granted, ext2_find_file_in_dir. rewrite buffers_cons.
  destruct (read_inode_ok L d n dir_inode Hrd Hdi Hrdi Hn Hb) as [[-> ->]|(d1 & -> & -> & Hret & Hcp)]; [by left|].
  cbn [res_bind]. assert (inode_type (d_mem d1) dir_inode = inode_type D (inode_at d n)) as Et.
  { pose proof (copied_load16 _ _ _ _ _ 0 Hcp ltac:(lia) ltac:(lia)) as E. by rewrite !Z.add_0_r in E. }
  rewrite Et. set (ino := inode_at d n) in *.
  destruct (Z.eqb_spec (inode_type D ino) FS_DIR) as [E|E]; cbn [negb]; [|right; by exists d1].
  pose proof (returns_ready L d d1 _ _ Hrd Hret) as Hrd1.
  destruct (scratch_ok L d1 4096 Hrd1 ltac:(lia)) as [[-> ->]|(p & a & a' & -> & -> & Hp & Hpd & Ho' & Hfree)]; [by left|right].
  cbn [res_bind].
  assert (holds (d_mem d1) filename (fname ++ [0])) as Hs1.
  { intros i c Hi. pose proof (lookup_lt_Some _ _ _ Hi) as Hlt. rewrite length_app in Hlt. cbn in Hlt.
    unfold disjoint_from in Hdis. rewrite (rt_frame _ _ _ _ _ Hret); [by apply Hs| |lia].
    apply (reserved_part L filename (Z.of_nat (length fname) + 1)); [done|lia|lia]. }
  destruct (scan_blocks_ok 12 0 (with_dalloc d1 a) p filename fname ino) as (m' & E2 & Hb2 & Ho2); try done.
  - apply (rd_cpu _ _ Hrd1).
  - apply (rd_bytes _ _ Hrd1).
  - by apply Hpd.
  - by apply Hpd.
  - by apply Hv.
  - rewrite E2. cbn [res_bind]. change (with_dmem (with_dalloc d1 a) m') with (with_dmem (with_dalloc d1 a) m').
    rewrite (Hfree m'). cbn [res_bind]. eexists. split; [done|]. split; [done|].
    destruct Hret as [R1 R2 _ _ R5]. split; [done|done|done|done|]. intros x Hx Hnx. cbn.
    pose proof (Hpd x 1 Hx) as Hxp. unfold disjoint_from in Hxp. cbn in Ho2. rewrite Ho2 by lia. by apply R5.
Qed.

(** ** Reading a file *)

(** Byte [k] of a file, by its direct blocks. *)
Definition file_byte (D : mem) (inode k : Z) : Z :=
  D (4096 * inode_block D inode (k / 4096) + k mod 4096).

(** A file within its direct blocks, all of them allocated. *)
Definition valid_file (D : mem) (inode : Z) : Prop :=
  inode_length D inode <= 49152 /\
  forall i, 0 <= i -> 4096 * i < inode_length D inode -> 0 < inode_block D inode i < 33554432.

Lemma read_loop_ok k : forall d p buffer start length ino n idx off,
  cpu_ok d -> bytes_ok (d_mem d) -> copied (d_mem d) file_inode D ino 62 ->
  0 < p -> 0 < buffer -> 0 <= start -> 0 <= n <= length -> start + length <= 49152 ->
  disjoint_from p 4096 buffer length -> disjoint_from p 4096 file_inode 62 -> disjoint_from buffer length file_inode 62 ->
  0 <= idx <= 12 -> 12 - idx < Z.of_nat k -> (n < length -> 4096 * idx + off = start + n /\ 0 <= off < 4096) ->
  (forall i, 0 <= i < n -> d_mem d (buffer + i) = file_byte D ino (start + i)) ->
  (forall i, 0 <= i -> 4096 * i < start + length -> 0 < inode_block D ino i < 33554432) ->
  exists m', read_loop smp drive file_inode k d p buffer length n idx off = Ok (length, with_dmem d m') /\ bytes_ok m' /\
    (forall i, 0 <= i < length -> m' (buffer + i) = file_byte D ino (start + i)) /\
    (forall x, ~ (p <= x < p + 4096) -> ~ (buffer <= x < buffer + length) -> m' x = d_mem d x).
Proof.
  induction k as [|k IH];
    intros d p buffer start length ino n idx off Hcpu Hb Hc Hp Hbf Hst Hn Hmax Hd1 Hd2 Hd3 Hidx Hk Hpos Hdone Hblk.
  { lia. }
  cbn [read_loop]. destruct (Z.ltb_spec n length) as [Hlt|Hge]; cbn [andb].
  2: { replace n with length in * by lia. exists (d_mem d). rewrite with_dmem_id. done. }
  destruct (Hpos Hlt) as [Hpo Hoff]. unfold disjoint_from in Hd1, Hd2, Hd3.
  replace (idx <? 12) with true by (symmetry; zbool).
  assert (inode_block (d_mem d) file_inode idx = inode_block D ino idx) as Eb.
  { unfold inode_block. rewrite <- !Z.add_assoc. apply (copied_load32 _ _ D ino 62); [done|lia|lia]. }
  rewrite Eb. pose proof (Hblk idx ltac:(lia) ltac:(lia)) as Hbr. set (b := inode_block D ino idx) in *.
  replace (b =? 0) with false by (symmetry; zbool).
  destruct (read_block_ok d p b Hcpu ltac:(lia) Hb) as (m1 & -> & Hb1 & Ho1 & Hc1). cbn [res_bind].
  rewrite (u32_small (length - n)) by lia. set (r := if _ >? _ then _ else _).
  assert (r = Z.min (4096 - off) (length - n)) as Er.
  { unfold r. rewrite Z.gtb_ltb. destruct (Z.ltb_spec (length - n) (4096 - off)); lia. }
  cbn [d_mem with_dmem].
  destruct (memcpy_ok m1 (buffer + n) (p + off) r) as (m2 & E2 & Ho2 & Hc2); [lia|lia|lia|done|lia|].
  rewrite E2. cbn [res_bind]. rewrite (u32_small (n + r)) by lia. rewrite with_dmem_twice.
  pose proof (memcpy_bytes m1 _ _ _ _ Hb1 E2) as Hb2.
  destruct (IH (with_dmem d m2) p buffer start length ino (n + r) (idx + 1) 0) as (m3 & E3 & Hb3 & Hd & Hf); try done; try lia.
  - intros i Hi. cbn. rewrite Ho2 by lia. rewrite Ho1 by lia. by apply Hc.
  - intros i Hi. cbn. destruct (decide (i < n)).
    + rewrite Ho2 by lia. rewrite Ho1 by lia. apply Hdone. lia.
    + replace (buffer + i) with (buffer + n + (i - n)) by lia. rewrite Hc2 by lia.
      replace (p + off + (i - n)) with (p + (off + (i - n))) by lia. rewrite Hc1 by lia. unfold file_byte.
      replace ((start + i) / 4096) with idx by (apply Z.div_unique with (off + (i - n)); lia).
      replace ((start + i) mod 4096) with (off + (i - n)) by (apply Z.mod_unique with idx; lia). done.
  - exists m3. split; [exact E3|]. split; [done|]. split; [done|]. intros x H1x H2x. rewrite Hf by done. cbn.
    rewrite Ho2 by lia. apply Ho1. lia.
Qed.

(** What a read of a file may write: the local inodes and the buffer. *)
Record leaves (L : gmap Z Z) (d d' : dstate St) (buffer n : Z) : Prop := {
  lv_sched : d_sched d' = d_sched d;
  lv_lock : disk_lock d' = disk_lock d;
  lv_owns : owns (d_alloc d') L;
  lv_frame : forall x, reserved L x 1 -> ~ (dir_inode <= x < dir_inode + 62) ->
    ~ (file_inode <= x < file_inode + 62) -> ~ (buffer <= x < buffer + n) -> d_mem d' x = d_mem d x
}.

(** The caller's memory: the local inodes, the superblock and the name are out of
    the allocator's reach and apart from each other. *)
Record layout (L : gmap Z Z) (d : dstate St) (filename : Z) (fname : list Z) : Prop := {
  ly_ready : ready L d;
  ly_pos : 0 < dir_inode /\ 0 < file_inode /\ 0 < filename;
  ly_dir : reserved L dir_inode 62;
  ly_file : reserved L file_inode 62;
  ly_name : reserved L filename (Z.of_nat (length fname) + 1);
  ly_super : reserved L current_superblock 24;
  ly_apart : disjoint_from dir_inode 62 filename (Z.of_nat (length fname) + 1) /\
    disjoint_from dir_inode 62 current_superblock 24;
  ly_string : holds (d_mem d) filename (fname ++ [0]);
  ly_chars : Forall char_ok fname
}.

(** What the lookup of a name gives. *)
Definition lookup_file (d : dstate St) (fname : list Z) : option Z :=
  let root := inode_at d current_dir_inode in
  if inode_type D root =? FS_DIR then find_file D root fname else None.

(** The buffers that the lookup and the read of a file ask for, one after the other. *)
Definition lookup_buffers (d : dstate St) : list Z :=
  SECTOR_SIZE :: if inode_type D (inode_at d current_dir_inode) =? FS_DIR then [FS_BLOCK_SIZE] else [].
Definition read_buffers (d : dstate St) (fname : list Z) (start : Z) : list Z :=
  lookup_buffers d ++
  match lookup_file d fname with
  | None => []
  | Some n => SECTOR_SIZE :: if start >=? inode_length D (inode_at d n) then [] else [FS_BLOCK_SIZE]
  end.

Lemma lookup_ok L d filename fname :
  layout L d filename fname -> inode_at d current_dir_inode + 600 < 4294967296 ->
  (inode_type D (inode_at d current_dir_inode) = FS_DIR -> valid_dir D (inode_at d current_dir_inode)) ->
  (buffers (d_alloc d) (lookup_buffers d) = None /\
   ext2_find_file_in_dir smp drive sfuel current_superblock dir_inode d current_dir_inode filename = Err Panic) \/
  exists d', ext2_find_file_in_dir smp drive sfuel current_superblock dir_inode d current_dir_inode filename =
      Ok (lookup_file d fname, d') /\ buffers (d_alloc d) (lookup_buffers d) = Some (d_alloc d') /\
    returns L d d' dir_inode 62 /\ ready L d' /\
    forall n, inode_at d' n = inode_at d n.
Proof.
  intros [Hrd (Hp1 & Hp2 & Hp3) Hr1 Hr2 Hr3 Hr4 [Ha1 Ha2] Hs Hch] Hb Hv.
  destruct (find_ok L d current_dir_inode filename fname) as [E|(d' & E & Eg & Hret)]; try done; [by left|right].
  exists d'. split; [done|]. split; [done|]. split; [done|]. split; [by apply (returns_ready L d d' dir_inode 62)|].
  intros n. unfold inode_at, inode_table_blk. do 2 f_equal. unfold load32, disjoint_from in *.
  rewrite !(rt_frame _ _ _ _ _ Hret); try lia;
    (apply (reserved_part L current_superblock 24); [done|lia|lia]).
Qed.

Lemma read_data_ok L d filename fname buffer start length n :
  layout L d filename fname -> inode_at d current_dir_inode + 600 < 4294967296 ->
  (inode_type D (inode_at d current_dir_inode) = FS_DIR -> valid_dir D (inode_at d current_dir_inode)) ->
  lookup_file d fname = Some n -> 0 <= n -> inode_at d n + 600 < 4294967296 -> valid_file D (inode_at d n) ->
  0 < buffer -> 0 <= start -> 0 <= length -> start + length < 4294967296 -> reserved L buffer length ->
  disjoint_from buffer length file_inode 62 ->
  let size := inode_length D (inode_at d n) in
  let count := if start >=? size then 0 else Z.min length (size - start) in
  (buffers (d_alloc d) (read_buffers d fname start) = None /\
   read_file smp drive sfuel current_superblock dir_inode file_inode d filename buffer start length = Err Panic) \/
  exists d', read_file smp drive sfuel current_superblock dir_inode file_inode d filename buffer start length = Ok (count, d') /\
    buffers (d_alloc d) (read_buffers d fname start) = Some (d_alloc d') /\ leaves L d d' buffer count /\
    forall i, 0 <= i < count -> d_mem d' (buffer + i) = file_byte D (inode_at d n) (start + i).
Proof.
  intros Hly Hrb Hv Hlook Hn Hnb [Hsz Hblk] Hbf Hst Hlen Hwrap Hrbuf Hdis size count.
  unfold read_file, ext2_fs_read_data, read_buffers. rewrite buffers_app, Hlook.
  destruct (lookup_ok L d filename fname Hly Hrb Hv) as [[-> ->]|(d1 & -> & -> & Hret & Hrd1 & Hino)]; [by left|].
  cbn [res_bind]. rewrite Hlook, buffers_cons. pose proof Hly as [_ (_ & Hfi & _) _ Hr2 _ _ _ _ _].
  destruct (read_inode_ok L d1 n file_inode Hrd1 Hfi Hr2 Hn) as [[-> ->]|(d2 & -> & -> & Hret2 & Hcp)];
    [by rewrite Hino|by left|]. rewrite Hino in Hcp. set (ino := inode_at d n) in *. cbn [res_bind].
  pose proof (returns_ready L d1 d2 _ _ Hrd1 Hret2) as Hrd2.
  assert (inode_length (d_mem d2) file_inode = size) as -> by (apply (copied_load32 _ _ D ino 62); [done|lia|lia]).
  assert (0 <= size) as Hsz0 by (apply (load32_range D); apply Hdrive).
  assert (forall x, reserved L x 1 -> ~ (dir_inode <= x < dir_inode + 62) ->
            ~ (file_inode <= x < file_inode + 62) -> d_mem d2 x = d_mem d x) as Hframe2.
  { intros x H1 H2 H3. rewrite (rt_frame _ _ _ _ _ Hret2) by done. by apply (rt_frame _ _ _ _ _ Hret). }
  destruct Hret as [S1 K1 _ _ _], Hret2 as [S2 K2 O2 B2 _].
  change (inode_length D ino) with size. unfold count. rewrite Z.geb_leb. destruct (Z.leb_spec size start) as [Hge|Hlt].
  { right. exists d2. split; [done|]. split; [done|]. split; [|intros; lia]. split; [congruence|congruence|done|]. intros x ? ? ? _. by apply Hframe2. }
  rewrite (u32_small (start + length)), (u32_small (size - start)) by lia.
  set (len := if _ >? _ then _ else _). assert (len = Z.min length (size - start)) as Elen.
  { unfold len. rewrite Z.gtb_ltb. destruct (Z.ltb_spec size (start + length)); lia. }
  change FS_BLOCK_SIZE with 4096. destruct (scratch_ok L d2 4096 Hrd2 ltac:(lia)) as [[-> ->]|(p & a & a' & -> & -> & Hp & Hpd & Ho' & Hfree)]; [by left|right].
  cbn [res_bind].
  assert (reserved L buffer len) as Hrl by (apply (reserved_part L buffer length); [done|lia|lia]).
  assert (disjoint_from buffer len file_inode 62) as Hdl by (unfold disjoint_from in *; lia).
  destruct (read_loop_ok read_rounds (with_dalloc d2 a) p buffer start len ino 0 (start / 4096) (start mod 4096))
    as (m & E & Hbm & Hdata & Hfr); try done; try lia; try (apply Hpd; done); try apply Hrd2;
    try (unfold read_rounds; zdiv).
  { intros i Hi Hlt2. apply Hblk; [done|lia]. }
  rewrite E. cbn [res_bind]. rewrite (Hfree m). cbn [res_bind].
  rewrite s32_small by lia. eexists. split; [by rewrite Elen|]. split; [done|]. rewrite <- Elen. split; [|done].
  split; [cbn; congruence|cbn; congruence|done|]. intros x H1 H2 H3 H4. cbn. rewrite Hfr; [by apply Hframe2| |done].
  pose proof (Hpd x 1 H1). unfold disjoint_from in *. lia.
Qed.

End EXT2.
End DISK.

(** ** Properties *)
Section PROPERTIES.
Context {St : Type} `{AllocatorLaws St} (smp : bool) (drive : Z -> mem) (Hdrive : bytes_ok (drive 1)).

(** [read_hard_disk] copies any range of bytes, whatever its alignment to
    sectors, from the drive to the buffer: it panics exactly when the allocator has no room for the
    sector buffer, and otherwise the buffer holds exactly the bytes of the range, nothing else that the caller can
    name has changed, the sector buffer is freed and the driver's lock released. *)
Theorem read_hard_disk_correct (L : gmap Z Z) (d : dstate St) (buffer start len : Z)
    (Hd : ready smp L d) (Hb : 0 < buffer) (Hs : 0 <= start) (Hl : 0 < len)
    (Hbound : start + len + 511 < 4294967296) (Hr : reserved L buffer len) :
  match buffers (d_alloc d) [SECTOR_SIZE] with
  | None => read_hard_disk smp drive d buffer start len 1 = Err Panic
  | Some a => exists d', read_hard_disk smp drive d buffer start len 1 = Ok d' /\ d_alloc d' = a /\ returns L d d' buffer len /\
      copied (d_mem d') buffer (drive 1) start len
  end.
Proof.
  destruct (read_hard_disk_ok smp drive Hdrive L d buffer start len Hd Hb Hs Hl Hbound Hr) as [[-> E]|(d' & E & -> & H1 & H2)];
    [exact E|by exists d'].
Qed.

(** C26: [read_file] reads the file system's layout.  When the name is in the root
    directory, it fills the buffer with the file's bytes from [start], as many as
    asked for or as there are, and returns their number; it touches nothing but
    the buffer and its local structures, and leaks no memory.  A name that is not
    in the directory gives -1.  The only failure is a panic, and it happens exactly when the
    allocator refuses one of the buffers that the read takes and releases one after the other ([read_buffers]):
    of a sector for each inode, of a block for the directory, and of a block for the data unless
    [start] is at or past the end.  Conditions: [start + length] is below 2^32 (beyond it the code's
    bound check wraps), the file lies within its twelve direct blocks and these are allocated, and the
    inodes and the directory's entries are within the drive. *)
Theorem read_file_correct (sfuel : nat) (sb dir_inode file_inode : Z) (L : gmap Z Z) (d : dstate St)
    (filename buffer start length : Z) (fname : list Z)
    (Hsf : (28 <= sfuel)%nat)
    (Hly : layout smp sb dir_inode file_inode L d filename fname)
    (Hrb : inode_at sb d current_dir_inode + 600 < 4294967296)
    (Hv : inode_type (drive 1) (inode_at sb d current_dir_inode) = FS_DIR ->
          valid_dir (drive 1) (inode_at sb d current_dir_inode))
    (Hb : 0 < buffer) (Hs : 0 <= start) (Hl : 0 <= length) (Hw : start + length < 4294967296)
    (Hr : reserved L buffer length) (Hdis : disjoint_from buffer length file_inode 62)
    (Hf : forall n, lookup_file drive sb d fname = Some n ->
            0 <= n /\ inode_at sb d n + 600 < 4294967296 /\ valid_file (drive 1) (inode_at sb d n)) :
  let read := read_file smp drive sfuel sb dir_inode file_inode d filename buffer start length in
  match buffers (d_alloc d) (read_buffers drive sb d fname start) with
  | None => read = Err Panic
  | Some a =>
      exists d', d_alloc d' = a /\
      match lookup_file drive sb d fname with
      | None => read = Ok (-1, d') /\ returns L d d' dir_inode 62
      | Some n =>
          let inode := inode_at sb d n in
          let size := inode_length (drive 1) inode in
          let count := if start >=? size then 0 else Z.min length (size - start) in
          read = Ok (count, d') /\ leaves dir_inode file_inode L d d' buffer count /\
          forall i, 0 <= i < count -> d_mem d' (buffer + i) = file_byte (drive 1) inode (start + i)
      end
  end.
Proof.
  cbv zeta. destruct (lookup_file drive sb d fname) as [n|] eqn:E.
  - destruct (Hf n eq_refl) as (Hn & Hnb & Hvf).
    destruct (read_data_ok smp drive Hdrive sfuel sb dir_inode file_inode Hsf L d filename fname buffer start length n)
      as [[-> Er]|(d' & Er & -> & H1 & H2)]; try done. by exists d'.
  - unfold read_file, ext2_fs_read_data, read_buffers. rewrite E, app_nil_r.
    destruct (lookup_ok smp drive Hdrive sfuel sb dir_inode file_inode Hsf L d filename fname Hly Hrb Hv)
      as [[-> ->]|(d' & -> & -> & Hret & _)]; [done|]. cbn [res_bind]. rewrite E. by exists d'.
Qed.

(** [stat_file] stores the size of the file its name finds in the root
    directory and returns 0, or returns -1; it panics exactly when the allocator refuses one of its buffers. *)
Theorem stat_file_correct (sfuel : nat) (sb dir_inode file_inode : Z) (L : gmap Z Z) (d : dstate St)
    (filename stat : Z) (fname : list Z)
    (Hsf : (28 <= sfuel)%nat)
    (Hly : layout smp sb dir_inode file_inode L d filename fname)
    (Hrb : inode_at sb d current_dir_inode + 600 < 4294967296)
    (Hv : inode_type (drive 1) (inode_at sb d current_dir_inode) = FS_DIR ->
          valid_dir (drive 1) (inode_at sb d current_dir_inode))
    (Hf : forall n, lookup_file drive sb d fname = Some n -> 0 <= n /\ inode_at sb d n + 600 < 4294967296) :
  let st := stat_file smp drive sfuel sb dir_inode file_inode d filename stat in
  let found := lookup_file drive sb d fname in
  match buffers (d_alloc d) (lookup_buffers drive sb d ++ if found is Some _ then [SECTOR_SIZE] else []) with
  | None => st = Err Panic
  | Some a =>
      exists d', d_alloc d' = a /\
      match found with
      | None => st = Ok (-1, d') /\ returns L d d' dir_inode 62
      | Some n => st = Ok (0, d') /\ load32 (d_mem d') stat = inode_length (drive 1) (inode_at sb d n) /\ owns (d_alloc d') L
      end
  end.
Proof.
  cbv zeta. unfold stat_file, ext2_fs_stat_file. rewrite buffers_app.
  destruct (lookup_ok smp drive Hdrive sfuel sb dir_inode file_inode Hsf L d filename fname Hly Hrb Hv)
    as [[-> ->]|(d1 & -> & -> & Hret & Hrd1 & Hino)]; cbn [res_bind]; [done|].
  destruct (lookup_file drive sb d fname) as [n|]; [|by exists d1]. destruct (Hf n eq_refl) as [Hn Hnb].
  pose proof Hly as [_ (_ & Hfi & _) _ Hr2 _ _ _ _ _].
  destruct (read_inode_ok smp drive Hdrive sfuel sb Hsf L d1 n file_inode Hrd1 Hfi Hr2 Hn) as [[-> ->]|(d2 & -> & -> & Hret2 & Hcp)];
    [by rewrite Hino|done|]. rewrite Hino in Hcp. cbn [res_bind]. eexists. split; [|split; [done|]]; [done|].
  cbn [d_mem d_alloc with_dmem]. unfold inode_length. split; [|apply Hret2].
  rewrite load32_store32.
  - apply (copied_load32 _ _ _ _ 62); [done|lia|lia].
  - apply load32_range, Hret2.
Qed.

End PROPERTIES.

(** ** Witnesses: a drive with the file ["a"] of five bytes in the root directory;
    the inode table is block 1, the directory block 2, the data block 3. *)
Definition demo_drive (is_slave x : Z) : Z :=
  match x with
  | 4158 => 2 | 4160 => 32 | 4164 => 2
  | 8192 => 3 | 8196 => 97
  | 4282 => 1 | 4284 => 5 | 4288 => 3
  | 12288 => 104 | 12289 => 101 | 12290 => 108 | 12291 => 108 | 12292 => 111
  | _ => 0
  end.

Lemma demo_drive_bytes : bytes_ok (demo_drive 1).
Proof. intros x. unfold demo_drive. repeat case_match; lia. Qed.

(** The inode table's block number at 116 (the superblock is at 100), the name at 400. *)
Definition demo_memory : mem := fun x => if x =? 116 then 1 else if x =? 400 then 97 else 0.

(** One block in use holds everything the reads work on. *)
Definition demo_blocks : gmap Z Z := {[1 := 100000]}.
Definition demo_device : dstate bump :=
  mk_dstate demo_memory (mk_bump 200000 demo_blocks) demo_sched LOCKED_NO.

Lemma demo_reserved a n : 1 <= a -> a + n <= 100001 -> reserved (St := bump) demo_blocks a n.
Proof.
  intros Ha Hn [nx lv] sz p s' (Hlv & H0 & Hb) E. cbn in E. injection E as <- _. cbn in Hb.
  destruct (Hb 1 100000) as (_ & _ & Hx); [by vm_compute|]. cbn in Hx. unfold disjoint_from. right. lia.
Qed.

Lemma demo_ready : ready (St := bump) true demo_blocks demo_device.
Proof.
  split.
  - right. exists 2000, (demo_tcb TASK_RUNNING 0 2001). split; [by vm_compute|]. by vm_compute.
  - split; [done|]. split; [done|]. intros q k Hq. unfold demo_blocks in Hq.
    apply lookup_singleton_Some in Hq as [<- <-]. cbn. lia.
  - intros x. cbn. unfold demo_memory. repeat case_match; lia.
  - change capacity with 1000%nat. unfold demo_blocks. rewrite map_size_singleton. lia.
  - cbn. lia.
Qed.

Lemma demo_layout : layout (St := bump) true 100 200 300 demo_blocks demo_device 400 [97].
Proof.
  split; try (apply demo_reserved; cbn; lia).
  - apply demo_ready.
  - lia.
  - unfold disjoint_from. cbn. lia.
  - intros [|[|i]] c Hc; cbn in Hc; [by injection Hc as <-|by injection Hc as <-|done].
  - apply Forall_singleton. unfold char_ok. lia.
Qed.

(** A statement about the first [n] numbers, by evaluation. *)
Lemma all_below (P : Z -> bool) (n : nat) :
  forallb P (Z.of_nat <$> seq 0 n) = true -> forall i, 0 <= i < Z.of_nat n -> P i = true.
Proof.
  intros H i Hi. rewrite forallb_forall in H. apply H. apply list_elem_of_In, list_elem_of_fmap.
  exists (Z.to_nat i). split; [lia|]. apply elem_of_seq. lia.
Qed.

Lemma demo_valid_dir : valid_dir (demo_drive 1) 4158.
Proof.
  intros i Hi. cbv zeta.
  pose proof (all_below (fun i => (inode_block (demo_drive 1) 4158 i =? 0) || (inode_block (demo_drive 1) 4158 i =? 2))
    12 ltac:(by vm_compute) i Hi) as Hb. cbv beta in Hb.
  apply orb_true_iff in Hb as [Hb|Hb]; apply Z.eqb_eq in Hb; rewrite Hb; (split; [lia|]); [done|].
  intros _ j Hj _. exists 1. split; [lia|].
  apply (all_below (fun j => demo_drive 1 (dirent_name (4096 * 2 + 32 * j) + 1) =? 0) 128 ltac:(by vm_compute)) in Hj.
  by apply Z.eqb_eq.
Qed.

Lemma demo_valid_file : valid_file (demo_drive 1) 4282.
Proof.
  split; [by vm_compute|]. intros i Hi Hl. change (inode_length (demo_drive 1) 4282) with 5 in Hl.
  replace i with 0 by lia. by vm_compute.
Qed.

Lemma read_hard_disk_correct_witness :
  exists d', read_hard_disk (St := bump) true demo_drive demo_device 500 12289 3 1 = Ok d' /\ copied (d_mem d') 500 (demo_drive 1) 12289 3.
Proof.
  destruct (read_hard_disk_correct (St := bump) true demo_drive demo_drive_bytes demo_blocks demo_device 500 12289 3
    demo_ready) as (d' & E & _ & _ & Hc); try lia; [by apply demo_reserved; lia|by exists d'].
Defined.

(** What the lookup of ["a"] finds. *)
Lemma demo_lookup : lookup_file demo_drive 100 demo_device [97] = Some 3.
Proof. by vm_compute. Qed.
Lemma demo_found n : lookup_file demo_drive 100 demo_device [97] = Some n ->
  0 <= n /\ inode_at 100 demo_device n + 600 < 4294967296 /\ valid_file (demo_drive 1) (inode_at 100 demo_device n).
Proof. rewrite demo_lookup. intros [= <-]. split; [lia|]. split; [by vm_compute|apply demo_valid_file]. Qed.

Lemma read_file_correct_witness :
  exists d', read_file (St := bump) true demo_drive 28 100 200 300 demo_device 400 500 1 100 = Ok (4, d') /\
    d_mem d' 500 = 101 /\ d_mem d' 503 = 111.
Proof.
  pose proof (read_file_correct (St := bump) true demo_drive demo_drive_bytes 28 100 200 300 demo_blocks demo_device
    400 500 1 100 [97] ltac:(lia) demo_layout ltac:(by vm_compute) (fun _ => demo_valid_dir) ltac:(lia) ltac:(lia)
    ltac:(lia) ltac:(lia) ltac:(apply demo_reserved; lia) ltac:(unfold disjoint_from; lia) demo_found) as Hr. cbv zeta in Hr.
  apply bump_served in Hr as (a & d' & _ & Hr). rewrite demo_lookup in Hr.
  change (inode_at 100 demo_device 3) with 4282 in Hr.
  change (inode_length (demo_drive 1) 4282) with 5 in Hr. change (if 1 >=? 5 then 0 else Z.min 100 (5 - 1)) with 4 in Hr.
  destruct Hr as (E2 & _ & Hd).
  exists d'. split; [exact E2|]. split; [apply (Hd 0); lia|apply (Hd 3); lia].
Defined.

Lemma stat_file_correct_witness :
  exists d', stat_file (St := bump) true demo_drive 28 100 200 300 demo_device 400 600 = Ok (0, d') /\ load32 (d_mem d') 600 = 5.
Proof.
  pose proof (stat_file_correct (St := bump) true demo_drive demo_drive_bytes 28 100 200 300 demo_blocks demo_device
    400 600 [97] ltac:(lia) demo_layout ltac:(by vm_compute) (fun _ => demo_valid_dir)
    (fun n H => conj (proj1 (demo_found n H)) (proj1 (proj2 (demo_found n H))))) as Hr. cbv zeta in Hr.
  apply bump_served in Hr as (a & d' & _ & Hr). rewrite demo_lookup in Hr. destruct Hr as (E2 & Hd & _).
  change (inode_at 100 demo_device 3) with 4282 in Hd. change (inode_length (demo_drive 1) 4282) with 5 in Hd. exists d'. split; [exact E2|exact Hd].
Defined.
