(* ===== verification/Image.v ===== *)
(** The tools that build the disk image on the host: [src/user/fs/mkfs.c],
    [src/user/fs/fs_inject.c] and [src/user/fs/write_disk_image.c], with the
    layout of [src/src/include/fs/ext2_fs.h].  The host's [FILE] is its bytes,
    its length and its position; input and output do not fail, and a read past
    the end is short. *)
From S2P Require Import Prelude Memory Disk.

(** ** Files of the host *)
Record file : Type := mk_file { f_bytes : mem; f_size : Z; f_pos : Z }.

(** [fseek(f, off, SEEK_SET)] *)
Definition fseek (f : file) (off : Z) : file := mk_file (f_bytes f) (f_size f) off.

(** [fread] of [n] bytes into [buf] at [a]: as many as there are. *)
Definition fread (f : file) (buf : mem) (a n : Z) : mem * file :=
  let got := Z.max 0 (Z.min n (f_size f - f_pos f)) in
  (fun x => if (a <=? x) && (x <? a + got) then f_bytes f (f_pos f + (x - a)) else buf x,
   mk_file (f_bytes f) (f_size f) (f_pos f + got)).

(** [fwrite] of the [n] bytes of [buf] at [a]; a gap before the position reads as zeros. *)
Definition fwrite (f : file) (buf : mem) (a n : Z) : file :=
  if n <=? 0 then f
  else mk_file
    (fun x => if (f_pos f <=? x) && (x <? f_pos f + n) then buf (a + (x - f_pos f))
              else if (f_size f <=? x) && (x <? f_pos f) then 0 else f_bytes f x)
    (Z.max (f_size f) (f_pos f + n)) (f_pos f + n).

(** A file just opened, with these bytes. *)
Definition list_mem (l : list Z) : mem := fun x => if x <? 0 then 0 else nth (Z.to_nat x) l 0.
Definition file_of (l : list Z) : file := mk_file (list_mem l) (Z.of_nat (length l)) 0.

(** ** Structures in local variables, at address 0 *)
Definition zeroed : mem := fun _ => 0.
Definition store16 (m : mem) (a v : Z) : mem := store8 (store8 m a v) (a + 1) (v / 256).
Fixpoint store_words (m : mem) (a : Z) (l : list Z) : mem :=
  match l with
  | [] => m
  | v :: l => store_words (store32 m a v) (a + 4) l
  end.

(** [superblock_t] *)
Definition inode_bitmap_blk (m : mem) (sb : Z) : Z := load32 m (sb + 8).
Definition data_bitmap_blk (m : mem) (sb : Z) : Z := load32 m (sb + 12).
Definition data_blocks_start (m : mem) (sb : Z) : Z := load32 m (sb + 20).
Definition make_superblock (magic total_blocks inode_bitmap data_bitmap inode_table data_start : Z) : mem :=
  store_words zeroed 0 [magic; total_blocks; inode_bitmap; data_bitmap; inode_table; data_start].

(** [inode_t] *)
Definition FS_FILE : Z := 1.
Definition make_inode (type size : Z) (blocks : list Z) : mem :=
  store_words (store32 (store16 zeroed 0 type) 2 size) 6 blocks.

(** [strncpy] of a string, given without its null. *)
Definition strncpy (m : mem) (dest : Z) (s : list Z) (n : Z) : mem :=
  fun x => if (dest <=? x) && (x <? dest + n) then nth (Z.to_nat (x - dest)) s 0 else m x.

(** [dirent_t], from an initialiser. *)
Definition make_dirent (inode_num : Z) (name : list Z) : mem :=
  strncpy (store32 zeroed 0 inode_num) 4 name 28.

(** ** [mkfs.c] *)
Definition FS_MAGIC : Z := 2291772091.

(** The body of [main], on the image it has opened. *)
Definition mkfs (disk : file) : file :=
  let sb := make_superblock FS_MAGIC 25600 1 2 3 103 in
  let disk := fwrite (fseek disk 0) sb 0 superblock_size in
  let inode_bitmap := store8 zeroed 0 3 in
  let data_bitmap := store8 zeroed 0 1 in
  let disk := fwrite (fseek disk (u32 (inode_bitmap_blk sb 0 * FS_BLOCK_SIZE))) inode_bitmap 0 FS_BLOCK_SIZE in
  let disk := fwrite (fseek disk (u32 (data_bitmap_blk sb 0 * FS_BLOCK_SIZE))) data_bitmap 0 FS_BLOCK_SIZE in
  let root_inode := make_inode FS_DIR FS_BLOCK_SIZE [data_blocks_start sb 0] in
  let disk := fwrite (fseek disk (u32 (inode_table_blk sb 0 * FS_BLOCK_SIZE) + inode_size)) root_inode 0 inode_size in
  let disk := fwrite (fseek disk (u32 (data_blocks_start sb 0 * FS_BLOCK_SIZE))) zeroed 0 FS_BLOCK_SIZE in
  let d1 := make_dirent 1 [46] in
  let d2 := make_dirent 1 [46; 46] in
  let disk := fseek disk (u32 (data_blocks_start sb 0 * FS_BLOCK_SIZE)) in
  let disk := fwrite disk d1 0 dirent_size in
  fwrite disk d2 0 dirent_size.

(** [main]: the exit status, and the image. *)
Definition mkfs_main (img : option file) : Z * option file :=
  match img with
  | None => (1, None)
  | Some disk => (0, Some (mkfs disk))
  end.

(** ** [fs_inject.c] *)

(** [(bitmap[i / 8] & (1 << i % 8)) == 0], and setting that bit. *)
Definition map_clear (map : mem) (i : Z) : bool :=
  Z.land (load8 map (i / 8)) (Z.shiftl 1 (i mod 8)) =? 0.
Definition map_set (map : mem) (i : Z) : mem :=
  store8 map (i / 8) (Z.lor (load8 map (i / 8)) (Z.shiftl 1 (i mod 8))).

(** The loop of [find_free_blocks] from bit [i]; [allocated] is the array so far. *)
Fixpoint find_free_loop (n : nat) (i : Z) (start : Z) (data_bitmap : mem) (allocated : list Z) (blocks_needed : Z)
    : mem * list Z :=
  match n with
  | O => (data_bitmap, allocated)
  | S n =>
      if Z.of_nat (length allocated) <? blocks_needed then
        if map_clear data_bitmap i then
          find_free_loop n (i + 1) start (map_set data_bitmap i) (allocated ++ [u32 (start + i)]) blocks_needed
        else find_free_loop n (i + 1) start data_bitmap allocated blocks_needed
      else (data_bitmap, allocated)
  end.

(** [find_free_blocks]: [None] is [NULL]. *)
Definition find_free_blocks (sb data_bitmap : mem) (blocks_needed : Z) : mem * option (list Z) :=
  let '(map, allocated) :=
    find_free_loop (Z.to_nat (FS_BLOCK_SIZE * 8)) 0 (data_blocks_start sb 0) data_bitmap [] blocks_needed in
  if Z.of_nat (length allocated) <? blocks_needed then (map, None) else (map, Some allocated).

(** The loop of [get_free_inode_num]. *)
Fixpoint free_inode_loop (n : nat) (i : Z) (inode_bitmap : mem) : mem * option Z :=
  match n with
  | O => (inode_bitmap, None)
  | S n =>
      if map_clear inode_bitmap i then (map_set inode_bitmap i, Some i)
      else free_inode_loop n (i + 1) inode_bitmap
  end.

(** [get_free_inode_num]: [None] is -1. *)
Definition get_free_inode_num (inode_bitmap : mem) : mem * option Z :=
  free_inode_loop (Z.to_nat (FS_BLOCK_SIZE * 8)) 0 inode_bitmap.

(** What the tools print when something is wrong. *)
Inductive message : Type :=
  | FailedToOpen | TooLarge | NotEnoughBlocks | FailedToAllocate | RootFull.

Section INJECT.
(** What uninitialised variables and new heap blocks hold. *)
Context (uninit : mem).

(** The superblock read at the head of every function. *)
Definition read_superblock (disk_fp : file) : mem * file :=
  fread (fseek disk_fp 0) uninit 0 superblock_size.

(** [write_inode_to_disk] *)
Definition write_inode_to_disk (disk_fp : file) (inode_num : Z) (new_inode : mem) : file :=
  let '(sb, disk_fp) := read_superblock disk_fp in
  let inode_offset := u32 (u32 (inode_table_blk sb 0 * FS_BLOCK_SIZE) + inode_num * inode_size) in
  fwrite (fseek disk_fp inode_offset) new_inode 0 inode_size.

(** The loop of [add_dirent_to_root] from entry [i]. *)
Fixpoint dirent_loop (n : nat) (i : Z) (disk_fp : file) (entry : mem) (root_data_blk : Z) (name : list Z) (inode_num : Z)
    : file * list message :=
  match n with
  | O => (disk_fp, [RootFull])
  | S n =>
      let '(entry, disk_fp) := fread disk_fp entry 0 dirent_size in
      if dirent_inode entry 0 =? 0 then
        let entry := store32 entry 0 inode_num in
        let entry := strncpy entry (dirent_name 0) name 27 in
        let entry := store8 entry (dirent_name 0 + 27) 0 in
        let disk_fp := fseek disk_fp (u32 (root_data_blk * FS_BLOCK_SIZE) + i * dirent_size) in
        (fwrite disk_fp entry 0 dirent_size, [])
      else dirent_loop n (i + 1) disk_fp entry root_data_blk name inode_num
  end.

(** [add_dirent_to_root] *)
Definition add_dirent_to_root (disk_fp : file) (name : list Z) (inode_num : Z) : file * list message :=
  let '(sb, disk_fp) := read_superblock disk_fp in
  let root_inode_offset := u32 (u32 (inode_table_blk sb 0 * FS_BLOCK_SIZE) + 1 * inode_size) in
  let '(root_inode, disk_fp) := fread (fseek disk_fp root_inode_offset) uninit 0 inode_size in
  let root_data_blk := inode_block root_inode 0 0 in
  let disk_fp := fseek disk_fp (u32 (root_data_blk * FS_BLOCK_SIZE)) in
  dirent_loop (Z.to_nat (FS_BLOCK_SIZE / dirent_size)) 0 disk_fp uninit root_data_blk name inode_num.

(** The loop of [inject_file] that writes the data, over the blocks allocated. *)
Fixpoint write_blocks (l : list Z) (i : Z) (disk_fp : file) (buffer : mem) (blocks_needed file_size : Z) : file :=
  match l with
  | [] => disk_fp
  | b :: l =>
      let disk_offset := u32 (b * FS_BLOCK_SIZE) in
      let write_size :=
        if (i =? u32 (blocks_needed - 1)) && negb (file_size mod FS_BLOCK_SIZE =? 0)
        then file_size mod FS_BLOCK_SIZE else FS_BLOCK_SIZE in
      let disk_fp := fwrite (fseek disk_fp disk_offset) buffer (u32 (i * FS_BLOCK_SIZE)) write_size in
      write_blocks l (i + 1) disk_fp buffer blocks_needed file_size
  end.

(** [blocks_needed] of [inject_file], computed in 32 bits. *)
Definition blocks_for (file_size : Z) : Z := u32 (file_size + FS_BLOCK_SIZE - 1) / FS_BLOCK_SIZE.

(** [inject_file]; [external] is the file [external_path] opens, if any. *)
Definition inject_file (disk_fp : file) (external : option file) (internal_name : list Z) : file * list message :=
  match external with
  | None => (disk_fp, [FailedToOpen])
  | Some ext_fp =>
      let file_size := u32 (f_size ext_fp) in
      let '(buffer, _) := fread (fseek ext_fp 0) uninit 0 file_size in
      let blocks_needed := blocks_for file_size in
      if blocks_needed >? 12 then (disk_fp, [TooLarge])
      else
        let '(sb, disk_fp) := read_superblock disk_fp in
        let disk_fp := fseek disk_fp (u32 (data_bitmap_blk sb 0 * FS_BLOCK_SIZE)) in
        let '(data_bitmap, disk_fp) := fread disk_fp uninit 0 FS_BLOCK_SIZE in
        let disk_fp := fseek disk_fp (u32 (inode_bitmap_blk sb 0 * FS_BLOCK_SIZE)) in
        let '(inode_bitmap, disk_fp) := fread disk_fp uninit 0 FS_BLOCK_SIZE in
        let '(data_bitmap, allocated) := find_free_blocks sb data_bitmap blocks_needed in
        let '(inode_bitmap, new_inode_num) := get_free_inode_num inode_bitmap in
        match allocated, new_inode_num with
        | Some allocated_blocks, Some new_inode_num =>
            let disk_fp := fseek disk_fp (u32 (data_bitmap_blk sb 0 * FS_BLOCK_SIZE)) in
            let disk_fp := fwrite disk_fp data_bitmap 0 FS_BLOCK_SIZE in
            let disk_fp := fseek disk_fp (u32 (inode_bitmap_blk sb 0 * FS_BLOCK_SIZE)) in
            let disk_fp := fwrite disk_fp inode_bitmap 0 FS_BLOCK_SIZE in
            let disk_fp := write_blocks allocated_blocks 0 disk_fp buffer blocks_needed file_size in
            let new_inode := make_inode FS_FILE file_size allocated_blocks in
            let disk_fp := write_inode_to_disk disk_fp new_inode_num new_inode in
            add_dirent_to_root disk_fp internal_name new_inode_num
        | None, _ => (disk_fp, [NotEnoughBlocks; FailedToAllocate])
        | Some _, None => (disk_fp, [FailedToAllocate])
        end
  end.

(** The characters [printf("%s")] reads, in a block that ends after [n] more. *)
Fixpoint printed (n : nat) (m : mem) (a : Z) : res (list Z) :=
  match n with
  | O => Err Fault
  | S n => if m a =? 0 then Ok [] else let! s := printed n m (a + 1) in Ok (m a :: s)
  end.

(** [print_files_in_root]: the lines it prints, a name and an inode number each,
    and the number of files. *)
Definition print_files_in_root (disk_img : file) : res (list (list Z * Z) * Z * file) :=
  let '(sb, disk_img) := read_superblock disk_img in
  let disk_img := fseek disk_img (u32 (inode_table_blk sb 0 * FS_BLOCK_SIZE) + 1 * inode_size) in
  let '(root_inode, disk_img) := fread disk_img uninit 0 inode_size in
  let disk_img := fseek disk_img (u32 (inode_block root_inode 0 0 * FS_BLOCK_SIZE)) in
  let '(block, disk_img) := fread disk_img uninit 0 FS_BLOCK_SIZE in
  let! (lines, count) := for_loop (Z.to_nat (FS_BLOCK_SIZE / dirent_size)) 0 (fun i '(lines, count) =>
    let entry := i * dirent_size in
    if dirent_inode block entry =? 0 then Ok (lines, count)
    else
      let! name := printed (Z.to_nat (FS_BLOCK_SIZE - dirent_name entry)) block (dirent_name entry) in
      Ok (lines ++ [(name, s32 (dirent_inode block entry))], count + 1)) ([], 0) in
  Ok (lines, count, disk_img).

(** ** [write_disk_image.c] *)

(** The names of the files to write, in arrays of 256. *)
Fixpoint collect (entries : list (list Z)) (file_names : list (list Z)) : res (list (list Z)) :=
  match entries with
  | [] => Ok file_names
  | d_name :: entries =>
      if decide (d_name = [46]) then collect entries file_names
      else if decide (d_name = [46; 46]) then collect entries file_names
      else if 256 <=? Z.of_nat (length file_names) then Err Fault
      else collect entries (file_names ++ [d_name])
  end.

(** Injects the files one after the other; [host] opens a file of the host by its path. *)
Definition file_path (dir_path file_name : list Z) : list Z := dir_path ++ [47] ++ file_name.
Fixpoint inject_all (host : list Z -> option (list Z)) (dir_path : list Z) (file_names : list (list Z)) (image_file : file)
    : file * list message :=
  match file_names with
  | [] => (image_file, [])
  | file_name :: file_names =>
      let '(image_file, m1) := inject_file image_file (file_of <$> host (file_path dir_path file_name)) file_name in
      let '(image_file, m2) := inject_all host dir_path file_names image_file in
      (image_file, m1 ++ m2)
  end.

(** [main]: what it prints at the end, its messages, and the image. *)
Definition write_disk_image (dir_path : list Z) (opendir : option (list (list Z))) (host : list Z -> option (list Z))
    (img : option file) : res (option (list (list Z * Z) * Z * list message * file)) :=
  let! file_names := match opendir with Some entries => collect entries [] | None => Ok [] end in
  match img with
  | None => Ok None
  | Some image_file =>
      let '(image_file, messages) := inject_all host dir_path file_names image_file in
      let! (lines, count, image_file) := print_files_in_root image_file in
      Ok (Some (lines, count, messages, image_file))
  end.

End INJECT.
