(* ===== verification/ImageSpec.v ===== *)
(** What the image tools build: the abstract file system an image represents, and
    the lemmas on the steps of [inject_file]. *)
From S2P Require Import Prelude BitMap Memory StringsSpec Disk DiskSpec Image.

(** ** The abstract file system *)

(** A file in the root directory, with its inode and its first data block. *)
Record afile : Type := mk_afile {
  af_name : list Z;
  af_inode : Z;
  af_start : Z;
  af_data : list Z
}.

(** Inodes and data blocks are handed out in order and never taken back. *)
Record afs : Type := mk_afs {
  a_inodes : Z;
  a_blocks : Z;
  a_files : list afile
}.

(** The file system of a new image. *)
Definition fresh_fs : afs := mk_afs 2 1 [].

Definition size_of (data : list Z) : Z := Z.of_nat (length data).
Definition need (data : list Z) : Z := (size_of data + 4095) / 4096.


Lemma need_bound data : 0 <= need data /\ size_of data <= 4096 * need data.
Proof. unfold need, size_of. zdiv. Qed.

(** [inject_file] on the abstract file system. *)
Definition fs_inject (a : afs) (external : option (list Z)) (name : list Z) : afs * list message :=
  match external with
  | None => (a, [FailedToOpen])
  | Some data =>
      if 12 <? need data then (a, [TooLarge])
      else if 32768 <? a_blocks a + need data then (a, [NotEnoughBlocks; FailedToAllocate])
      else if 32768 <=? a_inodes a then (a, [FailedToAllocate])
      else
        let taken := mk_afs (a_inodes a + 1) (a_blocks a + need data) in
        if (length (a_files a) <? 126)%nat
        then (taken (a_files a ++ [mk_afile (take 27 name) (a_inodes a) (a_blocks a) data]), [])
        else (taken (a_files a), [RootFull])
  end.

(** The entries of the root directory. *)
Definition root_entries (a : afs) : list (list Z * Z) :=
  ([46], 1) :: ([46; 46], 1) :: ((fun f => (af_name f, af_inode f)) <$> a_files a).

(** ** Images *)

(** The bits from [base] on: those below [c] are set. *)
Definition prefix_map (m : mem) (base c : Z) : Prop :=
  forall i, 0 <= i < 32768 -> Z.testbit (m (base + i / 8)) (i mod 8) = (i <? c).

Definition inode_pos (n : Z) : Z := 12288 + 62 * n.
Definition inode_is (D : mem) (n type size : Z) (blocks : list Z) : Prop :=
  inode_type D (inode_pos n) = type /\ inode_length D (inode_pos n) = size /\
  forall i, 0 <= i < 14 -> inode_block D (inode_pos n) i = nth (Z.to_nat i) blocks 0.

(** The root directory is data block 103. *)
Definition entry_pos (j : Z) : Z := 421888 + 32 * j.
Definition entry_is (D : mem) (j : Z) (e : option (list Z * Z)) : Prop :=
  match e with
  | Some (name, n) =>
      dirent_inode D (entry_pos j) = n /\ cstring 28 D (dirent_name (entry_pos j)) = name /\ D (entry_pos j + 31) = 0
  | None => dirent_inode D (entry_pos j) = 0
  end.

Definition block_pos (b : Z) : Z := 4096 * (103 + b).
Definition file_blocks (f : afile) : list Z := seqZ (103 + af_start f) (need (af_data f)).

(** The inodes that the inode table, 100 blocks, has room for. *)
Definition table_inodes : Z := 6606.

(** A file's inode and data are within what has been handed out, and the inode is in the table. *)
Record file_ok (f : file) (a : afs) (x : afile) : Prop := {
  fo_inode : 2 <= af_inode x < a_inodes a /\ af_inode x < table_inodes;
  fo_start : 1 <= af_start x /\ af_start x + need (af_data x) <= a_blocks a;
  fo_need : need (af_data x) <= 12;
  fo_is : inode_is (f_bytes f) (af_inode x) FS_FILE (size_of (af_data x)) (file_blocks x);
  fo_end : block_pos (af_start x) + size_of (af_data x) <= f_size f \/ size_of (af_data x) = 0;
  fo_data : holds (f_bytes f) (block_pos (af_start x)) (af_data x)
}.

(** The superblock [mkfs] writes. *)
Definition super_ok (D : mem) : Prop :=
  inode_bitmap_blk D 0 = 1 /\ data_bitmap_blk D 0 = 2 /\ inode_table_blk D 0 = 3 /\ data_blocks_start D 0 = 103.

(** An image with the file system [a], apart from the bitmaps. *)
Record core (f : file) (a : afs) : Prop := {
  co_size : 425984 <= f_size f;
  co_bytes : bytes_ok (f_bytes f);
  co_super : super_ok (f_bytes f);
  co_root : inode_is (f_bytes f) 1 FS_DIR 4096 [103];
  co_entries : forall j, 0 <= j < 128 -> entry_is (f_bytes f) j (root_entries a !! Z.to_nat j);
  co_files : Forall (file_ok f a) (a_files a);
  co_inodes : 2 <= a_inodes a <= 32768;
  co_blocks : 1 <= a_blocks a <= 32768;
  co_count : (length (a_files a) <= 126)%nat
}.

(** An image with the file system [a]. *)
Record represents (f : file) (a : afs) : Prop := {
  rp_core : core f a;
  rp_imap : prefix_map (f_bytes f) 4096 (a_inodes a);
  rp_dmap : prefix_map (f_bytes f) 8192 (a_blocks a)
}.

(** ** Files that differ in a part *)

(** Outside [R], what [f] has is in [f'] too. *)
Definition same_but (R : Z -> Prop) (f f' : file) : Prop :=
  f_size f <= f_size f' /\ forall x, x < f_size f -> ~ R x -> f_bytes f' x = f_bytes f x.

Definition in_range (a n x : Z) : Prop := a <= x < a + n.

Lemma same_but_refl R f : same_but R f f.
Proof. by split. Qed.

Lemma same_but_trans (R S T : Z -> Prop) f g h :
  same_but R f g -> same_but S g h -> (forall x, R x -> T x) -> (forall x, S x -> T x) -> same_but T f h.
Proof.
  intros [H1 H2] [H3 H4] HR HS. split; [lia|]. intros x Hx Hn. rewrite H4; [apply H2|..]; auto; lia.
Qed.

Lemma same_but_weaken (R S : Z -> Prop) f g : same_but R f g -> (forall x, R x -> S x) -> same_but S f g.
Proof. intros [H1 H2] HS. split; [done|]. intros x Hx Hn. apply H2; auto. Qed.

Lemma fread_ok f buf a n :
  0 <= f_pos f -> f_pos f + n <= f_size f -> 0 <= n ->
  exists m, fread f buf a n = (m, fseek f (f_pos f + n)) /\ copied m a (f_bytes f) (f_pos f) n /\
    (bytes_ok (f_bytes f) -> bytes_ok buf -> bytes_ok m).
Proof.
  intros Hp Hs Hn. unfold fread. rewrite Z.min_l, Z.max_r by lia. eexists. split; [done|]. split.
  - intros i Hi. rewrite (proj2 (Z.leb_le a (a + i))), (proj2 (Z.ltb_lt (a + i) (a + n))) by lia. cbn. f_equal. lia.
  - intros H1 H2 x. cbn beta. by destruct (_ && _).
Qed.

Lemma fwrite_ok f buf a n :
  0 < n -> 0 <= f_pos f ->
  let g := fwrite f buf a n in
  same_but (in_range (f_pos f) n) f g /\ copied (f_bytes g) (f_pos f) buf a n /\
  f_pos f + n <= f_size g /\ f_pos g = f_pos f + n /\ 
  (bytes_ok (f_bytes f) -> (forall i, 0 <= i < n -> 0 <= buf (a + i) < 256) -> bytes_ok (f_bytes g)).
Proof.
  intros Hn Hp. cbv zeta. unfold fwrite. replace (n <=? 0) with false by (symmetry; zbool). cbn.
  split; [|split; [|split; [lia|split; [lia|]]]].
  - split; [cbn; lia|]. cbn. intros x Hx Hr. unfold in_range in Hr.
    destruct (Z.leb_spec (f_pos f) x), (Z.ltb_spec x (f_pos f + n)); cbn; try lia;
      destruct (Z.leb_spec (f_size f) x), (Z.ltb_spec x (f_pos f)); cbn; (done || lia).
  - intros i Hi. cbn.
    rewrite (proj2 (Z.leb_le _ (f_pos f + i))), (proj2 (Z.ltb_lt (f_pos f + i) _)) by lia. cbn. f_equal. lia.
  - intros H1 H2 x. cbn beta.
    destruct (Z.leb_spec (f_pos f) x), (Z.ltb_spec x (f_pos f + n)); cbn;
      try (destruct (_ && _); [lia|apply H1]). apply H2. lia.
Qed.

(** ** What a part that is left alone still holds *)
Lemma load32_agree (D D' : mem) a : (forall x, in_range a 4 x -> D' x = D x) -> load32 D' a = load32 D a.
Proof. intros H. unfold load32. by rewrite !H by (unfold in_range; lia). Qed.

Lemma prefix_agree D D' base c :
  (forall x, in_range base 4096 x -> D' x = D x) -> prefix_map D base c -> prefix_map D' base c.
Proof. intros H Hp i Hi. rewrite H; [by apply Hp|]. unfold in_range. zdiv. Qed.

Lemma inode_agree D D' n type size blocks :
  (forall x, in_range (inode_pos n) 62 x -> D' x = D x) -> inode_is D n type size blocks -> inode_is D' n type size blocks.
Proof.
  intros H (H1 & H2 & H3). split; [|split].
  - rewrite <- H1. unfold inode_type, load16. by rewrite !H by (unfold in_range; lia).
  - rewrite <- H2. apply load32_agree. intros x Hx. apply H. unfold in_range in *. lia.
  - intros i Hi. rewrite <- H3 by done. apply load32_agree. intros x Hx. apply H. unfold in_range in *. lia.
Qed.

Lemma cstring_agree n : forall D D' a,
  (forall x, in_range a (Z.of_nat n) x -> D' x = D x) -> cstring n D' a = cstring n D a.
Proof.
  induction n as [|n IH]; intros D D' a H; [done|]. cbn [cstring]. rewrite H by (unfold in_range; lia).
  destruct (D a =? 0); [done|]. f_equal. apply IH. intros x Hx. apply H. unfold in_range in *. lia.
Qed.

Lemma entry_agree D D' j e :
  (forall x, in_range (entry_pos j) 32 x -> D' x = D x) -> entry_is D j e -> entry_is D' j e.
Proof.
  intros H. unfold entry_is, dirent_inode, dirent_name.
  rewrite (load32_agree D D') by (intros x Hx; apply H; unfold in_range in *; lia).
  rewrite (H (entry_pos j + 31)) by (unfold in_range; lia).
  rewrite (cstring_agree 28 D D' (entry_pos j + 4)) by (intros x Hx; apply H; unfold in_range in *; lia). done.
Qed.

Lemma super_agree D D' : (forall x, in_range 0 24 x -> D' x = D x) -> super_ok D -> super_ok D'.
Proof.
  intros H. unfold super_ok, inode_bitmap_blk, data_bitmap_blk, inode_table_blk, data_blocks_start.
  by rewrite !(load32_agree D D') by (intros x Hx; apply H; unfold in_range in *; lia).
Qed.

Lemma holds_agree D D' a l :
  (forall x, in_range a (Z.of_nat (length l)) x -> D' x = D x) -> holds D a l -> holds D' a l.
Proof.
  intros H Hh i c Hi. rewrite H; [by apply Hh|]. apply lookup_lt_Some in Hi. unfold in_range. lia.
Qed.

(** ** Bitmaps *)
Lemma testbit_shl1 k j : 0 <= k -> Z.testbit (Z.shiftl 1 k) j = (j =? k).
Proof.
  intros Hk. rewrite Z.shiftl_1_l, Z.pow2_bits_eqb by done. apply Z.eqb_sym.
Qed.

Lemma map_clear_bit m i : map_clear m i = negb (Z.testbit (m (i / 8)) (i mod 8)).
Proof.
  unfold map_clear, load8. assert (0 <= i mod 8) as Hk by zdiv. destruct (Z.testbit _ _) eqn:E; cbn.
  - apply Z.eqb_neq. intros H0.
    assert (Z.testbit (Z.land (m (i / 8)) (Z.shiftl 1 (i mod 8))) (i mod 8) = true) as H1
      by (by rewrite Z.land_spec, E, testbit_shl1, Z.eqb_refl).
    by rewrite H0, Z.bits_0 in H1.
  - apply Z.eqb_eq, Z.bits_inj'. intros j Hj. rewrite Z.land_spec, Z.bits_0, testbit_shl1 by done.
    destruct (Z.eqb_spec j (i mod 8)) as [->|]; [by rewrite E|apply andb_false_r].
Qed.

Lemma map_set_bit m i j :
  0 <= i -> 0 <= j ->
  Z.testbit (map_set m i (j / 8)) (j mod 8) = (j =? i) || Z.testbit (m (j / 8)) (j mod 8).
Proof.
  intros Hi Hj. unfold map_set, load8. assert (0 <= i mod 8 < 8 /\ 0 <= j mod 8 < 8) as [Hk Hk'] by zdiv.
  destruct (decide (j / 8 = i / 8)) as [E|E].
  - rewrite E, store8_eq. unfold u8. change 256 with (2 ^ 8). rewrite Z.mod_pow2_bits_low by lia.
    rewrite Z.lor_spec, testbit_shl1, orb_comm by lia. f_equal.
    destruct (Z.eqb_spec j i) as [->|]; [by apply Z.eqb_eq|apply Z.eqb_neq; zdiv].
  - rewrite store8_ne by done. destruct (Z.eqb_spec j i) as [->|]; done.
Qed.

(** The bitmap of the first [c] bits, and what setting the next gives. *)
Lemma prefix_clear m c i : prefix_map m 0 c -> 0 <= i < 32768 -> map_clear m i = negb (i <? c).
Proof. intros Hp Hi. rewrite map_clear_bit. by rewrite <- (Hp i Hi). Qed.

Lemma prefix_set m c : prefix_map m 0 c -> 0 <= c -> prefix_map (map_set m c) 0 (c + 1).
Proof.
  intros Hp Hc i Hi. rewrite Z.add_0_l, map_set_bit by lia. rewrite <- (Z.add_0_l (i / 8)), Hp by done.
  destruct (Z.eqb_spec i c), (Z.ltb_spec i c), (Z.ltb_spec i (c + 1)); done || lia.
Qed.

Lemma prefix_copied m D base c : copied m 0 D base 4096 -> prefix_map D base c <-> prefix_map m 0 c.
Proof.
  intros Hc. assert (forall i, 0 <= i < 32768 -> m (0 + i / 8) = D (base + i / 8)) as H.
  { intros i Hi. apply Hc. zdiv. }
  split; intros Hp i Hi; [rewrite H by done|rewrite <- H by done]; by apply Hp.
Qed.

Lemma prefix_written m D base c : copied D base m 0 4096 -> prefix_map m 0 c -> prefix_map D base c.
Proof. intros Hc Hp i Hi. rewrite Hc by zdiv. by apply Hp. Qed.

Definition bytes_in (m : mem) (n : Z) : Prop := forall x, 0 <= x < n -> 0 <= m x < 256.

Lemma bytes_set m i n : bytes_in m n -> bytes_in (map_set m i) n.
Proof.
  intros H x Hx. unfold map_set, store8. destruct (x =? i / 8); [apply u8_range|by apply H].
Qed.

(** [find_free_blocks] takes the next blocks, if there are as many. *)
Lemma find_free_loop_ok n : forall i start m c l k,
  i + Z.of_nat n = 32768 -> 0 <= i <= c -> c <= 32768 -> 0 <= start < 1000 -> 0 <= k ->
  prefix_map m 0 c -> bytes_in m 4096 ->
  let r := find_free_loop n i start m l (Z.of_nat (length l) + k) in
  if 32768 <? c + k then Z.of_nat (length (snd r)) < Z.of_nat (length l) + k
  else snd r = l ++ seqZ (start + c) k /\ prefix_map (fst r) 0 (c + k) /\ bytes_in (fst r) 4096.
Proof.
  induction n as [|n IH]; intros i start m c l k Hn Hi Hc Hs Hk Hp Hb; cbv zeta.
  - cbn [find_free_loop fst snd]. destruct (Z.ltb_spec 32768 (c + k)); [lia|].
    assert (k = 0) as -> by lia. by rewrite Z.add_0_r, app_nil_r.
  - cbn [find_free_loop]. destruct (Z.ltb_spec (Z.of_nat (length l)) (Z.of_nat (length l) + k)) as [Hlt|Hge].
    2: { assert (k = 0) as -> by lia. destruct (Z.ltb_spec 32768 (c + 0)); [lia|]. cbn [fst snd].
         by rewrite Z.add_0_r, app_nil_r. }
    rewrite (prefix_clear m c i Hp) by lia. destruct (Z.ltb_spec i c); cbn [negb].
    + apply IH; try done; lia.
    + assert (i = c) as -> by lia. rewrite u32_small by lia.
      pose proof (IH (c + 1) start (map_set m c) (c + 1) (l ++ [start + c]) (k - 1) ltac:(lia) ltac:(lia) ltac:(lia)
        ltac:(lia) ltac:(lia) (prefix_set _ _ Hp ltac:(lia)) (bytes_set _ _ _ Hb)) as IH'. cbv zeta in IH'.
      rewrite length_app in IH'. cbn [length] in IH'.
      replace (Z.of_nat (length l + 1) + (k - 1)) with (Z.of_nat (length l) + k) in IH' by lia.
      replace (c + 1 + (k - 1)) with (c + k) in IH' by lia.
      destruct (Z.ltb_spec 32768 (c + k)); [exact IH'|]. destruct IH' as (-> & H2 & H3).
      split; [|done]. rewrite (seqZ_cons (start + c)) by lia. rewrite <- app_assoc. cbn [app]. do 3 f_equal; lia.
Qed.

Lemma find_free_blocks_ok sb m c k :
  data_blocks_start sb 0 = 103 -> 0 <= c <= 32768 -> 0 <= k -> prefix_map m 0 c -> bytes_in m 4096 ->
  if 32768 <? c + k then exists m', find_free_blocks sb m k = (m', None)
  else exists m', find_free_blocks sb m k = (m', Some (seqZ (103 + c) k)) /\ prefix_map m' 0 (c + k) /\ bytes_in m' 4096.
Proof.
  intros Hs Hc Hk Hp Hb. unfold find_free_blocks. rewrite Hs. change (Z.to_nat (FS_BLOCK_SIZE * 8)) with (Z.to_nat 32768).
  pose proof (find_free_loop_ok (Z.to_nat 32768) 0 103 m c [] k ltac:(lia) ltac:(lia) ltac:(lia) ltac:(lia) Hk Hp Hb) as H.
  cbv zeta in H. cbn [length] in H. change (Z.of_nat 0 + k) with k in H.
  destruct (find_free_loop _ _ _ _ _ _) as [m' l]. cbn [fst snd] in H.
  destruct (32768 <? c + k).
  - rewrite (proj2 (Z.ltb_lt _ _)) by exact H. by exists m'.
  - destruct H as (-> & H). cbn [app]. rewrite length_seqZ. rewrite (proj2 (Z.ltb_ge _ _)) by lia. by exists m'.
Qed.

Lemma free_inode_loop_ok n : forall i m c,
  i + Z.of_nat n = 32768 -> 0 <= i <= c -> prefix_map m 0 c ->
  free_inode_loop n i m = if 32768 <=? c then (m, None) else (map_set m c, Some c).
Proof.
  induction n as [|n IH]; intros i m c Hn Hi Hp; cbn [free_inode_loop].
  - by rewrite (proj2 (Z.leb_le _ _)) by lia.
  - rewrite (prefix_clear m c i Hp) by lia. destruct (Z.ltb_spec i c); cbn [negb].
    + apply IH; [lia|lia|done].
    + assert (i = c) as -> by lia. by rewrite (proj2 (Z.leb_gt _ _)) by lia.
Qed.

(** ** The data *)
Lemma write_blocks_ok n : forall i f buffer b size,
  let k := (size + 4095) / 4096 in
  n = Z.to_nat (k - i) -> 0 <= i <= k -> 0 <= size -> k <= 12 -> 0 <= b < 1000000 -> 0 <= f_pos f ->
  bytes_ok (f_bytes f) -> bytes_in buffer size ->
  let g := write_blocks (seqZ (b + i) (k - i)) i f buffer k size in
  same_but (in_range (4096 * (b + i)) (size - 4096 * i)) f g /\ bytes_ok (f_bytes g) /\ 0 <= f_pos g /\
  (forall x, 4096 * i <= x < size -> f_bytes g (4096 * b + x) = buffer x) /\
  (i < k -> 4096 * b + size <= f_size g).
Proof.
  induction n as [|n IH]; intros i f buffer b size k Hn Hi Hs Hk Hb Hp Hby Hbuf; cbv zeta.
  - assert (i = k) as -> by lia. rewrite Z.sub_diag. cbn [seqZ write_blocks Z.to_nat].
    split; [apply same_but_refl|]. split; [done|]. split; [done|]. split; [|lia].
    intros x Hx. unfold k in Hx. zdiv.
  - assert (i < k) as Hik by lia. rewrite (seqZ_cons (b + i)) by lia. cbn [write_blocks].
    unfold FS_BLOCK_SIZE. rewrite (u32_small ((b + i) * 4096)), (u32_small (k - 1)), (u32_small (i * 4096)) by lia.
    set (ws := if _ && _ then _ else _).
    assert (ws = Z.min 4096 (size - 4096 * i) /\ 0 < ws) as [Hws Hws0].
    { unfold ws. destruct (Z.eqb_spec i (k - 1)) as [->|], (Z.eqb_spec (size mod 4096) 0); cbn [andb negb]; unfold k in *; zdiv. }
    destruct (fwrite_ok (fseek f ((b + i) * 4096)) buffer (i * 4096) ws Hws0) as (H1 & H2 & H3 & H4 & H5); [cbn; lia|].
    set (f1 := fwrite _ _ _ _) in *. cbn [f_pos fseek f_bytes] in *.
    destruct (IH (i + 1) f1 buffer b size) as (K1 & K2 & K3 & K4 & K5); try done; try lia.
    { apply H5; [done|]. intros x Hx. apply Hbuf. lia. }
    fold k in K1, K2, K3, K4, K5. replace (b + (i + 1)) with (Z.succ (b + i)) in K1, K2, K3, K4, K5 by lia.
    replace (k - (i + 1)) with (Z.pred (k - i)) in K1, K2, K3, K4, K5 by lia.
    split; [|split; [done|split; [done|split]]].
    + eapply same_but_trans; [exact H1|exact K1|unfold in_range; lia|unfold in_range; lia].
    + intros x Hx. destruct (decide (x < 4096 * (i + 1))) as [Hl|Hl]; [|apply K4; lia].
      destruct K1 as [_ K1]. rewrite K1; [|lia|unfold in_range; lia].
      replace (4096 * b + x) with ((b + i) * 4096 + (x - i * 4096)) by lia. rewrite H2 by lia. f_equal. lia.
    + intros _. destruct K1 as [K1 _]. destruct (decide (i + 1 < k)); [by apply K5|]. unfold k in *. zdiv.
Qed.

(** ** Structures written to the image *)
Lemma store_words_ne l : forall m a x, ~ (a <= x < a + 4 * Z.of_nat (length l)) -> store_words m a l x = m x.
Proof.
  induction l as [|v l IH]; intros m a x Hx; [done|]. cbn [store_words length] in *.
  rewrite IH by lia. apply store32_ne. lia.
Qed.

Lemma store_words_load l : forall m a i v,
  l !! i = Some v -> 0 <= v < 4294967296 -> load32 (store_words m a l) (a + 4 * Z.of_nat i) = v.
Proof.
  induction l as [|w l IH]; intros m a [|i] v Hi Hv; cbn in Hi; [done|done| |].
  - injection Hi as ->. cbn [store_words]. unfold load32. rewrite !store_words_ne by lia.
    rewrite Z.mul_0_r, Z.add_0_r. by apply load32_store32.
  - cbn [store_words]. rewrite <- (IH (store32 m a w) (a + 4) i v Hi Hv). f_equal. lia.
Qed.

Lemma store_words_bytes l : forall m a, bytes_ok m -> bytes_ok (store_words m a l).
Proof. induction l as [|v l IH]; intros m a H; [done|]. cbn [store_words]. apply IH. by repeat apply bytes_store8. Qed.

Lemma zeroed_bytes : bytes_ok zeroed.
Proof. intros x. unfold zeroed. lia. Qed.

Lemma make_inode_bytes type size blocks : bytes_ok (make_inode type size blocks).
Proof. apply store_words_bytes. repeat apply bytes_store8. apply zeroed_bytes. Qed.

Lemma make_inode_is type size blocks :
  0 <= type < 65536 -> 0 <= size < 4294967296 -> Forall (fun b => 0 <= b < 4294967296) blocks ->
  (length blocks <= 14)%nat ->
  let m := make_inode type size blocks in
  inode_type m 0 = type /\ inode_length m 0 = size /\
  forall i, 0 <= i < 14 -> inode_block m 0 i = nth (Z.to_nat i) blocks 0.
Proof.
  intros Ht Hs Hb Hl. cbv zeta. unfold make_inode, inode_type, inode_length, inode_block.
  split; [|split].
  - unfold load16. rewrite !store_words_ne by lia. rewrite !store32_ne by lia. unfold store16.
    rewrite store8_ne, store8_eq, Z.add_0_l, store8_eq by lia. unfold u8. zdiv.
  - unfold load32. rewrite !store_words_ne by lia. by apply load32_store32.
  - intros i Hi. destruct (blocks !! Z.to_nat i) as [v|] eqn:E.
    + rewrite (nth_lookup_Some _ _ _ _ E). rewrite Forall_lookup in Hb.
      rewrite <- (store_words_load blocks (store32 (store16 zeroed 0 type) 2 size) 6 _ _ E (Hb _ _ E)). f_equal. lia.
    + rewrite nth_lookup, E. cbn [default]. apply lookup_ge_None in E. unfold load32.
      rewrite !store_words_ne by lia. rewrite !store32_ne by lia. unfold store16. by rewrite !store8_ne by lia.
Qed.

(** An inode written at its place. *)
Lemma copied_inode_is D n m type size blocks :
  copied D (inode_pos n) m 0 62 ->
  inode_type m 0 = type /\ inode_length m 0 = size /\
    (forall i, 0 <= i < 14 -> inode_block m 0 i = nth (Z.to_nat i) blocks 0) ->
  inode_is D n type size blocks.
Proof.
  intros Hc (H1 & H2 & H3). unfold inode_is. split; [|split].
  - rewrite <- H1. unfold inode_type. rewrite <- (Z.add_0_r (inode_pos n)). apply (copied_load16 _ _ _ _ _ _ Hc); lia.
  - rewrite <- H2. unfold inode_length. apply (copied_load32 _ _ _ _ _ _ Hc); lia.
  - intros i Hi. rewrite <- H3 by done. unfold inode_block. rewrite <- !Z.add_assoc.
    rewrite (copied_load32 _ _ _ _ _ (6 + 4 * i) Hc) by lia. done.
Qed.

(** ** The superblock *)
Lemma read_superblock_ok uninit f :
  24 <= f_size f -> super_ok (f_bytes f) ->
  exists sb, read_superblock uninit f = (sb, fseek f 24) /\ super_ok sb.
Proof.
  intros Hs Hok. destruct (fread_ok (fseek f 0) uninit 0 24) as (m & E & Hc & _); [cbn; lia|cbn; lia|lia|].
  exists m. split; [exact E|]. unfold super_ok, inode_bitmap_blk, data_bitmap_blk, inode_table_blk, data_blocks_start in *.
  rewrite <- !(copied_load32 _ _ _ _ 24 _ Hc) in Hok by lia. exact Hok.
Qed.

Lemma write_inode_ok uninit f n type size blocks :
  425984 <= f_size f -> super_ok (f_bytes f) -> bytes_ok (f_bytes f) -> 0 <= n < 6606 ->
  0 <= type < 65536 -> 0 <= size < 4294967296 -> Forall (fun b => 0 <= b < 4294967296) blocks ->
  (length blocks <= 14)%nat ->
  let g := write_inode_to_disk uninit f n (make_inode type size blocks) in
  same_but (in_range (inode_pos n) 62) f g /\ inode_is (f_bytes g) n type size blocks /\ bytes_ok (f_bytes g) /\ 0 <= f_pos g.
Proof.
  intros Hf Hs Hb Hn Ht Hsz Hbl Hl. cbv zeta. unfold write_inode_to_disk.
  destruct (read_superblock_ok uninit f ltac:(lia) Hs) as (sb & -> & _ & _ & -> & _).
  unfold inode_size, FS_BLOCK_SIZE. rewrite (u32_small (3 * 4096)), u32_small by lia.
  replace (3 * 4096 + n * 62) with (inode_pos n) by (unfold inode_pos; lia).
  destruct (fwrite_ok (fseek (fseek f 24) (inode_pos n)) (make_inode type size blocks) 0 62) as (H1 & H2 & H3 & H4 & H5);
    [lia|cbn; unfold inode_pos; lia|]. cbn [f_pos fseek] in *.
  split; [exact H1|]. split; [|split; [|rewrite H4; unfold inode_pos; lia]].
  - apply (copied_inode_is _ _ (make_inode type size blocks)); [exact H2|]. by apply make_inode_is.
  - apply H5; [done|]. intros i Hi. apply make_inode_bytes.
Qed.

(** ** Directory entries *)
Lemma cstring_holds s : forall n m a,
  (length s < n)%nat -> Forall char_ok s -> holds m a (s ++ [0]) -> cstring n m a = s.
Proof.
  induction s as [|c s IH]; intros [|n] m a Hl Hc Hh; cbn in Hl; try lia; cbn [cstring].
  - pose proof (Hh 0%nat 0 eq_refl) as E. rewrite Z.add_0_r in E. by rewrite E.
  - apply Forall_cons in Hc as [Hc0 Hc]. unfold char_ok in Hc0.
    pose proof (Hh 0%nat c eq_refl) as E. rewrite Z.add_0_r in E. rewrite E.
    rewrite (proj2 (Z.eqb_neq c 0)) by lia. f_equal. apply IH; [lia|done|].
    intros i d Hi. rewrite <- (Hh (S i) d Hi). f_equal. lia.
Qed.

(** The entry [add_dirent_to_root] writes. *)
Definition new_entry (entry : mem) (name : list Z) (inode_num : Z) : mem :=
  store8 (strncpy (store32 entry 0 inode_num) (dirent_name 0) name 27) (dirent_name 0 + 27) 0.

Lemma new_entry_name entry name n : holds (new_entry entry name n) 4 (take 27 name ++ [0]).
Proof.
  intros i c Hi. unfold new_entry, dirent_name. change (0 + 4) with 4.
  assert (i < length (take 27 name ++ [0%Z]))%nat as Hl by (apply lookup_lt_is_Some; eauto).
  rewrite length_app, length_take in Hl. cbn [length] in Hl.
  destruct (decide (i < length (take 27 name))%nat) as [Hlt|Hge].
  - rewrite lookup_app_l in Hi by done. rewrite length_take in Hlt. rewrite lookup_take_lt in Hi by lia.
    rewrite store8_ne by lia. unfold strncpy.
    rewrite (proj2 (Z.leb_le _ _)), (proj2 (Z.ltb_lt _ _)) by lia. cbn [andb].
    replace (Z.to_nat (4 + Z.of_nat i - 4)) with i by lia. by apply nth_lookup_Some.
  - rewrite lookup_app_r in Hi by lia. rewrite length_take in Hi, Hge.
    apply list_lookup_singleton_Some in Hi as [Hi <-].
    destruct (decide (i = 27%nat)) as [->|Hne]; [by rewrite store8_eq|].
    rewrite store8_ne by lia. unfold strncpy.
    rewrite (proj2 (Z.leb_le _ _)), (proj2 (Z.ltb_lt _ _)) by lia. cbn [andb].
    apply nth_overflow. lia.
Qed.

Lemma new_entry_inode entry name n : 0 <= n < 4294967296 -> dirent_inode (new_entry entry name n) 0 = n.
Proof.
  intros Hn. unfold new_entry, dirent_inode, dirent_name. rewrite load32_store8_ne by lia.
  transitivity (load32 (store32 entry 0 n) 0); [|by apply load32_store32].
  apply load32_agree. intros x Hx. unfold in_range in Hx. unfold strncpy.
  by rewrite (proj2 (Z.leb_gt _ _)) by lia.
Qed.

Lemma nth_char name i : Forall char_ok name -> 0 <= nth i name 0 < 256.
Proof.
  intros Hc. destruct (name !! i) as [c|] eqn:E.
  - rewrite (nth_lookup_Some _ _ _ _ E). rewrite Forall_lookup in Hc. pose proof (Hc _ _ E). unfold char_ok in *. lia.
  - rewrite nth_lookup, E. cbn. lia.
Qed.

Lemma new_entry_bytes entry name n :
  Forall char_ok name -> bytes_in (new_entry entry name n) 32.
Proof.
  intros Hc x Hx. unfold new_entry, dirent_name.
  destruct (decide (x = 0 + 4 + 27)) as [->|]; [rewrite store8_eq; apply u8_range|rewrite store8_ne by done].
  unfold strncpy. destruct (Z.leb_spec (0 + 4) x), (Z.ltb_spec x (0 + 4 + 27)); cbn [andb]; try lia.
  - by apply nth_char.
  - unfold store32, store8. repeat (case_match; [apply u8_range|]). bool_to_prop. lia.
Qed.

Lemma copied_entry_is D j entry name n :
  copied D (entry_pos j) (new_entry entry name n) 0 32 -> Forall char_ok name -> 0 <= n < 4294967296 ->
  entry_is D j (Some (take 27 name, n)).
Proof.
  intros Hc Hch Hn. unfold entry_is, dirent_inode, dirent_name. split; [|split].
  - rewrite <- (new_entry_inode entry name n Hn). rewrite <- (Z.add_0_r (entry_pos j)).
    apply (copied_load32 _ _ _ _ _ 0 Hc); lia.
  - apply cstring_holds; [rewrite length_take; lia|by apply Forall_take|].
    intros i c Hi. rewrite <- (new_entry_name entry name n i c Hi).
    assert (i < length (take 27 name ++ [0%Z]))%nat as Hl by (apply lookup_lt_is_Some; eauto).
    rewrite length_app, length_take in Hl. cbn [length] in Hl.
    rewrite <- Z.add_assoc, Hc by lia. f_equal.
  - rewrite Hc by lia. unfold new_entry. change (0 + 31) with (dirent_name 0 + 27). by rewrite store8_eq.
Qed.

Lemma dirent_loop_ok n : forall i f entry name inode c,
  i + Z.of_nat n = 128 -> 0 <= i <= c -> c <= 128 -> f_pos f = entry_pos i -> 425984 <= f_size f ->
  (forall j, 0 <= j < c -> dirent_inode (f_bytes f) (entry_pos j) <> 0) ->
  (c < 128 -> dirent_inode (f_bytes f) (entry_pos c) = 0) ->
  Forall char_ok name -> 0 <= inode < 4294967296 -> bytes_ok (f_bytes f) ->
  let r := dirent_loop n i f entry 103 name inode in
  bytes_ok (f_bytes (fst r)) /\
  if c <? 128 then snd r = [] /\ same_but (in_range (entry_pos c) 32) f (fst r) /\
      entry_is (f_bytes (fst r)) c (Some (take 27 name, inode))
  else snd r = [RootFull] /\ f_bytes (fst r) = f_bytes f /\ f_size (fst r) = f_size f.
Proof.
  induction n as [|n IH]; intros i f entry name inode c Hn Hi Hc Hp Hs Hu Hf Hch Hin Hb; cbv zeta.
  - cbn [dirent_loop fst snd]. split; [done|]. by rewrite (proj2 (Z.ltb_ge _ _)) by lia.
  - cbn [dirent_loop]. unfold dirent_size.
    destruct (fread_ok f entry 0 32) as (m & -> & Hcp & _); [rewrite Hp; unfold entry_pos; lia..|lia|].
    assert (dirent_inode m 0 = dirent_inode (f_bytes f) (entry_pos i)) as ->.
    { rewrite Hp in Hcp. pose proof (copied_load32 _ _ _ _ _ 0 Hcp ltac:(lia) ltac:(lia)) as E.
      by rewrite !Z.add_0_r in E. }
    destruct (decide (i < c)) as [Hlt|Hge].
    + rewrite (proj2 (Z.eqb_neq _ _)) by (apply Hu; lia).
      apply (IH (i + 1) (fseek f (f_pos f + 32)) m name inode c); try done; try lia.
      cbn [fseek f_pos]. rewrite Hp. unfold entry_pos. lia.
    + assert (i = c) as -> by lia. rewrite (proj2 (Z.ltb_lt c 128)) by lia. rewrite Hf by lia. cbn [Z.eqb fst snd].
      fold (new_entry m name inode). unfold FS_BLOCK_SIZE. rewrite u32_small by lia.
      destruct (fwrite_ok (fseek (fseek f (f_pos f + 32)) (103 * 4096 + c * 32)) (new_entry m name inode) 0 32)
        as (H1 & H2 & H3 & H4 & H5); [lia|cbn; lia|]. cbn [f_pos fseek] in *.
      replace (103 * 4096 + c * 32) with (entry_pos c) in * by (unfold entry_pos; lia).
      split; [|split; [done|split; [exact H1|by apply (copied_entry_is _ _ m)]]].
      apply H5; [done|]. intros k Hk. by apply new_entry_bytes.
Qed.

Lemma add_dirent_ok uninit f name inode c :
  425984 <= f_size f -> super_ok (f_bytes f) -> inode_is (f_bytes f) 1 FS_DIR 4096 [103] -> 0 <= c <= 128 ->
  (forall j, 0 <= j < c -> dirent_inode (f_bytes f) (entry_pos j) <> 0) ->
  (c < 128 -> dirent_inode (f_bytes f) (entry_pos c) = 0) ->
  Forall char_ok name -> 0 <= inode < 4294967296 -> bytes_ok (f_bytes f) ->
  let r := add_dirent_to_root uninit f name inode in
  bytes_ok (f_bytes (fst r)) /\
  if c <? 128 then snd r = [] /\ same_but (in_range (entry_pos c) 32) f (fst r) /\
      entry_is (f_bytes (fst r)) c (Some (take 27 name, inode))
  else snd r = [RootFull] /\ f_bytes (fst r) = f_bytes f /\ f_size (fst r) = f_size f.
Proof.
  intros Hs Hsup (_ & _ & Hroot) Hc Hu Hf Hch Hin Hb. unfold add_dirent_to_root.
  destruct (read_superblock_ok uninit f ltac:(lia) Hsup) as (sb & -> & _ & _ & -> & _).
  unfold inode_size, FS_BLOCK_SIZE, dirent_size. rewrite (u32_small (3 * 4096)), (u32_small (3 * 4096 + _)) by lia.
  destruct (fread_ok (fseek (fseek f 24) (3 * 4096 + 1 * 62)) uninit 0 62) as (m & -> & Hcp & _); [cbn; lia..|].
  assert (inode_block m 0 0 = 103) as ->.
  { unfold inode_block. change (0 + 6 + 4 * 0) with (0 + 6). rewrite (copied_load32 _ _ _ _ _ 6 Hcp) by lia.
    exact (Hroot 0 ltac:(lia)). }
  change (Z.to_nat (4096 / 32)) with 128%nat. rewrite u32_small by lia.
  apply (dirent_loop_ok 128 0 (fseek (fseek (fseek (fseek f 24) _) _) (103 * 4096))); try done; lia.
Qed.

(** ** Images that differ in free parts *)

(** What no file uses: the bitmaps aside, inodes and blocks not handed out. *)
Definition free_at (a : afs) (x : Z) : Prop :=
  in_range 4096 8192 x \/ (inode_pos (a_inodes a) <= x < 421888) \/ block_pos (a_blocks a) <= x.

Lemma file_ok_frame R f g a x :
  file_ok f a x -> same_but R f g -> 425984 <= f_size f -> 1 <= a_blocks a ->
  (forall y, R y -> free_at a y \/ in_range 421888 4096 y) -> file_ok g a x.
Proof.
  intros [H1 H2 H3 H4 H5 H6] [S1 S2] Hs Hnb HR. unfold table_inodes in H1.
  assert (forall y, y < f_size f -> ~ (free_at a y \/ in_range 421888 4096 y) -> f_bytes g y = f_bytes f y) as Hfr
    by (intros y Hy Hn'; apply S2; [done|intros Hr; by apply Hn', HR]).
  unfold free_at, in_range, inode_pos, block_pos in Hfr. split; try done.
  - apply (inode_agree (f_bytes f)); [|done]. intros y Hy. unfold in_range, inode_pos in Hy. apply Hfr; lia.
  - destruct H5; [left; lia|by right].
  - apply (holds_agree (f_bytes f)); [|done]. intros y Hy. 
    pose proof (need_bound (af_data x)). unfold in_range, block_pos, size_of in *. apply Hfr; lia.
Qed.

Lemma file_ok_raise f a a' x :
  file_ok f a x -> a_inodes a <= a_inodes a' -> a_blocks a <= a_blocks a' -> file_ok f a' x.
Proof. intros [H1 H2 H3 H4 H5 H6] ? ?. split; try done; lia. Qed.

Lemma core_frame R f g a :
  core f a -> same_but R f g -> (forall y, R y -> free_at a y) -> bytes_ok (f_bytes g) -> core g a.
Proof.
  intros [H1 H2 H3 H4 H5 H6 H7 H8 H9] Hsb HR Hb. pose proof Hsb as [S1 S2].
  assert (forall y, y < f_size f -> ~ free_at a y -> f_bytes g y = f_bytes f y) as Hfr
    by (intros y Hy Hn'; apply S2; [done|intros Hr; by apply Hn', HR]).
  unfold free_at, in_range, inode_pos, block_pos in Hfr. split; try done; try lia.
  - apply (super_agree (f_bytes f)); [|done]. intros y Hy. unfold in_range in Hy. apply Hfr; lia.
  - apply (inode_agree (f_bytes f)); [|done]. intros y Hy. unfold in_range, inode_pos in Hy. apply Hfr; lia.
  - intros j Hj. apply (entry_agree (f_bytes f)); [|by apply H5]. intros y Hy. unfold in_range, entry_pos in Hy. apply Hfr; lia.
  - eapply Forall_impl; [exact H6|]. intros x Hx. apply (file_ok_frame R f); try done; [lia|].
    intros y Hy. left. by apply HR.
Qed.

(** ** [inject_file], up to the directory *)

(** A file system after the resources of a file have been handed out. *)
Definition taken (a : afs) (data : list Z) : afs := mk_afs (a_inodes a + 1) (a_blocks a + need data) (a_files a).

Lemma core_taken f a data :
  core f a -> a_inodes a < 6606 -> a_blocks a + need data <= 32768 -> core f (taken a data).
Proof.
  intros [H1 H2 H3 H4 H5 H6 H7 H8 H9] Hi Hb. pose proof (need_bound data).
  split; try done; try (cbn; lia). eapply Forall_impl; [exact H6|]. intros x Hx.
  apply (file_ok_raise f a); [done|cbn; lia..].
Qed.

(** The blocks of a new file are in 32 bits and, up to twelve, fit in its inode. *)
Lemma new_blocks_ok b k :
  0 <= b <= 32768 -> k <= 12 -> Forall (fun v => 0 <= v < 4294967296) (seqZ (103 + b) k) /\ (length (seqZ (103 + b) k) <= 14)%nat.
Proof.
  intros Hb Hk. split; [|rewrite length_seqZ; lia].
  apply Forall_forall. intros v Hv. apply elem_of_seqZ in Hv. lia.
Qed.

Section STORED.
Context (uninit : mem) (f : file) (a : afs) (dm im buffer : mem) (data : list Z).
Context (Hco : core f a) (Hdm : prefix_map dm 0 (a_blocks a + need data)) (Hdb : bytes_in dm 4096)
  (Him : prefix_map im 0 (a_inodes a + 1)) (Hib : bytes_in im 4096)
  (Hbuf : holds buffer 0 data) (Hbb : bytes_in buffer (size_of data))
  (Hk : need data <= 12) (Hnb : a_blocks a + need data <= 32768) (Hni : a_inodes a < 6606).
#[local] Abbreviation blocks := (seqZ (103 + a_blocks a) (need data)).
#[local] Abbreviation f1 := (fwrite (fseek f 8192) dm 0 4096).
#[local] Abbreviation f2 := (fwrite (fseek f1 4096) im 0 4096).
#[local] Abbreviation f3 := (write_blocks blocks 0 f2 buffer (need data) (size_of data)).
#[local] Abbreviation f4 := (write_inode_to_disk uninit f3 (a_inodes a) (make_inode FS_FILE (size_of data) blocks)).

(** The bitmaps are written. *)
Lemma maps_stored :
  same_but (in_range 4096 8192) f f2 /\ bytes_ok (f_bytes f2) /\ 0 <= f_pos f2 /\
  copied (f_bytes f2) 4096 im 0 4096 /\ copied (f_bytes f2) 8192 dm 0 4096.
Proof.
  destruct Hco as [H1 H2 _ _ _ _ _ _ _].
  destruct (fwrite_ok (fseek f 8192) dm 0 4096) as (A1 & A2 & A3 & A4 & A5); [lia|cbn; lia|].
  destruct (fwrite_ok (fseek f1 4096) im 0 4096) as (B1 & B2 & B3 & B4 & B5); [lia|cbn; lia|].
  cbn [fseek f_pos f_bytes f_size] in *. split; [|split; [|split; [lia|split; [done|]]]].
  - apply (same_but_trans (in_range 8192 4096) (in_range 4096 4096) _ f f1); [done|done|unfold in_range; lia..].
  - apply B5; [apply A5; [done|]|]; intros i Hi; [apply Hdb|apply Hib]; lia.
  - intros i Hi. destruct B1 as [_ B1]. rewrite B1; [by apply A2|cbn; lia|unfold in_range; lia].
Qed.

(** So is the data. *)
Lemma data_stored :
  same_but (in_range (block_pos (a_blocks a)) (size_of data)) f2 f3 /\ bytes_ok (f_bytes f3) /\
  (block_pos (a_blocks a) + size_of data <= f_size f3 \/ size_of data = 0) /\
  holds (f_bytes f3) (block_pos (a_blocks a)) data.
Proof.
  destruct maps_stored as (A1 & A2 & A3 & _). destruct Hco as [_ _ _ _ _ _ _ H8 _].
  pose proof (need_bound data) as [Hn0 Hn1].
  destruct (write_blocks_ok (Z.to_nat (need data)) 0 f2 buffer (103 + a_blocks a) (size_of data)) as (C1 & C2 & C3 & C4 & C5);
    fold (need data) in *; try (unfold size_of in *; lia); try done.
  replace (103 + a_blocks a + 0) with (103 + a_blocks a) in * by lia.
  replace (need data - 0) with (need data) in * by lia. rewrite Z.sub_0_r in C1.
  split; [done|split; [done|split]].
  - destruct (decide (need data = 0)); [right; unfold size_of in *; lia|left; apply C5; lia].
  - intros i c Hi. apply lookup_lt_Some in Hi as Hl. unfold block_pos. rewrite C4 by (unfold size_of; lia).
    rewrite <- (Hbuf i c Hi). done.
Qed.

(** So is the inode, and no other file is touched. *)
Lemma inode_stored :
  core f4 a /\ inode_is (f_bytes f4) (a_inodes a) FS_FILE (size_of data) blocks /\
  same_but (in_range (inode_pos (a_inodes a)) 62) f3 f4.
Proof.
  destruct maps_stored as (A1 & A2 & _), data_stored as (B1 & B2 & _). pose proof Hco as [_ _ _ _ _ _ H7 H8 _].
  assert (core f3 a) as Hco3.
  { apply (core_frame (fun x => in_range 4096 8192 x \/ block_pos (a_blocks a) <= x) f);
      [done| |intros y; cbn beta; unfold free_at; tauto|done].
    apply (same_but_trans _ _ _ f f2 f3 A1 B1); intros y; cbn beta; unfold in_range; lia. }
  pose proof (need_bound data) as [Hn0 Hn1].
  destruct (new_blocks_ok (a_blocks a) (need data) ltac:(lia) Hk) as [Hbl Hlen].
  destruct (write_inode_ok uninit f3 (a_inodes a) FS_FILE (size_of data) blocks) as (D1 & D2 & D3 & _);
    try done; try (unfold FS_FILE, size_of in *; lia); try apply Hco3.
  split; [|done]. apply (core_frame (in_range (inode_pos (a_inodes a)) 62) f3); try done.
  unfold free_at, in_range, inode_pos. lia.
Qed.

Lemma stored_ok name :
  represents f4 (taken a data) /\ file_ok f4 (taken a data) (mk_afile name (a_inodes a) (a_blocks a) data).
Proof.
  destruct maps_stored as ([A0 _] & _ & _ & A3 & A4), data_stored as ([B0 B1] & _ & B3 & B4), inode_stored as (D1 & D2 & [D3 D4]).
  pose proof Hco as [H1 _ _ _ _ _ H7 H8 _]. unfold block_pos in *.
  assert (forall x, in_range 4096 8192 x -> f_bytes f4 x = f_bytes f2 x) as Hmaps.
  { intros x Hx. unfold in_range, inode_pos in *. rewrite D4, B1; lia. }
  split; [split|split]; cbn [taken a_inodes a_blocks af_inode af_start af_data].
  - by apply core_taken.
  - apply (prefix_agree (f_bytes f2)); [unfold in_range in *; intros x Hx; apply Hmaps; lia|by apply (prefix_written im)].
  - apply (prefix_agree (f_bytes f2)); [unfold in_range in *; intros x Hx; apply Hmaps; lia|by apply (prefix_written dm)].
  - unfold table_inodes. lia.
  - cbn. lia.
  - done.
  - exact D2.
  - unfold block_pos. lia.
  - apply (holds_agree (f_bytes f3)); [|done]. intros x Hx.
    cbn [af_start af_data] in Hx. unfold block_pos, in_range, inode_pos, size_of in *. apply D4; lia.
Qed.

End STORED.

(** ** The directory *)
Definition entry_count (a : afs) : Z := 2 + Z.of_nat (length (a_files a)).

Lemma root_entries_length a : length (root_entries a) = Z.to_nat (entry_count a).
Proof. unfold root_entries, entry_count. cbn [length]. rewrite length_fmap. lia. Qed.

(** The directory's entries are in use up to its count. *)
Lemma root_entries_used f a j : core f a -> 0 <= j < entry_count a -> dirent_inode (f_bytes f) (entry_pos j) <> 0.
Proof.
  intros [_ _ _ _ H5 H6 _ _ H9] Hj. pose proof (H5 j ltac:(unfold entry_count in *; lia)) as H.
  destruct (root_entries a !! Z.to_nat j) as [[name n]|] eqn:E.
  2: { apply lookup_ge_None in E. rewrite root_entries_length in E. lia. }
  destruct H as [-> _]. unfold root_entries in E. destruct (Z.to_nat j) as [|[|i]];
    [by injection E as _ <-|by injection E as _ <-|].
  change (((fun f => (af_name f, af_inode f)) <$> a_files a) !! i = Some (name, n)) in E. rewrite list_lookup_fmap in E. destruct (a_files a !! i) as [x|] eqn:Ex; [|done]. cbn in E. injection E as _ <-.
  rewrite Forall_lookup in H6. destruct (H6 _ _ Ex). lia.
Qed.

Lemma root_entries_free f a j : core f a -> entry_count a <= j < 128 -> dirent_inode (f_bytes f) (entry_pos j) = 0.
Proof.
  intros [_ _ _ _ H5 _ _ _ _] Hj. pose proof (H5 j ltac:(unfold entry_count in *; lia)) as H.
  by rewrite (proj2 (lookup_ge_None _ _)) in H by (rewrite root_entries_length; lia).
Qed.

Definition with_file (a : afs) (x : afile) : afs := mk_afs (a_inodes a) (a_blocks a) (a_files a ++ [x]).

Lemma root_entries_app a x : root_entries (with_file a x) = root_entries a ++ [(af_name x, af_inode x)].
Proof. unfold root_entries, with_file. cbn [a_files]. rewrite fmap_app. done. Qed.

Lemma entry_added f g a x :
  represents f a -> file_ok f a x -> (length (a_files a) < 126)%nat ->
  same_but (in_range (entry_pos (entry_count a)) 32) f g -> bytes_ok (f_bytes g) ->
  entry_is (f_bytes g) (entry_count a) (Some (af_name x, af_inode x)) ->
  represents g (with_file a x).
Proof.
  intros [Hco Him Hdm] Hx Hl Hsb Hb He. pose proof Hsb as [S1 S2]. pose proof Hco as [H1 H2 H3 H4 H5 H6 H7 H8 H9].
  assert (forall y, y < f_size f -> ~ in_range 421888 4096 y -> f_bytes g y = f_bytes f y) as Hfr.
  { intros y Hy Hn. apply S2; [done|]. unfold in_range, entry_pos, entry_count in *. lia. }
  assert (forall y, file_ok f a y -> file_ok g (with_file a x) y) as Hfo.
  { intros y Hy. apply (file_ok_raise g a); [|cbn; lia..]. eapply (file_ok_frame _ f); try done; try lia.
    intros z Hz. right. unfold in_range, entry_pos, entry_count in *. lia. }
  split; [split; try done; try (cbn; lia)|..].
  - apply (super_agree (f_bytes f)); [|done]. intros y Hy. apply Hfr; unfold in_range in *; lia.
  - apply (inode_agree (f_bytes f)); [|done]. intros y Hy. apply Hfr; unfold in_range, inode_pos in *; lia.
  - intros j Hj. rewrite root_entries_app. destruct (decide (j = entry_count a)) as [->|Hne].
    + by rewrite lookup_app_r, root_entries_length, Nat.sub_diag by (rewrite root_entries_length; lia).
    + apply (entry_agree (f_bytes f)); [intros y Hy; apply S2; unfold in_range, entry_pos in *; lia|].
      destruct (decide (j < entry_count a)).
      * rewrite lookup_app_l by (rewrite root_entries_length; lia). by apply H5.
      * rewrite (proj2 (lookup_ge_None _ _)); [apply (root_entries_free f a j Hco); lia|].
        rewrite length_app, root_entries_length. cbn [length]. unfold entry_count in *. lia.
  - cbn [a_files with_file]. apply Forall_app. split; [by eapply Forall_impl|]. apply Forall_singleton. by apply Hfo.
  - cbn [a_files with_file]. rewrite length_app. cbn [length]. lia.
  - apply (prefix_agree (f_bytes f)); [|done]. intros y Hy. apply Hfr; unfold in_range in *; lia.
  - apply (prefix_agree (f_bytes f)); [|done]. intros y Hy. apply Hfr; unfold in_range in *; lia.
Qed.

(** Only the bytes and the length matter. *)
Lemma represents_same f g a : represents f a -> f_bytes g = f_bytes f -> f_size g = f_size f -> represents g a.
Proof.
  intros [[H1 H2 H3 H4 H5 H6 H7 H8 H9] Him Hdm] Eb Es. split; [split|..]; rewrite ?Eb, ?Es; try done.
  eapply Forall_impl; [exact H6|]. intros x [K1 K2 K3 K4 K5 K6]. by split; rewrite ?Eb, ?Es.
Qed.

Lemma dirent_stored uninit f a x name :
  represents f a -> file_ok f a x -> af_name x = take 27 name -> Forall char_ok name ->
  let r := add_dirent_to_root uninit f name (af_inode x) in
  represents (fst r) (if (length (a_files a) <? 126)%nat then with_file a x else a) /\
  snd r = if (length (a_files a) <? 126)%nat then [] else [RootFull].
Proof.
  intros Hr Hx Hn Hch r. pose proof Hr as [Hco _ _]. pose proof Hco as [H1 H2 H3 H4 _ _ H7 _ H9].
  destruct (add_dirent_ok uninit f name (af_inode x) (entry_count a)) as [Hb H]; try done; try (unfold entry_count; lia).
  { intros j Hj. by apply (root_entries_used f a). }
  { intros Hc. apply (root_entries_free f a); [done|lia]. }
  { destruct Hx. lia. }
  fold r in Hb, H. destruct (Nat.ltb_spec (length (a_files a)) 126) as [Hl|Hl].
  - rewrite (proj2 (Z.ltb_lt _ _)) in H by (unfold entry_count; lia). destruct H as (-> & Hsb & He).
    split; [|done]. apply (entry_added f); try done. by rewrite Hn.
  - rewrite (proj2 (Z.ltb_ge _ _)) in H by (unfold entry_count; lia). destruct H as (-> & Eb & Es).
    split; [|done]. by apply (represents_same f).
Qed.

(** ** [inject_file] *)
Definition byte_list (data : list Z) : Prop := Forall (fun c => 0 <= c < 256) data.

Lemma file_of_bytes data i : 0 <= i -> list_mem data i = nth (Z.to_nat i) data 0.
Proof. intros Hi. unfold list_mem. by rewrite (proj2 (Z.ltb_ge i 0)) by lia. Qed.

(** The file of the host is read. *)
Lemma host_read uninit data :
  byte_list data -> exists m g, fread (fseek (file_of data) 0) uninit 0 (size_of data) = (m, g) /\
    holds m 0 data /\ bytes_in m (size_of data).
Proof.
  intros Hb. destruct (fread_ok (fseek (file_of data) 0) uninit 0 (size_of data)) as (m & E & Hc & _);
    [done|cbn; unfold size_of; lia|unfold size_of; lia|]. eexists m, _. split; [exact E|]. cbn in Hc.
  split.
  - intros i c Hi. apply lookup_lt_Some in Hi as Hl. rewrite Hc by (unfold size_of; lia).
    rewrite file_of_bytes by lia. replace (Z.to_nat _) with i by lia. by apply nth_lookup_Some.
  - intros x Hx. rewrite <- (Z.add_0_l x), Hc, file_of_bytes by lia. unfold size_of in Hx.
    destruct (lookup_lt_is_Some_2 data (Z.to_nat (0 + x))) as [c E2]; [lia|].
    rewrite (nth_lookup_Some _ _ _ _ E2). unfold byte_list in Hb. rewrite Forall_lookup in Hb. by apply (Hb _ _ E2).
Qed.

(** A bitmap is read. *)
Lemma map_read uninit f base c :
  0 <= base -> base + 4096 <= f_size f -> bytes_ok (f_bytes f) -> prefix_map (f_bytes f) base c ->
  exists m, fread (fseek f base) uninit 0 4096 = (m, fseek f (base + 4096)) /\ prefix_map m 0 c /\ bytes_in m 4096.
Proof.
  intros H0 Hs Hb Hp. destruct (fread_ok (fseek f base) uninit 0 4096) as (m & E & Hc & _); [done|done|lia|].
  exists m. split; [exact E|]. cbn in Hc. split; [by apply (prefix_copied m _ base c Hc)|].
  intros x Hx. rewrite <- (Z.add_0_l x), Hc by lia. apply Hb.
Qed.

(** The host's file is below 4 GiB by a block. *)
Definition host_ok (external : option (list Z)) : Prop :=
  match external with Some data => byte_list data /\ size_of data + 4095 < 4294967296 | None => True end.

Lemma inject_ok uninit f a external name :
  represents f a -> a_inodes a < table_inodes \/ a_inodes a = 32768 -> host_ok external -> Forall char_ok name ->
  let r := inject_file uninit f (file_of <$> external) name in
  let s := fs_inject a external name in
  represents (fst r) (fst s) /\ snd r = snd s.
Proof.
  intros Hr Hni Hh Hch. destruct external as [data|]; [|done]. destruct Hh as [Hby Hsz]. pose proof (need_bound data) as [Hn0 _].
  cbn [fmap option_fmap option_map inject_file fs_inject]. change (f_size (file_of data)) with (size_of data).
  rewrite (u32_small (size_of data)) by (unfold size_of in *; lia).
  destruct (host_read uninit data Hby) as (buffer & ext & -> & Hbuf & Hbb).
  assert (blocks_for (size_of data) = need data) as ->.
  { unfold blocks_for, FS_BLOCK_SIZE, need. rewrite u32_small by (unfold size_of in *; lia). f_equal. lia. }
  rewrite Z.gtb_ltb. destruct (Z.ltb_spec 12 (need data)) as [|Hk]; [done|].
  pose proof Hr as [Hco Him Hdm]. pose proof Hco as [H1 H2 H3 _ _ _ H7 H8 H9].
  destruct (read_superblock_ok uninit f ltac:(lia) H3) as (sb & -> & -> & -> & _ & Hstart).
  unfold FS_BLOCK_SIZE. change (u32 (2 * 4096)) with 8192. change (u32 (1 * 4096)) with 4096.
  destruct (map_read uninit (fseek f 24) 8192 (a_blocks a)) as (dm & -> & Hdm' & Hdb); [lia|cbn; lia|done|done|].
  destruct (map_read uninit (fseek (fseek f 24) (8192 + 4096)) 4096 (a_inodes a)) as (im & -> & Him' & Hib); [lia|cbn; lia|done|done|].
  pose proof (find_free_blocks_ok sb dm (a_blocks a) (need data) Hstart ltac:(lia) Hn0 Hdm' Hdb) as Hfind.
  unfold get_free_inode_num. rewrite (free_inode_loop_ok _ 0 im (a_inodes a)) by (done || (unfold FS_BLOCK_SIZE; lia)).
  destruct (Z.ltb_spec 32768 (a_blocks a + need data)) as [|Hnb].
  { destruct Hfind as (dm' & ->). destruct (32768 <=? a_inodes a); (split; [by apply (represents_same f)|done]). }
  destruct Hfind as (dm' & -> & Hdm2 & Hdb2).
  destruct Hni as [Hni| ->]; [|split; [by apply (represents_same f)|done]]. unfold table_inodes in Hni.
  rewrite (proj2 (Z.leb_gt 32768 (a_inodes a))) by lia.
  destruct (stored_ok uninit f a dm' (map_set im (a_inodes a)) buffer data Hco Hdm2 Hdb2
    (prefix_set _ _ Him' ltac:(lia)) (bytes_set _ _ _ Hib) Hbuf Hbb Hk Hnb Hni (take 27 name)) as [Hst Hx].
  pose proof (dirent_stored uninit _ _ _ name Hst Hx eq_refl Hch) as Hd. cbv zeta in Hd.
  cbn [af_inode a_files taken] in Hd. cbv zeta. 
  destruct (length (a_files a) <? 126)%nat; exact Hd.
Qed.
