(* ===== verification/ImageProps.v ===== *)
(** Properties of the image tools: a new image is an empty file system,
    [inject_file] is the abstract operation, the list printed is the directory, and
    what the tools store is what the kernel's [read_file] returns. *)
From S2P Require Import Prelude BitMap Memory StringsSpec Allocator Bump Sched Disk DiskSpec Image ImageSpec.

(** ** A new image *)

(** Writes one after the other, each at its place, and the byte they leave at [x]
    where [v] was. *)
Definition writes (f : file) (l : list (Z * mem * Z)) : file :=
  fold_left (fun f '(a, m, n) => fwrite (fseek f a) m 0 n) l f.
Definition written (l : list (Z * mem * Z)) (x v : Z) : Z :=
  fold_left (fun v '(a, m, n) => if (a <=? x) && (x <? a + n) then m (x - a) else v) l v.

Lemma writes_ok l : forall f,
  bytes_ok (f_bytes f) -> Forall (fun '(a, m, n) => 0 <= a /\ 0 < n /\ bytes_ok m) l ->
  let g := writes f l in
  f_size f <= f_size g /\ bytes_ok (f_bytes g) /\ forall x, x < f_size f -> f_bytes g x = written l x (f_bytes f x).
Proof.
  induction l as [|[[a m] n] l IH]; intros f Hb Hl; [done|]. apply Forall_cons in Hl as [(Ha & Hn & Hm) Hl].
  destruct (fwrite_ok (fseek f a) m 0 n Hn Ha) as ([H1 H2] & H3 & _ & _ & H5). cbn [fseek f_pos f_bytes f_size] in *.
  destruct (IH (fwrite (fseek f a) m 0 n)) as (K1 & K2 & K3); [by apply H5|done|].
  cbv zeta. cbn [writes written fold_left]. split; [by etrans|]. split; [done|]. intros x Hx.
  unfold writes, written in K3. rewrite K3 by lia. f_equal.
  destruct (Z.leb_spec a x), (Z.ltb_spec x (a + n)); cbn [andb];
    try (apply H2; [done|unfold in_range; lia]).
  replace x with (a + (x - a)) at 1 by lia. rewrite H3 by lia. done.
Qed.

Lemma fwrite_here f m a n p : f_pos f = p -> fwrite f m a n = fwrite (fseek f p) m a n.
Proof. intros <-. by destruct f. Qed.

Lemma strncpy_bytes m dest s n : bytes_ok m -> Forall char_ok s -> bytes_ok (strncpy m dest s n).
Proof. intros Hm Hs x. unfold strncpy. destruct (_ && _); [by apply nth_char|apply Hm]. Qed.

Lemma make_dirent_bytes n s : Forall char_ok s -> bytes_ok (make_dirent n s).
Proof. intros Hs. apply strncpy_bytes; [|done]. repeat apply bytes_store8. apply zeroed_bytes. Qed.

(** The seven writes of [mkfs]. *)
Definition mkfs_writes : list (Z * mem * Z) :=
  [(0, make_superblock FS_MAGIC 25600 1 2 3 103, 24); (4096, store8 zeroed 0 3, 4096); (8192, store8 zeroed 0 1, 4096);
   (12350, make_inode FS_DIR 4096 [103], 62); (421888, zeroed, 4096);
   (421888, make_dirent 1 [46], 32); (421920, make_dirent 1 [46; 46], 32)].

Lemma mkfs_is_writes f : mkfs f = writes f mkfs_writes.
Proof. unfold mkfs. by rewrite (fwrite_here (fwrite _ (make_dirent 1 [46]) _ _) _ _ _ 421920). Qed.

Lemma mkfs_writes_ok : Forall (fun '(a, m, n) => 0 <= a /\ 0 < n /\ bytes_ok m) mkfs_writes.
Proof.
  repeat (apply Forall_cons; split; [split; [lia|split; [lia|]]|]); try apply Forall_nil_2;
    first [apply make_inode_bytes|apply zeroed_bytes|apply bytes_store8, zeroed_bytes|apply store_words_bytes, zeroed_bytes
          |apply make_dirent_bytes; repeat constructor; unfold char_ok; lia].
Qed.

(** Where none but the block of zeros has been written. *)
Ltac written_at :=
  unfold written, mkfs_writes; cbn [fold_left];
  repeat match goal with
  | |- context [?a <=? ?x] => destruct (Z.leb_spec a x); try lia; cbn [andb]
  | |- context [?x <? ?b] => destruct (Z.ltb_spec x b); try lia
  end.

Lemma mkfs_map v y : 0 <= y < 4096 ->
  (written mkfs_writes (4096 + y) (v (4096 + y)) = if y =? 0 then 3 else 0) /\
  (written mkfs_writes (8192 + y) (v (8192 + y)) = if y =? 0 then 1 else 0).
Proof.
  intros Hy. split; written_at; unfold store8, zeroed; destruct (Z.eqb_spec y 0);
    first [rewrite (proj2 (Z.eqb_eq _ _)) by lia; done|rewrite (proj2 (Z.eqb_neq _ _)) by lia; done].
Qed.

(** A bitmap with bits of its first byte alone. *)
Lemma prefix_first m base c w :
  (forall y, 0 <= y < 4096 -> m (base + y) = if y =? 0 then w else 0) ->
  forallb (fun i => eqb (Z.testbit w i) (i <? c)) (Z.of_nat <$> seq 0 8) = true -> c <= 8 ->
  prefix_map m base c.
Proof.
  intros Hm Hw Hc i Hi. rewrite Hm by zdiv. destruct (Z.eqb_spec (i / 8) 0) as [E|E].
  - replace (i mod 8) with i by zdiv. apply eqb_prop. apply (all_below (fun i => eqb (Z.testbit w i) (i <? c)) 8 Hw). zdiv.
  - rewrite Z.bits_0. symmetry. apply Z.ltb_ge. zdiv.
Qed.

Lemma mkfs_entries v j : 0 <= j < 128 ->
  entry_is (fun x => written mkfs_writes x (v x)) j (root_entries fresh_fs !! Z.to_nat j).
Proof.
  intros Hj. destruct (decide (j = 0)) as [->|]; [by vm_compute|]. destruct (decide (j = 1)) as [->|]; [by vm_compute|].
  rewrite (proj2 (lookup_ge_None _ _)) by (rewrite root_entries_length; unfold entry_count; cbn [a_files fresh_fs length]; lia). cbn [entry_is].
  assert (forall x, 421952 <= x < 425984 -> written mkfs_writes x (v x) = 0) as H by (intros x Hx; by written_at).
  unfold dirent_inode, load32, entry_pos. rewrite !H by lia. done.
Qed.

Lemma mkfs_ok f : 425984 <= f_size f -> bytes_ok (f_bytes f) -> represents (mkfs f) fresh_fs.
Proof.
  intros Hs Hb. rewrite mkfs_is_writes. destruct (writes_ok mkfs_writes f Hb mkfs_writes_ok) as (H1 & H2 & H3).
  set (g := writes f mkfs_writes) in *. set (D := fun x => written mkfs_writes x (f_bytes f x)).
  assert (forall x, x < 425984 -> f_bytes g x = D x) as HD by (intros x Hx; apply H3; lia).
  split; [split; try done; try (cbn; lia)|..].
  - apply (super_agree D); [intros x Hx; apply HD; unfold in_range in Hx; lia|]. by vm_compute.
  - apply (inode_agree D); [intros x Hx; apply HD; unfold in_range, inode_pos in Hx; lia|].
    split; [by vm_compute|split; [by vm_compute|]]. intros i Hi. apply Z.eqb_eq.
    exact (all_below (fun i => inode_block D (inode_pos 1) i =? nth (Z.to_nat i) [103] 0) 14 eq_refl i Hi).
  - intros j Hj. apply (entry_agree D); [intros x Hx; apply HD; unfold in_range, entry_pos in Hx; lia|].
    by apply mkfs_entries.
  - apply (prefix_agree D); [intros x Hx; apply HD; unfold in_range in Hx; lia|].
    apply (prefix_first _ _ _ 3); [|done|done]. intros y Hy. by apply mkfs_map.
  - apply (prefix_agree D); [intros x Hx; apply HD; unfold in_range in Hx; lia|].
    apply (prefix_first _ _ _ 1); [|done|done]. intros y Hy. by apply mkfs_map.
Qed.

(** ** The files of a directory *)
Fixpoint fs_inject_all (a : afs) (host : list Z -> option (list Z)) (dir_path : list Z) (names : list (list Z))
    : afs * list message :=
  match names with
  | [] => (a, [])
  | name :: names =>
      let '(a, m1) := fs_inject a (host (file_path dir_path name)) name in
      let '(a, m2) := fs_inject_all a host dir_path names in
      (a, m1 ++ m2)
  end.

Lemma fs_inject_inodes a external name : a_inodes a <= a_inodes (fst (fs_inject a external name)) <= a_inodes a + 1.
Proof. unfold fs_inject. repeat case_match; cbn; lia. Qed.

Lemma inject_all_ok uninit host dir_path names : forall f a,
  represents f a -> a_inodes a + Z.of_nat (length names) <= 6606 ->
  Forall (fun n => Forall char_ok n /\ host_ok (host (file_path dir_path n))) names ->
  let r := inject_all uninit host dir_path names f in
  let s := fs_inject_all a host dir_path names in
  represents (fst r) (fst s) /\ snd r = snd s.
Proof.
  induction names as [|name names IH]; intros f a Hr Hi Hn; [done|]. cbn [length] in Hi.
  apply Forall_cons in Hn as [[Hch Hh] Hn]. cbv zeta. cbn [inject_all fs_inject_all].
  destruct (inject_ok uninit f a (host (file_path dir_path name)) name Hr ltac:(unfold table_inodes; lia) Hh Hch) as [H1 H2].
  pose proof (fs_inject_inodes a (host (file_path dir_path name)) name) as Hin.
  destruct (inject_file _ _ _ _) as [f1 m1], (fs_inject _ _ _) as [a1 m1']. cbn [fst snd] in *.
  destruct (IH f1 a1 H1 ltac:(lia) Hn) as [H3 H4].
  destruct (inject_all _ _ _ _ _) as [f2 m2], (fs_inject_all _ _ _ _) as [a2 m2']. cbn [fst snd] in *.
  split; [done|congruence].
Qed.

(** ** The list of the files *)
Lemma printed_ok k : forall n m a, (k < n)%nat -> m (a + Z.of_nat k) = 0 -> printed n m a = Ok (cstring (S k) m a).
Proof.
  induction k as [|k IH]; intros [|n] m a Hk H0; try lia; cbn [printed].
  - rewrite Z.add_0_r in H0. cbn [cstring]. by rewrite H0.
  - cbn [cstring]. destruct (m a =? 0); [done|].
    rewrite (IH n m (a + 1)) by (lia || (rewrite <- H0; f_equal; lia)). done.
Qed.

Lemma root_inode_bounds f a n name : core f a -> (name, n) ∈ root_entries a -> 1 <= n < 6606.
Proof.
  intros [_ _ _ _ _ H6 H7 _ _] Hn. unfold root_entries in Hn. rewrite !elem_of_cons, list_elem_of_fmap in Hn.
  destruct Hn as [E|[E|(x & E & Hx)]]; [injection E as _ ->; lia..|]. injection E as _ ->.
  rewrite Forall_forall in H6. destruct (H6 x Hx) as [Hb _ _ _ _ _]. unfold table_inodes in Hb. lia.
Qed.

Lemma print_entry f a block j :
  core f a -> copied block 0 (f_bytes f) 421888 4096 -> 0 <= j < 128 ->
  match root_entries a !! Z.to_nat j with
  | Some (name, n) => dirent_inode block (j * 32) = n /\ n <> 0 /\ s32 n = n /\
      printed (Z.to_nat (4096 - dirent_name (j * 32))) block (dirent_name (j * 32)) = Ok name
  | None => dirent_inode block (j * 32) = 0
  end.
Proof.
  intros Hco Hb Hj. pose proof (co_entries _ _ Hco j Hj) as He.
  assert (dirent_inode block (j * 32) = dirent_inode (f_bytes f) (entry_pos j)) as ->.
  { unfold dirent_inode. replace (j * 32) with (0 + 32 * j) by lia. apply (copied_load32 _ _ _ _ _ _ Hb); lia. }
  destruct (root_entries a !! Z.to_nat j) as [[name n]|] eqn:E; [|exact He]. destruct He as (-> & He & H0).
  pose proof (root_inode_bounds f a n name Hco ltac:(by apply list_elem_of_lookup; eauto)) as Hn.
  split; [done|]. split; [lia|]. split; [apply s32_small; lia|].
  unfold dirent_name, entry_pos in *. rewrite (printed_ok 27); [|lia|].
  - rewrite <- He. replace (j * 32 + 4) with (0 + (32 * j + 4)) by lia.
    rewrite (cstring_copied 28 block 0 (f_bytes f) 421888 4096 (32 * j + 4)) by (done || lia).
    by rewrite Z.add_assoc.
  - replace (j * 32 + 4 + Z.of_nat 27) with (0 + (32 * j + 31)) by lia. rewrite Hb, <- H0 by lia. f_equal. lia.
Qed.

Lemma print_ok uninit f a :
  represents f a ->
  exists g, print_files_in_root uninit f = Ok (root_entries a, Z.of_nat (length (root_entries a)), g) /\
    f_bytes g = f_bytes f /\ f_size g = f_size f.
Proof.
  intros [Hco _ _]. pose proof Hco as [H1 _ H3 (_ & _ & H4) H5 _ _ _ H9]. unfold print_files_in_root.
  destruct (read_superblock_ok uninit f ltac:(lia) H3) as (sb & -> & _ & _ & -> & _).
  unfold FS_BLOCK_SIZE, inode_size. rewrite (u32_small (3 * 4096)) by lia. change (3 * 4096 + 1 * 62) with (inode_pos 1).
  destruct (fread_ok (fseek (fseek f 24) (inode_pos 1)) uninit 0 62) as (r & -> & Hr & _); [cbn; unfold inode_pos; lia..|].
  assert (inode_block r 0 0 = 103) as ->.
  { unfold inode_block. rewrite <- Z.add_assoc, (copied_load32 _ _ _ _ _ (6 + 4 * 0) Hr) by lia. exact (H4 0 ltac:(lia)). }
  change (u32 (103 * 4096)) with 421888.
  match goal with |- context [fread (fseek ?f0 421888) uninit 0 4096] =>
    destruct (fread_ok (fseek f0 421888) uninit 0 4096) as (block & -> & Hb & _); [cbn; lia..|] end.
  unfold dirent_size. change (Z.to_nat (4096 / 32)) with 128%nat.
  destruct (for_loop_inv (fun j '(lines, count) => lines = take (Z.to_nat j) (root_entries a) /\ count = Z.of_nat (length lines))
    128 0 (fun i '(lines, count) => if dirent_inode block (i * 32) =? 0 then Ok (lines, count)
      else let! name := printed (Z.to_nat (4096 - dirent_name (i * 32))) block (dirent_name (i * 32)) in
      Ok (lines ++ [(name, s32 (dirent_inode block (i * 32)))], count + 1)) ([], 0)) as ([lines count] & -> & -> & ->); [done| |].
  - intros j [lines count] Hj [-> ->]. pose proof (print_entry f a block j Hco Hb ltac:(lia)) as He.
    replace (Z.to_nat (j + 1)) with (S (Z.to_nat j)) by lia.
    destruct (root_entries a !! Z.to_nat j) as [[name n]|] eqn:E.
    + destruct He as (-> & Hn0 & -> & ->). rewrite (proj2 (Z.eqb_neq n 0)) by done. cbn [res_bind].
      eexists. split; [done|]. rewrite (take_S_r _ _ _ E). split; [done|]. rewrite length_app. cbn [length]. lia.
    + rewrite He. cbn [Z.eqb]. eexists. split; [done|]. apply lookup_ge_None in E.
      rewrite !take_ge by lia. done.
  - change (Z.to_nat (0 + Z.of_nat 128)) with 128%nat. cbn [res_bind].
    rewrite take_ge by (rewrite root_entries_length; unfold entry_count; lia). eexists. split; [done|]. done.
Qed.

(** ** What the kernel sees *)

(** The inode of the first entry with a name. *)
Fixpoint lookup_name (l : list (list Z * Z)) (fname : list Z) : option Z :=
  match l with
  | [] => None
  | (name, n) :: l => if decide (name = fname) then Some n else lookup_name l fname
  end.

Lemma for_find_lookup_name fname n : forall (l : list (list Z * Z)) i f,
  (length l <= n)%nat ->
  (forall j : nat, (j < n)%nat -> f (i + Z.of_nat j) =
     match l !! j with Some (name, k) => if decide (name = fname) then Some k else None | None => None end) ->
  for_find n i f = lookup_name l fname.
Proof.
  induction n as [|n IH]; intros l i f Hl Hf; [destruct l; [done|cbn in Hl; lia]|]. cbn [for_find].
  pose proof (Hf 0%nat ltac:(lia)) as H0. rewrite Z.add_0_r in H0. rewrite H0.
  assert (forall j : nat, (j < n)%nat -> f (i + 1 + Z.of_nat j) = f (i + Z.of_nat (S j))) as Hs
    by (intros j Hj; f_equal; lia).
  destruct l as [|[name k] l]; cbn [lookup list_lookup].
  - apply (IH []); [cbn; lia|]. intros j Hj. by rewrite Hs, Hf by lia.
  - cbn [lookup_name length] in *. destruct (decide (name = fname)); [done|].
    apply IH; [lia|]. intros j Hj. by rewrite Hs, Hf by lia.
Qed.

Section KERNEL.
Context (f : file) (a : afs) (Hr : represents f a).
#[local] Abbreviation D := (f_bytes f).

Lemma root_block i : 0 <= i < 12 -> inode_block D (inode_pos 1) i = if i =? 0 then 103 else 0.
Proof.
  intros Hi. destruct (co_root _ _ (rp_core _ _ Hr)) as (_ & _ & H). rewrite H by lia.
  destruct (Z.eqb_spec i 0) as [->|]; [done|]. apply nth_overflow. cbn. lia.
Qed.

Lemma root_valid : valid_dir D (inode_pos 1).
Proof.
  intros i Hi. cbv zeta. rewrite root_block by done. destruct (i =? 0); [|by split]. split; [lia|]. intros _ j Hj Hn.
  exists 27. split; [lia|]. pose proof (co_entries _ _ (rp_core _ _ Hr) j Hj) as He.
  replace (4096 * 103 + 32 * j) with (entry_pos j) in * by (unfold entry_pos; lia).
  destruct (root_entries a !! Z.to_nat j) as [[name n]|]; [|done]. destruct He as (_ & _ & He).
  rewrite <- He. unfold dirent_name. f_equal. lia.
Qed.

Lemma root_find fname : find_file D (inode_pos 1) fname = lookup_name (root_entries a) fname.
Proof.
  assert (find_block D 103 fname = lookup_name (root_entries a) fname) as Hb.
  { apply for_find_lookup_name.
    { rewrite root_entries_length. pose proof (co_count _ _ (rp_core _ _ Hr)). unfold entry_count. lia. }
    intros j Hj. pose proof (co_entries _ _ (rp_core _ _ Hr) (Z.of_nat j) ltac:(lia)) as He. rewrite Nat2Z.id in He.
    replace (4096 * 103 + 32 * (0 + Z.of_nat j)) with (entry_pos (Z.of_nat j)) by (unfold entry_pos; lia). unfold dir_entry.
    destruct (root_entries a !! j) as [[name n]|] eqn:E; cbn [entry_is] in He; [|by rewrite He].
    destruct He as (-> & -> & _). apply list_elem_of_lookup_2 in E.
    pose proof (root_inode_bounds f a n name (rp_core _ _ Hr) E). by rewrite (proj2 (Z.eqb_neq n 0)) by lia. }
  unfold find_file. cbn [for_find]. cbv zeta. rewrite !root_block by lia. cbn [Z.eqb Z.add Pos.add].
  rewrite Hb. by destruct (lookup_name _ _).
Qed.

Lemma file_block x i :
  x ∈ a_files a -> 0 <= i < need (af_data x) ->
  inode_block D (inode_pos (af_inode x)) i = 103 + af_start x + i.
Proof.
  intros Hx Hi. pose proof (co_files _ _ (rp_core _ _ Hr)) as H. rewrite Forall_forall in H.
  destruct (H x Hx) as [_ _ Hn (_ & _ & Hb) _ _]. rewrite Hb by lia. apply nth_lookup_Some, lookup_seqZ. lia.
Qed.

Lemma file_valid x : x ∈ a_files a -> valid_file D (inode_pos (af_inode x)) /\
  inode_length D (inode_pos (af_inode x)) = size_of (af_data x).
Proof.
  intros Hx. pose proof (co_files _ _ (rp_core _ _ Hr)) as H. rewrite Forall_forall in H.
  pose proof (co_blocks _ _ (rp_core _ _ Hr)). pose proof (need_bound (af_data x)).
  destruct (H x Hx) as [_ Hs Hn (_ & Hl & _) _ _]. split; [|done]. unfold valid_file. rewrite Hl. split; [lia|].
  intros i Hi Hlt. rewrite file_block by (done || unfold need in *; zdiv). unfold need in *. zdiv.
Qed.

Lemma file_bytes x k c : x ∈ a_files a -> af_data x !! k = Some c ->
  file_byte D (inode_pos (af_inode x)) (Z.of_nat k) = c.
Proof.
  intros Hx Hk. pose proof (co_files _ _ (rp_core _ _ Hr)) as H. rewrite Forall_forall in H.
  destruct (H x Hx) as [_ _ _ _ _ Hd]. apply lookup_lt_Some in Hk as Hl. unfold file_byte.
  rewrite file_block by (done || unfold need, size_of; zdiv). rewrite <- (Hd k c Hk). f_equal. unfold block_pos. zdiv.
Qed.
End KERNEL.

(** ** A directory of files that fits on the image *)

(** The blocks the files take. *)
Definition blocks_at (host : list Z -> option (list Z)) (path : list Z) : Z :=
  match host path with Some data => need data | None => 0 end.
Definition total_blocks (host : list Z -> option (list Z)) (dir_path : list Z) (names : list (list Z)) : Z :=
  foldr (fun n s => blocks_at host (file_path dir_path n) + s) 0 names.

(** Names that fit in an entry, other than the two of the directory, and files of
    twelve blocks at most. *)
Definition file_fits (host : list Z -> option (list Z)) (dir_path name : list Z) : Prop :=
  Forall char_ok name /\ (length name <= 27)%nat /\
  exists data, host (file_path dir_path name) = Some data /\ byte_list data /\ size_of data <= 49152.

Record fits (host : list Z -> option (list Z)) (dir_path : list Z) (names : list (list Z)) : Prop := {
  ft_nodup : NoDup ([46] :: [46; 46] :: names);
  ft_count : (length names <= 126)%nat;
  ft_files : Forall (file_fits host dir_path) names;
  ft_total : 1 + total_blocks host dir_path names <= 32768
}.

(** The files that the names stand for, in their order. *)
Record packed (host : list Z -> option (list Z)) (dir_path : list Z) (names : list (list Z)) (first : Z) (l : list afile) : Prop := {
  pk_names : af_name <$> l = names;
  pk_inodes : af_inode <$> l = seqZ first (Z.of_nat (length names));
  pk_data : Forall (fun x => host (file_path dir_path (af_name x)) = Some (af_data x)) l
}.

Lemma need_le data : size_of data <= 49152 -> need data <= 12.
Proof. unfold need, size_of. zdiv. Qed.

Lemma total_nonneg host dir_path names : 0 <= total_blocks host dir_path names.
Proof.
  induction names as [|n names IH]; cbn; [lia|]. unfold total_blocks in IH. unfold blocks_at at 1.
  destruct (host _) as [data|]; [pose proof (need_bound data)|]; lia.
Qed.

Lemma pack_ok host dir_path names : forall a,
  Forall (file_fits host dir_path) names -> (length (a_files a) + length names <= 126)%nat ->
  a_blocks a + total_blocks host dir_path names <= 32768 -> a_inodes a + Z.of_nat (length names) <= 6606 ->
  let r := fs_inject_all a host dir_path names in
  snd r = [] /\ exists l, a_files (fst r) = a_files a ++ l /\ packed host dir_path names (a_inodes a) l.
Proof.
  induction names as [|name names IH]; intros a Hf Hc Hb Hi; cbv zeta.
  { split; [done|]. exists []. rewrite app_nil_r. split; [done|]. by split. }
  apply Forall_cons in Hf as [(Hch & Hl & data & Hh & Hby & Hsz) Hf]. cbn [length] in Hc, Hi.
  change (total_blocks host dir_path (name :: names))
    with (blocks_at host (file_path dir_path name) + total_blocks host dir_path names) in Hb.
  unfold blocks_at in Hb. rewrite Hh in Hb. pose proof (total_nonneg host dir_path names) as Ht.
  cbn [fs_inject_all]. rewrite Hh. cbn [fs_inject].
  rewrite (proj2 (Z.ltb_ge 12 _)) by (by apply need_le). rewrite (proj2 (Z.ltb_ge 32768 _)), (proj2 (Z.leb_gt 32768 _)) by lia.
  rewrite (proj2 (Nat.ltb_lt _ 126)) by lia. rewrite take_ge by lia.
  set (x := mk_afile name (a_inodes a) (a_blocks a) data).
  destruct (IH (mk_afs (a_inodes a + 1) (a_blocks a + need data) (a_files a ++ [x]))) as (Hm & l & Hfl & Hp);
    [done|cbn [a_files]; rewrite length_app; cbn [length]; lia|cbn; lia|cbn; lia|].
  destruct (fs_inject_all _ host dir_path names) as [a2 m2]. cbn [fst snd a_files a_inodes] in *.
  split; [done|]. exists (x :: l). split; [by rewrite Hfl, <- app_assoc|]. destruct Hp as [P1 P2 P3].
  split; [by rewrite fmap_cons, P1| |by apply Forall_cons].
  rewrite fmap_cons, P2. cbn [length af_inode x]. rewrite (seqZ_cons (a_inodes a)) by lia. unfold Z.succ, Z.pred. do 2 f_equal; lia.
Qed.

(** [collect] keeps the names other than the two of the directory. *)
Definition file_entry (name : list Z) : Prop := name <> [46] /\ name <> [46; 46].
Lemma collect_ok entries : forall names,
  (length names + length (filter file_entry entries) <= 256)%nat ->
  collect entries names = Ok (names ++ filter file_entry entries).
Proof.
  induction entries as [|e entries IH]; intros names Hl; [by rewrite app_nil_r|]. cbn [collect].
  rewrite filter_cons in *. unfold file_entry in *. destruct (decide (e = [46])) as [->|H1].
  { rewrite decide_False in * by naive_solver. by apply IH. }
  destruct (decide (e = [46; 46])) as [->|H2]; [rewrite decide_False in * by naive_solver; by apply IH|].
  rewrite decide_True in * by done. cbn [length] in Hl. rewrite (proj2 (Z.leb_gt _ _)) by lia.
  rewrite IH by (rewrite length_app; cbn; lia). by rewrite <- app_assoc.
Qed.

Lemma lookup_name_in l name n : NoDup l.*1 -> (name, n) ∈ l -> lookup_name l name = Some n.
Proof.
  induction l as [|[m k] l IH]; intros Hnd Hin; [by apply not_elem_of_nil in Hin|].
  cbn [fmap list_fmap fst] in Hnd. apply NoDup_cons in Hnd as [Hni Hnd]. cbn [lookup_name].
  apply elem_of_cons in Hin as [E|Hin]; [injection E as -> ->; by rewrite decide_True|].
  rewrite decide_False; [by apply IH|]. intros ->. apply Hni. apply list_elem_of_fmap. by exists (name, n).
Qed.

(** ** The image as the kernel's drive *)
Section BOOT.
Context {St : Type} `{AllocatorLaws St} (smp : bool) (drive : Z -> mem).
Context (f : file) (a : afs) (Hr : represents f a) (Hdrive : drive 1 = f_bytes f).
Context (sfuel : nat) (sb dir_inode file_inode : Z) (Hsf : (28 <= sfuel)%nat) (Hsb : 0 < sb).

(** The kernel mounts the file system and reads a file. *)
Definition boot_read (d : dstate St) (filename buffer start length : Z) : res (Z * dstate St) :=
  let! d := init_file_system smp drive sb d in
  read_file smp drive sfuel sb dir_inode file_inode d filename buffer start length.

Lemma drive_bytes : bytes_ok (drive 1).
Proof. rewrite Hdrive. apply Hr. Qed.

(** After the mount, inodes are where the tools put them, and the caller's memory is as it was. *)
Lemma mount_ok L d filename fname :
  layout smp sb dir_inode file_inode L d filename fname ->
  disjoint_from sb 24 filename (Z.of_nat (length fname) + 1) ->
  (buffers (d_alloc d) [SECTOR_SIZE] = None /\ init_file_system smp drive sb d = Err Panic) \/
  exists d', init_file_system smp drive sb d = Ok d' /\ buffers (d_alloc d) [SECTOR_SIZE] = Some (d_alloc d') /\ returns L d d' sb 24 /\
    layout smp sb dir_inode file_inode L d' filename fname /\ forall n, inode_at sb d' n = inode_pos n.
Proof.
  intros [Hrd Hpos Hr1 Hr2 Hr3 Hr4 Hap Hs Hch] Hdis. unfold init_file_system, init_ext2_fs, superblock_size.
  destruct (read_hard_disk_ok smp drive drive_bytes L d sb 0 24) as [E|(d' & E & Hg & Hret & Hcp)]; try done; try lia; [by left|right].
  exists d'. split; [done|]. split; [done|]. split; [done|]. split.
  - split; try done; [by apply (returns_ready smp L d d' sb 24)|]. intros i c Hi. rewrite <- (Hs i c Hi).
    apply lookup_lt_Some in Hi. rewrite length_app in Hi. cbn [length] in Hi.
    apply (rt_frame _ _ _ _ _ Hret); [apply (reserved_part _ _ _ _ _ Hr3); lia|unfold disjoint_from in Hdis; lia].
  - intros n. unfold inode_at, inode_table_blk, inode_pos. rewrite (copied_load32 _ _ _ _ 24 16 Hcp) by lia.
    rewrite Hdrive. destruct (co_super _ _ (rp_core _ _ Hr)) as (_ & _ & E3 & _). unfold inode_table_blk in E3.
    rewrite E3. lia.
Qed.

(** The buffers that the mount, the lookup of a name and the read from [start] of a file of [size] bytes
    ask for, one after the other. *)
Definition boot_buffers (start size : Z) : list Z :=
  SECTOR_SIZE :: [SECTOR_SIZE; FS_BLOCK_SIZE] ++ SECTOR_SIZE :: if start >=? size then [] else [FS_BLOCK_SIZE].

Lemma boot_ok L d filename buffer start len x :
  layout smp sb dir_inode file_inode L d filename (af_name x) ->
  disjoint_from sb 24 filename (Z.of_nat (length (af_name x)) + 1) ->
  x ∈ a_files a -> lookup_name (root_entries a) (af_name x) = Some (af_inode x) ->
  0 < buffer -> 0 <= start -> 0 <= len -> start + len < 4294967296 ->
  reserved L buffer len -> disjoint_from buffer len file_inode 62 ->
  let count := if start >=? size_of (af_data x) then 0 else Z.min len (size_of (af_data x) - start) in
  match buffers (d_alloc d) (boot_buffers start (size_of (af_data x))) with
  | None => boot_read d filename buffer start len = Err Panic
  | Some m => exists d', boot_read d filename buffer start len = Ok (count, d') /\ d_alloc d' = m /\ owns (d_alloc d') L /\
    forall k : nat, Z.of_nat k < count -> af_data x !! (Z.to_nat start + k)%nat = Some (d_mem d' (buffer + Z.of_nat k))
  end.
Proof.
  intros Hly Hdis Hx Hlook Hb Hs Hl Hw Hrb Hbf count. unfold boot_read, boot_buffers. rewrite buffers_cons.
  destruct (mount_ok L d filename (af_name x) Hly Hdis) as [[-> ->]|(d1 & -> & -> & _ & Hly1 & Hino)]; [done|]. cbn [res_bind].
  destruct (file_valid f a Hr x Hx) as [Hv Hlen].
  pose proof (co_files _ _ (rp_core _ _ Hr)) as Hfs. rewrite Forall_forall in Hfs.
  destruct (Hfs x Hx) as [[Hi1 Hi2] _ _ _ _ _]. pose proof (co_inodes _ _ (rp_core _ _ Hr)) as Hin.
  assert (inode_type (drive 1) (inode_pos 1) = FS_DIR) as Edir by (rewrite Hdrive; by destruct (co_root _ _ (rp_core _ _ Hr)) as (-> & _)).
  assert (lookup_file drive sb d1 (af_name x) = Some (af_inode x)) as Elook.
  { unfold lookup_file. rewrite Hino. unfold current_dir_inode. rewrite Edir. cbn [Z.eqb FS_DIR Pos.eqb]. rewrite Hdrive. by rewrite (root_find f a). }
  assert (read_buffers drive sb d1 (af_name x) start =
    [SECTOR_SIZE; FS_BLOCK_SIZE] ++ SECTOR_SIZE :: if start >=? size_of (af_data x) then [] else [FS_BLOCK_SIZE]) as Ebuf.
  { unfold read_buffers, lookup_buffers. rewrite Elook, !Hino. unfold current_dir_inode. rewrite Edir. cbn [Z.eqb FS_DIR Pos.eqb]. by rewrite Hdrive, Hlen. }
  rewrite <- Ebuf. destruct (read_data_ok smp drive drive_bytes sfuel sb dir_inode file_inode Hsf L d1 filename (af_name x)
    buffer start len (af_inode x)) as [[-> E]|(d' & E & -> & Hlv & Hdata)]; rewrite ?Hino; try done;
    try (unfold inode_pos, current_dir_inode; lia).
  - intros _. rewrite Hdrive. by apply (root_valid f a).
  - by rewrite Hdrive.
  - rewrite Hino, Hdrive, Hlen in E, Hdata. fold count in E, Hdata, Hlv. exists d'. split; [done|]. split; [done|].
    split; [apply Hlv|]. intros k Hk. rewrite Hdata by lia.
    unfold count, size_of in Hk. rewrite Z.geb_leb in Hk. destruct (Z.leb_spec (Z.of_nat (length (af_data x))) start); [lia|].
    destruct (lookup_lt_is_Some_2 (af_data x) (Z.to_nat start + k)) as [c Hc]; [lia|].
    rewrite Hc. f_equal. symmetry. replace (start + Z.of_nat k) with (Z.of_nat (Z.to_nat start + k)) by lia.
    by apply (file_bytes f a).
Qed.
End BOOT.

(** The whole directory. *)
Lemma root_entries_names a : fst <$> root_entries a = [46] :: [46; 46] :: (af_name <$> a_files a).
Proof. unfold root_entries. rewrite !fmap_cons, <- list_fmap_compose. done. Qed.

Lemma packed_lookup host dir_path names a name data :
  fits host dir_path names -> packed host dir_path names 2 (a_files a) -> name ∈ names ->
  host (file_path dir_path name) = Some data ->
  exists x, x ∈ a_files a /\ af_name x = name /\ af_data x = data /\ lookup_name (root_entries a) name = Some (af_inode x).
Proof.
  intros Hf [P1 _ P3] Hn Hd. rewrite <- P1 in Hn. apply list_elem_of_fmap in Hn as (x & -> & Hx). exists x.
  rewrite Forall_forall in P3. pose proof (P3 x Hx) as E. split; [done|]. split; [done|]. split; [congruence|].
  apply lookup_name_in; [rewrite root_entries_names, P1; apply Hf|].
  unfold root_entries. rewrite !elem_of_cons, list_elem_of_fmap. right; right. by exists x.
Qed.

Lemma write_disk_image_ok uninit disk host dir_path entries :
  425984 <= f_size disk -> bytes_ok (f_bytes disk) ->
  let names := filter file_entry entries in
  fits host dir_path names ->
  exists a image, represents image a /\ packed host dir_path names 2 (a_files a) /\
    write_disk_image uninit dir_path (Some entries) host (Some (mkfs disk)) =
      Ok (Some (root_entries a, Z.of_nat (length (root_entries a)), [], image)).
Proof.
  intros Hs Hb names [F1 F2 F3 F4]. unfold write_disk_image.
  rewrite collect_ok by (cbn; fold names; lia). cbn [app res_bind]. fold names.
  destruct (inject_all_ok uninit host dir_path names (mkfs disk) fresh_fs) as [H1 H2].
  { by apply mkfs_ok. }
  { cbn. lia. }
  { eapply Forall_impl; [exact F3|]. intros n (Hch & _ & data & -> & Hby & Hsz). split; [done|]. split; [done|lia]. }
  destruct (pack_ok host dir_path names fresh_fs F3) as (P1 & l & P2 & P3); [cbn; lia|done|cbn; lia|].
  destruct (inject_all uninit host dir_path names (mkfs disk)) as [g m]. cbn [fst snd] in *.
  destruct (print_ok uninit g _ H1) as (image & -> & Eb & Es). cbn [res_bind]. rewrite H2, P1.
  eexists _, image. split; [by apply (represents_same g)|]. split; [|done]. by rewrite P2.
Qed.

(** A file of more than [2 ^ 32 - 4096] bytes is taken for one without blocks. *)
Lemma blocks_for_wraps size : 4294963200 < size < 4294967296 -> blocks_for size = 0.
Proof. intros Hs. unfold blocks_for, FS_BLOCK_SIZE, u32. zdiv. Qed.

(** ** Properties *)
Section PROPERTIES.
Context (uninit : mem).

(** C21: on an image of a file system, [inject_file] is the abstract operation: the
    same messages for a file that cannot be opened, is too large, or finds no
    free block or inode, which leave the file system as it was; a full directory
    keeps the inode and the blocks; and otherwise the image is that of the file
    system with the new file, whose data, inode and entry are written and no
    other file's.  The image has at least the 104 blocks that [mkfs] writes.  The number of inodes handed
    out is below 6606, what the inode table has room for, or 32768, when the bitmap is full and no inode is
    found; in between the tool writes the inode past the table, over the root directory (see the findings). *)
Theorem inject_file_refines (f : file) (a : afs) (external : option (list Z)) (name : list Z)
    (Hr : represents f a) (Hi : a_inodes a < table_inodes \/ a_inodes a = 32768) (Hh : host_ok external) (Hn : Forall char_ok name) :
  let r := inject_file uninit f (file_of <$> external) name in
  represents (fst r) (fst (fs_inject a external name)) /\ snd r = snd (fs_inject a external name).
Proof. exact (inject_ok uninit f a external name Hr Hi Hh Hn). Qed.

(** C5: what the tools store is what the kernel reads.  Let the files of a directory
    fit on the image: [mkfs] and then [write_disk_image] end without a message,
    having listed the files by their names; and when the kernel mounts the image as its drive
    and reads one of the files by its name, with [start + len] below 2^32, it returns the number of
    bytes that there are from [start], at most [len], and its buffer holds exactly those bytes of the host's
    file.  The mount and the read panic exactly when the allocator refuses one of the buffers of
    [boot_buffers], a sector or a block each, taken and released one after the other.  The image file has
    the 104 blocks at least that [mkfs] writes; the name and the buffer of the read are in memory, apart from the
    kernel's variables and local structures ([layout], [reserved]). *)
Theorem image_round_trip (disk : file) (host : list Z -> option (list Z)) (dir_path : list Z) (entries : list (list Z))
    (Hsize : 425984 <= f_size disk) (Hbytes : bytes_ok (f_bytes disk))
    (Hfits : fits host dir_path (filter file_entry entries)) :
  let names := filter file_entry entries in
  exists lines count image,
    write_disk_image uninit dir_path (Some entries) host (Some (mkfs disk)) = Ok (Some (lines, count, [], image)) /\
    fst <$> lines = [46] :: [46; 46] :: names /\ count = 2 + Z.of_nat (length names) /\
    forall (St : Type) (EqA : Allocator St) (Laws : AllocatorLaws St) smp drive sfuel sb dir_inode file_inode L d filename
      name data buffer start len,
      drive 1 = f_bytes image -> (28 <= sfuel)%nat -> 0 < sb ->
      layout smp sb dir_inode file_inode L d filename name ->
      disjoint_from sb 24 filename (Z.of_nat (length name) + 1) ->
      name ∈ names -> host (file_path dir_path name) = Some data ->
      0 < buffer -> 0 <= start -> 0 <= len -> start + len < 4294967296 ->
      reserved L buffer len -> disjoint_from buffer len file_inode 62 ->
      let count := if start >=? size_of data then 0 else Z.min len (size_of data - start) in
      let read := boot_read smp drive sfuel sb dir_inode file_inode d filename buffer start len in
      match buffers (d_alloc d) (boot_buffers start (size_of data)) with
      | None => read = Err Panic
      | Some m => exists d', read = Ok (count, d') /\ d_alloc d' = m /\ owns (d_alloc d') L /\
          forall k : nat, Z.of_nat k < count -> data !! (Z.to_nat start + k)%nat = Some (d_mem d' (buffer + Z.of_nat k))
      end.
Proof.
  intros names. destruct (write_disk_image_ok uninit disk host dir_path entries Hsize Hbytes Hfits) as (a & image & Hr & Hp & E).
  fold names in Hp. eexists _, _, image. split; [exact E|]. split; [|split].
  - rewrite root_entries_names. by destruct Hp as [-> _ _].
  - rewrite root_entries_length. unfold entry_count. rewrite <- (pk_names _ _ _ _ _ Hp), length_fmap. lia.
  - intros St EqA Laws smp drive sfuel sb dir_inode file_inode L d filename name data buffer start len
      Hdr Hsf Hsb Hly Hdis Hn Hd Hb Hst Hl Hw Hrb Hbf.
    destruct (packed_lookup host dir_path names a name data Hfits Hp Hn Hd) as (x & Hx & <- & <- & Hlook).
    by apply (boot_ok smp drive image a Hr Hdr).
Qed.
End PROPERTIES.

(** ** Witnesses: a blank disk of 100 MB, and the directory ["p"] with the file ["a"]. *)
Definition blank_disk : file := mk_file zeroed 104857600 0.
Definition hello : list Z := [104; 101; 108; 108; 111].
Definition demo_host (path : list Z) : option (list Z) := if decide (path = [112; 47; 97]) then Some hello else None.
Definition demo_entries : list (list Z) := [[46]; [97]; [46; 46]].

Lemma hello_bytes : byte_list hello.
Proof. repeat constructor; lia. Qed.

Lemma demo_fits : fits demo_host [112] (filter file_entry demo_entries).
Proof.
  change (filter file_entry demo_entries) with [[97]]. split.
  - apply (bool_decide_unpack _). by vm_compute.
  - cbn. lia.
  - apply Forall_singleton. split; [apply Forall_singleton; unfold char_ok; lia|]. split; [cbn; lia|].
    exists hello. split; [done|]. split; [apply hello_bytes|by vm_compute].
  - by vm_compute.
Qed.

(** The fresh image with a full bitmap of inodes. *)
Definition no_inodes : afs := mk_afs 32768 1 [].
Definition exhausted_image : file :=
  mk_file (fun x => if (4096 <=? x) && (x <? 8192) then 255 else f_bytes (mkfs blank_disk) x) (f_size (mkfs blank_disk)) (f_pos (mkfs blank_disk)).
Lemma exhausted_represents : represents exhausted_image no_inodes.
Proof.
  destruct (mkfs_ok blank_disk ltac:(cbn; lia) zeroed_bytes) as [Hc Hi Hd].
  assert (forall x, ~ in_range 4096 4096 x -> f_bytes exhausted_image x = f_bytes (mkfs blank_disk) x) as Hout.
  { intros x Hx. unfold exhausted_image, in_range in *. cbn [f_bytes]. replace ((4096 <=? x) && (x <? 8192)) with false; [done|]. symmetry.
    destruct (Z.leb_spec 4096 x), (Z.ltb_spec x 8192); (done || lia). }
  assert (core exhausted_image fresh_fs) as [K1 K2 K3 K4 K5 K6 K7 K8 K9].
  { apply (core_frame (in_range 4096 4096) (mkfs blank_disk)); [done| | |].
    - split; [done|]. intros x _ Hx. by apply Hout.
    - intros y Hy. left. unfold in_range in *. lia.
    - intros x. unfold exhausted_image. cbn [f_bytes]. destruct (_ && _); [lia|]. apply Hc. }
  split; [split; try done; cbn; lia| |].
  - intros i Hi'. unfold exhausted_image. cbn [f_bytes]. assert (4096 <= 4096 + i / 8 < 8192) as Hb by zdiv.
    rewrite (proj2 (Z.leb_le _ _)), (proj2 (Z.ltb_lt _ _)) by lia. cbn [andb]. rewrite (proj2 (Z.ltb_lt i _)) by (cbn; lia).
    change 255 with (Z.ones 8). apply Z.ones_spec_low. zdiv.
  - apply (prefix_agree (f_bytes (mkfs blank_disk))); [|exact Hd]. intros x Hx. apply Hout. unfold in_range in *. lia.
Qed.

Lemma inject_file_refines_witness :
  (let r := inject_file zeroed (mkfs blank_disk) (Some (file_of hello)) [97] in
   represents (fst r) (mk_afs 3 2 [mk_afile [97] 2 1 hello]) /\ snd r = []) /\
  snd (inject_file zeroed exhausted_image (Some (file_of hello)) [97]) = [FailedToAllocate].
Proof.
  assert (host_ok (Some hello)) as Hh by (split; [apply hello_bytes|by vm_compute]).
  assert (Forall char_ok [97]) as Hn by (apply Forall_singleton; unfold char_ok; lia).
  assert (a_inodes fresh_fs < table_inodes) as Hi by (by vm_compute).
  split.
  - exact (inject_file_refines zeroed (mkfs blank_disk) fresh_fs (Some hello) [97]
      (mkfs_ok blank_disk ltac:(cbn; lia) zeroed_bytes) (or_introl Hi) Hh Hn).
  - apply (inject_file_refines zeroed exhausted_image no_inodes (Some hello) [97] exhausted_represents (or_intror eq_refl) Hh Hn).
Defined.

Lemma image_round_trip_witness :
  exists lines count image,
    write_disk_image zeroed [112] (Some demo_entries) demo_host (Some (mkfs blank_disk)) = Ok (Some (lines, count, [], image)) /\
    fst <$> lines = [[46]; [46; 46]; [97]] /\
    exists d', boot_read (St := bump) true (fun _ => f_bytes image) 28 100 200 300 demo_device 400 500 1 100 = Ok (4, d') /\
      d_mem d' 500 = 101 /\ d_mem d' 503 = 111.
Proof.
  destruct (image_round_trip zeroed blank_disk demo_host [112] demo_entries ltac:(cbn; lia) zeroed_bytes demo_fits)
    as (lines & count & image & E & E1 & _ & Hk).
  exists lines, count, image. split; [exact E|]. split; [exact E1|].
  opose proof* (Hk bump _ _ true (fun _ => f_bytes image) 28%nat 100 200 300 demo_blocks demo_device 400 [97] hello 500 1 100) as Hr;
    [reflexivity|lia|lia|exact demo_layout|unfold disjoint_from; cbn; lia|vm_compute; left|by vm_compute
    |lia|lia|lia|lia|apply demo_reserved; lia|unfold disjoint_from; lia|].
  apply bump_served in Hr as (m & d' & Hok & _ & _ & Hd). exists d'. split; [exact Hok|]. split.
  - pose proof (Hd 0%nat eq_refl) as H. change (Some 101 = Some (d_mem d' 500)) in H. congruence.
  - pose proof (Hd 3%nat eq_refl) as H. change (Some 111 = Some (d_mem d' 503)) in H. congruence.
Defined.
