(* ===== verification/Format.v ===== *)
(** Formatted output: the conversions that [src/src/monitor/monitor.c] (the screen) and
    [src/user/src/user_sys/user_io.c] (the buffer of a user program) write alike.  Where
    the characters go is an interface, [Sink]; the theorems are for every sink. *)
From S2P Require Import Prelude Memory Strings StringsSpec.

(** What takes one character. *)
Class Sink (T : Type) := put_char : T -> Z -> res T.

Section DEFS.
Context {T : Type} {HT : Sink T}.

(** Characters one after the other. *)
Fixpoint print_chars (s : T) (l : list Z) : res T :=
  match l with
  | [] => Ok s
  | c :: l => let! s := put_char s c in print_chars s l
  end.

(** [monitor_write_str] from character [i]. *)
Fixpoint monitor_write_str (fuel : nat) (s : T) (m : mem) (str : Z) : res T :=
  match fuel with
  | O => Err NoFuel
  | S fuel =>
      if load8 m str =? 0 then Ok s
      else let! s := put_char s (load8 m str) in monitor_write_str fuel s m (str + 1)
  end.

(** The first loop of the three conversions: what it stores in [itoc]. *)
Fixpoint itoc (n : nat) (base : Z) (digit : Z -> Z) (num : Z) : list Z :=
  match n with
  | O => []
  | S n => if num =? 0 then [] else digit (num mod base) :: itoc n base digit (num / base)
  end.
(** The second loop, from the last element down; a zero is not printed. *)
Definition print_itoc (s : T) (l : list Z) : res T :=
  print_chars s (filter (fun c => c <> 0) (rev l)).
Definition write_number (s : T) (base : Z) (digit : Z -> Z) (num : Z) : res T :=
  if num =? 0 then put_char s 48 else print_itoc s (itoc 30 base digit num).

(** [unum % 10 + '0'], and the digit of [monitor_write_hex]. *)
Definition dec_char (rem : Z) : Z := rem + 48.
Definition hex_char (rem : Z) : Z := if rem <? 10 then rem + 48 else rem - 10 + 97.

(** [monitor_write_dec], of an [int32_t] *)
Definition monitor_write_dec (s : T) (num : Z) : res T :=
  if num =? 0 then put_char s 48
  else if num <? 0 then
    let! s := put_char s 45 in
    print_itoc s (itoc 30 10 dec_char (u32 (- num)))
  else print_itoc s (itoc 30 10 dec_char num).

(** [monitor_write_udec], [monitor_write_hex] *)
Definition monitor_write_udec (s : T) (num : Z) : res T := write_number s 10 dec_char num.
Definition monitor_write_hex (s : T) (num : Z) : res T := write_number s 16 hex_char num.

Section PRINTF.
(** The bound of the strings, and the literal ["(null)"]. *)
Context (sfuel : nat) (null_str : Z).

(** One conversion of [monitor_printf_args_nolock]; the arguments are words. *)
Definition print_conversion (s : T) (m : mem) (c : Z) (args : list Z) : res (T * list Z) :=
  let word (f : Z -> res T) :=
    match args with
    | n :: args => let! s := f n in Ok (s, args)
    | [] => Err Fault
    end in
  match c with
  | 100 => word (fun n => monitor_write_dec s (s32 n))
  | 117 => word (fun n => monitor_write_udec s n)
  | 120 | 88 => word (fun n => monitor_write_hex s n)
  | 115 => word (fun str => monitor_write_str sfuel s m (if str =? 0 then null_str else str))
  | 99 => word (fun n => put_char s (u8 n))
  | 37 => let! s := put_char s 37 in Ok (s, args)
  | _ =>
      let! s := put_char s 37 in
      let! s := put_char s c in
      Ok (s, args)
  end.

(** [monitor_printf_args_nolock], from the format's character at [format]. *)
Fixpoint monitor_printf_args_nolock (fuel : nat) (s : T) (m : mem) (format : Z) (args : list Z) : res T :=
  match fuel with
  | O => Err NoFuel
  | S fuel =>
      if load8 m format =? 0 then Ok s
      else if load8 m format =? 37 then
        if load8 m (format + 1) =? 0 then Ok s
        else
          let! (s, args) := print_conversion s m (load8 m (format + 1)) args in
          monitor_printf_args_nolock fuel s m (format + 2) args
      else
        let! s := put_char s (load8 m format) in
        monitor_printf_args_nolock fuel s m (format + 1) args
  end.
End PRINTF.
End DEFS.

(** ** What is printed *)
Section SPEC.
Context {T : Type} {HT : Sink T}.
Lemma char_byte l : Forall char_ok l -> Forall (fun c => 0 <= c < 256) l.
Proof. intros H. eapply Forall_impl; [exact H|]. unfold char_ok. intros; lia. Qed.

Lemma write_str_chars str m : forall fuel s a,
  holds m a (str ++ [0]) -> Forall char_ok str -> (length str < fuel)%nat ->
  monitor_write_str fuel s m a = print_chars s str.
Proof.
  induction str as [|c str IH]; intros [|fuel] s a Hh Hc Hf; cbn [length] in Hf; try lia; cbn [monitor_write_str print_chars];
    unfold load8.
  - pose proof (Hh 0%nat 0 eq_refl) as H0. rewrite Z.add_0_r in H0. by rewrite H0.
  - apply Forall_cons in Hc as [Hc0 Hc]. destruct (holds_cons m a c (str ++ [0]) Hh) as [-> Hh'].
    unfold char_ok in Hc0. rewrite (proj2 (Z.eqb_neq c 0)) by lia.
    destruct (put_char s c) as [s'|]; cbn [res_bind]; [|done]. apply IH; [done|done|lia].
Qed.

(** The digits as [number] has them. *)
Lemma itoc_digits base digit digit' k : forall num,
  1 < base -> 0 <= num -> (forall r, 0 <= r < base -> digit r = digit' r) ->
  rev (itoc k base digit num) = digits k base digit' num.
Proof.
  induction k as [|k IH]; intros num Hb Hn Hd; [done|]. cbn [itoc digits]. rewrite Z.gtb_ltb.
  destruct (Z.eqb_spec num 0) as [->|]; [done|]. rewrite (proj2 (Z.ltb_lt 0 num)) by lia. cbn [rev].
  rewrite IH by (done || apply Z.div_pos; lia). rewrite Hd by (apply Z.mod_pos_bound; lia). done.
Qed.

Lemma digits_more base digit k : forall n j,
  1 < base -> 0 <= n < base ^ Z.of_nat k -> digits (k + j) base digit n = digits k base digit n.
Proof.
  induction k as [|k IH]; intros n j Hb Hn.
  - cbn in Hn. assert (n = 0) as -> by lia. by destruct j.
  - cbn [digits Nat.add]. destruct (n >? 0); [|done]. f_equal. apply IH; [done|].
    rewrite Nat2Z.inj_succ, Z.pow_succ_r in Hn by lia.
    split; [apply Z.div_pos; lia|]. apply Z.div_lt_upper_bound; lia.
Qed.

Lemma print_itoc_ok base digit digit' num s :
  10 <= base <= 16 -> 0 < num < 4294967296 -> (forall r, 0 <= r < base -> digit r = digit' r) ->
  (forall r, 0 <= r < base -> char_ok (digit' r) /\ undigit (digit' r) = r) ->
  print_itoc s (itoc 30 base digit num) = print_chars s (number base digit' num).
Proof.
  intros Hb Hn Hd Hc. unfold print_itoc. rewrite (itoc_digits base digit digit' 30) by (done || lia).
  unfold number. rewrite (proj2 (Z.eqb_neq num 0)) by lia.
  change (digits 30 base digit' num) with (digits (10 + 20) base digit' num).
  rewrite (digits_more base digit' 10 num 20) by (lia || by apply (pow_bound base); lia). f_equal.
  pose proof (digits_chars base digit' Hb Hc 10 num ltac:(lia)) as H. revert H. generalize (digits 10 base digit' num).
  intros l Hl. induction Hl as [|c l Hc0 _ IH]; [done|]. rewrite filter_cons, decide_True, IH; [done|unfold char_ok in Hc0; lia].
Qed.

Lemma dec_char_digit r : dec_char r = dec_digit r.
Proof. unfold dec_char, dec_digit. lia. Qed.

Lemma hex_char_digit r : hex_char r = hex_digit r.
Proof. unfold hex_char, hex_digit. destruct (Z.ltb_spec r 10), (Z.leb_spec r 9); lia. Qed.

Lemma write_udec_ok num s : 0 <= num < 4294967296 -> monitor_write_udec s num = print_chars s (uint_string num).
Proof.
  intros Hn. unfold monitor_write_udec, write_number, uint_string. destruct (Z.eqb_spec num 0) as [->|].
  - cbn. by destruct (put_char s 48).
  - apply print_itoc_ok; [lia|lia|by intros; apply dec_char_digit|apply dec_digit_ok].
Qed.

Lemma write_hex_ok num s : 0 <= num < 4294967296 -> monitor_write_hex s num = print_chars s (number 16 hex_digit num).
Proof.
  intros Hn. unfold monitor_write_hex, write_number. destruct (Z.eqb_spec num 0) as [->|].
  - cbn. by destruct (put_char s 48).
  - apply print_itoc_ok; [lia|lia|by intros; apply hex_char_digit|apply hex_digit_ok].
Qed.

Lemma write_dec_ok num s : -2147483648 <= num < 2147483648 -> monitor_write_dec s num = print_chars s (int_string num).
Proof.
  intros Hn. unfold monitor_write_dec, int_string. destruct (Z.eqb_spec num 0) as [->|].
  - cbn. by destruct (put_char s 48).
  - destruct (Z.ltb_spec num 0).
    + rewrite u32_small by lia. cbn [print_chars]. destruct (put_char s 45) as [s1|]; cbn [res_bind]; [|done].
      apply print_itoc_ok; [lia|lia|by intros; apply dec_char_digit|apply dec_digit_ok].
    + apply print_itoc_ok; [lia|lia|by intros; apply dec_char_digit|apply dec_digit_ok].
Qed.

(** ** Formats *)
Section FORMAT.
Context (sfuel : nat) (null_str : Z) (m : mem).

(** A string in memory, within the bound. *)
Definition string_at (a : Z) (s : list Z) : Prop :=
  holds m a (s ++ [0]) /\ Forall char_ok s /\ (length s < sfuel)%nat.

(** What a conversion prints, given its argument. *)
Inductive converts_to : Z -> Z -> list Z -> Prop :=
  | to_int n : converts_to 100 n (int_string (s32 n))
  | to_uint n : 0 <= n < 4294967296 -> converts_to 117 n (uint_string n)
  | to_hex c n : c = 120 \/ c = 88 -> 0 <= n < 4294967296 -> converts_to c n (number 16 hex_digit n)
  | to_string a s : string_at (if a =? 0 then null_str else a) s -> converts_to 115 a s
  | to_char n : converts_to 99 n [u8 n].

(** What a format prints, with the arguments it consumes. *)
Inductive prints : list Z -> list Z -> list Z -> Prop :=
  | prints_end args : prints [] args []
  | prints_percent_end args : prints [37] args []
  | prints_conversion c n s fmt args out :
      converts_to c n s -> prints fmt args out -> prints (37 :: c :: fmt) (n :: args) (s ++ out)
  | prints_percent fmt args out : prints fmt args out -> prints (37 :: 37 :: fmt) args (37 :: out)
  | prints_unknown c fmt args out :
      char_ok c -> c ∉ [100; 117; 120; 88; 115; 99; 37] ->
      prints fmt args out -> prints (37 :: c :: fmt) args (37 :: c :: out)
  | prints_plain c fmt args out :
      c <> 37 -> char_ok c -> prints fmt args out -> prints (c :: fmt) args (c :: out).

Lemma converted_ok c n s args st :
  converts_to c n s ->
  print_conversion sfuel null_str st m c (n :: args) = (let! st := print_chars st s in Ok (st, args)) /\
  Forall (fun c => 0 <= c < 256) s /\ c <> 0.
Proof.
  intros [k|k Hk|c' k [->| ->] Hk|a str (Hh & Hc & Hl)|k]; cbn [print_conversion].
  - rewrite write_dec_ok by apply s32_range. split; [done|split; [|done]]. apply char_byte, int_string_chars, s32_range.
  - rewrite write_udec_ok by done. split; [done|split; [|done]]. apply char_byte.
    apply (number_chars 10 dec_digit); [lia|apply dec_digit_ok|lia].
  - rewrite write_hex_ok by done. split; [done|split; [|done]]. apply char_byte.
    apply (number_chars 16 hex_digit); [lia|apply hex_digit_ok|lia].
  - rewrite write_hex_ok by done. split; [done|split; [|done]]. apply char_byte.
    apply (number_chars 16 hex_digit); [lia|apply hex_digit_ok|lia].
  - rewrite (write_str_chars str) by done. split; [done|split; [|done]]. by apply char_byte.
  - cbn [print_chars]. split; [by destruct (put_char st (u8 k))|]. split; [|done].
    apply Forall_singleton, u8_range.
Qed.

Lemma print_chars_app l1 : forall l2 s, print_chars s (l1 ++ l2) = let! s := print_chars s l1 in print_chars s l2.
Proof.
  induction l1 as [|c l1 IH]; intros l2 s; [done|]. cbn [app print_chars].
  destruct (put_char s c); cbn [res_bind]; [apply IH|done].
Qed.

Lemma unknown_conversion c args st :
  c ∉ [100; 117; 120; 88; 115; 99; 37] ->
  print_conversion sfuel null_str st m c args = let! st := print_chars st [37; c] in Ok (st, args).
Proof.
  intros Hc.
  assert (print_conversion sfuel null_str st m c args =
    let! st := put_char st 37 in let! st := put_char st c in Ok (st, args)) as ->.
  { unfold print_conversion. repeat case_match; try done; exfalso; subst; apply Hc; set_solver. }
  cbn [print_chars]. destruct (put_char st 37) as [s1|]; cbn [res_bind]; [|done].
  by destruct (put_char s1 c).
Qed.

Lemma holds_zero a : holds m a [0] -> m a = 0.
Proof. intros H. pose proof (H 0%nat 0 eq_refl) as E. by rewrite Z.add_0_r in E. Qed.

(** The run over a format prints its text. *)
Lemma printf_chars fmt args out :
  prints fmt args out -> forall fuel s a, holds m a (fmt ++ [0]) -> (length fmt < fuel)%nat ->
  monitor_printf_args_nolock sfuel null_str fuel s m a args = print_chars s out /\ Forall (fun c => 0 <= c < 256) out.
Proof.
  induction 1 as [args|args|c n str fmt args out Hcv _ IH|fmt args out _ IH|c fmt args out Hc Hn _ IH|c fmt args out Hne Hc _ IH];
    intros [|fuel] s a Hh Hf; cbn [length] in Hf; try lia; cbn [monitor_printf_args_nolock]; unfold load8;
    cbn [app] in Hh.
  - by rewrite (holds_zero a Hh).
  - rewrite (proj1 (holds_cons _ _ _ _ Hh)). cbn [Z.eqb Pos.eqb].
    by rewrite (holds_zero (a + 1) (proj2 (holds_cons _ _ _ _ Hh))).
  - apply holds_cons in Hh as [-> Hh]. apply holds_cons in Hh as [-> Hh]. cbn [Z.eqb Pos.eqb].
    destruct (converted_ok c n str args s Hcv) as (-> & Hb & Hc0). rewrite (proj2 (Z.eqb_neq c 0)) by done.
    rewrite print_chars_app. destruct (IH fuel s (a + 1 + 1) Hh ltac:(lia)) as [_ Hout].
    split; [|by apply Forall_app]. destruct (print_chars s str) as [s1|]; cbn [res_bind]; [|done].
    rewrite <- Z.add_assoc in Hh. by apply IH; [|lia].
  - apply holds_cons in Hh as [-> Hh]. apply holds_cons in Hh as [-> Hh]. cbn [Z.eqb Pos.eqb print_conversion].
    cbn [print_chars]. destruct (IH fuel s (a + 1 + 1) Hh ltac:(lia)) as [_ Hout].
    split; [|apply Forall_cons; split; [lia|done]]. destruct (put_char s 37) as [s1|]; cbn [res_bind]; [|done].
    rewrite <- Z.add_assoc in Hh. by apply IH; [|lia].
  - apply holds_cons in Hh as [-> Hh]. apply holds_cons in Hh as [-> Hh]. cbn [Z.eqb Pos.eqb].
    unfold char_ok in Hc. rewrite (proj2 (Z.eqb_neq c 0)) by lia. rewrite unknown_conversion by done.
    destruct (IH fuel s (a + 1 + 1) Hh ltac:(lia)) as [_ Hout].
    split; [|repeat (apply Forall_cons; split; [lia|]); done]. change (37 :: c :: out) with ([37; c] ++ out).
    rewrite print_chars_app. destruct (print_chars s [37; c]) as [s1|]; cbn [res_bind]; [|done].
    rewrite <- Z.add_assoc in Hh. by apply IH; [|lia].
  - apply holds_cons in Hh as [-> Hh]. unfold char_ok in Hc. rewrite (proj2 (Z.eqb_neq c 0)), (proj2 (Z.eqb_neq c 37)) by lia.
    cbn [print_chars]. destruct (IH fuel s (a + 1) Hh ltac:(lia)) as [_ Hout].
    split; [|apply Forall_cons; split; [lia|done]]. destruct (put_char s c) as [s1|]; cbn [res_bind]; [|done].
    by apply IH; [|lia].
Qed.
End FORMAT.
End SPEC.
