(* ===== verification/UserIO.v ===== *)
(** User programs: the terminal library [src/user/src/user_sys/user_io.c] and
    the shell, [src/user/src/user_file/shell.c].  The kernel is behind system calls: what is
    printed is a log, the keys typed are a list, and the other calls are recorded. *)
From S2P Require Import Prelude Memory Strings StringsSpec Format.

(** ** [user_io.c] *)
Definition buf_size : Z := 500.
(** The global variables, the strings handed to the print call, first first, and the keys that the
    read call will return. *)
Record uio : Type := mk_uio { buf : list Z; pos : Z; printed : list (list Z); keys : list Z }.
Definition with_buf (s : uio) (b : list Z) (p : Z) : uio := mk_uio b p (printed s) (keys s).
Definition with_keys (s : uio) (l : list Z) : uio := mk_uio (buf s) (pos s) (printed s) l.

(** [buf[pos++] = c] *)
Definition buf_put (s : uio) (c : Z) : res uio :=
  let! b := arr_set (buf s) (pos s) (u8 c) in Ok (with_buf s b (pos s + 1)).
#[export] Instance buf_sink : Sink uio := buf_put.

(** The string that starts an array: up to the first zero. *)
Fixpoint c_string (l : list Z) : res (list Z) :=
  match l with
  | [] => Err Fault
  | c :: l => if c =? 0 then Ok [] else let! s := c_string l in Ok (c :: s)
  end.

(** [syscall_print] *)
Definition syscall_print (s : uio) (text : list Z) : uio := mk_uio (buf s) (pos s) (printed s ++ [text]) (keys s).
(** ["print contents are too long"] *)
Definition too_long : list Z :=
  [112; 114; 105; 110; 116; 32; 99; 111; 110; 116; 101; 110; 116; 115; 32; 97; 114; 101; 32; 116; 111; 111; 32; 108; 111; 110; 103].

(** The conversions, copies of those of the kernel. *)
Definition user_write_str : nat -> uio -> mem -> Z -> res uio := monitor_write_str.
Definition user_write_dec : uio -> Z -> res uio := monitor_write_dec.
Definition user_write_udec : uio -> Z -> res uio := monitor_write_udec.
Definition user_write_hex : uio -> Z -> res uio := monitor_write_hex.

Section USER.
(** The bound of strings, and the literals of the program: ["(null)"], ["%c"], the prompt, and
    the message of [run_program]. *)
Context (sfuel fuel : nat) (null_str char_format prompt fork_failed : Z).

(** [format_to_buf] *)
Definition format_to_buf (s : uio) (m : mem) (format : Z) (args : list Z) : res uio :=
  monitor_printf_args_nolock sfuel null_str fuel s m format args.

(** [printf] *)
Definition printf (s : uio) (m : mem) (format : Z) (args : list Z) : res uio :=
  let! s := format_to_buf s m format args in
  let! s :=
    if pos s >=? buf_size then
      let! b := arr_set (buf s) 499 0 in Ok (syscall_print (with_buf s b (pos s)) too_long)
    else
      let! b := arr_set (buf s) (pos s) 0 in Ok (with_buf s b (pos s)) in
  let! text := c_string (buf s) in
  Ok (with_buf (syscall_print s text) (buf s) 0).

(** [readline], from character [i]: [l] are the keys to come.  Without a key the call waits. *)
Fixpoint readline_loop (l : list Z) (s : uio) (m : mem) (str i : Z) : res (uio * mem) :=
  match l with
  | [] => Err Blocked
  | c :: l =>
      let m := store8 m (str + i) c in
      let! s := printf s m char_format [u32 (s8 (load8 m (str + i)))] in
      if (load8 m (str + i) =? 10) || (load8 m (str + i) =? 13)
      then Ok (with_keys s l, store8 m (str + i) 0)
      else readline_loop l s m str (i + 1)
  end.
Definition readline (s : uio) (m : mem) (str : Z) : res (uio * mem) := readline_loop (keys s) s m str 0.

(** ** [shell.c] *)
Definition is_blank (c : Z) : bool := (c =? 32) || (c =? 9) || (c =? 10) || (c =? 13).
(** [while (P( *ptr)) ptr++] *)
Fixpoint skip (P : Z -> bool) (n : nat) (m : mem) (ptr : Z) : res Z :=
  match n with
  | O => Err NoFuel
  | S n => if P (load8 m ptr) then skip P n m (ptr + 1) else Ok ptr
  end.

(** The loop of [parse_cmd]. *)
Fixpoint parse_loop (n : nat) (m : mem) (ptr argv argc : Z) : res (mem * Z) :=
  match n with
  | O => Err NoFuel
  | S n =>
      if load8 m ptr =? 0 then Ok (m, argc)
      else
        let! ptr := skip is_blank fuel m ptr in
        if load8 m ptr =? 0 then Ok (m, argc)
        else
          let m := store32 m (argv + 4 * argc) ptr in
          let! ptr := skip (fun c => negb (c =? 0) && negb (is_blank c)) fuel m ptr in
          if negb (load8 m ptr =? 0) then parse_loop n (store8 m ptr 0) (ptr + 1) argv (argc + 1)
          else parse_loop n m ptr argv (argc + 1)
  end.
(** [parse_cmd] *)
Definition parse_cmd (m : mem) (cmd argv : Z) : res mem :=
  let! (m, argc) := parse_loop fuel m cmd argv 0 in Ok (store32 m (argv + 4 * argc) 0).

(** The system calls of [run_program]. *)
Inductive call : Type := Fork | Wait (pid : Z) | Exec (path argc argv : Z) | Exit (code : Z).

(** [while (argv[argc]) argc++] *)
Fixpoint count_args (n : nat) (m : mem) (argv argc : Z) : res Z :=
  match n with
  | O => Err NoFuel
  | S n => if load32 m (argv + 4 * argc) =? 0 then Ok argc else count_args n m argv (argc + 1)
  end.

(** [run_program], with the result of [fork] and that of [exec] if it returns. *)
Definition run_program (s : uio) (m : mem) (argv pid : Z) (ret : option Z) : res (uio * list call) :=
  let! argc := count_args fuel m argv 0 in
  if pid <? 0 then let! s := printf s m fork_failed [] in Ok (s, [Fork])
  else if pid >? 0 then Ok (s, [Fork; Wait pid])
  else Ok (s, [Fork; Exec (load32 m argv) argc argv] ++ match ret with Some r => [Exit r] | None => [] end).

(** One round of the loop of [main]. *)
Definition shell_round (s : uio) (m : mem) (command_line argv pid : Z) (ret : option Z) : res (uio * mem * list call) :=
  let! s := printf s m prompt [] in
  let! (s, m) := readline s m command_line in
  let! m := parse_cmd m command_line argv in
  if load32 m argv =? 0 then Ok (s, m, [])
  else let! (s, calls) := run_program s m argv pid ret in Ok (s, m, calls).
End USER.
