(* ===== verification/UserIOSpec.v ===== *)
(** The terminal library and the shell of [UserIO]: [printf] hands the kernel the text of its
    format, and a line typed at the shell becomes the words of a program's arguments. *)
From S2P Require Import Prelude Memory Strings StringsSpec Format UserIO.

(** ** The buffer *)
(** The text of an array up to its first zero, of a list that may have none. *)
Fixpoint until_zero (l : list Z) : list Z :=
  match l with [] => [] | c :: l => if c =? 0 then [] else c :: until_zero l end.

Lemma c_string_ok l r : c_string (l ++ 0 :: r) = Ok (until_zero l).
Proof. induction l as [|c l IH]; [done|]. cbn [app c_string until_zero]. destruct (c =? 0); [done|]. by rewrite IH. Qed.
Lemma until_zero_id l : Forall char_ok l -> until_zero l = l.
Proof. induction 1 as [|c l Hc _ IH]; [done|]. cbn. unfold char_ok in Hc. rewrite (proj2 (Z.eqb_neq c 0)) by lia. by rewrite IH. Qed.

Lemma put_chars_ok l : forall s, Forall (fun c => 0 <= c < 256) l -> 0 <= pos s <= buf_size -> Z.of_nat (length (buf s)) = buf_size ->
  print_chars s l =
    if decide (pos s + Z.of_nat (length l) <= buf_size)
    then Ok (with_buf s (take (Z.to_nat (pos s)) (buf s) ++ l ++ drop (Z.to_nat (pos s) + length l) (buf s)) (pos s + Z.of_nat (length l)))
    else Err Fault.
Proof.
  induction l as [|c l IH]; intros s Hl Hp Hb.
  - cbn [print_chars length app]. rewrite decide_True by lia. rewrite Nat.add_0_r, take_drop, Z.add_0_r. by destruct s.
  - apply Forall_cons in Hl as [Hc Hl]. cbn [print_chars length]. unfold put_char, buf_sink, buf_put. rewrite u8_small by done.
    destruct (decide (pos s < buf_size)) as [Hlt|Hge]; [|by rewrite decide_False by lia; unfold arr_set; rewrite decide_False by lia].
    rewrite arr_set_ok by lia. cbn [res_bind]. rewrite IH; [|done|cbn; lia|cbn; by rewrite length_insert].
    cbn [pos buf with_buf]. destruct (decide (pos s + 1 + Z.of_nat (length l) <= buf_size)); [rewrite decide_True by lia|by rewrite decide_False by lia].
    f_equal. unfold with_buf; cbn [printed keys]. f_equal; [|lia]. replace (Z.to_nat (pos s + 1)) with (S (Z.to_nat (pos s))) by lia.
    assert (take (S (Z.to_nat (pos s))) (<[Z.to_nat (pos s) := c]> (buf s)) = take (Z.to_nat (pos s)) (buf s) ++ [c]) as ->.
    { erewrite take_S_r by (apply list_lookup_insert_eq; lia). by rewrite take_insert_ge by lia. }
    rewrite <- app_assoc. cbn [app]. do 3 f_equal. rewrite drop_insert_lt by lia. f_equal. lia.
Qed.

(** ** [printf] *)
Section PRINTF.
Context (sfuel fuel : nat) (null_str : Z).

(** The buffer is empty and has its size. *)
Definition ready (s : uio) : Prop := pos s = 0 /\ length (buf s) = 500%nat.

Lemma printf_text s m format fmt args out : ready s -> holds m format (fmt ++ [0]) -> (length fmt < fuel)%nat -> prints sfuel null_str m fmt args out ->
  if decide (Z.of_nat (length out) <= buf_size)
  then exists s', printf sfuel fuel null_str s m format args = Ok s' /\ ready s' /\ keys s' = keys s /\
    printed s' = printed s ++ (if decide (Z.of_nat (length out) < buf_size) then [until_zero out] else [too_long; until_zero (take 499 out)])
  else printf sfuel fuel null_str s m format args = Err Fault.
Proof.
  intros [Hp Hb] Hh Hf Ho. unfold printf, format_to_buf.
  destruct (printf_chars sfuel null_str m fmt args out Ho fuel s format Hh Hf) as [-> Hc].
  rewrite put_chars_ok by (done || unfold buf_size; lia). rewrite Hp, Z.add_0_l. unfold buf_size in *.
  case_decide as Hle; [|done]. cbn [res_bind pos buf with_buf]. change (Z.to_nat 0) with 0%nat. rewrite take_0. cbn [app Nat.add].
  assert (length (out ++ drop (length out) (buf s)) = 500%nat) as Hl by (rewrite length_app, length_drop; lia).
  rewrite Z.geb_leb. case_decide as Hlt.
  - rewrite (proj2 (Z.leb_gt 500 _)) by lia. rewrite arr_set_ok by lia. cbn [res_bind buf with_buf]. rewrite Nat2Z.id.
    rewrite insert_app_r_alt by lia. rewrite Nat.sub_diag. destruct (drop (length out) (buf s)) as [|x r] eqn:E.
    { rewrite length_app in Hl. cbn in Hl. lia. }
    change (<[0%nat := 0]> (x :: r)) with (0 :: r). rewrite c_string_ok. cbn [res_bind]. eexists. split; [done|].
    split; [|done]. split; [done|]. cbn. rewrite length_app in *. cbn in *. lia.
  - rewrite (proj2 (Z.leb_le 500 _)) by lia. rewrite arr_set_ok by lia. cbn [res_bind buf with_buf syscall_print].
    assert (length out = 500%nat) as E by lia. rewrite (drop_ge (buf s)) by lia. rewrite app_nil_r in *.
    assert (<[Z.to_nat 499 := 0]> out = take 499 out ++ 0 :: []) as ->.
    { rewrite insert_take_drop by lia. by rewrite (drop_ge out) by lia. }
    rewrite c_string_ok. cbn [res_bind]. eexists. split; [done|]. split; [split; [done|]|split; [done|]].
    + cbn [buf with_buf syscall_print]. rewrite length_app, length_take, E. reflexivity.
    + cbn. by rewrite <- app_assoc.
Qed.
End PRINTF.

(** ** [readline] *)
Section READLINE.
Context (sfuel fuel : nat) (null_str char_format : Z).
Hypothesis Hfuel : (2 < fuel)%nat.

Lemma echo c s m : ready s -> 0 <= c < 256 -> holds m char_format [37; 99; 0] ->
  exists s', printf sfuel fuel null_str s m char_format [u32 (s8 c)] = Ok s' /\ ready s' /\ keys s' = keys s /\ printed s' = printed s ++ [until_zero [c]].
Proof.
  intros Hs Hc Hh. assert (u8 (u32 (s8 c)) = c) as E.
  { unfold s8, u8, u32. destruct (c mod 256 <? 128) eqn:E; bool_to_prop; zdiv. }
  pose proof (printf_text sfuel fuel null_str s m char_format [37; 99] [u32 (s8 c)] [c] Hs Hh Hfuel) as H. rewrite decide_True, decide_True in H by (cbn; unfold buf_size; lia).
  apply H. rewrite <- E at 2. apply (prints_conversion sfuel null_str m 99 _ [_] [] [] []); [apply to_char|apply prints_end].
Qed.

Lemma store8_shift m a v : 0 <= v < 256 -> load8 (store8 m a v) a = v.
Proof. intros. unfold load8. by rewrite store8_eq, u8_small. Qed.

Lemma readline_loop_ok line : forall s m str i e rest, ready s -> Forall (fun c => char_ok c /\ c <> 10 /\ c <> 13) line -> e = 10 \/ e = 13 ->
  holds m char_format [37; 99; 0] -> disjoint_from char_format 3 (str + i) (Z.of_nat (length line) + 1) ->
  exists s' m', readline_loop sfuel fuel null_str char_format (line ++ e :: rest) s m str i = Ok (s', m') /\
    ready s' /\ keys s' = rest /\ printed s' = printed s ++ ((fun c => [c]) <$> line ++ [e]) /\
    holds m' (str + i) (line ++ [0]) /\ same_outside m m' (str + i) (str + i + Z.of_nat (length line) + 1).
Proof.
  induction line as [|c line IH]; intros s m str i e rest Hs Hl He Hh Hd; cbn [app readline_loop].
  - assert (0 <= e < 256) as He' by lia. rewrite (store8_shift m (str + i) e He').
    destruct (echo e s (store8 m (str + i) e) Hs He') as (s1 & -> & R & K & P).
    { eapply holds_same; [done|apply same_outside_store8|cbn in *; unfold disjoint_from in *; lia]. }
    cbn [res_bind]. assert ((e =? 10) || (e =? 13) = true) as -> by (by destruct He as [-> | ->]).
    eexists _, _. split; [done|]. split; [done|]. split; [done|]. split; [cbn; rewrite P; by destruct He as [-> | ->]|]. split.
    + apply holds_single. by rewrite store8_eq.
    + eapply same_outside_trans; [|eapply same_outside_weaken; [apply same_outside_store8|cbn; lia..]].
      eapply same_outside_weaken; [apply same_outside_store8|cbn; lia..].
  - apply Forall_cons in Hl as [(Hc & H10 & H13) Hl]. assert (0 <= c < 256) as Hc' by (unfold char_ok in Hc; lia).
    rewrite (store8_shift m (str + i) c Hc'). cbn [length] in Hd.
    assert (holds (store8 m (str + i) c) char_format [37; 99; 0]) as Hh'.
    { eapply holds_same; [done|apply same_outside_store8|cbn in *; unfold disjoint_from in *; lia]. }
    destruct (echo c s (store8 m (str + i) c) Hs Hc' Hh') as (s1 & -> & R & K & P).
    cbn [res_bind]. rewrite (proj2 (Z.eqb_neq c 10)), (proj2 (Z.eqb_neq c 13)) by done. cbn [orb].
    destruct (IH s1 (store8 m (str + i) c) str (i + 1) e rest R Hl He Hh') as (s' & m' & E & R' & K' & P' & Hm & Ho).
    { unfold disjoint_from in *. lia. }
    rewrite E. exists s', m'. split; [done|]. split; [done|]. split; [done|]. split; [|split].
    + rewrite P', P, <- app_assoc. rewrite until_zero_id by (by apply Forall_singleton). done.
    + apply (holds_app m' (str + i) [c] (line ++ [0])); [|cbn [length]; replace (str + i + Z.of_nat 1) with (str + (i + 1)) by lia; done].
      apply holds_single. rewrite Ho by lia. by rewrite store8_eq, u8_small.
    + eapply same_outside_trans; [eapply same_outside_weaken; [exact (same_outside_store8 m (str + i) c)|lia|cbn [length]; lia]|].
      eapply same_outside_weaken; [exact Ho|lia|cbn [length]; lia].
Qed.
End READLINE.

(** ** [parse_cmd] *)
(** The words of a line, between blanks. *)
Fixpoint words_from (cur l : list Z) : list (list Z) :=
  match l with
  | [] => match cur with [] => [] | _ => [cur] end
  | c :: l => if is_blank c then (match cur with [] => words_from [] l | _ => cur :: words_from [] l end) else words_from (cur ++ [c]) l
  end.
Definition words : list Z -> list (list Z) := words_from [].

Lemma words_blanks b l : Forall is_blank b -> words (b ++ l) = words l.
Proof. induction 1 as [|c b Hc _ IH]; [done|]. unfold words in *. cbn [app words_from]. by destruct (is_blank c). Qed.
Lemma words_word w r : forall cur, Forall (fun c => is_blank c = false) w -> cur ++ w <> [] ->
  match r with [] => True | c :: _ => is_blank c = true end ->
  words_from cur (w ++ r) = (cur ++ w) :: match r with [] => [] | _ :: r => words r end.
Proof.
  induction w as [|c w IH]; intros cur Hw Hne Hr.
  - rewrite app_nil_r in *. cbn [app]. destruct r as [|c r]; cbn [words_from]; [by destruct cur|]. rewrite Hr. by destruct cur.
  - apply Forall_cons in Hw as [Hc Hw]. cbn [app words_from]. rewrite Hc, IH by (done || by destruct cur). by rewrite <- app_assoc.
Qed.

Lemma split_run (P : Z -> bool) l : exists a b, l = a ++ b /\ Forall P a /\ match b with [] => True | c :: _ => P c = false end.
Proof.
  induction l as [|c l (a & b & -> & Ha & Hb)]; [by exists [], []|]. destruct (P c) eqn:E.
  - exists (c :: a), b. split; [done|]. split; [|done]. apply Forall_cons. by rewrite E.
  - by exists [], (c :: a ++ b).
Qed.

Lemma skip_ok (P : Z -> bool) l : forall n m ptr, Forall P l -> holds m ptr l -> P (m (ptr + Z.of_nat (length l))) = false -> (length l < n)%nat ->
  skip P n m ptr = Ok (ptr + Z.of_nat (length l)).
Proof.
  induction l as [|c l IH]; intros [|n] m ptr Hl Hh Hp Hn; cbn [length] in *; try lia; cbn [skip]; unfold load8.
  - rewrite Z.add_0_r in *. by rewrite Hp.
  - apply Forall_cons in Hl as [Hc Hl]. apply holds_cons in Hh as [-> Hh]. destruct (P c); [|done].
    rewrite IH; [f_equal; lia|done|done| |lia]. by replace (ptr + 1 + Z.of_nat (length l)) with (ptr + Z.of_nat (S (length l))) by lia.
Qed.

Lemma holds_at m a l c r : holds m a (l ++ c :: r) -> m (a + Z.of_nat (length l)) = c.
Proof. intros H. apply H. by rewrite lookup_app_r, Nat.sub_diag by lia. Qed.

Section PARSE.
Context (fuel : nat) (argv : Z).

(** The arguments from number [argc] on are the words [ws], each at its place in the line, and
    nothing else has changed. *)
Record parsed (m m' : mem) (ptr : Z) (len : Z) (argc : Z) (ws : list (list Z)) (ps : list Z) : Prop := {
  pd_length : length ps = length ws;
  pd_word : forall k p w, ps !! k = Some p -> ws !! k = Some w ->
    holds m' p (w ++ [0]) /\ load32 m' (argv + 4 * (argc + Z.of_nat k)) = p /\ ptr <= p /\ p + Z.of_nat (length w) <= ptr + len;
  pd_same : forall x, ~ (ptr <= x < ptr + len) -> ~ (argv + 4 * argc <= x < argv + 4 * (argc + Z.of_nat (length ps))) -> m' x = m x
}.

Definition is_word (c : Z) : bool := negb (c =? 0) && negb (is_blank c).

(** One more word in front. *)
Lemma parsed_cons m m2 m' ptr len q W argc ws ps ptr' len' :
  0 <= argc -> ptr <= q -> q + Z.of_nat (length W) <= ptr + len -> disjoint_from ptr (len + 1) argv (4 * (argc + 1 + Z.of_nat (length ws))) ->
  holds m2 q (W ++ [0]) -> load32 m2 (argv + 4 * argc) = q ->
  (forall x, x <> q + Z.of_nat (length W) \/ m2 x = m x -> ~ (argv + 4 * argc <= x < argv + 4 * (argc + 1)) -> m2 x = m x) ->
  (q + Z.of_nat (length W) < ptr' \/ len' = 0) -> (q + Z.of_nat (length W) < ptr + len \/ m2 (q + Z.of_nat (length W)) = m (q + Z.of_nat (length W))) ->
  ptr <= ptr' -> ptr' + len' <= ptr + len ->
  parsed m2 m' ptr' len' (argc + 1) ws ps -> parsed m m' ptr len argc (W :: ws) (q :: ps).
Proof.
  intros Ha Hq He Hd HW Hs Hm Hn Hm2 Hp Hl [P1 P2 P3]. unfold disjoint_from in Hd.
  split.
  - cbn. by rewrite P1.
  - intros [|k] p w Hpk Hwk; cbn [lookup list_lookup] in *.
    + injection Hpk as <-. injection Hwk as <-. split; [|split; [|lia]].
      * intros i c Hi. rewrite <- (HW i c Hi). pose proof (lookup_lt_Some _ _ _ Hi) as Hlt. rewrite length_app in Hlt. cbn in Hlt. apply P3; rewrite ?P1; lia.
      * rewrite Z.add_0_r. rewrite <- Hs. unfold load32. rewrite !P3 by (rewrite ?P1; lia). done.
    + destruct (P2 k p w Hpk Hwk) as (H1 & H2 & H3 & H4). split; [done|]. split; [|lia]. rewrite <- H2. f_equal. lia.
  - intros x H1 H2. cbn [length] in H2. rewrite P3 by lia. apply Hm; [|lia].
    destruct (decide (x = q + Z.of_nat (length W))) as [->|]; [|by left]. destruct Hm2; [lia|by right].
Qed.

Lemma parse_loop_ok n : forall l m ptr argc, (length l < n)%nat -> (length l < fuel)%nat -> holds m ptr (l ++ [0]) -> Forall char_ok l ->
  0 <= argc -> 0 < ptr -> ptr + Z.of_nat (length l) < 4294967296 ->
  disjoint_from ptr (Z.of_nat (length l) + 1) argv (4 * (argc + Z.of_nat (length (words l)))) ->
  exists m' ps, parse_loop fuel n m ptr argv argc = Ok (m', argc + Z.of_nat (length ps)) /\ parsed m m' ptr (Z.of_nat (length l)) argc (words l) ps.
Proof.
  induction n as [|n IH]; intros l m ptr argc Hn Hf Hh Hc Ha Hp Hw Hd; [lia|]. cbn [parse_loop].
  destruct (split_run is_blank l) as (b & r & -> & Hb & Hr). rewrite words_blanks in * by done.
  assert (Forall char_ok b /\ Forall char_ok r) as [Hcb Hcr] by by apply Forall_app.
  rewrite length_app in *. rewrite <- app_assoc in Hh. destruct (holds_split _ _ _ _ Hh) as [Hhb Hhr].
  set (q := ptr + Z.of_nat (length b)) in *.
  assert (skip is_blank fuel m ptr = Ok q) as Eq.
  { apply skip_ok; [done|done| |lia]. fold q. destruct r as [|c r]; cbn [app] in Hhr; [by rewrite (proj1 (holds_cons _ _ _ _ Hhr))|].
    by rewrite (proj1 (holds_cons _ _ _ _ Hhr)). }
  destruct r as [|c r].
  { (* Only blanks are left. *)
    assert (parsed m m ptr (Z.of_nat (length b + 0)) argc (words []) []) as Hnone by by split.
    exists m, []. rewrite Z.add_0_r. cbn [app] in Hhr. destruct (load8 m ptr =? 0); [done|]. rewrite Eq. cbn [res_bind].
    unfold load8. by rewrite (proj1 (holds_cons _ _ _ _ Hhr)). }
  (* A word. *)
  destruct (split_run is_word (c :: r)) as (w & t & Ew & Hwd & Ht).
  destruct w as [|c' w]; [exfalso|].
  { cbn [app] in Ew. subst t. unfold is_word in Ht. apply Forall_cons in Hcr as [Hc0 _]. unfold char_ok in Hc0.
    rewrite Hr, (proj2 (Z.eqb_neq c 0)) in Ht by lia. done. }
  assert (Forall (fun c => is_blank c = false) (c' :: w)) as Hnb.
  { eapply Forall_impl; [exact Hwd|]. intros x Hx. unfold is_word in Hx. by destruct (is_blank x), (x =? 0). }
  set (W := c' :: w) in *. assert (length (c :: r) = length W + length t)%nat as El by (rewrite Ew; apply length_app). rewrite El in *.
  assert (words (c :: r) = W :: match t with [] => [] | _ :: t => words t end) as Ews.
  { unfold words. rewrite Ew. apply words_word; [done|by subst W|]. destruct t as [|d t]; [done|]. rewrite Ew in Hcr.
    apply Forall_app in Hcr as [_ Hcr]. apply Forall_cons in Hcr as [Hd0 _]. unfold char_ok, is_word in *. rewrite (proj2 (Z.eqb_neq d 0)) in Ht by lia.
    by destruct (is_blank d). }
  rewrite Ews in *. rewrite Ew, <- app_assoc in Hhr.
  assert (load8 m ptr =? 0 = false) as ->.
  { unfold load8. destruct b as [|x b].
    - subst q. cbn [length] in Hhr. rewrite Z.add_0_r in Hhr. rewrite (proj1 (holds_cons _ _ _ _ Hhr)). apply Forall_cons in Hcr as [Hx _].
      injection Ew as -> _. unfold char_ok in Hx. apply Z.eqb_neq. lia.
    - rewrite (proj1 (holds_cons _ _ _ _ Hhb)). apply Forall_cons in Hcb as [Hx _]. unfold char_ok in Hx. apply Z.eqb_neq. lia. }
  rewrite Eq. cbn [res_bind].
  destruct (holds_split _ _ _ _ Hhr) as [HW Hht]. set (e := q + Z.of_nat (length W)) in *. set (m1 := store32 m (argv + 4 * argc) q).
  assert (same_outside m m1 (argv + 4 * argc) (argv + 4 * argc + 4)) as Hm1 by apply same_outside_store32.
  assert (length W > 0)%nat as HW0 by (subst W; cbn; lia). cbn [length] in Hd. unfold disjoint_from in Hd.
  assert (holds m1 q W) as HW1 by (eapply holds_same; [exact HW|exact Hm1|unfold disjoint_from; lia]).
  assert (holds m1 e (t ++ [0])) as Ht1 by (eapply holds_same; [exact Hht|exact Hm1|unfold disjoint_from; rewrite length_app; cbn; lia]).
  assert (load8 m q =? 0 = false) as ->.
  { unfold load8. rewrite (proj1 (holds_cons m q c' w HW)). rewrite Ew in Hcr. apply Forall_app in Hcr as [Hx _]. apply Forall_cons in Hx as [Hx _].
    unfold char_ok in Hx. apply Z.eqb_neq. lia. }
  assert (skip is_word fuel m1 q = Ok e) as Es.
  { apply skip_ok; [done|done| |lia]. fold e. destruct t as [|d t]; cbn [app] in Ht1; by rewrite (proj1 (holds_cons _ _ _ _ Ht1)). }
  change (fun c0 : Z => negb (c0 =? 0) && negb (is_blank c0)) with is_word. rewrite Es. cbn [res_bind].
  assert (load32 m1 (argv + 4 * argc) = q) as Hslot by (apply load32_store32; lia).
  destruct t as [|d t]; cbn [app length] in *.
  - (* The end of the line. *)
    pose proof (proj1 (holds_cons _ _ _ _ Ht1)) as He. unfold load8 at 1. rewrite He. cbn [negb Z.eqb].
    destruct (IH [] m1 e (argc + 1)) as (m' & ps & E & Hps); [cbn; lia|cbn; lia|done|done|lia|lia|cbn; lia|unfold disjoint_from; change (length (words [])) with 0%nat; cbn [length]; lia|].
    exists m', (q :: ps). split; [rewrite E; cbn [length]; do 2 f_equal; lia|].
    eapply (parsed_cons m m1 m' ptr _ q W argc (words []) ps e 0); try done; try lia.
    + unfold disjoint_from. change (length (words [])) with 0%nat. lia.
    + by apply holds_app.
    + intros x _ Hx. apply Hm1. lia.
    + right. apply Hm1. lia.
  - pose proof (proj1 (holds_cons _ _ _ _ Ht1)) as He. apply holds_cons in Ht1 as [_ Ht1]. unfold load8 at 1. rewrite He.
    assert (char_ok d) as Hd0. { rewrite Ew in Hcr. apply Forall_app in Hcr as [_ Hx]. by apply Forall_cons in Hx as [Hx _]. }
    unfold char_ok in Hd0. rewrite (proj2 (Z.eqb_neq d 0)) by lia. cbn [negb]. set (m2 := store8 m1 e 0).
    assert (same_outside m1 m2 e (e + 1)) as Hm2 by apply same_outside_store8.
    destruct (IH t m2 (e + 1) (argc + 1)) as (m' & ps & E & Hps); [lia|lia| | |lia|lia|lia|unfold disjoint_from; lia|].
    { eapply holds_same; [exact Ht1|exact Hm2|unfold disjoint_from; lia]. }
    { rewrite Ew in Hcr. apply Forall_app in Hcr as [_ Hx]. by apply Forall_cons in Hx as [_ Hx]. }
    exists m', (q :: ps). split; [rewrite E; cbn [length]; do 2 f_equal; lia|].
    eapply (parsed_cons m m2 m' ptr _ q W argc (words t) ps (e + 1) (Z.of_nat (length t))); try done; try lia.
    + unfold disjoint_from. lia.
    + apply holds_app; [eapply holds_same; [exact HW1|exact Hm2|unfold disjoint_from; lia]|]. apply holds_single. fold e. subst m2. by rewrite store8_eq.
    + rewrite <- Hslot. unfold load32. rewrite !Hm2 by lia. done.
    + intros x Hx Hx2. destruct Hx as [Hx|Hx]; [|done]. rewrite Hm2 by (subst e; lia). apply Hm1. lia.
Qed.

Lemma parse_cmd_ok line m cmd : (length line < fuel)%nat -> holds m cmd (line ++ [0]) -> Forall char_ok line ->
  0 < cmd -> cmd + Z.of_nat (length line) < 4294967296 -> disjoint_from cmd (Z.of_nat (length line) + 1) argv (4 * (Z.of_nat (length (words line)) + 1)) ->
  exists m' ps, parse_cmd fuel m cmd argv = Ok m' /\ length ps = length (words line) /\
    (forall k p w, ps !! k = Some p -> words line !! k = Some w ->
      holds m' p (w ++ [0]) /\ load32 m' (argv + 4 * Z.of_nat k) = p /\ cmd <= p /\ p + Z.of_nat (length w) <= cmd + Z.of_nat (length line)) /\
    load32 m' (argv + 4 * Z.of_nat (length ps)) = 0 /\
    (forall x, ~ (cmd <= x < cmd + Z.of_nat (length line)) -> ~ (argv <= x < argv + 4 * (Z.of_nat (length ps) + 1)) -> m' x = m x).
Proof.
  intros Hf Hh Hc Hp Hw Hd. unfold disjoint_from in Hd.
  destruct (parse_loop_ok fuel line m cmd 0) as (m' & ps & E & [P1 P2 P3]); [done|done|done|done|lia|done|done|unfold disjoint_from; lia|].
  unfold parse_cmd. rewrite E. cbn [res_bind]. rewrite Z.add_0_l. pose proof (same_outside_store32 m' (argv + 4 * Z.of_nat (length ps)) 0) as Ho.
  eexists _, ps. split; [done|]. split; [done|]. split; [|split].
  - intros k p w Hpk Hwk. destruct (P2 k p w Hpk Hwk) as (H1 & H2 & H3 & H4). pose proof (lookup_lt_Some _ _ _ Hpk).
    split; [|split; [|done]].
    + eapply holds_same; [exact H1|exact Ho|]. unfold disjoint_from. rewrite length_app. cbn. lia.
    + rewrite <- H2. unfold load32. rewrite !Ho by lia. done.
  - by apply load32_store32.
  - intros x H1 H2. rewrite Ho by lia. apply P3; lia.
Qed.
End PARSE.

(** ** Properties *)

(** C34: [printf] of the user library hands the kernel, as one string, the text that its format and arguments stand
    for, the text that [monitor_printf] of the kernel would print, and empties the buffer again.  The string ends
    at the first NUL: what follows a character 0, of a conversion ["%c"], is not printed.  A text of exactly
    500 characters loses its last one, after a warning; a longer one is stored past the end of the
    buffer, since the length is tested only when the text is complete. *)
Theorem user_printf_correct (sfuel fuel : nat) (null_str : Z) (s : uio) (m : mem) (format : Z) (fmt args out : list Z)
  (Hs : ready s) (Hfmt : holds m format (fmt ++ [0])) (Hf : (length fmt < fuel)%nat) (Hp : prints sfuel null_str m fmt args out) :
  if decide (Z.of_nat (length out) <= buf_size)
  then exists s', printf sfuel fuel null_str s m format args = Ok s' /\ ready s' /\ keys s' = keys s /\
    printed s' = printed s ++ (if decide (Z.of_nat (length out) < buf_size) then [until_zero out] else [too_long; until_zero (take 499 out)])
  else printf sfuel fuel null_str s m format args = Err Fault.
Proof. by eapply printf_text. Qed.

(** ["my_os_shell> "] and ["fork failed!\n"] *)
Definition prompt_text : list Z := [109; 121; 95; 111; 115; 95; 115; 104; 101; 108; 108; 62; 32].
Definition failed_text : list Z := [102; 111; 114; 107; 32; 102; 97; 105; 108; 101; 100; 33; 10].

Lemma plain_prints sfuel null_str m args l : Forall (fun c => char_ok c /\ c <> 37) l -> prints sfuel null_str m l args l.
Proof. induction 1 as [|c l [Hc Hn] _ IH]; [apply prints_end|by apply prints_plain]. Qed.

Lemma count_args_ok k : forall n m argv argc, (forall j, (j < k)%nat -> load32 m (argv + 4 * (argc + Z.of_nat j)) <> 0) ->
  load32 m (argv + 4 * (argc + Z.of_nat k)) = 0 -> (k < n)%nat -> count_args n m argv argc = Ok (argc + Z.of_nat k).
Proof.
  induction k as [|k IH]; intros [|n] m argv argc Hj He Hn; try lia; cbn [count_args].
  - rewrite Z.add_0_r in *. by rewrite He.
  - pose proof (Hj 0%nat ltac:(lia)) as H0. rewrite Z.add_0_r in H0. rewrite (proj2 (Z.eqb_neq _ 0)) by done.
    rewrite IH; [f_equal; lia| | |lia]; [intros j Hlt; replace (argc + 1 + Z.of_nat j) with (argc + Z.of_nat (S j)) by lia; apply Hj; lia|].
    by replace (argc + 1 + Z.of_nat k) with (argc + Z.of_nat (S k)) by lia.
Qed.

(** A literal of the program. *)
Definition literal (m : mem) (a : Z) (l : list Z) (cmd argv : Z) : Prop :=
  holds m a (l ++ [0]) /\ disjoint_from a (Z.of_nat (length l) + 1) cmd 1024 /\ disjoint_from a (Z.of_nat (length l) + 1) argv 256.

(** C32: one round of the shell.  It prints the prompt, echoes every character up to the end of the line, and
    leaves the keys after it.  A line without words makes no system call.  For a line of
    words the shell forks; the parent waits for the child, and the child runs the program named by the first
    word with exactly the words of the line as its arguments, as strings, and a null pointer after the last; it
    exits with the result if [exec] returns.  This is for a line that fits in the 1024 characters of
    the array and has fewer than 64 words; the code tests neither. *)
Theorem shell_round_correct (sfuel fuel : nat) (null_str char_format prompt fork_failed : Z) (s : uio) (m : mem) (cmd argv pid : Z) (ret : option Z)
  (line rest : list Z) (e : Z)
  (Hs : ready s) (Hk : keys s = line ++ e :: rest) (Hl : Forall (fun c => char_ok c /\ c <> 10 /\ c <> 13) line) (He : e = 10 \/ e = 13)
  (Hlen : (length line < 1024)%nat) (Hw : (length (words line) < 64)%nat) (Hf : (1024 < fuel)%nat)
  (Hcmd : 0 < cmd) (Hcmd2 : cmd + 1024 < 4294967296) (Hd : disjoint_from cmd 1024 argv 256)
  (Hc : literal m char_format [37; 99] cmd argv) (Hp : literal m prompt prompt_text cmd argv) (Hff : literal m fork_failed failed_text cmd argv) :
  exists s' m' ps, shell_round sfuel fuel null_str char_format prompt fork_failed s m cmd argv pid ret =
      Ok (s', m', match ps with [] => [] | p :: _ =>
        if pid <? 0 then [Fork] else if pid >? 0 then [Fork; Wait pid]
        else [Fork; Exec p (Z.of_nat (length (words line))) argv] ++ match ret with Some r => [Exit r] | None => [] end end) /\
    ready s' /\ keys s' = rest /\
    printed s' = printed s ++ [prompt_text] ++ ((fun c => [c]) <$> line ++ [e]) ++ (if (pid <? 0) && negb (bool_decide (words line = [])) then [failed_text] else []) /\
    length ps = length (words line) /\
    (forall k p w, ps !! k = Some p -> words line !! k = Some w -> holds m' p (w ++ [0]) /\ load32 m' (argv + 4 * Z.of_nat k) = p) /\
    load32 m' (argv + 4 * Z.of_nat (length ps)) = 0.
Proof.
  destruct Hc as (Hc & Hc1 & Hc2), Hp as (Hp & Hp1 & Hp2), Hff as (Hff & Hff1 & Hff2). unfold disjoint_from in *.
  assert (Forall char_ok line) as Hch by (eapply Forall_impl; [exact Hl|tauto]). unfold shell_round.
  pose proof (printf_text sfuel fuel null_str s m prompt prompt_text [] prompt_text Hs Hp ltac:(cbn; lia)) as P1.
  rewrite decide_True, decide_True in P1 by (cbn; unfold buf_size; lia).
  destruct P1 as (s1 & -> & R1 & K1 & O1); [apply plain_prints; repeat (apply Forall_cons; split; [by vm_compute|]); apply Forall_nil_2|]. cbn [res_bind].
  unfold readline. rewrite K1, Hk.
  destruct (readline_loop_ok sfuel fuel null_str char_format ltac:(lia) line s1 m cmd 0 e rest R1 Hl He Hc) as (s2 & m2 & -> & R2 & K2 & O2 & M2 & F2).
  { unfold disjoint_from. cbn in Hc1. lia. }
  cbn [res_bind]. rewrite Z.add_0_r in *.
  destruct (parse_cmd_ok fuel argv line m2 cmd) as (m3 & ps & -> & L3 & W3 & N3 & F3); [lia|done|done|done|lia|unfold disjoint_from; lia|]. cbn [res_bind].
  change (until_zero prompt_text) with prompt_text in O1. rewrite O1 in O2.
  assert (forall k p w, ps !! k = Some p -> words line !! k = Some w -> holds m3 p (w ++ [0]) /\ load32 m3 (argv + 4 * Z.of_nat k) = p) as W
    by (intros k p w H1 H2; destruct (W3 k p w H1 H2) as (? & ? & _); done).
  destruct ps as [|p ps].
  - cbn [length] in N3. rewrite Z.mul_0_r, Z.add_0_r in N3. rewrite N3. cbn [Z.eqb]. exists s2, m3, []. do 3 (split; [done|]).
    destruct (words line) eqn:E; [|done]. cbn [bool_decide]. rewrite andb_false_r, app_nil_r, O2, <- app_assoc. split; [done|]. split; [done|]. split; [done|].
    by change (argv + 4 * Z.of_nat (length [])) with (argv + 0); rewrite Z.add_0_r.
  - assert (forall k, (k < length (p :: ps))%nat -> load32 m3 (argv + 4 * (0 + Z.of_nat k)) <> 0) as Hnz.
    { intros k Hlt. destruct (lookup_lt_is_Some_2 (p :: ps) k Hlt) as [x Hx]. destruct (lookup_lt_is_Some_2 (words line) k ltac:(lia)) as [w Hw'].
      destruct (W3 k x w Hx Hw') as (_ & E & Hle & _). rewrite Z.add_0_l, E. lia. }
    destruct (lookup_lt_is_Some_2 (words line) 0 ltac:(cbn in L3; lia)) as [w0 Hw0]. destruct (W 0%nat p w0 eq_refl Hw0) as [_ E0].
    pose proof (Hnz 0%nat ltac:(cbn; lia)) as H0. change (argv + 4 * (0 + Z.of_nat 0)) with (argv + 0) in H0. change (argv + 4 * Z.of_nat 0) with (argv + 0) in E0.
    rewrite Z.add_0_r in H0, E0. rewrite (proj2 (Z.eqb_neq (load32 m3 argv) 0)) by done.
    unfold run_program. rewrite (count_args_ok (length (p :: ps)) fuel m3 argv 0) by (done || lia). cbn [res_bind]. rewrite E0, Z.add_0_l, L3.
    assert (bool_decide (words line = []) = false) as -> by (apply bool_decide_eq_false; by intros E; rewrite E in Hw0). rewrite andb_true_r.
    destruct (pid <? 0).
    + assert (holds m3 fork_failed (failed_text ++ [0])) as Hff3.
      { intros i c Hi. pose proof (lookup_lt_Some _ _ _ Hi) as Hlt. rewrite length_app in Hlt. cbn [length] in Hlt. rewrite F3, F2 by lia. by apply Hff. }
      pose proof (printf_text sfuel fuel null_str s2 m3 fork_failed failed_text [] failed_text R2 Hff3 ltac:(cbn; lia)) as P3.
      rewrite decide_True, decide_True in P3 by (cbn; unfold buf_size; lia).
      destruct P3 as (s3 & -> & R3 & K3 & O3); [apply plain_prints; repeat (apply Forall_cons; split; [by vm_compute|]); apply Forall_nil_2|]. cbn [res_bind].
      exists s3, m3, (p :: ps). split; [done|]. split; [done|]. split; [congruence|]. split; [rewrite O3, O2, <- !app_assoc; done|done].
    + exists s2, m3, (p :: ps). split; [by destruct (pid >? 0)|]. split; [done|]. split; [done|]. split; [by rewrite app_nil_r, O2, <- app_assoc|done].
Qed.

(** ** Witnesses: the line ["ls -l"] at the shell *)
Definition place (m : mem) (a : Z) (l : list Z) : mem :=
  fun x => if (a <=? x) && (x <? a + Z.of_nat (length l)) then nth (Z.to_nat (x - a)) l 0 else m x.
Lemma place_holds m a l : holds (place m a l) a l.
Proof.
  intros i c Hi. pose proof (lookup_lt_Some _ _ _ Hi). unfold place. rewrite (proj2 (Z.leb_le _ _)), (proj2 (Z.ltb_lt _ _)) by lia. cbn [andb].
  replace (Z.to_nat (a + Z.of_nat i - a)) with i by lia. by apply nth_lookup_Some.
Qed.
Lemma place_other m a l b k : holds m b k -> disjoint_from b (Z.of_nat (length k)) a (Z.of_nat (length l)) -> holds (place m a l) b k.
Proof.
  intros Hh Hd i c Hi. pose proof (lookup_lt_Some _ _ _ Hi). unfold place, disjoint_from in *.
  destruct (Z.leb_spec a (b + Z.of_nat i)), (Z.ltb_spec (b + Z.of_nat i) (a + Z.of_nat (length l))); cbn [andb]; [lia|by apply Hh..].
Qed.

Definition shell_memory : mem := place (place (place (fun _ => 0) 10 [37; 99; 0]) 20 (prompt_text ++ [0])) 40 (failed_text ++ [0]).
Definition shell_start : uio := mk_uio (replicate 500 0) 0 [] [108; 115; 32; 45; 108; 10; 120].

Lemma user_printf_correct_witness : exists s', printf 20 20 0 shell_start shell_memory 20 [] = Ok s' /\ printed s' = [prompt_text].
Proof.
  pose proof (user_printf_correct 20 20 0 shell_start shell_memory 20 prompt_text [] prompt_text) as H.
  rewrite decide_True, decide_True in H by (cbn; unfold buf_size; lia). destruct H as (s' & E & _ & _ & O).
  - split; [done|apply length_replicate].
  - apply place_other; [apply place_holds|]. left. cbn. lia.
  - cbn. lia.
  - apply plain_prints. repeat (apply Forall_cons; split; [by vm_compute|]). apply Forall_nil_2.
  - exists s'. split; [exact E|exact O].
Defined.

Lemma shell_round_correct_witness : exists s' m' p0 p1, shell_round 20 1025 0 10 20 40 shell_start shell_memory 2000 4000 0 None =
    Ok (s', m', [Fork; Exec p0 2 4000]) /\
  holds m' p0 [108; 115; 0] /\ holds m' p1 [45; 108; 0] /\ load32 m' 4004 = p1 /\ load32 m' 4008 = 0 /\ keys s' = [120].
Proof.
  destruct (shell_round_correct 20 1025 0 10 20 40 shell_start shell_memory 2000 4000 0 None [108; 115; 32; 45; 108] [120] 10)
    as (s' & m' & ps & E & _ & K & _ & L & W & N).
  - split; [done|apply length_replicate].
  - reflexivity.
  - repeat (apply Forall_cons; split; [by vm_compute|]). apply Forall_nil_2.
  - by left.
  - cbn. lia.
  - vm_compute. lia.
  - lia.
  - lia.
  - lia.
  - left. lia.
  - split; [|split; left; cbn; lia]. apply place_other; [apply place_other; [apply place_holds|]|]; left; cbn; lia.
  - split; [|split; left; cbn; lia]. apply place_other; [apply place_holds|]. left. cbn. lia.
  - split; [apply place_holds|split; left; cbn; lia].
  - destruct ps as [|p0 [|p1 [|? ?]]]; try discriminate L. exists s', m', p0, p1. split; [exact E|].
    destruct (W 0%nat p0 [108; 115] eq_refl eq_refl) as [H0 _]. destruct (W 1%nat p1 [45; 108] eq_refl eq_refl) as [H1 H2].
    split; [exact H0|]. split; [exact H1|]. split; [exact H2|]. split; [exact N|exact K].
Defined.
