(* ===== verification/Monitor.v ===== *)
(** The text screen: [src/src/monitor/monitor.c].  The screen's memory is a list of
    words, an access outside faults; the cursor goes to the display controller's
    ports, which are a log of what has been output.  The strings printed are in
    memory, and a character is its byte. *)
From S2P Require Import Prelude BitMap Memory Format.

(** ** [monitor.h] *)
Definition VGA_WIDTH : Z := 80.
Definition VGA_HEIGHT : Z := 25.
Definition COLOR_BLACK : Z := 0.
Definition COLOR_WHITE : Z := 7.

Definition s16 (z : Z) : Z := if u16 z <? 32768 then u16 z else u16 z - 65536.

(** The static variables, the screen, and the port output, last first. *)
Record monitor : Type := mk_monitor {
  video_memory : list Z;
  cursor_x : Z;
  cursor_y : Z;
  port_output : list (Z * Z);
  monitor_lock : Z
}.
Definition with_video (s : monitor) (v : list Z) : monitor :=
  mk_monitor v (cursor_x s) (cursor_y s) (port_output s) (monitor_lock s).
Definition with_cursor (s : monitor) (x y : Z) : monitor :=
  mk_monitor (video_memory s) x y (port_output s) (monitor_lock s).
Definition with_ports (s : monitor) (p : list (Z * Z)) : monitor :=
  mk_monitor (video_memory s) (cursor_x s) (cursor_y s) p (monitor_lock s).
Definition with_mlock (s : monitor) (l : Z) : monitor :=
  mk_monitor (video_memory s) (cursor_x s) (cursor_y s) (port_output s) l.

Definition defult_color : Z := Z.lor (Z.shiftl COLOR_BLACK 4) (Z.land COLOR_WHITE 15).

(** [(defult_color << 8) | c] in 16 bits; [char] is signed. *)
Definition cell (c : Z) : Z := u16 (Z.lor (Z.shiftl defult_color 8) (s8 c)).

(** [monitor_init] *)
Definition monitor_init (s : monitor) : monitor := with_mlock s yieldlock_init.

Definition outb (s : monitor) (port value : Z) : monitor := with_ports s ((port, u8 value) :: port_output s).

(** [mov_cursor] *)
Definition mov_cursor (s : monitor) : monitor :=
  let pos := u16 (cursor_y s * VGA_WIDTH + cursor_x s) in
  let s := outb s 980 14 in
  let s := outb s 981 (Z.shiftr pos 8) in
  let s := outb s 980 15 in
  outb s 981 pos.

(** [get_cursor_offset] *)
Definition get_cursor_offset (s : monitor) : Z := s16 (cursor_y s * VGA_WIDTH + cursor_x s).

(** [scroll_screen] *)
Definition scroll_screen (s : monitor) : res monitor :=
  if cursor_y s <? VGA_HEIGHT then Ok s
  else
    let! v := for_loop (Z.to_nat ((VGA_HEIGHT - 1) * VGA_WIDTH)) 0 (fun i v =>
      let! w := arr_get v (i + VGA_WIDTH) in arr_set v i w) (video_memory s) in
    let! v := for_loop (Z.to_nat VGA_WIDTH) ((VGA_HEIGHT - 1) * VGA_WIDTH) (fun i v => arr_set v i (cell 32)) v in
    Ok (mov_cursor (with_cursor (with_video s v) 0 (VGA_HEIGHT - 1))).

(** [monitor_print_char] *)
Definition monitor_print_char (s : monitor) (c : Z) : res monitor :=
  let! s :=
    if (c =? 8) && (cursor_x s >? 0) then Ok (with_cursor s (s16 (cursor_x s - 1)) (cursor_y s))
    else if c =? 9 then Ok (with_cursor s (s16 (Z.land (cursor_x s + 8) (Z.lnot (8 - 1)))) (cursor_y s))
    else if c =? 10 then Ok (with_cursor s 0 (s16 (cursor_y s + 1)))
    else if c =? 13 then Ok (with_cursor s 0 (cursor_y s))
    else
      let offset := get_cursor_offset s in
      let! v := arr_set (video_memory s) offset (cell c) in
      Ok (with_cursor (with_video s v) (s16 (cursor_x s + 1)) (cursor_y s)) in
  let s := if cursor_x s >=? VGA_WIDTH then with_cursor s 0 (s16 (cursor_y s + 1)) else s in
  let! s := scroll_screen s in
  Ok (mov_cursor s).

(** The conversions of [Format] print on the screen. *)
#[export] Instance monitor_sink : Sink monitor := monitor_print_char.

(** [monitor_clear] *)
Definition monitor_clear (s : monitor) : res monitor :=
  let! l := yieldlock_lock (monitor_lock s) in
  let s := with_mlock s l in
  let! v := for_loop (Z.to_nat (VGA_WIDTH * VGA_HEIGHT)) 0 (fun i v => arr_set v i (cell 32)) (video_memory s) in
  let s := mov_cursor (with_cursor (with_video s v) 0 0) in
  Ok (with_mlock s (yieldlock_unlock (monitor_lock s))).

Section PRINTF.
(** The bound of the strings, and the literal ["(null)"]. *)
Context (sfuel : nat) (null_str : Z).

(** A body between [yieldlock_lock] and [yieldlock_unlock]. *)
Definition locked (s : monitor) (f : monitor -> res monitor) : res monitor :=
  let! l := yieldlock_lock (monitor_lock s) in
  let! s := f (with_mlock s l) in
  Ok (with_mlock s (yieldlock_unlock (monitor_lock s))).

(** [monitor_printf_args], [monitor_printf], [monitor_printf_panic] *)
Definition monitor_printf_args (fuel : nat) (s : monitor) (m : mem) (format : Z) (args : list Z) : res monitor :=
  locked s (fun s => monitor_printf_args_nolock sfuel null_str fuel s m format args).
Definition monitor_printf (fuel : nat) (s : monitor) (m : mem) (format : Z) (args : list Z) : res monitor :=
  monitor_printf_args fuel s m format args.
Definition monitor_printf_panic (fuel : nat) (s : monitor) (m : mem) (format : Z) (args : list Z) : res monitor :=
  monitor_printf_args_nolock sfuel null_str fuel s m format args.

(** [monitor_print], [monitor_print_panic] *)
Definition monitor_print (s : monitor) (m : mem) (str : Z) : res monitor :=
  locked s (fun s => monitor_write_str sfuel s m str).
Definition monitor_print_panic (s : monitor) (m : mem) (str : Z) : res monitor := monitor_write_str sfuel s m str.

End PRINTF.
