(* ===== verification/MonitorSpec.v ===== *)
(** Properties of the text screen: it is a window on the last rows of an endless
    sheet on which characters are typed, and the print functions type what their
    strings and formats stand for. *)
From S2P Require Import Prelude BitMap Memory Strings StringsSpec Format Monitor.

(** ** The sheet *)

(** Cells by row and column, and where the next character goes. *)
Record sheet : Type := mk_sheet {
  cells : Z -> Z -> Z;
  s_row : Z;
  s_col : Z
}.

Definition blank : Z := 1824.
Definition blank_sheet : sheet := mk_sheet (fun _ _ => blank) 0 0.

(** The end of a row is the start of the next. *)
Definition wrap (p : sheet) : sheet :=
  if 80 <=? s_col p then mk_sheet (cells p) (s_row p + 1) 0 else p.

(** A backspace moves left, but for the first column, where it is a character like
    others; a tab goes to the next multiple of eight. *)
Definition type_char (p : sheet) (c : Z) : sheet :=
  wrap
    (if (c =? 8) && (0 <? s_col p) then mk_sheet (cells p) (s_row p) (s_col p - 1)
     else if c =? 9 then mk_sheet (cells p) (s_row p) (8 * (s_col p / 8) + 8)
     else if c =? 10 then mk_sheet (cells p) (s_row p + 1) 0
     else if c =? 13 then mk_sheet (cells p) (s_row p) 0
     else mk_sheet (fun r k => if (r =? s_row p) && (k =? s_col p) then cell c else cells p r k) (s_row p) (s_col p + 1)).
Definition type_chars (p : sheet) (l : list Z) : sheet := fold_left type_char l p.

(** ** The display controller: its index register, and the registers behind it *)
Fixpoint crtc_index (log : list (Z * Z)) : Z :=
  match log with
  | [] => 0
  | (port, v) :: log => if port =? 980 then v else crtc_index log
  end.
Fixpoint crtc (log : list (Z * Z)) (k : Z) : Z :=
  match log with
  | [] => 0
  | (port, v) :: log => if (port =? 981) && (crtc_index log =? k) then v else crtc log k
  end.

(** ** The window *)

(** The first row on the screen: the last 25 rows are shown. *)
Definition top (p : sheet) : Z := Z.max 0 (s_row p - 24).

(** The screen shows the sheet from row [t]. *)
Record window (t : Z) (s : monitor) (p : sheet) : Prop := {
  wn_length : length (video_memory s) = 2000%nat;
  wn_x : cursor_x s = s_col p /\ 0 <= s_col p < 80;
  wn_y : cursor_y s = s_row p - t;
  wn_cells : forall y x, 0 <= y < 25 -> 0 <= x < 80 ->
    video_memory s !! Z.to_nat (80 * y + x) = Some (cells p (t + y) x);
  wn_below : forall r x, s_row p < r -> cells p r x = blank
}.

(** It shows the last rows, with the cursor of the display where the next character goes. *)
Record shows (s : monitor) (p : sheet) : Prop := {
  sh_row : 0 <= s_row p;
  sh_window : window (top p) s p;
  sh_cursor : 256 * crtc (port_output s) 14 + crtc (port_output s) 15 = 80 * (s_row p - top p) + s_col p
}.

Lemma cell_blank : cell 32 = blank.
Proof. by vm_compute. Qed.

Lemma s16_small z : 0 <= z < 32768 -> s16 z = z.
Proof. intros Hz. unfold s16. rewrite u16_small by lia. by rewrite (proj2 (Z.ltb_lt _ _)) by lia. Qed.

Lemma tab_stop x : 0 <= x -> Z.land (x + 8) (Z.lnot (8 - 1)) = 8 * (x / 8) + 8.
Proof.
  intros Hx. change (8 - 1) with (Z.ones 3). rewrite <- Z.ldiff_land, Z.ldiff_ones_r by lia.
  rewrite Z.shiftl_mul_pow2, Z.shiftr_div_pow2 by lia. change (2 ^ 3) with 8. zdiv.
Qed.

(** ** Loops over the screen *)
Lemma fill_ok n : forall i (v : list Z) w,
  0 <= i -> i + Z.of_nat n <= Z.of_nat (length v) ->
  exists v', for_loop n i (fun i v => arr_set v i w) v = Ok v' /\ length v' = length v /\
    forall k, 0 <= k -> v' !! Z.to_nat k = if decide (i <= k < i + Z.of_nat n) then Some w else v !! Z.to_nat k.
Proof.
  intros i v w Hi Hn.
  destruct (for_loop_inv (fun j v' => length v' = length v /\
    forall k, 0 <= k -> v' !! Z.to_nat k = if decide (i <= k < j) then Some w else v !! Z.to_nat k) n i
    (fun i v => arr_set v i w) v) as (v' & E & H1 & H2).
  - split; [done|]. intros k Hk. by rewrite decide_False by lia.
  - intros j v1 Hj [Hl Hv]. rewrite arr_set_ok by lia. eexists. split; [done|]. rewrite length_insert. split; [done|].
    intros k Hk. destruct (decide (k = j)) as [->|Hne].
    + rewrite list_lookup_insert_eq by lia. by rewrite decide_True by lia.
    + rewrite list_lookup_insert_ne by lia. rewrite Hv by done. by repeat case_decide; try lia.
  - by exists v'.
Qed.

Lemma move_up_ok (v : list Z) :
  length v = 2000%nat ->
  exists v', for_loop (Z.to_nat ((VGA_HEIGHT - 1) * VGA_WIDTH)) 0 (fun i v =>
      let! w := arr_get v (i + VGA_WIDTH) in arr_set v i w) v = Ok v' /\ length v' = 2000%nat /\
    forall k, 0 <= k < 2000 -> v' !! Z.to_nat k = if decide (k < 1920) then v !! Z.to_nat (k + 80) else v !! Z.to_nat k.
Proof.
  intros Hl. unfold VGA_HEIGHT, VGA_WIDTH. change (Z.to_nat ((25 - 1) * 80)) with (Z.to_nat 1920).
  destruct (for_loop_inv (fun j v' => length v' = 2000%nat /\
    forall k, 0 <= k < 2000 -> v' !! Z.to_nat k = if decide (k < j) then v !! Z.to_nat (k + 80) else v !! Z.to_nat k)
    (Z.to_nat 1920) 0 (fun i v => let! w := arr_get v (i + 80) in arr_set v i w) v) as (v' & E & H1 & H2).
  - split; [done|]. intros k Hk. by rewrite decide_False by lia.
  - intros j v1 Hj [Hl1 Hv]. destruct (arr_get_ok_lt v1 (j + 80)) as (w & -> & Hw); [lia|]. cbn [res_bind].
    rewrite arr_set_ok by lia. eexists. split; [done|]. rewrite length_insert. split; [done|].
    intros k Hk. destruct (decide (k = j)) as [->|Hne].
    + rewrite list_lookup_insert_eq by lia. rewrite decide_True by lia. rewrite <- Hw, Hv by lia.
      by rewrite decide_False by lia.
    + rewrite list_lookup_insert_ne by lia. rewrite Hv by done. by repeat case_decide; try lia.
  - exists v'. split; [exact E|]. split; [done|]. intros k Hk. rewrite H2 by done. by repeat case_decide; try lia.
Qed.

(** ** One character *)
Lemma mov_cursor_ok s t p :
  window t s p -> 0 <= s_row p - t < 25 ->
  let s' := mov_cursor s in
  window t s' p /\ 256 * crtc (port_output s') 14 + crtc (port_output s') 15 = 80 * (s_row p - t) + s_col p /\
  monitor_lock s' = monitor_lock s.
Proof.
  intros [H1 [H2 H3] H4 H5 H6] Hy. split; [by split|]. split; [|done].
  cbn. unfold VGA_WIDTH. rewrite H2, H4, u16_small by lia. unfold u8. rewrite Z.shiftr_div_pow2 by lia.
  change (2 ^ 8) with 256. change (15 mod 256) with 15. change (14 mod 256) with 14. cbn [Z.eqb Pos.eqb].
  assert (0 <= (s_row p - t) * 80 + s_col p < 2000) as Hpos by lia.
  replace (80 * (s_row p - t) + s_col p) with ((s_row p - t) * 80 + s_col p) by lia. zdiv.
Qed.

Lemma scroll_ok s t p :
  window t s p -> s_row p - t <= 25 -> (s_row p - t = 25 -> s_col p = 0 /\ forall x, cells p (s_row p) x = blank) ->
  exists s', scroll_screen s = Ok s' /\ window (if s_row p - t =? 25 then t + 1 else t) s' p /\
    monitor_lock s' = monitor_lock s.
Proof.
  intros Hw Hy Hx. pose proof Hw as [H1 [H2 H3] H4 H5 H6]. unfold scroll_screen. rewrite H4. unfold VGA_HEIGHT at 1.
  destruct (Z.ltb_spec (s_row p - t) 25).
  { exists s. split; [done|]. by rewrite (proj2 (Z.eqb_neq _ _)) by lia. }
  destruct (move_up_ok (video_memory s) H1) as (v1 & -> & L1 & K1). cbn [res_bind].
  change (Z.to_nat VGA_WIDTH) with 80%nat. change ((VGA_HEIGHT - 1) * VGA_WIDTH) with 1920.
  destruct (fill_ok 80 1920 v1 (cell 32)) as (v2 & -> & L2 & K2); [lia..|]. cbn [res_bind].
  eexists. split; [done|]. rewrite (proj2 (Z.eqb_eq _ _)) by lia. split; [|done]. split.
  - cbn. by rewrite L2.
  - cbn. split; [symmetry; apply Hx; lia|done].
  - cbn. unfold VGA_HEIGHT. lia.
  - intros y x Hy2 Hx2. cbn [mov_cursor outb with_ports with_cursor with_video video_memory]. rewrite K2 by lia.
    destruct (decide (1920 <= 80 * y + x < 1920 + Z.of_nat 80)).
    + rewrite cell_blank. f_equal. symmetry. destruct (Hx ltac:(lia)) as [_ Hb].
      destruct (decide (y = 24)) as [->|]; [|lia]. by replace (t + 1 + 24) with (s_row p) by lia.
    + rewrite K1, decide_True by lia. replace (80 * y + x + 80) with (80 * (y + 1) + x) by lia. rewrite H5 by lia.
      by replace (t + (y + 1)) with (t + 1 + y) by lia.
  - done.
Qed.

(** The character and the wrap, before the scroll: the row may be one below the screen. *)
Lemma moved_ok s t p c v x y :
  window t s p -> 0 <= s_row p - t < 25 -> 0 <= x <= 80 -> s_row p <= y <= s_row p + 1 ->
  (y = s_row p + 1 -> x = 0) -> length v = 2000%nat ->
  (forall r k, 0 <= r < 25 -> 0 <= k < 80 -> v !! Z.to_nat (80 * r + k) = Some (c (t + r) k)) ->
  (forall r k, s_row p < r -> c r k = blank) ->
  let s1 := with_cursor (with_video s v) x (y - t) in
  let s2 := if cursor_x s1 >=? VGA_WIDTH then with_cursor s1 0 (s16 (cursor_y s1 + 1)) else s1 in
  let q := wrap (mk_sheet c y x) in
  window t s2 q /\ s_row q - t <= 25 /\ s_row p <= s_row q /\
  (s_row q - t = 25 -> s_col q = 0 /\ forall k, cells q (s_row q) k = blank) /\ monitor_lock s2 = monitor_lock s.
Proof.
  intros [H1 [H2 H3] H4 H5 H6] Hr Hx Hy Hn Hl Hv Hb. cbn. unfold VGA_WIDTH, wrap. cbn [s_col s_row cells].
  rewrite Z.geb_leb. destruct (Z.leb_spec 80 x) as [Hle|Hlt]; cbn.
  - assert (y = s_row p) as -> by lia. rewrite s16_small by lia. split; [|split; [lia|split; [lia|split; [|done]]]].
    + split; cbn; try done; try lia. intros r k Hrk. apply Hb. lia.
    + intros _. split; [done|]. intros k. apply Hb. lia.
  - split; [|split; [lia|split; [lia|split; [|done]]]].
    + split; cbn; try done; try lia. intros r k Hrk. apply Hb. lia.
    + intros E. split; [lia|]. intros k. apply Hb. lia.
Qed.

Lemma cell_put_ok s t p c :
  window t s p -> 0 <= s_row p - t < 25 -> 0 <= c < 256 ->
  exists v x y sc, 
    (if (c =? 8) && (cursor_x s >? 0) then Ok (with_cursor s (s16 (cursor_x s - 1)) (cursor_y s))
     else if c =? 9 then Ok (with_cursor s (s16 (Z.land (cursor_x s + 8) (Z.lnot (8 - 1)))) (cursor_y s))
     else if c =? 10 then Ok (with_cursor s 0 (s16 (cursor_y s + 1)))
     else if c =? 13 then Ok (with_cursor s 0 (cursor_y s))
     else let! v := arr_set (video_memory s) (get_cursor_offset s) (cell c) in
          Ok (with_cursor (with_video s v) (s16 (cursor_x s + 1)) (cursor_y s))) =
      Ok (with_cursor (with_video s v) x (y - t)) /\
    type_char p c = wrap (mk_sheet sc y x) /\ 0 <= x <= 80 /\ s_row p <= y <= s_row p + 1 /\ (y = s_row p + 1 -> x = 0) /\
    length v = 2000%nat /\
    (forall r k, 0 <= r < 25 -> 0 <= k < 80 -> v !! Z.to_nat (80 * r + k) = Some (sc (t + r) k)) /\
    (forall r k, s_row p < r -> sc r k = blank).
Proof.
  intros [H1 [H2 H3] H4 H5 H6] Hr Hc. unfold type_char. rewrite H2, H4, Z.gtb_ltb.
  assert (with_video s (video_memory s) = s) as Hid by (by destruct s).
  destruct ((c =? 8) && (0 <? s_col p)) eqn:E8.
  { bool_to_prop. exists (video_memory s), (s_col p - 1), (s_row p), (cells p). rewrite Hid, s16_small by lia.
    split; [done|split; [done|split; [lia|split; [lia|split; [lia|done]]]]]. }
  destruct (c =? 9).
  { exists (video_memory s), (8 * (s_col p / 8) + 8), (s_row p), (cells p). rewrite Hid, tab_stop, s16_small by zdiv.
    split; [done|split; [done|split; [zdiv|split; [lia|split; [lia|done]]]]]. }
  destruct (c =? 10).
  { exists (video_memory s), 0, (s_row p + 1), (cells p). rewrite Hid, s16_small by lia.
    split; [f_equal; f_equal; lia|split; [done|split; [lia|split; [lia|split; [lia|done]]]]]. }
  destruct (c =? 13).
  { exists (video_memory s), 0, (s_row p), (cells p). rewrite Hid.
    split; [done|split; [done|split; [lia|split; [lia|split; [lia|done]]]]]. }
  unfold get_cursor_offset, VGA_WIDTH. rewrite H2, H4, !s16_small by lia. rewrite arr_set_ok by lia. cbn [res_bind].
  eexists _, (s_col p + 1), (s_row p), _.
  split; [done|split; [done|split; [lia|split; [lia|split; [lia|]]]]]. rewrite length_insert. split; [done|]. split.
  - intros r k Hr2 Hk. destruct (Z.eqb_spec (t + r) (s_row p)), (Z.eqb_spec k (s_col p)); cbn [andb];
      try (rewrite list_lookup_insert_ne by lia; by apply H5).
    replace (Z.to_nat (80 * r + k)) with (Z.to_nat ((s_row p - t) * 80 + s_col p)) by lia.
    apply list_lookup_insert_eq. lia.
  - intros r k Hlt. rewrite (proj2 (Z.eqb_neq r _)) by lia. by apply H6.
Qed.

Lemma print_char_ok s p c :
  shows s p -> 0 <= c < 256 ->
  exists s', monitor_print_char s c = Ok s' /\ shows s' (type_char p c) /\ monitor_lock s' = monitor_lock s.
Proof.
  intros [Hrow Hw Hcur] Hc. assert (0 <= s_row p - top p < 25) as Hr by (unfold top; lia).
  destruct (cell_put_ok s (top p) p c Hw Hr Hc) as (v & x & y & sc & E & Et & Hx & Hy & Hn & Hl & Hv & Hb).
  unfold monitor_print_char. rewrite E. cbn [res_bind].
  destruct (moved_ok s (top p) p sc v x y Hw Hr Hx Hy Hn Hl Hv Hb) as (W & R1 & R2 & R3 & L). cbv zeta in W, L.
  rewrite <- Et in W, R1, R2, R3. set (s2 := if _ >=? _ then _ else _) in *. set (q := type_char p c) in *.
  destruct (scroll_ok s2 (top p) q W R1 R3) as (s3 & -> & W3 & L3). cbn [res_bind].
  assert ((if s_row q - top p =? 25 then top p + 1 else top p) = top q) as Htop.
  { unfold top in *. destruct (Z.eqb_spec (s_row q - Z.max 0 (s_row p - 24)) 25); lia. }
  rewrite Htop in W3. destruct (mov_cursor_ok s3 (top q) q W3) as (W4 & C4 & L4); [unfold top; lia|].
  eexists. split; [done|]. split; [split; [lia|done|done]|congruence].
Qed.

(** ** Strings and numbers *)
Lemma print_chars_ok l : forall s p,
  shows s p -> Forall (fun c => 0 <= c < 256) l ->
  exists s', print_chars s l = Ok s' /\ shows s' (type_chars p l) /\ monitor_lock s' = monitor_lock s.
Proof.
  induction l as [|c l IH]; intros s p Hs Hl; [by exists s|]. apply Forall_cons in Hl as [Hc Hl].
  destruct (print_char_ok s p c Hs Hc) as (s1 & E1 & H1 & L1). cbn [print_chars]. change (put_char s c) with (monitor_print_char s c). rewrite E1. cbn [res_bind].
  destruct (IH s1 (type_char p c) H1 Hl) as (s2 & E2 & H2 & L2). exists s2. split; [done|]. split; [done|congruence].
Qed.

(** [monitor_clear] gives a blank screen with the cursor at its start, whatever was
    there. *)
Lemma monitor_clear_ok s :
  length (video_memory s) = 2000%nat -> monitor_lock s = LOCKED_NO ->
  exists s', monitor_clear s = Ok s' /\ shows s' blank_sheet /\ monitor_lock s' = LOCKED_NO.
Proof.
  intros Hl Hk. unfold monitor_clear, yieldlock_lock. rewrite Hk. cbn [atomic_exchange negb Z.eqb LOCKED_NO res_bind].
  change (Z.to_nat (VGA_WIDTH * VGA_HEIGHT)) with (Z.to_nat 2000).
  destruct (fill_ok (Z.to_nat 2000) 0 (video_memory (with_mlock s LOCKED_YES)) (cell 32)) as (v & -> & L & K); [lia|cbn; lia|].
  cbn [res_bind]. eexists. split; [done|]. split; [|done]. split; [cbn; lia| |by vm_compute].
  change (top blank_sheet) with 0. split; cbn; try done; try lia; [by rewrite L|].
  intros y x Hy Hx. rewrite K, decide_True by lia. by rewrite cell_blank.
Qed.

(** ** Properties *)

(** C31: the screen is a window on an endless sheet, on which [monitor_printf] types
    what its format and its arguments stand for: numbers in decimal with their
    sign or in hexadecimal, strings and characters, with tabs, line ends and
    backspaces moving the place of the next character.  Whatever the text, no store leaves
    the screen's memory; the 25 rows shown are the last of the sheet, with blanks
    below the text; the display's own cursor is at the place of the next
    character; and the lock is given back.  A lock that is held makes it wait. *)
Theorem monitor_printf_correct (sfuel fuel : nat) (null_str : Z) (m : mem) (s : monitor) (p : sheet)
    (format : Z) (fmt args out : list Z)
    (Hs : shows s p) (Hfmt : holds m format (fmt ++ [0])) (Hf : (length fmt < fuel)%nat)
    (Hp : prints sfuel null_str m fmt args out) :
  let print := monitor_printf sfuel null_str fuel s m format args in
  if monitor_lock s =? LOCKED_NO
  then exists s', print = Ok s' /\ shows s' (type_chars p out) /\ monitor_lock s' = LOCKED_NO
  else print = Err Blocked.
Proof.
  cbv zeta. unfold monitor_printf, monitor_printf_args, locked, yieldlock_lock. cbn [atomic_exchange].
  destruct (monitor_lock s =? LOCKED_NO); cbn [negb res_bind]; [|done].
  destruct (printf_chars sfuel null_str m fmt args out Hp fuel (with_mlock s LOCKED_YES) format Hfmt Hf) as [-> Ho].
  destruct (print_chars_ok out (with_mlock s LOCKED_YES) p) as (s' & -> & Hs' & _); [|done|].
  - destruct Hs as [H1 [W1 W2 W3 W4 W5] H3]. by split; [|split|].
  - cbn [res_bind]. eexists. split; [done|]. split; [|done]. destruct Hs' as [H1 [W1 W2 W3 W4 W5] H3]. by split; [|split|].
Qed.

(** ** Witness: a screen of zeros that is cleared, and the format ["n=%d"]. *)
Definition demo_screen : monitor := mk_monitor (replicate 2000 0) 5 7 [] LOCKED_NO.

Lemma demo_format_holds : holds demo_memory 100 (demo_format ++ [0]).
Proof.
  intros i c Hi. change (demo_format ++ [0]) with [110; 61; 37; 100; 0] in Hi.
  do 5 (destruct i as [|i]; [by injection Hi as <-|]). done.
Qed.

Lemma demo_prints : prints 20 0 demo_memory demo_format [4294967249] [110; 61; 45; 52; 55].
Proof.
  apply prints_plain; [done|by vm_compute|]. apply prints_plain; [done|by vm_compute|].
  apply (prints_conversion 20 0 demo_memory 100 4294967249 [45; 52; 55] [] [] []); [|apply prints_end].
  apply (to_int 20 0 demo_memory 4294967249).
Qed.

Lemma monitor_printf_correct_witness :
  exists s s', monitor_clear demo_screen = Ok s /\ monitor_printf 20 0 5 s demo_memory 100 [4294967249] = Ok s' /\
    shows s' (type_chars blank_sheet [110; 61; 45; 52; 55]) /\ cursor_x s' = 5 /\ video_memory s' !! 4%nat = Some (cell 55).
Proof.
  destruct (monitor_clear_ok demo_screen) as (s & E & Hs & Hk); [apply length_replicate|reflexivity|].
  pose proof (monitor_printf_correct 20 5 0 demo_memory s blank_sheet 100 demo_format [4294967249] [110; 61; 45; 52; 55]
    Hs demo_format_holds ltac:(cbn; lia) demo_prints) as H.
  cbv zeta in H. rewrite Hk in H. cbn [Z.eqb LOCKED_NO] in H. destruct H as (s' & E' & Hs' & _).
  exists s, s'. split; [exact E|]. split; [exact E'|]. split; [exact Hs'|]. destruct Hs' as [_ [_ [W _] _ Wc _] _].
  split; [by rewrite W|]. exact (Wc 0 4 ltac:(lia) ltac:(lia)).
Defined.
