(* ===== verification/Video.v ===== *)
(** The display adapter, [src/src/driver/video.c]: the text mode, the mode of 320 by 200 points with 256
    colours, the palette and the copy of a picture.  The adapter (VGA) is modelled by its registers
    behind their ports and its four planes of memory behind the processor's stores and loads. *)
From S2P Require Import Prelude BitMap Memory Format Monitor.

(** ** The adapter *)
Record vga : Type := mk_vga {
  misc : Z;
  seq_index : Z; seq : list Z;
  crtc_index : Z; crtc : list Z;
  gc_index : Z; gc : list Z;
  ac_index : Z; ac_data : bool; ac : list Z;
  dac_index : Z; dac_part : Z; dac : list Z;
  planes : Z -> Z -> Z
}.
Definition with_seq (v : vga) (i : Z) (l : list Z) : vga :=
  mk_vga (misc v) i l (crtc_index v) (crtc v) (gc_index v) (gc v) (ac_index v) (ac_data v) (ac v) (dac_index v) (dac_part v) (dac v) (planes v).
Definition with_crtc (v : vga) (i : Z) (l : list Z) : vga :=
  mk_vga (misc v) (seq_index v) (seq v) i l (gc_index v) (gc v) (ac_index v) (ac_data v) (ac v) (dac_index v) (dac_part v) (dac v) (planes v).
Definition with_gc (v : vga) (i : Z) (l : list Z) : vga :=
  mk_vga (misc v) (seq_index v) (seq v) (crtc_index v) (crtc v) i l (ac_index v) (ac_data v) (ac v) (dac_index v) (dac_part v) (dac v) (planes v).
Definition with_ac (v : vga) (i : Z) (d : bool) (l : list Z) : vga :=
  mk_vga (misc v) (seq_index v) (seq v) (crtc_index v) (crtc v) (gc_index v) (gc v) i d l (dac_index v) (dac_part v) (dac v) (planes v).
Definition with_dac (v : vga) (i p : Z) (l : list Z) : vga :=
  mk_vga (misc v) (seq_index v) (seq v) (crtc_index v) (crtc v) (gc_index v) (gc v) (ac_index v) (ac_data v) (ac v) i p l (planes v).
Definition with_misc (v : vga) (x : Z) : vga :=
  mk_vga x (seq_index v) (seq v) (crtc_index v) (crtc v) (gc_index v) (gc v) (ac_index v) (ac_data v) (ac v) (dac_index v) (dac_part v) (dac v) (planes v).
Definition with_planes (v : vga) (f : Z -> Z -> Z) : vga :=
  mk_vga (misc v) (seq_index v) (seq v) (crtc_index v) (crtc v) (gc_index v) (gc v) (ac_index v) (ac_data v) (ac v) (dac_index v) (dac_part v) (dac v) f.

Definition reg (l : list Z) (i : Z) : Z := nth (Z.to_nat i) l 0.
Definition set_reg (l : list Z) (i x : Z) : list Z := <[Z.to_nat i := x]> l.

(** The ports of [video.c]. *)
Definition VGA_MISC_WRITE : Z := 0x3C2.
Definition VGA_SEQ_INDEX : Z := 0x3C4.
Definition VGA_SEQ_DATA : Z := 0x3C5.
Definition VGA_CRTC_INDEX : Z := 0x3D4.
Definition VGA_CRTC_DATA : Z := 0x3D5.
Definition VGA_GC_INDEX : Z := 0x3CE.
Definition VGA_GC_DATA : Z := 0x3CF.
Definition VGA_AC_INDEX : Z := 0x3C0.
Definition VGA_INSTAT : Z := 0x3DA.
Definition VGA_DAC_WRITE : Z := 0x3C8.
Definition VGA_DAC_DATA : Z := 0x3C9.

(** While bit 7 of register 0x11 is set, the first eight timing registers cannot be written, bit 4
    of the eighth apart. *)
Definition crtc_write (l : list Z) (i x : Z) : list Z :=
  if Z.testbit (reg l 0x11) 7 && (i <? 8)
  then (if i =? 7 then set_reg l 7 (Z.lor (Z.land (reg l 7) 0xEF) (Z.land x 0x10)) else l)
  else set_reg l i x.

(** [outb]: the attribute port takes an index and a value in turn, and no value for its first
    sixteen registers while bit 5 of the index is set; three values make a colour. *)
Definition outb (v : vga) (port val : Z) : res vga :=
  let x := u8 val in
  if port =? VGA_MISC_WRITE then Ok (with_misc v x)
  else if port =? VGA_SEQ_INDEX then Ok (with_seq v x (seq v))
  else if port =? VGA_SEQ_DATA then Ok (with_seq v (seq_index v) (set_reg (seq v) (seq_index v) x))
  else if port =? VGA_CRTC_INDEX then Ok (with_crtc v x (crtc v))
  else if port =? VGA_CRTC_DATA then Ok (with_crtc v (crtc_index v) (crtc_write (crtc v) (crtc_index v) x))
  else if port =? VGA_GC_INDEX then Ok (with_gc v x (gc v))
  else if port =? VGA_GC_DATA then Ok (with_gc v (gc_index v) (set_reg (gc v) (gc_index v) x))
  else if port =? VGA_AC_INDEX then
    if ac_data v then
      Ok (with_ac v (ac_index v) false
        (if Z.testbit (ac_index v) 5 && (Z.land (ac_index v) 0x1F <? 16) then ac v else set_reg (ac v) (Z.land (ac_index v) 0x1F) x))
    else Ok (with_ac v x true (ac v))
  else if port =? VGA_DAC_WRITE then Ok (with_dac v x 0 (dac v))
  else if port =? VGA_DAC_DATA then
    Ok (with_dac v (if dac_part v =? 2 then u8 (dac_index v + 1) else dac_index v) (if dac_part v =? 2 then 0 else dac_part v + 1)
      (set_reg (dac v) (3 * dac_index v + dac_part v) (Z.land x 0x3F)))
  else Err Fault.
(** [inb]; reading the status makes the attribute port expect an index. *)
Definition inb (v : vga) (port : Z) : res (Z * vga) :=
  if port =? VGA_CRTC_DATA then Ok (reg (crtc v) (crtc_index v), v)
  else if port =? VGA_INSTAT then Ok (0, with_ac v (ac_index v) false (ac v))
  else Err Fault.

(** The part of the kernel's address space that the memory takes, where the kernel maps it: 0xC0000000 above
    the address on the bus. *)
Definition window_base (v : vga) : Z * Z :=
  match Z.land (Z.shiftr (reg (gc v) 6) 2) 3 with
  | 0 => (0xC00A0000, 0x20000) | 1 => (0xC00A0000, 0x10000) | 2 => (0xC00B0000, 0x8000) | _ => (0xC00B8000, 0x8000)
  end.
Definition chained (v : vga) : bool := Z.testbit (reg (seq v) 4) 3.
Definition odd_even (v : vga) : bool := negb (Z.testbit (reg (seq v) 4) 2).
(** Stores and loads are plain: no latches, rotation, set or reset, and no bit mask. *)
Definition plain (v : vga) : bool :=
  (reg (gc v) 1 =? 0) && (reg (gc v) 3 =? 0) && (Z.land (reg (gc v) 5) 0x0B =? 0) && (reg (gc v) 8 =? 0xFF).
(** The planes that a store to an offset reaches, and its place in them. *)
Definition reaches (v : vga) (off p : Z) : bool :=
  Z.testbit (reg (seq v) 2) p &&
  (if chained v then off mod 4 =? p else if odd_even v then off mod 2 =? p mod 2 else true).
Definition place (v : vga) (off : Z) : Z := if chained v then off - off mod 4 else if odd_even v then off - off mod 2 else off.
Definition vga_store (v : vga) (a x : Z) : res vga :=
  let '(base, size) := window_base v in
  if negb ((base <=? a) && (a <? base + size)) then Ok v
  else if plain v then
    let off := a - base in
    Ok (with_planes v (fun p o => if (0 <=? p) && (p <? 4) && reaches v off p && (o =? place v off) then u8 x else planes v p o))
  else Err Fault.
Definition vga_load (v : vga) (a : Z) : res Z :=
  let '(base, size) := window_base v in
  if negb ((base <=? a) && (a <? base + size)) then Err Fault
  else if plain v then
    let off := a - base in
    Ok (planes v (if chained v then off mod 4
                  else if Z.testbit (reg (gc v) 5) 4 then off mod 2 + 2 * (reg (gc v) 4 / 2 mod 2) else reg (gc v) 4 mod 4) (place v off))
  else Err Fault.

(** ** [video.c], [video.h] *)
Definition VIDEO_MODE_TEXT : Z := 3.
Definition VIDEO_MODE_13H : Z := 0x13.
Definition VIDEO_WIDTH_13H : Z := 320.
Definition VIDEO_HEIGHT_13H : Z := 200.
Definition VGA_MODE_REGS_SIZE : Z := 1 + 5 + 25 + 9 + 21.
Definition VGA_MEMORY_13H : Z := 0xC00A0000.
Definition VGA_FONT_BYTES : Z := 256 * 32.

Definition mode_13h_regs : list Z := [
  0x63;
  0x03; 0x01; 0x0F; 0x00; 0x0E;
  0x5F; 0x4F; 0x50; 0x82; 0x54; 0x80; 0xBF; 0x1F;
  0x00; 0x41; 0x00; 0x00; 0x00; 0x00; 0x00; 0x00;
  0x9C; 0x0E; 0x8F; 0x28; 0x40; 0x96; 0xB9; 0xA3; 0xFF;
  0x00; 0x00; 0x00; 0x00; 0x00; 0x40; 0x05; 0x0F; 0xFF;
  0x00; 0x01; 0x02; 0x03; 0x04; 0x05; 0x06; 0x07;
  0x08; 0x09; 0x0A; 0x0B; 0x0C; 0x0D; 0x0E; 0x0F;
  0x41; 0x00; 0x0F; 0x00; 0x00].
Definition mode_text_regs : list Z := [
  0x67;
  0x03; 0x00; 0x03; 0x00; 0x02;
  0x5F; 0x4F; 0x50; 0x82; 0x55; 0x81; 0xBF; 0x1F;
  0x00; 0x4F; 0x0D; 0x0E; 0x00; 0x00; 0x00; 0x00;
  0x9C; 0x0E; 0x8F; 0x28; 0x1F; 0x96; 0xB9; 0xA3; 0xFF;
  0x00; 0x00; 0x00; 0x00; 0x00; 0x10; 0x0E; 0x00; 0xFF;
  0x00; 0x01; 0x02; 0x03; 0x04; 0x05; 0x14; 0x07;
  0x38; 0x39; 0x3A; 0x3B; 0x3C; 0x3D; 0x3E; 0x3F;
  0x0C; 0x00; 0x0F; 0x08; 0x00].
Definition text_palette : list (Z * Z * Z) := [
  (0x00, 0x00, 0x00); (0x00, 0x00, 0x2A);
  (0x00, 0x2A, 0x00); (0x00, 0x2A, 0x2A);
  (0x2A, 0x00, 0x00); (0x2A, 0x00, 0x2A);
  (0x2A, 0x15, 0x00); (0x2A, 0x2A, 0x2A);
  (0x15, 0x15, 0x15); (0x15, 0x15, 0x3F);
  (0x15, 0x3F, 0x15); (0x15, 0x3F, 0x3F);
  (0x3F, 0x15, 0x15); (0x3F, 0x15, 0x3F);
  (0x3F, 0x3F, 0x15); (0x3F, 0x3F, 0x3F)].

(** The static variables, the adapter, and the text display of [monitor.c]. *)
Record video : Type := mk_video {
  card : vga;
  current_mode : Z;
  saved_text_font : list Z;
  text_font_saved : bool;
  screen : monitor
}.
Definition with_card (s : video) (v : vga) : video := mk_video v (current_mode s) (saved_text_font s) (text_font_saved s) (screen s).
Definition with_mode (s : video) (m : Z) : video := mk_video (card s) m (saved_text_font s) (text_font_saved s) (screen s).
Definition with_font (s : video) (f : list Z) : video := mk_video (card s) (current_mode s) f true (screen s).
Definition with_screen (s : video) (m : monitor) : video := mk_video (card s) (current_mode s) (saved_text_font s) (text_font_saved s) m.

(** [outb]s one after the other. *)
Fixpoint outbs (v : vga) (l : list (Z * Z)) : res vga :=
  match l with
  | [] => Ok v
  | (port, val) :: l => let! v := outb v port val in outbs v l
  end.

(** [select_font_plane] *)
Definition select_font_plane (v : vga) : res vga :=
  outbs v [(VGA_SEQ_INDEX, 0x02); (VGA_SEQ_DATA, 0x04); (VGA_SEQ_INDEX, 0x04); (VGA_SEQ_DATA, 0x06);
           (VGA_GC_INDEX, 0x04); (VGA_GC_DATA, 0x02); (VGA_GC_INDEX, 0x05); (VGA_GC_DATA, 0x00);
           (VGA_GC_INDEX, 0x06); (VGA_GC_DATA, 0x04)].

(** [memcpy] from the adapter, and stores of successive bytes to it. *)
Definition load_bytes (v : vga) (a n : Z) : res (list Z) :=
  for_loop (Z.to_nat n) 0 (fun i l => let! x := vga_load v (a + i) in Ok (l ++ [x])) [].
Definition store_bytes (v : vga) (a n : Z) (f : Z -> res Z) : res vga :=
  for_loop (Z.to_nat n) 0 (fun i v => let! x := f i in vga_store v (a + i) x) v.

(** [save_text_font], [restore_text_font] *)
Definition save_text_font (s : video) : res video :=
  if text_font_saved s then Ok s
  else
    let! v := select_font_plane (card s) in
    let! l := load_bytes v VGA_MEMORY_13H VGA_FONT_BYTES in
    Ok (with_font (with_card s v) l).
Definition restore_text_font (s : video) : res video :=
  if negb (text_font_saved s) then Ok s
  else
    let! v := select_font_plane (card s) in
    let! v := store_bytes v VGA_MEMORY_13H VGA_FONT_BYTES (fun i => arr_get (saved_text_font s) i) in
    Ok (with_card s v).

(** [restore_text_palette] *)
Definition restore_text_palette (v : vga) : res vga :=
  for_loop 16 0 (fun i v =>
    let! (r, g, b) := arr_get text_palette i in
    outbs v [(VGA_DAC_WRITE, i); (VGA_DAC_DATA, r); (VGA_DAC_DATA, g); (VGA_DAC_DATA, b)]) v.

(** A loop of [write_registers]: an index and a value for each of [n] registers. *)
Definition write_group (index data n : Z) (value : Z -> res Z) (v : vga) : res vga :=
  for_loop (Z.to_nat n) 0 (fun i v => let! x := value i in outbs v [(index, i); (data, x)]) v.
(** The values of the timing registers: the lock stays open. *)
Definition crtc_value (regs : list Z) (i : Z) : res Z :=
  let! x := arr_get regs (6 + i) in
  Ok (if i =? 0x03 then Z.lor x 0x80 else if i =? 0x11 then Z.land x 0x7F else x).

(** The lock of the timing registers is opened. *)
Definition unlock_crtc (v : vga) : res vga :=
  let! v := outb v VGA_CRTC_INDEX 0x03 in
  let! (x, v) := inb v VGA_CRTC_DATA in
  let! v := outb v VGA_CRTC_DATA (Z.lor x 0x80) in
  let! v := outb v VGA_CRTC_INDEX 0x11 in
  let! (x, v) := inb v VGA_CRTC_DATA in
  outb v VGA_CRTC_DATA (Z.land x (Z.lnot 0x80)).
(** The attributes, and the end of [write_registers]. *)
Definition write_attributes (regs : list Z) (v : vga) : res vga :=
  let! v := for_loop 21 0 (fun i v =>
    let! (_, v) := inb v VGA_INSTAT in
    let! x := arr_get regs (40 + i) in
    outbs v [(VGA_AC_INDEX, i); (VGA_AC_INDEX, x)]) v in
  let! (_, v) := inb v VGA_INSTAT in
  outb v VGA_AC_INDEX 0x20.

(** [write_registers] *)
Definition write_registers (regs : list Z) (v : vga) : res vga :=
  let! m := arr_get regs 0 in
  let! v := outb v VGA_MISC_WRITE m in
  let! v := write_group VGA_SEQ_INDEX VGA_SEQ_DATA 5 (fun i => arr_get regs (1 + i)) v in
  let! v := unlock_crtc v in
  let! v := write_group VGA_CRTC_INDEX VGA_CRTC_DATA 25 (crtc_value regs) v in
  let! v := write_group VGA_GC_INDEX VGA_GC_DATA 9 (fun i => arr_get regs (31 + i)) v in
  write_attributes regs v.

(** [monitor_clear], with what it stores in the text screen and puts out to the ports reaching
    the adapter. *)
Definition clear_screen (s : video) : res video :=
  let! m := monitor_clear (screen s) in
  let! v := for_loop (Z.to_nat (VGA_WIDTH * VGA_HEIGHT)) 0 (fun i v =>
    let! w := arr_get (video_memory m) i in
    let! v := vga_store v (0xC00B8000 + 2 * i) w in
    vga_store v (0xC00B8000 + 2 * i + 1) (w / 256)) (card s) in
  let! v := outbs v (rev (take (length (port_output m) - length (port_output (screen s))) (port_output m))) in
  Ok (with_screen (with_card s v) m).

(** [video_set_mode] *)
Definition video_set_mode (s : video) (mode : Z) : res video :=
  if mode =? VIDEO_MODE_13H then
    let! s := if current_mode s =? VIDEO_MODE_TEXT then save_text_font s else Ok s in
    let! v := write_registers mode_13h_regs (card s) in
    let! v := store_bytes v VGA_MEMORY_13H (VIDEO_WIDTH_13H * VIDEO_HEIGHT_13H) (fun _ => Ok 0) in
    Ok (with_mode (with_card s v) mode)
  else if mode =? VIDEO_MODE_TEXT then
    let! v := write_registers mode_text_regs (card s) in
    let! s := restore_text_font (with_card s v) in
    let! v := write_registers mode_text_regs (card s) in
    let! v := restore_text_palette v in
    clear_screen (with_mode (with_card s v) mode)
  else Err Panic.

(** [video_set_palette] *)
Definition video_set_palette (s : video) (index r g b : Z) : res video :=
  if index >=? 256 then Ok s
  else
    let! v := outbs (card s) [(VGA_DAC_WRITE, index); (VGA_DAC_DATA, Z.land r 0x3F); (VGA_DAC_DATA, Z.land g 0x3F); (VGA_DAC_DATA, Z.land b 0x3F)] in
    Ok (with_card s v).

(** [video_blit], of the picture at [buffer]. *)
Definition video_blit (s : video) (m : mem) (buffer width height : Z) : res (Z * video) :=
  if negb (current_mode s =? VIDEO_MODE_13H) then Ok (-1, s)
  else if (buffer =? 0) || negb (width =? VIDEO_WIDTH_13H) || negb (height =? VIDEO_HEIGHT_13H) then Ok (-1, s)
  else
    let! v := store_bytes (card s) VGA_MEMORY_13H (VIDEO_WIDTH_13H * VIDEO_HEIGHT_13H) (fun i => Ok (load8 m (buffer + i))) in
    Ok (0, with_card s v).
