(* ===== verification/VideoSpec.v ===== *)
(** Properties of [Video]: the registers after a change of mode, the picture that a copy shows,
    and the font of the text mode, which survives every sequence of calls. *)
From S2P Require Import Prelude BitMap Memory Strings StringsSpec Format Monitor MonitorSpec Video.

(** ** Registers *)
Record sized (v : vga) : Prop := {
  sz_seq : length (seq v) = 5%nat; sz_crtc : length (crtc v) = 25%nat; sz_gc : length (gc v) = 9%nat; sz_ac : length (ac v) = 21%nat; sz_dac : length (dac v) = 768%nat
}.

Lemma overwrite_step (vals old : list Z) k x : vals !! k = Some x -> (k < length old)%nat ->
  set_reg (take k vals ++ drop k old) (Z.of_nat k) x = take (S k) vals ++ drop (S k) old.
Proof.
  intros Hx Hk. unfold set_reg. rewrite Nat2Z.id. pose proof (lookup_lt_Some _ _ _ Hx). rewrite insert_app_r_alt by (rewrite length_take; lia).
  rewrite length_take, Nat.min_l, Nat.sub_diag by lia. rewrite (take_S_r vals k x Hx), <- app_assoc. f_equal.
  destruct (drop k old) as [|y l] eqn:E; [apply (f_equal length) in E; rewrite length_drop in E; cbn in E; lia|].
  change (<[0%nat := x]> (y :: l)) with (x :: l). cbn [app]. f_equal. change l with (drop 1 (y :: l)). rewrite <- E, drop_drop. f_equal. lia.
Qed.

(** The last index of a group of [k] writes. *)
Definition last_index (old : Z) (k : nat) : Z := match k with O => old | S k => Z.of_nat k end.

Definition byte (x : Z) : Prop := 0 <= x < 256.

(** A group of writes leaves the values, in order. *)
Lemma group_ok (put : nat -> list Z -> vga) (old vals : list Z) (f : Z -> vga -> res vga) :
  length old = length vals ->
  (forall k x l, vals !! k = Some x -> l = take k vals ++ drop k old -> f (Z.of_nat k) (put k l) = Ok (put (S k) (set_reg l (Z.of_nat k) x))) ->
  for_loop (length vals) 0 f (put 0%nat old) = Ok (put (length vals) vals).
Proof.
  intros Hl Hf. set (g := fun k => put k (take k vals ++ drop k old)).
  replace (put (length vals) vals) with (g (length vals)) by (unfold g; by rewrite firstn_all, drop_ge, app_nil_r by lia).
  change (put 0%nat old) with (g 0%nat). apply for_loop_eq. intros k Hk. rewrite Z.add_0_l. destruct (lookup_lt_is_Some_2 vals k Hk) as [x Hx].
  unfold g at 1. rewrite (Hf k x _ Hx eq_refl). unfold g. by rewrite overwrite_step by (done || lia).
Qed.

Section GROUPS.
Context (vals : list Z) (Hb : Forall byte vals) (value : Z -> res Z) (Hv : forall k x, vals !! k = Some x -> value (Z.of_nat k) = Ok x).
Context (Hn : (length vals <= 32)%nat).

Lemma byte_at k x : vals !! k = Some x -> u8 x = x /\ u8 (Z.of_nat k) = Z.of_nat k.
Proof.
  intros Hx. pose proof (proj1 (Forall_lookup _ _) Hb k x Hx) as Hx0. unfold byte in Hx0. pose proof (lookup_lt_Some _ _ _ Hx).
  by rewrite !u8_small by lia.
Qed.

Lemma seq_group v : length (seq v) = length vals ->
  write_group VGA_SEQ_INDEX VGA_SEQ_DATA (Z.of_nat (length vals)) value v = Ok (with_seq v (last_index (seq_index v) (length vals)) vals).
Proof.
  intros Hl. unfold write_group. rewrite Nat2Z.id. replace v with (with_seq v (last_index (seq_index v) 0) (seq v)) at 1 by (by destruct v).
  apply (group_ok (fun k l => with_seq v (last_index (seq_index v) k) l)); [done|]. intros k x l Hx _.
  rewrite (Hv k x Hx). cbn [res_bind]. unfold outbs, outb. destruct (byte_at k x Hx) as [-> ->]. reflexivity.
Qed.
Lemma gc_group v : length (gc v) = length vals ->
  write_group VGA_GC_INDEX VGA_GC_DATA (Z.of_nat (length vals)) value v = Ok (with_gc v (last_index (gc_index v) (length vals)) vals).
Proof.
  intros Hl. unfold write_group. rewrite Nat2Z.id. replace v with (with_gc v (last_index (gc_index v) 0) (gc v)) at 1 by (by destruct v).
  apply (group_ok (fun k l => with_gc v (last_index (gc_index v) k) l)); [done|]. intros k x l Hx _.
  rewrite (Hv k x Hx). cbn [res_bind]. unfold outbs, outb. destruct (byte_at k x Hx) as [-> ->]. reflexivity.
Qed.
(** The timing registers, with the lock open. *)
Lemma crtc_group v : length (crtc v) = length vals -> Z.testbit (reg (crtc v) 0x11) 7 = false -> Z.testbit (reg vals 0x11) 7 = false ->
  write_group VGA_CRTC_INDEX VGA_CRTC_DATA (Z.of_nat (length vals)) value v = Ok (with_crtc v (last_index (crtc_index v) (length vals)) vals).
Proof.
  intros Hl H1 H2. unfold write_group. rewrite Nat2Z.id. replace v with (with_crtc v (last_index (crtc_index v) 0) (crtc v)) at 1 by (by destruct v).
  apply (group_ok (fun k l => with_crtc v (last_index (crtc_index v) k) l)); [done|]. intros k x l Hx El.
  rewrite (Hv k x Hx). cbn [res_bind]. unfold outbs, outb. destruct (byte_at k x Hx) as [-> ->].
  cbn [Z.eqb Pos.eqb VGA_MISC_WRITE VGA_SEQ_INDEX VGA_SEQ_DATA VGA_CRTC_INDEX VGA_CRTC_DATA res_bind crtc crtc_index with_crtc].
  unfold crtc_write. assert (Z.testbit (reg l 0x11) 7 = false) as ->; [|done]. subst l. unfold reg in *. pose proof (lookup_lt_Some _ _ _ Hx).
  rewrite nth_lookup in H1, H2. rewrite nth_lookup. change (Z.to_nat 17) with 17%nat in *. destruct (decide (17 < k)%nat).
  - rewrite lookup_app_l, lookup_take_lt by (rewrite ?length_take; lia). done.
  - rewrite lookup_app_r, lookup_drop, length_take by (rewrite length_take; lia). by replace (k + (17 - k `min` length vals))%nat with 17%nat by lia.
Qed.
End GROUPS.

(** ** [write_registers] *)
Definition seq_part (regs : list Z) : list Z := take 5 (drop 1 regs).
Definition crtc_part (regs : list Z) : list Z := (fun k => match crtc_value regs (Z.of_nat k) with Ok x => x | Err _ => 0 end) <$> List.seq 0 25.
Definition gc_part (regs : list Z) : list Z := take 9 (drop 31 regs).
Definition ac_part (regs : list Z) : list Z := take 21 (drop 40 regs).
Definition table (regs : list Z) : Prop :=
  length regs = 61%nat /\ Forall byte regs /\ Forall byte (crtc_part regs) /\ Z.testbit (reg (crtc_part regs) 0x11) 7 = false.
(** The adapter with the registers of a table. *)
Definition mode_card (regs : list Z) (v : vga) : vga :=
  mk_vga (reg regs 0) 4 (seq_part regs) 24 (crtc_part regs) 8 (gc_part regs) 0x20 true (ac_part regs) (dac_index v) (dac_part v) (dac v) (planes v).

Lemma table_13h : table mode_13h_regs.
Proof. split; [done|]. split; [|split; [|done]]; (apply Forall_forall; intros x Hx; unfold byte; vm_compute in Hx; repeat (apply elem_of_cons in Hx as [->|Hx]; [lia|]); by apply not_elem_of_nil in Hx). Qed.
Lemma table_text : table mode_text_regs.
Proof. split; [done|]. split; [|split; [|done]]; (apply Forall_forall; intros x Hx; unfold byte; vm_compute in Hx; repeat (apply elem_of_cons in Hx as [->|Hx]; [lia|]); by apply not_elem_of_nil in Hx). Qed.

Lemma part_at (regs : list Z) a n k x : take n (drop a regs) !! k = Some x -> arr_get regs (Z.of_nat a + Z.of_nat k) = Ok x.
Proof.
  intros H. apply arr_get_Some; [lia|]. apply lookup_take_Some in H as [H _]. rewrite lookup_drop in H. by replace (Z.to_nat (Z.of_nat a + Z.of_nat k)) with (a + k)%nat by lia.
Qed.
Lemma part_bytes (regs : list Z) a n : Forall byte regs -> Forall byte (take n (drop a regs)).
Proof. intros. by apply Forall_take, Forall_drop. Qed.
Lemma crtc_at regs k x : table regs -> crtc_part regs !! k = Some x -> crtc_value regs (Z.of_nat k) = Ok x.
Proof.
  intros [Hl _] H. unfold crtc_part in H. rewrite list_lookup_fmap in H. destruct (List.seq 0 25 !! k) as [j|] eqn:E; [|done].
  apply lookup_seq in E as [-> Hk]. cbn in H. destruct (crtc_value regs (Z.of_nat k)) as [y|] eqn:Ey; [by injection H as ->|].
  unfold crtc_value in Ey. destruct (arr_get_ok_lt regs (6 + Z.of_nat k)) as (z & Ez & _); [lia|]. by rewrite Ez in Ey.
Qed.

(** The lock of the timing registers is opened. *)
Lemma unlock_ok v : length (crtc v) = 25%nat -> exists l, unlock_crtc v = Ok (with_crtc v 0x11 l) /\ length l = 25%nat /\ Z.testbit (reg l 0x11) 7 = false.
Proof.
  intros Hl. eexists. split; [reflexivity|]. cbn [crtc crtc_index with_crtc].
  change (u8 3) with 3. change (u8 17) with 17. set (l1 := crtc_write (crtc v) 3 _).
  assert (length l1 = 25%nat) as Hl1 by (subst l1; unfold crtc_write, set_reg; repeat case_match; by rewrite ?length_insert).
  unfold crtc_write. rewrite andb_false_r. unfold set_reg, reg. change (Z.to_nat 17) with 17%nat. split; [by rewrite length_insert|].
  rewrite nth_lookup, list_lookup_insert_eq by lia. cbn [default]. unfold u8. change 256 with (2 ^ 8). unfold id. rewrite Z.mod_pow2_bits_low by lia.
  rewrite Z.land_spec, Z.lnot_spec by lia. by rewrite andb_false_r.
Qed.

Lemma ac_group regs v : table regs -> length (ac v) = 21%nat -> write_attributes regs v = Ok (with_ac v 0x20 true (ac_part regs)).
Proof.
  intros [Hl [Hb _]] Ha. unfold write_attributes. assert (length (ac_part regs) = 21%nat) as Hp by (unfold ac_part; rewrite length_take, length_drop; lia).
  replace 21%nat with (length (ac_part regs)) by done.
  replace v with (with_ac v (last_index (ac_index v) 0) (ac_data v) (ac v)) at 1 by (by destruct v).
  rewrite (group_ok (fun k l => with_ac v (last_index (ac_index v) k) (match k with O => ac_data v | _ => false end) l)); [reflexivity|lia|].
  intros k x l Hx _. pose proof (lookup_lt_Some _ _ _ Hx). pose proof (part_at regs 40 21 k x Hx) as E. change (Z.of_nat 40) with 40 in E.
  unfold inb. cbn [Z.eqb Pos.eqb VGA_CRTC_DATA VGA_INSTAT res_bind]. rewrite E. cbn [res_bind].
  destruct (byte_at (ac_part regs) (part_bytes regs 40 21 Hb) ltac:(lia) k x Hx) as [E1 E2].
  unfold outbs, outb. cbn [Z.eqb Pos.eqb VGA_MISC_WRITE VGA_SEQ_INDEX VGA_SEQ_DATA VGA_CRTC_INDEX VGA_CRTC_DATA VGA_GC_INDEX VGA_GC_DATA VGA_AC_INDEX res_bind ac_data with_ac ac_index].
  rewrite E1, E2. assert (Z.testbit (Z.of_nat k) 5 = false) as -> by (clear - H Hp; do 21 (destruct k as [|k]; [done|]); lia).
  assert (Z.land (Z.of_nat k) 0x1F = Z.of_nat k) as ->; [|done]. clear - H Hp; do 21 (destruct k as [|k]; [done|]). lia.
Qed.

Lemma write_registers_ok regs v : table regs -> sized v -> write_registers regs v = Ok (mode_card regs v).
Proof.
  intros Ht [S1 S2 S3 S4 S5]. pose proof Ht as (Hl & Hb & Hc & H7). unfold write_registers.
  destruct (arr_get_ok_lt regs 0) as (m & -> & Hm); [lia|]. cbn [res_bind]. unfold outb at 1. cbn [Z.eqb Pos.eqb VGA_MISC_WRITE res_bind].
  assert (length (seq_part regs) = 5%nat) as L1 by (unfold seq_part; rewrite length_take, length_drop; lia).
  assert (length (gc_part regs) = 9%nat) as L3 by (unfold gc_part; rewrite length_take, length_drop; lia).
  assert (length (crtc_part regs) = 25%nat) as L2 by (unfold crtc_part; by rewrite length_fmap).
  assert (u8 m = reg regs 0) as ->.
  { unfold reg. rewrite nth_lookup, Hm. cbn [default]. apply u8_small. by apply (proj1 (Forall_lookup _ _) Hb 0%nat m). }
  set (v1 := with_misc v _).
  pose proof (seq_group (seq_part regs) (part_bytes regs 1 5 Hb) (fun i => arr_get regs (1 + i)) (fun k x => part_at regs 1 5 k x) ltac:(lia) v1 ltac:(cbn; lia)) as E1.
  rewrite L1 in E1. change (Z.of_nat 5) with 5 in E1. rewrite E1. cbn [res_bind]. set (v2 := with_seq _ _ _).
  destruct (unlock_ok v2 S2) as (l & -> & Ll & Lb). cbn [res_bind]. set (v3 := with_crtc _ _ _).
  pose proof (crtc_group (crtc_part regs) Hc (crtc_value regs) (fun k x => crtc_at regs k x Ht) ltac:(lia) v3 ltac:(cbn; lia) Lb H7) as E2.
  rewrite L2 in E2. change (Z.of_nat 25) with 25 in E2. rewrite E2. cbn [res_bind]. set (v4 := with_crtc _ _ _).
  pose proof (gc_group (gc_part regs) (part_bytes regs 31 9 Hb) (fun i => arr_get regs (31 + i)) (fun k x => part_at regs 31 9 k x) ltac:(lia) v4 ltac:(cbn; lia)) as E3.
  rewrite L3 in E3. change (Z.of_nat 9) with 9 in E3. rewrite E3. cbn [res_bind]. by rewrite (ac_group regs).
Qed.

(** ** Stores *)
(** The [i]-th byte from [a] reaches place [o] of plane [p]. *)
Definition hits (v : vga) (a i p o : Z) : bool :=
  let off := a + i - (window_base v).1 in (0 <=? p) && (p <? 4) && reaches v off p && (o =? place v off).

Lemma vga_store_ok v a i x : (window_base v).1 <= a + i < (window_base v).1 + (window_base v).2 -> plain v = true ->
  vga_store v (a + i) x = Ok (with_planes v (fun p o => if hits v a i p o then u8 x else planes v p o)).
Proof.
  intros Hw Hp. unfold vga_store, hits. destruct (window_base v) as [base size]. cbn [fst snd] in *.
  rewrite (proj2 (Z.leb_le _ _)), (proj2 (Z.ltb_lt _ _)) by lia. cbn [andb negb]. by rewrite Hp.
Qed.

Lemma store_bytes_ok v a n f val : (window_base v).1 <= a -> a + n <= (window_base v).1 + (window_base v).2 -> plain v = true -> 0 <= n ->
  (forall i, 0 <= i < n -> f i = Ok (val i)) ->
  exists F, store_bytes v a n f = Ok (with_planes v F) /\
    (forall i p o, 0 <= i < n -> hits v a i p o = true -> (forall j, i < j < n -> hits v a j p o = false) -> F p o = u8 (val i)) /\
    (forall p o, (forall i, 0 <= i < n -> hits v a i p o = false) -> F p o = planes v p o).
Proof.
  intros H1 H2 Hp Hn Hf. unfold store_bytes.
  destruct (for_loop_inv (fun k v' => exists F, v' = with_planes v F /\
      (forall i p o, 0 <= i < k -> hits v a i p o = true -> (forall j, i < j < k -> hits v a j p o = false) -> F p o = u8 (val i)) /\
      (forall p o, (forall i, 0 <= i < k -> hits v a i p o = false) -> F p o = planes v p o))
    (Z.to_nat n) 0 (fun i v => let! x := f i in vga_store v (a + i) x) v) as (v' & E & F & -> & HF).
  - exists (planes v). split; [by destruct v|]. split; [intros; lia|done].
  - intros k v' Hk (F & -> & F1 & F2). rewrite Hf by lia. cbn [res_bind]. rewrite vga_store_ok; [|change (window_base (with_planes v F)) with (window_base v); lia|done].
    eexists. split; [done|]. eexists. split; [reflexivity|]. split.
    + intros i p o Hi Hh Hl. cbn [planes with_planes]. change (hits (with_planes v F) a k p o) with (hits v a k p o). destruct (decide (i = k)) as [->|].
      * by rewrite Hh.
      * rewrite (Hl k) by lia. apply F1; [lia|done|]. intros j Hj. apply Hl. lia.
    + intros p o Hl. cbn [planes with_planes]. change (hits (with_planes v F) a k p o) with (hits v a k p o). rewrite (Hl k) by lia. apply F2. intros i Hi. apply Hl. lia.
  - rewrite E. exists F. rewrite Z.add_0_l, Z2Nat.id in HF by lia. done.
Qed.

(** *** The plane of the font *)
Definition font_card (v : vga) : vga :=
  with_gc (with_seq v 4 (set_reg (set_reg (seq v) 2 4) 4 6)) 6 (set_reg (set_reg (set_reg (gc v) 4 2) 5 0) 6 4).
Lemma select_font_ok v : select_font_plane v = Ok (font_card v).
Proof. reflexivity. Qed.

(** No store operation but the plain one. *)
Definition simple (l : list Z) : Prop := reg l 1 = 0 /\ reg l 3 = 0 /\ reg l 8 = 0xFF.

Lemma reg_set l i j x : 0 <= i < Z.of_nat (length l) -> 0 <= j -> reg (set_reg l i x) j = if decide (i = j) then x else reg l j.
Proof.
  intros Hi Hj. unfold reg, set_reg. rewrite !nth_lookup. case_decide as E.
  - subst. by rewrite list_lookup_insert_eq by lia.
  - by rewrite list_lookup_insert_ne by lia.
Qed.
Lemma set_reg_length l i x : length (set_reg l i x) = length l.
Proof. apply length_insert. Qed.

Lemma font_card_view v : sized v -> simple (gc v) ->
  window_base (font_card v) = (0xC00A0000, 0x10000) /\ plain (font_card v) = true /\ chained (font_card v) = false /\ odd_even (font_card v) = false /\
  reg (seq (font_card v)) 2 = 4 /\ reg (gc (font_card v)) 4 = 2 /\ reg (gc (font_card v)) 5 = 0.
Proof.
  intros [S1 _ S3 _ _] (G1 & G3 & G8). unfold window_base, plain, chained, odd_even, font_card; cbn [seq gc with_gc with_seq].
  rewrite !reg_set by (rewrite ?set_reg_length; lia). repeat (first [rewrite decide_True by lia|rewrite decide_False by lia]).
  rewrite G1, G3, G8. done.
Qed.

Lemma font_hits v i p o : sized v -> simple (gc v) -> 0 <= i -> hits (font_card v) VGA_MEMORY_13H i p o = bool_decide (p = 2 /\ o = i).
Proof.
  intros Hs Hg Hi. destruct (font_card_view v Hs Hg) as (W & _ & C & O & M & _). unfold hits. rewrite W. cbn [fst].
  replace (VGA_MEMORY_13H + i - 0xC00A0000) with i by (unfold VGA_MEMORY_13H; lia). unfold reaches, place. rewrite C, O, M.
  destruct (Z.leb_spec 0 p), (Z.ltb_spec p 4), (Z.eqb_spec o i); cbn [andb]; rewrite ?andb_false_r, ?andb_true_r; try (symmetry; apply bool_decide_eq_false; lia).
  assert (p = 0 \/ p = 1 \/ p = 2 \/ p = 3) as [-> |[-> |[-> | ->]]] by lia; subst; try (symmetry; apply bool_decide_eq_false; lia). symmetry. by apply bool_decide_eq_true.
Qed.

Lemma load_font_n v n : sized v -> simple (gc v) -> (Z.of_nat n <= 65536) ->
  for_loop n 0 (fun i l => let! x := vga_load (font_card v) (VGA_MEMORY_13H + i) in Ok (l ++ [x])) [] = Ok ((fun o => planes v 2 (Z.of_nat o)) <$> List.seq 0 n).
Proof.
  intros Hs Hg Hn. destruct (font_card_view v Hs Hg) as (W & P & C & O & _ & R4 & R5).
  set (g := fun k : nat => (fun o => planes v 2 (Z.of_nat o)) <$> List.seq 0 k).
  set (f := fun (i : Z) (l : list Z) => let! x := vga_load (font_card v) (VGA_MEMORY_13H + i) in Ok (l ++ [x])).
  change (for_loop n 0 f (g 0%nat) = Ok (g n)). apply for_loop_eq. intros k Hk. rewrite Z.add_0_l.
  assert (vga_load (font_card v) (VGA_MEMORY_13H + Z.of_nat k) = Ok (planes v 2 (Z.of_nat k))) as El.
  { unfold vga_load. rewrite W. rewrite (proj2 (Z.leb_le _ _)), (proj2 (Z.ltb_lt _ _)) by (unfold VGA_MEMORY_13H; lia). cbn [negb andb]. rewrite P.
    unfold place. rewrite C, O, R4, R5. do 2 f_equal. unfold VGA_MEMORY_13H. change (Z.testbit 0 4) with false. cbn iota. f_equal. lia. }
  unfold f, g. rewrite El. cbn [res_bind]. rewrite seq_S, fmap_app. done.
Qed.
(** The font of an adapter, and what [save_text_font] reads. *)
Definition font_of (v : vga) : list Z := (fun o => planes v 2 (Z.of_nat o)) <$> List.seq 0 (Z.to_nat VGA_FONT_BYTES).
Lemma load_font_ok v : sized v -> simple (gc v) -> load_bytes (font_card v) VGA_MEMORY_13H VGA_FONT_BYTES = Ok (font_of v).
Proof. intros Hs Hg. apply load_font_n; [done|done|]. by vm_compute. Qed.

(** The registers of a table, whatever the colours and the memory. *)
Record programmed (regs : list Z) (v : vga) : Prop := {
  pg_misc : misc v = reg regs 0; pg_seq : seq v = seq_part regs; pg_crtc : crtc v = crtc_part regs; pg_gc : gc v = gc_part regs; pg_ac : ac v = ac_part regs;
  pg_dac : length (dac v) = 768%nat
}.
Lemma mode_card_programmed regs v : sized v -> programmed regs (mode_card regs v).
Proof. intros [_ _ _ _ ?]. by split. Qed.
Lemma programmed_sized regs v : table regs -> programmed regs v -> sized v.
Proof.
  intros (Hl & _) [_ E1 E2 E3 E4 H]; split; rewrite ?E1, ?E2, ?E3, ?E4; try done; unfold seq_part, crtc_part, gc_part, ac_part; rewrite ?length_fmap, ?length_take, ?length_drop; lia || done.
Qed.
Lemma programmed_simple regs v : regs = mode_13h_regs \/ regs = mode_text_regs -> programmed regs v -> simple (gc v).
Proof. intros Hr [_ _ _ E _ _]. rewrite E. by destruct Hr as [-> | ->]. Qed.

(** The points of a picture: four planes in turn. *)
Lemma picture_view v : programmed mode_13h_regs v -> window_base v = (0xC00A0000, 0x10000) /\ plain v = true /\ chained v = true /\ reg (seq v) 2 = 15.
Proof. intros [_ E1 _ E2 _ _]. unfold window_base, plain, chained. by rewrite E1, E2. Qed.
Lemma picture_hits v i p o : programmed mode_13h_regs v -> 0 <= i -> hits v VGA_MEMORY_13H i p o = bool_decide (p = i mod 4 /\ o = i - i mod 4).
Proof.
  intros Hv Hi. destruct (picture_view v Hv) as (W & _ & C & M). unfold hits. rewrite W. cbn [fst].
  replace (VGA_MEMORY_13H + i - 0xC00A0000) with i by (unfold VGA_MEMORY_13H; lia). unfold reaches, place. rewrite C, M. pose proof (Z.mod_pos_bound i 4 ltac:(lia)).
  destruct (Z.leb_spec 0 p), (Z.ltb_spec p 4), (Z.eqb_spec o (i - i mod 4)), (Z.eqb_spec (i mod 4) p); cbn [andb]; rewrite ?andb_false_r, ?andb_true_r;
    try (symmetry; apply bool_decide_eq_false; lia).
  assert (p = 0 \/ p = 1 \/ p = 2 \/ p = 3) as [-> |[-> |[-> | ->]]] by lia; symmetry; by apply bool_decide_eq_true.
Qed.

(** A copy of a whole picture. *)
Lemma store_picture_ok v f val : programmed mode_13h_regs v -> (forall i, 0 <= i < 64000 -> f i = Ok (val i)) ->
  exists F, store_bytes v VGA_MEMORY_13H (VIDEO_WIDTH_13H * VIDEO_HEIGHT_13H) f = Ok (with_planes v F) /\
    forall i, 0 <= i < 64000 -> F (i mod 4) (i - i mod 4) = u8 (val i).
Proof.
  intros Hv Hf. destruct (picture_view v Hv) as (W & P & _). change (VIDEO_WIDTH_13H * VIDEO_HEIGHT_13H) with 64000.
  destruct (store_bytes_ok v VGA_MEMORY_13H 64000 f val) as (F & E & F1 & _); rewrite ?W; cbn [fst snd]; unfold VGA_MEMORY_13H; try lia; try done.
  exists F. split; [exact E|]. intros i Hi. apply F1; [done| |].
  - rewrite picture_hits by (done || lia). by apply bool_decide_eq_true.
  - intros j Hj. rewrite picture_hits by (done || lia). apply bool_decide_eq_false. zdiv.
Qed.

(** The font is put back. *)
Lemma store_font_ok v F : sized v -> simple (gc v) -> length F = Z.to_nat VGA_FONT_BYTES -> Forall byte F ->
  exists P, store_bytes (font_card v) VGA_MEMORY_13H VGA_FONT_BYTES (fun i => arr_get F i) = Ok (with_planes (font_card v) P) /\
    forall i x, F !! i = Some x -> P 2 (Z.of_nat i) = x.
Proof.
  intros Hs Hg Hl Hb. destruct (font_card_view v Hs Hg) as (W & Pl & _). assert (VGA_FONT_BYTES = 8192) as HN by done.
  destruct (store_bytes_ok (font_card v) VGA_MEMORY_13H VGA_FONT_BYTES (fun i => arr_get F i) (fun i => reg F i)) as (P & E & P1 & _);
    rewrite ?W; cbn [fst snd]; unfold VGA_MEMORY_13H; try lia; try done.
  - intros i Hi. apply arr_get_Some; [lia|]. unfold reg. apply nth_lookup_Some' || (rewrite nth_lookup; destruct (lookup_lt_is_Some_2 F (Z.to_nat i) ltac:(lia)) as [x ->]; done).
  - exists P. split; [exact E|]. intros i x Hx. pose proof (lookup_lt_Some _ _ _ Hx). pose proof (proj1 (Forall_lookup _ _) Hb i x Hx) as Hx0.
    rewrite (P1 (Z.of_nat i)); [|lia| |].
    + unfold reg. rewrite Nat2Z.id, nth_lookup, Hx. by apply u8_small.
    + rewrite font_hits by (done || lia). by apply bool_decide_eq_true.
    + intros j Hj. rewrite font_hits by (done || lia). apply bool_decide_eq_false. lia.
Qed.

(** ** The text screen *)
Lemma text_view v : programmed mode_text_regs v -> window_base v = (0xC00B8000, 0x8000) /\ plain v = true /\ chained v = false /\ odd_even v = true /\ reg (seq v) 2 = 3.
Proof. intros [_ E1 _ E2 _ _]. unfold window_base, plain, chained, odd_even. by rewrite E1, E2. Qed.
Lemma text_hits v i p o : programmed mode_text_regs v -> 0 <= i -> hits v 0xC00B8000 i p o = bool_decide (p = i mod 2 /\ o = i - i mod 2).
Proof.
  intros Hv Hi. destruct (text_view v Hv) as (W & _ & C & O & M). unfold hits. rewrite W. cbn [fst].
  replace (0xC00B8000 + i - 0xC00B8000) with i by lia. unfold reaches, place. rewrite C, O, M. pose proof (Z.mod_pos_bound i 2 ltac:(lia)).
  destruct (Z.leb_spec 0 p), (Z.ltb_spec p 4), (Z.eqb_spec o (i - i mod 2)), (Z.eqb_spec (i mod 2) (p mod 2)); cbn [andb]; rewrite ?andb_false_r, ?andb_true_r;
    try (symmetry; apply bool_decide_eq_false; lia).
  - assert (p = 0 \/ p = 1 \/ p = 2 \/ p = 3) as [-> |[-> |[-> | ->]]] by lia; symmetry; first [apply bool_decide_eq_true|apply bool_decide_eq_false];
      match goal with E : i mod 2 = ?x |- _ => let y := eval vm_compute in x in change x with y in E end; lia.
  - symmetry. apply bool_decide_eq_false. intros [-> _]. rewrite Z.mod_mod in * by lia. lia.
Qed.

(** [monitor_clear], exactly. *)
Lemma monitor_clear_exact s : length (video_memory s) = 2000%nat -> monitor_lock s = LOCKED_NO -> exists v,
  monitor_clear s = Ok (mk_monitor v 0 0 ([(981, 0); (980, 15); (981, 0); (980, 14)] ++ port_output s) LOCKED_NO) /\ length v = 2000%nat /\
  forall k, 0 <= k < 2000 -> v !! Z.to_nat k = Some blank.
Proof.
  intros Hl Hk. unfold monitor_clear, yieldlock_lock. rewrite Hk. cbn [atomic_exchange negb Z.eqb LOCKED_NO res_bind].
  change (Z.to_nat (VGA_WIDTH * VGA_HEIGHT)) with (Z.to_nat 2000).
  destruct (fill_ok (Z.to_nat 2000) 0 (video_memory (with_mlock s LOCKED_YES)) (cell 32)) as (v & -> & L & K); [lia|cbn; lia|].
  cbn [res_bind]. exists v. split; [done|]. cbn in L. split; [lia|]. intros k Hk2. rewrite K, decide_True by lia. by rewrite cell_blank.
Qed.

(** The stores of the cells. *)
Lemma store_cells_ok v l n : programmed mode_text_regs v -> (n <= 2000)%nat -> (forall k, 0 <= k < 2000 -> arr_get l k = Ok blank) ->
  exists F, for_loop n 0 (fun i v => let! w := arr_get l i in let! v := vga_store v (0xC00B8000 + 2 * i) w in vga_store v (0xC00B8000 + 2 * i + 1) (w / 256)) v =
      Ok (with_planes v F) /\ (forall p o, 2 <= p -> F p o = planes v p o) /\ forall i, 0 <= i < Z.of_nat n -> F 0 (2 * i) = 32 /\ F 1 (2 * i) = 7.
Proof.
  intros Hv Hn Hl. destruct (text_view v Hv) as (W & P & _).
  destruct (for_loop_inv (fun j v' => exists F, v' = with_planes v F /\ (forall p o, 2 <= p -> F p o = planes v p o) /\ forall i, 0 <= i < j -> F 0 (2 * i) = 32 /\ F 1 (2 * i) = 7)
    n 0 (fun i v => let! w := arr_get l i in let! v := vga_store v (0xC00B8000 + 2 * i) w in vga_store v (0xC00B8000 + 2 * i + 1) (w / 256)) v) as (v' & E & F & -> & H1 & H2).
  - exists (planes v). split; [by destruct v|]. split; [done|lia].
  - intros j v' Hj (F & -> & H1 & H2). rewrite Hl by lia. cbn [res_bind].
    assert (programmed mode_text_regs (with_planes v F)) as Hv1 by (by destruct Hv; split).
    rewrite vga_store_ok; [|change (window_base (with_planes v F)) with (window_base v); rewrite W; cbn [fst snd]; lia|done]. cbn [res_bind].
    set (v1 := with_planes _ _). assert (programmed mode_text_regs v1) as Hv2 by (by destruct Hv; split).
    rewrite <- Z.add_assoc, vga_store_ok; [|change (window_base v1) with (window_base v); rewrite W; cbn [fst snd]; lia|done].
    eexists. split; [done|]. eexists. split; [reflexivity|]. cbn [planes with_planes v1].
    assert (forall p o, hits v1 0xC00B8000 (2 * j + 1) p o = bool_decide (p = 1 /\ o = 2 * j)) as T1.
    { intros p o. rewrite text_hits by (done || lia). apply bool_decide_ext. zdiv. }
    assert (forall p o, hits (with_planes v F) 0xC00B8000 (2 * j) p o = bool_decide (p = 0 /\ o = 2 * j)) as T2.
    { intros p o. rewrite text_hits by (done || lia). apply bool_decide_ext. zdiv. }
    split; [intros p o Hp; rewrite T1, T2, !bool_decide_eq_false_2 by lia; by apply H1|]. intros i Hi. rewrite !T1, !T2.
    destruct (decide (i = j)) as [->|].
    + rewrite (bool_decide_eq_false_2 (0 = 1 /\ _)), (bool_decide_eq_true_2 (0 = 0 /\ _)), (bool_decide_eq_true_2 (1 = 1 /\ _)) by lia. done.
    + rewrite !bool_decide_eq_false_2 by lia. apply H2. lia.
  - exists F. rewrite E. split; [done|]. split; [done|]. intros i Hi. apply H2. lia.
Qed.

Lemma clear_screen_ok s : programmed mode_text_regs (card s) -> length (video_memory (screen s)) = 2000%nat -> monitor_lock (screen s) = LOCKED_NO ->
  exists F m, clear_screen s = Ok (with_screen (with_card s (with_crtc (with_planes (card s) F) 15 (crtc (card s)))) m) /\ monitor_clear (screen s) = Ok m /\
    length (video_memory m) = 2000%nat /\ monitor_lock m = LOCKED_NO /\
    (forall p o, 2 <= p -> F p o = planes (card s) p o) /\ (forall i, 0 <= i < 2000 -> F 0 (2 * i) = 32 /\ F 1 (2 * i) = 7).
Proof.
  intros Hv Hl Hk. unfold clear_screen. destruct (monitor_clear_exact (screen s) Hl Hk) as (l & -> & Ll & Hb). cbn [res_bind video_memory].
  destruct (store_cells_ok (card s) l (Z.to_nat (VGA_WIDTH * VGA_HEIGHT)) Hv ltac:(unfold VGA_WIDTH, VGA_HEIGHT; lia)) as (F & -> & H1 & H2).
  { intros k Hk2. apply arr_get_Some; [lia|by apply Hb]. }
  cbn [res_bind port_output]. rewrite length_app, Nat.add_sub. rewrite take_app_length'; [|done]. cbn [rev app].
  exists F. eexists. split; [|split; [done|split; [done|split; [done|split; [done|intros i Hi; apply H2; unfold VGA_WIDTH, VGA_HEIGHT; lia]]]]].
  unfold outbs, outb, crtc_write. cbn [Z.eqb Pos.eqb VGA_MISC_WRITE VGA_SEQ_INDEX VGA_SEQ_DATA VGA_CRTC_INDEX VGA_CRTC_DATA res_bind crtc crtc_index with_crtc with_planes].
  change (u8 14) with 14. change (u8 15) with 15. change (u8 0) with 0. change (14 <? 8) with false. change (15 <? 8) with false. rewrite !andb_false_r.
  do 4 f_equal. rewrite (pg_crtc _ _ Hv). reflexivity.
Qed.

(** ** The palette *)
Definition text_colours : list Z := text_palette ≫= (fun '(r, g, b) => [r; g; b]).
Lemma colour_at k r g b : text_palette !! k = Some (r, g, b) ->
  text_colours !! (3 * k)%nat = Some r /\ text_colours !! (3 * k + 1)%nat = Some g /\ text_colours !! (3 * k + 2)%nat = Some b /\ 0 <= r < 64 /\ 0 <= g < 64 /\ 0 <= b < 64.
Proof. intros H. do 16 (destruct k as [|k]; [injection H as <- <- <-; repeat split; (reflexivity || lia)|]). done. Qed.

Lemma six_bits x : 0 <= x < 64 -> Z.land (u8 x) 0x3F = x.
Proof. intros. rewrite u8_small by lia. change 0x3F with (Z.ones 6). rewrite Z.land_ones by lia. by apply Z.mod_small. Qed.

Lemma restore_palette_ok v : length (dac v) = 768%nat -> restore_text_palette v = Ok (with_dac v 16 0 (text_colours ++ drop 48 (dac v))).
Proof.
  intros Hl. unfold restore_text_palette.
  set (g := fun k => match k with O => v | S _ => with_dac v (Z.of_nat k) 0 (take (3 * k) text_colours ++ drop (3 * k) (dac v)) end).
  match goal with |- for_loop _ _ ?f _ = _ => change (for_loop 16 0 f (g 0%nat) = Ok (g 16%nat)) end. apply for_loop_eq. intros k Hk. rewrite Z.add_0_l.
  destruct (lookup_lt_is_Some_2 text_palette k Hk) as [[[r b1] b] Hx]. destruct (colour_at k r b1 b Hx) as (C0 & C1 & C2 & R0 & R1 & R2).
  rewrite (arr_get_Some text_palette (Z.of_nat k) (r, b1, b)) by (rewrite ?Nat2Z.id; done || lia). cbn [res_bind].
  assert (g k = with_dac v (dac_index (g k)) (dac_part (g k)) (take (3 * k) text_colours ++ drop (3 * k) (dac v))) as -> by (destruct k; by destruct v).
  unfold outbs, outb. cbn [Z.eqb Pos.eqb VGA_MISC_WRITE VGA_SEQ_INDEX VGA_SEQ_DATA VGA_CRTC_INDEX VGA_CRTC_DATA VGA_GC_INDEX VGA_GC_DATA VGA_AC_INDEX VGA_DAC_WRITE VGA_DAC_DATA
    res_bind dac dac_index dac_part with_dac Z.add Pos.add Pos.succ]. rewrite !six_bits by done. rewrite (u8_small (Z.of_nat k)) by lia.
  replace (3 * Z.of_nat k + 0) with (Z.of_nat (3 * k)) by lia. replace (3 * Z.of_nat k + (0 + 1)) with (Z.of_nat (3 * k + 1)) by lia.
  change (0 + 1 =? 2) with false. cbn iota. change (0 + 1 + 1) with 2. change (2 =? 2) with true. cbn iota. rewrite u8_small by lia.
  replace (3 * Z.of_nat k + 2) with (Z.of_nat (3 * k + 2)) by lia.
  rewrite (overwrite_step text_colours (dac v) (3 * k) r C0) by lia. replace (S (3 * k)) with (3 * k + 1)%nat by lia.
  rewrite (overwrite_step text_colours (dac v) (3 * k + 1) b1 C1) by lia. replace (S (3 * k + 1)) with (3 * k + 2)%nat by lia.
  rewrite (overwrite_step text_colours (dac v) (3 * k + 2) b C2) by lia. unfold g, with_dac; cbn [misc seq_index seq crtc_index crtc gc_index gc ac_index ac_data ac dac_index dac_part planes].
  do 2 f_equal; [lia|]. by replace (3 * S k)%nat with (S (3 * k + 2)) by lia.
Qed.

Lemma font_bytes v : (forall o, byte (planes v 2 o)) -> Forall byte (font_of v).
Proof. intros H. unfold font_of. apply Forall_fmap, Forall_true. intros o. apply H. Qed.

(** ** Calls of programs *)
Inductive video_call : Type := SetMode (mode : Z) | SetPalette (index r g b : Z) | Blit (buffer width height : Z).
Definition run_call (m : mem) (s : video) (c : video_call) : res video :=
  match c with
  | SetMode mode => video_set_mode s mode
  | SetPalette index r g b => video_set_palette s index r g b
  | Blit buffer width height => let! (_, s) := video_blit s m buffer width height in Ok s
  end.
Fixpoint run_calls (m : mem) (s : video) (l : list video_call) : res video :=
  match l with [] => Ok s | c :: l => let! s := run_call m s c in run_calls m s l end.
Definition known_mode (c : video_call) : Prop := match c with SetMode mode => mode = VIDEO_MODE_TEXT \/ mode = VIDEO_MODE_13H | _ => True end.

(** The text mode of the BIOS or of the kernel, with its font in plane 2. *)
Record text_mode (font : list Z) (s : video) : Prop := {
  tm_mode : current_mode s = VIDEO_MODE_TEXT;
  tm_sized : sized (card s);
  tm_simple : simple (gc (card s));
  tm_font : font_of (card s) = font;
  tm_bytes : Forall byte font;
  tm_saved : text_font_saved s = true -> saved_text_font s = font;
  tm_screen : length (video_memory (screen s)) = 2000%nat /\ monitor_lock (screen s) = LOCKED_NO
}.
(** The picture mode: the font is kept aside. *)
Record picture_mode (font : list Z) (s : video) : Prop := {
  pm_mode : current_mode s = VIDEO_MODE_13H;
  pm_programmed : programmed mode_13h_regs (card s);
  pm_saved : text_font_saved s = true /\ saved_text_font s = font;
  pm_length : length font = Z.to_nat VGA_FONT_BYTES;
  pm_bytes : Forall byte font;
  pm_screen : length (video_memory (screen s)) = 2000%nat /\ monitor_lock (screen s) = LOCKED_NO
}.
Definition in_mode (font : list Z) (s : video) : Prop := text_mode font s \/ picture_mode font s.

Lemma font_length v : length (font_of v) = Z.to_nat VGA_FONT_BYTES.
Proof. unfold font_of. by rewrite length_fmap, length_seq. Qed.
Lemma font_same v v' : (forall o, planes v' 2 o = planes v 2 o) -> font_of v' = font_of v.
Proof. intros H. unfold font_of. apply list_fmap_ext. intros i x _. apply H. Qed.

(** Entering the picture mode saves the font. *)
Lemma enter_picture font s : in_mode font s -> exists s', video_set_mode s VIDEO_MODE_13H = Ok s' /\ picture_mode font s'.
Proof.
  intros Hm. unfold video_set_mode. change (VIDEO_MODE_13H =? VIDEO_MODE_13H) with true. cbn iota.
  assert (exists v f, (if current_mode s =? VIDEO_MODE_TEXT then save_text_font s else Ok s) = Ok (mk_video v (current_mode s) f true (screen s)) /\ f = font /\ sized v /\ length font = Z.to_nat VGA_FONT_BYTES /\ Forall byte font /\ length (video_memory (screen s)) = 2000%nat /\ monitor_lock (screen s) = LOCKED_NO)
    as (v & f & -> & -> & Hz & Hl & Hb & Hs).
  { destruct Hm as [[M1 M2 M3 M4 M5 M6 M7]|[M1 M2 [M3 M4] M5 M6 M7]].
    - assert (length font = Z.to_nat VGA_FONT_BYTES) as Hlf by (rewrite <- M4; apply font_length). rewrite M1. cbn [Z.eqb Pos.eqb VIDEO_MODE_TEXT]. unfold save_text_font. destruct (text_font_saved s) eqn:Es.
      + exists (card s), (saved_text_font s). split; [destruct s; cbn in *; by subst|]. split; [by apply M6|]. done.
      + rewrite select_font_ok. cbn [res_bind]. rewrite load_font_ok by done. cbn [res_bind]. exists (font_card (card s)), (font_of (card s)).
        split; [by unfold with_font, with_card; cbn; rewrite M1|]. split; [done|]. split; [destruct M2; split; cbn; by rewrite ?set_reg_length|]. done.
    - rewrite M1. cbn [Z.eqb Pos.eqb VIDEO_MODE_TEXT VIDEO_MODE_13H]. exists (card s), (saved_text_font s). split; [destruct s; cbn in *; by subst|].
      split; [done|]. split; [by apply (programmed_sized mode_13h_regs); [apply table_13h|]|done]. }
  cbn [res_bind card]. rewrite (write_registers_ok mode_13h_regs) by (apply table_13h || done). cbn [res_bind].
  pose proof (mode_card_programmed mode_13h_regs v Hz) as Hp.
  destruct (store_picture_ok _ (fun _ => Ok 0) (fun _ => 0) Hp ltac:(done)) as (F & -> & _). cbn [res_bind].
  eexists. split; [done|]. split; try done; try (by destruct Hp; split).
Qed.

(** Back to the text mode: the font, the registers, the colours, and a blank screen. *)
Lemma enter_text font s : in_mode font s -> exists s', video_set_mode s VIDEO_MODE_TEXT = Ok s' /\ text_mode font s' /\ programmed mode_text_regs (card s') /\
  take 48 (dac (card s')) = text_colours /\ (forall i, 0 <= i < 2000 -> planes (card s') 0 (2 * i) = 32 /\ planes (card s') 1 (2 * i) = 7) /\ shows (screen s') blank_sheet.
Proof.
  intros Hm. unfold video_set_mode. change (VIDEO_MODE_TEXT =? VIDEO_MODE_13H) with false. change (VIDEO_MODE_TEXT =? VIDEO_MODE_TEXT) with true. cbn iota.
  assert (sized (card s)) as Hz.
  { destruct Hm as [[]|[? Hp]]; [done|]. by apply (programmed_sized mode_13h_regs); [apply table_13h|]. }
  assert (length (video_memory (screen s)) = 2000%nat /\ monitor_lock (screen s) = LOCKED_NO) as [Hsl Hsk] by (by destruct Hm as [[]|[]]).
  assert (Forall byte font) as Hb by (by destruct Hm as [[]|[]]).
  rewrite (write_registers_ok mode_text_regs) by (apply table_text || done). cbn [res_bind]. set (v1 := mode_card mode_text_regs (card s)).
  pose proof (mode_card_programmed mode_text_regs (card s) Hz) as Hp1. fold v1 in Hp1.
  pose proof (programmed_sized _ _ table_text Hp1) as Hz1. pose proof (programmed_simple mode_text_regs v1 (or_intror eq_refl) Hp1) as Hg1.
  assert (exists v2, restore_text_font (with_card s v1) = Ok (with_card s v2) /\ sized v2 /\ font_of v2 = font) as (v2 & -> & Hz2 & Hf2).
  { unfold restore_text_font. cbn [text_font_saved with_card card saved_text_font]. destruct (text_font_saved s) eqn:Es; cbn [negb].
    - rewrite select_font_ok. cbn [res_bind]. assert (saved_text_font s = font) as -> by (destruct Hm as [[]|[? ? [] ? ? ?]]; auto).
      assert (length font = Z.to_nat VGA_FONT_BYTES) as Hl by (destruct Hm as [[? ? ? <- ? ? ?]|[]]; [apply font_length|done]).
      destruct (store_font_ok v1 font Hz1 Hg1 Hl Hb) as (P & -> & HP). cbn [res_bind]. eexists. split; [done|]. split; [destruct Hz1; split; cbn; by rewrite ?set_reg_length|].
      apply list_eq. intros i. unfold font_of. rewrite list_lookup_fmap. destruct (font !! i) as [x|] eqn:Ei.
      + pose proof (lookup_lt_Some _ _ _ Ei). rewrite lookup_seq_lt by lia. cbn. f_equal. by apply HP.
      + apply lookup_ge_None in Ei. by rewrite lookup_seq_ge by lia.
    - exists v1. split; [done|]. split; [done|]. destruct Hm as [[? ? ? <- ? ? ?]|[? ? [E _] _ _ _]]; [by apply font_same|by rewrite E in Es]. }
  cbn [res_bind card with_card]. rewrite (write_registers_ok mode_text_regs) by (apply table_text || done). cbn [res_bind]. set (v3 := mode_card mode_text_regs v2).
  pose proof (mode_card_programmed mode_text_regs v2 Hz2) as Hp3. fold v3 in Hp3.
  rewrite restore_palette_ok by apply Hp3. cbn [res_bind]. set (v4 := with_dac v3 _ _ _).
  assert (programmed mode_text_regs v4) as Hp4.
  { destruct Hp3; split; try done. cbn [v4 dac with_dac]. rewrite length_app, length_drop. change (length text_colours) with 48%nat. lia. }
  change (with_card (with_card s v2) v4) with (with_card s v4).
  destruct (clear_screen_ok (with_mode (with_card s v4) VIDEO_MODE_TEXT)) as (F & m & -> & Em & Lm & Km & HF & HC); [done|done|done|].
  eexists. split; [done|]. assert (programmed mode_text_regs (with_crtc (with_planes v4 F) 15 (crtc v4))) as Hp5 by (by destruct Hp4; split).
  split; [|split; [done|split; [|split]]].
  - split; [done|by apply (programmed_sized mode_text_regs); [apply table_text|]|by apply (programmed_simple mode_text_regs); [right|]| |done| |done].
    + rewrite <- Hf2. apply font_same. intros o. change (F 2 o = planes v2 2 o). by rewrite HF by lia.
    + intros Es. change (text_font_saved s = true) in Es. change (saved_text_font s = font). destruct Hm as [[]|[? ? [] ? ? ?]]; auto.
  - by apply take_app_length'.
  - intros i Hi. by apply HC.
  - destruct (monitor_clear_ok (screen s) Hsl Hsk) as (m' & E & Hsh & _). cbn in Em |- *. congruence.
Qed.

Lemma palette_keeps font s index r g b : 0 <= index -> in_mode font s -> exists s', video_set_palette s index r g b = Ok s' /\ in_mode font s' /\ current_mode s' = current_mode s.
Proof.
  intros Hi Hm. unfold video_set_palette. destruct (index >=? 256); [by exists s|].
  assert (exists i p l, outbs (card s) [(VGA_DAC_WRITE, index); (VGA_DAC_DATA, Z.land r 0x3F); (VGA_DAC_DATA, Z.land g 0x3F); (VGA_DAC_DATA, Z.land b 0x3F)] =
    Ok (with_dac (card s) i p l) /\ length l = length (dac (card s))) as (i & p & l & -> & Hl).
  { do 3 eexists. split; [reflexivity|]. cbn. by rewrite !set_reg_length. }
  cbn [res_bind]. eexists. split; [done|]. split; [|done]. destruct Hm as [[M1 [] M3 M4 M5 M6 M7]|[M1 [] M3 M4 M5 M6]].
  - left. split; try done. split; try done. cbn. congruence.
  - right. split; try done. split; try done. cbn. congruence.
Qed.

(** A copied picture: every point has its byte. *)
Lemma blit_shows font s m buffer : picture_mode font s -> buffer <> 0 ->
  exists s', video_blit s m buffer VIDEO_WIDTH_13H VIDEO_HEIGHT_13H = Ok (0, s') /\ picture_mode font s' /\
    forall i, 0 <= i < 64000 -> planes (card s') (i mod 4) (i - i mod 4) = u8 (m (buffer + i)).
Proof.
  intros [M1 M2 M3 M4 M5 M6] Hb. unfold video_blit. rewrite M1. cbn [Z.eqb Pos.eqb VIDEO_MODE_13H negb VIDEO_WIDTH_13H VIDEO_HEIGHT_13H orb].
  rewrite (proj2 (Z.eqb_neq buffer 0)) by done. cbn [orb].
  destruct (store_picture_ok (card s) (fun i => Ok (load8 m (buffer + i))) (fun i => m (buffer + i)) M2 ltac:(done)) as (F & -> & HF). cbn [res_bind].
  eexists. split; [done|]. split; [|done]. split; try done. by destruct M2; split.
Qed.

Lemma run_call_keeps font m s c : in_mode font s -> known_mode c -> (match c with SetPalette i _ _ _ => 0 <= i | _ => True end) ->
  exists s', run_call m s c = Ok s' /\ in_mode font s'.
Proof.
  intros Hm Hk Hi. destruct c as [mode|index r g b|buffer width height]; cbn [run_call known_mode] in *.
  - destruct Hk as [-> | ->].
    + destruct (enter_text font s Hm) as (s' & E & H & _). exists s'. split; [done|by left].
    + destruct (enter_picture font s Hm) as (s' & E & H). exists s'. split; [done|by right].
  - destruct (palette_keeps font s index r g b Hi Hm) as (s' & E & H & _). by exists s'.
  - destruct Hm as [Hm|Hm].
    + unfold video_blit. rewrite (tm_mode _ _ Hm). exists s. split; [done|by left].
    + destruct (decide (buffer = 0)) as [->|Hb].
      { unfold video_blit. rewrite (pm_mode _ _ Hm). exists s. split; [done|by right]. }
      destruct (blit_shows font s m buffer Hm Hb) as (s' & E & H & _). revert E. unfold video_blit. rewrite (pm_mode _ _ Hm).
      cbn [Z.eqb Pos.eqb VIDEO_MODE_13H negb]. rewrite (proj2 (Z.eqb_neq buffer 0)) by done. cbn [orb]. rewrite !Z.eqb_refl. cbn [negb orb]. intros E.
      destruct (negb (width =? VIDEO_WIDTH_13H) || negb (height =? VIDEO_HEIGHT_13H)); [exists s; split; [done|by right]|]. rewrite E. exists s'. split; [done|by right].
Qed.

Definition index_ok (c : video_call) : Prop := match c with SetPalette i _ _ _ => 0 <= i | _ => True end.

Lemma run_calls_keep font m l : forall s, in_mode font s -> Forall (fun c => known_mode c /\ index_ok c) l -> exists s', run_calls m s l = Ok s' /\ in_mode font s'.
Proof.
  induction l as [|c l IH]; intros s Hs Hl; [by exists s|]. apply Forall_cons in Hl as [[Hk Hi] Hl]. cbn [run_calls].
  destruct (run_call_keeps font m s c Hs Hk Hi) as (s1 & -> & H1). cbn [res_bind]. by apply IH.
Qed.

(** C33: from the text mode, whatever sequence of changes of mode, of colours and of pictures programs ask for,
    the text mode that follows has the font it had before, in its plane, though pictures are written over
    it; the registers are those of the table for text, the sixteen colours are restored, and the
    screen is blank, in the adapter's memory as in the kernel's view of it.  In between, a picture copied in
    the picture mode has every byte at its point.  A mode that is neither is a panic of the kernel. *)
Theorem video_round_trip (m : mem) (s : video) (l : list video_call) (font : list Z)
  (Hs : text_mode font s) (Hl : Forall (fun c => known_mode c /\ index_ok c) l) :
  exists s1, run_calls m s l = Ok s1 /\
  (exists s2, video_set_mode s1 VIDEO_MODE_TEXT = Ok s2 /\ font_of (card s2) = font /\ programmed mode_text_regs (card s2) /\ take 48 (dac (card s2)) = text_colours /\
    (forall i, 0 <= i < 2000 -> planes (card s2) 0 (2 * i) = 32 /\ planes (card s2) 1 (2 * i) = 7) /\ shows (screen s2) blank_sheet) /\
  (forall buffer, current_mode s1 = VIDEO_MODE_13H -> buffer <> 0 -> programmed mode_13h_regs (card s1) /\
    exists s3, video_blit s1 m buffer VIDEO_WIDTH_13H VIDEO_HEIGHT_13H = Ok (0, s3) /\ forall i, 0 <= i < 64000 -> planes (card s3) (i mod 4) (i - i mod 4) = u8 (m (buffer + i))) /\
  forall mode, mode <> VIDEO_MODE_TEXT -> mode <> VIDEO_MODE_13H -> video_set_mode s1 mode = Err Panic.
Proof.
  destruct (run_calls_keep font m l s (or_introl Hs) Hl) as (s1 & E & H1). exists s1. split; [exact E|]. split; [|split].
  - destruct (enter_text font s1 H1) as (s2 & E2 & [_ _ _ T _ _ _] & P & D & C & W). exists s2. exact (conj E2 (conj T (conj P (conj D (conj C W))))).
  - intros buffer Hm Hb. destruct H1 as [[M _ _ _ _ _ _]|H1]; [by rewrite M in Hm|]. split; [apply H1|].
    destruct (blit_shows font s1 m buffer H1 Hb) as (s3 & E3 & _ & H3). exists s3. exact (conj E3 H3).
  - intros mode H3 H13. unfold video_set_mode. by rewrite (proj2 (Z.eqb_neq mode VIDEO_MODE_13H)), (proj2 (Z.eqb_neq mode VIDEO_MODE_TEXT)) by done.
Qed.

(** ** Witness: a game, from the text mode of the BIOS *)
Definition bios_card : vga :=
  mk_vga 0x67 0 [3; 0; 3; 0; 2] 0 (replicate 25 0x80) 0 [0; 0; 0; 0; 0; 0x10; 0x0E; 0; 0xFF] 0x20 false (replicate 21 0) 0 0 (replicate 768 1) (fun p o => if p =? 2 then o mod 256 else 0).
Definition bios_video : video := mk_video bios_card VIDEO_MODE_TEXT [] false (mk_monitor (replicate 2000 0) 3 4 [] LOCKED_NO).
Definition game : list video_call := [SetMode 0x13; SetPalette 1 63 0 0; Blit 4096 320 200; Blit 0 320 200; SetMode 0x13].

Lemma video_round_trip_witness : exists s1 s2, run_calls (fun a => a mod 256) bios_video game = Ok s1 /\ video_set_mode s1 VIDEO_MODE_TEXT = Ok s2 /\
  font_of (card s2) = font_of bios_card /\ planes (card s2) 0 10 = 32.
Proof.
  destruct (video_round_trip (fun a => a mod 256) bios_video game (font_of bios_card)) as (s1 & E1 & (s2 & E2 & F & _ & _ & C & _) & _).
  - split; [done|by split|by split|reflexivity| |done|done]. apply font_bytes. intros o. unfold byte. apply (Z.mod_pos_bound o 256). lia.
  - repeat (apply Forall_cons; split; [split; cbn; auto; lia|]). apply Forall_nil_2.
  - exists s1, s2. split; [exact E1|]. split; [exact E2|]. split; [exact F|]. exact (proj1 (C 5 ltac:(lia))).
Defined.
