(* ===== verification/Elf.v ===== *)
(** The program loader, [src/src/elf/elf.c], and the arrays of strings of
    [src/src/utils/string.c] that [exec] passes to the new program. *)
From S2P Require Import Prelude Memory Strings StringsSpec Allocator.

(** ** [elf.h] *)
Definition PT_LOAD : Z := 1.

(** [elf32_ehdr_t] at an address *)
Definition e_ident (m : mem) (h i : Z) : Z := load8 m (h + i).
Definition e_entry (m : mem) (h : Z) : Z := load32 m (h + 24).
Definition e_phoff (m : mem) (h : Z) : Z := load32 m (h + 28).
Definition e_phentsize (m : mem) (h : Z) : Z := load16 m (h + 42).
Definition e_phnum (m : mem) (h : Z) : Z := load16 m (h + 44).

(** [elf32_phdr_t] at an address *)
Definition p_type (m : mem) (h : Z) : Z := load32 m h.
Definition p_offset (m : mem) (h : Z) : Z := load32 m (h + 4).
Definition p_vaddr (m : mem) (h : Z) : Z := load32 m (h + 8).
Definition p_filesz (m : mem) (h : Z) : Z := load32 m (h + 16).
Definition p_memsz (m : mem) (h : Z) : Z := load32 m (h + 20).

(** ** [elf.c] *)

(** The body of the loop of [load_elf], for the header at [program_header]. *)
Definition load_segment (m : mem) (content program_header : Z) : res mem :=
  if (p_type m program_header =? PT_LOAD) && (p_memsz m program_header >? 0) then
    let! m' :=
      if p_filesz m program_header >? 0 then
        memcpy m (p_vaddr m program_header) (u32 (content + p_offset m program_header)) (p_filesz m program_header)
      else Ok m in
    if p_memsz m' program_header >? p_filesz m' program_header then
      memset m' (u32 (p_vaddr m' program_header + p_filesz m' program_header)) 0
        (u32 (p_memsz m' program_header - p_filesz m' program_header))
    else Ok m'
  else Ok m.

(** The loop, over the [n] headers from [i]. *)
Fixpoint load_segments (n : nat) (i : Z) (m : mem) (elf_header program_header : Z) : res mem :=
  match n with
  | O => Ok m
  | S n =>
      if i <? e_phnum m elf_header then
        let! m := load_segment m elf_header program_header in
        load_segments n (i + 1) m elf_header (u32 (program_header + e_phentsize m elf_header))
      else Ok m
  end.

(** Rounds of the loop: [e_phnum] has 16 bits. *)
Definition phnum_fuel : nat := Z.to_nat 65536.

(** [load_elf] *)
Definition load_elf (m : mem) (content entry_addr : Z) : res (Z * mem) :=
  if negb (e_ident m content 0 =? 127) then Ok (-1, m)
  else if negb (e_ident m content 1 =? 69) then Ok (-1, m)
  else if negb (e_ident m content 2 =? 76) then Ok (-1, m)
  else if negb (e_ident m content 3 =? 70) then Ok (-1, m)
  else
    let program_header := u32 (content + e_phoff m content) in
    let! m := load_segments phnum_fuel 0 m content program_header in
    Ok (0, store32 m entry_addr (e_entry m content)).

(** ** [utils/string.c] *)
Section STRINGS.
Context {St : Type} `{Allocator St}.
(** The bound of the strings. *)
Context (sfuel : nat).

Record astate : Type := mk_astate { as_alloc : St; as_mem : mem }.

(** The body of the loop of [copy_str_array], for the element [i]. *)
Definition copy_element (s : astate) (ptr str_array i : Z) : res astate :=
  let str_i := load32 (as_mem s) (str_array + 4 * i) in
  if str_i =? 0 then Ok (mk_astate (as_alloc s) (store32 (as_mem s) (ptr + 4 * i) 0))
  else
    let! len := strlen_loop sfuel (as_mem s) str_i 0 in
    let! (str, a) := malloc (as_alloc s) (u32 (len + 1)) in
    let! (_, m) := strcpy_with_len sfuel (as_mem s) str str_i in
    Ok (mk_astate a (store32 m (ptr + 4 * i) str)).

(** [copy_str_array] *)
Definition copy_str_array (s : astate) (num str_array : Z) : res (Z * astate) :=
  if str_array =? 0 then Ok (0, s)
  else
    let! (ptr, a) := malloc (as_alloc s) (u32 (num * 4)) in
    let! s := for_loop (Z.to_nat num) 0 (fun i s => copy_element s ptr str_array i) (mk_astate a (as_mem s)) in
    Ok (ptr, s).

(** [destroy_str_array]; [kfree] of [NULL] does nothing. *)
Definition free_element (s : astate) (p : Z) : res astate :=
  if p =? 0 then Ok s
  else let! a := mfree (as_alloc s) p in Ok (mk_astate a (as_mem s)).
Definition destroy_str_array (s : astate) (num str_array : Z) : res astate :=
  if str_array =? 0 then Ok s
  else
    let! s := for_loop (Z.to_nat num) 0 (fun i s => free_element s (load32 (as_mem s) (str_array + 4 * i))) s in
    free_element s str_array.
End STRINGS.
