(* ===== verification/ElfSpec.v ===== *)
(** Properties of the program loader and of the copies of string arrays. *)
From S2P Require Import Prelude Memory Strings StringsSpec Allocator Bump DiskSpec Elf.

(** ** A program in memory *)
Section PROGRAM.
(** The memory before, with the file's [size] bytes at [content]. *)
Context (m0 : mem) (content size : Z).

(** The address of program header [i]. *)
Definition header (i : Z) : Z := content + e_phoff m0 content + i * e_phentsize m0 content.
Definition loadable (i : Z) : bool := (p_type m0 (header i) =? PT_LOAD) && (p_memsz m0 (header i) >? 0).

(** Byte [k] of segment [i]: of the file, or zero after its end. *)
Definition segment_byte (i k : Z) : Z :=
  if k <? p_filesz m0 (header i) then m0 (content + p_offset m0 (header i) + k) else 0.

(** The addresses segment [i] is loaded to. *)
Definition in_segment (i x : Z) : Prop :=
  loadable i = true /\ p_vaddr m0 (header i) <= x < p_vaddr m0 (header i) + p_memsz m0 (header i).

(** A program of which every part is where its headers say, whose segments are
    apart from each other and from the file. *)
Record well_formed : Prop := {
  wf_magic : e_ident m0 content 0 = 127 /\ e_ident m0 content 1 = 69 /\ e_ident m0 content 2 = 76 /\ e_ident m0 content 3 = 70;
  wf_content : 0 < content /\ 52 <= size /\ content + size < 4294967296;
  wf_headers : e_phoff m0 content + e_phnum m0 content * e_phentsize m0 content <= size /\ 32 <= e_phentsize m0 content;
  wf_file : forall i, 0 <= i < e_phnum m0 content -> loadable i = true ->
    p_offset m0 (header i) + p_filesz m0 (header i) <= size /\ p_filesz m0 (header i) <= p_memsz m0 (header i);
  wf_memory : forall i, 0 <= i < e_phnum m0 content -> loadable i = true ->
    0 < p_vaddr m0 (header i) /\ p_vaddr m0 (header i) + p_memsz m0 (header i) < 4294967296 /\
    disjoint_from (p_vaddr m0 (header i)) (p_memsz m0 (header i)) content size;
  wf_apart : forall i j, 0 <= i < e_phnum m0 content -> 0 <= j < e_phnum m0 content -> i <> j ->
    forall x, in_segment i x -> ~ in_segment j x
}.

Context (Hb : bytes_ok m0) (Hwf : well_formed).

Lemma load16_range m a : bytes_ok m -> 0 <= load16 m a < 65536.
Proof. intros H. unfold load16. pose proof (H a). pose proof (H (a + 1)). lia. Qed.

Definition same_file (m : mem) : Prop := forall x, content <= x < content + size -> m x = m0 x.

Lemma file_load32 m a : same_file m -> content <= a -> a + 4 <= content + size -> load32 m a = load32 m0 a.
Proof. intros H H1 H2. unfold load32. by rewrite !H by lia. Qed.

Lemma file_load16 m a : same_file m -> content <= a -> a + 2 <= content + size -> load16 m a = load16 m0 a.
Proof. intros H H1 H2. unfold load16. by rewrite !H by lia. Qed.

Lemma header_in_file i : 0 <= i < e_phnum m0 content -> content <= header i /\ header i + 32 <= content + size.
Proof.
  intros Hi. destruct Hwf as [_ (C1 & C2 & C3) (H1 & H2) _ _ _]. unfold header.
  pose proof (load32_range m0 (content + 28) Hb). unfold e_phoff, e_phentsize, e_phnum in *. nia.
Qed.

(** A header is read as in the file. *)
Lemma header_fields m i : same_file m -> 0 <= i < e_phnum m0 content ->
  p_type m (header i) = p_type m0 (header i) /\ p_offset m (header i) = p_offset m0 (header i) /\
  p_vaddr m (header i) = p_vaddr m0 (header i) /\ p_filesz m (header i) = p_filesz m0 (header i) /\
  p_memsz m (header i) = p_memsz m0 (header i).
Proof.
  intros Hm Hi. destruct (header_in_file i Hi). unfold p_type, p_offset, p_vaddr, p_filesz, p_memsz.
  rewrite !(file_load32 m) by (done || lia). done.
Qed.

(** The data of the file, then zeros. *)
Lemma copy_ok m v src n :
  bytes_ok m -> v <> 0 -> src <> 0 -> 0 <= n -> disjoint_from v n src n ->
  exists m', (if n >? 0 then memcpy m v src n else Ok m) = Ok m' /\ bytes_ok m' /\ same_outside m m' v (v + n) /\
    forall i, 0 <= i < n -> m' (v + i) = m (src + i).
Proof.
  intros Hm Hv Hs Hn Hd. rewrite Z.gtb_ltb. destruct (Z.ltb_spec 0 n).
  - destruct (memcpy_ok m v src n) as (m' & E & Ho & Hc); [done|done|lia|done|unfold disjoint_from in Hd; lia|].
    exists m'. split; [done|]. split; [by apply (memcpy_bytes m v src n)|done].
  - exists m. split; [done|]. split; [done|]. split; [apply same_outside_refl|]. intros i Hi. lia.
Qed.

Lemma zero_ok m v n k :
  bytes_ok m -> 0 < v -> 0 <= k -> v + n < 4294967296 -> n < 4294967296 ->
  exists m', (if n >? k then memset m (u32 (v + k)) 0 (u32 (n - k)) else Ok m) = Ok m' /\ bytes_ok m' /\
    same_outside m m' (v + k) (v + n) /\ forall x, v + k <= x < v + n -> m' x = 0.
Proof.
  intros Hm Hv Hk Hn Hn2. rewrite Z.gtb_ltb. destruct (Z.ltb_spec k n).
  - rewrite !u32_small by lia. destruct (memset_ok m (v + k) 0 (n - k)) as (m' & E & Ho & Hc); [lia|lia|].
    replace (v + k + (n - k)) with (v + n) in * by lia. exists m'. split; [done|]. split; [|done].
    intros x. destruct (decide (v + k <= x < v + n)); [rewrite Hc by done; apply u8_range|rewrite Ho by done; apply Hm].
  - exists m. split; [done|]. split; [done|]. split; [apply same_outside_refl|]. intros x Hx. lia.
Qed.

(** One segment. *)
Lemma load_segment_ok m i :
  bytes_ok m -> same_file m -> 0 <= i < e_phnum m0 content ->
  exists m', load_segment m content (header i) = Ok m' /\ bytes_ok m' /\ same_file m' /\
    (forall x, ~ in_segment i x -> m' x = m x) /\
    (loadable i = true -> forall k, 0 <= k < p_memsz m0 (header i) -> m' (p_vaddr m0 (header i) + k) = segment_byte i k).
Proof.
  intros Hm Hf Hi. destruct (header_fields m i Hf Hi) as (E1 & E2 & E3 & E4 & E5).
  pose proof (load32_range m0 (header i + 4) Hb : 0 <= p_offset m0 (header i) < _) as R2.
  pose proof (load32_range m0 (header i + 16) Hb : 0 <= p_filesz m0 (header i) < _) as R4.
  pose proof (load32_range m0 (header i + 20) Hb : 0 <= p_memsz m0 (header i) < _) as R5.
  unfold load_segment. rewrite E1, E2, E3, E4, E5. unfold in_segment.
  destruct (loadable i) eqn:El; unfold loadable in El; rewrite El; [|by exists m].
  destruct (wf_file Hwf i Hi El) as [F1 F2], (wf_memory Hwf i Hi El) as (G1 & G2 & G3), (wf_content Hwf) as (C1 & C2 & C3).
  unfold disjoint_from in G3. rewrite (u32_small (content + _)) by lia.
  destruct (copy_ok m (p_vaddr m0 (header i)) (content + p_offset m0 (header i)) (p_filesz m0 (header i)))
    as (m1 & -> & B1 & O1 & K1); [done|lia|lia|lia|unfold disjoint_from; lia|]. cbn [res_bind].
  assert (same_file m1) as Hf1 by (intros x Hx; rewrite O1 by lia; by apply Hf).
  destruct (header_fields m1 i Hf1 Hi) as (_ & _ & -> & -> & ->).
  destruct (zero_ok m1 (p_vaddr m0 (header i)) (p_memsz m0 (header i)) (p_filesz m0 (header i)))
    as (m2 & -> & B2 & O2 & K2); [done|lia|lia|lia|lia|].
  exists m2. split; [done|]. split; [done|]. split; [intros x Hx; rewrite O2 by lia; by apply Hf1|]. split.
  - intros x Hx. rewrite O2, O1; [done|intros ?; apply Hx; split; [done|lia]..].
  - intros _ k Hk. unfold segment_byte. destruct (Z.ltb_spec k (p_filesz m0 (header i))).
    + rewrite O2, K1 by lia. apply Hf. lia.
    + apply K2. lia.
Qed.

(** The segments from [i] on. *)
Lemma load_segments_ok n : forall i m,
  (Z.to_nat (e_phnum m0 content - i) < n)%nat -> 0 <= i <= e_phnum m0 content -> bytes_ok m -> same_file m ->
  exists m', load_segments n i m content (header i) = Ok m' /\ bytes_ok m' /\ same_file m' /\
    (forall x, (forall j, i <= j < e_phnum m0 content -> ~ in_segment j x) -> m' x = m x) /\
    (forall j, i <= j < e_phnum m0 content -> loadable j = true ->
       forall k, 0 <= k < p_memsz m0 (header j) -> m' (p_vaddr m0 (header j) + k) = segment_byte j k).
Proof.
  destruct (wf_content Hwf) as (C1 & C2 & C3), (wf_headers Hwf) as [H1 H2].
  induction n as [|n IH]; intros i m Hn Hi Hm Hf; [lia|]. cbn [load_segments].
  assert (e_phnum m content = e_phnum m0 content) as -> by (apply file_load16; [done|lia|lia]).
  destruct (Z.ltb_spec i (e_phnum m0 content)).
  2: { exists m. split; [done|]. split; [done|]. split; [done|]. split; [done|]. intros j Hj. lia. }
  destruct (load_segment_ok m i Hm Hf ltac:(lia)) as (m1 & -> & B1 & F1 & O1 & K1). cbn [res_bind].
  assert (e_phentsize m1 content = e_phentsize m0 content) as -> by (apply file_load16; [done|lia|lia]).
  assert (header (i + 1) = u32 (header i + e_phentsize m0 content)) as <-.
  { pose proof (header_in_file i ltac:(lia)) as Hh.
    pose proof (load32_range m0 (content + 28) Hb : 0 <= e_phoff m0 content < _) as Ho.
    rewrite u32_small; unfold header in *; nia. }
  destruct (IH (i + 1) m1) as (m2 & -> & B2 & F2 & O2 & K2); [lia|lia|done|done|].
  exists m2. split; [done|]. split; [done|]. split; [done|]. split.
  - intros x Hx. rewrite O2 by (intros j Hj; apply Hx; lia). apply O1, Hx. lia.
  - intros j Hj Hl k Hk. destruct (decide (j = i)) as [->|Hne]; [|apply K2; [lia|done|done]].
    rewrite O2; [by apply K1|]. intros j Hj2. apply (wf_apart Hwf i j); [lia|lia|lia|]. split; [done|lia].
Qed.
End PROGRAM.

(** ** Properties *)

(** C35: [load_elf] builds the image of a program: a file that does not start with
    the magic number is refused with -1 and nothing changes; otherwise, when the
    parts of the file are where its headers say and the segments are apart from
    the file and from each other, every segment to be loaded gets its bytes of the
    file followed by zeros, the entry point is returned, and no other byte of memory changes. *)
Theorem load_elf_correct (m : mem) (content size entry_addr : Z) (Hb : bytes_ok m) :
  let magic := bytes m content 4 in
  (magic <> [127; 69; 76; 70] -> load_elf m content entry_addr = Ok (-1, m)) /\
  (well_formed m content size -> disjoint_from entry_addr 4 content size ->
   (forall i x, 0 <= i < e_phnum m content -> in_segment m content i x -> ~ (entry_addr <= x < entry_addr + 4)) ->
   exists m', load_elf m content entry_addr = Ok (0, m') /\ load32 m' entry_addr = e_entry m content /\
     (forall i, 0 <= i < e_phnum m content -> loadable m content i = true ->
        forall k, 0 <= k < p_memsz m (header m content i) ->
          m' (p_vaddr m (header m content i) + k) = segment_byte m content i k) /\
     forall x, ~ (entry_addr <= x < entry_addr + 4) ->
       (forall i, 0 <= i < e_phnum m content -> ~ in_segment m content i x) -> m' x = m x).
Proof.
  cbv zeta. unfold load_elf, e_ident, load8. split.
  - intros Hmagic. destruct (m (content + 0) =? 127) eqn:E0; [|done]. destruct (m (content + 1) =? 69) eqn:E1; [|done].
    destruct (m (content + 2) =? 76) eqn:E2; [|done]. destruct (m (content + 3) =? 70) eqn:E3; [|done].
    apply Z.eqb_eq in E0, E1, E2, E3. exfalso. apply Hmagic. 
    change (bytes m content 4) with [m (content + 0); m (content + 1); m (content + 2); m (content + 3)]. by rewrite E0, E1, E2, E3.
  - intros Hwf Hd He. pose proof (wf_magic _ _ _ Hwf) as Hm. unfold e_ident, load8 in Hm.
    destruct Hm as (-> & -> & -> & ->). cbn [Z.eqb Pos.eqb negb].
    destruct (wf_content _ _ _ Hwf) as (C1 & C2 & C3), (wf_headers _ _ _ Hwf) as [H1 H2].
    pose proof (load16_range m (content + 44) Hb : 0 <= e_phnum m content < _) as Hn.
    pose proof (load32_range m (content + 28) Hb : 0 <= e_phoff m content < _) as Ho.
    assert (u32 (content + e_phoff m content) = header m content 0) as ->.
    { unfold header. rewrite u32_small; [lia|nia]. }
    destruct (load_segments_ok m content size Hb Hwf phnum_fuel 0 m) as (m1 & -> & B1 & F1 & O1 & K1);
      [unfold phnum_fuel; lia|lia|done|by intros x|]. cbn [res_bind].
    assert (e_entry m1 content = e_entry m content) as -> by (apply (file_load32 m content size); [done|lia|lia]).
    pose proof (load32_range m (content + 24) Hb : 0 <= e_entry m content < _) as Hr.
    eexists. split; [done|]. split; [by apply load32_store32|]. split.
    + intros i Hi Hl k Hk. rewrite store32_ne; [by apply (K1 i)|]. apply (He i); [done|]. split; [done|lia].
    + intros x Hx Hs. rewrite store32_ne by done. apply O1. intros j Hj. by apply Hs.
Qed.

(** ** Witness: a program of one segment, three bytes of data and two zeros at 5000. *)
Definition word_bytes (v : Z) : list Z := [u8 v; u8 (v / 256); u8 (v / 65536); u8 (v / 16777216)].
Definition half_bytes (v : Z) : list Z := [u8 v; u8 (v / 256)].
Definition demo_elf : list Z :=
  [127; 69; 76; 70] ++ replicate 12 0 ++ half_bytes 2 ++ half_bytes 3 ++ word_bytes 1 ++ word_bytes 5000 ++ word_bytes 52 ++
  word_bytes 0 ++ word_bytes 0 ++ half_bytes 52 ++ half_bytes 32 ++ half_bytes 1 ++ half_bytes 0 ++ half_bytes 0 ++ half_bytes 0 ++
  word_bytes 1 ++ word_bytes 84 ++ word_bytes 5000 ++ word_bytes 5000 ++ word_bytes 3 ++ word_bytes 5 ++ word_bytes 5 ++ word_bytes 4096 ++
  [144; 144; 195].
Definition elf_memory : mem := fun x => if (1000 <=? x) && (x <? 1087) then nth (Z.to_nat (x - 1000)) demo_elf 0 else 7.

Lemma elf_memory_bytes : bytes_ok elf_memory.
Proof.
  intros x. unfold elf_memory. destruct (Z.leb_spec 1000 x), (Z.ltb_spec x 1087); cbn [andb]; try lia.
  pose proof (all_below (fun i => (0 <=? nth (Z.to_nat i) demo_elf 0) && (nth (Z.to_nat i) demo_elf 0 <? 256)) 87
    eq_refl (x - 1000) ltac:(lia)) as Hn. cbv beta in Hn. lia.
Qed.

Lemma demo_well_formed : well_formed elf_memory 1000 87.
Proof.
  split.
  - by vm_compute.
  - lia.
  - vm_compute. split; discriminate.
  - intros i Hi _. change (e_phnum elf_memory 1000) with 1 in Hi. replace i with 0 by lia. vm_compute. split; discriminate.
  - intros i Hi _. change (e_phnum elf_memory 1000) with 1 in Hi. replace i with 0 by lia.
    split; [by vm_compute|]. split; [by vm_compute|]. right. vm_compute. discriminate.
  - intros i j Hi Hj Hne. change (e_phnum elf_memory 1000) with 1 in Hi, Hj. lia.
Qed.

Lemma demo_facts :
  e_phnum elf_memory 1000 = 1 /\ e_entry elf_memory 1000 = 5000 /\ p_vaddr elf_memory (header elf_memory 1000 0) = 5000 /\
  p_memsz elf_memory (header elf_memory 1000 0) = 5 /\ loadable elf_memory 1000 0 = true /\
  segment_byte elf_memory 1000 0 2 = 195 /\ segment_byte elf_memory 1000 0 3 = 0.
Proof. by vm_compute. Qed.

Lemma demo_segment i x : 0 <= i < e_phnum elf_memory 1000 -> in_segment elf_memory 1000 i x -> 5000 <= x < 5005.
Proof.
  destruct demo_facts as (-> & _ & Ev & Em & _). intros Hi [_ Hx]. replace i with 0 in Hx by lia. rewrite Ev, Em in Hx. lia.
Qed.

Lemma load_elf_correct_witness :
  exists m', load_elf elf_memory 1000 3000 = Ok (0, m') /\ load32 m' 3000 = 5000 /\ m' 5002 = 195 /\ m' 5003 = 0 /\ m' 5005 = 7.
Proof.
  destruct (load_elf_correct elf_memory 1000 87 3000 elf_memory_bytes) as [_ H].
  destruct demo_facts as (En & Ee & Ev & Em & El & S2 & S3).
  destruct (H demo_well_formed) as (m' & E & Ee' & Hs & Hf).
  - right. lia.
  - intros i x Hi Hx. pose proof (demo_segment i x Hi Hx). lia.
  - rewrite En in Hs, Hf. pose proof (Hs 0 ltac:(lia) El 2 ltac:(lia)) as H2. pose proof (Hs 0 ltac:(lia) El 3 ltac:(lia)) as H3.
    rewrite Ev, S2 in H2. rewrite Ev, S3 in H3. exists m'. split; [exact E|]. split; [congruence|]. split; [exact H2|split; [exact H3|]].
    rewrite Hf; [reflexivity|lia|]. intros i Hi Hx. pose proof (demo_segment i 5005 ltac:(lia) Hx). lia.
Defined.
