(* ===== verification/Switch.v ===== *)
(** The assembly that switches stacks and enters and leaves the kernel:
    [src/src/task/schedule.asm], [src/src/syscall/syscall_wrapper.asm] and the common
    part of [src/src/interrupt/idt.asm].  A routine is the list of its instructions,
    run by a machine of registers and memory. *)
From S2P Require Import Prelude Memory.

(** ** The machine *)
Inductive reg : Type := EAX | ECX | EDX | EBX | ESP | EBP | ESI | EDI.
Inductive seg : Type := CS | DS | ES | FS | GS | SS.

#[export] Instance reg_eq_dec : EqDecision reg.
Proof. solve_decision. Defined.
#[export] Instance seg_eq_dec : EqDecision seg.
Proof. solve_decision. Defined.

Record machine : Type := mk_machine {
  regs : reg -> Z;
  segs : seg -> Z;
  eip : Z;
  eflags : Z;
  memory : mem
}.
Definition with_reg (c : machine) (r : reg) (v : Z) : machine :=
  mk_machine (fun x => if decide (x = r) then v else regs c x) (segs c) (eip c) (eflags c) (memory c).
Definition with_seg (c : machine) (s : seg) (v : Z) : machine :=
  mk_machine (regs c) (fun x => if decide (x = s) then v else segs c x) (eip c) (eflags c) (memory c).
Definition with_eip (c : machine) (v : Z) : machine := mk_machine (regs c) (segs c) v (eflags c) (memory c).
Definition with_eflags (c : machine) (v : Z) : machine := mk_machine (regs c) (segs c) (eip c) v (memory c).
Definition with_memory (c : machine) (m : mem) : machine := mk_machine (regs c) (segs c) (eip c) (eflags c) m.

(** The instructions the routines use. *)
Inductive instr : Type :=
  | Push (r : reg)
  | PushImm (v : Z)
  | Pop (r : reg)
  | Pusha
  | Popa
  | AddEsp (n : Z)
  | MovImm (r : reg) (v : Z)
  | MovImm16 (r : reg) (v : Z)        (** [mov r16, v] *)
  | MovToSeg (s : seg) (r : reg)      (** [mov s, r16] *)
  | MovFromSeg (r : reg) (s : seg)    (** [mov r16, s] *)
  | MovFromStack (r : reg) (n : Z)    (** [mov r, [esp + n]] *)
  | Store (a r : reg)                 (** [mov [a], r] *)
  | Load (r a : reg)                  (** [mov r, [a]] *)
  | Cli
  | Sti
  | Jmp (v : Z)
  | Ret
  | Iret.

Definition push (c : machine) (v : Z) : machine :=
  let esp := u32 (regs c ESP - 4) in
  with_reg (with_memory c (store32 (memory c) esp v)) ESP esp.
Definition push_reg (c : machine) (r : reg) : machine := push c (regs c r).
(** The word at the top of the stack, and the stack without it. *)
Definition top_word (c : machine) : Z := load32 (memory c) (regs c ESP).
Definition drop_word (c : machine) : machine := with_reg c ESP (u32 (regs c ESP + 4)).
Definition pop (c : machine) (r : reg) : machine := with_reg (drop_word c) r (top_word c).

(** [EFLAGS.IF] *)
Definition IF : Z := 512.

(** [iret]: with a stack and its segment when it leaves the kernel. *)
Definition iret (c : machine) : machine :=
  let '(new_eip, c) := (top_word c, drop_word c) in
  let '(new_cs, c) := (top_word c, drop_word c) in
  let '(new_eflags, c) := (top_word c, drop_word c) in
  let c := with_eflags (with_seg (with_eip c new_eip) CS (u16 new_cs)) new_eflags in
  if Z.land new_cs 3 =? 3 then
    let '(new_esp, c) := (top_word c, drop_word c) in
    let new_ss := top_word c in
    with_seg (with_reg c ESP new_esp) SS (u16 new_ss)
  else c.

Definition step (c : machine) (i : instr) : machine :=
  match i with
  | Push r => push_reg c r
  | PushImm v => push c v
  | Pop r => pop c r
  | Pusha =>
      let esp := regs c ESP in
      let c := push_reg (push_reg (push_reg (push_reg c EAX) ECX) EDX) EBX in
      push_reg (push_reg (push_reg (push c esp) EBP) ESI) EDI
  | Popa =>
      let c := drop_word (pop (pop (pop c EDI) ESI) EBP) in
      pop (pop (pop (pop c EBX) EDX) ECX) EAX
  | AddEsp n => with_reg c ESP (u32 (regs c ESP + n))
  | MovImm r v => with_reg c r v
  | MovImm16 r v => with_reg c r (regs c r / 65536 * 65536 + v)
  | MovToSeg s r => with_seg c s (u16 (regs c r))
  | MovFromSeg r s => with_reg c r (regs c r / 65536 * 65536 + segs c s)
  | MovFromStack r n => with_reg c r (load32 (memory c) (u32 (regs c ESP + n)))
  | Store a r => with_memory c (store32 (memory c) (regs c a) (regs c r))
  | Load r a => with_reg c r (load32 (memory c) (regs c a))
  | Cli => with_eflags c (Z.land (eflags c) (Z.lnot IF))
  | Sti => with_eflags c (Z.lor (eflags c) IF)
  | Jmp v => with_eip c v
  | Ret => with_eip (drop_word c) (top_word c)
  | Iret => iret c
  end.
Definition run (l : list instr) (c : machine) : machine := fold_left step l c.

(** ** [schedule.asm] *)
Definition resume_thread : list instr :=
  [Pop EDI; Pop ESI; Pop EBP; Pop EBX; Pop EDX; Pop ECX; Pop EAX; Ret].
Definition context_switch : list instr :=
  [Push EAX; Push ECX; Push EDX; Push EBX; Push EBP; Push ESI; Push EDI;
   MovFromStack EAX 32; Store EAX ESP; MovFromStack EAX 36; Load ESP EAX] ++ resume_thread.

(** ** [idt.asm] *)
Definition load_segments_from (r : reg) : list instr :=
  [MovToSeg DS r; MovToSeg ES r; MovToSeg FS r; MovToSeg GS r].

(** [isr_common_stub] up to [call isr_handler], after the entry [isr<n>] without an error code. *)
Definition isr_entry (n : Z) : list instr := [Cli; PushImm 0; PushImm n].
Definition isr_common_stub : list instr :=
  [Pusha; MovFromSeg EAX DS; Push EAX; MovImm16 EAX 16] ++ load_segments_from EAX.
(** [interrupt_exit] after [call schedule]. *)
Definition interrupt_exit : list instr :=
  [Pop EAX] ++ load_segments_from EAX ++ [Popa; AddEsp 8; Sti; Iret].

(** [switch_to_user_mode], before [call schedule]; its jump is to [interrupt_exit]. *)
Definition switch_to_user_mode : list instr := [AddEsp 8].

(** ** [syscall_wrapper.asm] *)

(** [syscall_entry] up to [call syscall_handler]. *)
Definition syscall_entry : list instr :=
  [PushImm 0; PushImm 0; Push EAX; Push ECX; Push EDX; Push EBX; Push ESP; Push EBP; Push ESI; Push EDI;
   MovFromSeg ECX DS; Push ECX; MovImm16 ECX 16] ++ load_segments_from ECX ++ [Sti].
Definition syscall_normal_exit : list instr :=
  [Pop ECX] ++ load_segments_from ECX ++
  [Pop EDI; Pop ESI; Pop EBP; Pop ESP; Pop EBX; Pop EDX; Pop ECX; AddEsp 4; AddEsp 8; Iret].
Definition syscall_fork_exit : list instr :=
  [AddEsp 8; Pop ECX] ++ load_segments_from ECX ++
  [Pop EDI; Pop ESI; Pop EBP; AddEsp 4; Pop EBX; Pop EDX; Pop ECX; AddEsp 4; MovImm EAX 0; AddEsp 8; Iret].

(** What the processor does on [int] in user mode: the kernel's stack from the task
    state segment, with the user's state; the gate clears [IF]. *)
Definition trap (esp0 handler kernel_cs kernel_ss : Z) (c : machine) : machine :=
  let user_esp := regs c ESP in
  let c' := with_reg c ESP esp0 in
  let c' := push (push (push (push (push c' (segs c SS)) user_esp) (eflags c)) (segs c CS)) (eip c) in
  with_eip (with_eflags (with_seg (with_seg c' CS kernel_cs) SS kernel_ss) (Z.land (eflags c) (Z.lnot IF))) handler.
