(* ===== verification/SwitchSpec.v ===== *)
(** Properties of the assembly: interrupts and system calls leave the user's state as
    it was, and a thread that is switched out resumes where it stopped. *)
From S2P Require Import Prelude Memory DiskSpec Switch.

(** ** Symbolic execution *)
Definition upd {A} `{EqDecision A} (f : A -> Z) (a : A) (v : Z) : A -> Z := fun x => if decide (x = a) then v else f x.
Definition word (v : Z) : Prop := 0 <= v < 4294967296.

(** The words from [a] on. *)
Definition words (m : mem) (a : Z) (l : list Z) : Prop := forall i v, l !! i = Some v -> load32 m (a + 4 * Z.of_nat i) = v.

(** The machine has the registers [R] and [G], and on its stack, from [E] up to [T],
    the words [l]; memory outside the stack [lo, T) is [m0]. *)
Record at_stack (c : machine) (R : reg -> Z) (G : seg -> Z) (ip fl E T : Z) (l : list Z) (m0 : mem) (lo : Z) : Prop := {
  as_regs r : r <> ESP -> regs c r = R r;
  as_esp : regs c ESP = E;
  as_segs s : segs c s = G s;
  as_eip : eip c = ip;
  as_eflags : eflags c = fl;
  as_words : words (memory c) E l;
  as_range : 0 < lo <= E /\ E + 4 * Z.of_nat (length l) <= T /\ T < 4294967296;
  as_mem x : ~ (lo <= x < T) -> memory c x = m0 x
}.

Lemma words_cons m a v l : words m a (v :: l) <-> load32 m a = v /\ words m (a + 4) l.
Proof.
  split.
  - intros H. split; [rewrite <- (H 0%nat v eq_refl); f_equal; lia|]. intros i w Hi. rewrite <- (H (S i) w Hi). f_equal. lia.
  - intros [H0 H] [|i] w Hi; cbn in Hi; [injection Hi as <-; rewrite <- H0; f_equal; lia|].
    rewrite <- (H i w Hi). f_equal. lia.
Qed.

Lemma words_app m a l1 l2 : words m a (l1 ++ l2) -> words m (a + 4 * Z.of_nat (length l1)) l2.
Proof.
  intros H i v Hi. rewrite <- (H (length l1 + i)%nat v); [f_equal; lia|].
  rewrite lookup_app_r by lia. by replace (length l1 + i - length l1)%nat with i by lia.
Qed.

Lemma words_same m m' a l : words m a l -> (forall x, a <= x < a + 4 * Z.of_nat (length l) -> m' x = m x) -> words m' a l.
Proof.
  intros H Hs i v Hi. rewrite <- (H i v Hi). apply lookup_lt_Some in Hi. unfold load32. by rewrite !Hs by lia.
Qed.

Section STEPS.
Context (c : machine) (R : reg -> Z) (G : seg -> Z) (ip fl E T : Z) (l : list Z) (m0 : mem) (lo : Z).

Lemma push_is v : at_stack c R G ip fl E T l m0 lo -> lo <= E - 4 -> word v ->
  at_stack (push c v) R G ip fl (E - 4) T (v :: l) m0 lo.
Proof.
  intros [H1 H2 H3 H4 H5 H6 H7 H8] Hl Hv. unfold push. rewrite H2, u32_small by lia. split; cbn.
  - intros r Hr. rewrite decide_False by done. by apply H1.
  - done.
  - done.
  - done.
  - done.
  - apply words_cons. split; [by apply load32_store32|]. replace (E - 4 + 4) with E by lia.
    apply (words_same (memory c)); [done|]. intros x Hx. apply store32_ne. lia.
  - lia.
  - intros x Hx. rewrite store32_ne by lia. by apply H8.
Qed.

Lemma push_reg_is r : at_stack c R G ip fl E T l m0 lo -> lo <= E - 4 -> r <> ESP -> word (R r) ->
  at_stack (push_reg c r) R G ip fl (E - 4) T (R r :: l) m0 lo.
Proof. intros H Hl Hr Hv. unfold push_reg. rewrite (as_regs _ _ _ _ _ _ _ _ _ _ H r Hr). by apply push_is. Qed.

Lemma push_esp_is : at_stack c R G ip fl E T l m0 lo -> lo <= E - 4 ->
  at_stack (step c (Push ESP)) R G ip fl (E - 4) T (E :: l) m0 lo.
Proof.
  intros H Hl. cbn [step]. unfold push_reg. rewrite (as_esp _ _ _ _ _ _ _ _ _ _ H). apply push_is; [done|done|].
  destruct H. unfold word. lia.
Qed.

Lemma push_imm_is v : at_stack c R G ip fl E T l m0 lo -> lo <= E - 4 -> word v ->
  at_stack (step c (PushImm v)) R G ip fl (E - 4) T (v :: l) m0 lo.
Proof. by apply push_is. Qed.

Lemma drop_is v : at_stack c R G ip fl E T (v :: l) m0 lo ->
  top_word c = v /\ at_stack (drop_word c) R G ip fl (E + 4) T l m0 lo.
Proof.
  intros [H1 H2 H3 H4 H5 H6 H7 H8]. cbn [length] in H7. apply words_cons in H6 as [Hv H6].
  unfold top_word, drop_word. rewrite H2, u32_small by lia. split; [done|]. split; cbn; try done; [|lia].
  intros r Hr. rewrite decide_False by done. by apply H1.
Qed.

Lemma set_reg_is r v : at_stack c R G ip fl E T l m0 lo -> r <> ESP -> at_stack (with_reg c r v) (upd R r v) G ip fl E T l m0 lo.
Proof.
  intros [H1 H2 H3 H4 H5 H6 H7 H8] Hr. split; cbn; try done; [|by rewrite decide_False by done].
  intros x Hx. unfold upd. destruct (decide (x = r)); [done|by apply H1].
Qed.

Lemma set_seg_is s v : at_stack c R G ip fl E T l m0 lo -> at_stack (with_seg c s v) R (upd G s v) ip fl E T l m0 lo.
Proof. intros [H1 H2 H3 H4 H5 H6 H7 H8]. split; cbn; try done. intros x. unfold upd. by rewrite H3. Qed.

Lemma set_eip_is v : at_stack c R G ip fl E T l m0 lo -> at_stack (with_eip c v) R G v fl E T l m0 lo.
Proof. by intros []. Qed.

Lemma set_eflags_is v : at_stack c R G ip fl E T l m0 lo -> at_stack (with_eflags c v) R G ip v E T l m0 lo.
Proof. by intros []. Qed.
End STEPS.

Lemma pop_is c R G ip fl E T l m0 lo r v : at_stack c R G ip fl E T (v :: l) m0 lo -> r <> ESP ->
  at_stack (pop c r) (upd R r v) G ip fl (E + 4) T l m0 lo.
Proof.
  intros H Hr. destruct (drop_is _ _ _ _ _ _ _ _ _ _ _ H) as [Ht Hd]. unfold pop. rewrite Ht. by apply set_reg_is.
Qed.

(** [pop esp] of the stack pointer's own value. *)
Lemma pop_esp_is c R G ip fl E T l m0 lo v : at_stack c R G ip fl E T (v :: l) m0 lo -> v = E + 4 ->
  at_stack (step c (Pop ESP)) R G ip fl (E + 4) T l m0 lo.
Proof.
  intros H ->. destruct (drop_is _ _ _ _ _ _ _ _ _ _ _ H) as [Ht [H1 H2 H3 H4 H5 H6 H7 H8]]. cbn [step]. unfold pop. rewrite Ht.
  split; cbn; try done. intros r Hr. rewrite decide_False by done. by apply H1.
Qed.

Lemma add_esp_is l1 c R G ip fl E T l2 m0 lo n : at_stack c R G ip fl E T (l1 ++ l2) m0 lo -> n = 4 * Z.of_nat (length l1) ->
  at_stack (step c (AddEsp n)) R G ip fl (E + n) T l2 m0 lo.
Proof.
  intros [H1 H2 H3 H4 H5 H6 H7 H8] ->. rewrite length_app in H7. cbn [step]. rewrite H2, u32_small by lia.
  split; cbn; try done; [|by apply words_app|lia]. intros r Hr. rewrite decide_False by done. by apply H1.
Qed.

Lemma mov_seg_is c R G ip fl E T l m0 lo s r : at_stack c R G ip fl E T l m0 lo -> r <> ESP ->
  at_stack (step c (MovToSeg s r)) R (upd G s (u16 (R r))) ip fl E T l m0 lo.
Proof. intros H Hr. cbn [step]. rewrite (as_regs _ _ _ _ _ _ _ _ _ _ H r Hr). by apply set_seg_is. Qed.

Lemma from_seg_is c R G ip fl E T l m0 lo s r : at_stack c R G ip fl E T l m0 lo -> r <> ESP ->
  at_stack (step c (MovFromSeg r s)) (upd R r (R r / 65536 * 65536 + G s)) G ip fl E T l m0 lo.
Proof.
  intros H Hr. cbn [step]. rewrite (as_regs _ _ _ _ _ _ _ _ _ _ H r Hr), (as_segs _ _ _ _ _ _ _ _ _ _ H s). by apply set_reg_is.
Qed.

Lemma mov_imm_is c R G ip fl E T l m0 lo r v : at_stack c R G ip fl E T l m0 lo -> r <> ESP ->
  at_stack (step c (MovImm r v)) (upd R r v) G ip fl E T l m0 lo.
Proof. intros H Hr. by apply set_reg_is. Qed.

Lemma mov_imm16_is c R G ip fl E T l m0 lo r v : at_stack c R G ip fl E T l m0 lo -> r <> ESP ->
  at_stack (step c (MovImm16 r v)) (upd R r (R r / 65536 * 65536 + v)) G ip fl E T l m0 lo.
Proof. intros H Hr. cbn [step]. rewrite (as_regs _ _ _ _ _ _ _ _ _ _ H r Hr). by apply set_reg_is. Qed.

Lemma cli_is c R G ip fl E T l m0 lo : at_stack c R G ip fl E T l m0 lo ->
  at_stack (step c Cli) R G ip (Z.land fl (Z.lnot IF)) E T l m0 lo.
Proof. intros H. cbn [step]. rewrite (as_eflags _ _ _ _ _ _ _ _ _ _ H). by apply (set_eflags_is _ _ _ _ fl). Qed.

Lemma sti_is c R G ip fl E T l m0 lo : at_stack c R G ip fl E T l m0 lo ->
  at_stack (step c Sti) R G ip (Z.lor fl IF) E T l m0 lo.
Proof. intros H. cbn [step]. rewrite (as_eflags _ _ _ _ _ _ _ _ _ _ H). by apply (set_eflags_is _ _ _ _ fl). Qed.

Lemma ret_is c R G ip fl E T l m0 lo v : at_stack c R G ip fl E T (v :: l) m0 lo ->
  at_stack (step c Ret) R G v fl (E + 4) T l m0 lo.
Proof.
  intros H. destruct (drop_is _ _ _ _ _ _ _ _ _ _ _ H) as [Ht Hd]. cbn [step]. rewrite Ht. by apply (set_eip_is _ _ _ ip).
Qed.

Lemma pusha_is c R G ip fl E T l m0 lo : at_stack c R G ip fl E T l m0 lo -> lo <= E - 32 -> (forall r, r <> ESP -> word (R r)) ->
  at_stack (step c Pusha) R G ip fl (E - 32) T
    ([R EDI; R ESI; R EBP; E; R EBX; R EDX; R ECX; R EAX] ++ l) m0 lo.
Proof.
  intros H Hl Hw.
  assert (word E) as HE by (destruct H; unfold word; lia).
  pose proof (push_reg_is _ _ _ _ _ _ _ _ _ _ EAX H ltac:(lia) ltac:(done) ltac:(by apply Hw)) as H1.
  pose proof (push_reg_is _ _ _ _ _ _ _ _ _ _ ECX H1 ltac:(lia) ltac:(done) ltac:(by apply Hw)) as H2.
  pose proof (push_reg_is _ _ _ _ _ _ _ _ _ _ EDX H2 ltac:(lia) ltac:(done) ltac:(by apply Hw)) as H3.
  pose proof (push_reg_is _ _ _ _ _ _ _ _ _ _ EBX H3 ltac:(lia) ltac:(done) ltac:(by apply Hw)) as H4.
  pose proof (push_is _ _ _ _ _ _ _ _ _ _ E H4 ltac:(lia) HE) as H5.
  pose proof (push_reg_is _ _ _ _ _ _ _ _ _ _ EBP H5 ltac:(lia) ltac:(done) ltac:(by apply Hw)) as H6.
  pose proof (push_reg_is _ _ _ _ _ _ _ _ _ _ ESI H6 ltac:(lia) ltac:(done) ltac:(by apply Hw)) as H7.
  pose proof (push_reg_is _ _ _ _ _ _ _ _ _ _ EDI H7 ltac:(lia) ltac:(done) ltac:(by apply Hw)) as H8.
  replace (E - 4 - 4 - 4 - 4 - 4 - 4 - 4 - 4) with (E - 32) in H8 by lia. cbn [step].
  rewrite (as_esp _ _ _ _ _ _ _ _ _ _ H). exact H8.
Qed.

Lemma popa_is c R G ip fl E T l m0 lo di si bp sp bx dx cx ax :
  at_stack c R G ip fl E T ([di; si; bp; sp; bx; dx; cx; ax] ++ l) m0 lo ->
  at_stack (step c Popa) (upd (upd (upd (upd (upd (upd (upd R EDI di) ESI si) EBP bp) EBX bx) EDX dx) ECX cx) EAX ax)
    G ip fl (E + 32) T l m0 lo.
Proof.
  intros H. cbn [app] in H.
  pose proof (pop_is _ _ _ _ _ _ _ _ _ _ EDI _ H ltac:(done)) as H1. pose proof (pop_is _ _ _ _ _ _ _ _ _ _ ESI _ H1 ltac:(done)) as H2.
  pose proof (pop_is _ _ _ _ _ _ _ _ _ _ EBP _ H2 ltac:(done)) as H3. destruct (drop_is _ _ _ _ _ _ _ _ _ _ _ H3) as [_ H4].
  pose proof (pop_is _ _ _ _ _ _ _ _ _ _ EBX _ H4 ltac:(done)) as H5. pose proof (pop_is _ _ _ _ _ _ _ _ _ _ EDX _ H5 ltac:(done)) as H6.
  pose proof (pop_is _ _ _ _ _ _ _ _ _ _ ECX _ H6 ltac:(done)) as H7. pose proof (pop_is _ _ _ _ _ _ _ _ _ _ EAX _ H7 ltac:(done)) as H8.
  replace (E + 4 + 4 + 4 + 4 + 4 + 4 + 4 + 4) with (E + 32) in H8 by lia.
  cbn [step]. exact H8.
Qed.

(** ** Leaving and entering user mode *)

(** A user's state: registers and segments of a program, everything in range. *)
Record user_state (c : machine) : Prop := {
  us_regs r : word (regs c r);
  us_segs s : 0 <= segs c s < 65536;
  us_cs : Z.land (segs c CS) 3 = 3;
  us_data : segs c ES = segs c DS /\ segs c FS = segs c DS /\ segs c GS = segs c DS;
  us_eip : word (eip c);
  us_eflags : word (eflags c)
}.

(** The words the processor pushes. *)
Definition trap_frame (c : machine) : list Z := [eip c; segs c CS; eflags c; regs c ESP; segs c SS].

(** [iret] to user mode. *)
Lemma iret_user c u R G ip fl E T m0 lo :
  at_stack c R G ip fl E T (trap_frame u) m0 lo -> user_state u ->
  let c' := step c Iret in
  regs c' ESP = regs u ESP /\ (forall r, r <> ESP -> regs c' r = R r) /\ eip c' = eip u /\ eflags c' = eflags u /\
  segs c' CS = segs u CS /\ segs c' SS = segs u SS /\ (forall s, s <> CS -> s <> SS -> segs c' s = G s) /\
  memory c' = memory c.
Proof.
  intros H Hu. unfold trap_frame in H.
  destruct (drop_is _ _ _ _ _ _ _ _ _ _ _ H) as [T1 H1]. destruct (drop_is _ _ _ _ _ _ _ _ _ _ _ H1) as [T2 H2].
  destruct (drop_is _ _ _ _ _ _ _ _ _ _ _ H2) as [T3 H3].
  destruct (drop_is _ _ _ _ _ _ _ _ _ _ _ (set_eflags_is _ _ _ _ _ _ _ _ _ _ (eflags u) (set_seg_is _ _ _ _ _ _ _ _ _ _ CS (u16 (segs u CS)) (set_eip_is _ _ _ _ _ _ _ _ _ _ (eip u) H3)))) as [T4 H4].
  destruct (drop_is _ _ _ _ _ _ _ _ _ _ _ H4) as [T5 _].
  cbn [step]. unfold iret. rewrite T1, T2, T3, (us_cs u Hu). cbn [Z.eqb Pos.eqb]. rewrite T4, T5.
  pose proof (us_segs u Hu CS). pose proof (us_segs u Hu SS). rewrite !(u16_small (segs u _)) in * by done.
  split; [done|]. split; [intros r Hr; cbn; rewrite decide_False by done; apply (as_regs _ _ _ _ _ _ _ _ _ _ H4 r Hr)|].
  split; [done|]. split; [done|]. split; [done|]. split; [done|]. split; [|done].
  intros s Hs1 Hs2. cbn. rewrite !decide_False by done. apply (as_segs _ _ _ _ _ _ _ _ _ _ H).
Qed.

(** The routines run one after the other. *)
Lemma run_app l1 l2 c : run (l1 ++ l2) c = run l2 (run l1 c).
Proof. apply fold_left_app. Qed.
Lemma run_cons i l c : run (i :: l) c = run l (step c i).
Proof. done. Qed.
Lemma run_nil c : run [] c = c.
Proof. done. Qed.

(** Loading the four data segments from a register. *)
Definition data_segs (G : seg -> Z) (v : Z) : seg -> Z := upd (upd (upd (upd G DS v) ES v) FS v) GS v.
Lemma data_segs_at G v s : s <> CS -> s <> SS -> data_segs G v s = v.
Proof. by destruct s. Qed.
Lemma upd_same {A} `{EqDecision A} (f : A -> Z) a v : upd f a v a = v.
Proof. unfold upd. by rewrite decide_True. Qed.
Lemma load_segments_is c R G ip fl E T l m0 lo r : at_stack c R G ip fl E T l m0 lo -> r <> ESP ->
  at_stack (run (load_segments_from r) c) R (data_segs G (u16 (R r))) ip fl E T l m0 lo.
Proof. intros H Hr. unfold load_segments_from. rewrite !run_cons, run_nil. by do 4 (apply mov_seg_is; [|done]). Qed.

(** The low half of a register holds a segment. *)
Lemma u16_low h s : 0 <= s < 65536 -> u16 (h / 65536 * 65536 + s) = s.
Proof. intros Hs. unfold u16. rewrite Z.add_comm, Z_mod_plus_full. apply Z.mod_small. lia. Qed.
Lemma word_low h s : word h -> 0 <= s < 65536 -> word (h / 65536 * 65536 + s).
Proof. unfold word. intros H Hs. zdiv. Qed.
Lemma word_small n : 0 <= n < 65536 -> word n.
Proof. unfold word. lia. Qed.

(** Memory that agrees with another on the words of a stack. *)
Definition kept (m m' : mem) (a b : Z) : Prop := forall x, a <= x < b -> m' x = m x.

(** A machine whose stack pointer and words are known. *)
Lemma at_stack_intro d T l : words (memory d) (regs d ESP) l -> 0 < regs d ESP ->
  regs d ESP + 4 * Z.of_nat (length l) <= T -> T < 4294967296 ->
  at_stack d (regs d) (segs d) (eip d) (eflags d) (regs d ESP) T l (memory d) (regs d ESP).
Proof. intros. by split. Qed.

Section TRAP.
Context (u : machine) (esp0 lo handler kcs kss : Z).
Context (Hu : user_state u) (Hlo : 0 < lo) (Htop : esp0 < 4294967296).

Definition kernel_segs : seg -> Z := upd (upd (segs u) CS kcs) SS kss.
Definition masked : Z := Z.land (eflags u) (Z.lnot IF).

Lemma trap_is : lo <= esp0 - 20 ->
  at_stack (trap esp0 handler kcs kss u) (regs u) kernel_segs handler masked (esp0 - 20) esp0 (trap_frame u) (memory u) lo.
Proof.
  intros Hl.
  assert (at_stack (with_reg u ESP esp0) (regs u) (segs u) (eip u) (eflags u) esp0 esp0 [] (memory u) lo) as H0.
  { split; cbn; try done; [|lia]. intros r Hr. by rewrite decide_False by done. }
  pose proof (push_is _ _ _ _ _ _ _ _ _ _ (segs u SS) H0 ltac:(lia) ltac:(apply word_small, us_segs, Hu)) as H1.
  pose proof (push_is _ _ _ _ _ _ _ _ _ _ (regs u ESP) H1 ltac:(lia) ltac:(apply us_regs, Hu)) as H2.
  pose proof (push_is _ _ _ _ _ _ _ _ _ _ (eflags u) H2 ltac:(lia) ltac:(apply us_eflags, Hu)) as H3.
  pose proof (push_is _ _ _ _ _ _ _ _ _ _ (segs u CS) H3 ltac:(lia) ltac:(apply word_small, us_segs, Hu)) as H4.
  pose proof (push_is _ _ _ _ _ _ _ _ _ _ (eip u) H4 ltac:(lia) ltac:(apply us_eip, Hu)) as H5.
  unfold trap. apply (set_eip_is _ _ _ (eip u)), (set_eflags_is _ _ _ _ (eflags u)), set_seg_is, set_seg_is.
  replace (esp0 - 4 - 4 - 4 - 4 - 4) with (esp0 - 20) in H5 by lia. exact H5.
Qed.
End TRAP.

(** ** Interrupts *)

(** [isr_params_t] of an interrupt without error code. *)
Definition isr_params (u : machine) (dsw esp n : Z) : list Z :=
  [dsw; regs u EDI; regs u ESI; regs u EBP; esp; regs u EBX; regs u EDX; regs u ECX; regs u EAX; n; 0] ++ trap_frame u.

(** The state of a user program: all its registers, segments, flags and its place. *)
Definition same_user (u c : machine) : Prop :=
  (forall r, regs c r = regs u r) /\ (forall s, segs c s = segs u s) /\ eip c = eip u /\ eflags c = eflags u.

Section INTERRUPT.
Context (u : machine) (esp0 lo handler kcs kss : Z).
Context (Hu : user_state u) (Hlo : 0 < lo) (Htop : esp0 < 4294967296) (Hroom : lo <= esp0 - 64).

Lemma isr_stub_is n : word n ->
  let c := run (isr_entry n ++ isr_common_stub) (trap esp0 handler kcs kss u) in
  exists dsw R G, u16 dsw = segs u DS /\
    at_stack c R G handler (Z.land (masked u) (Z.lnot IF)) (esp0 - 64) esp0 (isr_params u dsw (esp0 - 28) n) (memory u) lo /\
    (forall s, s <> CS -> s <> SS -> segs c s = 16).
Proof.
  intros Hn c.
  pose proof (cli_is _ _ _ _ _ _ _ _ _ _ (trap_is u esp0 lo handler kcs kss Hu Hlo Htop ltac:(lia))) as H1.
  pose proof (push_imm_is _ _ _ _ _ _ _ _ _ _ 0 H1 ltac:(lia) ltac:(by apply word_small)) as H2.
  pose proof (push_imm_is _ _ _ _ _ _ _ _ _ _ n H2 ltac:(lia) Hn) as H3.
  pose proof (pusha_is _ _ _ _ _ _ _ _ _ _ H3 ltac:(lia) ltac:(intros; apply us_regs, Hu)) as H4.
  pose proof (from_seg_is _ _ _ _ _ _ _ _ _ _ DS EAX H4 ltac:(done)) as H5.
  set (dsw := regs u EAX / 65536 * 65536 + kernel_segs u kcs kss DS) in *.
  assert (kernel_segs u kcs kss DS = segs u DS) as HDS by done.
  pose proof (us_segs u Hu DS) as HD. pose proof (us_regs u Hu EAX) as HA.
  assert (word dsw) as Hw by (unfold dsw; rewrite HDS; by apply word_low).
  pose proof (push_reg_is _ _ _ _ _ _ _ _ _ _ EAX H5 ltac:(lia) ltac:(done) Hw) as H6.
  pose proof (mov_imm16_is _ _ _ _ _ _ _ _ _ _ EAX 16 H6 ltac:(done)) as H7.
  pose proof (load_segments_is _ _ _ _ _ _ _ _ _ _ EAX H7 ltac:(done)) as H8.
  replace (esp0 - 20 - 4 - 4 - 32 - 4) with (esp0 - 64) in H8 by lia.
  replace (esp0 - 20 - 4 - 4) with (esp0 - 28) in H8 by lia.
  assert (c = run (load_segments_from EAX) (step (push_reg (step (step (step (step (step (trap esp0 handler kcs kss u) Cli)
    (PushImm 0)) (PushImm n)) Pusha) (MovFromSeg EAX DS)) EAX) (MovImm16 EAX 16))) as -> by
    (subst c; unfold isr_common_stub, isr_entry; rewrite !run_app, !run_cons, !run_nil; reflexivity).
  exists dsw. eexists _, _. split; [unfold dsw; rewrite HDS; by apply u16_low|]. split; [exact H8|].
  intros s Hs1 Hs2. rewrite (as_segs _ _ _ _ _ _ _ _ _ _ H8 s), data_segs_at by done. rewrite upd_same. by apply u16_low.
Qed.

Lemma interrupt_exit_is d R G ip fl dsw esp n m0 lo' : u16 dsw = segs u DS ->
  at_stack d R G ip fl (esp0 - 64) esp0 (isr_params u dsw esp n) m0 lo' ->
  same_user u (run interrupt_exit d) /\ memory (run interrupt_exit d) = memory d.
Proof.
  intros Hd H. unfold isr_params in H. cbn [app] in H.
  pose proof (pop_is _ _ _ _ _ _ _ _ _ _ EAX _ H ltac:(done)) as H1.
  pose proof (load_segments_is _ _ _ _ _ _ _ _ _ _ EAX H1 ltac:(done)) as H2.
  pose proof (popa_is _ _ _ _ _ _ _ _ _ _ _ _ _ _ _ _ _ _ H2) as H3.
  pose proof (add_esp_is [n; 0] _ _ _ _ _ _ _ _ _ _ 8 H3 eq_refl) as H4.
  pose proof (sti_is _ _ _ _ _ _ _ _ _ _ H4) as H5.
  destruct (iret_user _ _ _ _ _ _ _ _ _ _ H5 Hu) as (K1 & K2 & K3 & K4 & K5 & K6 & K7 & K8).
  unfold interrupt_exit. rewrite !run_app. rewrite !run_cons, !run_nil. destruct (us_data u Hu) as (D1 & D2 & D3).
  split; [|exact K8]. split; [|split; [|by split]].
  - intros r. destruct (decide (r = ESP)) as [->|Hr]; [exact K1|]. etransitivity; [by apply K2|]. by destruct r.
  - intros s. destruct (decide (s = CS)) as [->|H_cs]; [exact K5|]. destruct (decide (s = SS)) as [->|H_ss]; [exact K6|].
    rewrite K7, data_segs_at, upd_same, Hd by done. destruct s; cbn; congruence.
Qed.
End INTERRUPT.

(** What a piece of C code that runs on the stack below [a] keeps: the stack pointer
    and the words up to [b]. *)
Definition c_code_keeps (d d' : machine) (a b : Z) : Prop := regs d' ESP = regs d ESP /\ kept (memory d) (memory d') a b.

Lemma c_code_at_stack d d' R G ip fl E T l m0 lo : at_stack d R G ip fl E T l m0 lo -> c_code_keeps d d' E T ->
  at_stack d' (regs d') (segs d') (eip d') (eflags d') E T l (memory d') lo.
Proof.
  intros [H1 H2 H3 H4 H5 H6 H7 H8] [K1 K2]. split; try done; [congruence|].
  apply (words_same (memory d)); [done|]. intros x Hx. apply K2. lia.
Qed.

(** ** System calls *)
Section SYSCALL.
Context (u : machine) (esp0 lo handler kcs kss : Z).
Context (Hu : user_state u) (Hlo : 0 < lo) (Htop : esp0 < 4294967296) (Hroom : lo <= esp0 - 64).

Lemma syscall_entry_is :
  let c := run syscall_entry (trap esp0 handler kcs kss u) in
  exists dsw R G, u16 dsw = segs u DS /\
    at_stack c R G handler (Z.lor (masked u) IF) (esp0 - 64) esp0 (isr_params u dsw (esp0 - 44) 0) (memory u) lo /\
    (forall s, s <> CS -> s <> SS -> segs c s = 16) /\ regs c EAX = regs u EAX.
Proof.
  intros c.
  pose proof (push_imm_is _ _ _ _ _ _ _ _ _ _ 0 (trap_is u esp0 lo handler kcs kss Hu Hlo Htop ltac:(lia)) ltac:(lia) ltac:(by apply word_small)) as H1.
  pose proof (push_imm_is _ _ _ _ _ _ _ _ _ _ 0 H1 ltac:(lia) ltac:(by apply word_small)) as H2.
  pose proof (push_reg_is _ _ _ _ _ _ _ _ _ _ EAX H2 ltac:(lia) ltac:(done) ltac:(apply us_regs, Hu)) as H3.
  pose proof (push_reg_is _ _ _ _ _ _ _ _ _ _ ECX H3 ltac:(lia) ltac:(done) ltac:(apply us_regs, Hu)) as H4.
  pose proof (push_reg_is _ _ _ _ _ _ _ _ _ _ EDX H4 ltac:(lia) ltac:(done) ltac:(apply us_regs, Hu)) as H5.
  pose proof (push_reg_is _ _ _ _ _ _ _ _ _ _ EBX H5 ltac:(lia) ltac:(done) ltac:(apply us_regs, Hu)) as H6.
  pose proof (push_esp_is _ _ _ _ _ _ _ _ _ _ H6 ltac:(lia)) as H7.
  pose proof (push_reg_is _ _ _ _ _ _ _ _ _ _ EBP H7 ltac:(lia) ltac:(done) ltac:(apply us_regs, Hu)) as H8.
  pose proof (push_reg_is _ _ _ _ _ _ _ _ _ _ ESI H8 ltac:(lia) ltac:(done) ltac:(apply us_regs, Hu)) as H9.
  pose proof (push_reg_is _ _ _ _ _ _ _ _ _ _ EDI H9 ltac:(lia) ltac:(done) ltac:(apply us_regs, Hu)) as H10.
  pose proof (from_seg_is _ _ _ _ _ _ _ _ _ _ DS ECX H10 ltac:(done)) as H11.
  set (dsw := regs u ECX / 65536 * 65536 + kernel_segs u kcs kss DS) in *.
  assert (kernel_segs u kcs kss DS = segs u DS) as HDS by done.
  pose proof (us_segs u Hu DS) as HD. pose proof (us_regs u Hu ECX) as HA.
  assert (word dsw) as Hw by (unfold dsw; rewrite HDS; by apply word_low).
  pose proof (push_reg_is _ _ _ _ _ _ _ _ _ _ ECX H11 ltac:(lia) ltac:(done) Hw) as H12.
  pose proof (mov_imm16_is _ _ _ _ _ _ _ _ _ _ ECX 16 H12 ltac:(done)) as H13.
  pose proof (load_segments_is _ _ _ _ _ _ _ _ _ _ ECX H13 ltac:(done)) as H14.
  pose proof (sti_is _ _ _ _ _ _ _ _ _ _ H14) as H15.
  replace (esp0 - 20 - 4 - 4 - 4 - 4 - 4 - 4 - 4 - 4 - 4 - 4 - 4) with (esp0 - 64) in H15 by lia.
  replace (esp0 - 20 - 4 - 4 - 4 - 4 - 4 - 4) with (esp0 - 44) in H15 by lia.
  match type of H15 with at_stack ?x _ _ _ _ _ _ _ _ _ => assert (c = x) as -> by
    (subst c; unfold syscall_entry; rewrite !run_app, !run_cons, !run_nil; reflexivity) end.
  exists dsw. eexists _, _. split; [unfold dsw; rewrite HDS; by apply u16_low|]. split; [exact H15|]. split.
  - intros s Hs1 Hs2. rewrite (as_segs _ _ _ _ _ _ _ _ _ _ H15 s), data_segs_at by done. rewrite upd_same. by apply u16_low.
  - by rewrite (as_regs _ _ _ _ _ _ _ _ _ _ H15 EAX ltac:(done)).
Qed.

Lemma syscall_normal_exit_is d R G ip fl dsw n m0 lo' : u16 dsw = segs u DS ->
  at_stack d R G ip fl (esp0 - 64) esp0 (isr_params u dsw (esp0 - 44) n) m0 lo' ->
  same_user (with_reg u EAX (R EAX)) (run syscall_normal_exit d) /\ memory (run syscall_normal_exit d) = memory d.
Proof.
  intros Hd H. unfold isr_params in H. cbn [app] in H.
  pose proof (pop_is _ _ _ _ _ _ _ _ _ _ ECX _ H ltac:(done)) as H1.
  pose proof (load_segments_is _ _ _ _ _ _ _ _ _ _ ECX H1 ltac:(done)) as H2.
  pose proof (pop_is _ _ _ _ _ _ _ _ _ _ EDI _ H2 ltac:(done)) as H3.
  pose proof (pop_is _ _ _ _ _ _ _ _ _ _ ESI _ H3 ltac:(done)) as H4.
  pose proof (pop_is _ _ _ _ _ _ _ _ _ _ EBP _ H4 ltac:(done)) as H5.
  pose proof (pop_esp_is _ _ _ _ _ _ _ _ _ _ _ H5 ltac:(lia)) as H6.
  pose proof (pop_is _ _ _ _ _ _ _ _ _ _ EBX _ H6 ltac:(done)) as H7.
  pose proof (pop_is _ _ _ _ _ _ _ _ _ _ EDX _ H7 ltac:(done)) as H8.
  pose proof (pop_is _ _ _ _ _ _ _ _ _ _ ECX _ H8 ltac:(done)) as H9.
  pose proof (add_esp_is [_] _ _ _ _ _ _ _ _ _ _ 4 H9 eq_refl) as H10.
  pose proof (add_esp_is [n; 0] _ _ _ _ _ _ _ _ _ _ 8 H10 eq_refl) as H11.
  destruct (iret_user _ _ _ _ _ _ _ _ _ _ H11 Hu) as (K1 & K2 & K3 & K4 & K5 & K6 & K7 & K8).
  unfold syscall_normal_exit. rewrite !run_app, !run_cons, !run_nil. destruct (us_data u Hu) as (D1 & D2 & D3).
  split; [|exact K8]. split; [|split; [|by split]].
  - intros r. destruct (decide (r = ESP)) as [->|Hr]; [exact K1|]. etransitivity; [by apply K2|]. by destruct r.
  - intros s. destruct (decide (s = CS)) as [->|H_cs]; [exact K5|]. destruct (decide (s = SS)) as [->|H_ss]; [exact K6|].
    rewrite K7, data_segs_at, upd_same, Hd by done. destruct s; cbn; congruence.
Qed.
End SYSCALL.

(** ** Switching threads *)

(** The words that [context_switch] leaves on the stack of the thread it leaves. *)
Definition saved_regs (R : reg -> Z) (ip : Z) : list Z := [R EDI; R ESI; R EBP; R EBX; R EDX; R ECX; R EAX; ip].

Lemma resume_is d R G fl ip0 E T m0 lo R0 ip l : at_stack d R0 G ip0 fl E T (saved_regs R ip ++ l) m0 lo ->
  exists R', at_stack (run resume_thread d) R' G ip fl (E + 32) T l m0 lo /\ (forall r, r <> ESP -> R' r = R r).
Proof.
  intros H. unfold saved_regs in H. cbn [app] in H.
  pose proof (pop_is _ _ _ _ _ _ _ _ _ _ EDI _ H ltac:(done)) as H1. pose proof (pop_is _ _ _ _ _ _ _ _ _ _ ESI _ H1 ltac:(done)) as H2.
  pose proof (pop_is _ _ _ _ _ _ _ _ _ _ EBP _ H2 ltac:(done)) as H3. pose proof (pop_is _ _ _ _ _ _ _ _ _ _ EBX _ H3 ltac:(done)) as H4.
  pose proof (pop_is _ _ _ _ _ _ _ _ _ _ EDX _ H4 ltac:(done)) as H5. pose proof (pop_is _ _ _ _ _ _ _ _ _ _ ECX _ H5 ltac:(done)) as H6.
  pose proof (pop_is _ _ _ _ _ _ _ _ _ _ EAX _ H6 ltac:(done)) as H7. pose proof (ret_is _ _ _ _ _ _ _ _ _ _ _ H7) as H8.
  replace (E + 4 + 4 + 4 + 4 + 4 + 4 + 4 + 4) with (E + 32) in H8 by lia.
  eexists. split; [unfold resume_thread; rewrite !run_cons, run_nil; exact H8|]. by intros [].
Qed.

(** The [i]-th word of the stack, and a store outside the stack. *)
Lemma from_stack_is c R G ip fl E T l m0 lo r n i v : at_stack c R G ip fl E T l m0 lo -> r <> ESP ->
  n = 4 * Z.of_nat i -> l !! i = Some v -> at_stack (step c (MovFromStack r n)) (upd R r v) G ip fl E T l m0 lo.
Proof.
  intros H Hr -> Hi. pose proof (lookup_lt_Some _ _ _ Hi) as Hl. pose proof (as_range _ _ _ _ _ _ _ _ _ _ H) as Hran.
  cbn [step]. rewrite (as_esp _ _ _ _ _ _ _ _ _ _ H), u32_small by lia. rewrite (as_words _ _ _ _ _ _ _ _ _ _ H i v Hi).
  by apply set_reg_is.
Qed.

Lemma store_esp_is c R G ip fl E T l m0 lo a : at_stack c R G ip fl E T l m0 lo -> a <> ESP ->
  R a + 4 <= lo \/ T <= R a -> at_stack (step c (Store a ESP)) R G ip fl E T l (store32 m0 (R a) E) lo.
Proof.
  intros [H1 H2 H3 H4 H5 H6 H7 H8] Ha Hd. cbn [step]. rewrite H1, H2 by done. split; cbn; try done.
  - apply (words_same (memory c)); [done|]. intros x Hx. apply store32_ne. lia.
  - intros x Hx. unfold store32, store8. by rewrite H8.
Qed.

(** The first part of [context_switch]: the registers are saved and the stack pointer stored. *)
Definition save_thread : list instr :=
  [Push EAX; Push ECX; Push EDX; Push EBX; Push EBP; Push ESI; Push EDI; MovFromStack EAX 32; Store EAX ESP; MovFromStack EAX 36].

Lemma save_thread_is c R G ip fl E T m0 lo ret old new l : at_stack c R G ip fl E T (ret :: old :: new :: l) m0 lo ->
  (forall r, word (R r)) -> lo <= E - 28 -> old + 4 <= lo \/ T <= old ->
  exists R', R' EAX = new /\
    at_stack (run save_thread c) R' G ip fl (E - 28) T (saved_regs R ret ++ old :: new :: l) (store32 m0 old (E - 28)) lo.
Proof.
  intros H Hw Hl Ho.
  pose proof (push_reg_is _ _ _ _ _ _ _ _ _ _ EAX H ltac:(lia) ltac:(done) ltac:(by apply Hw)) as H1.
  pose proof (push_reg_is _ _ _ _ _ _ _ _ _ _ ECX H1 ltac:(lia) ltac:(done) ltac:(by apply Hw)) as H2.
  pose proof (push_reg_is _ _ _ _ _ _ _ _ _ _ EDX H2 ltac:(lia) ltac:(done) ltac:(by apply Hw)) as H3.
  pose proof (push_reg_is _ _ _ _ _ _ _ _ _ _ EBX H3 ltac:(lia) ltac:(done) ltac:(by apply Hw)) as H4.
  pose proof (push_reg_is _ _ _ _ _ _ _ _ _ _ EBP H4 ltac:(lia) ltac:(done) ltac:(by apply Hw)) as H5.
  pose proof (push_reg_is _ _ _ _ _ _ _ _ _ _ ESI H5 ltac:(lia) ltac:(done) ltac:(by apply Hw)) as H6.
  pose proof (push_reg_is _ _ _ _ _ _ _ _ _ _ EDI H6 ltac:(lia) ltac:(done) ltac:(by apply Hw)) as H7.
  replace (E - 4 - 4 - 4 - 4 - 4 - 4 - 4) with (E - 28) in H7 by lia.
  pose proof (from_stack_is _ _ _ _ _ _ _ _ _ _ EAX 32 8 old H7 ltac:(done) eq_refl eq_refl) as H8.
  pose proof (store_esp_is _ _ _ _ _ _ _ _ _ _ EAX H8 ltac:(done) ltac:(by rewrite upd_same)) as H9. rewrite upd_same in H9.
  pose proof (from_stack_is _ _ _ _ _ _ _ _ _ _ EAX 36 9 new H9 ltac:(done) eq_refl eq_refl) as H10.
  eexists. split; [|unfold save_thread; rewrite !run_cons, run_nil; exact H10]. by rewrite upd_same.
Qed.

(** A call [context_switch(old, new)] on a stack that has room down to [lo]. *)
Record switch_call (c : machine) (lo ret old new : Z) : Prop := {
  sc_args : words (memory c) (regs c ESP) [ret; old; new];
  sc_stack : 0 < lo <= regs c ESP - 28 /\ regs c ESP + 12 < 4294967296;
  sc_regs r : word (regs c r);
  sc_old : old + 4 <= lo \/ regs c ESP + 12 <= old
}.

(** A thread that waits to be resumed: its stack pointer is in the word at [tcb], and its
    registers [R] and the place [ip] where it goes on are on its stack. *)
Record suspended (m : mem) (tcb sp : Z) (R : reg -> Z) (ip : Z) : Prop := {
  su_sp : load32 m tcb = sp;
  su_words : words m sp (saved_regs R ip);
  su_range : 0 < sp /\ sp + 32 < 4294967296
}.

(** The parts of memory a suspended thread depends on: its word [tcb] and its frame. *)
Definition part_of (tcb sp x : Z) : Prop := tcb <= x < tcb + 4 \/ sp <= x < sp + 32.
(** What a call may write: the stack up to its arguments, and the word of the old thread. *)
Definition written (c : machine) (old lo x : Z) : Prop := lo <= x < regs c ESP + 12 \/ old <= x < old + 4.

(** The processor runs the thread. *)
Definition resumed (c : machine) (sp : Z) (R : reg -> Z) (ip : Z) : Prop :=
  (forall r, r <> ESP -> regs c r = R r) /\ regs c ESP = sp + 32 /\ eip c = ip.

Lemma suspended_same m m' tcb sp R ip : suspended m tcb sp R ip -> (forall x, part_of tcb sp x -> m' x = m x) -> suspended m' tcb sp R ip.
Proof.
  intros [H1 H2 H3] Hs. unfold part_of in Hs. split; [| |done].
  - rewrite <- H1. unfold load32. by rewrite !Hs by lia.
  - apply (words_same m); [done|]. intros x Hx. cbn in Hx. apply Hs. lia.
Qed.

(** The second part of [context_switch]: the machine gets the other thread's stack. *)
Lemma load_thread_is c new sp R ip : regs c EAX = new -> suspended (memory c) new sp R ip ->
  let c' := run resume_thread (step c (Load ESP EAX)) in
  resumed c' sp R ip /\ (forall s, segs c' s = segs c s) /\ eflags c' = eflags c /\ memory c' = memory c.
Proof.
  intros Ha [H1 H2 H3] c'.
  assert (step c (Load ESP EAX) = with_reg c ESP sp) as Hs by (cbn [step]; by rewrite Ha, H1). subst c'. rewrite Hs.
  assert (at_stack (with_reg c ESP sp) (regs c) (segs c) (eip c) (eflags c) sp (sp + 32) (saved_regs R ip ++ []) (memory c) sp) as H.
  { split; cbn; try done; [|lia]. intros r Hr. by rewrite decide_False by done. }
  destruct (resume_is _ _ _ _ _ _ _ _ _ _ _ _ H) as (R' & K & HR).
  split; [split; [|split]|split; [|split]].
  - intros r Hr. rewrite <- HR by done. by apply (as_regs _ _ _ _ _ _ _ _ _ _ K).
  - apply (as_esp _ _ _ _ _ _ _ _ _ _ K).
  - apply (as_eip _ _ _ _ _ _ _ _ _ _ K).
  - apply (as_segs _ _ _ _ _ _ _ _ _ _ K).
  - apply (as_eflags _ _ _ _ _ _ _ _ _ _ K).
  - done.
Qed.

Lemma context_switch_ok c lo ret old new sp R ip :
  switch_call c lo ret old new -> suspended (memory c) new sp R ip ->
  (forall x, part_of new sp x -> ~ written c old lo x) ->
  let c' := run context_switch c in
  resumed c' sp R ip /\ (forall s, segs c' s = segs c s) /\ eflags c' = eflags c /\
  suspended (memory c') old (regs c ESP - 28) (regs c) ret /\
  (forall x, ~ written c old lo x -> memory c' x = memory c x).
Proof.
  intros [Ha Hst Hw Ho] Hsu Hap c'.
  assert (at_stack c (regs c) (segs c) (eip c) (eflags c) (regs c ESP) (regs c ESP + 12) [ret; old; new] (memory c) lo) as H.
  { split; try done. cbn. lia. }
  destruct (save_thread_is _ _ _ _ _ _ _ _ _ _ _ _ _ H Hw ltac:(lia) Ho) as (R1 & HR1 & K).
  set (c1 := run save_thread c) in *.
  assert (c' = run resume_thread (step c1 (Load ESP EAX))) as -> by
    (subst c' c1; unfold context_switch, save_thread; rewrite run_app, !run_cons, !run_nil; reflexivity).
  assert (forall x, ~ written c old lo x -> memory c1 x = memory c x) as Hout.
  { intros x Hx. unfold written in Hx. rewrite (as_mem _ _ _ _ _ _ _ _ _ _ K x ltac:(lia)). apply store32_ne. lia. }
  destruct (load_thread_is c1 new sp R ip) as (L1 & L2 & L3 & L4).
  { by rewrite (as_regs _ _ _ _ _ _ _ _ _ _ K EAX ltac:(done)). }
  { eapply suspended_same; [exact Hsu|]. intros x Hx. apply Hout, Hap, Hx. }
  split; [exact L1|]. rewrite L3, L4. split; [intros s; rewrite L2; apply (as_segs _ _ _ _ _ _ _ _ _ _ K)|].
  split; [apply (as_eflags _ _ _ _ _ _ _ _ _ _ K)|]. split; [split|exact Hout].
  - unfold load32. rewrite !(as_mem _ _ _ _ _ _ _ _ _ _ K) by lia. apply load32_store32. lia.
  - intros i v Hi. apply (as_words _ _ _ _ _ _ _ _ _ _ K). by apply lookup_app_l_Some.
  - lia.
Qed.

(** ** The child of a fork *)
Lemma syscall_fork_exit_is u d R G ip fl T dsw esp n w1 w2 m0 lo : user_state u -> u16 dsw = segs u DS ->
  at_stack d R G ip fl (T - 72) T (w1 :: w2 :: isr_params u dsw esp n) m0 lo ->
  same_user (with_reg u EAX 0) (run syscall_fork_exit d) /\ memory (run syscall_fork_exit d) = memory d.
Proof.
  intros Hu Hd H. unfold isr_params in H. cbn [app] in H.
  pose proof (add_esp_is [w1; w2] _ _ _ _ _ _ _ _ _ _ 8 H eq_refl) as H0.
  pose proof (pop_is _ _ _ _ _ _ _ _ _ _ ECX _ H0 ltac:(done)) as H1.
  pose proof (load_segments_is _ _ _ _ _ _ _ _ _ _ ECX H1 ltac:(done)) as H2.
  pose proof (pop_is _ _ _ _ _ _ _ _ _ _ EDI _ H2 ltac:(done)) as H3.
  pose proof (pop_is _ _ _ _ _ _ _ _ _ _ ESI _ H3 ltac:(done)) as H4.
  pose proof (pop_is _ _ _ _ _ _ _ _ _ _ EBP _ H4 ltac:(done)) as H5.
  pose proof (add_esp_is [_] _ _ _ _ _ _ _ _ _ _ 4 H5 eq_refl) as H6.
  pose proof (pop_is _ _ _ _ _ _ _ _ _ _ EBX _ H6 ltac:(done)) as H7.
  pose proof (pop_is _ _ _ _ _ _ _ _ _ _ EDX _ H7 ltac:(done)) as H8.
  pose proof (pop_is _ _ _ _ _ _ _ _ _ _ ECX _ H8 ltac:(done)) as H9.
  pose proof (add_esp_is [_] _ _ _ _ _ _ _ _ _ _ 4 H9 eq_refl) as H10.
  pose proof (mov_imm_is _ _ _ _ _ _ _ _ _ _ EAX 0 H10 ltac:(done)) as H11.
  pose proof (add_esp_is [n; 0] _ _ _ _ _ _ _ _ _ _ 8 H11 eq_refl) as H12.
  destruct (iret_user _ _ _ _ _ _ _ _ _ _ H12 Hu) as (K1 & K2 & K3 & K4 & K5 & K6 & K7 & K8).
  unfold syscall_fork_exit. rewrite !run_app, !run_cons, !run_nil. destruct (us_data u Hu) as (D1 & D2 & D3).
  split; [|exact K8]. split; [|split; [|by split]].
  - intros r. destruct (decide (r = ESP)) as [->|Hr]; [exact K1|]. etransitivity; [by apply K2|]. by destruct r.
  - intros s. destruct (decide (s = CS)) as [->|H_cs]; [exact K5|]. destruct (decide (s = SS)) as [->|H_ss]; [exact K6|].
    rewrite K7, data_segs_at, upd_same, Hd by done. destruct s; cbn; congruence.
Qed.

(** ** Properties *)

(** [EFLAGS.IF] of a machine. *)
Definition interrupts_on (c : machine) : bool := Z.testbit (eflags c) 9.

Lemma masked_off fl : Z.testbit (Z.land fl (Z.lnot IF)) 9 = false.
Proof. rewrite Z.land_spec. by rewrite andb_false_r. Qed.

(** C16: [context_switch(old, new)] suspends one thread and resumes another: it goes on
    where the other stopped, with its registers and its stack pointer, and writes only
    the stack below the call and the stack pointer of the old thread.  And when, at any later
    time, some thread switches back, the first one returns from its call with all
    its registers as they were, provided that its frame and its saved stack pointer were
    left alone. *)
Theorem context_switch_correct (c : machine) (lo ret old new sp : Z) (R : reg -> Z) (ip : Z)
  (Hc : switch_call c lo ret old new) (Hn : suspended (memory c) new sp R ip)
  (Ha : forall x, part_of new sp x -> ~ written c old lo x) :
  let c' := run context_switch c in
  resumed c' sp R ip /\ (forall s, segs c' s = segs c s) /\ eflags c' = eflags c /\
  (forall x, ~ written c old lo x -> memory c' x = memory c x) /\
  forall d lo' ret' old', switch_call d lo' ret' old' old ->
    (forall x, part_of old (regs c ESP - 28) x -> memory d x = memory c' x /\ ~ written d old' lo' x) ->
    let d' := run context_switch d in
    (forall r, r <> ESP -> regs d' r = regs c r) /\ regs d' ESP = regs c ESP + 4 /\ eip d' = ret /\
    (forall x, part_of old (regs c ESP - 28) x -> memory d' x = memory c' x).
Proof.
  destruct (context_switch_ok c lo ret old new sp R ip Hc Hn Ha) as (K1 & K2 & K3 & K4 & K5).
  split; [done|]. split; [done|]. split; [done|]. split; [done|]. intros d lo' ret' old' Hd Hm.
  destruct (context_switch_ok d lo' ret' old' old (regs c ESP - 28) (regs c) ret Hd) as ((L1 & L2 & L3) & _ & _ & _ & L5).
  { eapply suspended_same; [exact K4|]. intros x Hx. by apply Hm. }
  { intros x Hx. by apply Hm. }
  split; [done|]. split; [rewrite L2; lia|]. split; [done|]. intros x Hx. rewrite L5; by apply Hm.
Qed.

(** C28: an interrupt is invisible to the program it interrupts: [isr<n>] and
    [isr_common_stub] hand [isr_handler] the words of [isr_params_t] with interrupts off
    and the kernel's data segments, without a store outside the kernel's stack; and
    whatever the handler and the scheduler do in between, if they leave the
    stack pointer and those words as they were, [interrupt_exit] gives the
    program back every register, segment and flag and the place where it was, and
    stores nothing. *)
Theorem interrupt_transparent (u : machine) (esp0 lo h kcs kss n : Z) (handler : machine -> machine)
  (Hu : user_state u) (Hlo : 0 < lo <= esp0 - 64) (Htop : esp0 < 4294967296) (Hn : word n) :
  let k := run (isr_entry n ++ isr_common_stub) (trap esp0 h kcs kss u) in
  regs k ESP = esp0 - 64 /\ interrupts_on k = false /\ (forall s, s <> CS -> s <> SS -> segs k s = 16) /\
  (exists ds, u16 ds = segs u DS /\ words (memory k) (esp0 - 64) (isr_params u ds (esp0 - 28) n)) /\
  (forall x, ~ (lo <= x < esp0) -> memory k x = memory u x) /\
  (c_code_keeps k (handler k) (esp0 - 64) esp0 ->
   same_user u (run interrupt_exit (handler k)) /\ memory (run interrupt_exit (handler k)) = memory (handler k)).
Proof.
  destruct (isr_stub_is u esp0 lo h kcs kss Hu ltac:(lia) Htop ltac:(lia) n Hn) as (ds & R & G & Hds & K & Hseg).
  split; [apply (as_esp _ _ _ _ _ _ _ _ _ _ K)|]. split.
  { unfold interrupts_on. rewrite (as_eflags _ _ _ _ _ _ _ _ _ _ K). apply masked_off. }
  split; [done|]. split; [exists ds; split; [done|]; apply (as_words _ _ _ _ _ _ _ _ _ _ K)|].
  split; [apply (as_mem _ _ _ _ _ _ _ _ _ _ K)|]. intros Hk.
  eapply interrupt_exit_is; [done|exact Hds|]. by apply (c_code_at_stack _ _ _ _ _ _ _ _ _ _ _ K).
Qed.

(** C37: A system call returns: [syscall_entry] hands [syscall_handler] the words of
    [isr_params_t] with interrupts on, and [syscall_normal_exit] gives the program
    back its state with the result in [eax] and nothing else changed.  A thread that [fork] made,
    with a copy of those words at the top [T] of its own kernel stack, leaves the kernel
    at [syscall_fork_exit] in the same state with 0 in [eax]. *)
Theorem syscall_returns (u : machine) (esp0 lo h kcs kss : Z) (handler : machine -> machine)
  (Hu : user_state u) (Hlo : 0 < lo <= esp0 - 64) (Htop : esp0 < 4294967296) :
  let k := run syscall_entry (trap esp0 h kcs kss u) in
  regs k ESP = esp0 - 64 /\ interrupts_on k = true /\ (forall s, s <> CS -> s <> SS -> segs k s = 16) /\
  (exists ds, u16 ds = segs u DS /\ words (memory k) (esp0 - 64) (isr_params u ds (esp0 - 44) 0)) /\
  (forall x, ~ (lo <= x < esp0) -> memory k x = memory u x) /\
  (c_code_keeps k (handler k) (esp0 - 64) esp0 ->
   same_user (with_reg u EAX (regs (handler k) EAX)) (run syscall_normal_exit (handler k)) /\
   memory (run syscall_normal_exit (handler k)) = memory (handler k)) /\
  (forall d T, regs d ESP = T - 72 -> 0 < T - 72 -> T < 4294967296 ->
   (forall i, 0 <= i < 16 -> load32 (memory d) (T - 64 + 4 * i) = load32 (memory k) (esp0 - 64 + 4 * i)) ->
   same_user (with_reg u EAX 0) (run syscall_fork_exit d) /\ memory (run syscall_fork_exit d) = memory d).
Proof.
  destruct (syscall_entry_is u esp0 lo h kcs kss Hu ltac:(lia) Htop ltac:(lia)) as (ds & R & G & Hds & K & Hseg & Hax).
  pose proof (as_words _ _ _ _ _ _ _ _ _ _ K) as Hw.
  split; [apply (as_esp _ _ _ _ _ _ _ _ _ _ K)|]. split.
  { unfold interrupts_on. rewrite (as_eflags _ _ _ _ _ _ _ _ _ _ K), Z.lor_spec. apply orb_true_r. }
  split; [done|]. split; [by exists ds|]. split; [apply (as_mem _ _ _ _ _ _ _ _ _ _ K)|]. split.
  - intros Hk. eapply syscall_normal_exit_is; [done|exact Hds|]. by apply (c_code_at_stack _ _ _ _ _ _ _ _ _ _ _ K).
  - intros d T He Hpos Ht Hcopy.
    assert (words (memory d) (regs d ESP)
      (load32 (memory d) (T - 72) :: load32 (memory d) (T - 68) :: isr_params u ds (esp0 - 44) 0)) as Hd.
    { rewrite He. apply words_cons. split; [done|]. apply words_cons. split; [f_equal; lia|]. intros i v Hi.
      pose proof (lookup_lt_Some _ _ _ Hi) as Hl. cbn in Hl. rewrite <- (Hw i v Hi), <- (Hcopy (Z.of_nat i)) by lia. f_equal. lia. }
    pose proof (at_stack_intro d T _ Hd ltac:(lia) ltac:(cbn; lia) Ht) as Hs. rewrite He in Hs at 1.
    by eapply syscall_fork_exit_is.
Qed.

(** ** Instances *)
Fixpoint put_words (m : mem) (a : Z) (l : list Z) : mem :=
  match l with [] => m | v :: l => put_words (store32 m a v) (a + 4) l end.

(** A program in user mode. *)
Definition demo_user : machine :=
  mk_machine (fun r => match r with EAX => 5 | ECX => 131073 | EDX => 3 | EBX => 4 | ESP => 3217031156 | EBP => 3217031164 | ESI => 6 | EDI => 7 end)
    (fun s => match s with CS => 35 | _ => 43 end) 4198400 514 (fun _ => 0).
(** C code that returns 42 and uses its stack. *)
Definition demo_handler (k : machine) : machine := with_reg (with_memory k (store32 (memory k) 3758105000 9)) EAX 42.
Definition demo_esp0 : Z := 3758108672.
Definition demo_lo : Z := 3758100480.

Lemma demo_user_state : user_state demo_user.
Proof.
  split; try done; try (unfold word; cbn; lia).
  - intros []; unfold word; cbn; lia.
  - intros []; cbn; lia.
Qed.

Lemma demo_handler_keeps k : regs k ESP = demo_esp0 - 64 -> c_code_keeps k (demo_handler k) (demo_esp0 - 64) demo_esp0.
Proof. intros Hk. split; [done|]. intros x Hx. apply store32_ne. unfold demo_esp0 in Hx. lia. Qed.

Lemma interrupt_transparent_witness :
  let k := run (isr_entry 32 ++ isr_common_stub) (trap demo_esp0 3221225472 8 16 demo_user) in
  same_user demo_user (run interrupt_exit (demo_handler k)).
Proof.
  destruct (interrupt_transparent demo_user demo_esp0 demo_lo 3221225472 8 16 32 demo_handler demo_user_state
    ltac:(unfold demo_lo, demo_esp0; lia) ltac:(unfold demo_esp0; lia) ltac:(unfold word; lia)) as (K1 & _ & _ & _ & _ & K).
  apply K, demo_handler_keeps, K1.
Defined.

Lemma syscall_returns_witness :
  let k := run syscall_entry (trap demo_esp0 3221225472 8 16 demo_user) in
  let child := with_reg (with_memory k (put_words (memory k) 3758206912 (map (fun i => load32 (memory k) (demo_esp0 - 64 + 4 * i)) (seqZ 0 16)))) ESP 3758206904 in
  same_user (with_reg demo_user EAX 42) (run syscall_normal_exit (demo_handler k)) /\
  same_user (with_reg demo_user EAX 0) (run syscall_fork_exit child).
Proof.
  destruct (syscall_returns demo_user demo_esp0 demo_lo 3221225472 8 16 demo_handler demo_user_state
    ltac:(unfold demo_lo, demo_esp0; lia) ltac:(unfold demo_esp0; lia)) as (K1 & _ & _ & _ & _ & K & C).
  split; [apply K, demo_handler_keeps, K1|]. apply (C _ 3758206976); [reflexivity|lia|lia|].
  intros i Hi. replace i with (Z.of_nat (Z.to_nat i)) by lia. assert (Z.to_nat i < 16)%nat as Hn by lia.
  generalize dependent (Z.to_nat i). clear. intros n Hn. do 16 (destruct n as [|n]; [vm_compute; reflexivity|]). lia.
Defined.

(** A thread at a call of [context_switch(4096, 4200)], and another that is suspended. *)
Definition demo_switch : machine :=
  mk_machine (fun r => match r with ESP => 81000 | _ => 11 end) (fun _ => 16) 100 2
    (put_words (put_words (store32 (fun _ => 0) 4200 90000) 81000 [555; 4096; 4200]) 90000 (saved_regs (fun _ => 22) 777)).
(** The other thread at its call of [context_switch(4200, 4096)]. *)
Definition demo_back (m : mem) : machine :=
  mk_machine (fun r => match r with ESP => 89900 | _ => 33 end) (fun _ => 16) 800 2 (put_words m 89900 [666; 4200; 4096]).

Lemma demo_switch_call : switch_call demo_switch 80000 555 4096 4200.
Proof.
  split; [|cbn; lia|intros []; unfold word; cbn; lia|cbn; lia].
  repeat (apply words_cons; split; [vm_compute; reflexivity|]). by intros [].
Qed.

Lemma demo_suspended : suspended (memory demo_switch) 4200 90000 (fun _ => 22) 777.
Proof.
  split; [vm_compute; reflexivity| |lia].
  repeat (apply words_cons; split; [vm_compute; reflexivity|]). by intros [].
Qed.

Lemma demo_back_call m : switch_call (demo_back m) 89000 666 4200 4096.
Proof.
  split; [|cbn; lia|intros []; unfold word; cbn; lia|cbn; lia].
  repeat (apply words_cons; split; [vm_compute; reflexivity|]). by intros [].
Qed.

Lemma context_switch_correct_witness :
  let c' := run context_switch demo_switch in
  resumed c' 90000 (fun _ => 22) 777 /\
  let d' := run context_switch (demo_back (memory c')) in regs d' EBX = 11 /\ regs d' ESP = 81004 /\ eip d' = 555.
Proof.
  destruct (context_switch_correct demo_switch 80000 555 4096 4200 90000 (fun _ => 22) 777 demo_switch_call demo_suspended
    ltac:(unfold part_of, written; cbn; lia)) as (K1 & _ & _ & _ & K).
  split; [exact K1|]. destruct (K _ _ _ _ (demo_back_call (memory (run context_switch demo_switch)))) as (L1 & L2 & L3 & _).
  { intros x Hx. split; [|revert Hx; unfold part_of, written; cbn; lia].
    unfold part_of in Hx. cbn [regs demo_switch] in Hx. cbn [memory demo_back put_words]. by rewrite !store32_ne by lia. }
  split; [by rewrite L1|]. by split.
Defined.
