(* ===== verification/Syscall.v ===== *)
(** System calls, from the user's function to the kernel's: [src/user/src/user_sys/syscall.c] with
    [syscall_trigger.asm], and [src/src/syscall/syscall_impl.c].  The functions of the kernel that
    the calls end in are an interface. *)
From S2P Require Import Prelude Memory Switch.

(** ** [syscall_impl.h] *)
Definition SYSCALL_EXIT_NUM : Z := 0.
Definition SYSCALL_FORK_NUM : Z := 1.
Definition SYSCALL_EXEC_NUM : Z := 2.
Definition SYSCALL_LISTDIR_NUM : Z := 7.
Definition SYSCALL_PRINT_NUM : Z := 8.
Definition SYSCALL_WAIT_NUM : Z := 9.
Definition SYSCALL_READ_CHAR_NUM : Z := 11.
Definition SYSCALL_GET_TICKS_NUM : Z := 13.
Definition SYSCALL_VIDEO_SET_MODE_NUM : Z := 14.
Definition SYSCALL_VIDEO_BLIT_NUM : Z := 15.
Definition SYSCALL_VIDEO_SET_PALETTE_NUM : Z := 16.
Definition SYSCALL_POLL_KEYBOARD_EVENT_NUM : Z := 17.
Definition SYSCALL_GET_KEY_STATE_NUM : Z := 18.

(** The parts of the kernel behind the calls, on the kernel's state. *)
Class KernelOps (K : Type) := {
  process_exit : K -> Z -> res K;
  process_fork : K -> res (Z * K);
  process_exec : K -> Z -> Z -> Z -> res (Z * K);
  monitor_print : K -> Z -> res K;
  read_keyboard_char_wait : K -> res (Z * K);
  process_wait : K -> Z -> Z -> res (Z * K);
  list_dir : K -> Z -> res (Z * K);
  getTick : K -> Z;
  video_set_mode : K -> Z -> res K;
  video_blit : K -> Z -> Z -> Z -> res (Z * K);
  video_set_palette : K -> Z -> Z -> Z -> Z -> res K;
  read_keyboard_char_right_now : K -> Z -> res (Z * K);
  get_key_state : K -> Z -> Z
}.

(** ** [syscall_impl.c] *)
Section KERNEL.
Context {K : Type} `{KernelOps K}.

(** A function without a result, and the value returned after it. *)
Definition returning (v : Z) (r : res K) : res (Z * K) := let! s := r in Ok (v, s).

Definition syscall_exit_impl (s : K) (exit_num : Z) : res (Z * K) := returning (-1) (process_exit s exit_num).
Definition syscall_fork_impl (s : K) : res (Z * K) := process_fork s.
Definition syscall_exec_impl (s : K) (file_path argc argv : Z) : res (Z * K) :=
  let! (_, s) := process_exec s file_path argc argv in Ok (-1, s).
Definition syscall_print_impl (s : K) (str : Z) : res (Z * K) := returning 0 (monitor_print s str).
Definition syscall_read_char_impl (s : K) : res (Z * K) := read_keyboard_char_wait s.
Definition syscall_wait_impl (s : K) (pid status : Z) : res (Z * K) := process_wait s pid status.
Definition syscall_listdir_impl (s : K) (dir : Z) : res (Z * K) := list_dir s dir.
Definition syscall_get_ticks_impl (s : K) : res (Z * K) := Ok (s32 (getTick s), s).
Definition syscall_video_set_mode_impl (s : K) (mode : Z) : res (Z * K) := returning 0 (video_set_mode s mode).
Definition syscall_video_blit_impl (s : K) (buffer width height : Z) : res (Z * K) := video_blit s buffer width height.
Definition syscall_video_set_palette_impl (s : K) (index r g b : Z) : res (Z * K) := returning 0 (video_set_palette s index r g b).
Definition syscall_poll_keyboard_event_impl (s : K) (event : Z) : res (Z * K) := read_keyboard_char_right_now s event.
Definition syscall_get_key_state_impl (s : K) (key : Z) : res (Z * K) := Ok (get_key_state s key, s).

(** [syscall_handler]: [p] are the words of [isr_params_t], from [ds] on. *)
Definition param (p : list Z) (i : nat) : Z := nth i p 0.
Definition syscall_handler (s : K) (p : list Z) : res (Z * K) :=
  let '(esi, ebx, edx, ecx, eax) := (param p 2, param p 5, param p 6, param p 7, param p 8) in
  let syscall_num := s32 eax in
  if syscall_num =? SYSCALL_EXIT_NUM then syscall_exit_impl s (s32 ecx)
  else if syscall_num =? SYSCALL_FORK_NUM then syscall_fork_impl s
  else if syscall_num =? SYSCALL_EXEC_NUM then syscall_exec_impl s ecx (s32 edx) ebx
  else if syscall_num =? SYSCALL_PRINT_NUM then syscall_print_impl s ecx
  else if syscall_num =? SYSCALL_READ_CHAR_NUM then syscall_read_char_impl s
  else if syscall_num =? SYSCALL_WAIT_NUM then syscall_wait_impl s (s32 ecx) edx
  else if syscall_num =? SYSCALL_LISTDIR_NUM then syscall_listdir_impl s ecx
  else if syscall_num =? SYSCALL_GET_TICKS_NUM then syscall_get_ticks_impl s
  else if syscall_num =? SYSCALL_VIDEO_SET_MODE_NUM then syscall_video_set_mode_impl s ecx
  else if syscall_num =? SYSCALL_VIDEO_BLIT_NUM then syscall_video_blit_impl s ecx edx ebx
  else if syscall_num =? SYSCALL_VIDEO_SET_PALETTE_NUM then syscall_video_set_palette_impl s ecx edx ebx esi
  else if syscall_num =? SYSCALL_POLL_KEYBOARD_EVENT_NUM then syscall_poll_keyboard_event_impl s ecx
  else if syscall_num =? SYSCALL_GET_KEY_STATE_NUM then syscall_get_key_state_impl s ecx
  else Err Panic.
End KERNEL.

(** ** [syscall.c] and [syscall_trigger.asm] *)

(** The functions of the user library, with their arguments as words. *)
Inductive syscall : Type :=
  | syscall_fork
  | syscall_print (str : Z)
  | syscall_exit (num : Z)
  | syscall_exec (file_path argc argv : Z)
  | syscall_read_char
  | syscall_wait (pid status : Z)
  | syscall_listdir (dir : Z)
  | syscall_get_ticks
  | syscall_video_set_mode (mode : Z)
  | syscall_video_blit (buffer width height : Z)
  | syscall_video_set_palette (index r g b : Z)
  | syscall_poll_keyboard_event (event : Z)
  | syscall_get_key_state (key : Z).

(** The macros by the number of parameters: before [int 0x80], and after it. *)
Definition trigger_0 (num : Z) : list instr * list instr := ([MovImm EAX num], [Ret]).
Definition trigger_1 (num : Z) : list instr * list instr := ([MovImm EAX num; MovFromStack ECX 4], [Ret]).
Definition trigger_2 (num : Z) : list instr * list instr := ([MovImm EAX num; MovFromStack ECX 4; MovFromStack EDX 8], [Ret]).
Definition trigger_3 (num : Z) : list instr * list instr :=
  ([Push EBX; MovImm EAX num; MovFromStack ECX 8; MovFromStack EDX 12; MovFromStack EBX 16], [Pop EBX; Ret]).
Definition trigger_4 (num : Z) : list instr * list instr :=
  ([Push EBX; Push ESI; MovImm EAX num; MovFromStack ECX 12; MovFromStack EDX 16; MovFromStack EBX 20; MovFromStack ESI 24],
   [Pop ESI; Pop EBX; Ret]).

(** The instances of the macros, and the arguments that the C function has pushed. *)
Definition trigger (c : syscall) : list instr * list instr :=
  match c with
  | syscall_exit _ => trigger_1 0
  | syscall_fork => trigger_0 1
  | syscall_print _ => trigger_1 8
  | syscall_exec _ _ _ => trigger_3 2
  | syscall_read_char => trigger_0 11
  | syscall_wait _ _ => trigger_2 9
  | syscall_listdir _ => trigger_1 7
  | syscall_get_ticks => trigger_0 13
  | syscall_video_set_mode _ => trigger_1 14
  | syscall_video_blit _ _ _ => trigger_3 15
  | syscall_video_set_palette _ _ _ _ => trigger_4 16
  | syscall_poll_keyboard_event _ => trigger_1 17
  | syscall_get_key_state _ => trigger_1 18
  end.
Definition arguments (c : syscall) : list Z :=
  match c with
  | syscall_fork | syscall_read_char | syscall_get_ticks => []
  | syscall_exit x | syscall_print x | syscall_listdir x | syscall_video_set_mode x | syscall_poll_keyboard_event x | syscall_get_key_state x => [x]
  | syscall_wait pid status => [pid; status]
  | syscall_exec file_path argc argv => [file_path; argc; argv]
  | syscall_video_blit buffer width height => [buffer; width; height]
  | syscall_video_set_palette index r g b => [index; r; g; b]
  end.
