(* ===== verification/SyscallSpec.v ===== *)
(** A system call as its caller sees it: the function of the library, through the registers, the
    kernel's stack and the dispatch, is a call of the kernel's function. *)
From S2P Require Import Prelude Memory DiskSpec Switch SwitchSpec Syscall.

(** ** The dispatch *)
Section KERNEL.
Context {K : Type} `{KernelOps K}.

(** What the library's functions stand for. *)
Definition kernel_function (s : K) (c : syscall) : res (Z * K) :=
  match c with
  | syscall_fork => process_fork s
  | syscall_print str => let! s := monitor_print s str in Ok (0, s)
  | syscall_exit num => let! s := process_exit s (s32 num) in Ok (-1, s)
  | syscall_exec file_path argc argv => let! (_, s) := process_exec s file_path (s32 argc) argv in Ok (-1, s)
  | syscall_read_char => read_keyboard_char_wait s
  | syscall_wait pid status => process_wait s (s32 pid) status
  | syscall_listdir dir => list_dir s dir
  | syscall_get_ticks => Ok (s32 (getTick s), s)
  | syscall_video_set_mode mode => let! s := video_set_mode s mode in Ok (0, s)
  | syscall_video_blit buffer width height => video_blit s buffer width height
  | syscall_video_set_palette index r g b => let! s := video_set_palette s index r g b in Ok (0, s)
  | syscall_poll_keyboard_event event => read_keyboard_char_right_now s event
  | syscall_get_key_state key => Ok (get_key_state s key, s)
  end.
End KERNEL.

(** ** The stubs of the library *)
Definition macro (n : nat) (num : Z) : list instr * list instr :=
  match n with O => trigger_0 num | 1 => trigger_1 num | 2 => trigger_2 num | 3 => trigger_3 num | _ => trigger_4 num end%nat.
Definition number (c : syscall) : Z :=
  match c with
  | syscall_fork => SYSCALL_FORK_NUM | syscall_print _ => SYSCALL_PRINT_NUM | syscall_exit _ => SYSCALL_EXIT_NUM | syscall_exec _ _ _ => SYSCALL_EXEC_NUM
  | syscall_read_char => SYSCALL_READ_CHAR_NUM | syscall_wait _ _ => SYSCALL_WAIT_NUM | syscall_listdir _ => SYSCALL_LISTDIR_NUM | syscall_get_ticks => SYSCALL_GET_TICKS_NUM
  | syscall_video_set_mode _ => SYSCALL_VIDEO_SET_MODE_NUM | syscall_video_blit _ _ _ => SYSCALL_VIDEO_BLIT_NUM
  | syscall_video_set_palette _ _ _ _ => SYSCALL_VIDEO_SET_PALETTE_NUM | syscall_poll_keyboard_event _ => SYSCALL_POLL_KEYBOARD_EVENT_NUM
  | syscall_get_key_state _ => SYSCALL_GET_KEY_STATE_NUM
  end.
Lemma trigger_macro c : trigger c = macro (length (arguments c)) (number c).
Proof. by destruct c. Qed.

(** The registers at [int 0x80], and what the stub has saved. *)
Definition loaded (num : Z) (args : list Z) (R : reg -> Z) : reg -> Z :=
  let R := upd R EAX num in
  match args with
  | [] => R
  | [a] => upd R ECX a
  | [a; b] => upd (upd R ECX a) EDX b
  | [a; b; x] => upd (upd (upd R ECX a) EDX b) EBX x
  | a :: b :: x :: y :: _ => upd (upd (upd (upd R ECX a) EDX b) EBX x) ESI y
  end.
Definition saved (n : nat) (R : reg -> Z) : list Z := match n with 3 => [R EBX] | 4 => [R ESI; R EBX] | _ => [] end%nat.
Definition restored (n : nat) (R0 R : reg -> Z) : reg -> Z :=
  match n with 3 => upd R EBX (R0 EBX) | 4 => upd (upd R ESI (R0 ESI)) EBX (R0 EBX) | _ => R end%nat.

Section STUBS.
Context (G : seg -> Z) (ip fl T ret : Z) (m0 : mem) (lo : Z).

Lemma before_ok c R sp args num : at_stack c R G ip fl sp T (ret :: args) m0 lo -> lo <= sp - 8 -> (length args <= 4)%nat -> word (R EBX) -> word (R ESI) ->
  at_stack (run (macro (length args) num).1 c) (loaded num args R) G ip fl (sp - 4 * Z.of_nat (length (saved (length args) R))) T
    (saved (length args) R ++ ret :: args) m0 lo.
Proof.
  intros Hc Hlo Hn Hb Hs. destruct args as [|a [|b [|x [|y [|]]]]]; cbn [length] in *; [| | | | |lia];
    cbn [macro trigger_0 trigger_1 trigger_2 trigger_3 trigger_4 fst saved app length loaded]; rewrite ?run_cons, ?run_nil, ?Z.mul_0_r, ?Z.sub_0_r.
  - exact (mov_imm_is _ _ _ _ _ _ _ _ _ _ EAX num Hc ltac:(done)).
  - pose proof (mov_imm_is _ _ _ _ _ _ _ _ _ _ EAX num Hc ltac:(done)) as H1.
    exact (from_stack_is _ _ _ _ _ _ _ _ _ _ ECX 4 1 a H1 ltac:(done) eq_refl eq_refl).
  - pose proof (mov_imm_is _ _ _ _ _ _ _ _ _ _ EAX num Hc ltac:(done)) as H1.
    pose proof (from_stack_is _ _ _ _ _ _ _ _ _ _ ECX 4 1 a H1 ltac:(done) eq_refl eq_refl) as H2.
    exact (from_stack_is _ _ _ _ _ _ _ _ _ _ EDX 8 2 b H2 ltac:(done) eq_refl eq_refl).
  - pose proof (push_reg_is _ _ _ _ _ _ _ _ _ _ EBX Hc ltac:(lia) ltac:(done) Hb) as H0.
    pose proof (mov_imm_is _ _ _ _ _ _ _ _ _ _ EAX num H0 ltac:(done)) as H1.
    pose proof (from_stack_is _ _ _ _ _ _ _ _ _ _ ECX 8 2 a H1 ltac:(done) eq_refl eq_refl) as H2.
    pose proof (from_stack_is _ _ _ _ _ _ _ _ _ _ EDX 12 3 b H2 ltac:(done) eq_refl eq_refl) as H3.
    exact (from_stack_is _ _ _ _ _ _ _ _ _ _ EBX 16 4 x H3 ltac:(done) eq_refl eq_refl).
  - pose proof (push_reg_is _ _ _ _ _ _ _ _ _ _ EBX Hc ltac:(lia) ltac:(done) Hb) as H0.
    pose proof (push_reg_is _ _ _ _ _ _ _ _ _ _ ESI H0 ltac:(lia) ltac:(done) Hs) as H0'.
    pose proof (mov_imm_is _ _ _ _ _ _ _ _ _ _ EAX num H0' ltac:(done)) as H1.
    pose proof (from_stack_is _ _ _ _ _ _ _ _ _ _ ECX 12 3 a H1 ltac:(done) eq_refl eq_refl) as H2.
    pose proof (from_stack_is _ _ _ _ _ _ _ _ _ _ EDX 16 4 b H2 ltac:(done) eq_refl eq_refl) as H3.
    pose proof (from_stack_is _ _ _ _ _ _ _ _ _ _ EBX 20 5 x H3 ltac:(done) eq_refl eq_refl) as H4.
    pose proof (from_stack_is _ _ _ _ _ _ _ _ _ _ ESI 24 6 y H4 ltac:(done) eq_refl eq_refl) as H5.
    replace (sp - 4 - 4) with (sp - 4 * Z.of_nat 2) in H5 by lia. exact H5.
Qed.

Lemma after_ok c R R0 n num sp l : at_stack c R G ip fl sp T (saved n R0 ++ ret :: l) m0 lo -> (n <= 4)%nat ->
  at_stack (run (macro n num).2 c) (restored n R0 R) G ret fl (sp + 4 * Z.of_nat (length (saved n R0)) + 4) T l m0 lo.
Proof.
  intros Hc Hn. destruct n as [|[|[|[|[|]]]]]; [| | | | |lia];
    cbn [macro trigger_0 trigger_1 trigger_2 trigger_3 trigger_4 snd saved app length restored] in *; rewrite ?run_cons, ?run_nil, ?Z.mul_0_r, ?Z.add_0_r.
  - exact (ret_is _ _ _ _ _ _ _ _ _ _ _ Hc).
  - exact (ret_is _ _ _ _ _ _ _ _ _ _ _ Hc).
  - exact (ret_is _ _ _ _ _ _ _ _ _ _ _ Hc).
  - pose proof (pop_is _ _ _ _ _ _ _ _ _ _ EBX _ Hc ltac:(done)) as H1. exact (ret_is _ _ _ _ _ _ _ _ _ _ _ H1).
  - pose proof (pop_is _ _ _ _ _ _ _ _ _ _ ESI _ Hc ltac:(done)) as H1. pose proof (pop_is _ _ _ _ _ _ _ _ _ _ EBX _ H1 ltac:(done)) as H2.
    pose proof (ret_is _ _ _ _ _ _ _ _ _ _ _ H2) as H3. replace (sp + 4 + 4 + 4) with (sp + 4 * Z.of_nat 2 + 4) in H3 by lia. exact H3.
Qed.
End STUBS.

(** ** The call *)

(** The dispatch reads the registers that the stub has loaded. *)
Lemma handler_dispatches {K} `{KernelOps K} (s : K) c u R dsw esp n :
  (forall r, r <> ESP -> regs u r = loaded (number c) (arguments c) R r) -> syscall_handler s (isr_params u dsw esp n) = kernel_function s c.
Proof.
  intros Hr. unfold syscall_handler, isr_params, param. cbn [app nth]. rewrite !Hr by done. destruct c; reflexivity.
Qed.

Lemma loaded_word num args R r : word num -> Forall word args -> (forall r, word (R r)) -> word (loaded num args R r).
Proof.
  intros Hn Ha HR. unfold loaded, upd.
  destruct args as [|a [|b [|x [|y l]]]]; repeat (apply Forall_cons in Ha as [? Ha]); repeat case_decide; auto.
Qed.
Lemma number_word c : word (number c).
Proof. by destruct c. Qed.
Lemma few_arguments c : (length (arguments c) <= 4)%nat.
Proof. destruct c; cbn; lia. Qed.
Lemma saved_length n R : (length (saved n R) <= 2)%nat.
Proof. destruct n as [|[|[|[|[|]]]]]; cbn; lia. Qed.

(** What the stub leaves is a user's state. *)
Lemma stub_user u u1 num args ip E T l m0 lo : user_state u -> word num -> Forall word args -> word ip ->
  at_stack u1 (loaded num args (regs u)) (segs u) ip (eflags u) E T l m0 lo -> user_state u1.
Proof.
  intros Hu Hn Ha Hw K. destruct Hu. split.
  - intros r. destruct (decide (r = ESP)) as [->|Hr].
    + rewrite (as_esp _ _ _ _ _ _ _ _ _ _ K). pose proof (as_range _ _ _ _ _ _ _ _ _ _ K). unfold word. lia.
    + rewrite (as_regs _ _ _ _ _ _ _ _ _ _ K) by done. by apply loaded_word.
  - intros s. rewrite (as_segs _ _ _ _ _ _ _ _ _ _ K). done.
  - rewrite (as_segs _ _ _ _ _ _ _ _ _ _ K). done.
  - rewrite !(as_segs _ _ _ _ _ _ _ _ _ _ K). done.
  - by rewrite (as_eip _ _ _ _ _ _ _ _ _ _ K).
  - by rewrite (as_eflags _ _ _ _ _ _ _ _ _ _ K).
Qed.

(** A function has returned [v] to [ret]: the registers a function keeps, the segments and the
    flags are the caller's, and the return address is off the stack. *)
Definition function_returned (u c : machine) (ret v : Z) : Prop :=
  regs c EAX = v /\ regs c ESP = regs u ESP + 4 /\ (forall r, r ∈ [EBX; ESI; EDI; EBP] -> regs c r = regs u r) /\
  (forall s, segs c s = segs u s) /\ eflags c = eflags u /\ eip c = ret.

(** The stack pointer, at [sp], of a caller that has pushed the arguments and the return address. *)
Record library_call (u : machine) (c : syscall) (ret lo esp0 : Z) : Prop := {
  lc_user : user_state u;
  lc_words : words (memory u) (regs u ESP) (ret :: arguments c);
  lc_args : Forall word (arguments c);
  lc_stack : 8 < regs u ESP /\ regs u ESP + 20 < 4294967296;
  lc_kernel : 0 < lo <= esp0 - 64 /\ esp0 < 4294967296;
  lc_apart : regs u ESP + 20 <= lo \/ esp0 <= regs u ESP - 8
}.

Lemma after_memory c d : memory (run (trigger c).2 d) = memory d.
Proof. by destruct c. Qed.

(** The registers after the call. *)
Definition call_regs (c : syscall) (R : reg -> Z) (v : Z) : reg -> Z := restored (length (arguments c)) R (upd (loaded (number c) (arguments c) R) EAX v).
Lemma call_result c R v : call_regs c R v EAX = v.
Proof. by destruct c. Qed.
Lemma call_keeps c R v r : r ∈ [EBX; ESI; EDI; EBP] -> r <> ESP /\ call_regs c R v r = R r.
Proof. intros Hr. repeat (apply elem_of_cons in Hr as [->|Hr]; [by destruct c|]). by apply elem_of_nil in Hr. Qed.
Lemma after_call c d G ip fl T ret m0 lo R v sp l :
  at_stack d (upd (loaded (number c) (arguments c) R) EAX v) G ip fl sp T (saved (length (arguments c)) R ++ ret :: l) m0 lo ->
  at_stack (run (trigger c).2 d) (call_regs c R v) G ret fl (sp + 4 * Z.of_nat (length (saved (length (arguments c)) R)) + 4) T l m0 lo.
Proof. intros D. rewrite trigger_macro. by apply (after_ok _ ip), few_arguments. Qed.

Section CALL.
Context (u : machine) (c : syscall) (ret after esp0 lo h kcs kss : Z).
Context (Hc : library_call u c ret lo esp0) (Hafter : word after).

Let u1 : machine := with_eip (run (trigger c).1 u) after.
Let k : machine := run syscall_entry (trap esp0 h kcs kss u1).
Let n : nat := length (arguments c).
Let sp1 : Z := regs u ESP - 4 * Z.of_nat (length (saved n (regs u))).

Lemma stub_ok : at_stack u1 (loaded (number c) (arguments c) (regs u)) (segs u) after (eflags u) sp1 (regs u ESP + 20)
  (saved n (regs u) ++ ret :: arguments c) (memory u) (regs u ESP - 8).
Proof using Hc.
  destruct Hc as [Hu Hw Ha Hst Hk Hap]. pose proof (few_arguments c).
  assert (at_stack u (regs u) (segs u) (eip u) (eflags u) (regs u ESP) (regs u ESP + 20) (ret :: arguments c) (memory u) (regs u ESP - 8)) as H0.
  { split; try done. cbn [length]. lia. }
  pose proof (before_ok _ _ _ _ _ _ _ u (regs u) (regs u ESP) (arguments c) (number c) H0 ltac:(lia) ltac:(done) ltac:(apply Hu) ltac:(apply Hu)) as H1.
  rewrite <- trigger_macro in H1. by apply (set_eip_is _ _ _ (eip u)).
Qed.

Lemma stub_user_ok : user_state u1.
Proof using Hc Hafter. destruct Hc. eapply stub_user; [done|apply number_word|done|done|exact stub_ok]. Qed.

(** The stub stores below the stack pointer only. *)
Lemma stub_memory x : ~ (regs u ESP - 8 <= x < regs u ESP) -> memory u1 x = memory u x.
Proof using Hc.
  clear k. intros Hx. destruct Hc as [_ _ _ Hst _ _]. subst u1. cbn.
  assert (u32 (regs u ESP - 4) = regs u ESP - 4) as E1 by (apply u32_small; lia).
  assert (u32 (regs u ESP - 4 - 4) = regs u ESP - 8) as E2 by (replace (regs u ESP - 4 - 4) with (regs u ESP - 8) by lia; apply u32_small; lia).
  destruct c; cbn; rewrite ?E1; cbn; rewrite ?decide_True by done; rewrite ?E2, ?store32_ne; try done; lia.
Qed.

(** The kernel gets the words of [isr_params_t] and has stored nothing outside the two stacks. *)
Lemma kernel_entered : exists dsw R G, u16 dsw = segs u1 DS /\ at_stack k R G h (Z.lor (masked u1) IF) (esp0 - 64) esp0 (isr_params u1 dsw (esp0 - 44) 0) (memory u1) lo.
Proof using Hc Hafter.
  destruct Hc as [_ _ _ _ [Hk1 Hk2] _].
  destruct (syscall_entry_is u1 esp0 lo h kcs kss stub_user_ok ltac:(lia) Hk2 ltac:(lia)) as (dsw & R & G & Hd & K & _). by exists dsw, R, G.
Qed.

(** The words of the stub are on its stack when the kernel has returned. *)
Lemma call_returns k' : c_code_keeps k k' (esp0 - 64) esp0 -> kept (memory k) (memory k') (regs u ESP - 8) (regs u ESP + 4) ->
  let r := run (trigger c).2 (run syscall_normal_exit k') in
  function_returned u r ret (regs k' EAX) /\ memory r = memory k'.
Proof using Hc Hafter.
  intros Hk Hs r. destruct kernel_entered as (dsw & R & G & Hd & K). pose proof stub_ok as S. pose proof stub_user_ok as U.
  destruct Hc as [Hu Hw Ha Hst Hlo Hap]. pose proof (saved_length n (regs u)) as Hn.
  destruct (syscall_normal_exit_is u1 esp0 U k' _ _ _ _ dsw 0 _ _ Hd (c_code_at_stack _ _ _ _ _ _ _ _ _ _ _ K Hk)) as [(X1 & X2 & X3 & X4) Xm].
  set (d := run syscall_normal_exit k') in *.
  assert (at_stack d (upd (loaded (number c) (arguments c) (regs u)) EAX (regs k' EAX)) (segs u) after (eflags u) sp1 (regs u ESP + 4)
    (saved n (regs u) ++ [ret]) (memory k') (regs u ESP - 8)) as D.
  { split.
    - intros x Hx. rewrite X1. cbn. unfold upd. case_decide; [done|]. by apply (as_regs _ _ _ _ _ _ _ _ _ _ S).
    - rewrite X1. cbn. apply (as_esp _ _ _ _ _ _ _ _ _ _ S).
    - intros s. rewrite X2. apply (as_segs _ _ _ _ _ _ _ _ _ _ S).
    - rewrite X3. apply (as_eip _ _ _ _ _ _ _ _ _ _ S).
    - rewrite X4. apply (as_eflags _ _ _ _ _ _ _ _ _ _ S).
    - rewrite Xm. apply (words_same (memory u1)).
      + intros i v Hi. apply (as_words _ _ _ _ _ _ _ _ _ _ S). change (ret :: arguments c) with ([ret] ++ arguments c). rewrite app_assoc. by apply lookup_app_l_Some.
      + intros x Hx. rewrite length_app in Hx. cbn [length] in Hx. unfold sp1 in Hx. rewrite Hs by lia.
        apply (as_mem _ _ _ _ _ _ _ _ _ _ K). lia.
    - rewrite length_app. cbn [length]. unfold sp1. lia.
    - intros x _. by rewrite Xm. }
  pose proof (after_call _ _ _ _ _ _ _ _ _ _ _ _ _ D) as F. fold r in F.
  split; [|subst r; rewrite <- Xm; apply after_memory].
  split; [rewrite (as_regs _ _ _ _ _ _ _ _ _ _ F) by done; apply call_result|].
  split; [rewrite (as_esp _ _ _ _ _ _ _ _ _ _ F); unfold sp1, n; lia|].
  split; [|split; [apply (as_segs _ _ _ _ _ _ _ _ _ _ F)|split; [apply (as_eflags _ _ _ _ _ _ _ _ _ _ F)|apply (as_eip _ _ _ _ _ _ _ _ _ _ F)]]].
  intros x Hx. destruct (call_keeps c (regs u) (regs k' EAX) x Hx) as [Hne <-]. by apply (as_regs _ _ _ _ _ _ _ _ _ _ F).
Qed.
End CALL.

(** ** Property *)

(** C17: a function of the user library is a call of the kernel's function.  When the caller has
    pushed the arguments and the return address, the stub, the trap and [syscall_entry] hand
    [syscall_handler] sixteen words, and with these the handler does for every state of the kernel what
    the function stands for, with the caller's arguments; nothing is stored outside
    the kernel's stack and the eight bytes below the caller's stack pointer.  Whatever C code then runs
    on the kernel's stack, if it leaves the words on the two stacks alone, [syscall_normal_exit]
    and the rest of the stub return to the caller like a C function: the result in
    [eax], every register that a function must keep, the segments, the flags and the stack as
    they were. *)
Theorem system_call_correct (u : machine) (c : syscall) (ret after esp0 lo h kcs kss : Z)
  (Hc : library_call u c ret lo esp0) (Hafter : word after) :
  let k := run syscall_entry (trap esp0 h kcs kss (with_eip (run (trigger c).1 u) after)) in
  regs k ESP = esp0 - 64 /\ interrupts_on k = true /\
  (exists ps, length ps = 16%nat /\ words (memory k) (regs k ESP) ps /\
     forall (K : Type) (ops : KernelOps K) (s : K), syscall_handler s ps = kernel_function s c) /\
  (forall x, ~ (lo <= x < esp0) -> ~ (regs u ESP - 8 <= x < regs u ESP) -> memory k x = memory u x) /\
  (forall k', c_code_keeps k k' (esp0 - 64) esp0 -> kept (memory k) (memory k') (regs u ESP - 8) (regs u ESP + 4) ->
   let r := run (trigger c).2 (run syscall_normal_exit k') in
   function_returned u r ret (regs k' EAX) /\ memory r = memory k').
Proof.
  intros k. destruct (kernel_entered u c ret after esp0 lo h kcs kss Hc Hafter) as (dsw & R & G & Hd & K).
  pose proof (stub_ok u c ret after esp0 lo Hc) as S. fold k in K.
  assert (regs k ESP = esp0 - 64) as He by apply (as_esp _ _ _ _ _ _ _ _ _ _ K).
  split; [done|]. split; [unfold interrupts_on; rewrite (as_eflags _ _ _ _ _ _ _ _ _ _ K), Z.lor_spec; apply orb_true_r|].
  split; [|split].
  - eexists. split; [|split; [rewrite He; apply (as_words _ _ _ _ _ _ _ _ _ _ K)|]]; [done|]. intros X ops s.
    apply (handler_dispatches s c _ (regs u)). intros r Hr. by apply (as_regs _ _ _ _ _ _ _ _ _ _ S).
  - intros x Hx Hy. rewrite (as_mem _ _ _ _ _ _ _ _ _ _ K) by done. by apply (stub_memory u c ret after esp0 lo Hc).
  - by apply (call_returns u c ret after esp0 lo h kcs kss).
Qed.

(** ** Instance *)

(** A kernel that records what it is asked to do. *)
#[local] Instance demo_kernel : KernelOps (list (list Z)) := {
  process_exit s x := Ok ([0; x] :: s); process_fork s := Ok (7, [1] :: s); process_exec s a b c := Ok (-1, [2; a; b; c] :: s);
  monitor_print s a := Ok ([8; a] :: s); read_keyboard_char_wait s := Ok (65, [11] :: s); process_wait s a b := Ok (0, [9; a; b] :: s);
  list_dir s a := Ok (0, [7; a] :: s); getTick s := Z.of_nat (length s); video_set_mode s a := Ok ([14; a] :: s);
  video_blit s a b c := Ok (0, [15; a; b; c] :: s); video_set_palette s a b c d := Ok ([16; a; b; c; d] :: s);
  read_keyboard_char_right_now s a := Ok (1, [17; a] :: s); get_key_state s a := 1
}.

(** A program at its call of [syscall_video_set_palette(1, 2, 3, 4)]. *)
Definition demo_call : syscall := syscall_video_set_palette 1 2 3 4.
Definition demo_caller : machine := with_memory demo_user (put_words (fun _ => 0) 3217031156 [4198500; 1; 2; 3; 4]).

Lemma demo_library_call : library_call demo_caller demo_call 4198500 demo_lo demo_esp0.
Proof.
  split; try (cbn; unfold demo_lo, demo_esp0; lia).
  - destruct demo_user_state. by split.
  - repeat (apply words_cons; split; [vm_compute; reflexivity|]). by intros [].
  - repeat (apply Forall_cons; split; [by apply word_small|]). constructor.
Qed.

Lemma system_call_correct_witness :
  let k := run syscall_entry (trap demo_esp0 3221225472 8 16 (with_eip (run (trigger demo_call).1 demo_caller) 4199000)) in
  (exists ps, words (memory k) (regs k ESP) ps /\ syscall_handler [] ps = Ok (0, [[16; 1; 2; 3; 4]])) /\
  function_returned demo_caller (run (trigger demo_call).2 (run syscall_normal_exit (demo_handler k))) 4198500 42.
Proof.
  destruct (system_call_correct demo_caller demo_call 4198500 4199000 demo_esp0 demo_lo 3221225472 8 16 demo_library_call
    ltac:(unfold word; lia)) as (K1 & _ & (ps & _ & K2 & K3) & _ & K4).
  split; [exists ps; split; [exact K2|]; exact (K3 _ demo_kernel [])|]. apply (K4 (demo_handler _)).
  - apply demo_handler_keeps, K1.
  - intros x Hx. apply store32_ne. cbn in Hx. lia.
Defined.
