(* ===== verification/Tables.v ===== *)
(** The tables the processor reads, [src/src/mem/gdt.c] with [load_gdt.asm] and
    [src/src/interrupt/interrupt.c]: segment descriptors, the task segment, interrupt
    gates, and the two interrupt controllers that the kernel programs through ports. *)
From S2P Require Import Prelude.

(** ** Descriptors as the processor reads them

    A descriptor is the little-endian number of its eight bytes. *)
Definition field (r lo n : Z) : Z := r / 2 ^ lo mod 2 ^ n.
Definition d_base (r : Z) : Z := field r 16 24 + 2 ^ 24 * field r 56 8.
Definition d_limit (r : Z) : Z := field r 0 16 + 2 ^ 16 * field r 48 4.
Definition d_type (r : Z) : Z := field r 40 4.
Definition d_system (r : Z) : bool := field r 44 1 =? 0.
Definition d_dpl (r : Z) : Z := field r 45 2.
Definition d_present (r : Z) : bool := field r 47 1 =? 1.
Definition d_granular (r : Z) : bool := field r 55 1 =? 1.
(** The greatest offset in the segment. *)
Definition d_last (r : Z) : Z := if d_granular r then 4096 * d_limit r + 4095 else d_limit r.
Definition d_code (r : Z) : bool := negb (d_system r) && Z.testbit (d_type r) 3.
Definition d_data (r : Z) : bool := negb (d_system r) && negb (Z.testbit (d_type r) 3).
(** Code that is not conforming. *)
Definition d_plain_code (r : Z) : bool := d_code r && negb (Z.testbit (d_type r) 2).
(** What may be done in the segment, by bit 1 of its type. *)
Inductive access_kind : Type := Read | Write | Execute.
Definition d_allows (k : access_kind) (r : Z) : bool :=
  match k with
  | Read => d_data r || d_code r && Z.testbit (d_type r) 1
  | Write => d_data r && Z.testbit (d_type r) 1
  | Execute => d_code r
  end.

Definition g_offset (r : Z) : Z := field r 0 16 + 2 ^ 16 * field r 48 16.
Definition g_selector (r : Z) : Z := field r 16 16.
Definition g_type (r : Z) : Z := field r 40 5.

(** ** [gdt.h] *)
Definition FLAG_G_4K : Z := Z.shiftl 1 3.
Definition FLAG_D_32 : Z := Z.shiftl 1 2.
Definition DESC_P : Z := Z.shiftl 1 7.
Definition DESC_DPL_0 : Z := Z.shiftl 0 5.
Definition DESC_DPL_3 : Z := Z.shiftl 3 5.
Definition DESC_S_CODE : Z := Z.shiftl 1 4.
Definition DESC_S_DATA : Z := Z.shiftl 1 4.
Definition DESC_S_SYS : Z := Z.shiftl 0 4.
Definition DESC_TYPE_CODE : Z := 8.
Definition DESC_TYPE_DATA : Z := 2.
Definition DESC_TYPE_TSS : Z := 9.
Definition RPL0 : Z := 0.
Definition RPL3 : Z := 3.
Definition TI_GDT : Z := 0.
Definition SELECTOR_K_CODE : Z := Z.shiftl 1 3 + Z.shiftl TI_GDT 2 + RPL0.
Definition SELECTOR_K_DATA : Z := Z.shiftl 2 3 + Z.shiftl TI_GDT 2 + RPL0.
Definition SELECTOR_K_GS : Z := Z.shiftl 3 3 + Z.shiftl TI_GDT 2 + RPL0.
Definition SELECTOR_U_CODE : Z := Z.shiftl 4 3 + Z.shiftl TI_GDT 2 + RPL3.
Definition SELECTOR_U_DATA : Z := Z.shiftl 5 3 + Z.shiftl TI_GDT 2 + RPL3.
Definition GDT_ENTRIES : Z := 7.

Record gdt_entry_t : Type := mk_gdt_entry {
  limit_low : Z; gbase_low : Z; base_middle : Z; access : Z; attributes : Z; gbase_high : Z
}.
(** The bytes of the packed structure, as one number. *)
Definition gdt_raw (e : gdt_entry_t) : Z :=
  limit_low e + 2 ^ 16 * (gbase_low e + 2 ^ 16 * (base_middle e + 2 ^ 8 * (access e + 2 ^ 8 * (attributes e + 2 ^ 8 * gbase_high e)))).
Definition sizeof_gdt_entry : Z := 8.

Record tss_entry_t : Type := mk_tss {
  prev_tss : Z; esp0 : Z; ss0 : Z; esp1 : Z; ss1 : Z; esp2 : Z; ss2 : Z; cr3 : Z; tss_eip : Z; tss_eflags : Z;
  tss_eax : Z; tss_ecx : Z; tss_edx : Z; tss_ebx : Z; tss_esp : Z; tss_ebp : Z; tss_esi : Z; tss_edi : Z;
  tss_es : Z; tss_cs : Z; tss_ss : Z; tss_ds : Z; tss_fs : Z; tss_gs : Z; ldt : Z; trap : Z; iomap_base : Z
}.
(** The 26 words of the structure; [trap] and [iomap_base] share the last. *)
Definition tss_words (t : tss_entry_t) : list Z :=
  [prev_tss t; esp0 t; ss0 t; esp1 t; ss1 t; esp2 t; ss2 t; cr3 t; tss_eip t; tss_eflags t;
   tss_eax t; tss_ecx t; tss_edx t; tss_ebx t; tss_esp t; tss_ebp t; tss_esi t; tss_edi t;
   tss_es t; tss_cs t; tss_ss t; tss_ds t; tss_fs t; tss_gs t; ldt t; trap t + 2 ^ 16 * iomap_base t].
Definition sizeof_tss : Z := 104.

(** ** [gdt.c]: the static variables and the registers the file sets *)
Record gdt_state : Type := mk_gdt {
  gdt_entries : list gdt_entry_t;
  gdt_ptr_1 : Z * Z;
  tss_entry : tss_entry_t;
  gdtr : Z * Z;
  tr : Z;
  seg_cs : Z; seg_ds : Z; seg_es : Z; seg_fs : Z; seg_ss : Z; seg_gs : Z
}.
Definition with_gates (s : gdt_state) (l : list gdt_entry_t) : gdt_state :=
  mk_gdt l (gdt_ptr_1 s) (tss_entry s) (gdtr s) (tr s) (seg_cs s) (seg_ds s) (seg_es s) (seg_fs s) (seg_ss s) (seg_gs s).
Definition with_gdt_ptr (s : gdt_state) (p : Z * Z) : gdt_state :=
  mk_gdt (gdt_entries s) p (tss_entry s) (gdtr s) (tr s) (seg_cs s) (seg_ds s) (seg_es s) (seg_fs s) (seg_ss s) (seg_gs s).
Definition with_tss (s : gdt_state) (t : tss_entry_t) : gdt_state :=
  mk_gdt (gdt_entries s) (gdt_ptr_1 s) t (gdtr s) (tr s) (seg_cs s) (seg_ds s) (seg_es s) (seg_fs s) (seg_ss s) (seg_gs s).
Definition with_segments (s : gdt_state) (p : Z * Z) (cs data gs : Z) : gdt_state :=
  mk_gdt (gdt_entries s) (gdt_ptr_1 s) (tss_entry s) p (tr s) cs data data data data gs.
Definition with_tr (s : gdt_state) (l : list gdt_entry_t) (v : Z) : gdt_state :=
  mk_gdt l (gdt_ptr_1 s) (tss_entry s) (gdtr s) v (seg_cs s) (seg_ds s) (seg_es s) (seg_fs s) (seg_ss s) (seg_gs s).

(** Where the linker puts the tables. *)
Record table_addresses : Type := mk_addresses { at_gdt_entries : Z; at_tss_entry : Z; at_idt_entries : Z; at_isr : Z -> Z; at_syscall_entry : Z }.

Section GDT.
Context (link : table_addresses).

(** The entry that a selector names, through the table register. *)
Definition selected (s : gdt_state) (sel : Z) : res gdt_entry_t :=
  let '(limit, base) := gdtr s in
  if negb (base =? at_gdt_entries link) || Z.testbit sel 2 || (limit <? sel / 8 * 8 + 7) then Err Fault
  else arr_get (gdt_entries s) (sel / 8).
Definition descriptor (s : gdt_state) (sel : Z) : res Z := let! e := selected s sel in Ok (gdt_raw e).

(** The checks of a load of a segment register. *)
Definition data_loadable (s : gdt_state) (cpl sel : Z) : bool :=
  match descriptor s sel with
  | Ok r => negb (sel / 8 =? 0) && d_present r && d_data r && (Z.max cpl (sel mod 4) <=? d_dpl r)
  | Err _ => false
  end.
Definition code_loadable (s : gdt_state) (cpl sel : Z) : bool :=
  match descriptor s sel with
  | Ok r => negb (sel / 8 =? 0) && d_present r && d_plain_code r && (d_dpl r =? cpl) && (sel mod 4 <=? cpl)
  | Err _ => false
  end.

(** [gdt_set_gate]: the entry, and its store. *)
Definition gdt_gate (base limit access flags : Z) : gdt_entry_t :=
  mk_gdt_entry (Z.land limit 0xFFFF) (Z.land base 0xFFFF) (Z.land (Z.shiftr base 16) 0xFF) (u8 access)
    (Z.lor (Z.land (Z.shiftr limit 16) 0x0F) (Z.land (Z.shiftl (u8 flags) 4) 0xF0)) (Z.land (Z.shiftr base 24) 0xFF).
Definition gdt_set_gate (s : gdt_state) (num base limit access flags : Z) : res gdt_state :=
  let! l := arr_set (gdt_entries s) num (gdt_gate base limit access flags) in Ok (with_gates s l).

(** [write_tss]: [memset], and the fields that are not zero. *)
Definition write_tss (s : gdt_state) (num ss0 esp0 : Z) : res gdt_state :=
  let k_data := Z.lor SELECTOR_K_DATA RPL3 in
  let s := with_tss s (mk_tss 0 esp0 (u16 ss0) 0 0 0 0 0 0 0 0 0 0 0 0 0 0 0
    k_data (Z.lor SELECTOR_K_CODE RPL3) k_data k_data k_data k_data 0 0 sizeof_tss) in
  gdt_set_gate s num (at_tss_entry link) (sizeof_tss - 1)
    (Z.lor (Z.lor (Z.lor DESC_P DESC_DPL_0) DESC_S_SYS) DESC_TYPE_TSS) 0.

(** [load_gdt] in [load_gdt.asm]: [lgdt], the data segments, and the far jump, at privilege 0. *)
Definition load_gdt (s : gdt_state) (p : Z * Z) : res gdt_state :=
  let s := with_segments s p 0x08 0x10 0x18 in
  if data_loadable s 0 0x10 && data_loadable s 0 0x18 && code_loadable s 0 0x08 then Ok s else Err Fault.
Definition refresh_gdt (s : gdt_state) : res gdt_state := load_gdt s (gdt_ptr_1 s).

(** [refresh_tss] in [load_gdt.asm]: [ltr] takes an available task segment and marks it busy. *)
Definition refresh_tss (s : gdt_state) : res gdt_state :=
  let! e := selected s 0x30 in
  let r := gdt_raw e in
  if d_present r && d_system r && (d_type r =? 9) then
    let! l := arr_set (gdt_entries s) (0x30 / 8)
      (mk_gdt_entry (limit_low e) (gbase_low e) (base_middle e) (Z.lor (access e) 2) (attributes e) (gbase_high e)) in
    Ok (with_tr s l 0x30)
  else Err Fault.

(** [init_gdt] *)
Definition init_gdt (s : gdt_state) : res gdt_state :=
  let s := with_gdt_ptr s (sizeof_gdt_entry * GDT_ENTRIES - 1, at_gdt_entries link) in
  let code dpl := Z.lor (Z.lor (Z.lor DESC_P dpl) DESC_S_CODE) DESC_TYPE_CODE in
  let data dpl := Z.lor (Z.lor (Z.lor DESC_P dpl) DESC_S_DATA) DESC_TYPE_DATA in
  let flat := Z.lor FLAG_G_4K FLAG_D_32 in
  let! s := gdt_set_gate s 0 0 0 0 0 in
  let! s := gdt_set_gate s 1 0 0xFFFFF (code DESC_DPL_0) flat in
  let! s := gdt_set_gate s 2 0 0xFFFFF (data DESC_DPL_0) flat in
  let! s := gdt_set_gate s 3 0 0xFFFFF (data DESC_DPL_0) flat in
  let! s := gdt_set_gate s 4 0 0xBFFFF (code DESC_DPL_3) flat in
  let! s := gdt_set_gate s 5 0 0xBFFFF (data DESC_DPL_3) flat in
  let! s := write_tss s 6 0x10 0x0 in
  let! s := refresh_gdt s in
  refresh_tss s.

(** [update_tss_esp] *)
Definition update_tss_esp (s : gdt_state) (esp : Z) : gdt_state :=
  let t := tss_entry s in
  with_tss s (mk_tss (prev_tss t) esp (ss0 t) (esp1 t) (ss1 t) (esp2 t) (ss2 t) (cr3 t) (tss_eip t) (tss_eflags t)
    (tss_eax t) (tss_ecx t) (tss_edx t) (tss_ebx t) (tss_esp t) (tss_ebp t) (tss_esi t) (tss_edi t)
    (tss_es t) (tss_cs t) (tss_ss t) (tss_ds t) (tss_fs t) (tss_gs t) (ldt t) (trap t) (iomap_base t)).

(** What an interrupt in user mode takes from the task segment: the stack of privilege 0,
    from the words at 8 and 4. *)
Definition task_segment (s : gdt_state) : res (Z * Z) :=
  let! r := descriptor s (tr s) in
  if d_base r =? at_tss_entry link then Ok (d_base r, d_last r) else Err Fault.
Definition interrupt_stack (s : gdt_state) : res (Z * Z) :=
  let! (_, last) := task_segment s in
  if last <? 11 then Err Fault
  else let! ss := arr_get (tss_words (tss_entry s)) 2 in let! esp := arr_get (tss_words (tss_entry s)) 1 in
    if data_loadable s 0 (ss mod 2 ^ 16) then Ok (ss mod 2 ^ 16, esp) else Err Fault.
(** [in] and [out] of a program without I/O privilege, on a port: the bit of the port in the
    map that the halfword at 102 locates; a byte past the limit denies. *)
Definition port_allowed (s : gdt_state) (port : Z) : res bool :=
  let! (_, last) := task_segment s in
  if last <? 103 then Ok false
  else
    let! w := arr_get (tss_words (tss_entry s)) 25 in
    let at_byte := field w 16 16 + port / 8 in
    if last <? at_byte + 1 then Ok false
    else let! m := arr_get (tss_words (tss_entry s)) (at_byte / 4) in Ok (negb (Z.testbit m (8 * (at_byte mod 4) + port mod 8))).
(** A program's access at an offset of a segment: the linear address. *)
Definition linear (s : gdt_state) (k : access_kind) (cpl sel off : Z) : res Z :=
  let! r := descriptor s sel in
  if (data_loadable s cpl sel || code_loadable s cpl sel) && d_allows k r && (off <=? d_last r) then Ok (u32 (d_base r + off)) else Err Fault.
End GDT.

(** ** [interrupt.h] *)
Definition IDT_GATE_ATTR_DPL0 : Z := Z.shiftl 1 7 + Z.shiftl 0 5 + 0xE.
Definition IDT_GATE_ATTR_DPL3 : Z := Z.shiftl 1 7 + Z.shiftl 3 5 + 0xE.
Definition SYSCALL_INT_NUM : Z := 0x80.
Record idt_entry_t : Type := mk_idt_entry { ibase_low : Z; sel : Z; always0 : Z; iflags : Z; ibase_high : Z }.
Definition idt_raw (e : idt_entry_t) : Z :=
  ibase_low e + 2 ^ 16 * (sel e + 2 ^ 16 * (always0 e + 2 ^ 8 * (iflags e + 2 ^ 8 * ibase_high e))).
Definition sizeof_idt_entry : Z := 8.

(** ** The interrupt controllers (8259A)

    [pic_stage] counts the initialisation words still expected: 0 when the controller runs.
    The line with the smallest number comes first. *)
Record pic_t : Type := mk_pic { pic_stage : Z; pic_vector : Z; pic_cascade : Z; pic_mask : Z; in_service : list Z }.
(** A write to the even port (a command) or to the odd port (data).  Commands that the kernel
    does not use are outside the model. *)
Definition pic_command (p : pic_t) (v : Z) : res pic_t :=
  if Z.testbit v 4 then
    if Z.land v 0x0F =? 1 then Ok (mk_pic 1 (pic_vector p) (pic_cascade p) 0 []) else Err Fault
  else if v =? 0x20 then Ok (mk_pic (pic_stage p) (pic_vector p) (pic_cascade p) (pic_mask p) (tail (in_service p)))
  else Err Fault.
Definition pic_data (p : pic_t) (v : Z) : pic_t :=
  if pic_stage p =? 1 then mk_pic 2 (Z.land v 0xF8) (pic_cascade p) (pic_mask p) (in_service p)
  else if pic_stage p =? 2 then mk_pic 3 (pic_vector p) v (pic_mask p) (in_service p)
  else if pic_stage p =? 3 then mk_pic 0 (pic_vector p) (pic_cascade p) (pic_mask p) (in_service p)
  else mk_pic 0 (pic_vector p) (pic_cascade p) v (in_service p).
(** A request on a line: the vector, if the line is neither masked nor held back by one in
    service.  The lines in service are listed from the highest priority. *)
Definition pic_request (p : pic_t) (line : Z) : option (Z * pic_t) :=
  if (pic_stage p =? 0) && negb (Z.testbit (pic_mask p) line) && forallb (fun l => line <? l) (in_service p)
  then Some (pic_vector p + line, mk_pic 0 (pic_vector p) (pic_cascade p) (pic_mask p) (line :: in_service p)) else None.
(** A request of one of the sixteen devices: the second controller is on line 2 of the first. *)
Definition device_request (p : pic_t * pic_t) (n : Z) : option (Z * (pic_t * pic_t)) :=
  let '(master, slave) := p in
  if n <? 8 then match pic_request master n with Some (v, master) => Some (v, (master, slave)) | None => None end
  else
    match pic_request slave (n - 8), (if Z.testbit (pic_cascade master) 2 && (pic_cascade slave =? 2) then pic_request master 2 else None) with
    | Some (v, slave), Some (_, master) => Some (v, (master, slave))
    | _, _ => None
    end.

(** ** [interrupt.c]

    The handlers are the C functions that other files register: an argument.  They act on
    the whole state, so a handler can be interrupted or switch away. *)
Section IDT.
Context {M : Type} (link : table_addresses).

Record int_state : Type := mk_int {
  idt_entries : list idt_entry_t;
  interrupt_handlers : list Z;
  idt_ptr : Z * Z;
  in_irq_context : bool;
  idtr : Z * Z;
  if_flag : bool;
  pics : pic_t * pic_t;
  kernel : M
}.
Definition with_idt (s : int_state) (l : list idt_entry_t) : int_state :=
  mk_int l (interrupt_handlers s) (idt_ptr s) (in_irq_context s) (idtr s) (if_flag s) (pics s) (kernel s).
Definition with_handlers (s : int_state) (l : list Z) : int_state :=
  mk_int (idt_entries s) l (idt_ptr s) (in_irq_context s) (idtr s) (if_flag s) (pics s) (kernel s).
Definition with_irq (s : int_state) (b : bool) : int_state :=
  mk_int (idt_entries s) (interrupt_handlers s) (idt_ptr s) b (idtr s) (if_flag s) (pics s) (kernel s).
Definition with_idt_ptr (s : int_state) (p : Z * Z) : int_state :=
  mk_int (idt_entries s) (interrupt_handlers s) p (in_irq_context s) (idtr s) (if_flag s) (pics s) (kernel s).
Definition with_if (s : int_state) (b : bool) : int_state :=
  mk_int (idt_entries s) (interrupt_handlers s) (idt_ptr s) (in_irq_context s) (idtr s) b (pics s) (kernel s).
Definition with_pics (s : int_state) (p : pic_t * pic_t) : int_state :=
  mk_int (idt_entries s) (interrupt_handlers s) (idt_ptr s) (in_irq_context s) (idtr s) (if_flag s) p (kernel s).

(** [outb] to the ports of the controllers. *)
Definition outb (s : int_state) (port val : Z) : res int_state :=
  let '(master, slave) := pics s in
  if port =? 0x20 then let! m := pic_command master val in Ok (with_pics s (m, slave))
  else if port =? 0x21 then Ok (with_pics s (pic_data master val, slave))
  else if port =? 0xA0 then let! sl := pic_command slave val in Ok (with_pics s (master, sl))
  else if port =? 0xA1 then Ok (with_pics s (master, pic_data slave val))
  else Err Fault.

(** [init_pic] *)
Definition init_pic (s : int_state) : res int_state :=
  let! s := outb s 0x20 0x11 in
  let! s := outb s 0x21 0x20 in
  let! s := outb s 0x21 0x04 in
  let! s := outb s 0x21 0x01 in
  let! s := outb s 0xA0 0x11 in
  let! s := outb s 0xA1 0x28 in
  let! s := outb s 0xA1 0x02 in
  let! s := outb s 0xA1 0x01 in
  let! s := outb s 0x21 0x0 in
  outb s 0xA1 0x0.

(** [set_idt_gate]: the entry, and its store. *)
Definition idt_gate (base sel attrs : Z) : idt_entry_t :=
  mk_idt_entry (Z.land base 0xFFFF) (u16 sel) 0 (u8 attrs) (Z.land (Z.shiftr base 16) 0xFFFF).
Definition set_idt_gate (s : int_state) (num base sel attrs : Z) : res int_state :=
  let! l := arr_set (idt_entries s) (u8 num) (idt_gate base sel attrs) in Ok (with_idt s l).

(** [init_idt]; the 48 gates of [isr0] to [isr47] are written one by one in the source.
    [reload_idt] is [lidt], and the end is [sti]. *)
Definition init_idt (s : int_state) : res int_state :=
  let s := with_idt_ptr s (sizeof_idt_entry * 256 - 1, at_idt_entries link) in
  let s := with_idt s (replicate 256 (mk_idt_entry 0 0 0 0 0)) in
  let s := with_handlers s (replicate 256 0) in
  let! s := for_loop 48 0 (fun n s => set_idt_gate s n (at_isr link n) SELECTOR_K_CODE IDT_GATE_ATTR_DPL0) s in
  let! s := set_idt_gate s SYSCALL_INT_NUM (at_syscall_entry link) SELECTOR_K_CODE IDT_GATE_ATTR_DPL3 in
  let s := mk_int (idt_entries s) (interrupt_handlers s) (idt_ptr s) (in_irq_context s) (idt_ptr s) (if_flag s) (pics s) (kernel s) in
  let! s := init_pic s in
  Ok (with_if s true).

(** [register_interrupt_handler] *)
Definition register_interrupt_handler (s : int_state) (int_num handler : Z) : res int_state :=
  let! l := arr_set (interrupt_handlers s) int_num handler in Ok (with_handlers s l).

Definition enable_interrupt (s : int_state) : int_state := with_if s true.
Definition disable_interrupt (s : int_state) : int_state := with_if s false.
Definition is_in_irq_context (s : int_state) : bool := in_irq_context s.

(** [isr_handler]: [call f] is the function at the address [f] on the saved registers. *)
Definition isr_handler {R : Type} (call : Z -> R -> int_state -> res int_state) (int_num : Z) (regs : R) (s : int_state) : res int_state :=
  let! s :=
    if (int_num >=? 32) && (int_num <? SYSCALL_INT_NUM) then
      let! s := if int_num >=? 40 then outb s 0xA0 0x20 else Ok s in
      let! s := outb s 0x20 0x20 in
      Ok (with_irq s true)
    else Ok s in
  let! f := arr_get (interrupt_handlers s) int_num in
  let! s := if negb (f =? 0) then call f regs s else Err Panic in
  Ok (if in_irq_context s then with_irq s false else s).

(** The processor takes an interrupt: where it goes on, in which code segment and with which
    flag; [from] is the privilege of an [int] instruction, 0 for a device. *)
Definition enter (s : int_state) (vector from : Z) : res (Z * Z * bool) :=
  let '(limit, base) := idtr s in
  if negb (base =? at_idt_entries link) || (limit <? vector * 8 + 7) then Err Fault
  else
    let! e := arr_get (idt_entries s) vector in
    let r := idt_raw e in
    if d_present r && (from <=? d_dpl r) then
      if g_type r =? 14 then Ok (g_offset r, g_selector r, false)
      else if g_type r =? 15 then Ok (g_offset r, g_selector r, if_flag s) else Err Fault
    else Err Fault.
End IDT.
Arguments int_state : clear implicits.
