(* ===== verification/TablesSpec.v ===== *)
(** What the tables of [Tables] mean to the processor: the decoding of descriptors and
    gates, the segments of kernel and user programs, and the way of an interrupt. *)
From S2P Require Import Prelude Tables.

(** ** Fields of packed structures *)
Lemma field_low a b n lo k : 0 <= lo -> 0 <= k -> lo + k <= n -> field (a + 2 ^ n * b) lo k = field a lo k.
Proof.
  intros. unfold field. replace (2 ^ n * b) with (2 ^ (n - lo - k) * b * 2 ^ k * 2 ^ lo).
  - rewrite Z.div_add by lia. by rewrite Z.mod_add by lia.
  - replace n with (n - lo - k + k + lo) at 2 by lia. rewrite !Z.pow_add_r by lia. ring.
Qed.
Lemma field_high a b n lo k : 0 <= a < 2 ^ n -> 0 <= n <= lo -> field (a + 2 ^ n * b) lo k = field b (lo - n) k.
Proof.
  intros Ha Hn. unfold field. replace (2 ^ lo) with (2 ^ n * 2 ^ (lo - n)) by (rewrite <- Z.pow_add_r by lia; f_equal; lia).
  rewrite <- Z.div_div by lia. rewrite (Z.mul_comm (2 ^ n) b), Z.div_add by lia. by rewrite (Z.div_small a) by lia.
Qed.
Lemma field_all a n : 0 <= a < 2 ^ n -> field a 0 n = a.
Proof. intros. unfold field. rewrite Z.pow_0_r, Z.div_1_r. by apply Z.mod_small. Qed.
Lemma field_range r lo n : 0 <= n -> 0 <= field r lo n < 2 ^ n.
Proof. intros. unfold field. apply Z.mod_pos_bound. lia. Qed.
Lemma land_field x lo n : 0 <= lo -> 0 <= n -> Z.land (Z.shiftr x lo) (Z.ones n) = field x lo n.
Proof. intros. rewrite Z.land_ones, Z.shiftr_div_pow2 by lia. done. Qed.
Lemma land_field_0 x n : 0 <= n -> Z.land x (Z.ones n) = field x 0 n.
Proof. intros. rewrite <- land_field by lia. by rewrite Z.shiftr_0_r. Qed.
(** Two adjacent fields are one. *)
Lemma field_join x lo n k : 0 <= lo -> 0 <= n -> 0 <= k -> field x lo n + 2 ^ n * field x (lo + n) k = field x lo (n + k).
Proof.
  intros. unfold field. rewrite (Z.pow_add_r 2 lo n), (Z.pow_add_r 2 n k), <- Z.div_div by lia.
  rewrite (Z.rem_mul_r (x / 2 ^ lo)) by lia. done.
Qed.

Lemma lor_add a b n : 0 <= n -> 0 <= a < 2 ^ n -> Z.lor a (Z.shiftl b n) = a + 2 ^ n * b.
Proof.
  intros Hn Ha. assert (Z.land a (Z.shiftl b n) = 0) as H0.
  { apply Z.bits_inj'. intros k Hk. rewrite Z.land_spec, Z.bits_0, <- (Z.mod_small a (2 ^ n)) by lia.
    destruct (Z.ltb_spec k n); [rewrite Z.shiftl_spec_low by lia; apply andb_false_r|by rewrite Z.mod_pow2_bits_high by lia]. }
  rewrite <- Z.lxor_lor, <- Z.add_nocarry_lxor, Z.shiftl_mul_pow2 by done. lia.
Qed.

Lemma d_base_parts r : d_base r = field r 16 16 + 2 ^ 16 * field r 32 8 + 2 ^ 24 * field r 56 8.
Proof. unfold d_base. change 24 with (16 + 8) at 1. by rewrite <- field_join by lia. Qed.
Lemma split_in_two x n k : 0 <= n -> 0 <= k -> 0 <= x < 2 ^ (n + k) -> field x 0 n + 2 ^ n * field x n k = x.
Proof. intros. etrans; [by apply (field_join x 0 n k)|by apply field_all]. Qed.
Lemma split_in_three x : 0 <= x < 2 ^ 32 -> field x 0 16 + 2 ^ 16 * field x 16 8 + 2 ^ 24 * field x 24 8 = x.
Proof. intros. pose proof (field_join x 0 16 8 ltac:(lia) ltac:(lia) ltac:(lia)) as E. change (0 + 16) with 16 in E. rewrite E. apply (split_in_two x 24 8); lia. Qed.
(** A field of a whole field. *)
Lemma field_fields x lo n k : 0 <= n -> k = n -> field (field x lo n) 0 k = field x lo n.
Proof. intros ? ->. apply field_all. by apply field_range. Qed.

(** [gdt_gate] and [idt_gate] put each field where the processor looks for it. *)
Ltac fields := repeat match goal with |- context [field (?a + 2 ^ ?n * ?b) ?lo ?k] =>
  first [rewrite (field_low a b n lo k) by lia
        |rewrite (field_high a b n lo k) by lia; let d := eval vm_compute in (lo - n) in change (lo - n) with d] end.
Ltac range x lo n := pose proof (field_range x lo n ltac:(lia)).
Lemma gdt_gate_decodes base limit access flags : 0 <= base < 2 ^ 32 -> 0 <= limit < 2 ^ 20 -> 0 <= access < 256 -> 0 <= flags < 16 ->
  let r := gdt_raw (gdt_gate base limit access flags) in
  d_base r = base /\ d_limit r = limit /\ field r 40 8 = access /\ field r 52 4 = flags.
Proof.
  intros Hb Hl Ha Hf r. rewrite d_base_parts. subst r. unfold d_limit, gdt_raw, gdt_gate; cbn [limit_low gbase_low base_middle Tables.access attributes gbase_high].
  change 0xFFFF with (Z.ones 16). change 0xFF with (Z.ones 8). change 0x0F with (Z.ones 4). change 0xF0 with (Z.shiftl (Z.ones 4) 4).
  rewrite <- Z.shiftl_land, !land_field, !land_field_0, !u8_small by lia. rewrite (field_all flags) by lia.
  range limit 0 16. range limit 16 4. range base 0 16. range base 16 8. range base 24 8.
  rewrite lor_add by lia. fields. rewrite !(field_all access), !(field_all flags), !field_fields by lia.
  split; [by apply split_in_three|]. split; [apply (split_in_two limit 16 4); lia|done].
Qed.
Lemma idt_gate_decodes base sel attrs : 0 <= base < 2 ^ 32 -> 0 <= sel < 2 ^ 16 -> 0 <= attrs < 256 ->
  let r := idt_raw (idt_gate base sel attrs) in g_offset r = base /\ g_selector r = sel /\ field r 40 8 = attrs.
Proof.
  intros Hb Hs Ha r. subst r. unfold g_offset, g_selector, idt_raw, idt_gate; cbn [ibase_low Tables.sel always0 iflags ibase_high].
  change 0xFFFF with (Z.ones 16). rewrite land_field, land_field_0, u8_small, u16_small by lia. range base 0 16. range base 16 16. fields.
  rewrite !(field_all attrs), !(field_all sel), !field_fields by lia. split; [apply (split_in_two base 16 16); lia|done].
Qed.
(** The bits of an access byte or of the attributes. *)
Lemma sub_field r i k lo n : 0 <= lo <= i -> 0 <= k -> i + k <= lo + n -> field r i k = field (field r lo n) (i - lo) k.
Proof.
  intros. unfold field at 2. unfold field. replace (2 ^ i) with (2 ^ lo * 2 ^ (i - lo)) by (rewrite <- Z.pow_add_r by lia; f_equal; lia).
  rewrite <- Z.div_div by lia. set (y := r / 2 ^ lo).
  rewrite (Z.div_mod y (2 ^ n)) at 1 by lia. rewrite Z.add_comm. pose proof (field_low (y mod 2 ^ n) (y / 2 ^ n) n (i - lo) k). unfold field in *.
  apply H2; lia.
Qed.

(** ** The segments *)
Section GDT.
Context (link : table_addresses).

Definition final_entries : list gdt_entry_t :=
  [gdt_gate 0 0 0 0; gdt_gate 0 0xFFFFF 0x98 0xC; gdt_gate 0 0xFFFFF 0x92 0xC; gdt_gate 0 0xFFFFF 0x92 0xC;
   gdt_gate 0 0xBFFFF 0xF8 0xC; gdt_gate 0 0xBFFFF 0xF2 0xC; gdt_gate (at_tss_entry link) 103 0x8B 0].
Definition final_gdt : gdt_state :=
  mk_gdt final_entries (55, at_gdt_entries link)
    (mk_tss 0 0 0x10 0 0 0 0 0 0 0 0 0 0 0 0 0 0 0 0x13 0x0B 0x13 0x13 0x13 0x13 0 0 104)
    (55, at_gdt_entries link) 0x30 0x08 0x10 0x10 0x10 0x10 0x18.

Lemma selected_final s n : gdtr s = (55, at_gdt_entries link) -> Z.testbit n 2 = false -> n / 8 < 7 ->
  selected link s n = arr_get (gdt_entries s) (n / 8).
Proof. intros E Ht Hn. unfold selected. rewrite E, Z.eqb_refl, Ht. cbn [negb orb].
  destruct (Z.ltb_spec 55 (n / 8 * 8 + 7)); [lia|done]. Qed.

(** Before the registers are loaded. *)
Definition made_entries : list gdt_entry_t := <[6%nat := gdt_gate (at_tss_entry link) 103 0x89 0]> final_entries.
Definition made_gdt (s : gdt_state) : gdt_state :=
  mk_gdt made_entries (55, at_gdt_entries link) (tss_entry final_gdt) (gdtr s) (tr s) (seg_cs s) (seg_ds s) (seg_es s) (seg_fs s) (seg_ss s) (seg_gs s).

Lemma init_gdt_makes s : length (gdt_entries s) = 7%nat -> init_gdt link s = let! s := refresh_gdt link (made_gdt s) in refresh_tss link s.
Proof.
  intros Hl. destruct s as [l p t g r cs ds es fs ss gs]. cbn in Hl.
  destruct l as [|e0 [|e1 [|e2 [|e3 [|e4 [|e5 [|e6 [|]]]]]]]]; try discriminate. reflexivity.
Qed.

Lemma refresh_gdt_ok s : refresh_gdt link (made_gdt s) = Ok (with_segments (made_gdt s) (55, at_gdt_entries link) 0x08 0x10 0x18).
Proof. unfold refresh_gdt, load_gdt, data_loadable, code_loadable, descriptor. rewrite !selected_final by done. reflexivity. Qed.

(** A task segment's descriptor. *)
Lemma tss_descriptor base acc : 0 <= base < 2 ^ 32 -> 0 <= acc < 256 -> let r := gdt_raw (gdt_gate base 103 acc 0) in
  d_base r = base /\ d_last r = 103 /\ field r 40 8 = acc /\ d_granular r = false.
Proof.
  intros Hb Ha r. destruct (gdt_gate_decodes base 103 acc 0 Hb) as (E1 & E2 & E3 & E4); [lia..|]. fold r in E1, E2, E3, E4.
  assert (d_granular r = false) as E. { unfold d_granular. by rewrite (sub_field r 55 1 52 4), E4 by lia. }
  split; [done|]. split; [|done]. unfold d_last. by rewrite E, E2.
Qed.

Lemma init_gdt_ok s : length (gdt_entries s) = 7%nat -> 0 <= at_tss_entry link < 2 ^ 32 -> init_gdt link s = Ok final_gdt.
Proof.
  intros Hl Ha. rewrite init_gdt_makes, refresh_gdt_ok by done. cbn [res_bind]. unfold refresh_tss. rewrite selected_final by done.
  change (arr_get _ _) with (Ok (gdt_gate (at_tss_entry link) 103 0x89 0)). cbn [res_bind].
  destruct (tss_descriptor (at_tss_entry link) 0x89 Ha) as (_ & _ & E & _); [lia|]. set (r := gdt_raw _) in *.
  unfold d_present, d_system, d_type. rewrite (sub_field r 47 1 40 8), (sub_field r 44 1 40 8), (sub_field r 40 4 40 8), E by lia. reflexivity.
Qed.

Lemma task_raw acc : 0 <= at_tss_entry link < 2 ^ 32 -> 0 <= acc < 256 -> d_system (gdt_raw (gdt_gate (at_tss_entry link) 103 acc 0)) = (field acc 4 1 =? 0).
Proof.
  intros Ha Hc. destruct (tss_descriptor (at_tss_entry link) acc Ha Hc) as (_ & _ & E & _). unfold d_system.
  by rewrite (sub_field _ 44 1 40 8), E by lia.
Qed.

(** The tables after [init_gdt], whatever the stack pointer in the task segment. *)
Definition ready_gdt (s : gdt_state) : Prop :=
  gdt_entries s = final_entries /\ gdtr s = (55, at_gdt_entries link) /\ tr s = 0x30 /\ 0 <= at_tss_entry link < 2 ^ 32.

Lemma ready_descriptor s n : ready_gdt s -> Z.testbit n 2 = false -> 0 <= n / 8 < 7 ->
  descriptor link s n = Ok (gdt_raw (nth (Z.to_nat (n / 8)) final_entries (gdt_gate 0 0 0 0))).
Proof.
  intros (El & Eg & _ & _) Ht Hn. unfold descriptor. rewrite selected_final, El by (done || lia).
  assert (n / 8 = 0 \/ n / 8 = 1 \/ n / 8 = 2 \/ n / 8 = 3 \/ n / 8 = 4 \/ n / 8 = 5 \/ n / 8 = 6) as Hc by lia.
  by destruct Hc as [E|[E|[E|[E|[E|[E|E]]]]]]; rewrite E.
Qed.

Lemma descriptor_bounds s n : ready_gdt s -> 0 <= n -> is_ok (descriptor link s n) = true -> Z.testbit n 2 = false /\ 0 <= n / 8 < 7.
Proof.
  intros (El & Eg & _ & _) Hn. unfold descriptor, selected. rewrite Eg, Z.eqb_refl, El. cbn [negb orb].
  destruct (Z.testbit n 2); [done|]. cbn [orb]. destruct (Z.ltb_spec 55 (n / 8 * 8 + 7)); [done|]. intros _. split; [done|]. zdiv.
Qed.

(** What a program in user mode can load. *)
Lemma user_loads s n : ready_gdt s -> 0 <= n -> data_loadable link s 3 n || code_loadable link s 3 n = true -> n / 8 = 4 \/ n / 8 = 5.
Proof.
  intros Hs Hn Hl. pose proof (descriptor_bounds s n Hs Hn) as Hb. pose proof (task_raw 0x8B (proj2 (proj2 (proj2 Hs)))) as Ht.
  unfold data_loadable, code_loadable in Hl. destruct (descriptor link s n) as [r|] eqn:E; [|done]. destruct Hb as [Hb Hr]; [done|].
  rewrite (ready_descriptor s n Hs Hb Hr) in E. assert (gdt_raw (nth (Z.to_nat (n / 8)) final_entries (gdt_gate 0 0 0 0)) = r) as <- by congruence. clear E. pose proof (Z.le_max_l 3 (n mod 4)).
  assert (n / 8 = 0 \/ n / 8 = 1 \/ n / 8 = 2 \/ n / 8 = 3 \/ n / 8 = 4 \/ n / 8 = 5 \/ n / 8 = 6) as Hc by lia.
  destruct Hc as [E|[E|[E|[E|[E|[E|E]]]]]]; [| | | |by left|by right|]; rewrite E in Hl; exfalso.
  - done.
  - apply orb_true_iff in Hl as [Hl|Hl]; repeat (apply andb_true_iff in Hl as [Hl ?]); done.
  - apply orb_true_iff in Hl as [Hl|Hl]; repeat (apply andb_true_iff in Hl as [Hl ?]); [|done]. change (d_dpl _) with 0 in *. lia.
  - apply orb_true_iff in Hl as [Hl|Hl]; repeat (apply andb_true_iff in Hl as [Hl ?]); [|done]. change (d_dpl _) with 0 in *. lia.
  - change (nth _ _ _) with (gdt_gate (at_tss_entry link) 103 0x8B 0) in Hl. unfold d_data, d_plain_code, d_code in Hl. rewrite Ht in Hl by lia.
    cbn in Hl. by rewrite !andb_false_r in Hl.
Qed.

Lemma linear_flat s k cpl n off last : ready_gdt s -> Z.testbit n 2 = false -> 0 <= n / 8 < 7 ->
  let r := gdt_raw (nth (Z.to_nat (n / 8)) final_entries (gdt_gate 0 0 0 0)) in
  d_base r = 0 -> d_last r = last -> 0 <= off < 2 ^ 32 ->
  linear link s k cpl n off = if (data_loadable link s cpl n || code_loadable link s cpl n) && d_allows k r && (off <=? last) then Ok off else Err Fault.
Proof.
  intros Hs Hb Hr r Eb <- Ho. unfold linear. rewrite ready_descriptor by done. cbn [res_bind]. fold r. rewrite Eb.
  by rewrite Z.add_0_l, u32_small by lia.
Qed.

Lemma linear_open s k cpl n off last : ready_gdt s -> Z.testbit n 2 = false -> 0 <= n / 8 < 7 ->
  let r := gdt_raw (nth (Z.to_nat (n / 8)) final_entries (gdt_gate 0 0 0 0)) in
  d_base r = 0 -> d_last r = last -> 0 <= off < 2 ^ 32 -> data_loadable link s cpl n || code_loadable link s cpl n = true -> d_allows k r = true -> off <= last ->
  linear link s k cpl n off = Ok off.
Proof.
  intros Hs Hb Hr r Eb El Ho Ec Ek Hle. rewrite (linear_flat s k cpl n off last) by done. fold r. rewrite Ec, Ek. by rewrite (proj2 (Z.leb_le _ _)).
Qed.

Lemma interrupt_stack_ready s esp : ready_gdt s -> tss_entry s = tss_entry final_gdt ->
  interrupt_stack link (update_tss_esp s esp) = Ok (SELECTOR_K_DATA, esp) /\ forall port, 0 <= port -> port_allowed link (update_tss_esp s esp) port = Ok false.
Proof.
  intros Hs Et. assert (ready_gdt (update_tss_esp s esp)) as Hs' by exact Hs.
  assert (task_segment link (update_tss_esp s esp) = Ok (at_tss_entry link, 103)) as Es.
  { unfold task_segment. destruct Hs as (H1 & H2 & H3 & H4). change (tr (update_tss_esp s esp)) with (tr s). rewrite H3, ready_descriptor by done. cbn [res_bind].
    destruct (tss_descriptor (at_tss_entry link) 0x8B H4) as (E1 & E2 & _); [lia|].
    change (nth _ _ _) with (gdt_gate (at_tss_entry link) 103 0x8B 0). by rewrite E1, E2, Z.eqb_refl. }
  split.
  - unfold interrupt_stack. rewrite Es. cbn [res_bind]. unfold update_tss_esp at 1 2. rewrite Et. cbn [tss_entry with_tss]. 
    change (103 <? 11) with false. cbn iota. change (arr_get (tss_words _) 2) with (@Ok Z 16). change (arr_get (tss_words _) 1) with (@Ok Z esp). cbn [res_bind].
    change (16 mod 2 ^ 16) with 16. assert (data_loadable link (update_tss_esp s esp) 0 16 = true) as ->; [|done].
    unfold data_loadable. by rewrite (ready_descriptor _ 16) by done.
  - intros port Hp. unfold port_allowed. rewrite Es. cbn [res_bind]. change (103 <? 103) with false. cbn iota. unfold update_tss_esp. rewrite Et.
    change (arr_get (tss_words _) 25) with (@Ok Z (2 ^ 16 * 104)). cbn [res_bind]. change (field (2 ^ 16 * 104) 16 16) with 104.
    pose proof (Z.div_pos port 8 Hp). destruct (Z.ltb_spec 103 (104 + port / 8 + 1)); [done|lia].
Qed.

#[local] Ltac loadable := first [done|lia|unfold data_loadable, code_loadable; rewrite ready_descriptor by done; reflexivity].

(** C25: [init_gdt] succeeds, and the segments are flat: an address of the kernel is its own linear
    address, through every segment register it has loaded, and the kernel can fetch, read and write.  A
    program in user mode reaches the addresses below [0xC0000000] with its two selectors, as
    they are; no selector that it could load reaches an address of the kernel.  An interrupt in user
    mode finds the kernel's stack segment and the pointer that [update_tss_esp] has stored, and
    no port is open to user mode. *)
Theorem segments_correct (s : gdt_state) (Hl : length (gdt_entries s) = 7%nat) (Ha : 0 <= at_tss_entry link < 2 ^ 32) :
  exists s', init_gdt link s = Ok s' /\
  (forall off, 0 <= off < 2 ^ 32 -> linear link s' Execute 0 (seg_cs s') off = Ok off /\
    forall n, n ∈ [seg_ds s'; seg_es s'; seg_fs s'; seg_ss s'; seg_gs s'] -> linear link s' Read 0 n off = Ok off /\ linear link s' Write 0 n off = Ok off) /\
  (forall off, 0 <= off < 0xC0000000 -> linear link s' Execute 3 SELECTOR_U_CODE off = Ok off /\
    linear link s' Read 3 SELECTOR_U_DATA off = Ok off /\ linear link s' Write 3 SELECTOR_U_DATA off = Ok off) /\
  (forall k n off a, 0 <= n -> 0 <= off < 2 ^ 32 -> linear link s' k 3 n off = Ok a -> a = off /\ a < 0xC0000000) /\
  (forall esp, interrupt_stack link (update_tss_esp s' esp) = Ok (SELECTOR_K_DATA, esp) /\
    forall port, 0 <= port -> port_allowed link (update_tss_esp s' esp) port = Ok false).
Proof.
  exists final_gdt. split; [by apply init_gdt_ok|]. assert (ready_gdt final_gdt) as Hs by done. split; [|split; [|split]].
  - intros off Ho. split; [|intros n Hn; assert (n = 16 \/ n = 24) as [-> | ->] by set_solver; split]; apply (linear_open _ _ _ _ _ 0xFFFFFFFF); loadable.
  - intros off Ho. repeat split; apply (linear_open _ _ _ _ _ 0xBFFFFFFF); loadable.
  - intros k n off a Hn Ho E. assert (data_loadable link final_gdt 3 n || code_loadable link final_gdt 3 n = true) as El.
    { unfold linear in E. destruct (descriptor link final_gdt n); [|done]. cbn [res_bind] in E. by destruct (_ || _). }
    unfold linear in E. pose proof (descriptor_bounds final_gdt n Hs Hn) as Hb. destruct (descriptor link final_gdt n) as [r|] eqn:Er; [|done]. destruct Hb as [Hb _]; [done|].
    assert (linear link final_gdt k 3 n off = Ok a) as E' by (unfold linear; by rewrite Er). revert E'.
    destruct (user_loads final_gdt n Hs Hn El) as [Hc|Hc];
      rewrite (linear_flat _ _ _ _ _ 0xBFFFFFFF) by (rewrite ?Hc; done || lia); destruct (Z.leb_spec off 0xBFFFFFFF); rewrite ?andb_false_r; [|done| |done];
      (destruct (_ && _); [|done]); intros [= <-]; lia.
  - intros esp. by apply interrupt_stack_ready.
Qed.
End GDT.

(** ** Interrupts *)
Section IDT.
Context {M : Type} (link : table_addresses).
Notation int_state := (int_state M).

(** A controller that is programmed and serves no line. *)
Definition idle_pic (vector cascade : Z) : pic_t := mk_pic 0 vector cascade 0 [].
Definition idle_pics : pic_t * pic_t := (idle_pic 32 4, idle_pic 40 2).

Lemma init_pic_ok (s : int_state) : init_pic s = Ok (with_pics s idle_pics).
Proof. destruct s as [? ? ? ? ? ? [[? ? ? ? ?] [? ? ? ? ?]] ?]. reflexivity. Qed.

Definition gate_at (n : Z) : idt_entry_t :=
  if decide (0 <= n < 48) then idt_gate (at_isr link n) SELECTOR_K_CODE IDT_GATE_ATTR_DPL0
  else if decide (n = SYSCALL_INT_NUM) then idt_gate (at_syscall_entry link) SELECTOR_K_CODE IDT_GATE_ATTR_DPL3
  else mk_idt_entry 0 0 0 0 0.
Definition final_idt : list idt_entry_t := (fun n => gate_at (Z.of_nat n)) <$> seq 0 256.

Lemma set_idt_gate_ok (s : int_state) n base sel attrs : length (idt_entries s) = 256%nat -> 0 <= n < 256 ->
  set_idt_gate s n base sel attrs = Ok (with_idt s (<[Z.to_nat n := idt_gate base sel attrs]> (idt_entries s))).
Proof. intros Hl Hn. unfold set_idt_gate. rewrite u8_small by lia. by rewrite arr_set_ok by (rewrite Hl; lia). Qed.

Lemma insert_tabulate {A} (g : nat -> A) n k x : (k < n)%nat -> <[k := x]> (g <$> seq 0 n) = (fun i => if decide (i = k) then x else g i) <$> seq 0 n.
Proof.
  intros Hk. apply list_eq. intros i. rewrite list_lookup_insert. rewrite !list_lookup_fmap, length_fmap, length_seq.
  destruct (decide (k = i /\ (k < n)%nat)) as [[<- _]|Hi].
  - rewrite lookup_seq_lt by done. cbn. by rewrite decide_True.
  - destruct (seq 0 n !! i) as [j|] eqn:E; [|done]. apply lookup_seq in E as [-> Hj]. cbn. rewrite decide_False by lia. done.
Qed.
Lemma tabulate_ext {A} (g h : nat -> A) n : (forall i, (i < n)%nat -> g i = h i) -> g <$> seq 0 n = h <$> seq 0 n.
Proof. intros E. apply list_fmap_ext. intros i x Hx. apply lookup_seq in Hx as [-> Hx]. by apply E. Qed.

Definition final_int (s : int_state) : int_state :=
  mk_int final_idt (replicate 256 0) (2047, at_idt_entries link) (in_irq_context s) (2047, at_idt_entries link) true idle_pics (kernel s).

Lemma init_idt_ok (s : int_state) : init_idt link s = Ok (final_int s).
Proof.
  unfold init_idt. set (s0 := with_handlers _ _).
  set (g := fun k => with_idt s0 ((fun n => if decide (Z.of_nat n < Z.of_nat k) then gate_at (Z.of_nat n) else mk_idt_entry 0 0 0 0 0) <$> seq 0 256)).
  replace s0 with (g 0%nat) at 1 by (unfold g, s0, with_handlers, with_idt, with_idt_ptr; cbn; f_equal).
  rewrite (for_loop_eq g); cbn [res_bind].
  - rewrite set_idt_gate_ok by done. cbn [res_bind]. rewrite init_pic_ok. cbn [res_bind]. unfold final_int, g, s0; cbn. by do 2 f_equal.
  - intros k Hk. rewrite set_idt_gate_ok by (first [done|lia|by unfold g; cbn]). f_equal. unfold g, with_idt; cbn -[decide seq]. f_equal.
    rewrite insert_tabulate by lia. apply tabulate_ext. intros i Hi. rewrite Z.add_0_l, Nat2Z.id. unfold gate_at. repeat case_decide; try lia; by subst.
Qed.

Lemma final_gate n : 0 <= n < 256 -> arr_get final_idt n = Ok (gate_at n).
Proof.
  intros Hn. apply arr_get_Some; [lia|]. unfold final_idt. rewrite list_lookup_fmap, lookup_seq_lt by lia. cbn. by rewrite Z2Nat.id by lia.
Qed.

Lemma enter_gate (s : int_state) n from : idt_entries s = final_idt -> idtr s = (2047, at_idt_entries link) -> 0 <= n < 256 ->
  enter link s n from = (let r := idt_raw (gate_at n) in if d_present r && (from <=? d_dpl r) then
      if g_type r =? 14 then Ok (g_offset r, g_selector r, false) else if g_type r =? 15 then Ok (g_offset r, g_selector r, if_flag s) else Err Fault
    else Err Fault).
Proof.
  intros E Er Hn. unfold enter. rewrite Er, Z.eqb_refl, E, final_gate by done. cbn [negb orb]. destruct (Z.ltb_spec 2047 (n * 8 + 7)); [lia|done].
Qed.

(** What the attributes of a gate say. *)
Lemma gate_attrs base attrs : 0 <= base < 2 ^ 32 -> 0 <= attrs < 256 -> let r := idt_raw (idt_gate base SELECTOR_K_CODE attrs) in
  g_offset r = base /\ g_selector r = SELECTOR_K_CODE /\ d_present r = (field attrs 7 1 =? 1) /\ d_dpl r = field attrs 5 2 /\ g_type r = field attrs 0 5.
Proof.
  intros Hb Ha r. destruct (idt_gate_decodes base SELECTOR_K_CODE attrs Hb) as (E1 & E2 & E3); [done|done|]. fold r in E1, E2, E3.
  unfold d_present, d_dpl, g_type. by rewrite (sub_field r 47 1 40 8), (sub_field r 45 2 40 8), (sub_field r 40 5 40 8), E3 by lia.
Qed.

Lemma request_ok n : 0 <= n < 16 -> exists p, device_request idle_pics n = Some (32 + n, p) /\
  forall s : int_state, pics s = p ->
    (let! s := if 32 + n >=? 40 then outb s 0xA0 0x20 else Ok s in outb s 0x20 0x20) = Ok (with_pics s idle_pics).
Proof.
  intros Hn. unfold device_request, idle_pics. destruct (Z.ltb_spec n 8) as [H|H]; unfold pic_request; cbn [pic_stage pic_mask in_service idle_pic forallb].
  - rewrite Z.testbit_0_l. cbn [negb andb Z.eqb]. eexists. split; [reflexivity|]. intros s Hp. destruct (Z.geb_spec (32 + n) 40); [lia|]. unfold outb. cbn [res_bind]. by rewrite Hp.
  - rewrite Z.testbit_0_l. cbn [negb andb Z.eqb]. eexists. split; [do 2 f_equal; cbn; lia|]. intros s Hp. destruct (Z.geb_spec (32 + n) 40); [|lia]. destruct s. cbn in Hp. by subst.
Qed.

(** C24: after [init_idt] a device's interrupt reaches the function registered for it, once.  The gate of each
    vector below 48 leads to its entry in the kernel's code with interrupts off, is closed to [int] in user
    mode, and only [int 0x80] is open to it, to [syscall_entry]; every other vector faults.  A request on
    any of the sixteen lines is delivered at vector 32 and its number.  [isr_handler] first
    ends the interrupt at the controllers, so the function runs with them ready for the next request, and clears
    [in_irq_context] afterwards; a line without a function is a panic.  (The comment at line 112 of
    [interrupt.c] says that the end of interrupt is due after the interrupt has been handled; the code
    sends it before it calls the function, and that is what is stated.) *)
Theorem device_interrupt_correct (s : int_state) (Hw : forall n, 0 <= at_isr link n < 2 ^ 32) (Hs : 0 <= at_syscall_entry link < 2 ^ 32) :
  exists s', init_idt link s = Ok s' /\ if_flag s' = true /\
  (forall n, 0 <= n < 48 -> enter link s' n 0 = Ok (at_isr link n, SELECTOR_K_CODE, false) /\ enter link s' n 3 = Err Fault) /\
  enter link s' SYSCALL_INT_NUM 3 = Ok (at_syscall_entry link, SELECTOR_K_CODE, false) /\
  (forall n from, 48 <= n < 256 -> n <> SYSCALL_INT_NUM -> enter link s' n from = Err Fault) /\
  forall s1 n f, pics s1 = pics s' -> 0 <= n < 16 -> interrupt_handlers s1 !! Z.to_nat (32 + n) = Some f ->
    exists p, device_request (pics s1) n = Some (32 + n, p) /\
    forall R (call : Z -> R -> int_state -> res int_state) regs,
      isr_handler call (32 + n) regs (with_pics s1 p) =
        if f =? 0 then Err Panic else let! s2 := call f regs (with_irq s1 true) in Ok (with_irq s2 false).
Proof.
  exists (final_int s). split; [apply init_idt_ok|]. split; [done|]. split; [|split; [|split]].
  - intros n Hn. rewrite !enter_gate by (done || lia). unfold gate_at. rewrite decide_True by lia.
    destruct (gate_attrs (at_isr link n) IDT_GATE_ATTR_DPL0) as (E1 & E2 & E3 & E4 & E5); [done|done|]. by rewrite E1, E2, E3, E4, E5.
  - rewrite enter_gate by done. cbv zeta. change (gate_at SYSCALL_INT_NUM) with (idt_gate (at_syscall_entry link) SELECTOR_K_CODE IDT_GATE_ATTR_DPL3).
    destruct (gate_attrs (at_syscall_entry link) IDT_GATE_ATTR_DPL3) as (E1 & E2 & E3 & E4 & E5); [done|done|]. by rewrite E1, E2, E3, E4, E5.
  - intros n from Hn H8. rewrite enter_gate by (done || lia). unfold gate_at. by rewrite !decide_False by lia.
  - intros s1 n f Hp Hn Hf. cbn in Hp. destruct (request_ok n Hn) as (p & E & He). exists p. rewrite Hp. split; [done|]. intros R call regs.
    unfold isr_handler. assert ((32 + n >=? 32) && (32 + n <? SYSCALL_INT_NUM) = true) as ->
      by (apply andb_true_iff; split; [apply Z.geb_le|apply Z.ltb_lt]; unfold SYSCALL_INT_NUM; lia).
    specialize (He (with_pics s1 p) eq_refl). destruct (if 32 + n >=? 40 then _ else _) as [s2|]; [|done]. cbn [res_bind] in *. rewrite He. cbn [res_bind].
    assert (with_irq (with_pics (with_pics s1 p) idle_pics) true = with_irq s1 true) as -> by (destruct s1; cbn in *; by subst).
    change (interrupt_handlers (with_irq s1 true)) with (interrupt_handlers s1). rewrite (arr_get_Some _ _ f) by (done || lia). cbn [res_bind].
    destruct (f =? 0); [done|]. cbn [negb]. destruct (call f regs _) as [s3|]; [|done]. cbn [res_bind]. destruct s3 as [? ? ? [] ? ? ? ?]; done.
Qed.
End IDT.

(** ** An instance *)
Definition demo_link : table_addresses := mk_addresses 0xC0010000 0xC0010100 0xC0011000 (fun n => 0xC0020000 + (n mod 256) * 8) 0xC0030000.
Definition demo_gdt : gdt_state :=
  mk_gdt (replicate 7 (mk_gdt_entry 1 2 3 4 5 6)) (0, 0) (tss_entry (final_gdt demo_link)) (0, 0) 0 0 0 0 0 0 0.
Definition demo_int : int_state nat := mk_int [] [] (0, 0) false (0, 0) false (mk_pic 0 8 0 0xFF [3], mk_pic 2 0x70 0 0 []) 0%nat.

Lemma segments_correct_witness : exists s', init_gdt demo_link demo_gdt = Ok s' /\
  linear demo_link s' Write 3 SELECTOR_U_DATA 0x8048000 = Ok 0x8048000 /\ interrupt_stack demo_link (update_tss_esp s' 0xE0003000) = Ok (SELECTOR_K_DATA, 0xE0003000).
Proof.
  destruct (segments_correct demo_link demo_gdt) as (s' & E & _ & Hu & _ & Hi); [reflexivity|by vm_compute|].
  exists s'. split; [exact E|]. split; [apply (Hu 0x8048000); lia|apply Hi].
Defined.

Definition demo_running : int_state nat := with_handlers (final_int demo_link demo_int) (<[33%nat := 0xC0040000]> (replicate 256 0)).

(** The keyboard, line 1: its function counts. *)
Lemma device_interrupt_correct_witness : exists s' s1, init_idt demo_link demo_int = Ok s' /\ register_interrupt_handler s' 33 0xC0040000 = Ok s1 /\
  exists p, device_request (pics s1) 1 = Some (33, p) /\
  isr_handler (fun _ (_ : unit) s => Ok (mk_int (idt_entries s) (interrupt_handlers s) (idt_ptr s) (in_irq_context s) (idtr s) (if_flag s) (pics s) (S (kernel s))))
    33 tt (with_pics s1 p) = Ok (mk_int (idt_entries s1) (interrupt_handlers s1) (idt_ptr s1) false (idtr s1) (if_flag s1) (pics s1) 1%nat).
Proof.
  destruct (device_interrupt_correct demo_link demo_int) as (s' & E & _ & _ & _ & _ & Hd);
    [intros n; cbn; pose proof (Z.mod_pos_bound n 256); lia|by vm_compute|].
  assert (s' = final_int demo_link demo_int) as -> by (rewrite init_idt_ok in E; congruence).
  exists (final_int demo_link demo_int), demo_running.
  split; [exact E|]. split; [by vm_compute|].
  destruct (Hd demo_running 1 0xC0040000 eq_refl ltac:(lia) ltac:(by vm_compute)) as (p & Ep & Hc).
  exists p. split; [exact Ep|]. apply Hc.
Defined.
