(* ===== verification/Containers.v ===== *)
(** The interface between processes and the containers of the kernel heap: hash tables
    at addresses, lists of elements, and [kmalloc] itself.  [Maps] is the simplest
    instance; the laws are those that [HashTableSpec] and [LinkedList] prove of the
    implementations. *)
From S2P Require Import Prelude.

Class Containers (H : Type) : Type := {
  (** [hash_table_init], [_get], [_get_first], [_put], [_remove], [_destroy], the field
      [size], and the values in the order of the buckets. *)
  tb_init : H -> Z -> res H;
  tb_get : H -> Z -> Z -> res Z;
  tb_get_first : H -> Z -> res Z;
  tb_put : H -> Z -> Z -> Z -> res H;
  tb_remove : H -> Z -> Z -> res (Z * H);
  tb_destroy : H -> Z -> res H;
  tb_size : H -> Z -> res Z;
  tb_values : H -> Z -> res (list Z);
  (** [linked_list_append_ele] *)
  ls_append : H -> Z -> Z -> res H;
  (** [kmalloc] and [kfree] of a block of a client. *)
  ct_malloc : H -> Z -> res (Z * H);
  ct_free : H -> Z -> res H;
  (** The blocks of the clients with their sizes, the tables and the lists, by address. *)
  ct_holds : H -> gmap Z Z -> gmap Z (gmap Z Z) -> gmap Z (list Z) -> Prop;
  (** Room for that many more blocks, and the largest table. *)
  ct_room : H -> nat -> Prop;
  ct_max : Z
}.

(** The ranges [a, a + n) and [b, b + k) have no byte in common. *)
Definition apart (a n b k : Z) : Prop := a + n <= b \/ b + k <= a.
(** [sizeof(hash_table_t)], [sizeof(linked_list_t)] *)
Definition sizeof_table : Z := 12.
Definition sizeof_list : Z := 12.
(** A block that nothing in use reaches into. *)
Record clear_of (p b : Z) (L : gmap Z Z) (Ms : gmap Z (gmap Z Z)) (Ls : gmap Z (list Z)) : Prop := {
  cl_block q n : L !! q = Some n -> apart q n p b;
  cl_table t : is_Some (Ms !! t) -> apart t sizeof_table p b;
  cl_list a : is_Some (Ls !! a) -> apart a sizeof_list p b
}.

Class ContainersLaws (H : Type) `{Containers H} : Prop := {
  tb_init_law h L Ms Ls t n : ct_holds h L Ms Ls -> Ms !! t = None -> ct_room h (S n) ->
    tb_init h t = Err Panic \/ exists h', tb_init h t = Ok h' /\ ct_holds h' L (<[t := ∅]> Ms) Ls /\ ct_room h' n;
  tb_get_law h L Ms Ls t M k : ct_holds h L Ms Ls -> Ms !! t = Some M -> tb_get h t k = Ok (default 0 (M !! k));
  tb_first_law h L Ms Ls t M : ct_holds h L Ms Ls -> Ms !! t = Some M -> M <> ∅ ->
    exists k v, M !! k = Some v /\ tb_get_first h t = Ok v;
  tb_put_law h L Ms Ls t M k v n : ct_holds h L Ms Ls -> Ms !! t = Some M -> ct_room h (S n) -> Z.of_nat (size M) < ct_max ->
    tb_put h t k v = Err Panic \/
    exists h', tb_put h t k v = Ok h' /\ ct_holds h' L (<[t := <[k := v]> M]> Ms) Ls /\ ct_room h' n;
  tb_remove_law h L Ms Ls t M k n : ct_holds h L Ms Ls -> Ms !! t = Some M -> ct_room h n ->
    exists h', tb_remove h t k = Ok (default 0 (M !! k), h') /\ ct_holds h' L (<[t := delete k M]> Ms) Ls /\ ct_room h' n;
  tb_destroy_law h L Ms Ls t M n : ct_holds h L Ms Ls -> Ms !! t = Some M -> ct_room h n ->
    exists h', tb_destroy h t = Ok h' /\ ct_holds h' L (delete t Ms) Ls /\ ct_room h' n;
  tb_size_law h L Ms Ls t M : ct_holds h L Ms Ls -> Ms !! t = Some M -> tb_size h t = Ok (Z.of_nat (size M));
  tb_values_law h L Ms Ls t M : ct_holds h L Ms Ls -> Ms !! t = Some M ->
    exists l, tb_values h t = Ok l /\ l ≡ₚ (map_to_list M).*2;
  ls_append_law h L Ms Ls a l v n : ct_holds h L Ms Ls -> Ls !! a = Some l -> ct_room h (S n) -> Z.of_nat (length l) < ct_max ->
    ls_append h a v = Err Panic \/
    exists h', ls_append h a v = Ok h' /\ ct_holds h' L Ms (<[a := l ++ [v]]> Ls) /\ ct_room h' n;
  ct_malloc_law h L Ms Ls b n : ct_holds h L Ms Ls -> 0 < b <= 4096 -> ct_room h (S n) ->
    ct_malloc h b = Err Panic \/
    exists p h', ct_malloc h b = Ok (p, h') /\ 0 < p /\ L !! p = None /\ clear_of p b L Ms Ls /\ ct_holds h' (<[p := b]> L) Ms Ls /\ ct_room h' n;
  ct_room_law h n : ct_room h (S n) -> ct_room h n;
  ct_free_law h L Ms Ls p n : ct_holds h L Ms Ls -> is_Some (L !! p) -> ct_room h n ->
    exists h', ct_free h p = Ok h' /\ ct_holds h' (delete p L) Ms Ls /\ ct_room h' n
}.

(** ** Refusals *)

(** The heap panics for want of memory: an operation that asks it for a block, of a store
    that is in order and on the arguments it is made for, does. *)
Inductive heap_fails {H : Type} `{Containers H} : Prop :=
  | refused_block h L Ms Ls b n : ct_holds h L Ms Ls -> ct_room h (S n) -> 0 < b <= 4096 -> ct_malloc h b = Err Panic -> heap_fails
  | refused_table h L Ms Ls t n : ct_holds h L Ms Ls -> ct_room h (S n) -> Ms !! t = None -> tb_init h t = Err Panic -> heap_fails
  | refused_entry h L Ms Ls t M k v n : ct_holds h L Ms Ls -> ct_room h (S n) -> Ms !! t = Some M -> Z.of_nat (size M) < ct_max ->
      tb_put h t k v = Err Panic -> heap_fails
  | refused_element h L Ms Ls a l v n : ct_holds h L Ms Ls -> ct_room h (S n) -> Ls !! a = Some l -> Z.of_nat (length l) < ct_max ->
      ls_append h a v = Err Panic -> heap_fails.

(** ** Finite maps *)
Module Maps.
Record store : Type := mk_store { blocks : gmap Z Z; tables : gmap Z (gmap Z Z); lists : gmap Z (list Z) }.

Definition get_table (h : store) (t : Z) : res (gmap Z Z) := match tables h !! t with Some M => Ok M | None => Err Fault end.
Definition set_table (h : store) (t : Z) (M : gmap Z Z) : store := mk_store (blocks h) (<[t := M]> (tables h)) (lists h).
(** An address above all that is in use. *)
Definition above (l : list (Z * Z)) : Z := foldr (fun '(a, n) x => Z.max (a + n) x) 0 l.
Definition in_use (h : store) : list (Z * Z) :=
  ((fun kv => (kv.1, Z.max 1 kv.2)) <$> map_to_list (blocks h)) ++ ((fun kv => (kv.1, sizeof_table)) <$> map_to_list (tables h)) ++
  ((fun kv => (kv.1, sizeof_list)) <$> map_to_list (lists h)).
Definition fresh_block (h : store) : Z := 16 + above (in_use h).

#[export] Instance containers : Containers store := {
  tb_init h t := Ok (set_table h t ∅);
  tb_get h t k := let! M := get_table h t in Ok (default 0 (M !! k));
  tb_get_first h t := let! M := get_table h t in Ok (match map_to_list M with [] => 0 | (_, v) :: _ => v end);
  tb_put h t k v := let! M := get_table h t in Ok (set_table h t (<[k := v]> M));
  tb_remove h t k := let! M := get_table h t in Ok (default 0 (M !! k), set_table h t (delete k M));
  tb_destroy h t := let! _ := get_table h t in Ok (mk_store (blocks h) (delete t (tables h)) (lists h));
  tb_size h t := let! M := get_table h t in Ok (Z.of_nat (size M));
  tb_values h t := let! M := get_table h t in Ok (map_to_list M).*2;
  ls_append h a v :=
    match lists h !! a with Some l => Ok (mk_store (blocks h) (tables h) (<[a := l ++ [v]]> (lists h))) | None => Err Fault end;
  ct_malloc h b := let p := fresh_block h in Ok (p, mk_store (<[p := b]> (blocks h)) (tables h) (lists h));
  ct_free h p := if decide (is_Some (blocks h !! p)) then Ok (mk_store (delete p (blocks h)) (tables h) (lists h)) else Err Fault;
  ct_holds h L Ms Ls := h = mk_store L Ms Ls;
  ct_room _ _ := True;
  ct_max := 1000000
}.

Lemma above_elem l a n : (a, n) ∈ l -> a + n <= above l.
Proof.
  induction l as [|[b k] l IH]; [by intros ?%not_elem_of_nil|]. cbn [above foldr]. intros [[= <- <-]|Hin]%elem_of_cons; [lia|]. specialize (IH Hin). unfold above in *. lia.
Qed.
Lemma above_nonneg l : 0 <= above l.
Proof. induction l as [|[a n] l IH]; cbn [above foldr] in *; unfold above in *; lia. Qed.

Lemma fresh_clear (h : store) b : 0 < fresh_block h /\ blocks h !! fresh_block h = None /\
  clear_of (fresh_block h) b (blocks h) (tables h) (lists h).
Proof.
  pose proof (above_nonneg (in_use h)) as Hp.
  assert (forall q n, blocks h !! q = Some n -> q + Z.max 1 n <= above (in_use h)) as Hb.
  { intros q n Hq. apply (above_elem _ q). apply elem_of_app. left. apply list_elem_of_fmap. exists (q, n). split; [done|]. by apply elem_of_map_to_list. }
  unfold fresh_block. split; [lia|]. split; [destruct (blocks h !! _) as [n|] eqn:E; [specialize (Hb _ _ E); lia|done]|]. split.
  - intros q n Hq. specialize (Hb q n Hq). left. unfold fresh_block. lia.
  - intros t [M Ht]. assert (t + sizeof_table <= above (in_use h)); [|unfold apart; lia]. apply above_elem, elem_of_app. right. apply elem_of_app. left.
    apply list_elem_of_fmap. exists (t, M). split; [done|]. by apply elem_of_map_to_list.
  - intros a [l Hl]. assert (a + sizeof_list <= above (in_use h)); [|unfold apart; lia]. apply above_elem, elem_of_app. right. apply elem_of_app. right.
    apply list_elem_of_fmap. exists (a, l). split; [done|]. by apply elem_of_map_to_list.
Qed.

#[export] Instance laws : ContainersLaws store.
Proof.
  split; intros; cbn in *; subst; unfold get_table, set_table; cbn; repeat match goal with E : _ !! _ = Some _ |- _ => rewrite E end; cbn;
    try (by (right; eexists)); try (by eexists); try done.
  - destruct (map_to_list M) as [|[k v] l] eqn:E; [by apply map_to_list_empty_iff in E|].
    exists k, v. split; [|done]. apply elem_of_map_to_list. rewrite E. by left.
  - right. destruct (fresh_clear (mk_store L Ms Ls) b) as (? & ? & ?). by eexists _, _.
  - rewrite decide_True by done. by eexists.
Qed.

(** The maps never refuse. *)
Lemma maps_hold : ~ heap_fails (H := store).
Proof.
  intros [? ? ? ? ? ? _ _ _ E|? ? ? ? ? ? _ _ _ E|h L Ms Ls t M k v n E1 _ E2 _ E|h L Ms Ls a l v n E1 _ E2 _ E]; cbn in *; try done;
    subst; cbn in *; unfold get_table in *; cbn in *; by rewrite E2 in E.
Qed.
End Maps.
