(* ===== verification/Process.v ===== *)
(** The life of a process: waiting for a child and exiting, in [src/src/task/process.c],
    with the parts of [scheduler.c] they use.  Process control blocks are a store by
    address, their hash tables are at their places in the block, and the scheduler is
    that of [Sched].  An operation that gives up the processor ends there; the rest
    of [process_wait] after the thread runs again is [process_wait_resumed]. *)
From S2P Require Import Prelude BitMap LinkedList Sched Memory Page Containers.

(** ** Data *)

(** [enum process_status] *)
Inductive process_status : Type := PROCESS_NORMAL | PROCESS_EXIT | PROCESS_EXIT_ZOMBIE.

(** [pcb_t]; pointers are addresses.  The three hash tables of a block at [p] are at
    [threads_at p], [children_at p] and [exit_children_at p]. *)
Record pcb_t : Type := mk_pcb {
  pid : Z;
  parent : Z;
  pstatus : process_status;
  user_thread_stack_indexes : bitmap_t;
  is_kernel_process : bool;
  exit_code : Z;
  exit_wait_queue : Z;
  wait_any_exit_queue : Z;
  waiting_threads_count : Z;
  page_directory_entries : Z;
  plock : Z
}.
Definition threads_at (p : Z) : Z := p + 44.
Definition children_at (p : Z) : Z := p + 80.
Definition exit_children_at (p : Z) : Z := p + 92.

Definition with_parent (c : pcb_t) (x : Z) : pcb_t :=
  mk_pcb (pid c) x (pstatus c) (user_thread_stack_indexes c) (is_kernel_process c) (exit_code c)
    (exit_wait_queue c) (wait_any_exit_queue c) (waiting_threads_count c) (page_directory_entries c) (plock c).
Definition with_exit (c : pcb_t) (st : process_status) (code : Z) : pcb_t :=
  mk_pcb (pid c) (parent c) st (user_thread_stack_indexes c) (is_kernel_process c) code
    (exit_wait_queue c) (wait_any_exit_queue c) (waiting_threads_count c) (page_directory_entries c) (plock c).
Definition with_indexes (c : pcb_t) (b : bitmap_t) : pcb_t :=
  mk_pcb (pid c) (parent c) (pstatus c) b (is_kernel_process c) (exit_code c)
    (exit_wait_queue c) (wait_any_exit_queue c) (waiting_threads_count c) (page_directory_entries c) (plock c).
Definition with_waiters (c : pcb_t) (own any : Z) : pcb_t :=
  mk_pcb (pid c) (parent c) (pstatus c) (user_thread_stack_indexes c) (is_kernel_process c) (exit_code c)
    own any (waiting_threads_count c) (page_directory_entries c) (plock c).
Definition with_count (c : pcb_t) (n : Z) : pcb_t :=
  mk_pcb (pid c) (parent c) (pstatus c) (user_thread_stack_indexes c) (is_kernel_process c) (exit_code c)
    (exit_wait_queue c) (wait_any_exit_queue c) n (page_directory_entries c) (plock c).
Definition with_plock (c : pcb_t) (l : Z) : pcb_t :=
  mk_pcb (pid c) (parent c) (pstatus c) (user_thread_stack_indexes c) (is_kernel_process c) (exit_code c)
    (exit_wait_queue c) (wait_any_exit_queue c) (waiting_threads_count c) (page_directory_entries c) l.

(** [wait_node_t], on the stack of the thread that waits. *)
Record wait_node_t : Type := mk_wait { task : Z; target_pid : Z; wnext : Z }.

(** The fields of a thread that the scheduler does not use. *)
Record thread_more : Type := mk_more { thread_id : Z; user_stack_index : Z }.

(** The address of [dead_processes]. *)
Definition dead_processes : Z := 1.

(** [thread->process = p] *)
Definition with_process (t : tcb_t) (p : Z) : tcb_t :=
  mk_tcb (status t) (priority t) (ticks t) (need_reschedule t) p (preempt_count t) (kernel_stack t) (crt_queue t) (crt_node_ptr t).

Section PROCESS.
Context {H : Type} `{Containers H}.

Record pstate : Type := mk_pstate {
  p_sched : sched;
  p_tabs : H;
  p_procs : gmap Z pcb_t;
  p_threads : gmap Z thread_more;
  p_waits : gmap Z wait_node_t;
  p_mem : mem;
  p_vm : vm;
  p_init : Z
}.
Definition with_sched (s : pstate) (x : sched) : pstate :=
  mk_pstate x (p_tabs s) (p_procs s) (p_threads s) (p_waits s) (p_mem s) (p_vm s) (p_init s).
Definition with_tabs (s : pstate) (x : H) : pstate :=
  mk_pstate (p_sched s) x (p_procs s) (p_threads s) (p_waits s) (p_mem s) (p_vm s) (p_init s).
Definition with_procs (s : pstate) (x : gmap Z pcb_t) : pstate :=
  mk_pstate (p_sched s) (p_tabs s) x (p_threads s) (p_waits s) (p_mem s) (p_vm s) (p_init s).
Definition with_waits (s : pstate) (x : gmap Z wait_node_t) : pstate :=
  mk_pstate (p_sched s) (p_tabs s) (p_procs s) (p_threads s) x (p_mem s) (p_vm s) (p_init s).
Definition with_pmem (s : pstate) (x : mem) : pstate :=
  mk_pstate (p_sched s) (p_tabs s) (p_procs s) (p_threads s) (p_waits s) x (p_vm s) (p_init s).
Definition with_vm (s : pstate) (x : vm) : pstate :=
  mk_pstate (p_sched s) (p_tabs s) (p_procs s) (p_threads s) (p_waits s) (p_mem s) x (p_init s).

(** ** Access *)
Definition get_pcb (s : pstate) (p : Z) : res pcb_t := match p_procs s !! p with Some c => Ok c | None => Err Fault end.
Definition set_pcb (s : pstate) (p : Z) (c : pcb_t) : pstate := with_procs s (<[p := c]> (p_procs s)).
Definition upd_pcb (s : pstate) (p : Z) (f : pcb_t -> pcb_t) : res pstate := let! c := get_pcb s p in Ok (set_pcb s p (f c)).
Definition get_more (s : pstate) (t : Z) : res thread_more := match p_threads s !! t with Some c => Ok c | None => Err Fault end.
Definition get_wait (s : pstate) (a : Z) : res wait_node_t := match p_waits s !! a with Some w => Ok w | None => Err Fault end.

(** Operations of the scheduler and on the tables. *)
Definition on_sched (s : pstate) (f : sched -> res sched) : res pstate := let! x := f (p_sched s) in Ok (with_sched s x).
Definition put (s : pstate) (t k v : Z) : res pstate := let! h := tb_put (p_tabs s) t k v in Ok (with_tabs s h).
Definition remove (s : pstate) (t k : Z) : res (Z * pstate) := let! (v, h) := tb_remove (p_tabs s) t k in Ok (v, with_tabs s h).
Definition destroy (s : pstate) (t : Z) : res pstate := let! h := tb_destroy (p_tabs s) t in Ok (with_tabs s h).

(** [yieldlock_lock(&process->lock)], [yieldlock_unlock(&process->lock)] *)
Definition lock_process (s : pstate) (p : Z) : res pstate :=
  let! c := get_pcb s p in
  let! l := yieldlock_lock (plock c) in
  Ok (set_pcb s p (with_plock c l)).
Definition unlock_process (s : pstate) (p : Z) : res pstate :=
  upd_pcb s p (fun c => with_plock c (yieldlock_unlock (plock c))).

(** ** [scheduler.c] *)

(** [get_crt_process] *)
Definition get_crt_process (s : pstate) : res Z :=
  let! t := get_crt_thread (p_sched s) in
  let! c := get_tcb (p_sched s) t in
  assert! negb (process c =? 0) in Ok (process c).

(** [get_init_process] *)
Definition get_init_process (s : pstate) : res Z := assert! negb (p_init s =? 0) in Ok (p_init s).

(** [add_dead_process] *)
Definition add_dead_process (s : pstate) (p : Z) : res pstate :=
  let! s := on_sched s (fun x => let! l := yieldlock_lock (dead_resource_lock x) in Ok (with_dead_lock x l)) in
  let! h := ls_append (p_tabs s) dead_processes p in
  let s := with_tabs s h in
  let! s := on_sched s (fun x => cond_var_notify x dead_cv) in
  on_sched s (fun x => Ok (with_dead_lock x (yieldlock_unlock (dead_resource_lock x)))).

(** ** [process_wait] *)

(** Where a round of the loop ends: the function returns, or the thread has given up
    the processor with the local variable [counted_waiter] as shown. *)
Inductive wait_out : Type :=
  | Returned (r : Z)
  | Waits (counted_waiter : bool).

(** [if(counted_waiter) { Assert(...); process->waiting_threads_count--; }] *)
Definition uncount (s : pstate) (process : Z) (counted_waiter : bool) : res pstate :=
  if counted_waiter then
    let! c := get_pcb s process in
    assert! waiting_threads_count c >? 0 in
    Ok (set_pcb s process (with_count c (u32 (waiting_threads_count c - 1))))
  else Ok s.

Definition no_child (s : pstate) (process : Z) (counted_waiter : bool) : res (wait_out * pstate) :=
  let! s := uncount s process counted_waiter in
  let! s := unlock_process s process in
  Ok (Returned (-1), s).

(** The child that has exited, taken out of the table; [0] for none. *)
Definition take_exited (s : pstate) (process pid_ : Z) : res (Z * pstate) :=
  let exit_children := exit_children_at process in
  let! n := tb_size (p_tabs s) exit_children in
  if n >? 0 then
    if pid_ =? 0 then
      let! child := tb_get_first (p_tabs s) exit_children in
      assert! negb (child =? 0) in
      let! c := get_pcb s child in
      let! (child, s) := remove s exit_children (pid c) in
      assert! negb (child =? 0) in
      Ok (child, s)
    else remove s exit_children pid_
  else Ok (0, s).

(** The wait node goes to the head of a queue, and the thread stops to run. *)
Definition enqueue_wait (s : pstate) (process pid_ my_node : Z) (counted_waiter : bool) : res (bool * pstate) :=
  let! s :=
    if counted_waiter then Ok s
    else upd_pcb s process (fun c => with_count c (u32 (waiting_threads_count c + 1))) in
  let! w := get_wait s my_node in
  let! s :=
    if pid_ =? 0 then
      let! c := get_pcb s process in
      let s := with_waits s (<[my_node := mk_wait (task w) (target_pid w) (wait_any_exit_queue c)]> (p_waits s)) in
      Ok (set_pcb s process (with_waiters c (exit_wait_queue c) my_node))
    else if pid_ >? 0 then
      let! wait_child := tb_get (p_tabs s) (children_at process) pid_ in
      let! s := lock_process s wait_child in
      let! c := get_pcb s wait_child in
      let s := with_waits s (<[my_node := mk_wait (task w) (target_pid w) (exit_wait_queue c)]> (p_waits s)) in
      let s := set_pcb s wait_child (with_waiters c my_node (wait_any_exit_queue c)) in
      unlock_process s wait_child
    else Ok s in
  Ok (true, s).

(** The end of the function, with the child found. *)
Definition reap (s : pstate) (process child status : Z) (counted_waiter : bool) : res (wait_out * pstate) :=
  assert! negb (child =? 0) in
  let! c := get_pcb s child in
  let! (removed, s) := remove s (children_at process) (pid c) in
  assert! removed =? child in
  let s := if negb (status =? 0) then with_pmem s (store32 (p_mem s) status (u32 (exit_code c))) else s in
  let! s := uncount s process counted_waiter in
  let! s := unlock_process s process in
  let! s := add_dead_process s child in
  Ok (Returned 0, s).

(** A round of the loop, with the lock held; a round that does not return ends at the
    switch of [schedule_thread_yield]. *)
Definition wait_round (s : pstate) (process pid_ status my_node : Z) (counted_waiter in_queue : bool)
    : res (wait_out * pstate) :=
  let! n := tb_size (p_tabs s) (children_at process) in
  if n =? 0 then no_child s process counted_waiter
  else
    let! known :=
      if pid_ >? 0 then let! c := tb_get (p_tabs s) (children_at process) pid_ in Ok (negb (c =? 0)) else Ok true in
    if negb known then no_child s process counted_waiter
    else
      let! (child, s) := take_exited s process pid_ in
      if negb (child =? 0) then reap s process child status counted_waiter
      else
        let! (counted_waiter, s) :=
          if in_queue then Ok (counted_waiter, s) else enqueue_wait s process pid_ my_node counted_waiter in
        let! s := on_sched s schedule_mark_thread_block in
        let! s := unlock_process s process in
        let! s := on_sched s schedule_thread_yield in
        Ok (Waits counted_waiter, s).

(** [process_wait] up to its first switch; [my_node] is the address of the local
    variable, [status] that of the result. *)
Definition process_wait (s : pstate) (pid_ status my_node : Z) : res (wait_out * pstate) :=
  assert! pid_ >=? 0 in
  let! process := get_crt_process s in
  let! thread_node := get_crt_thread_node (p_sched s) in
  let! s := lock_process s process in
  let s := with_waits s (<[my_node := mk_wait thread_node pid_ 0]> (p_waits s)) in
  wait_round s process pid_ status my_node false false.

(** The thread runs again: the end of [schedule_thread_yield], and the next round. *)
Definition process_wait_resumed (s : pstate) (process pid_ status my_node : Z) (counted_waiter init_status : bool)
    : res (wait_out * pstate) :=
  let s := with_sched s (interrupt_restore (p_sched s) init_status) in
  let! s := lock_process s process in
  wait_round s process pid_ status my_node counted_waiter false.

(** ** [process_exit] *)

(** The body of the loops of [clear_crt_process_other_thread_locked]. *)
Definition bury_thread (s : sched) (crt_thread iter_thread : Z) : res sched :=
  if iter_thread =? crt_thread then Ok s
  else
    let! s := remove_thread_from_current_queue s iter_thread in
    let! c := get_tcb s iter_thread in
    let! s := add_dead_tasks s (crt_node_ptr c) in
    let! c := get_tcb s iter_thread in
    Ok (set_tcb s iter_thread (with_status c TASK_DEAD)).
Fixpoint bury_threads (s : sched) (crt_thread : Z) (l : list Z) : res sched :=
  match l with
  | [] => Ok s
  | t :: l => let! s := bury_thread s crt_thread t in bury_threads s crt_thread l
  end.

(** [clear_crt_process_other_thread_locked] *)
Definition clear_crt_process_other_thread_locked (s : pstate) : res pstate :=
  let! crt_process := get_crt_process s in
  let! crt_thread := get_crt_thread (p_sched s) in
  let! l := tb_values (p_tabs s) (threads_at crt_process) in
  let! s := on_sched s (fun x => bury_threads x crt_thread l) in
  let! s := destroy s (threads_at crt_process) in
  let! h := tb_init (p_tabs s) (threads_at crt_process) in
  let s := with_tabs s h in
  let! m := get_more s crt_thread in
  let! s := put s (threads_at crt_process) (thread_id m) crt_thread in
  let! c := get_pcb s crt_process in
  let! b := bitmap_clear (user_thread_stack_indexes c) in
  Ok (set_pcb s crt_process (with_indexes c b)).

(** [release_crt_process_resources_locked] *)
Definition release_crt_process_resources_locked (s : pstate) : res pstate :=
  let! process := get_crt_process s in
  let! s := destroy s (threads_at process) in
  let! s := destroy s (exit_children_at process) in
  let! s := destroy s (children_at process) in
  let! c := get_pcb s process in
  let _ := bitmap_destroy (user_thread_stack_indexes c) in
  let! v := release_user_space_pages (p_vm s) in
  Ok (with_vm s v).

(** The two loops that give the children to [init]: [zombies] says which. *)
Fixpoint adopt (fuel : nat) (zombies : bool) (s : pstate) (process init_process : Z) : res pstate :=
  match fuel with
  | O => Err NoFuel
  | S fuel =>
      let table := if zombies then exit_children_at process else children_at process in
      let! n := tb_size (p_tabs s) table in
      if n >? 0 then
        let! child := tb_get_first (p_tabs s) table in
        assert! negb (child =? 0) in
        let! c := get_pcb s child in
        let! (child, s) := remove s table (pid c) in
        assert! negb (child =? 0) in
        let! s := upd_pcb s child (fun c => with_parent c init_process) in
        let! c := get_pcb s child in
        let! s := put s (children_at init_process) (pid c) child in
        let! s := if zombies then put s (exit_children_at init_process) (pid c) child else Ok s in
        adopt fuel zombies s process init_process
      else Ok s
  end.
(** One round for each child, and the last test. *)
Definition adopt_all (zombies : bool) (s : pstate) (process init_process : Z) : res pstate :=
  let! n := tb_size (p_tabs s) (if zombies then exit_children_at process else children_at process) in
  adopt (S (Z.to_nat n)) zombies s process init_process.

(** The loops that wake the threads of a queue; [any] says which queue of the block. *)
Definition queue_head (any : bool) (c : pcb_t) : Z := if any then wait_any_exit_queue c else exit_wait_queue c.
Definition set_queue_head (any : bool) (c : pcb_t) (a : Z) : pcb_t :=
  if any then with_waiters c (exit_wait_queue c) a else with_waiters c a (wait_any_exit_queue c).
Fixpoint wake_all (fuel : nat) (any : bool) (s : pstate) (p : Z) : res pstate :=
  match fuel with
  | O => Err NoFuel
  | S fuel =>
      let! c := get_pcb s p in
      let a := queue_head any c in
      if a =? 0 then Ok s
      else
        let! w := get_wait s a in
        assert! target_pid w =? (if any then 0 else pid c) in
        let! s := on_sched s (fun x => add_thread_node_to_schedule x (task w)) in
        let! s := upd_pcb s p (fun c => set_queue_head any c (wnext w)) in
        wake_all fuel any s p
  end.

(** The parts of [process_exit]: the children go to [init], ... *)
Definition hand_over (wfuel : nat) (s : pstate) (process init_process : Z) : res pstate :=
  let! s := lock_process s init_process in
  let! s := lock_process s process in
  let! s := adopt_all false s process init_process in
  let! s := adopt_all true s process init_process in
  let! s := wake_all wfuel true s init_process in
  let! s := unlock_process s process in
  unlock_process s init_process.

(** ... the process ends, ... *)
Definition end_process (s : pstate) (process thread code : Z) : res pstate :=
  let! s := lock_process s process in
  let! m := get_more s thread in
  let! (removed_thread, s) := remove s (threads_at process) (thread_id m) in
  assert! removed_thread =? thread in
  let! s := upd_pcb s process (fun c => with_exit c PROCESS_EXIT code) in
  let! s := release_crt_process_resources_locked s in
  let! t := get_tcb (p_sched s) thread in
  let s := with_sched s (set_tcb (p_sched s) thread (with_process t 0)) in
  unlock_process s process.

(** ... and its parent hears of it. *)
Definition tell_parent (wfuel : nat) (s : pstate) (process parent : Z) : res pstate :=
  let! s := lock_process s parent in
  let! s := lock_process s process in
  let! c := get_pcb s process in
  let! s := put s (exit_children_at parent) (pid c) process in
  let! s := wake_all wfuel false s process in
  let! s := wake_all wfuel true s parent in
  let! s := unlock_process s process in
  unlock_process s parent.

(** [process_exit], up to the switch of [schedule_thread_exit]; [wfuel] bounds the
    length of a queue. *)
Definition process_exit (wfuel : nat) (s : pstate) (code : Z) : res pstate :=
  let! process := get_crt_process s in
  let! thread := get_crt_thread (p_sched s) in
  let! c := get_pcb s process in
  let parent := parent c in
  assert! negb (parent =? 0) in
  let! init_process := get_init_process s in
  assert! negb (process =? init_process) in
  let s := with_sched s (snd (interrupt_disable (p_sched s))) in
  let! s := lock_process s process in
  let! c := get_pcb s process in
  if waiting_threads_count c >? 0 then Err Panic
  else
    let! n := tb_size (p_tabs s) (threads_at process) in
    let! s := if n >? 1 then clear_crt_process_other_thread_locked s else Ok s in
    let! s := unlock_process s process in
    let! s := hand_over wfuel s process init_process in
    let! s := end_process s process thread code in
    let! s := tell_parent wfuel s process parent in
    on_sched s schedule_thread_exit.
End PROCESS.
Arguments pstate : clear implicits.
