(* ===== verification/ProcessSpec.v ===== *)
(** Properties of processes: the tree of processes and its zombies, waiting threads and
    their wake-up, as an invariant ([family]) that [process_wait] and [process_exit]
    keep, with what each of them does on every branch. *)
From S2P Require Import Prelude BitMap LinkedList Sched SchedSpec SchedProps Memory Page Containers Process.

(** ** Waiting threads *)

(** A wait node with the thread that waits: the thread's node and the thread. *)
Abbreviation waiter := (Z * (Z * Z))%type.

(** The wait nodes from [head] on are [l], all with the target [tp]. *)
Fixpoint wchain (W : gmap Z wait_node_t) (head tp : Z) (l : list waiter) : Prop :=
  match l with
  | [] => head = 0
  | (a, (n, t)) :: l =>
      head = a /\ a <> 0 /\ exists w, W !! a = Some w /\ task w = n /\ target_pid w = tp /\ wchain W (wnext w) tp l
  end.

Lemma wchain_same W W' head tp l : (forall a, a ∈ l.*1 -> W' !! a = W !! a) -> wchain W head tp l -> wchain W' head tp l.
Proof.
  revert head. induction l as [|[a [n t]] l IH]; intros head Hs; [done|]. cbn. intros (H1 & H2 & w & Hw & H3 & H4 & H5).
  split; [done|]. split; [done|]. exists w. rewrite Hs by (cbn; set_solver). split; [done|]. split; [done|]. split; [done|].
  apply IH; [|done]. intros b Hb. apply Hs. cbn. set_solver.
Qed.

(** The calls of [process_wait] in progress: how many are of the process [p]. *)
Definition calls (F : gmap Z Z) (p : Z) : Z := Z.of_nat (base.size (filter (fun kv => kv.2 = p) F)).

Lemma calls_insert F t p q : F !! t = None -> calls (<[t := p]> F) q = calls F q + (if decide (p = q) then 1 else 0).
Proof.
  intros Ht. unfold calls. case_decide as Hp.
  - rewrite map_filter_insert_True by done. rewrite map_size_insert_None; [lia|]. apply map_lookup_filter_None. by left.
  - rewrite map_filter_insert_False by done. rewrite delete_id by done. lia.
Qed.
Lemma calls_delete F t p q : F !! t = Some p -> calls (delete t F) q = calls F q - (if decide (p = q) then 1 else 0).
Proof.
  intros Ht. rewrite <- (insert_delete_id F t p Ht) at 2. rewrite calls_insert by apply lookup_delete_eq. lia.
Qed.
Lemma calls_positive F t p : F !! t = Some p -> 0 < calls F p.
Proof. intros Ht. pose proof (calls_delete F t p p Ht) as Hc. rewrite decide_True in Hc by done. unfold calls in *. lia. Qed.
Lemma calls_bound F p : 0 <= calls F p <= Z.of_nat (base.size F).
Proof. unfold calls. split; [lia|]. pose proof (map_size_filter (fun kv : Z * Z => kv.2 = p) F). lia. Qed.

(** The threads go to the back of the ready queue. *)
Definition made_ready (V : view) (l : list (Z * Z)) : view := <[ready_tasks := default [] (V !! ready_tasks) ++ l]> V.

Lemma made_ready_nil V l0 : V !! ready_tasks = Some l0 -> made_ready V [] = V.
Proof. intros E. unfold made_ready. rewrite E. cbn. rewrite app_nil_r. by apply insert_id. Qed.
Lemma made_ready_app V l1 l2 : made_ready (made_ready V l1) l2 = made_ready V (l1 ++ l2).
Proof. unfold made_ready. rewrite lookup_insert_eq. cbn. by rewrite insert_insert_eq, app_assoc. Qed.

Lemma made_ready_ne V l q : q <> ready_tasks -> made_ready V l !! q = V !! q.
Proof. intros Hq. unfold made_ready. by rewrite lookup_insert_ne. Qed.
Lemma made_ready_unqueued V l l0 m : V !! ready_tasks = Some l0 -> unqueued V m -> m ∉ l.*1 -> unqueued (made_ready V l) m.
Proof.
  intros E Hu Hm. unfold made_ready. apply unqueued_insert; [done|]. rewrite E. cbn. rewrite fmap_app.
  pose proof (Hu _ _ E). set_solver.
Qed.

(** ** Waking *)

(** A waiting thread: in no queue of the scheduler. *)
Record asleep (idle : Z * Z) (x : sched) (V : view) (n t : Z) (c : tcb_t) : Prop := {
  as_tcb : tcbs x !! t = Some c;
  as_node : crt_node_ptr c = n;
  as_free : unqueued V n;
  as_status : status c = TASK_WAITING;
  as_other : t <> idle.2
}.

Section WAKE.
Context (idle : Z * Z).

Lemma core_ready x V ct c : sched_core idle x V ct c -> exists l, V !! ready_tasks = Some l.
Proof. intros [[l [_ [Hl _] _ _]] _ _ _ _ _]. by exists l. Qed.

Lemma core_other x V ct c n t c' : sched_core idle x V ct c -> asleep idle x V n t c' -> t <> ct.
Proof. intros [_ _ [Hc Hs] _ _ _] [Ht _ _ Hw _] ->. congruence. Qed.

Lemma node_apart x V ct c t1 c1 t2 c2 : sched_core idle x V ct c -> tcbs x !! t1 = Some c1 -> tcbs x !! t2 = Some c2 ->
  t1 <> t2 -> crt_node_ptr c1 <> crt_node_ptr c2.
Proof.
  intros [[l [Hq _ _ _]] _ _ _ _ _] H1 H2 Hne He. apply Hne.
  apply (node_of_inj _ _ _ _ (crt_node_ptr c1) t1 t2 Hq); [by exists c1|by exists c2].
Qed.

Lemma ready_core x V ct c n t c' : sched_core idle x V ct c -> tcbs x !! t = Some c' -> crt_node_ptr c' = n -> unqueued V n ->
  status c' <> TASK_DEAD -> t <> ct -> t <> idle.2 ->
  exists x', add_thread_node_to_schedule x n = Ok x' /\ sched_core idle x' (made_ready V [(n, t)]) ct c /\ same_cpu x x' /\
    tcbs x' = <[t := with_queue (with_status c' TASK_READY) ready_tasks]> (tcbs x).
Proof.
  intros Hco Ht Hn Hf Hst Hne Hid. destruct Hco as [[l Hinv] Hi [Hc Hr] Hu Hw Hl].
  destruct (wake_ok x V l ct idle.2 n t c' false Hinv Ht Hn Hf) as (x' & E & Hinv' & Hcpu & Htb); [done..|].
  pose proof Hinv as [_ [El _] _ _]. exists x'. split; [done|]. unfold made_ready. rewrite El. cbn [default].
  destruct Hcpu as (E1 & E2 & E3 & E4 & E5 & E6).
  split; [|split; [by repeat split|done]]. split; [by eexists|congruence| | | |congruence].
  - rewrite Htb, lookup_insert_ne by done. done.
  - rewrite E1. apply unqueued_insert; [done|]. rewrite fmap_app. cbn. intros [Hin|Hin]%elem_of_app; [by apply (Hu _ _ El)|].
    apply list_elem_of_singleton in Hin. destruct Hinv as [Hq _ Hct _].
    apply Hne. apply (node_of_inj _ _ _ _ n t ct Hq); [by exists c'|by rewrite <- Hin].
  - rewrite Htb. intros q l2 n2 t2 H2 Hwq Hin. pose proof (proj1 (wait_queue_true q) Hwq) as [Hqr _].
    rewrite lookup_insert_ne in H2 by done. destruct (Hw q l2 n2 t2 H2 Hwq Hin) as (y & Hy & Hys).
    assert (t2 <> t) as Hne2.
    { intros ->. destruct Hinv as [Hq _ _ _]. exact (unqueued_thread _ _ _ V q l2 n n2 t Hq Hf ltac:(by exists c') H2 Hin). }
    rewrite lookup_insert_ne by done. by exists y.
Qed.

Lemma wake_core x V ct c n t c' : sched_core idle x V ct c -> asleep idle x V n t c' ->
  exists x', add_thread_node_to_schedule x n = Ok x' /\ sched_core idle x' (made_ready V [(n, t)]) ct c /\ same_cpu x x' /\
    tcbs x' = <[t := with_queue (with_status c' TASK_READY) ready_tasks]> (tcbs x).
Proof.
  intros Hco Hs. pose proof (core_other _ _ _ _ _ _ _ Hco Hs) as Hne. destruct Hs as [Ht Hn Hf Hst Hid].
  apply ready_core; try done. by rewrite Hst.
Qed.

(** A sleeping thread sleeps on when others are woken. *)
Lemma asleep_other x x' V V' n t c : asleep idle x V n t c -> tcbs x' !! t = tcbs x !! t -> unqueued V' n -> asleep idle x' V' n t c.
Proof. intros [H1 H2 H3 H4 H5] E Hu. split; try done. congruence. Qed.

(** The current thread marks itself waiting and gives up the processor, in no queue. *)
Lemma sleep_core x V ct c : sched_core idle x V ct c -> process c = page_dir x -> crt_thread_node x <> idle.1 ->
  exists x1 x2 w', schedule_mark_thread_block x = Ok x1 /\ schedule_thread_yield x1 = Ok x2 /\ spec_switch idle V [] = Some w' /\
    sched_rel idle x2 w' /\ threads_kept (tcbs x) (tcbs x2) /\
    (exists y, asleep idle x2 w'.1 (crt_thread_node x) ct y /\ process y = process c) /\
    (forall n t y, asleep idle x V n t y -> t <> ct -> asleep idle x2 w'.1 n t y).
Proof.
  intros [[l Hinv] Hi [Hc Hr] Hu Hw Hl] Hp Hne. pose proof Hinv as [Hq [El Hro] Hct [Hm Hmu]].
  unfold schedule_mark_thread_block. rewrite (thread_of_ok x V _ ct Hq Hct). cbn [res_bind].
  rewrite (get_tcb_ok x ct c Hc). cbn [res_bind]. set (c1 := with_status c TASK_WAITING). set (x1 := set_tcb x ct c1).
  assert (forall q l n, V !! q = Some l -> (n, ct) ∉ l) as Hnl by (intros ? ? ?; by apply (running_unlisted x V l ct idle.2)).
  pose proof (set_tcb_inv x V l ct idle.2 ct c c1 Hinv Hc eq_refl ltac:(intros n; by apply (Hnl ready_tasks))) as Hinv1.
  destruct (spec_switch idle V []) as [w'|] eqn:Es.
  2:{ unfold spec_switch in Es. rewrite El, app_nil_r in Es. unfold or_idle in Es. destruct (decide (l = [])); [done|]. by destruct l. }
  assert (crt_node_ptr c = crt_thread_node x) as Hcn by (by apply (node_of_tcb (tcbs x) _ ct)).
  destruct (leave_rel idle (with_interrupts x1 false) V l ct c1 w') as (x2 & E & Hrel & Hk & Hfr); try done.
  { apply (with_interrupts_inv _ _ _ _ _ _ Hinv1). }
  { apply waiters_set; [done|by left]. }
  { apply lookup_insert_eq. }
  { by left. }
  assert (w'.1 = <[ready_tasks := default [] (w'.1 !! ready_tasks)]> V /\ forall m, m ∈ (default [] (w'.1 !! ready_tasks)).*1 -> m ∈ l.*1) as [HV Hsub].
  { destruct (spec_switch_inv _ _ _ _ _ El Es) as (next & rest & Hcand & ->). cbn. rewrite lookup_insert_eq. cbn. split; [done|].
    rewrite app_nil_r in Hcand. unfold or_idle in Hcand. destruct (decide (l = [])); [injection Hcand as _ <-; set_solver|]. rewrite Hcand. cbn. set_solver. }
  assert (forall m, unqueued V m -> unqueued w'.1 m) as Hun.
  { intros m Hum. rewrite HV. apply unqueued_insert; [done|]. intros Hin. by apply (Hum _ _ El), Hsub. }
  pose proof (threads_kept_set x ct c c1 (get_tcb_ok _ _ _ Hc) eq_refl eq_refl) as Hk1.
  assert (forall n t y, asleep idle x V n t y -> t <> w'.2.2) as Hnext.
  { intros n t y [Hy Hyn Hyu Hys Hyi] Heq. destruct (next_ready idle V l w' El Es) as [Hin|Hid]; [|by rewrite Hid in Heq].
    destruct w' as [V' [n1 t1]]. cbn in *. subst t1. exact (unqueued_thread _ _ _ V ready_tasks l n n1 t Hq Hyu ltac:(by exists y) El Hin). }
  assert (ct <> w'.2.2) as Hctne.
  { destruct (next_ready idle V l w' El Es) as [Hin|Hid].
    - intros Heq. apply (Hnl ready_tasks l w'.2.1 El). rewrite Heq. by destruct w' as [? []].
    - intros Heq. apply Hne. rewrite Heq, Hid in Hc. rewrite <- Hi, <- Hcn. by apply (node_of_tcb _ _ _ _ Hm). }
  exists x1, x2, w'. split; [done|]. split; [exact E|]. split; [done|]. split; [done|]. split; [|split].
  - eapply threads_kept_trans; [exact Hk1|exact (switch_kept _ _ E)].
  - destruct (Hk Hctne) as (y & Hy & Hys & _). exists y.
    assert (threads_kept (tcbs x) (tcbs x2)) as Hk2 by (eapply threads_kept_trans; [exact Hk1|exact (switch_kept _ _ E)]).
    destruct (threads_kept_get _ _ _ _ Hk2 Hy) as (c' & Hc' & Hp' & Hn'). assert (c' = c) as -> by congruence.
    split; [|done]. split; [done|congruence|by apply Hun|done|].
    intros ->. apply Hne. rewrite <- Hi, <- Hcn. by apply (node_of_tcb _ _ _ _ Hm).
  - intros n t y Hs Ht. pose proof (Hnext n t y Hs) as Hnt. destruct Hs as [Hy Hyn Hyu Hys Hyi]. split; try done; [|by apply Hun].
    apply Hfr; [|done|done]. cbn. by rewrite lookup_insert_ne by done.
Qed.

Context {H : Type} `{Containers H}.

Lemma set_queue_head_twice any c a b : set_queue_head any (set_queue_head any c a) b = set_queue_head any c b.
Proof. by destruct any. Qed.
Lemma set_queue_head_id any c : set_queue_head any c (queue_head any c) = c.
Proof. by destruct any, c. Qed.
Lemma set_pcb_twice (s : pstate H) p c c' : set_pcb (set_pcb s p c) p c' = set_pcb s p c'.
Proof. unfold set_pcb, with_procs. cbn. by rewrite insert_insert_eq. Qed.

(** The loop wakes all the threads of the queue, in the order of the list. *)
Lemma wake_all_ok any fuel : forall l (s : pstate H) V p c ct cc,
  sched_core idle (p_sched s) V ct cc -> p_procs s !! p = Some c ->
  wchain (p_waits s) (queue_head any c) (if any then 0 else pid c) l ->
  (forall a n t, (a, (n, t)) ∈ l -> exists x, asleep idle (p_sched s) V n t x) -> NoDup l.*2.*2 -> (length l < fuel)%nat ->
  exists x', wake_all fuel any s p = Ok (set_pcb (with_sched s x') p (set_queue_head any c 0)) /\
    sched_core idle x' (made_ready V l.*2) ct cc /\ same_cpu (p_sched s) x' /\ threads_kept (tcbs (p_sched s)) (tcbs x') /\
    (forall t, t ∉ l.*2.*2 -> tcbs x' !! t = tcbs (p_sched s) !! t).
Proof.
  induction fuel as [|fuel IH]; intros l s V p c ct cc Hco Hp Hch Hsl Hnd Hf; [lia|]. cbn [wake_all].
  unfold get_pcb. rewrite Hp. cbn [res_bind]. destruct l as [|[a [n t]] l].
  - cbn in Hch. rewrite Hch. exists (p_sched s). destruct (core_ready _ _ _ _ Hco) as [l0 El]. cbn [Z.eqb].
    replace (set_queue_head any c 0) with c by (rewrite <- Hch; symmetry; apply set_queue_head_id). change (made_ready V ([] : list waiter).*2) with (made_ready V []). rewrite (made_ready_nil V l0 El).
    split; [|split; [done|split; [by repeat split|split; [apply threads_kept_refl|done]]]].
    f_equal. unfold set_pcb, with_procs, with_sched. cbn. rewrite insert_id by done. destruct s. done.
  - destruct Hch as (Ha & Ha0 & w & Hw & Hn & Htg & Hch). rewrite Ha. replace (a =? 0) with false by (symmetry; zbool).
    unfold get_wait. rewrite Hw. cbn [res_bind]. rewrite Htg, Z.eqb_refl, Hn.
    destruct (Hsl a n t ltac:(set_solver)) as (x & Hx). destruct (wake_core _ _ _ _ _ _ _ Hco Hx) as (x1 & E1 & Hco1 & Hcpu1 & Htb1).
    unfold on_sched. rewrite E1. cbn [res_bind]. unfold upd_pcb, get_pcb. cbn [p_procs with_sched]. rewrite Hp. cbn [res_bind].
    set (c1 := set_queue_head any c (wnext w)). set (s1 := set_pcb (with_sched s x1) p c1).
    cbn [fmap list_fmap] in Hnd. apply NoDup_cons in Hnd as [Hnot Hnd]. cbn [snd] in Hnot.
    destruct (IH l s1 (made_ready V [(n, t)]) p c1 ct cc) as (x2 & E2 & Hco2 & Hcpu2 & Hk2 & Hfr2); try done.
    + apply lookup_insert_eq.
    + subst c1. by destruct any.
    + intros b m u Hin. destruct (Hsl b m u ltac:(set_solver)) as (y & Hy). exists y.
      assert (u <> t) as Hne by (intros ->; apply Hnot, list_elem_of_fmap; exists (m, t); split; [done|]; apply list_elem_of_fmap; by exists (b, (m, t))).
      apply (asleep_other (p_sched s) x1 V); [done|by rewrite Htb1, lookup_insert_ne|].
      destruct (core_ready _ _ _ _ Hco) as [l0 El]. apply (made_ready_unqueued V _ l0); [done|apply Hy|].
      cbn. rewrite list_elem_of_singleton. destruct Hx as [Hxt Hxn _ _ _], Hy as [Hyt Hyn _ _ _]. rewrite <- Hxn, <- Hyn.
      by apply (node_apart (p_sched s) V ct cc u y t x).
    + cbn in Hf. lia.
    + exists x2. subst c1 s1. rewrite E2, set_queue_head_twice. split; [by rewrite <- (set_pcb_twice (with_sched s x2) p (set_queue_head any c (wnext w)))|].
      rewrite made_ready_app in Hco2. split; [done|]. split; [|split].
      * destruct Hcpu1 as (? & ? & ? & ? & ? & ?), Hcpu2 as (? & ? & ? & ? & ? & ?). cbn in *. repeat split; congruence.
      * eapply threads_kept_trans; [exact (add_thread_kept _ _ _ E1)|exact Hk2].
      * intros u Hu. cbn in Hu. rewrite Hfr2 by set_solver. cbn. rewrite Htb1, lookup_insert_ne by set_solver. done.
Qed.
End WAKE.

(** ** Adoption *)

(** The processes of [B] get the parent [i]. *)
Definition reparent (B : gset Z) (i : Z) (P : gmap Z pcb_t) : gmap Z pcb_t :=
  map_imap (fun q c => Some (if decide (q ∈ B) then with_parent c i else c)) P.

Lemma reparent_lookup B i P q : reparent B i P !! q = (fun c => if decide (q ∈ B) then with_parent c i else c) <$> (P !! q).
Proof. unfold reparent. rewrite map_lookup_imap. by destruct (P !! q). Qed.
Lemma reparent_empty i P : reparent ∅ i P = P.
Proof. apply map_eq. intros q. rewrite reparent_lookup. destruct (P !! q); [|done]. cbn. by rewrite decide_False by set_solver. Qed.
Lemma reparent_one B i P q c : P !! q = Some c -> reparent B i (<[q := with_parent c i]> P) = reparent ({[q]} ∪ B) i P.
Proof.
  intros Hq. apply map_eq. intros r. rewrite !reparent_lookup. destruct (decide (r = q)) as [->|Hne].
  - rewrite lookup_insert_eq, Hq. cbn. rewrite (decide_True (P := q ∈ {[q]} ∪ B)) by set_solver. by case_decide.
  - rewrite lookup_insert_ne by done. destruct (P !! r); [|done]. cbn. f_equal. apply decide_ext. set_solver.
Qed.

(** The values of a table. *)
Definition vals (M : gmap Z Z) : gset Z := map_img M.
Lemma elem_of_vals M q : q ∈ vals M <-> exists k, M !! k = Some q.
Proof. apply elem_of_map_img. Qed.

Lemma vals_empty : vals ∅ = ∅.
Proof. apply set_eq. intros q. rewrite elem_of_vals. split; [intros (k & Hk); by rewrite lookup_empty in Hk|set_solver]. Qed.

Lemma vals_split (M : gmap Z Z) k q : M !! k = Some q -> {[q]} ∪ vals (delete k M) = vals M.
Proof.
  intros Hk. apply set_eq. intros x. rewrite elem_of_union, elem_of_singleton, !elem_of_vals. split.
  - intros [->|(j & Hj)]; [by exists k|]. apply lookup_delete_Some in Hj as [_ Hj]. by exists j.
  - intros (j & Hj). destruct (decide (j = k)) as [->|Hne]; [left; congruence|right]. exists j. by rewrite lookup_delete_ne.
Qed.

(** The tables of the process that exits and of the one that adopts, all apart. *)
Definition tables_apart (p i : Z) : Prop :=
  NoDup [children_at p; exit_children_at p; children_at i; exit_children_at i].

Section ADOPT.
Context {H : Type} `{ContainersLaws H}.

Lemma table_put_ok (s : pstate H) L Ms Ls t M k v n : ct_holds (p_tabs s) L Ms Ls -> Ms !! t = Some M -> ct_room (p_tabs s) (S n) ->
  Z.of_nat (base.size M) < ct_max ->
  (put s t k v = Err Panic /\ heap_fails (H:=H)) \/
  exists h, put s t k v = Ok (with_tabs s h) /\ ct_holds h L (<[t := <[k := v]> M]> Ms) Ls /\ ct_room h n.
Proof.
  intros Hh Ht Hr Hm. unfold put. destruct (tb_put_law _ L Ms Ls t M k v n Hh Ht Hr Hm) as [E|(h & -> & ? & ?)]; [left|right; by exists h].
  rewrite E. split; [done|]. exact (refused_entry _ _ _ _ _ _ _ _ _ Hh Hr Ht Hm E).
Qed.
Lemma table_remove_ok (s : pstate H) L Ms Ls t M k n : ct_holds (p_tabs s) L Ms Ls -> Ms !! t = Some M -> ct_room (p_tabs s) n ->
  exists h, remove s t k = Ok (default 0 (M !! k), with_tabs s h) /\ ct_holds h L (<[t := delete k M]> Ms) Ls /\ ct_room h n.
Proof.
  intros Hh Ht Hr. unfold remove. destruct (tb_remove_law _ L Ms Ls t M k n Hh Ht Hr) as (h & -> & ? & ?). by exists h.
Qed.
Lemma table_destroy_ok (s : pstate H) L Ms Ls t M n : ct_holds (p_tabs s) L Ms Ls -> Ms !! t = Some M -> ct_room (p_tabs s) n ->
  exists h, destroy s t = Ok (with_tabs s h) /\ ct_holds h L (delete t Ms) Ls /\ ct_room h n.
Proof.
  intros Hh Ht Hr. unfold destroy. destruct (tb_destroy_law _ L Ms Ls t M n Hh Ht Hr) as (h & -> & ? & ?). by exists h.
Qed.

Lemma get_pcb_ok (s : pstate H) p c : p_procs s !! p = Some c -> get_pcb s p = Ok c.
Proof. intros E. unfold get_pcb. by rewrite E. Qed.
Lemma upd_pcb_ok (s : pstate H) p f c : p_procs s !! p = Some c -> upd_pcb s p f = Ok (set_pcb s p (f c)).
Proof. intros E. unfold upd_pcb. by rewrite (get_pcb_ok s p c E). Qed.
Lemma set_pcb_eq (s : pstate H) p c : p_procs (set_pcb s p c) !! p = Some c.
Proof. apply lookup_insert_eq. Qed.

(** The tables after a loop of [process_exit] that empties one of [p]'s tables. *)
Definition adopted (zombies : bool) (p i : Z) (M Mi Zi : gmap Z Z) (Ms : gmap Z (gmap Z Z)) : gmap Z (gmap Z Z) :=
  let Ms := <[(if zombies then exit_children_at p else children_at p) := ∅]> (<[children_at i := M ∪ Mi]> Ms) in
  if zombies then <[exit_children_at i := M ∪ Zi]> Ms else Ms.

Lemma size_insert_le (M : gmap Z Z) k v : (base.size (<[k := v]> M) <= S (base.size M))%nat.
Proof. rewrite map_size_insert. destruct (M !! k); unfold id; lia. Qed.

Lemma union_step (M Mi : gmap Z Z) k v : M !! k = Some v -> delete k M ∪ <[k := v]> Mi = M ∪ Mi.
Proof.
  intros Hk. apply map_eq. intros j. destruct (decide (j = k)) as [->|Hne].
  - rewrite lookup_union_r by apply lookup_delete_eq. rewrite lookup_insert_eq. symmetry. by apply lookup_union_Some_l.
  - destruct (M !! j) eqn:E.
    + rewrite !(lookup_union_Some_l _ _ j z); [done|done|by rewrite lookup_delete_ne].
    + rewrite !lookup_union_r; [by rewrite lookup_insert_ne|done|by rewrite lookup_delete_ne].
Qed.

Lemma adopt_ok (zombies : bool) p i fuel : forall (s : pstate H) L (Ms : gmap Z (gmap Z Z)) Ls (M Mi Zi : gmap Z Z) n,
  tables_apart p i -> ct_holds (p_tabs s) L Ms Ls ->
  Ms !! (if zombies then exit_children_at p else children_at p) = Some M ->
  Ms !! children_at i = Some Mi -> Ms !! exit_children_at i = Some Zi ->
  (forall k q, M !! k = Some q -> q <> 0 /\ exists c, p_procs s !! q = Some c /\ pid c = k) ->
  (base.size M < fuel)%nat -> ct_room (p_tabs s) (2 * base.size M + n)%nat ->
  Z.of_nat (base.size M + base.size Mi) < ct_max -> Z.of_nat (base.size M + base.size Zi) < ct_max ->
  (adopt fuel zombies s p i = Err Panic /\ heap_fails (H:=H)) \/
  exists h, adopt fuel zombies s p i = Ok (with_procs (with_tabs s h) (reparent (vals M) i (p_procs s))) /\
    ct_holds h L (adopted zombies p i M Mi Zi Ms) Ls /\ ct_room h n.
Proof.
  induction fuel as [|fuel IH]; intros s L Ms Ls M Mi Zi n Hap Hh HM HMi HZi Hval Hf Hroom Hmax1 Hmax2; [lia|].
  cbn [adopt]. set (table := if zombies then exit_children_at p else children_at p) in *.
  assert (table <> children_at i /\ table <> exit_children_at i /\ children_at i <> exit_children_at i) as (Ht1 & Ht2 & Ht3).
  { unfold tables_apart in Hap. rewrite !NoDup_cons in Hap. destruct Hap as (A1 & A2 & A3 & _). unfold table. destruct zombies; set_solver. }
  rewrite (tb_size_law _ L Ms Ls table M Hh HM). cbn [res_bind].
  destruct (decide (M = ∅)) as [->|Hne].
  { rewrite map_size_empty. cbn [Z.of_nat Z.gtb Z.compare]. right. exists (p_tabs s).
    rewrite vals_empty, reparent_empty. split; [f_equal; by destruct s|]. split; [|by rewrite map_size_empty in Hroom].
    unfold adopted. fold table. rewrite !map_empty_union, (insert_id Ms (children_at i)) by done.
    rewrite (insert_id Ms table) by done. destruct zombies; [by rewrite insert_id|done]. }
  destruct (tb_first_law _ L Ms Ls table M Hh HM Hne) as (k & v & Hk & Efirst).
  destruct (Hval k v Hk) as (Hv0 & c & Hc & Hpid).
  assert (base.size M <> 0)%nat as Hsz by (intros Hz; apply Hne; by apply map_size_empty_inv).
  replace (Z.of_nat (base.size M) >? 0) with true by (symmetry; apply Z.gtb_lt; lia).
  rewrite Efirst. cbn [res_bind]. replace (v =? 0) with false by (symmetry; zbool). rewrite (get_pcb_ok s v c Hc). cbn [negb res_bind].
  rewrite Hpid.
  assert (base.size (delete k M) = (base.size M - 1)%nat) as Hsz2 by (rewrite map_size_delete, Hk; lia).
  replace (2 * base.size M + n)%nat with (S (S (2 * base.size (delete k M) + n))) in Hroom by lia.
  destruct (table_remove_ok s L Ms Ls table M k (S (S (2 * base.size (delete k M) + n))) Hh HM Hroom) as (h1 & E1 & Hh1 & Hroom1). rewrite E1. cbn [res_bind].
  rewrite Hk. change (default 0 (Some v)) with v. replace (v =? 0) with false by (symmetry; zbool). cbn [negb].
  rewrite (upd_pcb_ok (with_tabs s h1) v _ c Hc). cbn [res_bind]. rewrite (get_pcb_ok _ v _ (set_pcb_eq _ v _)).
  cbn [res_bind]. cbv beta. change (pid (with_parent c i)) with (pid c). rewrite Hpid.
  set (s1 := set_pcb (with_tabs s h1) v (with_parent c i)) in *. set (Ms1 := <[table := delete k M]> Ms) in *.
  destruct (table_put_ok s1 L Ms1 Ls (children_at i) Mi k v (S (2 * base.size (delete k M) + n)) Hh1) as [[-> Hno]|(h2 & E2 & Hh2 & Hroom2)];
    [by unfold Ms1; rewrite lookup_insert_ne by congruence|exact Hroom1|lia|by left|].
  rewrite E2. cbn [res_bind]. set (Ms2 := <[children_at i := <[k := v]> Mi]> Ms1) in *.
  assert (exists Zi2, Zi2 = (if zombies then <[k := v]> Zi else Zi) /\
    ((if zombies then put (with_tabs s1 h2) (exit_children_at i) k v else Ok (with_tabs s1 h2)) = Err Panic /\ heap_fails (H:=H) \/
     exists h3, (if zombies then put (with_tabs s1 h2) (exit_children_at i) k v else Ok (with_tabs s1 h2)) = Ok (with_tabs s1 h3) /\
       ct_holds h3 L (<[exit_children_at i := Zi2]> Ms2) Ls /\ ct_room h3 (2 * base.size (delete k M) + n)%nat)) as (Zi2 & HZi2 & Hput).
  { eexists. split; [reflexivity|]. assert (Ms2 !! exit_children_at i = Some Zi) as HZ2.
    { unfold Ms2, Ms1. by rewrite !lookup_insert_ne by congruence. }
    destruct zombies.
    - destruct (table_put_ok (with_tabs s1 h2) L Ms2 Ls (exit_children_at i) Zi k v (2 * base.size (delete k M) + n)%nat Hh2 HZ2 Hroom2) as [[-> Hno]|(h3 & -> & ? & ?)]; [lia|by left|right].
      exists h3. by split.
    - right. exists h2. split; [done|]. rewrite insert_id by done. split; [done|by apply ct_room_law]. }
  destruct Hput as [[-> Hno]|(h3 & -> & Hh3 & Hroom3)]; [by left|]. cbn [res_bind]. set (Ms3 := <[exit_children_at i := Zi2]> Ms2) in *.
  destruct (IH (with_tabs s1 h3) L Ms3 Ls (delete k M) (<[k := v]> Mi) Zi2 n) as [[-> Hno]|(h4 & -> & Hh4 & Hroom4)]; [done|done| | | | |lia|done| | |by left|].
  - fold table. unfold Ms3, Ms2, Ms1. rewrite !lookup_insert_ne by congruence. apply lookup_insert_eq.
  - unfold Ms3, Ms2. rewrite lookup_insert_ne by congruence. apply lookup_insert_eq.
  - apply lookup_insert_eq.
  - intros j q Hj. apply lookup_delete_Some in Hj as [_ Hj]. destruct (Hval j q Hj) as (Hq0 & cq & Hcq & Hpq). split; [done|]. cbn.
    destruct (decide (q = v)) as [->|Hne2]; [exists (with_parent c i); rewrite lookup_insert_eq; split; [done|cbn; congruence]|].
    exists cq. by rewrite lookup_insert_ne.
  - pose proof (size_insert_le Mi k v). lia.
  - subst Zi2. pose proof (size_insert_le Zi k v). destruct zombies; lia.
  - right. exists h4. split; [|split; [|done]].
    + f_equal. unfold with_procs, with_tabs, s1, set_pcb. cbn. f_equal. rewrite (reparent_one _ i (p_procs s) v c Hc).
      by rewrite (vals_split M k v Hk).
    + replace (adopted zombies p i M Mi Zi Ms) with (adopted zombies p i (delete k M) (<[k := v]> Mi) Zi2 Ms3); [done|].
      unfold adopted. fold table. rewrite (union_step M Mi k v Hk). subst Zi2. unfold Ms3, Ms2, Ms1.
      rewrite (union_step M Zi k v Hk) || idtac. apply map_eq. intros j. destruct zombies; rewrite ?(union_step M Zi k v Hk), !lookup_insert; repeat case_decide; congruence.
Qed.
End ADOPT.

(** ** The invariant *)

Definition alive (P : gmap Z pcb_t) (p : Z) : Prop := exists c, P !! p = Some c /\ pstatus c = PROCESS_NORMAL.
Definition exited (P : gmap Z pcb_t) (p : Z) : Prop := exists c, P !! p = Some c /\ pstatus c = PROCESS_EXIT.
(** [q], with the id [k], is a child of [p]; those that have been waited for are in [D]. *)
Definition is_child (P : gmap Z pcb_t) (D : list Z) (p k q : Z) : Prop :=
  exists c, P !! q = Some c /\ pid c = k /\ parent c = p /\ q ∉ D.
(** The thread is on the way to be cleaned up. *)
Definition buried (V : view) (t : Z) : Prop := exists d n, V !! dead_tasks = Some d /\ (n, t) ∈ d.

(** The tree of processes, against the tables of children and of exited children. *)
Record tree_ok (P : gmap Z pcb_t) (Ms : gmap Z (gmap Z Z)) (D : list Z) (i : Z) : Prop := {
  tr_init : exists c, P !! i = Some c /\ pstatus c = PROCESS_NORMAL /\ parent c = 0;
  tr_pcb p c : P !! p = Some c -> p <> 0 /\ 0 <= pid c < 2147483648 /\ pstatus c <> PROCESS_EXIT_ZOMBIE;
  tr_pid p1 c1 p2 c2 : P !! p1 = Some c1 -> P !! p2 = Some c2 -> pid c1 = pid c2 -> p1 = p2;
  tr_apart p q : is_Some (P !! p) -> is_Some (P !! q) -> p <> q -> p + 128 <= q \/ q + 128 <= p;
  tr_parent q c : P !! q = Some c -> q ∉ D -> parent c = 0 \/ (alive P (parent c) /\ parent c <> q);
  tr_children p : alive P p -> exists M, Ms !! children_at p = Some M /\ forall k q, M !! k = Some q <-> is_child P D p k q;
  tr_zombies p : alive P p -> exists M, Ms !! exit_children_at p = Some M /\
    forall k q, M !! k = Some q <-> is_child P D p k q /\ exited P q;
  tr_dead q : q ∈ D -> exited P q;
  tr_nodup : NoDup D
}.

(** The queues of waiting threads, [Q p true] those of any child of [p] and [Q p false]
    those of [p] itself, and the calls in progress. *)
Record waits_ok (idle : Z * Z) (x : sched) (V : view) (P : gmap Z pcb_t) (W : gmap Z wait_node_t)
    (Q : Z -> bool -> list waiter) (F : gmap Z Z) : Prop := {
  wo_chain p c any : P !! p = Some c -> wchain W (queue_head any c) (if any then 0 else pid c) (Q p any);
  wo_in p any a n t : (a, (n, t)) ∈ Q p any -> exists y c, asleep idle x V n t y /\ P !! p = Some c /\
    process y = (if any then p else parent c) /\ F !! t = Some (process y);
  wo_once p1 b1 p2 b2 w1 w2 : w1 ∈ Q p1 b1 -> w2 ∈ Q p2 b2 -> w1.2.2 = w2.2.2 -> p1 = p2 /\ b1 = b2;
  wo_nodup p b : NoDup (Q p b).*2.*2;
  wo_calls t p : F !! t = Some p -> exists y, tcbs x !! t = Some y /\ process y = p;
  wo_count p c : P !! p = Some c -> waiting_threads_count c = calls F p
}.

(** Every thread belongs to a process that runs, and is in its table; the dead may still be. *)
Record threads_ok (x : sched) (V : view) (P : gmap Z pcb_t) (Ms : gmap Z (gmap Z Z)) (TM : gmap Z thread_more) : Prop := {
  th_live t y : tcbs x !! t = Some y -> buried V t \/ alive P (process y);
  th_table p : alive P p -> exists T, Ms !! threads_at p = Some T /\
    (forall k t, T !! k = Some t -> exists y m, tcbs x !! t = Some y /\ process y = p /\ TM !! t = Some m /\ thread_id m = k) /\
    (forall t y, tcbs x !! t = Some y -> process y = p -> ~ buried V t -> exists m, TM !! t = Some m /\ T !! thread_id m = Some t)
}.

Record family {H : Type} `{Containers H} (idle : Z * Z) (s : pstate H) (V : view) (cur : Z * Z) (Ms : gmap Z (gmap Z Z))
    (D : list Z) (Q : Z -> bool -> list waiter) (F : gmap Z Z) : Prop := {
  fa_sched : sched_rel idle (p_sched s) (V, cur);
  fa_queues : is_Some (V !! dead_tasks) /\ is_Some (V !! dead_cv);
  fa_tabs : exists L Ls, ct_holds (p_tabs s) L Ms Ls /\ Ls !! dead_processes = Some D;
  fa_tree : tree_ok (p_procs s) Ms D (p_init s);
  fa_waits : waits_ok idle (p_sched s) V (p_procs s) (p_waits s) Q F;
  fa_threads : threads_ok (p_sched s) V (p_procs s) Ms (p_threads s);
  fa_live p c any : p_procs s !! p = Some c -> pstatus c <> PROCESS_NORMAL -> Q p any = [];
  fa_locks p c : p_procs s !! p = Some c -> plock c = LOCKED_NO;
  fa_max : 2 * Z.of_nat (base.size (p_procs s)) < ct_max
}.

(** *** What the parts read *)

(** Two stores of blocks with the same tree. *)
Definition same_tree (P P' : gmap Z pcb_t) : Prop := forall q,
  match P !! q, P' !! q with
  | None, None => True
  | Some c, Some c' => pid c' = pid c /\ parent c' = parent c /\ pstatus c' = pstatus c
  | _, _ => False
  end.

Lemma same_tree_set P p c c' : P !! p = Some c -> pid c' = pid c -> parent c' = parent c -> pstatus c' = pstatus c ->
  same_tree P (<[p := c']> P).
Proof.
  intros Hp H1 H2 H3 q. destruct (decide (q = p)) as [->|Hne]; [by rewrite Hp, lookup_insert_eq|].
  rewrite lookup_insert_ne by done. by destruct (P !! q).
Qed.
Lemma same_tree_sym P P' : same_tree P P' -> same_tree P' P.
Proof. intros Hs q. specialize (Hs q). destruct (P !! q), (P' !! q); try done. destruct Hs as (? & ? & ?). by split. Qed.
Lemma same_tree_trans P1 P2 P3 : same_tree P1 P2 -> same_tree P2 P3 -> same_tree P1 P3.
Proof.
  intros H1 H2 q. specialize (H1 q). specialize (H2 q). destruct (P1 !! q), (P2 !! q), (P3 !! q); try done.
  destruct H1 as (? & ? & ?), H2 as (? & ? & ?). split; [congruence|split; congruence].
Qed.
Lemma same_tree_get P P' q c' : same_tree P P' -> P' !! q = Some c' ->
  exists c, P !! q = Some c /\ pid c' = pid c /\ parent c' = parent c /\ pstatus c' = pstatus c.
Proof. intros Hs E. specialize (Hs q). rewrite E in Hs. destruct (P !! q) as [c|]; [by exists c|done]. Qed.

Lemma alive_same P P' p : same_tree P P' -> alive P p -> alive P' p.
Proof.
  intros Hs (c & Hc & Hn). destruct (same_tree_get _ _ p c (same_tree_sym _ _ Hs) Hc) as (c' & ? & _ & _ & ?). exists c'. split; [done|congruence].
Qed.
Lemma exited_same P P' p : same_tree P P' -> exited P p -> exited P' p.
Proof.
  intros Hs (c & Hc & Hn). destruct (same_tree_get _ _ p c (same_tree_sym _ _ Hs) Hc) as (c' & ? & _ & _ & ?). exists c'. split; [done|congruence].
Qed.
Lemma is_child_same P P' D p k q : same_tree P P' -> is_child P D p k q -> is_child P' D p k q.
Proof.
  intros Hs (c & Hc & H1 & H2 & H3). destruct (same_tree_get _ _ q c (same_tree_sym _ _ Hs) Hc) as (c' & ? & ? & ? & _).
  exists c'. split; [done|]. split; [congruence|]. split; [congruence|done].
Qed.

Lemma tree_ok_same P P' Ms D i : same_tree P P' -> tree_ok P Ms D i -> tree_ok P' Ms D i.
Proof.
  intros Hs [T1 T2 T3 T4 T5 T6 T7 T8 T9]. pose proof (same_tree_sym _ _ Hs) as Hs'.
  assert (forall q, is_Some (P' !! q) -> is_Some (P !! q)) as Hsome.
  { intros q [c Hc]. destruct (same_tree_get _ _ q c Hs Hc) as (c' & ? & _). by exists c'. }
  split; [| | |by auto| | | | |done].
  - destruct T1 as (c & Hc & ? & ?). destruct (same_tree_get _ _ i c Hs' Hc) as (c' & ? & ? & ? & ?). exists c'. split; [done|]. split; congruence.
  - intros p c Hc. destruct (same_tree_get _ _ p c Hs Hc) as (c' & Hc' & -> & _ & ->). by apply T2.
  - intros p1 c1 p2 c2 H1 H2. destruct (same_tree_get _ _ _ _ Hs H1) as (c1' & ? & -> & _).
    destruct (same_tree_get _ _ _ _ Hs H2) as (c2' & ? & -> & _). by apply T3.
  - intros q c Hc Hq. destruct (same_tree_get _ _ q c Hs Hc) as (c' & Hc' & _ & -> & _).
    destruct (T5 q c' Hc' Hq) as [|[Ha ?]]; [by left|right; split; [by apply (alive_same P)|done]].
  - intros p Ha. destruct (T6 p (alive_same _ _ _ Hs' Ha)) as (M & HM & Hv). exists M. split; [done|]. intros k q. rewrite Hv.
    split; by apply is_child_same.
  - intros p Ha. destruct (T7 p (alive_same _ _ _ Hs' Ha)) as (M & HM & Hv). exists M. split; [done|]. intros k q. rewrite Hv.
    split; intros [? ?]; (split; [by eapply is_child_same|by eapply exited_same]).
  - intros q Hq. by apply (exited_same P), T8.
Qed.

Lemma threads_ok_same x V P P' Ms TM : same_tree P P' -> threads_ok x V P Ms TM -> threads_ok x V P' Ms TM.
Proof.
  intros Hs [H1 H2]. pose proof (same_tree_sym _ _ Hs) as Hs'. split.
  - intros t y Hy. destruct (H1 t y Hy) as [|Ha]; [by left|right; by apply (alive_same P)].
  - intros p Ha. apply H2. by apply (alive_same P').
Qed.
(** The scheduler may do its work: the threads and the dead stay the same. *)
Lemma threads_ok_kept x x' V V' P Ms TM : threads_kept (tcbs x) (tcbs x') -> V' !! dead_tasks = V !! dead_tasks ->
  threads_ok x V P Ms TM -> threads_ok x' V' P Ms TM.
Proof.
  intros Hk HV [H1 H2]. assert (forall t, buried V' t <-> buried V t) as Hb by (intros t; unfold buried; by rewrite HV). split.
  - intros t y Hy. destruct (threads_kept_get _ _ _ _ Hk Hy) as (y' & Hy' & <- & _). rewrite Hb. by apply H1.
  - intros p Ha. destruct (H2 p Ha) as (T & HT & Hv1 & Hv2). exists T. split; [done|]. split.
    + intros k t Ht. destruct (Hv1 k t Ht) as (y & m & Hy & Hp & R). specialize (Hk t). rewrite Hy in Hk.
      destruct (tcbs x' !! t) as [y'|] eqn:E; [|done]. exists y', m. destruct Hk as [Hkp _]. split; [done|]. split; [congruence|done].
    + intros t y' Hy' Hp Hnb. destruct (threads_kept_get _ _ _ _ Hk Hy') as (y & Hy & Hpy & _). apply (Hv2 t y Hy); [congruence|by rewrite <- Hb].
Qed.

Lemma same_tree_size P P' : same_tree P P' -> base.size P' = base.size P.
Proof.
  intros Hs. rewrite <- !size_dom. f_equal. apply set_eq. intros q. rewrite !elem_of_dom. specialize (Hs q).
  destruct (P !! q), (P' !! q); try done; split; intros [? ?]; by try eexists.
Qed.

(** The queue [Q r any] gets one more waiter at its head. *)
Definition pushed (Q : Z -> bool -> list waiter) (q : Z) (any : bool) (w : waiter) : Z -> bool -> list waiter :=
  fun r b => if decide (r = q /\ b = any) then w :: Q r b else Q r b.

Lemma pushed_elem Q q any w r b v : v ∈ pushed Q q any w r b <-> (r = q /\ b = any /\ v = w) \/ v ∈ Q r b.
Proof. unfold pushed. case_decide as Hd; [rewrite elem_of_cons; naive_solver|naive_solver]. Qed.

(** What changes in the queues when [process_wait] returns or stops, for the process
    [p] and its thread [ct]. *)
Lemma waits_ok_set idle x x' V V' P W W' Q F F' p c c' ct :
  waits_ok idle x V P W Q F -> P !! p = Some c -> pid c' = pid c -> parent c' = parent c -> pstatus c' = pstatus c ->
  (forall any, queue_head any c' = queue_head any c) -> waiting_threads_count c' = calls F' p ->
  (forall t, t <> ct -> F' !! t = F !! t) -> (forall q, q <> p -> calls F' q = calls F q) ->
  (forall q, F' !! ct = Some q -> exists y, tcbs x' !! ct = Some y /\ process y = q) ->
  (forall q b w, w ∈ Q q b -> w.2.2 <> ct /\ W' !! w.1 = W !! w.1) ->
  (forall n t y, asleep idle x V n t y -> t <> ct -> asleep idle x' V' n t y) -> threads_kept (tcbs x) (tcbs x') ->
  waits_ok idle x' V' (<[p := c']> P) W' Q F'.
Proof.
  intros [W1 W2 W3 W4 W5 W6] Hp Hpid Hpar Hst Hq Hcnt HF Hcalls Hct HQ Hsl Hk. split; [| |done|done| |].
  - intros q d any. rewrite lookup_insert_Some. intros [[<- <-]|[Hne Hd]].
    + rewrite Hq, Hpid. apply (wchain_same W); [|by apply W1]. intros a (w & -> & Hw)%list_elem_of_fmap. by apply (HQ p any).
    + apply (wchain_same W); [|by apply W1]. intros a (w & -> & Hw)%list_elem_of_fmap. by apply (HQ q any).
  - intros q any a n t Hin. destruct (W2 q any a n t Hin) as (y & d & Hy & Hd & Hpy & HFt). pose proof (proj1 (HQ q any _ Hin)) as Hne.
    cbn in Hne. destruct (decide (q = p)) as [->|Hqp].
    + assert (d = c) as -> by congruence. exists y, c'. rewrite lookup_insert_eq, Hpar, HF by done. split; [by apply Hsl|done].
    + exists y, d. rewrite lookup_insert_ne, HF by done. split; [by apply Hsl|done].
  - intros t q Ht. destruct (decide (t = ct)) as [->|Hne]; [by apply Hct|]. rewrite HF in Ht by done.
    destruct (W5 t q Ht) as (y & Hy & Hpy). specialize (Hk t). rewrite Hy in Hk. destruct (tcbs x' !! t) as [y'|] eqn:E; [|done].
    exists y'. split; [done|]. destruct Hk. congruence.
  - intros q d. rewrite lookup_insert_Some. intros [[<- <-]|[Hne Hd]]; [done|]. rewrite Hcalls by done. by apply W6.
Qed.

Lemma waits_ok_push idle x V P W Q F q c (any : bool) a n t y :
  waits_ok idle x V P W Q F -> P !! q = Some c -> asleep idle x V n t y ->
  process y = (if any then q else parent c) -> F !! t = Some (process y) -> a <> 0 ->
  W !! a = Some (mk_wait n (if any then 0 else pid c) (queue_head any c)) ->
  (forall r b w, w ∈ Q r b -> w.2.2 <> t) ->
  waits_ok idle x V (<[q := set_queue_head any c a]> P) W (pushed Q q any (a, (n, t))) F.
Proof.
  intros [W1 W2 W3 W4 W5 W6] Hq Hs Hp HF Ha0 Ha Hnew.
  assert (forall b, pid (set_queue_head b c a) = pid c /\ parent (set_queue_head b c a) = parent c /\ pstatus (set_queue_head b c a) = pstatus c) as Hsame by (by intros []).
  split; [| | | |done|].
  - intros r d b. rewrite lookup_insert_Some. intros [[<- <-]|[Hne Hd]].
    + destruct (Hsame any) as (-> & _ & _). unfold pushed. case_decide as Hd.
      * destruct Hd as [_ ->]. cbn. split; [by destruct any|]. split; [done|]. eexists. split; [exact Ha|]. split; [done|]. split; [done|]. by apply W1.
      * replace (queue_head b (set_queue_head any c a)) with (queue_head b c); [by apply W1|]. destruct b, any; try done; by destruct Hd.
    + unfold pushed. rewrite decide_False by naive_solver. by apply W1.
  - intros r b a' n' t' [(-> & -> & [= -> -> ->])|Hin]%pushed_elem.
    + exists y, (set_queue_head any c a). rewrite lookup_insert_eq. destruct (Hsame any) as (_ & -> & _). done.
    + destruct (W2 r b a' n' t' Hin) as (y' & d & Hy' & Hd & R). destruct (decide (r = q)) as [->|Hne].
      * assert (d = c) as -> by congruence. exists y', (set_queue_head any c a). rewrite lookup_insert_eq. destruct (Hsame any) as (_ & -> & _). done.
      * exists y', d. by rewrite lookup_insert_ne.
  - intros p1 b1 p2 b2 w1 w2 [(-> & -> & ->)|H1]%pushed_elem [(-> & -> & ->)|H2]%pushed_elem He; [done| | |by apply (W3 p1 b1 p2 b2 w1 w2)].
    + by destruct (Hnew p2 b2 w2 H2).
    + by destruct (Hnew p1 b1 w1 H1).
  - intros r b. unfold pushed. case_decide; [|done]. cbn. apply NoDup_cons. split; [|done].
    rewrite <- list_fmap_compose. intros (w & Hw & Hin)%list_elem_of_fmap. cbn in Hw. by destruct (Hnew r b w Hin).
  - intros r d. rewrite lookup_insert_Some. intros [[<- <-]|[Hne Hd]]; [|by apply W6]. rewrite <- (W6 q c Hq). by destruct any.
Qed.

(** The tables of two processes are at different places. *)
Lemma tables_differ P Ms D i p q : tree_ok P Ms D i -> is_Some (P !! p) -> is_Some (P !! q) ->
  threads_at p <> children_at q /\ threads_at p <> exit_children_at q /\ children_at p <> exit_children_at q /\
  (p <> q -> threads_at p <> threads_at q /\ children_at p <> children_at q /\ exit_children_at p <> exit_children_at q).
Proof.
  intros Ht Hp Hq. unfold threads_at, children_at, exit_children_at. destruct (decide (p = q)) as [->|Hne]; [lia|].
  destruct (tr_apart _ _ _ _ Ht p q Hp Hq Hne); lia.
Qed.
Lemma alive_some P p : alive P p -> is_Some (P !! p).
Proof. intros (c & Hc & _). by exists c. Qed.
Lemma alive_not_exited P p q : alive P p -> exited P q -> p <> q.
Proof. intros (c & Hc & H1) (d & Hd & H2) ->. congruence. Qed.

(** A child that is waited for leaves the tables of its parent. *)
Lemma tree_ok_reap P Ms D i p k q M Z : tree_ok P Ms D i -> alive P p -> is_child P D p k q -> exited P q ->
  Ms !! children_at p = Some M -> Ms !! exit_children_at p = Some Z ->
  tree_ok P (<[children_at p := delete k M]> (<[exit_children_at p := delete k Z]> Ms)) (D ++ [q]) i.
Proof.
  intros Ht Ha Hch He HM HZ. pose proof Ht as [T1 T2 T3 T4 T5 T6 T7 T8 T9]. pose proof Hch as (c & Hc & Hk & Hpar & HqD).
  assert (forall k' q', is_child P (D ++ [q]) p k' q' <-> is_child P D p k' q' /\ k' <> k) as Hp.
  { intros k' q'. split.
    - intros (c' & Hc' & H1 & H2 & H3). split; [exists c'; set_solver|]. intros ->. apply H3. rewrite (T3 q' c' q c Hc' Hc) by congruence. set_solver.
    - intros [(c' & Hc' & H1 & H2 & H3) Hne]. exists c'. split; [done|]. split; [done|]. split; [done|]. intros [Hin|Hin%list_elem_of_singleton]%elem_of_app; [done|congruence]. }
  assert (forall r k' q', r <> p -> is_child P (D ++ [q]) r k' q' <-> is_child P D r k' q') as Hr.
  { intros r k' q' Hne. split; intros (c' & Hc' & H1 & H2 & H3); exists c'; (split; [done|]); (split; [done|]); (split; [done|]); [set_solver|].
    intros [Hin|Hin%list_elem_of_singleton]%elem_of_app; [done|congruence]. }
  split; try done.
  - intros q' c' Hc' Hn. apply (T5 q' c' Hc'). set_solver.
  - intros r Hra. destruct (tables_differ P Ms D i r p Ht (alive_some _ _ Hra) (alive_some _ _ Ha)) as (_ & _ & A1 & A2). destruct (decide (r = p)) as [->|Hne].
    + exists (delete k M). rewrite lookup_insert_eq. split; [done|]. intros k' q'. rewrite lookup_delete_Some, Hp.
      destruct (T6 p Ha) as (M' & HM' & Hv). assert (M' = M) as -> by congruence. rewrite Hv. naive_solver.
    + destruct (A2 Hne) as (_ & B1 & B2). rewrite !lookup_insert_ne by congruence. destruct (T6 r Hra) as (M' & HM' & Hv). exists M'. split; [done|].
      intros k' q'. by rewrite Hr.
  - intros r Hra. destruct (tables_differ P Ms D i p r Ht (alive_some _ _ Ha) (alive_some _ _ Hra)) as (_ & _ & A1 & A2). destruct (decide (r = p)) as [->|Hne].
    + exists (delete k Z). rewrite lookup_insert_ne, lookup_insert_eq by done. split; [done|]. intros k' q'. rewrite lookup_delete_Some, Hp.
      destruct (T7 p Ha) as (Z' & HZ' & Hv). assert (Z' = Z) as -> by congruence. rewrite Hv. naive_solver.
    + destruct (A2 ltac:(done)) as (_ & B1 & B2). rewrite !lookup_insert_ne by congruence. destruct (T7 r Hra) as (Z' & HZ' & Hv). exists Z'. split; [done|].
      intros k' q'. by rewrite Hr.
  - intros q' [Hin|Hin%list_elem_of_singleton]%elem_of_app; [by apply T8|congruence].
  - apply NoDup_app. split; [done|]. split; [set_solver|apply NoDup_singleton].
Qed.

(** ** Waiting for a child *)
Section WAIT.
Context {H : Type} `{ContainersLaws H} (idle : Z * Z).

(** The thread [ct] runs, in the process [process y] with the control block [c]. *)
Record current (s : pstate H) (V : view) (cn ct : Z) (y : tcb_t) (c : pcb_t) : Prop := {
  cu_core : sched_core idle (p_sched s) V ct y;
  cu_dir : process y = page_dir (p_sched s);
  cu_node : crt_thread_node (p_sched s) = cn;
  cu_pcb : p_procs s !! process y = Some c;
  cu_alive : pstatus c = PROCESS_NORMAL;
  cu_lock : plock c = LOCKED_NO;
  cu_zero : process y <> 0;
  cu_calls : get_crt_process s = Ok (process y) /\ get_crt_thread_node (p_sched s) = Ok cn /\ get_crt_thread (p_sched s) = Ok ct
}.

Lemma family_current s V cn ct Ms D Q F : family idle s V (cn, ct) Ms D Q F -> exists y c, current s V cn ct y c.
Proof.
  intros [Hrel _ _ Htree _ Hth _ Hlk _]. destruct (rel_core _ _ _ Hrel) as (y & Hco & Hdir). cbn in Hco.
  pose proof Hco as [[l [Hq _ Hct _]] _ [Hy _] Hu _ _]. destruct (th_live _ _ _ _ _ Hth ct y Hy) as [(d & n & Hd & Hin)|(c & Hc & Hst)].
  { by destruct (core_unlisted idle _ V ct y dead_tasks d n Hco Hd). }
  destruct (tr_pcb _ _ _ _ Htree _ _ Hc) as [Hp0 _]. destruct (get_crt_thread_ok _ _ _ Hq Hct) as (E & Hn0 & _).
  pose proof (sr_cur _ _ _ Hrel) as Hcn. cbn in Hcn. exists y, c. split; try done; [by apply (Hlk (process y))|].
  unfold get_crt_process, get_crt_thread_node. rewrite E. cbn [res_bind]. rewrite (get_tcb_ok _ _ _ Hy). cbn [res_bind].
  replace (process y =? 0) with false by (symmetry; zbool). replace (crt_thread_node (p_sched s) =? 0) with false by (symmetry; zbool). by rewrite Hcn.
Qed.

Lemma lock_process_ok (s : pstate H) p c : p_procs s !! p = Some c -> plock c = LOCKED_NO -> lock_process s p = Ok (set_pcb s p (with_plock c LOCKED_YES)).
Proof. intros E El. unfold lock_process. rewrite (get_pcb_ok s p c E). cbn [res_bind]. by rewrite El. Qed.
Lemma unlock_process_ok (s : pstate H) p c : p_procs s !! p = Some c -> unlock_process s p = Ok (set_pcb s p (with_plock c LOCKED_NO)).
Proof. apply upd_pcb_ok. Qed.

Lemma uncount_ok (s : pstate H) p c (counted : bool) : p_procs s !! p = Some c -> 0 <= waiting_threads_count c < 4294967296 ->
  (counted = true -> 0 < waiting_threads_count c) ->
  uncount s p counted = Ok (set_pcb s p (with_count c (waiting_threads_count c - (if counted then 1 else 0)))).
Proof.
  intros Hp Hr Hpos. unfold uncount. destruct counted.
  - rewrite (get_pcb_ok s p c Hp). cbn [res_bind]. specialize (Hpos eq_refl). replace (waiting_threads_count c >? 0) with true by (symmetry; zbool).
    by rewrite u32_small by lia.
  - rewrite Z.sub_0_r. replace (with_count c (waiting_threads_count c)) with c by (by destruct c).
    f_equal. unfold set_pcb, with_procs. rewrite insert_id by done. by destruct s.
Qed.

(** The parts of the state that an operation may change, and those it keeps. *)
Lemma family_change s s' V V' cur cur' Ms Ms' D D' Q Q' F F' :
  family idle s V cur Ms D Q F -> same_tree (p_procs s) (p_procs s') -> p_threads s' = p_threads s -> p_init s' = p_init s ->
  (exists L Ls, ct_holds (p_tabs s') L Ms' Ls /\ Ls !! dead_processes = Some D') -> tree_ok (p_procs s') Ms' D' (p_init s) ->
  (forall p, alive (p_procs s) p -> Ms' !! threads_at p = Ms !! threads_at p) ->
  sched_rel idle (p_sched s') (V', cur') -> threads_kept (tcbs (p_sched s)) (tcbs (p_sched s')) ->
  V' !! dead_tasks = V !! dead_tasks -> is_Some (V' !! dead_cv) ->
  waits_ok idle (p_sched s') V' (p_procs s') (p_waits s') Q' F' ->
  (forall p c any, p_procs s' !! p = Some c -> pstatus c <> PROCESS_NORMAL -> Q' p any = []) ->
  (forall p c, p_procs s' !! p = Some c -> plock c = LOCKED_NO) ->
  family idle s' V' cur' Ms' D' Q' F'.
Proof.
  intros [_ [Hd _] _ _ _ Hth _ _ Hmax] Hsame Hthr Hin Htabs Htree Hat Hrel Hk HV Hcv Hw Hlive Hlk. split; try done.
  - split; [by rewrite HV|done].
  - by rewrite Hin.
  - rewrite Hthr. apply (threads_ok_same _ _ (p_procs s)); [done|]. apply (threads_ok_kept (p_sched s) _ V); [done|done|].
    destruct Hth as [T1 T2]. split; [done|]. intros p Ha. destruct (T2 p Ha) as (T & HT & R). exists T. split; [by rewrite Hat|done].
  - by rewrite (same_tree_size _ _ Hsame).
Qed.

(** The process [q] is a child that a wait of [p] for [pid_] looks for. *)
Definition eligible (P : gmap Z pcb_t) (D : list Z) (p pid_ q : Z) : Prop :=
  exists k, is_child P D p k q /\ (pid_ = 0 \/ k = pid_).

(** What a round of [process_wait] can do, from the blocks [P] and the memory [m0]. *)
Inductive wait_outcome (P : gmap Z pcb_t) (m0 : mem) (V : view) (cur : Z * Z) Ms D Q F (p pid_ status my_node : Z) (n : nat) :
    res (wait_out * pstate H) -> Prop :=
  | Wait_no_child s' : (forall q, ~ eligible P D p pid_ q) ->
      family idle s' V cur Ms D Q (delete cur.2 F) -> ct_room (p_tabs s') n -> p_mem s' = m0 ->
      wait_outcome P m0 V cur Ms D Q F p pid_ status my_node n (Ok (Returned (-1), s'))
  | Wait_reaped s' V' Ms' q c : eligible P D p pid_ q -> P !! q = Some c -> pstatus c = PROCESS_EXIT ->
      spec_notify V dead_cv = Some V' -> family idle s' V' cur Ms' (D ++ [q]) Q (delete cur.2 F) -> ct_room (p_tabs s') n ->
      p_mem s' = (if status =? 0 then m0 else store32 m0 status (u32 (exit_code c))) ->
      wait_outcome P m0 V cur Ms D Q F p pid_ status my_node n (Ok (Returned 0, s'))
  | Wait_no_memory q : eligible P D p pid_ q -> exited P q -> heap_fails (H:=H) -> wait_outcome P m0 V cur Ms D Q F p pid_ status my_node n (Err Panic)
  | Wait_blocked s' w' q any : (forall q, eligible P D p pid_ q -> ~ exited P q) ->
      (pid_ = 0 /\ q = p /\ any = true /\ (exists q, eligible P D p pid_ q) \/ 0 < pid_ /\ any = false /\ eligible P D p pid_ q) ->
      spec_switch idle V [] = Some w' ->
      family idle s' w'.1 w'.2 Ms D (pushed Q q any (my_node, cur)) (<[cur.2 := p]> F) -> ct_room (p_tabs s') n -> p_mem s' = m0 ->
      wait_outcome P m0 V cur Ms D Q F p pid_ status my_node n (Ok (Waits true, s')).

Lemma notify_defined (V : view) l d : V !! ready_tasks = Some l -> V !! dead_cv = Some d -> exists V', spec_notify V dead_cv = Some V' /\ is_Some (V' !! dead_cv).
Proof.
  intros El Ed. unfold spec_notify. rewrite El, Ed. destruct d as [|x d]; eexists; (split; [reflexivity|]); [by exists []|].
  rewrite lookup_insert_ne, lookup_insert_eq by done. by exists d.
Qed.

(** The processes' queue of the clean-up thread takes one more, and the thread is notified. *)
Lemma add_dead_process_ok (s : pstate H) V cur L Ms Ls D q n V' :
  sched_rel idle (p_sched s) (V, cur) -> ct_holds (p_tabs s) L Ms Ls -> Ls !! dead_processes = Some D -> Z.of_nat (length D) < ct_max ->
  ct_room (p_tabs s) (S n) -> spec_notify V dead_cv = Some V' ->
  (add_dead_process s q = Err Panic /\ heap_fails (H:=H)) \/
  exists x' h', add_dead_process s q = Ok (with_sched (with_tabs s h') x') /\ ct_holds h' L Ms (<[dead_processes := D ++ [q]]> Ls) /\ ct_room h' n /\
    sched_rel idle x' (V', cur) /\ threads_kept (tcbs (p_sched s)) (tcbs x') /\
    (forall m t z, asleep idle (p_sched s) V m t z -> asleep idle x' V' m t z).
Proof.
  intros Hrel Hh HD Hmax Hroom Hn. destruct cur as [cn ct]. destruct Hrel as [[l Hinv] Hi Hcr [Hu Hr] Hw Hlk]. cbn in *.
  unfold add_dead_process, on_sched. rewrite Hlk. change (yieldlock_lock LOCKED_NO) with (Ok LOCKED_YES). cbn [res_bind].
  destruct (ls_append_law _ L Ms Ls dead_processes D q n Hh HD Hroom Hmax) as [E|(h' & E & Hh' & Hroom')]; cbn [p_tabs with_sched]; rewrite E; cbn [res_bind];
    [left; split; [done|]; exact (refused_element _ _ _ _ _ _ _ _ Hh Hroom HD Hmax E)|right].
  set (x0 := with_dead_lock (p_sched s) LOCKED_YES). assert (sched_inv x0 V l ct idle.2) as Hinv0 by (destruct Hinv; by split).
  destruct (notify_rel x0 V l ct idle.2 dead_cv V' Hinv0) as (x1 & l1 & E1 & Hinv1 & Hcpu & Hw1 & Hct1 & Hun1 & Hfr1); [done|done| |done|].
  { intros w m Hl. by apply (running_unlisted (p_sched s) V l ct idle.2 dead_cv). }
  cbn [p_sched with_sched with_tabs res_bind]. fold x0. rewrite E1. cbn [res_bind p_sched with_sched]. destruct Hcpu as (E4 & E5 & E6 & E7 & E8 & E9). cbn in E4, E5, E8.
  eexists (with_dead_lock x1 (yieldlock_unlock (dead_resource_lock x1))), h'. split; [reflexivity|]. split; [done|]. split; [done|].
  split; [split; cbn; [exists l1; destruct Hinv1; by split|congruence|congruence| |done|done]|split].
  - split; cbn; [rewrite E4; by apply Hun1|]. rewrite Hct1, E8. done.
  - exact (notify_kept x0 _ _ E1).
  - intros m t z [Ht Hm Hf Hs Ho]. split; try done; [|by apply Hun1]. cbn. rewrite Hfr1; [done|]. intros w k Hw0 Hin.
    destruct Hinv as [Hq _ _ _]. exact (unqueued_thread _ _ _ V dead_cv w m k t Hq Hf ltac:(by exists z) Hw0 Hin).
Qed.

(** *** A round, with the lock held *)
Section ROUND.
Context (s : pstate H) (V : view) (cn ct : Z) (Ms : gmap Z (gmap Z Z)) (D : list Z) (Q : Z -> bool -> list waiter) (F : gmap Z Z).
Context (y : tcb_t) (c : pcb_t) (pid_ status my_node nxt : Z) (counted : bool) (W : gmap Z wait_node_t).
Hypothesis Hf : family idle s V (cn, ct) Ms D Q F.
Hypothesis Hc : current s V cn ct y c.
Hypothesis HF : F !! ct = if counted then Some (process y) else None.
Hypothesis HW : forall q b w, w ∈ Q q b -> w.1 <> my_node /\ W !! w.1 = p_waits s !! w.1.
Hypothesis HWm : W !! my_node = Some (mk_wait cn pid_ nxt) /\ my_node <> 0.
#[local] Notation p := (process y).

Lemma queued_other q b w : w ∈ Q q b -> w.2.2 <> ct.
Proof.
  destruct w as [a [n t]]. intros Hin. destruct (wo_in _ _ _ _ _ _ _ (fa_waits _ _ _ _ _ _ _ _ Hf) q b a n t Hin) as (x & d & Hx & _).
  apply (core_other idle (p_sched s) V ct y n t x); [apply Hc|done].
Qed.

Lemma calls_range q : 0 <= calls F q < 4294967000.
Proof.
  pose proof (calls_bound F q). destruct Hf as [[[l [Hq _ _ _]] _ _ _ _ _] _ _ _ Hw _ _ _ _]. pose proof (qi_bound _ _ _ _ Hq).
  enough (base.size F <= base.size (tcbs (p_sched s)))%nat by lia. rewrite <- !size_dom. apply subseteq_size. intros t. rewrite !elem_of_dom.
  intros [r Hr]. destruct (wo_calls _ _ _ _ _ _ _ Hw t r Hr) as (z & Hz & _). by exists z.
Qed.

Lemma calls_left q : calls (delete ct F) q = calls F q - (if counted && bool_decide (q = p) then 1 else 0).
Proof.
  destruct counted; [rewrite (calls_delete F ct p q HF)|rewrite delete_id by done; cbn; lia].
  case_decide as He; [subst; by rewrite bool_decide_true|rewrite bool_decide_false by congruence; done].
Qed.

Lemma count_is : waiting_threads_count c = calls F p.
Proof. apply (wo_count _ _ _ _ _ _ _ (fa_waits _ _ _ _ _ _ _ _ Hf)). apply Hc. Qed.

(** The block of the process when the call has returned. *)
Definition left_pcb : pcb_t := with_count c (calls (delete ct F) p).

Lemma release_ok (s1 : pstate H) : p_procs s1 = <[p := with_plock c LOCKED_YES]> (p_procs s) ->
  exists s2, uncount s1 p counted = Ok s2 /\ unlock_process s2 p = Ok (with_procs s1 (<[p := left_pcb]> (p_procs s))).
Proof.
  intros Hp. eexists. split.
  - apply uncount_ok with (c := with_plock c LOCKED_YES); [by rewrite Hp, lookup_insert_eq|..]; cbn; rewrite count_is.
    + pose proof (calls_range p). lia.
    + intros E. pose proof HF as HF'. rewrite E in HF'. by apply (calls_positive F ct).
  - rewrite (unlock_process_ok _ p _ (set_pcb_eq _ _ _)). f_equal. unfold set_pcb, with_procs. cbn. rewrite Hp, !insert_insert_eq.
    f_equal. f_equal. unfold left_pcb. rewrite calls_left, bool_decide_true, andb_true_r by done. pose proof (cu_lock _ _ _ _ _ _ Hc) as El.
    unfold with_plock, with_count in *. rewrite <- count_is, <- El. by destruct c.
Qed.

Lemma left_tree : same_tree (p_procs s) (<[p := left_pcb]> (p_procs s)).
Proof. apply (same_tree_set _ _ c); [apply Hc|done..]. Qed.

Lemma left_live q d any : <[p := left_pcb]> (p_procs s) !! q = Some d -> pstatus d <> PROCESS_NORMAL -> Q q any = [].
Proof.
  rewrite lookup_insert_Some. intros [[<- <-]|[_ Hd]]; [|by apply (fa_live _ _ _ _ _ _ _ _ Hf q)].
  intros Hn. destruct Hn. apply (cu_alive _ _ _ _ _ _ Hc).
Qed.
Lemma left_locks q d : <[p := left_pcb]> (p_procs s) !! q = Some d -> plock d = LOCKED_NO.
Proof. rewrite lookup_insert_Some. intros [[<- <-]|[_ Hd]]; [apply Hc|by apply (fa_locks _ _ _ _ _ _ _ _ Hf q)]. Qed.

(** The queues when the call has returned, the scheduler having gone on to [x'] and [V']. *)
Lemma left_waits x' V' : (forall n t z, asleep idle (p_sched s) V n t z -> asleep idle x' V' n t z) ->
  threads_kept (tcbs (p_sched s)) (tcbs x') -> waits_ok idle x' V' (<[p := left_pcb]> (p_procs s)) W Q (delete ct F).
Proof.
  intros Hs Hk. apply (waits_ok_set idle (p_sched s) x' V V' _ (p_waits s) W Q F _ _ c _ ct); try done.
  - apply Hf.
  - apply Hc.
  - intros t Ht. by rewrite lookup_delete_ne.
  - intros q Hq. rewrite calls_left, bool_decide_false, andb_false_r by done. lia.
  - intros q. by rewrite lookup_delete_eq.
  - intros q b w Hin. split; [by apply (queued_other q b)|by apply (HW q b)].
  - intros n t z Hz _. by apply Hs.
Qed.

Lemma no_child_ok (s1 : pstate H) : p_procs s1 = <[p := with_plock c LOCKED_YES]> (p_procs s) -> p_waits s1 = W ->
  p_sched s1 = p_sched s -> p_tabs s1 = p_tabs s -> p_threads s1 = p_threads s -> p_init s1 = p_init s ->
  exists s2, no_child s1 p counted = Ok (Returned (-1), s2) /\ family idle s2 V (cn, ct) Ms D Q (delete ct F) /\
    p_tabs s2 = p_tabs s /\ p_mem s2 = p_mem s1.
Proof.
  intros Hp1 Hw1 Hs1 Ht1 Hth1 Hi1. unfold no_child. destruct (release_ok s1 Hp1) as (s2 & -> & E). cbn [res_bind]. rewrite E. cbn [res_bind].
  eexists. split; [reflexivity|]. split; [|done].
  apply (family_change s _ V _ (cn, ct) _ Ms _ D _ Q _ F); try done; cbn.
  - apply left_tree.
  - rewrite Ht1. apply Hf.
  - apply (tree_ok_same (p_procs s)); [apply left_tree|apply Hf].
  - rewrite Hs1. apply Hf.
  - rewrite Hs1. apply threads_kept_refl.
  - apply Hf.
  - rewrite Hs1, Hw1. apply left_waits; [done|apply threads_kept_refl].
  - apply left_live.
  - apply left_locks.
Qed.

Lemma reap_ok (s1 : pstate H) L Ls M Zs k q d n : p_procs s1 = <[p := with_plock c LOCKED_YES]> (p_procs s) -> p_waits s1 = W ->
  p_sched s1 = p_sched s -> p_threads s1 = p_threads s -> p_init s1 = p_init s ->
  Ms !! children_at p = Some M -> Ms !! exit_children_at p = Some Zs -> ct_holds (p_tabs s1) L (<[exit_children_at p := delete k Zs]> Ms) Ls ->
  Ls !! dead_processes = Some D -> is_child (p_procs s) D p k q -> p_procs s !! q = Some d -> pstatus d = PROCESS_EXIT -> ct_room (p_tabs s1) (S n) ->
  (reap s1 p q status counted = Err Panic /\ heap_fails (H:=H)) \/
  exists s2 V', reap s1 p q status counted = Ok (Returned 0, s2) /\ spec_notify V dead_cv = Some V' /\
    family idle s2 V' (cn, ct) (<[children_at p := delete k M]> (<[exit_children_at p := delete k Zs]> Ms)) (D ++ [q]) Q (delete ct F) /\
    ct_room (p_tabs s2) n /\ p_mem s2 = (if status =? 0 then p_mem s1 else store32 (p_mem s1) status (u32 (exit_code d))).
Proof.
  intros Hp1 Hw1 Hs1 Hth1 Hi1 HM HZ Hh HLs Hch Hd Hst Hroom. pose proof Hf as [Hrel [_ [dv Hdv]] _ Htree _ _ _ _ Hmax].
  assert (alive (p_procs s) p) as Ha by (exists c; split; apply Hc). assert (exited (p_procs s) q) as Hex by (by exists d).
  pose proof (alive_not_exited _ _ _ Ha Hex) as Hpq. destruct (tr_pcb _ _ _ _ Htree q d Hd) as [Hq0 _].
  destruct (tables_differ _ _ _ _ p p Htree (alive_some _ _ Ha) (alive_some _ _ Ha)) as (_ & _ & A1 & _).
  unfold reap. replace (q =? 0) with false by (symmetry; zbool). cbn [negb].
  rewrite (get_pcb_ok s1 q d) by (by rewrite Hp1, lookup_insert_ne). cbn [res_bind].
  destruct Hch as (d' & Hd' & Hk & Hpar & HqD). assert (d' = d) as -> by congruence. rewrite Hk.
  destruct (table_remove_ok s1 L _ Ls (children_at p) M k (S n) Hh ltac:(by rewrite lookup_insert_ne by congruence) Hroom) as (h & E & Hh2 & Hroom2). rewrite E. cbn [res_bind].
  assert (M !! k = Some q) as HMk. { destruct (tr_children _ _ _ _ Htree p Ha) as (M' & HM' & Hv). assert (M' = M) as -> by congruence. apply Hv. by exists d. }
  rewrite HMk. change (default 0 (Some q)) with q. rewrite Z.eqb_refl.
  set (s2 := if negb (status =? 0) then _ else _).
  assert (p_procs s2 = <[p := with_plock c LOCKED_YES]> (p_procs s) /\ p_waits s2 = W /\ p_sched s2 = p_sched s /\ p_threads s2 = p_threads s /\ p_init s2 = p_init s /\ p_tabs s2 = h /\
    p_mem s2 = (if status =? 0 then p_mem s1 else store32 (p_mem s1) status (u32 (exit_code d)))) as (P1 & P2 & P3 & P4 & P5 & P6 & P7) by (subst s2; by destruct (status =? 0)).
  destruct (release_ok s2 P1) as (s3 & -> & E3). cbn [res_bind]. rewrite E3. cbn [res_bind].
  pose proof Hrel as [[l Hinv] _ _ _ _ _]. pose proof Hinv as [_ [El _] _ _]. cbn in El.
  destruct (notify_defined V l dv El Hdv) as (V' & EV & HdV).
  destruct (add_dead_process_ok (with_procs s2 (<[p := left_pcb]> (p_procs s))) V (cn, ct) L (<[children_at p := delete k M]> (<[exit_children_at p := delete k Zs]> Ms)) Ls D q n V') as [[-> Hno]|(x' & h' & E5 & Hh5 & Hroom5 & Hrel5 & Hk5 & Hs5)]; try done; cbn.
  - by rewrite P3.
  - by rewrite P6.
  - assert (length D <= base.size (p_procs s))%nat; [|lia]. rewrite <- size_dom. rewrite <- (size_list_to_set (C := gset Z) D) by apply Htree. apply subseteq_size.
    intros r. rewrite elem_of_list_to_set, elem_of_dom. intros Hr. destruct (tr_dead _ _ _ _ Htree r Hr) as (e & He & _). by exists e.
  - by rewrite P6.
  - by left.
  - right. rewrite E5. cbn [res_bind]. eexists _, V'. split; [reflexivity|]. split; [done|]. split; [|done].
    cbn in Hk5, Hs5. rewrite P3 in Hk5, Hs5.
    apply (family_change s _ V _ (cn, ct) _ Ms _ D _ Q _ F); try done; cbn.
    + apply left_tree.
    + eexists _, _. split; [exact Hh5|]. apply lookup_insert_eq.
    + apply (tree_ok_same (p_procs s)); [apply left_tree|]. apply tree_ok_reap; try done. by exists d.
    + intros r Hr. destruct (tables_differ _ _ _ _ r p Htree (alive_some _ _ Hr) (alive_some _ _ Ha)) as (B1 & B2 & _). by rewrite !lookup_insert_ne by congruence.
    + by apply (notify_dead V dead_cv).
    + rewrite P2. by apply left_waits.
    + apply left_live.
    + apply left_locks.
Qed.

Lemma calls_entered q : calls (<[ct := p]> F) q = calls F q + (if negb counted && bool_decide (q = p) then 1 else 0).
Proof.
  destruct counted; [rewrite insert_id by done; cbn; lia|]. rewrite calls_insert by done.
  case_decide as He; [subst; by rewrite bool_decide_true|rewrite bool_decide_false by congruence; done].
Qed.

(** The block of the process with the call counted, and the queue the node goes to. *)
Definition entered_pcb : pcb_t := with_count c (calls (<[ct := p]> F) p).
Definition entered : gmap Z pcb_t := <[p := entered_pcb]> (p_procs s).

Lemma count_up (s1 : pstate H) : p_procs s1 = <[p := with_plock c LOCKED_YES]> (p_procs s) ->
  exists s2, (if counted then Ok s1 else upd_pcb s1 p (fun c => with_count c (u32 (waiting_threads_count c + 1)))) = Ok s2 /\
    s2 = with_procs s1 (<[p := with_plock entered_pcb LOCKED_YES]> (p_procs s)).
Proof.
  intros Hp. eexists. split; [|reflexivity]. unfold entered_pcb. rewrite calls_entered, bool_decide_true, andb_true_r by done.
  pose proof (calls_range p). destruct counted; cbn [negb].
  - rewrite Z.add_0_r, <- count_is. replace (with_count c (waiting_threads_count c)) with c by (by destruct c). rewrite <- Hp. by destruct s1.
  - rewrite (upd_pcb_ok s1 p _ (with_plock c LOCKED_YES)) by (by rewrite Hp, lookup_insert_eq). cbn [waiting_threads_count with_plock].
    rewrite count_is, u32_small by lia. unfold set_pcb. by rewrite Hp, insert_insert_eq.
Qed.

Lemma enqueue_wait_ok (s1 : pstate H) L Ls M q any : p_procs s1 = <[p := with_plock c LOCKED_YES]> (p_procs s) -> p_waits s1 = W ->
  Ms !! children_at p = Some M -> ct_holds (p_tabs s1) L Ms Ls ->
  (pid_ = 0 /\ q = p /\ any = true \/ 0 < pid_ /\ any = false /\ M !! pid_ = Some q /\ q <> p /\ is_Some (p_procs s !! q)) ->
  exists s2 d, enqueue_wait s1 p pid_ my_node counted = Ok (true, s2) /\ entered !! q = Some d /\
    p_waits s2 = <[my_node := mk_wait cn pid_ (queue_head any d)]> W /\ p_sched s2 = p_sched s1 /\ p_tabs s2 = p_tabs s1 /\
    p_threads s2 = p_threads s1 /\ p_init s2 = p_init s1 /\ p_mem s2 = p_mem s1 /\
    exists cl, p_procs s2 !! p = Some cl /\ <[p := with_plock cl LOCKED_NO]> (p_procs s2) = <[q := set_queue_head any d my_node]> entered.
Proof.
  intros Hp1 Hw1 HM Hh Hq. pose proof (cu_lock _ _ _ _ _ _ Hc) as El. destruct HWm as [HWm1 Hm0]. unfold enqueue_wait.
  destruct (count_up s1 Hp1) as (s2 & -> & ->). cbn [res_bind]. unfold get_wait. cbn [p_waits with_procs]. rewrite Hw1, HWm1. cbn [res_bind task target_pid].
  destruct Hq as [(-> & -> & ->)|(Hpos & -> & HMq & Hqp & [d Hd])].
  - cbn [Z.eqb]. rewrite (get_pcb_ok _ p (with_plock entered_pcb LOCKED_YES)) by apply lookup_insert_eq. cbn [res_bind].
    eexists _, entered_pcb. split; [reflexivity|]. split; [apply lookup_insert_eq|]. cbn. rewrite ?Hw1. repeat (split; [done|]).
    eexists. split; [apply lookup_insert_eq|]. unfold entered. rewrite !insert_insert_eq. f_equal. unfold entered_pcb, with_waiters, with_plock, with_count in *. cbn. by rewrite El.
  - replace (pid_ =? 0) with false by (symmetry; zbool). replace (pid_ >? 0) with true by (symmetry; zbool).
    cbn [p_tabs with_procs]. rewrite (tb_get_law _ L Ms Ls _ M pid_ Hh HM). cbn [res_bind]. rewrite HMq. change (default 0 (Some q)) with q.
    set (s2 := with_procs s1 _).
    rewrite (lock_process_ok s2 q d); [|by subst s2; cbn; rewrite lookup_insert_ne|by apply (fa_locks _ _ _ _ _ _ _ _ Hf q)]. cbn [res_bind].
    rewrite (get_pcb_ok _ q _ (set_pcb_eq _ q _)). cbn [res_bind]. rewrite (unlock_process_ok _ q _ (set_pcb_eq _ q _)). cbn [res_bind].
    eexists _, d. split; [reflexivity|]. split; [by unfold entered; rewrite lookup_insert_ne|]. cbn. rewrite ?Hw1. repeat (split; [done|]).
    eexists. split; [by rewrite !lookup_insert_ne, lookup_insert_eq by congruence|]. rewrite !insert_insert_eq.
    rewrite (insert_insert_ne _ p q) by done. rewrite insert_insert_eq. unfold entered. f_equal.
    + unfold with_waiters, with_plock. cbn. f_equal. symmetry. by apply (fa_locks _ _ _ _ _ _ _ _ Hf q).
    + f_equal. unfold entered_pcb, with_plock, with_count in *. cbn. by rewrite El.
Qed.

Lemma entered_tree q d any : entered !! q = Some d -> same_tree (p_procs s) (<[q := set_queue_head any d my_node]> entered).
Proof.
  intros Hd. eapply same_tree_trans; [apply (same_tree_set _ p c entered_pcb); [apply Hc|done..]|].
  apply (same_tree_set _ _ d); [done|..]; by destruct any.
Qed.

Lemma block_ok (s1 : pstate H) L Ls M q any : p_procs s1 = <[p := with_plock c LOCKED_YES]> (p_procs s) -> p_waits s1 = W ->
  p_sched s1 = p_sched s -> p_threads s1 = p_threads s -> p_init s1 = p_init s -> cn <> idle.1 ->
  Ms !! children_at p = Some M -> ct_holds (p_tabs s1) L Ms Ls -> Ls !! dead_processes = Some D ->
  (pid_ = 0 /\ q = p /\ any = true \/ 0 < pid_ /\ any = false /\ M !! pid_ = Some q /\ q <> p /\ alive (p_procs s) q) ->
  exists s2 s3 s4 s5 w', enqueue_wait s1 p pid_ my_node counted = Ok (true, s2) /\ on_sched s2 schedule_mark_thread_block = Ok s3 /\
    unlock_process s3 p = Ok s4 /\ on_sched s4 schedule_thread_yield = Ok s5 /\ spec_switch idle V [] = Some w' /\
    family idle s5 w'.1 w'.2 Ms D (pushed Q q any (my_node, (cn, ct))) (<[ct := p]> F) /\ p_tabs s5 = p_tabs s1 /\ p_mem s5 = p_mem s1.
Proof.
  intros Hp1 Hw1 Hs1 Hth1 Hi1 Hni HM Hh HLs Hq. pose proof Hf as [Hrel [_ Hdv] _ Htree Hwait _ Hlive Hlk _].
  destruct (enqueue_wait_ok s1 L Ls M q any Hp1 Hw1 HM Hh) as (s2 & d & E2 & Hd & Hw2 & Hs2 & Ht2 & Hth2 & Hi2 & Hm2 & cl & Hcl & HP).
  { destruct Hq as [|(? & ? & ? & ? & Ha)]; [by left|right]. repeat (split; [done|]). by apply alive_some. }
  destruct (sleep_core idle (p_sched s) V ct y) as (x1 & x2 & w' & Ex1 & Ex2 & Esw & Hrel2 & Hk & (z & Hz & Hpz) & Hsl); [apply Hc|apply Hc|by rewrite (cu_node _ _ _ _ _ _ Hc)|].
  rewrite <- Hs1, <- Hs2 in Ex1. rewrite (cu_node _ _ _ _ _ _ Hc) in Hz.
  assert (exists l, V !! ready_tasks = Some l) as [l El] by (destruct Hrel as [[l [_ [El _] _ _]] _ _ _ _ _]; by exists l).
  destruct (spec_switch_inv _ _ _ _ _ El Esw) as (next & rest & _ & Hw').
  eexists s2, (with_sched s2 x1), _, _, w'. split; [done|]. split; [unfold on_sched; by rewrite Ex1|].
  split; [apply (unlock_process_ok _ p cl); exact Hcl|]. split; [unfold on_sched; cbn [p_sched set_pcb with_procs with_sched]; by rewrite Ex2|].
  split; [done|]. split; [|by split].
  assert (pid d = pid_ \/ any = true /\ pid_ = 0) as Hpid.
  { destruct Hq as [(-> & _ & ->)|(_ & -> & HMq & Hqp & _)]; [by right|left]. destruct (tr_children _ _ _ _ Htree p) as (M' & HM' & Hv); [by exists c; split; apply Hc|].
    assert (M' = M) as -> by congruence. apply Hv in HMq as (d' & Hd' & Hk' & _). unfold entered in Hd. rewrite lookup_insert_ne in Hd by done. congruence. }
  assert (pstatus d = PROCESS_NORMAL /\ p = (if any then q else parent d)) as [Hst Hpar].
  { destruct Hq as [(_ & -> & ->)|(_ & -> & HMq & Hqp & (d' & Hd' & Hn))].
    - unfold entered in Hd. rewrite lookup_insert_eq in Hd. injection Hd as <-. split; [apply (cu_alive _ _ _ _ _ _ Hc)|done].
    - unfold entered in Hd. rewrite lookup_insert_ne in Hd by done. split; [congruence|]. destruct (tr_children _ _ _ _ Htree p) as (M' & HM' & Hv); [by exists c; split; apply Hc|].
      assert (M' = M) as -> by congruence. apply Hv in HMq as (d2 & Hd2 & _ & Hp2 & _). congruence. }
  apply (family_change s _ V _ (cn, ct) _ Ms _ D _ Q _ F); try done; cbn.
  - rewrite HP. by apply entered_tree.
  - congruence.
  - congruence.
  - exists L, Ls. by rewrite Ht2.
  - rewrite HP. apply (tree_ok_same (p_procs s)); [by apply entered_tree|done].
  - by rewrite <- surjective_pairing.
  - rewrite Hw'. cbn. by rewrite lookup_insert_ne.
  - rewrite Hw'. cbn. by rewrite lookup_insert_ne.
  - rewrite HP, Hw2. apply (waits_ok_push _ _ _ _ _ _ _ _ d _ _ _ _ z); try done.
    + unfold entered. apply (waits_ok_set idle (p_sched s) x2 V w'.1 _ (p_waits s) _ Q F _ p c entered_pcb ct); try done; [apply Hc|..].
      * intros t Ht. by rewrite lookup_insert_ne.
      * intros r Hr. rewrite calls_entered, bool_decide_false, andb_false_r by done. lia.
      * intros r. rewrite lookup_insert_eq. intros [= <-]. exists z. split; [apply Hz|done].
      * intros r b w Hin. split; [by apply (queued_other r b)|]. destruct (HW r b w Hin) as [Hn <-]. by rewrite lookup_insert_ne.
    + by rewrite Hpz.
    + by rewrite lookup_insert_eq, Hpz.
    + apply HWm.
    + rewrite lookup_insert_eq. do 2 f_equal. destruct Hpid as [Hpid|[-> ->]]; [|done]. destruct any; [|done]. destruct Hq as [(? & _)|(_ & ? & _)]; [done|done].
    + intros r b w Hin. by apply (queued_other r b).
  - intros r e b. rewrite HP, lookup_insert_Some. intros [[<- <-]|[Hne He]] Hn; [by destruct any|].
    unfold pushed. rewrite decide_False by naive_solver. unfold entered in He; apply lookup_insert_Some in He as [[_ <-]|[_ He]]; [|by apply (Hlive r e)].
    by destruct Hn; apply (cu_alive _ _ _ _ _ _ Hc).
  - intros r e. rewrite HP. rewrite lookup_insert_Some. intros [[<- <-]|[_ He]].
    + assert (plock d = LOCKED_NO); [|by destruct any]. unfold entered in Hd. apply lookup_insert_Some in Hd as [[_ <-]|[_ Hd]]; [apply Hc|by apply (Hlk q)].
    + unfold entered in He. apply lookup_insert_Some in He as [[_ <-]|[_ He]]; [apply Hc|by apply (Hlk r)].
Qed.

Lemma take_exited_ok (s1 : pstate H) L Ls Zs n : p_procs s1 = <[p := with_plock c LOCKED_YES]> (p_procs s) -> 0 <= pid_ ->
  Ms !! exit_children_at p = Some Zs -> ct_holds (p_tabs s1) L Ms Ls -> ct_room (p_tabs s1) n ->
  exists child h, take_exited s1 p pid_ = Ok (child, with_tabs s1 h) /\ ct_room h n /\
    (child = 0 /\ ct_holds h L Ms Ls /\ (forall k q, Zs !! k = Some q -> pid_ <> 0 /\ k <> pid_) \/
     exists k, Zs !! k = Some child /\ child <> 0 /\ (pid_ = 0 \/ k = pid_) /\ ct_holds h L (<[exit_children_at p := delete k Zs]> Ms) Ls).
Proof.
  intros Hp1 Hpid HZ Hh Hroom. pose proof Hf as [_ _ _ Htree _ _ _ _ _].
  assert (alive (p_procs s) p) as Ha by (exists c; split; apply Hc).
  destruct (tr_zombies _ _ _ _ Htree p Ha) as (Zs' & HZ' & Hv). assert (Zs' = Zs) as -> by congruence. clear HZ'.
  assert (forall k q, Zs !! k = Some q -> q <> 0 /\ q <> p /\ exists d, p_procs s !! q = Some d /\ pid d = k) as Hval.
  { intros k q [(d & Hd & Hk & _) He]%Hv. split; [by apply (tr_pcb _ _ _ _ Htree q d)|]. split; [apply not_eq_sym; by apply (alive_not_exited (p_procs s))|by exists d]. }
  unfold take_exited. rewrite (tb_size_law _ L Ms Ls _ Zs Hh HZ). cbn [res_bind]. destruct (decide (Zs = ∅)) as [->|Hne].
  { rewrite map_size_empty. exists 0, (p_tabs s1). split; [by destruct s1|]. split; [done|]. left. split; [done|]. split; [done|]. by intros k q ?%lookup_empty_Some. }
  assert (base.size Zs <> 0)%nat by (intros Hz; apply Hne; by apply map_size_empty_inv).
  replace (Z.of_nat (base.size Zs) >? 0) with true by (symmetry; apply Z.gtb_lt; lia). destruct (pid_ =? 0) eqn:E0.
  - apply Z.eqb_eq in E0. destruct (tb_first_law _ L Ms Ls _ Zs Hh HZ Hne) as (k & q & Hk & ->). cbn [res_bind].
    destruct (Hval k q Hk) as (Hq0 & Hqp & d & Hd & Hpd). replace (q =? 0) with false by (symmetry; zbool). cbn [negb].
    rewrite (get_pcb_ok s1 q d) by (by rewrite Hp1, lookup_insert_ne). cbn [res_bind]. rewrite Hpd.
    destruct (table_remove_ok s1 L Ms Ls _ Zs k n Hh HZ Hroom) as (h & -> & Hh' & Hroom'). cbn [res_bind]. rewrite Hk. change (default 0 (Some q)) with q.
    replace (q =? 0) with false by (symmetry; zbool). cbn [negb]. exists q, h. split; [done|]. split; [done|]. right. exists k. by auto.
  - apply Z.eqb_neq in E0. destruct (table_remove_ok s1 L Ms Ls _ Zs pid_ n Hh HZ Hroom) as (h & -> & Hh' & Hroom'). exists (default 0 (Zs !! pid_)), h. split; [done|]. split; [done|].
    destruct (Zs !! pid_) as [q|] eqn:Eq.
    + right. exists pid_. destruct (Hval _ _ Eq) as (Hq0 & _). by auto.
    + left. split; [done|]. rewrite delete_id in Hh' by done. rewrite insert_id in Hh' by done. split; [done|]. intros k q Hk. split; [done|congruence].
Qed.

Lemma wait_round_ok (s1 : pstate H) n : p_procs s1 = <[p := with_plock c LOCKED_YES]> (p_procs s) -> p_waits s1 = W -> p_tabs s1 = p_tabs s ->
  p_sched s1 = p_sched s -> p_threads s1 = p_threads s -> p_init s1 = p_init s -> p_mem s1 = p_mem s ->
  cn <> idle.1 -> 0 <= pid_ -> ct_room (p_tabs s) (S n) ->
  wait_outcome (p_procs s) (p_mem s) V (cn, ct) Ms D Q F p pid_ status my_node n (wait_round s1 p pid_ status my_node counted false).
Proof.
  intros Hp1 Hw1 Ht1 Hs1 Hth1 Hi1 Hm1 Hni Hpid Hroom. pose proof Hf as [_ _ (L & Ls & Hh & HLs) Htree _ _ _ _ _].
  assert (alive (p_procs s) p) as Ha by (exists c; split; apply Hc).
  destruct (tr_children _ _ _ _ Htree p Ha) as (M & HM & HvM), (tr_zombies _ _ _ _ Htree p Ha) as (Zs & HZ & HvZ).
  assert ((forall q, ~ eligible (p_procs s) D p pid_ q) ->
    wait_outcome (p_procs s) (p_mem s) V (cn, ct) Ms D Q F p pid_ status my_node n (no_child s1 p counted)) as Hnone.
  { intros Hno. destruct (no_child_ok s1 Hp1 Hw1 Hs1 Ht1 Hth1 Hi1) as (s2 & -> & Hf2 & Ht2 & Hm2). apply Wait_no_child; try done; [|congruence].
    rewrite Ht2. by apply (ct_room_law). }
  unfold wait_round. rewrite Ht1, (tb_size_law _ L Ms Ls _ M Hh HM). cbn [res_bind]. destruct (Z.of_nat (base.size M) =? 0) eqn:Esz.
  { apply Hnone. intros q (k & Hch & _). apply HvM in Hch. assert (M = ∅) as -> by (apply map_size_empty_inv; apply Z.eqb_eq in Esz; lia). by apply lookup_empty_Some in Hch. }
  rewrite (tb_get_law _ L Ms Ls _ M pid_ Hh HM). cbn [res_bind].
  assert ((if pid_ >? 0 then Ok (negb (default 0 (M !! pid_) =? 0)) else Ok true) = Ok (bool_decide (pid_ = 0 \/ is_Some (M !! pid_)))) as ->.
  { destruct (pid_ >? 0) eqn:E; [|rewrite bool_decide_true; [done|left; rewrite Z.gtb_ltb in E; apply Z.ltb_ge in E; lia]]. f_equal. destruct (M !! pid_) as [q|] eqn:Eq; cbn.
    - rewrite bool_decide_true by (right; by eexists). apply HvM in Eq as (d & Hd & _). destruct (tr_pcb _ _ _ _ Htree q d Hd) as [Hq0 _]. apply negb_true_iff. zbool.
    - rewrite bool_decide_false; [done|]. rewrite Z.gtb_ltb in E. apply Z.ltb_lt in E. intros [?|[? ?]]; [lia|done]. }
  cbn [res_bind]. case_bool_decide as Hkn; cbn [negb].
  2:{ apply Hnone. intros q (k & Hch & Hor). apply HvM in Hch. apply Hkn. destruct Hor as [|<-]; [by left|right; by eexists]. }
  destruct (take_exited_ok s1 L Ls Zs (S n) Hp1 Hpid HZ) as (child & h & -> & Hroom1 & Hch); [by rewrite Ht1|by rewrite Ht1|]. cbn [res_bind].
  destruct Hch as [(-> & Hh1 & Hno)|(k & Hk & Hc0 & Hor & Hh1)]; cbn [Z.eqb negb].
  - assert (exists q any, (pid_ = 0 /\ q = p /\ any = true /\ (exists q, eligible (p_procs s) D p pid_ q) \/ 0 < pid_ /\ any = false /\ M !! pid_ = Some q)) as (q & any & Hq).
    { destruct Hkn as [Hz|[q Hq]].
      - exists p, true. left. split; [done|]. split; [done|]. split; [done|]. destruct (map_choose M) as (k & q & Hk); [intros ->; by rewrite map_size_empty in Esz|].
        apply HvM in Hk. exists q, k. by auto.
      - destruct (decide (pid_ = 0)) as [Hz|Hz]; [|exists q, false; right; split; [lia|done]].
        exists p, true. left. split; [done|]. split; [done|]. split; [done|]. apply HvM in Hq. exists q, pid_. by auto. }
    assert (forall q, eligible (p_procs s) D p pid_ q -> ~ exited (p_procs s) q) as Hne.
    { intros r (k & Hch & Hor) He. destruct (Hno k r) as [Hz1 Hz2]; [by apply HvZ|]. by destruct Hor. }
    assert (pid_ = 0 /\ q = p /\ any = true \/ 0 < pid_ /\ any = false /\ M !! pid_ = Some q /\ q <> p /\ alive (p_procs s) q) as Hq2.
    { destruct Hq as [(? & ? & ? & _)|(Hpos & ? & HMq)]; [by left|right]. pose proof (proj1 (HvM _ _) HMq) as Hchq. pose proof Hchq as (d & Hd & Hkd & Hpd & HqD).
      repeat (split; [done|]). destruct (tr_pcb _ _ _ _ Htree q d Hd) as (_ & _ & Hnz). split.
      - intros ->. destruct (tr_parent _ _ _ _ Htree p d Hd HqD) as [Hz|[_ Hz]]; [|by rewrite Hpd in Hz]. pose proof (cu_zero _ _ _ _ _ _ Hc). congruence.
      - exists d. split; [done|]. destruct (pstatus d) eqn:Est; [done| |done]. destruct (Hne q); [exists pid_; by auto|by exists d]. }
    destruct (block_ok (with_tabs s1 h) L Ls M q any) as (s2 & s3 & s4 & s5 & w' & E2 & E3 & E4 & E5 & Esw & Hf5 & Ht5 & Hm5); try done.
    rewrite E2. cbn [res_bind]. rewrite E3. cbn [res_bind]. rewrite E4. cbn [res_bind]. rewrite E5. cbn [res_bind].
    apply (Wait_blocked _ _ _ _ _ _ _ _ _ _ _ _ _ s5 w' q any); try done.
    + destruct Hq as [|(Hpos & ? & HMq)]; [by left|right]. split; [done|]. split; [done|]. exists pid_. apply HvM in HMq. by auto.
    + rewrite Ht5. by apply ct_room_law.
    + by rewrite Hm5.
  - replace (child =? 0) with false by (symmetry; zbool). cbn [negb]. apply HvZ in Hk as [Hch (d & Hd & Hst)].
    destruct (reap_ok (with_tabs s1 h) L Ls M Zs k child d n) as [[-> Hno]|(s2 & V' & -> & EV & Hf2 & Hroom2 & Hm2)]; try done.
    + apply (Wait_no_memory _ _ _ _ _ _ _ _ _ _ _ _ _ child); [exists k; by auto|by exists d|done].
    + eapply (Wait_reaped _ _ _ _ _ _ _ _ _ _ _ _ _ s2 V' _ child d); try done; [exists k; by auto|]. rewrite Hm2. cbn. by rewrite Hm1.
Qed.
End ROUND.
End WAIT.
