(* ===== verification/ProcessExit.v ===== *)
(** Properties of the exit of a process: adoption of its children, the wake-up of those
    that wait for it, and its last switch, as steps that keep [family]. *)
From S2P Require Import Prelude BitMap LinkedList Sched SchedSpec SchedProps Memory Page Containers Process ProcessSpec.

(** ** Queues of waiting threads *)

(** The queue [Q q any] is woken. *)
Definition cleared (Q : Z -> bool -> list waiter) (q : Z) (any : bool) : Z -> bool -> list waiter :=
  fun r b => if decide (r = q /\ b = any) then [] else Q r b.

Lemma cleared_elem Q q any r b w : w ∈ cleared Q q any r b -> w ∈ Q r b /\ ~ (r = q /\ b = any).
Proof. unfold cleared. case_decide; [by intros ?%not_elem_of_nil|done]. Qed.

(** The same queues: what the blocks say of the waiting threads. *)
Definition same_queues (Q : Z -> bool -> list waiter) (P P' : gmap Z pcb_t) : Prop := forall q,
  match P !! q, P' !! q with
  | None, None => True
  | Some c, Some c' => pid c' = pid c /\ (forall any, queue_head any c' = queue_head any c) /\
      waiting_threads_count c' = waiting_threads_count c /\ (parent c' = parent c \/ Q q false = [])
  | _, _ => False
  end.

Lemma same_queues_get Q P P' q c' : same_queues Q P P' -> P' !! q = Some c' -> exists c, P !! q = Some c /\ pid c' = pid c /\
  (forall any, queue_head any c' = queue_head any c) /\ waiting_threads_count c' = waiting_threads_count c /\ (parent c' = parent c \/ Q q false = []).
Proof. intros Hs E. specialize (Hs q). rewrite E in Hs. destruct (P !! q) as [c|]; [by exists c|done]. Qed.

Lemma waits_ok_queues idle x V P P' W Q F : same_queues Q P P' -> waits_ok idle x V P W Q F -> waits_ok idle x V P' W Q F.
Proof.
  intros Hs [W1 W2 W3 W4 W5 W6]. split; try done.
  - intros q c' any Hc'. destruct (same_queues_get _ _ _ _ _ Hs Hc') as (c & Hc & -> & -> & _). by apply W1.
  - intros q any a n t Hin. destruct (W2 q any a n t Hin) as (y & c & Hy & Hc & Hp & HF). specialize (Hs q). rewrite Hc in Hs.
    destruct (P' !! q) as [c'|] eqn:E; [|done]. destruct Hs as (_ & _ & _ & Hpar). exists y, c'. split; [done|]. split; [done|]. split; [|done].
    destruct any; [done|]. destruct Hpar as [->|Hn]; [done|]. rewrite Hn in Hin. by apply not_elem_of_nil in Hin.
  - intros q c' Hc'. destruct (same_queues_get _ _ _ _ _ Hs Hc') as (c & Hc & _ & _ & -> & _). by apply W6.
Qed.

Section WAKING.
Context {H : Type} {HC : Containers H} {HL : ContainersLaws H} (idle : Z * Z).

(** Waking a whole queue: its threads are made ready, and the rest is as it was. *)
Lemma wake_queue_ok any fuel (s : pstate H) V ct y Q F q c :
  sched_core idle (p_sched s) V ct y -> waits_ok idle (p_sched s) V (p_procs s) (p_waits s) Q F -> p_procs s !! q = Some c ->
  (length (Q q any) < fuel)%nat ->
  exists x', wake_all fuel any s q = Ok (set_pcb (with_sched s x') q (set_queue_head any c 0)) /\
    sched_core idle x' (made_ready V (Q q any).*2) ct y /\ same_cpu (p_sched s) x' /\ threads_kept (tcbs (p_sched s)) (tcbs x') /\
    waits_ok idle x' (made_ready V (Q q any).*2) (<[q := set_queue_head any c 0]> (p_procs s)) (p_waits s) (cleared Q q any) F.
Proof.
  intros Hco Hw Hq Hf. pose proof Hw as [W1 W2 W3 W4 W5 W6].
  destruct (wake_all_ok idle any fuel (Q q any) s V q c ct y) as (x' & E & Hco' & Hcpu & Hk & Hfr); try done; [by apply W1| |].
  { intros a n t Hin. destruct (W2 q any a n t Hin) as (z & _ & Hz & _). by exists z. }
  exists x'. split; [done|]. split; [done|]. split; [done|]. split; [done|].
  assert (forall r b a n t, (a, (n, t)) ∈ cleared Q q any r b -> t ∉ (Q q any).*2.*2) as Hnot.
  { intros r b a n t [Hin Hne]%cleared_elem. rewrite <- list_fmap_compose. intros (w & Hw2 & Hin2)%list_elem_of_fmap. cbn in Hw2.
    destruct (W3 r b q any (a, (n, t)) w Hin Hin2 Hw2) as [-> ->]. by apply Hne. }
  assert (forall b, pid (set_queue_head b c 0) = pid c /\ parent (set_queue_head b c 0) = parent c /\ waiting_threads_count (set_queue_head b c 0) = waiting_threads_count c) as Hsame by (by intros []).
  split.
  - intros r d b. rewrite lookup_insert_Some. unfold cleared. intros [[<- <-]|[Hne Hd]].
    + case_decide as Hd; [destruct Hd as [_ ->]; cbn; by destruct any|]. destruct (Hsame any) as (-> & _).
      replace (queue_head b (set_queue_head any c 0)) with (queue_head b c); [by apply W1|]. destruct b, any; try done; by destruct Hd.
    + rewrite decide_False by naive_solver. by apply W1.
  - intros r b a n t Hin. pose proof (Hnot _ _ _ _ _ Hin) as Hnt. apply cleared_elem in Hin as [Hin Hne].
    destruct (W2 r b a n t Hin) as (z & d & Hz & Hd & Hp & HF). exists z. 
    assert (asleep idle x' (made_ready V (Q q any).*2) n t z) as Hz'.
    { apply (asleep_other idle (p_sched s) x' V); [done|by apply Hfr|]. destruct (core_ready _ _ _ _ _ Hco) as [l0 El].
      apply (made_ready_unqueued V _ l0); [done|apply Hz|]. rewrite <- list_fmap_compose. intros ([a2 [n2 t2]] & Hn2 & Hin2)%list_elem_of_fmap. cbn in Hn2. subst n2.
      destruct (W2 q any a2 n t2 Hin2) as (z2 & _ & Hz2 & _). destruct (decide (t = t2)) as [->|Hne2].
      - apply Hnt. rewrite <- list_fmap_compose. apply list_elem_of_fmap. by exists (a2, (n, t2)).
      - apply (node_apart idle (p_sched s) V ct y t z t2 z2 Hco); [apply Hz|apply Hz2|done|]. by rewrite (as_node _ _ _ _ _ _ Hz), (as_node _ _ _ _ _ _ Hz2). }
    destruct (decide (r = q)) as [->|Hr].
    + assert (d = c) as -> by congruence. exists (set_queue_head any c 0). rewrite lookup_insert_eq. destruct (Hsame any) as (_ & -> & _). done.
    + exists d. by rewrite lookup_insert_ne.
  - intros p1 b1 p2 b2 w1 w2 [? _]%cleared_elem [? _]%cleared_elem. by apply W3.
  - intros r b. unfold cleared. case_decide; [apply NoDup_nil_2|done].
  - intros t r Ht. destruct (W5 t r Ht) as (z & Hz & Hpz). specialize (Hk t). rewrite Hz in Hk. destruct (tcbs x' !! t) as [z'|] eqn:Ez; [|done].
    exists z'. split; [done|]. destruct Hk. congruence.
  - intros r d. rewrite lookup_insert_Some. intros [[<- <-]|[Hne Hd]]; [|by apply W6]. destruct (Hsame any) as (_ & _ & ->). by apply W6.
Qed.
End WAKING.

(** ** Adoption *)
Section ADOPTION.
Context (P : gmap Z pcb_t) (Ms : gmap Z (gmap Z Z)) (D : list Z) (p i : Z) (M Zs Mi Zi : gmap Z Z).
Hypothesis Ht : tree_ok P Ms D i.
Hypothesis Hp : alive P p.
Hypothesis Hne : p <> i.
Hypothesis HM : Ms !! children_at p = Some M.
Hypothesis HZ : Ms !! exit_children_at p = Some Zs.
Hypothesis HMi : Ms !! children_at i = Some Mi.
Hypothesis HZi : Ms !! exit_children_at i = Some Zi.

(** The tables after both loops. *)
Definition orphaned : gmap Z (gmap Z Z) := adopted true p i Zs (M ∪ Mi) Zi (adopted false p i M Mi Zi Ms).

Lemma init_alive : alive P i.
Proof. destruct (tr_init _ _ _ _ Ht) as (c & Hc & Hn & _). by exists c. Qed.

Lemma table_of_children k q : M !! k = Some q <-> is_child P D p k q.
Proof. destruct (tr_children _ _ _ _ Ht p Hp) as (M' & HM' & Hv). by assert (M' = M) as -> by congruence. Qed.
Lemma table_of_zombies k q : Zs !! k = Some q <-> is_child P D p k q /\ exited P q.
Proof. destruct (tr_zombies _ _ _ _ Ht p Hp) as (M' & HM' & Hv). by assert (M' = Zs) as -> by congruence. Qed.
Lemma table_of_init k q : Mi !! k = Some q <-> is_child P D i k q.
Proof. destruct (tr_children _ _ _ _ Ht i init_alive) as (M' & HM' & Hv). by assert (M' = Mi) as -> by congruence. Qed.
Lemma table_of_init_zombies k q : Zi !! k = Some q <-> is_child P D i k q /\ exited P q.
Proof. destruct (tr_zombies _ _ _ _ Ht i init_alive) as (M' & HM' & Hv). by assert (M' = Zi) as -> by congruence. Qed.

Lemma zombies_children k q : Zs !! k = Some q -> M !! k = Some q.
Proof. intros [Hc _]%table_of_zombies. by apply table_of_children. Qed.

(** A child of [p] is neither [p] nor [i]. *)
Lemma child_other q : q ∈ vals M -> q <> p /\ q <> i /\ exists c, P !! q = Some c /\ parent c = p /\ q ∉ D.
Proof.
  intros (k & Hk)%elem_of_vals. apply table_of_children in Hk as (c & Hc & Hpid & Hpar & HqD).
  destruct (tr_pcb _ _ _ _ Ht q c Hc) as [Hq0 _]. destruct Hp as (cp & Hcp & _). destruct (tr_pcb _ _ _ _ Ht p cp Hcp) as [Hp0 _].
  split; [|split; [|by exists c]].
  - intros ->. destruct (tr_parent _ _ _ _ Ht p c Hc HqD) as [Hz|[_ Hz]]; congruence.
  - intros ->. destruct (tr_init _ _ _ _ Ht) as (ci & Hci & _ & Hz). congruence.
Qed.

Lemma child_in_vals k q c : P !! q = Some c -> parent c = p -> pid c = k -> q ∉ D -> q ∈ vals M.
Proof. intros Hc Hpar Hk HqD. apply elem_of_vals. exists k. apply table_of_children. by exists c. Qed.

Lemma reparent_alive r : alive (reparent (vals M) i P) r <-> alive P r.
Proof.
  unfold alive. rewrite reparent_lookup. split.
  - intros (c & Hc & Hs). destruct (P !! r) as [d|]; [|done]. exists d. split; [done|]. injection Hc as <-. by case_decide.
  - intros (c & -> & Hs). eexists. split; [done|]. by case_decide.
Qed.
Lemma reparent_exited r : exited (reparent (vals M) i P) r <-> exited P r.
Proof.
  unfold exited. rewrite reparent_lookup. split.
  - intros (c & Hc & Hs). destruct (P !! r) as [d|]; [|done]. exists d. split; [done|]. injection Hc as <-. by case_decide.
  - intros (c & -> & Hs). eexists. split; [done|]. by case_decide.
Qed.

Lemma reparent_child r k q : r <> p -> is_child (reparent (vals M) i P) D r k q <-> is_child P D r k q \/ r = i /\ is_child P D p k q.
Proof.
  intros Hr. unfold is_child. rewrite reparent_lookup. split.
  - intros (c & Hc & Hk & Hpar & HqD). destruct (P !! q) as [d|] eqn:E; [|done]. injection Hc as <-. case_decide as Hin; [|left; by exists d].
    right. cbn in Hk, Hpar. destruct (child_other q Hin) as (_ & _ & d' & Hd' & Hp' & _). assert (d' = d) as -> by congruence. split; [done|by exists d].
  - intros [(c & Hc & Hk & Hpar & HqD)|[-> (c & Hc & Hk & Hpar & HqD)]]; rewrite Hc; cbn; eexists; (split; [done|]).
    + rewrite decide_False; [done|]. intros Hin. destruct (child_other q Hin) as (_ & _ & d' & Hd' & Hp' & _). congruence.
    + by rewrite decide_True by (by eapply child_in_vals).
Qed.
Lemma reparent_no_child k q : ~ is_child (reparent (vals M) i P) D p k q.
Proof.
  intros (c & Hc & Hk & Hpar & HqD). rewrite reparent_lookup in Hc. destruct (P !! q) as [d|] eqn:E; [|done]. injection Hc as <-.
  case_decide as Hin; [by cbn in Hpar|]. apply Hin. by eapply child_in_vals.
Qed.

Lemma orphaned_lookup :
  orphaned !! children_at p = Some ∅ /\ orphaned !! exit_children_at p = Some ∅ /\
  orphaned !! children_at i = Some (Zs ∪ (M ∪ Mi)) /\ orphaned !! exit_children_at i = Some (Zs ∪ Zi) /\
  (forall r, alive P r -> orphaned !! threads_at r = Ms !! threads_at r /\
    (r <> p -> r <> i -> orphaned !! children_at r = Ms !! children_at r /\ orphaned !! exit_children_at r = Ms !! exit_children_at r)).
Proof.
  assert (forall r1 r2, alive P r1 -> alive P r2 -> threads_at r1 <> children_at r2 /\ threads_at r1 <> exit_children_at r2 /\ children_at r1 <> exit_children_at r2 /\
    (r1 <> r2 -> children_at r1 <> children_at r2 /\ exit_children_at r1 <> exit_children_at r2)) as Hd.
  { intros r1 r2 H1 H2. destruct (tables_differ P Ms D i r1 r2 Ht (alive_some _ _ H1) (alive_some _ _ H2)) as (? & ? & ? & Hn). repeat (split; [done|]). intros Hx. by apply Hn. }
  pose proof init_alive as Hi. destruct (Hd p i Hp Hi) as (_ & _ & A1 & A2), (Hd i p Hi Hp) as (_ & _ & A3 & _), (Hd p p Hp Hp) as (_ & _ & A4 & _), (Hd i i Hi Hi) as (_ & _ & A5 & _).
  destruct (A2 Hne) as [A6 A7]. unfold orphaned, adopted. split; [|split; [|split; [|split]]].
  - rewrite !lookup_insert_ne, lookup_insert_eq by congruence. done.
  - rewrite !lookup_insert_ne, lookup_insert_eq by congruence. done.
  - rewrite !lookup_insert_ne, lookup_insert_eq by congruence. done.
  - by rewrite lookup_insert_eq.
  - intros r Hr. destruct (Hd r p Hr Hp) as (B1 & B2 & B3 & B4), (Hd r i Hr Hi) as (C1 & C2 & C3 & C4), (Hd p r Hp Hr) as (_ & _ & B5 & _), (Hd i r Hi Hr) as (_ & _ & C5 & _).
    split; [by rewrite !lookup_insert_ne by congruence|]. intros Hrp Hri. destruct (B4 Hrp), (C4 Hri). by rewrite !lookup_insert_ne by congruence.
Qed.

Lemma tree_ok_adopt : tree_ok (reparent (vals M) i P) orphaned D i.
Proof.
  pose proof Ht as [T1 T2 T3 T4 T5 T6 T7 T8 T9]. destruct orphaned_lookup as (L1 & L2 & L3 & L4 & L5).
  assert (forall q c, reparent (vals M) i P !! q = Some c -> exists d, P !! q = Some d /\ pid c = pid d /\ pstatus c = pstatus d /\ (parent c = parent d \/ q ∈ vals M /\ parent c = i)) as Hget.
  { intros q c. rewrite reparent_lookup. destruct (P !! q) as [d|]; [|done]. intros [= <-]. exists d. case_decide; [|by auto]. split; [done|]. split; [done|]. split; [done|]. by right. }
  split; try done.
  - destruct T1 as (c & Hc & Hs & Hpar). exists c. rewrite reparent_lookup, Hc. cbn. rewrite decide_False; [done|].
    intros Hin. by destruct (child_other i Hin) as (_ & ? & _).
  - intros q c Hc. destruct (Hget q c Hc) as (d & Hd & -> & -> & _). by apply T2.
  - intros q1 c1 q2 c2 Hc1 Hc2. destruct (Hget q1 c1 Hc1) as (d1 & Hd1 & -> & _), (Hget q2 c2 Hc2) as (d2 & Hd2 & -> & _). by apply T3.
  - intros q1 q2 [c1 Hc1] [c2 Hc2]. destruct (Hget q1 c1 Hc1) as (d1 & Hd1 & _), (Hget q2 c2 Hc2) as (d2 & Hd2 & _). apply T4; by eexists.
  - intros q c Hc HqD. destruct (Hget q c Hc) as (d & Hd & _ & _ & [->|[Hin ->]]).
    + destruct (T5 q d Hd HqD) as [|[Ha Hn]]; [by left|right]. split; [by apply reparent_alive|done].
    + right. split; [apply reparent_alive, init_alive|]. apply not_eq_sym. by apply (child_other q).
  - intros r Hr%reparent_alive. destruct (decide (r = p)) as [->|Hrp].
    { exists ∅. split; [done|]. intros k q. rewrite lookup_empty. split; [done|]. intros Hc. by apply reparent_no_child in Hc. }
    destruct (decide (r = i)) as [->|Hri].
    + eexists. split; [exact L3|]. intros k q. rewrite (reparent_child i k q Hrp). rewrite <- table_of_init, <- table_of_children. rewrite !lookup_union_Some_raw. split.
      * intros [Hz|[Hz [Hm|[Hm1 Hm2]]]]; [right; split; [done|by apply zombies_children]|by right|by left].
      * intros [Hm|[_ Hm]].
        -- destruct (M !! k) as [q'|] eqn:E; [|right; split; [|by right]; destruct (Zs !! k) eqn:Ez; [|done]; by rewrite (zombies_children _ _ Ez) in E].
           exfalso. apply table_of_children in E as (d & Hd & Hk & Hpd & _). apply table_of_init in Hm as (d' & Hd' & Hk' & Hpd' & _).
           assert (q' = q) as -> by (apply (T3 q' d q d' Hd Hd'); congruence). congruence.
        -- destruct (Zs !! k) as [q'|] eqn:Ez; [left; apply zombies_children in Ez; congruence|right; split; [done|by left]].
    + destruct (L5 r Hr) as [_ Hl]. destruct (Hl Hrp Hri) as [-> _]. destruct (T6 r Hr) as (Mr & HMr & Hv). exists Mr. split; [done|]. intros k q.
      rewrite (reparent_child r k q Hrp), Hv. naive_solver.
  - intros r Hr%reparent_alive. destruct (decide (r = p)) as [->|Hrp].
    { exists ∅. split; [done|]. intros k q. rewrite lookup_empty. split; [done|]. intros [Hc _]. by apply reparent_no_child in Hc. }
    destruct (decide (r = i)) as [->|Hri].
    + eexists. split; [exact L4|]. intros k q. rewrite (reparent_child i k q Hrp), reparent_exited. rewrite lookup_union_Some_raw. split.
      * intros [[Hc He]%table_of_zombies|[_ [Hc He]%table_of_init_zombies]]; (split; [|done]); [by right|by left].
      * intros [[Hc|[_ Hc]] He]; [|left; by apply table_of_zombies]. right. split; [|by apply table_of_init_zombies].
        destruct (Zs !! k) as [q'|] eqn:Ez; [|done]. exfalso. apply table_of_zombies in Ez as [(d & Hd & Hk & Hpd & _) _]. destruct Hc as (d' & Hd' & Hk' & Hpd' & _).
        assert (q' = q) as -> by (apply (T3 q' d q d' Hd Hd'); congruence). congruence.
    + destruct (L5 r Hr) as [_ Hl]. destruct (Hl Hrp Hri) as [_ ->]. destruct (T7 r Hr) as (Zr & HZr & Hv). exists Zr. split; [done|]. intros k q.
      rewrite (reparent_child r k q Hrp), reparent_exited, Hv. naive_solver.
  - intros q Hq. by apply reparent_exited, T8.
Qed.
End ADOPTION.

(** ** The children go to [init] *)
Lemma reparent_twice B1 B2 i P : B2 ⊆ B1 -> reparent B2 i (reparent B1 i P) = reparent B1 i P.
Proof.
  intros Hsub. apply map_eq. intros q. rewrite !reparent_lookup. destruct (P !! q); [|done]. cbn. f_equal.
  destruct (decide (q ∈ B2)) as [Hin|]; [|done]. by rewrite decide_True by set_solver.
Qed.

(** A table of processes by their ids is no larger than the store of their blocks. *)
Lemma table_size (P : gmap Z pcb_t) (M : gmap Z Z) : (forall k q, M !! k = Some q -> exists c, P !! q = Some c /\ pid c = k) ->
  (base.size M <= base.size P)%nat.
Proof.
  intros Hv. assert (base.size (vals M) = base.size M) as <-.
  { unfold vals. rewrite <- (length_map_to_list M). rewrite <- length_fmap with (f := snd).
    rewrite map_img_alt. rewrite size_list_to_set; [done|]. apply NoDup_fmap_2_strong; [|apply NoDup_fst_map_to_list, _ || apply NoDup_map_to_list].
    intros [k1 q1] [k2 q2] H1%elem_of_map_to_list H2%elem_of_map_to_list Heq. cbn in Heq. subst q2.
    destruct (Hv _ _ H1) as (c1 & Hc1 & <-), (Hv _ _ H2) as (c2 & Hc2 & <-). congruence. }
  rewrite <- size_dom. apply subseteq_size. intros q (k & Hk)%elem_of_vals. destruct (Hv k q Hk) as (c & Hc & _). apply elem_of_dom. by exists c.
Qed.

Lemma threads_ok_alive x x' V V' P P' Ms Ms' TM : threads_kept (tcbs x) (tcbs x') -> V' !! dead_tasks = V !! dead_tasks ->
  (forall q, alive P' q <-> alive P q) -> (forall q, alive P q -> Ms' !! threads_at q = Ms !! threads_at q) ->
  threads_ok x V P Ms TM -> threads_ok x' V' P' Ms' TM.
Proof.
  intros Hk HV Ha HMs Hth. apply (threads_ok_kept x x' V V'); [done|done|]. destruct Hth as [T1 T2]. split.
  - intros t y Hy. rewrite Ha. by apply T1.
  - intros q Hq%Ha. destruct (T2 q Hq) as (T & HT & R). exists T. split; [by rewrite HMs|done].
Qed.

Lemma core_rel idle x V ct y : sched_core idle x V ct y -> process y = page_dir x -> sched_rel idle x (V, (crt_thread_node x, ct)).
Proof. intros [Hinv Hi [Hc Hs] Hu Hw Hl] Hp. split; try done. split; [done|]. by exists y. Qed.

Section EXIT.
Context {H : Type} {HC : Containers H} {HL : ContainersLaws H} (idle : Z * Z).

Lemma adopt_all_ok (zombies : bool) (s : pstate H) p i L Ms Ls (M Mi Zi : gmap Z Z) n :
  tables_apart p i -> ct_holds (p_tabs s) L Ms Ls ->
  Ms !! (if zombies then exit_children_at p else children_at p) = Some M ->
  Ms !! children_at i = Some Mi -> Ms !! exit_children_at i = Some Zi ->
  (forall k q, M !! k = Some q -> q <> 0 /\ exists c, p_procs s !! q = Some c /\ pid c = k) ->
  ct_room (p_tabs s) (2 * base.size M + n)%nat ->
  Z.of_nat (base.size M + base.size Mi) < ct_max -> Z.of_nat (base.size M + base.size Zi) < ct_max ->
  (adopt_all zombies s p i = Err Panic /\ heap_fails (H:=H)) \/
  exists h, adopt_all zombies s p i = Ok (with_procs (with_tabs s h) (reparent (vals M) i (p_procs s))) /\
    ct_holds h L (adopted zombies p i M Mi Zi Ms) Ls /\ ct_room h n.
Proof.
  intros Hap Hh HM HMi HZi Hval Hroom H1 H2. unfold adopt_all. rewrite (tb_size_law _ L Ms Ls _ M Hh HM). cbn [res_bind].
  rewrite Nat2Z.id. apply (adopt_ok zombies p i _ s L Ms Ls M Mi Zi n); try done. lia.
Qed.

Section HAND_OVER.
Context (s : pstate H) (V : view) (cn ct : Z) (Ms : gmap Z (gmap Z Z)) (D : list Z) (Q : Z -> bool -> list waiter) (F : gmap Z Z).
Context (y : tcb_t) (c ci : pcb_t) (M Zs Mi Zi : gmap Z Z) (wfuel n : nat).
#[local] Notation p := (process y).
#[local] Notation i := (p_init s).
Hypothesis Hf : family idle s V (cn, ct) Ms D Q F.
Hypothesis Hc : current idle s V cn ct y c.
Hypothesis Hpi : p <> i.
Hypothesis HF : calls F p = 0.
Hypothesis HM : Ms !! children_at p = Some M.
Hypothesis HZ : Ms !! exit_children_at p = Some Zs.
Hypothesis HMi : Ms !! children_at i = Some Mi.
Hypothesis HZi : Ms !! exit_children_at i = Some Zi.
Hypothesis Hci : p_procs s !! i = Some ci.
Hypothesis Hfuel : forall q any, (length (Q q any) < wfuel)%nat.

Lemma exit_alive : alive (p_procs s) p.
Proof. exists c. split; apply Hc. Qed.

(** Nobody of [p] waits: not for its children, not for any. *)
Lemma nobody_waits q (any : bool) d : p_procs s !! q = Some d -> (if any then q else parent d) = p -> Q q any = [].
Proof.
  intros Hd Hq. destruct (Q q any) as [|[a [m t]] l] eqn:E; [done|exfalso].
  destruct (wo_in _ _ _ _ _ _ _ (fa_waits _ _ _ _ _ _ _ _ Hf) q any a m t) as (z & d' & _ & Hd' & Hpz & HFt); [rewrite E; apply list_elem_of_here|].
  assert (d' = d) as -> by congruence. rewrite Hpz, Hq in HFt. apply calls_positive in HFt. lia.
Qed.

(** The blocks while both are locked and the children have their new parent. *)
Definition during : gmap Z pcb_t :=
  reparent (vals M) i (<[p := with_plock c LOCKED_YES]> (<[i := with_plock ci LOCKED_YES]> (p_procs s))).
Definition handed_over : gmap Z pcb_t := <[i := set_queue_head true ci 0]> (reparent (vals M) i (p_procs s)).

Lemma not_children : p ∉ vals M /\ i ∉ vals M.
Proof.
  pose proof (child_other _ Ms D p i M (fa_tree _ _ _ _ _ _ _ _ Hf) exit_alive HM) as Ho.
  split; intros Hin; by destruct (Ho _ Hin) as (? & ? & _).
Qed.

Lemma during_lookup : during !! i = Some (with_plock ci LOCKED_YES) /\ during !! p = Some (with_plock c LOCKED_YES).
Proof.
  destruct not_children as [H1 H2]. unfold during. rewrite !reparent_lookup, lookup_insert_eq, lookup_insert_ne, lookup_insert_eq by done. cbn.
  by rewrite !decide_False.
Qed.

Lemma handed_over_is : <[i := with_plock (set_queue_head true (with_plock ci LOCKED_YES) 0) LOCKED_NO]>
  (<[p := with_plock c LOCKED_NO]> (<[i := set_queue_head true (with_plock ci LOCKED_YES) 0]> during)) = handed_over.
Proof.
  destruct not_children as [H1 H2]. pose proof (fa_locks _ _ _ _ _ _ _ _ Hf i ci Hci) as Ei. pose proof (cu_lock _ _ _ _ _ _ _ Hc) as Ec.
  pose proof (cu_pcb _ _ _ _ _ _ _ Hc) as Hp. apply map_eq. intros q. unfold handed_over, during.
  destruct (decide (q = i)) as [->|Hqi]; [rewrite !lookup_insert_eq; unfold with_plock; cbn; by rewrite <- Ei|].
  rewrite !(lookup_insert_ne _ i q) by done. destruct (decide (q = p)) as [->|Hqp].
  - rewrite lookup_insert_eq, reparent_lookup, Hp. cbn. rewrite decide_False by done. unfold with_plock. rewrite <- Ec. by destruct c.
  - rewrite !lookup_insert_ne by done. rewrite !reparent_lookup, !lookup_insert_ne by done. done.
Qed.

Lemma during_queues : same_queues Q (p_procs s) during.
Proof.
  pose proof (cu_pcb _ _ _ _ _ _ _ Hc) as Hp. destruct during_lookup as [D1 D2]. intros q. destruct (decide (q = i)) as [->|Hqi].
  { rewrite D1, Hci. cbn. split; [done|]. split; [by intros []|]. split; [done|by left]. }
  destruct (decide (q = p)) as [->|Hqp].
  { rewrite D2, Hp. cbn. split; [done|]. split; [by intros []|]. split; [done|by left]. }
  unfold during. rewrite reparent_lookup, !lookup_insert_ne by done. destruct (p_procs s !! q) as [d|] eqn:E; [|done]. cbn.
  case_decide as Hin; [|by repeat (split; [done|]); left]. split; [done|]. split; [by intros []|]. split; [done|]. right.
  destruct (child_other _ Ms D p i M (fa_tree _ _ _ _ _ _ _ _ Hf) exit_alive HM q Hin) as (_ & _ & d' & Hd' & Hp' & _).
  apply (nobody_waits q false d'); done.
Qed.

Lemma handed_over_queues : same_queues (cleared Q i true) (<[i := set_queue_head true (with_plock ci LOCKED_YES) 0]> during) handed_over.
Proof.
  pose proof (cu_pcb _ _ _ _ _ _ _ Hc) as Hp. destruct during_lookup as [D1 D2], not_children as [N1 N2]. intros q. unfold handed_over.
  destruct (decide (q = i)) as [->|Hqi]; [rewrite !lookup_insert_eq; split; [done|]; split; [by intros []|]; split; [done|by left]|].
  rewrite !lookup_insert_ne by done. destruct (decide (q = p)) as [->|Hqp].
  { rewrite D2, reparent_lookup, Hp. cbn. rewrite decide_False by done. split; [done|]. split; [by intros []|]. split; [done|by left]. }
  unfold during. rewrite !reparent_lookup, !lookup_insert_ne by done. destruct (p_procs s !! q); [|done]. cbn. repeat (split; [done|]). by left.
Qed.

Lemma handed_over_same : same_tree (reparent (vals M) i (p_procs s)) handed_over.
Proof.
  destruct not_children as [_ N2]. apply (same_tree_set _ _ ci); [|done..]. rewrite reparent_lookup, Hci. cbn. by rewrite decide_False.
Qed.

Lemma adoption_tables :
  tables_apart p i /\
  (forall k q, M !! k = Some q -> q <> 0 /\ exists d, p_procs s !! q = Some d /\ pid d = k) /\
  (forall k q, Zs !! k = Some q -> M !! k = Some q) /\
  (base.size M <= base.size (p_procs s) /\ base.size Zs <= base.size (p_procs s) /\ base.size (M ∪ Mi) <= base.size (p_procs s) /\
   base.size Mi <= base.size (p_procs s) /\ base.size Zi <= base.size (p_procs s))%nat.
Proof.
  pose proof (fa_tree _ _ _ _ _ _ _ _ Hf) as Ht. pose proof exit_alive as Ha. pose proof (init_alive _ _ _ _ Ht) as Hi.
  assert (forall k q, M !! k = Some q -> exists d, p_procs s !! q = Some d /\ pid d = k) as VM.
  { intros k q Hk. apply (table_of_children _ _ _ _ _ _ Ht Ha HM) in Hk as (d & Hd & ? & _). by exists d. }
  assert (forall k q, Mi !! k = Some q -> exists d, p_procs s !! q = Some d /\ pid d = k) as VMi.
  { intros k q Hk. apply (table_of_init _ _ _ _ _ Ht HMi) in Hk as (d & Hd & ? & _). by exists d. }
  assert (forall k q, Zi !! k = Some q -> exists d, p_procs s !! q = Some d /\ pid d = k) as VZi.
  { intros k q Hk. apply (table_of_init_zombies _ _ _ _ _ Ht HZi) in Hk as [(d & Hd & ? & _) _]. by exists d. }
  pose proof (zombies_children _ _ _ _ _ _ _ Ht Ha HM HZ) as VZ.
  split.
  { destruct (tables_differ _ _ _ _ p i Ht (alive_some _ _ Ha) (alive_some _ _ Hi)) as (_ & _ & A1 & A2), (tables_differ _ _ _ _ i p Ht (alive_some _ _ Hi) (alive_some _ _ Ha)) as (_ & _ & A3 & _).
    destruct (tables_differ _ _ _ _ p p Ht (alive_some _ _ Ha) (alive_some _ _ Ha)) as (_ & _ & A4 & _), (tables_differ _ _ _ _ i i Ht (alive_some _ _ Hi) (alive_some _ _ Hi)) as (_ & _ & A5 & _).
    destruct (A2 Hpi) as (_ & A6 & A7). unfold tables_apart. repeat (apply NoDup_cons; split; [set_solver|]). apply NoDup_nil_2. }
  split; [intros k q Hk; destruct (VM k q Hk) as (d & Hd & ?); split; [by apply (tr_pcb _ _ _ _ Ht q d)|by exists d]|].
  split; [done|]. split; [by apply table_size|]. split; [apply table_size; intros k q Hk; by apply VM, VZ|].
  split; [|split; by apply table_size]. apply table_size. intros k q [Hk|[_ Hk]]%lookup_union_Some_raw; [by apply VM|by apply VMi].
Qed.

(** [hand_over] keeps the invariant: the children are [init]'s, whose waiting threads run. *)
Lemma hand_over_ok : ct_room (p_tabs s) (2 * base.size M + (2 * base.size Zs + n))%nat ->
  (hand_over wfuel s p i = Err Panic /\ heap_fails (H:=H)) \/
  exists x h, hand_over wfuel s p i = Ok (with_procs (with_sched (with_tabs s h) x) handed_over) /\ ct_room h n /\ same_cpu (p_sched s) x /\
    threads_kept (tcbs (p_sched s)) (tcbs x) /\
    family idle (with_procs (with_sched (with_tabs s h) x) handed_over) (made_ready V (Q i true).*2) (cn, ct) (orphaned Ms p i M Zs Mi Zi) D (cleared Q i true) F /\
    sched_core idle x (made_ready V (Q i true).*2) ct y.
Proof.
  intros Hroom. pose proof Hf as [Hrel Hqs (L & Ls & Hh & HLs) Ht Hw Hth Hlive Hlk Hmax].
  destruct adoption_tables as (Hap & Hval & Hsub & S1 & S2 & S3 & S4 & S5). destruct during_lookup as [D1 D2], not_children as [N1 N2].
  pose proof exit_alive as Ha. pose proof (cu_pcb _ _ _ _ _ _ _ Hc) as Hp.
  assert (vals Zs ⊆ vals M) as Hvs by (intros q (k & Hk)%elem_of_vals; apply elem_of_vals; exists k; by apply Hsub).
  unfold hand_over. rewrite (lock_process_ok s i ci Hci (Hlk i ci Hci)). cbn [res_bind].
  rewrite (lock_process_ok _ p c) by first [apply Hc | by cbn; rewrite lookup_insert_ne]. cbn [res_bind]. set (s2 := set_pcb (set_pcb s i _) p _).
  assert (forall k q, M !! k = Some q -> q <> 0 /\ exists d, p_procs s2 !! q = Some d /\ pid d = k) as Hval2.
  { intros k q Hk. destruct (Hval k q Hk) as (Hq0 & d & Hd & Hpd). split; [done|]. exists d. cbn. assert (q ∈ vals M) as Hin by (apply elem_of_vals; by exists k).
    destruct (child_other _ Ms D p i M Ht Ha HM q Hin) as (? & ? & _). by rewrite !lookup_insert_ne. }
  destruct (adopt_all_ok false s2 p i L Ms Ls M Mi Zi (2 * base.size Zs + n)%nat) as [[-> Hno]|(h1 & -> & Hh1 & Hroom1)]; try done; [lia|lia|by left|]. cbn [res_bind].
  set (s3 := with_procs _ _). destruct (adopt_all_ok true s3 p i L (adopted false p i M Mi Zi Ms) Ls Zs (M ∪ Mi) Zi n) as [[-> Hno]|(h2 & -> & Hh2 & Hroom2)]; try done.
  - unfold adopted. unfold tables_apart in Hap. rewrite !NoDup_cons in Hap. destruct Hap as (A1 & A2 & A3 & _). by rewrite !lookup_insert_ne by set_solver.
  - unfold adopted. unfold tables_apart in Hap. rewrite !NoDup_cons in Hap. destruct Hap as (A1 & A2 & A3 & _). rewrite lookup_insert_ne by set_solver. apply lookup_insert_eq.
  - unfold adopted. unfold tables_apart in Hap. rewrite !NoDup_cons in Hap. destruct Hap as (A1 & A2 & A3 & _). by rewrite !lookup_insert_ne by set_solver.
  - intros k q Hk%Hsub. destruct (Hval2 k q Hk) as (Hq0 & d & Hd & Hpd). split; [done|]. cbn. rewrite reparent_lookup. cbn in Hd. rewrite Hd. cbn. eexists. split; [done|]. by case_decide.
  - lia.
  - lia.
  - by left.
  - cbn [res_bind]. fold (orphaned Ms p i M Zs Mi Zi) in Hh2. set (s4 := with_procs _ _).
    assert (p_procs s4 = during) as P4 by (cbn; by rewrite reparent_twice).
    destruct (wake_queue_ok idle true wfuel s4 V ct y Q F i (with_plock ci LOCKED_YES)) as (x & -> & Hco & Hcpu & Hk & Hw'); [apply Hc|..|by rewrite P4|done|].
    { rewrite P4. by apply (waits_ok_queues _ _ _ (p_procs s)), Hw; apply during_queues. }
    cbn [res_bind]. rewrite (unlock_process_ok _ p (with_plock c LOCKED_YES)) by (cbn -[during]; rewrite lookup_insert_ne by done; change (p_procs s4 !! p = Some (with_plock c LOCKED_YES)); by rewrite P4).
    cbn [res_bind]. rewrite (unlock_process_ok _ i (set_queue_head true (with_plock ci LOCKED_YES) 0)) by (cbn; rewrite lookup_insert_ne by done; apply lookup_insert_eq).
    right. exists x, h2.
    assert (<[i := with_plock (set_queue_head true (with_plock ci LOCKED_YES) 0) LOCKED_NO]>
      (<[p := with_plock (with_plock c LOCKED_YES) LOCKED_NO]> (<[i := set_queue_head true (with_plock ci LOCKED_YES) 0]> (p_procs s4))) = handed_over) as HP.
    { rewrite P4. exact handed_over_is. }
    split; [f_equal; rewrite <- HP; reflexivity|]. split; [done|]. split; [done|]. split; [done|]. split; [|done].
    assert (process y = page_dir x) as Hdir by (destruct Hcpu as (_ & _ & _ & _ & -> & _); apply Hc).
    assert (crt_thread_node x = cn) as Hcn by (destruct Hcpu as (-> & _); apply Hc).
    assert (made_ready V (Q i true).*2 !! dead_tasks = V !! dead_tasks) as HVd by (by apply made_ready_ne).
    assert (forall q, alive handed_over q <-> alive (p_procs s) q) as Hal.
    { intros q. rewrite <- (reparent_alive (p_procs s) i M q). split; apply alive_same; [apply same_tree_sym|]; apply handed_over_same. }
    pose proof (orphaned_lookup _ Ms D p i M Zs Mi Zi Ht Ha Hpi) as (_ & _ & _ & _ & Hol).
    split; cbn [p_procs p_sched p_tabs p_init p_waits p_threads with_procs with_sched with_tabs].
    + rewrite <- Hcn. by apply (core_rel idle x _ ct y).
    + rewrite HVd, made_ready_ne by done. done.
    + by exists L, Ls.
    + apply (tree_ok_same (reparent (vals M) i (p_procs s))); [apply handed_over_same|]. by apply tree_ok_adopt.
    + apply (waits_ok_queues _ _ _ _ _ _ _ _ handed_over_queues). rewrite P4 in Hw'. exact Hw'.
    + apply (threads_ok_alive (p_sched s) x V _ (p_procs s) _ Ms); try done. intros q Hq. by apply Hol.
    + intros q d any Hd Hn. unfold cleared. case_decide; [done|].
      destruct (same_tree_get _ _ q d handed_over_same Hd) as (e & He & _ & _ & Es). rewrite reparent_lookup in He. destruct (p_procs s !! q) as [e'|] eqn:E; [|done].
      apply (Hlive q e'); [done|]. injection He as <-. rewrite Es in Hn. by case_decide.
    + intros q d. unfold handed_over. rewrite lookup_insert_Some. intros [[<- <-]|[_ Hd]]; [exact (Hlk i ci Hci)|].
      rewrite reparent_lookup in Hd. destruct (p_procs s !! q) as [e|] eqn:E; [|done]. injection Hd as <-. case_decide; by apply (Hlk q e).
    + rewrite (same_tree_size _ _ handed_over_same). unfold reparent. assert (base.size (map_imap (fun q c => Some (if decide (q ∈ vals M) then with_parent c i else c)) (p_procs s)) = base.size (p_procs s)) as ->; [|done].
      rewrite <- !size_dom. f_equal. apply set_eq. intros q. rewrite !elem_of_dom, map_lookup_imap. destruct (p_procs s !! q); split; intros [? ?]; by try eexists.
Qed.
End HAND_OVER.
End EXIT.

(** ** The end of the process *)

Lemma waits_ok_sched idle x x' V V' P W Q F : waits_ok idle x V P W Q F ->
  (forall q any a n t z, (a, (n, t)) ∈ Q q any -> asleep idle x V n t z -> asleep idle x' V' n t z) ->
  (forall t r, F !! t = Some r -> option_map process (tcbs x' !! t) = option_map process (tcbs x !! t)) -> waits_ok idle x' V' P W Q F.
Proof.
  intros [W1 W2 W3 W4 W5 W6] Hs Hk. split; try done.
  - intros q any a n t Hin. destruct (W2 q any a n t Hin) as (z & c & Hz & R). exists z, c. split; [by eapply Hs|done].
  - intros t r Ht. destruct (W5 t r Ht) as (z & Hz & Hp). specialize (Hk t r Ht). rewrite Hz in Hk. destruct (tcbs x' !! t) as [z'|] eqn:E; [|done].
    exists z'. split; [done|]. injection Hk as ->. done.
Qed.

(** The interrupt flag is not part of the invariant. *)
Lemma interrupts_kept {H : Type} `{Containers H} idle (s : pstate H) b V cur Ms D Q F : family idle s V cur Ms D Q F ->
  family idle (with_sched s (with_interrupts (p_sched s) b)) V cur Ms D Q F.
Proof.
  intros [Hrel Hq Htabs Ht Hw Hth Hlive Hlk Hmax]. split; try done.
  - destruct Hrel as [[l Hinv] ? ? ? ? ?]. split; try done. exists l. by apply with_interrupts_inv.
  - apply (waits_ok_sched idle (p_sched s) _ V); [done|by intros ? ? ? ? ? ? _ []|done].
  - apply (threads_ok_kept (p_sched s) _ V); [apply threads_kept_refl|done|done].
Qed.

(** The tree after the exit: the process is in its parent's table of the exited. *)
Lemma tree_ok_exit P Ms D i p c code Zp : tree_ok P Ms D i -> P !! p = Some c -> pstatus c = PROCESS_NORMAL -> p <> i -> parent c <> 0 ->
  Ms !! children_at p = Some ∅ -> Ms !! exit_children_at (parent c) = Some Zp -> forall T,
  tree_ok (<[p := with_exit c PROCESS_EXIT code]> P)
    (<[exit_children_at (parent c) := <[pid c := p]> Zp]> (delete (children_at p) (delete (exit_children_at p) (delete (threads_at p) (<[threads_at p := T]> Ms))))) D i.
Proof.
  intros Ht Hp Hst Hpi Hpar HM HZp T. pose proof Ht as [T1 T2 T3 T4 T5 T6 T7 T8 T9]. set (P1 := <[p := _]> P).
  assert (alive P p) as Ha by (by exists c). assert (p ∉ D) as HpD by (intros Hin%T8; by apply (alive_not_exited P p p)).
  destruct (T5 p c Hp HpD) as [|[Hap Hpp]]; [done|].
  assert (forall q d, P1 !! q = Some d -> exists e, P !! q = Some e /\ pid d = pid e /\ parent d = parent e /\ (q <> p -> d = e)) as Hget.
  { intros q d. unfold P1. rewrite lookup_insert_Some. intros [[<- <-]|[Hne Hd]]; [exists c|exists d]; by repeat split. }
  assert (forall r, alive P1 r <-> alive P r /\ r <> p) as Hal.
  { intros r. unfold alive, P1. destruct (decide (r = p)) as [->|Hne].
    - rewrite lookup_insert_eq. split; [intros (d & Hx & Hd); by injection Hx as <-|by intros [_ ?]].
    - rewrite lookup_insert_ne by done. naive_solver. }
  assert (forall r, exited P1 r <-> exited P r \/ r = p) as Hex.
  { intros r. unfold exited, P1. destruct (decide (r = p)) as [->|Hne].
    - rewrite lookup_insert_eq. split; [by right|]. intros _. by eexists.
    - rewrite lookup_insert_ne by done. naive_solver. }
  assert (forall r k q, is_child P1 D r k q <-> is_child P D r k q) as Hch.
  { intros r k q. unfold is_child, P1. destruct (decide (q = p)) as [->|Hne].
    - rewrite lookup_insert_eq. split; [intros (d & [= <-] & R); by exists c|intros (d & Hd & R)]. assert (d = c) as -> by congruence. by eexists.
    - by rewrite lookup_insert_ne. }
  assert (forall r, alive P r -> r <> p -> threads_at p <> children_at r /\ threads_at p <> exit_children_at r /\ children_at p <> children_at r /\
    children_at p <> exit_children_at r /\ exit_children_at p <> children_at r /\ exit_children_at p <> exit_children_at r /\ exit_children_at (parent c) <> children_at r /\
    (r <> parent c -> exit_children_at (parent c) <> exit_children_at r)) as Hd.
  { intros r Hr Hrp. pose proof (alive_some _ _ Ha) as Sp. pose proof (alive_some _ _ Hr) as Sr. pose proof (alive_some _ _ Hap) as Sq.
    destruct (tables_differ P Ms D i p r Ht Sp Sr) as (? & ? & ? & Hn), (tables_differ P Ms D i r p Ht Sr Sp) as (_ & _ & ? & _), (tables_differ P Ms D i r (parent c) Ht Sr Sq) as (_ & _ & ? & Hn2).
    destruct Hn as (_ & ? & ?); [done|]. repeat (split; [congruence|]). intros Hx. by apply not_eq_sym, Hn2. }
  split; try done.
  - destruct T1 as (ci & Hci & R). exists ci. unfold P1. by rewrite lookup_insert_ne.
  - intros q d Hq. unfold P1 in Hq. apply lookup_insert_Some in Hq as [[<- <-]|[_ Hq]]; [|by apply T2]. destruct (T2 p c Hp) as (? & ? & _). done.
  - intros q1 d1 q2 d2 H1 H2. destruct (Hget _ _ H1) as (e1 & E1 & -> & _), (Hget _ _ H2) as (e2 & E2 & -> & _). by apply T3.
  - intros q1 q2 [d1 H1] [d2 H2]. destruct (Hget _ _ H1) as (e1 & E1 & _), (Hget _ _ H2) as (e2 & E2 & _). apply T4; by eexists.
  - intros q d Hq HqD. destruct (Hget _ _ Hq) as (e & He & _ & -> & _). destruct (T5 q e He HqD) as [|[Hqa Hqn]]; [by left|right].
    split; [|done]. apply Hal. split; [done|]. intros Heq. destruct (T6 p Ha) as (M & HM' & Hv). assert (M = ∅) as -> by congruence.
    assert (∅ !! pid e = Some q) as Hx by (apply Hv; by exists e). by apply lookup_empty_Some in Hx.
  - intros r [Hr Hrp]%Hal. destruct (Hd r Hr Hrp) as (A1 & A2 & A3 & A4 & A5 & A6 & A7 & A8). destruct (T6 r Hr) as (M & HMr & Hv). exists M.
    rewrite lookup_insert_ne, !lookup_delete_ne, lookup_insert_ne by congruence. split; [done|]. intros k q. by rewrite Hch.
  - intros r [Hr Hrp]%Hal. destruct (Hd r Hr Hrp) as (A1 & A2 & A3 & A4 & A5 & A6 & A7 & A8). destruct (T7 r Hr) as (Zr & HZr & Hv).
    destruct (decide (r = parent c)) as [->|Hrc].
    + exists (<[pid c := p]> Zp). rewrite lookup_insert_eq. split; [done|]. assert (Zr = Zp) as -> by congruence. intros k q. rewrite Hch, Hex, lookup_insert_Some, Hv. split.
      * intros [[<- <-]|[Hne [Hc He]]]; [split; [by exists c|by right]|split; [done|by left]].
      * intros [Hc [He| ->]].
        -- destruct (decide (pid c = k)) as [<-|Hne]; [|by right]. exfalso. destruct Hc as (d & Hd' & Hk & _). destruct He as (d' & Hd'' & Hs).
           assert (q = p) as -> by (by apply (T3 q d p c)). congruence.
        -- destruct Hc as (d & Hd' & Hk & _). left. split; [congruence|done].
    + exists Zr. rewrite lookup_insert_ne, !lookup_delete_ne, lookup_insert_ne by (first [by apply A8|congruence]). split; [done|]. intros k q. rewrite Hch, Hex, Hv. split.
      * intros [? ?]. split; [done|by left].
      * intros [Hc [He| ->]]; [done|]. destruct Hc as (d & Hd' & _ & Hpd & _). congruence.
  - intros q Hq. apply Hex. left. by apply T8.
Qed.

(** The last switch exists, and where it leads. *)
Lemma exit_defined idle x V ct y d : sched_core idle x V ct y -> crt_thread_node x <> idle.1 -> V !! dead_tasks = Some d -> is_Some (V !! dead_cv) ->
  exists w', sched_spec idle (V, (crt_thread_node x, ct)) Exit = Some w' /\ w'.1 !! dead_tasks = Some (d ++ [(crt_thread_node x, ct)]) /\
    is_Some (w'.1 !! dead_cv) /\ (forall m, unqueued V m -> m <> crt_thread_node x -> unqueued w'.1 m) /\ ct <> w'.2.2 /\ ~ buried V w'.2.2.
Proof.
  intros Hco Hni Hd [dv Hdv]. pose proof Hco as [[l Hinv] Hi [Hc Hs] Hu _ _]. pose proof Hinv as [Hq [El _] Hct [Hm Hmu]]. set (n := crt_thread_node x) in *.
  cbn [sched_spec fst snd]. replace (n =? idle.1) with false by (symmetry; zbool). unfold spec_append. rewrite Hd.
  set (V1 := <[dead_tasks := d ++ [(n, ct)]]> V).
  assert (V1 !! ready_tasks = Some l) as El1 by (unfold V1; by rewrite lookup_insert_ne).
  assert (V1 !! dead_cv = Some dv) as Edv1 by (unfold V1; by rewrite lookup_insert_ne).
  assert (exists V2 l2 dv2, spec_notify V1 dead_cv = Some V2 /\ V2 !! ready_tasks = Some l2 /\ V2 !! dead_cv = Some dv2 /\ V2 !! dead_tasks = Some (d ++ [(n, ct)]) /\
    (forall m, unqueued V1 m -> unqueued V2 m) /\ (forall z, z ∈ l2 -> z ∈ l \/ z ∈ dv)) as (V2 & l2 & dv2 & -> & El2 & Edv2 & Ed2 & Hun & Hin2).
  { unfold spec_notify. rewrite El1, Edv1. destruct dv as [|z dv].
    - exists V1, l, []. split; [done|]. split; [done|]. split; [done|]. split; [apply lookup_insert_eq|]. split; [done|]. by left.
    - eexists _, (l ++ [z]), dv. split; [reflexivity|]. split; [apply lookup_insert_eq|]. split; [by rewrite lookup_insert_ne, lookup_insert_eq|].
      split; [rewrite !lookup_insert_ne by done; apply lookup_insert_eq|]. split.
      + intros m Hm1. pose proof (Hm1 _ _ El1) as A. pose proof (Hm1 _ _ Edv1) as B. apply unqueued_insert; [apply unqueued_insert; [done|set_solver]|rewrite fmap_app; set_solver].
      + intros u. rewrite elem_of_app, list_elem_of_singleton. intros [Hu0| ->]; [by left|right; apply list_elem_of_here]. }
  assert (exists w', spec_switch idle V2 [] = Some w') as [w' Ew].
  { unfold spec_switch. rewrite El2, app_nil_r. unfold or_idle. case_decide; [by eexists|]. destruct l2; [done|by eexists]. }
  exists w'. split; [done|]. destruct (spec_switch_inv _ _ _ _ _ El2 Ew) as (next & rest & Hcand & Hw').
  assert (forall z, z ∈ rest -> z ∈ l2) as Hrest.
  { intros z Hz. rewrite app_nil_r in Hcand. unfold or_idle in Hcand. case_decide; [injection Hcand as _ <-; by apply not_elem_of_nil in Hz|]. rewrite Hcand. by apply list_elem_of_further. }
  subst w'. cbn [fst snd]. split; [by rewrite lookup_insert_ne|]. split; [rewrite lookup_insert_ne by done; by exists dv2|]. split; [|].
  - intros m Hm1 Hne. assert (unqueued V2 m) as Hm2. { apply Hun, unqueued_insert; [done|]. rewrite fmap_app. pose proof (Hm1 _ _ Hd). cbn. set_solver. }
    apply unqueued_insert; [done|]. pose proof (Hm2 _ _ El2) as A. intros (z & -> & Hz)%list_elem_of_fmap. apply A. apply list_elem_of_fmap. exists z. split; [done|by apply Hrest].
  - destruct next as [n1 t1]. cbn. assert ((n1, t1) ∈ l \/ (n1, t1) ∈ dv \/ (n1, t1) = idle) as Hnext.
    { destruct (next_ready idle V2 l2 _ El2 Ew) as [Hin|Hid]; [|by right; right]. cbn in Hin. destruct (Hin2 _ Hin); [by left|by right; left]. }
    split.
    + intros <-. destruct Hnext as [Hin|[Hin|Hid]]; [by destruct (core_unlisted idle x V ct y _ _ n1 Hco El)|by destruct (core_unlisted idle x V ct y _ _ n1 Hco Hdv)|].
      apply Hni. rewrite <- Hid. cbn. rewrite <- Hid in Hm, Hi. cbn in Hm, Hi. rewrite <- Hi. transitivity (crt_node_ptr y); [symmetry|]; by apply (node_of_tcb (tcbs x) _ ct).
    + intros (d' & n2 & Hd' & Hin'). assert (d' = d) as -> by congruence. destruct Hnext as [Hin|[Hin|Hid]].
      * by pose proof (queued_apart _ _ _ V ready_tasks dead_tasks l d n1 n2 t1 Hq El Hd Hin Hin').
      * by pose proof (queued_apart _ _ _ V dead_cv dead_tasks dv d n1 n2 t1 Hq Hdv Hd Hin Hin').
      * rewrite <- Hid in Hm. cbn in Hm. exact (unqueued_thread _ _ _ V dead_tasks d (main_thread_node x) n2 t1 Hq Hmu Hm Hd Hin').
Qed.

Section FINISH.
Context {H : Type} {HC : Containers H} {HL : ContainersLaws H} (idle : Z * Z).
Context (s : pstate H) (V : view) (cn ct : Z) (Ms : gmap Z (gmap Z Z)) (D : list Z) (Q : Z -> bool -> list waiter) (F : gmap Z Z).
Context (y : tcb_t) (c cp : pcb_t) (m : thread_more) (Zp : gmap Z Z) (v : vm) (wfuel n : nat) (code : Z).
#[local] Notation p := (process y).
#[local] Notation par := (parent c).
Hypothesis Hf : family idle s V (cn, ct) Ms D Q F.
Hypothesis Hc : current idle s V cn ct y c.
Hypothesis Hpi : p <> p_init s.
Hypothesis Hpar : par <> 0.
Hypothesis HF : calls F p = 0.
Hypothesis HT : Ms !! threads_at p = Some {[thread_id m := ct]}.
Hypothesis Hm : p_threads s !! ct = Some m.
Hypothesis HM : Ms !! children_at p = Some ∅.
Hypothesis HZ : Ms !! exit_children_at p = Some ∅.
Hypothesis HZp : Ms !! exit_children_at par = Some Zp.
Hypothesis Hcp : p_procs s !! par = Some cp.
Hypothesis Hv : release_user_space_pages (p_vm s) = Ok v.
Hypothesis Hfuel : forall q any, (length (Q q any) < wfuel)%nat.
Hypothesis Hni : cn <> idle.1.

Definition ended : pcb_t := with_exit c PROCESS_EXIT code.
Definition no_tables : gmap Z (gmap Z Z) :=
  delete (children_at p) (delete (exit_children_at p) (delete (threads_at p) (<[threads_at p := delete (thread_id m) {[thread_id m := ct]}]> Ms))).
(** The state when the process has ended. *)
Definition after_end (h : H) : pstate H :=
  mk_pstate (set_tcb (p_sched s) ct (with_process y 0)) h (<[p := ended]> (p_procs s)) (p_threads s) (p_waits s) (p_mem s) v (p_init s).

Lemma finish_alive : alive (p_procs s) p /\ alive (p_procs s) par /\ par <> p.
Proof.
  assert (alive (p_procs s) p) as Ha by (exists c; split; apply Hc). pose proof (fa_tree _ _ _ _ _ _ _ _ Hf) as Ht. split; [done|].
  assert (p ∉ D) as HpD by (intros Hin%(tr_dead _ _ _ _ Ht); by apply (alive_not_exited (p_procs s) p p)).
  destruct (tr_parent _ _ _ _ Ht p c (cu_pcb _ _ _ _ _ _ _ Hc) HpD) as [|[? ?]]; done.
Qed.

Lemma end_process_ok L Ls k : ct_holds (p_tabs s) L Ms Ls -> ct_room (p_tabs s) k ->
  exists h, end_process s p ct code = Ok (after_end h) /\ ct_holds h L no_tables Ls /\ ct_room h k.
Proof.
  intros Hh Hroom. pose proof (cu_pcb _ _ _ _ _ _ _ Hc) as Hp. pose proof (fa_tree _ _ _ _ _ _ _ _ Hf) as Ht.
  destruct finish_alive as (Ha & _ & _). destruct (tables_differ _ _ _ _ p p Ht (alive_some _ _ Ha) (alive_some _ _ Ha)) as (A1 & A2 & A3 & _).
  pose proof (cu_core _ _ _ _ _ _ _ Hc) as [_ _ [Hy _] _ _ _].
  unfold end_process. rewrite (lock_process_ok s p c Hp) by apply Hc. cbn [res_bind]. set (s1 := set_pcb s p _).
  unfold get_more. cbn [p_threads s1 set_pcb with_procs]. rewrite Hm. cbn [res_bind].
  destruct (table_remove_ok s1 L Ms Ls (threads_at p) _ (thread_id m) k Hh HT Hroom) as (h1 & -> & Hh1 & Hr1). cbn [res_bind].
  rewrite lookup_singleton_eq. change (default 0 (Some ct)) with ct. rewrite Z.eqb_refl.
  rewrite (upd_pcb_ok _ p _ (with_plock c LOCKED_YES)) by apply lookup_insert_eq. cbn [res_bind]. set (s2 := set_pcb (with_tabs s1 h1) p _).
  unfold release_crt_process_resources_locked. change (get_crt_process s2) with (get_crt_process s).
  rewrite (proj1 (cu_calls _ _ _ _ _ _ _ Hc)). cbn [res_bind].
  destruct (table_destroy_ok s2 L _ Ls (threads_at p) _ k Hh1 (lookup_insert_eq _ _ _) Hr1) as (h2 & -> & Hh2 & Hr2). cbn [res_bind].
  destruct (table_destroy_ok (with_tabs s2 h2) L _ Ls (exit_children_at p) ∅ k Hh2) as (h3 & -> & Hh3 & Hr3); [by rewrite lookup_delete_ne, lookup_insert_ne by done|done|]. cbn [res_bind].
  destruct (table_destroy_ok (with_tabs (with_tabs s2 h2) h3) L _ Ls (children_at p) ∅ k Hh3) as (h4 & -> & Hh4 & Hr4); [by rewrite !lookup_delete_ne, lookup_insert_ne by congruence|done|]. cbn [res_bind].
  rewrite (get_pcb_ok _ p (with_exit (with_plock c LOCKED_YES) PROCESS_EXIT code)) by apply lookup_insert_eq. cbn [res_bind].
  change (release_user_space_pages (p_vm (with_tabs (with_tabs (with_tabs s2 h2) h3) h4))) with (release_user_space_pages (p_vm s)). rewrite Hv. cbn [res_bind].
  change (get_tcb (p_sched (with_vm (with_tabs (with_tabs (with_tabs s2 h2) h3) h4) v)) ct) with (get_tcb (p_sched s) ct). rewrite (get_tcb_ok _ _ _ Hy). cbn [res_bind].
  rewrite (unlock_process_ok _ p (with_exit (with_plock c LOCKED_YES) PROCESS_EXIT code)) by apply lookup_insert_eq.
  exists h4. split; [|done]. f_equal. unfold after_end, set_pcb, with_procs, with_sched, with_vm, with_tabs. cbn. f_equal.
  rewrite !insert_insert_eq. f_equal. unfold ended, with_plock, with_exit. cbn. f_equal. symmetry. apply Hc.
Qed.

(** The blocks after the parent has been told. *)
Definition told : gmap Z pcb_t := <[par := set_queue_head true cp 0]> (<[p := set_queue_head false ended 0]> (p_procs s)).
Definition woken : list (Z * Z) := (Q p false).*2 ++ (Q par true).*2.

Lemma after_core : sched_core idle (set_tcb (p_sched s) ct (with_process y 0)) V ct (with_process y 0).
Proof.
  pose proof (cu_core _ _ _ _ _ _ _ Hc) as Hco. pose proof Hco as [[l Hinv] Hi [Hy Hs] Hu Hw Hl]. split; try done.
  - exists l. apply (set_tcb_inv (p_sched s) V l ct idle.2 ct y _ Hinv Hy); [done|]. intros k. apply (core_unlisted idle _ V ct y ready_tasks l k Hco). apply Hinv.
  - split; [apply lookup_insert_eq|done].
  - apply waiters_set; [done|]. right. intros q2 l2 n2 H2 _. by apply (core_unlisted idle _ V ct y q2 l2 n2 Hco).
Qed.

Lemma calls_other t r : F !! t = Some r -> t <> ct.
Proof.
  intros Ht Heq. rewrite Heq in Ht. destruct (wo_calls _ _ _ _ _ _ _ (fa_waits _ _ _ _ _ _ _ _ Hf) ct r Ht) as (z & Hz & <-).
  pose proof (cu_core _ _ _ _ _ _ _ Hc) as [_ _ [Hy _] _ _ _]. assert (z = y) as -> by congruence. apply calls_positive in Ht. lia.
Qed.

Lemma after_waits : waits_ok idle (set_tcb (p_sched s) ct (with_process y 0)) V (p_procs s) (p_waits s) Q F.
Proof.
  apply (waits_ok_sched idle (p_sched s) _ V); [apply Hf|..].
  - intros q any a k t z Hin [Z1 Z2 Z3 Z4 Z5]. split; try done. cbn. rewrite lookup_insert_ne; [done|]. intros Heq.
    destruct (wo_in _ _ _ _ _ _ _ (fa_waits _ _ _ _ _ _ _ _ Hf) _ _ _ _ _ Hin) as (z1 & d1 & _ & _ & _ & Ht). apply calls_other in Ht. congruence.
  - intros t r Ht. cbn. apply calls_other in Ht. by rewrite lookup_insert_ne.
Qed.

Lemma tell_parent_ok h L Ls : ct_holds h L no_tables Ls -> ct_room h (S n) ->
  (tell_parent wfuel (after_end h) p par = Err Panic /\ heap_fails (H:=H)) \/
  exists x h', tell_parent wfuel (after_end h) p par = Ok (with_procs (with_sched (with_tabs (after_end h) h') x) told) /\
    ct_holds h' L (<[exit_children_at par := <[pid c := p]> Zp]> no_tables) Ls /\ ct_room h' n /\
    sched_core idle x (made_ready V woken) ct (with_process y 0) /\ same_cpu (p_sched s) x /\
    threads_kept (<[ct := with_process y 0]> (tcbs (p_sched s))) (tcbs x) /\
    waits_ok idle x (made_ready V woken) told (p_waits s) (cleared (cleared Q p false) par true) F.
Proof.
  intros Hh Hroom. pose proof (cu_pcb _ _ _ _ _ _ _ Hc) as Hp. pose proof Hf as [_ _ _ Ht _ _ _ Hlk Hmax]. destruct finish_alive as (Ha & Hap & Hpp).
  pose proof (Hlk par cp Hcp) as Elp. pose proof (cu_lock _ _ _ _ _ _ _ Hc) as El.
  unfold tell_parent. rewrite (lock_process_ok _ par cp) by first [exact Elp|cbn; by rewrite lookup_insert_ne]. cbn [res_bind].
  rewrite (lock_process_ok _ p ended) by first [exact El|cbn; by rewrite lookup_insert_ne, lookup_insert_eq]. cbn [res_bind].
  rewrite (get_pcb_ok _ p (with_plock ended LOCKED_YES)) by apply lookup_insert_eq. cbn [res_bind]. set (s1 := set_pcb (set_pcb (after_end h) par _) p _).
  change (pid (with_plock ended LOCKED_YES)) with (pid c).
  destruct (tables_differ _ _ _ _ p p Ht (alive_some _ _ Ha) (alive_some _ _ Ha)) as (A1 & A2 & A3 & _).
  destruct (tables_differ _ _ _ _ p par Ht (alive_some _ _ Ha) (alive_some _ _ Hap)) as (B1 & B2 & B3 & B4). destruct (B4 ltac:(congruence)) as (B5 & B6 & B7).
  destruct (table_put_ok s1 L no_tables Ls (exit_children_at par) Zp (pid c) p n Hh) as [[-> Hno]|(h' & -> & Hh' & Hr')]; [|done| |by left|].
  { unfold no_tables. by rewrite !lookup_delete_ne, lookup_insert_ne by congruence. }
  { assert (base.size Zp <= base.size (p_procs s))%nat; [|lia]. apply table_size. intros k q Hk. destruct (tr_zombies _ _ _ _ Ht par Hap) as (Z' & HZ' & HvZ).
    assert (Z' = Zp) as -> by congruence. apply HvZ in Hk as [(d & Hd & Hpd & _) _]. by exists d. }
  cbn [res_bind]. set (s2 := with_tabs s1 h').
  assert (p_procs s2 = <[p := with_plock ended LOCKED_YES]> (<[par := with_plock cp LOCKED_YES]> (<[p := ended]> (p_procs s)))) as P2 by done.
  assert (same_queues Q (p_procs s) (p_procs s2)) as Hsq.
  { rewrite P2. intros q. destruct (decide (q = p)) as [->|Hqp]; [rewrite Hp, lookup_insert_eq; repeat (split; [try done; by intros []|]); by left|].
    rewrite lookup_insert_ne by done. destruct (decide (q = par)) as [->|Hqr]; [rewrite Hcp, lookup_insert_eq; repeat (split; [try done; by intros []|]); by left|].
    rewrite !lookup_insert_ne by done. destruct (p_procs s !! q); [|done]. repeat (split; [done|]). by left. }
  destruct (wake_queue_ok idle false wfuel s2 V ct (with_process y 0) Q F p (with_plock ended LOCKED_YES)) as (x1 & -> & Hco1 & Hcpu1 & Hk1 & Hw1); [apply after_core| | |done|].
  { apply (waits_ok_queues _ _ _ _ _ _ _ _ Hsq). exact after_waits. }
  { rewrite P2. apply lookup_insert_eq. }
  cbn [res_bind]. set (s3 := set_pcb (with_sched s2 x1) p _).
  assert (cleared Q p false par true = Q par true) as EQ by (unfold cleared; by rewrite decide_False by naive_solver).
  destruct (wake_queue_ok idle true wfuel s3 (made_ready V (Q p false).*2) ct (with_process y 0) (cleared Q p false) F par (with_plock cp LOCKED_YES)) as (x2 & -> & Hco2 & Hcpu2 & Hk2 & Hw2); [done|done| |by rewrite EQ|].
  { cbn. by rewrite insert_insert_eq, lookup_insert_ne, lookup_insert_eq by done. }
  cbn [res_bind]. rewrite EQ, made_ready_app in Hco2, Hw2. set (s4 := set_pcb (with_sched s3 x2) par _).
  rewrite (unlock_process_ok s4 p (set_queue_head false (with_plock ended LOCKED_YES) 0)) by (cbn; rewrite lookup_insert_ne by done; apply lookup_insert_eq). cbn [res_bind].
  rewrite (unlock_process_ok _ par (set_queue_head true (with_plock cp LOCKED_YES) 0)) by (cbn; rewrite lookup_insert_ne by done; apply lookup_insert_eq).
  right. exists x2, h'.
  assert (forall W0 : gmap Z pcb_t, <[par := with_plock (set_queue_head true (with_plock cp LOCKED_YES) 0) LOCKED_NO]> (<[p := with_plock (set_queue_head false (with_plock ended LOCKED_YES) 0) LOCKED_NO]>
    (<[par := set_queue_head true (with_plock cp LOCKED_YES) 0]> (<[p := set_queue_head false (with_plock ended LOCKED_YES) 0]> W0))) = <[par := set_queue_head true cp 0]> (<[p := set_queue_head false ended 0]> W0)) as HP.
  { intros W0. rewrite (insert_insert_ne _ p par), !insert_insert_eq by done. f_equal; [unfold with_plock; cbn; by rewrite <- Elp|].
    f_equal. unfold with_plock, ended, with_exit. cbn. by rewrite <- El. }
  assert (<[p := set_queue_head false ended 0]> (<[p := with_plock ended LOCKED_YES]> (<[par := with_plock cp LOCKED_YES]> (<[p := ended]> (p_procs s)))) =
    <[par := with_plock cp LOCKED_YES]> (<[p := set_queue_head false ended 0]> (p_procs s))) as HP2.
  { by rewrite insert_insert_eq, (insert_insert_ne _ p par), insert_insert_eq by done. }
  split.
  { f_equal. unfold s4, s3, set_pcb, with_procs, with_sched. cbn [p_procs p_sched p_tabs p_init p_waits p_threads p_mem p_vm]. f_equal. rewrite HP, P2, HP2.
    unfold told. by rewrite insert_insert_eq. }
  split; [done|]. split; [done|]. split; [done|]. split; [|split].
  - destruct Hcpu1 as (? & ? & ? & ? & ? & ?), Hcpu2 as (? & ? & ? & ? & ? & ?). cbn in *. repeat split; congruence.
  - eapply threads_kept_trans; [exact Hk1|exact Hk2].
  - apply (waits_ok_queues _ _ _ (<[par := set_queue_head true (with_plock cp LOCKED_YES) 0]> (p_procs s3))); [|exact Hw2].
    intros q. unfold told. destruct (decide (q = par)) as [->|Hqr]; [rewrite !lookup_insert_eq; repeat (split; [try done; by intros []|]); by left|].
    rewrite !(lookup_insert_ne _ par q) by done. unfold s3. cbn [p_procs set_pcb with_procs with_sched]. rewrite P2.
    destruct (decide (q = p)) as [->|Hqp]; [rewrite !lookup_insert_eq; repeat (split; [try done; by intros []|]); by left|].
    rewrite !lookup_insert_ne by done. destruct (p_procs s !! q); [|done]. repeat (split; [done|]). by left.
Qed.

Lemma finished_threads x V' d : V !! dead_tasks = Some d -> V' !! dead_tasks = Some (d ++ [(cn, ct)]) ->
  threads_kept (<[ct := with_process y 0]> (tcbs (p_sched s))) (tcbs x) ->
  threads_ok x V' told (<[exit_children_at par := <[pid c := p]> Zp]> no_tables) (p_threads s).
Proof.
  intros Hd Hd' Hk. destruct finish_alive as (Ha & Hap & Hpp). pose proof Hf as [_ _ _ Ht _ [T1 T2] _ _ _].
  pose proof (cu_core _ _ _ _ _ _ _ Hc) as [_ _ [Hy _] _ _ _].
  assert (buried V' ct) as Hbc by (exists (d ++ [(cn, ct)]), cn; split; [done|set_solver]).
  assert (forall t, buried V t -> buried V' t) as Hb.
  { intros t (d2 & k & Hd2 & Hin). exists (d ++ [(cn, ct)]), k. split; [done|]. assert (d2 = d) as -> by congruence. set_solver. }
  assert (forall t z', t <> ct -> tcbs x !! t = Some z' -> exists z, tcbs (p_sched s) !! t = Some z /\ process z = process z') as Hget.
  { intros t z' Hne Hz'. destruct (threads_kept_get _ _ _ _ Hk Hz') as (z & Hz & ? & _). rewrite lookup_insert_ne in Hz by congruence. by exists z. }
  assert (forall t z, t <> ct -> tcbs (p_sched s) !! t = Some z -> exists z', tcbs x !! t = Some z' /\ process z' = process z) as Hset.
  { intros t z Hne Hz. specialize (Hk t). rewrite lookup_insert_ne, Hz in Hk by congruence. destruct (tcbs x !! t) as [z'|]; [|done]. exists z'. by destruct Hk. }
  assert (forall r, alive told r <-> alive (p_procs s) r /\ r <> p) as Hal.
  { intros r. unfold alive, told. destruct (decide (r = par)) as [->|Hrp].
    - rewrite lookup_insert_eq. split; [intros _; split; [done|done]|]. intros _. exists (set_queue_head true cp 0). split; [done|]. destruct Hap as (e & He & Hs). cbn. congruence.
    - rewrite lookup_insert_ne by done. destruct (decide (r = p)) as [->|Hrc].
      + rewrite lookup_insert_eq. split; [intros (e & He & Hs); by injection He as <-|by intros [_ ?]].
      + rewrite lookup_insert_ne by done. naive_solver. }
  split.
  - intros t z' Hz'. destruct (decide (t = ct)) as [->|Hne]; [by left|]. destruct (Hget t z' Hne Hz') as (z & Hz & <-).
    destruct (T1 t z Hz) as [|Hr]; [left; by apply Hb|]. destruct (decide (process z = p)) as [Heq|Hzp]; [|right; by apply Hal].
    destruct (decide (t ∈ d.*2)) as [Hin|Hnot].
    + left. apply Hb. apply list_elem_of_fmap in Hin as ([k u] & -> & Hin). by exists d, k.
    + exfalso. destruct (T2 p Ha) as (T & HT' & _ & HT2). assert (T = {[thread_id m := ct]}) as -> by congruence.
      destruct (HT2 t z Hz Heq) as (m' & _ & HTm); [|apply lookup_singleton_Some in HTm as [_ ?]; congruence].
      intros (d2 & k & Hd2 & Hin). assert (d2 = d) as -> by congruence. apply Hnot. apply list_elem_of_fmap. by exists (k, t).
  - intros r [Hr Hrp]%Hal. destruct (T2 r Hr) as (T & HTr & HT1 & HT2). exists T.
    destruct (tables_differ _ _ _ _ r p Ht (alive_some _ _ Hr) (alive_some _ _ Ha)) as (A1 & A2 & _ & A3), (tables_differ _ _ _ _ r par Ht (alive_some _ _ Hr) (alive_some _ _ Hap)) as (_ & A4 & _).
    destruct (A3 Hrp) as (A5 & _). split.
    { unfold no_tables. by rewrite lookup_insert_ne, !lookup_delete_ne, lookup_insert_ne by congruence. }
    split.
    + intros k t Htk. destruct (HT1 k t Htk) as (z & m' & Hz & Hp & R). assert (t <> ct) as Hne by (intros Heq; rewrite Heq in Hz; congruence).
      destruct (Hset t z Hne Hz) as (z' & Hz' & Hp'). exists z', m'. split; [done|]. split; [congruence|done].
    + intros t z' Hz' Hp' Hnb. assert (t <> ct) as Hne by (intros Heq; by rewrite Heq in Hnb). destruct (Hget t z' Hne Hz') as (z & Hz & Hp).
      apply (HT2 t z Hz); [congruence|]. intros Hbt. by apply Hnb, Hb.
Qed.

Lemma told_same : same_tree (<[p := ended]> (p_procs s)) told.
Proof.
  destruct finish_alive as (_ & _ & Hpp). unfold told. rewrite <- (insert_insert_eq (p_procs s) p (set_queue_head false ended 0) ended).
  eapply same_tree_trans; [apply (same_tree_set _ p ended (set_queue_head false ended 0)); [apply lookup_insert_eq|done..]|].
  apply (same_tree_set _ par cp); [by rewrite !lookup_insert_ne|done..].
Qed.

Lemma exit_tree : tree_ok told (<[exit_children_at par := <[pid c := p]> Zp]> no_tables) D (p_init s).
Proof. apply (tree_ok_same (<[p := ended]> (p_procs s))); [exact told_same|]. apply tree_ok_exit; try done; [apply Hf|apply Hc|apply Hc]. Qed.

(** The end of [process_exit], of a process without children, keeps the invariant. *)
Lemma finish_ok : ct_room (p_tabs s) (S n) ->
  let r := let! s := end_process s p ct code in let! s := tell_parent wfuel s p par in on_sched s schedule_thread_exit in
  (r = Err Panic /\ heap_fails (H:=H)) \/ exists s' w', r = Ok s' /\ sched_spec idle (made_ready V woken, (cn, ct)) Exit = Some w' /\
    family idle s' w'.1 w'.2 (<[exit_children_at par := <[pid c := p]> Zp]> no_tables) D (cleared (cleared Q p false) par true) F /\
    p_procs s' = told /\ p_vm s' = v /\ p_mem s' = p_mem s /\ p_waits s' = p_waits s /\ ct_room (p_tabs s') n.
Proof.
  intros Hroom r. pose proof Hf as [Hrel [[d Hd] Hdv] (L & Ls & Hh & HLs) Ht Hw Hth Hlive Hlk Hmax]. destruct finish_alive as (Ha & Hap & Hpp).
  pose proof (cu_core _ _ _ _ _ _ _ Hc) as Hco. pose proof Hco as [_ _ [Hy _] _ _ _].
  destruct (end_process_ok L Ls (S n) Hh Hroom) as (h1 & E1 & Hh1 & Hr1). subst r. rewrite E1. cbn [res_bind].
  destruct (tell_parent_ok h1 L Ls Hh1 Hr1) as [[-> Hno]|(x & h2 & -> & Hh2 & Hr2 & Hco2 & Hcpu & Hk & Hw2)]; [by left|]. cbn [res_bind]. set (s2 := with_procs _ _).
  assert (crt_thread_node x = cn) as Hcn by (destruct Hcpu as (-> & _); apply Hc).
  destruct (exit_defined idle x (made_ready V woken) ct (with_process y 0) d Hco2) as (w' & Ew & Hdw & Hdvw & Hun & Hctw & Hbw);
    [by rewrite Hcn|by rewrite made_ready_ne|by rewrite made_ready_ne|].
  rewrite Hcn in Ew, Hdw, Hun.
  destruct (exit_core idle x (made_ready V woken) ct (with_process y 0) w' Hco2) as (x' & Ex & Hrel' & _ & Hk' & Hfr); [by rewrite Hcn| |].
  { right. intros z Hz. cbn. destruct (threads_kept_get _ _ _ _ Hk Hz) as (z0 & Hz0 & <- & _). rewrite lookup_insert_ne in Hz0 by done.
    destruct (th_live _ _ _ _ _ Hth _ _ Hz0) as [Hbz|Haz].
    - exfalso. apply Hbw. destruct Hbz as (d2 & k & Hd2 & Hin). exists d2, k. split; [by rewrite made_ready_ne|done].
    - destruct Haz as (e & He & _). by apply (tr_pcb _ _ _ _ Ht _ e). }
  right. eexists _, w'. split; [unfold on_sched; cbn [p_sched s2 with_procs with_sched]; rewrite Ex; reflexivity|]. split; [done|]. split; [|by repeat split].
  split; cbn [p_procs p_sched p_tabs p_init p_waits p_threads with_procs with_sched with_tabs s2 after_end].
  - by rewrite <- surjective_pairing.
  - by rewrite Hdw.
  - by exists L, Ls.
  - exact exit_tree.
  - apply (waits_ok_sched idle x _ _ _ _ _ _ _ Hw2).
    + intros q any a k t z Hin Hz. pose proof (core_other idle x _ ct _ k t z Hco2 Hz) as Hne. destruct Hz as [Z1 Z2 Z3 Z4 Z5].
      assert (k <> cn) as Hkn. { rewrite <- Z2, <- Hcn. pose proof Hco2 as [[l [_ _ Hct _]] _ [Hcy _] _ _ _]. rewrite <- (node_of_tcb _ _ _ _ Hct Hcy).
        by apply (node_apart idle x _ ct _ t z ct _ Hco2). }
      split; try done; [|by apply Hun]. apply Hfr; [done|done|done|by rewrite Z2].
    + intros t q Hq. specialize (Hk' t). destruct (tcbs x !! t), (tcbs x' !! t); try done. destruct Hk' as [Hpk _]. cbn. by rewrite Hpk.
  - apply (finished_threads x' w'.1 d Hd Hdw). eapply threads_kept_trans; [exact Hk|exact Hk'].
  - intros q e any He Hn. unfold cleared. case_decide as H1; [done|]. case_decide as H2; [done|]. unfold told in He.
    apply lookup_insert_Some in He as [[<- <-]|[Hqp He]].
    + destruct Hap as (e' & He' & Hs). assert (e' = cp) as -> by congruence. done.
    + apply lookup_insert_Some in He as [[<- <-]|[Hqc He]]; [|by apply (Hlive q e)]. destruct any; [|by destruct H2].
      apply (nobody_waits idle s V cn ct Ms D Q F y Hf HF p true c); [apply Hc|done].
  - intros q e. unfold told. rewrite !lookup_insert_Some. intros [[<- <-]|[_ [[<- <-]|[_ He]]]]; [exact (Hlk par cp Hcp)|exact (cu_lock _ _ _ _ _ _ _ Hc)|by apply (Hlk q)].
  - rewrite (same_tree_size (<[p := ended]> (p_procs s))).
    + rewrite map_size_insert, (cu_pcb _ _ _ _ _ _ _ Hc). done.
    + exact told_same.
Qed.
End FINISH.

(** *** The whole exit *)

(** The blocks after the exit, against those before. *)
Lemma exit_blocks (P : gmap Z pcb_t) (M : gmap Z Z) i p c ci cp code : P !! p = Some c -> P !! i = Some ci -> p <> i -> i ∉ vals M -> p ∉ vals M ->
  parent c <> p -> <[i := set_queue_head true ci 0]> (reparent (vals M) i P) !! parent c = Some cp -> forall q d, P !! q = Some d ->
  exists d', <[parent c := set_queue_head true cp 0]> (<[p := set_queue_head false (ended c code) 0]> (<[i := set_queue_head true ci 0]> (reparent (vals M) i P))) !! q = Some d' /\
    pid d' = pid d /\ (q ∈ vals M -> parent d' = i) /\ (q ∉ vals M -> parent d' = parent d) /\
    (if decide (q = p) then pstatus d' = PROCESS_EXIT /\ exit_code d' = code else pstatus d' = pstatus d /\ exit_code d' = exit_code d).
Proof.
  intros Hp Hi Hpi Hin Hpn Hpp Hcp q d Hd. set (P1 := <[i := _]> (reparent _ _ _)) in *.
  assert (exists d1, P1 !! q = Some d1 /\ pid d1 = pid d /\ (q ∈ vals M -> parent d1 = i) /\ (q ∉ vals M -> parent d1 = parent d) /\
    pstatus d1 = pstatus d /\ exit_code d1 = exit_code d) as (d1 & Hd1 & E1 & E2 & E3 & E4 & E5).
  { unfold P1. destruct (decide (q = i)) as [->|Hq].
    - rewrite lookup_insert_eq. eexists. split; [done|]. assert (d = ci) as -> by congruence. done.
    - rewrite lookup_insert_ne, reparent_lookup, Hd by done. cbn. eexists. split; [done|]. by case_decide. }
  destruct (decide (q = parent c)) as [->|Hq1]; [|destruct (decide (q = p)) as [->|Hq2]].
  - rewrite lookup_insert_eq. eexists. split; [done|]. assert (d1 = cp) as -> by congruence. by rewrite decide_False.
  - rewrite lookup_insert_ne, lookup_insert_eq by done. eexists. split; [done|]. assert (d = c) as -> by congruence. split; [done|].
    split; [intros ?; by destruct Hpn|done].
  - rewrite !lookup_insert_ne by done. exists d1. done.
Qed.

Lemma exit_no_more (P : gmap Z pcb_t) (M : gmap Z Z) i p r (c ci cp c' : pcb_t) : P !! p = Some c -> P !! i = Some ci ->
  <[i := set_queue_head true ci 0]> (reparent (vals M) i P) !! r = Some cp -> forall q,
  is_Some (<[r := set_queue_head true cp 0]> (<[p := c']> (<[i := set_queue_head true ci 0]> (reparent (vals M) i P))) !! q) -> is_Some (P !! q).
Proof.
  intros Hp Hi Hr q. assert (is_Some (<[i := set_queue_head true ci 0]> (reparent (vals M) i P) !! q) -> is_Some (P !! q)) as Hbase.
  { destruct (decide (q = i)) as [->|Hq]; [by eexists|]. rewrite lookup_insert_ne, reparent_lookup by done. by intros [d [e [He _]]%fmap_Some]. }
  destruct (decide (q = r)) as [->|Hqr]; [intros _; apply Hbase; by eexists|]. rewrite lookup_insert_ne by done.
  destruct (decide (q = p)) as [->|Hqp]; [by eexists|]. by rewrite lookup_insert_ne.
Qed.

(** Of a process with one thread, none of which waits, the exit is its parts. *)
Lemma exit_parts {H : Type} {HC : Containers H} {HL : ContainersLaws H} idle (s : pstate H) V cn ct Ms D Q F y c m wfuel code :
  family idle s V (cn, ct) Ms D Q F -> current idle s V cn ct y c -> process y <> p_init s -> parent c <> 0 -> calls F (process y) = 0 ->
  Ms !! threads_at (process y) = Some {[thread_id m := ct]} ->
  process_exit wfuel s code = let! s1 := hand_over wfuel (with_sched s (with_interrupts (p_sched s) false)) (process y) (p_init s) in
    let! s2 := end_process s1 (process y) ct code in let! s3 := tell_parent wfuel s2 (process y) (parent c) in on_sched s3 schedule_thread_exit.
Proof.
  intros Hf Hc Hi Hpar HF HT. pose proof (fa_tree _ _ _ _ _ _ _ _ Hf) as Ht. destruct (cu_calls _ _ _ _ _ _ _ Hc) as (E1 & E2 & E3).
  destruct (fa_tabs _ _ _ _ _ _ _ _ Hf) as (L & Ls & Hh & _). pose proof (cu_pcb _ _ _ _ _ _ _ Hc) as Hp.
  unfold process_exit. rewrite E1. cbn [res_bind]. rewrite E3. cbn [res_bind]. rewrite (get_pcb_ok s (process y) c Hp). cbn [res_bind].
  replace (parent c =? 0) with false by (symmetry; zbool). cbn [negb]. unfold get_init_process.
  destruct (tr_init _ _ _ _ Ht) as (ci & Hci & _). destruct (tr_pcb _ _ _ _ Ht _ _ Hci) as [Hi0 _].
  replace (p_init s =? 0) with false by (symmetry; zbool). cbn [negb res_bind]. replace (process y =? p_init s) with false by (symmetry; zbool). cbn [negb].
  cbn [interrupt_disable snd]. set (s0 := with_sched s _). rewrite (lock_process_ok s0 (process y) c) by apply Hc. cbn [res_bind].
  rewrite (get_pcb_ok _ (process y) _ (set_pcb_eq _ _ _)). cbn [res_bind waiting_threads_count with_plock].
  rewrite (wo_count _ _ _ _ _ _ _ (fa_waits _ _ _ _ _ _ _ _ Hf) _ c Hp), HF. cbn [Z.gtb Z.compare].
  cbn [p_tabs set_pcb with_procs]. change (p_tabs s0) with (p_tabs s). rewrite (tb_size_law _ L Ms Ls _ _ Hh HT). cbn [res_bind].
  rewrite map_size_singleton. change (Z.of_nat 1 >? 1) with false. cbv iota. cbn [res_bind].
  rewrite (unlock_process_ok _ (process y) _ (set_pcb_eq _ _ _)). cbn [res_bind].
  replace (set_pcb (set_pcb s0 (process y) (with_plock c LOCKED_YES)) (process y) (with_plock (with_plock c LOCKED_YES) LOCKED_NO)) with s0; [done|].
  unfold set_pcb, with_procs. cbn. rewrite insert_insert_eq, insert_id; [done|]. rewrite Hp. f_equal. unfold with_plock. cbn. rewrite <- (cu_lock _ _ _ _ _ _ _ Hc). by destruct c.
Qed.

(** The queues after the exit. *)
Lemma exit_queues Q i p r q any : cleared (cleared (cleared Q i true) p false) r true q any =
  if decide ((q = i /\ any = true) \/ (q = p /\ any = false) \/ (q = r /\ any = true)) then [] else Q q any.
Proof. unfold cleared. repeat case_decide; try done; naive_solver. Qed.
Lemma exit_woken V Q i p (c : pcb_t) y : process y = p -> i <> p ->
  made_ready (made_ready V (Q i true).*2) (woken (cleared Q i true) y c) =
  made_ready V ((Q i true).*2 ++ (Q p false).*2 ++ (if decide (parent c = i) then [] else (Q (parent c) true).*2)).
Proof.
  intros <- Hne. rewrite made_ready_app. f_equal. f_equal. unfold woken, cleared. f_equal; [by rewrite decide_False by naive_solver|].
  case_decide as Hd; [by rewrite decide_True by naive_solver|by rewrite decide_False by naive_solver].
Qed.

Lemma gone_tables P Ms0 D i p r (T Zr : gmap Z Z) (Ms : gmap Z (gmap Z Z)) : tree_ok P Ms0 D i -> alive P p -> alive P r -> r <> p ->
  let Ms' := <[exit_children_at r := Zr]> (delete (children_at p) (delete (exit_children_at p) (delete (threads_at p) (<[threads_at p := T]> Ms)))) in
  Ms' !! threads_at p = None /\ Ms' !! children_at p = None /\ Ms' !! exit_children_at p = None.
Proof.
  intros Ht Hp Hr Hne. destruct (tables_differ _ _ _ _ p p Ht (alive_some _ _ Hp) (alive_some _ _ Hp)) as (A1 & A2 & A3 & _),
    (tables_differ _ _ _ _ p r Ht (alive_some _ _ Hp) (alive_some _ _ Hr)) as (A4 & A5 & A6 & A7). destruct (A7 ltac:(done)) as (_ & A8 & A9). cbn zeta.
  split; [rewrite lookup_insert_ne, !lookup_delete_ne by congruence; apply lookup_delete_eq|].
  split; [rewrite lookup_insert_ne by congruence; apply lookup_delete_eq|].
  rewrite lookup_insert_ne, lookup_delete_ne by congruence. apply lookup_delete_eq.
Qed.

Lemma current_interrupts {H : Type} `{Containers H} idle (s : pstate H) b V cn ct y c :
  current idle s V cn ct y c -> current idle (with_sched s (with_interrupts (p_sched s) b)) V cn ct y c.
Proof.
  intros [Hco ? ? ? ? ? ? ?]. split; try done. destruct Hco as [[l Hinv] ? ? ? ? ?]. split; try done. exists l. by apply with_interrupts_inv.
Qed.
