(* ===== verification/ProcessDemo.v ===== *)
(** A machine with three processes, over the finite maps of [Maps]: the kernel's, [init]
    and a child of [init], each with one thread.  Either [init] runs and its child is
    ready, or [init] waits for a child and its child runs. *)
From S2P Require Import Prelude BitMap LinkedList Sched SchedSpec SchedProps Memory Page PageDemo Containers Process ProcessSpec ProcessExit.

Import (hints) Maps.

Definition fam_pcb (id par any count : Z) : pcb_t :=
  mk_pcb id par PROCESS_NORMAL (mk_bitmap [] false 0 0) false 0 0 any count 0 LOCKED_NO.
Definition fam_procs (w : bool) : gmap Z pcb_t :=
  <[20000 := fam_pcb 1 0 (if w then 900 else 0) (if w then 1 else 0)]> (<[10000 := fam_pcb 0 0 0 0]> (<[40000 := fam_pcb 2 20000 0 0]> ∅)).

Definition fam_tcb (st : task_status) (q p node : Z) : tcb_t := mk_tcb st 10 0 false p 0 4096 q node.
Definition fam_tcbs (w : bool) : gmap Z tcb_t :=
  <[1000 := fam_tcb TASK_RUNNING 0 10000 1001]>
    (<[2000 := fam_tcb (if w then TASK_WAITING else TASK_RUNNING) 0 20000 2001]>
      (<[4000 := fam_tcb (if w then TASK_RUNNING else TASK_READY) (if w then 0 else ready_tasks) 40000 4001]> ∅)).
Definition fam_more : gmap Z thread_more := <[1000 := mk_more 0 0]> (<[2000 := mk_more 1 0]> (<[4000 := mk_more 2 0]> ∅)).

Definition fam_nodes : nodes := <[1001 := mk_node 1000 0 0]> (<[2001 := mk_node 2000 0 0]> (<[4001 := mk_node 4000 0 0]> ∅)).
Definition fam_view (w : bool) : view :=
  <[ready_tasks := if w then [] else [(4001, 4000)]]> (<[dead_tasks := []]> (<[dead_cv := []]> ∅)).
Definition fam_queues (w : bool) : gmap Z linked_list_t :=
  <[ready_tasks := if w then mk_list 0 0 0 else mk_list 4001 4001 1]> (<[dead_tasks := mk_list 0 0 0]> (<[dead_cv := mk_list 0 0 0]> ∅)).
Definition fam_cur (w : bool) : Z * Z := if w then (4001, 4000) else (2001, 2000).
Definition fam_sched (w : bool) : sched :=
  mk_sched fam_nodes (fam_tcbs w) (fam_queues w) (fam_cur w).1 1001 false true true (if w then 40000 else 20000) 0 LOCKED_NO.

Definition fam_tables : gmap Z (gmap Z Z) :=
  <[10044 := {[0 := 1000]}]> (<[20044 := {[1 := 2000]}]> (<[40044 := {[2 := 4000]}]>
    (<[10080 := ∅]> (<[20080 := {[2 := 40000]}]> (<[40080 := ∅]> (<[10092 := ∅]> (<[20092 := ∅]> (<[40092 := ∅]> ∅)))))))).
Definition fam_waits (w : bool) : gmap Z wait_node_t := if w then {[900 := mk_wait 2001 0 0]} else ∅.
Definition fam_queue (w : bool) : Z -> bool -> list waiter :=
  fun q any => if decide (w = true /\ q = 20000 /\ any = true) then [(900, (2001, 2000))] else [].
Definition fam_calls (w : bool) : gmap Z Z := if w then {[2000 := 20000]} else ∅.

Definition fam (w : bool) : pstate Maps.store :=
  mk_pstate (fam_sched w) (Maps.mk_store ∅ fam_tables {[dead_processes := []]}) (fam_procs w) fam_more (fam_waits w) (fun _ => 0) demo 20000.
Definition fam_idle : Z * Z := (1001, 1000).


Lemma fam_unqueued w n : n <> 4001 \/ w = true -> unqueued (fam_view w) n.
Proof. intros Hn q l Hl. unfold fam_view in Hl. entries Hl; destruct w, Hn; cbn; set_solver. Qed.

Lemma fam_qinv w : qinv fam_nodes (fam_tcbs w) (fam_queues w) (fam_view w).
Proof.
  split.
  - intros q l Hl. unfold fam_view in Hl. entries Hl; eexists; (split; [by vm_compute|]); [|apply dll_empty..].
    destruct w; [apply dll_empty|apply dll_single; [done|by vm_compute]].
  - intros q1 q2 l1 l2 x Hl1 Hl2 Hx1 Hx2. unfold fam_view in Hl1, Hl2. entries Hl1; entries Hl2; try done; destruct w; set_solver.
  - intros t c Hc. unfold fam_tcbs in Hc. entries Hc; (split; [done|]); (split; [done|]); eexists; by vm_compute.
  - intros q l n t Hl Hin. unfold fam_view in Hl. entries Hl; destruct w; try by apply not_elem_of_nil in Hin.
    apply list_elem_of_singleton in Hin as [= -> ->]. eexists. by vm_compute.
  - destruct w; by vm_compute.
Qed.

Lemma fam_rel w : sched_rel fam_idle (fam_sched w) (fam_view w, fam_cur w).
Proof.
  split; [|done|done| | |done].
  - exists (if w then [] else [(4001, 4000)]). split; [apply fam_qinv| | |].
    + split; [by destruct w|]. destruct w; intros n t Hin; [by apply not_elem_of_nil in Hin|]. apply list_elem_of_singleton in Hin as [= -> ->]. eexists. by vm_compute.
    + destruct w; eexists; by vm_compute.
    + split; [destruct w; eexists; by vm_compute|apply fam_unqueued; by left].
  - split; [apply fam_unqueued; destruct w; [by right|left; done]|]. destruct w; eexists; by vm_compute.
  - intros q l n t Hl Hwq Hin. cbn in Hl. unfold fam_view in Hl. entries Hl; try done; by apply not_elem_of_nil in Hin.
Qed.

Lemma fam_alive w p : alive (fam_procs w) p -> p = 10000 \/ p = 20000 \/ p = 40000.
Proof. intros (c & Hc & _). unfold fam_procs in Hc. entries Hc; auto. Qed.
Lemma fam_child w p k q : is_child (fam_procs w) [] p k q <-> p = 20000 /\ k = 2 /\ q = 40000 \/ p = 0 /\ (k = 0 /\ q = 10000 \/ k = 1 /\ q = 20000).
Proof.
  split.
  - intros (c & Hc & <- & <- & _). unfold fam_procs in Hc. entries Hc; cbn; auto.
  - intros [(-> & -> & ->)|[-> [[-> ->]|[-> ->]]]]; destruct w; eexists; (split; [by vm_compute|]); (split; [done|]); (split; [done|apply not_elem_of_nil]).
Qed.
Lemma fam_exited w p : ~ exited (fam_procs w) p.
Proof. intros (c & Hc & Hs). unfold fam_procs in Hc. entries Hc; done. Qed.

Lemma fam_tree w : tree_ok (fam_procs w) fam_tables [] 20000.
Proof.
  split.
  - eexists. split; [apply lookup_insert_eq|done].
  - intros p c Hc. unfold fam_procs in Hc. entries Hc; cbn; (split; [done|]); (split; [lia|done]).
  - intros p1 c1 p2 c2 H1 H2. unfold fam_procs in H1, H2. entries H1; entries H2; done.
  - intros p q [c1 H1] [c2 H2]. unfold fam_procs in H1, H2. entries H1; entries H2; intros; lia.
  - intros q c Hc _. unfold fam_procs in Hc. entries Hc; [by left|by left|right]. split; [|done]. eexists. split; [apply lookup_insert_eq|done].
  - intros p Hp. destruct (fam_alive _ _ Hp) as [->|[->| ->]]; [exists ∅|exists {[2 := 40000]}|exists ∅]; (split; [by vm_compute|]);
      intros k q; rewrite fam_child, ?lookup_empty, ?lookup_singleton_Some; naive_solver.
  - intros p Hp. destruct (fam_alive _ _ Hp) as [->|[->| ->]]; exists ∅; (split; [by vm_compute|]); intros k q; rewrite lookup_empty;
      (split; [done|]); intros [_ He]; by apply fam_exited in He.
  - by intros q ?%not_elem_of_nil.
  - apply NoDup_nil_2.
Qed.

Lemma fam_asleep : asleep fam_idle (fam_sched true) (fam_view true) 2001 2000 (fam_tcb TASK_WAITING 0 20000 2001).
Proof. split; try done. apply fam_unqueued. by right. Qed.

Lemma fam_waits_ok w : waits_ok fam_idle (fam_sched w) (fam_view w) (fam_procs w) (fam_waits w) (fam_queue w) (fam_calls w).
Proof.
  split.
  - intros p c any Hc. unfold fam_procs in Hc. unfold fam_queue. entries Hc; destruct any, w; cbn; try done.
    split; [done|]. split; [done|]. eexists. split; [by vm_compute|done].
  - intros p any a n t Hin. unfold fam_queue in Hin. case_decide as Hd; [|by apply not_elem_of_nil in Hin].
    destruct Hd as (-> & -> & ->). apply list_elem_of_singleton in Hin as [= -> -> ->]. eexists _, _. split; [apply fam_asleep|].
    split; [apply lookup_insert_eq|]. split; [done|]. by vm_compute.
  - intros p1 b1 p2 b2 w1 w2 Hin1 Hin2 _. unfold fam_queue in Hin1, Hin2.
    repeat case_decide; try first [by apply not_elem_of_nil in Hin1|by apply not_elem_of_nil in Hin2]. naive_solver.
  - intros p b. unfold fam_queue. case_decide; [apply NoDup_singleton|apply NoDup_nil_2].
  - intros t p Ht. unfold fam_calls in Ht. destruct w; [|by apply lookup_empty_Some in Ht]. apply lookup_singleton_Some in Ht as [<- <-]. eexists. by vm_compute.
  - intros p c Hc. unfold fam_procs in Hc. entries Hc; destruct w; by vm_compute.
Qed.

Lemma fam_threads w : threads_ok (fam_sched w) (fam_view w) (fam_procs w) fam_tables fam_more.
Proof.
  split.
  - intros t y Hy. right. cbn in Hy. unfold fam_tcbs in Hy. entries Hy; destruct w; eexists; by vm_compute.
  - intros p Hp. destruct (fam_alive _ _ Hp) as [->|[->| ->]]; [exists {[0 := 1000]}|exists {[1 := 2000]}|exists {[2 := 4000]}]; (split; [by vm_compute|]); (split;
      [intros k t [<- <-]%lookup_singleton_Some; destruct w; eexists _, _; by vm_compute|]);
      intros t y Hy Hpy _; cbn in Hy; unfold fam_tcbs in Hy; entries Hy; try done; eexists; by vm_compute.
Qed.

Lemma fam_ok w : family fam_idle (fam w) (fam_view w) (fam_cur w) fam_tables [] (fam_queue w) (fam_calls w).
Proof.
  split.
  - apply fam_rel.
  - split; eexists; by vm_compute.
  - eexists _, _. split; [reflexivity|]. by vm_compute.
  - apply fam_tree.
  - apply fam_waits_ok.
  - apply fam_threads.
  - intros p c any Hc Hs. destruct Hs. cbn in Hc. unfold fam_procs in Hc. entries Hc; done.
  - intros p c Hc. cbn in Hc. unfold fam_procs in Hc. entries Hc; done.
  - by destruct w; vm_compute.
Qed.
