(* ===== verification/ProcessProps.v ===== *)
(** The properties of [process_wait] and [process_exit], with an instance over finite maps. *)
From S2P Require Import Prelude BitMap LinkedList Sched SchedSpec SchedProps Memory Page PageMem PageSpec PageOps PageMap PageCow PageClone PageUser PageRefine PageDemo Containers Process ProcessSpec ProcessExit ProcessDemo.

Section PROPS.
Context {H : Type} {HC : Containers H} {HL : ContainersLaws H}.

Lemma room_le (h : H) a b : (a <= b)%nat -> ct_room h b -> ct_room h a.
Proof. induction 1; [done|]. intros Hr. by apply IHle, ct_room_law. Qed.

(** What the exit with [code] of the process [p], the one of the current thread, leaves. *)
Record exit_done (idle : Z * Z) (s : pstate H) V cur D Q F (p parent_ code : Z) (A : space) (T : gmap Z Z) (n : nat) (s' : pstate H) w' Ms' Q' : Prop := {
  (** The tree of processes, the queues and the counters are consistent. *)
  xd_family : family idle s' w'.1 w'.2 Ms' D Q' F;
  (** The woken run after those that are ready, and the thread never runs again. *)
  xd_sched : sched_spec idle
    (made_ready V ((Q (p_init s) true).*2 ++ (Q p false).*2 ++ (if decide (parent_ = p_init s) then [] else (Q parent_ true).*2)), cur) Exit = Some w';
  xd_queues q any : Q' q any =
    if decide ((q = p_init s /\ any = true) \/ (q = p /\ any = false) \/ (q = parent_ /\ any = true)) then [] else Q q any;
  (** The children are [init]'s, the process has ended with the code; nothing else changes. *)
  xd_dom q : is_Some (p_procs s' !! q) -> is_Some (p_procs s !! q);
  xd_blocks q d : p_procs s !! q = Some d -> exists d', p_procs s' !! q = Some d' /\ pid d' = pid d /\
    (is_child (p_procs s) D p (pid d) q -> parent d' = p_init s) /\ (~ is_child (p_procs s) D p (pid d) q -> parent d' = parent d) /\
    (if decide (q = p) then pstatus d' = PROCESS_EXIT /\ exit_code d' = code else pstatus d' = pstatus d /\ exit_code d' = exit_code d);
  (** Its tables and its memory are given back. *)
  xd_tables : Ms' !! threads_at p = None /\ Ms' !! children_at p = None /\ Ms' !! exit_children_at p = None;
  xd_memory : release_user_space_pages (p_vm s) = Ok (p_vm s') /\
    vmrel (p_vm s') (released A (root (p_vm s))) T ∅ (gone (released A (root (p_vm s))) (root (p_vm s)));
  xd_rest : p_mem s' = p_mem s /\ p_waits s' = p_waits s /\ ct_room (p_tabs s') n
}.

Section EXIT.
Context (idle : Z * Z) (s : pstate H) (V : SchedSpec.view) (cn ct : Z) (Ms : gmap Z (gmap Z Z)) (D : list Z) (Q : Z -> bool -> list waiter) (F : gmap Z Z).
Context (y : tcb_t) (c : pcb_t) (m : thread_more) (A : space) (T : gmap Z Z) (wfuel n : nat) (code : Z).
Context (Hf : family idle s V (cn, ct) Ms D Q F) (Hy : tcbs (p_sched s) !! ct = Some y) (Hp : p_procs s !! process y = Some c).
Context (Hi : process y <> p_init s) (Hni : cn <> idle.1) (Hpar : parent c <> 0) (HF : calls F (process y) = 0).
Context (HT : Ms !! threads_at (process y) = Some {[thread_id m := ct]}) (Hm : p_threads s !! ct = Some m).
Context (Hvm : vmrel (p_vm s) A T ∅ (gone A (root (p_vm s)))) (Hrd : ready (p_vm s) T).
Context (Hfuel : forall q any, (length (Q q any) < wfuel)%nat) (Hroom : ct_room (p_tabs s) (4 * base.size (p_procs s) + S n)).

Lemma process_exit_ok : (process_exit wfuel s code = Err Panic /\ heap_fails (H:=H)) \/
  exists s' w' Ms' Q', process_exit wfuel s code = Ok s' /\ exit_done idle s V (cn, ct) D Q F (process y) (parent c) code A T n s' w' Ms' Q'.
Proof.
  destruct (family_current idle s V cn ct Ms D Q F Hf) as (y' & c' & Hc). pose proof (cu_core _ _ _ _ _ _ _ Hc) as [_ _ [Hy' _] _ _ _].
  assert (y' = y) as -> by congruence. assert (c' = c) as -> by (pose proof (cu_pcb _ _ _ _ _ _ _ Hc); congruence). clear Hy'.
  rewrite (exit_parts idle s V cn ct Ms D Q F y c m wfuel code Hf Hc Hi Hpar HF HT). pose proof (fa_tree _ _ _ _ _ _ _ _ Hf) as Ht.
  assert (alive (p_procs s) (process y)) as Ha by (exists c; split; apply Hc). destruct (tr_init _ _ _ _ Ht) as (ci & Hci & Hsi & _).
  assert (alive (p_procs s) (p_init s)) as Hai by (by exists ci).
  destruct (tr_children _ _ _ _ Ht _ Ha) as (M & HM & HvM), (tr_zombies _ _ _ _ Ht _ Ha) as (Zs & HZ & _), (tr_children _ _ _ _ Ht _ Hai) as (Mi & HMi & _), (tr_zombies _ _ _ _ Ht _ Hai) as (Zi & HZi & _).
  destruct (release_user_space_ok (p_vm s) A T Hvm Hrd) as (v & Ev & _ & Hvm' & _). set (s0 := with_sched s _).
  assert (family idle s0 V (cn, ct) Ms D Q F) as Hf0 by (by apply interrupts_kept). assert (current idle s0 V cn ct y c) as Hc0 by (by apply current_interrupts).
  destruct (adoption_tables idle s0 V cn ct Ms D Q F y c ci M Zs Mi Zi wfuel Hf0 Hc0 Hi HF HM HZ HMi HZi Hci Hfuel) as (_ & _ & _ & S1 & S2 & _).
  change (hand_over wfuel s0 (process y) (p_init s)) with (hand_over wfuel s0 (process y) (p_init s0)).
  destruct (hand_over_ok idle s0 V cn ct Ms D Q F y c ci M Zs Mi Zi wfuel (S n) Hf0 Hc0 Hi HF HM HZ HMi HZi Hci Hfuel) as [[-> Hno]|(x & h & -> & Hr1 & Hcpu1 & Hk1 & Hf1 & Hco1)];
    [|by left|]; [apply (room_le _ _ (4 * base.size (p_procs s) + S n)%nat); [change (p_procs s0) with (p_procs s) in S1, S2; lia|done]|].
  cbn [res_bind]. set (s1 := with_procs _ _). set (V1 := made_ready V (Q (p_init s0) true).*2) in *.
  destruct (not_children idle s0 V cn ct Ms D Q F y c M Hf0 Hc0 HM) as [N1 N2].
  destruct (family_current idle s1 V1 cn ct _ D _ F Hf1) as (y1 & c1 & Hc1).
  assert (y1 = y) as -> by (pose proof (cu_core _ _ _ _ _ _ _ Hc1) as [_ _ [G1 _] _ _ _]; destruct Hco1 as [_ _ [G2 _] _ _ _]; change (tcbs x !! ct = Some y1) in G1; congruence).
  assert (c1 = c) as ->.
  { pose proof (cu_pcb _ _ _ _ _ _ _ Hc1) as G. cbn in G. unfold handed_over in G. rewrite lookup_insert_ne, reparent_lookup in G by done. cbn in G. rewrite Hp in G. cbn in G.
    rewrite decide_False in G by done. congruence. }
  destruct (orphaned_lookup (p_procs s) Ms D (process y) (p_init s) M Zs Mi Zi Ht Ha Hi) as (L1 & L2 & _ & _ & L5). destruct (L5 _ Ha) as [LT _].
  pose proof (fa_tree _ _ _ _ _ _ _ _ Hf1) as Ht1. assert (alive (p_procs s1) (process y)) as Ha1 by (exists c; split; apply Hc1).
  assert (process y ∉ D) as HpD by (intros Hin%(tr_dead _ _ _ _ Ht); by apply (alive_not_exited (p_procs s) (process y) (process y))).
  destruct (tr_parent _ _ _ _ Ht1 (process y) c (cu_pcb _ _ _ _ _ _ _ Hc1) HpD) as [|[Hap Hpp]]; [done|].
  destruct (tr_zombies _ _ _ _ Ht1 _ Hap) as (Zp & HZp & _). pose proof Hap as (cp & Hcp & _).
  destruct (finish_ok idle s1 V1 cn ct _ D (cleared Q (p_init s0) true) F y c cp m Zp v wfuel n code Hf1 Hc1 Hi Hpar HF) as [[E Hno]|(s' & w' & E & Hw' & Hf' & HP' & Hv' & Hm' & Hr')];
    try done; [exact (eq_trans LT HT)|by intros q any; unfold cleared; case_decide; [cbn; specialize (Hfuel q any); lia|]|by left|].
  right. exists s', w'. eexists _, _. split; [exact E|]. destruct Hr' as [Hw2 Hr'].
  destruct (gone_tables (p_procs s1) _ D (p_init s) (process y) (parent c) (delete (thread_id m) {[thread_id m := ct]}) (<[pid c := process y]> Zp)
    (orphaned Ms (process y) (p_init s0) M Zs Mi Zi) Ht1 Ha1 Hap Hpp) as (G1 & G2 & G3).
  split; [exact Hf'| |apply exit_queues| | |exact (conj G1 (conj G2 G3))|by rewrite Hv'|by rewrite Hm'].
  - rewrite <- (exit_woken V Q (p_init s) (process y) c y eq_refl (not_eq_sym Hi)). exact Hw'.
  - intros q. rewrite HP'. exact (exit_no_more (p_procs s) M (p_init s) (process y) (parent c) c ci cp _ Hp Hci Hcp q).
  - intros q d Hd. rewrite HP'. destruct (exit_blocks (p_procs s) M (p_init s) (process y) c ci cp code Hp Hci Hi N2 N1 Hpp Hcp q d Hd) as (d' & Hd' & E1 & E2 & E3 & E4).
    assert (q ∈ vals M <-> is_child (p_procs s) D (process y) (pid d) q) as Hvals.
    { rewrite elem_of_vals. split; [|intros Hch; exists (pid d); by apply HvM]. intros (k & Hk). apply HvM in Hk as (e & He & Hk & R). exists e. split; [done|]. split; [congruence|done]. }
    exists d'. split; [exact Hd'|]. split; [done|]. split; [by rewrite <- Hvals|]. split; [by rewrite <- Hvals|done].
Qed.
End EXIT.

(** C10: [process_wait(pid, status)] answers -1 exactly when the process has no such child; if one
    of them has exited, it takes it out of both tables, stores its exit code, hands it to the clean-up
    thread, which it wakes, and answers 0; otherwise the thread joins the queue of that child, or of
    the process, and gives up the processor.  A round after the thread runs again does the same.
    The tree of processes, the queues and the counters stay consistent on every branch;
    it panics only when a child has exited and the heap refuses the block for the element of the
    clean-up thread's list.  The process id is not negative, and the local variable of the call is not
    in a queue yet. *)
Theorem process_wait_correct (idle : Z * Z) (s : pstate H) V cn ct Ms D Q F y pid_ status my_node n
  (Hf : family idle s V (cn, ct) Ms D Q F) (Hy : tcbs (p_sched s) !! ct = Some y) (Hni : cn <> idle.1) (Hpid : 0 <= pid_)
  (Hm : my_node <> 0 /\ forall q any w, w ∈ Q q any -> w.1 <> my_node) (Hroom : ct_room (p_tabs s) (S n)) :
  (F !! ct = None ->
   wait_outcome idle (p_procs s) (p_mem s) V (cn, ct) Ms D Q F (process y) pid_ status my_node n (process_wait s pid_ status my_node)) /\
  (forall nxt init_status, F !! ct = Some (process y) -> p_waits s !! my_node = Some (mk_wait cn pid_ nxt) ->
   wait_outcome idle (p_procs s) (p_mem s) V (cn, ct) Ms D Q F (process y) pid_ status my_node n
     (process_wait_resumed s (process y) pid_ status my_node true init_status)).
Proof.
  destruct (family_current idle s V cn ct Ms D Q F Hf) as (y' & c & Hc). pose proof (cu_core _ _ _ _ _ _ _ Hc) as [_ _ [Hy' _] _ _ _].
  assert (y' = y) as -> by congruence. destruct Hm as [Hm0 Hmq]. destruct (cu_calls _ _ _ _ _ _ _ Hc) as (E1 & E2 & _). split.
  - intros HF. unfold process_wait. replace (pid_ >=? 0) with true by (symmetry; zbool). rewrite E1. cbn [res_bind]. rewrite E2. cbn [res_bind].
    rewrite (lock_process_ok s _ c) by apply Hc. cbn [res_bind].
    apply (wait_round_ok idle s V cn ct Ms D Q F y c pid_ status my_node 0 false (<[my_node := mk_wait cn pid_ 0]> (p_waits s))); try done.
    + intros q b w Hin. pose proof (Hmq q b w Hin). by rewrite lookup_insert_ne.
    + by rewrite lookup_insert_eq.
  - intros nxt istat HF Hw. unfold process_wait_resumed. set (s1 := with_sched s _).
    assert (family idle s1 V (cn, ct) Ms D Q F) as Hf1 by (by apply interrupts_kept).
    destruct (family_current idle s1 V cn ct Ms D Q F Hf1) as (y1 & c1 & Hc1). pose proof (cu_core _ _ _ _ _ _ _ Hc1) as [_ _ [Hy1 _] _ _ _].
    assert (y1 = y) as -> by (change (tcbs (p_sched s) !! ct = Some y1) in Hy1; congruence).
    rewrite (lock_process_ok s1 _ c1) by apply Hc1. cbn [res_bind].
    apply (wait_round_ok idle s1 V cn ct Ms D Q F y c1 pid_ status my_node nxt true (p_waits s)); try done.
    intros q b w Hin. by split; [apply (Hmq q b)|].
Qed.

(** C9: [process_exit(code)], of a process that has one thread left, none of which waits,
    gives its children to [init] and its own control block to its parent's table of the exited,
    with the code; it gives back its tables and its memory; it makes ready, in this order, the threads of
    [init] that wait for any child, those that wait for it, and its parent's that wait for any child;
    and its thread, dead and of no process, leaves the processor for good.  The tree of processes,
    the queues and the counters stay consistent.  It panics only when the heap refuses a block for
    an entry of a table: over a heap that does not refuse, it never does.  The process is not
    [init] and has a parent; the heap's capacity has room for four entries for each process. *)
Theorem process_exit_correct (idle : Z * Z) (s : pstate H) V cn ct Ms D Q F y c m A T wfuel n code
  (Hf : family idle s V (cn, ct) Ms D Q F) (Hy : tcbs (p_sched s) !! ct = Some y) (Hp : p_procs s !! process y = Some c)
  (Hi : process y <> p_init s) (Hpar : parent c <> 0) (Hni : cn <> idle.1) (HF : calls F (process y) = 0)
  (HT : Ms !! threads_at (process y) = Some {[thread_id m := ct]}) (Hm : p_threads s !! ct = Some m)
  (Hvm : vmrel (p_vm s) A T ∅ (gone A (root (p_vm s)))) (Hrd : ready (p_vm s) T)
  (Hfuel : forall q any, (length (Q q any) < wfuel)%nat) (Hroom : ct_room (p_tabs s) (4 * base.size (p_procs s) + S n)) :
  (process_exit wfuel s code = Err Panic /\ heap_fails (H:=H)) \/
  exists s' w' Ms' Q', process_exit wfuel s code = Ok s' /\ exit_done idle s V (cn, ct) D Q F (process y) (parent c) code A T n s' w' Ms' Q'.
Proof. by apply (process_exit_ok idle s V cn ct Ms D Q F y c m). Qed.
End PROPS.

(** ** Witnesses *)
Import (hints) Maps.

(** The child exits while [init] waits. *)
Lemma child_exits : exists s' w' Ms' Q', process_exit 5 (fam true) 7 = Ok s' /\
  exit_done fam_idle (fam true) (fam_view true) (4001, 4000) [] (fam_queue true) (fam_calls true) 40000 20000 7 demo_space ∅ 1 s' w' Ms' Q'.
Proof.
  destruct (process_exit_ok fam_idle (fam true) (fam_view true) 4001 4000 fam_tables [] (fam_queue true) (fam_calls true)
    (fam_tcb TASK_RUNNING 0 40000 4001) (fam_pcb 2 20000 0 0) (mk_more 2 0) demo_space ∅ 5 1 7 (fam_ok true))
    as [[_ E]|Hx]; [exact eq_refl|exact eq_refl|discriminate|discriminate|discriminate|exact eq_refl|exact eq_refl|exact eq_refl|exact vm_demo_rel|exact vm_demo_ready| |exact I|by apply Maps.maps_hold in E|exact Hx].
  intros q any. unfold fam_queue. case_decide; cbn; lia.
Qed.

(** [init] waits for any child, and its child runs next; or the child has exited meanwhile, and
    [init], which runs again, gets the code. *)
Lemma process_wait_correct_witness :
  (exists s' w', process_wait (fam false) 0 0 900 = Ok (Waits true, s') /\
    family fam_idle s' w'.1 w'.2 fam_tables [] (pushed (fam_queue false) 20000 true (900, (2001, 2000))) (<[2000 := 20000]> (fam_calls false)) /\
    w'.2 = (4001, 4000)) /\
  (exists s1 s2, process_exit 5 (fam true) 7 = Ok s1 /\ process_wait_resumed s1 20000 0 500 900 true true = Ok (Returned 0, s2) /\
    p_mem s2 = store32 (fun _ => 0) 500 7).
Proof.
  split.
  - destruct (process_wait_correct fam_idle (fam false) (fam_view false) 2001 2000 fam_tables [] (fam_queue false) (fam_calls false)
      (fam_tcb TASK_RUNNING 0 20000 2001) 0 0 900 0 (fam_ok false)) as [Hwait _]; [exact eq_refl|discriminate|lia|split; [discriminate|]|exact I|].
    { intros q any w Hin. unfold fam_queue in Hin. rewrite decide_False in Hin by naive_solver. by apply not_elem_of_nil in Hin. }
    specialize (Hwait eq_refl). change (process (fam_tcb TASK_RUNNING 0 20000 2001)) with 20000 in Hwait. remember (process_wait (fam false) 0 0 900) as r eqn:Er. clear Er. destruct Hwait as [s' Hno| |q _ He|s' w' q any Hne [(_ & -> & -> & _)|[Hz _]] Ew Hf]; try done.
    + destruct (Hno 40000). exists 2. split; [|by left]. apply fam_child. by left.
    + exfalso. apply (fam_exited false q). by eexists.
    + exfalso. by apply (fam_exited false q).
    + exists s', w'. split; [done|]. split; [exact Hf|]. vm_compute in Ew. by injection Ew as <-.
  - destruct child_exits as (s1 & w1 & Ms1 & Q1 & E1 & [Hf Hw HQ Hdom Hb _ _ (Em & Ew & _)]). exists s1.
    assert (w1.2 = (2001, 2000)) as Ecur by (clear - Hw; vm_compute in Hw; by injection Hw as <-). rewrite Ecur in Hf.
    destruct (wo_calls _ _ _ _ _ _ _ (fa_waits _ _ _ _ _ _ _ _ Hf) 2000 20000) as (y & Hy & Ep); [exact eq_refl|].
    destruct (process_wait_correct fam_idle s1 w1.1 2001 2000 Ms1 [] Q1 (fam_calls true) y 0 500 900 0 Hf Hy) as [_ Hwait]; [discriminate|lia|split; [discriminate|]|exact I|].
    { intros q any w Hin. rewrite HQ in Hin. change (p_init (fam true)) with 20000 in Hin. case_decide as Hd; [destruct (not_elem_of_nil _ Hin)|].
      unfold fam_queue in Hin. rewrite decide_False in Hin by (clear - Hd; naive_solver). destruct (not_elem_of_nil _ Hin). }
    rewrite Ep in Hwait. specialize (Hwait 0 true eq_refl ltac:(rewrite Ew; exact eq_refl)).
    destruct (Hb 40000 (fam_pcb 2 20000 0 0) eq_refl) as (d & Hd & Hpd & _ & Hpar & Hs). rewrite decide_True in Hs by done. destruct Hs as [Hst Hcode].
    assert (eligible (p_procs s1) [] 20000 0 40000) as Hel.
    { exists 2. split; [|by left]. exists d. split; [done|]. split; [done|]. split; [|apply not_elem_of_nil]. apply Hpar. by intros [(E & _)|[E _]]%(fam_child true). }
    remember (process_wait_resumed s1 20000 0 500 900 true true) as r eqn:Er. clear Er.
    destruct Hwait as [s' Hno|s2 V' Ms' q c He Hq Hc _ Hf2 _ Hm2|q _ _ Hno|s' w' q any Hne]; [destruct (Hno 40000 Hel)| |destruct (Maps.maps_hold Hno)|destruct (Hne 40000 Hel); exists d; exact (conj Hd Hst)].
    exists s2. split; [exact E1|]. split; [reflexivity|]. rewrite Hm2, Em. change (500 =? 0) with false. cbv iota. assert (c = d) as ->; [|by rewrite Hcode].
    destruct (Hdom q) as [e He2]; [by eexists|]. destruct (Hb q e He2) as (e' & He' & _ & _ & _ & Hse). destruct (decide (q = 40000)) as [->|_]; [rewrite Hd in Hq; by injection Hq|].
    destruct Hse as [Hse _]. rewrite Hq in He'. injection He' as <-. rewrite Hse in Hc. change (p_procs (fam true)) with (fam_procs true) in He2.
    unfold fam_procs in He2. clear - He2 Hc. entries He2; discriminate.
Defined.

(** The child exits while [init] waits: [init] runs next. *)
Lemma process_exit_correct_witness :
  exists s' w' Ms' Q' d, process_exit 5 (fam true) 7 = Ok s' /\ family fam_idle s' w'.1 w'.2 Ms' [] Q' (fam_calls true) /\ w'.2 = (2001, 2000) /\
    p_procs s' !! 40000 = Some d /\ pstatus d = PROCESS_EXIT /\ exit_code d = 7.
Proof.
  destruct (process_exit_correct fam_idle (fam true) (fam_view true) 4001 4000 fam_tables [] (fam_queue true) (fam_calls true)
    (fam_tcb TASK_RUNNING 0 40000 4001) (fam_pcb 2 20000 0 0) (mk_more 2 0) demo_space ∅ 5 0 7 (fam_ok true))
    as [[_ E]|(s' & w' & Ms' & Q' & E & [Hf Ew _ _ Hb _ _ _])];
    [exact eq_refl|exact eq_refl|discriminate|discriminate|discriminate|exact eq_refl|exact eq_refl|exact eq_refl|exact vm_demo_rel|exact vm_demo_ready| |exact I|by apply Maps.maps_hold in E|].
  - intros q any. unfold fam_queue. case_decide; cbn; lia.
  - destruct (Hb 40000 (fam_pcb 2 20000 0 0) eq_refl) as (d & Hd & _ & _ & _ & Hs). rewrite decide_True in Hs by done.
    exists s', w', Ms', Q', d. split; [done|]. split; [exact Hf|]. split; [vm_compute in Ew; by injection Ew as <-|]. split; [exact Hd|exact Hs].
Defined.
