(* ===== verification/Thread.v ===== *)
(** Threads: [src/src/task/thread.c].  The kernel stacks are pages of [Page], which the
    code maps, fills and releases at their virtual addresses; the control blocks are those of
    [Sched] and [Process], with the fields only this file uses.  [prepare_user_stack]
    works on the flat memory of the running address space, as the loader does. *)
From S2P Require Import Prelude Tables BitMap LinkedList Sched Memory Page KernelMem Strings StringsSpec Containers Process.

(** ** Constants of [thread.h], [interrupt.h] and [gdt.h] *)
Definition KERNEL_STACK_MAX_SLOTS : Z := (KERNEL_STACK_AREA_END - KERNEL_STACK_AREA_START) / KERNEL_STACK_SLOT_SIZE.
Definition sizeof_tcb : Z := 100.
Definition sizeof_switch_stack : Z := 40.
Definition sizeof_interrupt_stack : Z := 64.
Definition EFLAGS_USER : Z := 0x202.

(** [&thread->schedule_node] *)
Definition schedule_node (thread : Z) : Z := thread + 84.

(** The fields of [tcb_t] that neither [Sched] nor [Process] use. *)
Record thread_rest : Type := mk_rest {
  kernel_esp : Z;
  kernel_stack_alloc : Z;
  tname : list Z;
  user_stack : Z
}.

(** [strcpy_with_len(thread->name, name)]: a longer string runs into the next fields. *)
Definition set_name (name : list Z) : res (list Z) := if Z.of_nat (length name) <? 32 then Ok name else Err Fault.
(** [sprintf(buf, "thread-%u", id)] *)
Definition numbered_name (id : Z) : list Z := [116; 104; 114; 101; 97; 100; 45] ++ uint_string (u32 id).

(** The fields of the control block after [memset]. *)
Definition zero_tcb : tcb_t := mk_tcb TASK_RUNNING 0 0 false 0 0 0 0 0.
Definition zero_more : thread_more := mk_more 0 0.
Definition zero_rest : thread_rest := mk_rest 0 0 [] 0.

(** ** The first stack of a thread *)

(** [switch_stack_t] and [interrupt_stack_t] in the order of the assignments, from
    [kernel_esp]. *)
Definition switch_words (entry function : Z) : list (Z * Z) :=
  [(0, 0); (4, 0); (8, 0); (12, 0); (16, 0); (20, 0); (24, 0); (28, entry); (36, function)].
Definition user_words (entry function : Z) : list (Z * Z) :=
  (28, entry) ::
  ((fun '(o, w) => (sizeof_switch_stack + o, w)) <$>
   [(0, SELECTOR_U_DATA); (4, 0); (8, 0); (12, 0); (16, 0); (20, 0); (24, 0); (28, 0); (32, 0);
    (44, function); (48, SELECTOR_U_CODE); (52, EFLAGS_USER); (60, SELECTOR_U_DATA)]).

Section THREAD.
Context {H : Type} `{Containers H}.

(** The addresses of [kernel_thread], [switch_to_user_mode] and [syscall_fork_exit]. *)
Record entries : Type := mk_entries { at_kernel_thread : Z; at_switch_to_user_mode : Z; at_syscall_fork_exit : Z }.
Context (link : entries).

(** The state: that of [Process], the other fields of the threads and the static
    variables of [thread.c]. *)
Record tstate : Type := mk_tstate {
  t_base : pstate H;
  t_rest : gmap Z thread_rest;
  thread_id_pool : id_pool_t;
  kernel_stack_slots : bitmap_t;
  kernel_stack_slots_lock : Z
}.
Definition with_base (s : tstate) (p : pstate H) : tstate :=
  mk_tstate p (t_rest s) (thread_id_pool s) (kernel_stack_slots s) (kernel_stack_slots_lock s).
Definition with_ids (s : tstate) (p : id_pool_t) : tstate :=
  mk_tstate (t_base s) (t_rest s) p (kernel_stack_slots s) (kernel_stack_slots_lock s).
Definition with_slots (s : tstate) (b : bitmap_t) (l : Z) : tstate :=
  mk_tstate (t_base s) (t_rest s) (thread_id_pool s) b l.
Definition t_vm (s : tstate) : vm := p_vm (t_base s).
Definition t_set_vm (s : tstate) (v : vm) : tstate := with_base s (with_vm (t_base s) v).
Definition on_vm (s : tstate) (f : vm -> res vm) : res tstate := let! v := f (t_vm s) in Ok (t_set_vm s v).

(** The block of a thread, with its node. *)
Record thread_block : Type := mk_block { b_tcb : tcb_t; b_more : thread_more; b_rest : thread_rest }.
Definition get_block (s : tstate) (t : Z) : res thread_block :=
  let! c := get_tcb (p_sched (t_base s)) t in
  let! m := get_more (t_base s) t in
  match t_rest s !! t with Some r => Ok (mk_block c m r) | None => Err Fault end.
Definition put_block (s : tstate) (t : Z) (b : thread_block) : tstate :=
  let p := t_base s in
  mk_tstate
    (mk_pstate (set_tcb (p_sched p) t (b_tcb b)) (p_tabs p) (p_procs p) (<[t := b_more b]> (p_threads p)) (p_waits p)
       (p_mem p) (p_vm p) (p_init p))
    (<[t := b_rest b]> (t_rest s)) (thread_id_pool s) (kernel_stack_slots s) (kernel_stack_slots_lock s).
Definition put_node (s : tstate) (n : Z) (x : linked_list_node_t) : tstate :=
  let p := t_base s in
  with_base s (with_sched p (with_queues (p_sched p) (<[n := x]> (s_nodes (p_sched p))) (queues (p_sched p)))).
(** [kfree(thread)] takes all of it away. *)
Definition drop_block (s : tstate) (t : Z) : tstate :=
  let p := t_base s in
  mk_tstate
    (mk_pstate
       (with_queues (with_tcbs (p_sched p) (delete t (tcbs (p_sched p)))) (delete (schedule_node t) (s_nodes (p_sched p)))
          (queues (p_sched p)))
       (p_tabs p) (p_procs p) (delete t (p_threads p)) (p_waits p) (p_mem p) (p_vm p) (p_init p))
    (delete t (t_rest s)) (thread_id_pool s) (kernel_stack_slots s) (kernel_stack_slots_lock s).

(** [kmalloc(sizeof(tcb_t))] *)
Definition alloc_tcb (s : tstate) : res (Z * tstate) :=
  let! (t, h) := ct_malloc (p_tabs (t_base s)) sizeof_tcb in
  Ok (t, with_base s (with_tabs (t_base s) h)).

(** [id_pool_allocate_id(&thread_id_pool, &id)] *)
Definition allocate_thread_id (s : tstate) : res (option Z * tstate) :=
  let! (r, p) := id_pool_allocate_id (thread_id_pool s) in Ok (r, with_ids s p).

(** ** Kernel stacks *)

(** [init_task_manager]; [fresh] gives the words of the blocks of [kmalloc], and the two
    variables are as they were. *)
Definition init_task_manager (fresh : Z -> option (list Z)) (pool : id_pool_t) (slots : bitmap_t) (s : tstate) : res tstate :=
  assert! KERNEL_STACK_SIZE mod PAGE_SIZE =? 0 in
  assert! KERNEL_STACK_SLOT_SIZE mod PAGE_SIZE =? 0 in
  let! p := id_pool_init fresh pool 2048 32768 in
  let! b := bitmap_create fresh slots None KERNEL_STACK_MAX_SLOTS in
  Ok (with_slots (with_ids s p) b yieldlock_init).

(** [alloc_kernel_stack_slot] *)
Definition alloc_kernel_stack_slot (s : tstate) : res (Z * tstate) :=
  let! l := yieldlock_lock (kernel_stack_slots_lock s) in
  let! (r, b) := bitmap_alloc_first_free (kernel_stack_slots s) in
  match r with
  | None => Err Panic
  | Some slot =>
      let s := with_slots s b (yieldlock_unlock l) in
      let stack_alloc := u32 (KERNEL_STACK_AREA_START + slot * KERNEL_STACK_SLOT_SIZE) in
      let kernel_stack := u32 (stack_alloc + KERNEL_STACK_GUARD_SIZE) in
      let! s := on_vm s (for_loop (Z.to_nat (KERNEL_STACK_SIZE / PAGE_SIZE)) 0
                  (fun i s => map_page s (u32 (kernel_stack + i * PAGE_SIZE)))) in
      Ok (stack_alloc, s)
  end.

(** [release_kernel_stack_slot] *)
Definition release_kernel_stack_slot (s : tstate) (stack_alloc : Z) : res tstate :=
  assert! stack_alloc >=? KERNEL_STACK_AREA_START in
  assert! stack_alloc <? KERNEL_STACK_AREA_END in
  assert! (stack_alloc - KERNEL_STACK_AREA_START) mod KERNEL_STACK_SLOT_SIZE =? 0 in
  let kernel_stack := u32 (stack_alloc + KERNEL_STACK_GUARD_SIZE) in
  let! s := on_vm s (fun v => release_pages v kernel_stack (KERNEL_STACK_SIZE / PAGE_SIZE) true) in
  let slot := (stack_alloc - KERNEL_STACK_AREA_START) / KERNEL_STACK_SLOT_SIZE in
  let! l := yieldlock_lock (kernel_stack_slots_lock s) in
  let! b := bitmap_clear_bit (kernel_stack_slots s) slot in
  Ok (with_slots s b (yieldlock_unlock l)).

(** ** [init_thread], [destroy_thread], [fork_crt_thread] *)

(** The stack pointer below the two frames at the top of a stack. *)
Definition first_esp (kernel_stack : Z) : Z :=
  u32 (kernel_stack + KERNEL_STACK_SIZE - (sizeof_interrupt_stack + sizeof_switch_stack)).

(** [init_thread]; [0] for [NULL]. *)
Definition init_thread (s : tstate) (thread : Z) (name : option (list Z)) (function priority_ : Z) (is_user_thread : bool)
    : res (Z * tstate) :=
  let! (thread, s) :=
    if thread =? 0 then
      let! (t, s) := alloc_tcb s in
      Ok (t, put_node (put_block s t (mk_block zero_tcb zero_more zero_rest)) (schedule_node t) (mk_node 0 0 0))
    else Ok (thread, s) in
  let! (id, s) := allocate_thread_id s in
  match id with
  | None => Ok (0, s)
  | Some id =>
      let! nm := set_name (match name with Some l => l | None => numbered_name id end) in
      let! b := get_block s thread in
      let c := b_tcb b in
      let! (alloc, s) :=
        alloc_kernel_stack_slot (put_node s (schedule_node thread) (mk_node thread 0 0)) in
      let stack := u32 (alloc + KERNEL_STACK_GUARD_SIZE) in
      let! s := on_vm s (fun v => vmemset v stack 0 KERNEL_STACK_SIZE) in
      let esp := first_esp stack in
      let! s := on_vm s (fun v => vstores v esp (switch_words (at_kernel_thread link) function)) in
      let! s :=
        if is_user_thread then on_vm s (fun v => vstores v esp (user_words (at_switch_to_user_mode link) function)) else Ok s in
      Ok (thread, put_block s thread
        (mk_block (mk_tcb TASK_READY (u8 priority_) 0 false (process c) (preempt_count c) stack 0 (schedule_node thread))
           (mk_more (s32 id) (-1)) (mk_rest esp alloc nm (user_stack (b_rest b)))))
  end.

(** [destroy_thread] *)
Definition destroy_thread (s : tstate) (thread : Z) : res tstate :=
  let! b := get_block s thread in
  let! ids := id_pool_free_id (thread_id_pool s) (thread_id (b_more b)) in
  let! s := release_kernel_stack_slot (with_ids s ids) (kernel_stack_alloc (b_rest b)) in
  let! h := ct_free (p_tabs (t_base s)) thread in
  Ok (drop_block (with_base s (with_tabs (t_base s) h)) thread).

(** [fork_crt_thread] *)
Definition fork_crt_thread (s : tstate) : res (Z * tstate) :=
  let! crt_thread := get_crt_thread (p_sched (t_base s)) in
  assert! negb (crt_thread =? 0) in
  let! (new_thread, s) := alloc_tcb s in
  assert! negb (new_thread =? 0) in
  let! b := get_block s crt_thread in
  let c := b_tcb b in
  let s := put_node s (schedule_node new_thread) (mk_node new_thread 0 0) in
  let! (id, s) := allocate_thread_id s in
  match id with
  | None => Err Panic
  | Some id =>
      let! nm := set_name (numbered_name id) in
      let! (alloc, s) := alloc_kernel_stack_slot s in
      let stack := u32 (alloc + KERNEL_STACK_GUARD_SIZE) in
      let! s := on_vm s (fun v => vmemcpy v stack (kernel_stack c) KERNEL_STACK_SIZE) in
      let esp := first_esp stack in
      let! s := on_vm s (fun v => vstore32 v (esp + 28) (at_syscall_fork_exit link)) in
      Ok (new_thread, put_block s new_thread
        (mk_block (mk_tcb (status c) (priority c) 0 (need_reschedule c) (process c) (preempt_count c) stack 0 (schedule_node new_thread))
           (mk_more (s32 id) (user_stack_index (b_more b))) (mk_rest esp alloc nm (user_stack (b_rest b)))))
  end.
End THREAD.
Arguments tstate : clear implicits.

(** ** [prepare_user_stack] *)
Section USERSTACK.
(** The bound of the strings. *)
Context (sfuel : nat).

(** [argv[i]] *)
Definition arg_at (m : mem) (argv i : Z) : Z := load32 m (argv + 4 * i).

(** The sum of the lengths. *)
Definition total_length (m : mem) (argc argv : Z) : res Z :=
  for_loop (Z.to_nat argc) 0 (fun i total => let! n := strlen sfuel m (arg_at m argv i) in Ok (u32 (total + (n + 1)))) 0.

(** The loop that copies the strings: [args], the next address and the memory. *)
Definition copy_args (m : mem) (argc argv args_stack_addr : Z) : res (list Z * Z * mem) :=
  for_loop (Z.to_nat argc) 0
    (fun i st =>
       let '(args, a, m) := st in
       let! (len, m) := strcpy_with_len sfuel m a (arg_at m argv i) in
       Ok (args ++ [a], u32 (a + (len + 1)), m)) ([], args_stack_addr, m).

Fixpoint put_args (m : mem) (a : Z) (args : list Z) : mem :=
  match args with [] => m | w :: args => put_args (store32 m a w) (u32 (a + 4)) args end.

(** [prepare_user_stack] *)
Definition prepare_user_stack (m : mem) (kernel_esp stack_top argc argv return_addr : Z) : res (Z * mem) :=
  let user_stack_top := stack_top in
  let! total := total_length m argc argv in
  let stack_top := u32 (stack_top - total) / 4 * 4 in
  let final_stack_top := u32 (stack_top - u32 (argc + 1) * 4 - 12) in
  let stack_guard_end := u32 (user_stack_top - USER_STACK_SIZE + PAGE_SIZE) in
  if final_stack_top <? stack_guard_end then Err Panic
  else
    let! (args, _, m) := copy_args m argc argv stack_top in
    let argv_start := u32 (stack_top - u32 (argc + 1) * 4) in
    let m := put_args m argv_start (args ++ [0]) in
    let m := store32 m (u32 (argv_start - 4)) argv_start in
    let m := store32 m (u32 (argv_start - 8)) (u32 argc) in
    let stack_top := u32 (argv_start - 12) in
    let m := store32 m stack_top return_addr in
    Ok (stack_top, store32 m (kernel_esp + sizeof_switch_stack + 56) stack_top).
End USERSTACK.
