(* ===== verification/ThreadSpec.v ===== *)
(** What [thread.c] promises: every thread has an id and a kernel stack of its own, above a
    page that is not mapped, and its first switch starts it where it should. *)
From S2P Require Import Prelude Tables BitMap LinkedList Sched Memory Page PageMem PageSpec PageOps PageMap PageCow PageUser KernelMem Switch SwitchSpec Containers Process Thread.

(** ** The words of a stack *)

(** The last word stored at an offset. *)
Fixpoint last_word (l : list (Z * Z)) (o : Z) (w : Z) : Z :=
  match l with
  | [] => w
  | (o', w') :: l => last_word l o (if o' =? o then w' else w)
  end.

Lemma stores_load l : forall m base o, (forall o' w, (o', w) ∈ l -> o' mod 4 = 0 /\ word w) -> o mod 4 = 0 ->
  load32 (stores m base l) (base + o) = last_word l o (load32 m (base + o)).
Proof.
  induction l as [|[o' w] l IH]; intros m base o Hl Ho; cbn [stores last_word]; [done|].
  destruct (Hl o' w ltac:(by left)) as [Hm Hw]. rewrite IH; [|intros; apply (Hl o'0 w0); by right|done]. f_equal.
  destruct (o' =? o) eqn:E; bool_to_prop; [subst; by apply load32_store32|].
  apply load32_store32_ne. assert (o' + 4 <= o \/ o + 4 <= o') by zdiv. lia.
Qed.

Lemma load32_zero (m : mem) a lo hi : (forall x, lo <= x < hi -> m x = 0) -> lo <= a -> a + 4 <= hi -> load32 m a = 0.
Proof. intros H ? ?. unfold load32. by rewrite !H by lia. Qed.

Lemma words_ext m m' a l : words m a l -> (forall x, m' x = m x) -> words m' a l.
Proof. intros Hw E. apply (words_same m); [done|]. intros x _. apply E. Qed.

Lemma load32_same_view (m m' : mem) a : (forall x, m x = m' x) -> load32 m a = load32 m' a.
Proof. intros E. unfold load32. by rewrite !E. Qed.

Lemma load32_moved (m m' : mem) a b : (forall k, 0 <= k < 4 -> m' (a + k) = m (b + k)) -> load32 m' a = load32 m b.
Proof.
  intros E. unfold load32. pose proof (E 0 ltac:(lia)) as E0. rewrite !Z.add_0_r in E0. by rewrite E0, !E by lia.
Qed.

(** [l] are the words that the stores [st] leave from [base] on, in zeros. *)
Lemma stores_words m base st l : (forall o w, (o, w) ∈ st -> o mod 4 = 0 /\ word w) ->
  (forall x, base <= x < base + 4 * Z.of_nat (length l) -> m x = 0) ->
  (forall i v, l !! i = Some v -> last_word st (4 * Z.of_nat i) 0 = v) -> words (stores m base st) base l.
Proof.
  intros Hst Hz Hl i v Hi. pose proof (lookup_lt_Some _ _ _ Hi). rewrite stores_load; [|done|zdiv].
  rewrite (load32_zero m _ base (base + 4 * Z.of_nat (length l))); [by apply Hl|done|lia..].
Qed.

(** ** The first switch to a thread *)

(** The state of a program before its first instruction. *)
Definition first_user (function uesp : Z) : machine :=
  mk_machine (fun r => if decide (r = ESP) then uesp else 0) (fun s => if decide (s = CS) then SELECTOR_U_CODE else SELECTOR_U_DATA)
    function EFLAGS_USER (fun _ => 0).

Lemma first_user_state function uesp : word function -> word uesp -> user_state (first_user function uesp).
Proof.
  intros Hf Hu. split; cbn; try done.
  - intros r. by case_decide.
  - intros s. unfold SELECTOR_U_CODE, SELECTOR_U_DATA. case_decide; split; by vm_compute.
Qed.

(** The words of the frames at the top of the stack. *)
Definition kernel_frame (entry function : Z) : list Z := saved_regs (fun _ => 0) entry ++ [0; function].
Definition user_frame (entry function uesp : Z) : list Z :=
  kernel_frame entry function ++ isr_params (first_user function uesp) SELECTOR_U_DATA 0 0.

(** The stack of [d] is that of [m], and it is switched to. *)
Definition switched (d : machine) (m : mem) (esp top : Z) : Prop :=
  regs d ESP = esp /\ forall x, esp <= x < top -> memory d x = m x.

(** The thread starts at [entry] with [function] as its argument. *)
Definition starts (m : mem) (esp top entry function : Z) : Prop :=
  forall d, switched d m esp top -> let c := run resume_thread d in
    eip c = entry /\ regs c ESP = esp + 32 /\ load32 (memory c) (regs c ESP + 4) = function /\ memory c = memory d.

(** The thread comes by [switch_to_user_mode] to the user's [function] with the stack [uesp];
    [schedule] is what the call in [interrupt_exit] does. *)
Definition starts_user (m : mem) (esp top entry function uesp : Z) : Prop :=
  forall d (schedule : machine -> machine), switched d m esp top -> let c := run resume_thread d in
    eip c = entry /\
    let k := run switch_to_user_mode c in
    (c_code_keeps k (schedule k) (top - 64) top ->
     same_user (first_user function uesp) (run interrupt_exit (schedule k)) /\
     memory (run interrupt_exit (schedule k)) = memory (schedule k)).

Lemma switched_stack d m esp top l : switched d m esp top -> words m esp l -> 0 < esp -> top = esp + 4 * Z.of_nat (length l) ->
  top < 4294967296 -> at_stack d (regs d) (segs d) (eip d) (eflags d) esp top l (memory d) esp.
Proof.
  intros [<- Hm] Hw Hpos Htop Hlt. apply at_stack_intro; [|done|lia|done].
  apply (words_same m); [done|]. intros x Hx. apply Hm. lia.
Qed.

Lemma kernel_frame_starts m esp top entry function l : words m esp (kernel_frame entry function ++ l) -> 0 < esp ->
  top = esp + 4 * Z.of_nat (length (kernel_frame entry function ++ l)) -> top < 4294967296 ->
  starts m esp top entry function.
Proof.
  intros Hw Hpos Htop Hlt d Hd c. pose proof (switched_stack d m esp top _ Hd Hw Hpos Htop Hlt) as Hs.
  unfold kernel_frame in Hs. rewrite <- app_assoc in Hs. destruct (resume_is _ _ _ _ _ _ _ _ _ _ _ _ Hs) as (R' & K & _).
  fold c in K. split; [apply (as_eip _ _ _ _ _ _ _ _ _ _ K)|]. pose proof (as_esp _ _ _ _ _ _ _ _ _ _ K) as Ee. split; [done|].
  split; [|done]. rewrite Ee. exact (as_words _ _ _ _ _ _ _ _ _ _ K 1%nat function eq_refl).
Qed.

Lemma user_frame_starts m esp top entry function uesp : words m esp (user_frame entry function uesp) -> 0 < esp ->
  top = esp + 104 -> top < 4294967296 -> word function -> word uesp -> starts_user m esp top entry function uesp.
Proof.
  intros Hw Hpos Htop Hlt Hf Hu d sch Hd c. pose proof (switched_stack d m esp top _ Hd Hw Hpos Htop Hlt) as Hs.
  unfold user_frame, kernel_frame in Hs. rewrite <- !app_assoc in Hs.
  destruct (resume_is _ _ _ _ _ _ _ _ _ _ _ _ Hs) as (R' & K & _). fold c in K.
  split; [apply (as_eip _ _ _ _ _ _ _ _ _ _ K)|]. intros k Hk.
  pose proof (add_esp_is [0; function] _ _ _ _ _ _ _ _ _ _ 8 K eq_refl) as K1. change (step c (AddEsp 8)) with k in K1.
  replace (esp + 32 + 8) with (top - 64) in K1 by lia. pose proof (c_code_at_stack _ _ _ _ _ _ _ _ _ _ _ K1 Hk) as K2.
  eapply (interrupt_exit_is (first_user function uesp) top); [by apply first_user_state| |exact K2]. done.
Qed.

(** ** The first switch to the child of a fork *)

(** The copy of a stack that ends in the frame of a system call of [u]. *)
Lemma fork_frame_returns u m esp top entry dsw sp n R w1 w2 : user_state u -> u16 dsw = segs u DS ->
  words m esp (saved_regs R entry ++ w1 :: w2 :: isr_params u dsw sp n) -> 0 < esp -> top = esp + 104 -> top < 4294967296 ->
  forall d, switched d m esp top -> let c := run resume_thread d in
    eip c = entry /\ same_user (with_reg u EAX 0) (run syscall_fork_exit c) /\ memory (run syscall_fork_exit c) = memory d.
Proof.
  intros Hu Hds Hw Hpos Htop Hlt d Hd c. pose proof (switched_stack d m esp top _ Hd Hw Hpos Htop Hlt) as Hs.
  destruct (resume_is _ _ _ _ _ _ _ _ _ _ _ _ Hs) as (R' & K & _). fold c in K.
  split; [apply (as_eip _ _ _ _ _ _ _ _ _ _ K)|]. replace (esp + 32) with (top - 72) in K by lia.
  destruct (syscall_fork_exit_is _ _ _ _ _ _ _ _ _ _ _ _ _ _ Hu Hds K) as [K1 K2]. split; [done|]. rewrite K2. done.
Qed.

(** The switch frame of a stack is whatever words it holds. *)
Lemma words_of_stack m a n : words m a ((fun i => load32 m (a + 4 * Z.of_nat i)) <$> seq 0 n).
Proof. intros i v Hi. apply list_lookup_fmap_Some in Hi as (j & -> & Hj). apply lookup_seq in Hj as [-> _]. done. Qed.

(** ** What [init_thread] writes *)
Lemma switch_words_in entry function o w : word entry -> word function -> (o, w) ∈ switch_words entry function -> o mod 4 = 0 /\ word w.
Proof.
  intros He Hf Hin. unfold switch_words in Hin. repeat (apply elem_of_cons in Hin as [[= -> ->]|Hin]; [split; [done|first [done|unfold word; cbn; lia]]|]).
  by apply not_elem_of_nil in Hin.
Qed.

Lemma user_words_in entry function o w : word entry -> word function -> (o, w) ∈ user_words entry function -> o mod 4 = 0 /\ word w.
Proof.
  intros He Hf Hin. unfold user_words in Hin. cbn in Hin. repeat (apply elem_of_cons in Hin as [[= -> ->]|Hin]; [split; [done|first [done|unfold word; cbn; lia]]|]).
  by apply not_elem_of_nil in Hin.
Qed.

Lemma stores_app m base l1 l2 : stores (stores m base l1) base l2 = stores m base (l1 ++ l2).
Proof. revert m. induction l1 as [|[o w] l1 IH]; intros m; cbn; [done|]. apply IH. Qed.

(** The words of the two frames, whatever [is_user_thread]. *)
Definition first_words (is_user_thread : bool) (kentry uentry function : Z) : list (Z * Z) :=
  switch_words kentry function ++ (if is_user_thread then user_words uentry function else []).

Lemma first_words_in u kentry uentry function o w : word kentry -> word uentry -> word function ->
  (o, w) ∈ first_words u kentry uentry function -> o mod 4 = 0 /\ word w /\ 0 <= o <= 100.
Proof.
  intros Hk He Hf Hin. assert (o mod 4 = 0 /\ word w) as [? ?].
  { unfold first_words in Hin. apply elem_of_app in Hin as [Hin|Hin]; [exact (switch_words_in _ _ _ _ Hk Hf Hin)|].
    destruct u; [exact (user_words_in _ _ _ _ He Hf Hin)|by apply not_elem_of_nil in Hin]. }
  split; [done|]. split; [done|].
  assert (Forall (fun x : Z * Z => 0 <= x.1 <= 100) (first_words u kentry uentry function)) as Hall.
  { destruct u; cbn; repeat (apply Forall_cons; split; [cbn; unfold sizeof_switch_stack; lia|]);
      unfold fmap, list_fmap; repeat (apply Forall_cons; split; [cbn; unfold sizeof_switch_stack; lia|]); by apply Forall_nil. }
  rewrite Forall_forall in Hall. exact (Hall _ Hin).
Qed.

Lemma first_words_frame (u : bool) m base kentry uentry function : word kentry -> word uentry -> word function ->
  (forall x, base <= x < base + 104 -> m x = 0) ->
  words (stores m base (first_words u kentry uentry function)) base
    (if u then user_frame uentry function 0 else kernel_frame kentry function ++ replicate 16 0).
Proof.
  intros Hk Hu Hf Hz. apply stores_words.
  - intros o w Hin. by destruct (first_words_in u kentry uentry function o w Hk Hu Hf Hin) as (? & ? & _).
  - intros x Hx. apply Hz. destruct u; cbn in Hx; lia.
  - intros i v Hi. destruct u; cbn in Hi |- *; do 26 (destruct i as [|i]; [injection Hi as <-; reflexivity|]); by destruct i.
Qed.

(** What lies outside the stores is kept. *)
Lemma stores_outside l : forall m base x, (forall o w, (o, w) ∈ l -> ~ (base + o <= x < base + o + 4)) -> stores m base l x = m x.
Proof.
  induction l as [|[o w] l IH]; intros m base x Hl; cbn [stores]; [done|].
  rewrite IH by (intros o' w' ?; apply (Hl o' w'); by right). apply store32_ne. apply (Hl o w). by left.
Qed.

(** ** The slots of the stacks *)
Definition slot_addr (i : Z) : Z := 3758096384 + 12288 * i.
Definition slot_page (i : Z) : Z := 917505 + 3 * i.
Definition slot (i : Z) : Prop := 0 <= i < 21845.
Definition stack_of (i : Z) : Z := slot_addr i + 4096.
Definition stack_top (i : Z) : Z := slot_addr i + 12288.

Lemma slot_pages i : slot i -> kernel_page (slot_page i) /\ kernel_page (slot_page i + 1) /\ slot_page i * 4096 = stack_of i.
Proof.
  intros Hi. unfold slot, slot_page, stack_of, slot_addr, kernel_page, kernel_pdi, temp in *.
  repeat split; try lia; zdiv.
Qed.

(** An address of a stack lies in its two pages. *)
Lemma stack_pages i x : slot i -> stack_of i <= x < stack_top i <-> pair_at (slot_page i) (x / 4096).
Proof. intros Hi. unfold slot, pair_at, slot_page, stack_of, stack_top, slot_addr in *. split; [intros; zdiv|intros [E|E]; zdiv]. Qed.

Lemma slot_apart i j u : pair_at (slot_page i) u -> pair_at (slot_page j) u -> i = j.
Proof. unfold pair_at, slot_page. lia. Qed.

(** The bitmap of the slots, with its lock, is a pool. *)
Definition slot_pool (b : bitmap_t) (l : Z) : id_pool_t := mk_pool 0 0 0 b l.
Definition slots_inv (b : bitmap_t) (l : Z) (S : gset Z) : Prop := pool_inv (slot_pool b l, S) /\ totalbits b = 21845.

Lemma slot_alloc_ok b l S : slots_inv b l S ->
  match free_id 21845 S with
  | None => True
  | Some i => slot i /\ i ∉ S
  end /\
  exists b', (let! h := yieldlock_lock l in let! (r, b) := bitmap_alloc_first_free b in Ok (r, b, yieldlock_unlock h)) =
    Ok (free_id 21845 S, b', LOCKED_NO) /\
    slots_inv b' LOCKED_NO (match free_id 21845 S with Some i => {[i]} ∪ S | None => S end).
Proof.
  intros [Hp Ht]. destruct (id_pool_allocate_ok _ _ Hp) as (p' & E & Ht' & Hp'). cbn [slot_pool id_map] in *. rewrite Ht in *. split.
  - pose proof (free_id_bits _ _ Hp) as Ef. cbn [slot_pool id_map] in Ef. rewrite Ht in Ef.
    destruct (free_id 21845 S) as [i|]; [|done]. symmetry in Ef. apply first_clear_Some in Ef as (Hi & Hb & _).
    change (search_limit 21845) with 21845 in Hi. split; [exact Hi|]. destruct Hp as (_ & _ & Hl). rewrite Hl. cbn. intros [_ ?]. congruence.
  - unfold id_pool_allocate_id in E. cbn [slot_pool lock] in E. destruct (yieldlock_lock l) as [h|]; [|done]. cbn [res_bind] in *.
    change (id_map (with_lock (slot_pool b l) h)) with b in E.
    destruct (bitmap_alloc_first_free b) as [[r b']|]; [|done]. cbn [res_bind] in *. exists b'.
    destruct Hp' as (Hw & _ & Hl).
    destruct r as [id|]; injection E as Er <-; rewrite <- Er in *;
      (split; [done|]; split; [split; [exact Hw|split; [done|exact Hl]]|exact Ht']).
Qed.

Section SPEC.
Context {H : Type} {HC : Containers H} {HL : ContainersLaws H}.
Context (link : entries).

Lemma alloc_slot_ok (s : tstate H) A T S : vmrel (t_vm s) A T ∅ (gone A (root (t_vm s))) -> ready (t_vm s) T ->
  slots_inv (kernel_stack_slots s) (kernel_stack_slots_lock s) S ->
  (forall i u, slot i -> i ∉ S -> pair_at (slot_page i) u -> kpages A !! u = None) ->
  match free_id 21845 S with
  | None => alloc_kernel_stack_slot s = Err Panic
  | Some i => slot i /\ i ∉ S /\ outcome (alloc_kernel_stack_slot s) (few 1 A ∅) (fun r => exists v b A',
      r = (slot_addr i, with_slots (t_set_vm s v) b LOCKED_NO) /\ kstep (t_vm s) A T v A' (pair_at (slot_page i)) /\
      private A' (slot_page i) /\ private A' (slot_page i + 1) /\ slots_inv b LOCKED_NO ({[i]} ∪ S))
  end.
Proof.
  intros R Rd Hs Hno. destruct (slot_alloc_ok _ _ _ Hs) as [Hi (b' & E & Hb)]. unfold alloc_kernel_stack_slot.
  destruct (yieldlock_lock _) as [h|]; [|done]. cbn [res_bind] in *.
  destruct (bitmap_alloc_first_free _) as [[r b]|]; [|done]. cbn [res_bind] in *. injection E as -> ->.
  destruct (free_id 21845 S) as [i|]; [|done]. destruct Hi as [Hi HiS]. split; [done|]. split; [done|].
  destruct (slot_pages i Hi) as (K0 & K1 & Ea). change (yieldlock_unlock h) with LOCKED_NO.
  replace (u32 (KERNEL_STACK_AREA_START + i * KERNEL_STACK_SLOT_SIZE)) with (slot_addr i)
    by (unfold slot, slot_addr in *; rewrite u32_small; unfold KERNEL_STACK_AREA_START; [|]; change KERNEL_STACK_SLOT_SIZE with 12288; lia).
  replace (u32 (slot_addr i + KERNEL_STACK_GUARD_SIZE)) with (slot_page i * 4096)
    by (rewrite Ea; unfold stack_of, slot, slot_addr in *; change KERNEL_STACK_GUARD_SIZE with 4096; rewrite u32_small; lia).
  unfold on_vm. change (t_vm (with_slots s b' LOCKED_NO)) with (t_vm s). change (Z.to_nat (KERNEL_STACK_SIZE / PAGE_SIZE)) with 2%nat.
  destruct (kmap_pair (t_vm s) A T (slot_page i) R (rdy_frames _ _ Rd) (rdy_dir _ _ Rd) K0 K1) as [[Ep F]|(v & Ev & A' & K & P0 & P1)].
  - apply (Hno i); [done|done|by left].
  - apply (Hno i); [done|done|by right].
  - left. split; [|done]. cbn [for_loop] in *. rewrite !u32_small by (unfold slot, slot_page in *; change PAGE_SIZE with 4096; lia).
    change PAGE_SIZE with 4096. by rewrite Ep.
  - right. cbn [for_loop] in *. rewrite !u32_small by (unfold slot, slot_page in *; change PAGE_SIZE with 4096; lia).
    change PAGE_SIZE with 4096. rewrite Ev. cbn [res_bind]. eexists. split; [done|]. by exists v, b', A'.
Qed.

(** ** Filling a stack *)
Lemma stack_not_gone A d i u : slot i -> pair_at (slot_page i) u -> ~ gone A d u.
Proof. intros Hi Hu (j & Hj & -> & _). unfold slot, pair_at, slot_page, user_pdi, wpage in *. lia. Qed.

Lemma stack_range A d i lo hi : slot i -> private A (slot_page i) -> private A (slot_page i + 1) ->
  stack_of i <= lo -> hi <= stack_top i -> kernel_range A (gone A d) lo hi.
Proof.
  intros Hi P0 P1 Hl Hh a Ha. assert (pair_at (slot_page i) (a / 4096)) as Hp by (apply stack_pages; [done|lia]).
  split; [by destruct Hp as [-> | ->]|by eapply stack_not_gone].
Qed.

(** What is written to the stack of slot [i]. *)
Lemma stack_written v A T v' m i : kwrote v A T (gone A (root v)) v' m -> slot i ->
  (forall x, ~ (stack_of i <= x < stack_top i) -> m x = kflat A (pm v) x) -> kstep v A T v' A (pair_at (slot_page i)).
Proof. intros K Hi Hm. eapply kwrote_step; [exact K|]. intros x Hx. apply Hm. by rewrite stack_pages. Qed.

Lemma first_esp_is i : slot i -> first_esp (stack_of i) = stack_top i - 104 /\ 0 < stack_top i - 104 /\ stack_top i < 4294967296 /\ (stack_top i - 104) mod 4 = 0.
Proof.
  intros Hi. unfold first_esp, stack_of, stack_top, slot_addr, slot in *. change KERNEL_STACK_SIZE with 8192.
  change (sizeof_interrupt_stack + sizeof_switch_stack) with 104. rewrite u32_small by lia. split; [lia|]. split; [lia|]. split; [lia|zdiv].
Qed.

Definition fill_stack (stack esp kentry uentry function : Z) (u : bool) (v : vm) : res vm :=
  let! v := vmemset v stack 0 KERNEL_STACK_SIZE in
  let! v := vstores v esp (switch_words kentry function) in
  if u then vstores v esp (user_words uentry function) else Ok v.

Lemma fill_stack_ok v A T i kentry uentry function u : vmrel v A T ∅ (gone A (root v)) -> slot i ->
  private A (slot_page i) -> private A (slot_page i + 1) -> word kentry -> word uentry -> word function ->
  exists v', fill_stack (stack_of i) (first_esp (stack_of i)) kentry uentry function u v = Ok v' /\
    kstep v A T v' A (pair_at (slot_page i)) /\
    words (kflat A (pm v')) (stack_top i - 104) (if u then user_frame uentry function 0 else kernel_frame kentry function ++ replicate 16 0).
Proof.
  intros R Hi P0 P1 Hk Hu Hf. destruct (first_esp_is i Hi) as (-> & Hpos & Hlt & Hal). unfold fill_stack.
  assert (stack_of i + 8192 = stack_top i) as Etop by (unfold stack_of, stack_top; lia). set (base := stack_top i - 104) in *.
  destruct (kmemset_ok A T _ v (stack_of i) 0 8192 R) as (v1 & m1 & E1 & Em & K1);
    [unfold stack_of, slot_addr, slot in *; lia|lia|by apply (stack_range _ _ i); [..|lia|lia]|].
  change KERNEL_STACK_SIZE with 8192. rewrite E1. cbn [res_bind].
  destruct (memset_ok (kflat A (pm v)) (stack_of i) 0 8192) as (m1' & Em' & Ho & Hz); [unfold stack_of, slot_addr, slot in *; lia|lia|].
  rewrite Em in Em'. injection Em' as <-. rewrite Etop in Ho, Hz.
  set (l := first_words u kentry uentry function).
  assert (forall o w, (o, w) ∈ l -> private A ((base + o) / 4096) /\ ~ gone A (root v) ((base + o) / 4096) /\ (base + o) mod 4 = 0) as Hl.
  { intros o w Hin. destruct (first_words_in u kentry uentry function o w Hk Hu Hf Hin) as (Hm & _ & Hr).
    destruct (stack_range A (root v) i (stack_of i) (stack_top i) Hi P0 P1 ltac:(lia) ltac:(lia) (base + o)) as [? ?]; [unfold base; lia|].
    split; [done|]. split; [done|]. clear -Hm Hal. zdiv. }
  destruct (kstores_ok A T _ l base v1 (kw_rel _ _ _ _ _ _ K1) Hl) as (v2 & E2 & K2).
  assert (vstores v1 base l = let! v := vstores v1 base (switch_words kentry function) in if u then vstores v base (user_words uentry function) else Ok v) as Esp.
  { subst l. unfold first_words. generalize (switch_words kentry function). intros l1. generalize v1. induction l1 as [|[o w] l1 IH]; intros v0; cbn [app vstores res_bind].
    - by destruct u.
    - destruct (vstore32 v0 (base + o) w); cbn [res_bind]; [apply IH|done]. }
  rewrite <- Esp, E2. exists v2. split; [done|].
  assert (kwrote v A T (gone A (root v)) v2 (stores m1 base l)) as K.
  { eapply kwrote_trans; [exact K1|]. eapply kwrote_ext; [exact K2|]. intros x. symmetry. apply stores_ext. apply (kw_view _ _ _ _ _ _ K1). }
  split.
  - eapply stack_written; [exact K|done|]. intros x Hx. rewrite stores_outside; [by apply Ho|].
    intros o w Hin. destruct (first_words_in u kentry uentry function o w Hk Hu Hf Hin) as (_ & _ & Hr). unfold base. unfold stack_of, stack_top in *. lia.
  - eapply words_ext; [|apply (kw_view _ _ _ _ _ _ K)]. apply first_words_frame; [done..|]. intros x Hx. apply (Hz x). unfold base, stack_of, stack_top in *. lia.
Qed.

(** ** The threads *)

(** The block of a thread with slot [i] and id [id]. *)
Definition thread_ok (s : tstate H) (t i id : Z) : Prop := exists b n, get_block s t = Ok b /\
  kernel_stack (b_tcb b) = stack_of i /\ kernel_stack_alloc (b_rest b) = slot_addr i /\ thread_id (b_more b) = id /\
  crt_node_ptr (b_tcb b) = schedule_node t /\ s_nodes (p_sched (t_base s)) !! schedule_node t = Some n /\ ptr n = t.

(** [own] gives the slot and the id of every thread; [ids] and [S] are those in use, [L] the blocks of
    the heap.  A page of the stacks is mapped exactly when its slot is in use, and the page below
    a stack never is. *)
Record threads_inv (s : tstate H) (A : space) (T : gmap Z Z) (own : gmap Z (Z * Z)) (ids S : gset Z) (L : gmap Z Z)
    (Ms : gmap Z (gmap Z Z)) (Ls : gmap Z (list Z)) : Prop := {
  th_rel : vmrel (t_vm s) A T ∅ (gone A (root (t_vm s)));
  th_ready : ready (t_vm s) T;
  th_pool : pool_inv (thread_id_pool s, ids) /\ totalbits (id_map (thread_id_pool s)) = 2048;
  th_slots : slots_inv (kernel_stack_slots s) (kernel_stack_slots_lock s) S;
  th_heap : ct_holds (p_tabs (t_base s)) L Ms Ls;
  th_own t i id : own !! t = Some (i, id) -> t <> 0 /\ L !! t = Some sizeof_tcb /\ thread_ok s t i id;
  th_slot i : i ∈ S <-> exists t id, own !! t = Some (i, id);
  th_id id : id ∈ ids <-> exists t i, own !! t = Some (i, id);
  th_inj t t' i i' id id' : own !! t = Some (i, id) -> own !! t' = Some (i', id') -> i = i' \/ id = id' -> t = t';
  th_used i u : i ∈ S -> pair_at (slot_page i) u -> private A u;
  th_unused i u : slot i -> i ∉ S -> pair_at (slot_page i) u -> kpages A !! u = None;
  th_guard i : slot i -> kpages A !! (slot_page i - 1) = None
}.

Lemma slots_in_range s A T own ids S L Ms Ls i : threads_inv s A T own ids S L Ms Ls -> i ∈ S -> slot i.
Proof. intros [] Hi. destruct th_slots0 as [(_ & _ & Hl) Ht]. apply Hl in Hi as [Hi _]. cbn in Hi. rewrite Ht in Hi. exact Hi. Qed.

Lemma ids_in_range s A T own ids S L Ms Ls id : threads_inv s A T own ids S L Ms Ls -> id ∈ ids -> 0 <= id < 2048.
Proof. intros [] Hi. destruct th_pool0 as [(_ & _ & Hl) Ht]. apply Hl in Hi as [Hi _]. cbn in Hi. by rewrite Ht in Hi. Qed.

Lemma free_id_new n live id : free_id n live = Some id -> 0 <= id /\ id ∉ live.
Proof. intros E. apply first_clear_Some in E as (Hi & Hb & _). split; [lia|]. by apply bool_decide_eq_false in Hb. Qed.

(** The blocks after a change of one. *)
Lemma get_block_put (s : tstate H) t b t' : get_block (put_block s t b) t' = if decide (t' = t) then Ok b else get_block s t'.
Proof.
  unfold get_block, put_block, get_tcb, get_more. cbn. case_decide as Hd.
  - subst. rewrite !lookup_insert_eq. cbn. by destruct b.
  - rewrite !lookup_insert_ne by done. done.
Qed.

(** The thread is there as before. *)
Definition same_thread (s s' : tstate H) (t : Z) : Prop :=
  get_block s' t = get_block s t /\ s_nodes (p_sched (t_base s')) !! schedule_node t = s_nodes (p_sched (t_base s)) !! schedule_node t.

Lemma thread_ok_same s s' t i id : same_thread s s' t -> thread_ok s t i id -> thread_ok s' t i id.
Proof. intros [E1 E2] (b & n & K). exists b, n. by rewrite E1, E2. Qed.

Lemma on_vm_bind (s : tstate H) f g {X} (k : tstate H -> res X) :
  (let! s := on_vm s f in let! s := on_vm s g in k s) = let! s := on_vm s (fun v => let! v := f v in g v) in k s.
Proof. unfold on_vm. destruct (f (t_vm s)) as [v|]; cbn [res_bind]; [|done]. change (t_vm (t_set_vm s v)) with v. by destruct (g v). Qed.

(** A thread is added. *)
Lemma threads_add s A T own ids S L Ms Ls t i id s' A' v b ids' :
  threads_inv s A T own ids S L Ms Ls -> t <> 0 -> L !! t = None -> slot i -> i ∉ S -> id ∉ ids -> kstep (t_vm s) A T v A' (pair_at (slot_page i)) ->
  private A' (slot_page i) -> private A' (slot_page i + 1) -> slots_inv b LOCKED_NO ({[i]} ∪ S) ->
  pool_inv (ids', {[id]} ∪ ids) -> totalbits (id_map ids') = 2048 ->
  t_vm s' = v -> kernel_stack_slots s' = b -> kernel_stack_slots_lock s' = LOCKED_NO -> thread_id_pool s' = ids' ->
  ct_holds (p_tabs (t_base s')) (<[t := sizeof_tcb]> L) Ms Ls -> thread_ok s' t i id -> (forall t', t' <> t -> same_thread s s' t') ->
  threads_inv s' A' T (<[t := (i, id)]> own) ({[id]} ∪ ids) ({[i]} ∪ S) (<[t := sizeof_tcb]> L) Ms Ls.
Proof.
  intros Hinv Ht0 HtL Hi HiS Hid K P0 P1 Hb Hp Htot Ev Eb El Ei Hh Hok Hsame. pose proof Hinv as [a1 a2 a3 a4 a5 a6 a7 a8 a9 a10 a11 a12].
  assert (own !! t = None) as Hn by (destruct (own !! t) as [[j k]|] eqn:E; [destruct (a6 t j k E) as (_ & Hl & _); congruence|done]).
  assert (forall j k, own !! t = Some (j, k) -> False) as Hf by (intros j k; by rewrite Hn).
  split; rewrite ?Ev, ?Eb, ?El, ?Ei; try done.
  - apply K.
  - eapply ready_same; [apply K|done].
  - intros t' j k. rewrite lookup_insert_Some. intros [[<- [= <- <-]]|[Hne E]]; [split; [done|]; split; [by rewrite lookup_insert_eq|done]|].
    destruct (a6 _ _ _ E) as (? & ? & Hok'). split; [done|]. split; [rewrite lookup_insert_ne; [done|congruence]|]. eapply thread_ok_same; [by apply Hsame|done].
  - intros j. rewrite elem_of_union, elem_of_singleton, a7. split.
    + intros [->|(t' & k & E)]; [exists t, id; by rewrite lookup_insert_eq|]. exists t', k. rewrite lookup_insert_ne; [done|]. intros ->. by eapply Hf.
    + intros (t' & k & E). apply lookup_insert_Some in E as [[<- [= <- <-]]|[Hne E]]; [by left|right; eauto].
  - intros j. rewrite elem_of_union, elem_of_singleton, a8. split.
    + intros [->|(t' & k & E)]; [exists t, i; by rewrite lookup_insert_eq|]. exists t', k. rewrite lookup_insert_ne; [done|]. intros ->. by eapply Hf.
    + intros (t' & k & E). apply lookup_insert_Some in E as [[<- [= <- <-]]|[Hne E]]; [by left|right; eauto].
  - intros t1 t2 i1 i2 k1 k2. rewrite !lookup_insert_Some. intros [[<- [= <- <-]]|[Hne E]] [[<- [= <- <-]]|[Hne' E']] Heq; [done| | |by eapply a9].
    + exfalso. destruct Heq as [<- | <-]; [apply HiS, a7; eauto|apply Hid, a8; eauto].
    + exfalso. destruct Heq as [-> | ->]; [apply HiS, a7; eauto|apply Hid, a8; eauto].
  - intros j u [->%elem_of_singleton|Hj]%elem_of_union Hu; [by destruct Hu as [-> | ->]|].
    apply (ks_private _ _ _ _ _ _ K); [|by eapply a10]. intros Hu'. destruct HiS. by rewrite (slot_apart i j u).
  - intros j u Hj Hjs Hu. rewrite (ks_pages _ _ _ _ _ _ K); [apply (a11 j); [done|set_solver|done]|].
    intros Hu'. rewrite (slot_apart i j u) in Hjs by done. set_solver.
  - intros j Hj. rewrite (ks_pages _ _ _ _ _ _ K); [by apply a12|]. unfold pair_at, slot_page. lia.
Qed.

(** [init_task_manager] leaves no thread, when no page of the stacks is mapped. *)
Lemma init_task_manager_ok fresh pool slots (s : tstate H) A T a1 a2 L Ms Ls :
  vmrel (t_vm s) A T ∅ (gone A (root (t_vm s))) -> ready (t_vm s) T -> ct_holds (p_tabs (t_base s)) L Ms Ls ->
  fresh 256 = Some a1 -> length a1 = 64%nat -> fresh 2732 = Some a2 -> length a2 = 683%nat ->
  (forall i u, slot i -> slot_page i - 1 <= u <= slot_page i + 1 -> kpages A !! u = None) ->
  exists s', init_task_manager fresh pool slots s = Ok s' /\ threads_inv s' A T ∅ ∅ ∅ L Ms Ls.
Proof.
  intros R Rd Hh F1 L1 F2 L2 Hno. unfold init_task_manager, id_pool_init, bitmap_create.
  change (KERNEL_STACK_SIZE mod PAGE_SIZE =? 0) with true. change (KERNEL_STACK_SLOT_SIZE mod PAGE_SIZE =? 0) with true. cbv iota.
  change (u32 (s32 2048)) with 2048. change (s32 2048) with 2048. change (s32 32768) with 32768. change KERNEL_STACK_MAX_SLOTS with 21845.
  destruct (bitmap_init_ok fresh (id_map pool) None 2048 true a1) as (b1 & -> & W1 & T1 & _ & B1); [lia|done|by rewrite L1|]. cbn [res_bind].
  destruct (bitmap_init_ok fresh slots None 21845 true a2) as (b2 & -> & W2 & T2 & _ & B2); [lia|done|by rewrite L2|]. cbn [res_bind].
  eexists. split; [done|]. assert (forall b n, wf b -> totalbits b = n -> (forall i, bit b i = false) -> forall i, i ∈ (∅ : gset Z) <-> 0 <= i < totalbits b /\ bit b i = true) as He.
  { intros b n _ _ Hb i. rewrite Hb. split; [by intros ?%not_elem_of_empty|by intros [_ ?]]. }
  split; try done.
  - split; [|exact T1]. split; [exact W1|split; [done|by apply (He b1 2048)]].
  - split; [|exact T2]. split; [exact W2|split; [done|by apply (He b2 21845)]].
  - intros i. split; [by intros ?%not_elem_of_empty|by intros (t & id & E)].
  - intros id. split; [by intros ?%not_elem_of_empty|by intros (t & i & E)].
  - intros i u Hi _ Hu. apply (Hno i); [done|]. unfold pair_at in Hu. lia.
  - intros i Hi. apply (Hno i); [done|lia].
Qed.

(** ** Changes of the state *)
Lemma get_block_vm (s : tstate H) v t : get_block (t_set_vm s v) t = get_block s t.
Proof. done. Qed.

Lemma numbered_name_ok id : set_name (numbered_name id) = Ok (numbered_name id).
Proof.
  unfold set_name, numbered_name. rewrite length_app. pose proof (StringsSpec.uint_string_length (u32 id)). cbn [length].
  by replace (_ <? 32) with true by (symmetry; zbool; lia).
Qed.

Lemma set_name_ok nm id : (match nm with Some l => (length l < 32)%nat | None => True end) ->
  set_name (match nm with Some l => l | None => numbered_name id end) = Ok (match nm with Some l => l | None => numbered_name id end).
Proof.
  destruct nm as [l|]; [|intros _; apply numbered_name_ok]. intros Hl. unfold set_name. by replace (_ <? 32) with true by (symmetry; zbool; lia).
Qed.

(** Nodes of different threads are apart, and a thread's block is not its node. *)
Lemma same_thread_trans s1 s2 s3 t : same_thread s1 s2 t -> same_thread s2 s3 t -> same_thread s1 s3 t.
Proof. intros [E1 E2] [E3 E4]. split; congruence. Qed.

Lemma same_put_block (s : tstate H) t b t' : t' <> t -> same_thread s (put_block s t b) t'.
Proof. intros Hne. split; [by rewrite get_block_put, decide_False|done]. Qed.
Lemma same_put_node (s : tstate H) t x t' : t' <> t -> same_thread s (put_node s (schedule_node t) x) t'.
Proof. intros Hne. split; [done|]. cbn. apply lookup_insert_ne. unfold schedule_node. lia. Qed.

(** The block that [kmalloc] gives. *)
Lemma alloc_tcb_ok s A T own ids S L Ms Ls n : threads_inv s A T own ids S L Ms Ls -> ct_room (p_tabs (t_base s)) (Datatypes.S n) ->
  (alloc_tcb s = Err Panic /\ ct_malloc (p_tabs (t_base s)) sizeof_tcb = Err Panic) \/
  exists t h, alloc_tcb s = Ok (t, with_base s (with_tabs (t_base s) h)) /\ 0 < t /\ L !! t = None /\
    ct_holds h (<[t := sizeof_tcb]> L) Ms Ls /\ ct_room h n.
Proof.
  intros Hinv Hr. destruct (ct_malloc_law _ _ _ _ sizeof_tcb n (th_heap _ _ _ _ _ _ _ _ _ Hinv)) as [E|(t & h & E & Ht & HtL & _ & Hh & Hr')];
    [unfold sizeof_tcb; lia|done| |]; unfold alloc_tcb; rewrite E; cbn [res_bind]; [by left|right]. exists t, h. done.
Qed.

(** An id. *)
Lemma allocate_id_ok (s : tstate H) ids : pool_inv (thread_id_pool s, ids) -> totalbits (id_map (thread_id_pool s)) = 2048 ->
  exists p', allocate_thread_id s = Ok (free_id 2048 ids, with_ids s p') /\ totalbits (id_map p') = 2048 /\
    pool_inv (p', match free_id 2048 ids with Some id => {[id]} ∪ ids | None => ids end).
Proof.
  intros Hp Ht. destruct (id_pool_allocate_ok _ _ Hp) as (p' & E & Ht' & Hp'). rewrite Ht in *. exists p'.
  unfold allocate_thread_id. rewrite E. done.
Qed.

(** The last block of [init_thread], given its slot and id. *)
Definition first_block (t i id : Z) (nm : list Z) (priority_ : Z) (c : thread_block) : thread_block :=
  mk_block (mk_tcb TASK_READY (u8 priority_) 0 false (process (b_tcb c)) (preempt_count (b_tcb c)) (stack_of i) 0 (schedule_node t))
    (mk_more id (-1)) (mk_rest (stack_top i - 104) (slot_addr i) nm (user_stack (b_rest c))).

(** The end of [init_thread]: the stack is mapped and filled, and the block is written. *)
Lemma init_tail_ok (s : tstate H) A T S t id nm function priority_ (u : bool) : vmrel (t_vm s) A T ∅ (gone A (root (t_vm s))) -> ready (t_vm s) T ->
  slots_inv (kernel_stack_slots s) (kernel_stack_slots_lock s) S ->
  (forall i u, slot i -> i ∉ S -> pair_at (slot_page i) u -> kpages A !! u = None) ->
  word (at_kernel_thread link) -> word (at_switch_to_user_mode link) -> word function -> 0 <= id < 2147483648 -> forall b,
  let r := let! (alloc, s) := alloc_kernel_stack_slot s in
    let stack := u32 (alloc + KERNEL_STACK_GUARD_SIZE) in
    let! s := on_vm s (fun v => vmemset v stack 0 KERNEL_STACK_SIZE) in
    let esp := first_esp stack in
    let! s := on_vm s (fun v => vstores v esp (switch_words (at_kernel_thread link) function)) in
    let! s := if u then on_vm s (fun v => vstores v esp (user_words (at_switch_to_user_mode link) function)) else Ok s in
    Ok (t, put_block s t
      (mk_block (mk_tcb TASK_READY (u8 priority_) 0 false (process (b_tcb b)) (preempt_count (b_tcb b)) stack 0 (schedule_node t))
         (mk_more (s32 id) (-1)) (mk_rest esp alloc nm (user_stack (b_rest b))))) in
  outcome r (free_id 21845 S = None \/ few 1 A ∅) (fun x => exists i v bm A', free_id 21845 S = Some i /\ slot i /\ i ∉ S /\
    x = (t, put_block (with_slots (t_set_vm s v) bm LOCKED_NO) t (first_block t i id nm priority_ b)) /\
    slots_inv bm LOCKED_NO ({[i]} ∪ S) /\ kstep (t_vm s) A T v A' (pair_at (slot_page i)) /\
    private A' (slot_page i) /\ private A' (slot_page i + 1) /\
    words (kflat A' (pm v)) (stack_top i - 104)
      (if u then user_frame (at_switch_to_user_mode link) function 0 else kernel_frame (at_kernel_thread link) function ++ replicate 16 0)).
Proof.
  intros R Rd Hs Hno Hk Hu Hf Hid b r. subst r. pose proof (alloc_slot_ok s A T S R Rd Hs Hno) as Ha.
  destruct (free_id 21845 S) as [i|]; [|left; rewrite Ha; by split; [|left]].
  destruct Ha as (Hi & HiS & [[-> F]|(r & -> & v & bm & A1 & -> & K & P0 & P1 & Hb)]); [left; by split; [|right]|right].
  cbn [res_bind]. replace (u32 (slot_addr i + KERNEL_STACK_GUARD_SIZE)) with (stack_of i)
    by (unfold stack_of, slot_addr, slot in *; change KERNEL_STACK_GUARD_SIZE with 4096; rewrite u32_small; lia).
  destruct (fill_stack_ok v A1 T i (at_kernel_thread link) (at_switch_to_user_mode link) function u (ks_rel _ _ _ _ _ _ K) Hi P0 P1 Hk Hu Hf) as (v2 & E & K2 & Hw).
  set (s1 := with_slots (t_set_vm s v) bm LOCKED_NO).
  eexists. split.
  - rewrite on_vm_bind. transitivity (let! s := on_vm s1 (fill_stack (stack_of i) (first_esp (stack_of i)) (at_kernel_thread link) (at_switch_to_user_mode link) function u) in
      Ok (t, put_block s t (mk_block (mk_tcb TASK_READY (u8 priority_) 0 false (process (b_tcb b)) (preempt_count (b_tcb b)) (stack_of i) 0 (schedule_node t))
         (mk_more (s32 id) (-1)) (mk_rest (first_esp (stack_of i)) (slot_addr i) nm (user_stack (b_rest b)))))).
    + unfold on_vm, fill_stack. destruct (vmemset _ _ _ _) as [w|]; cbn [res_bind]; [|done].
      destruct (vstores w _ _) as [w'|]; cbn [res_bind]; [|done]. destruct u; [|done].
      change (t_vm (t_set_vm s1 w')) with w'. by destruct (vstores w' _ _).
    + unfold on_vm. change (t_vm s1) with v. rewrite E. reflexivity.
  - destruct (first_esp_is i Hi) as (-> & _). exists i, v2, bm, A1. split; [done|]. split; [done|]. split; [done|]. split.
    + replace (s32 id) with id by (unfold s32; rewrite u32_small by lia; by replace (id <? 2147483648) with true by (symmetry; zbool; lia)). done.
    + split; [done|]. split; [by eapply kstep_trans|]. done.
Qed.

(** ** Releasing *)
Lemma release_slot_ok (s : tstate H) A T S i : vmrel (t_vm s) A T ∅ (gone A (root (t_vm s))) -> ready (t_vm s) T ->
  slots_inv (kernel_stack_slots s) (kernel_stack_slots_lock s) S -> i ∈ S -> slot i -> private A (slot_page i) -> private A (slot_page i + 1) ->
  exists v b, release_kernel_stack_slot s (slot_addr i) = Ok (with_slots (t_set_vm s v) b LOCKED_NO) /\
    kstep (t_vm s) A T v (without_pair A (slot_page i)) (pair_at (slot_page i)) /\ slots_inv b LOCKED_NO (S ∖ {[i]}).
Proof.
  intros R Rd [Hp Htot] HiS Hi P0 P1. destruct (slot_pages i Hi) as (_ & _ & Ea). unfold release_kernel_stack_slot.
  assert (slot_addr i - KERNEL_STACK_AREA_START = i * KERNEL_STACK_SLOT_SIZE) as Eo
    by (unfold slot_addr; change KERNEL_STACK_AREA_START with 3758096384; change KERNEL_STACK_SLOT_SIZE with 12288; lia).
  rewrite Eo, Z.mod_mul, Z.div_mul by done. unfold slot in Hi.
  replace (slot_addr i >=? KERNEL_STACK_AREA_START) with true by (symmetry; zbool; unfold slot_addr; change KERNEL_STACK_AREA_START with 3758096384; lia).
  replace (slot_addr i <? KERNEL_STACK_AREA_END) with true by (symmetry; zbool; unfold slot_addr; change KERNEL_STACK_AREA_END with 4026531840; lia).
  cbn [Z.eqb]. replace (u32 (slot_addr i + KERNEL_STACK_GUARD_SIZE)) with (slot_page i * 4096)
    by (rewrite Ea; unfold stack_of, slot_addr in *; change KERNEL_STACK_GUARD_SIZE with 4096; rewrite u32_small; lia).
  change (KERNEL_STACK_SIZE / PAGE_SIZE) with 2.
  destruct (kunmap_pair (t_vm s) A T (slot_page i) R (rdy_frames _ _ Rd) (rdy_dir _ _ Rd) P0 P1) as (v & E & K).
  unfold on_vm. rewrite E. cbn [res_bind]. destruct (id_pool_free_ok _ _ i Hp HiS) as (p' & Ef & Ht & Hp').
  pose proof Hp as (_ & Hl & _). cbn in Hl. unfold id_pool_free_id in Ef. cbn [slot_pool id_map] in Ef.
  cbn [kernel_stack_slots_lock t_set_vm with_base kernel_stack_slots]. rewrite Hl. cbn [yieldlock_lock atomic_exchange]. change (negb (LOCKED_NO =? LOCKED_NO)) with false.
  cbn [res_bind]. destruct (bitmap_clear_bit (kernel_stack_slots s) i) as [b|]; [|done]. cbn [res_bind] in *. injection Ef as <-.
  exists v, b. split; [done|]. split; [done|]. destruct Hp' as (Hw & _ & Hb). split; [|cbn in Ht; congruence]. by split.
Qed.

Lemma get_block_drop (s : tstate H) t t' : get_block (drop_block s t) t' = if decide (t' = t) then Err Fault else get_block s t'.
Proof.
  unfold get_block, drop_block, get_tcb, get_more. cbn. case_decide as Hd; [by subst; rewrite lookup_delete_eq|by rewrite !lookup_delete_ne by done].
Qed.
Lemma same_drop (s : tstate H) t t' : t' <> t -> same_thread s (drop_block s t) t'.
Proof. intros Hne. split; [by rewrite get_block_drop, decide_False|]. cbn. apply lookup_delete_ne. unfold schedule_node. lia. Qed.

(** A thread goes. *)
Lemma threads_remove s A T own ids S L Ms Ls t i id s' v b ids' :
  threads_inv s A T own ids S L Ms Ls -> own !! t = Some (i, id) -> kstep (t_vm s) A T v (without_pair A (slot_page i)) (pair_at (slot_page i)) ->
  slots_inv b LOCKED_NO (S ∖ {[i]}) -> pool_inv (ids', ids ∖ {[id]}) -> totalbits (id_map ids') = 2048 ->
  t_vm s' = v -> kernel_stack_slots s' = b -> kernel_stack_slots_lock s' = LOCKED_NO -> thread_id_pool s' = ids' ->
  ct_holds (p_tabs (t_base s')) (delete t L) Ms Ls -> (forall t', t' <> t -> same_thread s s' t') ->
  threads_inv s' (without_pair A (slot_page i)) T (delete t own) (ids ∖ {[id]}) (S ∖ {[i]}) (delete t L) Ms Ls.
Proof.
  intros Hinv Ho K Hb Hp Htot Ev Eb El Ei Hh Hsame. pose proof Hinv as [a1 a2 a3 a4 a5 a6 a7 a8 a9 a10 a11 a12].
  assert (forall t' j k, own !! t' = Some (j, k) -> t' <> t -> j <> i /\ k <> id) as Hap.
  { intros t' j k E Hne. split; intros ->; apply Hne; eapply a9; [exact E|exact Ho|by left|exact E|exact Ho|by right]. }
  split; rewrite ?Ev, ?Eb, ?El, ?Ei; try done.
  - apply K.
  - eapply ready_same; [apply K|done].
  - intros t' j k. rewrite lookup_delete_Some. intros [Hne E].
    destruct (a6 _ _ _ E) as (? & ? & Hok'). split; [done|]. split; [by rewrite lookup_delete_ne|]. eapply thread_ok_same; [by apply Hsame|done].
  - intros j. rewrite elem_of_difference, elem_of_singleton, a7. split.
    + intros [(t' & k & E) Hj]. exists t', k. rewrite lookup_delete_ne; [done|]. intros ->. congruence.
    + intros (t' & k & E). apply lookup_delete_Some in E as [Hne E]. split; [eauto|]. by apply (Hap t' j k).
  - intros j. rewrite elem_of_difference, elem_of_singleton, a8. split.
    + intros [(t' & k & E) Hj]. exists t', k. rewrite lookup_delete_ne; [done|]. intros ->. congruence.
    + intros (t' & k & E). apply lookup_delete_Some in E as [Hne E]. split; [eauto|]. by apply (Hap t' k j).
  - intros t1 t2 i1 i2 k1 k2. rewrite !lookup_delete_Some. intros [_ E] [_ E']. by eapply a9.
  - intros j u [Hj Hne]%elem_of_difference Hu. apply (ks_private _ _ _ _ _ _ K); [|by eapply a10].
    intros Hu'. apply Hne. by rewrite (slot_apart i j u), elem_of_singleton.
  - intros j u Hj Hjs Hu. destruct (decide (j = i)) as [->|Hne].
    + cbn. destruct Hu as [-> | ->]; [|by rewrite lookup_delete_eq]. rewrite lookup_delete_ne by lia. by rewrite lookup_delete_eq.
    + rewrite (ks_pages _ _ _ _ _ _ K); [apply (a11 j); [done|set_solver|done]|]. intros Hu'. by rewrite (slot_apart i j u) in Hne.
  - intros j Hj. rewrite (ks_pages _ _ _ _ _ _ K); [by apply a12|]. unfold pair_at, slot_page. lia.
Qed.

Lemma destroy_thread_ok s A T own ids S L Ms Ls t i id n : threads_inv s A T own ids S L Ms Ls -> own !! t = Some (i, id) ->
  ct_room (p_tabs (t_base s)) n ->
  exists s', destroy_thread s t = Ok s' /\
    threads_inv s' (without_pair A (slot_page i)) T (delete t own) (ids ∖ {[id]}) (S ∖ {[i]}) (delete t L) Ms Ls /\
    kstep (t_vm s) A T (t_vm s') (without_pair A (slot_page i)) (pair_at (slot_page i)) /\
    (forall t', t' <> t -> same_thread s s' t') /\ get_block s' t = Err Fault /\ ct_room (p_tabs (t_base s')) n.
Proof.
  intros Hinv Ho Hr. pose proof Hinv as [a1 a2 [a3 a3'] a4 a5 a6 a7 a8 a9 a10 a11 a12].
  destruct (a6 _ _ _ Ho) as (Ht0 & HtL & b & nd & Hb & Hks & Hka & Hid & Hcn & Hnd & Hpt).
  assert (i ∈ S) as HiS by (apply a7; eauto). assert (id ∈ ids) as HidS by (apply a8; eauto).
  pose proof (slots_in_range _ _ _ _ _ _ _ _ _ _ Hinv HiS) as Hi.
  unfold destroy_thread. rewrite Hb. cbn [res_bind]. rewrite Hid, Hka. destruct (id_pool_free_ok _ _ id a3 HidS) as (p' & -> & Htot & Hp'). cbn [res_bind].
  destruct (release_slot_ok (with_ids s p') A T S i a1 a2 a4 HiS Hi (a10 i _ HiS (or_introl eq_refl)) (a10 i _ HiS (or_intror eq_refl))) as (v & bm & -> & K & Hbm).
  cbn [res_bind]. destruct (ct_free_law _ L Ms Ls t n a5 ltac:(by eexists) Hr) as (h & Ef & Hh & Hr').
  change (p_tabs (t_base (with_slots (t_set_vm (with_ids s p') v) bm LOCKED_NO))) with (p_tabs (t_base s)). rewrite Ef. cbn [res_bind].
  eexists. split; [done|]. set (s' := drop_block _ t).
  assert (forall t', t' <> t -> same_thread s s' t') as Hsame.
  { intros t' Hne. eapply same_thread_trans; [|by apply same_drop]. done. }
  split; [|split; [exact K|split; [done|split; [by unfold s'; rewrite get_block_drop, decide_True|exact Hr']]]].
  eapply (threads_remove s A T own ids S L Ms Ls t i id s' v bm p'); try done. by rewrite Htot.
Qed.

(** ** Copying a stack *)
Lemma copy_stack_ok v A T i j entry : vmrel v A T ∅ (gone A (root v)) -> slot i -> slot j -> i <> j ->
  (forall u, pair_at (slot_page i) u \/ pair_at (slot_page j) u -> private A u) -> word entry ->
  exists v', (let! v := vmemcpy v (stack_of i) (stack_of j) KERNEL_STACK_SIZE in vstore32 v (first_esp (stack_of i) + 28) entry) = Ok v' /\
    kstep v A T v' A (pair_at (slot_page i)) /\ load32 (kflat A (pm v')) (stack_top i - 76) = entry /\
    forall x, stack_of i <= x < stack_top i -> ~ (stack_top i - 76 <= x < stack_top i - 72) ->
      kflat A (pm v') x = kflat A (pm v) (x - stack_of i + stack_of j).
Proof.
  intros R Hi Hj Hne HP He. destruct (first_esp_is i Hi) as (-> & Hpos & Hlt & Hal). change KERNEL_STACK_SIZE with 8192.
  assert (stack_of i + 8192 = stack_top i /\ stack_of j + 8192 = stack_top j) as [Ei Ej] by (unfold stack_of, stack_top; lia).
  assert (private A (slot_page i) /\ private A (slot_page i + 1) /\ private A (slot_page j) /\ private A (slot_page j + 1)) as (P0 & P1 & P2 & P3)
    by (repeat split; apply HP; unfold pair_at; lia).
  destruct (kmemcpy_ok A T _ v (stack_of i) (stack_of j) 8192 R) as (v1 & m1 & E1 & Em & K1);
    [unfold stack_of, slot_addr, slot in *; lia..|by apply (stack_range _ _ i); [..|lia|lia]|by apply (stack_range _ _ j); [..|lia|lia]|].
  rewrite E1. cbn [res_bind].
  destruct (memcpy_ok (kflat A (pm v)) (stack_of i) (stack_of j) 8192) as (m1' & Em' & Ho & Hc);
    [unfold stack_of, slot_addr, slot in *; lia..|intros x; apply kflat_bytes, (t_mem _ _ _ (v_tables _ _ _ _ _ R))|unfold stack_of, slot_addr, slot in *; lia|].
  rewrite Em in Em'. injection Em' as <-. replace (stack_top i - 104 + 28) with (stack_top i - 76) by lia.
  destruct (stack_range A (root v) i (stack_of i) (stack_top i) Hi P0 P1 ltac:(lia) ltac:(lia) (stack_top i - 76)) as [Q1 Q2]; [unfold stack_of, stack_top; lia|].
  destruct (kstore32_ok A T _ v1 (stack_top i - 76) entry (kw_rel _ _ _ _ _ _ K1) Q1 Q2) as (v2 & -> & K2); [zdiv|].
  exists v2. split; [done|].
  assert (kwrote v A T (gone A (root v)) v2 (store32 m1 (stack_top i - 76) entry)) as K.
  { eapply kwrote_trans; [exact K1|]. eapply kwrote_ext; [exact K2|]. intros x. unfold store32, store8. by rewrite (kw_view _ _ _ _ _ _ K1). }
  split; [|split].
  - eapply stack_written; [exact K|done|]. intros x Hx. rewrite store32_ne by (unfold stack_of, stack_top in *; lia). apply Ho. by rewrite Ei.
  - rewrite (load32_same_view _ (store32 m1 (stack_top i - 76) entry)); [by apply load32_store32|apply (kw_view _ _ _ _ _ _ K)].
  - intros x Hx Hn. rewrite (kw_view _ _ _ _ _ _ K), store32_ne by lia. replace x with (stack_of i + (x - stack_of i)) at 1 by lia. rewrite Hc by lia. f_equal. lia.
Qed.

(** The last block of [fork_crt_thread]. *)
Definition child_block (t i id : Z) (b : thread_block) : thread_block :=
  mk_block (mk_tcb (status (b_tcb b)) (priority (b_tcb b)) 0 (need_reschedule (b_tcb b)) (process (b_tcb b)) (preempt_count (b_tcb b)) (stack_of i) 0 (schedule_node t))
    (mk_more id (user_stack_index (b_more b))) (mk_rest (stack_top i - 104) (slot_addr i) (numbered_name id) (user_stack (b_rest b))).

(** The child of a thread in a system call of the program [u] returns to it with 0. *)
Definition returns_zero (m m' : mem) (top esp top' exit_at : Z) : Prop :=
  forall u dsw sp k, user_state u -> u16 dsw = segs u DS -> words m (top - 64) (isr_params u dsw sp k) ->
  forall d, switched d m' esp top' -> let c := run resume_thread d in
    eip c = exit_at /\ same_user (with_reg u EAX 0) (run syscall_fork_exit c) /\ memory (run syscall_fork_exit c) = memory d.

Lemma copied_returns m m' i j entry : slot i -> load32 m' (stack_top i - 76) = entry ->
  (forall x, stack_of i <= x < stack_top i -> ~ (stack_top i - 76 <= x < stack_top i - 72) -> m' x = m (x - stack_of i + stack_of j)) ->
  returns_zero m m' (stack_top j) (stack_top i - 104) (stack_top i) entry.
Proof.
  intros Hi He Hc u dsw sp k Hu Hds Hw d Hd. destruct (first_esp_is i Hi) as (_ & Hpos & Hlt & _). set (a := stack_top i - 104) in *.
  set (R := fun r => match r with EDI => load32 m' a | ESI => load32 m' (a + 4) | EBP => load32 m' (a + 8) | EBX => load32 m' (a + 12)
    | EDX => load32 m' (a + 16) | ECX => load32 m' (a + 20) | EAX => load32 m' (a + 24) | ESP => 0 end).
  refine (fork_frame_returns u m' a (stack_top i) entry dsw sp k R (load32 m' (a + 32)) (load32 m' (a + 36)) Hu Hds _ Hpos ltac:(lia) Hlt d Hd).
  unfold saved_regs. cbn [app].
  repeat (apply words_cons; split; [first [reflexivity|subst R; cbn; f_equal; lia|rewrite <- He; f_equal; unfold a; lia]|]).
  intros n w Hn. pose proof (lookup_lt_Some _ _ _ Hn) as Hl. change (n < 16)%nat in Hl. rewrite <- (Hw n w Hn).
  apply load32_moved. intros k' Hk. rewrite Hc by (unfold a, stack_of, stack_top; clear -Hl Hk; lia). f_equal. unfold a, stack_of, stack_top. lia.
Qed.

(** The end of [fork_crt_thread]. *)
Lemma fork_tail_ok (s : tstate H) A T S t id j b : vmrel (t_vm s) A T ∅ (gone A (root (t_vm s))) -> ready (t_vm s) T ->
  slots_inv (kernel_stack_slots s) (kernel_stack_slots_lock s) S ->
  (forall i u, slot i -> i ∉ S -> pair_at (slot_page i) u -> kpages A !! u = None) ->
  j ∈ S -> slot j -> (forall u, pair_at (slot_page j) u -> private A u) ->
  word (at_syscall_fork_exit link) -> 0 <= id < 2147483648 -> kernel_stack (b_tcb b) = stack_of j ->
  let c := b_tcb b in
  let r := let! (alloc, s) := alloc_kernel_stack_slot s in
    let stack := u32 (alloc + KERNEL_STACK_GUARD_SIZE) in
    let! s := on_vm s (fun v => vmemcpy v stack (kernel_stack c) KERNEL_STACK_SIZE) in
    let esp := first_esp stack in
    let! s := on_vm s (fun v => vstore32 v (esp + 28) (at_syscall_fork_exit link)) in
    Ok (t, put_block s t
      (mk_block (mk_tcb (status c) (priority c) 0 (need_reschedule c) (process c) (preempt_count c) stack 0 (schedule_node t))
         (mk_more (s32 id) (user_stack_index (b_more b))) (mk_rest esp alloc (numbered_name id) (user_stack (b_rest b))))) in
  outcome r (free_id 21845 S = None \/ few 1 A ∅) (fun x => exists i v bm A', free_id 21845 S = Some i /\ slot i /\ i ∉ S /\
    x = (t, put_block (with_slots (t_set_vm s v) bm LOCKED_NO) t (child_block t i id b)) /\
    slots_inv bm LOCKED_NO ({[i]} ∪ S) /\ kstep (t_vm s) A T v A' (pair_at (slot_page i)) /\
    private A' (slot_page i) /\ private A' (slot_page i + 1) /\
    returns_zero (kflat A (pm (t_vm s))) (kflat A' (pm v)) (stack_top j) (stack_top i - 104) (stack_top i) (at_syscall_fork_exit link)).
Proof.
  intros R Rd Hs Hno HjS Hj HPj He Hid Hks c r. subst r. pose proof (alloc_slot_ok s A T S R Rd Hs Hno) as Ha.
  destruct (free_id 21845 S) as [i|]; [|left; rewrite Ha; by split; [|left]].
  destruct Ha as (Hi & HiS & [[-> F]|(r & -> & v & bm & A1 & -> & K & P0 & P1 & Hb)]); [left; by split; [|right]|right].
  cbn [res_bind]. replace (u32 (slot_addr i + KERNEL_STACK_GUARD_SIZE)) with (stack_of i)
    by (unfold stack_of, slot_addr, slot in *; change KERNEL_STACK_GUARD_SIZE with 4096; rewrite u32_small; lia).
  subst c. rewrite Hks. assert (i <> j) as Hne by (by intros ->).
  assert (forall u, pair_at (slot_page j) u -> ~ pair_at (slot_page i) u) as Hap by (intros u Hu Hu'; apply Hne; by rewrite (slot_apart i j u)).
  destruct (copy_stack_ok v A1 T i j (at_syscall_fork_exit link) (ks_rel _ _ _ _ _ _ K) Hi Hj Hne) as (v2 & E & K2 & Hw & Hc); [|done|].
  { intros u [Hu|Hu]; [by destruct Hu as [-> | ->]|]. apply (ks_private _ _ _ _ _ _ K); auto. }
  set (s1 := with_slots (t_set_vm s v) bm LOCKED_NO). eexists. split.
  - rewrite on_vm_bind. unfold on_vm. change (t_vm s1) with v. rewrite E. reflexivity.
  - destruct (first_esp_is i Hi) as (-> & _). exists i, v2, bm, A1. split; [done|]. split; [done|]. split; [done|]. split.
    + replace (s32 id) with id by (unfold s32; rewrite u32_small by lia; by replace (id <? 2147483648) with true by (symmetry; zbool; lia)). done.
    + split; [done|]. split; [by eapply kstep_trans|]. split; [done|]. split; [done|].
      apply (copied_returns _ _ i j); [done|done|]. intros x Hx Hn. rewrite Hc by done. apply (ks_view _ _ _ _ _ _ K). apply Hap.
      apply stack_pages; [done|]. unfold stack_of, stack_top in *. lia.
Qed.

(** The frames of two pages are free once they are gone. *)
Lemma pair_frames_free A N l v u f : acct A N l -> (forall w, pair_at v w -> private A w) -> pair_at v u -> kpages A !! u = Some f ->
  refs (without_pair A v) f = 0.
Proof.
  intros Ac HP Hu Hf. destruct (HP v) as (f0 & H0 & R0 & _); [by left|]. destruct (HP (v + 1)) as (f1 & H1 & R1 & _); [by right|].
  destruct (private_frame A N l _ _ Ac H0 R0) as [I0 _]. assert (f1 <> f0) as Hne by (intros ->; pose proof (I0 _ H1); lia).
  assert (delete v (kpages A) !! (v + 1) = Some f1) as H1' by (by rewrite lookup_delete_ne by lia).
  unfold refs in *. cbn. rewrite (uses_delete id _ (v + 1) f1 f H1'), (uses_delete id _ v f0 f H0). change (id f1) with f1. change (id f0) with f0.
  destruct Hu as [-> | ->].
  - assert (f = f0) as -> by congruence. rewrite (decide_False (P := f1 = f0)), (decide_True (P := f0 = f0)) by done. lia.
  - assert (f = f1) as -> by congruence. rewrite (decide_True (P := f1 = f1)), (decide_False (P := f0 = f1)) by done. lia.
Qed.

(** [fork_crt_thread], with all that it changes. *)
Definition forked (s : tstate H) (t : Z) (h : H) (p : id_pool_t) (v : vm) (bm : bitmap_t) (b : thread_block) : tstate H :=
  put_block (with_slots (t_set_vm (with_ids (put_node (with_base s (with_tabs (t_base s) h)) (schedule_node t) (mk_node t 0 0)) p) v) bm LOCKED_NO) t b.

Lemma fork_thread_ok (s : tstate H) A T own ids S L Ms Ls ct j jd b n : threads_inv s A T own ids S L Ms Ls ->
  get_crt_thread (p_sched (t_base s)) = Ok ct -> own !! ct = Some (j, jd) -> get_block s ct = Ok b ->
  word (at_syscall_fork_exit link) -> ct_room (p_tabs (t_base s)) (Datatypes.S n) ->
  outcome (fork_crt_thread link s)
    (ct_malloc (p_tabs (t_base s)) sizeof_tcb = Err Panic \/ free_id 2048 ids = None \/ free_id 21845 S = None \/ few 1 A ∅)
    (fun '(t, s') => exists i id A', free_id 2048 ids = Some id /\ free_id 21845 S = Some i /\ own !! t = None /\
      threads_inv s' A' T (<[t := (i, id)]> own) ({[id]} ∪ ids) ({[i]} ∪ S) (<[t := sizeof_tcb]> L) Ms Ls /\
      kstep (t_vm s) A T (t_vm s') A' (pair_at (slot_page i)) /\ (forall t', t' <> t -> same_thread s s' t') /\
      get_block s' t = Ok (child_block t i id b) /\
      returns_zero (kflat A (pm (t_vm s))) (kflat A' (pm (t_vm s'))) (stack_top j) (stack_top i - 104) (stack_top i) (at_syscall_fork_exit link) /\
      0 < t /\ L !! t = None /\ exists h p v bm, s' = forked s t h p v bm (child_block t i id b) /\ ct_room h n).
Proof.
  intros Hinv Hct Ho Hb He Hroom.
  pose proof Hinv as [a1 a2 [a3 a3'] a4 a5 a6 a7 a8 a9 a10 a11 a12]. destruct (a6 _ _ _ Ho) as (Hc0 & HcL & b' & nd & Hb' & Hks & _).
  rewrite Hb in Hb'. injection Hb' as <-. unfold fork_crt_thread. rewrite Hct. cbn [res_bind].
  replace (ct =? 0) with false by (symmetry; zbool). cbn [negb].
  destruct (alloc_tcb_ok s A T own ids S L Ms Ls n Hinv Hroom) as [[-> F]|(t & h & -> & Ht0 & HtL & Hh & Hr)]; [left; by split; [|left]|]. cbn [res_bind].
  replace (t =? 0) with false by (symmetry; zbool). cbn [negb]. set (s0 := with_base s _).
  change (get_block s0 ct) with (get_block s ct). rewrite Hb. cbn [res_bind]. set (s1 := put_node s0 _ _).
  destruct (allocate_id_ok s1 ids a3 a3') as (p' & -> & Htot & Hp). cbn [res_bind].
  destruct (free_id 2048 ids) as [id|] eqn:Eid; [|left; by split; [|right; left]]. rewrite numbered_name_ok. cbn [res_bind].
  pose proof (free_id_new _ _ _ Eid) as [Hid0 Hidn]. assert (0 <= id < 2147483648) as Hid.
  { destruct Hp as (_ & _ & Hl). specialize (Hl id). cbn in Hl. rewrite Htot in Hl. destruct Hl as [Hl _]. destruct Hl as [? _]; [set_solver|lia]. }
  assert (j ∈ S) as HjS by (apply a7; eauto). pose proof (slots_in_range _ _ _ _ _ _ _ _ _ _ Hinv HjS) as Hj.
  pose proof (fork_tail_ok (with_ids s1 p') A T S t id j b a1 a2 a4 a11 HjS Hj (fun u => a10 j u HjS) He Hid Hks) as Htail. cbv zeta in Htail |- *.
  destruct Htail as [[-> F]|(x & -> & i & v & bm & A' & Ei & Hi & HiS & -> & Hbm & K & P0 & P1 & Hw)]; [left; split; [done|right; right; done]|right].
  eexists. split; [done|]. exists i, id, A'. split; [done|]. split; [done|].
  assert (own !! t = None) as Hn by (destruct (own !! t) as [[k kd]|] eqn:E; [destruct (a6 t k kd E) as (_ & Hl & _); congruence|done]). split; [done|].
  set (s3 := put_block _ t _).
  assert (forall t', t' <> t -> same_thread s s3 t') as Hsame.
  { intros t' Hne. eapply same_thread_trans; [|by apply same_put_block]. eapply same_thread_trans; [|by apply (same_put_node s0 t (mk_node t 0 0))]. done. }
  assert (get_block s3 t = Ok (child_block t i id b)) as Hg by (unfold s3; by rewrite get_block_put, decide_True).
  split; [|do 6 (split; [done|]); by exists h, p', v, bm]. eapply (threads_add s A T own ids S L Ms Ls t i id s3 A' v bm p'); try done; [lia|]. eexists _, (mk_node t 0 0). split; [exact Hg|].
  do 4 (split; [done|]). split; [|done]. apply lookup_insert_eq.
Qed.
End SPEC.
