(* ===== verification/UserStack.v ===== *)
(** What [prepare_user_stack] leaves on the stack of a program: the strings, the array of their
    addresses with its final [NULL], and the frame of a call [main(argc, argv)]. *)
From S2P Require Import Prelude Memory Strings StringsSpec Switch SwitchSpec Page Thread.

(** ** [strlen] *)
Lemma strlen_loop_ok s : forall fuel m a i, holds m (a + i) (s ++ [0]) -> Forall char_ok s -> (length s < fuel)%nat ->
  strlen_loop fuel m a i = Ok (i + Z.of_nat (length s)).
Proof.
  induction s as [|c s IH]; intros fuel m a i Hh Hc Hf; (destruct fuel as [|fuel]; [cbn in Hf; lia|]); cbn [strlen_loop]; unfold load8.
  - pose proof (Hh 0%nat 0 eq_refl) as H0. cbn [Z.of_nat] in H0. rewrite Z.add_0_r in H0. rewrite H0. cbn. f_equal. lia.
  - pose proof (Hh 0%nat c eq_refl) as H0. cbn [Z.of_nat] in H0. rewrite Z.add_0_r in H0. rewrite H0.
    apply Forall_cons in Hc as [Hc0 Hc]. unfold char_ok in Hc0. replace (c =? 0) with false by (symmetry; zbool). cbn [length] in *.
    rewrite (IH fuel m a (i + 1)); [f_equal; lia| |done|lia].
    intros j x Hj. rewrite <- (Hh (Datatypes.S j) x Hj). f_equal. lia.
Qed.

Lemma strlen_ok fuel m a s : a <> 0 -> holds m a (s ++ [0]) -> Forall char_ok s -> (length s < fuel)%nat ->
  strlen fuel m a = Ok (Z.of_nat (length s)).
Proof.
  intros Ha Hh Hc Hf. unfold strlen. replace (a =? 0) with false by (symmetry; zbool). cbn [negb].
  rewrite (strlen_loop_ok s); [done|by rewrite Z.add_0_r|done|done].
Qed.

(** ** The strings *)
Definition total (ss : list (list Z)) : Z := foldr (fun s t => Z.of_nat (length s) + 1 + t) 0 ss.

(** The addresses of the strings, one after the other from [a]. *)
Fixpoint args_at (a : Z) (ss : list (list Z)) : list Z :=
  match ss with [] => [] | s :: ss => a :: args_at (a + Z.of_nat (length s) + 1) ss end.

Lemma total_cons s l : total (s :: l) = Z.of_nat (length s) + 1 + total l.
Proof. done. Qed.
Lemma total_app l1 l2 : total (l1 ++ l2) = total l1 + total l2.
Proof. induction l1 as [|s l1 IH]; [done|]. rewrite <- app_comm_cons, !total_cons, IH. lia. Qed.
Lemma args_total_nonneg l : 0 <= total l.
Proof. induction l as [|s l IH]; [done|]. rewrite total_cons. lia. Qed.
Lemma args_app a l1 l2 : args_at a (l1 ++ l2) = args_at a l1 ++ args_at (a + total l1) l2.
Proof.
  revert a. induction l1 as [|s l1 IH]; intros a; rewrite ?total_cons; cbn [app args_at]; [by rewrite Z.add_0_r|].
  rewrite IH. cbn [app]. do 2 f_equal. apply (f_equal (fun x => args_at x l2)). lia.
Qed.
Lemma args_length a l : length (args_at a l) = length l.
Proof. revert a. induction l; intros; cbn; auto. Qed.

Lemma total_take ss i s : ss !! i = Some s -> total (take (i + 1) ss) = total (take i ss) + Z.of_nat (length s) + 1.
Proof. intros Hi. rewrite Nat.add_1_r, (take_S_r ss i s Hi), total_app, total_cons. change (total []) with 0. lia. Qed.
Lemma total_take_le ss i : total (take i ss) <= total ss.
Proof. rewrite <- (take_drop i ss) at 2. rewrite total_app. pose proof (args_total_nonneg (drop i ss)). lia. Qed.
Lemma args_take a ss i s : ss !! i = Some s -> args_at a (take (i + 1) ss) = args_at a (take i ss) ++ [a + total (take i ss)].
Proof. intros Hi. by rewrite Nat.add_1_r, (take_S_r ss i s Hi), args_app. Qed.

Section ARGS.
Context (sfuel : nat) (m0 : mem) (argv lo hi : Z) (ss : list (list Z)).

(** [argv] has the strings [ss], all outside of [lo, hi). *)
Record args_ok : Prop := {
  ao_range : disjoint_from argv (4 * Z.of_nat (length ss)) lo (hi - lo);
  ao_arg i s : ss !! i = Some s -> let p := arg_at m0 argv (Z.of_nat i) in
    p <> 0 /\ holds m0 p (s ++ [0]) /\ Forall char_ok s /\ (length s < sfuel)%nat /\ disjoint_from p (Z.of_nat (length s) + 1) lo (hi - lo)
}.
Context (Ha : args_ok) (Htot : total ss < 4294967296).

Lemma arg_same m i s : same_outside m0 m lo hi -> ss !! i = Some s ->
  arg_at m argv (Z.of_nat i) = arg_at m0 argv (Z.of_nat i) /\ holds m (arg_at m0 argv (Z.of_nat i)) (s ++ [0]).
Proof.
  intros Hm Hi. destruct Ha as [Hr Hs]. destruct (Hs i s Hi) as (_ & Hh & _ & _ & Hd). pose proof (lookup_lt_Some _ _ _ Hi). unfold disjoint_from in *. split.
  - unfold arg_at. eapply load32_same; [exact Hm|lia].
  - eapply holds_same; [exact Hh|exact Hm|]. rewrite length_app. cbn. unfold disjoint_from. lia.
Qed.

Lemma total_length_ok m : same_outside m0 m lo hi -> total_length sfuel m (Z.of_nat (length ss)) argv = Ok (total ss).
Proof.
  intros Hm. unfold total_length. rewrite Nat2Z.id.
  destruct (for_loop_inv (fun j t => t = total (take (Z.to_nat j) ss)) (length ss) 0
    (fun i total => let! n := strlen sfuel m (arg_at m argv i) in Ok (u32 (total + (n + 1)))) 0) as (t & E & Ht); [done| |].
  - intros j t Hj ->. destruct (lookup_lt_is_Some_2 ss (Z.to_nat j)) as [s Hs]; [lia|].
    destruct (arg_same m (Z.to_nat j) s Hm Hs) as [E1 E2]. destruct Ha as [_ Hs']. destruct (Hs' _ _ Hs) as (Hp & _ & Hc & Hl & _).
    rewrite Z2Nat.id in * by lia. rewrite E1. rewrite (strlen_ok sfuel m _ s) by done. cbn [res_bind].
    eexists. split; [done|]. pose proof (total_take_le ss (Z.to_nat j + 1)). pose proof (args_total_nonneg (take (Z.to_nat j) ss)).
    replace (Z.to_nat (j + 1)) with (Z.to_nat j + 1)%nat by lia. rewrite (total_take ss (Z.to_nat j) s Hs) in *. rewrite u32_small by lia. lia.
  - rewrite E. f_equal. rewrite Ht. f_equal. apply take_ge. lia.
Qed.

(** The strings in [m] are those of [l], from [base] on. *)
Definition strings_at (m : mem) (base : Z) (l : list (list Z)) : Prop :=
  forall i s, l !! i = Some s -> exists p, args_at base l !! i = Some p /\ base <= p /\ p + Z.of_nat (length s) + 1 <= base + total l /\ holds m p (s ++ [0]).

Lemma strings_add m m' base l s : strings_at m base l -> 
  same_outside m m' (base + total l) (base + total l + Z.of_nat (length s) + 1) -> holds m' (base + total l) (s ++ [0]) ->
  strings_at m' base (l ++ [s]).
Proof.
  intros Hl Ho Hh i x Hi. pose proof (args_total_nonneg l). rewrite args_app, total_app, total_cons. change (total []) with 0. cbn [args_at]. destruct (decide (i < length l)%nat).
  - rewrite lookup_app_l in Hi by done. destruct (Hl i x Hi) as (p & Hp & H1 & H2 & H3). exists p.
    rewrite lookup_app_l by (rewrite args_length; lia). split; [done|]. split; [done|]. split; [lia|].
    eapply holds_same; [exact H3|exact Ho|]. rewrite length_app. cbn. unfold disjoint_from. lia.
  - rewrite lookup_app_r in Hi by lia. apply list_lookup_singleton_Some in Hi as [Hz <-].
    exists (base + total l). rewrite lookup_app_r by (rewrite args_length; lia). rewrite args_length, Hz. split; [done|]. split; [lia|]. split; [lia|done].
Qed.

Lemma copy_args_ok m base : same_outside m0 m lo hi -> 0 < base -> lo <= base -> base + total ss <= hi -> hi < 4294967296 ->
  exists m', copy_args sfuel m (Z.of_nat (length ss)) argv base = Ok (args_at base ss, base + total ss, m') /\
    same_outside m m' base (base + total ss) /\ strings_at m' base ss.
Proof.
  intros Hm Hb Hlo Hhi Hlt. unfold copy_args. rewrite Nat2Z.id.
  match goal with |- exists m', for_loop _ _ ?f _ = _ /\ _ => set (F := f) end.
  destruct (for_loop_inv (fun j (st : list Z * Z * mem) => let l := take (Z.to_nat j) ss in st.1 = (args_at base l, base + total l) /\
      same_outside m st.2 base (base + total l) /\ strings_at st.2 base l) (length ss) 0 F ([], base, m)) as ([[args a] m'] & E & E1 & E2 & E3).
  - cbn. rewrite Z.add_0_r. split; [done|]. split; [apply same_outside_refl|by intros i s Hi].
  - intros j [[args a] m1] Hj (E1 & E2 & E3). cbn [fst snd] in *. injection E1 as -> ->.
    destruct (lookup_lt_is_Some_2 ss (Z.to_nat j)) as [s Hs]; [lia|]. set (l := take (Z.to_nat j) ss) in *.
    pose proof (args_total_nonneg l) as Hl0. pose proof (total_take_le ss (Z.to_nat j + 1)) as Hl1. pose proof (total_take_le ss (Z.to_nat j)) as Hl2.
    rewrite (total_take ss (Z.to_nat j) s Hs) in Hl1. fold l in Hl1, Hl2.
    assert (same_outside m0 m1 lo hi) as Hm1 by (eapply same_outside_trans; [exact Hm|]; eapply same_outside_weaken; [exact E2|lia|lia]).
    destruct (arg_same m1 (Z.to_nat j) s Hm1 Hs) as [A1 A2]. destruct Ha as [_ Hs']. destruct (Hs' _ _ Hs) as (Hp & _ & Hc & Hl & Hd).
    rewrite Z2Nat.id in * by lia. unfold disjoint_from in Hd.
    destruct (copy_strcpy_ok false sfuel m1 (base + total l) (arg_at m0 argv j) s A2 Hc Hl) as (m2 & Ec & Hh & Ho); [lia|done|unfold disjoint_from; lia|].
    change (copy_strcpy false sfuel m1 (base + total l) (arg_at m0 argv j)) with (strcpy_with_len sfuel m1 (base + total l) (arg_at m0 argv j)) in Ec.
    eexists. split; [unfold F; cbv beta iota; rewrite A1, Ec; reflexivity|]. cbn [fst snd].
    replace (Z.to_nat (j + 1)) with (Z.to_nat j + 1)%nat by lia. rewrite (args_take base ss (Z.to_nat j) s Hs), (total_take ss (Z.to_nat j) s Hs).
    fold l. split; [|split].
    + f_equal. rewrite u32_small; lia.
    + eapply same_outside_trans; (eapply same_outside_weaken; [eassumption|lia|lia]).
    + rewrite Nat.add_1_r, (take_S_r ss (Z.to_nat j) s Hs). by eapply strings_add.
  - rewrite Z.add_0_l, Nat2Z.id, firstn_all in E1, E2, E3. cbn [fst snd] in *. injection E1 as -> ->. by exists m'.
Qed.
End ARGS.

(** ** The array and the frame *)
Lemma put_args_ok args : forall m a, 0 <= a -> a + 4 * Z.of_nat (length args) < 4294967296 -> Forall word args ->
  words (put_args m a args) a args /\ same_outside m (put_args m a args) a (a + 4 * Z.of_nat (length args)).
Proof.
  induction args as [|w args IH]; intros m a Ha Hlt Hw; cbn [put_args].
  - split; [by intros []|apply same_outside_refl].
  - cbn [length] in *. apply Forall_cons in Hw as [Hw Hws]. rewrite u32_small by lia.
    destruct (IH (store32 m a w) (a + 4)) as [H1 H2]; [lia|lia|done|]. split.
    + apply words_cons. split; [|done]. rewrite (load32_same _ _ _ _ a H2) by lia. by apply load32_store32.
    + apply (same_outside_trans _ (store32 m a w)); [eapply same_outside_weaken; [apply same_outside_store32|lia|lia]|].
      eapply same_outside_weaken; [exact H2|lia|lia].
Qed.

Lemma args_word a ss : 0 <= a -> a + total ss < 4294967296 -> Forall word (args_at a ss).
Proof.
  revert a. induction ss as [|s ss IH]; intros a Ha Hlt; cbn [args_at]; [by apply Forall_nil|]. rewrite total_cons in Hlt.
  pose proof (args_total_nonneg ss). apply Forall_cons. split; [unfold word; lia|]. apply IH; lia.
Qed.

Lemma strings_same m m' base l lo hi : strings_at m base l -> same_outside m m' lo hi -> hi <= base \/ base + total l <= lo -> strings_at m' base l.
Proof.
  intros Hl Ho Hd i s Hi. destruct (Hl i s Hi) as (p & Hp & H1 & H2 & H3). exists p. split; [done|]. split; [done|]. split; [done|].
  eapply holds_same; [exact H3|exact Ho|]. rewrite length_app. cbn. unfold disjoint_from. lia.
Qed.

(** The places on the stack. *)
Definition strings_base (top : Z) (ss : list (list Z)) : Z := (top - total ss) / 4 * 4.
Definition argv_base (top : Z) (ss : list (list Z)) : Z := strings_base top ss - 4 * (Z.of_nat (length ss) + 1).

(** The frame of the call: the return address, the arguments, and the array. *)
Definition main_frame (top : Z) (ss : list (list Z)) (return_addr : Z) : list Z :=
  [return_addr; Z.of_nat (length ss); argv_base top ss] ++ args_at (strings_base top ss) ss ++ [0].

Section PREPARE.
Context (sfuel : nat) (m : mem) (kernel_esp top argv return_addr : Z) (ss : list (list Z)).
Context (Ha : args_ok sfuel m argv (top - 61440) top ss) (Htop : 65536 <= top < 4294967296) (Hret : word return_addr).
Context (Hfit : total ss + 4 * Z.of_nat (length ss) + 20 <= top).

Lemma base_bounds : strings_base top ss + total ss <= top < strings_base top ss + total ss + 4 /\ strings_base top ss mod 4 = 0 /\ 0 <= strings_base top ss.
Proof.
  pose proof (args_total_nonneg ss). unfold strings_base. rewrite Z.mod_mul by lia.
  pose proof (Z.div_mod (top - total ss) 4 ltac:(lia)). pose proof (Z.mod_pos_bound (top - total ss) 4 ltac:(lia)). lia.
Qed.

Lemma prepare_ok : 
  prepare_user_stack sfuel m kernel_esp top (Z.of_nat (length ss)) argv return_addr =
  if argv_base top ss - 12 <? top - 61440 then Err Panic
  else
    let! (args, _, m) := copy_args sfuel m (Z.of_nat (length ss)) argv (strings_base top ss) in
    let m := put_args m (argv_base top ss) (args ++ [0]) in
    let m := store32 m (argv_base top ss - 4) (argv_base top ss) in
    let m := store32 m (argv_base top ss - 8) (Z.of_nat (length ss)) in
    let m := store32 m (argv_base top ss - 12) return_addr in
    Ok (argv_base top ss - 12, store32 m (kernel_esp + 96) (argv_base top ss - 12)).
Proof.
  pose proof (args_total_nonneg ss). destruct base_bounds as (B1 & _ & B3). unfold prepare_user_stack, argv_base.
  rewrite (total_length_ok sfuel m argv (top - 61440) top ss Ha ltac:(lia) m (same_outside_refl _ _ _)). cbn [res_bind].
  rewrite (u32_small (top - total ss)) by lia. fold (strings_base top ss).
  rewrite (u32_small (Z.of_nat (length ss) + 1)) by lia. change PAGE_SIZE with 4096. change USER_STACK_SIZE with 65536.
  rewrite (u32_small (top - 65536 + 4096)) by lia. replace (top - 65536 + 4096) with (top - 61440) by lia.
  assert (top - total ss < strings_base top ss + 4) as B4 by (unfold strings_base; zdiv).
  rewrite (u32_small (strings_base top ss - (Z.of_nat (length ss) + 1) * 4 - 12)) by lia.
  rewrite (u32_small (strings_base top ss - (Z.of_nat (length ss) + 1) * 4)) by lia.
  replace (strings_base top ss - (Z.of_nat (length ss) + 1) * 4) with (strings_base top ss - 4 * (Z.of_nat (length ss) + 1)) by lia.
  set (av := strings_base top ss - 4 * (Z.of_nat (length ss) + 1)). rewrite !u32_small by lia. change (kernel_esp + sizeof_switch_stack + 56) with (kernel_esp + 40 + 56).
  replace (kernel_esp + 40 + 56) with (kernel_esp + 96) by lia. reflexivity.
Qed.

Lemma prepare_frame : top - 61440 <= argv_base top ss - 12 -> disjoint_from (kernel_esp + 96) 4 (top - 61440) 61440 ->
  exists m', prepare_user_stack sfuel m kernel_esp top (Z.of_nat (length ss)) argv return_addr = Ok (argv_base top ss - 12, m') /\
    words m' (argv_base top ss - 12) (main_frame top ss return_addr) /\ strings_at m' (strings_base top ss) ss /\
    load32 m' (kernel_esp + 96) = argv_base top ss - 12 /\
    forall x, ~ (argv_base top ss - 12 <= x < top) -> ~ (kernel_esp + 96 <= x < kernel_esp + 100) -> m' x = m x.
Proof.
  intros Hroom Hk. pose proof (args_total_nonneg ss). destruct base_bounds as (B1 & B2 & B3). rewrite prepare_ok.
  replace (argv_base top ss - 12 <? top - 61440) with false by (symmetry; zbool). set (av := argv_base top ss) in *. set (bs := strings_base top ss) in *.
  assert (av + 4 * (Z.of_nat (length ss) + 1) = bs) as Eav by (unfold av, argv_base; fold bs; lia).
  destruct (copy_args_ok sfuel m argv (top - 61440) top ss Ha m bs (same_outside_refl _ _ _)) as (m1 & -> & O1 & S1); [lia..|]. cbn [res_bind].
  destruct (put_args_ok (args_at bs ss ++ [0]) m1 av) as [W2 O2]; [lia|rewrite length_app, args_length; cbn; lia| |].
  { apply Forall_app. split; [apply args_word; lia|]. apply Forall_singleton. unfold word. lia. }
  set (m2 := put_args m1 av _) in *. rewrite length_app, args_length in O2. cbn [length] in O2.
  set (m3 := store32 m2 (av - 4) av). set (m4 := store32 m3 (av - 8) _). set (m5 := store32 m4 (av - 12) return_addr).
  assert (same_outside m2 m5 (av - 12) av) as O5.
  { intros x Hx. unfold m5, m4, m3. rewrite !store32_ne by lia. done. }
  unfold disjoint_from in Hk. assert (same_outside m5 (store32 m5 (kernel_esp + 96) (av - 12)) (kernel_esp + 96) (kernel_esp + 100)) as O6.
  { eapply same_outside_weaken; [apply same_outside_store32|lia|lia]. }
  eexists. split; [reflexivity|]. set (m6 := store32 m5 _ _) in *. split; [|split; [|split]].
  - apply (words_same m5).
    2:{ intros x Hx. apply O6. unfold main_frame in Hx. rewrite !length_app, args_length in Hx. cbn in Hx. lia. }
    unfold main_frame. cbn [app]. repeat (apply words_cons; split).
    + apply load32_store32. exact Hret.
    + unfold m5, m4. replace (av - 12 + 4) with (av - 8) by lia. rewrite load32_store32_ne by lia. apply load32_store32. lia.
    + unfold m5, m4, m3. replace (av - 12 + 4 + 4) with (av - 4) by lia. rewrite !load32_store32_ne by lia. apply load32_store32. lia.
    + replace (av - 12 + 4 + 4 + 4) with av by lia. apply (words_same m2); [exact W2|]. intros x Hx. apply O5. lia.
  - eapply strings_same; [|exact O6|fold bs; lia]. eapply strings_same; [|exact O5|left; lia]. eapply strings_same; [exact S1|exact O2|left; lia].
  - apply load32_store32. lia.
  - intros x Hx Hx'. rewrite O6, O5, O2, O1; [done|lia..].
Qed.
End PREPARE.
