(* ===== verification/ThreadProps.v ===== *)
(** The properties of threads, with an instance. *)
From S2P Require Import Prelude BitMap LinkedList Sched Memory Page PageMem PageSpec PageOps PageMap PageCow PageUser PageDemo KernelMem Strings StringsSpec Switch SwitchSpec Containers Process Thread ThreadSpec UserStack.

Section PROPS.
Context {H : Type} {HC : Containers H} {HL : ContainersLaws H}.
Context (link : entries).

(** C12: [init_thread] gives a new thread the smallest free id and the first free slot for its kernel
    stack, maps and fills the stack, and touches nothing of the other threads, of their
    stacks and of the processes' memory.  The first switch to the thread starts
    [kernel_thread] with the function as its argument or, for a user thread, arrives in user mode
    at the function with clean registers and the interrupts on.  It returns [NULL] exactly when no
    id is left, and panics only without memory, slots or frames. *)
Theorem init_thread_correct (s : tstate H) A T own ids S L Ms Ls nm function priority_ (u : bool) n
  (Hinv : threads_inv s A T own ids S L Ms Ls) (Hk : word (at_kernel_thread link)) (Hu : word (at_switch_to_user_mode link))
  (Hf : word function) (Hnm : match nm with Some l => (length l < 32)%nat | None => True end)
  (Hroom : ct_room (p_tabs (t_base s)) (Datatypes.S n)) :
  outcome (init_thread link s 0 nm function priority_ u)
    (ct_malloc (p_tabs (t_base s)) sizeof_tcb = Err Panic \/ free_id 21845 S = None \/ few 1 A ∅)
    (fun '(t, s') => match free_id 2048 ids with
      | None => t = 0 /\ exists L', threads_inv s' A T own ids S L' Ms Ls
      | Some id => exists i A', free_id 21845 S = Some i /\ own !! t = None /\
          threads_inv s' A' T (<[t := (i, id)]> own) ({[id]} ∪ ids) ({[i]} ∪ S) (<[t := sizeof_tcb]> L) Ms Ls /\
          kstep (t_vm s) A T (t_vm s') A' (pair_at (slot_page i)) /\ (forall t', t' <> t -> same_thread s s' t') /\
          get_block s' t = Ok (first_block t i id (match nm with Some l => l | None => numbered_name id end) priority_
            (mk_block zero_tcb zero_more zero_rest)) /\
          let m := kflat A' (pm (t_vm s')) in let esp := stack_top i - 104 in
          if u then starts_user m esp (stack_top i) (at_switch_to_user_mode link) function 0
          else starts m esp (stack_top i) (at_kernel_thread link) function
      end).
Proof.
  unfold init_thread. cbn [Z.eqb]. destruct (alloc_tcb_ok s A T own ids S L Ms Ls n Hinv Hroom) as [[-> F]|(t & h & -> & Ht0 & HtL & Hh & Hr)];
    [left; by split; [|left]|]. cbn [res_bind].
  set (z := mk_block zero_tcb zero_more zero_rest). set (s1 := put_node (put_block _ t z) _ _). pose proof Hinv as [a1 a2 [a3 a3'] a4 a5 a6 a7 a8 a9 a10 a11 a12].
  destruct (allocate_id_ok s1 ids a3 a3') as (p' & -> & Htot & Hp). cbn [res_bind].
  assert (forall t', t' <> t -> same_thread s s1 t') as Hs1.
  { intros t' Hne. eapply same_thread_trans; [|by apply same_put_node]. eapply same_thread_trans; [|by apply same_put_block]. done. }
  assert (own !! t = None) as Hn by (destruct (own !! t) as [[j k]|] eqn:E; [destruct (a6 t j k E) as (_ & Hl & _); congruence|done]).
  destruct (free_id 2048 ids) as [id|] eqn:Eid.
  - rewrite (set_name_ok nm id Hnm). cbn [res_bind]. replace (get_block (with_ids s1 p') t) with (Ok z : res thread_block).
    2:{ change (get_block (with_ids s1 p') t) with (get_block (put_block (with_base s (with_tabs (t_base s) h)) t z) t).
        by rewrite get_block_put, decide_True. }
    cbn [res_bind]. pose proof (free_id_new _ _ _ Eid) as [Hid0 Hidn]. assert (0 <= id < 2147483648) as Hid.
    { destruct Hp as (_ & _ & Hl). specialize (Hl id). cbn in Hl. rewrite Htot in Hl. destruct Hl as [Hl _]. destruct Hl as [? _]; [set_solver|lia]. }
    set (s2 := put_node (with_ids s1 p') _ _).
    pose proof (init_tail_ok link s2 A T S t id (match nm with Some l => l | None => numbered_name id end) function priority_ u
      a1 a2 a4 a11 Hk Hu Hf Hid z) as Htail. cbv zeta in Htail |- *.
    destruct Htail as [[-> F]|(x & -> & i & v & bm & A' & Ei & Hi & HiS & -> & Hb & K & P0 & P1 & Hw)]; [left; by split; [|right]|right].
    eexists. split; [done|]. exists i, A'. split; [done|]. split; [done|]. set (s3 := put_block _ t _).
    assert (forall t', t' <> t -> same_thread s s3 t') as Hsame.
    { intros t' Hne. eapply same_thread_trans; [by apply Hs1|]. eapply same_thread_trans; [|by apply same_put_block].
      eapply same_thread_trans; [|by apply (same_put_node (with_ids s1 p') t (mk_node t 0 0))]. done. }
    assert (get_block s3 t = Ok (first_block t i id (match nm with Some l => l | None => numbered_name id end) priority_ z)) as Hg
      by (unfold s3; by rewrite get_block_put, decide_True).
    split; [|split; [done|split; [done|split; [done|]]]].
    + eapply (threads_add s A T own ids S L Ms Ls t i id s3 A' v bm p'); try done; [lia|]. eexists _, (mk_node t 0 0). split; [exact Hg|].
      do 4 (split; [done|]). split; [|done]. apply lookup_insert_eq.
    + destruct (first_esp_is i Hi) as (_ & Hpos & Hlt & _). change (pm (t_vm s3)) with (pm v). destruct u.
      * eapply user_frame_starts; [exact Hw|done|lia|done|done|done].
      * eapply kernel_frame_starts; [exact Hw|done|cbn; lia|done].
  - right. eexists. split; [done|]. split; [done|]. exists (<[t := sizeof_tcb]> L). split; try done.
    intros t' j k E. destruct (a6 _ _ _ E) as (? & ? & Hok). split; [done|]. split; [rewrite lookup_insert_ne; [done|congruence]|]. eapply thread_ok_same; [|done].
    apply (Hs1 t'). intros ->. congruence.
Qed.

(** C14: [destroy_thread] always succeeds: it gives back the id, the slot, both pages of the stack with
    their frames and the control block; the other threads, their stacks and the processes' memory stay
    as they are.  So what [init_thread] took is free again. *)
Theorem destroy_thread_correct (s : tstate H) A T own ids S L Ms Ls t i id n
  (Hinv : threads_inv s A T own ids S L Ms Ls) (Ho : own !! t = Some (i, id)) (Hroom : ct_room (p_tabs (t_base s)) n) :
  exists s', destroy_thread s t = Ok s' /\
    threads_inv s' (without_pair A (slot_page i)) T (delete t own) (ids ∖ {[id]}) (S ∖ {[i]}) (delete t L) Ms Ls /\
    kstep (t_vm s) A T (t_vm s') (without_pair A (slot_page i)) (pair_at (slot_page i)) /\
    (forall u f, pair_at (slot_page i) u -> kpages A !! u = Some f -> refs (without_pair A (slot_page i)) f = 0) /\
    (forall t', t' <> t -> same_thread s s' t') /\ get_block s' t = Err Fault.
Proof.
  destruct (destroy_thread_ok s A T own ids S L Ms Ls t i id n Hinv Ho Hroom) as (s' & E & Hinv' & K & Hs & Hg & _).
  exists s'. split; [done|]. split; [done|]. split; [done|]. split; [|done]. intros u f Hu Hf.
  assert (i ∈ S) as HiS by (apply (th_slot _ _ _ _ _ _ _ _ _ Hinv); eauto).
  by eapply pair_frames_free; [apply (v_acct _ _ _ _ _ (th_rel _ _ _ _ _ _ _ _ _ Hinv))|intros w; by apply (th_used _ _ _ _ _ _ _ _ _ Hinv)|..].
Qed.

(** C13: [fork_crt_thread] makes a thread with an id and a kernel stack of its own, whose block is that of the
    running thread but for its name, its ticks and its queue, and whose stack is a copy: when the
    running thread is in a system call of some program, the first switch to the new thread returns to
    that program with the same registers, segments and flags, but 0 as the result.  Nothing else changes. *)
Theorem fork_crt_thread_correct (s : tstate H) A T own ids S L Ms Ls ct j jd b n
  (Hinv : threads_inv s A T own ids S L Ms Ls) (Hct : get_crt_thread (p_sched (t_base s)) = Ok ct) (Ho : own !! ct = Some (j, jd))
  (Hb : get_block s ct = Ok b) (He : word (at_syscall_fork_exit link)) (Hroom : ct_room (p_tabs (t_base s)) (Datatypes.S n)) :
  outcome (fork_crt_thread link s)
    (ct_malloc (p_tabs (t_base s)) sizeof_tcb = Err Panic \/ free_id 2048 ids = None \/ free_id 21845 S = None \/ few 1 A ∅)
    (fun '(t, s') => exists i id A', free_id 2048 ids = Some id /\ free_id 21845 S = Some i /\ own !! t = None /\
      threads_inv s' A' T (<[t := (i, id)]> own) ({[id]} ∪ ids) ({[i]} ∪ S) (<[t := sizeof_tcb]> L) Ms Ls /\
      kstep (t_vm s) A T (t_vm s') A' (pair_at (slot_page i)) /\ (forall t', t' <> t -> same_thread s s' t') /\
      get_block s' t = Ok (child_block t i id b) /\
      returns_zero (kflat A (pm (t_vm s))) (kflat A' (pm (t_vm s'))) (stack_top j) (stack_top i - 104) (stack_top i) (at_syscall_fork_exit link)).
Proof.
  destruct (fork_thread_ok link s A T own ids S L Ms Ls ct j jd b n Hinv Hct Ho Hb He Hroom) as [E|([t s'] & E & i & id & A' & E1 & E2 & E3 & E4 & E5 & E6 & E7 & E8 & _)];
    [by left|right]. exists (t, s'). split; [exact E|]. by exists i, id, A'.
Qed.
End PROPS.

(** The user's stack pointer in the frame of a thread. *)
Lemma user_frame_esp m m' a entry function w uesp : words m a (user_frame entry function w) -> load32 m' (a + 96) = uesp ->
  (forall x, a <= x < a + 104 -> ~ (a + 96 <= x < a + 100) -> m' x = m x) -> words m' a (user_frame entry function uesp).
Proof.
  intros Hw He Hs i v Hi. destruct (decide (i = 24%nat)) as [->|Hne]; [injection Hi as <-; exact He|].
  assert (user_frame entry function w !! i = Some v) as Hi'.
  { revert Hi Hne. clear. intros Hi Hne. do 26 (destruct i as [|i]; [first [exact Hi|done]|]). by destruct i. }
  rewrite <- (Hw i v Hi'). pose proof (lookup_lt_Some _ _ _ Hi) as Hl. change (i < 26)%nat in Hl. apply load32_moved. intros k Hk. apply Hs; lia.
Qed.

(** C15: [prepare_user_stack] panics when the arguments would reach the guard page.  Otherwise the stack
    holds, from the pointer it returns on, the frame of a call [main(argc, argv)]: the return
    address, the count, the address of the array, the array with its final [NULL], and above it the
    strings, each at the address its entry gives; and the first switch to a fresh user thread starts it at
    its function with that stack pointer.  No other byte changes. *)
Theorem prepare_user_stack_correct sfuel (m : mem) kernel_esp top argv return_addr (ss : list (list Z))
  (Ha : args_ok sfuel m argv (top - 61440) top ss) (Htop : 65536 <= top < 4294967296) (Hret : word return_addr)
  (Hfit : total ss + 4 * Z.of_nat (length ss) + 20 <= top)
  (Hk : 0 < kernel_esp /\ kernel_esp + 104 < 4294967296 /\ disjoint_from kernel_esp 104 (top - 61440) 61440) :
  let esp := argv_base top ss - 12 in
  let r := prepare_user_stack sfuel m kernel_esp top (Z.of_nat (length ss)) argv return_addr in
  if decide (esp < top - 61440) then r = Err Panic
  else exists m', r = Ok (esp, m') /\ words m' esp (main_frame top ss return_addr) /\ strings_at m' (strings_base top ss) ss /\
    (forall x, ~ (esp <= x < top) -> ~ (kernel_esp + 96 <= x < kernel_esp + 100) -> m' x = m x) /\
    forall entry function w, words m kernel_esp (user_frame entry function w) -> word function ->
      starts_user m' kernel_esp (kernel_esp + 104) entry function esp.
Proof.
  intros esp r. destruct Hk as (Hk0 & Hk1 & Hkd). unfold disjoint_from in Hkd. case_decide as Hd.
  - unfold r. rewrite (prepare_ok sfuel m kernel_esp top argv return_addr ss Ha Htop Hfit).
    by replace (argv_base top ss - 12 <? top - 61440) with true by (symmetry; zbool).
  - destruct (prepare_frame sfuel m kernel_esp top argv return_addr ss Ha Htop Hret Hfit) as (m' & E & Hw & Hs & He & Ho);
      [fold esp; lia|unfold disjoint_from; lia|].
    exists m'. split; [exact E|]. split; [done|]. split; [done|]. split; [done|]. intros entry function w Hf Hfn.
    destruct (base_bounds top ss Hfit) as (B1 & _ & B3). pose proof (args_total_nonneg ss).
    apply user_frame_starts; [|done|lia|done|done|unfold word, esp, argv_base in *; lia].
    eapply user_frame_esp; [exact Hf|exact He|]. intros x Hx Hx'. apply Ho; [unfold esp, argv_base in *; lia|done].
Qed.

(** ** A machine with one thread, over the finite maps of [Maps] *)
Import (hints) Maps.

Definition one_bit (words total : Z) : bitmap_t := mk_bitmap (1 :: replicate (Z.to_nat (words - 1)) 0) true words total.
Definition one_block : thread_block :=
  mk_block (mk_tcb TASK_RUNNING 10 3 false 20000 0 (stack_of 0) 0 (schedule_node 2000)) (mk_more 0 0)
    (mk_rest (stack_top 0 - 104) (slot_addr 0) [105; 110; 105; 116] 3217031168).
Definition one_thread : tstate Maps.store :=
  put_block
    (mk_tstate
       (mk_pstate (mk_sched {[schedule_node 2000 := mk_node 2000 0 0]} ∅ ∅ (schedule_node 2000) 0 false true false 20000 0 LOCKED_NO)
          (Maps.mk_store {[2000 := sizeof_tcb]} ∅ ∅) ∅ ∅ ∅ (fun _ => 0) demo 20000)
       ∅ (mk_pool 2048 32768 2048 (one_bit 64 2048) LOCKED_NO) (one_bit 683 21845) LOCKED_NO) 2000 one_block.
Definition demo_entries : entries := mk_entries 3221229568 3221229600 3221229632.

Lemma one_bit_wf w n : 0 < n <= 4294967264 -> w = (n + 31) / 32 -> wf (one_bit w n) /\ forall i, 0 <= i -> bit (one_bit w n) i = bool_decide (i = 0).
Proof.
  intros Hn ->. assert (1 <= (n + 31) / 32) by zdiv. split.
  - split; cbn; [done|done|rewrite length_replicate; lia|]. apply Forall_cons. split; [lia|]. apply Forall_replicate. lia.
  - intros i Hi. unfold bit, one_bit. cbn [bitarray]. destruct (decide (i < 32)) as [Hlt|Hge].
    + rewrite Z.div_small, Z.mod_small by lia. cbn. destruct (decide (i = 0)) as [->|Hne]; [done|].
      rewrite bool_decide_false by done. destruct i as [|p|p]; [done| |lia]. by apply (Z.bits_above_log2 1); cbn; lia.
    + rewrite bool_decide_false by lia. destruct (Z.to_nat (i / 32)) as [|k] eqn:Ek; [zdiv|]. cbn.
      destruct (replicate _ _ !! k) as [w|] eqn:E; [|done]. apply lookup_replicate in E as [-> _]. apply Z.testbit_0_l.
Qed.

Lemma one_pool w n : 0 < n <= 4294967264 -> w = (n + 31) / 32 -> pool_inv (slot_pool (one_bit w n) LOCKED_NO, {[0]}).
Proof.
  intros Hn Hw. destruct (one_bit_wf w n Hn Hw) as [H1 H2]. split; [exact H1|]. split; [done|]. intros i. cbn.
  rewrite elem_of_singleton. split; [intros ->; split; [lia|]; by rewrite H2|]. intros [Hi Hb]. rewrite H2 in Hb by lia. by apply bool_decide_eq_true in Hb.
Qed.

Lemma one_thread_ok : threads_inv one_thread demo_space ∅ {[2000 := (0, 0)]} {[0]} {[0]} {[2000 := sizeof_tcb]} ∅ ∅.
Proof.
  assert (forall t i id, ({[2000 := (0, 0)]} : gmap Z (Z * Z)) !! t = Some (i, id) <-> t = 2000 /\ i = 0 /\ id = 0) as Hown.
  { intros t i id. rewrite lookup_singleton_Some. naive_solver. }
  split.
  - exact vm_demo_rel.
  - exact vm_demo_ready.
  - split; [|done]. destruct (one_pool 64 2048 ltac:(lia) eq_refl) as (H1 & _ & H3). by split.
  - split; [|done]. apply one_pool; [lia|done].
  - done.
  - intros t i id (-> & -> & ->)%Hown. split; [done|]. split; [by rewrite lookup_singleton|]. exists one_block, (mk_node 2000 0 0).
    unfold one_thread. rewrite get_block_put, decide_True by done. done.
  - intros i. rewrite elem_of_singleton. split; [intros ->; exists 2000, 0; by apply Hown|intros (t & id & (_ & -> & _)%Hown); done].
  - intros i. rewrite elem_of_singleton. split; [intros ->; exists 2000, 0; by apply Hown|intros (t & id & (_ & _ & ->)%Hown); done].
  - intros t t' i i' id id' (-> & _)%Hown (-> & _)%Hown _. done.
  - intros i u ->%elem_of_singleton [-> | ->]; [exists 200|exists 201]; by repeat split.
  - intros i u Hi Hne Hu. rewrite elem_of_singleton in Hne. destruct (kpages demo_space !! u) as [f|] eqn:E; [|done].
    apply demo_kpage in E. unfold slot, pair_at, slot_page in *. lia.
  - intros i Hi. destruct (kpages demo_space !! _) as [f|] eqn:E; [|done]. apply demo_kpage in E. unfold slot, slot_page in *. lia.
Qed.

(** There are frames enough. *)
Lemma demo_not_few : ~ few 1 demo_space ∅.
Proof.
  intros (l & Hl & Hfree). assert (free demo_space ∅ 5000 /\ free demo_space ∅ 5001) as [F1 F2] by (split; (split; [lia|by vm_compute])).
  apply Hfree in F1, F2. destruct l as [|x [|y l]]; [by apply not_elem_of_nil in F1| |cbn in Hl; lia].
  apply list_elem_of_singleton in F1, F2. congruence.
Qed.

(** The second thread, for the user's program at 4198400. *)
Lemma init_thread_correct_witness : exists t s' A', init_thread demo_entries one_thread 0 None 4198400 10 true = Ok (t, s') /\
  threads_inv s' A' ∅ (<[t := (1, 1)]> {[2000 := (0, 0)]}) ({[1]} ∪ {[0]}) ({[1]} ∪ {[0]}) (<[t := sizeof_tcb]> {[2000 := sizeof_tcb]}) ∅ ∅ /\
  starts_user (kflat A' (pm (t_vm s'))) (stack_top 1 - 104) (stack_top 1) 3221229600 4198400 0.
Proof.
  destruct (init_thread_correct demo_entries one_thread demo_space ∅ {[2000 := (0, 0)]} {[0]} {[0]} {[2000 := sizeof_tcb]} ∅ ∅ None 4198400 10 true 0 one_thread_ok)
    as [[_ [Hm|[Hs|Hf]]]|([t s'] & E & Hr)]; [unfold word; cbn; lia|unfold word; cbn; lia|unfold word; lia|done|done|discriminate Hm|by vm_compute in Hs|by destruct (demo_not_few Hf)|].
  assert (free_id 2048 {[0]} = Some 1) as Ei by (by vm_compute). rewrite Ei in Hr. destruct Hr as (i & A' & Es & _ & Hinv & _ & _ & _ & Hst).
  assert (i = 1) as -> by (by vm_compute in Es; congruence). exists t, s', A'. split; [exact E|]. split; [exact Hinv|exact Hst].
Defined.

Lemma destroy_thread_correct_witness : exists s', destroy_thread one_thread 2000 = Ok s' /\ get_block s' 2000 = Err Fault /\
  refs (without_pair demo_space (slot_page 0)) 200 = 0.
Proof.
  destruct (destroy_thread_correct one_thread demo_space ∅ {[2000 := (0, 0)]} {[0]} {[0]} {[2000 := sizeof_tcb]} ∅ ∅ 2000 0 0 0 one_thread_ok eq_refl I)
    as (s' & E & _ & _ & Hf & _ & Hg).
  exists s'. split; [exact E|]. split; [exact Hg|]. apply (Hf (slot_page 0)); [by left|reflexivity].
Defined.

Lemma fork_crt_thread_correct_witness : exists t s' A', fork_crt_thread demo_entries one_thread = Ok (t, s') /\
  get_block s' t = Ok (child_block t 1 1 one_block) /\
  returns_zero (kflat demo_space (pm demo)) (kflat A' (pm (t_vm s'))) (stack_top 0) (stack_top 1 - 104) (stack_top 1) 3221229632.
Proof.
  destruct (fork_crt_thread_correct demo_entries one_thread demo_space ∅ {[2000 := (0, 0)]} {[0]} {[0]} {[2000 := sizeof_tcb]} ∅ ∅ 2000 0 0 one_block 0 one_thread_ok)
    as [[_ [Hm|[Hi|[Hs|Hf]]]]|([t s'] & E & Hr)]; [reflexivity|reflexivity|reflexivity|unfold word; cbn; lia|done|discriminate Hm|by vm_compute in Hi|by vm_compute in Hs|by destruct (demo_not_few Hf)|].
  destruct Hr as (i & id & A' & Ei & Es & _ & _ & _ & _ & Hg & Hz).
  assert (id = 1) as -> by (by vm_compute in Ei; congruence). assert (i = 1) as -> by (by vm_compute in Es; congruence).
  exists t, s', A'. split; [exact E|]. split; [exact Hg|exact Hz].
Defined.

(** [argv = {"ls", "-l"}] at 1000. *)
Definition ls_args : list (list Z) := [[108; 115]; [45; 108]].
Definition ls_memory : mem := put_words (fun x => nth (Z.to_nat (x - 2000)) [108; 115; 0; 45; 108; 0] 0) 1000 [2000; 2003].

Lemma ls_args_ok : args_ok 10 ls_memory 1000 (USER_STACK_TOP - 61440) USER_STACK_TOP ls_args.
Proof.
  split; [left; cbn; unfold USER_STACK_TOP; lia|]. intros i s Hi p.
  destruct i as [|[|i]]; [injection Hi as <-..|done]; (assert (p = 2000 \/ p = 2003) as Hp by (subst p; vm_compute; auto));
    (split; [lia|]); (split; [|split; [repeat (apply Forall_cons; split; [unfold char_ok; lia|]); by apply Forall_nil|split; [cbn; lia|left; cbn; unfold USER_STACK_TOP; lia]]]);
    intros k c Hk; subst p; do 3 (destruct k as [|k]; [injection Hk as <-; by vm_compute|]); done.
Qed.

Lemma prepare_user_stack_correct_witness : exists m', prepare_user_stack 10 ls_memory (stack_top 1 - 104) USER_STACK_TOP 2 1000 4096 = Ok (3217031136, m') /\
  words m' 3217031136 [4096; 2; 3217031148; 3217031160; 3217031163; 0].
Proof.
  pose proof (prepare_user_stack_correct 10 ls_memory (stack_top 1 - 104) USER_STACK_TOP 1000 4096 ls_args ls_args_ok) as Hw. cbv zeta in Hw.
  rewrite decide_False in Hw by (by vm_compute).
  destruct Hw as (m' & E & Hf & _); [unfold USER_STACK_TOP; lia|unfold word; lia|by vm_compute|split; [by vm_compute|split; [by vm_compute|right; by vm_compute]]|].
  exists m'. split; [exact E|exact Hf].
Defined.
