(* ===== verification/Spawn.v ===== *)
(** The creation of processes and threads, in [src/src/task/process.c]: control blocks, the
    table of all processes, [fork], and the release of a process by the clean-up thread of
    [src/src/task/scheduler.c]. *)
From S2P Require Import Prelude BitMap LinkedList Sched Memory Page Strings StringsSpec Containers Process Thread.

(** ** Constants of [process.h] and [thread.h] *)
Definition PROCESS_NUM : Z := 1024.
Definition MAX_PROCESS_NUM : Z := 16384.
Definition USER_PRCOESS_THREDS_MAX : Z := 4096.
Definition THREAD_DEFAULT_PRIORITY : Z := 10.
Definition sizeof_pcb : Z := 128.
(** [&processes_map] *)
Definition processes_map : Z := 16.

(** The fields of the control block after [memset]. *)
Definition zero_pcb : pcb_t := mk_pcb 0 0 PROCESS_NORMAL (mk_bitmap [] false 0 0) false 0 0 0 0 0 LOCKED_NO.
(** [sprintf(buf, "process-%u", pid)] *)
Definition numbered_process (pid : Z) : list Z := [112; 114; 111; 99; 101; 115; 115; 45] ++ uint_string (u32 pid).

Section SPAWN.
Context {H : Type} `{Containers H}.
Context (link : entries).
(** The words of the blocks that [kmalloc] gives to bitmaps. *)
Context (fresh : Z -> option (list Z)).

(** The state: that of [Thread], the static variables of [process.c] and [scheduler.c], and
    the names of the processes. *)
Record kstate : Type := mk_kstate {
  k_base : tstate H;
  process_id_pool : id_pool_t;
  processes_map_lock : Z;
  k_names : gmap Z (list Z)
}.
Definition with_kbase (s : kstate) (b : tstate H) : kstate := mk_kstate b (process_id_pool s) (processes_map_lock s) (k_names s).
Definition with_pids (s : kstate) (p : id_pool_t) : kstate := mk_kstate (k_base s) p (processes_map_lock s) (k_names s).
Definition with_map_lock (s : kstate) (l : Z) : kstate := mk_kstate (k_base s) (process_id_pool s) l (k_names s).
Definition with_knames (s : kstate) (n : gmap Z (list Z)) : kstate := mk_kstate (k_base s) (process_id_pool s) (processes_map_lock s) n.
Definition k_proc (s : kstate) : pstate H := t_base (k_base s).
Definition with_proc (s : kstate) (p : pstate H) : kstate := with_kbase s (with_base (k_base s) p).
Definition on_proc (s : kstate) (f : pstate H -> res (pstate H)) : res kstate := let! p := f (k_proc s) in Ok (with_proc s p).

(** [init_process_manager] *)
Definition init_process_manager (s : kstate) : res kstate :=
  let! p := id_pool_init fresh (process_id_pool s) PROCESS_NUM MAX_PROCESS_NUM in Ok (with_pids s p).

(** [hash_table_init] of a table in the block. *)
Definition table_init (p : pstate H) (t : Z) : res (pstate H) := let! h := tb_init (p_tabs p) t in Ok (with_tabs p h).

(** [create_process]; [0] for [NULL].  The fields are stored at the end. *)
Definition create_process (s : kstate) (name : option (list Z)) (is_kernel_process : bool) : res (Z * kstate) :=
  let! (process, h) := ct_malloc (p_tabs (k_proc s)) sizeof_pcb in
  let s := with_proc s (set_pcb (with_tabs (k_proc s) h) process zero_pcb) in
  let! (r, pool) := id_pool_allocate_id (process_id_pool s) in
  let s := with_pids s pool in
  match r with
  | None => Ok (0, s)
  | Some pid =>
      let! nm := set_name (match name with Some l => l | None => numbered_process pid end) in
      let s := with_knames s (<[process := nm]> (k_names s)) in
      let! s := on_proc s (fun p => table_init p (threads_at process)) in
      let! indexes := bitmap_create fresh (mk_bitmap [] false 0 0) None USER_PRCOESS_THREDS_MAX in
      let! s := on_proc s (fun p => table_init p (children_at process)) in
      let! s := on_proc s (fun p => table_init p (exit_children_at process)) in
      let! (page_dir, v) := clone_crt_page_dir (p_vm (k_proc s)) in
      let s := with_proc s (with_vm (k_proc s) v) in
      Ok (process, with_proc s (set_pcb (k_proc s) process
        (mk_pcb (s32 pid) 0 PROCESS_NORMAL indexes is_kernel_process 0 0 0 0 page_dir yieldlock_init)))
  end.

(** [add_new_process] of [scheduler.c] *)
Definition add_new_process (s : kstate) (process : Z) : res kstate :=
  let! l := yieldlock_lock (processes_map_lock s) in
  let s := with_map_lock s l in
  let! c := get_pcb (k_proc s) process in
  let! s := on_proc s (fun p => put p processes_map (pid c) process) in
  Ok (with_map_lock s (yieldlock_unlock (processes_map_lock s))).

(** [create_and_add_process] *)
Definition create_and_add_process (s : kstate) (name : option (list Z)) (is_kernel_process : bool) : res (Z * kstate) :=
  let! (process, s) := create_process s name is_kernel_process in
  let! s := add_new_process s process in
  Ok (process, s).

(** [add_process_thread] *)
Definition add_process_thread (p : pstate H) (process new_thread : Z) : res (pstate H) :=
  let! c := get_tcb (p_sched p) new_thread in
  let p := with_sched p (set_tcb (p_sched p) new_thread (with_process c process)) in
  let! p := lock_process p process in
  let! m := get_more p new_thread in
  let! p := put p (threads_at process) (thread_id m) new_thread in
  unlock_process p process.

(** [remove_process_thread] *)
Definition remove_process_thread (p : pstate H) (process new_thread : Z) : res (pstate H) :=
  let! p := lock_process p process in
  let! m := get_more p new_thread in
  let! (remove_thread, p) := remove p (threads_at process) (thread_id m) in
  assert! remove_thread =? new_thread in
  let! c := get_tcb (p_sched p) new_thread in
  let p := with_sched p (set_tcb (p_sched p) new_thread (with_process c 0)) in
  let! p :=
    if user_stack_index m >=? 0 then
      let! c := get_pcb p process in
      let! b := bitmap_clear_bit (user_thread_stack_indexes c) (user_stack_index m) in
      Ok (set_pcb p process (with_indexes c b))
    else Ok p in
  unlock_process p process.

(** [add_child_process] *)
Definition add_child_process (p : pstate H) (parent child : Z) : res (pstate H) :=
  let! p := lock_process p parent in
  let! c := get_pcb p child in
  let! p := put p (children_at parent) (pid c) child in
  unlock_process p parent.

(** [create_new_kernel_thread] *)
Definition create_new_kernel_thread (s : kstate) (process : Z) (name : option (list Z)) (function : Z) : res (Z * kstate) :=
  let! (new_thread, b) := init_thread link (k_base s) 0 name function THREAD_DEFAULT_PRIORITY false in
  let s := with_kbase s b in
  let! s := on_proc s (fun p => add_process_thread p process new_thread) in
  Ok (new_thread, s).

(** [process_fork]: the id of the child. *)
Definition process_fork (s : kstate) : res (Z * kstate) :=
  let! (new_process, s) := create_process s None false in
  let! parent_process := get_crt_process (k_proc s) in
  let! s := on_proc s (fun p => add_child_process p parent_process new_process) in
  let! s := on_proc s (fun p => upd_pcb p new_process (fun c => with_parent c parent_process)) in
  let! (new_thread, b) := fork_crt_thread link (k_base s) in
  let s := with_kbase s b in
  assert! negb (new_thread =? 0) in
  let! s := on_proc s (fun p => add_process_thread p new_process new_thread) in
  let! s := add_new_process s new_process in
  let! m := get_more (k_proc s) new_thread in
  let! s := on_proc s (fun p =>
    let! c := get_pcb p new_process in
    let! b := bitmap_set_bit (user_thread_stack_indexes c) (u32 (user_stack_index m)) in
    Ok (set_pcb p new_process (with_indexes c b))) in
  let! s := on_proc s (fun p =>
    let! c := get_tcb (p_sched p) new_thread in on_sched p (fun x => add_thread_node_to_schedule x (crt_node_ptr c))) in
  let! c := get_pcb (k_proc s) new_process in
  Ok (pid c, s).

(** [destroy_process] *)
Definition destroy_process (s : kstate) (process : Z) : res kstate :=
  let! c := get_pcb (k_proc s) process in
  let! v := destroy_page_dir (p_vm (k_proc s)) (page_directory_entries c) in
  let s := with_proc s (with_vm (k_proc s) v) in
  let! pool := id_pool_free_id (process_id_pool s) (u32 (pid c)) in
  let s := with_pids s pool in
  let! h := ct_free (p_tabs (k_proc s)) process in
  let s := with_knames s (delete process (k_names s)) in
  Ok (with_proc s (with_procs (with_tabs (k_proc s) h) (delete process (p_procs (k_proc s))))).
End SPAWN.
Arguments kstate : clear implicits.
