(* ===== verification/SpawnSpec.v ===== *)
(** What the creation of a process does to the invariants: the scheduler with one more
    thread, the tree with one more process, and the tables of both. *)
From S2P Require Import Prelude BitMap LinkedList Memory Page PageMem PageSpec PageOps PageMap PageCow PageClone PageUser PageRefine KernelMem Sched SchedSpec SchedProps Switch SwitchSpec Containers Process ProcessSpec ProcessExit Thread ThreadSpec Spawn.

(** ** A new thread *)

(** [x'] is [x] with the thread [t], in no queue. *)
Definition with_thread (x : sched) (t : Z) (c : tcb_t) : sched :=
  set_tcb (with_queues x (<[crt_node_ptr c := mk_node t 0 0]> (s_nodes x)) (queues x)) t c.

Record newcomer (x : sched) (t : Z) (c : tcb_t) : Prop := {
  nc_zero : t <> 0;
  nc_none : tcbs x !! t = None;
  nc_node : crt_node_ptr c <> 0;
  nc_apart u y : tcbs x !! u = Some y -> crt_node_ptr y <> crt_node_ptr c;
  nc_bound : Z.of_nat (base.size (tcbs x)) < 4294966999
}.

Lemma newcomer_unqueued x V t c : qinv (s_nodes x) (tcbs x) (queues x) V -> newcomer x t c -> unqueued V (crt_node_ptr c).
Proof.
  intros Hq Hn q l Hl (mu & E & Hin)%list_elem_of_fmap. destruct mu as [m u]. destruct (qi_member _ _ _ _ Hq q l m u Hl Hin) as (y & Hy & Hm). apply (nc_apart _ _ _ Hn u y Hy). cbn in E. congruence.
Qed.

Lemma newcomer_qinv x V t c : qinv (s_nodes x) (tcbs x) (queues x) V -> newcomer x t c ->
  let x' := with_thread x t c in qinv (s_nodes x') (tcbs x') (queues x') V.
Proof.
  intros Hq Hn. pose proof (newcomer_unqueued _ _ _ _ Hq Hn) as Hu. destruct Hq as [Hd Hj Ht Hm Hb], Hn as [N0 N1 N2 N3 N4]. cbn. split.
  - intros q l Hl. destruct (Hd q l Hl) as (d & Ed & Hdl). exists d. split; [done|]. eapply dll_kept; [|exact Hdl].
    intros m Hin. rewrite lookup_insert_ne; [done|]. intros <-. by apply (Hu q l Hl).
  - done.
  - intros u y Hy. apply lookup_insert_Some in Hy as [[<- <-]|[Hne Hy]].
    + split; [done|]. split; [done|]. eexists. by rewrite lookup_insert_eq.
    + destruct (Ht u y Hy) as (H1 & H2 & nd & H3 & H4). split; [done|]. split; [done|]. exists nd. rewrite lookup_insert_ne; [done|]. intros E. by apply (N3 u y Hy).
  - intros q l m u Hl Hin. destruct (Hm q l m u Hl Hin) as (y & Hy & Hyn). exists y. split; [|done]. rewrite lookup_insert_ne; [done|]. intros ->. congruence.
  - rewrite map_size_insert_None by done. lia.
Qed.

Lemma newcomer_core idle x V ct y t c : sched_core idle x V ct y -> newcomer x t c -> sched_core idle (with_thread x t c) V ct y.
Proof.
  intros [[l [Hq [El Hr] Hct [Hm Hmu]]] Hi [Hc Hs] Hu Hw Hl] Hn. pose proof (nc_none _ _ _ Hn) as N1.
  assert (forall m u, node_of (tcbs x) m u -> node_of (tcbs (with_thread x t c)) m u) as Hno.
  { intros m u (z & Hz & E). exists z. split; [|done]. cbn. rewrite lookup_insert_ne; [done|]. intros ->. congruence. }
  split; [|done|split; [cbn; rewrite lookup_insert_ne; [done|congruence]|done]|done| |done].
  - exists l. split; [by apply newcomer_qinv|split; [done|]|by apply Hno|split; [by apply Hno|done]].
    intros m u Hin. destruct (Hr m u Hin) as (z & Hz & R). exists z. split; [|done]. cbn. rewrite lookup_insert_ne; [done|]. intros ->. congruence.
  - intros q k m u Hk Hwq Hin. destruct (Hw q k m u Hk Hwq Hin) as (z & Hz & R). exists z. split; [|done]. cbn. rewrite lookup_insert_ne; [done|]. intros ->. congruence.
Qed.

(** The thread is made ready. *)
Lemma newcomer_ready idle x V ct y t c : sched_core idle x V ct y -> newcomer x t c -> status c <> TASK_DEAD ->
  exists x', add_thread_node_to_schedule (with_thread x t c) (crt_node_ptr c) = Ok x' /\
    sched_core idle x' (made_ready V [(crt_node_ptr c, t)]) ct y /\ same_cpu x x' /\
    tcbs x' = <[t := with_queue (with_status c TASK_READY) ready_tasks]> (tcbs x).
Proof.
  intros Hco Hn Hst. pose proof Hco as [[l [Hq _ _ [(z & Hz & _) _]]] _ [Hc _] _ _ _]. pose proof (nc_none _ _ _ Hn) as N1.
  destruct (ready_core idle (with_thread x t c) V ct y (crt_node_ptr c) t c) as (x' & E & Hco' & Hcpu & Htb); try done.
  - by apply newcomer_core.
  - apply lookup_insert_eq.
  - eapply newcomer_unqueued; [exact Hq|exact Hn].
  - intros ->. congruence.
  - intros ->. congruence.
  - exists x'. split; [done|]. split; [done|]. split; [done|]. rewrite Htb. cbn. by rewrite insert_insert_eq.
Qed.

(** ** A new process in the tree *)
Section TREE.
Context (P : gmap Z pcb_t) (Ms Ms' : gmap Z (gmap Z Z)) (D : list Z) (i p par id : Z) (c : pcb_t) (M : gmap Z Z).
Hypothesis (Ht : tree_ok P Ms D i) (Hnew : P !! p = None) (Hp0 : p <> 0) (Hid : 0 <= id < 2147483648).
Hypothesis (Hfresh : forall q d, P !! q = Some d -> pid d <> id).
Hypothesis (Hpar : alive P par).
Hypothesis (Hc : pid c = id /\ parent c = par /\ pstatus c = PROCESS_NORMAL).
Let P' := <[p := c]> P.

Lemma add_old q d : P !! q = Some d -> P' !! q = Some d.
Proof. intros Hq. unfold P'. rewrite lookup_insert_ne; [done|]. intros ->. congruence. Qed.
Lemma add_alive q : alive P' q <-> q = p \/ alive P q.
Proof.
  split.
  - intros (d & Hd & Hs). apply lookup_insert_Some in Hd as [[<- <-]|[Hne Hd]]; [by left|right; by exists d].
  - intros [->|(d & Hd & Hs)]; [exists c; split; [apply lookup_insert_eq|apply Hc]|exists d; split; [by apply add_old|done]].
Qed.
Lemma add_exited q : exited P' q <-> exited P q.
Proof.
  split.
  - intros (d & Hd & Hs). apply lookup_insert_Some in Hd as [[<- <-]|[Hne Hd]]; [destruct Hc as (_ & _ & E); congruence|by exists d].
  - intros (d & Hd & Hs). exists d. split; [by apply add_old|done].
Qed.
Lemma add_not_dead : p ∉ D.
Proof. intros Hin. destruct (tr_dead _ _ _ _ Ht p Hin) as (d & Hd & _). congruence. Qed.
Lemma add_child r k q : is_child P' D r k q <-> is_child P D r k q \/ r = par /\ k = id /\ q = p.
Proof.
  destruct Hc as (C1 & C2 & C3). split.
  - intros (d & Hd & H1 & H2 & H3). apply lookup_insert_Some in Hd as [[<- <-]|[Hne Hd]]; [right; naive_solver|left; by exists d].
  - intros [(d & Hd & R)|(-> & -> & ->)]; [exists d; split; [by apply add_old|done]|].
    exists c. split; [apply lookup_insert_eq|]. split; [done|]. split; [done|apply add_not_dead].
Qed.
Lemma add_no_child k q : ~ is_child P D p k q.
Proof.
  intros (d & Hd & _ & H2 & H3). destruct (tr_parent _ _ _ _ Ht q d Hd H3) as [E|[(e & He & _) _]]; congruence.
Qed.

Lemma tree_ok_add : (forall q, is_Some (P !! q) -> apart q 128 p 128) ->
  Ms' !! children_at p = Some ∅ -> Ms' !! exit_children_at p = Some ∅ ->
  Ms !! children_at par = Some M -> Ms' !! children_at par = Some (<[id := p]> M) ->
  (forall q, alive P q -> q <> par -> Ms' !! children_at q = Ms !! children_at q) ->
  (forall q, alive P q -> Ms' !! exit_children_at q = Ms !! exit_children_at q) -> tree_ok P' Ms' D i.
Proof.
  intros Hap T1 T2 HM HM' Hc1 Hz1. destruct Hc as (C1 & C2 & C3). split.
  - destruct (tr_init _ _ _ _ Ht) as (d & Hd & R). exists d. split; [by apply add_old|done].
  - intros q d Hq. apply lookup_insert_Some in Hq as [[<- <-]|[Hne Hq]]; [|by apply (tr_pcb _ _ _ _ Ht)].
    split; [done|]. split; [lia|congruence].
  - intros q1 d1 q2 d2 H1 H2 E. apply lookup_insert_Some in H1 as [[<- <-]|[N1 H1]], H2 as [[<- <-]|[N2 H2]]; [done| | |by eapply (tr_pid _ _ _ _ Ht)].
    + destruct (Hfresh q2 d2 H2). congruence.
    + destruct (Hfresh q1 d1 H1). congruence.
  - intros q1 q2 [d1 H1] [d2 H2] Hne. apply lookup_insert_Some in H1 as [[<- <-]|[N1 H1]], H2 as [[<- <-]|[N2 H2]]; [done| | |].
    + destruct (Hap q2 ltac:(by exists d2)); lia.
    + destruct (Hap q1 ltac:(by exists d1)); lia.
    + apply (tr_apart _ _ _ _ Ht); [by exists d1|by exists d2|done].
  - intros q d Hq HD. apply lookup_insert_Some in Hq as [[<- <-]|[N1 Hq]].
    + right. rewrite C2. split; [apply add_alive; by right|]. intros ->. destruct Hpar as (e & He & _). congruence.
    + destruct (tr_parent _ _ _ _ Ht q d Hq HD) as [|[Ha Hn]]; [by left|right]. split; [apply add_alive; by right|done].
  - intros q [->|Ha]%add_alive.
    + exists ∅. split; [done|]. intros k r. rewrite lookup_empty, add_child. split; [done|].
      intros [Hch|(E & _)]; [by destruct (add_no_child k r)|]. destruct Hpar as (e & He & _). congruence.
    + destruct (tr_children _ _ _ _ Ht q Ha) as (Mq & HMq & Hv). destruct (decide (q = par)) as [->|Hne].
      * assert (Mq = M) as -> by congruence. exists (<[id := p]> M). split; [done|]. intros k r. rewrite add_child, lookup_insert_Some, Hv.
        split; [intros [[<- <-]|[_ ?]]; auto|]. intros [Hch|(_ & -> & ->)]; [right|by left]. split; [|done]. intros <-.
        destruct Hch as (d & Hd & E & _). by destruct (Hfresh r d Hd).
      * exists Mq. rewrite Hc1 by done. split; [done|]. intros k r. rewrite add_child, Hv. naive_solver.
  - intros q [->|Ha]%add_alive.
    + exists ∅. split; [done|]. intros k r. rewrite lookup_empty, add_child, add_exited. split; [done|].
      intros [[Hch|(E & _)] He]; [by destruct (add_no_child k r)|]. destruct Hpar as (e & He' & _). congruence.
    + destruct (tr_zombies _ _ _ _ Ht q Ha) as (Z & HZ & Hv). exists Z. rewrite Hz1 by done. split; [done|].
      intros k r. rewrite add_child, add_exited, Hv. split; [intros [? ?]; auto|]. intros [[?|(_ & _ & ->)] (d & Hd & Hs)]; [split; [done|by exists d]|congruence].
  - intros q Hq. apply add_exited. by apply (tr_dead _ _ _ _ Ht).
  - apply (tr_nodup _ _ _ _ Ht).
Qed.

(** Nobody waits for the new process. *)
Lemma waits_ok_add idle x x' V V' W Q F : waits_ok idle x V P W Q F -> exit_wait_queue c = 0 -> wait_any_exit_queue c = 0 ->
  waiting_threads_count c = 0 -> (forall t r, F !! t = Some r -> r <> p) ->
  (forall n t y, asleep idle x V n t y -> asleep idle x' V' n t y) ->
  (forall t y, tcbs x !! t = Some y -> exists y', tcbs x' !! t = Some y' /\ process y' = process y) ->
  waits_ok idle x' V' P' W Q F.
Proof.
  intros [w1 w2 w3 w4 w5 w6] E1 E2 E3 HF Hs Hk. assert (forall any, Q p any = []) as HQ.
  { intros any. destruct (Q p any) as [|[a [n t]] l] eqn:E; [done|]. destruct (w2 p any a n t ltac:(rewrite E; by left)) as (y & d & _ & Hd & _). congruence. }
  split.
  - intros q d any Hq. apply lookup_insert_Some in Hq as [[<- <-]|[N1 Hq]]; [|by apply w1]. rewrite HQ. by destruct any.
  - intros q any a n t Hin. destruct (w2 q any a n t Hin) as (y & d & H1 & H2 & R). exists y, d. split; [by apply Hs|]. split; [by apply add_old|done].
  - done.
  - done.
  - intros t r Hr. destruct (w5 t r Hr) as (y & Hy & E). destruct (Hk t y Hy) as (y' & Hy' & E'). exists y'. split; [done|congruence].
  - intros q d Hq. apply lookup_insert_Some in Hq as [[<- <-]|[N1 Hq]]; [|by apply w6]. rewrite E3. unfold calls.
    rewrite (map_empty_filter_2 _ F); [done|]. intros t r Hr E. by apply (HF t r).
Qed.

(** The thread [t] of the new process. *)
Lemma threads_ok_add x x' V V' TM t y m : threads_ok x V P Ms TM -> tcbs x !! t = None -> tcbs x' !! t = Some y -> process y = p ->
  (forall u, u <> t -> tcbs x' !! u = tcbs x !! u) -> V' !! dead_tasks = V !! dead_tasks -> ~ buried V t ->
  (forall u z, tcbs x !! u = Some z -> process z = p -> buried V u) ->
  Ms' !! threads_at p = Some {[thread_id m := t]} -> (forall q, alive P q -> Ms' !! threads_at q = Ms !! threads_at q) ->
  threads_ok x' V' P' Ms' (<[t := m]> TM).
Proof.
  intros [t1 t2] Hn Hy Hyp Hk HV Hnb Hold HT Hts. assert (forall u, buried V' u <-> buried V u) as Hb.
  { intros u. unfold buried. by rewrite HV. }
  split.
  - intros u z Hz. destruct (decide (u = t)) as [->|Hne].
    + right. apply add_alive. left. congruence.
    + rewrite Hk in Hz by done. destruct (t1 u z Hz) as [?|?]; [left; by apply Hb|right; apply add_alive; by right].
  - intros q [->|Ha]%add_alive.
    + exists {[thread_id m := t]}. split; [done|]. split.
      * intros k u [<- <-]%lookup_singleton_Some. exists y, m. by rewrite lookup_insert_eq.
      * intros u z Hz Hzp Hnu. destruct (decide (u = t)) as [->|Hne]; [exists m; split; [apply lookup_insert_eq|apply lookup_singleton_eq]|].
        rewrite Hk in Hz by done. destruct Hnu. by apply Hb, (Hold u z).
    + destruct (t2 q Ha) as (T & HT' & H1 & H2). exists T. rewrite Hts by done. split; [done|]. assert (q <> p) as Hqp.
      { intros ->. destruct Ha as (d & Hd & _). congruence. }
      split.
      * intros k u Hu. destruct (H1 k u Hu) as (z & mz & Hz & Hzp & R). assert (u <> t) as Hne by congruence.
        exists z, mz. rewrite Hk, lookup_insert_ne by done. done.
      * intros u z Hz Hzp Hnu. assert (u <> t) as Hne by congruence. rewrite Hk in Hz by done. rewrite lookup_insert_ne by done.
        apply (H2 u z Hz Hzp). by rewrite <- Hb.
Qed.
End TREE.

(** ** The clone of the address space *)

(** Two address spaces with the same kernel pages, none of them shared in either. *)
Lemma cloned_private A N l A' l' d e u : acct A N l -> acct A' N l' -> cloned A d e A' -> private A u -> private A' u.
Proof.
  intros Ac Ac' C (f & Hf & Hr & Hl). pose proof (cd_kpages _ _ _ _ C) as Ek. exists f. split; [by rewrite Ek|]. split; [|done].
  pose proof (uses_pos id (kpages A) u f Hf) as Hu. change (id f) with f in Hu.
  pose proof (a_kern _ _ _ Ac f). pose proof (uses_nonneg id (tbl A) f). pose proof (uses_nonneg fst (pages A) f). unfold refs in *. rewrite Ek.
  assert (f <> e) as Hfe.
  { intros ->. assert (e ∈ roots A') as He by (rewrite (cd_roots _ _ _ _ C); set_solver). destruct (a_root _ _ _ Ac' e He) as (_ & _ & E). rewrite Ek in E. lia. }
  rewrite (cd_kern _ _ _ _ C), decide_False by done.
  assert (uses id (tbl A') f = 0) as ->.
  { apply uses_zero. intros [x j] t Ht E. change (id t) with t in E. subst t. destruct (a_tbl _ _ _ Ac' x j f Ht) as (_ & _ & _ & _ & E & _). rewrite Ek in E. lia. }
  assert (uses fst (pages A') f = 0) as ->; [|lia].
  apply uses_zero. intros [x j] [g rw] Ht E. cbn in E. subst g. destruct (a_page _ _ _ Ac' x j f rw Ht) as (_ & _ & _ & E). rewrite Ek in E. lia.
Qed.

(** The clone takes a directory and at most 767 tables. *)
Lemma cloned_few A N l A' l' d e n : acct A N l -> acct A' N l' -> cloned A d e A' -> few n A' ∅ -> few (n + 768) A ∅.
Proof.
  intros Ac Ac' C (l0 & Hl & Hf). exists (l0 ++ e :: ((fun j => default 0 (tbl A' !! (e, j))) <$> seqZ 1 767)). split.
  { rewrite length_app. cbn [length]. rewrite length_fmap, length_seqZ. lia. }
  intros g [Hg Hz]. rewrite uses_empty in Hz. pose proof (a_kern _ _ _ Ac g). unfold refs in Hz.
  pose proof (uses_nonneg id (tbl A) g). pose proof (uses_nonneg fst (pages A) g). pose proof (uses_nonneg id (kpages A) g).
  destruct (decide (g = e)) as [->|Hne]; [apply elem_of_app; right; by left|].
  destruct (decide (g ∈ (fun j => default 0 (tbl A' !! (e, j))) <$> seqZ 1 767)) as [Hin|Hno]; [apply elem_of_app; right; by right|].
  apply elem_of_app. left. apply Hf. split; [done|]. rewrite uses_empty. unfold refs. rewrite (cd_kern _ _ _ _ C), decide_False, (cd_kpages _ _ _ _ C) by done.
  assert (uses id (tbl A') g = 0) as ->.
  { apply uses_zero. intros [x j] t Ht E. change (id t) with t in E. subst t. destruct (decide (x = e)) as [->|Hx].
    { destruct Hno. apply list_elem_of_fmap. exists j. rewrite Ht. split; [done|]. apply elem_of_seqZ. destruct (a_tbl _ _ _ Ac' e j g Ht) as (Hi & _). unfold user_pdi in Hi. lia. }
    rewrite (cd_old _ _ _ _ C) in Ht by done. pose proof (uses_pos id (tbl A) (x, j) g Ht) as Hu. change (id g) with g in Hu. lia. }
  assert (uses fst (pages A') g = 0) as ->; [|lia].
  apply uses_zero. intros k [f rw] Hp E. cbn in E. subst f. rewrite (cd_pages _ _ _ _ C) in Hp.
  assert (exists k' r, pages A !! k' = Some (g, r)) as (k' & r & Hp').
  { case_decide; [|by exists k, rw]. destruct (pages A !! (d, k.2)) as [[f r]|] eqn:E; [|done]. cbn in Hp. exists (d, k.2), r. congruence. }
  pose proof (uses_pos fst (pages A) k' (g, r) Hp') as Hu. cbn in Hu. lia.
Qed.

Lemma kept_kflat (A A' : space) (m m' : mem) x : PageOps.kept A m m' -> kpages A' = kpages A -> kflat A' m' x = kflat A m x.
Proof.
  intros K E. unfold kflat. rewrite E. destruct (kpages A !! (x / 4096)) as [f|] eqn:Ef; [|done].
  apply K; [right; by exists (x / 4096)|apply Z.mod_pos_bound; lia].
Qed.

(** ** The threads when another part of the state changes *)
Section THREADS.
Context {H : Type} {HC : Containers H} {HL : ContainersLaws H}.

Lemma threads_change (s s' : tstate H) A A' T own ids S L L' Ms Ms' Ls Ls' : threads_inv s A T own ids S L Ms Ls ->
  vmrel (t_vm s') A' T ∅ (gone A' (root (t_vm s'))) -> ready (t_vm s') T -> kpages A' = kpages A -> (forall u, private A u -> private A' u) ->
  thread_id_pool s' = thread_id_pool s -> kernel_stack_slots s' = kernel_stack_slots s -> kernel_stack_slots_lock s' = kernel_stack_slots_lock s ->
  ct_holds (p_tabs (t_base s')) L' Ms' Ls' -> (forall t, L !! t = Some sizeof_tcb -> L' !! t = Some sizeof_tcb) ->
  (forall t i id, own !! t = Some (i, id) -> thread_ok s t i id -> thread_ok s' t i id) ->
  threads_inv s' A' T own ids S L' Ms' Ls'.
Proof.
  intros [a1 a2 a3 a4 a5 a6 a7 a8 a9 a10 a11 a12] V Rd Ek Hp E1 E2 E3 Hh HL' Hok. split; rewrite ?E1, ?E2, ?E3; try done.
  - intros t i id Ho. destruct (a6 t i id Ho) as (? & ? & ?). split; [done|]. split; [by apply HL'|by eapply Hok].
  - intros i u Hi Hu. apply Hp. by apply (a10 i).
  - intros i u Hi Hn Hu. rewrite Ek. by apply (a11 i).
  - intros i Hi. rewrite Ek. by apply a12.
Qed.
End THREADS.

(** ** The invariant of the whole *)
Section KERNEL.
Context {H : Type} {HC : Containers H} {HL : ContainersLaws H}.
Context (link : entries) (fresh : Z -> option (list Z)) (idle : Z * Z).

(** The threads of [Thread] and the family of [ProcessSpec], over the same heap; [pids] are
    the ids in use, [PM] is the table of all processes. *)
Record kernel_inv (s : kstate H) (A : space) (T : gmap Z Z) (own : gmap Z (Z * Z)) (ids S : gset Z) (L : gmap Z Z)
    (Ms : gmap Z (gmap Z Z)) (Ls : gmap Z (list Z)) (V : view) (cur : Z * Z) (D : list Z) (Q : Z -> bool -> list waiter)
    (F : gmap Z Z) (pids : gset Z) (PM : gmap Z Z) : Prop := {
  ki_threads : threads_inv (k_base s) A T own ids S L Ms Ls;
  ki_family : family idle (k_proc s) V cur Ms D Q F;
  ki_dead : Ls !! dead_processes = Some D;
  ki_space : space_ok A;
  ki_own t : is_Some (own !! t) <-> is_Some (tcbs (p_sched (k_proc s)) !! t);
  ki_block p : is_Some (p_procs (k_proc s) !! p) -> L !! p = Some sizeof_pcb /\ apart p sizeof_pcb processes_map sizeof_table;
  ki_pool : pool_inv (process_id_pool s, pids) /\ totalbits (id_map (process_id_pool s)) = PROCESS_NUM;
  ki_pids id : id ∈ pids <-> exists p c, p_procs (k_proc s) !! p = Some c /\ pid c = id;
  ki_map : Ms !! processes_map = Some PM /\ processes_map_lock s = LOCKED_NO;
  ki_listed p c : p_procs (k_proc s) !! p = Some c -> PM !! pid c = Some p;
  ki_keys k q : PM !! k = Some q -> 0 <= k < PROCESS_NUM;
  ki_dir p c : p_procs (k_proc s) !! p = Some c -> exists e, page_directory_entries c = PAGE_SIZE * e /\ e ∈ roots A;
  ki_dirs p1 c1 p2 c2 : p_procs (k_proc s) !! p1 = Some c1 -> p_procs (k_proc s) !! p2 = Some c2 ->
    page_directory_entries c1 = page_directory_entries c2 -> p1 = p2;
  ki_root c : p_procs (k_proc s) !! page_dir (p_sched (k_proc s)) = Some c -> page_directory_entries c = PAGE_SIZE * root (t_vm (k_base s));
  ki_calls t p : F !! t = Some p -> alive (p_procs (k_proc s)) p
}.

(** ** The size of maps with small keys *)
Lemma size_keys {X} (M : gmap Z X) n : (forall k q, M !! k = Some q -> 0 <= k < n) -> Z.of_nat (base.size M) <= Z.max 0 n.
Proof.
  intros Hk. rewrite <- size_dom. replace (Z.max 0 n) with (Z.of_nat (length (seqZ 0 n))) by (rewrite length_seqZ; lia).
  unfold base.size, set_size. cbn. apply inj_le, submseteq_length, NoDup_submseteq; [apply NoDup_elements|].
  intros k Hin%elem_of_elements%elem_of_dom. destruct Hin as [q Hq]. apply elem_of_seqZ. specialize (Hk k q Hq). lia.
Qed.

Lemma size_inj {X} (M : gmap Z X) (f : X -> Z) n : (forall k x, M !! k = Some x -> 0 <= f x < n) ->
  (forall k k' x x', M !! k = Some x -> M !! k' = Some x' -> f x = f x' -> k = k') -> Z.of_nat (base.size M) <= Z.max 0 n.
Proof.
  intros Hr Hi. rewrite <- length_map_to_list. rewrite <- (length_fmap (fun kv : Z * X => f kv.2)).
  replace (Z.max 0 n) with (Z.of_nat (length (seqZ 0 n))) by (rewrite length_seqZ; lia). apply inj_le, submseteq_length, NoDup_submseteq.
  - apply NoDup_fmap_2_strong; [|apply NoDup_map_to_list]. intros [k x] [k' x'] H1%elem_of_map_to_list H2%elem_of_map_to_list E. cbn in E.
    pose proof (Hi k k' x x' H1 H2 E) as ->. congruence.
  - intros z ([k x] & -> & Hin%elem_of_map_to_list)%list_elem_of_fmap. apply elem_of_seqZ. cbn. specialize (Hr k x Hin). lia.
Qed.

Lemma processes_bound s A T own ids S L Ms Ls V cur D Q F pids PM : kernel_inv s A T own ids S L Ms Ls V cur D Q F pids PM ->
  Z.of_nat (base.size (p_procs (k_proc s))) <= 1024.
Proof.
  intros Hk. apply (size_inj _ pid 1024).
  - intros p c Hp. exact (ki_keys _ _ _ _ _ _ _ _ _ _ _ _ _ _ _ _ Hk _ _ (ki_listed _ _ _ _ _ _ _ _ _ _ _ _ _ _ _ _ Hk p c Hp)).
  - intros p1 p2 c1 c2 H1 H2 E. exact (tr_pid _ _ _ _ (fa_tree _ _ _ _ _ _ _ _ (ki_family _ _ _ _ _ _ _ _ _ _ _ _ _ _ _ _ Hk)) _ _ _ _ H1 H2 E).
Qed.

Lemma threads_bound s A T own ids S L Ms Ls V cur D Q F pids PM : kernel_inv s A T own ids S L Ms Ls V cur D Q F pids PM ->
  Z.of_nat (base.size (tcbs (p_sched (k_proc s)))) <= 2048.
Proof.
  intros Hk. pose proof (ki_threads _ _ _ _ _ _ _ _ _ _ _ _ _ _ _ _ Hk) as Ht.
  assert (dom (tcbs (p_sched (k_proc s))) = dom own) as Ed.
  { apply set_eq. intros t. rewrite !elem_of_dom. symmetry. apply (ki_own _ _ _ _ _ _ _ _ _ _ _ _ _ _ _ _ Hk). }
  rewrite <- size_dom, Ed, size_dom. apply (size_inj own snd 2048).
  - intros t [i id] Ho. apply (ids_in_range _ _ _ _ _ _ _ _ _ _ Ht). apply (th_id _ _ _ _ _ _ _ _ _ Ht). eauto.
  - intros t t' [i id] [i' id'] H1 H2 E. cbn in E. eapply (th_inj _ _ _ _ _ _ _ _ _ Ht); [exact H1|exact H2|by right].
Qed.

(** ** [create_process] *)

Lemma table_init_ok (q : pstate H) L Ms Ls t n : ct_holds (p_tabs q) L Ms Ls -> Ms !! t = None -> ct_room (p_tabs q) (Datatypes.S n) ->
  (table_init q t = Err Panic /\ heap_fails (H:=H)) \/
  exists h, table_init q t = Ok (with_tabs q h) /\ ct_holds h L (<[t := ∅]> Ms) Ls /\ ct_room h n.
Proof.
  intros Hh Ht Hr. unfold table_init. destruct (tb_init_law _ L Ms Ls t n Hh Ht Hr) as [E|(h & -> & ? & ?)]; [left|right; by exists h].
  rewrite E. split; [done|]. exact (refused_table _ _ _ _ _ _ Hh Hr Ht E).
Qed.

(** The tables of a new block. *)
Definition new_tables (p : Z) (Ms : gmap Z (gmap Z Z)) : gmap Z (gmap Z Z) :=
  <[exit_children_at p := ∅]> (<[children_at p := ∅]> (<[threads_at p := ∅]> Ms)).
Definition new_pcb (id parent : Z) (b : bitmap_t) (k : bool) (dir : Z) : pcb_t := mk_pcb id parent PROCESS_NORMAL b k 0 0 0 0 dir LOCKED_NO.
(** The state after [create_process]. *)
Definition created (s : kstate H) (p : Z) (h : H) (v : vm) (c : pcb_t) (pool : id_pool_t) (nm : list Z) : kstate H :=
  mk_kstate (with_base (k_base s) (set_pcb (with_vm (with_tabs (k_proc s) h) v) p c)) pool (processes_map_lock s) (<[p := nm]> (k_names s)).

Lemma numbered_process_ok id : set_name (numbered_process id) = Ok (numbered_process id).
Proof.
  unfold set_name, numbered_process. rewrite length_app. pose proof (StringsSpec.uint_string_length (u32 id)). cbn [length].
  by replace (_ <? 32) with true by (symmetry; zbool; lia).
Qed.

Lemma create_process_ok (s : kstate H) A T L Ms Ls pids nm k words n :
  vmrel (p_vm (k_proc s)) A T ∅ (gone A (root (p_vm (k_proc s)))) -> ready (p_vm (k_proc s)) T -> space_ok A ->
  ct_holds (p_tabs (k_proc s)) L Ms Ls -> pool_inv (process_id_pool s, pids) -> totalbits (id_map (process_id_pool s)) = PROCESS_NUM ->
  fresh 512 = Some words -> length words = 128%nat -> match nm with Some l => (length l < 32)%nat | None => True end ->
  ct_room (p_tabs (k_proc s)) (4 + n) ->
  outcome (create_process fresh s nm k) (heap_fails (H:=H) \/ few 767 A ∅) (fun '(p, s') =>
    match free_id PROCESS_NUM pids with
    | None => p = 0 /\ p_sched (k_proc s') = p_sched (k_proc s) /\ exists q, 0 < q /\ L !! q = None /\ p_procs (k_proc s') = <[q := zero_pcb]> (p_procs (k_proc s))
    | Some id => exists h v b pool e A', 0 <= id < PROCESS_NUM /\ id ∉ pids /\ 0 < p /\ L !! p = None /\ clear_of p sizeof_pcb L Ms Ls /\
        s' = created s p h v (new_pcb id 0 b k (PAGE_SIZE * e)) pool (match nm with Some l => l | None => numbered_process id end) /\
        ct_holds h (<[p := sizeof_pcb]> L) (new_tables p Ms) Ls /\ ct_room h n /\
        wf b /\ totalbits b = USER_PRCOESS_THREDS_MAX /\ (forall i, bit b i = false) /\
        pool_inv (pool, {[id]} ∪ pids) /\ totalbits (id_map pool) = PROCESS_NUM /\
        free A ∅ e /\ e ∉ roots A /\ cloned A (root (p_vm (k_proc s))) e A' /\ same (p_vm (k_proc s)) v /\
        vmrel v A' T ∅ (gone A' (root v)) /\ space_ok A' /\ PageOps.kept A (pm (p_vm (k_proc s))) (pm v)
    end).
Proof.
  intros R Rd Hok Hh Hp Htot Hfr Hlen Hnm Hroom. unfold create_process.
  destruct (ct_malloc_law _ L Ms Ls sizeof_pcb (3 + n) Hh) as [E|(p & h & E & Hp0 & HpL & Hcl & Hh1 & Hr1)]; [by unfold sizeof_pcb|done| |].
  { left. rewrite E. split; [done|]. left. exact (refused_block _ _ _ _ sizeof_pcb (3 + n) Hh Hroom ltac:(by unfold sizeof_pcb) E). }
  rewrite E. cbn [res_bind]. clear E. change (process_id_pool (with_proc s _)) with (process_id_pool s).
  destruct (id_pool_allocate_ok _ _ Hp) as (pool & -> & Ht' & Hp'). rewrite Htot in *. cbn [res_bind].
  destruct (free_id PROCESS_NUM pids) as [id|] eqn:Eid; [|right; eexists; split; [done|]; split; [done|]; split; [done|]; by exists p].
  pose proof (free_id_new _ _ _ Eid) as [Hid0 Hidn]. assert (0 <= id < PROCESS_NUM) as Hid.
  { destruct Hp' as (_ & _ & Hl). specialize (Hl id). cbn in Hl. rewrite Ht' in Hl. destruct Hl as [Hl _]. destruct Hl as [? _]; [set_solver|done]. }
  assert (set_name (match nm with Some l => l | None => numbered_process id end) = Ok (match nm with Some l => l | None => numbered_process id end)) as ->.
  { destruct nm as [l|]; [|apply numbered_process_ok]. unfold set_name. by replace (_ <? 32) with true by (symmetry; zbool; lia). }
  cbn [res_bind]. assert (forall o, 0 <= o < 128 -> Ms !! (p + o) = None) as Hno.
  { intros o Ho. destruct (Ms !! (p + o)) as [M|] eqn:E; [|done]. destruct (cl_table _ _ _ _ _ Hcl (p + o) ltac:(by exists M)); unfold sizeof_table, sizeof_pcb in *; lia. }
  unfold on_proc. set (q0 := k_proc (with_knames _ _)).
  destruct (table_init_ok q0 (<[p := sizeof_pcb]> L) Ms Ls (threads_at p) (2 + n) Hh1 (Hno 44 ltac:(lia)) Hr1) as [[-> F]|(h1 & -> & Hh2 & Hr2)]; [left; by split; [|left]|].
  cbn [res_bind]. destruct (bitmap_init_ok fresh (mk_bitmap [] false 0 0) None USER_PRCOESS_THREDS_MAX true words) as (b & Eb & Hw & Hb & _ & Hbit);
    [by unfold USER_PRCOESS_THREDS_MAX|split; [exact Hfr|done]|by rewrite Hlen|]. unfold bitmap_create. rewrite Eb. cbn [res_bind]. clear Eb.
  set (q1 := k_proc (with_proc _ _)).
  destruct (table_init_ok q1 (<[p := sizeof_pcb]> L) (<[threads_at p := ∅]> Ms) Ls (children_at p) (1 + n) Hh2) as [[-> F]|(h2 & -> & Hh3 & Hr3)];
    [rewrite lookup_insert_ne by (unfold threads_at, children_at; lia); by apply (Hno 80)|exact Hr2|left; by split; [|left]|].
  cbn [res_bind]. set (q2 := k_proc (with_proc _ _)).
  destruct (table_init_ok q2 (<[p := sizeof_pcb]> L) (<[children_at p := ∅]> (<[threads_at p := ∅]> Ms)) Ls (exit_children_at p) n Hh3) as [[-> F]|(h3 & -> & Hh4 & Hr4)];
    [rewrite !lookup_insert_ne by (unfold threads_at, children_at, exit_children_at; lia); by apply (Hno 92)|exact Hr3|left; by split; [|left]|].
  cbn [res_bind]. match goal with |- context [clone_crt_page_dir ?w] => change w with (p_vm (k_proc s)) end.
  destruct (clone_crt_page_dir_ok _ A T R (ok_closed _ Hok)) as [[-> F]|([pa v] & -> & S & e & A' & -> & He & Her & C & R' & K)];
    try apply Rd; try (unfold temp; lia); [left; by split; [|right]|right].
  assert (root v = root (p_vm (k_proc s))) as Ev by (rewrite S; done).
  cbn [res_bind]. eexists. split; [reflexivity|]. exists h3, v, b, pool, e, A'. change PROCESS_NUM with 1024 in *. rewrite Ev.
  split; [done|]. split; [done|]. split; [done|]. split; [done|]. split; [done|]. split.
  { unfold created, new_pcb. replace (s32 id) with id by (unfold s32; rewrite u32_small by lia; by replace (id <? 2147483648) with true by (symmetry; zbool; lia)).
    unfold with_proc, with_kbase, set_pcb, with_procs. cbn. by rewrite insert_insert_eq. }
  do 12 (split; [done|]). split; [|done]. eapply cloned_ok; [apply R|exact Hok|apply R|exact Her|exact C].
Qed.
End KERNEL.
