(* ===== verification/SpawnFork.v ===== *)
(** [process_fork]: the steps after the creation of the process, and the state that results. *)
From S2P Require Import Prelude BitMap LinkedList Memory Page PageMem PageSpec PageOps PageMap PageCow PageClone PageUser PageRefine KernelMem Sched SchedSpec SchedProps Switch SwitchSpec Containers Process ProcessSpec ProcessExit Thread ThreadSpec Spawn SpawnSpec.

Section STEPS.
Context {H : Type} {HC : Containers H} {HL : ContainersLaws H}.
Context (idle : Z * Z).

(** ** The operations on the tables *)
Lemma set_pcb_back (q : pstate H) p c d : p_procs q !! p = Some c -> set_pcb (set_pcb q p d) p c = q.
Proof. intros E. rewrite set_pcb_twice. unfold set_pcb, with_procs. rewrite insert_id by done. by destruct q. Qed.
Lemma with_plock_back c : plock c = LOCKED_NO -> with_plock (with_plock c LOCKED_YES) LOCKED_NO = c.
Proof. intros E. destruct c. cbn in *. by subst. Qed.

Lemma add_child_ok (q : pstate H) L Ms Ls par c p d M n : p_procs q !! par = Some c -> plock c = LOCKED_NO -> p_procs q !! p = Some d -> par <> p ->
  ct_holds (p_tabs q) L Ms Ls -> Ms !! children_at par = Some M -> Z.of_nat (base.size M) < ct_max -> ct_room (p_tabs q) (Datatypes.S n) ->
  (add_child_process q par p = Err Panic /\ heap_fails (H:=H)) \/
  exists h, add_child_process q par p = Ok (with_tabs q h) /\ ct_holds h L (<[children_at par := <[pid d := p]> M]> Ms) Ls /\ ct_room h n.
Proof.
  intros Hc Hl Hp Hne Hh HM Hmax Hr. unfold add_child_process. rewrite (lock_process_ok q par c Hc Hl). cbn [res_bind].
  rewrite (get_pcb_ok _ p d) by (cbn; by rewrite lookup_insert_ne). cbn [res_bind].
  destruct (table_put_ok (set_pcb q par (with_plock c LOCKED_YES)) L Ms Ls (children_at par) M (pid d) p n Hh HM Hr Hmax) as [[-> F]|(h & -> & Hh' & Hr')]; [by left|right].
  cbn [res_bind]. rewrite (unlock_process_ok _ par (with_plock c LOCKED_YES)) by apply lookup_insert_eq. exists h. split; [|done].
  rewrite (with_plock_back c Hl). f_equal. change (with_tabs (set_pcb q par (with_plock c LOCKED_YES)) h) with (set_pcb (with_tabs q h) par (with_plock c LOCKED_YES)).
  by apply set_pcb_back.
Qed.

Lemma add_thread_ok (q : pstate H) L Ms Ls p c t y m M n : tcbs (p_sched q) !! t = Some y -> p_procs q !! p = Some c -> plock c = LOCKED_NO ->
  p_threads q !! t = Some m -> ct_holds (p_tabs q) L Ms Ls -> Ms !! threads_at p = Some M -> Z.of_nat (base.size M) < ct_max -> ct_room (p_tabs q) (Datatypes.S n) ->
  (add_process_thread q p t = Err Panic /\ heap_fails (H:=H)) \/
  exists h, add_process_thread q p t = Ok (with_tabs (with_sched q (set_tcb (p_sched q) t (with_process y p))) h) /\
    ct_holds h L (<[threads_at p := <[thread_id m := t]> M]> Ms) Ls /\ ct_room h n.
Proof.
  intros Ht Hc Hl Hm Hh HM Hmax Hr. unfold add_process_thread. rewrite (get_tcb_ok _ _ _ Ht). cbn [res_bind]. set (q1 := with_sched q _).
  rewrite (lock_process_ok q1 p c Hc Hl). cbn [res_bind]. unfold get_more. cbn [p_threads set_pcb with_procs]. change (p_threads q1) with (p_threads q). rewrite Hm. cbn [res_bind].
  destruct (table_put_ok (set_pcb q1 p (with_plock c LOCKED_YES)) L Ms Ls (threads_at p) M (thread_id m) t n Hh HM Hr Hmax) as [[-> F]|(h & -> & Hh' & Hr')]; [by left|right].
  cbn [res_bind]. rewrite (unlock_process_ok _ p (with_plock c LOCKED_YES)) by apply lookup_insert_eq. exists h. split; [|done].
  rewrite (with_plock_back c Hl). f_equal. change (with_tabs (set_pcb q1 p (with_plock c LOCKED_YES)) h) with (set_pcb (with_tabs q1 h) p (with_plock c LOCKED_YES)).
  by apply set_pcb_back.
Qed.

Lemma add_new_process_ok (s : kstate H) L Ms Ls p c PM n : p_procs (k_proc s) !! p = Some c -> processes_map_lock s = LOCKED_NO ->
  ct_holds (p_tabs (k_proc s)) L Ms Ls -> Ms !! processes_map = Some PM -> Z.of_nat (base.size PM) < ct_max -> ct_room (p_tabs (k_proc s)) (Datatypes.S n) ->
  (add_new_process s p = Err Panic /\ heap_fails (H:=H)) \/
  exists h, add_new_process s p = Ok (with_map_lock (with_proc s (with_tabs (k_proc s) h)) LOCKED_NO) /\
    ct_holds h L (<[processes_map := <[pid c := p]> PM]> Ms) Ls /\ ct_room h n.
Proof.
  intros Hc Hl Hh HM Hmax Hr. unfold add_new_process. rewrite Hl. cbn [yieldlock_lock atomic_exchange]. change (negb (LOCKED_NO =? LOCKED_NO)) with false. cbn [res_bind].
  change (k_proc (with_map_lock s LOCKED_YES)) with (k_proc s). rewrite (get_pcb_ok _ p c Hc). cbn [res_bind]. unfold on_proc. change (k_proc (with_map_lock s LOCKED_YES)) with (k_proc s).
  destruct (table_put_ok (k_proc s) L Ms Ls processes_map PM (pid c) p n Hh HM Hr Hmax) as [[-> F]|(h & -> & Hh' & Hr')]; [by left|right].
  cbn [res_bind]. by exists h.
Qed.

(** A thread's block after changes of the scheduler. *)
Lemma thread_ok_sched (s s' : tstate H) V t i id : p_threads (t_base s') = p_threads (t_base s) -> t_rest s' = t_rest s ->
  (forall y, tcbs (p_sched (t_base s)) !! t = Some y -> exists y', tcbs (p_sched (t_base s')) !! t = Some y' /\
     kernel_stack y' = kernel_stack y /\ crt_node_ptr y' = crt_node_ptr y) ->
  qinv (s_nodes (p_sched (t_base s'))) (tcbs (p_sched (t_base s'))) (queues (p_sched (t_base s'))) V ->
  thread_ok s t i id -> thread_ok s' t i id.
Proof.
  intros E1 E2 Hk Hq (b & nd & Hb & R1 & R2 & R3 & R4 & Hn & R5). unfold get_block, get_tcb, get_more in Hb.
  destruct (tcbs (p_sched (t_base s)) !! t) as [y|] eqn:Ey; [|done]. cbn [res_bind] in Hb.
  destruct (p_threads (t_base s) !! t) as [m|] eqn:Em; [|done]. cbn [res_bind] in Hb. destruct (t_rest s !! t) as [w|] eqn:Ew; [|done].
  injection Hb as <-. cbn in *. destruct (Hk y eq_refl) as (y' & Hy' & K1 & K2). destruct (qi_thread _ _ _ _ Hq t y' Hy') as (_ & _ & nd' & Hnd' & Hp).
  exists (mk_block y' m w), nd'. unfold get_block, get_tcb, get_more. rewrite Hy', E1, Em, E2, Ew. cbn.
  split; [done|]. split; [congruence|]. split; [done|]. split; [done|]. split; [congruence|]. split; [|done]. congruence.
Qed.
End STEPS.

Section FORK.
Context {H : Type} {HC : Containers H} {HL : ContainersLaws H}.
Context (link : entries) (fresh : Z -> option (list Z)) (idle : Z * Z).
Context (s : kstate H) (A : space) (T : gmap Z Z) (own : gmap Z (Z * Z)) (ids S : gset Z) (L : gmap Z Z)
  (Ms : gmap Z (gmap Z Z)) (Ls : gmap Z (list Z)) (V : view) (cn ct : Z) (D : list Z) (Q : Z -> bool -> list waiter)
  (F : gmap Z Z) (pids : gset Z) (PM : gmap Z Z).
Hypothesis Hk : kernel_inv idle s A T own ids S L Ms Ls V (cn, ct) D Q F pids PM.
Context (y : tcb_t) (c : pcb_t) (blk : thread_block) (i0 id0 : Z) (words : list Z) (n : nat).
Hypothesis Hcur : current idle (k_proc s) V cn ct y c.
Hypothesis Hown : own !! ct = Some (i0, id0).
Hypothesis Hblk : get_block (k_base s) ct = Ok blk.
Hypothesis Hidx : 0 <= user_stack_index (b_more blk) < USER_PRCOESS_THREDS_MAX.
Hypothesis Hentry : word (at_syscall_fork_exit link).
Hypothesis Hfresh : fresh 512 = Some words /\ length words = 128%nat.
Hypothesis Hroom : ct_room (p_tabs (k_proc s)) (8 + n).
Hypothesis Hmax : 4096 < ct_max (H:=H).

(** What a fork does not have. *)
Definition fork_fails : Prop :=
  heap_fails (H:=H) \/ few 769 A ∅ \/ free_id 2048 ids = None \/ free_id 21845 S = None.

Let par := process y.
Let P := p_procs (k_proc s).
Let Hfam := ki_family _ _ _ _ _ _ _ _ _ _ _ _ _ _ _ _ _ Hk.
Let Htree := fa_tree _ _ _ _ _ _ _ _ Hfam.
Let Hthr := ki_threads _ _ _ _ _ _ _ _ _ _ _ _ _ _ _ _ _ Hk.

(** The rest of [process_fork] after the process has its parent, and after the thread is there. *)
Definition fork_tail (p t : Z) (s : kstate H) : res (Z * kstate H) :=
  let! s := on_proc s (fun q => add_process_thread q p t) in
  let! s := add_new_process s p in
  let! m := get_more (k_proc s) t in
  let! s := on_proc s (fun q =>
    let! c := get_pcb q p in
    let! b := bitmap_set_bit (user_thread_stack_indexes c) (u32 (user_stack_index m)) in
    Ok (set_pcb q p (with_indexes c b))) in
  let! s := on_proc s (fun q =>
    let! c := get_tcb (p_sched q) t in on_sched q (fun x => add_thread_node_to_schedule x (crt_node_ptr c))) in
  let! c := get_pcb (k_proc s) p in
  Ok (pid c, s).
Definition fork_middle (p : Z) (s : kstate H) : res (Z * kstate H) :=
  let! (t, b) := fork_crt_thread link (k_base s) in
  let s := with_kbase s b in
  assert! negb (t =? 0) in fork_tail p t s.

(** The process is made: its parts, and the tables with it. *)
Definition child_tables (p id : Z) (M : gmap Z Z) : gmap Z (gmap Z Z) := <[children_at par := <[id := p]> M]> (new_tables p Ms).
Definition made_state (p id e : Z) (h : H) (v : vm) (b : bitmap_t) (pool : id_pool_t) (nm : list Z) : kstate H :=
  created s p h v (new_pcb id par b false (PAGE_SIZE * e)) pool nm.

Record made (p id e : Z) (h : H) (v : vm) (A' : space) (b : bitmap_t) (pool : id_pool_t) (M : gmap Z Z) : Prop := {
  md_id : free_id PROCESS_NUM pids = Some id /\ 0 <= id < PROCESS_NUM /\ id ∉ pids;
  md_block : 0 < p /\ L !! p = None /\ clear_of p sizeof_pcb L Ms Ls;
  md_clone : e ∉ roots A /\ cloned A (root (t_vm (k_base s))) e A' /\ PageOps.kept A (pm (t_vm (k_base s))) (pm v) /\ root v = root (t_vm (k_base s));
  md_space : space_ok A' /\ (few 1 A' ∅ -> few 769 A ∅);
  md_threads nm : threads_inv (k_base (made_state p id e h v b pool nm)) A' T own ids S (<[p := sizeof_pcb]> L) (child_tables p id M) Ls;
  md_pool : pool_inv (pool, {[id]} ∪ pids) /\ totalbits (id_map pool) = PROCESS_NUM;
  md_indexes : wf b /\ totalbits b = USER_PRCOESS_THREDS_MAX /\ forall k, bit b k = false;
  md_table : Ms !! children_at par = Some M;
  md_room : ct_room h (3 + n)
}.

Lemma parent_facts : P !! par = Some c /\ alive P par /\ plock c = LOCKED_NO /\ get_crt_process (k_proc s) = Ok par /\
  exists M, Ms !! children_at par = Some M /\ Z.of_nat (base.size M) < ct_max (H:=H) /\ forall k q, M !! k = Some q <-> is_child P D par k q.
Proof.
  pose proof Hcur as [_ _ _ Hc Ha Hl _ (E & _)]. assert (alive P par) as Hal by (by exists c). split; [done|]. split; [done|]. split; [done|]. split; [done|].
  destruct (tr_children _ _ _ _ Htree par Hal) as (M & HM & Hv). exists M. split; [done|]. split; [|done].
  assert (base.size M <= base.size P)%nat.
  { apply table_size. intros k q Hq. apply Hv in Hq as (d & Hd & E' & _). by exists d. }
  pose proof (processes_bound _ _ _ _ _ _ _ _ _ _ _ _ _ _ _ _ _ Hk) as Hb. fold P in Hb. lia.
Qed.

Lemma block_new p : L !! p = None -> P !! p = None.
Proof.
  intros Hp. destruct (P !! p) as [d|] eqn:E; [|done].
  destruct (ki_block _ _ _ _ _ _ _ _ _ _ _ _ _ _ _ _ _ Hk p ltac:(by exists d)) as [E' _]. congruence.
Qed.

Lemma fork_made : (free_id PROCESS_NUM pids = None /\ process_fork link fresh s = Err Fault) \/
  (process_fork link fresh s = Err Panic /\ fork_fails) \/
  exists p id e h v A' b pool M nm, process_fork link fresh s = fork_middle p (made_state p id e h v b pool nm) /\ made p id e h v A' b pool M.
Proof.
  destruct Hfresh as [Hfr Hlen]. destruct parent_facts as (Hc & Ha & Hl & Ecur & M & HM & HMs & HvM).
  pose proof Hthr as [a1 a2 a3 a4 a5 a6 a7 a8 a9 a10 a11 a12]. destruct (ki_pool _ _ _ _ _ _ _ _ _ _ _ _ _ _ _ _ _ Hk) as [Hpool Htot].
  assert (process_fork link fresh s = let! (p, s) := create_process fresh s None false in
    let! par := get_crt_process (k_proc s) in let! s := on_proc s (fun q => add_child_process q par p) in
    let! s := on_proc s (fun q => upd_pcb q p (fun c => with_parent c par)) in fork_middle p s) as Efork by done.
  rewrite Efork. clear Efork.
  destruct (create_process_ok fresh s A T L Ms Ls pids None false words (4 + n) a1 a2 (ki_space _ _ _ _ _ _ _ _ _ _ _ _ _ _ _ _ _ Hk) a5 Hpool Htot Hfr Hlen I Hroom)
    as [[-> F1]|([p s1] & -> & Hcr)].
  { right. left. split; [done|]. destruct F1 as [?|F1]; [by left|right; left]. eapply few_le; [|exact F1]. lia. }
  cbn [res_bind]. destruct (free_id PROCESS_NUM pids) as [id|] eqn:Eid.
  2:{ left. split; [done|]. destruct Hcr as (-> & Es & q & Hq0 & HqL & Ep). unfold get_crt_process. rewrite Es. change (get_crt_process (k_proc s) = Ok par) in Ecur.
      unfold get_crt_process in Ecur. destruct (get_crt_thread _) as [u|]; [|done]. cbn [res_bind] in *. destruct (get_tcb _ u) as [w|]; [|done]. cbn [res_bind] in *.
      destruct (process w =? 0); [done|]. cbn [negb] in *. injection Ecur as ->. cbn [res_bind]. unfold on_proc, add_child_process.
      assert (q <> par) as Hqp by (intros ->; rewrite (block_new par HqL) in Hc; done).
      rewrite (lock_process_ok _ par c); [|by rewrite Ep, lookup_insert_ne|done]. cbn [res_bind]. unfold get_pcb, set_pcb. cbn. rewrite Ep.
      assert (par <> 0) as Hp0 by (by apply (tr_pcb _ _ _ _ Htree par c)). rewrite !lookup_insert_ne by lia.
      destruct (p_procs (k_proc s) !! 0) as [d|] eqn:E0; [|done]. by destruct (tr_pcb _ _ _ _ Htree 0 d E0). }
  destruct Hcr as (h & v & b & pool & e & A' & Hid & Hidn & Hp0 & HpL & Hcl & -> & Hh & Hr & Hw & Hbt & Hbit & Hpl & Hplt & He & Her & C & Sv & Rv & Hok & Kp).
  set (c0 := new_pcb id 0 b false (PAGE_SIZE * e)). set (nm := numbered_process id). set (s1 := created s p h v c0 pool nm).
  change (get_crt_process (k_proc s1)) with (get_crt_process (k_proc s)). rewrite Ecur. cbn [res_bind]. unfold on_proc.
  pose proof (block_new p HpL) as HpP. assert (par <> p) as Hpp by (intros E; rewrite E in Hc; congruence).
  assert (forall o, 0 <= o < 128 -> forall q o', is_Some (P !! q) -> 0 <= o' < 128 -> p + o <> q + o') as Hap.
  { intros o Ho q o' Hq Ho'. destruct (ki_block _ _ _ _ _ _ _ _ _ _ _ _ _ _ _ _ _ Hk q Hq) as [HqL _]. destruct (cl_block _ _ _ _ _ Hcl q _ HqL); unfold sizeof_pcb in *; lia. }
  assert (new_tables p Ms !! children_at par = Some M) as HM'.
  { unfold new_tables, threads_at, children_at, exit_children_at in *. rewrite !lookup_insert_ne; [done|apply Hap; [lia|by exists c|lia]..]. }
  destruct (add_child_ok (k_proc s1) (<[p := sizeof_pcb]> L) (new_tables p Ms) Ls par c p c0 M (3 + n)) as [[-> F1]|(h2 & -> & Hh2 & Hr2)]; try done.
  { cbn. by rewrite lookup_insert_ne. }
  { apply lookup_insert_eq. }
  { right. left. split; [done|by left]. }
  right. right. cbn [res_bind]. rewrite (upd_pcb_ok _ p _ c0) by apply lookup_insert_eq. cbn [res_bind].
  exists p, id, e, h2, v, A', b, pool, M, nm. split.
  { f_equal. unfold made_state, created, set_pcb, with_procs, with_proc, with_kbase. cbn. by rewrite insert_insert_eq. }
  assert (root v = root (t_vm (k_base s))) as Ev by (rewrite Sv; done).
  split; try done.
  - split; [done|]. intros Hf. apply (cloned_few A ∅ (phy_frames_array (t_vm (k_base s))) A' (phy_frames_array v) (root (t_vm (k_base s))) e 1); [apply a1|apply Rv|exact C|exact Hf].
  - intros nm'. eapply (threads_change (k_base s)); [exact Hthr|exact Rv| |exact (cd_kpages _ _ _ _ C)| |done|done|done|exact Hh2| |done].
    + eapply ready_same; [exact Sv|exact a2].
    + intros u. eapply cloned_private; [apply a1|apply Rv|exact C].
    + intros t Ht. rewrite lookup_insert_ne; [done|]. intros ->. congruence.
Qed.

(** The thread is made. *)
Definition joined_state (p id e : Z) (h : H) (v : vm) (b : bitmap_t) (pool : id_pool_t) (nm : list Z) t h2 tids v2 slots i tid : kstate H :=
  let s3 := made_state p id e h v b pool nm in with_kbase s3 (forked (k_base s3) t h2 tids v2 slots (child_block t i tid blk)).

Record joined (p id : Z) (v : vm) (A' : space) (M : gmap Z Z) (s4 : kstate H) (v2 : vm) (A2 : space) (i tid t : Z) (h2 : H) : Prop := {
  jn_thread : own !! t = None /\ 0 < t /\ free_id 2048 ids = Some tid /\ free_id 21845 S = Some i;
  jn_block : <[p := sizeof_pcb]> L !! t = None;
  jn_inv : threads_inv (k_base s4) A2 T (<[t := (i, tid)]> own) ({[tid]} ∪ ids) ({[i]} ∪ S) (<[t := sizeof_tcb]> (<[p := sizeof_pcb]> L)) (child_tables p id M) Ls;
  jn_step : kstep v A' T v2 A2 (pair_at (slot_page i));
  jn_zero : returns_zero (kflat A' (pm v)) (kflat A2 (pm v2)) (stack_top i0) (stack_top i - 104) (stack_top i) (at_syscall_fork_exit link);
  jn_room : ct_room h2 (2 + n)
}.

Lemma fork_joined p id e h v A' b pool M nm : made p id e h v A' b pool M ->
  (fork_middle p (made_state p id e h v b pool nm) = Err Panic /\ fork_fails) \/
  exists t h2 tids v2 slots i tid A2, let s4 := joined_state p id e h v b pool nm t h2 tids v2 slots i tid in
    fork_middle p (made_state p id e h v b pool nm) = fork_tail p t s4 /\ joined p id v A' M s4 v2 A2 i tid t h2.
Proof.
  intros Hm. set (s3 := made_state p id e h v b pool nm). pose proof (md_threads _ _ _ _ _ _ _ _ _ Hm nm) as Hi.
  destruct (cu_calls _ _ _ _ _ _ _ Hcur) as (_ & _ & Ect).
  destruct (fork_thread_ok link (k_base s3) A' T own ids S _ _ Ls ct i0 id0 blk (2 + n) Hi Ect Hown Hblk Hentry) as [[E F1]|([t s4] & E & i & tid & A2 & E1 & E2 & E3 & E4 & E5 & E6 & E7 & E8 & E9 & E10 & h2 & tids & v2 & slots & -> & Hr)];
    [exact (md_room _ _ _ _ _ _ _ _ _ Hm)| |].
  - left. unfold fork_middle. rewrite E. split; [done|]. destruct F1 as [F1|[F1|[F1|F1]]].
    + left. exact (refused_block _ _ _ _ sizeof_tcb (2 + n) (th_heap _ _ _ _ _ _ _ _ _ Hi) (md_room _ _ _ _ _ _ _ _ _ Hm) ltac:(by unfold sizeof_tcb) F1).
    + right; right; by left.
    + right; right; by right.
    + right; left. by apply (md_space _ _ _ _ _ _ _ _ _ Hm).
  - right. exists t, h2, tids, v2, slots, i, tid, A2. cbv zeta. split.
    + unfold fork_middle. rewrite E. cbn [res_bind]. by replace (t =? 0) with false by (symmetry; zbool).
    + by split.
Qed.

(** Both are entered in the tables, and the thread is made ready. *)
Definition new_tcb (p t i tid : Z) : tcb_t := with_process (b_tcb (child_block t i tid blk)) p.
Definition fork_state (p t i tid : Z) (h : H) (x : sched) (v : vm) (c' : pcb_t) (pool tids : id_pool_t) (slots : bitmap_t) (nm : list Z) : kstate H :=
  let q := k_proc s in let b := child_block t i tid blk in
  mk_kstate (mk_tstate (mk_pstate x h (<[p := c']> (p_procs q)) (<[t := b_more b]> (p_threads q)) (p_waits q) (p_mem q) v (p_init q))
    (<[t := b_rest b]> (t_rest (k_base s))) tids slots LOCKED_NO) pool LOCKED_NO (<[p := nm]> (k_names s)).
Definition fork_tables (p t id tid : Z) (M : gmap Z Z) : gmap Z (gmap Z Z) :=
  <[processes_map := <[id := p]> PM]> (<[threads_at p := {[tid := t]}]> (child_tables p id M)).

Record finished (p t i id tid : Z) (M : gmap Z Z) (h : H) (x : sched) (b : bitmap_t) : Prop := {
  fn_core : sched_core idle x (made_ready V [(schedule_node t, t)]) ct y;
  fn_cpu : same_cpu (p_sched (k_proc s)) x;
  fn_tcbs : tcbs x = <[t := with_queue (with_status (new_tcb p t i tid) TASK_READY) ready_tasks]> (tcbs (p_sched (k_proc s)));
  fn_tabs : ct_holds h (<[t := sizeof_tcb]> (<[p := sizeof_pcb]> L)) (fork_tables p t id tid M) Ls;
  fn_room : ct_room h n;
  fn_indexes : wf b /\ totalbits b = USER_PRCOESS_THREDS_MAX /\ forall k, 0 <= k -> bit b k = bool_decide (k = user_stack_index (b_more blk))
}.

(** What the new block is apart from. *)
Lemma new_apart p o q o' : L !! p = None -> clear_of p sizeof_pcb L Ms Ls -> 0 <= o < 128 -> is_Some (P !! q) -> 0 <= o' < 128 -> q + o' <> p + o.
Proof.
  intros HpL Hcl Ho Hq Ho'. destruct (ki_block _ _ _ _ _ _ _ _ _ _ _ _ _ _ _ _ _ Hk q Hq) as [HqL _]. destruct (cl_block _ _ _ _ _ Hcl q _ HqL); unfold sizeof_pcb in *; lia.
Qed.

Lemma map_apart p o : clear_of p sizeof_pcb L Ms Ls -> 0 <= o < 128 -> p + o <> processes_map.
Proof.
  intros Hcl Ho E. destruct (ki_map _ _ _ _ _ _ _ _ _ _ _ _ _ _ _ _ _ Hk) as [HPM _].
  destruct (cl_table _ _ _ _ _ Hcl processes_map ltac:(by eexists)); unfold sizeof_pcb, sizeof_table in *; lia.
Qed.

Lemma map_apart_old q o : is_Some (P !! q) -> 0 <= o < 128 -> q + o <> processes_map.
Proof.
  intros Hq Ho E. destruct (ki_block _ _ _ _ _ _ _ _ _ _ _ _ _ _ _ _ _ Hk q Hq) as [_ [Ha|Ha]]; unfold sizeof_pcb, sizeof_table in *; lia.
Qed.

Lemma parent_pcb : is_Some (P !! par).
Proof. destruct parent_facts as (E & _). by exists c. Qed.

(** The tables after the fork. *)
Lemma fork_tables_lookup p t id tid M : L !! p = None -> clear_of p sizeof_pcb L Ms Ls -> Ms !! children_at par = Some M ->
  let Mf := fork_tables p t id tid M in
  child_tables p id M !! threads_at p = Some ∅ /\ (<[threads_at p := {[tid := t]}]> (child_tables p id M)) !! processes_map = Some PM /\
  Mf !! threads_at p = Some {[tid := t]} /\ Mf !! children_at p = Some ∅ /\ Mf !! exit_children_at p = Some ∅ /\
  Mf !! children_at par = Some (<[id := p]> M) /\ Mf !! processes_map = Some (<[id := p]> PM) /\
  (forall q, alive P q -> q <> par -> Mf !! children_at q = Ms !! children_at q) /\
  (forall q, alive P q -> Mf !! exit_children_at q = Ms !! exit_children_at q) /\
  (forall q, alive P q -> Mf !! threads_at q = Ms !! threads_at q).
Proof.
  intros HpL Hcl HM. destruct (ki_map _ _ _ _ _ _ _ _ _ _ _ _ _ _ _ _ _ Hk) as [HPM _].
  assert (forall q o o', is_Some (P !! q) -> 0 <= o < 128 -> 0 <= o' < 128 -> q + o' <> p + o) as Hap by (intros; by apply new_apart).
  assert (forall o, 0 <= o < 128 -> p + o <> processes_map) as Hm1 by (intros; by apply map_apart).
  assert (forall q o, is_Some (P !! q) -> 0 <= o < 128 -> q + o <> processes_map) as Hm2 by (intros; by apply map_apart_old).
  pose proof parent_pcb as Hpp. intros Mf. subst Mf. unfold fork_tables, child_tables, new_tables, threads_at, children_at, exit_children_at in *.
  assert (forall q o o', is_Some (P !! q) -> 0 <= o < 128 -> 0 <= o' < 128 -> p + o <> q + o') as Hap' by (intros q o o' Hq H1 H2 E; by apply (Hap q o o')).
  assert (forall o, 0 <= o < 128 -> processes_map <> p + o) as Hm1' by (intros o Ho E; by apply (Hm1 o)).
  assert (forall q o, is_Some (P !! q) -> 0 <= o < 128 -> processes_map <> q + o) as Hm2' by (intros q o Hq Ho E; by apply (Hm2 q o)).
  assert (forall q, alive P q -> is_Some (P !! q)) as Hal by apply alive_some.
  assert (forall q, alive P q -> q <> par -> forall o o', 0 <= o < 128 -> 0 <= o' < 128 -> par + o <> q + o') as Hap2.
  { intros q Hq Hne o o' Ho Ho'. destruct (tr_apart _ _ _ _ Htree q par (Hal q Hq) Hpp Hne); lia. }
  assert (forall q, alive P q -> par + 80 <> q + 92 /\ par + 80 <> q + 44) as Hap3.
  { intros q Hq. destruct (decide (q = par)) as [->|Hne]; [lia|]. split; by apply Hap2; [auto|auto|lia..]. }
  repeat split; intros; repeat first [rewrite lookup_insert_eq|rewrite lookup_insert_ne by (first [by apply Hm1'; lia|by apply Hm1; lia|by apply Hm2; [auto|lia]|by apply Hm2'; [auto|lia]|by apply Hap; [auto|lia..]|by apply Hap'; [auto|lia..]|by apply Hap2; [auto|auto|lia..]|by apply Hap3|lia])]; done.
Qed.

Lemma b_tcb_status : status (b_tcb blk) = TASK_RUNNING.
Proof.
  pose proof (cu_core _ _ _ _ _ _ _ Hcur) as [_ _ [Hy Hs] _ _ _]. pose proof Hblk as Hb. unfold get_block, get_tcb in Hb.
  change (p_sched (t_base (k_base s))) with (p_sched (k_proc s)) in Hb. rewrite Hy in Hb. cbn [res_bind] in Hb.
  destruct (get_more _ ct); [|done]. cbn [res_bind] in Hb. destruct (t_rest _ !! ct); [|done]. by injection Hb as <-.
Qed.

Lemma new_thread p t i tid : own !! t = None -> 0 < t -> newcomer (p_sched (k_proc s)) t (new_tcb p t i tid).
Proof.
  intros Ho Ht0. pose proof (ki_own _ _ _ _ _ _ _ _ _ _ _ _ _ _ _ _ _ Hk) as Hown'. split.
  - lia.
  - destruct (tcbs (p_sched (k_proc s)) !! t) as [z|] eqn:E; [|done]. destruct (proj2 (Hown' t)) as [w Hw]; [by exists z|congruence].
  - cbn. unfold schedule_node. lia.
  - intros u z Hz. destruct (proj2 (Hown' u)) as [[j k] Hu]; [by exists z|].
    destruct (th_own _ _ _ _ _ _ _ _ _ Hthr u j k Hu) as (_ & _ & b & nd & Hb & _ & _ & _ & Hcn & _).
    unfold get_block, get_tcb in Hb. change (p_sched (t_base (k_base s))) with (p_sched (k_proc s)) in Hb. rewrite Hz in Hb. cbn [res_bind] in Hb.
    destruct (get_more _ u); [|done]. cbn [res_bind] in Hb. destruct (t_rest _ !! u); [|done]. injection Hb as <-. cbn in Hcn. rewrite Hcn. cbn. unfold schedule_node.
    assert (u <> t) by congruence. lia.
  - pose proof (threads_bound _ _ _ _ _ _ _ _ _ _ _ _ _ _ _ _ _ Hk). lia.
Qed.

Lemma fork_finished p id e h v A' b pool M nm t h2 tids v2 slots i tid A2 :
  made p id e h v A' b pool M -> let s4 := joined_state p id e h v b pool nm t h2 tids v2 slots i tid in joined p id v A' M s4 v2 A2 i tid t h2 ->
  (fork_tail p t s4 = Err Panic /\ fork_fails) \/
  exists h3 x b2, fork_tail p t s4 = Ok (id, fork_state p t i tid h3 x v2 (new_pcb id par b2 false (PAGE_SIZE * e)) pool tids slots nm) /\
    finished p t i id tid M h3 x b2.
Proof.
  intros Hm s4 Hj. pose proof Hm as [[Eid [Hid Hidn]] (Hp0 & HpL & Hcl) _ _ _ _ (Hw & Hbt & Hbit) HM _]. pose proof Hj as [(Ho & Ht0 & _ & _) _ Hi4 _ _ Hr].
  destruct (fork_tables_lookup p t id tid M HpL Hcl HM) as (K1 & K2 & _). destruct (ki_map _ _ _ _ _ _ _ _ _ _ _ _ _ _ _ _ _ Hk) as [HPM Hml].
  set (c1 := new_pcb id par b false (PAGE_SIZE * e)). set (y0 := b_tcb (child_block t i tid blk)).
  pose proof (th_heap _ _ _ _ _ _ _ _ _ Hi4) as Hh. unfold fork_tail, on_proc.
  assert (tcbs (p_sched (k_proc s4)) !! t = Some y0) as Hty by apply lookup_insert_eq.
  assert (p_procs (k_proc s4) !! p = Some c1) as Hpc by apply lookup_insert_eq.
  assert (p_threads (k_proc s4) !! t = Some (b_more (child_block t i tid blk))) as Htm by apply lookup_insert_eq.
  destruct (add_thread_ok (k_proc s4) _ _ _ p c1 t y0 _ ∅ (1 + n) Hty Hpc eq_refl Htm Hh K1) as [[-> F1]|(h5 & -> & Hh5 & Hr5)];
    [rewrite map_size_empty; lia|exact Hr|left; split; [done|by left]|]. cbn [res_bind]. rewrite insert_empty in Hh5. change (thread_id (b_more (child_block t i tid blk))) with tid in Hh5.
  set (s5 := with_proc s4 _). assert (p_procs (k_proc s5) !! p = Some c1) as Hpc5 by apply lookup_insert_eq.
  destruct (add_new_process_ok s5 _ _ _ p c1 PM n Hpc5 Hml Hh5 K2) as [[-> F1]|(h6 & -> & Hh6 & Hr6)]; [|exact Hr5|left; split; [done|by left]|].
  { pose proof (size_keys PM PROCESS_NUM (ki_keys _ _ _ _ _ _ _ _ _ _ _ _ _ _ _ _ _ Hk)) as Hs. change PROCESS_NUM with 1024 in Hs. lia. }
  cbn [res_bind]. set (s6 := with_map_lock _ _). unfold get_more. change (p_threads (k_proc s6)) with (p_threads (k_proc s4)). rewrite Htm. cbn [res_bind].
  rewrite (get_pcb_ok (k_proc s6) p c1 Hpc5). cbn [res_bind]. change (user_stack_index (b_more (child_block t i tid blk))) with (user_stack_index (b_more blk)).
  unfold USER_PRCOESS_THREDS_MAX in *. rewrite u32_small by lia. change (user_thread_stack_indexes c1) with b.
  destruct (set_bit_ok b Hw (user_stack_index (b_more blk))) as (b2 & -> & Hw2 & Hb2 & Hbit2); [lia|]. cbn [res_bind].
  set (q7 := set_pcb (k_proc s6) p (with_indexes c1 b2)). set (s7 := with_proc s6 q7).
  pose proof (new_thread p t i tid Ho Ht0) as Hnew. set (y1 := new_tcb p t i tid) in *.
  assert (p_sched (k_proc s7) = with_thread (p_sched (k_proc s)) t y1) as Ex.
  { change (p_sched (k_proc s7)) with (set_tcb (with_thread (p_sched (k_proc s)) t y0) t y1). unfold with_thread, set_tcb, with_tcbs. cbn. by rewrite insert_insert_eq. }
  change (k_proc s7) with q7 in Ex. change (k_proc s7) with q7. rewrite (get_tcb_ok (p_sched q7) t y1) by (rewrite Ex; apply lookup_insert_eq). cbn [res_bind].
  unfold on_sched. rewrite Ex. destruct (newcomer_ready idle (p_sched (k_proc s)) V ct y t y1 (cu_core _ _ _ _ _ _ _ Hcur) Hnew) as (x & -> & Hco & Hcpu & Htb).
  { change (status y1) with (status (b_tcb blk)). by rewrite b_tcb_status. }
  cbn [res_bind]. rewrite (get_pcb_ok _ p (with_indexes c1 b2)) by apply lookup_insert_eq. cbn [res_bind].
  right. exists h6, x, b2. split.
  - change (pid (with_indexes c1 b2)) with id. do 2 f_equal. unfold fork_state, s7, q7, s6, s5, s4, joined_state, made_state, created, forked, with_proc, with_kbase, set_pcb, with_procs, put_block, with_slots.
    cbn. by rewrite !insert_insert_eq.
  - split; try done. split; [done|]. split; [by rewrite Hb2|]. intros k Hk0. rewrite Hbit2, Hbit by done. case_decide; [by rewrite bool_decide_true|by rewrite bool_decide_false].
Qed.

(** ** The invariant after the fork *)
Section AFTER.
Context (p id e : Z) (h : H) (v : vm) (A' : space) (b : bitmap_t) (pool : id_pool_t) (M : gmap Z Z) (nm : list Z).
Context (t : Z) (h2 : H) (tids : id_pool_t) (v2 : vm) (slots : bitmap_t) (i tid : Z) (A2 : space) (h3 : H) (x : sched) (b2 : bitmap_t).
Let s4 := joined_state p id e h v b pool nm t h2 tids v2 slots i tid.
Hypothesis Hm : made p id e h v A' b pool M.
Hypothesis Hj : joined p id v A' M s4 v2 A2 i tid t h2.
Hypothesis Hf : finished p t i id tid M h3 x b2.
Let c2 := new_pcb id par b2 false (PAGE_SIZE * e).
Let s' := fork_state p t i tid h3 x v2 c2 pool tids slots nm.
Let V' := made_ready V [(schedule_node t, t)].
Let L' := <[t := sizeof_tcb]> (<[p := sizeof_pcb]> L).
Let Mf := fork_tables p t id tid M.

Lemma after_newcomer : newcomer (p_sched (k_proc s)) t (new_tcb p t i tid).
Proof. destruct (jn_thread _ _ _ _ _ _ _ _ _ _ _ _ Hj) as (? & ? & _). by apply new_thread. Qed.

Lemma after_new : P !! p = None /\ tcbs (p_sched (k_proc s)) !! t = None.
Proof.
  split; [|apply (nc_none _ _ _ after_newcomer)]. destruct (md_block _ _ _ _ _ _ _ _ _ Hm) as (_ & HpL & _). by apply block_new.
Qed.

Lemma after_other u : u <> t -> tcbs x !! u = tcbs (p_sched (k_proc s)) !! u.
Proof. intros Hu. rewrite (fn_tcbs _ _ _ _ _ _ _ _ _ Hf). by apply lookup_insert_ne. Qed.
Lemma after_kept u z : tcbs (p_sched (k_proc s)) !! u = Some z -> tcbs x !! u = Some z.
Proof. intros Hz. rewrite after_other; [done|]. intros ->. destruct after_new as [_ E]. congruence. Qed.

Lemma after_dead : V' !! dead_tasks = V !! dead_tasks /\ V' !! dead_cv = V !! dead_cv.
Proof. by split; apply made_ready_ne. Qed.

Lemma after_threads : threads_inv (k_base s') A2 T (<[t := (i, tid)]> own) ({[tid]} ∪ ids) ({[i]} ∪ S) L' Mf Ls.
Proof.
  pose proof (jn_inv _ _ _ _ _ _ _ _ _ _ _ _ Hj) as Hi. pose proof (th_slots _ _ _ _ _ _ _ _ _ Hi) as [(_ & _ & _) _].
  eapply (threads_change (k_base s4)); [exact Hi|apply Hi|apply Hi|done|done|done|done|done|apply Hf|done|].
  intros u j k Hu. apply (thread_ok_sched _ _ V'); [done|done| |].
  - intros z Hz. change (tcbs (p_sched (t_base (k_base s'))) !! u) with (tcbs x !! u).
    destruct (decide (u = t)) as [->|Hne].
    + change (tcbs (p_sched (t_base (k_base s4))) !! t) with ((<[t := b_tcb (child_block t i tid blk)]> (tcbs (p_sched (k_proc s)))) !! t) in Hz.
      rewrite lookup_insert_eq in Hz. injection Hz as <-. rewrite (fn_tcbs _ _ _ _ _ _ _ _ _ Hf), lookup_insert_eq. eexists. done.
    + change (tcbs (p_sched (t_base (k_base s4))) !! u) with ((<[t := b_tcb (child_block t i tid blk)]> (tcbs (p_sched (k_proc s)))) !! u) in Hz.
      rewrite lookup_insert_ne in Hz by done. exists z. by rewrite after_other.
  - destruct (fn_core _ _ _ _ _ _ _ _ _ Hf) as [[l [Hq _ _ _]] _ _ _ _ _]. exact Hq.
Qed.

Lemma after_asleep n' u z : asleep idle (p_sched (k_proc s)) V n' u z -> asleep idle x V' n' u z.
Proof.
  intros Hs. pose proof Hs as [Hz Hzn Hu _ _]. pose proof (cu_core _ _ _ _ _ _ _ Hcur) as Hco. apply (asleep_other idle (p_sched (k_proc s)) x V); [done| |].
  - rewrite Hz. by apply after_kept.
  - destruct (core_ready _ _ _ _ _ Hco) as [l0 El]. eapply made_ready_unqueued; [exact El|exact Hu|]. cbn. rewrite list_elem_of_singleton, <- Hzn.
    apply (nc_apart _ _ _ after_newcomer u z Hz).
Qed.

Lemma after_family : family idle (k_proc s') V' (cn, ct) Mf D Q F.
Proof.
  pose proof Hm as [[Eid [Hid Hidn]] (Hp0 & HpL & Hcl) _ _ _ _ _ HM _]. pose proof Hj as [(Ho & Ht0 & _ & _) _ _ _ _ _].
  destruct (fork_tables_lookup p t id tid M HpL Hcl HM) as (_ & _ & K3 & K4 & K5 & K6 & K7 & K8 & K9 & K10). destruct after_new as [HpP Htn].
  pose proof Hfam as [f1 f2 f3 f4 f5 f6 f7 f8 f9]. destruct after_dead as [Vd Vc]. destruct parent_facts as (Hc & Ha & _).
  assert (forall q d, P !! q = Some d -> pid d <> id) as Hfr.
  { intros q d Hq E. apply Hidn, (ki_pids _ _ _ _ _ _ _ _ _ _ _ _ _ _ _ _ _ Hk). by exists q, d. }
  assert (forall u r, F !! u = Some r -> r <> p) as HF.
  { intros u r Hr ->. destruct (ki_calls _ _ _ _ _ _ _ _ _ _ _ _ _ _ _ _ _ Hk u p Hr) as (d & Hd & _). unfold P in HpP. congruence. }
  change PROCESS_NUM with 1024 in Hid. split.
  - assert (crt_thread_node x = cn) as Ecn.
    { destruct (fn_cpu _ _ _ _ _ _ _ _ _ Hf) as (E1 & _). rewrite E1. apply Hcur. }
    change (sched_rel idle x (V', (cn, ct))). rewrite <- Ecn. eapply core_rel; [apply Hf|].
    destruct (fn_cpu _ _ _ _ _ _ _ _ _ Hf) as (_ & _ & _ & _ & E5 & _). rewrite E5. apply Hcur.
  - by rewrite Vd, Vc.
  - exists L', Ls. split; [apply Hf|]. apply (ki_dead _ _ _ _ _ _ _ _ _ _ _ _ _ _ _ _ _ Hk).
  - apply (tree_ok_add P Ms Mf D (p_init (k_proc s)) p par id c2 M Htree HpP ltac:(lia) ltac:(lia) Hfr Ha ltac:(done)); try done.
    intros q Hq. destruct (ki_block _ _ _ _ _ _ _ _ _ _ _ _ _ _ _ _ _ Hk q Hq) as [HqL _]. exact (cl_block _ _ _ _ _ Hcl q _ HqL).
  - assert (p <> 0) as Hpz by lia. eapply (waits_ok_add P p c2 HpP Hpz idle); [exact f5|done|done|done|exact HF|exact after_asleep|].
    intros u z Hz. exists z. split; [by apply after_kept|done].
  - set (y2 := with_queue (with_status (new_tcb p t i tid) TASK_READY) ready_tasks).
    assert (p <> 0) as Hpz by lia. eapply (threads_ok_add P Ms Mf p par id c2 HpP Hpz ltac:(done) (p_sched (k_proc s)) x V V' _ t y2 (b_more (child_block t i tid blk)));
      [exact f6|exact Htn|rewrite (fn_tcbs _ _ _ _ _ _ _ _ _ Hf); apply lookup_insert_eq|done|exact after_other|exact Vd| | |exact K3|exact K10].
    + intros (d & m & Hd & Hin). pose proof (cu_core _ _ _ _ _ _ _ Hcur) as [[l [Hq _ _ _]] _ _ _ _ _].
      destruct (qi_member _ _ _ _ Hq dead_tasks d m t Hd Hin) as (z & Hz & _). congruence.
    + intros u z Hz Hzp. destruct (th_live _ _ _ _ _ f6 u z Hz) as [|(d & Hd & _)]; [done|]. rewrite Hzp in Hd. unfold P in HpP. congruence.
  - intros q d any Hq Hs. cbn in Hq. apply lookup_insert_Some in Hq as [[<- <-]|[Hne Hq]]; [done|]. by apply (f7 q d).
  - intros q d Hq. cbn in Hq. apply lookup_insert_Some in Hq as [[<- <-]|[Hne Hq]]; [done|]. by apply (f8 q d).
  - cbn. rewrite map_size_insert_None by done. pose proof (processes_bound _ _ _ _ _ _ _ _ _ _ _ _ _ _ _ _ _ Hk). lia.
Qed.

Lemma after_root : root v2 = root (t_vm (k_base s)).
Proof. destruct (md_clone _ _ _ _ _ _ _ _ _ Hm) as (_ & _ & _ & <-). by rewrite (ks_same _ _ _ _ _ _ (jn_step _ _ _ _ _ _ _ _ _ _ _ _ Hj)). Qed.

Lemma after_inv : kernel_inv idle s' A2 T (<[t := (i, tid)]> own) ({[tid]} ∪ ids) ({[i]} ∪ S) L' Mf Ls V' (cn, ct) D Q F ({[id]} ∪ pids) (<[id := p]> PM).
Proof.
  pose proof Hm as [[Eid [Hid Hidn]] (Hp0 & HpL & Hcl) (He & C & _) [[O1 O2 O3] _] _ [Hpl Hplt] _ HM _]. pose proof Hj as [(Ho & Ht0 & _ & _) HtL _ Hst _ _].
  destruct (fork_tables_lookup p t id tid M HpL Hcl HM) as (_ & _ & _ & _ & _ & _ & K7 & _). destruct after_new as [HpP Htn].
  pose proof Hk as [k1 k2 k3 k4 k5 k6 k7 k8 k9 k10 k11 k12 k13 k14 k15]. pose proof (ks_space _ _ _ _ _ _ Hst) as EA. destruct parent_facts as (Hc & Ha & _).
  assert (roots A2 = {[e]} ∪ roots A) as Er by (rewrite EA; apply (cd_roots _ _ _ _ C)).
  assert (forall q, is_Some (<[p := c2]> P !! q) -> L' !! q = Some sizeof_pcb /\ apart q sizeof_pcb processes_map sizeof_table) as Hbl.
  { intros q [d Hq]. apply lookup_insert_Some in Hq as [[<- _]|[Hne Hq]].
    - split; [|destruct (cl_table _ _ _ _ _ Hcl processes_map ltac:(destruct k9; by eexists)); unfold apart; lia].
      unfold L'. rewrite lookup_insert_ne, lookup_insert_eq; [done|]. intros ->. by rewrite lookup_insert_eq in HtL.
    - destruct (k6 q ltac:(by exists d)) as [HqL Hap]. split; [|done]. unfold L'. rewrite !lookup_insert_ne; [done|by intros ->|].
      intros ->. rewrite lookup_insert_ne in HtL by done. congruence. }
  split.
  - apply after_threads.
  - apply after_family.
  - done.
  - rewrite EA. split; [exact O1|exact O2|exact O3].
  - intros u. change (tcbs (p_sched (k_proc s'))) with (tcbs x). rewrite (fn_tcbs _ _ _ _ _ _ _ _ _ Hf). rewrite !lookup_insert_is_Some, k5. done.
  - exact Hbl.
  - split; [exact Hpl|exact Hplt].
  - intros k. rewrite elem_of_union, elem_of_singleton, k8. split.
    + intros [->|(q & d & Hq & E)]; [exists p, c2; split; [apply lookup_insert_eq|done]|]. exists q, d. split; [|done]. change (<[p := c2]> P !! q = Some d). rewrite lookup_insert_ne; [done|]. intros ->. unfold P in HpP. congruence.
    + intros (q & d & Hq & E). change (<[p := c2]> P !! q = Some d) in Hq. apply lookup_insert_Some in Hq as [[<- <-]|[Hne Hq]]; [by left|right; by exists q, d].
  - split; [exact K7|done].
  - intros q d Hq. change (<[p := c2]> P !! q = Some d) in Hq. apply lookup_insert_Some in Hq as [[<- <-]|[Hne Hq]]; [apply lookup_insert_eq|]. rewrite lookup_insert_ne; [by apply k10|].
    intros E. apply Hidn, k8. by exists q, d.
  - intros k q. rewrite lookup_insert_Some. intros [[<- <-]|[_ Hq]]; [done|by eapply k11].
  - intros q d Hq. change (<[p := c2]> P !! q = Some d) in Hq. rewrite Er. apply lookup_insert_Some in Hq as [[<- <-]|[Hne Hq]]; [exists e; split; [done|set_solver]|].
    destruct (k12 q d Hq) as (g & E & Hg). exists g. split; [done|set_solver].
  - intros q1 d1 q2 d2 H1 H2 E. change (<[p := c2]> P !! q1 = Some d1) in H1. change (<[p := c2]> P !! q2 = Some d2) in H2. apply lookup_insert_Some in H1 as [[<- <-]|[N1 H1]], H2 as [[<- <-]|[N2 H2]]; [done| | |by eapply k13].
    + destruct (k12 q2 d2 H2) as (g & Eg & Hg). exfalso. apply He. rewrite Eg in E. cbn in E. unfold PAGE_SIZE in E. replace e with g by lia. done.
    + destruct (k12 q1 d1 H1) as (g & Eg & Hg). exfalso. apply He. rewrite Eg in E. cbn in E. unfold PAGE_SIZE in E. replace e with g by lia. done.
  - destruct (fn_cpu _ _ _ _ _ _ _ _ _ Hf) as (_ & _ & _ & _ & E5 & _). intros d Hd. change (page_dir (p_sched (k_proc s'))) with (page_dir x) in Hd. rewrite E5 in Hd.
    change (<[p := c2]> P !! page_dir (p_sched (k_proc s)) = Some d) in Hd. change (t_vm (k_base s')) with v2. rewrite after_root. apply k14. rewrite lookup_insert_ne in Hd; [done|].
    intros E. rewrite <- (cu_dir _ _ _ _ _ _ _ Hcur) in E. change (process y) with par in E. rewrite <- E in Hc. congruence.
  - intros u q Hq. destruct (k15 u q Hq) as (d & Hd & R). exists d. split; [|done]. change (<[p := c2]> P !! q = Some d). rewrite lookup_insert_ne; [done|]. intros ->. unfold P in HpP. congruence.
Qed.
End AFTER.

(** [process_fork] as a whole. *)
Lemma process_fork_ok : (free_id PROCESS_NUM pids = None /\ process_fork link fresh s = Err Fault) \/
  (process_fork link fresh s = Err Panic /\ fork_fails) \/
  exists p id e h v A' b pool M nm t h2 tids v2 slots i tid A2 h3 x b2,
    let s' := fork_state p t i tid h3 x v2 (new_pcb id par b2 false (PAGE_SIZE * e)) pool tids slots nm in
    process_fork link fresh s = Ok (id, s') /\ made p id e h v A' b pool M /\
    joined p id v A' M (joined_state p id e h v b pool nm t h2 tids v2 slots i tid) v2 A2 i tid t h2 /\ finished p t i id tid M h3 x b2 /\
    kernel_inv idle s' A2 T (<[t := (i, tid)]> own) ({[tid]} ∪ ids) ({[i]} ∪ S) (<[t := sizeof_tcb]> (<[p := sizeof_pcb]> L)) (fork_tables p t id tid M) Ls
      (made_ready V [(schedule_node t, t)]) (cn, ct) D Q F ({[id]} ∪ pids) (<[id := p]> PM) /\
    root v2 = root (t_vm (k_base s)) /\ P !! p = None /\ fork_tables p t id tid M !! threads_at p = Some {[tid := t]}.
Proof.
  destruct fork_made as [?|[?|(p & id & e & h & v & A' & b & pool & M & nm & E1 & Hm)]]; [by left|right; by left|].
  destruct (fork_joined p id e h v A' b pool M nm Hm) as [[E2 F2]|(t & h2 & tids & v2 & slots & i & tid & A2 & E2 & Hj)]; [right; left; split; [congruence|done]|].
  destruct (fork_finished p id e h v A' b pool M nm t h2 tids v2 slots i tid A2 Hm Hj) as [[E3 F3]|(h3 & x & b2 & E3 & Hf)]; [right; left; split; [congruence|done]|].
  right. right. exists p, id, e, h, v, A', b, pool, M, nm, t, h2, tids, v2, slots, i, tid, A2, h3, x, b2. cbv zeta.
  split; [rewrite E1, E2; exact E3|]. split; [done|]. split; [done|]. split; [done|]. split; [by eapply after_inv|]. split; [by eapply after_root|].
  destruct (md_block _ _ _ _ _ _ _ _ _ Hm) as (_ & HpL & Hcl). split; [by apply block_new|].
  apply (fork_tables_lookup p t id tid M HpL Hcl (md_table _ _ _ _ _ _ _ _ _ Hm)).
Qed.
End FORK.
