(* ===== verification/SpawnProps.v ===== *)
(** The properties of the creation of processes, with an instance. *)
From S2P Require Import Prelude BitMap LinkedList Memory Page PageMem PageSpec PageOps PageMap PageCow PageClone PageUser PageRefine PageDemo KernelMem Sched SchedSpec SchedProps Switch SwitchSpec Containers Process ProcessSpec ProcessExit Thread ThreadSpec ThreadProps Spawn SpawnSpec SpawnFork.

Section PROPS.
Context {H : Type} {HC : Containers H} {HL : ContainersLaws H}.

(** What an address space sees of its memory does not change with the kernel's pages. *)
Lemma kstep_view s A T s' A' U d va : kstep s A T s' A' U -> PageUser.view A' (pm s') d va = PageUser.view A (pm s) d va.
Proof.
  intros K. unfold PageUser.view. rewrite (ks_space _ _ _ _ _ _ K). cbn. destruct (pages A !! (d, va / 4096)) as [[f rw]|] eqn:E; [|done].
  apply (ks_kept _ _ _ _ _ _ K d (va / 4096) f rw E). apply Z.mod_pos_bound. lia.
Qed.

(** C11: [process_fork] makes a process with the smallest free id, a child of the one that calls, and in it
    one thread, which it makes ready.  The child's address space is a copy of the parent's: every
    byte of its memory is that of the parent, and no other address space changes.  When the thread is
    switched to, it returns from the same system call with the same registers and the result 0, while the
    parent gets the child's id.  The child owns the index of its user stack.  The tree of processes, the
    queues, the threads with their stacks, the pools and the tables stay consistent.  It fails only
    when the heap panics, or ids, stack slots or frames are used up; without an id for the
    process it stores through [NULL]. *)
Theorem process_fork_correct (link : entries) fresh (idle : Z * Z) (s : kstate H) A T own ids S L Ms Ls V cn ct D Q F pids PM y b i0 id0 words n
  (Hk : kernel_inv idle s A T own ids S L Ms Ls V (cn, ct) D Q F pids PM) (Hy : tcbs (p_sched (k_proc s)) !! ct = Some y)
  (Ho : own !! ct = Some (i0, id0)) (Hb : get_block (k_base s) ct = Ok b) (Hidx : 0 <= user_stack_index (b_more b) < USER_PRCOESS_THREDS_MAX)
  (He : word (at_syscall_fork_exit link)) (Hfr : fresh 512 = Some words /\ length words = 128%nat)
  (Hroom : ct_room (p_tabs (k_proc s)) (8 + n)) (Hmax : 4096 < ct_max (H:=H)) :
  let P := p_procs (k_proc s) in let d := root (t_vm (k_base s)) in
  (process_fork link fresh s = Err Fault /\ free_id PROCESS_NUM pids = None) \/
  outcome (process_fork link fresh s)
    (heap_fails (H:=H) \/ few 769 A ∅ \/ free_id 2048 ids = None \/ free_id 21845 S = None)
    (fun '(id, s') => exists p t e i tid c A' Ms' m,
      free_id PROCESS_NUM pids = Some id /\ free_id 2048 ids = Some tid /\ free_id 21845 S = Some i /\ P !! p = None /\ own !! t = None /\ e ∉ roots A /\
      kernel_inv idle s' A' T (<[t := (i, tid)]> own) ({[tid]} ∪ ids) ({[i]} ∪ S) (<[t := sizeof_tcb]> (<[p := sizeof_pcb]> L)) Ms' Ls
        (made_ready V [(schedule_node t, t)]) (cn, ct) D Q F ({[id]} ∪ pids) (<[id := p]> PM) /\
      p_procs (k_proc s') = <[p := c]> P /\ pid c = id /\ parent c = process y /\ pstatus c = PROCESS_NORMAL /\ page_directory_entries c = PAGE_SIZE * e /\
      wf (user_thread_stack_indexes c) /\ (forall k, 0 <= k -> bit (user_thread_stack_indexes c) k = bool_decide (k = user_stack_index (b_more b))) /\
      Ms' !! threads_at p = Some {[tid := t]} /\
      m = pm (t_vm (k_base s')) /\ root (t_vm (k_base s')) = d /\
      (forall x va, PageUser.view A' m x va = if decide (x = e) then PageUser.view A (pm (t_vm (k_base s))) d va else PageUser.view A (pm (t_vm (k_base s))) x va) /\
      (exists z, tcbs (p_sched (k_proc s')) !! t = Some z /\ process z = p /\ status z = TASK_READY /\ kernel_stack z = stack_of i) /\
      (forall u, u <> t -> tcbs (p_sched (k_proc s')) !! u = tcbs (p_sched (k_proc s)) !! u) /\
      returns_zero (kflat A (pm (t_vm (k_base s)))) (kflat A' m) (stack_top i0) (stack_top i - 104) (stack_top i) (at_syscall_fork_exit link)).
Proof.
  intros P d. destruct (family_current idle (k_proc s) V cn ct Ms D Q F (ki_family _ _ _ _ _ _ _ _ _ _ _ _ _ _ _ _ _ Hk)) as (y' & c & Hc).
  pose proof (cu_core _ _ _ _ _ _ _ Hc) as [_ _ [Hy' _] _ _ _]. assert (y' = y) as -> by congruence.
  destruct (process_fork_ok link fresh idle s A T own ids S L Ms Ls V cn ct D Q F pids PM Hk y c b i0 id0 words n Hc Ho Hb Hidx He Hfr Hroom Hmax)
    as [[F1 E]|[F1|(p & id & e & h & v & A1 & b1 & pool & M & nm & t & h2 & tids & v2 & slots & i & tid & A2 & h3 & x & b2 & E & Hm & Hj & Hf & Hinv & Er & HpP & HT)]];
    [left; by split|right; by left|right; right].
  pose proof Hm as [[X1 X2] _ [X6 [X7 [X8 X9]]] _ Hi3 _ _ _ _]. pose proof Hj as [[Y1 [Y2 [Y3 Y4]]] _ _ Y6 Y7 _]. pose proof Hf as [_ _ Z3 _ _ [Z6 [Z7 Z8]]].
  eexists. split; [exact E|]. cbv beta iota. exists p, t, e, i, tid, (new_pcb id (process y) b2 false (PAGE_SIZE * e)), A2. eexists _, _.
  do 6 (split; [done|]). split; [exact Hinv|]. do 7 (split; [done|]). split; [exact HT|]. split; [reflexivity|]. split; [exact Er|]. split; [|split; [|split]].
  - intros z va. etrans; [exact (kstep_view v A1 T v2 A2 _ z va Y6)|]. eapply cloned_view; [apply (ki_threads _ _ _ _ _ _ _ _ _ _ _ _ _ _ _ _ _ Hk)|exact X8|exact X7].
  - eexists. change (tcbs (p_sched (k_proc _))) with (tcbs x). split; [rewrite Z3; apply lookup_insert_eq|done].
  - intros u Hu. change (tcbs x !! u = tcbs (p_sched (k_proc s)) !! u). rewrite Z3. by apply lookup_insert_ne.
  - intros u dsw sp k Hu Hds Hw. apply (Y7 u dsw sp k Hu Hds). eapply words_ext; [exact Hw|]. intros z. by apply (kept_kflat A A1); [|apply (cd_kpages _ _ _ _ X7)].
Qed.
End PROPS.

(** ** A machine with one process, over the finite maps of [Maps] *)
Import (hints) Maps.

Definition lone_pcb : pcb_t := mk_pcb 0 0 PROCESS_NORMAL (mk_bitmap [] false 0 0) false 0 0 0 0 (PAGE_SIZE * 257) LOCKED_NO.
Definition lone_sched : sched :=
  mk_sched {[schedule_node 2000 := mk_node 2000 0 0]} {[2000 := b_tcb one_block]}
    (<[ready_tasks := mk_list 0 0 0]> (<[dead_tasks := mk_list 0 0 0]> (<[dead_cv := mk_list 0 0 0]> ∅)))
    (schedule_node 2000) (schedule_node 2000) false true false 20000 0 LOCKED_NO.
Definition lone_view : view := <[ready_tasks := []]> (<[dead_tasks := []]> (<[dead_cv := []]> ∅)).
Definition lone_tables : gmap Z (gmap Z Z) :=
  <[20044 := {[0 := 2000]}]> (<[20080 := ∅]> (<[20092 := ∅]> (<[processes_map := {[0 := 20000]}]> ∅))).
Definition lone_blocks : gmap Z Z := <[2000 := sizeof_tcb]> (<[20000 := sizeof_pcb]> ∅).
Definition lone_lists : gmap Z (list Z) := {[dead_processes := []]}.
Definition lone : kstate Maps.store :=
  mk_kstate
    (mk_tstate (mk_pstate lone_sched (Maps.mk_store lone_blocks lone_tables lone_lists) {[20000 := lone_pcb]} {[2000 := b_more one_block]} ∅ (fun _ => 0) demo 20000)
       {[2000 := b_rest one_block]} (mk_pool 2048 32768 2048 (one_bit 64 2048) LOCKED_NO) (one_bit 683 21845) LOCKED_NO)
    (mk_pool 1024 16384 1024 (one_bit 32 1024) LOCKED_NO) LOCKED_NO ∅.

Lemma lone_qinv : qinv (s_nodes lone_sched) (tcbs lone_sched) (queues lone_sched) lone_view.
Proof.
  split.
  - intros q l Hl. unfold lone_view in Hl. entries Hl; eexists; (split; [by vm_compute|apply dll_empty]).
  - intros q1 q2 l1 l2 x Hl1 _ Hx1. unfold lone_view in Hl1. entries Hl1; by apply not_elem_of_nil in Hx1.
  - intros t c Ht. cbn in Ht. apply lookup_singleton_Some in Ht as [<- <-]. split; [done|]. split; [done|]. eexists. by vm_compute.
  - intros q l n t Hl Hin. unfold lone_view in Hl. entries Hl; by apply not_elem_of_nil in Hin.
  - by vm_compute.
Qed.

Lemma lone_unqueued n : unqueued lone_view n.
Proof. intros q l Hl. unfold lone_view in Hl. entries Hl; apply not_elem_of_nil. Qed.

Lemma lone_rel : sched_rel (schedule_node 2000, 2000) lone_sched (lone_view, (schedule_node 2000, 2000)).
Proof.
  split; [|done|done| | |done].
  - exists []. split; [apply lone_qinv| | |].
    + split; [done|]. by intros n t ?%not_elem_of_nil.
    + eexists. by vm_compute.
    + split; [eexists; by vm_compute|apply lone_unqueued].
  - split; [apply lone_unqueued|]. eexists. by vm_compute.
  - intros q l n t Hl _ Hin. cbn in Hl. unfold lone_view in Hl. entries Hl; by apply not_elem_of_nil in Hin.
Qed.

Lemma lone_thread t c : tcbs lone_sched !! t = Some c -> t = 2000 /\ c = b_tcb one_block.
Proof. intros Ht. cbn in Ht. by apply lookup_singleton_Some in Ht as [<- <-]. Qed.

Lemma lone_only (p : Z) (c : pcb_t) : ({[20000 := lone_pcb]} : gmap Z pcb_t) !! p = Some c -> p = 20000 /\ c = lone_pcb.
Proof. by intros [<- <-]%lookup_singleton_Some. Qed.

Lemma lone_family : family (schedule_node 2000, 2000) (k_proc lone) lone_view (schedule_node 2000, 2000) lone_tables [] (fun _ _ => []) ∅.
Proof.
  split.
  - exact lone_rel.
  - split; eexists; by vm_compute.
  - eexists _, _. split; [reflexivity|by vm_compute].
  - split.
    + exists lone_pcb. by vm_compute.
    + intros p c [-> ->]%lone_only. split; [done|]. cbn. split; [lia|done].
    + by intros p1 c1 p2 c2 [-> _]%lone_only [-> _]%lone_only.
    + by intros p q [c [-> _]%lone_only] [d [-> _]%lone_only].
    + intros q c [-> ->]%lone_only _. by left.
    + intros p (c & [-> ->]%lone_only & _). exists ∅. split; [by vm_compute|]. intros k q. rewrite lookup_empty. split; [done|].
      intros (d & [-> ->]%lone_only & _ & E & _). done.
    + intros p (c & [-> ->]%lone_only & _). exists ∅. split; [by vm_compute|]. intros k q. rewrite lookup_empty. split; [done|].
      intros [(d & [-> ->]%lone_only & _ & E & _) _]. done.
    + by intros q ?%not_elem_of_nil.
    + apply NoDup_nil_2.
  - split.
    + intros p c any [-> ->]%lone_only. by destruct any.
    + by intros p any a n t ?%not_elem_of_nil.
    + by intros p1 b1 p2 b2 w1 w2 ?%not_elem_of_nil.
    + intros p b. apply NoDup_nil_2.
    + intros t p Ht. by rewrite lookup_empty in Ht.
    + by intros p c [-> ->]%lone_only.
  - split.
    + intros t c [-> ->]%lone_thread. right. exists lone_pcb. by vm_compute.
    + intros p (c & [-> ->]%lone_only & _). exists {[0 := 2000]}. split; [by vm_compute|]. split.
      * intros k t [<- <-]%lookup_singleton_Some. eexists _, _. by vm_compute.
      * intros t c [-> ->]%lone_thread _ _. eexists. by vm_compute.
  - done.
  - by intros p c [-> ->]%lone_only.
  - by vm_compute.
Qed.

Lemma lone_ok : kernel_inv (schedule_node 2000, 2000) lone demo_space ∅ {[2000 := (0, 0)]} {[0]} {[0]} lone_blocks lone_tables lone_lists lone_view
  (schedule_node 2000, 2000) [] (fun _ _ => []) ∅ {[0]} {[0 := 20000]}.
Proof.
  split.
  - eapply (threads_change one_thread); [exact one_thread_ok|exact vm_demo_rel|exact vm_demo_ready|done|done|done|done|done|reflexivity| |].
    + intros t [<- _]%lookup_singleton_Some. by vm_compute.
    + intros t i id [<- [= <- <-]]%lookup_singleton_Some _. eexists _, _. by vm_compute.
  - exact lone_family.
  - by vm_compute.
  - exact demo_ok.
  - intros t. cbn. rewrite !lookup_singleton_is_Some. done.
  - intros p [c [-> _]%lone_only]. split; [by vm_compute|]. right. by vm_compute.
  - split; [apply one_pool; [lia|done]|done].
  - intros id. rewrite elem_of_singleton. split; [intros ->; by exists 20000, lone_pcb|]. intros (p & c & [-> ->]%lone_only & <-). done.
  - split; by vm_compute.
  - intros p c [-> ->]%lone_only. by vm_compute.
  - intros k q [<- _]%lookup_singleton_Some. by vm_compute.
  - intros p c [-> ->]%lone_only. exists 257. split; [done|]. by vm_compute.
  - by intros p1 c1 p2 c2 [-> _]%lone_only [-> _]%lone_only.
  - intros c [_ ->]%lone_only. by vm_compute.
  - intros t p Ht. by rewrite lookup_empty in Ht.
Qed.

Lemma demo_many : ~ few 769 demo_space ∅.
Proof.
  intros (l & Hl & Hf). assert (Forall (fun f => free demo_space ∅ f) (seqZ 4000 1000)) as HF.
  { apply Forall_forall. intros f Hin%elem_of_seqZ. split; [lia|]. rewrite uses_empty. unfold refs.
    demo_uses. rewrite !decide_False by lia. change (kern demo_space f) with (demo_kern f). unfold demo_kern. repeat (case_match; [lia|]). lia. }
  assert (length (seqZ 4000 1000) <= length l)%nat as Hn.
  { apply submseteq_length, NoDup_submseteq; [apply NoDup_seqZ|]. intros f Hin. apply Hf. by apply (proj1 (Forall_forall _ _) HF). }
  rewrite length_seqZ in Hn. lia.
Qed.

Lemma process_fork_correct_witness : exists p t s', process_fork demo_entries (fun _ => Some (replicate 128 0)) lone = Ok (1, s') /\
  p ∉ dom (p_procs (k_proc lone)) /\ (exists z, tcbs (p_sched (k_proc s')) !! t = Some z /\ process z = p /\ status z = TASK_READY /\ kernel_stack z = stack_of 1) /\
  exists A', returns_zero (kflat demo_space (pm demo)) (kflat A' (pm (t_vm (k_base s')))) (stack_top 0) (stack_top 1 - 104) (stack_top 1) 3221229632.
Proof.
  destruct (process_fork_correct demo_entries (fun _ => Some (replicate 128 0)) (schedule_node 2000, 2000) lone demo_space ∅ {[2000 := (0, 0)]} {[0]} {[0]} lone_blocks
    lone_tables lone_lists lone_view (schedule_node 2000) 2000 [] (fun _ _ => []) ∅ {[0]} {[0 := 20000]} (b_tcb one_block) one_block 0 0 (replicate 128 0) 0%nat lone_ok)
    as [[_ E]|[[_ [E|[E|[E|E]]]]|([q s'] & E & Hr)]];
    [reflexivity|reflexivity|reflexivity|by vm_compute|unfold word; cbn; lia|done|done|done|by vm_compute in E|by apply Maps.maps_hold in E|by destruct (demo_many E)|by vm_compute in E|by vm_compute in E|].
  destruct Hr as (p & t & e & i & tid & c & A' & Ms' & m & Eq & Et & Ei & Hp & _ & _ & _ & _ & _ & _ & _ & _ & _ & _ & _ & -> & _ & _ & Hz & _ & Hret).
  assert (q = 1) as -> by (by vm_compute in Eq; congruence). assert (i = 1) as -> by (by vm_compute in Ei; congruence).
  exists p, t, s'. split; [exact E|]. split; [by apply not_elem_of_dom|]. split; [exact Hz|]. exists A'. exact Hret.
Defined.
